(* ===== verification/_CoqProject ===== *)
-Q . S2P
Prelude.v
Wire.v
TagInfo.v
TagLegacy.v
CryptoTypes.v
TagParams.v
TagGen.v
TagBegin.v
Crypto.v
Errors.v
Codec.v
CborRef.v
WireCodec.v
WireSafe.v
LegacyMsg.v
KeyblobLegacy.v
EcKeys.v
KeyTraits.v
Asn1.v
Cert.v
Keyblob.v
TaState.v
Keys.v
DerRef.v
Fuzz.v
Rkp.v
Operation.v
NoOp.v
OperationSpec.v
Sessions.v
Dispatch.v
HalTypes.v
HalEnv.v
Hal.v
HalSpec.v
Boring.v
BoringSpec.v
CryptoRef.v
Cddl.v
CddlSpec.v
UnitTests.v
Conformance.v
