(* ===== verification/Prelude.v ===== *)
(** * KeyMint reference implementation: verification library

    This library models the core of the Rust reference implementation of Android
    KeyMint and proves what makes it correct. The program is a trusted application
    (crate [ta]) that creates and holds cryptographic keys and performs operations with
    them on behalf of an untrusted client, which reaches it through a HAL service (crate
    [hal]) by CBOR messages (crate [wire]). Keys leave the application only as encrypted
    blobs (crate [common], [keyblob.rs]); what a key may be used for is a list of key
    parameters, its characteristics (crate [common], [tag.rs]). All cryptography and all
    hardware is behind traits.

    ** Files, in dependency order

    - [Prelude]: outcomes of Rust code ([res]: value, error or panic), stateful
      computations ([stM]), machine integers with casts and overflow, byte orders,
      slices, stable sort, and the tactics and hint databases shared by all files.
    - [Wire]: enums, tags and [KeyParam] ([wire/src/keymint.rs]), the error types.
    - [TagInfo]: the table of tag properties ([common/src/tag/info.rs]).
    - [TagLegacy]: serialization and order of parameters ([common/src/tag/legacy.rs]).
    - [CryptoTypes]: keys, sizes, cipher modes ([common/src/crypto.rs], [crypto/aes.rs],
      [des.rs], [hmac.rs], [rsa.rs], [ec.rs]).
    - [TagParams], [TagGen], [TagBegin]: access to parameters, the policy for creating
      keys, the policy for using them ([common/src/tag.rs]).
    - [Crypto]: the traits as type classes ([crypto/traits.rs]), mode selection, key
      generation defaults, HKDF and CKDF ([crypto.rs]).
    - [Errors]: conversions between error types, vectors with fallible allocation
      ([wire/src/lib.rs], [common/src/lib.rs]).
    - [CborRef]: the CBOR encoding of RFC 8949, as an instance of what is assumed of the
      encoder.
    - [Codec], [WireCodec], [WireSafe]: conversion to and from CBOR ([wire/src/lib.rs],
      [derive/src/lib.rs]), every message ([wire/src/types.rs]), and the safety of decoding.
    - [LegacyMsg]: the messages of the Trusty channel from before CBOR
      ([wire/src/legacy.rs] and the derive macro for them).
    - [KeyblobLegacy]: key blobs of earlier implementations ([keyblob/legacy.rs]).
    - [EcKeys]: public keys, import of EC keys, formats of EC signatures ([crypto/ec.rs],
      parts of [crypto/rsa.rs] and [crypto.rs]).
    - [KeyTraits]: RSA keys, default methods of the asymmetric traits ([crypto/rsa.rs],
      [crypto/traits.rs]).
    - [Asn1]: authorization lists in DER, as attestation extensions and wrapped keys hold
      them ([ta/src/cert.rs]).
    - [Cert]: certificates and attestation extensions ([ta/src/cert.rs]).
    - [Keyblob]: key encryption keys, encryption and decryption of blobs, secure deletion
      secrets ([keyblob.rs], [keyblob/sdd_mem.rs]).
    - [TaState]: the state of a [KeyMintTa] and the methods that do not concern
      operations ([ta/src/lib.rs], [clock.rs], [secret.rs], [device.rs]), and the
      splitting of responses with its counterpart in [hal/src/lib.rs].
    - [Keys]: generation, import, import of wrapped keys, upgrade, and who signs the
      certificate of a key ([ta/src/keys.rs]).
    - [DerRef]: the distinguished encoding of X.690, as an instance of what is assumed of the
      DER encoder and of what its derive macros generate.
    - [Fuzz]: the fuzz targets ([wire/fuzz], [common/fuzz], [ta/fuzz]).
    - [Rkp]: remote provisioning of attestation keys ([ta/src/rkp.rs]).
    - [Operation]: begin, update, finish and abort ([ta/src/operation.rs]).
    - [NoOp]: placeholder implementations of the traits ([crypto/traits.rs], [device.rs]).
    - [OperationSpec]: the correctness of operations.
    - [Sessions]: what whole operations compute, among all others that are running.
    - [Dispatch]: the dispatcher [process_req] over all of these, the transfer of the root
      of trust, storage keys ([ta/src/lib.rs]).
    - [HalTypes]: conversions between the types of the AIDL interfaces and those of the wire
      ([hal/src/hal.rs]).
    - [HalEnv]: version and patch levels of the environment ([hal/src/env.rs]).
    - [Hal]: the channel ([hal/src/lib.rs]), the methods of the interfaces and the operation
      object ([hal/src/keymint.rs], [rpc.rs], [secureclock.rs], [sharedsecret.rs]).
    - [HalSpec]: the service and the trusted application together.
    - [Boring]: the implementation of the cryptographic traits with BoringSSL
      ([boringssl/src]).
    - [BoringSpec]: what it promises.
    - [CryptoRef]: the published algorithms (MD5, SHA-1, SHA-2, HMAC, AES, CMAC, GCM, triple
      DES), as an instance of what is assumed of the library.
    - [Cddl]: the descriptions of all encodings in the schema language CDDL and the programs
      that print them ([wire/src], [derive/src/lib.rs], [common/src/bin]).
    - [CddlSpec]: a reader of such schemas, the values they admit, and what they describe.
    - [UnitTests]: the unit tests of the repository, run on the model.
    - [Conformance]: the tests for implementations of the traits ([tests/src/lib.rs]), run on
      the model of the BoringSSL bindings over the algorithms of [CryptoRef].

    ** How the code is represented

    A Rust function that returns a [Result] is a function into [res]; [?] is the bind of
    this monad and a panic is an outcome of its own, so that theorems of success exclude
    panics. A method on [&mut self] is a computation on the record [KeyMintTa] ([TA]),
    in which the state survives an error, as it does in Rust. The fields of the Rust
    structure that only some files need are in records around it: [KeyMintKeys] in [Keys],
    [KeyMintRpc] in [Rkp] and [KeyMintDevice], the whole state, in [Dispatch]. Integers are [Z]; casts,
    conversions and additions that can overflow are written with [as_unsigned],
    [as_signed], [ovf_unsigned] and [ovf_signed]; [Target] says whether overflow panics
    and which byte order the machine has, and the theorems hold for every target.
    Definitions keep the names of the source. A closure or the body of a loop is a
    definition of its own, named after the function it is part of.

    Code outside the repository is a parameter: the cryptographic primitives and the
    device (one class per trait), the CBOR encoder ([Ciborium]), the COSE structures of the
    [coset] crate ([Coset], [CoseMac0s], [CoseKeys], [CoseSign1s], [TaggedCbor]), the DER
    encoder and the parsers and types of the RustCrypto crates ([DerCrate], [Pkcs8],
    [NistSignatures], [X509]) and what their derive macros generate ([CertCodecs],
    [WrapperCodecs]), the constants of the AIDL interfaces ([Aidl.Constants]), regular
    expressions and system properties ([Regex], [SystemProperties]), byte streams ([Write],
    [Read]) and the channel of the service ([SerializedChannel]), and, below the
    implementation of the traits, the BoringSSL library and the [openssl] crate ([BsslErrors],
    [Symm], [BsslMacs], [BsslBasics], [OpensslKeys], [Pkcs1]). What is assumed of them is in classes of laws: [CiboriumLaws] (a
    value that is not too deeply nested can be encoded, and decoding gives it back and
    leaves what follows it), [CiboriumSize] (the encoding is no longer than RFC 8949 has
    it), [Aidl.ConstantsLaws] (the published numbers), [RegexLaws], [StreamLaws] (whole
    buffers are written and read), [ConnectionLaws] (the channel hands a request to the
    trusted application and its response back), [CosetLaws], [CoseMac0Laws], [CoseKeyLaws], [TaggedCborLaws],
    [DerLaws] (items are encoded as tag, length and contents, and decoded again),
    [NistSignaturesLaws], [X509Laws], [AeadLaws] (decryption inverts encryption), [SDMLaws]
    and [SDMSlots] (a manager of secure deletion secrets; the in-memory manager of the
    repository is proved to satisfy them), [ConstTimeEqLaws], [KeyTraitsLaws] (key material
    is representable), [HmacFn], [HmacChunks] and [CmacFn] (incremental MACs compute a
    function of the data), [HmacRuns] and [AeadRuns] (the same with every digest, and for authenticated
    encryption, whose opening accepts what was sealed and nothing else), [CosetSafe] and [DerSafe] (the crates' decoders answer
    with an error and do not panic); of BoringSSL, [GcmLaws], [MacLaws], [MemcmpLaws] and
    [OpensslNoPanic]. Each group of laws has a concrete instance, which the witnesses
    use. For the encodings and the symmetric algorithms the instances are the published
    standards themselves ([CborRef], [DerRef], [CryptoRef]), which are checked on the
    repository's test vectors.

    Outside [Errors], where the functions that allocate are shown to build what is asked for
    or to fail without effect, memory allocation is taken to succeed. Log messages are not
    modelled, and error values carry the error code but not the message.

    ** What is proved

    Operations ([OperationSpec]): the table of operations refines a map from handles to
    operations over any sequence of calls ([table_refines_map]); authentication, trusted
    confirmation, single use and input limits are enforced over such sequences
    ([auth_enforced], [confirmation_enforced], [single_use_deleted], [input_limits]); what
    is checked or recorded at the start ([begin_auth_recorded], [begin_restrictions]);
    new handles are found and unused ([new_op_handle_unused]). Over whole operations
    ([Sessions]): each computes what it would compute alone, whatever other calls are made in
    between ([operations_isolated]), so that a signature of one operation is accepted by
    another ([hmac_sign_verify]) and what one encrypts another decrypts
    ([gcm_encrypt_decrypt]). Proof of presence is
    enforced while the mark is set, and two theorems show how the mark is lost or leaked
    ([presence_checked_once], [presence_mark_leaks]); [hmac_verify_long_signature] shows a
    panic.

    Requests ([Dispatch], [WireSafe], [Fuzz]): no data makes a parser of untrusted input
    panic, and what it accepts is in range ([fuzz_targets_safe]); every request gets a response
    of its own kind or an error of the right interface ([every_request_answered]); what is
    set at start of day stays over any sequence of requests
    ([requests_retain_configuration]). The root of trust that the TEE sends is accepted by
    StrongBox ([root_of_trust_transfer]), but leaves it unable to make keys
    ([transferred_root_unusable]), and a message without payload makes it panic
    ([root_of_trust_no_payload]).

    Keys ([Keys]): a new key can be used and has the announced characteristics
    ([new_key_usable]); an upgrade keeps the key, brings it up to date and never goes back
    ([upgrade_key_current], [upgrade_refuses_downgrade]); the parameters of wrapped keys;
    which key signs a certificate ([attestation_signer]) and what it signs
    ([certificate_contents]).

    Certificates ([Cert], [Asn1], [EcKeys]): what attestation extensions say
    ([attestation_extension_binds], [attestation_ids_provisioned],
    [attestation_software_level]); authorization lists round trip and their lengths are
    computed exactly; validity times; labels of imported EC keys, formats of signatures.

    Remote provisioning ([Rkp]): a device recognizes its own public keys and no others
    ([rpc_keypair], [csr_authentic]), and describes itself in canonical order.

    HAL service ([HalTypes], [HalEnv], [Hal], [HalSpec]): the conversion of parameters is
    exact, but for the unknown tags it drops ([hal_params_exact]); messages keep their
    boundaries in a stream ([framing_roundtrip]); a call through the service is the call of
    the trusted application ([hal_call_refines]); long input reaches it complete and in order,
    in requests that fit the channel ([update_delivered], [finish_delivered]); when an
    operation object can still be used ([operation_lifecycle]), and how one is left behind in
    the trusted application ([oversized_finish_strands]); dates are taken over digit by digit
    ([hal_info_dates]).

    BoringSSL ([BoringSpec], [KeyTraits]): AES-GCM in pieces is AES-GCM on the whole
    ([boring_gcm_chunks]); the implementation satisfies the laws of the traits that the
    other theorems assume ([boring_implements]); operations do not panic within the limits
    they announce ([boring_no_panic]); what undigested ECDSA signatures cover
    ([ec_undigested_signature]) and what imported RSA keys are announced as
    ([rsa_import_spec]). The algorithms of [CryptoRef] satisfy the laws assumed of the library.

    Tests ([UnitTests], [Conformance]): the unit tests pass on the model, among them those that
    compare encodings byte by byte, but for one that is only compiled for big-endian machines
    ([legacy_message_tests_big_endian]); the bindings pass the tests of the traits, on every
    target and whatever the asymmetric keys do ([boring_tests_pass]).

    Key blobs ([Keyblob], [KeyblobLegacy]): decryption inverts encryption, failure leaks no
    slot, deletion of the secret makes the blob useless, the derivation input is unambiguous;
    legacy blobs round trip and are authentic.

    State ([TaState]): start-of-day information is latched, keys with stale or future
    versions are refused, use limits hold since boot, MAC inputs are unambiguous, devices
    that agree on a secret accept each other's timestamps, split responses reassemble.

    Policy ([TagParams], [TagGen], [TagBegin], [TagInfo]): which parameters make up
    characteristics, for which parameters which key is generated ([key_gen_exact]), what accepted
    import and begin parameters guarantee, and that the tables agree with each other.

    Encodings ([TagLegacy], [WireCodec], [LegacyMsg]): round trips for parameters and
    messages, the inputs on which the legacy parser panics, canonical order, the response
    codes of legacy messages.

    Schemas ([CddlSpec]): the texts that [Cddl] prints (which are, byte for byte, the files
    [common/generated.cddl] and [common/src/keyblob/keyblob.cddl]) are read as CDDL; with three
    corrections the schema of the messages admits every well-formed request and response
    ([messages_described]), as published it admits none ([published_schema_gaps]); the schema
    of key blobs admits every key blob and what is bound into it ([keyblobs_described]).

    Placeholders ([NoOp]): without an HMAC no key blob is made or opened
    ([noop_hmac_no_keyblob]); a placeholder for the manager of secrets refuses every key
    ([noop_manager_refuses]); one for the random number generator makes the search for a
    second handle endless ([noop_rng_second_handle]).

    Derivation and modes ([Crypto]): HKDF is RFC 5869 and CKDF is SP 800-108 in counter
    mode, within stated bounds; mode selection succeeds after the policy check.

    ** Fuel

    Drawing a handle ([new_op_handle]) repeats until the handle is not in use. The model
    draws at most once more than the table has slots, and [new_op_handle_unused] shows
    that this is enough for a generator that does not repeat itself. Splitting a response
    uses the length of the response as fuel; each message carries at least one byte.
    Replacing malformed UTF-8 ([utf8_lossy]) uses the length of the text; each step consumes
    at least one byte. The loops over batches of input ([batches], [finish_batches]) use the
    length of the input, which is enough for every channel whose messages are larger than
    [MAX_CBOR_OVERHEAD], as [update_delivered] and [finish_delivered] show; for a channel of
    exactly that size the source loops forever, which the model shows as a panic.

    The reference algorithms cut messages into blocks ([pieces_of]) and read lists of integers
    with the length of the data as fuel; each step consumes at least one byte.

    The reader of schemas ([read_schema]) uses twice the number of tokens, as no step reads
    fewer than one token in two calls; a schema that it could not read would give no rules.

    ** Not modelled

    The freeing of the library's contexts, binder objects and the locks around the channel,
    the build of the BoringSSL crate that is not for Android, the texts of errors and log
    messages, the syntax trees that the derive macros work on, the asymmetric algorithms
    (RSA, ECDSA, X25519 and Ed25519 remain parameters), the test that sleeps to see a clock
    advance and the programs that print the parts of a legacy key blob. *)

From Stdlib Require Export ZArith Lia Bool.
From coqutil Require Export Byte Word.LittleEndianList.
From stdpp Require Export base list sorting strings gmap.

#[global] Open Scope Z_scope.
#[export] Set Warnings "-clear-no-such-hyp".

(** ** Bytes *)

Abbreviation u8 := Init.Byte.byte.
Abbreviation bytes := (list Init.Byte.byte).

#[export] Instance u8_eq_dec : EqDecision u8 := Byte.byte_eq_dec.

(** Numeric value of a byte, and the byte with a given value modulo 256. *)
Definition u8_val (b : u8) : Z := byte.unsigned b.
Definition u8_of (z : Z) : u8 := byte.of_Z z.
Lemma u8_val_of z : 0 ≤ z < 256 → u8_val (u8_of z) = z.
Proof. intros. unfold u8_val, u8_of. rewrite byte.unsigned_of_Z. by apply Z.mod_small. Qed.
Lemma u8_of_val b : u8_of (u8_val b) = b.
Proof. apply byte.of_Z_unsigned. Qed.

(** A byte string literal [b"..."]. *)
Definition bytes_of_string (s : string) : bytes := String.list_byte_of_string s.

(** ** Outcomes of Rust code: a value, an error value, or a panic *)

Inductive res (E A : Type) : Type :=
| Ok (a : A)
| Err (e : E)
| Panic.
Arguments Ok {E A} a.
Arguments Err {E A} e.
Arguments Panic {E A}.

#[export] Instance res_ret {E} : MRet (res E) := λ A a, Ok a.
#[export] Instance res_bind {E} : MBind (res E) := λ A B f c,
  match c with Ok a => f a | Err e => Err e | Panic => Panic end.
#[export] Instance res_fmap {E} : FMap (res E) := λ A B f c,
  match c with Ok a => Ok (f a) | Err e => Err e | Panic => Panic end.
#[export] Instance res_eq_dec {E A} `{EqDecision E} `{EqDecision A} : EqDecision (res E A).
Proof. solve_decision. Defined.

(** [if cond { return Err(e) }]. *)
Definition reject_if {E} (cond : bool) (e : E) : res E unit := if cond then Err e else Ok tt.

(** [opt.ok_or_else(|| e)]. *)
Definition ok_or {E A} (o : option A) (e : E) : res E A :=
  match o with Some a => Ok a | None => Err e end.

(** [r.map_err(f)]. *)
Definition map_err {E F A} (f : E → F) (r : res E A) : res F A :=
  match r with Ok a => Ok a | Err e => Err (f e) | Panic => Panic end.

Definition is_ok {E A} (r : res E A) : bool := match r with Ok _ => true | _ => false end.

Lemma res_bind_Ok {E A B} (c : res E A) (f : A → res E B) v :
  c ≫= f = Ok v ↔ ∃ a, c = Ok a ∧ f a = Ok v.
Proof. destruct c; cbn; naive_solver. Qed.

Lemma res_fmap_Ok {E A B} (c : res E A) (f : A → B) v :
  f <$> c = Ok v ↔ ∃ a, c = Ok a ∧ f a = v.
Proof. destruct c; cbn; naive_solver. Qed.

Lemma res_bind_assoc {E A B C} (c : res E A) (f : A → res E B) (g : B → res E C) :
  (c ≫= f) ≫= g = c ≫= (λ a, f a ≫= g).
Proof. by destruct c. Qed.

Lemma reject_if_Ok {E} b (e : E) u : reject_if b e = Ok u ↔ b = false.
Proof. destruct b, u; cbn; naive_solver. Qed.

Lemma ok_or_Ok {E A} (o : option A) (e : E) v : ok_or o e = Ok v ↔ o = Some v.
Proof. destruct o; cbn; naive_solver. Qed.

Lemma map_err_Ok {E F A} (f : E → F) (r : res E A) v : map_err f r = Ok v ↔ r = Ok v.
Proof. destruct r; cbn; naive_solver. Qed.

(** ** Computations that also change a state; the state survives an error *)

Definition stM (S E A : Type) : Type := S → res E A * S.

#[export] Instance stM_ret {S E} : MRet (stM S E) := λ A a s, (Ok a, s).
#[export] Instance stM_bind {S E} : MBind (stM S E) := λ A B f c s,
  match c s with
  | (Ok a, s') => f a s'
  | (Err e, s') => (Err e, s')
  | (Panic, s') => (Panic, s')
  end.

Definition liftr {S E A} (r : res E A) : stM S E A := λ s, (r, s).
Definition get_st {S E} : stM S E S := λ s, (Ok s, s).
Definition gets {S E A} (f : S → A) : stM S E A := λ s, (Ok (f s), s).
Definition modify {S E} (f : S → S) : stM S E unit := λ s, (Ok tt, f s).

Lemma stM_bind_Ok {S E A B} (c : stM S E A) (f : A → stM S E B) s v s' :
  (c ≫= f) s = (Ok v, s') ↔ ∃ a s1, c s = (Ok a, s1) ∧ f a s1 = (Ok v, s').
Proof. unfold mbind, stM_bind. destruct (c s) as [[] ?]; naive_solver. Qed.

(** The value of a computation that is known to succeed. *)
Definition value {S E A} (d : A) (x : res E A * S) : A := match x.1 with Ok a => a | _ => d end.
Lemma value_Ok {S E A} (d : A) (x : res E A * S) : is_ok x.1 = true → x = (Ok (value d x), x.2).
Proof. by destruct x as [[] ?]. Qed.
Ltac succeeds := apply value_Ok; vm_compute; reflexivity.

(** ** Machine integers *)

(** What the compiled code depends on besides the source: the byte order of
    [to_ne_bytes]/[from_ne_bytes], and whether arithmetic overflow panics
    (overflow checks on) or wraps around. *)
Class Target := {
  big_endian : bool;
  overflow_checks : bool
}.

Definition is_unsigned (w z : Z) : Prop := 0 ≤ z < 2 ^ w.
Definition is_signed (w z : Z) : Prop := - 2 ^ (w - 1) ≤ z < 2 ^ (w - 1).
Abbreviation is_u8 := (is_unsigned 8).
Abbreviation is_u32 := (is_unsigned 32).
Abbreviation is_u64 := (is_unsigned 64).
Abbreviation is_i32 := (is_signed 32).
Abbreviation is_i64 := (is_signed 64).

(** [z as uW] and [z as iW]. *)
Definition as_unsigned (w z : Z) : Z := z mod 2 ^ w.
Definition as_signed (w z : Z) : Z := (z + 2 ^ (w - 1)) mod 2 ^ w - 2 ^ (w - 1).
Abbreviation as_u32 := (as_unsigned 32).
Abbreviation as_u64 := (as_unsigned 64).
Abbreviation as_i32 := (as_signed 32).
Abbreviation as_i64 := (as_signed 64).
(** [usize] is 64 bits wide on the targets considered. *)
Abbreviation as_usize := (as_unsigned 64).

Section arith.
Context `{T : Target} {E : Type}.

(** The result of a [+], [-] or [*] whose exact value is [z]. *)
Definition ovf_unsigned (w z : Z) : res E Z :=
  if decide (0 ≤ z < 2 ^ w) then Ok z
  else if overflow_checks then Panic else Ok (as_unsigned w z).
Definition ovf_signed (w z : Z) : res E Z :=
  if decide (- 2 ^ (w - 1) ≤ z < 2 ^ (w - 1)) then Ok z
  else if overflow_checks then Panic else Ok (as_signed w z).

Lemma ovf_unsigned_ok w z : is_unsigned w z → ovf_unsigned w z = Ok z.
Proof. intros H. unfold ovf_unsigned. by rewrite decide_True. Qed.
Lemma ovf_signed_ok w z : is_signed w z → ovf_signed w z = Ok z.
Proof. intros H. unfold ovf_signed. by rewrite decide_True. Qed.
End arith.

Lemma as_unsigned_id w z : is_unsigned w z → as_unsigned w z = z.
Proof. intros H. by apply Z.mod_small. Qed.
Lemma as_unsigned_range w z : 0 ≤ w → is_unsigned w (as_unsigned w z).
Proof. intros Hw. apply Z.mod_pos_bound. lia. Qed.
Lemma as_signed_id w z : 0 < w → is_signed w z → as_signed w z = z.
Proof.
  intros Hw H. unfold as_signed, is_signed in *.
  assert (2 ^ w = 2 * 2 ^ (w - 1)) by (rewrite <- Z.pow_succ_r by lia; f_equal; lia).
  rewrite Z.mod_small; lia.
Qed.
Lemma as_signed_range w z : 0 < w → is_signed w (as_signed w z).
Proof.
  intros Hw. unfold as_signed, is_signed.
  assert (2 ^ w = 2 * 2 ^ (w - 1)) by (rewrite <- Z.pow_succ_r by lia; f_equal; lia).
  pose proof (Z.mod_pos_bound (z + 2 ^ (w - 1)) (2 ^ w)). lia.
Qed.
(** A signed value cast to unsigned and back is unchanged, and conversely. *)
Lemma as_signed_as_unsigned w z : 0 < w → is_signed w z → as_signed w (as_unsigned w z) = z.
Proof.
  intros Hw H. rewrite <- (as_signed_id w z) at 2 by done.
  unfold as_signed, as_unsigned. by rewrite Zplus_mod_idemp_l.
Qed.
Lemma as_unsigned_as_signed w z : 0 < w → is_unsigned w z → as_unsigned w (as_signed w z) = z.
Proof.
  intros Hw H. rewrite <- (as_unsigned_id w z) at 2 by done.
  unfold as_signed, as_unsigned. rewrite Zminus_mod_idemp_l. f_equal. lia.
Qed.

(** ** Byte encodings of integers *)

Section codec.
Context `{T : Target}.

(** [z.to_ne_bytes()] for an [n]-byte integer (two's complement), and
    [uN::from_ne_bytes]. *)
Definition to_ne_bytes (n : nat) (z : Z) : bytes :=
  if big_endian then reverse (le_split n z) else le_split n z.
Definition from_ne_bytes (bs : bytes) : Z :=
  le_combine (if big_endian then reverse bs else bs).
(** [z.to_be_bytes()]. *)
Definition to_be_bytes (n : nat) (z : Z) : bytes := reverse (le_split n z).
(** [uN::from_be_bytes]. *)
Definition from_be_bytes (bs : bytes) : Z := le_combine (reverse bs).

Lemma length_to_ne_bytes n z : length (to_ne_bytes n z) = n.
Proof.
  unfold to_ne_bytes. destruct big_endian; [rewrite length_reverse|]; apply length_le_split.
Qed.

Lemma from_to_ne_bytes n z : from_ne_bytes (to_ne_bytes n z) = as_unsigned (8 * Z.of_nat n) z.
Proof.
  unfold from_ne_bytes, to_ne_bytes, as_unsigned.
  destruct big_endian; rewrite ?reverse_involutive, le_combine_split; f_equal; f_equal; lia.
Qed.

Lemma from_ne_bytes_range bs : is_unsigned (8 * Z.of_nat (length bs)) (from_ne_bytes bs).
Proof.
  unfold from_ne_bytes, is_unsigned. destruct big_endian; [|apply le_combine_bound].
  rewrite <- (length_reverse bs). apply le_combine_bound.
Qed.

Lemma to_from_ne_bytes n bs : length bs = n → to_ne_bytes n (from_ne_bytes bs) = bs.
Proof.
  intros <-. unfold to_ne_bytes, from_ne_bytes. destruct big_endian; [|apply split_le_combine].
  rewrite (split_le_combine' (reverse bs)) by apply length_reverse. apply reverse_involutive.
Qed.

(** The encoding is injective on integers of the encoded width. *)
Lemma to_ne_bytes_inj n z1 z2 :
  as_unsigned (8 * Z.of_nat n) z1 ≠ as_unsigned (8 * Z.of_nat n) z2 →
  to_ne_bytes n z1 ≠ to_ne_bytes n z2.
Proof. intros Hne Heq. apply Hne. by rewrite <- !from_to_ne_bytes, Heq. Qed.
End codec.

Lemma length_to_be_bytes n z : length (to_be_bytes n z) = n.
Proof. unfold to_be_bytes. rewrite length_reverse. apply length_le_split. Qed.

Lemma from_to_be_bytes n z : from_be_bytes (to_be_bytes n z) = as_unsigned (8 * Z.of_nat n) z.
Proof.
  unfold from_be_bytes, to_be_bytes, as_unsigned. rewrite reverse_involutive, le_combine_split. f_equal. f_equal. lia.
Qed.

Lemma to_be_bytes_inj n z1 z2 :
  to_be_bytes n z1 = to_be_bytes n z2 →
  as_unsigned (8 * Z.of_nat n) z1 = as_unsigned (8 * Z.of_nat n) z2.
Proof.
  unfold to_be_bytes, as_unsigned. intros H%(inj reverse)%(f_equal le_combine).
  rewrite !le_combine_split in H. by rewrite (Z.mul_comm 8).
Qed.

(** ** Slices; indexing out of range panics *)

Definition len {A} (l : list A) : Z := Z.of_nat (length l).

(** [&l[..n]] and [&l[n..]]. *)
Definition slice_to {E A} (l : list A) (n : Z) : res E (list A) :=
  if decide (0 ≤ n ≤ len l) then Ok (take (Z.to_nat n) l) else Panic.
Definition slice_from {E A} (l : list A) (n : Z) : res E (list A) :=
  if decide (0 ≤ n ≤ len l) then Ok (drop (Z.to_nat n) l) else Panic.

(** [&l[a..b]] *)
Definition slice_range {E A} (l : list A) (a b : Z) : res E (list A) :=
  if decide (0 ≤ a ≤ b ∧ b ≤ len l)
  then Ok (take (Z.to_nat (b - a)) (drop (Z.to_nat a) l)) else Panic.
(** [l[off..off + src.len()].clone_from_slice(src)], for a range inside [l]. *)
Definition overwrite {A} (l : list A) (off : Z) (src : list A) : list A :=
  take (Z.to_nat off) l ++ src ++ drop (Z.to_nat off + length src) l.

Lemma overwrite_app {A} (l1 l2 l3 src : list A) :
  length src = length l2 → overwrite (l1 ++ l2 ++ l3) (len l1) src = l1 ++ src ++ l3.
Proof.
  intros Hlen. unfold overwrite, len. rewrite Nat2Z.id, take_app_length.
  by rewrite <- drop_drop, drop_app_length, Hlen, drop_app_length.
Qed.

Lemma overwrite_front {A} (l2 l3 src : list A) :
  length src = length l2 → overwrite (l2 ++ l3) 0 src = src ++ l3.
Proof. apply (overwrite_app []). Qed.

Lemma slice_to_app {E A} (l k : list A) : slice_to (E:=E) (l ++ k) (len l) = Ok l.
Proof.
  unfold slice_to, len. rewrite decide_True by (rewrite length_app; lia).
  by rewrite Nat2Z.id, take_app_length.
Qed.
Lemma slice_from_app {E A} (l k : list A) : slice_from (E:=E) (l ++ k) (len l) = Ok k.
Proof.
  unfold slice_from, len. rewrite decide_True by (rewrite length_app; lia).
  by rewrite Nat2Z.id, drop_app_length.
Qed.
Lemma slice_to_Ok {E A} (l : list A) n k :
  slice_to (E:=E) l n = Ok k ↔ 0 ≤ n ≤ len l ∧ k = take (Z.to_nat n) l.
Proof. unfold slice_to. case_decide; naive_solver. Qed.
Lemma slice_from_Ok {E A} (l : list A) n k :
  slice_from (E:=E) l n = Ok k ↔ 0 ≤ n ≤ len l ∧ k = drop (Z.to_nat n) l.
Proof. unfold slice_from. case_decide; naive_solver. Qed.

(** A slice at a position inside the list, and what follows it. *)
Lemma slice_split {E A} (l : list A) n :
  0 ≤ n ≤ len l → slice_to (E:=E) l n = Ok (take (Z.to_nat n) l) ∧
                  slice_from (E:=E) l n = Ok (drop (Z.to_nat n) l).
Proof. intros Hn. unfold slice_to, slice_from. by rewrite !decide_True. Qed.

Lemma len_app {A} (l k : list A) : len (l ++ k) = len l + len k.
Proof. unfold len. rewrite length_app. lia. Qed.
Lemma len_nonneg {A} (l : list A) : 0 ≤ len l.
Proof. unfold len. lia. Qed.

(** ** [slice::sort_by], a stable sort *)

Section sort_by.
Context {A : Type} (cmp : A → A → comparison).

Fixpoint insert_by (x : A) (l : list A) : list A :=
  match l with
  | [] => [x]
  | y :: l' => match cmp x y with Gt => y :: insert_by x l' | _ => x :: y :: l' end
  end.
Definition sort_by (l : list A) : list A := foldr insert_by [] l.

Definition cmp_le (x y : A) : Prop := cmp x y ≠ Gt.

Lemma insert_by_Permutation x l : insert_by x l ≡ₚ x :: l.
Proof.
  induction l as [|y l IH]; cbn; [done|].
  destruct (cmp x y); [done..|]. rewrite IH. apply Permutation_swap.
Qed.
Lemma sort_by_Permutation l : sort_by l ≡ₚ l.
Proof. induction l as [|x l IH]; cbn; [done|]. by rewrite insert_by_Permutation, IH. Qed.

Context (cmp_total : ∀ x y, cmp x y = Gt → cmp_le y x).

Lemma insert_by_HdRel y x l :
  cmp_le y x → HdRel cmp_le y l → HdRel cmp_le y (insert_by x l).
Proof. intros Hyx Hl. destruct Hl; cbn; [by constructor|]. case_match; by constructor. Qed.
Lemma insert_by_Sorted x l : Sorted cmp_le l → Sorted cmp_le (insert_by x l).
Proof.
  induction 1 as [|y l Hl IH Hhd]; cbn; [by repeat constructor|].
  destruct (cmp x y) eqn:Hxy.
  1,2: repeat (constructor; try done); unfold cmp_le; by rewrite Hxy.
  constructor; [done|]. apply insert_by_HdRel; [by apply cmp_total|done].
Qed.
Lemma sort_by_Sorted l : Sorted cmp_le (sort_by l).
Proof. induction l; cbn; [constructor|by apply insert_by_Sorted]. Qed.
End sort_by.

(** ** Automation *)

(** Hypotheses that say a composed computation succeeded are split into the
    successes of its parts. *)
Create HintDb res.
Create Rewrite HintDb res.
#[export] Hint Rewrite @res_bind_Ok @res_fmap_Ok @reject_if_Ok @ok_or_Ok @map_err_Ok : res.

Ltac res_step :=
  match goal with
  | H : Ok _ = Ok _ |- _ => injection H as H; try subst
  | H : Ok _ = Err _ |- _ => discriminate H
  | H : Err _ = Ok _ |- _ => discriminate H
  | H : Panic = Ok _ |- _ => discriminate H
  | H : ?c ≫= _ = Ok _ |- _ => apply res_bind_Ok in H as (? & ? & H)
  | H : reject_if _ _ = Ok _ |- _ => apply reject_if_Ok in H
  | H : ok_or _ _ = Ok _ |- _ => apply ok_or_Ok in H
  | H : map_err _ _ = Ok _ |- _ => apply map_err_Ok in H
  | H : _ ∧ _ |- _ => destruct H
  end.
Ltac res_inv := repeat (res_step; cbn beta iota in * ).

(** Case analysis on every [match]/[if] scrutinee of a hypothesis or the goal. *)
Ltac split_match_in H :=
  repeat match type of H with
  | context [match ?x with _ => _ end] => destruct x eqn:?; try discriminate H
  end.

(** Integer ranges by linear arithmetic. *)
Ltac range_lia := unfold is_unsigned, is_signed in *; lia.

(** A little-endian 64-bit target with overflow checks. *)
Definition arm64 : Target := {| big_endian := false; overflow_checks := true |}.

(** ** Computations that never panic *)

Definition nopanic {S E A} (c : stM S E A) : Prop := ∀ s, (c s).1 ≠ Panic.

Create HintDb nopanic.

Lemma nopanic_bind {S E A B} (c : stM S E A) (f : A → stM S E B) :
  nopanic c → (∀ a, nopanic (f a)) → nopanic (c ≫= f).
Proof.
  intros Hc Hf s. unfold mbind, stM_bind. specialize (Hc s).
  destruct (c s) as [[a|e|] s']; cbn in *; [apply Hf|done..].
Qed.
Lemma nopanic_ret {S E A} (a : A) : nopanic (S:=S) (E:=E) (mret a).
Proof. by intros s. Qed.
Lemma nopanic_liftr {S E A} (r : res E A) : r ≠ Panic → nopanic (S:=S) (liftr r).
Proof. by intros Hr s. Qed.
Lemma ok_or_nopanic {E A} (o : option A) (e : E) : ok_or o e ≠ Panic.
Proof. by destruct o. Qed.
Lemma reject_if_nopanic {E} b (e : E) : reject_if b e ≠ Panic.
Proof. by destruct b. Qed.
#[export] Hint Resolve nopanic_bind nopanic_ret nopanic_liftr ok_or_nopanic reject_if_nopanic : nopanic.

(** ** Computations that leave part of the state alone *)

Definition preserves {S E A B} (f : S → B) (c : stM S E A) : Prop := ∀ s, f (c s).2 = f s.

Create HintDb preserves.

Lemma preserves_bind {S E A B X} (f : S → X) (c : stM S E A) (k : A → stM S E B) :
  preserves f c → (∀ a, preserves f (k a)) → preserves f (c ≫= k).
Proof.
  intros Hc Hk s. unfold mbind, stM_bind. specialize (Hc s).
  destruct (c s) as [[a|e|] s']; cbn in *; [by rewrite Hk|done..].
Qed.
Lemma preserves_ret {S E A X} (f : S → X) (a : A) : preserves (E:=E) f (mret a).
Proof. by intros s. Qed.
Lemma preserves_liftr {S E A X} (f : S → X) (r : res E A) : preserves f (liftr r).
Proof. by intros s. Qed.
Lemma preserves_get_st {S E X} (f : S → X) : preserves (E:=E) f get_st.
Proof. by intros s. Qed.
#[export] Hint Resolve preserves_bind preserves_ret preserves_liftr preserves_get_st : preserves.

(** Split a successful stateful computation into its steps. *)
Ltac st_step :=
  match goal with
  | H : (_ ≫= _) _ = (Ok _, _) |- _ => apply stM_bind_Ok in H as (? & ? & ? & H)
  | H : liftr _ _ = (Ok _, _) |- _ => unfold liftr in H; injection H as H ?; subst
  | H : get_st _ = (Ok _, _) |- _ => unfold get_st in H; injection H as ? ?; subst
  | H : mret _ _ = (Ok _, _) |- _ => unfold mret, stM_ret in H; injection H as ? ?; subst
  end.
Ltac st_inv := repeat (st_step; cbn beta iota in * ).

(** A decidable closed proposition, by evaluation. *)
Ltac decide_compute := apply (bool_decide_unpack _); vm_compute; exact I.
