(* ===== verification/Wire.v ===== *)
(** * Wire types

    The data model of [wire/src/keymint.rs]: the HAL enumerations with their
    [i32] discriminants, tags and their type bits, key parameters, and the error
    type of [common/src/lib.rs].  The features [hal_v2], [hal_v3] and [hal_v4]
    are enabled, as they are by default.  Newtypes ([KeySizeInBits],
    [RsaExponent], [DateTime]) are represented by their integer; error values
    keep their code and drop their message. *)

From S2P Require Import Prelude.

(** ** Enumerations with integer discriminants *)

(** An exhaustive [#[repr(i32)]] enum that derives [N]: [discr v] is [v as i32]. *)
Class REnum (A : Type) := {
  discr : A → Z;
  variants : list A;
  variants_complete : ∀ v, v ∈ variants;
  discr_NoDup : NoDup (discr <$> variants)
}.

(** [<Enum>::n(v)] / [<Enum>::try_from(v)]: the variant with discriminant [v]. *)
Definition try_from_n {A} `{REnum A} (z : Z) : option A :=
  head (filter (λ v, discr v = z) variants).

Section renum.
Context {A : Type} `{REnum A}.

#[export] Instance discr_inj : Inj (=) (=) (@discr A _).
Proof.
  intros x y Hxy.
  destruct (proj1 (list_elem_of_lookup _ x) (variants_complete x)) as [i Hi].
  destruct (proj1 (list_elem_of_lookup _ y) (variants_complete y)) as [j Hj].
  assert (i = j) as ->.
  { eapply (NoDup_lookup _ i j (discr x) discr_NoDup);
      rewrite list_lookup_fmap, ?Hi, ?Hj; cbn; congruence. }
  congruence.
Qed.

(** [try_from] inverts the cast to the discriminant. *)
Lemma try_from_n_Some z v : try_from_n z = Some v ↔ discr v = z.
Proof.
  unfold try_from_n.
  destruct (filter (λ v, discr v = z) variants) as [|w l] eqn:Hf; cbn.
  - split; [done|]. intros Hv.
    assert (v ∈ filter (λ v, discr v = z) variants) as Hin
      by (apply list_elem_of_filter; auto using variants_complete).
    rewrite Hf in Hin. by apply elem_of_nil in Hin.
  - assert (discr w = z) as Hw.
    { assert (w ∈ filter (λ v, discr v = z) variants) as Hin by (rewrite Hf; left).
      by apply list_elem_of_filter in Hin as [? _]. }
    split; [by intros [= <-]|]. intros Hv. f_equal. apply (inj discr). congruence.
Qed.
Lemma try_from_discr v : try_from_n (discr v) = Some v.
Proof. by apply try_from_n_Some. Qed.

Definition enum_eq_dec : EqDecision A := λ x y,
  match Z.eq_dec (discr x) (discr y) with
  | left H => left (discr_inj x y H)
  | right H => right (λ e, H (f_equal discr e))
  end.

(** Derived [Ord]: variants are ordered by discriminant. *)
Definition enum_cmp (x y : A) : comparison := discr x ?= discr y.
End renum.

Ltac enum_complete := repeat (first [apply list_elem_of_here | apply list_elem_of_further]).

Inductive VerifiedBootState : Set :=
| VerifiedBootState_Verified | VerifiedBootState_SelfSigned | VerifiedBootState_Unverified
| VerifiedBootState_Failed.
Definition VerifiedBootState_discr (v : VerifiedBootState) : Z :=
  match v with
  | VerifiedBootState_Verified => 0 | VerifiedBootState_SelfSigned => 1
  | VerifiedBootState_Unverified => 2 | VerifiedBootState_Failed => 3
  end.
#[export, refine] Instance VerifiedBootState_enum : REnum VerifiedBootState := {| discr := VerifiedBootState_discr;
  variants := [VerifiedBootState_Verified; VerifiedBootState_SelfSigned; VerifiedBootState_Unverified;
    VerifiedBootState_Failed] |}.
Proof.
  - abstract (intros []; enum_complete).
  - abstract (apply (bool_decide_unpack _); vm_compute; exact I).
Defined.
#[export] Instance VerifiedBootState_eq_dec : EqDecision VerifiedBootState := enum_eq_dec.

Inductive Algorithm : Set :=
| Algorithm_Rsa | Algorithm_Ec | Algorithm_Aes | Algorithm_TripleDes | Algorithm_Hmac.
Definition Algorithm_discr (v : Algorithm) : Z :=
  match v with
  | Algorithm_Rsa => 1 | Algorithm_Ec => 3 | Algorithm_Aes => 32 | Algorithm_TripleDes => 33
  | Algorithm_Hmac => 128
  end.
#[export, refine] Instance Algorithm_enum : REnum Algorithm := {| discr := Algorithm_discr;
  variants := [Algorithm_Rsa; Algorithm_Ec; Algorithm_Aes; Algorithm_TripleDes; Algorithm_Hmac] |}.
Proof.
  - abstract (intros []; enum_complete).
  - abstract (apply (bool_decide_unpack _); vm_compute; exact I).
Defined.
#[export] Instance Algorithm_eq_dec : EqDecision Algorithm := enum_eq_dec.

Inductive BlockMode : Set :=
| BlockMode_Ecb | BlockMode_Cbc | BlockMode_Ctr | BlockMode_Gcm.
Definition BlockMode_discr (v : BlockMode) : Z :=
  match v with
  | BlockMode_Ecb => 1 | BlockMode_Cbc => 2 | BlockMode_Ctr => 3 | BlockMode_Gcm => 32
  end.
#[export, refine] Instance BlockMode_enum : REnum BlockMode := {| discr := BlockMode_discr;
  variants := [BlockMode_Ecb; BlockMode_Cbc; BlockMode_Ctr; BlockMode_Gcm] |}.
Proof.
  - abstract (intros []; enum_complete).
  - abstract (apply (bool_decide_unpack _); vm_compute; exact I).
Defined.
#[export] Instance BlockMode_eq_dec : EqDecision BlockMode := enum_eq_dec.

Inductive Digest : Set :=
| Digest_None | Digest_Md5 | Digest_Sha1 | Digest_Sha224 | Digest_Sha256 | Digest_Sha384
| Digest_Sha512.
Definition Digest_discr (v : Digest) : Z :=
  match v with
  | Digest_None => 0 | Digest_Md5 => 1 | Digest_Sha1 => 2 | Digest_Sha224 => 3
  | Digest_Sha256 => 4 | Digest_Sha384 => 5 | Digest_Sha512 => 6
  end.
#[export, refine] Instance Digest_enum : REnum Digest := {| discr := Digest_discr;
  variants := [Digest_None; Digest_Md5; Digest_Sha1; Digest_Sha224; Digest_Sha256; Digest_Sha384;
    Digest_Sha512] |}.
Proof.
  - abstract (intros []; enum_complete).
  - abstract (apply (bool_decide_unpack _); vm_compute; exact I).
Defined.
#[export] Instance Digest_eq_dec : EqDecision Digest := enum_eq_dec.

Inductive EcCurve : Set :=
| EcCurve_P224 | EcCurve_P256 | EcCurve_P384 | EcCurve_P521 | EcCurve_Curve25519.
Definition EcCurve_discr (v : EcCurve) : Z :=
  match v with
  | EcCurve_P224 => 0 | EcCurve_P256 => 1 | EcCurve_P384 => 2 | EcCurve_P521 => 3
  | EcCurve_Curve25519 => 4
  end.
#[export, refine] Instance EcCurve_enum : REnum EcCurve := {| discr := EcCurve_discr;
  variants := [EcCurve_P224; EcCurve_P256; EcCurve_P384; EcCurve_P521; EcCurve_Curve25519] |}.
Proof.
  - abstract (intros []; enum_complete).
  - abstract (apply (bool_decide_unpack _); vm_compute; exact I).
Defined.
#[export] Instance EcCurve_eq_dec : EqDecision EcCurve := enum_eq_dec.

Inductive ErrorCode : Set :=
| ErrorCode_Ok | RootOfTrustAlreadySet | UnsupportedPurpose | IncompatiblePurpose
| UnsupportedAlgorithm | IncompatibleAlgorithm | UnsupportedKeySize | UnsupportedBlockMode
| IncompatibleBlockMode | UnsupportedMacLength | UnsupportedPaddingMode | IncompatiblePaddingMode
| UnsupportedDigest | IncompatibleDigest | InvalidExpirationTime | InvalidUserId
| InvalidAuthorizationTimeout | UnsupportedKeyFormat | IncompatibleKeyFormat
| UnsupportedKeyEncryptionAlgorithm | UnsupportedKeyVerificationAlgorithm | InvalidInputLength
| KeyExportOptionsInvalid | DelegationNotAllowed | KeyNotYetValid | KeyExpired
| KeyUserNotAuthenticated | OutputParameterNull | InvalidOperationHandle
| InsufficientBufferSpace | VerificationFailed | TooManyOperations | UnexpectedNullPointer
| InvalidKeyBlob | ImportedKeyNotEncrypted | ImportedKeyDecryptionFailed | ImportedKeyNotSigned
| ImportedKeyVerificationFailed | InvalidArgument | UnsupportedTag | InvalidTag
| MemoryAllocationFailed | ImportParameterMismatch | SecureHwAccessDenied | OperationCancelled
| ConcurrentAccessConflict | SecureHwBusy | SecureHwCommunicationFailed | UnsupportedEcField
| MissingNonce | InvalidNonce | MissingMacLength | KeyRateLimitExceeded | CallerNonceProhibited
| KeyMaxOpsExceeded | InvalidMacLength | MissingMinMacLength | UnsupportedMinMacLength
| UnsupportedKdf | UnsupportedEcCurve | KeyRequiresUpgrade | AttestationChallengeMissing
| KeymintNotConfigured | AttestationApplicationIdMissing | CannotAttestIds
| RollbackResistanceUnavailable | HardwareTypeUnavailable | ProofOfPresenceRequired
| ConcurrentProofOfPresenceRequested | NoUserConfirmation | DeviceLocked | EarlyBootEnded
| AttestationKeysNotProvisioned | AttestationIdsNotProvisioned | InvalidOperation
| StorageKeyUnsupported | IncompatibleMgfDigest | UnsupportedMgfDigest | MissingNotBefore
| MissingNotAfter | MissingIssuerSubject | InvalidIssuerSubject | BootLevelExceeded
| HardwareNotYetAvailable | ModuleHashAlreadySet | Unimplemented | VersionMismatch | UnknownError
| EncodingError | BoringSslError.
Definition ErrorCode_discr (v : ErrorCode) : Z :=
  match v with
  | ErrorCode_Ok => 0 | RootOfTrustAlreadySet => (-1) | UnsupportedPurpose => (-2)
  | IncompatiblePurpose => (-3) | UnsupportedAlgorithm => (-4) | IncompatibleAlgorithm => (-5)
  | UnsupportedKeySize => (-6) | UnsupportedBlockMode => (-7) | IncompatibleBlockMode => (-8)
  | UnsupportedMacLength => (-9) | UnsupportedPaddingMode => (-10)
  | IncompatiblePaddingMode => (-11) | UnsupportedDigest => (-12) | IncompatibleDigest => (-13)
  | InvalidExpirationTime => (-14) | InvalidUserId => (-15)
  | InvalidAuthorizationTimeout => (-16) | UnsupportedKeyFormat => (-17)
  | IncompatibleKeyFormat => (-18) | UnsupportedKeyEncryptionAlgorithm => (-19)
  | UnsupportedKeyVerificationAlgorithm => (-20) | InvalidInputLength => (-21)
  | KeyExportOptionsInvalid => (-22) | DelegationNotAllowed => (-23) | KeyNotYetValid => (-24)
  | KeyExpired => (-25) | KeyUserNotAuthenticated => (-26) | OutputParameterNull => (-27)
  | InvalidOperationHandle => (-28) | InsufficientBufferSpace => (-29)
  | VerificationFailed => (-30) | TooManyOperations => (-31) | UnexpectedNullPointer => (-32)
  | InvalidKeyBlob => (-33) | ImportedKeyNotEncrypted => (-34)
  | ImportedKeyDecryptionFailed => (-35) | ImportedKeyNotSigned => (-36)
  | ImportedKeyVerificationFailed => (-37) | InvalidArgument => (-38) | UnsupportedTag => (-39)
  | InvalidTag => (-40) | MemoryAllocationFailed => (-41) | ImportParameterMismatch => (-44)
  | SecureHwAccessDenied => (-45) | OperationCancelled => (-46)
  | ConcurrentAccessConflict => (-47) | SecureHwBusy => (-48)
  | SecureHwCommunicationFailed => (-49) | UnsupportedEcField => (-50) | MissingNonce => (-51)
  | InvalidNonce => (-52) | MissingMacLength => (-53) | KeyRateLimitExceeded => (-54)
  | CallerNonceProhibited => (-55) | KeyMaxOpsExceeded => (-56) | InvalidMacLength => (-57)
  | MissingMinMacLength => (-58) | UnsupportedMinMacLength => (-59) | UnsupportedKdf => (-60)
  | UnsupportedEcCurve => (-61) | KeyRequiresUpgrade => (-62)
  | AttestationChallengeMissing => (-63) | KeymintNotConfigured => (-64)
  | AttestationApplicationIdMissing => (-65) | CannotAttestIds => (-66)
  | RollbackResistanceUnavailable => (-67) | HardwareTypeUnavailable => (-68)
  | ProofOfPresenceRequired => (-69) | ConcurrentProofOfPresenceRequested => (-70)
  | NoUserConfirmation => (-71) | DeviceLocked => (-72) | EarlyBootEnded => (-73)
  | AttestationKeysNotProvisioned => (-74) | AttestationIdsNotProvisioned => (-75)
  | InvalidOperation => (-76) | StorageKeyUnsupported => (-77) | IncompatibleMgfDigest => (-78)
  | UnsupportedMgfDigest => (-79) | MissingNotBefore => (-80) | MissingNotAfter => (-81)
  | MissingIssuerSubject => (-82) | InvalidIssuerSubject => (-83) | BootLevelExceeded => (-84)
  | HardwareNotYetAvailable => (-85) | ModuleHashAlreadySet => (-86) | Unimplemented => (-100)
  | VersionMismatch => (-101) | UnknownError => (-1000) | EncodingError => (-20000)
  | BoringSslError => (-30000)
  end.
#[export, refine] Instance ErrorCode_enum : REnum ErrorCode := {| discr := ErrorCode_discr;
  variants := [ErrorCode_Ok; RootOfTrustAlreadySet; UnsupportedPurpose; IncompatiblePurpose;
    UnsupportedAlgorithm; IncompatibleAlgorithm; UnsupportedKeySize; UnsupportedBlockMode;
    IncompatibleBlockMode; UnsupportedMacLength; UnsupportedPaddingMode; IncompatiblePaddingMode;
    UnsupportedDigest; IncompatibleDigest; InvalidExpirationTime; InvalidUserId;
    InvalidAuthorizationTimeout; UnsupportedKeyFormat; IncompatibleKeyFormat;
    UnsupportedKeyEncryptionAlgorithm; UnsupportedKeyVerificationAlgorithm; InvalidInputLength;
    KeyExportOptionsInvalid; DelegationNotAllowed; KeyNotYetValid; KeyExpired;
    KeyUserNotAuthenticated; OutputParameterNull; InvalidOperationHandle;
    InsufficientBufferSpace; VerificationFailed; TooManyOperations; UnexpectedNullPointer;
    InvalidKeyBlob; ImportedKeyNotEncrypted; ImportedKeyDecryptionFailed; ImportedKeyNotSigned;
    ImportedKeyVerificationFailed; InvalidArgument; UnsupportedTag; InvalidTag;
    MemoryAllocationFailed; ImportParameterMismatch; SecureHwAccessDenied; OperationCancelled;
    ConcurrentAccessConflict; SecureHwBusy; SecureHwCommunicationFailed; UnsupportedEcField;
    MissingNonce; InvalidNonce; MissingMacLength; KeyRateLimitExceeded; CallerNonceProhibited;
    KeyMaxOpsExceeded; InvalidMacLength; MissingMinMacLength; UnsupportedMinMacLength;
    UnsupportedKdf; UnsupportedEcCurve; KeyRequiresUpgrade; AttestationChallengeMissing;
    KeymintNotConfigured; AttestationApplicationIdMissing; CannotAttestIds;
    RollbackResistanceUnavailable; HardwareTypeUnavailable; ProofOfPresenceRequired;
    ConcurrentProofOfPresenceRequested; NoUserConfirmation; DeviceLocked; EarlyBootEnded;
    AttestationKeysNotProvisioned; AttestationIdsNotProvisioned; InvalidOperation;
    StorageKeyUnsupported; IncompatibleMgfDigest; UnsupportedMgfDigest; MissingNotBefore;
    MissingNotAfter; MissingIssuerSubject; InvalidIssuerSubject; BootLevelExceeded;
    HardwareNotYetAvailable; ModuleHashAlreadySet; Unimplemented; VersionMismatch; UnknownError;
    EncodingError; BoringSslError] |}.
Proof.
  - abstract (intros []; enum_complete).
  - abstract (apply (bool_decide_unpack _); vm_compute; exact I).
Defined.
#[export] Instance ErrorCode_eq_dec : EqDecision ErrorCode := enum_eq_dec.

Inductive HardwareAuthenticatorType : Set :=
| HardwareAuthenticatorType_None | HardwareAuthenticatorType_Password
| HardwareAuthenticatorType_Fingerprint | HardwareAuthenticatorType_Any.
Definition HardwareAuthenticatorType_discr (v : HardwareAuthenticatorType) : Z :=
  match v with
  | HardwareAuthenticatorType_None => 0 | HardwareAuthenticatorType_Password => 1
  | HardwareAuthenticatorType_Fingerprint => 2 | HardwareAuthenticatorType_Any => (-1)
  end.
#[export, refine] Instance HardwareAuthenticatorType_enum : REnum HardwareAuthenticatorType := {| discr := HardwareAuthenticatorType_discr;
  variants := [HardwareAuthenticatorType_None; HardwareAuthenticatorType_Password;
    HardwareAuthenticatorType_Fingerprint; HardwareAuthenticatorType_Any] |}.
Proof.
  - abstract (intros []; enum_complete).
  - abstract (apply (bool_decide_unpack _); vm_compute; exact I).
Defined.
#[export] Instance HardwareAuthenticatorType_eq_dec : EqDecision HardwareAuthenticatorType := enum_eq_dec.

Inductive KeyFormat : Set :=
| KeyFormat_X509 | KeyFormat_Pkcs8 | KeyFormat_Raw.
Definition KeyFormat_discr (v : KeyFormat) : Z :=
  match v with
  | KeyFormat_X509 => 0 | KeyFormat_Pkcs8 => 1 | KeyFormat_Raw => 3
  end.
#[export, refine] Instance KeyFormat_enum : REnum KeyFormat := {| discr := KeyFormat_discr;
  variants := [KeyFormat_X509; KeyFormat_Pkcs8; KeyFormat_Raw] |}.
Proof.
  - abstract (intros []; enum_complete).
  - abstract (apply (bool_decide_unpack _); vm_compute; exact I).
Defined.
#[export] Instance KeyFormat_eq_dec : EqDecision KeyFormat := enum_eq_dec.

Inductive KeyOrigin : Set :=
| KeyOrigin_Generated | KeyOrigin_Derived | KeyOrigin_Imported | KeyOrigin_Reserved
| KeyOrigin_SecurelyImported.
Definition KeyOrigin_discr (v : KeyOrigin) : Z :=
  match v with
  | KeyOrigin_Generated => 0 | KeyOrigin_Derived => 1 | KeyOrigin_Imported => 2
  | KeyOrigin_Reserved => 3 | KeyOrigin_SecurelyImported => 4
  end.
#[export, refine] Instance KeyOrigin_enum : REnum KeyOrigin := {| discr := KeyOrigin_discr;
  variants := [KeyOrigin_Generated; KeyOrigin_Derived; KeyOrigin_Imported; KeyOrigin_Reserved;
    KeyOrigin_SecurelyImported] |}.
Proof.
  - abstract (intros []; enum_complete).
  - abstract (apply (bool_decide_unpack _); vm_compute; exact I).
Defined.
#[export] Instance KeyOrigin_eq_dec : EqDecision KeyOrigin := enum_eq_dec.

Inductive KeyPurpose : Set :=
| KeyPurpose_Encrypt | KeyPurpose_Decrypt | KeyPurpose_Sign | KeyPurpose_Verify
| KeyPurpose_WrapKey | KeyPurpose_AgreeKey | KeyPurpose_AttestKey.
Definition KeyPurpose_discr (v : KeyPurpose) : Z :=
  match v with
  | KeyPurpose_Encrypt => 0 | KeyPurpose_Decrypt => 1 | KeyPurpose_Sign => 2
  | KeyPurpose_Verify => 3 | KeyPurpose_WrapKey => 5 | KeyPurpose_AgreeKey => 6
  | KeyPurpose_AttestKey => 7
  end.
#[export, refine] Instance KeyPurpose_enum : REnum KeyPurpose := {| discr := KeyPurpose_discr;
  variants := [KeyPurpose_Encrypt; KeyPurpose_Decrypt; KeyPurpose_Sign; KeyPurpose_Verify;
    KeyPurpose_WrapKey; KeyPurpose_AgreeKey; KeyPurpose_AttestKey] |}.
Proof.
  - abstract (intros []; enum_complete).
  - abstract (apply (bool_decide_unpack _); vm_compute; exact I).
Defined.
#[export] Instance KeyPurpose_eq_dec : EqDecision KeyPurpose := enum_eq_dec.

Inductive PaddingMode : Set :=
| PaddingMode_None | PaddingMode_RsaOaep | PaddingMode_RsaPss | PaddingMode_RsaPkcs115Encrypt
| PaddingMode_RsaPkcs115Sign | PaddingMode_Pkcs7.
Definition PaddingMode_discr (v : PaddingMode) : Z :=
  match v with
  | PaddingMode_None => 1 | PaddingMode_RsaOaep => 2 | PaddingMode_RsaPss => 3
  | PaddingMode_RsaPkcs115Encrypt => 4 | PaddingMode_RsaPkcs115Sign => 5
  | PaddingMode_Pkcs7 => 64
  end.
#[export, refine] Instance PaddingMode_enum : REnum PaddingMode := {| discr := PaddingMode_discr;
  variants := [PaddingMode_None; PaddingMode_RsaOaep; PaddingMode_RsaPss; PaddingMode_RsaPkcs115Encrypt;
    PaddingMode_RsaPkcs115Sign; PaddingMode_Pkcs7] |}.
Proof.
  - abstract (intros []; enum_complete).
  - abstract (apply (bool_decide_unpack _); vm_compute; exact I).
Defined.
#[export] Instance PaddingMode_eq_dec : EqDecision PaddingMode := enum_eq_dec.

Inductive SecurityLevel : Set :=
| SecurityLevel_Software | SecurityLevel_TrustedEnvironment | SecurityLevel_Strongbox
| SecurityLevel_Keystore.
Definition SecurityLevel_discr (v : SecurityLevel) : Z :=
  match v with
  | SecurityLevel_Software => 0 | SecurityLevel_TrustedEnvironment => 1
  | SecurityLevel_Strongbox => 2 | SecurityLevel_Keystore => 100
  end.
#[export, refine] Instance SecurityLevel_enum : REnum SecurityLevel := {| discr := SecurityLevel_discr;
  variants := [SecurityLevel_Software; SecurityLevel_TrustedEnvironment; SecurityLevel_Strongbox;
    SecurityLevel_Keystore] |}.
Proof.
  - abstract (intros []; enum_complete).
  - abstract (apply (bool_decide_unpack _); vm_compute; exact I).
Defined.
#[export] Instance SecurityLevel_eq_dec : EqDecision SecurityLevel := enum_eq_dec.

Inductive Tag : Set :=
| Tag_Invalid | Tag_Purpose | Tag_Algorithm | Tag_KeySize | Tag_BlockMode | Tag_Digest
| Tag_Padding | Tag_CallerNonce | Tag_MinMacLength | Tag_EcCurve | Tag_RsaPublicExponent
| Tag_IncludeUniqueId | Tag_RsaOaepMgfDigest | Tag_BootloaderOnly | Tag_RollbackResistance
| Tag_HardwareType | Tag_EarlyBootOnly | Tag_ActiveDatetime | Tag_OriginationExpireDatetime
| Tag_UsageExpireDatetime | Tag_MinSecondsBetweenOps | Tag_MaxUsesPerBoot | Tag_UsageCountLimit
| Tag_UserId | Tag_UserSecureId | Tag_NoAuthRequired | Tag_UserAuthType | Tag_AuthTimeout
| Tag_AllowWhileOnBody | Tag_TrustedUserPresenceRequired | Tag_TrustedConfirmationRequired
| Tag_UnlockedDeviceRequired | Tag_ApplicationId | Tag_ApplicationData | Tag_CreationDatetime
| Tag_Origin | Tag_RootOfTrust | Tag_OsVersion | Tag_OsPatchlevel | Tag_UniqueId
| Tag_AttestationChallenge | Tag_AttestationApplicationId | Tag_AttestationIdBrand
| Tag_AttestationIdDevice | Tag_AttestationIdProduct | Tag_AttestationIdSerial
| Tag_AttestationIdImei | Tag_AttestationIdMeid | Tag_AttestationIdManufacturer
| Tag_AttestationIdModel | Tag_VendorPatchlevel | Tag_BootPatchlevel
| Tag_DeviceUniqueAttestation | Tag_IdentityCredentialKey | Tag_StorageKey
| Tag_AttestationIdSecondImei | Tag_AssociatedData | Tag_Nonce | Tag_MacLength
| Tag_ResetSinceIdRotation | Tag_ConfirmationToken | Tag_CertificateSerial
| Tag_CertificateSubject | Tag_CertificateNotBefore | Tag_CertificateNotAfter | Tag_MaxBootLevel
| Tag_ModuleHash.
Definition Tag_discr (v : Tag) : Z :=
  match v with
  | Tag_Invalid => 0 | Tag_Purpose => 536870913 | Tag_Algorithm => 268435458
  | Tag_KeySize => 805306371 | Tag_BlockMode => 536870916 | Tag_Digest => 536870917
  | Tag_Padding => 536870918 | Tag_CallerNonce => 1879048199 | Tag_MinMacLength => 805306376
  | Tag_EcCurve => 268435466 | Tag_RsaPublicExponent => 1342177480
  | Tag_IncludeUniqueId => 1879048394 | Tag_RsaOaepMgfDigest => 536871115
  | Tag_BootloaderOnly => 1879048494 | Tag_RollbackResistance => 1879048495
  | Tag_HardwareType => 268435760 | Tag_EarlyBootOnly => 1879048497
  | Tag_ActiveDatetime => 1610613136 | Tag_OriginationExpireDatetime => 1610613137
  | Tag_UsageExpireDatetime => 1610613138 | Tag_MinSecondsBetweenOps => 805306771
  | Tag_MaxUsesPerBoot => 805306772 | Tag_UsageCountLimit => 805306773 | Tag_UserId => 805306869
  | Tag_UserSecureId => (-1610612234) | Tag_NoAuthRequired => 1879048695
  | Tag_UserAuthType => 268435960 | Tag_AuthTimeout => 805306873
  | Tag_AllowWhileOnBody => 1879048698 | Tag_TrustedUserPresenceRequired => 1879048699
  | Tag_TrustedConfirmationRequired => 1879048700 | Tag_UnlockedDeviceRequired => 1879048701
  | Tag_ApplicationId => (-1879047591) | Tag_ApplicationData => (-1879047492)
  | Tag_CreationDatetime => 1610613437 | Tag_Origin => 268436158
  | Tag_RootOfTrust => (-1879047488) | Tag_OsVersion => 805307073 | Tag_OsPatchlevel => 805307074
  | Tag_UniqueId => (-1879047485) | Tag_AttestationChallenge => (-1879047484)
  | Tag_AttestationApplicationId => (-1879047483) | Tag_AttestationIdBrand => (-1879047482)
  | Tag_AttestationIdDevice => (-1879047481) | Tag_AttestationIdProduct => (-1879047480)
  | Tag_AttestationIdSerial => (-1879047479) | Tag_AttestationIdImei => (-1879047478)
  | Tag_AttestationIdMeid => (-1879047477) | Tag_AttestationIdManufacturer => (-1879047476)
  | Tag_AttestationIdModel => (-1879047475) | Tag_VendorPatchlevel => 805307086
  | Tag_BootPatchlevel => 805307087 | Tag_DeviceUniqueAttestation => 1879048912
  | Tag_IdentityCredentialKey => 1879048913 | Tag_StorageKey => 1879048914
  | Tag_AttestationIdSecondImei => (-1879047469) | Tag_AssociatedData => (-1879047192)
  | Tag_Nonce => (-1879047191) | Tag_MacLength => 805307371
  | Tag_ResetSinceIdRotation => 1879049196 | Tag_ConfirmationToken => (-1879047187)
  | Tag_CertificateSerial => (-2147482642) | Tag_CertificateSubject => (-1879047185)
  | Tag_CertificateNotBefore => 1610613744 | Tag_CertificateNotAfter => 1610613745
  | Tag_MaxBootLevel => 805307378 | Tag_ModuleHash => (-1879047468)
  end.
#[export, refine] Instance Tag_enum : REnum Tag := {| discr := Tag_discr;
  variants := [Tag_Invalid; Tag_Purpose; Tag_Algorithm; Tag_KeySize; Tag_BlockMode; Tag_Digest; Tag_Padding;
    Tag_CallerNonce; Tag_MinMacLength; Tag_EcCurve; Tag_RsaPublicExponent; Tag_IncludeUniqueId;
    Tag_RsaOaepMgfDigest; Tag_BootloaderOnly; Tag_RollbackResistance; Tag_HardwareType;
    Tag_EarlyBootOnly; Tag_ActiveDatetime; Tag_OriginationExpireDatetime;
    Tag_UsageExpireDatetime; Tag_MinSecondsBetweenOps; Tag_MaxUsesPerBoot; Tag_UsageCountLimit;
    Tag_UserId; Tag_UserSecureId; Tag_NoAuthRequired; Tag_UserAuthType; Tag_AuthTimeout;
    Tag_AllowWhileOnBody; Tag_TrustedUserPresenceRequired; Tag_TrustedConfirmationRequired;
    Tag_UnlockedDeviceRequired; Tag_ApplicationId; Tag_ApplicationData; Tag_CreationDatetime;
    Tag_Origin; Tag_RootOfTrust; Tag_OsVersion; Tag_OsPatchlevel; Tag_UniqueId;
    Tag_AttestationChallenge; Tag_AttestationApplicationId; Tag_AttestationIdBrand;
    Tag_AttestationIdDevice; Tag_AttestationIdProduct; Tag_AttestationIdSerial;
    Tag_AttestationIdImei; Tag_AttestationIdMeid; Tag_AttestationIdManufacturer;
    Tag_AttestationIdModel; Tag_VendorPatchlevel; Tag_BootPatchlevel;
    Tag_DeviceUniqueAttestation; Tag_IdentityCredentialKey; Tag_StorageKey;
    Tag_AttestationIdSecondImei; Tag_AssociatedData; Tag_Nonce; Tag_MacLength;
    Tag_ResetSinceIdRotation; Tag_ConfirmationToken; Tag_CertificateSerial;
    Tag_CertificateSubject; Tag_CertificateNotBefore; Tag_CertificateNotAfter; Tag_MaxBootLevel;
    Tag_ModuleHash] |}.
Proof.
  - abstract (intros []; enum_complete).
  - abstract (apply (bool_decide_unpack _); vm_compute; exact I).
Defined.
#[export] Instance Tag_eq_dec : EqDecision Tag := enum_eq_dec.

Inductive TagType : Set :=
| TagType_Invalid | TagType_Enum | TagType_EnumRep | TagType_Uint | TagType_UintRep
| TagType_Ulong | TagType_Date | TagType_Bool | TagType_Bignum | TagType_Bytes | TagType_UlongRep.
Definition TagType_discr (v : TagType) : Z :=
  match v with
  | TagType_Invalid => 0 | TagType_Enum => 268435456 | TagType_EnumRep => 536870912
  | TagType_Uint => 805306368 | TagType_UintRep => 1073741824 | TagType_Ulong => 1342177280
  | TagType_Date => 1610612736 | TagType_Bool => 1879048192 | TagType_Bignum => (-2147483648)
  | TagType_Bytes => (-1879048192) | TagType_UlongRep => (-1610612736)
  end.
#[export, refine] Instance TagType_enum : REnum TagType := {| discr := TagType_discr;
  variants := [TagType_Invalid; TagType_Enum; TagType_EnumRep; TagType_Uint; TagType_UintRep; TagType_Ulong;
    TagType_Date; TagType_Bool; TagType_Bignum; TagType_Bytes; TagType_UlongRep] |}.
Proof.
  - abstract (intros []; enum_complete).
  - abstract (apply (bool_decide_unpack _); vm_compute; exact I).
Defined.
#[export] Instance TagType_eq_dec : EqDecision TagType := enum_eq_dec.

Inductive KeyParam : Set :=
| KP_Purpose (v : KeyPurpose) | KP_Algorithm (v : Algorithm) | KP_KeySize (v : Z)
| KP_BlockMode (v : BlockMode) | KP_Digest (v : Digest) | KP_Padding (v : PaddingMode)
| KP_CallerNonce | KP_MinMacLength (v : Z) | KP_EcCurve (v : EcCurve)
| KP_RsaPublicExponent (v : Z) | KP_IncludeUniqueId | KP_RsaOaepMgfDigest (v : Digest)
| KP_BootloaderOnly | KP_RollbackResistance | KP_EarlyBootOnly | KP_ActiveDatetime (v : Z)
| KP_OriginationExpireDatetime (v : Z) | KP_UsageExpireDatetime (v : Z)
| KP_MaxUsesPerBoot (v : Z) | KP_UsageCountLimit (v : Z) | KP_UserId (v : Z)
| KP_UserSecureId (v : Z) | KP_NoAuthRequired | KP_UserAuthType (v : Z) | KP_AuthTimeout (v : Z)
| KP_AllowWhileOnBody | KP_TrustedUserPresenceRequired | KP_TrustedConfirmationRequired
| KP_UnlockedDeviceRequired | KP_ApplicationId (v : bytes) | KP_ApplicationData (v : bytes)
| KP_CreationDatetime (v : Z) | KP_Origin (v : KeyOrigin) | KP_RootOfTrust (v : bytes)
| KP_OsVersion (v : Z) | KP_OsPatchlevel (v : Z) | KP_AttestationChallenge (v : bytes)
| KP_AttestationApplicationId (v : bytes) | KP_AttestationIdBrand (v : bytes)
| KP_AttestationIdDevice (v : bytes) | KP_AttestationIdProduct (v : bytes)
| KP_AttestationIdSerial (v : bytes) | KP_AttestationIdImei (v : bytes)
| KP_AttestationIdSecondImei (v : bytes) | KP_AttestationIdMeid (v : bytes)
| KP_AttestationIdManufacturer (v : bytes) | KP_AttestationIdModel (v : bytes)
| KP_VendorPatchlevel (v : Z) | KP_BootPatchlevel (v : Z) | KP_DeviceUniqueAttestation
| KP_StorageKey | KP_Nonce (v : bytes) | KP_MacLength (v : Z) | KP_ResetSinceIdRotation
| KP_CertificateSerial (v : bytes) | KP_CertificateSubject (v : bytes)
| KP_CertificateNotBefore (v : Z) | KP_CertificateNotAfter (v : Z) | KP_MaxBootLevel (v : Z)
| KP_ModuleHash (v : bytes).

Definition tag (p : KeyParam) : Tag :=
  match p with
  | KP_Purpose _ => Tag_Purpose | KP_Algorithm _ => Tag_Algorithm | KP_KeySize _ => Tag_KeySize
  | KP_BlockMode _ => Tag_BlockMode | KP_Digest _ => Tag_Digest | KP_Padding _ => Tag_Padding
  | KP_CallerNonce => Tag_CallerNonce | KP_MinMacLength _ => Tag_MinMacLength
  | KP_EcCurve _ => Tag_EcCurve | KP_RsaPublicExponent _ => Tag_RsaPublicExponent
  | KP_IncludeUniqueId => Tag_IncludeUniqueId | KP_RsaOaepMgfDigest _ => Tag_RsaOaepMgfDigest
  | KP_BootloaderOnly => Tag_BootloaderOnly | KP_RollbackResistance => Tag_RollbackResistance
  | KP_EarlyBootOnly => Tag_EarlyBootOnly | KP_ActiveDatetime _ => Tag_ActiveDatetime
  | KP_OriginationExpireDatetime _ => Tag_OriginationExpireDatetime
  | KP_UsageExpireDatetime _ => Tag_UsageExpireDatetime
  | KP_MaxUsesPerBoot _ => Tag_MaxUsesPerBoot | KP_UsageCountLimit _ => Tag_UsageCountLimit
  | KP_UserId _ => Tag_UserId | KP_UserSecureId _ => Tag_UserSecureId
  | KP_NoAuthRequired => Tag_NoAuthRequired | KP_UserAuthType _ => Tag_UserAuthType
  | KP_AuthTimeout _ => Tag_AuthTimeout | KP_AllowWhileOnBody => Tag_AllowWhileOnBody
  | KP_TrustedUserPresenceRequired => Tag_TrustedUserPresenceRequired
  | KP_TrustedConfirmationRequired => Tag_TrustedConfirmationRequired
  | KP_UnlockedDeviceRequired => Tag_UnlockedDeviceRequired
  | KP_ApplicationId _ => Tag_ApplicationId | KP_ApplicationData _ => Tag_ApplicationData
  | KP_CreationDatetime _ => Tag_CreationDatetime | KP_Origin _ => Tag_Origin
  | KP_RootOfTrust _ => Tag_RootOfTrust | KP_OsVersion _ => Tag_OsVersion
  | KP_OsPatchlevel _ => Tag_OsPatchlevel | KP_AttestationChallenge _ => Tag_AttestationChallenge
  | KP_AttestationApplicationId _ => Tag_AttestationApplicationId
  | KP_AttestationIdBrand _ => Tag_AttestationIdBrand
  | KP_AttestationIdDevice _ => Tag_AttestationIdDevice
  | KP_AttestationIdProduct _ => Tag_AttestationIdProduct
  | KP_AttestationIdSerial _ => Tag_AttestationIdSerial
  | KP_AttestationIdImei _ => Tag_AttestationIdImei
  | KP_AttestationIdSecondImei _ => Tag_AttestationIdSecondImei
  | KP_AttestationIdMeid _ => Tag_AttestationIdMeid
  | KP_AttestationIdManufacturer _ => Tag_AttestationIdManufacturer
  | KP_AttestationIdModel _ => Tag_AttestationIdModel
  | KP_VendorPatchlevel _ => Tag_VendorPatchlevel | KP_BootPatchlevel _ => Tag_BootPatchlevel
  | KP_DeviceUniqueAttestation => Tag_DeviceUniqueAttestation | KP_StorageKey => Tag_StorageKey
  | KP_Nonce _ => Tag_Nonce | KP_MacLength _ => Tag_MacLength
  | KP_ResetSinceIdRotation => Tag_ResetSinceIdRotation
  | KP_CertificateSerial _ => Tag_CertificateSerial
  | KP_CertificateSubject _ => Tag_CertificateSubject
  | KP_CertificateNotBefore _ => Tag_CertificateNotBefore
  | KP_CertificateNotAfter _ => Tag_CertificateNotAfter | KP_MaxBootLevel _ => Tag_MaxBootLevel
  | KP_ModuleHash _ => Tag_ModuleHash
  end.

#[export] Instance KeyParam_eq_dec : EqDecision KeyParam.
Proof. solve_decision. Defined.

(** The integer payloads of a parameter fit their Rust type. *)
Definition kp_wf (p : KeyParam) : Prop :=
  match p with
  | KP_KeySize v | KP_MinMacLength v | KP_MaxUsesPerBoot v | KP_UsageCountLimit v | KP_UserId v
  | KP_UserAuthType v | KP_AuthTimeout v | KP_OsVersion v | KP_OsPatchlevel v
  | KP_VendorPatchlevel v | KP_BootPatchlevel v | KP_MacLength v | KP_MaxBootLevel v => is_u32 v
  | KP_RsaPublicExponent v | KP_UserSecureId v => is_u64 v
  | KP_ActiveDatetime v | KP_OriginationExpireDatetime v | KP_UsageExpireDatetime v
  | KP_CreationDatetime v | KP_CertificateNotBefore v | KP_CertificateNotAfter v => is_i64 v
  | _ => True
  end.

(** ** Tag types *)

(** [tag as u32]. *)
Definition tag_u32 (t : Tag) : Z := as_u32 (Tag_discr t).

Definition tag_type (t : Tag) : TagType :=
  let x := as_i32 (Z.land (tag_u32 t) 0xf0000000) in
  if decide (x = TagType_discr TagType_Enum) then TagType_Enum
  else if decide (x = TagType_discr TagType_EnumRep) then TagType_EnumRep
  else if decide (x = TagType_discr TagType_Uint) then TagType_Uint
  else if decide (x = TagType_discr TagType_UintRep) then TagType_UintRep
  else if decide (x = TagType_discr TagType_Ulong) then TagType_Ulong
  else if decide (x = TagType_discr TagType_Date) then TagType_Date
  else if decide (x = TagType_discr TagType_Bool) then TagType_Bool
  else if decide (x = TagType_discr TagType_Bignum) then TagType_Bignum
  else if decide (x = TagType_discr TagType_Bytes) then TagType_Bytes
  else if decide (x = TagType_discr TagType_UlongRep) then TagType_UlongRep
  else TagType_Invalid.

Definition raw_tag_value (t : Tag) : Z := Z.land (tag_u32 t) 0x0fffffff.

(** ** Structures *)

Definition DEFAULT_CERT_SERIAL : bytes := u8_of <$> [1].
Definition DEFAULT_CERT_SUBJECT : bytes := u8_of <$>
  [ 0x30; 0x1f; 0x31; 0x1d; 0x30; 0x1b; 0x06; 0x03; 0x55; 0x04; 0x03; 0x0c; 0x14;
    0x41; 0x6e; 0x64; 0x72; 0x6f; 0x69; 0x64; 0x20; 0x4b; 0x65; 0x79; 0x73; 0x74; 0x6f; 0x72; 0x65;
    0x20; 0x4b; 0x65; 0x79 ].
Definition NEXT_MESSAGE_SIGNAL_TRUE : u8 := u8_of 1.
Definition NEXT_MESSAGE_SIGNAL_FALSE : u8 := u8_of 0.
Definition UNDEFINED_NOT_BEFORE : Z := 0.
Definition UNDEFINED_NOT_AFTER : Z := 253402300799000.

Record BootInfo := {
  verified_boot_key : bytes;
  device_boot_locked : bool;
  verified_boot_state : VerifiedBootState;
  verified_boot_hash : bytes;
  boot_patchlevel : Z
}.
#[export] Instance BootInfo_eq_dec : EqDecision BootInfo.
Proof. solve_decision. Defined.

Record KeyCharacteristics := {
  security_level : SecurityLevel;
  authorizations : list KeyParam
}.
#[export] Instance KeyCharacteristics_eq_dec : EqDecision KeyCharacteristics.
Proof. solve_decision. Defined.

Record HardwareAuthToken := {
  hat_challenge : Z;
  hat_user_id : Z;
  hat_authenticator_id : Z;
  hat_authenticator_type : HardwareAuthenticatorType;
  hat_timestamp : Z;
  hat_mac : bytes
}.

Record TimeStampToken := {
  tst_challenge : Z;
  tst_timestamp : Z;
  tst_mac : bytes
}.

(** ** Errors *)

(** Failures of CBOR conversion. *)
Inductive CborError : Set :=
| DecodeFailed | EncodeFailed | ExtraneousData | OutOfRangeIntegerValue | NonEnumValue
| UnexpectedItem (got want : string) | InvalidValue | AllocationFailed.
#[export] Instance CborError_eq_dec : EqDecision CborError.
Proof. solve_decision. Defined.

(** Error codes of the [IRemotelyProvisionedComponent] HAL. *)
Inductive RpcErrorCode : Set :=
| Rpc_Ok | Rpc_Failed | Rpc_InvalidMac | Rpc_ProductionKeyInTestRequest
| Rpc_TestKeyInProductionRequest | Rpc_InvalidEek | Rpc_Removed.
Definition RpcErrorCode_discr (v : RpcErrorCode) : Z :=
  match v with
  | Rpc_Ok => 0 | Rpc_Failed => 1 | Rpc_InvalidMac => 2 | Rpc_ProductionKeyInTestRequest => 3
  | Rpc_TestKeyInProductionRequest => 4 | Rpc_InvalidEek => 5 | Rpc_Removed => 6
  end.
#[export] Instance RpcErrorCode_eq_dec : EqDecision RpcErrorCode.
Proof. solve_decision. Defined.

Inductive Error : Set :=
| Cbor (e : CborError)
| Der
| Hal (e : ErrorCode)
| Rpc (e : RpcErrorCode)
| Alloc.
#[export] Instance Error_eq_dec : EqDecision Error.
Proof. solve_decision. Defined.

Abbreviation Result A := (res Error A).

(** [Err(km_err!(code, ...))] *)
Abbreviation km_err e := (Err (Hal e)).

(** ** Facts about tags *)

(** The tag of a parameter and its payload's shape agree with the tag's type bits. *)
Lemma tag_u32_range t : is_u32 (tag_u32 t).
Proof. by apply as_unsigned_range. Qed.

Lemma discr_i32 (t : Tag) : is_i32 (discr t).
Proof. destruct t; by vm_compute. Qed.

Lemma tag_u32_discr t : as_i32 (tag_u32 t) = discr t.
Proof. apply as_signed_as_unsigned; [done|apply discr_i32]. Qed.

(** A tag splits into its type bits and its raw value without loss. *)
Lemma tag_type_raw_value (t : Tag) :
  tag_u32 t = Z.lor (as_u32 (discr (tag_type t))) (raw_tag_value t).
Proof. by destruct t. Qed.
