(* ===== verification/TagInfo.v ===== *)
(** * Static information about tags ([common/src/tag/info.rs])

    The [INFO] table, the tag classifications derived from it, and the
    bit-set based duplicate checker.  The table is consistent: every key
    parameter's tag has exactly one entry, whose type agrees with the tag's
    type bits, and the bit indices that drive the duplicate checker are
    distinct and below 64. *)

From S2P Require Import Prelude Wire.

Inductive Characteristic : Set :=
| KeyMintEnforced | KeyMintHidden | KeystoreEnforced | BothEnforced | NotKeyCharacteristic.
#[export] Instance Characteristic_eq_dec : EqDecision Characteristic.
Proof. solve_decision. Defined.

Inductive OperationParam : Set :=
| KeyGenImport | CipherExplicitArgOneOf | CipherParamOneOf | CipherParamExactMatch | CipherParam
| NotOperationParam.
#[export] Instance OperationParam_eq_dec : EqDecision OperationParam.
Proof. solve_decision. Defined.

Inductive ValueLifetime : Set := Lifetime_FixedAtBoot | Lifetime_FixedAtStartup | Lifetime_Variable.

Inductive CertGenParam : Set :=
| CertGen_NotRequired | CertGen_Required | CertGen_RequiredForAttestation | CertGen_Optional
| CertGen_OptionalForAttestation | CertGen_Special.

Record Info := mk_info {
  info_name : string;
  info_tt : TagType;
  ext_asn1_type : option string;
  user_can_specify : bool;
  characteristic : Characteristic;
  op_param : OperationParam;
  keymint_auto_adds : bool;
  lifetime : ValueLifetime;
  cert_gen : CertGenParam;
  bit_index : Z
}.

Definition KEYSTORE_ENFORCED_CHARACTERISTICS : list Tag := [
  Tag_ActiveDatetime; Tag_OriginationExpireDatetime; Tag_UsageExpireDatetime; Tag_UserId;
  Tag_AllowWhileOnBody; Tag_CreationDatetime; Tag_MaxBootLevel; Tag_UnlockedDeviceRequired
].
Definition KEYMINT_ENFORCED_CHARACTERISTICS : list Tag := [
  Tag_UserSecureId; Tag_Algorithm; Tag_EcCurve; Tag_UserAuthType; Tag_Origin; Tag_Purpose;
  Tag_BlockMode; Tag_Digest; Tag_Padding; Tag_RsaOaepMgfDigest; Tag_KeySize; Tag_MinMacLength;
  Tag_MaxUsesPerBoot; Tag_AuthTimeout; Tag_OsVersion; Tag_OsPatchlevel; Tag_VendorPatchlevel;
  Tag_BootPatchlevel; Tag_RsaPublicExponent; Tag_CallerNonce; Tag_BootloaderOnly;
  Tag_RollbackResistance; Tag_EarlyBootOnly; Tag_NoAuthRequired; Tag_TrustedUserPresenceRequired;
  Tag_TrustedConfirmationRequired; Tag_StorageKey
].
Definition AUTO_ADDED_CHARACTERISTICS : list Tag := [
  Tag_Origin; Tag_OsVersion; Tag_OsPatchlevel; Tag_VendorPatchlevel; Tag_BootPatchlevel
].

Section table.
Local Open Scope string_scope.
Local Open Scope list_scope.

Definition INFO_0 : list (Tag * Info) := [
  (Tag_Purpose, mk_info "PURPOSE" TagType_EnumRep (Some "SET OF INTEGER") true
    KeyMintEnforced CipherExplicitArgOneOf false Lifetime_Variable CertGen_NotRequired 0);
  (Tag_Algorithm, mk_info "ALGORITHM" TagType_Enum (Some "INTEGER") true
    KeyMintEnforced NotOperationParam false Lifetime_Variable CertGen_NotRequired 1);
  (Tag_KeySize, mk_info "KEY_SIZE" TagType_Uint (Some "INTEGER") true
    KeyMintEnforced NotOperationParam false Lifetime_Variable CertGen_NotRequired 2);
  (Tag_BlockMode, mk_info "BLOCK_MODE" TagType_EnumRep (None) true
    KeyMintEnforced CipherParamOneOf false Lifetime_Variable CertGen_NotRequired 3);
  (Tag_Digest, mk_info "DIGEST" TagType_EnumRep (Some "SET OF INTEGER") true
    KeyMintEnforced CipherParamOneOf false Lifetime_Variable CertGen_NotRequired 4);
  (Tag_Padding, mk_info "PADDING" TagType_EnumRep (Some "SET OF INTEGER") true
    KeyMintEnforced CipherParamOneOf false Lifetime_Variable CertGen_NotRequired 5);
  (Tag_CallerNonce, mk_info "CALLER_NONCE" TagType_Bool (None) true
    KeyMintEnforced NotOperationParam false Lifetime_Variable CertGen_NotRequired 6);
  (Tag_MinMacLength, mk_info "MIN_MAC_LENGTH" TagType_Uint (None) true
    KeyMintEnforced NotOperationParam false Lifetime_Variable CertGen_NotRequired 7);
  (Tag_EcCurve, mk_info "EC_CURVE" TagType_Enum (Some "INTEGER") true
    KeyMintEnforced NotOperationParam false Lifetime_Variable CertGen_NotRequired 8)
].
Definition INFO_1 : list (Tag * Info) := [
  (Tag_RsaPublicExponent, mk_info "RSA_PUBLIC_EXPONENT" TagType_Ulong (Some "INTEGER") true
    KeyMintEnforced NotOperationParam false Lifetime_Variable CertGen_NotRequired 9);
  (Tag_IncludeUniqueId, mk_info "INCLUDE_UNIQUE_ID" TagType_Bool (None) true
    NotKeyCharacteristic KeyGenImport false Lifetime_Variable CertGen_OptionalForAttestation 10);
  (Tag_RsaOaepMgfDigest, mk_info "RSA_OAEP_MGF_DIGEST" TagType_EnumRep (Some "SET OF INTEGER") true
    KeyMintEnforced CipherParamOneOf false Lifetime_Variable CertGen_NotRequired 11);
  (Tag_BootloaderOnly, mk_info "BOOTLOADER_ONLY" TagType_Bool (None) false
    KeyMintEnforced NotOperationParam false Lifetime_Variable CertGen_NotRequired 12);
  (Tag_RollbackResistance, mk_info "ROLLBACK_RESISTANCE" TagType_Bool (Some "NULL") true
    KeyMintEnforced NotOperationParam false Lifetime_Variable CertGen_NotRequired 13);
  (Tag_EarlyBootOnly, mk_info "EARLY_BOOT_ONLY" TagType_Bool (Some "NULL") true
    KeyMintEnforced NotOperationParam false Lifetime_Variable CertGen_NotRequired 14);
  (Tag_ActiveDatetime, mk_info "ACTIVE_DATETIME" TagType_Date (Some "INTEGER") true
    KeystoreEnforced NotOperationParam false Lifetime_Variable CertGen_NotRequired 15);
  (Tag_OriginationExpireDatetime, mk_info "ORIGINATION_EXPIRE_DATETIME" TagType_Date (Some "INTEGER") true
    KeystoreEnforced NotOperationParam false Lifetime_Variable CertGen_NotRequired 16);
  (Tag_UsageExpireDatetime, mk_info "USAGE_EXPIRE_DATETIME" TagType_Date (Some "INTEGER") true
    KeystoreEnforced NotOperationParam false Lifetime_Variable CertGen_NotRequired 17)
].
Definition INFO_2 : list (Tag * Info) := [
  (Tag_MaxUsesPerBoot, mk_info "MAX_USES_PER_BOOT" TagType_Uint (None) true
    KeyMintEnforced NotOperationParam false Lifetime_Variable CertGen_NotRequired 18);
  (Tag_UsageCountLimit, mk_info "USAGE_COUNT_LIMIT" TagType_Uint (Some "INTEGER") true
    BothEnforced NotOperationParam false Lifetime_Variable CertGen_NotRequired 19);
  (Tag_UserId, mk_info "USER_ID" TagType_Uint (None) true
    KeystoreEnforced NotOperationParam false Lifetime_Variable CertGen_NotRequired 20);
  (Tag_UserSecureId, mk_info "USER_SECURE_ID" TagType_UlongRep (None) true
    KeyMintEnforced CipherExplicitArgOneOf false Lifetime_Variable CertGen_NotRequired 21);
  (Tag_NoAuthRequired, mk_info "NO_AUTH_REQUIRED" TagType_Bool (Some "NULL") true
    KeyMintEnforced NotOperationParam false Lifetime_Variable CertGen_NotRequired 22);
  (Tag_UserAuthType, mk_info "USER_AUTH_TYPE" TagType_Enum (Some "INTEGER") true
    KeyMintEnforced CipherParamOneOf false Lifetime_Variable CertGen_NotRequired 23);
  (Tag_AuthTimeout, mk_info "AUTH_TIMEOUT" TagType_Uint (Some "INTEGER") true
    KeyMintEnforced NotOperationParam false Lifetime_Variable CertGen_NotRequired 24);
  (Tag_AllowWhileOnBody, mk_info "ALLOW_WHILE_ON_BODY" TagType_Bool (Some "NULL") true
    KeystoreEnforced NotOperationParam false Lifetime_Variable CertGen_NotRequired 25);
  (Tag_TrustedUserPresenceRequired, mk_info "TRUSTED_USER_PRESENCE_REQUIRED" TagType_Bool (Some "NULL") true
    KeyMintEnforced NotOperationParam false Lifetime_Variable CertGen_NotRequired 26)
].
Definition INFO_3 : list (Tag * Info) := [
  (Tag_TrustedConfirmationRequired, mk_info "TRUSTED_CONFIRMATION_REQUIRED" TagType_Bool (Some "NULL") true
    KeyMintEnforced NotOperationParam false Lifetime_Variable CertGen_NotRequired 27);
  (Tag_UnlockedDeviceRequired, mk_info "UNLOCKED_DEVICE_REQUIRED" TagType_Bool (Some "NULL") true
    KeystoreEnforced NotOperationParam false Lifetime_Variable CertGen_NotRequired 28);
  (Tag_ApplicationId, mk_info "APPLICATION_ID" TagType_Bytes (None) true
    KeyMintHidden CipherParamExactMatch false Lifetime_Variable CertGen_NotRequired 29);
  (Tag_ApplicationData, mk_info "APPLICATION_DATA" TagType_Bytes (None) true
    KeyMintHidden CipherParamExactMatch false Lifetime_Variable CertGen_NotRequired 30);
  (Tag_CreationDatetime, mk_info "CREATION_DATETIME" TagType_Date (Some "INTEGER") true
    KeystoreEnforced NotOperationParam false Lifetime_Variable CertGen_Special 31);
  (Tag_Origin, mk_info "ORIGIN" TagType_Enum (Some "INTEGER") false
    KeyMintEnforced NotOperationParam true Lifetime_Variable CertGen_NotRequired 32);
  (Tag_RootOfTrust, mk_info "ROOT_OF_TRUST" TagType_Bytes (Some "RootOfTrust SEQUENCE") false
    NotKeyCharacteristic NotOperationParam false Lifetime_FixedAtBoot CertGen_NotRequired 33);
  (Tag_OsVersion, mk_info "OS_VERSION" TagType_Uint (Some "INTEGER") false
    KeyMintEnforced NotOperationParam true Lifetime_FixedAtBoot CertGen_NotRequired 34);
  (Tag_OsPatchlevel, mk_info "OS_PATCHLEVEL" TagType_Uint (Some "INTEGER") false
    KeyMintEnforced NotOperationParam true Lifetime_FixedAtBoot CertGen_NotRequired 35)
].
Definition INFO_4 : list (Tag * Info) := [
  (Tag_UniqueId, mk_info "UNIQUE_ID" TagType_Bytes (Some "OCTET STRING") false
    NotKeyCharacteristic NotOperationParam false Lifetime_Variable CertGen_Special 36);
  (Tag_AttestationChallenge, mk_info "ATTESTATION_CHALLENGE" TagType_Bytes (Some "OCTET STRING") true
    NotKeyCharacteristic KeyGenImport false Lifetime_Variable CertGen_RequiredForAttestation 37);
  (Tag_AttestationApplicationId, mk_info "ATTESTATION_APPLICATION_ID" TagType_Bytes (Some "OCTET STRING") true
    NotKeyCharacteristic KeyGenImport false Lifetime_Variable CertGen_RequiredForAttestation 38);
  (Tag_AttestationIdBrand, mk_info "ATTESTATION_ID_BRAND" TagType_Bytes (Some "OCTET STRING") true
    NotKeyCharacteristic KeyGenImport false Lifetime_FixedAtBoot CertGen_OptionalForAttestation 39);
  (Tag_AttestationIdDevice, mk_info "ATTESTATION_ID_DEVICE" TagType_Bytes (Some "OCTET STRING") true
    NotKeyCharacteristic KeyGenImport false Lifetime_FixedAtBoot CertGen_OptionalForAttestation 40);
  (Tag_AttestationIdProduct, mk_info "ATTESTATION_ID_PRODUCT" TagType_Bytes (Some "OCTET STRING") true
    NotKeyCharacteristic KeyGenImport false Lifetime_FixedAtBoot CertGen_OptionalForAttestation 41);
  (Tag_AttestationIdSerial, mk_info "ATTESTATION_ID_SERIAL" TagType_Bytes (Some "OCTET STRING") true
    NotKeyCharacteristic KeyGenImport false Lifetime_FixedAtBoot CertGen_OptionalForAttestation 42);
  (Tag_AttestationIdImei, mk_info "ATTESTATION_ID_IMEI" TagType_Bytes (Some "OCTET STRING") true
    NotKeyCharacteristic KeyGenImport false Lifetime_FixedAtBoot CertGen_OptionalForAttestation 43);
  (Tag_AttestationIdSecondImei, mk_info "ATTESTATION_ID_SECOND_IMEI" TagType_Bytes (Some "OCTET STRING") true
    NotKeyCharacteristic KeyGenImport false Lifetime_FixedAtBoot CertGen_OptionalForAttestation 44)
].
Definition INFO_5 : list (Tag * Info) := [
  (Tag_AttestationIdMeid, mk_info "ATTESTATION_ID_MEID" TagType_Bytes (Some "OCTET STRING") true
    NotKeyCharacteristic KeyGenImport false Lifetime_FixedAtBoot CertGen_OptionalForAttestation 45);
  (Tag_AttestationIdManufacturer, mk_info "ATTESTATION_ID_MANUFACTURER" TagType_Bytes (Some "OCTET STRING") true
    NotKeyCharacteristic KeyGenImport false Lifetime_FixedAtBoot CertGen_OptionalForAttestation 46);
  (Tag_AttestationIdModel, mk_info "ATTESTATION_ID_MODEL" TagType_Bytes (Some "OCTET STRING") true
    NotKeyCharacteristic KeyGenImport false Lifetime_FixedAtBoot CertGen_OptionalForAttestation 47);
  (Tag_VendorPatchlevel, mk_info "VENDOR_PATCHLEVEL" TagType_Uint (Some "INTEGER") false
    KeyMintEnforced NotOperationParam true Lifetime_FixedAtStartup CertGen_NotRequired 48);
  (Tag_BootPatchlevel, mk_info "BOOT_PATCHLEVEL" TagType_Uint (Some "INTEGER") false
    KeyMintEnforced NotOperationParam true Lifetime_FixedAtBoot CertGen_NotRequired 49);
  (Tag_DeviceUniqueAttestation, mk_info "DEVICE_UNIQUE_ATTESTATION" TagType_Bool (Some "NULL") true
    NotKeyCharacteristic KeyGenImport false Lifetime_Variable CertGen_Special 50);
  (Tag_StorageKey, mk_info "STORAGE_KEY" TagType_Bool (None) true
    KeyMintEnforced NotOperationParam false Lifetime_Variable CertGen_NotRequired 51);
  (Tag_Nonce, mk_info "NONCE" TagType_Bytes (None) true
    NotKeyCharacteristic CipherParam false Lifetime_Variable CertGen_NotRequired 52);
  (Tag_MacLength, mk_info "MAC_LENGTH" TagType_Uint (None) true
    NotKeyCharacteristic CipherParam false Lifetime_Variable CertGen_NotRequired 53)
].
Definition INFO_6 : list (Tag * Info) := [
  (Tag_ResetSinceIdRotation, mk_info "RESET_SINCE_ID_ROTATION" TagType_Bool (Some "part of UniqueID") true
    NotKeyCharacteristic KeyGenImport false Lifetime_Variable CertGen_OptionalForAttestation 54);
  (Tag_CertificateSerial, mk_info "CERTIFICATE_SERIAL" TagType_Bignum (None) true
    NotKeyCharacteristic KeyGenImport false Lifetime_Variable CertGen_Optional 55);
  (Tag_CertificateSubject, mk_info "CERTIFICATE_SUBJECT" TagType_Bytes (None) true
    NotKeyCharacteristic KeyGenImport false Lifetime_Variable CertGen_Optional 56);
  (Tag_CertificateNotBefore, mk_info "CERTIFICATE_NOT_BEFORE" TagType_Date (None) true
    NotKeyCharacteristic KeyGenImport false Lifetime_Variable CertGen_Required 57);
  (Tag_CertificateNotAfter, mk_info "CERTIFICATE_NOT_AFTER" TagType_Date (None) true
    NotKeyCharacteristic KeyGenImport false Lifetime_Variable CertGen_Required 58);
  (Tag_MaxBootLevel, mk_info "MAX_BOOT_LEVEL" TagType_Uint (None) true
    KeystoreEnforced NotOperationParam false Lifetime_Variable CertGen_NotRequired 59);
  (Tag_ModuleHash, mk_info "MODULE_HASH" TagType_Bytes (Some "OCTET STRING") false
    NotKeyCharacteristic NotOperationParam false Lifetime_FixedAtStartup CertGen_NotRequired 60)
].
Definition INFO : list (Tag * Info) :=
  INFO_0 ++ INFO_1 ++ INFO_2 ++ INFO_3 ++ INFO_4 ++ INFO_5 ++ INFO_6.
End table.

(** Linear search of the table. *)
Fixpoint find_info (l : list (Tag * Info)) (t : Tag) : Result Info :=
  match l with
  | [] => km_err InvalidTag
  | (t', i) :: l' => if decide (t = t') then Ok i else find_info l' t
  end.
Definition info (t : Tag) : Result Info := find_info INFO t.

Definition multivalued (t : Tag) : bool :=
  match tag_type t with
  | TagType_EnumRep | TagType_UintRep | TagType_UlongRep => true
  | _ => false
  end.

(** The checker is a [u64] bit set, initially zero. *)
Definition DuplicateTagChecker : Set := Z.
Definition DuplicateTagChecker_default : DuplicateTagChecker := 0.
Definition DuplicateTagChecker_add (c : DuplicateTagChecker) (t : Tag)
    : Result DuplicateTagChecker :=
  i ← info t;
  let bit_mask := as_u64 (Z.shiftl 1 (bit_index i)) in
  if negb (multivalued t) && bool_decide (Z.land c bit_mask ≠ 0)
  then km_err InvalidKeyBlob
  else Ok (Z.lor c bit_mask).

(** ** Consistency of the table *)

Lemma find_info_elem l t i : find_info l t = Ok i → (t, i) ∈ l.
Proof.
  induction l as [|[t' i'] l IH]; cbn; [done|].
  case_decide; [intros [= <-]; subst; left|right; auto].
Qed.

Lemma INFO_bit_index_NoDup : NoDup ((λ e, bit_index e.2) <$> INFO).
Proof. apply (bool_decide_unpack _). vm_compute. exact I. Qed.

Lemma INFO_bit_index_range : Forall (λ e, 0 ≤ bit_index e.2 < 64) INFO.
Proof. apply (bool_decide_unpack _). vm_compute. exact I. Qed.

Lemma info_bit_index_range t i : info t = Ok i → 0 ≤ bit_index i < 64.
Proof.
  intros Hi%find_info_elem.
  by apply (proj1 (Forall_forall _ _) INFO_bit_index_range (t, i)).
Qed.

Lemma info_bit_index_inj t1 t2 i1 i2 :
  info t1 = Ok i1 → info t2 = Ok i2 → bit_index i1 = bit_index i2 → t1 = t2.
Proof.
  intros [k1 Hk1]%find_info_elem%list_elem_of_lookup [k2 Hk2]%find_info_elem%list_elem_of_lookup Hb.
  assert (k1 = k2) as ->.
  { eapply (NoDup_lookup _ k1 k2 (bit_index i1) INFO_bit_index_NoDup);
      rewrite list_lookup_fmap, ?Hk1, ?Hk2; cbn; congruence. }
  congruence.
Qed.

(** The tags that have an entry. *)
Definition known (t : Tag) : Prop := is_ok (info t) = true.
#[export] Instance known_dec t : Decision (known t).
Proof. unfold known. apply _. Defined.

Lemma known_tag (p : KeyParam) : known (tag p).
Proof. by destruct p. Qed.

Lemma known_info t : known t ↔ ∃ i, info t = Ok i.
Proof. unfold known. destruct (info t); cbn; naive_solver. Qed.

(** The INFO table agrees with everything derived from it by hand.  Every
    key parameter's tag has an entry; the entry records the tag type that
    [tag_type] computes from the top four bits of the tag; and the three
    classification constants list exactly the tags that the table classifies
    as KeyMint-enforced, Keystore-enforced and automatically added. *)
Theorem INFO_consistent (p : KeyParam) :
  ∃ i, info (tag p) = Ok i ∧
       info_tt i = tag_type (tag p) ∧
       0 ≤ bit_index i < 64 ∧
       (tag p ∈ KEYMINT_ENFORCED_CHARACTERISTICS ↔ characteristic i = KeyMintEnforced) ∧
       (tag p ∈ KEYSTORE_ENFORCED_CHARACTERISTICS ↔ characteristic i = KeystoreEnforced) ∧
       (tag p ∈ AUTO_ADDED_CHARACTERISTICS ↔ keymint_auto_adds i = true).
Proof.
  assert (∀ t, t = tag p → ∃ i, info t = Ok i ∧
    bool_decide (info_tt i = tag_type t ∧ 0 ≤ bit_index i < 64 ∧
       (t ∈ KEYMINT_ENFORCED_CHARACTERISTICS ↔ characteristic i = KeyMintEnforced) ∧
       (t ∈ KEYSTORE_ENFORCED_CHARACTERISTICS ↔ characteristic i = KeystoreEnforced) ∧
       (t ∈ AUTO_ADDED_CHARACTERISTICS ↔ keymint_auto_adds i = true)) = true) as H.
  { intros t ->. destruct p; cbn [tag]; eexists; (split; [reflexivity|]); by vm_compute. }
  destruct (H _ eq_refl) as (i & Hi & Hb%bool_decide_eq_true). eauto.
Qed.

(** ** The duplicate checker refines a set of seen tags *)

(** The bit set holds the bits of exactly the tags in [S]. *)
Definition represents (c : DuplicateTagChecker) (S : list Tag) : Prop :=
  ∀ t i, info t = Ok i → Z.testbit c (bit_index i) = bool_decide (t ∈ S).

Lemma represents_default : represents DuplicateTagChecker_default [].
Proof. intros t i _. by rewrite Z.testbit_0_l. Qed.

Lemma bit_mask_eq n : 0 ≤ n < 64 → as_u64 (Z.shiftl 1 n) = 2 ^ n.
Proof.
  intros Hn. rewrite Z.shiftl_1_l. apply as_unsigned_id.
  split; [lia|]. apply Z.pow_lt_mono_r; lia.
Qed.

Lemma land_pow2_zero c n : 0 ≤ n → Z.land c (2 ^ n) ≠ 0 ↔ Z.testbit c n = true.
Proof.
  intros Hn. destruct (Z.testbit c n) eqn:Hb; split; try done.
  - intros _ Hz%(f_equal (λ z, Z.testbit z n)).
    by rewrite Z.land_spec, Z.pow2_bits_true, Hb, Z.testbit_0_l in Hz.
  - intros Hz. destruct Hz. apply Z.bits_inj'. intros m Hm.
    rewrite Z.land_spec, Z.testbit_0_l, Z.pow2_bits_eqb by done.
    destruct (Z.eqb_spec n m) as [<-|]; [by rewrite Hb|apply andb_false_r].
Qed.

Lemma add_spec c S t :
  represents c S → known t →
  (multivalued t = false ∧ t ∈ S ∧ DuplicateTagChecker_add c t = km_err InvalidKeyBlob) ∨
  (¬ (multivalued t = false ∧ t ∈ S) ∧
   ∃ c', DuplicateTagChecker_add c t = Ok c' ∧ represents c' (t :: S)).
Proof.
  intros HS [i Hi]%known_info. unfold DuplicateTagChecker_add. rewrite Hi. cbn [mbind res_bind].
  pose proof (info_bit_index_range _ _ Hi) as Hr. rewrite bit_mask_eq by done.
  assert (bool_decide (Z.land c (2 ^ bit_index i) ≠ 0) = bool_decide (t ∈ S)) as ->.
  { rewrite <- (HS t i Hi). destruct (Z.testbit c (bit_index i)) eqn:Hb.
    - apply bool_decide_eq_true, land_pow2_zero; [lia|done].
    - apply bool_decide_eq_false. rewrite land_pow2_zero by lia. by rewrite Hb. }
  destruct (negb (multivalued t) && bool_decide (t ∈ S)) eqn:Hd.
  - apply andb_true_iff in Hd as [?%negb_true_iff ?%bool_decide_eq_true]. by left.
  - right. split; [intros [Hm Hin]; rewrite Hm, bool_decide_eq_true_2 in Hd by done; done|].
    eexists. split; [done|]. intros t' i' Hi'.
    rewrite Z.lor_spec, (HS t' i' Hi'), Z.pow2_bits_eqb by lia.
    apply eq_true_iff_eq. rewrite orb_true_iff, Z.eqb_eq, !bool_decide_eq_true, elem_of_cons.
    split; [intros [?|Hb]|intros [->|?]]; auto.
    + left. symmetry. by eapply info_bit_index_inj.
    + right. congruence.
Qed.

(** Tags that must not repeat do not. *)
Definition dup_free (ts : list Tag) : Prop := NoDup (filter (λ t, multivalued t = false) ts).

(** [ts] may be added after the tags in [S] have been seen. *)
Definition addable (S ts : list Tag) : Prop :=
  dup_free ts ∧ ∀ t, t ∈ ts → multivalued t = false → t ∉ S.

Lemma addable_nil ts : addable [] ts ↔ dup_free ts.
Proof. unfold addable. set_solver. Qed.

Lemma addable_cons S t ts :
  addable S (t :: ts) ↔ ¬ (multivalued t = false ∧ t ∈ S) ∧ addable (t :: S) ts.
Proof.
  unfold addable, dup_free. rewrite filter_cons.
  assert (∀ t', t' ∈ filter (λ t, multivalued t = false) ts ↔ multivalued t' = false ∧ t' ∈ ts)
    as Hf by (intros; by rewrite list_elem_of_filter).
  case_decide as Hm; rewrite ?NoDup_cons, ?Hf; set_solver.
Qed.
