(* ===== verification/TagLegacy.v ===== *)
(** * Legacy serialization of key parameters ([common/src/tag/legacy.rs])

    Parsing primitives over a mutable slice (the state of a [stM] computation),
    the serializer and deserializer of parameter lists, and the legacy ordering
    of parameters.  Serialization followed by deserialization is the identity
    and leaves the rest of the input untouched; the ordering is a total order,
    so a sorted parameter list is canonical. *)

From S2P Require Import Prelude Wire.

Section legacy.
Context `{T : Target}.

(** ** Primitives *)

Definition consume_u8 : stM bytes Error u8 := λ data,
  match data with
  | b :: data' => (Ok b, data')
  | [] => (km_err InvalidKeyBlob, data)
  end.

Definition consume_bool : stM bytes Error unit :=
  b ← consume_u8; liftr (if decide (u8_val b = 1) then Ok tt else km_err InvalidKeyBlob).

(** [n] bytes from the front, if there are that many. *)
Definition consume_chunk (n : nat) : stM bytes Error bytes := λ data,
  if decide (len data < Z.of_nat n) then (km_err InvalidKeyBlob, data)
  else (Ok (take n data), drop n data).

Definition consume_u32 : stM bytes Error Z :=
  chunk ← consume_chunk 4; mret (from_ne_bytes chunk).
Definition consume_i32 : stM bytes Error Z :=
  chunk ← consume_chunk 4; mret (as_i32 (from_ne_bytes chunk)).
Definition consume_u64 : stM bytes Error Z :=
  chunk ← consume_chunk 8; mret (from_ne_bytes chunk).
Definition consume_i64 : stM bytes Error Z :=
  chunk ← consume_chunk 8; mret (as_i64 (from_ne_bytes chunk)).

Definition consume_vec : stM bytes Error bytes :=
  n ← consume_u32;
  data ← get_st;
  if decide (n > len data) then liftr (km_err InvalidKeyBlob)
  else (_ ← modify (λ _, drop (Z.to_nat n) data); mret (take (Z.to_nat n) data)).

(** ** Serialization *)

(** The byte-string payload of the variants that hold a [Vec<u8>]. *)
Definition kp_blob (p : KeyParam) : option bytes :=
  match p with
  | KP_ApplicationId v | KP_ApplicationData v | KP_RootOfTrust v | KP_AttestationChallenge v
  | KP_AttestationApplicationId v | KP_AttestationIdBrand v | KP_AttestationIdDevice v
  | KP_AttestationIdProduct v | KP_AttestationIdSerial v | KP_AttestationIdImei v
  | KP_AttestationIdSecondImei v | KP_AttestationIdMeid v | KP_AttestationIdManufacturer v
  | KP_AttestationIdModel v | KP_Nonce v | KP_CertificateSerial v | KP_CertificateSubject v
  | KP_ModuleHash v => Some v
  | _ => None
  end.

(** First loop: append the contents of all byte-string tags. *)
Fixpoint serialize_blobs (params : list KeyParam) (result : bytes) (blob_size : Z)
    : Result (bytes * Z) :=
  match params with
  | [] => Ok (result, blob_size)
  | p :: params' =>
    match kp_blob p with
    | Some v =>
      blob_size' ← ovf_unsigned 32 (blob_size + as_u32 (len v));
      serialize_blobs params' (result ++ v) blob_size'
    | None => serialize_blobs params' result blob_size
    end
  end.

(** The value of one parameter, and the next blob offset. *)
Definition serialize_value (p : KeyParam) (blob_offset : Z) : Result (bytes * Z) :=
  match p with
  (* Enum-holding variants. *)
  | KP_Purpose v => Ok (to_ne_bytes 4 (as_u32 (discr v)), blob_offset)
  | KP_Algorithm v => Ok (to_ne_bytes 4 (as_u32 (discr v)), blob_offset)
  | KP_BlockMode v => Ok (to_ne_bytes 4 (as_u32 (discr v)), blob_offset)
  | KP_Digest v => Ok (to_ne_bytes 4 (as_u32 (discr v)), blob_offset)
  | KP_Padding v => Ok (to_ne_bytes 4 (as_u32 (discr v)), blob_offset)
  | KP_EcCurve v => Ok (to_ne_bytes 4 (as_u32 (discr v)), blob_offset)
  | KP_RsaOaepMgfDigest v => Ok (to_ne_bytes 4 (as_u32 (discr v)), blob_offset)
  | KP_Origin v => Ok (to_ne_bytes 4 (as_u32 (discr v)), blob_offset)
  (* [u32]-holding variants. *)
  | KP_KeySize v | KP_MinMacLength v | KP_MaxUsesPerBoot v | KP_UsageCountLimit v | KP_UserId v
  | KP_UserAuthType v | KP_AuthTimeout v | KP_OsVersion v | KP_OsPatchlevel v
  | KP_VendorPatchlevel v | KP_BootPatchlevel v | KP_MacLength v | KP_MaxBootLevel v => Ok (to_ne_bytes 4 v, blob_offset)
  (* [u64]-holding variants. *)
  | KP_RsaPublicExponent v | KP_UserSecureId v => Ok (to_ne_bytes 8 v, blob_offset)
  (* [true]-holding variants. *)
  | KP_CallerNonce | KP_IncludeUniqueId | KP_BootloaderOnly | KP_RollbackResistance
  | KP_EarlyBootOnly | KP_NoAuthRequired | KP_AllowWhileOnBody | KP_TrustedUserPresenceRequired
  | KP_TrustedConfirmationRequired | KP_UnlockedDeviceRequired | KP_DeviceUniqueAttestation
  | KP_StorageKey | KP_ResetSinceIdRotation => Ok ([u8_of 1], blob_offset)
  (* [DateTime]-holding variants. *)
  | KP_ActiveDatetime v | KP_OriginationExpireDatetime v | KP_UsageExpireDatetime v
  | KP_CreationDatetime v | KP_CertificateNotBefore v | KP_CertificateNotAfter v => Ok (to_ne_bytes 8 (as_u64 v), blob_offset)
  (* [Vec<u8>]-holding variants. *)
  | KP_ApplicationId v | KP_ApplicationData v | KP_RootOfTrust v | KP_AttestationChallenge v
  | KP_AttestationApplicationId v | KP_AttestationIdBrand v | KP_AttestationIdDevice v
  | KP_AttestationIdProduct v | KP_AttestationIdSerial v | KP_AttestationIdImei v
  | KP_AttestationIdSecondImei v | KP_AttestationIdMeid v | KP_AttestationIdManufacturer v
  | KP_AttestationIdModel v | KP_Nonce v | KP_CertificateSerial v | KP_CertificateSubject v
  | KP_ModuleHash v =>
    let blob_len := as_u32 (len v) in
    blob_offset' ← ovf_unsigned 32 (blob_offset + blob_len);
    Ok (to_ne_bytes 4 blob_len ++ to_ne_bytes 4 blob_offset, blob_offset')
  end.

(** Second loop: tag and value of each parameter. *)
Fixpoint serialize_params (params : list KeyParam) (result : bytes) (blob_offset : Z)
    : Result (bytes * Z) :=
  match params with
  | [] => Ok (result, blob_offset)
  | p :: params' =>
    '(v, blob_offset') ← serialize_value p blob_offset;
    serialize_params params' (result ++ to_ne_bytes 4 (tag_u32 (tag p)) ++ v) blob_offset'
  end.

Definition serialize (params : list KeyParam) : Result bytes :=
  '(result, blob_size) ← serialize_blobs params (replicate 4 (u8_of 0)) 0;
  let result := overwrite result 0 (to_ne_bytes 4 blob_size) in
  let result := result ++ to_ne_bytes 4 (as_u32 (len params)) in
  let params_size_offset := len result in
  let result := result ++ replicate 4 (u8_of 0) in
  let first_param_offset := len result in
  '(result, _) ← serialize_params params result 0;
  let serialized_size := as_u32 (len result - first_param_offset) in
  Ok (overwrite result params_size_offset (to_ne_bytes 4 serialized_size)).

(** ** Deserialization *)

Definition consume_blob (next_blob_offset : Z) (blob_data : bytes) : stM bytes Error (bytes * Z) :=
  data_len ← consume_u32;
  data_offset ← consume_u32;
  _ ← liftr (reject_if (bool_decide (data_offset ≠ next_blob_offset)) (Hal InvalidKeyBlob));
  _ ← liftr (reject_if (bool_decide (data_offset + data_len > len blob_data)) (Hal InvalidKeyBlob));
  slice ← liftr (slice_range blob_data data_offset (data_offset + data_len));
  mret (slice, next_blob_offset + data_len).

Definition enum_of_i32 {A} `{REnum A} (v : Z) : Result A :=
  ok_or (try_from_n v) (Hal InvalidKeyBlob).

Definition deserialize_value (t : Tag) (next_blob_offset : Z) (blob_data : bytes)
    : stM bytes Error (KeyParam * Z) :=
  match t with
  (* Enum-holding variants. *)
  | Tag_Purpose =>
    v ← consume_i32; e ← liftr (enum_of_i32 v); mret (KP_Purpose e, next_blob_offset)
  | Tag_Algorithm =>
    v ← consume_i32; e ← liftr (enum_of_i32 v); mret (KP_Algorithm e, next_blob_offset)
  | Tag_BlockMode =>
    v ← consume_i32; e ← liftr (enum_of_i32 v); mret (KP_BlockMode e, next_blob_offset)
  | Tag_Digest =>
    v ← consume_i32; e ← liftr (enum_of_i32 v); mret (KP_Digest e, next_blob_offset)
  | Tag_Padding =>
    v ← consume_i32; e ← liftr (enum_of_i32 v); mret (KP_Padding e, next_blob_offset)
  | Tag_EcCurve =>
    v ← consume_i32; e ← liftr (enum_of_i32 v); mret (KP_EcCurve e, next_blob_offset)
  | Tag_RsaOaepMgfDigest =>
    v ← consume_i32; e ← liftr (enum_of_i32 v); mret (KP_RsaOaepMgfDigest e, next_blob_offset)
  | Tag_Origin =>
    v ← consume_i32; e ← liftr (enum_of_i32 v); mret (KP_Origin e, next_blob_offset)
  (* [u32]-holding variants. *)
  | Tag_KeySize => v ← consume_u32; mret (KP_KeySize v, next_blob_offset)
  | Tag_MinMacLength => v ← consume_u32; mret (KP_MinMacLength v, next_blob_offset)
  | Tag_MaxUsesPerBoot => v ← consume_u32; mret (KP_MaxUsesPerBoot v, next_blob_offset)
  | Tag_UsageCountLimit => v ← consume_u32; mret (KP_UsageCountLimit v, next_blob_offset)
  | Tag_UserId => v ← consume_u32; mret (KP_UserId v, next_blob_offset)
  | Tag_UserAuthType => v ← consume_u32; mret (KP_UserAuthType v, next_blob_offset)
  | Tag_AuthTimeout => v ← consume_u32; mret (KP_AuthTimeout v, next_blob_offset)
  | Tag_OsVersion => v ← consume_u32; mret (KP_OsVersion v, next_blob_offset)
  | Tag_OsPatchlevel => v ← consume_u32; mret (KP_OsPatchlevel v, next_blob_offset)
  | Tag_VendorPatchlevel => v ← consume_u32; mret (KP_VendorPatchlevel v, next_blob_offset)
  | Tag_BootPatchlevel => v ← consume_u32; mret (KP_BootPatchlevel v, next_blob_offset)
  | Tag_MacLength => v ← consume_u32; mret (KP_MacLength v, next_blob_offset)
  | Tag_MaxBootLevel => v ← consume_u32; mret (KP_MaxBootLevel v, next_blob_offset)
  (* [u64]-holding variants. *)
  | Tag_RsaPublicExponent => v ← consume_u64; mret (KP_RsaPublicExponent v, next_blob_offset)
  | Tag_UserSecureId => v ← consume_u64; mret (KP_UserSecureId v, next_blob_offset)
  (* [true]-holding variants. *)
  | Tag_CallerNonce => _ ← consume_bool; mret (KP_CallerNonce, next_blob_offset)
  | Tag_IncludeUniqueId => _ ← consume_bool; mret (KP_IncludeUniqueId, next_blob_offset)
  | Tag_BootloaderOnly => _ ← consume_bool; mret (KP_BootloaderOnly, next_blob_offset)
  | Tag_RollbackResistance => _ ← consume_bool; mret (KP_RollbackResistance, next_blob_offset)
  | Tag_EarlyBootOnly => _ ← consume_bool; mret (KP_EarlyBootOnly, next_blob_offset)
  | Tag_NoAuthRequired => _ ← consume_bool; mret (KP_NoAuthRequired, next_blob_offset)
  | Tag_AllowWhileOnBody => _ ← consume_bool; mret (KP_AllowWhileOnBody, next_blob_offset)
  | Tag_TrustedUserPresenceRequired => _ ← consume_bool; mret (KP_TrustedUserPresenceRequired, next_blob_offset)
  | Tag_TrustedConfirmationRequired => _ ← consume_bool; mret (KP_TrustedConfirmationRequired, next_blob_offset)
  | Tag_UnlockedDeviceRequired => _ ← consume_bool; mret (KP_UnlockedDeviceRequired, next_blob_offset)
  | Tag_DeviceUniqueAttestation => _ ← consume_bool; mret (KP_DeviceUniqueAttestation, next_blob_offset)
  | Tag_StorageKey => _ ← consume_bool; mret (KP_StorageKey, next_blob_offset)
  | Tag_ResetSinceIdRotation => _ ← consume_bool; mret (KP_ResetSinceIdRotation, next_blob_offset)
  (* [DateTime]-holding variants. *)
  | Tag_ActiveDatetime => v ← consume_i64; mret (KP_ActiveDatetime v, next_blob_offset)
  | Tag_OriginationExpireDatetime => v ← consume_i64; mret (KP_OriginationExpireDatetime v, next_blob_offset)
  | Tag_UsageExpireDatetime => v ← consume_i64; mret (KP_UsageExpireDatetime v, next_blob_offset)
  | Tag_CreationDatetime => v ← consume_i64; mret (KP_CreationDatetime v, next_blob_offset)
  | Tag_CertificateNotBefore => v ← consume_i64; mret (KP_CertificateNotBefore v, next_blob_offset)
  | Tag_CertificateNotAfter => v ← consume_i64; mret (KP_CertificateNotAfter v, next_blob_offset)
  (* [Vec<u8>]-holding variants. *)
  | Tag_ApplicationId =>
    '(v, n) ← consume_blob next_blob_offset blob_data; mret (KP_ApplicationId v, n)
  | Tag_ApplicationData =>
    '(v, n) ← consume_blob next_blob_offset blob_data; mret (KP_ApplicationData v, n)
  | Tag_RootOfTrust =>
    '(v, n) ← consume_blob next_blob_offset blob_data; mret (KP_RootOfTrust v, n)
  | Tag_AttestationChallenge =>
    '(v, n) ← consume_blob next_blob_offset blob_data; mret (KP_AttestationChallenge v, n)
  | Tag_AttestationApplicationId =>
    '(v, n) ← consume_blob next_blob_offset blob_data; mret (KP_AttestationApplicationId v, n)
  | Tag_AttestationIdBrand =>
    '(v, n) ← consume_blob next_blob_offset blob_data; mret (KP_AttestationIdBrand v, n)
  | Tag_AttestationIdDevice =>
    '(v, n) ← consume_blob next_blob_offset blob_data; mret (KP_AttestationIdDevice v, n)
  | Tag_AttestationIdProduct =>
    '(v, n) ← consume_blob next_blob_offset blob_data; mret (KP_AttestationIdProduct v, n)
  | Tag_AttestationIdSerial =>
    '(v, n) ← consume_blob next_blob_offset blob_data; mret (KP_AttestationIdSerial v, n)
  | Tag_AttestationIdImei =>
    '(v, n) ← consume_blob next_blob_offset blob_data; mret (KP_AttestationIdImei v, n)
  | Tag_AttestationIdSecondImei =>
    '(v, n) ← consume_blob next_blob_offset blob_data; mret (KP_AttestationIdSecondImei v, n)
  | Tag_AttestationIdMeid =>
    '(v, n) ← consume_blob next_blob_offset blob_data; mret (KP_AttestationIdMeid v, n)
  | Tag_AttestationIdManufacturer =>
    '(v, n) ← consume_blob next_blob_offset blob_data; mret (KP_AttestationIdManufacturer v, n)
  | Tag_AttestationIdModel =>
    '(v, n) ← consume_blob next_blob_offset blob_data; mret (KP_AttestationIdModel v, n)
  | Tag_Nonce =>
    '(v, n) ← consume_blob next_blob_offset blob_data; mret (KP_Nonce v, n)
  | Tag_CertificateSerial =>
    '(v, n) ← consume_blob next_blob_offset blob_data; mret (KP_CertificateSerial v, n)
  | Tag_CertificateSubject =>
    '(v, n) ← consume_blob next_blob_offset blob_data; mret (KP_CertificateSubject v, n)
  | Tag_ModuleHash =>
    '(v, n) ← consume_blob next_blob_offset blob_data; mret (KP_ModuleHash v, n)
  (* Invalid variants. *)
  | Tag_Invalid | Tag_HardwareType | Tag_MinSecondsBetweenOps | Tag_UniqueId
  | Tag_IdentityCredentialKey | Tag_AssociatedData | Tag_ConfirmationToken =>
    liftr (km_err InvalidKeyBlob)
  end.

Definition deserialize_param (next_blob_offset : Z) (blob_data : bytes)
    : stM bytes Error (KeyParam * Z) :=
  tag_num ← consume_u32;
  t ← liftr (enum_of_i32 (as_i32 tag_num));
  deserialize_value t next_blob_offset blob_data.

Fixpoint deserialize_params (param_count : nat) (next_blob_offset : Z) (blob_data : bytes)
    : stM bytes Error (list KeyParam) :=
  match param_count with
  | O => mret []
  | S n =>
    '(p, next_blob_offset') ← deserialize_param next_blob_offset blob_data;
    ps ← deserialize_params n next_blob_offset' blob_data;
    mret (p :: ps)
  end.

Definition deserialize : stM bytes Error (list KeyParam) :=
  blob_data_size ← consume_u32;
  data ← get_st;
  blob_data ← liftr (slice_to data blob_data_size);
  data' ← liftr (slice_from data blob_data_size);
  _ ← modify (λ _, data');
  param_count ← consume_u32;
  param_size ← consume_u32;
  data ← get_st;
  _ ← liftr (reject_if (bool_decide (param_size > len data)) (Hal InvalidKeyBlob));
  deserialize_params (Z.to_nat param_count) 0 blob_data.

End legacy.

(** ** Ordering *)

(** [Vec<u8>::cmp]: lexicographic, a proper prefix is smaller. *)
Fixpoint lex_cmp (l r : list Z) : comparison :=
  match l, r with
  | [], [] => Eq
  | [], _ :: _ => Lt
  | _ :: _, [] => Gt
  | x :: l', y :: r' => match x ?= y with Eq => lex_cmp l' r' | c => c end
  end.
Definition bytes_cmp (l r : bytes) : comparison := lex_cmp (u8_val <$> l) (u8_val <$> r).

Definition param_compare (left right : KeyParam) : comparison :=
  match left, right with
  | KP_Purpose l, KP_Purpose r => enum_cmp l r
  | KP_Algorithm l, KP_Algorithm r => enum_cmp l r
  | KP_KeySize l, KP_KeySize r => l ?= r
  | KP_BlockMode l, KP_BlockMode r => enum_cmp l r
  | KP_Digest l, KP_Digest r => enum_cmp l r
  | KP_Padding l, KP_Padding r => enum_cmp l r
  | KP_CallerNonce, KP_CallerNonce => Eq
  | KP_MinMacLength l, KP_MinMacLength r => l ?= r
  | KP_EcCurve l, KP_EcCurve r => enum_cmp l r
  | KP_RsaPublicExponent l, KP_RsaPublicExponent r => l ?= r
  | KP_IncludeUniqueId, KP_IncludeUniqueId => Eq
  | KP_RsaOaepMgfDigest l, KP_RsaOaepMgfDigest r => enum_cmp l r
  | KP_BootloaderOnly, KP_BootloaderOnly => Eq
  | KP_RollbackResistance, KP_RollbackResistance => Eq
  | KP_EarlyBootOnly, KP_EarlyBootOnly => Eq
  | KP_ActiveDatetime l, KP_ActiveDatetime r => l ?= r
  | KP_OriginationExpireDatetime l, KP_OriginationExpireDatetime r => l ?= r
  | KP_UsageExpireDatetime l, KP_UsageExpireDatetime r => l ?= r
  | KP_MaxUsesPerBoot l, KP_MaxUsesPerBoot r => l ?= r
  | KP_UsageCountLimit l, KP_UsageCountLimit r => l ?= r
  | KP_UserId l, KP_UserId r => l ?= r
  | KP_UserSecureId l, KP_UserSecureId r => l ?= r
  | KP_NoAuthRequired, KP_NoAuthRequired => Eq
  | KP_UserAuthType l, KP_UserAuthType r => l ?= r
  | KP_AuthTimeout l, KP_AuthTimeout r => l ?= r
  | KP_AllowWhileOnBody, KP_AllowWhileOnBody => Eq
  | KP_TrustedUserPresenceRequired, KP_TrustedUserPresenceRequired => Eq
  | KP_TrustedConfirmationRequired, KP_TrustedConfirmationRequired => Eq
  | KP_UnlockedDeviceRequired, KP_UnlockedDeviceRequired => Eq
  | KP_ApplicationId l, KP_ApplicationId r => bytes_cmp l r
  | KP_ApplicationData l, KP_ApplicationData r => bytes_cmp l r
  | KP_CreationDatetime l, KP_CreationDatetime r => l ?= r
  | KP_Origin l, KP_Origin r => enum_cmp l r
  | KP_RootOfTrust l, KP_RootOfTrust r => bytes_cmp l r
  | KP_OsVersion l, KP_OsVersion r => l ?= r
  | KP_OsPatchlevel l, KP_OsPatchlevel r => l ?= r
  | KP_AttestationChallenge l, KP_AttestationChallenge r => bytes_cmp l r
  | KP_AttestationApplicationId l, KP_AttestationApplicationId r => bytes_cmp l r
  | KP_AttestationIdBrand l, KP_AttestationIdBrand r => bytes_cmp l r
  | KP_AttestationIdDevice l, KP_AttestationIdDevice r => bytes_cmp l r
  | KP_AttestationIdProduct l, KP_AttestationIdProduct r => bytes_cmp l r
  | KP_AttestationIdSerial l, KP_AttestationIdSerial r => bytes_cmp l r
  | KP_AttestationIdImei l, KP_AttestationIdImei r => bytes_cmp l r
  | KP_AttestationIdSecondImei l, KP_AttestationIdSecondImei r => bytes_cmp l r
  | KP_AttestationIdMeid l, KP_AttestationIdMeid r => bytes_cmp l r
  | KP_AttestationIdManufacturer l, KP_AttestationIdManufacturer r => bytes_cmp l r
  | KP_AttestationIdModel l, KP_AttestationIdModel r => bytes_cmp l r
  | KP_VendorPatchlevel l, KP_VendorPatchlevel r => l ?= r
  | KP_BootPatchlevel l, KP_BootPatchlevel r => l ?= r
  | KP_DeviceUniqueAttestation, KP_DeviceUniqueAttestation => Eq
  | KP_StorageKey, KP_StorageKey => Eq
  | KP_Nonce l, KP_Nonce r => bytes_cmp l r
  | KP_MacLength l, KP_MacLength r => l ?= r
  | KP_ResetSinceIdRotation, KP_ResetSinceIdRotation => Eq
  | KP_CertificateSerial l, KP_CertificateSerial r => bytes_cmp l r
  | KP_CertificateSubject l, KP_CertificateSubject r => bytes_cmp l r
  | KP_CertificateNotBefore l, KP_CertificateNotBefore r => l ?= r
  | KP_CertificateNotAfter l, KP_CertificateNotAfter r => l ?= r
  | KP_MaxBootLevel l, KP_MaxBootLevel r => l ?= r
  | KP_ModuleHash l, KP_ModuleHash r => bytes_cmp l r
  | _, _ => enum_cmp (tag left) (tag right)
  end.

(** ** Round trip of the primitives *)

Section primitives.
Context `{T : Target}.

Lemma consume_chunk_app n (chunk rest : bytes) :
  length chunk = n → consume_chunk n (chunk ++ rest) = (Ok chunk, rest).
Proof.
  intros <-. unfold consume_chunk.
  rewrite decide_False by (unfold len; rewrite length_app; lia).
  by rewrite take_app_length, drop_app_length.
Qed.

Lemma consume_u32_app z rest : consume_u32 (to_ne_bytes 4 z ++ rest) = (Ok (as_u32 z), rest).
Proof.
  unfold consume_u32, mbind, stM_bind.
  by rewrite consume_chunk_app, from_to_ne_bytes by apply length_to_ne_bytes.
Qed.
Lemma consume_u64_app z rest : consume_u64 (to_ne_bytes 8 z ++ rest) = (Ok (as_u64 z), rest).
Proof.
  unfold consume_u64, mbind, stM_bind.
  by rewrite consume_chunk_app, from_to_ne_bytes by apply length_to_ne_bytes.
Qed.
Lemma consume_i32_app z rest :
  is_i32 z → consume_i32 (to_ne_bytes 4 (as_u32 z) ++ rest) = (Ok z, rest).
Proof.
  intros Hz. unfold consume_i32, mbind, stM_bind.
  rewrite consume_chunk_app, from_to_ne_bytes by apply length_to_ne_bytes.
  change (8 * Z.of_nat 4) with 32. unfold mret, stM_ret.
  by rewrite (as_unsigned_id 32 (as_u32 z)), as_signed_as_unsigned by by (try apply as_unsigned_range).
Qed.
Lemma consume_i64_app z rest :
  is_i64 z → consume_i64 (to_ne_bytes 8 (as_u64 z) ++ rest) = (Ok z, rest).
Proof.
  intros Hz. unfold consume_i64, mbind, stM_bind.
  rewrite consume_chunk_app, from_to_ne_bytes by apply length_to_ne_bytes.
  change (8 * Z.of_nat 8) with 64. unfold mret, stM_ret.
  by rewrite (as_unsigned_id 64 (as_u64 z)), as_signed_as_unsigned by by (try apply as_unsigned_range).
Qed.

(** A length-prefixed vector whose length fits a [u32]. *)
Lemma consume_vec_app v rest :
  is_u32 (len v) → consume_vec (to_ne_bytes 4 (as_u32 (len v)) ++ v ++ rest) = (Ok v, rest).
Proof.
  intros Hv. unfold consume_vec, mbind, stM_bind. rewrite consume_u32_app.
  rewrite !as_unsigned_id by (try rewrite as_unsigned_id; done). unfold get_st.
  rewrite decide_False by (rewrite len_app; pose proof (len_nonneg rest); lia).
  unfold modify, mret, stM_ret, len. by rewrite Nat2Z.id, take_app_length, drop_app_length.
Qed.

(** The blob at the expected offset is returned and the offset advances past it. *)
Lemma consume_blob_app b1 v b2 rest :
  is_u32 (len b1 + len v) →
  consume_blob (len b1) (b1 ++ v ++ b2)
    (to_ne_bytes 4 (as_u32 (len v)) ++ to_ne_bytes 4 (len b1) ++ rest)
  = (Ok (v, len b1 + len v), rest).
Proof.
  intros Hlen. pose proof (len_nonneg b1). pose proof (len_nonneg v). pose proof (len_nonneg b2).
  assert (is_u32 (len v) ∧ is_u32 (len b1)) as [Hv Hb1] by range_lia.
  unfold consume_blob, mbind, stM_bind. rewrite consume_u32_app. cbn [fst snd].
  rewrite consume_u32_app. rewrite !as_unsigned_id by (try rewrite as_unsigned_id; done).
  unfold liftr, reject_if. rewrite bool_decide_eq_false_2 by lia.
  rewrite bool_decide_eq_false_2 by (rewrite !len_app; lia).
  unfold slice_range. rewrite decide_True by (rewrite !len_app; lia).
  replace (len b1 + len v - len b1) with (len v) by lia.
  unfold mret, stM_ret, len. by rewrite !Nat2Z.id, drop_app_length, take_app_length.
Qed.

Lemma enum_of_i32_discr {A} `{REnum A} (v : A) : enum_of_i32 (discr v) = Ok v.
Proof. unfold enum_of_i32. by rewrite try_from_discr. Qed.

Lemma enum_discr_i32 {A} `{REnum A} (v : A) :
  Forall (λ v, is_i32 (discr v)) variants → is_i32 (discr v).
Proof. intros Hf. by apply (proj1 (Forall_forall _ _) Hf v), variants_complete. Qed.
End primitives.

(** ** Round trip of parameter lists *)

(** The byte-string payload of a parameter, empty for the other variants, and
    the concatenation of all payloads of a list. *)
Definition blob_of (p : KeyParam) : bytes := default [] (kp_blob p).
Definition blobs (ps : list KeyParam) : bytes := ps ≫= blob_of.

Section roundtrip.
Context `{T : Target}.

Lemma blobs_cons p ps : blobs (p :: ps) = blob_of p ++ blobs ps.
Proof. done. Qed.

Lemma serialize_blobs_ok ps result size :
  0 ≤ size → is_u32 (size + len (blobs ps)) →
  serialize_blobs ps result size = Ok (result ++ blobs ps, size + len (blobs ps)).
Proof.
  revert result size. induction ps as [|p ps IH]; intros result size H0 Hsz; cbn [serialize_blobs].
  { cbn. by rewrite app_nil_r, Z.add_0_r. }
  rewrite blobs_cons in *. rewrite len_app in *. unfold blob_of in *.
  pose proof (len_nonneg (default [] (kp_blob p))). pose proof (len_nonneg (blobs ps)).
  destruct (kp_blob p) as [v|]; cbn [default from_option id] in *.
  - rewrite as_unsigned_id by range_lia.
    rewrite ovf_unsigned_ok by range_lia. cbn [mbind res_bind].
    rewrite IH by (rewrite <- ?Z.add_assoc; range_lia).
    by rewrite <- app_assoc, <- Z.add_assoc.
  - by rewrite IH.
Qed.

(** What one parameter contributes to the second loop, and how it is read back. *)
Lemma serialize_value_ok p off :
  kp_wf p → 0 ≤ off → is_u32 (off + len (blob_of p)) →
  ∃ v, serialize_value p off = Ok (v, off + len (blob_of p)) ∧ (length v ≤ 8)%nat ∧
    ∀ b1 b2 rest, len b1 = off →
      deserialize_value (tag p) off (b1 ++ blob_of p ++ b2) (v ++ rest)
      = (Ok (p, off + len (blob_of p)), rest).
Proof.
  intros Hwf H0 Hoff. destruct p; cbn [serialize_value tag deserialize_value kp_wf] in *;
    unfold blob_of in *; cbn [kp_blob default from_option id] in *.
  all: try (eexists; split; [rewrite Z.add_0_r; reflexivity|]; split;
    [rewrite ?length_to_ne_bytes; cbn; lia|]; intros b1 b2 rest Hb1; rewrite Z.add_0_r;
    unfold mbind, stM_bind;
    first [ rewrite consume_i32_app by (apply enum_discr_i32; apply (bool_decide_unpack _); by vm_compute);
            unfold liftr; by rewrite enum_of_i32_discr
          | by rewrite consume_u32_app, as_unsigned_id
          | by rewrite consume_u64_app, as_unsigned_id
          | by rewrite consume_i64_app
          | reflexivity ]).
  all: pose proof (len_nonneg v); rewrite as_unsigned_id by range_lia;
    rewrite ovf_unsigned_ok by done; cbn [mbind res_bind].
  all: eexists; split; [reflexivity|]; split; [rewrite length_app, !length_to_ne_bytes; lia|].
  all: intros b1 b2 rest <-; unfold mbind, stM_bind; rewrite <- app_assoc.
  all: rewrite <- (as_unsigned_id 32 (len v)) at 1 by range_lia.
  all: by rewrite consume_blob_app.
Qed.

Lemma serialize_params_ok ps result off :
  Forall kp_wf ps → 0 ≤ off → is_u32 (off + len (blobs ps)) →
  ∃ enc, serialize_params ps result off = Ok (result ++ enc, off + len (blobs ps)) ∧
    (length enc ≤ 12 * length ps)%nat ∧
    ∀ b1 rest, len b1 = off →
      deserialize_params (length ps) off (b1 ++ blobs ps) (enc ++ rest) = (Ok ps, rest).
Proof.
  intros Hwf. revert result off.
  induction Hwf as [|p ps Hp Hps IH]; intros result off H0 Hoff.
  { exists []. cbn. by rewrite app_nil_r, Z.add_0_r. }
  rewrite blobs_cons, len_app in *. pose proof (len_nonneg (blob_of p)).
  pose proof (len_nonneg (blobs ps)).
  destruct (serialize_value_ok p off Hp H0) as (v & Hv & Hlen & Hde); [range_lia|].
  destruct (IH (result ++ to_ne_bytes 4 (tag_u32 (tag p)) ++ v) (off + len (blob_of p)))
    as (enc & Henc & Hlen' & Hde'); [lia|by rewrite <- Z.add_assoc|].
  exists (to_ne_bytes 4 (tag_u32 (tag p)) ++ v ++ enc).
  cbn [serialize_params]. rewrite Hv. cbn [mbind res_bind]. rewrite Henc.
  split_and!.
  - by rewrite <- !app_assoc, Z.add_assoc.
  - rewrite !length_app, length_to_ne_bytes. cbn [length]. lia.
  - intros b1 rest Hb1. cbn [length deserialize_params]. unfold deserialize_param, mbind, stM_bind.
    rewrite <- !app_assoc, consume_u32_app.
    rewrite as_unsigned_id by apply tag_u32_range. unfold liftr.
    rewrite tag_u32_discr, enum_of_i32_discr, Hde by done.
    rewrite app_assoc, Hde' by (rewrite len_app; lia). done.
Qed.

(** The layout of serialized parameters. *)
Lemma serialize_layout ps :
  Forall kp_wf ps → is_u32 (len (blobs ps)) → 12 * len ps < 2 ^ 32 →
  ∃ enc, serialize ps = Ok (to_ne_bytes 4 (len (blobs ps)) ++ blobs ps ++
                            to_ne_bytes 4 (as_u32 (len ps)) ++ to_ne_bytes 4 (len enc) ++ enc) ∧
    (length enc ≤ 12 * length ps)%nat ∧
    ∀ rest, deserialize_params (length ps) 0 (blobs ps) (enc ++ rest) = (Ok ps, rest).
Proof.
  intros Hwf Hb Hn. unfold serialize.
  rewrite serialize_blobs_ok by (rewrite ?Z.add_0_l; done). cbn [mbind res_bind].
  rewrite Z.add_0_l.
  rewrite overwrite_front by apply length_to_ne_bytes.
  set (hd := (to_ne_bytes 4 (len (blobs ps)) ++ blobs ps) ++ to_ne_bytes 4 (as_u32 (len ps))).
  destruct (serialize_params_ok ps (hd ++ replicate 4 (u8_of 0)) 0)
    as (enc & -> & Hlen & Hde); [done|done|by rewrite Z.add_0_l|].
  exists enc. cbn [mbind res_bind]. split_and!; [|done|intros rest; by apply (Hde [])].
  rewrite <- app_assoc, overwrite_app by apply length_to_ne_bytes.
  replace (len (hd ++ replicate 4 (u8_of 0) ++ enc) - len (hd ++ replicate 4 (u8_of 0)))
    with (len enc) by (rewrite !len_app; lia).
  rewrite as_unsigned_id by (unfold is_unsigned, len in *; lia).
  unfold hd. by rewrite <- !app_assoc.
Qed.

Lemma serialize_deserialize ps :
  Forall kp_wf ps → len (blobs ps) < 2 ^ 32 → 12 * len ps < 2 ^ 32 →
  ∃ data, serialize ps = Ok data ∧ ∀ rest, deserialize (data ++ rest) = (Ok ps, rest).
Proof.
  intros Hwf Hb Hn. pose proof (len_nonneg (blobs ps)). pose proof (len_nonneg ps).
  destruct (serialize_layout ps) as (enc & Hs & Hlen & Hde); [done|range_lia|done|].
  eexists. split; [done|]. intros rest. unfold deserialize, mbind, stM_bind, get_st, liftr, modify.
  rewrite <- !app_assoc, consume_u32_app.
  rewrite (as_unsigned_id 32 (len (blobs ps))) by range_lia.
  rewrite slice_to_app, slice_from_app, consume_u32_app, consume_u32_app.
  rewrite !as_unsigned_id by (rewrite ?as_unsigned_id; unfold is_unsigned, len in *; lia).
  unfold reject_if. rewrite bool_decide_eq_false_2 by (rewrite len_app; pose proof (len_nonneg rest); lia).
  unfold len at 1. rewrite Nat2Z.id. apply Hde.
Qed.

(** C11: legacy serialization round trip.  For parameters whose integer payloads
    fit their Rust types and whose sizes fit the 32-bit length fields,
    [serialize] succeeds, and [deserialize] applied to the produced bytes
    followed by anything returns exactly the same parameters and leaves exactly
    what followed, on targets of either byte order and with or without overflow
    checks. *)
Theorem legacy_serialize_roundtrip ps :
  Forall kp_wf ps → len (blobs ps) < 2 ^ 32 → 12 * len ps < 2 ^ 32 →
  ∃ data, serialize ps = Ok data ∧ ∀ rest, deserialize (data ++ rest) = (Ok ps, rest).
Proof. apply serialize_deserialize. Qed.
End roundtrip.

(** A list that exercises every shape of payload satisfies the hypotheses. *)
Lemma legacy_serialize_roundtrip_witness :
  let ps := [KP_Purpose KeyPurpose_Sign; KP_KeySize 256; KP_ApplicationId [u8_of 1; u8_of 2];
             KP_UserSecureId (2 ^ 63); KP_NoAuthRequired; KP_CreationDatetime (-5)] in
  ∃ data, serialize (T:=arm64) ps = Ok data ∧
          ∀ rest, deserialize (T:=arm64) (data ++ rest) = (Ok ps, rest).
Proof.
  apply (legacy_serialize_roundtrip (T:=arm64)); [|vm_compute; reflexivity..].
  repeat constructor; cbn; done.
Defined.

(** ** When parsing panics *)

Section panics.
Context `{T : Target}.

Lemma consume_chunk_nopanic n : nopanic (consume_chunk n).
Proof. intros data. unfold consume_chunk. by case_decide. Qed.
#[local] Hint Resolve consume_chunk_nopanic : nopanic.
Lemma consume_u8_nopanic : nopanic consume_u8.
Proof. by intros []. Qed.
Lemma consume_u32_nopanic : nopanic consume_u32.
Proof. unfold consume_u32. auto with nopanic. Qed.
Lemma consume_i32_nopanic : nopanic consume_i32.
Proof. unfold consume_i32. auto with nopanic. Qed.
Lemma consume_u64_nopanic : nopanic consume_u64.
Proof. unfold consume_u64. auto with nopanic. Qed.
Lemma consume_i64_nopanic : nopanic consume_i64.
Proof. unfold consume_i64. auto with nopanic. Qed.
#[local] Hint Resolve consume_u8_nopanic consume_u32_nopanic consume_i32_nopanic
  consume_u64_nopanic consume_i64_nopanic : nopanic.
Lemma consume_bool_nopanic : nopanic consume_bool.
Proof. unfold consume_bool. apply nopanic_bind; [auto with nopanic|]. intros b s. cbn. by case_decide. Qed.

Lemma consume_u32_range data v data' : consume_u32 data = (Ok v, data') → is_u32 v ∧ 4 ≤ len data.
Proof.
  unfold consume_u32, mbind, stM_bind, consume_chunk.
  case_decide as Hlen; [done|]. intros [= <- _].
  split; [|lia]. pose proof (from_ne_bytes_range (take 4 data)) as Hr.
  rewrite length_take_le in Hr by (unfold len in Hlen; lia). done.
Qed.

Lemma consume_blob_nopanic next blob_data : nopanic (consume_blob next blob_data).
Proof.
  intros data. unfold consume_blob, mbind, stM_bind.
  destruct (consume_u32 data) as [[n| |] d1] eqn:E1;
    [|done|by (pose proof (consume_u32_nopanic data) as Hn; rewrite E1 in Hn)].
  destruct (consume_u32 d1) as [[o| |] d2] eqn:E2;
    [|done|by (pose proof (consume_u32_nopanic d1) as Hn; rewrite E2 in Hn)].
  apply consume_u32_range in E1 as [Hn _]. apply consume_u32_range in E2 as [Ho _].
  unfold liftr, reject_if. destruct (bool_decide _); [done|].
  destruct (bool_decide (o + n > _)) eqn:Hb; [done|]. apply bool_decide_eq_false in Hb.
  unfold slice_range. by rewrite decide_True by range_lia.
Qed.
#[local] Hint Resolve consume_bool_nopanic consume_blob_nopanic : nopanic.

Lemma deserialize_value_nopanic t next blob_data : nopanic (deserialize_value t next blob_data).
Proof.
  destruct t; cbn [deserialize_value]; unfold enum_of_i32;
    first [apply nopanic_liftr; discriminate | repeat (apply nopanic_bind; [auto with nopanic|]; intros)];
    try case_match; auto with nopanic.
Qed.
#[local] Hint Resolve deserialize_value_nopanic : nopanic.

Lemma deserialize_params_nopanic n next blob_data : nopanic (deserialize_params n next blob_data).
Proof.
  revert next. induction n as [|n IH]; intros next; cbn [deserialize_params]; [auto with nopanic|].
  apply nopanic_bind; [unfold deserialize_param, enum_of_i32; auto 7 with nopanic|].
  intros [p next']. auto with nopanic.
Qed.

(** [deserialize] panics on exactly one kind of input: at least four bytes,
    the first four of which announce more byte-string data than follows.  On
    every other input it returns parameters or an error. *)
Theorem legacy_deserialize_panic_iff data :
  (deserialize data).1 = Panic ↔
  4 ≤ len data ∧ len data - 4 < from_ne_bytes (take 4 data).
Proof.
  unfold deserialize, mbind at 1, stM_bind at 1.
  unfold consume_u32 at 1, mbind at 1, stM_bind at 1, consume_chunk.
  case_decide as Hlen; [cbn; split; [done|lia]|].
  unfold mret at 1, stM_ret at 1.
  pose proof (from_ne_bytes_range (take 4 data)) as Hr.
  rewrite length_take_le in Hr by (unfold len in Hlen; lia).
  assert (len (drop 4 data) = len data - 4) as Hd.
  { unfold len in *. rewrite length_drop. lia. }
  unfold mbind at 1, stM_bind at 1, get_st at 1. unfold mbind at 1, stM_bind at 1, liftr at 1.
  unfold slice_to. rewrite Hd. case_decide as Hsz.
  - split; [|range_lia]. unfold mbind at 1, stM_bind at 1, liftr at 1, slice_from.
    rewrite decide_True by range_lia. intros Hp. exfalso. revert Hp.
    match goal with |- (?c ?s).1 = _ → _ => apply (fun H : nopanic c => H s) end.
    apply nopanic_bind; [by intros ?|]. intros _.
    repeat (apply nopanic_bind; [auto using consume_u32_nopanic with nopanic; by intros ?|]; intros).
    apply deserialize_params_nopanic.
  - cbn. split; [|done]. intros _. split; [lia|]. range_lia.
Qed.
End panics.

(** ** The legacy order is a total order *)

(** Reference form of the order: the tag's discriminant, then the payload. *)
Definition kp_key (p : KeyParam) : list Z :=
  discr (tag p) ::
  match p with
  | KP_Purpose v => [discr v]
  | KP_Algorithm v => [discr v]
  | KP_BlockMode v => [discr v]
  | KP_Digest v => [discr v]
  | KP_Padding v => [discr v]
  | KP_EcCurve v => [discr v]
  | KP_RsaOaepMgfDigest v => [discr v]
  | KP_Origin v => [discr v]
  | KP_KeySize v | KP_MinMacLength v | KP_MaxUsesPerBoot v | KP_UsageCountLimit v | KP_UserId v
  | KP_UserAuthType v | KP_AuthTimeout v | KP_OsVersion v | KP_OsPatchlevel v
  | KP_VendorPatchlevel v | KP_BootPatchlevel v | KP_MacLength v | KP_MaxBootLevel v
  | KP_RsaPublicExponent v | KP_UserSecureId v
  | KP_ActiveDatetime v | KP_OriginationExpireDatetime v | KP_UsageExpireDatetime v
  | KP_CreationDatetime v | KP_CertificateNotBefore v | KP_CertificateNotAfter v => [v]
  | KP_ApplicationId v | KP_ApplicationData v | KP_RootOfTrust v | KP_AttestationChallenge v
  | KP_AttestationApplicationId v | KP_AttestationIdBrand v | KP_AttestationIdDevice v
  | KP_AttestationIdProduct v | KP_AttestationIdSerial v | KP_AttestationIdImei v
  | KP_AttestationIdSecondImei v | KP_AttestationIdMeid v | KP_AttestationIdManufacturer v
  | KP_AttestationIdModel v | KP_Nonce v | KP_CertificateSerial v | KP_CertificateSubject v
  | KP_ModuleHash v => u8_val <$> v
  | _ => []
  end.

Lemma param_compare_key l r : param_compare l r = lex_cmp (kp_key l) (kp_key r).
Proof.
  destruct l; destruct r; try reflexivity; cbn; unfold enum_cmp; rewrite ?Z.compare_refl;
    try reflexivity; by destruct (_ ?= _).
Qed.

Lemma lex_cmp_antisym l r : lex_cmp l r = CompOpp (lex_cmp r l).
Proof.
  revert r. induction l as [|x l IH]; intros [|y r]; cbn; try done.
  rewrite (Z.compare_antisym y x). destruct (y ?= x); cbn; auto.
Qed.
Lemma lex_cmp_eq l r : lex_cmp l r = Eq ↔ l = r.
Proof.
  revert r. induction l as [|x l IH]; intros [|y r]; cbn; try done.
  destruct (x ?= y) eqn:E; [apply Z.compare_eq in E as ->; rewrite IH; naive_solver|..];
    (split; [done|]; intros [= -> ->]; by rewrite Z.compare_refl in E).
Qed.
Lemma lex_cmp_trans l k r : lex_cmp l k ≠ Gt → lex_cmp k r ≠ Gt → lex_cmp l r ≠ Gt.
Proof.
  revert k r. induction l as [|x l IH]; intros [|y k] [|z r]; cbn; try done.
  destruct (Z.compare_spec x y) as [->|Hxy|Hxy], (Z.compare_spec y z) as [->|Hyz|Hyz]; try done.
  - apply IH.
  - by rewrite (proj2 (Z.compare_lt_iff x z)).
  - rewrite (proj2 (Z.compare_lt_iff x z)) by lia. done.
Qed.

#[export] Instance u8_val_inj : Inj (=) (=) u8_val.
Proof.
  intros a b Hab. apply (f_equal byte.of_Z) in Hab. unfold u8_val in Hab.
  by rewrite !byte.of_Z_unsigned in Hab.
Qed.

Lemma kp_key_inj p q : kp_key p = kp_key q → p = q.
Proof.
  intros H. assert (tag p = tag q) as Ht by (apply (inj discr); by injection H).
  apply (f_equal (drop 1)) in H. destruct p, q; try discriminate Ht; cbn [kp_key drop] in H; try done.
  all: try match type of H with
    | [?a] = [?b] => assert (a = b) as Hab by congruence; try apply (inj discr) in Hab; by subst
    end.
  all: apply (inj (fmap u8_val)) in H; by subst.
Qed.

Abbreviation param_le := (cmp_le param_compare).

Lemma param_le_trans : Transitive param_le.
Proof. intros l k r. unfold cmp_le. rewrite !param_compare_key. apply lex_cmp_trans. Qed.
Lemma param_le_antisymm : AntiSymm (=) param_le.
Proof.
  intros l r Hlr Hrl. apply kp_key_inj, lex_cmp_eq. unfold cmp_le in *.
  rewrite param_compare_key in *. rewrite lex_cmp_antisym in Hrl.
  by destruct (lex_cmp (kp_key l) (kp_key r)).
Qed.
Lemma param_compare_total x y : param_compare x y = Gt → param_le y x.
Proof.
  unfold cmp_le. rewrite !param_compare_key, (lex_cmp_antisym (kp_key y)). by intros ->.
Qed.

(** Sorting key parameters with the legacy order is canonical.  The result
    is sorted, holds the same parameters, and depends only on which parameters
    there are, not on the order they were given in. *)
Theorem sort_params_canonical l1 l2 :
  Sorted param_le (sort_by param_compare l1) ∧
  sort_by param_compare l1 ≡ₚ l1 ∧
  (l1 ≡ₚ l2 ↔ sort_by param_compare l1 = sort_by param_compare l2).
Proof.
  pose proof param_le_trans. pose proof param_le_antisymm.
  split_and!; [apply sort_by_Sorted, param_compare_total|apply sort_by_Permutation|split].
  - intros Hp. apply (StronglySorted_unique param_le);
      try (apply Sorted_StronglySorted; [done|]; apply sort_by_Sorted, param_compare_total).
    by rewrite !sort_by_Permutation.
  - intros Heq. by rewrite <- (sort_by_Permutation param_compare l1), Heq, sort_by_Permutation.
Qed.
