(* ===== verification/CryptoTypes.v ===== *)
(** * Key material and operation modes

    The data types of [common/src/crypto.rs] and its submodules that key policy
    and operations are expressed with.  Fixed-size byte arrays are byte lists. *)

From S2P Require Import Prelude Wire.

(** ** AES *)

Definition AES_BLOCK_SIZE : Z := 16.
Definition GCM_NONCE_SIZE : Z := 12.

Inductive AesVariant : Set := Aes128 | Aes192 | Aes256.
Definition AesVariant_key_size (v : AesVariant) : Z :=
  match v with Aes128 => 16 | Aes192 => 24 | Aes256 => 32 end.

Inductive AesKey : Set := AesKey128 (k : bytes) | AesKey192 (k : bytes) | AesKey256 (k : bytes).
Definition AesKey_new (data : bytes) : Result AesKey :=
  if decide (len data = 16) then Ok (AesKey128 data)
  else if decide (len data = 24) then Ok (AesKey192 data)
  else if decide (len data = 32) then Ok (AesKey256 data)
  else km_err UnsupportedKeySize.
(** The arrays have their size. *)
Definition AesKey_wf (k : AesKey) : Prop :=
  match k with AesKey128 k => len k = 16 | AesKey192 k => len k = 24 | AesKey256 k => len k = 32 end.
Definition AesKey_size (k : AesKey) : Z :=
  match k with AesKey128 _ => 128 | AesKey192 _ => 192 | AesKey256 _ => 256 end.

Inductive CipherMode : Set :=
| EcbNoPadding | EcbPkcs7Padding
| CbcNoPadding (nonce : bytes) | CbcPkcs7Padding (nonce : bytes)
| Ctr (nonce : bytes).
Inductive GcmMode : Set :=
| GcmTag12 (nonce : bytes) | GcmTag13 (nonce : bytes) | GcmTag14 (nonce : bytes)
| GcmTag15 (nonce : bytes) | GcmTag16 (nonce : bytes).
Inductive AesMode : Set := Cipher (m : CipherMode) | Aead (m : GcmMode).
Definition AesMode_is_aead (m : AesMode) : bool :=
  match m with Aead _ => true | Cipher _ => false end.
Definition GcmMode_tag_len (m : GcmMode) : Z :=
  match m with
  | GcmTag12 _ => 12 | GcmTag13 _ => 13 | GcmTag14 _ => 14 | GcmTag15 _ => 15 | GcmTag16 _ => 16
  end.

(** ** Triple DES *)

Definition DES_BLOCK_SIZE : Z := 8.
Definition DES_KEY_SIZE_BITS : Z := 168.
Definition DES_KEY_SIZE_BYTES : Z := 24.
Definition DesKey_new (data : bytes) : Result bytes :=
  if decide (len data = DES_KEY_SIZE_BYTES) then Ok data else km_err UnsupportedKeySize.
Inductive DesMode : Set :=
| DesEcbNoPadding | DesEcbPkcs7Padding
| DesCbcNoPadding (nonce : bytes) | DesCbcPkcs7Padding (nonce : bytes).

(** ** HMAC *)

Definition MIN_KEY_SIZE_BITS : Z := 64.
Definition MAX_STRONGBOX_KEY_SIZE_BITS : Z := 512.
Definition MAX_KEY_SIZE_BITS : Z := 1024.
Definition valid_size (key_size max_size_bits : Z) : Result unit :=
  if decide (key_size mod 8 ≠ 0) then km_err UnsupportedKeySize
  else if negb (bool_decide (MIN_KEY_SIZE_BITS ≤ key_size ≤ max_size_bits))
  then km_err UnsupportedKeySize
  else Ok tt.
Definition valid_hal_size (key_size : Z) : Result unit := valid_size key_size MAX_KEY_SIZE_BITS.
Definition valid_strongbox_hal_size (key_size : Z) : Result unit :=
  valid_size key_size MAX_STRONGBOX_KEY_SIZE_BITS.
Definition HmacKey_size (k : bytes) : Z := as_u32 (len k * 8).

(** ** RSA *)

Inductive DecryptionMode : Set :=
| Dec_NoPadding | Dec_OaepPadding (msg_digest mgf_digest : Digest) | Dec_Pkcs1_1_5Padding.
Inductive SignMode : Set :=
| Sign_NoPadding | Sign_PssPadding (d : Digest) | Sign_Pkcs1_1_5Padding (d : Digest).

(** ** Elliptic curves *)

Inductive NistCurve : Set := Nist_P224 | Nist_P256 | Nist_P384 | Nist_P521.
Definition NistCurve_coord_len (c : NistCurve) : Z :=
  match c with Nist_P224 => 28 | Nist_P256 => 32 | Nist_P384 => 48 | Nist_P521 => 66 end.
Definition EcCurve_of_nist (c : NistCurve) : EcCurve :=
  match c with
  | Nist_P224 => EcCurve_P224 | Nist_P256 => EcCurve_P256 | Nist_P384 => EcCurve_P384
  | Nist_P521 => EcCurve_P521
  end.
Definition NistCurve_try_from (c : EcCurve) : Result NistCurve :=
  match c with
  | EcCurve_P224 => Ok Nist_P224 | EcCurve_P256 => Ok Nist_P256 | EcCurve_P384 => Ok Nist_P384
  | EcCurve_P521 => Ok Nist_P521
  | EcCurve_Curve25519 => km_err InvalidArgument
  end.
Inductive CurveType : Set := CurveType_Nist | CurveType_EdDsa | CurveType_Xdh.
#[export] Instance CurveType_eq_dec : EqDecision CurveType.
Proof. solve_decision. Defined.
Inductive EcKey : Set :=
| EcKey_P224 (k : bytes) | EcKey_P256 (k : bytes) | EcKey_P384 (k : bytes) | EcKey_P521 (k : bytes)
| EcKey_Ed25519 (k : bytes) | EcKey_X25519 (k : bytes).
Definition curve_to_key_size (c : EcCurve) : Z :=
  match c with
  | EcCurve_P224 => 224 | EcCurve_P256 => 256 | EcCurve_P384 => 384 | EcCurve_P521 => 521
  | EcCurve_Curve25519 => 256
  end.

(** ** Key material *)

(** Explicit key material, or an opaque blob known to the crypto implementation. *)
Inductive OpaqueOr (A : Type) : Type := Explicit (k : A) | Opaque (b : bytes).
Arguments Explicit {A} k.
Arguments Opaque {A} b.

Inductive KeyMaterial : Type :=
| KM_Aes (k : OpaqueOr AesKey)
| KM_TripleDes (k : OpaqueOr bytes)
| KM_Hmac (k : OpaqueOr bytes)
| KM_Rsa (k : OpaqueOr bytes)
| KM_Ec (c : EcCurve) (ct : CurveType) (k : OpaqueOr EcKey).

Definition is_asymmetric (k : KeyMaterial) : bool :=
  match k with KM_Aes _ | KM_TripleDes _ | KM_Hmac _ => false | KM_Ec _ _ _ | KM_Rsa _ => true end.

Inductive KeyGenInfo : Set :=
| Gen_Aes (v : AesVariant) | Gen_TripleDes | Gen_Hmac (key_size : Z)
| Gen_Rsa (key_size exponent : Z) | Gen_NistEc (c : NistCurve) | Gen_Ed25519 | Gen_X25519.

Inductive SymmetricOperation : Set := Encrypt | Decrypt.

(** The algorithm a key of the given material is for. *)
Definition key_algorithm (k : KeyMaterial) : Algorithm :=
  match k with
  | KM_Aes _ => Algorithm_Aes | KM_TripleDes _ => Algorithm_TripleDes | KM_Hmac _ => Algorithm_Hmac
  | KM_Rsa _ => Algorithm_Rsa | KM_Ec _ _ _ => Algorithm_Ec
  end.

(** The sizes HMAC keys may have. *)
Lemma valid_size_Ok k m u :
  valid_size k m = Ok u ↔ k mod 8 = 0 ∧ MIN_KEY_SIZE_BITS ≤ k ≤ m.
Proof.
  unfold valid_size. destruct u. case_decide; [naive_solver|].
  case_bool_decide; cbn; naive_solver lia.
Qed.
