(* ===== verification/TagParams.v ===== *)
(** * Reading key parameters ([common/src/tag.rs], first part)

    The macros that read single-valued, optional and boolean tags out of a
    parameter list, the accessors built on them, validation and transcription
    of characteristics, and the IMEI helper. *)

From S2P Require Import Prelude Wire TagInfo.

Definition UNPOLICED_COPYABLE_TAGS : list Tag := [
  Tag_RollbackResistance; Tag_EarlyBootOnly; Tag_MaxUsesPerBoot; Tag_UserSecureId;
  Tag_NoAuthRequired; Tag_UserAuthType; Tag_AuthTimeout; Tag_TrustedUserPresenceRequired;
  Tag_TrustedConfirmationRequired; Tag_UnlockedDeviceRequired; Tag_StorageKey
].

Inductive SecureStorage : Set := Available | Unavailable.

(** ** The tag macros *)

(** The payload of a parameter if it is the variant named [X]. *)
Definition as_Purpose (p : KeyParam) : option KeyPurpose :=
  match p with KP_Purpose v => Some v | _ => None end.
Definition as_Algorithm (p : KeyParam) : option Algorithm :=
  match p with KP_Algorithm v => Some v | _ => None end.
Definition as_BlockMode (p : KeyParam) : option BlockMode :=
  match p with KP_BlockMode v => Some v | _ => None end.
Definition as_Padding (p : KeyParam) : option PaddingMode :=
  match p with KP_Padding v => Some v | _ => None end.
Definition as_Digest (p : KeyParam) : option Digest :=
  match p with KP_Digest v => Some v | _ => None end.
Definition as_EcCurve (p : KeyParam) : option EcCurve :=
  match p with KP_EcCurve v => Some v | _ => None end.
Definition as_RsaOaepMgfDigest (p : KeyParam) : option Digest :=
  match p with KP_RsaOaepMgfDigest v => Some v | _ => None end.
Definition as_KeySize (p : KeyParam) : option Z :=
  match p with KP_KeySize v => Some v | _ => None end.
Definition as_RsaPublicExponent (p : KeyParam) : option Z :=
  match p with KP_RsaPublicExponent v => Some v | _ => None end.
Definition as_MinMacLength (p : KeyParam) : option Z :=
  match p with KP_MinMacLength v => Some v | _ => None end.
Definition as_MacLength (p : KeyParam) : option Z :=
  match p with KP_MacLength v => Some v | _ => None end.
Definition as_Nonce (p : KeyParam) : option bytes :=
  match p with KP_Nonce v => Some v | _ => None end.
Definition as_ApplicationId (p : KeyParam) : option bytes :=
  match p with KP_ApplicationId v => Some v | _ => None end.
Definition as_ApplicationData (p : KeyParam) : option bytes :=
  match p with KP_ApplicationData v => Some v | _ => None end.
Definition as_CertificateSerial (p : KeyParam) : option bytes :=
  match p with KP_CertificateSerial v => Some v | _ => None end.
Definition as_CertificateSubject (p : KeyParam) : option bytes :=
  match p with KP_CertificateSubject v => Some v | _ => None end.
Definition as_UsageCountLimit (p : KeyParam) : option Z :=
  match p with KP_UsageCountLimit v => Some v | _ => None end.
Definition as_MaxUsesPerBoot (p : KeyParam) : option Z :=
  match p with KP_MaxUsesPerBoot v => Some v | _ => None end.
Definition as_AttestationChallenge (p : KeyParam) : option bytes :=
  match p with KP_AttestationChallenge v => Some v | _ => None end.
Definition as_AttestationApplicationId (p : KeyParam) : option bytes :=
  match p with KP_AttestationApplicationId v => Some v | _ => None end.
Definition as_CreationDatetime (p : KeyParam) : option Z :=
  match p with KP_CreationDatetime v => Some v | _ => None end.
Definition as_UserSecureId (p : KeyParam) : option Z :=
  match p with KP_UserSecureId v => Some v | _ => None end.
Definition as_CertificateNotBefore (p : KeyParam) : option Z :=
  match p with KP_CertificateNotBefore v => Some v | _ => None end.
Definition as_CertificateNotAfter (p : KeyParam) : option Z :=
  match p with KP_CertificateNotAfter v => Some v | _ => None end.

Section macros.
Context {A : Type} (sel : KeyParam → option A).

(** The loop shared by the macros: the last match and the number of matches. *)
Fixpoint scan_tag (params : list KeyParam) (result : option A) (count : Z) : option A * Z :=
  match params with
  | [] => (result, count)
  | p :: params' =>
    match sel p with
    | Some v => scan_tag params' (Some v) (count + 1)
    | None => scan_tag params' result count
    end
  end.

Definition get_tag_value (params : list KeyParam) (err : ErrorCode) : Result A :=
  let '(result, count) := scan_tag params None 0 in
  match count with
  | 0 => km_err err
  | 1 => match result with Some v => Ok v | None => Panic end
  | _ => km_err err
  end.

Definition get_opt_tag_value_or (params : list KeyParam) (dup_error : ErrorCode)
    : Result (option A) :=
  let '(result, count) := scan_tag params None 0 in
  match count with
  | 0 => Ok None
  | 1 => match result with Some v => Ok (Some v) | None => Panic end
  | _ => km_err dup_error
  end.
Definition get_opt_tag_value (params : list KeyParam) : Result (option A) :=
  get_opt_tag_value_or params InvalidTag.

Definition contains_tag_value `{EqDecision A} (params : list KeyParam) (value : A) : bool :=
  foldr (λ p found, match sel p with
                    | Some v => if decide (v = value) then true else found
                    | None => found
                    end) false params.
End macros.

Definition get_bool_tag_value (params : list KeyParam) (flag : KeyParam) : Result bool :=
  let count := len (filter (λ p, p = flag) params) in
  match count with
  | 0 => Ok false
  | 1 => Ok true
  | _ => km_err InvalidTag
  end.

(** ** Characteristics *)

Fixpoint characteristics_valid_from (c : DuplicateTagChecker) (chars : list KeyParam)
    : Result unit :=
  match chars with
  | [] => Ok tt
  | p :: chars' =>
    c' ← DuplicateTagChecker_add c (tag p);
    i ← info (tag p);
    _ ← reject_if (bool_decide (characteristic i = NotKeyCharacteristic)) (Hal InvalidKeyBlob);
    characteristics_valid_from c' chars'
  end.
Definition characteristics_valid (chars : list KeyParam) : Result unit :=
  characteristics_valid_from DuplicateTagChecker_default chars.

Fixpoint transcribe_tags_from (c : DuplicateTagChecker) (dest src : list KeyParam) (tags : list Tag)
    : res Error unit * list KeyParam :=
  match src with
  | [] => (Ok tt, dest)
  | p :: src' =>
    match DuplicateTagChecker_add c (tag p) with
    | Ok c' =>
      transcribe_tags_from c' (if decide (tag p ∈ tags) then dest ++ [p] else dest) src' tags
    | Err e => (Err e, dest)
    | Panic => (Panic, dest)
    end
  end.
(** The destination vector is the state; it keeps what was copied before a failure. *)
Definition transcribe_tags (src : list KeyParam) (tags : list Tag) : stM (list KeyParam) Error unit :=
  λ dest, transcribe_tags_from DuplicateTagChecker_default dest src tags.

Definition get_algorithm (params : list KeyParam) : Result Algorithm :=
  get_tag_value as_Algorithm params UnsupportedAlgorithm.
Definition get_block_mode (params : list KeyParam) : Result BlockMode :=
  get_tag_value as_BlockMode params UnsupportedBlockMode.
Definition get_padding_mode (params : list KeyParam) : Result PaddingMode :=
  get_tag_value as_Padding params UnsupportedPaddingMode.
Definition get_digest (params : list KeyParam) : Result Digest :=
  get_tag_value as_Digest params UnsupportedDigest.
Definition get_ec_curve (params : list KeyParam) : Result EcCurve :=
  get_tag_value as_EcCurve params UnsupportedKeySize.
Definition get_mgf_digest (params : list KeyParam) : Result Digest :=
  d ← get_opt_tag_value as_RsaOaepMgfDigest params; Ok (default Digest_Sha1 d).
Definition get_cert_serial (params : list KeyParam) : Result bytes :=
  v ← get_opt_tag_value as_CertificateSerial params; Ok (default DEFAULT_CERT_SERIAL v).
Definition get_cert_subject (params : list KeyParam) : Result bytes :=
  v ← get_opt_tag_value as_CertificateSubject params; Ok (default DEFAULT_CERT_SUBJECT v).

Fixpoint characteristics_at_from (result : option (list KeyParam)) (chars : list KeyCharacteristics)
    (sec_level : SecurityLevel) : Result (option (list KeyParam)) :=
  match chars with
  | [] => Ok result
  | kc :: chars' =>
    if decide (security_level kc ≠ sec_level) then characteristics_at_from result chars' sec_level
    else match result with
         | None => characteristics_at_from (Some (authorizations kc)) chars' sec_level
         | Some _ => km_err InvalidKeyBlob
         end
  end.
Definition characteristics_at (chars : list KeyCharacteristics) (sec_level : SecurityLevel)
    : Result (list KeyParam) :=
  r ← characteristics_at_from None chars sec_level; ok_or r (Hal InvalidKeyBlob).

(** Parameters mixed into the key encryption key. A duplicated application id or
    data is ignored, as [get_opt_tag_value!] then fails. *)
Definition hidden (params : list KeyParam) (rot : bytes) : Result (list KeyParam) :=
  let results := match get_opt_tag_value as_ApplicationId params with
                 | Ok (Some app_id) => [KP_ApplicationId app_id] | _ => [] end in
  let results := results ++ match get_opt_tag_value as_ApplicationData params with
                 | Ok (Some app_data) => [KP_ApplicationData app_data] | _ => [] end in
  Ok (results ++ [KP_RootOfTrust rot]).

(** Find the first purpose value. *)
Definition primary_purpose (params : list KeyParam) : Result KeyPurpose :=
  ok_or (head (omap as_Purpose params)) (Hal IncompatiblePurpose).

Definition digest_len (d : Digest) : Result Z :=
  match d with
  | Digest_Md5 => Ok 128 | Digest_Sha1 => Ok 160 | Digest_Sha224 => Ok 224 | Digest_Sha256 => Ok 256
  | Digest_Sha384 => Ok 384 | Digest_Sha512 => Ok 512
  | _ => km_err IncompatibleDigest
  end.

(** ** IMEI arithmetic *)

(** The loop of [luhn_checksum]: one decimal digit per round; a [u64] has at most
    twenty. *)
Fixpoint luhn_loop (fuel : nat) (val ii sum_digits : Z) : Z :=
  match fuel with
  | O => sum_digits
  | S fuel' =>
    if decide (val = 0) then sum_digits
    else
      let curr_digit := val mod 10 in
      let multiplier := if decide (ii mod 2 = 0) then 2 else 1 in
      let digit_multiplied := curr_digit * multiplier in
      luhn_loop fuel' (val / 10) (ii + 1)
        (sum_digits + (digit_multiplied mod 10 + digit_multiplied / 10))
  end.
Definition luhn_checksum (val : Z) : Z := (10 - luhn_loop 20 val 0 0 mod 10) mod 10.

(** [str::parse::<u64>]: an optional [+], then at least one ASCII digit, with a
    value below 2^64. Bytes that are not UTF-8 are no digits either. *)
Definition digit_val (b : u8) : option Z :=
  if decide (48 ≤ u8_val b ≤ 57) then Some (u8_val b - 48) else None.
Fixpoint parse_digits (ds : bytes) (acc : Z) : option Z :=
  match ds with
  | [] => Some acc
  | b :: ds' => d ← digit_val b; parse_digits ds' (acc * 10 + d)
  end.
Definition parse_u64 (s : bytes) : option Z :=
  let ds := match s with
            | b :: (_ :: _) as ds => if decide (u8_val b = 43) then tail s else s
            | _ => s
            end in
  match ds with
  | [] => None
  | _ => v ← parse_digits ds 0; if decide (v < 2 ^ 64) then Some v else None
  end.
(** [format!("{}", v)] for a [u64]. *)
Fixpoint decimal_loop (fuel : nat) (v : Z) (acc : bytes) : bytes :=
  match fuel with
  | O => acc
  | S fuel' =>
    let acc' := u8_of (48 + v mod 10) :: acc in
    if decide (v / 10 = 0) then acc' else decimal_loop fuel' (v / 10) acc'
  end.
Definition decimal (v : Z) : bytes := decimal_loop 20 v [].

Section imei.
Context `{T : Target}.

Definition increment_imei (imei : bytes) : Result bytes :=
  match imei with
  | [] => Ok []
  | _ =>
    match parse_u64 imei with
    | None => Ok []
    | Some v =>
      let imei2 := v / 10 + 1 in
      m ← ovf_unsigned 64 (imei2 * 10);
      imei2 ← ovf_unsigned 64 (m + luhn_checksum imei2);
      Ok (decimal imei2)
    end
  end.
End imei.

Example luhn_example : luhn_checksum 7992739871 = 3.
Proof. reflexivity. Qed.
Example increment_imei_example :
  increment_imei (T:=arm64) (bytes_of_string "721367498765404")
  = Ok (bytes_of_string "721367498765412").
Proof. vm_compute. reflexivity. Qed.

(** ** The macros in terms of the matching values *)

Section macro_lemmas.
Context {A : Type} (sel : KeyParam → option A).

Lemma scan_tag_spec params r n :
  scan_tag sel params r n =
    (match last (omap sel params) with Some v => Some v | None => r end,
     n + len (omap sel params)).
Proof.
  revert r n. induction params as [|p ps IH]; intros r n; cbn [scan_tag].
  { unfold len. cbn. by rewrite Z.add_0_r. }
  change (omap sel (p :: ps)) with
    (match sel p with Some v => v :: omap sel ps | None => omap sel ps end).
  destruct (sel p) as [v|]; rewrite IH; f_equal.
  - rewrite last_cons. by destruct (last (omap sel ps)).
  - unfold len. cbn. lia.
Qed.

Lemma count_cases {B} (n : Z) (x y z : B) :
  0 ≤ n →
  (match n with 0 => x | 1 => y | _ => z end)
  = if decide (n = 0) then x else if decide (n = 1) then y else z.
Proof. intros Hn. repeat case_decide; subst; try done. destruct n as [|[]|]; done. Qed.

(** Exactly one value, or the given error. *)
Lemma get_tag_value_spec params err :
  get_tag_value sel params err =
  match omap sel params with [v] => Ok v | _ => km_err err end.
Proof.
  unfold get_tag_value. rewrite scan_tag_spec, Z.add_0_l.
  rewrite count_cases by apply len_nonneg. unfold len.
  destruct (omap sel params) as [|v [|w l]]; cbn [length last]; try done.
  rewrite !decide_False by lia. done.
Qed.

(** At most one value, or the given error. *)
Lemma get_opt_tag_value_spec params err :
  get_opt_tag_value_or sel params err =
  match omap sel params with [] => Ok None | [v] => Ok (Some v) | _ => km_err err end.
Proof.
  unfold get_opt_tag_value_or. rewrite scan_tag_spec, Z.add_0_l.
  rewrite count_cases by apply len_nonneg. unfold len.
  destruct (omap sel params) as [|v [|w l]]; cbn [length last]; try done.
  rewrite !decide_False by lia. done.
Qed.

Lemma get_tag_value_Ok params err v :
  get_tag_value sel params err = Ok v ↔ omap sel params = [v].
Proof. rewrite get_tag_value_spec. destruct (omap sel params) as [|? []]; naive_solver. Qed.
Lemma get_opt_tag_value_Ok params err o :
  get_opt_tag_value_or sel params err = Ok o ↔ omap sel params = option_list o.
Proof. rewrite get_opt_tag_value_spec. destruct o, (omap sel params) as [|? []]; naive_solver. Qed.

Lemma contains_tag_value_true `{EqDecision A} params v :
  contains_tag_value sel params v = true ↔ v ∈ omap sel params.
Proof.
  induction params as [|p ps IH]; cbn; [set_solver|].
  destruct (sel p) as [w|]; [|done]. rewrite elem_of_cons. case_decide; naive_solver.
Qed.
End macro_lemmas.

Lemma get_bool_tag_value_spec params flag :
  get_bool_tag_value params flag =
  match filter (λ p, p = flag) params with [] => Ok false | [_] => Ok true | _ => km_err InvalidTag end.
Proof.
  unfold get_bool_tag_value. rewrite count_cases by apply len_nonneg. unfold len.
  destruct (filter _ params) as [|v [|w l]]; cbn [length]; try done.
  rewrite !decide_False by lia. done.
Qed.

Lemma get_bool_tag_value_true params flag : get_bool_tag_value params flag = Ok true → flag ∈ params.
Proof.
  rewrite get_bool_tag_value_spec. destruct (filter _ params) as [|p l] eqn:Hf; [done|].
  intros _. assert (p ∈ filter (λ p, p = flag) params) as [-> ?]%list_elem_of_filter
    by (rewrite Hf; left). done.
Qed.
Lemma get_bool_tag_value_false params flag : get_bool_tag_value params flag = Ok false → flag ∉ params.
Proof.
  rewrite get_bool_tag_value_spec. destruct (filter _ params) as [|p [|q l]] eqn:Hf; [|done..].
  intros _ Hin. assert (flag ∈ filter (λ p, p = flag) params) as Hin'
    by (by apply list_elem_of_filter). rewrite Hf in Hin'. by apply elem_of_nil in Hin'.
Qed.

(** ** Characteristics *)

(** The tag may be a key characteristic. *)
Definition is_characteristic (p : KeyParam) : Prop :=
  ∃ i, info (tag p) = Ok i ∧ characteristic i ≠ NotKeyCharacteristic.

Lemma characteristics_valid_from_spec c S chars :
  represents c S →
  (characteristics_valid_from c chars = Ok tt ↔
   addable S (tag <$> chars) ∧ Forall is_characteristic chars).
Proof.
  revert c S. induction chars as [|p ps IH]; intros c S HS.
  { cbn. split; [|done]. intros _. split; [|done]. split; [constructor|set_solver]. }
  cbn [characteristics_valid_from]. rewrite fmap_cons, addable_cons, Forall_cons.
  destruct (add_spec c S (tag p) HS (known_tag p)) as [(Hm & Hin & ->)|(Hnd & c' & -> & HS')].
  { cbn. naive_solver. }
  cbn [mbind res_bind]. destruct (proj1 (known_info (tag p)) (known_tag p)) as [i Hi].
  rewrite Hi. cbn [mbind res_bind]. unfold is_characteristic at 1. rewrite Hi.
  unfold reject_if. case_bool_decide; cbn [mbind res_bind]; [naive_solver|].
  rewrite (IH c' (tag p :: S) HS'). naive_solver.
Qed.

(** A parameter list is accepted as key characteristics exactly when no
    single-valued tag occurs twice and every tag may be a key characteristic. *)
Theorem characteristics_valid_iff chars :
  characteristics_valid chars = Ok tt ↔
  dup_free (tag <$> chars) ∧ Forall is_characteristic chars.
Proof.
  unfold characteristics_valid.
  rewrite (characteristics_valid_from_spec _ [] _ represents_default). by rewrite addable_nil.
Qed.

Lemma transcribe_tags_from_ok c S dest src tags :
  represents c S → addable S (tag <$> src) →
  transcribe_tags_from c dest src tags = (Ok tt, dest ++ filter (λ p, tag p ∈ tags) src).
Proof.
  revert c S dest. induction src as [|p ps IH]; intros c S dest HS Ha; cbn [transcribe_tags_from].
  { by rewrite app_nil_r. }
  rewrite fmap_cons, addable_cons in Ha. destruct Ha as [Hnd Ha].
  destruct (add_spec c S (tag p) HS (known_tag p)) as [(Hm & Hin & ->)|(_ & c' & -> & HS')]; [naive_solver|].
  rewrite (IH c' (tag p :: S)) by done. rewrite filter_cons. case_decide; [by rewrite <- app_assoc|done].
Qed.

Lemma transcribe_tags_from_dup c S dest src tags :
  represents c S → ¬ addable S (tag <$> src) →
  (transcribe_tags_from c dest src tags).1 = km_err InvalidKeyBlob.
Proof.
  revert c S dest. induction src as [|p ps IH]; intros c S dest HS Ha; cbn [transcribe_tags_from].
  { exfalso. apply Ha. split; [constructor|set_solver]. }
  rewrite fmap_cons, addable_cons in Ha.
  destruct (add_spec c S (tag p) HS (known_tag p)) as [(Hm & Hin & ->)|(Hnd & c' & -> & HS')]; [done|].
  apply (IH c' (tag p :: S)); [done|tauto].
Qed.

(** Transcription copies the parameters whose tag is wanted, in order, after
    what the destination already held; it fails exactly when some single-valued
    tag of the source occurs twice, even if both occurrences carry the same
    value. *)
Theorem transcribe_tags_spec dest src tags :
  (dup_free (tag <$> src) ∧
   transcribe_tags src tags dest = (Ok tt, dest ++ filter (λ p, tag p ∈ tags) src)) ∨
  (¬ dup_free (tag <$> src) ∧ (transcribe_tags src tags dest).1 = km_err InvalidKeyBlob).
Proof.
  unfold transcribe_tags.
  destruct (decide (NoDup (filter (λ t, multivalued t = false) (tag <$> src)))) as [Hd|Hd].
  - left. split; [done|]. eapply transcribe_tags_from_ok; [apply represents_default|].
    by apply addable_nil.
  - right. split; [done|]. eapply transcribe_tags_from_dup; [apply represents_default|].
    by rewrite addable_nil.
Qed.

(** ** The Luhn checksum *)

(** Decimal digits, least significant first, padded with zeros to [n]. *)
Fixpoint digits (n : nat) (v : Z) : list Z :=
  match n with O => [] | S n' => v mod 10 :: digits n' (v / 10) end.
(** Luhn sum of a digit list: every second digit is doubled and reduced to a
    single digit by casting out nines. *)
Fixpoint luhn_total (double : bool) (ds : list Z) : Z :=
  match ds with
  | [] => 0
  | d :: ds' =>
    (if double then (if decide (2 * d > 9) then 2 * d - 9 else 2 * d) else d)
    + luhn_total (negb double) ds'
  end.
(** A number, check digit included, is valid when its Luhn sum is a multiple of ten. *)
Definition luhn_valid (n : Z) : Prop := luhn_total false (digits 21 n) mod 10 = 0.

Lemma digits_zero n b : luhn_total b (digits n 0) = 0.
Proof. revert b. induction n as [|n IH]; intros b; cbn; [done|]. rewrite IH. by destruct b. Qed.

Lemma double_digit d : 0 ≤ d < 10 →
  (d * 2) mod 10 + d * 2 / 10 = if decide (2 * d > 9) then 2 * d - 9 else 2 * d.
Proof.
  intros Hd. assert (d = 0 ∨ d = 1 ∨ d = 2 ∨ d = 3 ∨ d = 4 ∨ d = 5 ∨ d = 6 ∨ d = 7 ∨ d = 8 ∨ d = 9)
    by lia. destruct_or!; by subst.
Qed.

Lemma luhn_loop_total fuel v ii s :
  0 ≤ v → 0 ≤ ii →
  luhn_loop fuel v ii s = s + luhn_total (bool_decide (ii mod 2 = 0)) (digits fuel v).
Proof.
  revert v ii s. induction fuel as [|fuel IH]; intros v ii s Hv Hii; cbn [luhn_loop]; [cbn; lia|].
  case_decide as Hz; [subst; rewrite digits_zero; lia|].
  rewrite IH by (try apply Z.div_pos; lia). cbn [digits luhn_total].
  assert (0 ≤ v mod 10 < 10) as Hd by (apply Z.mod_pos_bound; lia).
  assert (bool_decide ((ii + 1) mod 2 = 0) = negb (bool_decide (ii mod 2 = 0))) as ->.
  { rewrite <- bool_decide_not. apply bool_decide_ext. pose proof (Z.mod_pos_bound ii 2).
    rewrite Z.add_mod by done. change (1 mod 2) with 1.
    assert (ii mod 2 = 0 ∨ ii mod 2 = 1) as [->| ->] by lia; done. }
  case_bool_decide; [rewrite decide_True, double_digit by done|rewrite decide_False by done]; [lia|].
  rewrite Z.mul_1_r, Z.mod_small, (Z.div_small (v mod 10)) by lia. lia.
Qed.

Lemma digits_cons n v c : 0 ≤ c < 10 → digits (S n) (10 * v + c) = c :: digits n v.
Proof.
  intros Hc. cbn [digits]. f_equal.
  - rewrite Z.add_comm, Z.mul_comm, Z.mod_add by lia. by apply Z.mod_small.
  - f_equal. rewrite Z.mul_comm, Z.div_add_l by lia. rewrite Z.div_small by lia. lia.
Qed.

Lemma luhn_checksum_ok v :
  0 ≤ v → 0 ≤ luhn_checksum v < 10 ∧ luhn_valid (10 * v + luhn_checksum v).
Proof.
  intros Hv. unfold luhn_checksum, luhn_valid.
  rewrite luhn_loop_total by lia. rewrite Z.add_0_l. change (bool_decide (0 mod 2 = 0)) with true.
  set (t := luhn_total true (digits 20 v)).
  assert (0 ≤ (10 - t mod 10) mod 10 < 10) as Hc by (apply Z.mod_pos_bound; lia).
  split; [done|]. rewrite (digits_cons 20) by done. cbn [luhn_total negb]. fold t.
  rewrite Z.add_mod_idemp_l by lia.
  replace (10 - t mod 10 + t) with (10 + (t - t mod 10)) by lia.
  rewrite (Z.div_mod t 10) at 1 by lia. replace (10 + _) with (0 + (1 + t / 10) * 10) by lia.
  by rewrite Z.mod_add.
Qed.
(** Appending the computed check digit to any [u64] gives a number that is
    valid under the Luhn rule, and the check digit is a single digit. *)
Theorem luhn_checksum_valid v :
  is_u64 v → 0 ≤ luhn_checksum v < 10 ∧ luhn_valid (10 * v + luhn_checksum v).
Proof. intros Hv. apply luhn_checksum_ok. range_lia. Qed.
Lemma luhn_checksum_valid_witness :
  0 ≤ luhn_checksum 72136749876541 < 10 ∧
  luhn_valid (10 * 72136749876541 + luhn_checksum 72136749876541).
Proof. apply (luhn_checksum_valid 72136749876541). split; lia. Defined.

(** ** Decimal printing and parsing *)

Lemma digit_val_of d : 0 ≤ d < 10 → digit_val (u8_of (48 + d)) = Some d.
Proof.
  intros Hd. assert (d = 0 ∨ d = 1 ∨ d = 2 ∨ d = 3 ∨ d = 4 ∨ d = 5 ∨ d = 6 ∨ d = 7 ∨ d = 8 ∨ d = 9)
    by lia. destruct_or!; by subst.
Qed.

Lemma decimal_loop_parse fuel v acc :
  0 ≤ v < 10 ^ Z.of_nat fuel → (0 < fuel)%nat →
  parse_digits (decimal_loop fuel v acc) 0 = parse_digits acc v.
Proof.
  revert v acc. induction fuel as [|fuel IH]; intros v acc Hv Hf; [lia|]. cbn [decimal_loop].
  assert (0 ≤ v mod 10 < 10) as Hd by (apply Z.mod_pos_bound; lia).
  pose proof (Z.div_mod v 10) as Hdm. case_decide as Hz.
  - cbn [parse_digits]. rewrite digit_val_of by done. cbn. f_equal. lia.
  - rewrite Nat2Z.inj_succ, Z.pow_succ_r in Hv by lia. rewrite IH.
    + cbn [parse_digits]. rewrite digit_val_of by done. cbn. f_equal. lia.
    + split; [apply Z.div_pos; lia|]. apply Z.div_lt_upper_bound; lia.
    + destruct fuel; [|lia]. exfalso. apply Hz. apply Z.div_small. cbn in Hv. lia.
Qed.

Lemma decimal_loop_digits fuel v acc :
  Forall (λ b, is_Some (digit_val b)) acc →
  Forall (λ b, is_Some (digit_val b)) (decimal_loop fuel v acc).
Proof.
  revert v acc. induction fuel as [|fuel IH]; intros v acc Hacc; [done|]. cbn [decimal_loop].
  assert (Forall (λ b, is_Some (digit_val b)) (u8_of (48 + v mod 10) :: acc)) as Hacc'.
  { constructor; [|done]. rewrite digit_val_of by (apply Z.mod_pos_bound; lia). eauto. }
  case_decide; [done|]. by apply IH.
Qed.

Lemma decimal_loop_nonempty fuel v acc :
  acc ≠ [] ∨ (0 < fuel)%nat → decimal_loop fuel v acc ≠ [].
Proof.
  revert v acc. induction fuel as [|fuel IH]; intros v acc H; cbn [decimal_loop].
  { destruct H; [done|lia]. }
  case_decide; [done|]. apply IH. by left.
Qed.

(** Printing a [u64] and parsing the digits gives the number back. *)
Lemma parse_decimal v : is_u64 v → parse_u64 (decimal v) = Some v.
Proof.
  intros Hv. pose proof (decimal_loop_digits 20 v [] (Forall_nil_2 _)) as Hd.
  pose proof (decimal_loop_parse 20 v []) as Hp. fold (decimal v) in *.
  assert (decimal v ≠ []) as Hne by (apply decimal_loop_nonempty; right; lia).
  unfold parse_u64. destruct (decimal v) as [|b l]; [done|].
  assert (u8_val b ≠ 43) as Hb.
  { apply Forall_inv in Hd. destruct Hd as [d Hd]. unfold digit_val in Hd. case_decide; [lia|done]. }
  assert (match b :: l with
          | b0 :: (_ :: _) as ds => if decide (u8_val b0 = 43) then tail (b :: l) else b :: l
          | _ => b :: l end = b :: l) as ->
    by (destruct l; [done|by rewrite decide_False]).
  rewrite Hp by range_lia. cbn. rewrite decide_True by range_lia. done.
Qed.

(** The second IMEI derived from a parseable first one has the incremented
    account part (all digits but the last) followed by its Luhn check digit. *)
Theorem increment_imei_spec `{T : Target} imei v :
  imei ≠ [] → parse_u64 imei = Some v → 0 ≤ v < 10 ^ 19 →
  ∃ s w, increment_imei imei = Ok s ∧ parse_u64 s = Some w ∧
         w / 10 = v / 10 + 1 ∧ luhn_valid w.
Proof.
  intros Hne Hp Hv. unfold increment_imei. destruct imei as [|b l]; [done|]. rewrite Hp.
  assert (0 ≤ v / 10 < 10 ^ 18) as Hd.
  { split; [apply Z.div_pos; lia|]. apply Z.div_lt_upper_bound; lia. }
  destruct (luhn_checksum_ok (v / 10 + 1)) as [Hc Hl]; [lia|].
  rewrite ovf_unsigned_ok by range_lia. cbn [mbind res_bind].
  rewrite ovf_unsigned_ok by range_lia. cbn [mbind res_bind].
  eexists _, _. split; [reflexivity|]. split; [apply parse_decimal; range_lia|].
  rewrite (Z.mul_comm _ 10). split; [|done].
  rewrite Z.add_comm, (Z.mul_comm 10), Z.div_add by lia. rewrite Z.div_small by lia. lia.
Qed.
Lemma increment_imei_spec_witness :
  ∃ s w, increment_imei (T:=arm64) (bytes_of_string "721367498765404") = Ok s ∧
         parse_u64 s = Some w ∧ w / 10 = 721367498765404 / 10 + 1 ∧ luhn_valid w.
Proof.
  apply (increment_imei_spec (T:=arm64) _ 721367498765404); [done|vm_compute; reflexivity|lia].
Defined.
