(* ===== verification/TagGen.v ===== *)
(** * Key generation and import policy ([common/src/tag.rs], second part)

    Parameter checks for generating and importing keys of each algorithm, and
    the construction of a new key's characteristics.  Parsing of imported key
    data is done by the crypto traits, which are a parameter here. *)

From S2P Require Import Prelude Wire TagInfo TagLegacy CryptoTypes TagParams.

(** The key import methods of the crypto traits ([crypto/traits.rs]). RSA import
    also returns the key size and the public exponent. *)
Class ImportTraits := {
  rsa_import_pkcs8_key : bytes → list KeyParam → Result (KeyMaterial * Z * Z);
  ec_import_pkcs8_key : bytes → list KeyParam → Result KeyMaterial;
  ec_import_raw_ed25519_key : bytes → list KeyParam → Result KeyMaterial;
  ec_import_raw_x25519_key : bytes → list KeyParam → Result KeyMaterial;
  aes_import_key : bytes → list KeyParam → Result (KeyMaterial * Z);
  des_import_key : bytes → list KeyParam → Result KeyMaterial;
  hmac_import_key : bytes → list KeyParam → Result (KeyMaterial * Z)
}.

(** Default implementations of symmetric key import. *)
Definition Aes_import_key_default (data : bytes) (_params : list KeyParam)
    : Result (KeyMaterial * Z) :=
  aes_key ← AesKey_new data; Ok (KM_Aes (Explicit aes_key), AesKey_size aes_key).
Definition Des_import_key_default (data : bytes) (_params : list KeyParam) : Result KeyMaterial :=
  des_key ← DesKey_new data; Ok (KM_TripleDes (Explicit des_key)).
Definition Hmac_import_key_default (data : bytes) (_params : list KeyParam)
    : Result (KeyMaterial * Z) :=
  let key_size := HmacKey_size data in
  _ ← valid_hal_size key_size; Ok (KM_Hmac (Explicit data), key_size).

(** ** Generic checks *)

Definition require_raw (f : KeyFormat) : Result unit :=
  reject_if (bool_decide (f ≠ KeyFormat_Raw)) (Hal UnsupportedKeyFormat).

Definition require_matching_key_size (params : list KeyParam) (key_size : Z)
    : Result (list KeyParam) :=
  o ← get_opt_tag_value as_KeySize params;
  match o with
  | Some param_key_size =>
    _ ← reject_if (bool_decide (param_key_size ≠ key_size)) (Hal ImportParameterMismatch); Ok []
  | None => Ok [KP_KeySize key_size]
  end.

Definition reject_tags (params : list KeyParam) (exclude : list Tag) : Result unit :=
  reject_if (bool_decide (Exists (λ p, tag p ∈ exclude) params)) (Hal InvalidTag).
Definition reject_some_padding (params : list KeyParam) : Result unit :=
  o ← get_opt_tag_value as_Padding params;
  match o with
  | Some padding => reject_if (bool_decide (padding ≠ PaddingMode_None)) (Hal InvalidTag)
  | None => Ok tt
  end.
Definition reject_some_digest (params : list KeyParam) : Result unit :=
  o ← get_opt_tag_value as_Digest params;
  match o with
  | Some digest => reject_if (bool_decide (digest ≠ Digest_None)) (Hal InvalidTag)
  | None => Ok tt
  end.

Definition reject_incompatible_auth (params : list KeyParam) : Result unit :=
  let seen_user_secure_id := existsb (λ p, bool_decide (tag p = Tag_UserSecureId)) params in
  let seen_auth_type := existsb (λ p, bool_decide (tag p = Tag_UserAuthType)) params in
  let seen_no_auth := existsb (λ p, bool_decide (tag p = Tag_NoAuthRequired)) params in
  _ ← (if seen_no_auth
       then _ ← reject_if seen_user_secure_id (Hal InvalidTag);
            reject_if seen_auth_type (Hal InvalidTag)
       else Ok tt);
  reject_if (seen_user_secure_id && negb seen_auth_type) (Hal InvalidTag).

(** ** RSA *)

Definition check_rsa_key_size (key_size : Z) (sec_level : SecurityLevel) : Result unit :=
  let not_sb := bool_decide (sec_level ≠ SecurityLevel_Strongbox) in
  match key_size with
  | 512 => if not_sb then Ok tt else km_err UnsupportedKeySize
  | 768 => if not_sb then Ok tt else km_err UnsupportedKeySize
  | 1024 => if not_sb then Ok tt else km_err UnsupportedKeySize
  | 2048 => Ok tt
  | 3072 => if not_sb then Ok tt else km_err UnsupportedKeySize
  | 4096 => if not_sb then Ok tt else km_err UnsupportedKeySize
  | _ => km_err UnsupportedKeySize
  end.

(** Flags set by the loop over purposes. *)
Definition has_purpose (params : list KeyParam) (purposes : list KeyPurpose) : bool :=
  existsb (λ p, match p with KP_Purpose q => bool_decide (q ∈ purposes) | _ => false end) params.

Definition check_rsa_params (params : list KeyParam) : Result unit :=
  let seen_attest := has_purpose params [KeyPurpose_AttestKey] in
  let seen_non_attest :=
    has_purpose params [KeyPurpose_Sign; KeyPurpose_Decrypt; KeyPurpose_WrapKey] in
  reject_if (seen_attest && seen_non_attest) (Hal IncompatiblePurpose).

Definition check_rsa_gen_params (params : list KeyParam) (sec_level : SecurityLevel)
    : Result KeyGenInfo :=
  key_size ← get_tag_value as_KeySize params UnsupportedKeySize;
  _ ← check_rsa_key_size key_size sec_level;
  public_exponent ← get_tag_value as_RsaPublicExponent params InvalidArgument;
  _ ← check_rsa_params params;
  Ok (Gen_Rsa key_size public_exponent).

(** ** Elliptic curves *)

Definition check_ec_params (curve : EcCurve) (params : list KeyParam) (sec_level : SecurityLevel)
    : Result (option KeyPurpose) :=
  _ ← reject_if (bool_decide (sec_level = SecurityLevel_Strongbox) &&
                 bool_decide (curve ≠ EcCurve_P256)) (Hal UnsupportedEcCurve);
  o ← get_opt_tag_value as_KeySize params;
  _ ← match o with
      | Some key_size =>
        match curve with
        | EcCurve_P224 => reject_if (bool_decide (key_size ≠ 224)) (Hal InvalidArgument)
        | EcCurve_P256 => reject_if (bool_decide (key_size ≠ 256)) (Hal InvalidArgument)
        | EcCurve_P384 => reject_if (bool_decide (key_size ≠ 384)) (Hal InvalidArgument)
        | EcCurve_P521 => reject_if (bool_decide (key_size ≠ 521)) (Hal InvalidArgument)
        | EcCurve_Curve25519 => reject_if (bool_decide (key_size ≠ 256)) (Hal InvalidArgument)
        end
      | None => Ok tt
      end;
  let seen_attest := has_purpose params [KeyPurpose_AttestKey] in
  let seen_sign := has_purpose params [KeyPurpose_Sign] in
  let seen_agree := has_purpose params [KeyPurpose_AgreeKey] in
  _ ← reject_if (seen_attest && (seen_sign || seen_agree)) (Hal IncompatiblePurpose);
  _ ← reject_if (bool_decide (curve = EcCurve_Curve25519) && seen_agree &&
                 (seen_sign || seen_attest)) (Hal IncompatiblePurpose);
  Ok (head (omap as_Purpose params)).

Definition check_ec_gen_params (params : list KeyParam) (sec_level : SecurityLevel)
    : Result KeyGenInfo :=
  ec_curve ← get_ec_curve params;
  purpose ← check_ec_params ec_curve params sec_level;
  match ec_curve, purpose with
  | EcCurve_Curve25519, Some KeyPurpose_Sign => Ok Gen_Ed25519
  | EcCurve_Curve25519, Some KeyPurpose_AttestKey => Ok Gen_Ed25519
  | EcCurve_Curve25519, Some KeyPurpose_AgreeKey => Ok Gen_X25519
  | EcCurve_Curve25519, _ => km_err IncompatiblePurpose
  | EcCurve_P224, _ => Ok (Gen_NistEc Nist_P224)
  | EcCurve_P256, _ => Ok (Gen_NistEc Nist_P256)
  | EcCurve_P384, _ => Ok (Gen_NistEc Nist_P384)
  | EcCurve_P521, _ => Ok (Gen_NistEc Nist_P521)
  end.

(** ** Symmetric keys *)

Definition check_aes_params (params : list KeyParam) : Result unit :=
  if decide (KP_BlockMode BlockMode_Gcm ∈ params) then
    min_mac_len ← get_tag_value as_MinMacLength params MissingMinMacLength;
    reject_if (bool_decide (min_mac_len mod 8 ≠ 0) || negb (bool_decide (96 ≤ min_mac_len ≤ 128)))
      (Hal UnsupportedMinMacLength)
  else Ok tt.

Definition check_aes_gen_params (params : list KeyParam) (sec_level : SecurityLevel)
    : Result KeyGenInfo :=
  key_size ← get_tag_value as_KeySize params UnsupportedKeySize;
  keygen_info ← match key_size with
    | 128 => Ok (Gen_Aes Aes128)
    | 256 => Ok (Gen_Aes Aes256)
    | 192 => if decide (sec_level ≠ SecurityLevel_Strongbox) then Ok (Gen_Aes Aes192)
             else km_err UnsupportedKeySize
    | _ => km_err UnsupportedKeySize
    end;
  _ ← check_aes_params params;
  Ok keygen_info.

Definition check_3des_gen_params (params : list KeyParam) : Result KeyGenInfo :=
  key_size ← get_tag_value as_KeySize params UnsupportedKeySize;
  _ ← reject_if (bool_decide (key_size ≠ 168)) (Hal UnsupportedKeySize);
  Ok Gen_TripleDes.

Definition check_hmac_params (params : list KeyParam) (sec_level : SecurityLevel) (key_size : Z)
    : Result unit :=
  _ ← (if decide (sec_level = SecurityLevel_Strongbox) then valid_strongbox_hal_size key_size
       else valid_hal_size key_size);
  digest ← get_tag_value as_Digest params UnsupportedDigest;
  _ ← reject_if (bool_decide (digest = Digest_None)) (Hal UnsupportedDigest);
  min_mac_len ← get_tag_value as_MinMacLength params MissingMinMacLength;
  reject_if (bool_decide (min_mac_len mod 8 ≠ 0) || negb (bool_decide (64 ≤ min_mac_len ≤ 512)))
    (Hal UnsupportedMinMacLength).

Definition check_hmac_gen_params (params : list KeyParam) (sec_level : SecurityLevel)
    : Result KeyGenInfo :=
  key_size ← get_tag_value as_KeySize params UnsupportedKeySize;
  _ ← check_hmac_params params sec_level key_size;
  Ok (Gen_Hmac key_size).

(** ** Import *)

Section import.
Context `{I : ImportTraits}.

Definition check_rsa_import_params (params : list KeyParam) (sec_level : SecurityLevel)
    (key_format : KeyFormat) (key_data : bytes) : Result (list KeyParam * KeyMaterial) :=
  _ ← reject_if (bool_decide (key_format ≠ KeyFormat_Pkcs8)) (Hal UnsupportedKeyFormat);
  '(key, key_size, public_exponent) ← rsa_import_pkcs8_key key_data params;
  o ← get_opt_tag_value as_KeySize params;
  d1 ← match o with
       | Some param_key_size =>
         _ ← reject_if (bool_decide (param_key_size ≠ key_size)) (Hal ImportParameterMismatch); Ok []
       | None => Ok [KP_KeySize key_size]
       end;
  o ← get_opt_tag_value as_RsaPublicExponent params;
  d2 ← match o with
       | Some param_public_exponent =>
         _ ← reject_if (bool_decide (param_public_exponent ≠ public_exponent))
               (Hal ImportParameterMismatch); Ok []
       | None => Ok [KP_RsaPublicExponent public_exponent]
       end;
  _ ← check_rsa_key_size key_size sec_level;
  _ ← check_rsa_params params;
  Ok (d1 ++ d2, key).

Definition check_ec_import_params (params : list KeyParam) (sec_level : SecurityLevel)
    (key_format : KeyFormat) (key_data : bytes) : Result (list KeyParam * KeyMaterial) :=
  (* The guard [get_ec_curve(params)?] is only evaluated for the raw format. *)
  raw_25519 ← (if decide (key_format = KeyFormat_Raw)
               then c ← get_ec_curve params; Ok (bool_decide (c = EcCurve_Curve25519))
               else Ok false);
  '(key, curve) ←
    (if (raw_25519 : bool) then
       purpose ← primary_purpose params;
       if decide (purpose = KeyPurpose_AgreeKey)
       then k ← ec_import_raw_x25519_key key_data params; Ok (k, EcCurve_Curve25519)
       else k ← ec_import_raw_ed25519_key key_data params; Ok (k, EcCurve_Curve25519)
     else if decide (key_format = KeyFormat_Pkcs8) then
       key ← ec_import_pkcs8_key key_data params;
       curve ← match key with
         | KM_Ec curve CurveType_Nist _ => Ok curve
         | KM_Ec EcCurve_Curve25519 CurveType_EdDsa _ =>
           purpose ← primary_purpose params;
           _ ← reject_if (bool_decide (purpose = KeyPurpose_AgreeKey)) (Hal IncompatiblePurpose);
           Ok EcCurve_Curve25519
         | KM_Ec EcCurve_Curve25519 CurveType_Xdh _ =>
           purpose ← primary_purpose params;
           _ ← reject_if (bool_decide (purpose ≠ KeyPurpose_AgreeKey)) (Hal IncompatiblePurpose);
           Ok EcCurve_Curve25519
         | _ => km_err ImportParameterMismatch
         end;
       Ok (key, curve)
     else km_err UnsupportedKeyFormat);
  o ← get_opt_tag_value as_EcCurve params;
  d1 ← match o with
       | Some specified_curve =>
         _ ← reject_if (bool_decide (specified_curve ≠ curve)) (Hal ImportParameterMismatch); Ok []
       | None => Ok [KP_EcCurve curve]
       end;
  let key_size := curve_to_key_size curve in
  o ← get_opt_tag_value as_KeySize params;
  d2 ← match o with
       | Some param_key_size =>
         _ ← reject_if (bool_decide (param_key_size ≠ key_size)) (Hal ImportParameterMismatch); Ok []
       | None => Ok [KP_KeySize key_size]
       end;
  _ ← check_ec_params curve params sec_level;
  Ok (d1 ++ d2, key).

Definition check_aes_import_params (params : list KeyParam) (sec_level : SecurityLevel)
    (key_format : KeyFormat) (key_data : bytes) : Result (list KeyParam * KeyMaterial) :=
  _ ← require_raw key_format;
  '(key, key_size) ← aes_import_key key_data params;
  _ ← reject_if (bool_decide (key_size = 192) && bool_decide (sec_level = SecurityLevel_Strongbox))
        (Hal UnsupportedKeySize);
  deduced_chars ← require_matching_key_size params key_size;
  _ ← check_aes_params params;
  Ok (deduced_chars, key).

Definition check_3des_import_params (params : list KeyParam) (key_format : KeyFormat)
    (key_data : bytes) : Result (list KeyParam * KeyMaterial) :=
  _ ← require_raw key_format;
  key ← des_import_key key_data params;
  deduced_chars ← require_matching_key_size params DES_KEY_SIZE_BITS;
  Ok (deduced_chars, key).

Definition check_hmac_import_params (params : list KeyParam) (sec_level : SecurityLevel)
    (key_format : KeyFormat) (key_data : bytes) : Result (list KeyParam * KeyMaterial) :=
  _ ← require_raw key_format;
  '(key, key_size) ← hmac_import_key key_data params;
  deduced_chars ← require_matching_key_size params key_size;
  _ ← check_hmac_params params sec_level key_size;
  Ok (deduced_chars, key).
End import.

(** ** Building the characteristics of a new key *)

(** [UsageCountLimit] is policed by KeyMint only for the value 1 and when there is
    secure storage. *)
Definition classify_use_limit (secure_storage : SecureStorage) (p : KeyParam)
    (chars keystore_chars : list KeyParam) : list KeyParam * list KeyParam :=
  match p with
  | KP_UsageCountLimit use_limit =>
    match use_limit, secure_storage with
    | 1, Available => (chars ++ [KP_UsageCountLimit use_limit], keystore_chars)
    | _, _ => (chars, keystore_chars ++ [KP_UsageCountLimit use_limit])
    end
  | _ => (chars, keystore_chars)
  end.

(** One round of the loop: the KeyMint-policed and Keystore-policed characteristics
    after seeing parameter [p]. *)
Definition classify_param (secure_storage : SecureStorage) (sec_level : SecurityLevel)
    (p : KeyParam) (chars keystore_chars : list KeyParam)
    : Result (list KeyParam * list KeyParam) :=
  let t := tag p in
  _ ← reject_if (bool_decide (t ∈ AUTO_ADDED_CHARACTERISTICS)) (Hal InvalidTag);
  _ ← reject_if (bool_decide (sec_level = SecurityLevel_Strongbox) &&
                 bool_decide (t ∈ [Tag_MaxUsesPerBoot; Tag_RollbackResistance])) (Hal InvalidTag);
  let '(chars, keystore_chars) := classify_use_limit secure_storage p chars keystore_chars in
  Ok (if decide (t ∈ KEYMINT_ENFORCED_CHARACTERISTICS) then (chars ++ [p], keystore_chars)
      else if decide (t ∈ KEYSTORE_ENFORCED_CHARACTERISTICS) then (chars, keystore_chars ++ [p])
      else (chars, keystore_chars)).

Fixpoint classify_params (secure_storage : SecureStorage) (sec_level : SecurityLevel)
    (params chars keystore_chars : list KeyParam) : Result (list KeyParam * list KeyParam) :=
  match params with
  | [] => Ok (chars, keystore_chars)
  | p :: params' =>
    '(chars', keystore_chars') ← classify_param secure_storage sec_level p chars keystore_chars;
    classify_params secure_storage sec_level params' chars' keystore_chars'
  end.

Definition extract_key_characteristics (secure_storage : SecureStorage)
    (params extra_params : list KeyParam) (sec_level : SecurityLevel)
    : Result (list KeyCharacteristics) :=
  '(chars, keystore_chars) ←
    classify_params secure_storage sec_level (params ++ extra_params) [] [];
  _ ← reject_incompatible_auth chars;
  let chars := sort_by param_compare chars in
  let keystore_chars := sort_by param_compare keystore_chars in
  Ok ({| security_level := sec_level; authorizations := chars |} ::
      match keystore_chars with
      | [] => []
      | _ => [{| security_level := SecurityLevel_Keystore; authorizations := keystore_chars |}]
      end).

Definition extract_key_gen_characteristics (secure_storage : SecureStorage)
    (params : list KeyParam) (sec_level : SecurityLevel)
    : Result (list KeyCharacteristics * KeyGenInfo) :=
  algo ← get_algorithm params;
  keygen_info ← match algo with
    | Algorithm_Rsa => check_rsa_gen_params params sec_level
    | Algorithm_Ec => check_ec_gen_params params sec_level
    | Algorithm_Aes => check_aes_gen_params params sec_level
    | Algorithm_TripleDes => check_3des_gen_params params
    | Algorithm_Hmac => check_hmac_gen_params params sec_level
    end;
  chars ← extract_key_characteristics secure_storage params [] sec_level;
  Ok (chars, keygen_info).

Definition extract_key_import_characteristics `{I : ImportTraits} (secure_storage : SecureStorage)
    (params : list KeyParam) (sec_level : SecurityLevel) (key_format : KeyFormat) (key_data : bytes)
    : Result (list KeyCharacteristics * KeyMaterial) :=
  algo ← get_algorithm params;
  '(deduced_params, key_material) ← match algo with
    | Algorithm_Rsa => check_rsa_import_params params sec_level key_format key_data
    | Algorithm_Ec => check_ec_import_params params sec_level key_format key_data
    | Algorithm_Aes => check_aes_import_params params sec_level key_format key_data
    | Algorithm_TripleDes => check_3des_import_params params key_format key_data
    | Algorithm_Hmac => check_hmac_import_params params sec_level key_format key_data
    end;
  chars ← extract_key_characteristics secure_storage params deduced_params sec_level;
  Ok (chars, key_material).

(** ** What the characteristics of a new key are *)

(** Parameters that a caller may pass at the given security level. *)
Definition param_allowed (sec_level : SecurityLevel) (p : KeyParam) : Prop :=
  (tag p ∉ AUTO_ADDED_CHARACTERISTICS) ∧
  (sec_level = SecurityLevel_Strongbox → tag p ∉ [Tag_MaxUsesPerBoot; Tag_RollbackResistance]).

(** Parameters that KeyMint, respectively Keystore, has to police. *)
Definition keymint_policed (st : SecureStorage) (p : KeyParam) : Prop :=
  tag p ∈ KEYMINT_ENFORCED_CHARACTERISTICS ∨ (p = KP_UsageCountLimit 1 ∧ st = Available).
Definition keystore_policed (st : SecureStorage) (p : KeyParam) : Prop :=
  tag p ∈ KEYSTORE_ENFORCED_CHARACTERISTICS ∨
  (tag p = Tag_UsageCountLimit ∧ ¬ (p = KP_UsageCountLimit 1 ∧ st = Available)).
#[export] Instance SecureStorage_eq_dec : EqDecision SecureStorage.
Proof. solve_decision. Defined.
#[export] Instance keymint_policed_dec st p : Decision (keymint_policed st p).
Proof. unfold keymint_policed. apply _. Defined.
#[export] Instance keystore_policed_dec st p : Decision (keystore_policed st p).
Proof. unfold keystore_policed. apply _. Defined.

(** Authentication tags that make sense together. *)
Definition auth_compatible (chars : list KeyParam) : Prop :=
  (Tag_NoAuthRequired ∈ tag <$> chars →
   (Tag_UserSecureId ∉ tag <$> chars) ∧ (Tag_UserAuthType ∉ tag <$> chars)) ∧
  (Tag_UserSecureId ∈ tag <$> chars → Tag_UserAuthType ∈ tag <$> chars).

Lemma existsb_tag t params :
  existsb (λ p, bool_decide (tag p = t)) params = bool_decide (t ∈ tag <$> params).
Proof.
  apply eq_true_iff_eq. rewrite existsb_exists, bool_decide_eq_true, list_elem_of_fmap.
  setoid_rewrite <- list_elem_of_In. setoid_rewrite bool_decide_eq_true. naive_solver.
Qed.

Lemma reject_incompatible_auth_Ok chars u :
  reject_incompatible_auth chars = Ok u ↔ auth_compatible chars.
Proof.
  unfold reject_incompatible_auth, auth_compatible. rewrite !existsb_tag. destruct u.
  repeat case_bool_decide; cbn; naive_solver.
Qed.

Lemma classify_use_limit_ok st p c k :
  classify_use_limit st p c k =
    (c ++ filter (λ p, p = KP_UsageCountLimit 1 ∧ st = Available) [p],
     k ++ filter (λ p, tag p = Tag_UsageCountLimit ∧ ¬ (p = KP_UsageCountLimit 1 ∧ st = Available)) [p]).
Proof.
  rewrite !filter_cons, !filter_nil.
  destruct (decide (tag p = Tag_UsageCountLimit)) as [Hu|Hu].
  - destruct p; try discriminate Hu. cbn [tag classify_use_limit].
    destruct (decide (v = 1)) as [->|Hv]; [by destruct st; cbn; rewrite ?app_nil_r|].
    rewrite decide_False by naive_solver. rewrite decide_True by naive_solver.
    rewrite app_nil_r. by destruct v as [|[]|].
  - rewrite decide_False by (intros [-> _]; apply Hu; reflexivity). rewrite decide_False by naive_solver.
    rewrite !app_nil_r. by destruct p.
Qed.

Lemma enforced_disjoint t :
  t ∈ KEYMINT_ENFORCED_CHARACTERISTICS → t ∉ KEYSTORE_ENFORCED_CHARACTERISTICS.
Proof.
  assert (Forall (λ t, t ∉ KEYSTORE_ENFORCED_CHARACTERISTICS) KEYMINT_ENFORCED_CHARACTERISTICS) as H
    by decide_compute.
  by apply (proj1 (Forall_forall _ _) H).
Qed.

Lemma use_limit_not_enforced :
  Tag_UsageCountLimit ∉ KEYMINT_ENFORCED_CHARACTERISTICS ++ KEYSTORE_ENFORCED_CHARACTERISTICS.
Proof. decide_compute. Qed.

Lemma classify_param_ok st lvl p c k :
  param_allowed lvl p →
  classify_param st lvl p c k =
    Ok (c ++ filter (keymint_policed st) [p], k ++ filter (keystore_policed st) [p]).
Proof.
  intros [Ha Hsb]. unfold classify_param.
  rewrite (bool_decide_eq_false_2 _ Ha). cbn [reject_if mbind res_bind].
  assert (bool_decide (lvl = SecurityLevel_Strongbox) &&
          bool_decide (tag p ∈ [Tag_MaxUsesPerBoot; Tag_RollbackResistance]) = false) as ->.
  { repeat case_bool_decide; naive_solver. }
  cbn [reject_if mbind res_bind]. rewrite classify_use_limit_ok.
  pose proof (enforced_disjoint (tag p)) as Hd. pose proof use_limit_not_enforced as Hl.
  apply not_elem_of_app in Hl as [Hl1 Hl2].
  assert (p = KP_UsageCountLimit 1 → tag p = Tag_UsageCountLimit) as Hp by (by intros ->).
  rewrite !filter_cons, !filter_nil. unfold keymint_policed, keystore_policed.
  repeat case_decide; rewrite <- ?app_assoc, ?app_nil_r; try done; exfalso; naive_solver congruence.
Qed.

Lemma classify_param_not_allowed st lvl p c k :
  ¬ param_allowed lvl p → classify_param st lvl p c k = km_err InvalidTag.
Proof.
  unfold param_allowed, classify_param. intros Hn.
  destruct (decide (tag p ∈ AUTO_ADDED_CHARACTERISTICS)) as [Ha|Ha].
  { by rewrite (bool_decide_eq_true_2 _ Ha). }
  destruct (decide (lvl = SecurityLevel_Strongbox)) as [Hl|Hl]; [|naive_solver].
  destruct (decide (tag p ∈ [Tag_MaxUsesPerBoot; Tag_RollbackResistance])) as [Ht|Ht]; [|naive_solver].
  by rewrite (bool_decide_eq_false_2 _ Ha), (bool_decide_eq_true_2 _ Hl), (bool_decide_eq_true_2 _ Ht).
Qed.

Lemma classify_params_ok st lvl ps c k r :
  classify_params st lvl ps c k = Ok r ↔
  Forall (param_allowed lvl) ps ∧
  r = (c ++ filter (keymint_policed st) ps, k ++ filter (keystore_policed st) ps).
Proof.
  revert c k. induction ps as [|p ps IH]; intros c k; cbn [classify_params].
  { rewrite !filter_nil, !app_nil_r. split; [intros [= <-]|intros [_ ->]]; done. }
  rewrite Forall_cons.
  destruct (decide (param_allowed lvl p)) as [Hp|Hp].
  - rewrite classify_param_ok by done. cbn [mbind res_bind]. rewrite IH.
    rewrite <- !app_assoc, <- !filter_app. naive_solver.
  - rewrite classify_param_not_allowed by done. naive_solver.
Qed.

(** The characteristics lists returned for the two policing components. *)
Definition key_characteristics (sec_level : SecurityLevel) (chars keystore_chars : list KeyParam)
    : list KeyCharacteristics :=
  {| security_level := sec_level; authorizations := sort_by param_compare chars |} ::
  match keystore_chars with
  | [] => []
  | _ => [{| security_level := SecurityLevel_Keystore;
             authorizations := sort_by param_compare keystore_chars |}]
  end.

Lemma extract_key_characteristics_Ok st params extra lvl r :
  extract_key_characteristics st params extra lvl = Ok r ↔
  Forall (param_allowed lvl) (params ++ extra) ∧
  auth_compatible (filter (keymint_policed st) (params ++ extra)) ∧
  r = key_characteristics lvl (filter (keymint_policed st) (params ++ extra))
                              (filter (keystore_policed st) (params ++ extra)).
Proof.
  unfold extract_key_characteristics.
  assert (∀ k, match sort_by param_compare k with
     | [] => []
     | _ => [{| security_level := SecurityLevel_Keystore;
                authorizations := sort_by param_compare k |}] end =
     match k with [] => [] | _ => [{| security_level := SecurityLevel_Keystore;
                authorizations := sort_by param_compare k |}] end) as Hk.
  { intros [|p k]; [done|]. destruct (sort_by param_compare (p :: k)) eqn:Hs; [|done].
    pose proof (sort_by_Permutation param_compare (p :: k)) as Hp. rewrite Hs in Hp.
    by apply Permutation_nil_l in Hp. }
  rewrite res_bind_Ok. setoid_rewrite classify_params_ok. split.
  - intros ([c k] & [Hall [= -> ->]] & Hr). apply res_bind_Ok in Hr as (u & Hauth & [= <-]).
    apply reject_incompatible_auth_Ok in Hauth. by rewrite Hk.
  - intros (Hall & Hauth & ->). eexists (filter (keymint_policed st) (params ++ extra), filter (keystore_policed st) (params ++ extra)).
    split; [by split|]. cbn beta iota.
    rewrite (proj2 (reject_incompatible_auth_Ok _ tt) Hauth). cbn [mbind res_bind].
    by rewrite Hk.
Qed.

(** A new key's characteristics are built exactly when no parameter is one
    that only KeyMint may add (or that StrongBox does not support) and the policed
    authentication tags are compatible; they then hold the parameters KeyMint
    polices, in canonical order, at the key's security level and, when there are
    any, those Keystore polices at the Keystore level. *)
Theorem extract_key_characteristics_spec st params extra lvl r :
  extract_key_characteristics st params extra lvl = Ok r ↔
  Forall (param_allowed lvl) (params ++ extra) ∧
  auth_compatible (filter (keymint_policed st) (params ++ extra)) ∧
  r = key_characteristics lvl (filter (keymint_policed st) (params ++ extra))
                              (filter (keystore_policed st) (params ++ extra)).
Proof. apply extract_key_characteristics_Ok. Qed.

(** ** What kind of key is generated *)

Definition gen_algorithm (i : KeyGenInfo) : Algorithm :=
  match i with
  | Gen_Aes _ => Algorithm_Aes | Gen_TripleDes => Algorithm_TripleDes | Gen_Hmac _ => Algorithm_Hmac
  | Gen_Rsa _ _ => Algorithm_Rsa | Gen_NistEc _ | Gen_Ed25519 | Gen_X25519 => Algorithm_Ec
  end.
(** Size in bits, as the [KeySize] tag counts it. *)
Definition gen_size (i : KeyGenInfo) : Z :=
  match i with
  | Gen_Aes v => 8 * AesVariant_key_size v | Gen_TripleDes => DES_KEY_SIZE_BITS
  | Gen_Hmac key_size => key_size | Gen_Rsa key_size _ => key_size
  | Gen_NistEc c => curve_to_key_size (EcCurve_of_nist c)
  | Gen_Ed25519 | Gen_X25519 => curve_to_key_size EcCurve_Curve25519
  end.
(** The sizes and curves each security level supports. *)
Definition gen_supported (lvl : SecurityLevel) (i : KeyGenInfo) : Prop :=
  match i with
  | Gen_Aes v => lvl = SecurityLevel_Strongbox → v ≠ Aes192
  | Gen_TripleDes => True
  | Gen_Hmac k => k mod 8 = 0 ∧
      64 ≤ k ≤ if decide (lvl = SecurityLevel_Strongbox) then 512 else 1024
  | Gen_Rsa k _ => k ∈ [512; 768; 1024; 2048; 3072; 4096] ∧
      (lvl = SecurityLevel_Strongbox → k = 2048)
  | Gen_NistEc c => lvl = SecurityLevel_Strongbox → c = Nist_P256
  | Gen_Ed25519 | Gen_X25519 => lvl ≠ SecurityLevel_Strongbox
  end.
(** What the parameters have to name: the size of the key; for RSA the public exponent as well;
    for an elliptic curve the curve, while the size may be left out. The first purpose
    decides between the two algorithms on Curve25519, which must not be mixed. *)
Definition gen_named (params : list KeyParam) (i : KeyGenInfo) : Prop :=
  let curve c := omap as_EcCurve params = [c] ∧ omap as_KeySize params ∈ [[]; [gen_size i]] in
  match i with
  | Gen_Aes _ | Gen_TripleDes | Gen_Hmac _ => omap as_KeySize params = [gen_size i]
  | Gen_Rsa _ e => omap as_KeySize params = [gen_size i] ∧ omap as_RsaPublicExponent params = [e]
  | Gen_NistEc c => curve (EcCurve_of_nist c)
  | Gen_Ed25519 => curve EcCurve_Curve25519 ∧
      head (omap as_Purpose params) ∈ [Some KeyPurpose_Sign; Some KeyPurpose_AttestKey] ∧
      KP_Purpose KeyPurpose_AgreeKey ∉ params
  | Gen_X25519 => curve EcCurve_Curve25519 ∧ head (omap as_Purpose params) = Some KeyPurpose_AgreeKey ∧
      (KP_Purpose KeyPurpose_Sign ∉ params) ∧ (KP_Purpose KeyPurpose_AttestKey ∉ params)
  end.
(** The purposes that may not be combined with attestation. *)
Definition attest_conflicts (a : Algorithm) : list KeyPurpose :=
  match a with
  | Algorithm_Rsa => [KeyPurpose_Sign; KeyPurpose_Decrypt; KeyPurpose_WrapKey]
  | Algorithm_Ec => [KeyPurpose_Sign; KeyPurpose_AgreeKey]
  | _ => []
  end.
Definition attest_compatible (a : Algorithm) (params : list KeyParam) : Prop :=
  KP_Purpose KeyPurpose_AttestKey ∈ params → ∀ q, q ∈ attest_conflicts a → KP_Purpose q ∉ params.
(** What MACs a key may be used for is fixed with the key. *)
Definition gen_macs (params : list KeyParam) (i : KeyGenInfo) : Prop :=
  let min_mac lo hi := ∃ m, omap as_MinMacLength params = [m] ∧ m mod 8 = 0 ∧ lo ≤ m ≤ hi in
  match i with
  | Gen_Aes _ => KP_BlockMode BlockMode_Gcm ∈ params → min_mac 96 128
  | Gen_Hmac _ => (∃ d, omap as_Digest params = [d] ∧ d ≠ Digest_None) ∧ min_mac 64 512
  | _ => True
  end.
(** Key generation parameters for which the key [i] is generated. *)
Record gen_accepted (params : list KeyParam) (lvl : SecurityLevel) (i : KeyGenInfo) : Prop := {
  ga_named : gen_named params i;
  ga_supported : gen_supported lvl i;
  ga_attest : attest_compatible (gen_algorithm i) params;
  ga_macs : gen_macs params i
}.

Lemma has_purpose_true params qs : has_purpose params qs = true ↔ ∃ q, q ∈ qs ∧ KP_Purpose q ∈ params.
Proof.
  unfold has_purpose. rewrite existsb_exists. split.
  - intros (p & Hp%list_elem_of_In & Hq). destruct p; try done. apply bool_decide_eq_true in Hq. eauto.
  - intros (q & Hq & Hp%list_elem_of_In). exists (KP_Purpose q). by rewrite bool_decide_eq_true.
Qed.
Lemma has_purpose_1 params q : has_purpose params [q] = true ↔ KP_Purpose q ∈ params.
Proof. rewrite has_purpose_true. set_solver. Qed.
Lemma has_purpose_app params qs1 qs2 :
  has_purpose params qs1 || has_purpose params qs2 = has_purpose params (qs1 ++ qs2).
Proof. apply eq_bool_prop_intro. rewrite orb_True, !Is_true_true, !has_purpose_true. set_solver. Qed.
Lemma attest_check a params :
  has_purpose params [KeyPurpose_AttestKey] && has_purpose params (attest_conflicts a) = false ↔
  attest_compatible a params.
Proof.
  rewrite <- not_true_iff_false, andb_true_iff, has_purpose_1, has_purpose_true. unfold attest_compatible.
  naive_solver.
Qed.

Lemma check_rsa_params_Ok params u : check_rsa_params params = Ok u ↔ attest_compatible Algorithm_Rsa params.
Proof. unfold check_rsa_params. by rewrite reject_if_Ok, <- attest_check. Qed.

Lemma check_rsa_key_size_Ok k lvl u :
  check_rsa_key_size k lvl = Ok u ↔
  k ∈ [512; 768; 1024; 2048; 3072; 4096] ∧ (lvl = SecurityLevel_Strongbox → k = 2048).
Proof.
  unfold check_rsa_key_size. destruct u. split.
  - case_bool_decide as Hl; intros H; split_match_in H; set_solver.
  - intros [Hk Hl]. case_bool_decide as Hsb.
    + set_unfold in Hk. by destruct_or? Hk; subst.
    + by rewrite Hl.
Qed.

Lemma ec_size_check curve params :
  (∃ ks u, get_opt_tag_value as_KeySize params = Ok ks ∧
     match ks with
     | Some key_size =>
       match curve with
       | EcCurve_P224 => reject_if (bool_decide (key_size ≠ 224)) (Hal InvalidArgument)
       | EcCurve_P256 => reject_if (bool_decide (key_size ≠ 256)) (Hal InvalidArgument)
       | EcCurve_P384 => reject_if (bool_decide (key_size ≠ 384)) (Hal InvalidArgument)
       | EcCurve_P521 => reject_if (bool_decide (key_size ≠ 521)) (Hal InvalidArgument)
       | EcCurve_Curve25519 => reject_if (bool_decide (key_size ≠ 256)) (Hal InvalidArgument)
       end
     | None => Ok tt
     end = Ok u) ↔
  omap as_KeySize params ∈ [[]; [curve_to_key_size curve]].
Proof.
  split.
  - intros (ks & u & Hks%get_opt_tag_value_Ok & Hc). rewrite Hks. destruct ks as [k|]; [|by left].
    destruct curve; apply reject_if_Ok, bool_decide_eq_false, dec_stable in Hc as ->; by right; left.
  - intros [Hn|[Hn|[]%elem_of_nil]%elem_of_cons]%elem_of_cons.
    + exists None, tt. split; [by apply get_opt_tag_value_Ok|done].
    + exists (Some (curve_to_key_size curve)), tt. split; [by apply get_opt_tag_value_Ok|by destruct curve].
Qed.

Lemma check_ec_params_Ok curve params lvl o :
  check_ec_params curve params lvl = Ok o ↔
  (lvl = SecurityLevel_Strongbox → curve = EcCurve_P256) ∧
  omap as_KeySize params ∈ [[]; [curve_to_key_size curve]] ∧
  attest_compatible Algorithm_Ec params ∧
  (curve = EcCurve_Curve25519 → KP_Purpose KeyPurpose_AgreeKey ∈ params →
     (KP_Purpose KeyPurpose_Sign ∉ params) ∧ (KP_Purpose KeyPurpose_AttestKey ∉ params)) ∧
  o = head (omap as_Purpose params).
Proof.
  rewrite <- ec_size_check, <- attest_check. unfold check_ec_params. cbn [attest_conflicts].
  change [KeyPurpose_Sign; KeyPurpose_AgreeKey] with ([KeyPurpose_Sign] ++ [KeyPurpose_AgreeKey]).
  rewrite <- has_purpose_app.
  assert (bool_decide (curve = EcCurve_Curve25519) && has_purpose params [KeyPurpose_AgreeKey] &&
          (has_purpose params [KeyPurpose_Sign] || has_purpose params [KeyPurpose_AttestKey]) = false ↔
          (curve = EcCurve_Curve25519 → KP_Purpose KeyPurpose_AgreeKey ∈ params →
           (KP_Purpose KeyPurpose_Sign ∉ params) ∧ (KP_Purpose KeyPurpose_AttestKey ∉ params))) as <-.
  { rewrite <- not_true_iff_false, !andb_true_iff, orb_true_iff, !has_purpose_1, bool_decide_eq_true. tauto. }
  assert (bool_decide (lvl = SecurityLevel_Strongbox) && bool_decide (curve ≠ EcCurve_P256) = false ↔
          (lvl = SecurityLevel_Strongbox → curve = EcCurve_P256)) as <-.
  { rewrite <- not_true_iff_false, andb_true_iff, !bool_decide_eq_true. destruct (decide (curve = EcCurve_P256)); tauto. }
  split.
  - intros (? & Hsb%reject_if_Ok & H)%res_bind_Ok. apply res_bind_Ok in H as (ks & Hks & H).
    apply res_bind_Ok in H as (u & Hsize & H).
    apply res_bind_Ok in H as (? & Hatt%reject_if_Ok & H).
    apply res_bind_Ok in H as (? & H25%reject_if_Ok & [= <-]). eauto 10.
  - intros (Hsb & (ks & u & Hks & Hsize) & Hatt & H25 & ->). unfold reject_if at 1. rewrite Hsb. cbn.
    rewrite Hks. cbn [mbind res_bind]. rewrite Hsize. cbn [mbind res_bind].
    by rewrite Hatt, H25.
Qed.

Lemma head_purpose params q : head (omap as_Purpose params) = Some q → KP_Purpose q ∈ params.
Proof.
  intros Hq. assert (q ∈ omap as_Purpose params) as (p & Hp & Hs)%list_elem_of_omap
    by (destruct (omap as_Purpose params); [done|injection Hq as ->; left]).
  destruct p; naive_solver.
Qed.

Lemma check_rsa_gen_params_Ok params lvl i :
  check_rsa_gen_params params lvl = Ok i ↔ gen_algorithm i = Algorithm_Rsa ∧ gen_accepted params lvl i.
Proof.
  unfold check_rsa_gen_params. split.
  - intros (n & Hn%get_tag_value_Ok & H)%res_bind_Ok.
    apply res_bind_Ok in H as (? & Hsize%check_rsa_key_size_Ok & H).
    apply res_bind_Ok in H as (e & He%get_tag_value_Ok & H).
    apply res_bind_Ok in H as (? & Hatt%check_rsa_params_Ok & [= <-]). by split; [|split].
  - intros [Ha [Hn Hs Hatt _]]. destruct i; try done. destruct Hn as [Hk He].
    rewrite (proj2 (get_tag_value_Ok _ _ _ _) Hk). cbn [mbind res_bind gen_size].
    rewrite (proj2 (check_rsa_key_size_Ok _ _ tt) Hs). cbn [mbind res_bind].
    rewrite (proj2 (get_tag_value_Ok _ _ _ _) He). cbn [mbind res_bind].
    by rewrite (proj2 (check_rsa_params_Ok _ tt) Hatt).
Qed.

Lemma check_ec_gen_params_Ok params lvl i :
  check_ec_gen_params params lvl = Ok i ↔ gen_algorithm i = Algorithm_Ec ∧ gen_accepted params lvl i.
Proof.
  unfold check_ec_gen_params, get_ec_curve. split.
  - intros (c & Hc%get_tag_value_Ok & H)%res_bind_Ok.
    apply res_bind_Ok in H as (o & (Hsb & Hks & Hatt & H25 & Ho)%check_ec_params_Ok & H).
    assert (∀ q, o = Some q → KP_Purpose q ∈ params) as Hin by (intros q ->; by apply head_purpose).
    split_match_in H; injection H as <-; (split; [done|split; [|cbn; intros Hl; by specialize (Hsb Hl)|done|done]]);
      cbn [gen_named]; subst; try (by split); split; try (by split); rewrite <- Ho; set_solver.
  - intros [Ha [Hn Hs Hatt _]].
    assert (∃ c, omap as_EcCurve params = [c] ∧
              check_ec_params c params lvl = Ok (head (omap as_Purpose params)) ∧
              match c, head (omap as_Purpose params) with
              | EcCurve_Curve25519, Some KeyPurpose_Sign | EcCurve_Curve25519, Some KeyPurpose_AttestKey => i = Gen_Ed25519
              | EcCurve_Curve25519, Some KeyPurpose_AgreeKey => i = Gen_X25519
              | EcCurve_Curve25519, _ => False
              | EcCurve_P224, _ => i = Gen_NistEc Nist_P224 | EcCurve_P256, _ => i = Gen_NistEc Nist_P256
              | EcCurve_P384, _ => i = Gen_NistEc Nist_P384 | EcCurve_P521, _ => i = Gen_NistEc Nist_P521
              end) as (c & Hc & Hp & Hi).
    { destruct i as [| | | |c| |]; try done; cbn [gen_named] in Hn.
      - exists (EcCurve_of_nist c). rewrite check_ec_params_Ok. destruct c; naive_solver.
      - destruct Hn as ([Hc Hks] & Hh & Hno). exists EcCurve_Curve25519. rewrite check_ec_params_Ok.
        split_and!; [done..|]. by apply elem_of_cons in Hh as [->| ->%list_elem_of_singleton].
      - destruct Hn as ([Hc Hks] & Hh & Hno). exists EcCurve_Curve25519. rewrite check_ec_params_Ok.
        split_and!; [done..|]. by rewrite Hh. }
    rewrite (proj2 (get_tag_value_Ok _ _ _ _) Hc). cbn [mbind res_bind]. rewrite Hp. cbn [mbind res_bind].
    destruct c, (head (omap as_Purpose params)) as [[]|]; naive_solver.
Qed.

Lemma check_min_mac params lo hi :
  (∃ m, get_tag_value as_MinMacLength params MissingMinMacLength = Ok m ∧
     reject_if (bool_decide (m mod 8 ≠ 0) || negb (bool_decide (lo ≤ m ≤ hi))) (Hal UnsupportedMinMacLength) = Ok tt) ↔
  ∃ m, omap as_MinMacLength params = [m] ∧ m mod 8 = 0 ∧ lo ≤ m ≤ hi.
Proof.
  apply exist_proper. intros m. rewrite get_tag_value_Ok, reject_if_Ok, orb_false_iff, negb_false_iff.
  rewrite bool_decide_eq_false, bool_decide_eq_true.
  destruct (decide (m mod 8 = 0)); naive_solver.
Qed.

Lemma check_aes_gen_params_Ok params lvl i :
  check_aes_gen_params params lvl = Ok i ↔ gen_algorithm i = Algorithm_Aes ∧ gen_accepted params lvl i.
Proof.
  assert (check_aes_params params = Ok tt ↔ gen_macs params (Gen_Aes Aes128)) as Hmac.
  { unfold check_aes_params. cbn [gen_macs]. rewrite <- check_min_mac. case_decide; [|naive_solver].
    rewrite res_bind_Ok. naive_solver. }
  unfold check_aes_gen_params. split.
  - intros (n & Hn%get_tag_value_Ok & H)%res_bind_Ok.
    apply res_bind_Ok in H as (i' & Hi & H). apply res_bind_Ok in H as ([] & Hm%Hmac & [= ->]).
    split_match_in Hi; injection Hi as <-; (split; [done|split; [exact Hn|cbn; by intros ?| |exact Hm]]);
      intros _ q []%elem_of_nil.
  - intros [Ha [Hn Hs _ Hm]]. destruct i as [v| | | | | |]; try done.
    rewrite (proj2 (get_tag_value_Ok _ _ _ _) Hn). apply Hmac in Hm.
    destruct v; cbn; rewrite ?decide_True by (intros Hl; by destruct (Hs Hl)); cbn; by rewrite Hm.
Qed.

Lemma check_3des_gen_params_Ok params lvl i :
  check_3des_gen_params params = Ok i ↔ gen_algorithm i = Algorithm_TripleDes ∧ gen_accepted params lvl i.
Proof.
  unfold check_3des_gen_params. split.
  - intros (n & Hn%get_tag_value_Ok & H)%res_bind_Ok. apply res_bind_Ok in H as (? & Hs & [= <-]).
    apply reject_if_Ok, bool_decide_eq_false, dec_stable in Hs as ->.
    split; [done|split; [done..| |done]]. intros _ q []%elem_of_nil.
  - intros [Ha [Hn _ _ _]]. destruct i; try done. by rewrite (proj2 (get_tag_value_Ok _ _ _ _) Hn).
Qed.

Lemma check_hmac_gen_params_Ok params lvl i :
  check_hmac_gen_params params lvl = Ok i ↔ gen_algorithm i = Algorithm_Hmac ∧ gen_accepted params lvl i.
Proof.
  assert (∀ k, check_hmac_params params lvl k = Ok tt ↔
               gen_supported lvl (Gen_Hmac k) ∧ gen_macs params (Gen_Hmac k)) as Hp.
  { intros k. unfold check_hmac_params. cbn [gen_supported gen_macs]. rewrite <- check_min_mac, res_bind_Ok.
    unfold valid_hal_size, valid_strongbox_hal_size. split.
    - intros (u & Hs & (d & Hd%get_tag_value_Ok & H)%res_bind_Ok).
      apply res_bind_Ok in H as (? & Hnone%reject_if_Ok%bool_decide_eq_false & H).
      apply res_bind_Ok in H as (m & Hm & H). split; [|by eauto 10]. case_decide; by apply valid_size_Ok in Hs.
    - intros (Hs & (d & Hd & Hnone) & (m & Hm & Hr)). exists tt. split; [case_decide; by apply valid_size_Ok|].
      rewrite (proj2 (get_tag_value_Ok _ _ _ _) Hd). cbn. rewrite bool_decide_eq_false_2 by done. cbn.
      by rewrite Hm. }
  unfold check_hmac_gen_params. split.
  - intros (n & Hn%get_tag_value_Ok & H)%res_bind_Ok. apply res_bind_Ok in H as ([] & [Hs Hm]%Hp & [= <-]).
    split; [done|split; [done..| |done]]. intros _ q []%elem_of_nil.
  - intros [Ha [Hn Hs _ Hm]]. destruct i as [| |k| | | |]; try done.
    rewrite (proj2 (get_tag_value_Ok _ _ _ _) Hn). cbn [mbind res_bind gen_size].
    by rewrite (proj2 (Hp k) (conj Hs Hm)).
Qed.

(** C10: which key is generated. A key is generated exactly when its parameters name one
    algorithm and the size of the key (for RSA with the public exponent; for an elliptic curve
    the curve is named, and a size, if given, is the curve's), the security level supports
    this size or curve, the bounds for MACs are in range and the purposes can be
    combined; the key then has just that algorithm, size, exponent and curve. An
    attestation key never has the purposes [Sign], [Decrypt] or [WrapKey] as well (RSA), nor [Sign]
    or [AgreeKey] (elliptic curves); attestation excludes no other purpose. On Curve25519 the
    first purpose must be [Sign], [AttestKey] or [AgreeKey] and decides between signing and
    key agreement, which are never mixed. The characteristics are those of all the
    parameters. *)
Theorem key_gen_exact st params lvl chars i :
  extract_key_gen_characteristics st params lvl = Ok (chars, i) ↔
  omap as_Algorithm params = [gen_algorithm i] ∧ gen_accepted params lvl i ∧
  extract_key_characteristics st params [] lvl = Ok chars.
Proof.
  unfold extract_key_gen_characteristics, get_algorithm. rewrite res_bind_Ok. split.
  - intros (a & Ha%get_tag_value_Ok & (i' & Hi & (c & Hc & [= <- <-])%res_bind_Ok)%res_bind_Ok).
    rewrite Ha. destruct a;
      [apply check_rsa_gen_params_Ok in Hi as [-> ?] | apply check_ec_gen_params_Ok in Hi as [-> ?]
      |apply check_aes_gen_params_Ok in Hi as [-> ?] | apply (check_3des_gen_params_Ok _ lvl) in Hi as [-> ?]
      |apply check_hmac_gen_params_Ok in Hi as [-> ?]]; done.
  - intros (Ha & Hi & Hc). exists (gen_algorithm i). split; [by apply get_tag_value_Ok|].
    apply res_bind_Ok. exists i. rewrite Hc. split; [|done]. destruct (gen_algorithm i) eqn:Hg;
      [by apply check_rsa_gen_params_Ok | by apply check_ec_gen_params_Ok | by apply check_aes_gen_params_Ok
      |by apply (check_3des_gen_params_Ok _ lvl) | by apply check_hmac_gen_params_Ok].
Qed.

(** An attestation key on Curve25519 that is also for verification. *)
Definition attest_params : list KeyParam :=
  [KP_Algorithm Algorithm_Ec; KP_EcCurve EcCurve_Curve25519; KP_Purpose KeyPurpose_AttestKey;
   KP_Purpose KeyPurpose_Verify; KP_NoAuthRequired].
Definition attest_chars : list KeyCharacteristics :=
  match extract_key_characteristics Available attest_params [] SecurityLevel_TrustedEnvironment with Ok c => c | _ => [] end.
Lemma key_gen_exact_witness :
  gen_accepted attest_params SecurityLevel_TrustedEnvironment Gen_Ed25519 ∧
  extract_key_gen_characteristics Available attest_params SecurityLevel_TrustedEnvironment =
    Ok (attest_chars, Gen_Ed25519) ∧
  ¬ gen_accepted (KP_Purpose KeyPurpose_Sign :: attest_params) SecurityLevel_TrustedEnvironment Gen_Ed25519.
Proof.
  assert (extract_key_gen_characteristics Available attest_params SecurityLevel_TrustedEnvironment =
    Ok (attest_chars, Gen_Ed25519)) as He by (vm_compute; reflexivity).
  split_and!; [by apply (key_gen_exact Available _ _ attest_chars) in He as (_ & ? & _)|exact He|].
  intros Hg. destruct (extract_key_characteristics Available (KP_Purpose KeyPurpose_Sign :: attest_params) []
    SecurityLevel_TrustedEnvironment) as [c| |] eqn:Hc; [|vm_compute in Hc; discriminate Hc..].
  pose proof (proj2 (key_gen_exact Available (KP_Purpose KeyPurpose_Sign :: attest_params)
    SecurityLevel_TrustedEnvironment c Gen_Ed25519) (conj eq_refl (conj Hg Hc))) as H. vm_compute in H. discriminate H.
Defined.

(** The comments and messages say that a key for attestation has no other purpose; every
    purpose but the ones above is accepted beside it, though. *)
Lemma attest_key_other_purposes q :
  (q ∉ attest_conflicts Algorithm_Rsa → check_rsa_gen_params [KP_KeySize 2048; KP_RsaPublicExponent 65537;
     KP_Purpose KeyPurpose_AttestKey; KP_Purpose q] SecurityLevel_TrustedEnvironment = Ok (Gen_Rsa 2048 65537)) ∧
  (q ∉ attest_conflicts Algorithm_Ec → check_ec_gen_params [KP_EcCurve EcCurve_P256;
     KP_Purpose KeyPurpose_AttestKey; KP_Purpose q] SecurityLevel_TrustedEnvironment = Ok (Gen_NistEc Nist_P256)).
Proof. destruct q; split; intros Hq; (reflexivity || set_solver). Qed.

(** ** The size of imported keys *)

(** Size in bits of explicit symmetric key material. *)
Definition symmetric_size (k : KeyMaterial) : option Z :=
  match k with
  | KM_Aes (Explicit k) => Some (AesKey_size k)
  | KM_TripleDes (Explicit _) => Some DES_KEY_SIZE_BITS
  | KM_Hmac (Explicit k) => Some (HmacKey_size k)
  | _ => None
  end.

Lemma require_matching_key_size_Ok params n d :
  require_matching_key_size params n = Ok d → omap as_KeySize (params ++ d) = [n].
Proof.
  unfold require_matching_key_size. intros H.
  apply res_bind_Ok in H as (o & Ho & H). apply get_opt_tag_value_Ok in Ho.
  rewrite omap_app, Ho. destruct o as [n'|].
  - apply res_bind_Ok in H as (? & Hn & [= <-]).
    apply reject_if_Ok, bool_decide_eq_false, dec_stable in Hn. by subst.
  - by injection H as <-.
Qed.

Lemma omap_singleton_elem {A B} (f : A → option B) l y :
  omap f l = [y] → ∃ x, x ∈ l ∧ f x = Some y.
Proof. intros H. apply list_elem_of_omap. rewrite H. by left. Qed.

Lemma as_KeySize_Some p n : as_KeySize p = Some n → p = KP_KeySize n.
Proof. destruct p; naive_solver. Qed.

(** The parameter naming the key size ends up in the key's own characteristics. *)
Lemma key_size_in_characteristics st params extra lvl chars n :
  extract_key_characteristics st params extra lvl = Ok chars →
  omap as_KeySize (params ++ extra) = [n] →
  ∃ c rest, chars = c :: rest ∧ security_level c = lvl ∧ KP_KeySize n ∈ authorizations c.
Proof.
  intros (_ & _ & ->)%extract_key_characteristics_Ok Hn. eexists _, _. split_and!; [done..|].
  cbn [authorizations]. rewrite sort_by_Permutation. apply list_elem_of_filter.
  apply omap_singleton_elem in Hn as (p & Hp & ->%as_KeySize_Some). split; [|done].
  left. decide_compute.
Qed.

(** Importing a symmetric key records the size of the key that was actually
    imported in the key's characteristics, whether or not the caller named a size:
    a caller-supplied size that differs is refused. *)
Theorem import_key_size `{I : ImportTraits} st params lvl fmt data chars key :
  aes_import_key = Aes_import_key_default →
  des_import_key = Des_import_key_default →
  hmac_import_key = Hmac_import_key_default →
  omap as_Algorithm params ∈ [[Algorithm_Aes]; [Algorithm_TripleDes]; [Algorithm_Hmac]] →
  extract_key_import_characteristics st params lvl fmt data = Ok (chars, key) →
  ∃ n c rest, symmetric_size key = Some n ∧ chars = c :: rest ∧ security_level c = lvl ∧
              KP_KeySize n ∈ authorizations c.
Proof.
  intros Haes Hdes Hhmac Halg H. unfold extract_key_import_characteristics in H.
  apply res_bind_Ok in H as (a & Ha & H). apply get_tag_value_Ok in Ha. rewrite Ha in Halg.
  apply res_bind_Ok in H as ([d k] & Hi & H). apply res_bind_Ok in H as (chars' & Hc & [= -> ->]).
  assert (∃ n, symmetric_size key = Some n ∧ omap as_KeySize (params ++ d) = [n]) as (n & Hs & Hn).
  { destruct a; [set_solver..| | |].
    - unfold check_aes_import_params in Hi. rewrite Haes in Hi. unfold Aes_import_key_default in Hi.
      res_inv. destruct_or?; eauto using require_matching_key_size_Ok.
    - unfold check_3des_import_params in Hi. rewrite Hdes in Hi. unfold Des_import_key_default in Hi.
      res_inv. eauto using require_matching_key_size_Ok.
    - unfold check_hmac_import_params in Hi. rewrite Hhmac in Hi. unfold Hmac_import_key_default in Hi.
      res_inv. eauto using require_matching_key_size_Ok. }
  destruct (key_size_in_characteristics _ _ _ _ _ _ Hc Hn) as (c & rest & ? & ? & ?). eauto 10.
Qed.

(** Crypto traits of an implementation with symmetric keys only. *)
Definition symmetric_only : ImportTraits := {|
  rsa_import_pkcs8_key := λ _ _, km_err Unimplemented;
  ec_import_pkcs8_key := λ _ _, km_err Unimplemented;
  ec_import_raw_ed25519_key := λ _ _, km_err Unimplemented;
  ec_import_raw_x25519_key := λ _ _, km_err Unimplemented;
  aes_import_key := Aes_import_key_default;
  des_import_key := Des_import_key_default;
  hmac_import_key := Hmac_import_key_default
|}.

Lemma import_key_size_witness :
  ∃ n c rest,
    symmetric_size (KM_Aes (Explicit (AesKey128 (replicate 16 (u8_of 7))))) = Some n ∧
    [{| security_level := SecurityLevel_TrustedEnvironment;
        authorizations := [KP_Algorithm Algorithm_Aes; KP_KeySize 128] |}] = c :: rest ∧
    security_level c = SecurityLevel_TrustedEnvironment ∧ KP_KeySize n ∈ authorizations c.
Proof.
  refine (import_key_size (I := symmetric_only) Unavailable [KP_Algorithm Algorithm_Aes]
    SecurityLevel_TrustedEnvironment KeyFormat_Raw (replicate 16 (u8_of 7)) _ _
    eq_refl eq_refl eq_refl _ _).
  - left.
  - vm_compute. reflexivity.
Defined.
