(* ===== verification/TagBegin.v ===== *)
(** * Checks at the start of an operation ([common/src/tag.rs], third part)

    Whether an operation with given purpose and parameters may be started with a
    key of given characteristics, and whether an RSA key may unwrap another key. *)

From S2P Require Import Prelude Wire TagInfo TagLegacy CryptoTypes TagParams TagGen.

(** Which [begin] parameters have to be authorized by the key. *)
Record BeginParamsToCheck := mk_check {
  check_block_mode : bool; check_padding : bool; check_digest : bool; check_mgf_digest : bool
}.

Definition for_encryption (purpose : KeyPurpose) : bool :=
  bool_decide (purpose = KeyPurpose_Encrypt) || bool_decide (purpose = KeyPurpose_Decrypt) ||
  bool_decide (purpose = KeyPurpose_WrapKey).
Definition for_signing (purpose : KeyPurpose) : bool := bool_decide (purpose = KeyPurpose_Sign).

(** ** Per-algorithm checks *)

Definition check_begin_rsa_params (chars : list KeyParam) (purpose : KeyPurpose)
    (params : list KeyParam) : Result BeginParamsToCheck :=
  padding ← get_padding_mode params;
  digest ← (if for_signing purpose ||
               (for_encryption purpose && bool_decide (padding = PaddingMode_RsaOaep))
            then Some <$> get_digest params
            else Ok None);
  _ ← reject_if (for_signing purpose && bool_decide (padding = PaddingMode_None) &&
                 bool_decide (digest ≠ Some Digest_None)) (Hal IncompatibleDigest);
  _ ← match padding, for_encryption purpose, for_signing purpose with
      | PaddingMode_None, _, _ => Ok tt
      | PaddingMode_RsaOaep, true, _ =>
        _ ← reject_if (bool_decide (digest = None) || bool_decide (digest = Some Digest_None))
              (Hal IncompatibleDigest);
        mgf_digest ← get_mgf_digest params;
        reject_if (bool_decide (mgf_digest = Digest_None)) (Hal UnsupportedMgfDigest)
      | PaddingMode_RsaPss, _, true =>
        match digest with
        | Some digest =>
          key_size_bits ← get_tag_value as_KeySize chars InvalidArgument;
          d ← digest_len digest;
          reject_if (bool_decide (key_size_bits < 2 * d + 9)) (Hal IncompatibleDigest)
        | None => km_err IncompatibleDigest
        end
      | PaddingMode_RsaPkcs115Encrypt, true, _ => Ok tt
      | PaddingMode_RsaPkcs115Sign, _, true =>
        reject_if (bool_decide (digest = None)) (Hal IncompatibleDigest)
      | _, _, _ => km_err UnsupportedPaddingMode
      end;
  Ok (mk_check false true true true).

Definition check_begin_ec_params (chars : list KeyParam) (purpose : KeyPurpose)
    (params : list KeyParam) : Result BeginParamsToCheck :=
  curve ← get_ec_curve chars;
  _ ← (if decide (purpose = KeyPurpose_Sign) then
         digest ← get_digest params;
         _ ← reject_if (bool_decide (digest = Digest_Md5)) (Hal UnsupportedDigest);
         reject_if (bool_decide (curve = EcCurve_Curve25519) && bool_decide (digest ≠ Digest_None))
           (Hal UnsupportedDigest)
       else Ok tt);
  Ok (mk_check false false true false).

(** The MAC length asked for may not be below the minimum the key was made with. *)
Definition check_begin_aes_params (chars params : list KeyParam) (caller_nonce : option bytes)
    : Result BeginParamsToCheck :=
  _ ← reject_tags params [Tag_RsaOaepMgfDigest];
  _ ← reject_some_digest params;
  bmode ← get_block_mode params;
  padding ← get_padding_mode params;
  _ ← (if decide (bmode = BlockMode_Gcm) then
         mac_len ← get_tag_value as_MacLength params MissingMacLength;
         _ ← reject_if (bool_decide (mac_len mod 8 ≠ 0) || bool_decide (mac_len > 128))
               (Hal UnsupportedMacLength);
         min_mac_len ← get_tag_value as_MinMacLength chars MissingMinMacLength;
         reject_if (bool_decide (mac_len < min_mac_len)) (Hal InvalidMacLength)
       else Ok tt);
  _ ← match bmode, padding with
      | BlockMode_Gcm, PaddingMode_None | BlockMode_Ctr, PaddingMode_None => Ok tt
      | BlockMode_Ecb, PaddingMode_None | BlockMode_Ecb, PaddingMode_Pkcs7 => Ok tt
      | BlockMode_Cbc, PaddingMode_None | BlockMode_Cbc, PaddingMode_Pkcs7 => Ok tt
      | _, _ => km_err IncompatiblePaddingMode
      end;
  _ ← match caller_nonce with
      | Some nonce =>
        match bmode with
        | BlockMode_Cbc | BlockMode_Ctr =>
          if decide (len nonce = 16) then Ok tt else km_err InvalidNonce
        | BlockMode_Gcm => if decide (len nonce = 12) then Ok tt else km_err InvalidNonce
        | BlockMode_Ecb => km_err InvalidNonce
        end
      | None => Ok tt
      end;
  Ok (mk_check true true false false).

Definition check_begin_3des_params (params : list KeyParam) (caller_nonce : option bytes)
    : Result BeginParamsToCheck :=
  _ ← reject_tags params [Tag_RsaOaepMgfDigest];
  _ ← reject_some_digest params;
  bmode ← get_block_mode params;
  _ ← get_padding_mode params;
  _ ← match bmode with
      | BlockMode_Cbc | BlockMode_Ecb => Ok tt
      | _ => km_err UnsupportedBlockMode
      end;
  _ ← match caller_nonce with
      | Some nonce =>
        match bmode with
        | BlockMode_Cbc => if decide (len nonce = 8) then Ok tt else km_err InvalidNonce
        | _ => km_err InvalidNonce
        end
      | None => Ok tt
      end;
  Ok (mk_check true true false false).

Definition check_begin_hmac_params (chars : list KeyParam) (purpose : KeyPurpose)
    (params : list KeyParam) : Result BeginParamsToCheck :=
  _ ← reject_tags params [Tag_BlockMode; Tag_RsaOaepMgfDigest];
  _ ← reject_some_padding params;
  digest ← get_digest params;
  _ ← (if decide (purpose = KeyPurpose_Sign) then
         mac_len ← get_tag_value as_MacLength params MissingMacLength;
         (* the right operand of the short-circuit [||] may fail *)
         too_long ← (if decide (mac_len mod 8 ≠ 0) then Ok true
                     else d ← digest_len digest; Ok (bool_decide (mac_len > d)));
         _ ← reject_if too_long (Hal UnsupportedMacLength);
         min_mac_len ← get_tag_value as_MinMacLength chars MissingMinMacLength;
         reject_if (bool_decide (mac_len < min_mac_len)) (Hal InvalidMacLength)
       else Ok tt);
  Ok (mk_check false false true false).

(** ** All algorithms *)

Definition valid_purpose (algo : Algorithm) (purpose : KeyPurpose) : bool :=
  match algo, purpose with
  | Algorithm_Aes, KeyPurpose_Encrypt | Algorithm_Aes, KeyPurpose_Decrypt
  | Algorithm_TripleDes, KeyPurpose_Encrypt | Algorithm_TripleDes, KeyPurpose_Decrypt
  | Algorithm_Hmac, KeyPurpose_Sign | Algorithm_Hmac, KeyPurpose_Verify
  | Algorithm_Ec, KeyPurpose_Sign | Algorithm_Ec, KeyPurpose_AttestKey
  | Algorithm_Ec, KeyPurpose_AgreeKey
  | Algorithm_Rsa, KeyPurpose_Sign | Algorithm_Rsa, KeyPurpose_Decrypt
  | Algorithm_Rsa, KeyPurpose_AttestKey => true
  | _, _ => false
  end.

(** If a parameter selected by [sel] is given, the same one must be authorized. *)
Definition check_authorized {A} `{EqDecision A} (sel : KeyParam → option A)
    (chars params : list KeyParam) (dup_error err : ErrorCode) : Result unit :=
  o ← get_opt_tag_value_or sel params dup_error;
  match o with
  | Some v => reject_if (negb (contains_tag_value sel chars v)) (Hal err)
  | None => Ok tt
  end.

(** The MGF digest defaults to SHA-1 when the key authorizes some MGF digest. *)
Definition check_mgf_authorized (chars params : list KeyParam) : Result unit :=
  mgf_digest_to_find ← get_opt_tag_value_or as_RsaOaepMgfDigest params UnsupportedMgfDigest;
  let chars_have_mgf_digest :=
    existsb (λ p, match p with KP_RsaOaepMgfDigest _ => true | _ => false end) chars in
  let mgf_digest_to_find :=
    if chars_have_mgf_digest && bool_decide (mgf_digest_to_find = None)
    then Some Digest_Sha1 else mgf_digest_to_find in
  match mgf_digest_to_find with
  | Some mgf_digest =>
    reject_if (negb (contains_tag_value as_RsaOaepMgfDigest chars mgf_digest))
      (Hal IncompatibleMgfDigest)
  | None => Ok tt
  end.

Definition check_begin_params (chars : list KeyParam) (purpose : KeyPurpose)
    (params : list KeyParam) : Result unit :=
  algo ← get_algorithm chars;
  _ ← reject_if (negb (valid_purpose algo purpose)) (Hal UnsupportedPurpose);
  _ ← reject_if (negb (contains_tag_value as_Purpose chars purpose)) (Hal IncompatiblePurpose);
  storage_key ← get_bool_tag_value chars KP_StorageKey;
  _ ← reject_if storage_key (Hal StorageKeyUnsupported);
  nonce ← get_opt_tag_value as_Nonce params;
  caller_nonce ← get_bool_tag_value chars KP_CallerNonce;
  _ ← (if (caller_nonce : bool) then Ok tt
       else reject_if (bool_decide (is_Some nonce) && bool_decide (purpose = KeyPurpose_Encrypt))
              (Hal CallerNonceProhibited));
  check ← match algo with
    | Algorithm_Rsa => check_begin_rsa_params chars purpose params
    | Algorithm_Ec => check_begin_ec_params chars purpose params
    | Algorithm_Aes => check_begin_aes_params chars params nonce
    | Algorithm_TripleDes => check_begin_3des_params params nonce
    | Algorithm_Hmac => check_begin_hmac_params chars purpose params
    end;
  _ ← (if check_block_mode check
       then check_authorized as_BlockMode chars params UnsupportedBlockMode IncompatibleBlockMode
       else Ok tt);
  _ ← (if check_padding check
       then check_authorized as_Padding chars params UnsupportedPaddingMode IncompatiblePaddingMode
       else Ok tt);
  _ ← (if check_digest check
       then check_authorized as_Digest chars params UnsupportedDigest IncompatibleDigest
       else Ok tt);
  if check_mgf_digest check then check_mgf_authorized chars params else Ok tt.

Definition check_rsa_wrapping_key_params (chars params : list KeyParam) : Result DecryptionMode :=
  _ ← reject_if (negb (contains_tag_value as_Purpose chars KeyPurpose_WrapKey))
        (Hal IncompatiblePurpose);
  padding_mode ← get_tag_value as_Padding params IncompatiblePaddingMode;
  _ ← reject_if (bool_decide (padding_mode ≠ PaddingMode_RsaOaep)) (Hal IncompatiblePaddingMode);
  msg_digest ← get_tag_value as_Digest params IncompatibleDigest;
  _ ← reject_if (bool_decide (msg_digest ≠ Digest_Sha256)) (Hal IncompatibleDigest);
  opt_mgf_digest ← get_opt_tag_value as_RsaOaepMgfDigest params;
  _ ← reject_if (bool_decide (opt_mgf_digest = Some Digest_None)) (Hal UnsupportedMgfDigest);
  _ ← reject_if (negb (contains_tag_value as_Padding chars padding_mode))
        (Hal IncompatiblePaddingMode);
  _ ← reject_if (negb (contains_tag_value as_Digest chars msg_digest)) (Hal IncompatibleDigest);
  _ ← match opt_mgf_digest with
      | Some mgf_digest =>
        reject_if (negb (contains_tag_value as_RsaOaepMgfDigest chars mgf_digest))
          (Hal IncompatibleDigest)
      | None => Ok tt
      end;
  let mgf_digest := default Digest_Sha1 opt_mgf_digest in
  Ok (Dec_OaepPadding msg_digest mgf_digest).

(** ** What a successful check guarantees *)

(** Begin parameters that the key has to authorize, by algorithm. *)
Definition policed_tags (algo : Algorithm) : list Tag :=
  match algo with
  | Algorithm_Rsa => [Tag_Padding; Tag_Digest; Tag_RsaOaepMgfDigest]
  | Algorithm_Ec => [Tag_Digest]
  | Algorithm_Aes | Algorithm_TripleDes => [Tag_BlockMode; Tag_Padding]
  | Algorithm_Hmac => [Tag_Digest]
  end.

(** A selector for the values that constructor [c], of tag [t], carries. *)
Class Selects {A} (sel : KeyParam → option A) (c : A → KeyParam) (t : Tag) := {
  sel_Some p v : sel p = Some v ↔ p = c v;
  sel_tag p : tag p = t → is_Some (sel p)
}.
Ltac solve_selects := split; [intros [] ?; split; cbn; congruence | intros []; cbn; try done; eauto].
#[export] Instance sel_Purpose : Selects as_Purpose KP_Purpose Tag_Purpose.
Proof. solve_selects. Qed.
#[export] Instance sel_BlockMode : Selects as_BlockMode KP_BlockMode Tag_BlockMode.
Proof. solve_selects. Qed.
#[export] Instance sel_Padding : Selects as_Padding KP_Padding Tag_Padding.
Proof. solve_selects. Qed.
#[export] Instance sel_Digest : Selects as_Digest KP_Digest Tag_Digest.
Proof. solve_selects. Qed.
#[export] Instance sel_MgfDigest : Selects as_RsaOaepMgfDigest KP_RsaOaepMgfDigest Tag_RsaOaepMgfDigest.
Proof. solve_selects. Qed.
#[export] Instance sel_Nonce : Selects as_Nonce KP_Nonce Tag_Nonce.
Proof. solve_selects. Qed.

Section selects.
Context {A} `{EqDecision A} (sel : KeyParam → option A) (c : A → KeyParam) (t : Tag)
  `{S : !Selects sel c t}.

Lemma sel_omap v (params : list KeyParam) : v ∈ omap sel params ↔ c v ∈ params.
Proof.
  rewrite list_elem_of_omap. setoid_rewrite sel_Some. naive_solver.
Qed.
Lemma contains_param chars v : contains_tag_value sel chars v = true ↔ c v ∈ chars.
Proof. by rewrite contains_tag_value_true, sel_omap. Qed.
Lemma check_authorized_Ok chars params e1 e2 u p :
  check_authorized sel chars params e1 e2 = Ok u → p ∈ params → tag p = t → p ∈ chars.
Proof.
  unfold check_authorized. intros H Hp Ht.
  apply res_bind_Ok in H as (o & Ho & H). apply get_opt_tag_value_Ok in Ho.
  destruct (sel_tag p Ht) as [v ->%sel_Some]. apply sel_omap in Hp. rewrite Ho in Hp.
  destruct o as [w|]; cbn in Hp; [|set_solver]. apply list_elem_of_singleton in Hp as ->.
  apply reject_if_Ok, negb_false_iff, contains_param in H. done.
Qed.
End selects.

Lemma check_mgf_authorized_Ok chars params u p :
  check_mgf_authorized chars params = Ok u → p ∈ params → tag p = Tag_RsaOaepMgfDigest → p ∈ chars.
Proof.
  unfold check_mgf_authorized. intros H Hp Ht.
  apply res_bind_Ok in H as (o & Ho & H). apply get_opt_tag_value_Ok in Ho.
  destruct (sel_tag (Selects := sel_MgfDigest) p Ht) as [v ->%(sel_Some (Selects := sel_MgfDigest))].
  apply (sel_omap as_RsaOaepMgfDigest KP_RsaOaepMgfDigest Tag_RsaOaepMgfDigest) in Hp. rewrite Ho in Hp.
  destruct o as [w|]; cbn in Hp; [|set_solver]. apply list_elem_of_singleton in Hp as ->.
  rewrite bool_decide_eq_false_2, andb_false_r in H by done.
  apply reject_if_Ok, negb_false_iff in H.
  by apply (contains_param as_RsaOaepMgfDigest KP_RsaOaepMgfDigest Tag_RsaOaepMgfDigest) in H.
Qed.

(** The checks requested for an algorithm cover its policed tags. *)
Definition checks_of (algo : Algorithm) : BeginParamsToCheck :=
  match algo with
  | Algorithm_Rsa => mk_check false true true true
  | Algorithm_Ec | Algorithm_Hmac => mk_check false false true false
  | Algorithm_Aes | Algorithm_TripleDes => mk_check true true false false
  end.

Lemma algorithm_check algo chars purpose params nonce c :
  match algo with
  | Algorithm_Rsa => check_begin_rsa_params chars purpose params
  | Algorithm_Ec => check_begin_ec_params chars purpose params
  | Algorithm_Aes => check_begin_aes_params chars params nonce
  | Algorithm_TripleDes => check_begin_3des_params params nonce
  | Algorithm_Hmac => check_begin_hmac_params chars purpose params
  end = Ok c → c = checks_of algo.
Proof.
  destruct algo; [unfold check_begin_rsa_params|unfold check_begin_ec_params|unfold check_begin_aes_params
                 |unfold check_begin_3des_params|unfold check_begin_hmac_params];
  intros H; repeat (apply res_bind_Ok in H as (? & _ & H)); by injection H as <-.
Qed.

(** The facts shared by the theorems about [check_begin_params]. *)
Record begin_checked (chars : list KeyParam) (purpose : KeyPurpose) (params : list KeyParam)
    (algo : Algorithm) (nonce : option bytes) : Prop := {
  bc_algorithm : omap as_Algorithm chars = [algo];
  bc_purpose : valid_purpose algo purpose = true;
  bc_authorized : KP_Purpose purpose ∈ chars;
  bc_storage : KP_StorageKey ∉ chars;
  bc_nonce : omap as_Nonce params = option_list nonce;
  bc_caller_nonce : is_Some nonce → purpose = KeyPurpose_Encrypt → KP_CallerNonce ∈ chars;
  bc_algo_check :
    match algo with
    | Algorithm_Rsa => check_begin_rsa_params chars purpose params
    | Algorithm_Ec => check_begin_ec_params chars purpose params
    | Algorithm_Aes => check_begin_aes_params chars params nonce
    | Algorithm_TripleDes => check_begin_3des_params params nonce
    | Algorithm_Hmac => check_begin_hmac_params chars purpose params
    end = Ok (checks_of algo);
  bc_policed p : p ∈ params → tag p ∈ policed_tags algo → p ∈ chars
}.

Lemma check_begin_params_checked chars purpose params :
  check_begin_params chars purpose params = Ok tt →
  ∃ algo nonce, begin_checked chars purpose params algo nonce.
Proof.
  unfold check_begin_params. intros H.
  apply res_bind_Ok in H as (algo & Ha & H). apply get_tag_value_Ok in Ha.
  apply res_bind_Ok in H as (? & Hv & H). apply reject_if_Ok, negb_false_iff in Hv.
  apply res_bind_Ok in H as (? & Hp & H). apply reject_if_Ok, negb_false_iff in Hp.
  apply (contains_param as_Purpose KP_Purpose Tag_Purpose) in Hp.
  apply res_bind_Ok in H as (sk & Hsk & H). apply res_bind_Ok in H as (? & ->%reject_if_Ok & H).
  apply get_bool_tag_value_false in Hsk.
  apply res_bind_Ok in H as (nonce & Hn & H). apply get_opt_tag_value_Ok in Hn.
  apply res_bind_Ok in H as (cn & Hcn & H). apply res_bind_Ok in H as (? & Hcn' & H).
  apply res_bind_Ok in H as (c & Hc & H). pose proof (algorithm_check _ _ _ _ _ _ Hc) as ->.
  apply res_bind_Ok in H as (? & Hb & H). apply res_bind_Ok in H as (? & Hpd & H).
  apply res_bind_Ok in H as (? & Hd & H).
  exists algo, nonce. split; try done.
  - intros Hs ->. destruct cn; [by apply get_bool_tag_value_true|].
    apply reject_if_Ok in Hcn'. by rewrite !bool_decide_eq_true_2 in Hcn'.
  - intros p Hin Ht.
    destruct algo; cbn in *; repeat (apply elem_of_cons in Ht as [Ht|Ht]); try (by apply elem_of_nil in Ht);
      first [by eapply (check_authorized_Ok as_BlockMode KP_BlockMode Tag_BlockMode)
            |by eapply (check_authorized_Ok as_Padding KP_Padding Tag_Padding)
            |by eapply (check_authorized_Ok as_Digest KP_Digest Tag_Digest)
            |by eapply check_mgf_authorized_Ok].
Qed.

(** C9: an operation is only started for a purpose the key's algorithm has and the
    key authorizes, never with a storage key, with a caller-chosen nonce for
    encryption only if the key allows it, and with no block mode, padding, digest
    or MGF digest (those relevant to the algorithm) that the key does not
    authorize. *)
Theorem check_begin_params_sound chars purpose params :
  check_begin_params chars purpose params = Ok tt →
  ∃ algo, omap as_Algorithm chars = [algo] ∧ valid_purpose algo purpose = true ∧
    KP_Purpose purpose ∈ chars ∧ (KP_StorageKey ∉ chars) ∧
    (∀ n, KP_Nonce n ∈ params → purpose = KeyPurpose_Encrypt → KP_CallerNonce ∈ chars) ∧
    (∀ p, p ∈ params → tag p ∈ policed_tags algo → p ∈ chars).
Proof.
  intros (algo & nonce & []) %check_begin_params_checked. exists algo. split_and!; try done.
  intros n Hn. apply bc_caller_nonce0.
  apply (sel_omap as_Nonce KP_Nonce Tag_Nonce) in Hn. rewrite bc_nonce0 in Hn.
  destruct nonce; [by eexists|]. by apply elem_of_nil in Hn.
Qed.

(** Characteristics and begin parameters of an AES-GCM encryption. *)
Definition gcm_chars : list KeyParam :=
  [KP_Purpose KeyPurpose_Encrypt; KP_Algorithm Algorithm_Aes; KP_KeySize 128;
   KP_BlockMode BlockMode_Gcm; KP_Padding PaddingMode_None; KP_MinMacLength 96; KP_CallerNonce].
Definition gcm_params : list KeyParam :=
  [KP_BlockMode BlockMode_Gcm; KP_Padding PaddingMode_None; KP_MacLength 128;
   KP_Nonce (replicate 12 (u8_of 1))].

Lemma check_begin_params_sound_witness :
  ∃ algo, omap as_Algorithm gcm_chars = [algo] ∧ valid_purpose algo KeyPurpose_Encrypt = true ∧
    KP_Purpose KeyPurpose_Encrypt ∈ gcm_chars ∧ (KP_StorageKey ∉ gcm_chars) ∧
    (∀ n, KP_Nonce n ∈ gcm_params → KeyPurpose_Encrypt = KeyPurpose_Encrypt →
          KP_CallerNonce ∈ gcm_chars) ∧
    (∀ p, p ∈ gcm_params → tag p ∈ policed_tags algo → p ∈ gcm_chars).
Proof. apply check_begin_params_sound. vm_compute. reflexivity. Defined.

Lemma aes_padding_ok m pad (u : unit) :
  match m, pad with
  | BlockMode_Gcm, PaddingMode_None | BlockMode_Ctr, PaddingMode_None => Ok tt
  | BlockMode_Ecb, PaddingMode_None | BlockMode_Ecb, PaddingMode_Pkcs7 => Ok tt
  | BlockMode_Cbc, PaddingMode_None | BlockMode_Cbc, PaddingMode_Pkcs7 => Ok tt
  | _, _ => km_err IncompatiblePaddingMode
  end = Ok u →
  pad = PaddingMode_None ∨ (pad = PaddingMode_Pkcs7 ∧ m ∈ [BlockMode_Ecb; BlockMode_Cbc]).
Proof. intros H. split_match_in H; set_solver. Qed.

Lemma check_begin_aes_facts chars purpose params :
  omap as_Algorithm chars = [Algorithm_Aes] →
  check_begin_params chars purpose params = Ok tt →
  ∃ m pad, omap as_BlockMode params = [m] ∧ omap as_Padding params = [pad] ∧
    KP_BlockMode m ∈ chars ∧ KP_Padding pad ∈ chars ∧
    (pad = PaddingMode_None ∨ (pad = PaddingMode_Pkcs7 ∧ m ∈ [BlockMode_Ecb; BlockMode_Cbc])) ∧
    (m = BlockMode_Gcm → ∃ mac min, omap as_MacLength params = [mac] ∧
       omap as_MinMacLength chars = [min] ∧ min ≤ mac ≤ 128 ∧ mac mod 8 = 0) ∧
    (∀ n, KP_Nonce n ∈ params →
       m ≠ BlockMode_Ecb ∧ len n = if decide (m = BlockMode_Gcm) then 12 else 16).
Proof.
  intros Haes (algo & nonce & [Ha _ _ _ Hn _ Hc Hpol])%check_begin_params_checked.
  rewrite Haes in Ha. injection Ha as <-. unfold check_begin_aes_params in Hc.
  do 2 apply res_bind_Ok in Hc as (? & _ & Hc).
  apply res_bind_Ok in Hc as (m & Hm & Hc). apply get_tag_value_Ok in Hm.
  apply res_bind_Ok in Hc as (pad & Hpad & Hc). apply get_tag_value_Ok in Hpad.
  apply res_bind_Ok in Hc as (? & Hgcm & Hc). apply res_bind_Ok in Hc as (? & Hfit & Hc).
  apply res_bind_Ok in Hc as (? & Hnl & _).
  exists m, pad. split_and!; try done.
  - apply Hpol; [|cbn; set_solver].
    apply (sel_omap as_BlockMode KP_BlockMode Tag_BlockMode). rewrite Hm. by left.
  - apply Hpol; [|cbn; set_solver].
    apply (sel_omap as_Padding KP_Padding Tag_Padding). rewrite Hpad. by left.
  - by eapply aes_padding_ok.
  - intros ->. cbn in Hgcm.
    apply res_bind_Ok in Hgcm as (mac & Hmac & Hg). apply get_tag_value_Ok in Hmac.
    apply res_bind_Ok in Hg as (? & Hr & Hg). apply reject_if_Ok, orb_false_iff in Hr as [Hr1 Hr2].
    apply res_bind_Ok in Hg as (min & Hmin & Hg). apply get_tag_value_Ok in Hmin.
    apply reject_if_Ok in Hg. rewrite !bool_decide_eq_false in *. exists mac, min.
    split_and!; [done..|lia|lia|lia].
  - intros n Hin. apply (sel_omap as_Nonce KP_Nonce Tag_Nonce) in Hin. rewrite Hn in Hin.
    destruct nonce as [n'|]; [|by apply elem_of_nil in Hin].
    apply list_elem_of_singleton in Hin as ->. destruct m; cbn in *; case_decide; done.
Qed.

(** An AES operation that is started has one block mode and one padding mode,
    both authorized by the key and fitting together; in GCM mode the tag is a whole
    number of bytes, at most 16 and at least the minimum fixed when the key was
    made; a nonce given by the caller has the length the mode needs. *)
Theorem check_begin_aes_sound chars purpose params :
  omap as_Algorithm chars = [Algorithm_Aes] →
  check_begin_params chars purpose params = Ok tt →
  ∃ m pad, omap as_BlockMode params = [m] ∧ omap as_Padding params = [pad] ∧
    KP_BlockMode m ∈ chars ∧ KP_Padding pad ∈ chars ∧
    (pad = PaddingMode_None ∨ (pad = PaddingMode_Pkcs7 ∧ m ∈ [BlockMode_Ecb; BlockMode_Cbc])) ∧
    (m = BlockMode_Gcm → ∃ mac min, omap as_MacLength params = [mac] ∧
       omap as_MinMacLength chars = [min] ∧ min ≤ mac ≤ 128 ∧ mac mod 8 = 0) ∧
    (∀ n, KP_Nonce n ∈ params →
       m ≠ BlockMode_Ecb ∧ len n = if decide (m = BlockMode_Gcm) then 12 else 16).
Proof. apply check_begin_aes_facts. Qed.

Lemma check_begin_aes_sound_witness :
  ∃ m pad, omap as_BlockMode gcm_params = [m] ∧ omap as_Padding gcm_params = [pad] ∧
    KP_BlockMode m ∈ gcm_chars ∧ KP_Padding pad ∈ gcm_chars ∧
    (pad = PaddingMode_None ∨ (pad = PaddingMode_Pkcs7 ∧ m ∈ [BlockMode_Ecb; BlockMode_Cbc])) ∧
    (m = BlockMode_Gcm → ∃ mac min, omap as_MacLength gcm_params = [mac] ∧
       omap as_MinMacLength gcm_chars = [min] ∧ min ≤ mac ≤ 128 ∧ mac mod 8 = 0) ∧
    (∀ n, KP_Nonce n ∈ gcm_params →
       m ≠ BlockMode_Ecb ∧ len n = if decide (m = BlockMode_Gcm) then 12 else 16).
Proof.
  apply (check_begin_aes_sound gcm_chars KeyPurpose_Encrypt); [reflexivity|vm_compute; reflexivity].
Defined.
