(* ===== verification/Crypto.v ===== *)
(** * Cryptographic helpers ([common/src/crypto.rs], [crypto/aes.rs], [crypto/des.rs],
    [crypto/rsa.rs], [crypto/traits.rs])

    The cryptographic primitives are traits that a device integrator implements;
    they are type classes here.  What the repository itself computes with them
    (cipher modes, nonces, key generation, HKDF, CKDF) is defined on top. *)

From S2P Require Import Prelude Wire TagInfo TagLegacy CryptoTypes TagParams TagGen TagBegin.

(** ** The traits *)

(** A source of randomness; a buffer of [n] bytes is filled with [n] bytes. *)
Class Rng := {
  rng_state : Type;
  add_entropy : bytes → rng_state → rng_state;
  fill_bytes : nat → rng_state → bytes * rng_state;
  length_fill_bytes n s : length (fill_bytes n s).1 = n
}.

(** [Box<dyn AccumulatingOperation>]: absorbs data and gives a result at the end. *)
Class AccumulatingOperation := {
  acc_op : Type;
  acc_max_input_size : acc_op → option Z;
  acc_update : acc_op → bytes → Result acc_op;
  acc_finish : acc_op → Result bytes
}.

(** [Box<dyn EmittingOperation>]: gives output as it absorbs data. *)
Class EmittingOperation := {
  emit_op : Type;
  emit_update : emit_op → bytes → Result (bytes * emit_op);
  emit_finish : emit_op → Result bytes
}.

(** [Box<dyn AadOperation>]: as above, with additional authenticated data. *)
Class AadOperation := {
  aad_op : Type;
  aad_update_aad : aad_op → bytes → Result aad_op;
  aad_update : aad_op → bytes → Result (bytes * aad_op);
  aad_finish : aad_op → Result bytes
}.

Class Hmac `{AccumulatingOperation} := {
  hmac_begin : OpaqueOr bytes → Digest → Result acc_op
}.
Class AesCmac `{AccumulatingOperation} := {
  cmac_begin : OpaqueOr AesKey → Result acc_op
}.
Class Aes `{EmittingOperation} `{AadOperation} := {
  aes_begin : OpaqueOr AesKey → CipherMode → SymmetricOperation → Result emit_op;
  aes_begin_aead : OpaqueOr AesKey → GcmMode → SymmetricOperation → Result aad_op
}.
Class ConstTimeEq := { ct_eq : bytes → bytes → bool }.
Class ConstTimeEqLaws `{ConstTimeEq} : Prop := { ct_eq_true a b : ct_eq a b = true ↔ a = b }.
(** The HKDF trait; any [Hmac] gives one (below). *)
Class Hkdf := {
  hkdf_extract : bytes → bytes → Result (OpaqueOr bytes);
  hkdf_expand : OpaqueOr bytes → bytes → Z → Result bytes
}.

(** [explicit!(key)]. *)
Definition explicit {A} (k : OpaqueOr A) : Result A :=
  match k with Explicit k => Ok k | Opaque _ => km_err IncompatibleKeyFormat end.

(** ** Nonces and modes *)

Section modes.
Context `{R : Rng}.
Abbreviation M := (stM rng_state Error).

(** A fresh buffer of [n] random bytes. *)
Definition random_bytes (n : Z) : M bytes :=
  λ s, let '(b, s') := fill_bytes (Z.to_nat n) s in (Ok b, s').

Definition nonce (size : Z) (caller_nonce : option bytes) : M bytes :=
  match caller_nonce with
  | Some n => liftr (if decide (len n = size) then Ok n else km_err InvalidNonce)
  | None => random_bytes size
  end.

(** [.try_into().map_err(..)] to a fixed-size array. *)
Definition nonce_array (size : Z) (caller_nonce : option bytes) : M bytes :=
  n ← nonce size caller_nonce;
  liftr (if decide (len n = size) then Ok n else km_err InvalidNonce).

Definition AesMode_new (params : list KeyParam) (caller_nonce : option bytes) : M AesMode :=
  mode ← liftr (get_block_mode params);
  padding ← liftr (get_padding_mode params);
  match mode with
  | BlockMode_Ecb =>
    _ ← liftr (reject_if (bool_decide (is_Some caller_nonce)) (Hal InvalidNonce));
    liftr match padding with
          | PaddingMode_None => Ok (Cipher EcbNoPadding)
          | PaddingMode_Pkcs7 => Ok (Cipher EcbPkcs7Padding)
          | _ => km_err IncompatiblePaddingMode
          end
  | BlockMode_Cbc =>
    n ← nonce_array AES_BLOCK_SIZE caller_nonce;
    liftr match padding with
          | PaddingMode_None => Ok (Cipher (CbcNoPadding n))
          | PaddingMode_Pkcs7 => Ok (Cipher (CbcPkcs7Padding n))
          | _ => km_err IncompatiblePaddingMode
          end
  | BlockMode_Ctr =>
    _ ← liftr (reject_if (bool_decide (padding ≠ PaddingMode_None)) (Hal IncompatiblePaddingMode));
    n ← nonce_array AES_BLOCK_SIZE caller_nonce;
    mret (Cipher (Ctr n))
  | BlockMode_Gcm =>
    _ ← liftr (reject_if (bool_decide (padding ≠ PaddingMode_None)) (Hal IncompatiblePaddingMode));
    n ← nonce_array GCM_NONCE_SIZE caller_nonce;
    tag_len ← liftr (get_tag_value as_MacLength params InvalidMacLength);
    _ ← liftr (reject_if (bool_decide (tag_len mod 8 ≠ 0)) (Hal InvalidMacLength));
    liftr match tag_len / 8 with
          | 12 => Ok (Aead (GcmTag12 n))
          | 13 => Ok (Aead (GcmTag13 n))
          | 14 => Ok (Aead (GcmTag14 n))
          | 15 => Ok (Aead (GcmTag15 n))
          | 16 => Ok (Aead (GcmTag16 n))
          | _ => km_err InvalidMacLength
          end
  end.

Definition DesMode_new (params : list KeyParam) (caller_nonce : option bytes) : M DesMode :=
  mode ← liftr (get_block_mode params);
  padding ← liftr (get_padding_mode params);
  match mode with
  | BlockMode_Ecb =>
    _ ← liftr (reject_if (bool_decide (is_Some caller_nonce)) (Hal InvalidNonce));
    liftr match padding with
          | PaddingMode_None => Ok DesEcbNoPadding
          | PaddingMode_Pkcs7 => Ok DesEcbPkcs7Padding
          | _ => km_err IncompatiblePaddingMode
          end
  | BlockMode_Cbc =>
    n ← nonce_array DES_BLOCK_SIZE caller_nonce;
    liftr match padding with
          | PaddingMode_None => Ok (DesCbcNoPadding n)
          | PaddingMode_Pkcs7 => Ok (DesCbcPkcs7Padding n)
          | _ => km_err IncompatiblePaddingMode
          end
  | _ => liftr (km_err UnsupportedBlockMode)
  end.

(** ** Default key generation of the symmetric traits *)

Definition Aes_generate_key_default (variant : AesVariant) (_params : list KeyParam) : M KeyMaterial :=
  key ← random_bytes (AesVariant_key_size variant);
  mret (KM_Aes (Explicit match variant with
                         | Aes128 => AesKey128 key
                         | Aes192 => AesKey192 key
                         | Aes256 => AesKey256 key
                         end)).
Definition Des_generate_key_default (_params : list KeyParam) : M KeyMaterial :=
  key ← random_bytes 24;
  k ← liftr (DesKey_new key);
  mret (KM_TripleDes (Explicit k)).
Definition Hmac_generate_key_default (key_size : Z) (_params : list KeyParam) : M KeyMaterial :=
  _ ← liftr (valid_hal_size key_size);
  key ← random_bytes (key_size / 8);
  mret (KM_Hmac (Explicit key)).
End modes.

Definition DecryptionMode_new (params : list KeyParam) : Result DecryptionMode :=
  padding ← get_padding_mode params;
  match padding with
  | PaddingMode_None => Ok Dec_NoPadding
  | PaddingMode_RsaOaep =>
    msg_digest ← get_digest params;
    mgf_digest ← get_mgf_digest params;
    Ok (Dec_OaepPadding msg_digest mgf_digest)
  | PaddingMode_RsaPkcs115Encrypt => Ok Dec_Pkcs1_1_5Padding
  | _ => km_err UnsupportedPaddingMode
  end.

Definition SignMode_new (params : list KeyParam) : Result SignMode :=
  padding ← get_padding_mode params;
  match padding with
  | PaddingMode_None => Ok Sign_NoPadding
  | PaddingMode_RsaPss => digest ← get_digest params; Ok (Sign_PssPadding digest)
  | PaddingMode_RsaPkcs115Sign => digest ← get_digest params; Ok (Sign_Pkcs1_1_5Padding digest)
  | _ => km_err UnsupportedPaddingMode
  end.

(** ** Key derivation *)

Definition SHA256_DIGEST_LEN : Z := 32.
(** [a.div_ceil(b)]. *)
Definition div_ceil (a b : Z) : Z := (a + b - 1) / b.

Section hkdf.
Context `{H : Hmac}.

Definition HKDF_EMPTY_SALT : bytes := replicate 32 (u8_of 0).

Definition hmac_sha256 (key data : bytes) : Result bytes :=
  op ← hmac_begin (Explicit key) Digest_Sha256;
  op ← acc_update op data;
  acc_finish op.

Definition extract (salt ikm : bytes) : Result (OpaqueOr bytes) :=
  let salt := match salt with [] => HKDF_EMPTY_SALT | _ => salt end in
  prk ← hmac_sha256 salt ikm;
  Ok (Explicit prk).

(** [for idx in idx..idx + count]. *)
Fixpoint expand_loop (count : nat) (idx : Z) (prk info t okm : bytes) : Result bytes :=
  match count with
  | O => Ok okm
  | S count' =>
    let input := t ++ info ++ [u8_of (idx + 1)] in
    t' ← hmac_sha256 prk input;
    expand_loop count' (idx + 1) prk info t' (okm ++ t')
  end.

Definition expand (prk : OpaqueOr bytes) (info : bytes) (out_len : Z) : Result bytes :=
  prk ← explicit prk;
  let n := div_ceil out_len SHA256_DIGEST_LEN in
  _ ← reject_if (bool_decide (n > 256)) (Hal InvalidArgument);
  let n := as_unsigned 8 n in
  okm ← expand_loop (Z.to_nat n) 0 prk info [] [];
  Ok (take (Z.to_nat out_len) okm).

#[export] Instance Hkdf_for_Hmac : Hkdf := {| hkdf_extract := extract; hkdf_expand := expand |}.
End hkdf.

Section hkdf_methods.
Context `{K : Hkdf}.

Definition hkdf (salt ikm info : bytes) (out_len : Z) : Result bytes :=
  prk ← hkdf_extract salt ikm;
  hkdf_expand prk info out_len.
Definition hkdf_aes (salt ikm info : bytes) (variant : AesVariant) : Result (OpaqueOr AesKey) :=
  data ← hkdf salt ikm info (AesVariant_key_size variant);
  k ← AesKey_new data;
  Ok (Explicit k).
Definition expand_aes (prk : OpaqueOr bytes) (info : bytes) (variant : AesVariant)
    : Result (OpaqueOr AesKey) :=
  data ← hkdf_expand prk info (AesVariant_key_size variant);
  k ← AesKey_new data;
  Ok (Explicit k).
End hkdf_methods.

Section ckdf.
Context `{C : AesCmac}.

Fixpoint update_chunks (op : acc_op) (chunks : list bytes) : Result acc_op :=
  match chunks with
  | [] => Ok op
  | chunk :: chunks' => op ← acc_update op chunk; update_chunks op chunks'
  end.

(** [for i in i..i + count], filling [output] from [output_pos]. *)
Fixpoint ckdf_loop (count : nat) (i : Z) (key : AesKey) (label : bytes) (chunks : list bytes)
    (net_order_l output : bytes) (output_pos : Z) : Result (bytes * Z) :=
  match count with
  | O => Ok (output, output_pos)
  | S count' =>
    op ← cmac_begin (Explicit key);
    op ← acc_update op (to_be_bytes 4 i);
    op ← acc_update op label;
    op ← acc_update op [u8_of 0];
    op ← update_chunks op chunks;
    op ← acc_update op net_order_l;
    data ← acc_finish op;
    let copy_len := Z.min (len data) (len output - output_pos) in
    src ← slice_to data copy_len;
    ckdf_loop count' (i + 1) key label chunks net_order_l
      (overwrite output output_pos src) (output_pos + copy_len)
  end.

Definition ckdf (key : OpaqueOr AesKey) (label : bytes) (chunks : list bytes) (out_len : Z)
    : Result bytes :=
  key ← explicit key;
  let blocks := as_u32 (div_ceil out_len AES_BLOCK_SIZE) in
  let l := as_u32 (out_len * 8) in
  let output := replicate (Z.to_nat out_len) (u8_of 0) in
  '(output, output_pos) ← ckdf_loop (Z.to_nat blocks) 1 key label chunks (to_be_bytes 4 l) output 0;
  _ ← reject_if (bool_decide (output_pos ≠ len output)) (Hal InvalidArgument);
  Ok output.
End ckdf.

(** ** HKDF computes the function of RFC 5869 *)

(** The HMAC implementation computes the function [h] in one shot, with 32-byte
    results. *)
Class HmacFn `{Hmac} (h : bytes → bytes → bytes) : Prop := {
  hmac_fn key data : hmac_sha256 key data = Ok (h key data);
  length_hmac_fn key data : length (h key data) = 32%nat
}.

(** The blocks T(i) of RFC 5869, section 2.3. *)
Fixpoint rfc5869_T (h : bytes → bytes → bytes) (prk info : bytes) (i : nat) : bytes :=
  match i with
  | O => []
  | S j => h prk (rfc5869_T h prk info j ++ info ++ [u8_of (Z.of_nat (S j))])
  end.
Definition rfc5869_OKM (h : bytes → bytes → bytes) (prk info : bytes) (out_len : Z) : bytes :=
  take (Z.to_nat out_len)
    (concat (map (rfc5869_T h prk info) (seq 1 (Z.to_nat (div_ceil out_len SHA256_DIGEST_LEN))))).

Lemma div_ceil_bounds a b : 0 < b → b * (div_ceil a b - 1) < a ≤ b * div_ceil a b.
Proof.
  intros Hb. unfold div_ceil. pose proof (Z.div_mod (a + b - 1) b).
  pose proof (Z.mod_pos_bound (a + b - 1) b). lia.
Qed.
Lemma div_ceil_nonneg a b : 0 < b → 0 ≤ a → 0 ≤ div_ceil a b.
Proof. intros ??. apply Z.div_pos; lia. Qed.

Section hkdf_spec.
Context `{HF : HmacFn h}.

Lemma expand_loop_spec count i prk info okm :
  expand_loop count (Z.of_nat i) prk info (rfc5869_T h prk info i) okm =
  Ok (okm ++ concat (map (rfc5869_T h prk info) (seq (S i) count))).
Proof.
  revert i okm. induction count as [|count IH]; intros i okm; cbn [expand_loop seq map concat].
  { by rewrite app_nil_r. }
  rewrite hmac_fn. cbn [mbind res_bind].
  replace (Z.of_nat i + 1) with (Z.of_nat (S i)) by lia.
  change (h prk (rfc5869_T h prk info i ++ info ++ [u8_of (Z.of_nat (S i))]))
    with (rfc5869_T h prk info (S i)).
  by rewrite IH, <- app_assoc.
Qed.

Lemma length_T_blocks prk info i n :
  length (concat (map (rfc5869_T h prk info) (seq (S i) n))) = (32 * n)%nat.
Proof.
  revert i. induction n as [|n IH]; intros i; cbn [seq map concat]; [done|].
  rewrite length_app, IH. cbn [rfc5869_T]. rewrite length_hmac_fn. lia.
Qed.

Lemma expand_Ok prk info out_len :
  0 ≤ out_len ≤ 255 * 32 →
  expand (Explicit prk) info out_len = Ok (rfc5869_OKM h prk info out_len) ∧
  len (rfc5869_OKM h prk info out_len) = out_len.
Proof.
  intros Hlen. pose proof (div_ceil_bounds out_len SHA256_DIGEST_LEN eq_refl) as Hb.
  pose proof (div_ceil_nonneg out_len SHA256_DIGEST_LEN eq_refl).
  unfold SHA256_DIGEST_LEN in *. split.
  - unfold expand, explicit. cbn [mbind res_bind].
    rewrite bool_decide_eq_false_2 by (unfold SHA256_DIGEST_LEN; lia). cbn [reject_if mbind res_bind].
    rewrite as_unsigned_id by (unfold is_unsigned, SHA256_DIGEST_LEN; lia).
    change (expand_loop (Z.to_nat (div_ceil out_len SHA256_DIGEST_LEN)) 0 prk info [] [])
      with (expand_loop (Z.to_nat (div_ceil out_len SHA256_DIGEST_LEN)) (Z.of_nat 0) prk info
              (rfc5869_T h prk info 0) []).
    by rewrite expand_loop_spec.
  - unfold rfc5869_OKM, len, SHA256_DIGEST_LEN. rewrite length_take, length_T_blocks. lia.
Qed.

Lemma expand_wraps prk info out_len :
  255 * 32 < out_len ≤ 256 * 32 → expand (Explicit prk) info out_len = Ok [].
Proof.
  intros Hlen. pose proof (div_ceil_bounds out_len SHA256_DIGEST_LEN eq_refl) as Hb.
  unfold SHA256_DIGEST_LEN in *. assert (div_ceil out_len 32 = 256) as Hn by lia.
  unfold expand, explicit, SHA256_DIGEST_LEN. cbn [mbind res_bind]. rewrite Hn.
  rewrite bool_decide_eq_false_2 by lia. change (as_unsigned 8 256) with 0.
  cbn [reject_if mbind res_bind Z.to_nat expand_loop].
  change (Z.to_nat 0) with O. cbn [expand_loop mbind res_bind]. f_equal. apply take_nil.
Qed.

(** C37: deriving up to 255 blocks with HKDF gives the output keying material RFC 5869
    defines, of exactly the length asked for; for a length that needs 256 blocks,
    which RFC 5869 forbids, the block counter wraps to zero and the derivation
    succeeds with an empty result. *)
Theorem hkdf_rfc5869 salt ikm info out_len :
  let prk := h (match salt with [] => replicate 32 (u8_of 0) | _ => salt end) ikm in
  (0 ≤ out_len ≤ 255 * 32 →
   hkdf salt ikm info out_len = Ok (rfc5869_OKM h prk info out_len) ∧
   len (rfc5869_OKM h prk info out_len) = out_len) ∧
  (255 * 32 < out_len ≤ 256 * 32 → hkdf salt ikm info out_len = Ok []).
Proof.
  intros prk. unfold hkdf. cbn [hkdf_extract hkdf_expand Hkdf_for_Hmac]. unfold extract.
  rewrite hmac_fn. cbn [mbind res_bind]. fold prk.
  split; intros Hlen; [by apply expand_Ok|by apply expand_wraps].
Qed.

(** Deriving an AES-256 key always succeeds. *)
Lemma hkdf_aes256_Ok salt ikm info :
  ∃ k, hkdf_aes salt ikm info Aes256 = Ok (Explicit (AesKey256 k)) ∧ length k = 32%nat.
Proof.
  unfold hkdf_aes, hkdf. cbn [hkdf_extract hkdf_expand Hkdf_for_Hmac AesVariant_key_size].
  unfold extract. rewrite hmac_fn. cbn [mbind res_bind].
  edestruct (expand_Ok (h (match salt with [] => HKDF_EMPTY_SALT | _ => salt end) ikm) info 32)
    as [-> Hl]; [lia|].
  revert Hl. generalize (rfc5869_OKM h (h (match salt with [] => HKDF_EMPTY_SALT | _ => salt end) ikm) info 32).
  intros okm Hl. cbn [mbind res_bind]. unfold AesKey_new. rewrite Hl. cbn. exists okm.
  split; [done|]. unfold len in Hl. lia.
Qed.
End hkdf_spec.

(** A toy MAC: absorbs data and answers with its first 32 bytes, padded. *)
#[local] Instance toy_acc : AccumulatingOperation := {|
  acc_op := bytes;
  acc_max_input_size := λ _, None;
  acc_update := λ op data, Ok (op ++ data);
  acc_finish := λ op, Ok (take 32 (op ++ replicate 32 (u8_of 0)))
|}.
#[local] Instance toy_hmac : Hmac := {| hmac_begin := λ _ _, Ok [] |}.
#[local] Instance toy_hmac_fn : HmacFn (λ _ data, take 32 (data ++ replicate 32 (u8_of 0))).
Proof. split; [done|]. intros _ data. rewrite length_take, length_app, length_replicate. lia. Qed.

Lemma hkdf_rfc5869_witness :
  hkdf [] (bytes_of_string "ikm") (bytes_of_string "info") 8160 =
    Ok (rfc5869_OKM (λ _ data, take 32 (data ++ replicate 32 (u8_of 0)))
          (take 32 (bytes_of_string "ikm" ++ replicate 32 (u8_of 0))) (bytes_of_string "info") 8160) ∧
  hkdf [] (bytes_of_string "ikm") (bytes_of_string "info") 8161 = Ok [].
Proof.
  split.
  - apply (proj1 (hkdf_rfc5869 (HF := toy_hmac_fn) [] (bytes_of_string "ikm") (bytes_of_string "info") 8160)).
    lia.
  - apply (proj2 (hkdf_rfc5869 (HF := toy_hmac_fn) [] (bytes_of_string "ikm") (bytes_of_string "info") 8161)).
    lia.
Defined.

(** ** Operations fed in pieces *)

(** HMAC with each digest computes a function of the key and everything absorbed, as long as the
    digest. *)
Class HmacRuns `{Hmac} (h : Digest → bytes → bytes → bytes) : Prop := {
  hmac_run key digest bits chunks : digest_len digest = Ok bits →
    (op ← hmac_begin (Explicit key) digest; op ← update_chunks op chunks; acc_finish op) =
    Ok (h digest key (concat chunks));
  length_hmac_run key digest bits data : digest_len digest = Ok bits → 8 * len (h digest key data) = bits
}.

(** Operations with additional data. *)
Section runs.
Context `{A : Aes}.
Fixpoint feed_aad (op : aad_op) (aads : list bytes) : Result aad_op :=
  match aads with [] => Ok op | aad :: aads' => op ← aad_update_aad op aad; feed_aad op aads' end.
Fixpoint feed (op : aad_op) (chunks : list bytes) : Result (bytes * aad_op) :=
  match chunks with
  | [] => Ok ([], op)
  | data :: chunks' => '(o, op) ← aad_update op data; '(os, op) ← feed op chunks'; Ok (o ++ os, op)
  end.
Definition aead_run (key : OpaqueOr AesKey) (mode : GcmMode) (dir : SymmetricOperation)
    (aads chunks : list bytes) : Result bytes :=
  op ← aes_begin_aead key mode dir;
  op ← feed_aad op aads;
  '(o, op) ← feed op chunks;
  rest ← aad_finish op;
  Ok (o ++ rest).

Lemma feed_app chunks chunks' : ∀ op : aad_op,
  feed op (chunks ++ chunks') = '(o, op) ← feed op chunks; '(os, op) ← feed op chunks'; Ok (o ++ os, op).
Proof.
  induction chunks as [|data chunks IH]; intros op; cbn [feed app].
  { cbn [mbind res_bind]. by destruct (feed op chunks') as [[]| |]. }
  destruct (aad_update op data) as [[o op1]| |]; cbn [mbind res_bind]; [|done..]. rewrite IH.
  destruct (feed op1 chunks) as [[o1 op2]| |]; cbn [mbind res_bind]; [|done..].
  destruct (feed op2 chunks') as [[o2 op3]| |]; cbn [mbind res_bind]; [|done..]. by rewrite (assoc_L (++)).
Qed.

(** Authenticated encryption as functions of the whole: an operation computes them however
    additional data and input are cut, if it takes so much ([accepts]); what is sealed can be
    opened, and nothing else. *)
Class AeadRuns (sealf : AesKey → GcmMode → bytes → bytes → bytes)
    (openf : AesKey → GcmMode → bytes → bytes → Result bytes)
    (accepts : SymmetricOperation → AesKey → GcmMode → list bytes → Z → bool) : Prop := {
  aead_run_seal key mode aads chunks : accepts Encrypt key mode aads (len (concat chunks)) = true →
    aead_run (Explicit key) mode Encrypt aads chunks = Ok (sealf key mode (concat aads) (concat chunks));
  aead_run_open key mode aads chunks : accepts Decrypt key mode aads (len (concat chunks)) = true →
    aead_run (Explicit key) mode Decrypt aads chunks = openf key mode (concat aads) (concat chunks);
  open_sealed key mode aad pt : openf key mode aad (sealf key mode aad pt) = Ok pt;
  open_authentic key mode aad data pt : openf key mode aad data = Ok pt → data = sealf key mode aad pt
}.
End runs.

(** ** CKDF computes the counter-mode function of NIST SP 800-108 *)

(** The CMAC implementation computes the function [c] of everything absorbed,
    however it is cut into pieces, with 16-byte results. *)
Class CmacFn `{AesCmac} (c : AesKey → bytes → bytes) : Prop := {
  cmac_fn key chunks : AesKey_wf key →
    (op ← cmac_begin (Explicit key); op ← update_chunks op chunks; acc_finish op) =
    Ok (c key (concat chunks));
  length_cmac_fn key data : length (c key data) = 16%nat
}.

Definition sp800_108_block (c : AesKey → bytes → bytes) (key : AesKey) (label context : bytes)
    (l i : Z) : bytes :=
  c key (to_be_bytes 4 i ++ label ++ [u8_of 0] ++ context ++ to_be_bytes 4 l).
(** Blocks [i], [i + 1], ..., [n] of them. *)
Fixpoint sp800_108_blocks (c : AesKey → bytes → bytes) (key : AesKey) (label context : bytes)
    (l i : Z) (n : nat) : bytes :=
  match n with
  | O => []
  | S n' => sp800_108_block c key label context l i ++
            sp800_108_blocks c key label context l (i + 1) n'
  end.

Section ckdf_spec.
Context `{CF : CmacFn c}.

Lemma update_chunks_app op l1 l2 :
  update_chunks op (l1 ++ l2) = op' ← update_chunks op l1; update_chunks op' l2.
Proof.
  revert op. induction l1 as [|ch l1 IH]; intros op; cbn; [done|].
  destruct (acc_update op ch); cbn; [apply IH|done..].
Qed.

Lemma ckdf_block key label chunks l i (k : bytes → Result (bytes * Z)) : AesKey_wf key →
  (op ← cmac_begin (Explicit key);
   op ← acc_update op (to_be_bytes 4 i);
   op ← acc_update op label;
   op ← acc_update op [u8_of 0];
   op ← update_chunks op chunks;
   op ← acc_update op (to_be_bytes 4 l);
   data ← acc_finish op;
   k data) = k (sp800_108_block c key label (concat chunks) l i).
Proof.
  intros Hk. pose proof (cmac_fn key ([to_be_bytes 4 i; label; [u8_of 0]] ++ chunks ++ [to_be_bytes 4 l]) Hk) as Hf.
  rewrite !concat_app in Hf. cbn [concat] in Hf. rewrite app_nil_r, <- !app_assoc in Hf.
  unfold sp800_108_block. cbn [app] in *.
  destruct (cmac_begin (Explicit key)) as [op| |]; cbn [mbind res_bind] in *; [|done..].
  cbn [update_chunks mbind res_bind] in Hf.
  destruct (acc_update op (to_be_bytes 4 i)) as [op1| |]; cbn [mbind res_bind] in *; [|done..].
  destruct (acc_update op1 label) as [op2| |]; cbn [mbind res_bind] in *; [|done..].
  destruct (acc_update op2 _) as [op3| |]; cbn [mbind res_bind] in *; [|done..].
  rewrite update_chunks_app in Hf.
  destruct (update_chunks op3 chunks) as [op4| |]; cbn [mbind res_bind update_chunks] in *; [|done..].
  destruct (acc_update op4 _) as [op5| |]; cbn [mbind res_bind] in *; [|done..].
  rewrite Hf. done.
Qed.

Lemma length_sp800_108_block key label ctx l i :
  length (sp800_108_block c key label ctx l i) = 16%nat.
Proof. unfold sp800_108_block. apply (length_cmac_fn (c := c)). Qed.

Lemma ckdf_loop_spec count i key label chunks l pre r : AesKey_wf key →
  ckdf_loop count i key label chunks (to_be_bytes 4 l) (pre ++ replicate r (u8_of 0)) (len pre) =
  Ok (pre ++ take r (sp800_108_blocks c key label (concat chunks) l i count) ++
        replicate (r - 16 * count) (u8_of 0),
      len pre + Z.of_nat (Nat.min r (16 * count))).
Proof.
  intros Hk. revert i pre r. induction count as [|count IH]; intros i pre r; cbn [ckdf_loop sp800_108_blocks].
  { rewrite take_nil, Nat.sub_0_r, Nat.min_0_r. cbn [app]. repeat f_equal. lia. }
  rewrite ckdf_block by done. set (b := sp800_108_block c key label (concat chunks) l i).
  assert (length b = 16%nat) as Hb by apply length_sp800_108_block.
  set (m := Nat.min 16 r).
  assert (Z.min (len b) (len (pre ++ replicate r (u8_of 0)) - len pre) = Z.of_nat m) as ->.
  { rewrite len_app. unfold len. rewrite Hb, length_replicate. lia. }
  unfold slice_to. rewrite decide_True by (unfold len; lia). cbn [mbind res_bind].
  rewrite Nat2Z.id.
  assert (length (take m b) = m) as Hm by (rewrite length_take; lia).
  replace (replicate r (u8_of 0)) with (replicate m (u8_of 0) ++ replicate (r - m) (u8_of 0))
    by (rewrite <- replicate_add; f_equal; lia).
  rewrite overwrite_app by (by rewrite length_replicate).
  replace (len pre + Z.of_nat m) with (len (pre ++ take m b)) by (rewrite len_app; unfold len; lia).
  rewrite app_assoc, IH, <- !app_assoc. f_equal. f_equal.
  - rewrite take_app, Hb, <- !app_assoc. f_equal. f_equal.
    { unfold m. destruct (decide (16 ≤ r)%nat); [rewrite !take_ge by lia|rewrite Nat.min_r by lia]; done. }
    f_equal; [|f_equal; lia]. f_equal. lia.
  - rewrite len_app. unfold len. rewrite Hm. lia.
Qed.

Lemma ckdf_Ok key label chunks out_len :
  AesKey_wf key → 0 ≤ out_len → out_len * 8 < 2 ^ 32 →
  ckdf (Explicit key) label chunks out_len =
  Ok (take (Z.to_nat out_len)
        (sp800_108_blocks c key label (concat chunks) (out_len * 8) 1
           (Z.to_nat (div_ceil out_len AES_BLOCK_SIZE)))).
Proof.
  intros Hk Hpos Hl. unfold ckdf, explicit. cbn [mbind res_bind].
  pose proof (div_ceil_bounds out_len AES_BLOCK_SIZE eq_refl) as Hb.
  pose proof (div_ceil_nonneg out_len AES_BLOCK_SIZE eq_refl Hpos).
  unfold AES_BLOCK_SIZE in *.
  rewrite !as_unsigned_id by range_lia.
  pose proof (ckdf_loop_spec (Z.to_nat (div_ceil out_len 16)) 1 key label chunks (out_len * 8) []
                (Z.to_nat out_len) Hk) as Hs.
  change (len []) with 0 in Hs. cbn [app] in Hs. rewrite Hs. cbn [mbind res_bind].
  rewrite (proj2 (Nat.sub_0_le _ _)) by lia. cbn [replicate]. rewrite app_nil_r.
  set (out := take _ _). assert (len out = out_len) as Ho.
  { unfold out, len. rewrite length_take.
    assert (∀ n i, length (sp800_108_blocks c key label (concat chunks) (out_len * 8) i n) = (16 * n)%nat)
      as ->; [|lia].
    intros n. induction n as [|n IH]; intros i; cbn [sp800_108_blocks]; [done|].
    rewrite length_app, IH, length_sp800_108_block. lia. }
  rewrite bool_decide_eq_false_2; [done|]. rewrite Ho. lia.
Qed.

(** For every output length below half a gigabyte, CKDF succeeds with the
    counter-mode output of NIST SP 800-108: the CMACs of counter, label, zero byte,
    context and length in bits, concatenated and cut to the length asked for. *)
Theorem ckdf_sp800_108 key label chunks out_len :
  AesKey_wf key → 0 ≤ out_len → out_len * 8 < 2 ^ 32 →
  ckdf (Explicit key) label chunks out_len =
  Ok (take (Z.to_nat out_len)
        (sp800_108_blocks c key label (concat chunks) (out_len * 8) 1
           (Z.to_nat (div_ceil out_len AES_BLOCK_SIZE)))).
Proof. apply ckdf_Ok. Qed.
End ckdf_spec.

#[local] Instance toy_cmac_acc : AccumulatingOperation := {|
  acc_op := bytes;
  acc_max_input_size := λ _, None;
  acc_update := λ op data, Ok (op ++ data);
  acc_finish := λ op, Ok (take 16 (op ++ replicate 16 (u8_of 0)))
|}.
#[local] Instance toy_cmac : AesCmac (H := toy_cmac_acc) := {| cmac_begin := λ _, Ok [] |}.
#[local] Instance toy_cmac_fn :
  CmacFn (H0 := toy_cmac) (λ _ data, take 16 (data ++ replicate 16 (u8_of 0))).
Proof.
  split.
  - intros key chunks _. cbn [cmac_begin toy_cmac mbind res_bind].
    assert (∀ op, update_chunks (H := toy_cmac_acc) op chunks = Ok (op ++ concat chunks)) as Hu.
    { induction chunks as [|ch chunks IH]; intros op; cbn; [by rewrite app_nil_r|].
      rewrite IH, <- app_assoc. done. }
    rewrite (Hu []). done.
  - intros _ data. rewrite length_take, length_app, length_replicate. lia.
Qed.

Lemma ckdf_sp800_108_witness :
  ckdf (C := toy_cmac) (Explicit (AesKey128 (replicate 16 (u8_of 7)))) (bytes_of_string "KeyblobMasterKey") [[u8_of 1]; [u8_of 2]] 40 =
  Ok (take 40 (sp800_108_blocks (λ _ data, take 16 (data ++ replicate 16 (u8_of 0))) (AesKey128 (replicate 16 (u8_of 7)))
                 (bytes_of_string "KeyblobMasterKey") [u8_of 1; u8_of 2] 320 1 3)).
Proof. apply (ckdf_sp800_108 (CF := toy_cmac_fn) _ _ [[u8_of 1]; [u8_of 2]] 40); [reflexivity|lia|lia]. Defined.

(** ** Operations that pass the policy check have a cipher mode *)

(** The nonce a mode carries. *)
Definition AesMode_nonce (m : AesMode) : option bytes :=
  match m with
  | Cipher (CbcNoPadding n) | Cipher (CbcPkcs7Padding n) | Cipher (Ctr n)
  | Aead (GcmTag12 n) | Aead (GcmTag13 n) | Aead (GcmTag14 n) | Aead (GcmTag15 n)
  | Aead (GcmTag16 n) => Some n
  | Cipher EcbNoPadding | Cipher EcbPkcs7Padding => None
  end.
Definition AesMode_tag_bits (m : AesMode) : option Z :=
  match m with Aead g => Some (8 * GcmMode_tag_len g) | Cipher _ => None end.

Section mode_spec.
Context `{R : Rng}.

Lemma stM_bind_eq {S E A B} (c : stM S E A) (f : A → stM S E B) s a s' :
  c s = (Ok a, s') → (c ≫= f) s = f a s'.
Proof. unfold mbind, stM_bind. by intros ->. Qed.

(** A nonce of the right length is used as it is; without one, random bytes are. *)
Lemma nonce_array_Ok size cn s :
  0 ≤ size → (∀ n, cn = Some n → len n = size) →
  ∃ n s', nonce_array size cn s = (Ok n, s') ∧ len n = size ∧ (∀ n', cn = Some n' → n = n').
Proof.
  intros Hs Hn. unfold nonce_array, nonce. destruct cn as [n|].
  - specialize (Hn n eq_refl). exists n, s.
    unfold mbind, stM_bind, liftr. rewrite !decide_True by done. naive_solver.
  - destruct (fill_bytes (Z.to_nat size) s) as [b s'] eqn:Hf. exists b, s'.
    pose proof (length_fill_bytes (Z.to_nat size) s) as Hl. rewrite Hf in Hl. cbn in Hl.
    assert (len b = size) as Hb by (unfold len; lia).
    rewrite (stM_bind_eq _ _ s b s') by (unfold random_bytes; by rewrite Hf).
    unfold liftr. rewrite decide_True by done. naive_solver.
Qed.

Lemma gcm_tag_Ok tag_len n :
  96 ≤ tag_len ≤ 128 → tag_len mod 8 = 0 →
  ∃ g, match tag_len / 8 with
       | 12 => Ok (Aead (GcmTag12 n)) | 13 => Ok (Aead (GcmTag13 n)) | 14 => Ok (Aead (GcmTag14 n))
       | 15 => Ok (Aead (GcmTag15 n)) | 16 => Ok (Aead (GcmTag16 n)) | _ => km_err InvalidMacLength
       end = Ok (Aead g) ∧ AesMode_nonce (Aead g) = Some n ∧ 8 * GcmMode_tag_len g = tag_len.
Proof.
  intros Hr Hm. assert (tag_len = 8 * (tag_len / 8)) as Ht by (apply Z_div_exact_2; lia).
  assert (tag_len / 8 ∈ [12; 13; 14; 15; 16]) as Hin.
  { rewrite !elem_of_cons. assert (12 ≤ tag_len / 8 ≤ 16) by lia. lia. }
  repeat (apply elem_of_cons in Hin as [Hin|Hin]; [rewrite Hin in *; eauto|]).
  by apply elem_of_nil in Hin.
Qed.

Lemma AesMode_new_Ok params cn s m pad :
  omap as_BlockMode params = [m] → omap as_Padding params = [pad] →
  (pad = PaddingMode_None ∨ (pad = PaddingMode_Pkcs7 ∧ m ∈ [BlockMode_Ecb; BlockMode_Cbc])) →
  (m = BlockMode_Gcm → ∃ mac, omap as_MacLength params = [mac] ∧ 96 ≤ mac ≤ 128 ∧ mac mod 8 = 0) →
  (∀ n, cn = Some n → m ≠ BlockMode_Ecb ∧ len n = if decide (m = BlockMode_Gcm) then 12 else 16) →
  ∃ mode s', AesMode_new params cn s = (Ok mode, s') ∧
    (∀ n, cn = Some n → AesMode_nonce mode = Some n) ∧
    (m = BlockMode_Gcm → option_list (AesMode_tag_bits mode) = omap as_MacLength params).
Proof.
  intros Hm Hpad Hfit Hgcm Hn. unfold AesMode_new.
  rewrite (stM_bind_eq _ _ s m s) by (unfold liftr, get_block_mode; by rewrite get_tag_value_spec, Hm).
  rewrite (stM_bind_eq _ _ s pad s) by (unfold liftr, get_padding_mode; by rewrite get_tag_value_spec, Hpad).
  destruct m.
  - (* ECB *)
    destruct cn as [n|]; [by destruct (Hn n eq_refl)|].
    destruct Hfit as [->|[-> _]]; eexists _, s; split_and!; done.
  - (* CBC *)
    destruct (nonce_array_Ok AES_BLOCK_SIZE cn s) as (n & s' & Hna & _ & Hsame);
      [done|intros n ?; by apply Hn|].
    rewrite (stM_bind_eq _ _ s n s') by done.
    destruct Hfit as [->|[-> _]]; eexists _, s'; (split_and!; [done| |done]);
      intros n' ->; cbn; by rewrite (Hsame n' eq_refl).
  - (* CTR *)
    destruct Hfit as [->|[_ ?]]; [|set_solver]. rewrite (stM_bind_eq _ _ s () s) by done.
    destruct (nonce_array_Ok AES_BLOCK_SIZE cn s) as (n & s' & Hna & _ & Hsame);
      [done|intros n ?; by apply Hn|].
    rewrite (stM_bind_eq _ _ s n s') by done. eexists _, s'. split_and!; [done| |done].
    intros n' ->; cbn; by rewrite (Hsame n' eq_refl).
  - (* GCM *)
    destruct Hfit as [->|[_ ?]]; [|set_solver]. rewrite (stM_bind_eq _ _ s () s) by done.
    destruct (nonce_array_Ok GCM_NONCE_SIZE cn s) as (n & s' & Hna & _ & Hsame);
      [done|intros n ?; by apply Hn|].
    rewrite (stM_bind_eq _ _ s n s') by done.
    destruct (Hgcm eq_refl) as (mac & Hmac & Hr & H8).
    rewrite (stM_bind_eq _ _ s' mac s') by (unfold liftr; by rewrite get_tag_value_spec, Hmac).
    rewrite (stM_bind_eq _ _ s' () s')
      by (unfold liftr; rewrite bool_decide_eq_false_2 by lia; done).
    destruct (gcm_tag_Ok mac n Hr H8) as (g & Hg & Hgn & Hgt).
    exists (Aead g), s'. unfold liftr. rewrite Hg. split_and!; [done| |].
    + intros n' ->. by rewrite Hgn, (Hsame n' eq_refl).
    + intros _. cbn [AesMode_tag_bits option_list]. by rewrite Hmac, Hgt.
Qed.

(** An AES operation that passes the policy check, with a key whose minimum MAC
    length is one that key creation accepts, always gets a cipher mode; the mode
    uses the caller's nonce if there is one and, for GCM, exactly the tag length the
    caller asked for. *)
Theorem aes_mode_after_check chars purpose params nonce s :
  omap as_Algorithm chars = [Algorithm_Aes] →
  Forall (λ min, 96 ≤ min) (omap as_MinMacLength chars) →
  omap as_Nonce params = option_list nonce →
  check_begin_params chars purpose params = Ok tt →
  ∃ mode s', AesMode_new params nonce s = (Ok mode, s') ∧
    (∀ n, nonce = Some n → AesMode_nonce mode = Some n) ∧
    (KP_BlockMode BlockMode_Gcm ∈ params →
     option_list (AesMode_tag_bits mode) = omap as_MacLength params).
Proof.
  intros Haes Hmin Hnonce (m & pad & Hm & Hpad & _ & _ & Hfit & Hgcm & Hn)%check_begin_aes_facts; [|done].
  assert (∀ n, nonce = Some n → KP_Nonce n ∈ params) as Hin.
  { intros n ->. apply (sel_omap as_Nonce KP_Nonce Tag_Nonce). rewrite Hnonce. by left. }
  destruct (AesMode_new_Ok params nonce s m pad) as (mode & s' & H1 & H2 & H3); [done..| | |].
  - intros ->. destruct (Hgcm eq_refl) as (mac & min & Hmac & Hmin' & Hle & H8).
    rewrite Hmin' in Hmin. apply Forall_cons in Hmin as [Hmin _]. exists mac. split_and!; [done|lia..].
  - intros n ?. apply Hn. by apply Hin.
  - exists mode, s'. split_and!; [done..|]. intros Hg. apply H3.
    apply (sel_omap as_BlockMode KP_BlockMode Tag_BlockMode) in Hg. rewrite Hm in Hg.
    by apply list_elem_of_singleton in Hg.
Qed.

(** The default generators of symmetric keys give a key of exactly the kind and
    size that was asked for. *)
Theorem generate_key_size s s' k params :
  (∀ v, Aes_generate_key_default v params s = (Ok k, s') →
        symmetric_size k = Some (gen_size (Gen_Aes v))) ∧
  (Des_generate_key_default params s = (Ok k, s') →
   symmetric_size k = Some (gen_size Gen_TripleDes)) ∧
  (∀ n, Hmac_generate_key_default n params s = (Ok k, s') →
        symmetric_size k = Some (gen_size (Gen_Hmac n))).
Proof.
  split_and!.
  - intros v (key & s1 & _ & [= <- _])%stM_bind_Ok. by destruct v.
  - intros (key & s1 & _ & (d & s2 & _ & [= <- _])%stM_bind_Ok)%stM_bind_Ok. done.
  - intros n (u & s1 & Hv & (key & s2 & Hk & [= <- _])%stM_bind_Ok)%stM_bind_Ok.
    injection Hv as Hv _. apply valid_size_Ok in Hv as [H8 Hr].
    unfold MIN_KEY_SIZE_BITS, MAX_KEY_SIZE_BITS in Hr.
    unfold random_bytes in Hk. destruct (fill_bytes _ s1) as [b s3] eqn:Hf. injection Hk as <- <-.
    pose proof (length_fill_bytes (Z.to_nat (n / 8)) s1) as Hl. rewrite Hf in Hl. cbn in Hl.
    cbn [symmetric_size gen_size]. unfold HmacKey_size, len. rewrite Hl. f_equal.
    assert (n = 8 * (n / 8)) by (apply Z_div_exact_2; lia).
    rewrite as_unsigned_id; range_lia.
Qed.
End mode_spec.

(** A predictable source of bytes. *)
Definition counter_rng : Rng.
Proof.
  refine {| rng_state := Z; add_entropy := λ _ s, s;
            fill_bytes := λ n s, (replicate n (u8_of s), s + 1) |}.
  intros n s. apply length_replicate.
Defined.

Lemma aes_mode_after_check_witness :
  ∃ mode s', AesMode_new (R := counter_rng) gcm_params (Some (replicate 12 (u8_of 1))) 0 = (Ok mode, s') ∧
    (∀ n, Some (replicate 12 (u8_of 1)) = Some n → AesMode_nonce mode = Some n) ∧
    (KP_BlockMode BlockMode_Gcm ∈ gcm_params →
     option_list (AesMode_tag_bits mode) = omap as_MacLength gcm_params).
Proof.
  apply (aes_mode_after_check (R := counter_rng) gcm_chars KeyPurpose_Encrypt).
  - reflexivity.
  - cbn. constructor; [lia|constructor].
  - reflexivity.
  - vm_compute. reflexivity.
Defined.

Lemma generate_key_size_witness :
  symmetric_size (KM_Aes (Explicit (AesKey192 (replicate 24 (u8_of 7))))) =
    Some (gen_size (Gen_Aes Aes192)) ∧
  symmetric_size (KM_Hmac (Explicit (replicate 8 (u8_of 7)))) = Some (gen_size (Gen_Hmac 64)).
Proof.
  split.
  - apply (proj1 (generate_key_size (R := counter_rng) 7 8 _ []) Aes192). reflexivity.
  - apply (proj2 (proj2 (generate_key_size (R := counter_rng) 7 8 _ [])) 64). vm_compute. reflexivity.
Defined.

(** ** Debug output of keys *)

Definition EcCurve_fmt (c : EcCurve) : string :=
  match c with
  | EcCurve_P224 => "P224" | EcCurve_P256 => "P256" | EcCurve_P384 => "P384" | EcCurve_P521 => "P521"
  | EcCurve_Curve25519 => "Curve25519"
  end.
Definition KeyMaterial_fmt (k : KeyMaterial) : string :=
  match k with
  | KM_Aes (Explicit (AesKey128 _)) => "Aes128(...)"
  | KM_Aes (Explicit (AesKey192 _)) => "Aes192(...)"
  | KM_Aes (Explicit (AesKey256 _)) => "Aes256(...)"
  | KM_Aes (Opaque _) => "Aes(opaque)"
  | KM_TripleDes _ => "TripleDes(...)"
  | KM_Hmac _ => "Hmac(...)"
  | KM_Rsa _ => "Rsa(...)"
  | KM_Ec c _ _ => String.concat EmptyString ["Ec("; EcCurve_fmt c; ", ...)"]
  end.
(** Nothing of a key but its kind, and for elliptic curves the curve, can be printed. *)
Lemma key_material_not_printed k :
  KeyMaterial_fmt k ∈ ["Aes128(...)"; "Aes192(...)"; "Aes256(...)"; "Aes(opaque)"; "TripleDes(...)"; "Hmac(...)";
    "Rsa(...)"; "Ec(P224, ...)"; "Ec(P256, ...)"; "Ec(P384, ...)"; "Ec(P521, ...)"; "Ec(Curve25519, ...)"]%string.
Proof. destruct k as [[[]|]| | | |[] ? ?]; decide_compute. Qed.
