(* ===== verification/Errors.v ===== *)
(** * Errors and fallible allocation ([wire/src/lib.rs], [common/src/lib.rs])

    The conversions between error types, and the functions that build vectors and report
    the failure of an allocation as an error instead of aborting.  Whether memory can be
    reserved is a parameter; the rest of the development takes it to succeed, which is
    justified here: what these functions then build is what the standard ones do. *)

From S2P Require Import Prelude Wire.

(** ** Conversions between error types *)

(** [coset::CoseError], with the cause of a decoding failure left out as in [CborError]. *)
Inductive CoseError : Set :=
| Cose_DecodeFailed | Cose_DuplicateMapKey | Cose_EncodeFailed | Cose_ExtraneousData
| Cose_OutOfRangeIntegerValue | Cose_UnexpectedItem (got want : string)
| Cose_UnregisteredIanaValue | Cose_UnregisteredIanaNonPrivateValue.

Definition cbor_into_cose (e : CborError) : CoseError :=
  match e with
  | DecodeFailed => Cose_DecodeFailed
  | EncodeFailed => Cose_EncodeFailed
  | ExtraneousData => Cose_ExtraneousData
  | OutOfRangeIntegerValue => Cose_OutOfRangeIntegerValue
  | NonEnumValue => Cose_OutOfRangeIntegerValue
  | UnexpectedItem got want => Cose_UnexpectedItem got want
  | InvalidValue => Cose_EncodeFailed
  | AllocationFailed => Cose_EncodeFailed
  end.
Definition cbor_from_cose (e : CoseError) : CborError :=
  match e with
  | Cose_DecodeFailed => DecodeFailed
  | Cose_EncodeFailed => EncodeFailed
  | Cose_ExtraneousData => ExtraneousData
  | Cose_OutOfRangeIntegerValue => OutOfRangeIntegerValue
  | Cose_UnregisteredIanaValue => NonEnumValue
  | Cose_UnregisteredIanaNonPrivateValue => NonEnumValue
  | Cose_UnexpectedItem got want => UnexpectedItem got want
  | Cose_DuplicateMapKey => UnexpectedItem "dup map key" "unique keys"
  end.

(** Errors of [ciborium] and of integer conversions; the causes are not kept. *)
Definition cbor_from_de {T} (e : T) : CborError := DecodeFailed.
Definition cbor_from_ser {T} (e : T) : CborError := EncodeFailed.
Definition cbor_from_value {T} (e : T) : CborError := InvalidValue.
Definition cbor_from_int {T} (e : T) : CborError := OutOfRangeIntegerValue.

Definition error_from_reserve {T} (e : T) : Error := Hal MemoryAllocationFailed.
Definition error_from_cbor (e : CborError) : Error := Cbor e.
Definition error_from_value {T} (e : T) : Error := Cbor (cbor_from_value e).

(** ** Fallible allocation *)

Class Allocator := { try_reserve : Z → bool }.

Section alloc.
Context `{Allocator} {T E : Type}.

Definition vec_try_fill_with_alloc_err (elem : T) (len : Z) (alloc_err : E) : res E (list T) :=
  if try_reserve len then Ok (replicate (Z.to_nat len) elem) else Err alloc_err.
Definition vec_try4_with_alloc_err (x1 x2 x3 x4 : T) (alloc_err : E) : res E (list T) :=
  if try_reserve 4 then Ok [x1; x2; x3; x4] else Err alloc_err.
Definition vec_try3_with_alloc_err (x1 x2 x3 : T) (alloc_err : E) : res E (list T) :=
  if try_reserve 3 then Ok [x1; x2; x3] else Err alloc_err.
Definition vec_try2_with_alloc_err (x1 x2 : T) (alloc_err : E) : res E (list T) :=
  if try_reserve 2 then Ok [x1; x2] else Err alloc_err.
Definition vec_try1_with_alloc_err (x1 : T) (alloc_err : E) : res E (list T) :=
  if try_reserve 1 then Ok [x1] else Err alloc_err.
End alloc.

Section errors.
Context `{Allocator} {T : Type}.

(** The reserved vector is empty. *)
Definition vec_try_with_capacity (len : Z) : Result (list T) :=
  if try_reserve len then Ok [] else Err Alloc.
Definition try_to_vec (s : list T) : Result (list T) :=
  v ← vec_try_with_capacity (len s);
  Ok (v ++ s).

(** The extensions of [Vec], which leave the vector alone if they fail. *)
Definition try_push (value : T) : stM (list T) unit unit := λ v,
  if try_reserve 1 then (Ok tt, v ++ [value]) else (Err tt, v).
Definition try_extend_from_slice (other : list T) : stM (list T) unit unit := λ v,
  if try_reserve (len other) then (Ok tt, v ++ other) else (Err tt, v).
End errors.

(** The two [vec_try!] macros differ in the error. *)
Definition cbor_vec_try `{Allocator} {T} (xs : list T) : res CborError (list T) :=
  match xs with
  | [x1] => vec_try1_with_alloc_err x1 AllocationFailed
  | [x1; x2] => vec_try2_with_alloc_err x1 x2 AllocationFailed
  | [x1; x2; x3] => vec_try3_with_alloc_err x1 x2 x3 AllocationFailed
  | [x1; x2; x3; x4] => vec_try4_with_alloc_err x1 x2 x3 x4 AllocationFailed
  | _ => Panic (* does not compile *)
  end.
Definition vec_try `{Allocator} {T} (xs : list T) : Result (list T) :=
  match xs with
  | [x1] => vec_try1_with_alloc_err x1 Alloc
  | [x1; x2] => vec_try2_with_alloc_err x1 x2 Alloc
  | [x1; x2; x3] => vec_try3_with_alloc_err x1 x2 x3 Alloc
  | [x1; x2; x3; x4] => vec_try4_with_alloc_err x1 x2 x3 x4 Alloc
  | _ => Panic (* does not compile *)
  end.

(** ** Properties *)

(** Converting an error to that of [coset] and back loses the difference between an
    unknown enum value and one out of range, and between failures to encode; the other
    way round, the errors about registered values and duplicate keys. *)
Theorem cose_error_roundtrip :
  (∀ e, cbor_from_cose (cbor_into_cose e) = e ↔ e ∉ [NonEnumValue; InvalidValue; AllocationFailed]) ∧
  (∀ e, cbor_into_cose (cbor_from_cose e) = e ↔
        e ∉ [Cose_DuplicateMapKey; Cose_UnregisteredIanaValue; Cose_UnregisteredIanaNonPrivateValue]).
Proof.
  split; intros []; cbn; (split; [intros He Hin|intros Hn; try done; exfalso; apply Hn; set_solver]);
    repeat (apply elem_of_cons in Hin as [Hin|Hin]; [congruence|]); by apply elem_of_nil in Hin.
Qed.

(** Building vectors either gives what was asked for or the error, whatever the allocator
    does, and a failed extension leaves the vector as it was. *)
Theorem allocation_all_or_nothing `{Allocator} {T} (xs s v : list T) (elem x : T) (n : Z) :
  (1 ≤ length xs ≤ 4)%nat → 0 ≤ n →
  vec_try xs = (if try_reserve (len xs) then Ok xs else Err Alloc) ∧
  cbor_vec_try xs = (if try_reserve (len xs) then Ok xs else Err AllocationFailed) ∧
  try_to_vec s = (if try_reserve (len s) then Ok s else Err Alloc) ∧
  (∀ r, vec_try_fill_with_alloc_err elem n Alloc = Ok r → len r = n ∧ Forall (λ y, y = elem) r) ∧
  (∀ e v', try_push x v = (Err e, v') ∨ try_extend_from_slice s v = (Err e, v') → v' = v).
Proof.
  intros Hl Hn. split_and!.
  - destruct xs as [|? [|? [|? [|? []]]]]; cbn in Hl; by (reflexivity || lia).
  - destruct xs as [|? [|? [|? [|? []]]]]; cbn in Hl; by (reflexivity || lia).
  - unfold try_to_vec, vec_try_with_capacity. by case_match.
  - unfold vec_try_fill_with_alloc_err. intros r. case_match; [|done]. intros [= <-].
    split; [|by apply Forall_replicate]. unfold len. rewrite length_replicate. lia.
  - unfold try_push, try_extend_from_slice. intros e v'. repeat case_match; naive_solver.
Qed.
Lemma allocation_all_or_nothing_witness :
  vec_try (H := {| try_reserve n := n <? 3 |}) [1; 2; 3] = Err Alloc.
Proof.
  apply (allocation_all_or_nothing (H := {| try_reserve n := n <? 3 |}) [1; 2; 3] [] [] 0 0 0); cbn; lia.
Defined.
