(* ===== verification/Codec.v ===== *)
(** * CBOR encodings ([wire/src/lib.rs], [derive/src/lib.rs])

    Conversions between wire types and CBOR values.  A Rust type with an
    [AsCborValue] implementation is a [Codec] here; the implementations for
    primitive and generic types are codecs and codec combinators, and so is the
    derive macro.  Encoding CBOR values as bytes is done by the [ciborium] crate,
    which is a parameter.  Memory allocation does not fail. *)

From S2P Require Import Prelude Wire.

(** [ciborium::value::Value]. *)
Inductive Value : Type :=
| VInteger (i : Z)
| VBytes (b : bytes)
| VFloat (bits : Z)
| VText (s : string)
| VBool (b : bool)
| VNull
| VTag (t : Z) (v : Value)
| VArray (a : list Value)
| VMap (m : list (Value * Value)).

Abbreviation CborResult A := (res CborError A).

Definition cbor_type_error {A} (value : Value) (want : string) : CborResult A :=
  let got := match value with
             | VInteger _ => "int" | VBytes _ => "bstr" | VText _ => "tstr" | VArray _ => "array"
             | VMap _ => "map" | VTag _ _ => "tag" | VFloat _ => "float" | VBool _ => "bool"
             | VNull => "null"
             end%string in
  Err (UnexpectedItem got want).

(** The [AsCborValue] trait. *)
Record Codec (A : Type) := mk_codec {
  from_cbor_value : Value → CborResult A;
  to_cbor_value : A → CborResult Value
}.
Arguments mk_codec {A}.
Arguments from_cbor_value {A}.
Arguments to_cbor_value {A}.

(** ** Primitive and generic types *)

(** [i.try_into()] to a machine integer given by its range. *)
Definition int_codec (in_range : Z → Prop) `{∀ z, Decision (in_range z)} (want : string) : Codec Z := {|
  from_cbor_value value :=
    match value with
    | VInteger i => if decide (in_range i) then Ok i else Err OutOfRangeIntegerValue
    | v => cbor_type_error v want
    end;
  to_cbor_value i := Ok (VInteger i)
|}.
#[export] Instance is_unsigned_dec w z : Decision (is_unsigned w z).
Proof. unfold is_unsigned. apply _. Defined.
#[export] Instance is_signed_dec w z : Decision (is_signed w z).
Proof. unfold is_signed. apply _. Defined.
Definition u64_codec : Codec Z := int_codec is_u64 "u64".
Definition i64_codec : Codec Z := int_codec is_i64 "i64".
Definition u32_codec : Codec Z := int_codec is_u32 "u32".
Definition i32_codec : Codec Z := int_codec is_i32 "i64".

Definition bool_codec : Codec bool := {|
  from_cbor_value value := match value with VBool b => Ok b | v => cbor_type_error v "bool" end;
  to_cbor_value b := Ok (VBool b)
|}.
Definition unit_codec : Codec unit := {|
  from_cbor_value value := match value with VNull => Ok tt | v => cbor_type_error v "null" end;
  to_cbor_value _ := Ok VNull
|}.
Definition string_codec : Codec string := {|
  from_cbor_value value := match value with VText s => Ok s | _ => cbor_type_error value "tstr" end;
  to_cbor_value s := Ok (VText s)
|}.
Definition bytes_codec : Codec bytes := {|
  from_cbor_value value := match value with VBytes b => Ok b | _ => cbor_type_error value "bstr" end;
  to_cbor_value b := Ok (VBytes b)
|}.
(** [[u8; N]]. *)
Definition array_codec (n : Z) : Codec bytes := {|
  from_cbor_value value :=
    match value with
    | VBytes b => if decide (len b = n) then Ok b
                  else Err (UnexpectedItem "bstr other size" "bstr specific size")
    | _ => cbor_type_error value "bstr"
    end;
  to_cbor_value b := Ok (VBytes b)
|}.

(** [iter().map(f).collect()] into a [Result]: stops at the first error. *)
Fixpoint collect {A B} (f : A → CborResult B) (l : list A) : CborResult (list B) :=
  match l with
  | [] => Ok []
  | x :: l' => y ← f x; ys ← collect f l'; Ok (y :: ys)
  end.

Definition vec_codec {A} (c : Codec A) : Codec (list A) := {|
  from_cbor_value value :=
    match value with
    | VArray a => collect (from_cbor_value c) a
    | _ => cbor_type_error value "arr"
    end;
  to_cbor_value l := values ← collect (to_cbor_value c) l; Ok (VArray values)
|}.
Definition option_codec {A} (c : Codec A) : Codec (option A) := {|
  from_cbor_value value :=
    match value with
    | VArray [] => Ok None
    | VArray [v] => t ← from_cbor_value c v; Ok (Some t)
    | VArray _ => Err (UnexpectedItem "arr len >1" "arr len 0/1")
    | _ => Err (UnexpectedItem "non-arr" "arr")
    end;
  to_cbor_value o :=
    match o with
    | Some t => v ← to_cbor_value c t; Ok (VArray [v])
    | None => Ok (VArray [])
    end
|}.

(** ** The derive macro *)

(** A field-less enum: the integer value, which has to be that of a variant. *)
Definition derive_enum {A} `{REnum A} : Codec A := {|
  from_cbor_value value :=
    match value with
    | VInteger i => if decide (is_i32 i)
                    then ok_or (try_from_n i) OutOfRangeIntegerValue
                    else Err OutOfRangeIntegerValue
    | v => cbor_type_error v "int"
    end;
  to_cbor_value v := Ok (VInteger (discr v))
|}.

(** A newtype: the encoding of its only field. *)
Definition derive_newtype {A B} (c : Codec A) (mk : A → B) (un : B → A) : Codec B := {|
  from_cbor_value value := a ← from_cbor_value c value; Ok (mk a);
  to_cbor_value b := to_cbor_value c (un b)
|}.

(** The fields of a struct, as nested pairs; they are decoded in reverse order. *)
Record Fields (A : Type) := mk_fields {
  nfields : nat;
  from_fields : list Value → option (CborResult A); (* [None]: wrong number of values *)
  to_fields : A → CborResult (list Value)
}.
Arguments mk_fields {A}.
Arguments nfields {A}.
Arguments from_fields {A}.
Arguments to_fields {A}.

Definition no_fields : Fields unit := {|
  nfields := 0;
  from_fields a := match a with [] => Some (Ok tt) | _ => None end;
  to_fields _ := Ok []
|}.
Definition field {A B} (c : Codec A) (fs : Fields B) : Fields (A * B) := {|
  nfields := S (nfields fs);
  from_fields a :=
    match a with
    | [] => None
    | v :: a' => rest ← from_fields fs a';
                 Some (r ← rest; x ← from_cbor_value c v; Ok (x, r))
    end;
  to_fields p := v ← to_cbor_value c p.1; vs ← to_fields fs p.2; Ok (v :: vs)
|}.

(** A struct with named fields: the array of their encodings. *)
Definition derive_struct {A B} (want : string) (fs : Fields A) (mk : A → B) (un : B → A)
    : Codec B := {|
  from_cbor_value value :=
    match value with
    | VArray a =>
      match from_fields fs a with
      | Some r => x ← r; Ok (mk x)
      | None => Err (UnexpectedItem "arr" want)
      end
    | _ => cbor_type_error value "arr"
    end;
  to_cbor_value b := vs ← to_fields fs (un b); Ok (VArray vs)
|}.

(** A tuple struct with several fields is encoded in the same way. *)
Definition derive_tuple {A B} (want : string) (fs : Fields A) (mk : A → B) (un : B → A) : Codec B :=
  derive_struct want fs mk un.

(** ** Values as bytes *)

(** The [ciborium] encoder and decoder; decoding also gives the bytes that follow. *)
Class Ciborium := {
  into_writer : Value → option bytes;
  from_reader : bytes → option (Value * bytes) (* recursion limit 16 *)
}.

Section bytes.
Context `{C : Ciborium}.

Definition read_to_value (slice : bytes) : CborResult Value :=
  '(value, rest) ← ok_or (from_reader slice) DecodeFailed;
  match rest with [] => Ok value | _ => Err ExtraneousData end.
Definition from_slice {A} (c : Codec A) (slice : bytes) : CborResult A :=
  value ← read_to_value slice;
  from_cbor_value c value.
Definition into_vec {A} (c : Codec A) (a : A) : CborResult bytes :=
  value ← to_cbor_value c a;
  ok_or (into_writer value) EncodeFailed.
End bytes.

(** ** Round trips *)

(** How deeply arrays, maps and tags nest, and the integers CBOR can hold. *)
Fixpoint vdepth (v : Value) : nat :=
  match v with
  | VTag _ v => S (vdepth v)
  | VArray a => S (foldr (λ v n, Nat.max (vdepth v) n) O a)
  | VMap m => S (foldr (λ kv n, Nat.max (Nat.max (vdepth kv.1) (vdepth kv.2)) n) O m)
  | _ => O
  end.
Fixpoint vints (v : Value) : Prop :=
  match v with
  | VInteger i => - 2 ^ 64 ≤ i < 2 ^ 64
  | VFloat bits => is_u64 bits
  | VTag t v => is_u64 t ∧ vints v
  | VArray a => foldr (λ v P, vints v ∧ P) True a
  | VMap m => foldr (λ kv P, vints kv.1 ∧ vints kv.2 ∧ P) True m
  | _ => True
  end.

(** Every well-formed item is encoded as a value of depth at most [d] that decodes
    to the item again. *)
Definition codec_ok {A} (c : Codec A) (wf : A → Prop) (d : nat) : Prop :=
  ∀ a, wf a → ∃ v, to_cbor_value c a = Ok v ∧ from_cbor_value c v = Ok a ∧
                   (vdepth v ≤ d)%nat ∧ vints v.
Definition fields_ok {A} (fs : Fields A) (wf : A → Prop) (d : nat) : Prop :=
  ∀ a, wf a → ∃ vs, to_fields fs a = Ok vs ∧ from_fields fs vs = Some (Ok a) ∧
                    (foldr (λ v n, Nat.max (vdepth v) n) O vs ≤ d)%nat ∧
                    foldr (λ v P, vints v ∧ P) True vs.

(** The fixed part of the [ciborium] contract: what the encoder writes, the decoder
    reads back, within its recursion limit, leaving what follows. *)
Class CiboriumLaws `{Ciborium} : Prop := {
  from_reader_into_writer v :
    (vdepth v < 16)%nat → vints v →
    ∃ b, into_writer v = Some b ∧ ∀ rest, from_reader (b ++ rest) = Some (v, rest)
}.

Create HintDb codec.

Lemma codec_ok_weaken {A} (c : Codec A) (wf wf' : A → Prop) d d' :
  codec_ok c wf d → (d ≤ d')%nat → (∀ a, wf' a → wf a) → codec_ok c wf' d'.
Proof.
  intros H Hd Hw a Ha. destruct (H a (Hw a Ha)) as (v & ? & ? & ? & ?). exists v.
  split_and!; [done..|lia|done].
Qed.

Lemma int_codec_ok P `{∀ z, Decision (P z)} want :
  (∀ z, P z → - 2 ^ 64 ≤ z < 2 ^ 64) → codec_ok (int_codec P want) P 0.
Proof.
  intros Hr z Hz. exists (VInteger z). cbn. rewrite decide_True by done. naive_solver.
Qed.
Lemma u64_codec_ok : codec_ok u64_codec is_u64 0.
Proof. apply int_codec_ok. range_lia. Qed.
Lemma i64_codec_ok : codec_ok i64_codec is_i64 0.
Proof. apply int_codec_ok. range_lia. Qed.
Lemma u32_codec_ok : codec_ok u32_codec is_u32 0.
Proof. apply int_codec_ok. range_lia. Qed.
Lemma i32_codec_ok : codec_ok i32_codec is_i32 0.
Proof. apply int_codec_ok. range_lia. Qed.
Lemma bool_codec_ok : codec_ok bool_codec (λ _, True) 0.
Proof. intros b _. by exists (VBool b). Qed.
Lemma unit_codec_ok : codec_ok unit_codec (λ _, True) 0.
Proof. intros [] _. by exists VNull. Qed.
Lemma string_codec_ok : codec_ok string_codec (λ _, True) 0.
Proof. intros s _. by exists (VText s). Qed.
Lemma bytes_codec_ok : codec_ok bytes_codec (λ _, True) 0.
Proof. intros b _. by exists (VBytes b). Qed.
Lemma array_codec_ok n : codec_ok (array_codec n) (λ b, len b = n) 0.
Proof. intros b Hb. exists (VBytes b). cbn. by rewrite decide_True. Qed.

Lemma vec_codec_ok {A} (c : Codec A) wf d :
  codec_ok c wf d → codec_ok (vec_codec c) (Forall wf) (S d).
Proof.
  intros Hc l Hl.
  assert (∃ vs, collect (to_cbor_value c) l = Ok vs ∧ collect (from_cbor_value c) vs = Ok l ∧
    (foldr (λ v n, Nat.max (vdepth v) n) O vs ≤ d)%nat ∧ foldr (λ v P, vints v ∧ P) True vs)
    as (vs & Ht & Hf & Hd & Hi).
  { induction Hl as [|a l Ha _ IH]; [by exists []; cbn; split_and!; try lia|].
    destruct (Hc a Ha) as (v & Hv & Hv' & Hvd & Hvi). destruct IH as (vs & Ht & Hf & Hd & Hi).
    exists (v :: vs). cbn. rewrite Hv, Hv'. cbn. rewrite Ht, Hf. cbn. split_and!; [done..|lia|done|done]. }
  exists (VArray vs). cbn. rewrite Ht. cbn. split_and!; [done..|lia|done].
Qed.

Lemma option_codec_ok {A} (c : Codec A) wf d :
  codec_ok c wf d → codec_ok (option_codec c) (from_option wf True) (S d).
Proof.
  intros Hc [a|] Ha; [|by exists (VArray []); cbn; split_and!; try lia].
  destruct (Hc a Ha) as (v & Hv & Hv' & Hvd & Hvi). exists (VArray [v]). cbn. rewrite Hv. cbn.
  rewrite Hv'. split_and!; [done..|lia|done|done].
Qed.

(** Enums whose discriminants are 32-bit integers. *)
Class EnumI32 A `{REnum A} : Prop := discr_is_i32 (v : A) : is_i32 (discr v).

Lemma derive_enum_ok {A} `{EnumI32 A} : codec_ok (derive_enum (A:=A)) (λ _, True) 0.
Proof.
  intros v _. exists (VInteger (discr v)). cbn. pose proof (discr_is_i32 v) as Hr.
  rewrite decide_True by done. rewrite try_from_discr. cbn. split_and!; [done..|lia| |]; range_lia.
Qed.

Lemma derive_newtype_ok {A B} (c : Codec A) (mk : A → B) un wf d :
  codec_ok c wf d → (∀ b, mk (un b) = b) → codec_ok (derive_newtype c mk un) (λ b, wf (un b)) d.
Proof.
  intros Hc Hmk b Hb. destruct (Hc (un b) Hb) as (v & Hv & Hv' & Hvd & Hvi). exists v. cbn.
  rewrite Hv'. cbn. by rewrite Hmk.
Qed.

Lemma no_fields_ok d : fields_ok no_fields (λ _, True) d.
Proof. intros [] _. exists []. cbn. split_and!; try done. lia. Qed.
Lemma field_ok {A B} (c : Codec A) (fs : Fields B) wf1 wf2 d1 d2 :
  codec_ok c wf1 d1 → fields_ok fs wf2 d2 →
  fields_ok (field c fs) (λ p, wf1 p.1 ∧ wf2 p.2) (Nat.max d1 d2).
Proof.
  intros Hc Hfs [a b] [Ha Hb]. destruct (Hc a Ha) as (v & Hv & Hv' & Hvd & Hvi).
  destruct (Hfs b Hb) as (vs & Ht & Hf & Hd & Hi). exists (v :: vs). cbn in *. rewrite Hv. cbn.
  rewrite Ht. cbn. rewrite Hf. cbn. rewrite Hv'. cbn. split_and!; [done..|lia|done|done].
Qed.
Lemma derive_struct_ok {A B} want (fs : Fields A) (mk : A → B) un wf d :
  fields_ok fs wf d → (∀ b, mk (un b) = b) →
  codec_ok (derive_struct want fs mk un) (λ b, wf (un b)) (S d).
Proof.
  intros Hfs Hmk b Hb. destruct (Hfs (un b) Hb) as (vs & Ht & Hf & Hd & Hi). exists (VArray vs). cbn.
  rewrite Ht, Hf. cbn. rewrite Hmk. split_and!; [done..|lia|done].
Qed.
#[export] Hint Resolve u64_codec_ok i64_codec_ok u32_codec_ok i32_codec_ok bool_codec_ok unit_codec_ok
  string_codec_ok bytes_codec_ok array_codec_ok vec_codec_ok option_codec_ok derive_enum_ok
  derive_newtype_ok no_fields_ok field_ok derive_struct_ok : codec.

Lemma slice_roundtrip `{CiboriumLaws} {A} (c : Codec A) wf d a :
  codec_ok c wf d → (d < 16)%nat → wf a → ∃ b, into_vec c a = Ok b ∧ from_slice c b = Ok a.
Proof.
  intros Hc Hd Ha. destruct (Hc a Ha) as (v & Hv & Hv' & Hvd & Hvi).
  destruct (from_reader_into_writer v) as (b & Hb & Hb'); [lia|done|].
  exists b. unfold into_vec, from_slice, read_to_value. rewrite Hv. cbn [mbind res_bind].
  rewrite Hb. split; [done|]. rewrite <- (app_nil_r b), Hb'. done.
Qed.

(** Encodings are self-delimiting: a concatenation determines its parts. *)
Lemma into_vec_inj `{CiboriumLaws} {A} (c : Codec A) wf d a1 a2 b1 b2 rest1 rest2 :
  codec_ok c wf d → (d < 16)%nat → wf a1 → wf a2 →
  into_vec c a1 = Ok b1 → into_vec c a2 = Ok b2 → b1 ++ rest1 = b2 ++ rest2 →
  a1 = a2 ∧ rest1 = rest2.
Proof.
  intros Hc Hd Ha1 Ha2 Hb1 Hb2 Heq. unfold into_vec in *.
  destruct (Hc a1 Ha1) as (v1 & Ht1 & Hf1 & Hd1 & Hi1). destruct (Hc a2 Ha2) as (v2 & Ht2 & Hf2 & Hd2 & Hi2).
  rewrite Ht1 in Hb1. rewrite Ht2 in Hb2. cbn [mbind res_bind] in *.
  destruct (from_reader_into_writer v1) as (b1' & Hw1 & Hr1); [lia|done|].
  destruct (from_reader_into_writer v2) as (b2' & Hw2 & Hr2); [lia|done|].
  rewrite Hw1 in Hb1. rewrite Hw2 in Hb2. injection Hb1 as <-. injection Hb2 as <-.
  pose proof (Hr1 rest1) as H1. rewrite Heq, Hr2 in H1. injection H1 as <- <-. split; congruence.
Qed.

(** ** An encoder that satisfies the contract

    Not the CBOR format: values are numbered and the number is written in binary.  It
    shows that the assumptions about [ciborium] can be met. *)

Section value_ind.
Context (P : Value → Prop)
  (Hint : ∀ i, P (VInteger i)) (Hbytes : ∀ b, P (VBytes b)) (Hfloat : ∀ b, P (VFloat b))
  (Htext : ∀ s, P (VText s)) (Hbool : ∀ b, P (VBool b)) (Hnull : P VNull)
  (Htag : ∀ t v, P v → P (VTag t v)) (Harray : ∀ a, Forall P a → P (VArray a))
  (Hmap : ∀ m, Forall (λ kv, P kv.1 ∧ P kv.2) m → P (VMap m)).

Fixpoint Value_nested_ind (v : Value) : P v :=
  match v with
  | VInteger i => Hint i
  | VBytes b => Hbytes b
  | VFloat b => Hfloat b
  | VText s => Htext s
  | VBool b => Hbool b
  | VNull => Hnull
  | VTag t v => Htag t v (Value_nested_ind v)
  | VArray a =>
    Harray a ((fix go l : Forall P l :=
                 match l with
                 | [] => Forall_nil_2 P
                 | v :: l' => Forall_cons_2 P v l' (Value_nested_ind v) (go l')
                 end) a)
  | VMap m =>
    Hmap m ((fix go l : Forall (λ kv, P kv.1 ∧ P kv.2) l :=
               match l with
               | [] => Forall_nil_2 _
               | kv :: l' => Forall_cons_2 _ kv l'
                   (conj (Value_nested_ind kv.1) (Value_nested_ind kv.2)) (go l')
               end) m)
  end.
End value_ind.

#[export] Instance u8_countable : Countable u8.
Proof.
  apply (inj_countable (λ b, byte.unsigned b) (λ z, Some (byte.of_Z z))).
  intros b. by rewrite byte.of_Z_unsigned.
Defined.

Abbreviation leaf := (Z + bytes + string + bool)%type.
Fixpoint value_tree (v : Value) : gen_tree leaf :=
  match v with
  | VInteger i => GenNode 0 [GenLeaf (inl (inl (inl i)))]
  | VBytes b => GenLeaf (inl (inl (inr b)))
  | VFloat z => GenNode 1 [GenLeaf (inl (inl (inl z)))]
  | VText s => GenLeaf (inl (inr s))
  | VBool b => GenLeaf (inr b)
  | VNull => GenNode 2 []
  | VTag t v => GenNode 3 [GenLeaf (inl (inl (inl t))); value_tree v]
  | VArray a => GenNode 4 (value_tree <$> a)
  | VMap m => GenNode 5 ((λ kv, GenNode 6 [value_tree kv.1; value_tree kv.2]) <$> m)
  end.
Fixpoint tree_value (t : gen_tree leaf) : Value :=
  match t with
  | GenNode 0 [GenLeaf (inl (inl (inl i)))] => VInteger i
  | GenLeaf (inl (inl (inr b))) => VBytes b
  | GenNode 1 [GenLeaf (inl (inl (inl z)))] => VFloat z
  | GenLeaf (inl (inr s)) => VText s
  | GenLeaf (inr b) => VBool b
  | GenNode 3 [GenLeaf (inl (inl (inl t))); v] => VTag t (tree_value v)
  | GenNode 4 l => VArray (tree_value <$> l)
  | GenNode 5 l =>
    VMap ((λ t, match t with GenNode 6 [k; v] => (tree_value k, tree_value v) | _ => (VNull, VNull) end) <$> l)
  | _ => VNull
  end.

Lemma tree_value_tree v : tree_value (value_tree v) = v.
Proof.
  revert v. apply Value_nested_ind; try done.
  - intros t v Hv. cbn. by rewrite Hv.
  - intros a Ha. cbn. f_equal. rewrite <- list_fmap_compose.
    induction Ha as [|v a Hv _ IH]; [done|]. cbn. by rewrite Hv, IH.
  - intros m Hm. cbn. f_equal. rewrite <- list_fmap_compose.
    induction Hm as [|[k v] m [Hk Hv] _ IH]; [done|]. cbn in *. by rewrite Hk, Hv, IH.
Qed.

Fixpoint pos_bytes (p : positive) : bytes :=
  match p with
  | xH => [u8_of 2]
  | xO p => u8_of 0 :: pos_bytes p
  | xI p => u8_of 1 :: pos_bytes p
  end.
Fixpoint bytes_pos (b : bytes) : positive * bytes :=
  match b with
  | [] => (xH, [])
  | x :: b' =>
    if decide (x = u8_of 0) then let '(p, rest) := bytes_pos b' in (xO p, rest)
    else if decide (x = u8_of 1) then let '(p, rest) := bytes_pos b' in (xI p, rest)
    else (xH, b')
  end.
Lemma bytes_pos_bytes p rest : bytes_pos (pos_bytes p ++ rest) = (p, rest).
Proof.
  induction p; cbn [pos_bytes bytes_pos app].
  - rewrite decide_False by done. rewrite decide_True by done. by rewrite IHp.
  - rewrite decide_True by done. by rewrite IHp.
  - rewrite !decide_False by done. done.
Qed.

Definition numbering : Ciborium := {|
  into_writer v := Some (pos_bytes (encode (value_tree v)));
  from_reader b := let '(p, rest) := bytes_pos b in t ← decode p; Some (tree_value t, rest)
|}.
Lemma numbering_laws : CiboriumLaws (H := numbering).
Proof.
  split. intros v _ _. eexists. split; [reflexivity|]. intros rest. cbn [from_reader numbering].
  rewrite bytes_pos_bytes, decode_encode. cbn [mbind option_bind]. by rewrite tree_value_tree.
Qed.
