(* ===== verification/CborRef.v ===== *)
(** * The CBOR format (RFC 8949), as far as the messages use it

    The [ciborium] crate, which encodes values as bytes, is a parameter of the development.
    This file states what is known about the size of its encodings and shows that the
    assumptions can be met together: it has an encoder that chooses the shortest form, as
    the crate documents, a decoder, and the proof that they satisfy the laws. *)

From S2P Require Import Prelude Codec.

(** ** Sizes *)

(** Size of a head: the initial byte and the argument. *)
Definition head_size (n : Z) : Z :=
  if decide (n < 24) then 1 else if decide (n < 2 ^ 8) then 2 else if decide (n < 2 ^ 16) then 3
  else if decide (n < 2 ^ 32) then 5 else 9.
Definition int_arg (i : Z) : Z := if decide (0 ≤ i) then i else - 1 - i.
Fixpoint vsize (v : Value) : Z :=
  match v with
  | VInteger i => head_size (int_arg i)
  | VBytes b => head_size (len b) + len b
  | VFloat _ => 9
  | VText s => head_size (len (bytes_of_string s)) + len (bytes_of_string s)
  | VBool _ | VNull => 1
  | VTag t v => head_size t + vsize v
  | VArray a => head_size (len a) + foldr (λ v n, vsize v + n) 0 a
  | VMap m => head_size (len m) + foldr (λ kv n, vsize kv.1 + vsize kv.2 + n) 0 m
  end.

(** Encodings have the shortest heads; floats may be shorter. *)
Class CiboriumSize `{Ciborium} : Prop := {
  into_writer_size v b : into_writer v = Some b → vsize v < 2 ^ 64 → vints v → len b ≤ vsize v
}.

Lemma head_size_range n : 1 ≤ head_size n ≤ 9.
Proof. unfold head_size. repeat case_decide; lia. Qed.
Lemma sum_nonneg {A} (f : A → Z) l : Forall (λ x, 1 ≤ f x) l → 0 ≤ foldr (λ x n, f x + n) 0 l.
Proof. induction 1 as [|x l Hx _ IH]; cbn; lia. Qed.
Lemma vsize_pos v : 1 ≤ vsize v.
Proof.
  revert v. apply Value_nested_ind; cbn [vsize]; try (intros; lia).
  - intros i. pose proof (head_size_range (int_arg i)). lia.
  - intros b. pose proof (head_size_range (len b)). unfold len in *. lia.
  - intros s. pose proof (head_size_range (len (bytes_of_string s))). unfold len in *. lia.
  - intros t v Hv. pose proof (head_size_range t). lia.
  - intros a Ha. pose proof (head_size_range (len a)). apply sum_nonneg in Ha. lia.
  - intros m Hm. pose proof (head_size_range (len m)).
    assert (Forall (λ kv, 1 ≤ vsize kv.1 + vsize kv.2) m) as H1
      by (eapply Forall_impl; [exact Hm|]; cbn; lia). apply sum_nonneg in H1. lia.
Qed.

(** ** The encoder *)

Module Rfc8949.

Definition initial (major arg : Z) : u8 := u8_of (major * 32 + arg).
Definition head (major n : Z) : bytes :=
  if decide (n < 24) then [initial major n]
  else if decide (n < 2 ^ 8) then initial major 24 :: to_be_bytes 1 n
  else if decide (n < 2 ^ 16) then initial major 25 :: to_be_bytes 2 n
  else if decide (n < 2 ^ 32) then initial major 26 :: to_be_bytes 4 n
  else initial major 27 :: to_be_bytes 8 n.
Fixpoint enc (v : Value) : bytes :=
  match v with
  | VInteger i => head (if decide (0 ≤ i) then 0 else 1) (int_arg i)
  | VBytes b => head 2 (len b) ++ b
  | VText s => head 3 (len (bytes_of_string s)) ++ bytes_of_string s
  | VArray a => head 4 (len a) ++ foldr (λ v b, enc v ++ b) [] a
  | VMap m => head 5 (len m) ++ foldr (λ kv b, enc kv.1 ++ enc kv.2 ++ b) [] m
  | VTag t v => head 6 t ++ enc v
  | VBool b => [initial 7 (if b then 21 else 20)]
  | VNull => [initial 7 22]
  | VFloat bits => initial 7 27 :: to_be_bytes 8 bits
  end.

(** ** The decoder *)

Definition take_exact (n : nat) (b : bytes) : option (bytes * bytes) :=
  if decide (n <= length b)%nat then Some (take n b, drop n b) else None.
(** Major type, how the argument is given, and the argument. *)
Definition read_head (b : bytes) : option (Z * Z * Z * bytes) :=
  match b with
  | [] => None
  | x :: b =>
    let major := u8_val x / 32 in let ai := u8_val x mod 32 in
    let arg n := '(a, rest) ← take_exact n b; Some (major, ai, from_be_bytes a, rest) in
    if decide (ai < 24) then Some (major, ai, ai, b)
    else if decide (ai = 24) then arg 1%nat else if decide (ai = 25) then arg 2%nat
    else if decide (ai = 26) then arg 4%nat else if decide (ai = 27) then arg 8%nat else None
  end.
Fixpoint dec_items {A} (item : bytes → option (A * bytes)) (n : nat) (b : bytes) : option (list A * bytes) :=
  match n with
  | O => Some ([], b)
  | S n' => '(v, b) ← item b; '(vs, b) ← dec_items item n' b; Some (v :: vs, b)
  end.
Fixpoint dec (depth : nat) (b : bytes) : option (Value * bytes) :=
  match depth with
  | O => None
  | S depth' =>
    '(major, ai, n, rest) ← read_head b;
    if decide (major = 0) then Some (VInteger n, rest)
    else if decide (major = 1) then Some (VInteger (- 1 - n), rest)
    else if decide (major = 2) then '(s, rest) ← take_exact (Z.to_nat n) rest; Some (VBytes s, rest)
    else if decide (major = 3) then
      '(s, rest) ← take_exact (Z.to_nat n) rest; Some (VText (String.string_of_list_byte s), rest)
    else if decide (major = 4) then '(a, rest) ← dec_items (dec depth') (Z.to_nat n) rest; Some (VArray a, rest)
    else if decide (major = 5) then
      '(m, rest) ← dec_items (λ b, '(k, b) ← dec depth' b; '(v, b) ← dec depth' b; Some ((k, v), b))
                     (Z.to_nat n) rest;
      Some (VMap m, rest)
    else if decide (major = 6) then '(v, rest) ← dec depth' rest; Some (VTag n v, rest)
    else if decide (ai = 20) then Some (VBool false, rest)
    else if decide (ai = 21) then Some (VBool true, rest)
    else if decide (ai = 22) then Some (VNull, rest)
    else if decide (ai = 27) then Some (VFloat n, rest)
    else None
  end.

Lemma initial_val major arg : 0 ≤ major < 8 → 0 ≤ arg < 32 →
  u8_val (initial major arg) / 32 = major ∧ u8_val (initial major arg) mod 32 = arg.
Proof.
  intros. unfold initial. rewrite u8_val_of by lia.
  rewrite Z.div_add_l, Z.div_small, Z.add_0_r by lia. rewrite Z.add_comm, Z.mod_add, Z.mod_small by lia. done.
Qed.
Lemma take_exact_app b rest : take_exact (length b) (b ++ rest) = Some (b, rest).
Proof.
  unfold take_exact. rewrite decide_True by (rewrite length_app; lia).
  by rewrite take_app_length, drop_app_length.
Qed.
Lemma take_exact_be n z rest : take_exact n (to_be_bytes n z ++ rest) = Some (to_be_bytes n z, rest).
Proof. rewrite <- (length_to_be_bytes n z) at 1. apply take_exact_app. Qed.
Lemma from_be_small n z : 0 ≤ z < 2 ^ (8 * Z.of_nat n) → from_be_bytes (to_be_bytes n z) = z.
Proof. intros. rewrite from_to_be_bytes. by apply as_unsigned_id. Qed.

Lemma read_head_head major n rest : 0 ≤ major < 8 → 0 ≤ n < 2 ^ 64 →
  ∃ ai, read_head (head major n ++ rest) = Some (major, ai, n, rest).
Proof.
  intros Hm Hn. unfold head. repeat case_decide; cbn [app read_head].
  - destruct (initial_val major n) as [-> ->]; [lia..|]. rewrite decide_True by lia. eauto.
  - destruct (initial_val major 24) as [-> ->]; [lia..|]. cbn [decide]. rewrite decide_False, decide_True by lia.
    rewrite take_exact_be. cbn. rewrite from_be_small by (cbn; lia). eauto.
  - destruct (initial_val major 25) as [-> ->]; [lia..|]. rewrite !decide_False, decide_True by lia.
    rewrite take_exact_be. cbn. rewrite from_be_small by (cbn; lia). eauto.
  - destruct (initial_val major 26) as [-> ->]; [lia..|]. rewrite !decide_False, decide_True by lia.
    rewrite take_exact_be. cbn. rewrite from_be_small by (cbn; lia). eauto.
  - destruct (initial_val major 27) as [-> ->]; [lia..|]. rewrite !decide_False, decide_True by lia.
    rewrite take_exact_be. cbn. rewrite from_be_small by (cbn; lia). eauto.
Qed.
Lemma length_head major n : 0 ≤ n < 2 ^ 64 → len (head major n) = head_size n.
Proof.
  intros Hn. unfold head, head_size, len.
  repeat case_decide; cbn [length]; rewrite ?length_to_be_bytes; done.
Qed.

(** Lengths fit where the whole does. *)
Definition fits (v : Value) : Prop := vsize v < 2 ^ 64 ∧ vints v.
Lemma sum_ge_len {A} (f : A → Z) l : Forall (λ x, 1 ≤ f x) l → len l ≤ foldr (λ x n, f x + n) 0 l.
Proof. unfold len. induction 1 as [|x l Hx _ IH]; cbn [length foldr]; lia. Qed.
Lemma len_cons {A} (x : A) l : len (x :: l) = 1 + len l.
Proof. unfold len. cbn [length]. lia. Qed.
Lemma vsizes_pos a : Forall (λ v, 1 ≤ vsize v) a.
Proof. induction a; constructor; [apply vsize_pos|done]. Qed.
Lemma vsizes_pair_pos (m : list (Value * Value)) : Forall (λ kv, 1 ≤ vsize kv.1 + vsize kv.2) m.
Proof. induction m as [|[k v] m IH]; constructor; [|done]. pose proof (vsize_pos k). pose proof (vsize_pos v). cbn. lia. Qed.

Lemma length_enc v : vsize v < 2 ^ 64 → vints v → len (enc v) ≤ vsize v.
Proof.
  revert v. apply (Value_nested_ind (λ v, vsize v < 2 ^ 64 → vints v → len (enc v) ≤ vsize v)); cbn [vsize enc vints].
  - intros i _ Hi. rewrite length_head; [done|]. unfold int_arg. case_decide; lia.
  - intros b Hb _. rewrite len_app. pose proof (head_size_range (len b)). pose proof (len_nonneg b).
    rewrite length_head by lia. lia.
  - intros bits _ _. unfold len. cbn [length]. rewrite length_to_be_bytes. lia.
  - intros s Hs _. rewrite len_app. pose proof (head_size_range (len (bytes_of_string s))).
    pose proof (len_nonneg (bytes_of_string s)). rewrite length_head by lia. lia.
  - intros b _ _. done.
  - intros _ _. done.
  - intros t v IH Hv [Ht Hi]. rewrite len_app, length_head by done. pose proof (head_size_range t). specialize (IH ltac:(lia) Hi). lia.
  - intros a IH Ha Hi. pose proof (head_size_range (len a)). pose proof (sum_ge_len vsize a (vsizes_pos a)).
    pose proof (len_nonneg a). rewrite len_app, length_head by lia.
    assert (len (foldr (λ v b, enc v ++ b) [] a) ≤ foldr (λ v n, vsize v + n) 0 a); [|lia].
    assert (foldr (λ v n, vsize v + n) 0 a < 2 ^ 64) as Hs by lia. clear - IH Hi Hs.
    induction IH as [|v a Hv _ IH]; cbn in *; [done|]. pose proof (sum_nonneg vsize a (vsizes_pos a)).
    pose proof (vsize_pos v). rewrite len_app. destruct Hi as [Hi1 Hi2].
    specialize (IH Hi2 ltac:(lia)). specialize (Hv ltac:(lia) Hi1). lia.
  - intros m IH Hm Hi. pose proof (head_size_range (len m)).
    pose proof (sum_ge_len _ m (vsizes_pair_pos m)) as Hl. cbn beta in Hl.
    pose proof (len_nonneg m). rewrite len_app, length_head by lia.
    assert (len (foldr (λ kv b, enc kv.1 ++ enc kv.2 ++ b) [] m) ≤ foldr (λ kv n, vsize kv.1 + vsize kv.2 + n) 0 m); [|lia].
    assert (foldr (λ kv n, vsize kv.1 + vsize kv.2 + n) 0 m < 2 ^ 64) as Hs by lia. clear - IH Hi Hs.
    induction IH as [|[k v] m [Hk Hv] _ IH]; cbn in *; [done|].
    pose proof (sum_nonneg _ m (vsizes_pair_pos m)) as Hn. cbn beta in Hn. pose proof (vsize_pos k). pose proof (vsize_pos v).
    rewrite !len_app. destruct Hi as (Hi1 & Hi2 & Hi3).
    specialize (IH Hi3 ltac:(lia)). specialize (Hk ltac:(lia) Hi1). specialize (Hv ltac:(lia) Hi2). lia.
Qed.

Lemma string_bytes s : String.string_of_list_byte (bytes_of_string s) = s.
Proof. apply String.string_of_list_byte_of_string. Qed.

Lemma dec_items_enc {A} (item : bytes → option (A * bytes)) (e : A → bytes) l rest :
  Forall (λ x, ∀ rest, item (e x ++ rest) = Some (x, rest)) l →
  dec_items item (length l) (foldr (λ x b, e x ++ b) [] l ++ rest) = Some (l, rest).
Proof.
  induction 1 as [|x l Hx _ IH]; cbn; [done|]. rewrite <- app_assoc, Hx. cbn. by rewrite IH.
Qed.

Definition dec_ok (v : Value) : Prop := ∀ depth rest,
  (vdepth v < depth)%nat → vsize v < 2 ^ 64 → vints v → dec depth (enc v ++ rest) = Some (v, rest).
(** The parts of an array or map are decoded one level down. *)
Lemma array_parts a depth :
  Forall dec_ok a → (foldr (λ v n, Nat.max (vdepth v) n) O a < depth)%nat →
  foldr (λ v n, vsize v + n) 0 a < 2 ^ 64 → foldr (λ v P, vints v ∧ P) True a →
  Forall (λ v, ∀ rest, dec depth (enc v ++ rest) = Some (v, rest)) a.
Proof.
  induction 1 as [|v a Hv _ IH]; cbn; [by constructor|]. intros Hd Hs [Hi Hi'].
  pose proof (sum_nonneg vsize a (vsizes_pos a)). pose proof (vsize_pos v).
  constructor; [intros rest; apply Hv; [lia|lia|done]|apply IH; [lia|lia|done]].
Qed.
Lemma map_parts m depth :
  Forall (λ kv, dec_ok kv.1 ∧ dec_ok kv.2) m →
  (foldr (λ kv n, Nat.max (Nat.max (vdepth kv.1) (vdepth kv.2)) n) O m < depth)%nat →
  foldr (λ kv n, vsize kv.1 + vsize kv.2 + n) 0 m < 2 ^ 64 → foldr (λ kv P, vints kv.1 ∧ vints kv.2 ∧ P) True m →
  Forall (λ kv, ∀ rest, ('(k, b) ← dec depth ((enc kv.1 ++ enc kv.2) ++ rest); '(v, b) ← dec depth b; Some ((k, v), b)) =
                        Some (kv, rest)) m.
Proof.
  induction 1 as [|[k v] m [Hk Hv] _ IH]; cbn [foldr fst snd] in *; [by constructor|]. intros Hd Hs (Hi1 & Hi2 & Hi3).
  pose proof (sum_nonneg _ m (vsizes_pair_pos m)) as Hn. cbn beta in Hn. pose proof (vsize_pos k). pose proof (vsize_pos v).
  constructor; [|apply IH; [lia|lia|done]]. intros rest. cbn [fst snd]. rewrite <- app_assoc, Hk by (lia || done). cbn.
  by rewrite Hv by (lia || done).
Qed.

Lemma dec_enc v : dec_ok v.
Proof.
  revert v. apply (Value_nested_ind dec_ok).
  - intros i [|depth] rest Hd Hs Hi; [lia|]. cbn [enc dec]. cbn in Hi. unfold int_arg. case_decide.
    + by destruct (read_head_head 0 i rest) as [ai ->]; [lia..|].
    + destruct (read_head_head 1 (- 1 - i) rest) as [ai ->]; [lia..|]. cbn. do 3 f_equal. lia.
  - intros b [|depth] rest Hd Hs _; [lia|]. cbn [enc dec]. cbn in Hs. pose proof (len_nonneg b).
    pose proof (head_size_range (len b)). rewrite <- app_assoc.
    destruct (read_head_head 2 (len b) (b ++ rest)) as [ai ->]; [lia..|]. cbn. unfold len. by rewrite Nat2Z.id, take_exact_app.
  - intros z [|depth] rest Hd _ Hz; [lia|]. cbn [enc dec app read_head].
    destruct (initial_val 7 27) as [-> ->]; [lia..|]. cbn -[take_exact to_be_bytes from_be_bytes]. rewrite take_exact_be.
    cbn -[to_be_bytes from_be_bytes]. by rewrite from_be_small.
  - intros s [|depth] rest Hd Hs _; [lia|]. cbn [enc dec]. cbn in Hs. pose proof (len_nonneg (bytes_of_string s)).
    pose proof (head_size_range (len (bytes_of_string s))). rewrite <- app_assoc.
    destruct (read_head_head 3 (len (bytes_of_string s)) (bytes_of_string s ++ rest)) as [ai ->]; [lia..|].
    cbn -[bytes_of_string String.string_of_list_byte]. unfold len. rewrite Nat2Z.id, take_exact_app.
    cbn -[bytes_of_string String.string_of_list_byte]. by rewrite string_bytes.
  - intros b [|depth] rest Hd _ _; [lia|]. by destruct b.
  - intros [|depth] rest Hd _ _; [lia|]. done.
  - intros t v IH [|depth] rest Hd Hs [Ht Hi]; [lia|]. cbn [enc dec]. cbn in Hd, Hs. pose proof (head_size_range t).
    rewrite <- app_assoc. destruct (read_head_head 6 t (enc v ++ rest)) as [ai ->]; [lia|exact Ht|]. cbn.
    by rewrite IH by (lia || done).
  - intros a IH [|depth] rest Hd Hs Hi; [lia|]. cbn [enc dec]. cbn in Hd, Hs, Hi. pose proof (head_size_range (len a)).
    pose proof (sum_ge_len vsize a (vsizes_pos a)). pose proof (len_nonneg a). rewrite <- app_assoc.
    edestruct (read_head_head 4 (len a)) as [ai ->]; [lia..|]. cbn. unfold len. rewrite Nat2Z.id.
    rewrite (dec_items_enc _ enc); [done|]. apply array_parts; [done|lia|lia|done].
  - intros m IH [|depth] rest Hd Hs Hi; [lia|]. cbn [enc dec]. cbn in Hd, Hs, Hi. pose proof (head_size_range (len m)).
    pose proof (sum_ge_len _ m (vsizes_pair_pos m)) as Hl. cbn beta in Hl. pose proof (len_nonneg m). rewrite <- app_assoc.
    edestruct (read_head_head 5 (len m)) as [ai ->]; [lia..|]. cbn. unfold len. rewrite Nat2Z.id.
    assert (foldr (λ kv b, enc kv.1 ++ enc kv.2 ++ b) [] m = foldr (λ kv b, (enc kv.1 ++ enc kv.2) ++ b) [] m) as ->.
    { clear. induction m as [|kv m IH]; cbn; [done|]. by rewrite IH, app_assoc. }
    rewrite (dec_items_enc _ (λ kv, enc kv.1 ++ enc kv.2)); [done|]. apply map_parts; [done|lia|lia|done].
Qed.

(** Values too large for the format, which have no meaning, are numbered. *)
Definition codec : Ciborium := {|
  into_writer v := Some (if decide (vsize v < 2 ^ 64) then enc v
                         else initial 7 31 :: pos_bytes (encode (value_tree v)));
  from_reader b :=
    match b with
    | x :: b' => if decide (x = initial 7 31) then from_reader (Ciborium := numbering) b' else dec 16 b
    | [] => None
    end
|}.
Lemma enc_first v rest : vsize v < 2 ^ 64 → vints v → ∃ x b, enc v ++ rest = x :: b ∧ x ≠ initial 7 31.
Proof.
  intros Hs Hi. pose proof (dec_enc v (S (vdepth v)) rest ltac:(lia) Hs Hi) as Hd.
  destruct (enc v ++ rest) as [|x b]; [done|]. exists x, b. split; [done|]. intros ->.
  cbn [dec read_head] in Hd. destruct (initial_val 7 31) as [E1 E2]; [lia..|]. rewrite E1, E2 in Hd. discriminate Hd.
Qed.
#[export] Instance codec_laws : CiboriumLaws (H := codec).
Proof.
  split. intros v Hd Hi. eexists. split; [reflexivity|]. intros rest. cbn [from_reader codec]. case_decide as Hs.
  - destruct (enc_first v rest Hs Hi) as (x & b & E & Hx). rewrite E, decide_False by done. rewrite <- E. by apply dec_enc.
  - cbn [app]. rewrite decide_True by done. cbn [from_reader numbering].
    rewrite bytes_pos_bytes, decode_encode. cbn [mbind option_bind]. by rewrite tree_value_tree.
Qed.
#[export] Instance codec_size : CiboriumSize (H := codec).
Proof. split. intros v b [= <-] Hs Hi. rewrite decide_True by done. by apply length_enc. Qed.
End Rfc8949.
