(* ===== verification/WireCodec.v ===== *)
(** * Wire types and their CBOR encodings ([wire/src/keymint.rs], [wire/src/types.rs],
    [wire/src/rpc.rs], [wire/src/secureclock.rs], [wire/src/sharedsecret.rs])

    Key parameters, the request and response messages exchanged between the HAL
    service and the trusted application, and the proof that every well-formed
    message survives encoding and decoding. *)

From S2P Require Import Prelude Wire Codec.

(** ** Enums with a derived encoding *)

Lemma enum_i32_intro {A} `{REnum A} :
  bool_decide (Forall is_i32 (discr <$> variants)) = true → EnumI32 A.
Proof.
  intros H0 v. apply bool_decide_eq_true in H0.
  apply (proj1 (Forall_forall _ _) H0), list_elem_of_fmap_2, variants_complete.
Qed.
Ltac solve_enum_i32 := apply enum_i32_intro; vm_compute; reflexivity.
#[export] Instance VerifiedBootState_i32 : EnumI32 VerifiedBootState.
Proof. solve_enum_i32. Qed.
#[export] Instance Algorithm_i32 : EnumI32 Algorithm.
Proof. solve_enum_i32. Qed.
#[export] Instance BlockMode_i32 : EnumI32 BlockMode.
Proof. solve_enum_i32. Qed.
#[export] Instance Digest_i32 : EnumI32 Digest.
Proof. solve_enum_i32. Qed.
#[export] Instance EcCurve_i32 : EnumI32 EcCurve.
Proof. solve_enum_i32. Qed.
#[export] Instance ErrorCode_i32 : EnumI32 ErrorCode.
Proof. solve_enum_i32. Qed.
#[export] Instance HardwareAuthenticatorType_i32 : EnumI32 HardwareAuthenticatorType.
Proof. solve_enum_i32. Qed.
#[export] Instance KeyFormat_i32 : EnumI32 KeyFormat.
Proof. solve_enum_i32. Qed.
#[export] Instance KeyOrigin_i32 : EnumI32 KeyOrigin.
Proof. solve_enum_i32. Qed.
#[export] Instance KeyPurpose_i32 : EnumI32 KeyPurpose.
Proof. solve_enum_i32. Qed.
#[export] Instance PaddingMode_i32 : EnumI32 PaddingMode.
Proof. solve_enum_i32. Qed.
#[export] Instance SecurityLevel_i32 : EnumI32 SecurityLevel.
Proof. solve_enum_i32. Qed.
#[export] Instance Tag_i32 : EnumI32 Tag.
Proof. solve_enum_i32. Qed.
#[export] Instance TagType_i32 : EnumI32 TagType.
Proof. solve_enum_i32. Qed.

(** ** Key parameters *)

(** Newtypes are represented by what they wrap. *)
Definition KeySizeInBits_codec : Codec Z := derive_newtype u32_codec id id.
Definition RsaExponent_codec : Codec Z := derive_newtype u64_codec id id.
Definition DateTime_codec : Codec Z := {|
  from_cbor_value value := val ← from_cbor_value i64_codec value; Ok val;
  to_cbor_value d := to_cbor_value i64_codec d
|}.

(** False values are represented by the absence of a tag. *)
Definition check_bool (value : Value) : CborResult unit :=
  match value with
  | VBool true => Ok tt
  | VBool false => Err (UnexpectedItem "false" "true")
  | _ => cbor_type_error value "true"
  end.

Definition key_param_from (tag : Tag) (raw : Value) : CborResult KeyParam :=
  match tag with
  | Tag_Algorithm => v ← from_cbor_value (derive_enum (A:=Algorithm)) raw; Ok (KP_Algorithm v)
  | Tag_BlockMode => v ← from_cbor_value (derive_enum (A:=BlockMode)) raw; Ok (KP_BlockMode v)
  | Tag_Padding => v ← from_cbor_value (derive_enum (A:=PaddingMode)) raw; Ok (KP_Padding v)
  | Tag_Digest => v ← from_cbor_value (derive_enum (A:=Digest)) raw; Ok (KP_Digest v)
  | Tag_EcCurve => v ← from_cbor_value (derive_enum (A:=EcCurve)) raw; Ok (KP_EcCurve v)
  | Tag_Origin => v ← from_cbor_value (derive_enum (A:=KeyOrigin)) raw; Ok (KP_Origin v)
  | Tag_Purpose => v ← from_cbor_value (derive_enum (A:=KeyPurpose)) raw; Ok (KP_Purpose v)
  | Tag_KeySize => v ← from_cbor_value KeySizeInBits_codec raw; Ok (KP_KeySize v)
  | Tag_CallerNonce => Ok KP_CallerNonce
  | Tag_MinMacLength => v ← from_cbor_value u32_codec raw; Ok (KP_MinMacLength v)
  | Tag_RsaPublicExponent => v ← from_cbor_value RsaExponent_codec raw; Ok (KP_RsaPublicExponent v)
  | Tag_IncludeUniqueId => _ ← check_bool raw; Ok KP_IncludeUniqueId
  | Tag_RsaOaepMgfDigest => v ← from_cbor_value (derive_enum (A:=Digest)) raw; Ok (KP_RsaOaepMgfDigest v)
  | Tag_BootloaderOnly => _ ← check_bool raw; Ok KP_BootloaderOnly
  | Tag_RollbackResistance => _ ← check_bool raw; Ok KP_RollbackResistance
  | Tag_EarlyBootOnly => _ ← check_bool raw; Ok KP_EarlyBootOnly
  | Tag_ActiveDatetime => v ← from_cbor_value DateTime_codec raw; Ok (KP_ActiveDatetime v)
  | Tag_OriginationExpireDatetime => v ← from_cbor_value DateTime_codec raw; Ok (KP_OriginationExpireDatetime v)
  | Tag_UsageExpireDatetime => v ← from_cbor_value DateTime_codec raw; Ok (KP_UsageExpireDatetime v)
  | Tag_MaxUsesPerBoot => v ← from_cbor_value u32_codec raw; Ok (KP_MaxUsesPerBoot v)
  | Tag_UsageCountLimit => v ← from_cbor_value u32_codec raw; Ok (KP_UsageCountLimit v)
  | Tag_UserId => v ← from_cbor_value u32_codec raw; Ok (KP_UserId v)
  | Tag_UserSecureId => v ← from_cbor_value u64_codec raw; Ok (KP_UserSecureId v)
  | Tag_NoAuthRequired => _ ← check_bool raw; Ok KP_NoAuthRequired
  | Tag_UserAuthType => v ← from_cbor_value u32_codec raw; Ok (KP_UserAuthType v)
  | Tag_AuthTimeout => v ← from_cbor_value u32_codec raw; Ok (KP_AuthTimeout v)
  | Tag_AllowWhileOnBody => Ok KP_AllowWhileOnBody
  | Tag_TrustedUserPresenceRequired => _ ← check_bool raw; Ok KP_TrustedUserPresenceRequired
  | Tag_TrustedConfirmationRequired => _ ← check_bool raw; Ok KP_TrustedConfirmationRequired
  | Tag_UnlockedDeviceRequired => _ ← check_bool raw; Ok KP_UnlockedDeviceRequired
  | Tag_ApplicationId => v ← from_cbor_value bytes_codec raw; Ok (KP_ApplicationId v)
  | Tag_ApplicationData => v ← from_cbor_value bytes_codec raw; Ok (KP_ApplicationData v)
  | Tag_CreationDatetime => v ← from_cbor_value DateTime_codec raw; Ok (KP_CreationDatetime v)
  | Tag_RootOfTrust => v ← from_cbor_value bytes_codec raw; Ok (KP_RootOfTrust v)
  | Tag_OsVersion => v ← from_cbor_value u32_codec raw; Ok (KP_OsVersion v)
  | Tag_OsPatchlevel => v ← from_cbor_value u32_codec raw; Ok (KP_OsPatchlevel v)
  | Tag_AttestationChallenge => v ← from_cbor_value bytes_codec raw; Ok (KP_AttestationChallenge v)
  | Tag_AttestationApplicationId => v ← from_cbor_value bytes_codec raw; Ok (KP_AttestationApplicationId v)
  | Tag_AttestationIdBrand => v ← from_cbor_value bytes_codec raw; Ok (KP_AttestationIdBrand v)
  | Tag_AttestationIdDevice => v ← from_cbor_value bytes_codec raw; Ok (KP_AttestationIdDevice v)
  | Tag_AttestationIdProduct => v ← from_cbor_value bytes_codec raw; Ok (KP_AttestationIdProduct v)
  | Tag_AttestationIdSerial => v ← from_cbor_value bytes_codec raw; Ok (KP_AttestationIdSerial v)
  | Tag_AttestationIdImei => v ← from_cbor_value bytes_codec raw; Ok (KP_AttestationIdImei v)
  | Tag_AttestationIdSecondImei => v ← from_cbor_value bytes_codec raw; Ok (KP_AttestationIdSecondImei v)
  | Tag_AttestationIdMeid => v ← from_cbor_value bytes_codec raw; Ok (KP_AttestationIdMeid v)
  | Tag_AttestationIdManufacturer => v ← from_cbor_value bytes_codec raw; Ok (KP_AttestationIdManufacturer v)
  | Tag_AttestationIdModel => v ← from_cbor_value bytes_codec raw; Ok (KP_AttestationIdModel v)
  | Tag_VendorPatchlevel => v ← from_cbor_value u32_codec raw; Ok (KP_VendorPatchlevel v)
  | Tag_BootPatchlevel => v ← from_cbor_value u32_codec raw; Ok (KP_BootPatchlevel v)
  | Tag_DeviceUniqueAttestation => _ ← check_bool raw; Ok KP_DeviceUniqueAttestation
  | Tag_StorageKey => Ok KP_StorageKey
  | Tag_Nonce => v ← from_cbor_value bytes_codec raw; Ok (KP_Nonce v)
  | Tag_MacLength => v ← from_cbor_value u32_codec raw; Ok (KP_MacLength v)
  | Tag_ResetSinceIdRotation => _ ← check_bool raw; Ok KP_ResetSinceIdRotation
  | Tag_CertificateSerial => v ← from_cbor_value bytes_codec raw; Ok (KP_CertificateSerial v)
  | Tag_CertificateSubject => v ← from_cbor_value bytes_codec raw; Ok (KP_CertificateSubject v)
  | Tag_CertificateNotBefore => v ← from_cbor_value DateTime_codec raw; Ok (KP_CertificateNotBefore v)
  | Tag_CertificateNotAfter => v ← from_cbor_value DateTime_codec raw; Ok (KP_CertificateNotAfter v)
  | Tag_MaxBootLevel => v ← from_cbor_value u32_codec raw; Ok (KP_MaxBootLevel v)
  | Tag_ModuleHash => v ← from_cbor_value bytes_codec raw; Ok (KP_ModuleHash v)
  | _ => Err (UnexpectedItem "tag" "known tag")
  end.

Definition key_param_to (p : KeyParam) : CborResult (Tag * Value) :=
  match p with
  | KP_Algorithm v => val ← to_cbor_value (derive_enum (A:=Algorithm)) v; Ok (Tag_Algorithm, val)
  | KP_BlockMode v => val ← to_cbor_value (derive_enum (A:=BlockMode)) v; Ok (Tag_BlockMode, val)
  | KP_Padding v => val ← to_cbor_value (derive_enum (A:=PaddingMode)) v; Ok (Tag_Padding, val)
  | KP_Digest v => val ← to_cbor_value (derive_enum (A:=Digest)) v; Ok (Tag_Digest, val)
  | KP_EcCurve v => val ← to_cbor_value (derive_enum (A:=EcCurve)) v; Ok (Tag_EcCurve, val)
  | KP_Origin v => val ← to_cbor_value (derive_enum (A:=KeyOrigin)) v; Ok (Tag_Origin, val)
  | KP_Purpose v => val ← to_cbor_value (derive_enum (A:=KeyPurpose)) v; Ok (Tag_Purpose, val)
  | KP_KeySize v => val ← to_cbor_value KeySizeInBits_codec v; Ok (Tag_KeySize, val)
  | KP_CallerNonce => val ← to_cbor_value bool_codec true; Ok (Tag_CallerNonce, val)
  | KP_MinMacLength v => val ← to_cbor_value u32_codec v; Ok (Tag_MinMacLength, val)
  | KP_RsaPublicExponent v => val ← to_cbor_value RsaExponent_codec v; Ok (Tag_RsaPublicExponent, val)
  | KP_IncludeUniqueId => val ← to_cbor_value bool_codec true; Ok (Tag_IncludeUniqueId, val)
  | KP_RsaOaepMgfDigest v => val ← to_cbor_value (derive_enum (A:=Digest)) v; Ok (Tag_RsaOaepMgfDigest, val)
  | KP_BootloaderOnly => val ← to_cbor_value bool_codec true; Ok (Tag_BootloaderOnly, val)
  | KP_RollbackResistance => val ← to_cbor_value bool_codec true; Ok (Tag_RollbackResistance, val)
  | KP_EarlyBootOnly => val ← to_cbor_value bool_codec true; Ok (Tag_EarlyBootOnly, val)
  | KP_ActiveDatetime v => val ← to_cbor_value DateTime_codec v; Ok (Tag_ActiveDatetime, val)
  | KP_OriginationExpireDatetime v => val ← to_cbor_value DateTime_codec v; Ok (Tag_OriginationExpireDatetime, val)
  | KP_UsageExpireDatetime v => val ← to_cbor_value DateTime_codec v; Ok (Tag_UsageExpireDatetime, val)
  | KP_MaxUsesPerBoot v => val ← to_cbor_value u32_codec v; Ok (Tag_MaxUsesPerBoot, val)
  | KP_UsageCountLimit v => val ← to_cbor_value u32_codec v; Ok (Tag_UsageCountLimit, val)
  | KP_UserId v => val ← to_cbor_value u32_codec v; Ok (Tag_UserId, val)
  | KP_UserSecureId v => val ← to_cbor_value u64_codec v; Ok (Tag_UserSecureId, val)
  | KP_NoAuthRequired => val ← to_cbor_value bool_codec true; Ok (Tag_NoAuthRequired, val)
  | KP_UserAuthType v => val ← to_cbor_value u32_codec v; Ok (Tag_UserAuthType, val)
  | KP_AuthTimeout v => val ← to_cbor_value u32_codec v; Ok (Tag_AuthTimeout, val)
  | KP_AllowWhileOnBody => val ← to_cbor_value bool_codec true; Ok (Tag_AllowWhileOnBody, val)
  | KP_TrustedUserPresenceRequired => val ← to_cbor_value bool_codec true; Ok (Tag_TrustedUserPresenceRequired, val)
  | KP_TrustedConfirmationRequired => val ← to_cbor_value bool_codec true; Ok (Tag_TrustedConfirmationRequired, val)
  | KP_UnlockedDeviceRequired => val ← to_cbor_value bool_codec true; Ok (Tag_UnlockedDeviceRequired, val)
  | KP_ApplicationId v => val ← to_cbor_value bytes_codec v; Ok (Tag_ApplicationId, val)
  | KP_ApplicationData v => val ← to_cbor_value bytes_codec v; Ok (Tag_ApplicationData, val)
  | KP_CreationDatetime v => val ← to_cbor_value DateTime_codec v; Ok (Tag_CreationDatetime, val)
  | KP_RootOfTrust v => val ← to_cbor_value bytes_codec v; Ok (Tag_RootOfTrust, val)
  | KP_OsVersion v => val ← to_cbor_value u32_codec v; Ok (Tag_OsVersion, val)
  | KP_OsPatchlevel v => val ← to_cbor_value u32_codec v; Ok (Tag_OsPatchlevel, val)
  | KP_AttestationChallenge v => val ← to_cbor_value bytes_codec v; Ok (Tag_AttestationChallenge, val)
  | KP_AttestationApplicationId v => val ← to_cbor_value bytes_codec v; Ok (Tag_AttestationApplicationId, val)
  | KP_AttestationIdBrand v => val ← to_cbor_value bytes_codec v; Ok (Tag_AttestationIdBrand, val)
  | KP_AttestationIdDevice v => val ← to_cbor_value bytes_codec v; Ok (Tag_AttestationIdDevice, val)
  | KP_AttestationIdProduct v => val ← to_cbor_value bytes_codec v; Ok (Tag_AttestationIdProduct, val)
  | KP_AttestationIdSerial v => val ← to_cbor_value bytes_codec v; Ok (Tag_AttestationIdSerial, val)
  | KP_AttestationIdImei v => val ← to_cbor_value bytes_codec v; Ok (Tag_AttestationIdImei, val)
  | KP_AttestationIdSecondImei v => val ← to_cbor_value bytes_codec v; Ok (Tag_AttestationIdSecondImei, val)
  | KP_AttestationIdMeid v => val ← to_cbor_value bytes_codec v; Ok (Tag_AttestationIdMeid, val)
  | KP_AttestationIdManufacturer v => val ← to_cbor_value bytes_codec v; Ok (Tag_AttestationIdManufacturer, val)
  | KP_AttestationIdModel v => val ← to_cbor_value bytes_codec v; Ok (Tag_AttestationIdModel, val)
  | KP_VendorPatchlevel v => val ← to_cbor_value u32_codec v; Ok (Tag_VendorPatchlevel, val)
  | KP_BootPatchlevel v => val ← to_cbor_value u32_codec v; Ok (Tag_BootPatchlevel, val)
  | KP_DeviceUniqueAttestation => val ← to_cbor_value bool_codec true; Ok (Tag_DeviceUniqueAttestation, val)
  | KP_StorageKey => val ← to_cbor_value bool_codec true; Ok (Tag_StorageKey, val)
  | KP_Nonce v => val ← to_cbor_value bytes_codec v; Ok (Tag_Nonce, val)
  | KP_MacLength v => val ← to_cbor_value u32_codec v; Ok (Tag_MacLength, val)
  | KP_ResetSinceIdRotation => val ← to_cbor_value bool_codec true; Ok (Tag_ResetSinceIdRotation, val)
  | KP_CertificateSerial v => val ← to_cbor_value bytes_codec v; Ok (Tag_CertificateSerial, val)
  | KP_CertificateSubject v => val ← to_cbor_value bytes_codec v; Ok (Tag_CertificateSubject, val)
  | KP_CertificateNotBefore v => val ← to_cbor_value DateTime_codec v; Ok (Tag_CertificateNotBefore, val)
  | KP_CertificateNotAfter v => val ← to_cbor_value DateTime_codec v; Ok (Tag_CertificateNotAfter, val)
  | KP_MaxBootLevel v => val ← to_cbor_value u32_codec v; Ok (Tag_MaxBootLevel, val)
  | KP_ModuleHash v => val ← to_cbor_value bytes_codec v; Ok (Tag_ModuleHash, val)
  end.

Definition KeyParam_codec : Codec KeyParam := {|
  from_cbor_value value :=
    match value with
    | VArray [v0; raw] => tag ← from_cbor_value derive_enum v0; key_param_from tag raw
    | VArray _ => Err (UnexpectedItem "arr" "arr len 2")
    | _ => cbor_type_error value "arr"
    end;
  to_cbor_value p :=
    '(tag, val) ← key_param_to p;
    t ← to_cbor_value derive_enum tag;
    Ok (VArray [t; val])
|}.

(** ** Structures *)

Inductive EekCurve : Set := EekCurve_None | EekCurve_P256 | EekCurve_Curve25519.
Definition EekCurve_discr (v : EekCurve) : Z :=
  match v with EekCurve_None => 0 | EekCurve_P256 => 1 | EekCurve_Curve25519 => 2 end.
#[export] Instance EekCurve_eq_dec : EqDecision EekCurve.
Proof. solve_decision. Defined.
#[export] Instance EekCurve_enum : REnum EekCurve.
Proof.
  refine {| discr := EekCurve_discr; variants := [EekCurve_None; EekCurve_P256; EekCurve_Curve25519] |}.
  - intros []; set_solver.
  - decide_compute.
Defined.
#[export] Instance EekCurve_i32 : EnumI32 EekCurve.
Proof. solve_enum_i32. Qed.

Definition Timestamp_codec : Codec Z :=
  derive_struct "arr len 1" (field i64_codec no_fields)
    (λ p, p.1)
    (λ z, (z, tt)).
Definition TimeStampToken_codec : Codec TimeStampToken :=
  derive_struct "arr len 3" (field i64_codec (field Timestamp_codec (field bytes_codec no_fields)))
    (λ '(x0, (x1, (x2, _))), {| tst_challenge := x0; tst_timestamp := x1; tst_mac := x2 |})
    (λ s, (tst_challenge s, (tst_timestamp s, (tst_mac s, tt)))).
Record SharedSecretParameters := { SharedSecretParameters_seed : bytes; SharedSecretParameters_nonce : bytes }.
Definition SharedSecretParameters_codec : Codec SharedSecretParameters :=
  derive_struct "arr len 2" (field bytes_codec (field bytes_codec no_fields))
    (λ '(x0, (x1, _)), {| SharedSecretParameters_seed := x0; SharedSecretParameters_nonce := x1 |})
    (λ s, (SharedSecretParameters_seed s, (SharedSecretParameters_nonce s, tt))).
Definition BootInfo_codec : Codec BootInfo :=
  derive_struct "arr len 5" (field bytes_codec (field bool_codec (field (derive_enum (A:=VerifiedBootState)) (field bytes_codec (field u32_codec no_fields)))))
    (λ '(x0, (x1, (x2, (x3, (x4, _))))), {| verified_boot_key := x0; device_boot_locked := x1; verified_boot_state := x2; verified_boot_hash := x3; boot_patchlevel := x4 |})
    (λ s, (verified_boot_key s, (device_boot_locked s, (verified_boot_state s, (verified_boot_hash s, (boot_patchlevel s, tt)))))).
Definition KeyCharacteristics_codec : Codec KeyCharacteristics :=
  derive_struct "arr len 2" (field (derive_enum (A:=SecurityLevel)) (field (vec_codec KeyParam_codec) no_fields))
    (λ '(x0, (x1, _)), {| security_level := x0; authorizations := x1 |})
    (λ s, (security_level s, (authorizations s, tt))).
Record AttestationKey := { AttestationKey_key_blob : bytes; AttestationKey_attest_key_params : (list KeyParam); AttestationKey_issuer_subject_name : bytes }.
Definition AttestationKey_codec : Codec AttestationKey :=
  derive_struct "arr len 3" (field bytes_codec (field (vec_codec KeyParam_codec) (field bytes_codec no_fields)))
    (λ '(x0, (x1, (x2, _))), {| AttestationKey_key_blob := x0; AttestationKey_attest_key_params := x1; AttestationKey_issuer_subject_name := x2 |})
    (λ s, (AttestationKey_key_blob s, (AttestationKey_attest_key_params s, (AttestationKey_issuer_subject_name s, tt)))).
Definition HardwareAuthToken_codec : Codec HardwareAuthToken :=
  derive_struct "arr len 6" (field i64_codec (field i64_codec (field i64_codec (field (derive_enum (A:=HardwareAuthenticatorType)) (field Timestamp_codec (field bytes_codec no_fields))))))
    (λ '(x0, (x1, (x2, (x3, (x4, (x5, _)))))), {| hat_challenge := x0; hat_user_id := x1; hat_authenticator_id := x2; hat_authenticator_type := x3; hat_timestamp := x4; hat_mac := x5 |})
    (λ s, (hat_challenge s, (hat_user_id s, (hat_authenticator_id s, (hat_authenticator_type s, (hat_timestamp s, (hat_mac s, tt))))))).
Record Certificate := { Certificate_encoded_certificate : bytes }.
Definition Certificate_codec : Codec Certificate :=
  derive_struct "arr len 1" (field bytes_codec no_fields)
    (λ '(x0, _), {| Certificate_encoded_certificate := x0 |})
    (λ s, (Certificate_encoded_certificate s, tt)).
Record KeyCreationResult := { KeyCreationResult_key_blob : bytes; KeyCreationResult_key_characteristics : (list KeyCharacteristics); KeyCreationResult_certificate_chain : (list Certificate) }.
Definition KeyCreationResult_codec : Codec KeyCreationResult :=
  derive_struct "arr len 3" (field bytes_codec (field (vec_codec KeyCharacteristics_codec) (field (vec_codec Certificate_codec) no_fields)))
    (λ '(x0, (x1, (x2, _))), {| KeyCreationResult_key_blob := x0; KeyCreationResult_key_characteristics := x1; KeyCreationResult_certificate_chain := x2 |})
    (λ s, (KeyCreationResult_key_blob s, (KeyCreationResult_key_characteristics s, (KeyCreationResult_certificate_chain s, tt)))).
Record KeyMintHardwareInfo := { KeyMintHardwareInfo_version_number : Z; KeyMintHardwareInfo_security_level : SecurityLevel; KeyMintHardwareInfo_key_mint_name : string; KeyMintHardwareInfo_key_mint_author_name : string; KeyMintHardwareInfo_timestamp_token_required : bool }.
Definition KeyMintHardwareInfo_codec : Codec KeyMintHardwareInfo :=
  derive_struct "arr len 5" (field i32_codec (field (derive_enum (A:=SecurityLevel)) (field string_codec (field string_codec (field bool_codec no_fields)))))
    (λ '(x0, (x1, (x2, (x3, (x4, _))))), {| KeyMintHardwareInfo_version_number := x0; KeyMintHardwareInfo_security_level := x1; KeyMintHardwareInfo_key_mint_name := x2; KeyMintHardwareInfo_key_mint_author_name := x3; KeyMintHardwareInfo_timestamp_token_required := x4 |})
    (λ s, (KeyMintHardwareInfo_version_number s, (KeyMintHardwareInfo_security_level s, (KeyMintHardwareInfo_key_mint_name s, (KeyMintHardwareInfo_key_mint_author_name s, (KeyMintHardwareInfo_timestamp_token_required s, tt)))))).
Record RpcHardwareInfo := { RpcHardwareInfo_version_number : Z; RpcHardwareInfo_rpc_author_name : string; RpcHardwareInfo_supported_eek_curve : EekCurve; RpcHardwareInfo_unique_id : (option string); RpcHardwareInfo_supported_num_keys_in_csr : Z }.
Definition RpcHardwareInfo_codec : Codec RpcHardwareInfo :=
  derive_struct "arr len 5" (field i32_codec (field string_codec (field (derive_enum (A:=EekCurve)) (field (option_codec string_codec) (field i32_codec no_fields)))))
    (λ '(x0, (x1, (x2, (x3, (x4, _))))), {| RpcHardwareInfo_version_number := x0; RpcHardwareInfo_rpc_author_name := x1; RpcHardwareInfo_supported_eek_curve := x2; RpcHardwareInfo_unique_id := x3; RpcHardwareInfo_supported_num_keys_in_csr := x4 |})
    (λ s, (RpcHardwareInfo_version_number s, (RpcHardwareInfo_rpc_author_name s, (RpcHardwareInfo_supported_eek_curve s, (RpcHardwareInfo_unique_id s, (RpcHardwareInfo_supported_num_keys_in_csr s, tt)))))).
Record MacedPublicKey := { MacedPublicKey_maced_key : bytes }.
Definition MacedPublicKey_codec : Codec MacedPublicKey :=
  derive_struct "arr len 1" (field bytes_codec no_fields)
    (λ '(x0, _), {| MacedPublicKey_maced_key := x0 |})
    (λ s, (MacedPublicKey_maced_key s, tt)).
Record ProtectedData := { ProtectedData_protected_data : bytes }.
Definition ProtectedData_codec : Codec ProtectedData :=
  derive_struct "arr len 1" (field bytes_codec no_fields)
    (λ '(x0, _), {| ProtectedData_protected_data := x0 |})
    (λ s, (ProtectedData_protected_data s, tt)).
Record DeviceInfo := { DeviceInfo_device_info : bytes }.
Definition DeviceInfo_codec : Codec DeviceInfo :=
  derive_struct "arr len 1" (field bytes_codec no_fields)
    (λ '(x0, _), {| DeviceInfo_device_info := x0 |})
    (λ s, (DeviceInfo_device_info s, tt)).
Record InternalBeginResult := { InternalBeginResult_challenge : Z; InternalBeginResult_params : (list KeyParam); InternalBeginResult_op_handle : Z }.
Definition InternalBeginResult_codec : Codec InternalBeginResult :=
  derive_struct "arr len 3" (field i64_codec (field (vec_codec KeyParam_codec) (field i64_codec no_fields)))
    (λ '(x0, (x1, (x2, _))), {| InternalBeginResult_challenge := x0; InternalBeginResult_params := x1; InternalBeginResult_op_handle := x2 |})
    (λ s, (InternalBeginResult_challenge s, (InternalBeginResult_params s, (InternalBeginResult_op_handle s, tt)))).
Record AttestationIdInfo := { AttestationIdInfo_brand : bytes; AttestationIdInfo_device : bytes; AttestationIdInfo_product : bytes; AttestationIdInfo_serial : bytes; AttestationIdInfo_imei : bytes; AttestationIdInfo_imei2 : bytes; AttestationIdInfo_meid : bytes; AttestationIdInfo_manufacturer : bytes; AttestationIdInfo_model : bytes }.
Definition AttestationIdInfo_codec : Codec AttestationIdInfo :=
  derive_struct "arr len 9" (field bytes_codec (field bytes_codec (field bytes_codec (field bytes_codec (field bytes_codec (field bytes_codec (field bytes_codec (field bytes_codec (field bytes_codec no_fields)))))))))
    (λ '(x0, (x1, (x2, (x3, (x4, (x5, (x6, (x7, (x8, _))))))))), {| AttestationIdInfo_brand := x0; AttestationIdInfo_device := x1; AttestationIdInfo_product := x2; AttestationIdInfo_serial := x3; AttestationIdInfo_imei := x4; AttestationIdInfo_imei2 := x5; AttestationIdInfo_meid := x6; AttestationIdInfo_manufacturer := x7; AttestationIdInfo_model := x8 |})
    (λ s, (AttestationIdInfo_brand s, (AttestationIdInfo_device s, (AttestationIdInfo_product s, (AttestationIdInfo_serial s, (AttestationIdInfo_imei s, (AttestationIdInfo_imei2 s, (AttestationIdInfo_meid s, (AttestationIdInfo_manufacturer s, (AttestationIdInfo_model s, tt)))))))))).
Record GetHardwareInfoRequest := { }.
Definition GetHardwareInfoRequest_codec : Codec GetHardwareInfoRequest :=
  derive_struct "arr len 0" no_fields
    (λ _ : unit, Build_GetHardwareInfoRequest)
    (λ _ : GetHardwareInfoRequest, tt).
Record GetHardwareInfoResponse := { GetHardwareInfoResponse_ret : KeyMintHardwareInfo }.
Definition GetHardwareInfoResponse_codec : Codec GetHardwareInfoResponse :=
  derive_struct "arr len 1" (field KeyMintHardwareInfo_codec no_fields)
    (λ '(x0, _), {| GetHardwareInfoResponse_ret := x0 |})
    (λ s, (GetHardwareInfoResponse_ret s, tt)).
Record AddRngEntropyRequest := { AddRngEntropyRequest_data : bytes }.
Definition AddRngEntropyRequest_codec : Codec AddRngEntropyRequest :=
  derive_struct "arr len 1" (field bytes_codec no_fields)
    (λ '(x0, _), {| AddRngEntropyRequest_data := x0 |})
    (λ s, (AddRngEntropyRequest_data s, tt)).
Record AddRngEntropyResponse := { }.
Definition AddRngEntropyResponse_codec : Codec AddRngEntropyResponse :=
  derive_struct "arr len 0" no_fields
    (λ _ : unit, Build_AddRngEntropyResponse)
    (λ _ : AddRngEntropyResponse, tt).
Record GenerateKeyRequest := { GenerateKeyRequest_key_params : (list KeyParam); GenerateKeyRequest_attestation_key : (option AttestationKey) }.
Definition GenerateKeyRequest_codec : Codec GenerateKeyRequest :=
  derive_struct "arr len 2" (field (vec_codec KeyParam_codec) (field (option_codec AttestationKey_codec) no_fields))
    (λ '(x0, (x1, _)), {| GenerateKeyRequest_key_params := x0; GenerateKeyRequest_attestation_key := x1 |})
    (λ s, (GenerateKeyRequest_key_params s, (GenerateKeyRequest_attestation_key s, tt))).
Record GenerateKeyResponse := { GenerateKeyResponse_ret : KeyCreationResult }.
Definition GenerateKeyResponse_codec : Codec GenerateKeyResponse :=
  derive_struct "arr len 1" (field KeyCreationResult_codec no_fields)
    (λ '(x0, _), {| GenerateKeyResponse_ret := x0 |})
    (λ s, (GenerateKeyResponse_ret s, tt)).
Record ImportKeyRequest := { ImportKeyRequest_key_params : (list KeyParam); ImportKeyRequest_key_format : KeyFormat; ImportKeyRequest_key_data : bytes; ImportKeyRequest_attestation_key : (option AttestationKey) }.
Definition ImportKeyRequest_codec : Codec ImportKeyRequest :=
  derive_struct "arr len 4" (field (vec_codec KeyParam_codec) (field (derive_enum (A:=KeyFormat)) (field bytes_codec (field (option_codec AttestationKey_codec) no_fields))))
    (λ '(x0, (x1, (x2, (x3, _)))), {| ImportKeyRequest_key_params := x0; ImportKeyRequest_key_format := x1; ImportKeyRequest_key_data := x2; ImportKeyRequest_attestation_key := x3 |})
    (λ s, (ImportKeyRequest_key_params s, (ImportKeyRequest_key_format s, (ImportKeyRequest_key_data s, (ImportKeyRequest_attestation_key s, tt))))).
Record ImportKeyResponse := { ImportKeyResponse_ret : KeyCreationResult }.
Definition ImportKeyResponse_codec : Codec ImportKeyResponse :=
  derive_struct "arr len 1" (field KeyCreationResult_codec no_fields)
    (λ '(x0, _), {| ImportKeyResponse_ret := x0 |})
    (λ s, (ImportKeyResponse_ret s, tt)).
Record ImportWrappedKeyRequest := { ImportWrappedKeyRequest_wrapped_key_data : bytes; ImportWrappedKeyRequest_wrapping_key_blob : bytes; ImportWrappedKeyRequest_masking_key : bytes; ImportWrappedKeyRequest_unwrapping_params : (list KeyParam); ImportWrappedKeyRequest_password_sid : Z; ImportWrappedKeyRequest_biometric_sid : Z }.
Definition ImportWrappedKeyRequest_codec : Codec ImportWrappedKeyRequest :=
  derive_struct "arr len 6" (field bytes_codec (field bytes_codec (field bytes_codec (field (vec_codec KeyParam_codec) (field i64_codec (field i64_codec no_fields))))))
    (λ '(x0, (x1, (x2, (x3, (x4, (x5, _)))))), {| ImportWrappedKeyRequest_wrapped_key_data := x0; ImportWrappedKeyRequest_wrapping_key_blob := x1; ImportWrappedKeyRequest_masking_key := x2; ImportWrappedKeyRequest_unwrapping_params := x3; ImportWrappedKeyRequest_password_sid := x4; ImportWrappedKeyRequest_biometric_sid := x5 |})
    (λ s, (ImportWrappedKeyRequest_wrapped_key_data s, (ImportWrappedKeyRequest_wrapping_key_blob s, (ImportWrappedKeyRequest_masking_key s, (ImportWrappedKeyRequest_unwrapping_params s, (ImportWrappedKeyRequest_password_sid s, (ImportWrappedKeyRequest_biometric_sid s, tt))))))).
Record ImportWrappedKeyResponse := { ImportWrappedKeyResponse_ret : KeyCreationResult }.
Definition ImportWrappedKeyResponse_codec : Codec ImportWrappedKeyResponse :=
  derive_struct "arr len 1" (field KeyCreationResult_codec no_fields)
    (λ '(x0, _), {| ImportWrappedKeyResponse_ret := x0 |})
    (λ s, (ImportWrappedKeyResponse_ret s, tt)).
Record UpgradeKeyRequest := { UpgradeKeyRequest_key_blob_to_upgrade : bytes; UpgradeKeyRequest_upgrade_params : (list KeyParam) }.
Definition UpgradeKeyRequest_codec : Codec UpgradeKeyRequest :=
  derive_struct "arr len 2" (field bytes_codec (field (vec_codec KeyParam_codec) no_fields))
    (λ '(x0, (x1, _)), {| UpgradeKeyRequest_key_blob_to_upgrade := x0; UpgradeKeyRequest_upgrade_params := x1 |})
    (λ s, (UpgradeKeyRequest_key_blob_to_upgrade s, (UpgradeKeyRequest_upgrade_params s, tt))).
Record UpgradeKeyResponse := { UpgradeKeyResponse_ret : bytes }.
Definition UpgradeKeyResponse_codec : Codec UpgradeKeyResponse :=
  derive_struct "arr len 1" (field bytes_codec no_fields)
    (λ '(x0, _), {| UpgradeKeyResponse_ret := x0 |})
    (λ s, (UpgradeKeyResponse_ret s, tt)).
Record DeleteKeyRequest := { DeleteKeyRequest_key_blob : bytes }.
Definition DeleteKeyRequest_codec : Codec DeleteKeyRequest :=
  derive_struct "arr len 1" (field bytes_codec no_fields)
    (λ '(x0, _), {| DeleteKeyRequest_key_blob := x0 |})
    (λ s, (DeleteKeyRequest_key_blob s, tt)).
Record DeleteKeyResponse := { }.
Definition DeleteKeyResponse_codec : Codec DeleteKeyResponse :=
  derive_struct "arr len 0" no_fields
    (λ _ : unit, Build_DeleteKeyResponse)
    (λ _ : DeleteKeyResponse, tt).
Record DeleteAllKeysRequest := { }.
Definition DeleteAllKeysRequest_codec : Codec DeleteAllKeysRequest :=
  derive_struct "arr len 0" no_fields
    (λ _ : unit, Build_DeleteAllKeysRequest)
    (λ _ : DeleteAllKeysRequest, tt).
Record DeleteAllKeysResponse := { }.
Definition DeleteAllKeysResponse_codec : Codec DeleteAllKeysResponse :=
  derive_struct "arr len 0" no_fields
    (λ _ : unit, Build_DeleteAllKeysResponse)
    (λ _ : DeleteAllKeysResponse, tt).
Record DestroyAttestationIdsRequest := { }.
Definition DestroyAttestationIdsRequest_codec : Codec DestroyAttestationIdsRequest :=
  derive_struct "arr len 0" no_fields
    (λ _ : unit, Build_DestroyAttestationIdsRequest)
    (λ _ : DestroyAttestationIdsRequest, tt).
Record DestroyAttestationIdsResponse := { }.
Definition DestroyAttestationIdsResponse_codec : Codec DestroyAttestationIdsResponse :=
  derive_struct "arr len 0" no_fields
    (λ _ : unit, Build_DestroyAttestationIdsResponse)
    (λ _ : DestroyAttestationIdsResponse, tt).
Record BeginRequest := { BeginRequest_purpose : KeyPurpose; BeginRequest_key_blob : bytes; BeginRequest_params : (list KeyParam); BeginRequest_auth_token : (option HardwareAuthToken) }.
Definition BeginRequest_codec : Codec BeginRequest :=
  derive_struct "arr len 4" (field (derive_enum (A:=KeyPurpose)) (field bytes_codec (field (vec_codec KeyParam_codec) (field (option_codec HardwareAuthToken_codec) no_fields))))
    (λ '(x0, (x1, (x2, (x3, _)))), {| BeginRequest_purpose := x0; BeginRequest_key_blob := x1; BeginRequest_params := x2; BeginRequest_auth_token := x3 |})
    (λ s, (BeginRequest_purpose s, (BeginRequest_key_blob s, (BeginRequest_params s, (BeginRequest_auth_token s, tt))))).
Record BeginResponse := { BeginResponse_ret : InternalBeginResult }.
Definition BeginResponse_codec : Codec BeginResponse :=
  derive_struct "arr len 1" (field InternalBeginResult_codec no_fields)
    (λ '(x0, _), {| BeginResponse_ret := x0 |})
    (λ s, (BeginResponse_ret s, tt)).
Record EarlyBootEndedRequest := { }.
Definition EarlyBootEndedRequest_codec : Codec EarlyBootEndedRequest :=
  derive_struct "arr len 0" no_fields
    (λ _ : unit, Build_EarlyBootEndedRequest)
    (λ _ : EarlyBootEndedRequest, tt).
Record EarlyBootEndedResponse := { }.
Definition EarlyBootEndedResponse_codec : Codec EarlyBootEndedResponse :=
  derive_struct "arr len 0" no_fields
    (λ _ : unit, Build_EarlyBootEndedResponse)
    (λ _ : EarlyBootEndedResponse, tt).
Record ConvertStorageKeyToEphemeralRequest := { ConvertStorageKeyToEphemeralRequest_storage_key_blob : bytes }.
Definition ConvertStorageKeyToEphemeralRequest_codec : Codec ConvertStorageKeyToEphemeralRequest :=
  derive_struct "arr len 1" (field bytes_codec no_fields)
    (λ '(x0, _), {| ConvertStorageKeyToEphemeralRequest_storage_key_blob := x0 |})
    (λ s, (ConvertStorageKeyToEphemeralRequest_storage_key_blob s, tt)).
Record ConvertStorageKeyToEphemeralResponse := { ConvertStorageKeyToEphemeralResponse_ret : bytes }.
Definition ConvertStorageKeyToEphemeralResponse_codec : Codec ConvertStorageKeyToEphemeralResponse :=
  derive_struct "arr len 1" (field bytes_codec no_fields)
    (λ '(x0, _), {| ConvertStorageKeyToEphemeralResponse_ret := x0 |})
    (λ s, (ConvertStorageKeyToEphemeralResponse_ret s, tt)).
Record GetKeyCharacteristicsRequest := { GetKeyCharacteristicsRequest_key_blob : bytes; GetKeyCharacteristicsRequest_app_id : bytes; GetKeyCharacteristicsRequest_app_data : bytes }.
Definition GetKeyCharacteristicsRequest_codec : Codec GetKeyCharacteristicsRequest :=
  derive_struct "arr len 3" (field bytes_codec (field bytes_codec (field bytes_codec no_fields)))
    (λ '(x0, (x1, (x2, _))), {| GetKeyCharacteristicsRequest_key_blob := x0; GetKeyCharacteristicsRequest_app_id := x1; GetKeyCharacteristicsRequest_app_data := x2 |})
    (λ s, (GetKeyCharacteristicsRequest_key_blob s, (GetKeyCharacteristicsRequest_app_id s, (GetKeyCharacteristicsRequest_app_data s, tt)))).
Record GetKeyCharacteristicsResponse := { GetKeyCharacteristicsResponse_ret : (list KeyCharacteristics) }.
Definition GetKeyCharacteristicsResponse_codec : Codec GetKeyCharacteristicsResponse :=
  derive_struct "arr len 1" (field (vec_codec KeyCharacteristics_codec) no_fields)
    (λ '(x0, _), {| GetKeyCharacteristicsResponse_ret := x0 |})
    (λ s, (GetKeyCharacteristicsResponse_ret s, tt)).
Record GetRootOfTrustChallengeRequest := { }.
Definition GetRootOfTrustChallengeRequest_codec : Codec GetRootOfTrustChallengeRequest :=
  derive_struct "arr len 0" no_fields
    (λ _ : unit, Build_GetRootOfTrustChallengeRequest)
    (λ _ : GetRootOfTrustChallengeRequest, tt).
Record GetRootOfTrustChallengeResponse := { GetRootOfTrustChallengeResponse_ret : bytes }.
Definition GetRootOfTrustChallengeResponse_codec : Codec GetRootOfTrustChallengeResponse :=
  derive_struct "arr len 1" (field (array_codec 16) no_fields)
    (λ '(x0, _), {| GetRootOfTrustChallengeResponse_ret := x0 |})
    (λ s, (GetRootOfTrustChallengeResponse_ret s, tt)).
Record GetRootOfTrustRequest := { GetRootOfTrustRequest_challenge : bytes }.
Definition GetRootOfTrustRequest_codec : Codec GetRootOfTrustRequest :=
  derive_struct "arr len 1" (field (array_codec 16) no_fields)
    (λ '(x0, _), {| GetRootOfTrustRequest_challenge := x0 |})
    (λ s, (GetRootOfTrustRequest_challenge s, tt)).
Record GetRootOfTrustResponse := { GetRootOfTrustResponse_ret : bytes }.
Definition GetRootOfTrustResponse_codec : Codec GetRootOfTrustResponse :=
  derive_struct "arr len 1" (field bytes_codec no_fields)
    (λ '(x0, _), {| GetRootOfTrustResponse_ret := x0 |})
    (λ s, (GetRootOfTrustResponse_ret s, tt)).
Record SendRootOfTrustRequest := { SendRootOfTrustRequest_root_of_trust : bytes }.
Definition SendRootOfTrustRequest_codec : Codec SendRootOfTrustRequest :=
  derive_struct "arr len 1" (field bytes_codec no_fields)
    (λ '(x0, _), {| SendRootOfTrustRequest_root_of_trust := x0 |})
    (λ s, (SendRootOfTrustRequest_root_of_trust s, tt)).
Record SendRootOfTrustResponse := { }.
Definition SendRootOfTrustResponse_codec : Codec SendRootOfTrustResponse :=
  derive_struct "arr len 0" no_fields
    (λ _ : unit, Build_SendRootOfTrustResponse)
    (λ _ : SendRootOfTrustResponse, tt).
Record SetAdditionalAttestationInfoRequest := { SetAdditionalAttestationInfoRequest_info : (list KeyParam) }.
Definition SetAdditionalAttestationInfoRequest_codec : Codec SetAdditionalAttestationInfoRequest :=
  derive_struct "arr len 1" (field (vec_codec KeyParam_codec) no_fields)
    (λ '(x0, _), {| SetAdditionalAttestationInfoRequest_info := x0 |})
    (λ s, (SetAdditionalAttestationInfoRequest_info s, tt)).
Record SetAdditionalAttestationInfoResponse := { }.
Definition SetAdditionalAttestationInfoResponse_codec : Codec SetAdditionalAttestationInfoResponse :=
  derive_struct "arr len 0" no_fields
    (λ _ : unit, Build_SetAdditionalAttestationInfoResponse)
    (λ _ : SetAdditionalAttestationInfoResponse, tt).
Record UpdateAadRequest := { UpdateAadRequest_op_handle : Z; UpdateAadRequest_input : bytes; UpdateAadRequest_auth_token : (option HardwareAuthToken); UpdateAadRequest_timestamp_token : (option TimeStampToken) }.
Definition UpdateAadRequest_codec : Codec UpdateAadRequest :=
  derive_struct "arr len 4" (field i64_codec (field bytes_codec (field (option_codec HardwareAuthToken_codec) (field (option_codec TimeStampToken_codec) no_fields))))
    (λ '(x0, (x1, (x2, (x3, _)))), {| UpdateAadRequest_op_handle := x0; UpdateAadRequest_input := x1; UpdateAadRequest_auth_token := x2; UpdateAadRequest_timestamp_token := x3 |})
    (λ s, (UpdateAadRequest_op_handle s, (UpdateAadRequest_input s, (UpdateAadRequest_auth_token s, (UpdateAadRequest_timestamp_token s, tt))))).
Record UpdateAadResponse := { }.
Definition UpdateAadResponse_codec : Codec UpdateAadResponse :=
  derive_struct "arr len 0" no_fields
    (λ _ : unit, Build_UpdateAadResponse)
    (λ _ : UpdateAadResponse, tt).
Record UpdateRequest := { UpdateRequest_op_handle : Z; UpdateRequest_input : bytes; UpdateRequest_auth_token : (option HardwareAuthToken); UpdateRequest_timestamp_token : (option TimeStampToken) }.
Definition UpdateRequest_codec : Codec UpdateRequest :=
  derive_struct "arr len 4" (field i64_codec (field bytes_codec (field (option_codec HardwareAuthToken_codec) (field (option_codec TimeStampToken_codec) no_fields))))
    (λ '(x0, (x1, (x2, (x3, _)))), {| UpdateRequest_op_handle := x0; UpdateRequest_input := x1; UpdateRequest_auth_token := x2; UpdateRequest_timestamp_token := x3 |})
    (λ s, (UpdateRequest_op_handle s, (UpdateRequest_input s, (UpdateRequest_auth_token s, (UpdateRequest_timestamp_token s, tt))))).
Record UpdateResponse := { UpdateResponse_ret : bytes }.
Definition UpdateResponse_codec : Codec UpdateResponse :=
  derive_struct "arr len 1" (field bytes_codec no_fields)
    (λ '(x0, _), {| UpdateResponse_ret := x0 |})
    (λ s, (UpdateResponse_ret s, tt)).
Record FinishRequest := { FinishRequest_op_handle : Z; FinishRequest_input : (option bytes); FinishRequest_signature : (option bytes); FinishRequest_auth_token : (option HardwareAuthToken); FinishRequest_timestamp_token : (option TimeStampToken); FinishRequest_confirmation_token : (option bytes) }.
Definition FinishRequest_codec : Codec FinishRequest :=
  derive_struct "arr len 6" (field i64_codec (field (option_codec bytes_codec) (field (option_codec bytes_codec) (field (option_codec HardwareAuthToken_codec) (field (option_codec TimeStampToken_codec) (field (option_codec bytes_codec) no_fields))))))
    (λ '(x0, (x1, (x2, (x3, (x4, (x5, _)))))), {| FinishRequest_op_handle := x0; FinishRequest_input := x1; FinishRequest_signature := x2; FinishRequest_auth_token := x3; FinishRequest_timestamp_token := x4; FinishRequest_confirmation_token := x5 |})
    (λ s, (FinishRequest_op_handle s, (FinishRequest_input s, (FinishRequest_signature s, (FinishRequest_auth_token s, (FinishRequest_timestamp_token s, (FinishRequest_confirmation_token s, tt))))))).
Record FinishResponse := { FinishResponse_ret : bytes }.
Definition FinishResponse_codec : Codec FinishResponse :=
  derive_struct "arr len 1" (field bytes_codec no_fields)
    (λ '(x0, _), {| FinishResponse_ret := x0 |})
    (λ s, (FinishResponse_ret s, tt)).
Record AbortRequest := { AbortRequest_op_handle : Z }.
Definition AbortRequest_codec : Codec AbortRequest :=
  derive_struct "arr len 1" (field i64_codec no_fields)
    (λ '(x0, _), {| AbortRequest_op_handle := x0 |})
    (λ s, (AbortRequest_op_handle s, tt)).
Record AbortResponse := { }.
Definition AbortResponse_codec : Codec AbortResponse :=
  derive_struct "arr len 0" no_fields
    (λ _ : unit, Build_AbortResponse)
    (λ _ : AbortResponse, tt).
Record GetRpcHardwareInfoRequest := { }.
Definition GetRpcHardwareInfoRequest_codec : Codec GetRpcHardwareInfoRequest :=
  derive_struct "arr len 0" no_fields
    (λ _ : unit, Build_GetRpcHardwareInfoRequest)
    (λ _ : GetRpcHardwareInfoRequest, tt).
Record GetRpcHardwareInfoResponse := { GetRpcHardwareInfoResponse_ret : RpcHardwareInfo }.
Definition GetRpcHardwareInfoResponse_codec : Codec GetRpcHardwareInfoResponse :=
  derive_struct "arr len 1" (field RpcHardwareInfo_codec no_fields)
    (λ '(x0, _), {| GetRpcHardwareInfoResponse_ret := x0 |})
    (λ s, (GetRpcHardwareInfoResponse_ret s, tt)).
Record GenerateEcdsaP256KeyPairRequest := { GenerateEcdsaP256KeyPairRequest_test_mode : bool }.
Definition GenerateEcdsaP256KeyPairRequest_codec : Codec GenerateEcdsaP256KeyPairRequest :=
  derive_struct "arr len 1" (field bool_codec no_fields)
    (λ '(x0, _), {| GenerateEcdsaP256KeyPairRequest_test_mode := x0 |})
    (λ s, (GenerateEcdsaP256KeyPairRequest_test_mode s, tt)).
Record GenerateEcdsaP256KeyPairResponse := { GenerateEcdsaP256KeyPairResponse_maced_public_key : MacedPublicKey; GenerateEcdsaP256KeyPairResponse_ret : bytes }.
Definition GenerateEcdsaP256KeyPairResponse_codec : Codec GenerateEcdsaP256KeyPairResponse :=
  derive_struct "arr len 2" (field MacedPublicKey_codec (field bytes_codec no_fields))
    (λ '(x0, (x1, _)), {| GenerateEcdsaP256KeyPairResponse_maced_public_key := x0; GenerateEcdsaP256KeyPairResponse_ret := x1 |})
    (λ s, (GenerateEcdsaP256KeyPairResponse_maced_public_key s, (GenerateEcdsaP256KeyPairResponse_ret s, tt))).
Record GenerateCertificateRequestRequest := { GenerateCertificateRequestRequest_test_mode : bool; GenerateCertificateRequestRequest_keys_to_sign : (list MacedPublicKey); GenerateCertificateRequestRequest_endpoint_encryption_cert_chain : bytes; GenerateCertificateRequestRequest_challenge : bytes }.
Definition GenerateCertificateRequestRequest_codec : Codec GenerateCertificateRequestRequest :=
  derive_struct "arr len 4" (field bool_codec (field (vec_codec MacedPublicKey_codec) (field bytes_codec (field bytes_codec no_fields))))
    (λ '(x0, (x1, (x2, (x3, _)))), {| GenerateCertificateRequestRequest_test_mode := x0; GenerateCertificateRequestRequest_keys_to_sign := x1; GenerateCertificateRequestRequest_endpoint_encryption_cert_chain := x2; GenerateCertificateRequestRequest_challenge := x3 |})
    (λ s, (GenerateCertificateRequestRequest_test_mode s, (GenerateCertificateRequestRequest_keys_to_sign s, (GenerateCertificateRequestRequest_endpoint_encryption_cert_chain s, (GenerateCertificateRequestRequest_challenge s, tt))))).
Record GenerateCertificateRequestResponse := { GenerateCertificateRequestResponse_device_info : DeviceInfo; GenerateCertificateRequestResponse_protected_data : ProtectedData; GenerateCertificateRequestResponse_ret : bytes }.
Definition GenerateCertificateRequestResponse_codec : Codec GenerateCertificateRequestResponse :=
  derive_struct "arr len 3" (field DeviceInfo_codec (field ProtectedData_codec (field bytes_codec no_fields)))
    (λ '(x0, (x1, (x2, _))), {| GenerateCertificateRequestResponse_device_info := x0; GenerateCertificateRequestResponse_protected_data := x1; GenerateCertificateRequestResponse_ret := x2 |})
    (λ s, (GenerateCertificateRequestResponse_device_info s, (GenerateCertificateRequestResponse_protected_data s, (GenerateCertificateRequestResponse_ret s, tt)))).
Record GenerateCertificateRequestV2Request := { GenerateCertificateRequestV2Request_keys_to_sign : (list MacedPublicKey); GenerateCertificateRequestV2Request_challenge : bytes }.
Definition GenerateCertificateRequestV2Request_codec : Codec GenerateCertificateRequestV2Request :=
  derive_struct "arr len 2" (field (vec_codec MacedPublicKey_codec) (field bytes_codec no_fields))
    (λ '(x0, (x1, _)), {| GenerateCertificateRequestV2Request_keys_to_sign := x0; GenerateCertificateRequestV2Request_challenge := x1 |})
    (λ s, (GenerateCertificateRequestV2Request_keys_to_sign s, (GenerateCertificateRequestV2Request_challenge s, tt))).
Record GenerateCertificateRequestV2Response := { GenerateCertificateRequestV2Response_ret : bytes }.
Definition GenerateCertificateRequestV2Response_codec : Codec GenerateCertificateRequestV2Response :=
  derive_struct "arr len 1" (field bytes_codec no_fields)
    (λ '(x0, _), {| GenerateCertificateRequestV2Response_ret := x0 |})
    (λ s, (GenerateCertificateRequestV2Response_ret s, tt)).
Record GetSharedSecretParametersRequest := { }.
Definition GetSharedSecretParametersRequest_codec : Codec GetSharedSecretParametersRequest :=
  derive_struct "arr len 0" no_fields
    (λ _ : unit, Build_GetSharedSecretParametersRequest)
    (λ _ : GetSharedSecretParametersRequest, tt).
Record GetSharedSecretParametersResponse := { GetSharedSecretParametersResponse_ret : SharedSecretParameters }.
Definition GetSharedSecretParametersResponse_codec : Codec GetSharedSecretParametersResponse :=
  derive_struct "arr len 1" (field SharedSecretParameters_codec no_fields)
    (λ '(x0, _), {| GetSharedSecretParametersResponse_ret := x0 |})
    (λ s, (GetSharedSecretParametersResponse_ret s, tt)).
Record ComputeSharedSecretRequest := { ComputeSharedSecretRequest_params : (list SharedSecretParameters) }.
Definition ComputeSharedSecretRequest_codec : Codec ComputeSharedSecretRequest :=
  derive_struct "arr len 1" (field (vec_codec SharedSecretParameters_codec) no_fields)
    (λ '(x0, _), {| ComputeSharedSecretRequest_params := x0 |})
    (λ s, (ComputeSharedSecretRequest_params s, tt)).
Record ComputeSharedSecretResponse := { ComputeSharedSecretResponse_ret : bytes }.
Definition ComputeSharedSecretResponse_codec : Codec ComputeSharedSecretResponse :=
  derive_struct "arr len 1" (field bytes_codec no_fields)
    (λ '(x0, _), {| ComputeSharedSecretResponse_ret := x0 |})
    (λ s, (ComputeSharedSecretResponse_ret s, tt)).
Record GenerateTimeStampRequest := { GenerateTimeStampRequest_challenge : Z }.
Definition GenerateTimeStampRequest_codec : Codec GenerateTimeStampRequest :=
  derive_struct "arr len 1" (field i64_codec no_fields)
    (λ '(x0, _), {| GenerateTimeStampRequest_challenge := x0 |})
    (λ s, (GenerateTimeStampRequest_challenge s, tt)).
Record GenerateTimeStampResponse := { GenerateTimeStampResponse_ret : TimeStampToken }.
Definition GenerateTimeStampResponse_codec : Codec GenerateTimeStampResponse :=
  derive_struct "arr len 1" (field TimeStampToken_codec no_fields)
    (λ '(x0, _), {| GenerateTimeStampResponse_ret := x0 |})
    (λ s, (GenerateTimeStampResponse_ret s, tt)).
Record SetHalInfoRequest := { SetHalInfoRequest_os_version : Z; SetHalInfoRequest_os_patchlevel : Z; SetHalInfoRequest_vendor_patchlevel : Z }.
Definition SetHalInfoRequest_codec : Codec SetHalInfoRequest :=
  derive_struct "arr len 3" (field u32_codec (field u32_codec (field u32_codec no_fields)))
    (λ '(x0, (x1, (x2, _))), {| SetHalInfoRequest_os_version := x0; SetHalInfoRequest_os_patchlevel := x1; SetHalInfoRequest_vendor_patchlevel := x2 |})
    (λ s, (SetHalInfoRequest_os_version s, (SetHalInfoRequest_os_patchlevel s, (SetHalInfoRequest_vendor_patchlevel s, tt)))).
Record SetHalInfoResponse := { }.
Definition SetHalInfoResponse_codec : Codec SetHalInfoResponse :=
  derive_struct "arr len 0" no_fields
    (λ _ : unit, Build_SetHalInfoResponse)
    (λ _ : SetHalInfoResponse, tt).
Record SetHalVersionRequest := { SetHalVersionRequest_aidl_version : Z }.
Definition SetHalVersionRequest_codec : Codec SetHalVersionRequest :=
  derive_struct "arr len 1" (field u32_codec no_fields)
    (λ '(x0, _), {| SetHalVersionRequest_aidl_version := x0 |})
    (λ s, (SetHalVersionRequest_aidl_version s, tt)).
Record SetHalVersionResponse := { }.
Definition SetHalVersionResponse_codec : Codec SetHalVersionResponse :=
  derive_struct "arr len 0" no_fields
    (λ _ : unit, Build_SetHalVersionResponse)
    (λ _ : SetHalVersionResponse, tt).
Record SetBootInfoRequest := { SetBootInfoRequest_verified_boot_key : bytes; SetBootInfoRequest_device_boot_locked : bool; SetBootInfoRequest_verified_boot_state : Z; SetBootInfoRequest_verified_boot_hash : bytes; SetBootInfoRequest_boot_patchlevel : Z }.
Definition SetBootInfoRequest_codec : Codec SetBootInfoRequest :=
  derive_struct "arr len 5" (field bytes_codec (field bool_codec (field i32_codec (field bytes_codec (field u32_codec no_fields)))))
    (λ '(x0, (x1, (x2, (x3, (x4, _))))), {| SetBootInfoRequest_verified_boot_key := x0; SetBootInfoRequest_device_boot_locked := x1; SetBootInfoRequest_verified_boot_state := x2; SetBootInfoRequest_verified_boot_hash := x3; SetBootInfoRequest_boot_patchlevel := x4 |})
    (λ s, (SetBootInfoRequest_verified_boot_key s, (SetBootInfoRequest_device_boot_locked s, (SetBootInfoRequest_verified_boot_state s, (SetBootInfoRequest_verified_boot_hash s, (SetBootInfoRequest_boot_patchlevel s, tt)))))).
Record SetBootInfoResponse := { }.
Definition SetBootInfoResponse_codec : Codec SetBootInfoResponse :=
  derive_struct "arr len 0" no_fields
    (λ _ : unit, Build_SetBootInfoResponse)
    (λ _ : SetBootInfoResponse, tt).
Record SetAttestationIdsRequest := { SetAttestationIdsRequest_ids : AttestationIdInfo }.
Definition SetAttestationIdsRequest_codec : Codec SetAttestationIdsRequest :=
  derive_struct "arr len 1" (field AttestationIdInfo_codec no_fields)
    (λ '(x0, _), {| SetAttestationIdsRequest_ids := x0 |})
    (λ s, (SetAttestationIdsRequest_ids s, tt)).
Record SetAttestationIdsResponse := { }.
Definition SetAttestationIdsResponse_codec : Codec SetAttestationIdsResponse :=
  derive_struct "arr len 0" no_fields
    (λ _ : unit, Build_SetAttestationIdsResponse)
    (λ _ : SetAttestationIdsResponse, tt).

(** ** Requests and responses *)

Inductive KeyMintOperation : Set :=
| Op_DeviceGetHardwareInfo
| Op_DeviceAddRngEntropy
| Op_DeviceGenerateKey
| Op_DeviceImportKey
| Op_DeviceImportWrappedKey
| Op_DeviceUpgradeKey
| Op_DeviceDeleteKey
| Op_DeviceDeleteAllKeys
| Op_DeviceDestroyAttestationIds
| Op_DeviceBegin
| Op_DeviceEarlyBootEnded
| Op_DeviceConvertStorageKeyToEphemeral
| Op_DeviceGetKeyCharacteristics
| Op_OperationUpdateAad
| Op_OperationUpdate
| Op_OperationFinish
| Op_OperationAbort
| Op_RpcGetHardwareInfo
| Op_RpcGenerateEcdsaP256KeyPair
| Op_RpcGenerateCertificateRequest
| Op_RpcGenerateCertificateV2Request
| Op_SharedSecretGetSharedSecretParameters
| Op_SharedSecretComputeSharedSecret
| Op_SecureClockGenerateTimeStamp
| Op_GetRootOfTrustChallenge
| Op_GetRootOfTrust
| Op_SendRootOfTrust
| Op_SetHalInfo
| Op_SetBootInfo
| Op_SetAttestationIds
| Op_SetHalVersion
| Op_SetAdditionalAttestationInfo.
Definition KeyMintOperation_discr (o : KeyMintOperation) : Z :=
  match o with
  | Op_DeviceGetHardwareInfo => 0x11
  | Op_DeviceAddRngEntropy => 0x12
  | Op_DeviceGenerateKey => 0x13
  | Op_DeviceImportKey => 0x14
  | Op_DeviceImportWrappedKey => 0x15
  | Op_DeviceUpgradeKey => 0x16
  | Op_DeviceDeleteKey => 0x17
  | Op_DeviceDeleteAllKeys => 0x18
  | Op_DeviceDestroyAttestationIds => 0x19
  | Op_DeviceBegin => 0x1a
  | Op_DeviceEarlyBootEnded => 0x1c
  | Op_DeviceConvertStorageKeyToEphemeral => 0x1d
  | Op_DeviceGetKeyCharacteristics => 0x1e
  | Op_OperationUpdateAad => 0x31
  | Op_OperationUpdate => 0x32
  | Op_OperationFinish => 0x33
  | Op_OperationAbort => 0x34
  | Op_RpcGetHardwareInfo => 0x41
  | Op_RpcGenerateEcdsaP256KeyPair => 0x42
  | Op_RpcGenerateCertificateRequest => 0x43
  | Op_RpcGenerateCertificateV2Request => 0x44
  | Op_SharedSecretGetSharedSecretParameters => 0x51
  | Op_SharedSecretComputeSharedSecret => 0x52
  | Op_SecureClockGenerateTimeStamp => 0x61
  | Op_GetRootOfTrustChallenge => 0x71
  | Op_GetRootOfTrust => 0x72
  | Op_SendRootOfTrust => 0x73
  | Op_SetHalInfo => 0x81
  | Op_SetBootInfo => 0x82
  | Op_SetAttestationIds => 0x83
  | Op_SetHalVersion => 0x84
  | Op_SetAdditionalAttestationInfo => 0x91
  end.
#[export] Instance KeyMintOperation_eq_dec : EqDecision KeyMintOperation.
Proof. solve_decision. Defined.
#[export] Instance KeyMintOperation_enum : REnum KeyMintOperation.
Proof.
  refine {| discr := KeyMintOperation_discr; variants :=
    [Op_DeviceGetHardwareInfo; Op_DeviceAddRngEntropy; Op_DeviceGenerateKey; Op_DeviceImportKey; Op_DeviceImportWrappedKey; Op_DeviceUpgradeKey; Op_DeviceDeleteKey; Op_DeviceDeleteAllKeys; Op_DeviceDestroyAttestationIds; Op_DeviceBegin; Op_DeviceEarlyBootEnded; Op_DeviceConvertStorageKeyToEphemeral; Op_DeviceGetKeyCharacteristics; Op_OperationUpdateAad; Op_OperationUpdate; Op_OperationFinish; Op_OperationAbort; Op_RpcGetHardwareInfo; Op_RpcGenerateEcdsaP256KeyPair; Op_RpcGenerateCertificateRequest; Op_RpcGenerateCertificateV2Request; Op_SharedSecretGetSharedSecretParameters; Op_SharedSecretComputeSharedSecret; Op_SecureClockGenerateTimeStamp; Op_GetRootOfTrustChallenge; Op_GetRootOfTrust; Op_SendRootOfTrust; Op_SetHalInfo; Op_SetBootInfo; Op_SetAttestationIds; Op_SetHalVersion; Op_SetAdditionalAttestationInfo] |}.
  - intros []; repeat first [left; reflexivity | right].
  - decide_compute.
Defined.
#[export] Instance KeyMintOperation_i32 : EnumI32 KeyMintOperation.
Proof. solve_enum_i32. Qed.

(** The encoding of operation codes, which differs from that of a derived enum in the
    error for unknown values. *)
Definition KeyMintOperation_codec : Codec KeyMintOperation := {|
  from_cbor_value value :=
    match value with
    | VInteger i => if decide (is_i32 i) then ok_or (try_from_n i) NonEnumValue
                    else Err OutOfRangeIntegerValue
    | v => cbor_type_error v "int"
    end;
  to_cbor_value o := Ok (VInteger (KeyMintOperation_discr o))
|}.

(** A message: its operation code and the operation's arguments or results. *)
Definition message_codec {M} (dec : KeyMintOperation → Value → CborResult M)
    (enc : M → KeyMintOperation * CborResult Value) : Codec M := {|
  from_cbor_value value :=
    match value with
    | VArray [v0; ret_val] =>
      ret_type ← from_cbor_value KeyMintOperation_codec v0; dec ret_type ret_val
    | VArray _ => Err (UnexpectedItem "arr" "arr len 2")
    | _ => cbor_type_error value "arr"
    end;
  to_cbor_value m :=
    let '(code, val) := enc m in
    c ← to_cbor_value KeyMintOperation_codec code;
    v ← val;
    Ok (VArray [c; v])
|}.

Inductive PerformOpReq : Type :=
| Req_DeviceGetHardwareInfo (m : GetHardwareInfoRequest)
| Req_DeviceAddRngEntropy (m : AddRngEntropyRequest)
| Req_DeviceGenerateKey (m : GenerateKeyRequest)
| Req_DeviceImportKey (m : ImportKeyRequest)
| Req_DeviceImportWrappedKey (m : ImportWrappedKeyRequest)
| Req_DeviceUpgradeKey (m : UpgradeKeyRequest)
| Req_DeviceDeleteKey (m : DeleteKeyRequest)
| Req_DeviceDeleteAllKeys (m : DeleteAllKeysRequest)
| Req_DeviceDestroyAttestationIds (m : DestroyAttestationIdsRequest)
| Req_DeviceBegin (m : BeginRequest)
| Req_DeviceEarlyBootEnded (m : EarlyBootEndedRequest)
| Req_DeviceConvertStorageKeyToEphemeral (m : ConvertStorageKeyToEphemeralRequest)
| Req_DeviceGetKeyCharacteristics (m : GetKeyCharacteristicsRequest)
| Req_OperationUpdateAad (m : UpdateAadRequest)
| Req_OperationUpdate (m : UpdateRequest)
| Req_OperationFinish (m : FinishRequest)
| Req_OperationAbort (m : AbortRequest)
| Req_RpcGetHardwareInfo (m : GetRpcHardwareInfoRequest)
| Req_RpcGenerateEcdsaP256KeyPair (m : GenerateEcdsaP256KeyPairRequest)
| Req_RpcGenerateCertificateRequest (m : GenerateCertificateRequestRequest)
| Req_RpcGenerateCertificateV2Request (m : GenerateCertificateRequestV2Request)
| Req_SharedSecretGetSharedSecretParameters (m : GetSharedSecretParametersRequest)
| Req_SharedSecretComputeSharedSecret (m : ComputeSharedSecretRequest)
| Req_SecureClockGenerateTimeStamp (m : GenerateTimeStampRequest)
| Req_GetRootOfTrustChallenge (m : GetRootOfTrustChallengeRequest)
| Req_GetRootOfTrust (m : GetRootOfTrustRequest)
| Req_SendRootOfTrust (m : SendRootOfTrustRequest)
| Req_SetHalInfo (m : SetHalInfoRequest)
| Req_SetBootInfo (m : SetBootInfoRequest)
| Req_SetAttestationIds (m : SetAttestationIdsRequest)
| Req_SetHalVersion (m : SetHalVersionRequest)
| Req_SetAdditionalAttestationInfo (m : SetAdditionalAttestationInfoRequest).
Definition PerformOpReq_dec (code : KeyMintOperation) (val : Value) : CborResult PerformOpReq :=
  match code with
  | Op_DeviceGetHardwareInfo => m ← from_cbor_value GetHardwareInfoRequest_codec val; Ok (Req_DeviceGetHardwareInfo m)
  | Op_DeviceAddRngEntropy => m ← from_cbor_value AddRngEntropyRequest_codec val; Ok (Req_DeviceAddRngEntropy m)
  | Op_DeviceGenerateKey => m ← from_cbor_value GenerateKeyRequest_codec val; Ok (Req_DeviceGenerateKey m)
  | Op_DeviceImportKey => m ← from_cbor_value ImportKeyRequest_codec val; Ok (Req_DeviceImportKey m)
  | Op_DeviceImportWrappedKey => m ← from_cbor_value ImportWrappedKeyRequest_codec val; Ok (Req_DeviceImportWrappedKey m)
  | Op_DeviceUpgradeKey => m ← from_cbor_value UpgradeKeyRequest_codec val; Ok (Req_DeviceUpgradeKey m)
  | Op_DeviceDeleteKey => m ← from_cbor_value DeleteKeyRequest_codec val; Ok (Req_DeviceDeleteKey m)
  | Op_DeviceDeleteAllKeys => m ← from_cbor_value DeleteAllKeysRequest_codec val; Ok (Req_DeviceDeleteAllKeys m)
  | Op_DeviceDestroyAttestationIds => m ← from_cbor_value DestroyAttestationIdsRequest_codec val; Ok (Req_DeviceDestroyAttestationIds m)
  | Op_DeviceBegin => m ← from_cbor_value BeginRequest_codec val; Ok (Req_DeviceBegin m)
  | Op_DeviceEarlyBootEnded => m ← from_cbor_value EarlyBootEndedRequest_codec val; Ok (Req_DeviceEarlyBootEnded m)
  | Op_DeviceConvertStorageKeyToEphemeral => m ← from_cbor_value ConvertStorageKeyToEphemeralRequest_codec val; Ok (Req_DeviceConvertStorageKeyToEphemeral m)
  | Op_DeviceGetKeyCharacteristics => m ← from_cbor_value GetKeyCharacteristicsRequest_codec val; Ok (Req_DeviceGetKeyCharacteristics m)
  | Op_OperationUpdateAad => m ← from_cbor_value UpdateAadRequest_codec val; Ok (Req_OperationUpdateAad m)
  | Op_OperationUpdate => m ← from_cbor_value UpdateRequest_codec val; Ok (Req_OperationUpdate m)
  | Op_OperationFinish => m ← from_cbor_value FinishRequest_codec val; Ok (Req_OperationFinish m)
  | Op_OperationAbort => m ← from_cbor_value AbortRequest_codec val; Ok (Req_OperationAbort m)
  | Op_RpcGetHardwareInfo => m ← from_cbor_value GetRpcHardwareInfoRequest_codec val; Ok (Req_RpcGetHardwareInfo m)
  | Op_RpcGenerateEcdsaP256KeyPair => m ← from_cbor_value GenerateEcdsaP256KeyPairRequest_codec val; Ok (Req_RpcGenerateEcdsaP256KeyPair m)
  | Op_RpcGenerateCertificateRequest => m ← from_cbor_value GenerateCertificateRequestRequest_codec val; Ok (Req_RpcGenerateCertificateRequest m)
  | Op_RpcGenerateCertificateV2Request => m ← from_cbor_value GenerateCertificateRequestV2Request_codec val; Ok (Req_RpcGenerateCertificateV2Request m)
  | Op_SharedSecretGetSharedSecretParameters => m ← from_cbor_value GetSharedSecretParametersRequest_codec val; Ok (Req_SharedSecretGetSharedSecretParameters m)
  | Op_SharedSecretComputeSharedSecret => m ← from_cbor_value ComputeSharedSecretRequest_codec val; Ok (Req_SharedSecretComputeSharedSecret m)
  | Op_SecureClockGenerateTimeStamp => m ← from_cbor_value GenerateTimeStampRequest_codec val; Ok (Req_SecureClockGenerateTimeStamp m)
  | Op_GetRootOfTrustChallenge => m ← from_cbor_value GetRootOfTrustChallengeRequest_codec val; Ok (Req_GetRootOfTrustChallenge m)
  | Op_GetRootOfTrust => m ← from_cbor_value GetRootOfTrustRequest_codec val; Ok (Req_GetRootOfTrust m)
  | Op_SendRootOfTrust => m ← from_cbor_value SendRootOfTrustRequest_codec val; Ok (Req_SendRootOfTrust m)
  | Op_SetHalInfo => m ← from_cbor_value SetHalInfoRequest_codec val; Ok (Req_SetHalInfo m)
  | Op_SetBootInfo => m ← from_cbor_value SetBootInfoRequest_codec val; Ok (Req_SetBootInfo m)
  | Op_SetAttestationIds => m ← from_cbor_value SetAttestationIdsRequest_codec val; Ok (Req_SetAttestationIds m)
  | Op_SetHalVersion => m ← from_cbor_value SetHalVersionRequest_codec val; Ok (Req_SetHalVersion m)
  | Op_SetAdditionalAttestationInfo => m ← from_cbor_value SetAdditionalAttestationInfoRequest_codec val; Ok (Req_SetAdditionalAttestationInfo m)
  end.
Definition PerformOpReq_enc (m : PerformOpReq) : KeyMintOperation * CborResult Value :=
  match m with
  | Req_DeviceGetHardwareInfo m => (Op_DeviceGetHardwareInfo, to_cbor_value GetHardwareInfoRequest_codec m)
  | Req_DeviceAddRngEntropy m => (Op_DeviceAddRngEntropy, to_cbor_value AddRngEntropyRequest_codec m)
  | Req_DeviceGenerateKey m => (Op_DeviceGenerateKey, to_cbor_value GenerateKeyRequest_codec m)
  | Req_DeviceImportKey m => (Op_DeviceImportKey, to_cbor_value ImportKeyRequest_codec m)
  | Req_DeviceImportWrappedKey m => (Op_DeviceImportWrappedKey, to_cbor_value ImportWrappedKeyRequest_codec m)
  | Req_DeviceUpgradeKey m => (Op_DeviceUpgradeKey, to_cbor_value UpgradeKeyRequest_codec m)
  | Req_DeviceDeleteKey m => (Op_DeviceDeleteKey, to_cbor_value DeleteKeyRequest_codec m)
  | Req_DeviceDeleteAllKeys m => (Op_DeviceDeleteAllKeys, to_cbor_value DeleteAllKeysRequest_codec m)
  | Req_DeviceDestroyAttestationIds m => (Op_DeviceDestroyAttestationIds, to_cbor_value DestroyAttestationIdsRequest_codec m)
  | Req_DeviceBegin m => (Op_DeviceBegin, to_cbor_value BeginRequest_codec m)
  | Req_DeviceEarlyBootEnded m => (Op_DeviceEarlyBootEnded, to_cbor_value EarlyBootEndedRequest_codec m)
  | Req_DeviceConvertStorageKeyToEphemeral m => (Op_DeviceConvertStorageKeyToEphemeral, to_cbor_value ConvertStorageKeyToEphemeralRequest_codec m)
  | Req_DeviceGetKeyCharacteristics m => (Op_DeviceGetKeyCharacteristics, to_cbor_value GetKeyCharacteristicsRequest_codec m)
  | Req_OperationUpdateAad m => (Op_OperationUpdateAad, to_cbor_value UpdateAadRequest_codec m)
  | Req_OperationUpdate m => (Op_OperationUpdate, to_cbor_value UpdateRequest_codec m)
  | Req_OperationFinish m => (Op_OperationFinish, to_cbor_value FinishRequest_codec m)
  | Req_OperationAbort m => (Op_OperationAbort, to_cbor_value AbortRequest_codec m)
  | Req_RpcGetHardwareInfo m => (Op_RpcGetHardwareInfo, to_cbor_value GetRpcHardwareInfoRequest_codec m)
  | Req_RpcGenerateEcdsaP256KeyPair m => (Op_RpcGenerateEcdsaP256KeyPair, to_cbor_value GenerateEcdsaP256KeyPairRequest_codec m)
  | Req_RpcGenerateCertificateRequest m => (Op_RpcGenerateCertificateRequest, to_cbor_value GenerateCertificateRequestRequest_codec m)
  | Req_RpcGenerateCertificateV2Request m => (Op_RpcGenerateCertificateV2Request, to_cbor_value GenerateCertificateRequestV2Request_codec m)
  | Req_SharedSecretGetSharedSecretParameters m => (Op_SharedSecretGetSharedSecretParameters, to_cbor_value GetSharedSecretParametersRequest_codec m)
  | Req_SharedSecretComputeSharedSecret m => (Op_SharedSecretComputeSharedSecret, to_cbor_value ComputeSharedSecretRequest_codec m)
  | Req_SecureClockGenerateTimeStamp m => (Op_SecureClockGenerateTimeStamp, to_cbor_value GenerateTimeStampRequest_codec m)
  | Req_GetRootOfTrustChallenge m => (Op_GetRootOfTrustChallenge, to_cbor_value GetRootOfTrustChallengeRequest_codec m)
  | Req_GetRootOfTrust m => (Op_GetRootOfTrust, to_cbor_value GetRootOfTrustRequest_codec m)
  | Req_SendRootOfTrust m => (Op_SendRootOfTrust, to_cbor_value SendRootOfTrustRequest_codec m)
  | Req_SetHalInfo m => (Op_SetHalInfo, to_cbor_value SetHalInfoRequest_codec m)
  | Req_SetBootInfo m => (Op_SetBootInfo, to_cbor_value SetBootInfoRequest_codec m)
  | Req_SetAttestationIds m => (Op_SetAttestationIds, to_cbor_value SetAttestationIdsRequest_codec m)
  | Req_SetHalVersion m => (Op_SetHalVersion, to_cbor_value SetHalVersionRequest_codec m)
  | Req_SetAdditionalAttestationInfo m => (Op_SetAdditionalAttestationInfo, to_cbor_value SetAdditionalAttestationInfoRequest_codec m)
  end.
Definition PerformOpReq_codec : Codec PerformOpReq := message_codec PerformOpReq_dec PerformOpReq_enc.
Inductive PerformOpRsp : Type :=
| Rsp_DeviceGetHardwareInfo (m : GetHardwareInfoResponse)
| Rsp_DeviceAddRngEntropy (m : AddRngEntropyResponse)
| Rsp_DeviceGenerateKey (m : GenerateKeyResponse)
| Rsp_DeviceImportKey (m : ImportKeyResponse)
| Rsp_DeviceImportWrappedKey (m : ImportWrappedKeyResponse)
| Rsp_DeviceUpgradeKey (m : UpgradeKeyResponse)
| Rsp_DeviceDeleteKey (m : DeleteKeyResponse)
| Rsp_DeviceDeleteAllKeys (m : DeleteAllKeysResponse)
| Rsp_DeviceDestroyAttestationIds (m : DestroyAttestationIdsResponse)
| Rsp_DeviceBegin (m : BeginResponse)
| Rsp_DeviceEarlyBootEnded (m : EarlyBootEndedResponse)
| Rsp_DeviceConvertStorageKeyToEphemeral (m : ConvertStorageKeyToEphemeralResponse)
| Rsp_DeviceGetKeyCharacteristics (m : GetKeyCharacteristicsResponse)
| Rsp_OperationUpdateAad (m : UpdateAadResponse)
| Rsp_OperationUpdate (m : UpdateResponse)
| Rsp_OperationFinish (m : FinishResponse)
| Rsp_OperationAbort (m : AbortResponse)
| Rsp_RpcGetHardwareInfo (m : GetRpcHardwareInfoResponse)
| Rsp_RpcGenerateEcdsaP256KeyPair (m : GenerateEcdsaP256KeyPairResponse)
| Rsp_RpcGenerateCertificateRequest (m : GenerateCertificateRequestResponse)
| Rsp_RpcGenerateCertificateV2Request (m : GenerateCertificateRequestV2Response)
| Rsp_SharedSecretGetSharedSecretParameters (m : GetSharedSecretParametersResponse)
| Rsp_SharedSecretComputeSharedSecret (m : ComputeSharedSecretResponse)
| Rsp_SecureClockGenerateTimeStamp (m : GenerateTimeStampResponse)
| Rsp_GetRootOfTrustChallenge (m : GetRootOfTrustChallengeResponse)
| Rsp_GetRootOfTrust (m : GetRootOfTrustResponse)
| Rsp_SendRootOfTrust (m : SendRootOfTrustResponse)
| Rsp_SetHalInfo (m : SetHalInfoResponse)
| Rsp_SetBootInfo (m : SetBootInfoResponse)
| Rsp_SetAttestationIds (m : SetAttestationIdsResponse)
| Rsp_SetHalVersion (m : SetHalVersionResponse)
| Rsp_SetAdditionalAttestationInfo (m : SetAdditionalAttestationInfoResponse).
Definition PerformOpRsp_dec (code : KeyMintOperation) (val : Value) : CborResult PerformOpRsp :=
  match code with
  | Op_DeviceGetHardwareInfo => m ← from_cbor_value GetHardwareInfoResponse_codec val; Ok (Rsp_DeviceGetHardwareInfo m)
  | Op_DeviceAddRngEntropy => m ← from_cbor_value AddRngEntropyResponse_codec val; Ok (Rsp_DeviceAddRngEntropy m)
  | Op_DeviceGenerateKey => m ← from_cbor_value GenerateKeyResponse_codec val; Ok (Rsp_DeviceGenerateKey m)
  | Op_DeviceImportKey => m ← from_cbor_value ImportKeyResponse_codec val; Ok (Rsp_DeviceImportKey m)
  | Op_DeviceImportWrappedKey => m ← from_cbor_value ImportWrappedKeyResponse_codec val; Ok (Rsp_DeviceImportWrappedKey m)
  | Op_DeviceUpgradeKey => m ← from_cbor_value UpgradeKeyResponse_codec val; Ok (Rsp_DeviceUpgradeKey m)
  | Op_DeviceDeleteKey => m ← from_cbor_value DeleteKeyResponse_codec val; Ok (Rsp_DeviceDeleteKey m)
  | Op_DeviceDeleteAllKeys => m ← from_cbor_value DeleteAllKeysResponse_codec val; Ok (Rsp_DeviceDeleteAllKeys m)
  | Op_DeviceDestroyAttestationIds => m ← from_cbor_value DestroyAttestationIdsResponse_codec val; Ok (Rsp_DeviceDestroyAttestationIds m)
  | Op_DeviceBegin => m ← from_cbor_value BeginResponse_codec val; Ok (Rsp_DeviceBegin m)
  | Op_DeviceEarlyBootEnded => m ← from_cbor_value EarlyBootEndedResponse_codec val; Ok (Rsp_DeviceEarlyBootEnded m)
  | Op_DeviceConvertStorageKeyToEphemeral => m ← from_cbor_value ConvertStorageKeyToEphemeralResponse_codec val; Ok (Rsp_DeviceConvertStorageKeyToEphemeral m)
  | Op_DeviceGetKeyCharacteristics => m ← from_cbor_value GetKeyCharacteristicsResponse_codec val; Ok (Rsp_DeviceGetKeyCharacteristics m)
  | Op_OperationUpdateAad => m ← from_cbor_value UpdateAadResponse_codec val; Ok (Rsp_OperationUpdateAad m)
  | Op_OperationUpdate => m ← from_cbor_value UpdateResponse_codec val; Ok (Rsp_OperationUpdate m)
  | Op_OperationFinish => m ← from_cbor_value FinishResponse_codec val; Ok (Rsp_OperationFinish m)
  | Op_OperationAbort => m ← from_cbor_value AbortResponse_codec val; Ok (Rsp_OperationAbort m)
  | Op_RpcGetHardwareInfo => m ← from_cbor_value GetRpcHardwareInfoResponse_codec val; Ok (Rsp_RpcGetHardwareInfo m)
  | Op_RpcGenerateEcdsaP256KeyPair => m ← from_cbor_value GenerateEcdsaP256KeyPairResponse_codec val; Ok (Rsp_RpcGenerateEcdsaP256KeyPair m)
  | Op_RpcGenerateCertificateRequest => m ← from_cbor_value GenerateCertificateRequestResponse_codec val; Ok (Rsp_RpcGenerateCertificateRequest m)
  | Op_RpcGenerateCertificateV2Request => m ← from_cbor_value GenerateCertificateRequestV2Response_codec val; Ok (Rsp_RpcGenerateCertificateV2Request m)
  | Op_SharedSecretGetSharedSecretParameters => m ← from_cbor_value GetSharedSecretParametersResponse_codec val; Ok (Rsp_SharedSecretGetSharedSecretParameters m)
  | Op_SharedSecretComputeSharedSecret => m ← from_cbor_value ComputeSharedSecretResponse_codec val; Ok (Rsp_SharedSecretComputeSharedSecret m)
  | Op_SecureClockGenerateTimeStamp => m ← from_cbor_value GenerateTimeStampResponse_codec val; Ok (Rsp_SecureClockGenerateTimeStamp m)
  | Op_GetRootOfTrustChallenge => m ← from_cbor_value GetRootOfTrustChallengeResponse_codec val; Ok (Rsp_GetRootOfTrustChallenge m)
  | Op_GetRootOfTrust => m ← from_cbor_value GetRootOfTrustResponse_codec val; Ok (Rsp_GetRootOfTrust m)
  | Op_SendRootOfTrust => m ← from_cbor_value SendRootOfTrustResponse_codec val; Ok (Rsp_SendRootOfTrust m)
  | Op_SetHalInfo => m ← from_cbor_value SetHalInfoResponse_codec val; Ok (Rsp_SetHalInfo m)
  | Op_SetBootInfo => m ← from_cbor_value SetBootInfoResponse_codec val; Ok (Rsp_SetBootInfo m)
  | Op_SetAttestationIds => m ← from_cbor_value SetAttestationIdsResponse_codec val; Ok (Rsp_SetAttestationIds m)
  | Op_SetHalVersion => m ← from_cbor_value SetHalVersionResponse_codec val; Ok (Rsp_SetHalVersion m)
  | Op_SetAdditionalAttestationInfo => m ← from_cbor_value SetAdditionalAttestationInfoResponse_codec val; Ok (Rsp_SetAdditionalAttestationInfo m)
  end.
Definition PerformOpRsp_enc (m : PerformOpRsp) : KeyMintOperation * CborResult Value :=
  match m with
  | Rsp_DeviceGetHardwareInfo m => (Op_DeviceGetHardwareInfo, to_cbor_value GetHardwareInfoResponse_codec m)
  | Rsp_DeviceAddRngEntropy m => (Op_DeviceAddRngEntropy, to_cbor_value AddRngEntropyResponse_codec m)
  | Rsp_DeviceGenerateKey m => (Op_DeviceGenerateKey, to_cbor_value GenerateKeyResponse_codec m)
  | Rsp_DeviceImportKey m => (Op_DeviceImportKey, to_cbor_value ImportKeyResponse_codec m)
  | Rsp_DeviceImportWrappedKey m => (Op_DeviceImportWrappedKey, to_cbor_value ImportWrappedKeyResponse_codec m)
  | Rsp_DeviceUpgradeKey m => (Op_DeviceUpgradeKey, to_cbor_value UpgradeKeyResponse_codec m)
  | Rsp_DeviceDeleteKey m => (Op_DeviceDeleteKey, to_cbor_value DeleteKeyResponse_codec m)
  | Rsp_DeviceDeleteAllKeys m => (Op_DeviceDeleteAllKeys, to_cbor_value DeleteAllKeysResponse_codec m)
  | Rsp_DeviceDestroyAttestationIds m => (Op_DeviceDestroyAttestationIds, to_cbor_value DestroyAttestationIdsResponse_codec m)
  | Rsp_DeviceBegin m => (Op_DeviceBegin, to_cbor_value BeginResponse_codec m)
  | Rsp_DeviceEarlyBootEnded m => (Op_DeviceEarlyBootEnded, to_cbor_value EarlyBootEndedResponse_codec m)
  | Rsp_DeviceConvertStorageKeyToEphemeral m => (Op_DeviceConvertStorageKeyToEphemeral, to_cbor_value ConvertStorageKeyToEphemeralResponse_codec m)
  | Rsp_DeviceGetKeyCharacteristics m => (Op_DeviceGetKeyCharacteristics, to_cbor_value GetKeyCharacteristicsResponse_codec m)
  | Rsp_OperationUpdateAad m => (Op_OperationUpdateAad, to_cbor_value UpdateAadResponse_codec m)
  | Rsp_OperationUpdate m => (Op_OperationUpdate, to_cbor_value UpdateResponse_codec m)
  | Rsp_OperationFinish m => (Op_OperationFinish, to_cbor_value FinishResponse_codec m)
  | Rsp_OperationAbort m => (Op_OperationAbort, to_cbor_value AbortResponse_codec m)
  | Rsp_RpcGetHardwareInfo m => (Op_RpcGetHardwareInfo, to_cbor_value GetRpcHardwareInfoResponse_codec m)
  | Rsp_RpcGenerateEcdsaP256KeyPair m => (Op_RpcGenerateEcdsaP256KeyPair, to_cbor_value GenerateEcdsaP256KeyPairResponse_codec m)
  | Rsp_RpcGenerateCertificateRequest m => (Op_RpcGenerateCertificateRequest, to_cbor_value GenerateCertificateRequestResponse_codec m)
  | Rsp_RpcGenerateCertificateV2Request m => (Op_RpcGenerateCertificateV2Request, to_cbor_value GenerateCertificateRequestV2Response_codec m)
  | Rsp_SharedSecretGetSharedSecretParameters m => (Op_SharedSecretGetSharedSecretParameters, to_cbor_value GetSharedSecretParametersResponse_codec m)
  | Rsp_SharedSecretComputeSharedSecret m => (Op_SharedSecretComputeSharedSecret, to_cbor_value ComputeSharedSecretResponse_codec m)
  | Rsp_SecureClockGenerateTimeStamp m => (Op_SecureClockGenerateTimeStamp, to_cbor_value GenerateTimeStampResponse_codec m)
  | Rsp_GetRootOfTrustChallenge m => (Op_GetRootOfTrustChallenge, to_cbor_value GetRootOfTrustChallengeResponse_codec m)
  | Rsp_GetRootOfTrust m => (Op_GetRootOfTrust, to_cbor_value GetRootOfTrustResponse_codec m)
  | Rsp_SendRootOfTrust m => (Op_SendRootOfTrust, to_cbor_value SendRootOfTrustResponse_codec m)
  | Rsp_SetHalInfo m => (Op_SetHalInfo, to_cbor_value SetHalInfoResponse_codec m)
  | Rsp_SetBootInfo m => (Op_SetBootInfo, to_cbor_value SetBootInfoResponse_codec m)
  | Rsp_SetAttestationIds m => (Op_SetAttestationIds, to_cbor_value SetAttestationIdsResponse_codec m)
  | Rsp_SetHalVersion m => (Op_SetHalVersion, to_cbor_value SetHalVersionResponse_codec m)
  | Rsp_SetAdditionalAttestationInfo m => (Op_SetAdditionalAttestationInfo, to_cbor_value SetAdditionalAttestationInfoResponse_codec m)
  end.
Definition PerformOpRsp_codec : Codec PerformOpRsp := message_codec PerformOpRsp_dec PerformOpRsp_enc.

Definition code (req : PerformOpReq) : KeyMintOperation := (PerformOpReq_enc req).1.
Definition is_rpc_operation (code : KeyMintOperation) : bool :=
  match code with
  | Op_RpcGetHardwareInfo | Op_RpcGenerateEcdsaP256KeyPair | Op_RpcGenerateCertificateRequest
  | Op_RpcGenerateCertificateV2Request => true
  | _ => false
  end.

Record PerformOpResponse := { PerformOpResponse_error_code : Z; PerformOpResponse_rsp : (option PerformOpRsp) }.
Definition PerformOpResponse_codec : Codec PerformOpResponse :=
  derive_struct "arr len 2" (field i32_codec (field (option_codec PerformOpRsp_codec) no_fields))
    (λ '(x0, (x1, _)), {| PerformOpResponse_error_code := x0; PerformOpResponse_rsp := x1 |})
    (λ s, (PerformOpResponse_error_code s, (PerformOpResponse_rsp s, tt))).

(** ** Round trips *)

Lemma derive_enum_from {A} `{EnumI32 A} (v : A) :
  from_cbor_value (derive_enum (A:=A)) (VInteger (discr v)) = Ok v.
Proof. cbn. rewrite decide_True by apply discr_is_i32. by rewrite try_from_discr. Qed.

Lemma KeySizeInBits_codec_ok : codec_ok KeySizeInBits_codec is_u32 0.
Proof. apply (derive_newtype_ok _ _ _ _ _ u32_codec_ok). done. Qed.
Lemma RsaExponent_codec_ok : codec_ok RsaExponent_codec is_u64 0.
Proof. apply (derive_newtype_ok _ _ _ _ _ u64_codec_ok). done. Qed.
Lemma DateTime_codec_ok : codec_ok DateTime_codec is_i64 0.
Proof.
  intros d Hd. destruct (i64_codec_ok d Hd) as (v & Hv & Hv1 & Hv2 & Hv3). exists v.
  cbn [from_cbor_value to_cbor_value DateTime_codec]. by rewrite Hv1.
Qed.

(** The value of a key parameter round trips under the parameter's tag. *)
Ltac param_value H :=
  let w := fresh "w" in let Hw := fresh "Hw" in let Hw1 := fresh "Hw" in
  let Hw2 := fresh "Hw" in let Hw3 := fresh "Hw" in
  destruct H as (w & Hw & Hw1 & Hw2 & Hw3); exists w; cbn [key_param_from];
  split_and!; [rewrite Hw; reflexivity | rewrite Hw1; reflexivity | exact Hw2 | exact Hw3].
Lemma key_param_value_ok p :
  kp_wf p →
  ∃ v, key_param_to p = Ok (tag p, v) ∧ key_param_from (tag p) v = Ok p ∧ (vdepth v ≤ 0)%nat ∧ vints v.
Proof.
  destruct p; cbn [kp_wf key_param_to tag]; intros Hp;
  lazymatch goal with
  | v : bytes |- _ => param_value (bytes_codec_ok v I)
  | v : Z |- _ =>
    first [ param_value (u32_codec_ok v Hp) | param_value (KeySizeInBits_codec_ok v Hp)
          | param_value (u64_codec_ok v Hp) | param_value (RsaExponent_codec_ok v Hp)
          | param_value (DateTime_codec_ok v Hp) ]
  | |- ∃ _, mbind _ (to_cbor_value derive_enum ?v) = _ ∧ _ => param_value (derive_enum_ok v I)
  | |- _ => exists (VBool true); split_and!; try done; cbn; lia
  end.
Qed.

Lemma KeyParam_codec_ok : codec_ok KeyParam_codec kp_wf 1.
Proof.
  intros p Hp. destruct (key_param_value_ok p Hp) as (v & Ht & Hf & Hd & Hi).
  exists (VArray [VInteger (discr (tag p)); v]). cbn [to_cbor_value from_cbor_value KeyParam_codec].
  rewrite Ht, derive_enum_from. cbn [mbind res_bind]. rewrite Hf. split_and!; [done..|cbn; lia|].
  pose proof (discr_i32 (tag p)) as Hr. cbn [vints foldr]. split_and!; [range_lia|range_lia|done|done].
Qed.

Lemma KeyMintOperation_codec_ok : codec_ok KeyMintOperation_codec (λ _, True) 0.
Proof.
  intros o _. exists (VInteger (discr o)). cbn. pose proof (discr_is_i32 o) as Hr.
  rewrite decide_True by exact Hr. change (KeyMintOperation_discr o) with (discr o).
  rewrite try_from_discr. split_and!; [done..|lia| |]; unfold is_signed in Hr; lia.
Qed.

Lemma message_codec_ok {M} dec (enc : M → KeyMintOperation * CborResult Value) wf d :
  (∀ m, wf m → ∃ v, (enc m).2 = Ok v ∧ dec (enc m).1 v = Ok m ∧ (vdepth v ≤ d)%nat ∧ vints v) →
  codec_ok (message_codec dec enc) wf (S d).
Proof.
  intros H m Hm. destruct (H m Hm) as (v & Hv & Hd & Hdep & Hi).
  destruct (KeyMintOperation_codec_ok (enc m).1 I) as (c & Hc & Hc1 & Hc2 & Hc3).
  exists (VArray [c; v]). cbn [to_cbor_value from_cbor_value message_codec].
  destruct (enc m) as [code val]. cbn [fst snd] in *. rewrite Hc. cbn [mbind res_bind]. rewrite Hv, Hc1.
  cbn [mbind res_bind]. rewrite Hd. split_and!; [done..|cbn; lia|done].
Qed.

Definition Timestamp_wf (s : Z) : Prop := (is_i64 (s) ∧ True).
Lemma Timestamp_codec_ok : codec_ok Timestamp_codec Timestamp_wf 1.
Proof. refine (derive_struct_ok _ _ _ _ _ _ (field_ok _ _ _ _ _ _ i64_codec_ok (no_fields_ok 0)) _). by intros []. Qed.
Definition TimeStampToken_wf (s : TimeStampToken) : Prop := (is_i64 (tst_challenge s) ∧ (Timestamp_wf (tst_timestamp s) ∧ ((λ _ : bytes, True) (tst_mac s) ∧ True))).
Lemma TimeStampToken_codec_ok : codec_ok TimeStampToken_codec TimeStampToken_wf 2.
Proof. refine (derive_struct_ok _ _ _ _ _ _ (field_ok _ _ _ _ _ _ i64_codec_ok (field_ok _ _ _ _ _ _ Timestamp_codec_ok (field_ok _ _ _ _ _ _ bytes_codec_ok (no_fields_ok 0)))) _). by intros []. Qed.
Definition SharedSecretParameters_wf (s : SharedSecretParameters) : Prop := ((λ _ : bytes, True) (SharedSecretParameters_seed s) ∧ ((λ _ : bytes, True) (SharedSecretParameters_nonce s) ∧ True)).
Lemma SharedSecretParameters_codec_ok : codec_ok SharedSecretParameters_codec SharedSecretParameters_wf 1.
Proof. refine (derive_struct_ok _ _ _ _ _ _ (field_ok _ _ _ _ _ _ bytes_codec_ok (field_ok _ _ _ _ _ _ bytes_codec_ok (no_fields_ok 0))) _). by intros []. Qed.
Definition BootInfo_wf (s : BootInfo) : Prop := ((λ _ : bytes, True) (verified_boot_key s) ∧ ((λ _ : bool, True) (device_boot_locked s) ∧ ((λ _ : VerifiedBootState, True) (verified_boot_state s) ∧ ((λ _ : bytes, True) (verified_boot_hash s) ∧ (is_u32 (boot_patchlevel s) ∧ True))))).
Lemma BootInfo_codec_ok : codec_ok BootInfo_codec BootInfo_wf 1.
Proof. refine (derive_struct_ok _ _ _ _ _ _ (field_ok _ _ _ _ _ _ bytes_codec_ok (field_ok _ _ _ _ _ _ bool_codec_ok (field_ok _ _ _ _ _ _ (derive_enum_ok (A:=VerifiedBootState)) (field_ok _ _ _ _ _ _ bytes_codec_ok (field_ok _ _ _ _ _ _ u32_codec_ok (no_fields_ok 0)))))) _). by intros []. Qed.
Definition KeyCharacteristics_wf (s : KeyCharacteristics) : Prop := ((λ _ : SecurityLevel, True) (security_level s) ∧ ((Forall kp_wf) (authorizations s) ∧ True)).
Lemma KeyCharacteristics_codec_ok : codec_ok KeyCharacteristics_codec KeyCharacteristics_wf 3.
Proof. refine (derive_struct_ok _ _ _ _ _ _ (field_ok _ _ _ _ _ _ (derive_enum_ok (A:=SecurityLevel)) (field_ok _ _ _ _ _ _ (vec_codec_ok _ _ _ KeyParam_codec_ok) (no_fields_ok 0))) _). by intros []. Qed.
Definition AttestationKey_wf (s : AttestationKey) : Prop := ((λ _ : bytes, True) (AttestationKey_key_blob s) ∧ ((Forall kp_wf) (AttestationKey_attest_key_params s) ∧ ((λ _ : bytes, True) (AttestationKey_issuer_subject_name s) ∧ True))).
Lemma AttestationKey_codec_ok : codec_ok AttestationKey_codec AttestationKey_wf 3.
Proof. refine (derive_struct_ok _ _ _ _ _ _ (field_ok _ _ _ _ _ _ bytes_codec_ok (field_ok _ _ _ _ _ _ (vec_codec_ok _ _ _ KeyParam_codec_ok) (field_ok _ _ _ _ _ _ bytes_codec_ok (no_fields_ok 0)))) _). by intros []. Qed.
Definition HardwareAuthToken_wf (s : HardwareAuthToken) : Prop := (is_i64 (hat_challenge s) ∧ (is_i64 (hat_user_id s) ∧ (is_i64 (hat_authenticator_id s) ∧ ((λ _ : HardwareAuthenticatorType, True) (hat_authenticator_type s) ∧ (Timestamp_wf (hat_timestamp s) ∧ ((λ _ : bytes, True) (hat_mac s) ∧ True)))))).
Lemma HardwareAuthToken_codec_ok : codec_ok HardwareAuthToken_codec HardwareAuthToken_wf 2.
Proof. refine (derive_struct_ok _ _ _ _ _ _ (field_ok _ _ _ _ _ _ i64_codec_ok (field_ok _ _ _ _ _ _ i64_codec_ok (field_ok _ _ _ _ _ _ i64_codec_ok (field_ok _ _ _ _ _ _ (derive_enum_ok (A:=HardwareAuthenticatorType)) (field_ok _ _ _ _ _ _ Timestamp_codec_ok (field_ok _ _ _ _ _ _ bytes_codec_ok (no_fields_ok 0))))))) _). by intros []. Qed.
Definition Certificate_wf (s : Certificate) : Prop := ((λ _ : bytes, True) (Certificate_encoded_certificate s) ∧ True).
Lemma Certificate_codec_ok : codec_ok Certificate_codec Certificate_wf 1.
Proof. refine (derive_struct_ok _ _ _ _ _ _ (field_ok _ _ _ _ _ _ bytes_codec_ok (no_fields_ok 0)) _). by intros []. Qed.
Definition KeyCreationResult_wf (s : KeyCreationResult) : Prop := ((λ _ : bytes, True) (KeyCreationResult_key_blob s) ∧ ((Forall KeyCharacteristics_wf) (KeyCreationResult_key_characteristics s) ∧ ((Forall Certificate_wf) (KeyCreationResult_certificate_chain s) ∧ True))).
Lemma KeyCreationResult_codec_ok : codec_ok KeyCreationResult_codec KeyCreationResult_wf 5.
Proof. refine (derive_struct_ok _ _ _ _ _ _ (field_ok _ _ _ _ _ _ bytes_codec_ok (field_ok _ _ _ _ _ _ (vec_codec_ok _ _ _ KeyCharacteristics_codec_ok) (field_ok _ _ _ _ _ _ (vec_codec_ok _ _ _ Certificate_codec_ok) (no_fields_ok 0)))) _). by intros []. Qed.
Definition KeyMintHardwareInfo_wf (s : KeyMintHardwareInfo) : Prop := (is_i32 (KeyMintHardwareInfo_version_number s) ∧ ((λ _ : SecurityLevel, True) (KeyMintHardwareInfo_security_level s) ∧ ((λ _ : string, True) (KeyMintHardwareInfo_key_mint_name s) ∧ ((λ _ : string, True) (KeyMintHardwareInfo_key_mint_author_name s) ∧ ((λ _ : bool, True) (KeyMintHardwareInfo_timestamp_token_required s) ∧ True))))).
Lemma KeyMintHardwareInfo_codec_ok : codec_ok KeyMintHardwareInfo_codec KeyMintHardwareInfo_wf 1.
Proof. refine (derive_struct_ok _ _ _ _ _ _ (field_ok _ _ _ _ _ _ i32_codec_ok (field_ok _ _ _ _ _ _ (derive_enum_ok (A:=SecurityLevel)) (field_ok _ _ _ _ _ _ string_codec_ok (field_ok _ _ _ _ _ _ string_codec_ok (field_ok _ _ _ _ _ _ bool_codec_ok (no_fields_ok 0)))))) _). by intros []. Qed.
Definition RpcHardwareInfo_wf (s : RpcHardwareInfo) : Prop := (is_i32 (RpcHardwareInfo_version_number s) ∧ ((λ _ : string, True) (RpcHardwareInfo_rpc_author_name s) ∧ ((λ _ : EekCurve, True) (RpcHardwareInfo_supported_eek_curve s) ∧ ((from_option (λ _ : string, True) True) (RpcHardwareInfo_unique_id s) ∧ (is_i32 (RpcHardwareInfo_supported_num_keys_in_csr s) ∧ True))))).
Lemma RpcHardwareInfo_codec_ok : codec_ok RpcHardwareInfo_codec RpcHardwareInfo_wf 2.
Proof. refine (derive_struct_ok _ _ _ _ _ _ (field_ok _ _ _ _ _ _ i32_codec_ok (field_ok _ _ _ _ _ _ string_codec_ok (field_ok _ _ _ _ _ _ (derive_enum_ok (A:=EekCurve)) (field_ok _ _ _ _ _ _ (option_codec_ok _ _ _ string_codec_ok) (field_ok _ _ _ _ _ _ i32_codec_ok (no_fields_ok 0)))))) _). by intros []. Qed.
Definition MacedPublicKey_wf (s : MacedPublicKey) : Prop := ((λ _ : bytes, True) (MacedPublicKey_maced_key s) ∧ True).
Lemma MacedPublicKey_codec_ok : codec_ok MacedPublicKey_codec MacedPublicKey_wf 1.
Proof. refine (derive_struct_ok _ _ _ _ _ _ (field_ok _ _ _ _ _ _ bytes_codec_ok (no_fields_ok 0)) _). by intros []. Qed.
Definition ProtectedData_wf (s : ProtectedData) : Prop := ((λ _ : bytes, True) (ProtectedData_protected_data s) ∧ True).
Lemma ProtectedData_codec_ok : codec_ok ProtectedData_codec ProtectedData_wf 1.
Proof. refine (derive_struct_ok _ _ _ _ _ _ (field_ok _ _ _ _ _ _ bytes_codec_ok (no_fields_ok 0)) _). by intros []. Qed.
Definition DeviceInfo_wf (s : DeviceInfo) : Prop := ((λ _ : bytes, True) (DeviceInfo_device_info s) ∧ True).
Lemma DeviceInfo_codec_ok : codec_ok DeviceInfo_codec DeviceInfo_wf 1.
Proof. refine (derive_struct_ok _ _ _ _ _ _ (field_ok _ _ _ _ _ _ bytes_codec_ok (no_fields_ok 0)) _). by intros []. Qed.
Definition InternalBeginResult_wf (s : InternalBeginResult) : Prop := (is_i64 (InternalBeginResult_challenge s) ∧ ((Forall kp_wf) (InternalBeginResult_params s) ∧ (is_i64 (InternalBeginResult_op_handle s) ∧ True))).
Lemma InternalBeginResult_codec_ok : codec_ok InternalBeginResult_codec InternalBeginResult_wf 3.
Proof. refine (derive_struct_ok _ _ _ _ _ _ (field_ok _ _ _ _ _ _ i64_codec_ok (field_ok _ _ _ _ _ _ (vec_codec_ok _ _ _ KeyParam_codec_ok) (field_ok _ _ _ _ _ _ i64_codec_ok (no_fields_ok 0)))) _). by intros []. Qed.
Definition AttestationIdInfo_wf (s : AttestationIdInfo) : Prop := ((λ _ : bytes, True) (AttestationIdInfo_brand s) ∧ ((λ _ : bytes, True) (AttestationIdInfo_device s) ∧ ((λ _ : bytes, True) (AttestationIdInfo_product s) ∧ ((λ _ : bytes, True) (AttestationIdInfo_serial s) ∧ ((λ _ : bytes, True) (AttestationIdInfo_imei s) ∧ ((λ _ : bytes, True) (AttestationIdInfo_imei2 s) ∧ ((λ _ : bytes, True) (AttestationIdInfo_meid s) ∧ ((λ _ : bytes, True) (AttestationIdInfo_manufacturer s) ∧ ((λ _ : bytes, True) (AttestationIdInfo_model s) ∧ True))))))))).
Lemma AttestationIdInfo_codec_ok : codec_ok AttestationIdInfo_codec AttestationIdInfo_wf 1.
Proof. refine (derive_struct_ok _ _ _ _ _ _ (field_ok _ _ _ _ _ _ bytes_codec_ok (field_ok _ _ _ _ _ _ bytes_codec_ok (field_ok _ _ _ _ _ _ bytes_codec_ok (field_ok _ _ _ _ _ _ bytes_codec_ok (field_ok _ _ _ _ _ _ bytes_codec_ok (field_ok _ _ _ _ _ _ bytes_codec_ok (field_ok _ _ _ _ _ _ bytes_codec_ok (field_ok _ _ _ _ _ _ bytes_codec_ok (field_ok _ _ _ _ _ _ bytes_codec_ok (no_fields_ok 0)))))))))) _). by intros []. Qed.
Definition GetHardwareInfoRequest_wf (s : GetHardwareInfoRequest) : Prop := True.
Lemma GetHardwareInfoRequest_codec_ok : codec_ok GetHardwareInfoRequest_codec GetHardwareInfoRequest_wf 1.
Proof. refine (derive_struct_ok _ _ _ _ _ _ (no_fields_ok 0) _). by intros []. Qed.
Definition GetHardwareInfoResponse_wf (s : GetHardwareInfoResponse) : Prop := (KeyMintHardwareInfo_wf (GetHardwareInfoResponse_ret s) ∧ True).
Lemma GetHardwareInfoResponse_codec_ok : codec_ok GetHardwareInfoResponse_codec GetHardwareInfoResponse_wf 2.
Proof. refine (derive_struct_ok _ _ _ _ _ _ (field_ok _ _ _ _ _ _ KeyMintHardwareInfo_codec_ok (no_fields_ok 0)) _). by intros []. Qed.
Definition AddRngEntropyRequest_wf (s : AddRngEntropyRequest) : Prop := ((λ _ : bytes, True) (AddRngEntropyRequest_data s) ∧ True).
Lemma AddRngEntropyRequest_codec_ok : codec_ok AddRngEntropyRequest_codec AddRngEntropyRequest_wf 1.
Proof. refine (derive_struct_ok _ _ _ _ _ _ (field_ok _ _ _ _ _ _ bytes_codec_ok (no_fields_ok 0)) _). by intros []. Qed.
Definition AddRngEntropyResponse_wf (s : AddRngEntropyResponse) : Prop := True.
Lemma AddRngEntropyResponse_codec_ok : codec_ok AddRngEntropyResponse_codec AddRngEntropyResponse_wf 1.
Proof. refine (derive_struct_ok _ _ _ _ _ _ (no_fields_ok 0) _). by intros []. Qed.
Definition GenerateKeyRequest_wf (s : GenerateKeyRequest) : Prop := ((Forall kp_wf) (GenerateKeyRequest_key_params s) ∧ ((from_option AttestationKey_wf True) (GenerateKeyRequest_attestation_key s) ∧ True)).
Lemma GenerateKeyRequest_codec_ok : codec_ok GenerateKeyRequest_codec GenerateKeyRequest_wf 5.
Proof. refine (derive_struct_ok _ _ _ _ _ _ (field_ok _ _ _ _ _ _ (vec_codec_ok _ _ _ KeyParam_codec_ok) (field_ok _ _ _ _ _ _ (option_codec_ok _ _ _ AttestationKey_codec_ok) (no_fields_ok 0))) _). by intros []. Qed.
Definition GenerateKeyResponse_wf (s : GenerateKeyResponse) : Prop := (KeyCreationResult_wf (GenerateKeyResponse_ret s) ∧ True).
Lemma GenerateKeyResponse_codec_ok : codec_ok GenerateKeyResponse_codec GenerateKeyResponse_wf 6.
Proof. refine (derive_struct_ok _ _ _ _ _ _ (field_ok _ _ _ _ _ _ KeyCreationResult_codec_ok (no_fields_ok 0)) _). by intros []. Qed.
Definition ImportKeyRequest_wf (s : ImportKeyRequest) : Prop := ((Forall kp_wf) (ImportKeyRequest_key_params s) ∧ ((λ _ : KeyFormat, True) (ImportKeyRequest_key_format s) ∧ ((λ _ : bytes, True) (ImportKeyRequest_key_data s) ∧ ((from_option AttestationKey_wf True) (ImportKeyRequest_attestation_key s) ∧ True)))).
Lemma ImportKeyRequest_codec_ok : codec_ok ImportKeyRequest_codec ImportKeyRequest_wf 5.
Proof. refine (derive_struct_ok _ _ _ _ _ _ (field_ok _ _ _ _ _ _ (vec_codec_ok _ _ _ KeyParam_codec_ok) (field_ok _ _ _ _ _ _ (derive_enum_ok (A:=KeyFormat)) (field_ok _ _ _ _ _ _ bytes_codec_ok (field_ok _ _ _ _ _ _ (option_codec_ok _ _ _ AttestationKey_codec_ok) (no_fields_ok 0))))) _). by intros []. Qed.
Definition ImportKeyResponse_wf (s : ImportKeyResponse) : Prop := (KeyCreationResult_wf (ImportKeyResponse_ret s) ∧ True).
Lemma ImportKeyResponse_codec_ok : codec_ok ImportKeyResponse_codec ImportKeyResponse_wf 6.
Proof. refine (derive_struct_ok _ _ _ _ _ _ (field_ok _ _ _ _ _ _ KeyCreationResult_codec_ok (no_fields_ok 0)) _). by intros []. Qed.
Definition ImportWrappedKeyRequest_wf (s : ImportWrappedKeyRequest) : Prop := ((λ _ : bytes, True) (ImportWrappedKeyRequest_wrapped_key_data s) ∧ ((λ _ : bytes, True) (ImportWrappedKeyRequest_wrapping_key_blob s) ∧ ((λ _ : bytes, True) (ImportWrappedKeyRequest_masking_key s) ∧ ((Forall kp_wf) (ImportWrappedKeyRequest_unwrapping_params s) ∧ (is_i64 (ImportWrappedKeyRequest_password_sid s) ∧ (is_i64 (ImportWrappedKeyRequest_biometric_sid s) ∧ True)))))).
Lemma ImportWrappedKeyRequest_codec_ok : codec_ok ImportWrappedKeyRequest_codec ImportWrappedKeyRequest_wf 3.
Proof. refine (derive_struct_ok _ _ _ _ _ _ (field_ok _ _ _ _ _ _ bytes_codec_ok (field_ok _ _ _ _ _ _ bytes_codec_ok (field_ok _ _ _ _ _ _ bytes_codec_ok (field_ok _ _ _ _ _ _ (vec_codec_ok _ _ _ KeyParam_codec_ok) (field_ok _ _ _ _ _ _ i64_codec_ok (field_ok _ _ _ _ _ _ i64_codec_ok (no_fields_ok 0))))))) _). by intros []. Qed.
Definition ImportWrappedKeyResponse_wf (s : ImportWrappedKeyResponse) : Prop := (KeyCreationResult_wf (ImportWrappedKeyResponse_ret s) ∧ True).
Lemma ImportWrappedKeyResponse_codec_ok : codec_ok ImportWrappedKeyResponse_codec ImportWrappedKeyResponse_wf 6.
Proof. refine (derive_struct_ok _ _ _ _ _ _ (field_ok _ _ _ _ _ _ KeyCreationResult_codec_ok (no_fields_ok 0)) _). by intros []. Qed.
Definition UpgradeKeyRequest_wf (s : UpgradeKeyRequest) : Prop := ((λ _ : bytes, True) (UpgradeKeyRequest_key_blob_to_upgrade s) ∧ ((Forall kp_wf) (UpgradeKeyRequest_upgrade_params s) ∧ True)).
Lemma UpgradeKeyRequest_codec_ok : codec_ok UpgradeKeyRequest_codec UpgradeKeyRequest_wf 3.
Proof. refine (derive_struct_ok _ _ _ _ _ _ (field_ok _ _ _ _ _ _ bytes_codec_ok (field_ok _ _ _ _ _ _ (vec_codec_ok _ _ _ KeyParam_codec_ok) (no_fields_ok 0))) _). by intros []. Qed.
Definition UpgradeKeyResponse_wf (s : UpgradeKeyResponse) : Prop := ((λ _ : bytes, True) (UpgradeKeyResponse_ret s) ∧ True).
Lemma UpgradeKeyResponse_codec_ok : codec_ok UpgradeKeyResponse_codec UpgradeKeyResponse_wf 1.
Proof. refine (derive_struct_ok _ _ _ _ _ _ (field_ok _ _ _ _ _ _ bytes_codec_ok (no_fields_ok 0)) _). by intros []. Qed.
Definition DeleteKeyRequest_wf (s : DeleteKeyRequest) : Prop := ((λ _ : bytes, True) (DeleteKeyRequest_key_blob s) ∧ True).
Lemma DeleteKeyRequest_codec_ok : codec_ok DeleteKeyRequest_codec DeleteKeyRequest_wf 1.
Proof. refine (derive_struct_ok _ _ _ _ _ _ (field_ok _ _ _ _ _ _ bytes_codec_ok (no_fields_ok 0)) _). by intros []. Qed.
Definition DeleteKeyResponse_wf (s : DeleteKeyResponse) : Prop := True.
Lemma DeleteKeyResponse_codec_ok : codec_ok DeleteKeyResponse_codec DeleteKeyResponse_wf 1.
Proof. refine (derive_struct_ok _ _ _ _ _ _ (no_fields_ok 0) _). by intros []. Qed.
Definition DeleteAllKeysRequest_wf (s : DeleteAllKeysRequest) : Prop := True.
Lemma DeleteAllKeysRequest_codec_ok : codec_ok DeleteAllKeysRequest_codec DeleteAllKeysRequest_wf 1.
Proof. refine (derive_struct_ok _ _ _ _ _ _ (no_fields_ok 0) _). by intros []. Qed.
Definition DeleteAllKeysResponse_wf (s : DeleteAllKeysResponse) : Prop := True.
Lemma DeleteAllKeysResponse_codec_ok : codec_ok DeleteAllKeysResponse_codec DeleteAllKeysResponse_wf 1.
Proof. refine (derive_struct_ok _ _ _ _ _ _ (no_fields_ok 0) _). by intros []. Qed.
Definition DestroyAttestationIdsRequest_wf (s : DestroyAttestationIdsRequest) : Prop := True.
Lemma DestroyAttestationIdsRequest_codec_ok : codec_ok DestroyAttestationIdsRequest_codec DestroyAttestationIdsRequest_wf 1.
Proof. refine (derive_struct_ok _ _ _ _ _ _ (no_fields_ok 0) _). by intros []. Qed.
Definition DestroyAttestationIdsResponse_wf (s : DestroyAttestationIdsResponse) : Prop := True.
Lemma DestroyAttestationIdsResponse_codec_ok : codec_ok DestroyAttestationIdsResponse_codec DestroyAttestationIdsResponse_wf 1.
Proof. refine (derive_struct_ok _ _ _ _ _ _ (no_fields_ok 0) _). by intros []. Qed.
Definition BeginRequest_wf (s : BeginRequest) : Prop := ((λ _ : KeyPurpose, True) (BeginRequest_purpose s) ∧ ((λ _ : bytes, True) (BeginRequest_key_blob s) ∧ ((Forall kp_wf) (BeginRequest_params s) ∧ ((from_option HardwareAuthToken_wf True) (BeginRequest_auth_token s) ∧ True)))).
Lemma BeginRequest_codec_ok : codec_ok BeginRequest_codec BeginRequest_wf 4.
Proof. refine (derive_struct_ok _ _ _ _ _ _ (field_ok _ _ _ _ _ _ (derive_enum_ok (A:=KeyPurpose)) (field_ok _ _ _ _ _ _ bytes_codec_ok (field_ok _ _ _ _ _ _ (vec_codec_ok _ _ _ KeyParam_codec_ok) (field_ok _ _ _ _ _ _ (option_codec_ok _ _ _ HardwareAuthToken_codec_ok) (no_fields_ok 0))))) _). by intros []. Qed.
Definition BeginResponse_wf (s : BeginResponse) : Prop := (InternalBeginResult_wf (BeginResponse_ret s) ∧ True).
Lemma BeginResponse_codec_ok : codec_ok BeginResponse_codec BeginResponse_wf 4.
Proof. refine (derive_struct_ok _ _ _ _ _ _ (field_ok _ _ _ _ _ _ InternalBeginResult_codec_ok (no_fields_ok 0)) _). by intros []. Qed.
Definition EarlyBootEndedRequest_wf (s : EarlyBootEndedRequest) : Prop := True.
Lemma EarlyBootEndedRequest_codec_ok : codec_ok EarlyBootEndedRequest_codec EarlyBootEndedRequest_wf 1.
Proof. refine (derive_struct_ok _ _ _ _ _ _ (no_fields_ok 0) _). by intros []. Qed.
Definition EarlyBootEndedResponse_wf (s : EarlyBootEndedResponse) : Prop := True.
Lemma EarlyBootEndedResponse_codec_ok : codec_ok EarlyBootEndedResponse_codec EarlyBootEndedResponse_wf 1.
Proof. refine (derive_struct_ok _ _ _ _ _ _ (no_fields_ok 0) _). by intros []. Qed.
Definition ConvertStorageKeyToEphemeralRequest_wf (s : ConvertStorageKeyToEphemeralRequest) : Prop := ((λ _ : bytes, True) (ConvertStorageKeyToEphemeralRequest_storage_key_blob s) ∧ True).
Lemma ConvertStorageKeyToEphemeralRequest_codec_ok : codec_ok ConvertStorageKeyToEphemeralRequest_codec ConvertStorageKeyToEphemeralRequest_wf 1.
Proof. refine (derive_struct_ok _ _ _ _ _ _ (field_ok _ _ _ _ _ _ bytes_codec_ok (no_fields_ok 0)) _). by intros []. Qed.
Definition ConvertStorageKeyToEphemeralResponse_wf (s : ConvertStorageKeyToEphemeralResponse) : Prop := ((λ _ : bytes, True) (ConvertStorageKeyToEphemeralResponse_ret s) ∧ True).
Lemma ConvertStorageKeyToEphemeralResponse_codec_ok : codec_ok ConvertStorageKeyToEphemeralResponse_codec ConvertStorageKeyToEphemeralResponse_wf 1.
Proof. refine (derive_struct_ok _ _ _ _ _ _ (field_ok _ _ _ _ _ _ bytes_codec_ok (no_fields_ok 0)) _). by intros []. Qed.
Definition GetKeyCharacteristicsRequest_wf (s : GetKeyCharacteristicsRequest) : Prop := ((λ _ : bytes, True) (GetKeyCharacteristicsRequest_key_blob s) ∧ ((λ _ : bytes, True) (GetKeyCharacteristicsRequest_app_id s) ∧ ((λ _ : bytes, True) (GetKeyCharacteristicsRequest_app_data s) ∧ True))).
Lemma GetKeyCharacteristicsRequest_codec_ok : codec_ok GetKeyCharacteristicsRequest_codec GetKeyCharacteristicsRequest_wf 1.
Proof. refine (derive_struct_ok _ _ _ _ _ _ (field_ok _ _ _ _ _ _ bytes_codec_ok (field_ok _ _ _ _ _ _ bytes_codec_ok (field_ok _ _ _ _ _ _ bytes_codec_ok (no_fields_ok 0)))) _). by intros []. Qed.
Definition GetKeyCharacteristicsResponse_wf (s : GetKeyCharacteristicsResponse) : Prop := ((Forall KeyCharacteristics_wf) (GetKeyCharacteristicsResponse_ret s) ∧ True).
Lemma GetKeyCharacteristicsResponse_codec_ok : codec_ok GetKeyCharacteristicsResponse_codec GetKeyCharacteristicsResponse_wf 5.
Proof. refine (derive_struct_ok _ _ _ _ _ _ (field_ok _ _ _ _ _ _ (vec_codec_ok _ _ _ KeyCharacteristics_codec_ok) (no_fields_ok 0)) _). by intros []. Qed.
Definition GetRootOfTrustChallengeRequest_wf (s : GetRootOfTrustChallengeRequest) : Prop := True.
Lemma GetRootOfTrustChallengeRequest_codec_ok : codec_ok GetRootOfTrustChallengeRequest_codec GetRootOfTrustChallengeRequest_wf 1.
Proof. refine (derive_struct_ok _ _ _ _ _ _ (no_fields_ok 0) _). by intros []. Qed.
Definition GetRootOfTrustChallengeResponse_wf (s : GetRootOfTrustChallengeResponse) : Prop := ((λ b : bytes, len b = 16) (GetRootOfTrustChallengeResponse_ret s) ∧ True).
Lemma GetRootOfTrustChallengeResponse_codec_ok : codec_ok GetRootOfTrustChallengeResponse_codec GetRootOfTrustChallengeResponse_wf 1.
Proof. refine (derive_struct_ok _ _ _ _ _ _ (field_ok _ _ _ _ _ _ (array_codec_ok 16) (no_fields_ok 0)) _). by intros []. Qed.
Definition GetRootOfTrustRequest_wf (s : GetRootOfTrustRequest) : Prop := ((λ b : bytes, len b = 16) (GetRootOfTrustRequest_challenge s) ∧ True).
Lemma GetRootOfTrustRequest_codec_ok : codec_ok GetRootOfTrustRequest_codec GetRootOfTrustRequest_wf 1.
Proof. refine (derive_struct_ok _ _ _ _ _ _ (field_ok _ _ _ _ _ _ (array_codec_ok 16) (no_fields_ok 0)) _). by intros []. Qed.
Definition GetRootOfTrustResponse_wf (s : GetRootOfTrustResponse) : Prop := ((λ _ : bytes, True) (GetRootOfTrustResponse_ret s) ∧ True).
Lemma GetRootOfTrustResponse_codec_ok : codec_ok GetRootOfTrustResponse_codec GetRootOfTrustResponse_wf 1.
Proof. refine (derive_struct_ok _ _ _ _ _ _ (field_ok _ _ _ _ _ _ bytes_codec_ok (no_fields_ok 0)) _). by intros []. Qed.
Definition SendRootOfTrustRequest_wf (s : SendRootOfTrustRequest) : Prop := ((λ _ : bytes, True) (SendRootOfTrustRequest_root_of_trust s) ∧ True).
Lemma SendRootOfTrustRequest_codec_ok : codec_ok SendRootOfTrustRequest_codec SendRootOfTrustRequest_wf 1.
Proof. refine (derive_struct_ok _ _ _ _ _ _ (field_ok _ _ _ _ _ _ bytes_codec_ok (no_fields_ok 0)) _). by intros []. Qed.
Definition SendRootOfTrustResponse_wf (s : SendRootOfTrustResponse) : Prop := True.
Lemma SendRootOfTrustResponse_codec_ok : codec_ok SendRootOfTrustResponse_codec SendRootOfTrustResponse_wf 1.
Proof. refine (derive_struct_ok _ _ _ _ _ _ (no_fields_ok 0) _). by intros []. Qed.
Definition SetAdditionalAttestationInfoRequest_wf (s : SetAdditionalAttestationInfoRequest) : Prop := ((Forall kp_wf) (SetAdditionalAttestationInfoRequest_info s) ∧ True).
Lemma SetAdditionalAttestationInfoRequest_codec_ok : codec_ok SetAdditionalAttestationInfoRequest_codec SetAdditionalAttestationInfoRequest_wf 3.
Proof. refine (derive_struct_ok _ _ _ _ _ _ (field_ok _ _ _ _ _ _ (vec_codec_ok _ _ _ KeyParam_codec_ok) (no_fields_ok 0)) _). by intros []. Qed.
Definition SetAdditionalAttestationInfoResponse_wf (s : SetAdditionalAttestationInfoResponse) : Prop := True.
Lemma SetAdditionalAttestationInfoResponse_codec_ok : codec_ok SetAdditionalAttestationInfoResponse_codec SetAdditionalAttestationInfoResponse_wf 1.
Proof. refine (derive_struct_ok _ _ _ _ _ _ (no_fields_ok 0) _). by intros []. Qed.
Definition UpdateAadRequest_wf (s : UpdateAadRequest) : Prop := (is_i64 (UpdateAadRequest_op_handle s) ∧ ((λ _ : bytes, True) (UpdateAadRequest_input s) ∧ ((from_option HardwareAuthToken_wf True) (UpdateAadRequest_auth_token s) ∧ ((from_option TimeStampToken_wf True) (UpdateAadRequest_timestamp_token s) ∧ True)))).
Lemma UpdateAadRequest_codec_ok : codec_ok UpdateAadRequest_codec UpdateAadRequest_wf 4.
Proof. refine (derive_struct_ok _ _ _ _ _ _ (field_ok _ _ _ _ _ _ i64_codec_ok (field_ok _ _ _ _ _ _ bytes_codec_ok (field_ok _ _ _ _ _ _ (option_codec_ok _ _ _ HardwareAuthToken_codec_ok) (field_ok _ _ _ _ _ _ (option_codec_ok _ _ _ TimeStampToken_codec_ok) (no_fields_ok 0))))) _). by intros []. Qed.
Definition UpdateAadResponse_wf (s : UpdateAadResponse) : Prop := True.
Lemma UpdateAadResponse_codec_ok : codec_ok UpdateAadResponse_codec UpdateAadResponse_wf 1.
Proof. refine (derive_struct_ok _ _ _ _ _ _ (no_fields_ok 0) _). by intros []. Qed.
Definition UpdateRequest_wf (s : UpdateRequest) : Prop := (is_i64 (UpdateRequest_op_handle s) ∧ ((λ _ : bytes, True) (UpdateRequest_input s) ∧ ((from_option HardwareAuthToken_wf True) (UpdateRequest_auth_token s) ∧ ((from_option TimeStampToken_wf True) (UpdateRequest_timestamp_token s) ∧ True)))).
Lemma UpdateRequest_codec_ok : codec_ok UpdateRequest_codec UpdateRequest_wf 4.
Proof. refine (derive_struct_ok _ _ _ _ _ _ (field_ok _ _ _ _ _ _ i64_codec_ok (field_ok _ _ _ _ _ _ bytes_codec_ok (field_ok _ _ _ _ _ _ (option_codec_ok _ _ _ HardwareAuthToken_codec_ok) (field_ok _ _ _ _ _ _ (option_codec_ok _ _ _ TimeStampToken_codec_ok) (no_fields_ok 0))))) _). by intros []. Qed.
Definition UpdateResponse_wf (s : UpdateResponse) : Prop := ((λ _ : bytes, True) (UpdateResponse_ret s) ∧ True).
Lemma UpdateResponse_codec_ok : codec_ok UpdateResponse_codec UpdateResponse_wf 1.
Proof. refine (derive_struct_ok _ _ _ _ _ _ (field_ok _ _ _ _ _ _ bytes_codec_ok (no_fields_ok 0)) _). by intros []. Qed.
Definition FinishRequest_wf (s : FinishRequest) : Prop := (is_i64 (FinishRequest_op_handle s) ∧ ((from_option (λ _ : bytes, True) True) (FinishRequest_input s) ∧ ((from_option (λ _ : bytes, True) True) (FinishRequest_signature s) ∧ ((from_option HardwareAuthToken_wf True) (FinishRequest_auth_token s) ∧ ((from_option TimeStampToken_wf True) (FinishRequest_timestamp_token s) ∧ ((from_option (λ _ : bytes, True) True) (FinishRequest_confirmation_token s) ∧ True)))))).
Lemma FinishRequest_codec_ok : codec_ok FinishRequest_codec FinishRequest_wf 4.
Proof. refine (derive_struct_ok _ _ _ _ _ _ (field_ok _ _ _ _ _ _ i64_codec_ok (field_ok _ _ _ _ _ _ (option_codec_ok _ _ _ bytes_codec_ok) (field_ok _ _ _ _ _ _ (option_codec_ok _ _ _ bytes_codec_ok) (field_ok _ _ _ _ _ _ (option_codec_ok _ _ _ HardwareAuthToken_codec_ok) (field_ok _ _ _ _ _ _ (option_codec_ok _ _ _ TimeStampToken_codec_ok) (field_ok _ _ _ _ _ _ (option_codec_ok _ _ _ bytes_codec_ok) (no_fields_ok 0))))))) _). by intros []. Qed.
Definition FinishResponse_wf (s : FinishResponse) : Prop := ((λ _ : bytes, True) (FinishResponse_ret s) ∧ True).
Lemma FinishResponse_codec_ok : codec_ok FinishResponse_codec FinishResponse_wf 1.
Proof. refine (derive_struct_ok _ _ _ _ _ _ (field_ok _ _ _ _ _ _ bytes_codec_ok (no_fields_ok 0)) _). by intros []. Qed.
Definition AbortRequest_wf (s : AbortRequest) : Prop := (is_i64 (AbortRequest_op_handle s) ∧ True).
Lemma AbortRequest_codec_ok : codec_ok AbortRequest_codec AbortRequest_wf 1.
Proof. refine (derive_struct_ok _ _ _ _ _ _ (field_ok _ _ _ _ _ _ i64_codec_ok (no_fields_ok 0)) _). by intros []. Qed.
Definition AbortResponse_wf (s : AbortResponse) : Prop := True.
Lemma AbortResponse_codec_ok : codec_ok AbortResponse_codec AbortResponse_wf 1.
Proof. refine (derive_struct_ok _ _ _ _ _ _ (no_fields_ok 0) _). by intros []. Qed.
Definition GetRpcHardwareInfoRequest_wf (s : GetRpcHardwareInfoRequest) : Prop := True.
Lemma GetRpcHardwareInfoRequest_codec_ok : codec_ok GetRpcHardwareInfoRequest_codec GetRpcHardwareInfoRequest_wf 1.
Proof. refine (derive_struct_ok _ _ _ _ _ _ (no_fields_ok 0) _). by intros []. Qed.
Definition GetRpcHardwareInfoResponse_wf (s : GetRpcHardwareInfoResponse) : Prop := (RpcHardwareInfo_wf (GetRpcHardwareInfoResponse_ret s) ∧ True).
Lemma GetRpcHardwareInfoResponse_codec_ok : codec_ok GetRpcHardwareInfoResponse_codec GetRpcHardwareInfoResponse_wf 3.
Proof. refine (derive_struct_ok _ _ _ _ _ _ (field_ok _ _ _ _ _ _ RpcHardwareInfo_codec_ok (no_fields_ok 0)) _). by intros []. Qed.
Definition GenerateEcdsaP256KeyPairRequest_wf (s : GenerateEcdsaP256KeyPairRequest) : Prop := ((λ _ : bool, True) (GenerateEcdsaP256KeyPairRequest_test_mode s) ∧ True).
Lemma GenerateEcdsaP256KeyPairRequest_codec_ok : codec_ok GenerateEcdsaP256KeyPairRequest_codec GenerateEcdsaP256KeyPairRequest_wf 1.
Proof. refine (derive_struct_ok _ _ _ _ _ _ (field_ok _ _ _ _ _ _ bool_codec_ok (no_fields_ok 0)) _). by intros []. Qed.
Definition GenerateEcdsaP256KeyPairResponse_wf (s : GenerateEcdsaP256KeyPairResponse) : Prop := (MacedPublicKey_wf (GenerateEcdsaP256KeyPairResponse_maced_public_key s) ∧ ((λ _ : bytes, True) (GenerateEcdsaP256KeyPairResponse_ret s) ∧ True)).
Lemma GenerateEcdsaP256KeyPairResponse_codec_ok : codec_ok GenerateEcdsaP256KeyPairResponse_codec GenerateEcdsaP256KeyPairResponse_wf 2.
Proof. refine (derive_struct_ok _ _ _ _ _ _ (field_ok _ _ _ _ _ _ MacedPublicKey_codec_ok (field_ok _ _ _ _ _ _ bytes_codec_ok (no_fields_ok 0))) _). by intros []. Qed.
Definition GenerateCertificateRequestRequest_wf (s : GenerateCertificateRequestRequest) : Prop := ((λ _ : bool, True) (GenerateCertificateRequestRequest_test_mode s) ∧ ((Forall MacedPublicKey_wf) (GenerateCertificateRequestRequest_keys_to_sign s) ∧ ((λ _ : bytes, True) (GenerateCertificateRequestRequest_endpoint_encryption_cert_chain s) ∧ ((λ _ : bytes, True) (GenerateCertificateRequestRequest_challenge s) ∧ True)))).
Lemma GenerateCertificateRequestRequest_codec_ok : codec_ok GenerateCertificateRequestRequest_codec GenerateCertificateRequestRequest_wf 3.
Proof. refine (derive_struct_ok _ _ _ _ _ _ (field_ok _ _ _ _ _ _ bool_codec_ok (field_ok _ _ _ _ _ _ (vec_codec_ok _ _ _ MacedPublicKey_codec_ok) (field_ok _ _ _ _ _ _ bytes_codec_ok (field_ok _ _ _ _ _ _ bytes_codec_ok (no_fields_ok 0))))) _). by intros []. Qed.
Definition GenerateCertificateRequestResponse_wf (s : GenerateCertificateRequestResponse) : Prop := (DeviceInfo_wf (GenerateCertificateRequestResponse_device_info s) ∧ (ProtectedData_wf (GenerateCertificateRequestResponse_protected_data s) ∧ ((λ _ : bytes, True) (GenerateCertificateRequestResponse_ret s) ∧ True))).
Lemma GenerateCertificateRequestResponse_codec_ok : codec_ok GenerateCertificateRequestResponse_codec GenerateCertificateRequestResponse_wf 2.
Proof. refine (derive_struct_ok _ _ _ _ _ _ (field_ok _ _ _ _ _ _ DeviceInfo_codec_ok (field_ok _ _ _ _ _ _ ProtectedData_codec_ok (field_ok _ _ _ _ _ _ bytes_codec_ok (no_fields_ok 0)))) _). by intros []. Qed.
Definition GenerateCertificateRequestV2Request_wf (s : GenerateCertificateRequestV2Request) : Prop := ((Forall MacedPublicKey_wf) (GenerateCertificateRequestV2Request_keys_to_sign s) ∧ ((λ _ : bytes, True) (GenerateCertificateRequestV2Request_challenge s) ∧ True)).
Lemma GenerateCertificateRequestV2Request_codec_ok : codec_ok GenerateCertificateRequestV2Request_codec GenerateCertificateRequestV2Request_wf 3.
Proof. refine (derive_struct_ok _ _ _ _ _ _ (field_ok _ _ _ _ _ _ (vec_codec_ok _ _ _ MacedPublicKey_codec_ok) (field_ok _ _ _ _ _ _ bytes_codec_ok (no_fields_ok 0))) _). by intros []. Qed.
Definition GenerateCertificateRequestV2Response_wf (s : GenerateCertificateRequestV2Response) : Prop := ((λ _ : bytes, True) (GenerateCertificateRequestV2Response_ret s) ∧ True).
Lemma GenerateCertificateRequestV2Response_codec_ok : codec_ok GenerateCertificateRequestV2Response_codec GenerateCertificateRequestV2Response_wf 1.
Proof. refine (derive_struct_ok _ _ _ _ _ _ (field_ok _ _ _ _ _ _ bytes_codec_ok (no_fields_ok 0)) _). by intros []. Qed.
Definition GetSharedSecretParametersRequest_wf (s : GetSharedSecretParametersRequest) : Prop := True.
Lemma GetSharedSecretParametersRequest_codec_ok : codec_ok GetSharedSecretParametersRequest_codec GetSharedSecretParametersRequest_wf 1.
Proof. refine (derive_struct_ok _ _ _ _ _ _ (no_fields_ok 0) _). by intros []. Qed.
Definition GetSharedSecretParametersResponse_wf (s : GetSharedSecretParametersResponse) : Prop := (SharedSecretParameters_wf (GetSharedSecretParametersResponse_ret s) ∧ True).
Lemma GetSharedSecretParametersResponse_codec_ok : codec_ok GetSharedSecretParametersResponse_codec GetSharedSecretParametersResponse_wf 2.
Proof. refine (derive_struct_ok _ _ _ _ _ _ (field_ok _ _ _ _ _ _ SharedSecretParameters_codec_ok (no_fields_ok 0)) _). by intros []. Qed.
Definition ComputeSharedSecretRequest_wf (s : ComputeSharedSecretRequest) : Prop := ((Forall SharedSecretParameters_wf) (ComputeSharedSecretRequest_params s) ∧ True).
Lemma ComputeSharedSecretRequest_codec_ok : codec_ok ComputeSharedSecretRequest_codec ComputeSharedSecretRequest_wf 3.
Proof. refine (derive_struct_ok _ _ _ _ _ _ (field_ok _ _ _ _ _ _ (vec_codec_ok _ _ _ SharedSecretParameters_codec_ok) (no_fields_ok 0)) _). by intros []. Qed.
Definition ComputeSharedSecretResponse_wf (s : ComputeSharedSecretResponse) : Prop := ((λ _ : bytes, True) (ComputeSharedSecretResponse_ret s) ∧ True).
Lemma ComputeSharedSecretResponse_codec_ok : codec_ok ComputeSharedSecretResponse_codec ComputeSharedSecretResponse_wf 1.
Proof. refine (derive_struct_ok _ _ _ _ _ _ (field_ok _ _ _ _ _ _ bytes_codec_ok (no_fields_ok 0)) _). by intros []. Qed.
Definition GenerateTimeStampRequest_wf (s : GenerateTimeStampRequest) : Prop := (is_i64 (GenerateTimeStampRequest_challenge s) ∧ True).
Lemma GenerateTimeStampRequest_codec_ok : codec_ok GenerateTimeStampRequest_codec GenerateTimeStampRequest_wf 1.
Proof. refine (derive_struct_ok _ _ _ _ _ _ (field_ok _ _ _ _ _ _ i64_codec_ok (no_fields_ok 0)) _). by intros []. Qed.
Definition GenerateTimeStampResponse_wf (s : GenerateTimeStampResponse) : Prop := (TimeStampToken_wf (GenerateTimeStampResponse_ret s) ∧ True).
Lemma GenerateTimeStampResponse_codec_ok : codec_ok GenerateTimeStampResponse_codec GenerateTimeStampResponse_wf 3.
Proof. refine (derive_struct_ok _ _ _ _ _ _ (field_ok _ _ _ _ _ _ TimeStampToken_codec_ok (no_fields_ok 0)) _). by intros []. Qed.
Definition SetHalInfoRequest_wf (s : SetHalInfoRequest) : Prop := (is_u32 (SetHalInfoRequest_os_version s) ∧ (is_u32 (SetHalInfoRequest_os_patchlevel s) ∧ (is_u32 (SetHalInfoRequest_vendor_patchlevel s) ∧ True))).
Lemma SetHalInfoRequest_codec_ok : codec_ok SetHalInfoRequest_codec SetHalInfoRequest_wf 1.
Proof. refine (derive_struct_ok _ _ _ _ _ _ (field_ok _ _ _ _ _ _ u32_codec_ok (field_ok _ _ _ _ _ _ u32_codec_ok (field_ok _ _ _ _ _ _ u32_codec_ok (no_fields_ok 0)))) _). by intros []. Qed.
Definition SetHalInfoResponse_wf (s : SetHalInfoResponse) : Prop := True.
Lemma SetHalInfoResponse_codec_ok : codec_ok SetHalInfoResponse_codec SetHalInfoResponse_wf 1.
Proof. refine (derive_struct_ok _ _ _ _ _ _ (no_fields_ok 0) _). by intros []. Qed.
Definition SetHalVersionRequest_wf (s : SetHalVersionRequest) : Prop := (is_u32 (SetHalVersionRequest_aidl_version s) ∧ True).
Lemma SetHalVersionRequest_codec_ok : codec_ok SetHalVersionRequest_codec SetHalVersionRequest_wf 1.
Proof. refine (derive_struct_ok _ _ _ _ _ _ (field_ok _ _ _ _ _ _ u32_codec_ok (no_fields_ok 0)) _). by intros []. Qed.
Definition SetHalVersionResponse_wf (s : SetHalVersionResponse) : Prop := True.
Lemma SetHalVersionResponse_codec_ok : codec_ok SetHalVersionResponse_codec SetHalVersionResponse_wf 1.
Proof. refine (derive_struct_ok _ _ _ _ _ _ (no_fields_ok 0) _). by intros []. Qed.
Definition SetBootInfoRequest_wf (s : SetBootInfoRequest) : Prop := ((λ _ : bytes, True) (SetBootInfoRequest_verified_boot_key s) ∧ ((λ _ : bool, True) (SetBootInfoRequest_device_boot_locked s) ∧ (is_i32 (SetBootInfoRequest_verified_boot_state s) ∧ ((λ _ : bytes, True) (SetBootInfoRequest_verified_boot_hash s) ∧ (is_u32 (SetBootInfoRequest_boot_patchlevel s) ∧ True))))).
Lemma SetBootInfoRequest_codec_ok : codec_ok SetBootInfoRequest_codec SetBootInfoRequest_wf 1.
Proof. refine (derive_struct_ok _ _ _ _ _ _ (field_ok _ _ _ _ _ _ bytes_codec_ok (field_ok _ _ _ _ _ _ bool_codec_ok (field_ok _ _ _ _ _ _ i32_codec_ok (field_ok _ _ _ _ _ _ bytes_codec_ok (field_ok _ _ _ _ _ _ u32_codec_ok (no_fields_ok 0)))))) _). by intros []. Qed.
Definition SetBootInfoResponse_wf (s : SetBootInfoResponse) : Prop := True.
Lemma SetBootInfoResponse_codec_ok : codec_ok SetBootInfoResponse_codec SetBootInfoResponse_wf 1.
Proof. refine (derive_struct_ok _ _ _ _ _ _ (no_fields_ok 0) _). by intros []. Qed.
Definition SetAttestationIdsRequest_wf (s : SetAttestationIdsRequest) : Prop := (AttestationIdInfo_wf (SetAttestationIdsRequest_ids s) ∧ True).
Lemma SetAttestationIdsRequest_codec_ok : codec_ok SetAttestationIdsRequest_codec SetAttestationIdsRequest_wf 2.
Proof. refine (derive_struct_ok _ _ _ _ _ _ (field_ok _ _ _ _ _ _ AttestationIdInfo_codec_ok (no_fields_ok 0)) _). by intros []. Qed.
Definition SetAttestationIdsResponse_wf (s : SetAttestationIdsResponse) : Prop := True.
Lemma SetAttestationIdsResponse_codec_ok : codec_ok SetAttestationIdsResponse_codec SetAttestationIdsResponse_wf 1.
Proof. refine (derive_struct_ok _ _ _ _ _ _ (no_fields_ok 0) _). by intros []. Qed.
Definition PerformOpReq_wf (m : PerformOpReq) : Prop :=
  match m with
  | Req_DeviceGetHardwareInfo m => GetHardwareInfoRequest_wf m
  | Req_DeviceAddRngEntropy m => AddRngEntropyRequest_wf m
  | Req_DeviceGenerateKey m => GenerateKeyRequest_wf m
  | Req_DeviceImportKey m => ImportKeyRequest_wf m
  | Req_DeviceImportWrappedKey m => ImportWrappedKeyRequest_wf m
  | Req_DeviceUpgradeKey m => UpgradeKeyRequest_wf m
  | Req_DeviceDeleteKey m => DeleteKeyRequest_wf m
  | Req_DeviceDeleteAllKeys m => DeleteAllKeysRequest_wf m
  | Req_DeviceDestroyAttestationIds m => DestroyAttestationIdsRequest_wf m
  | Req_DeviceBegin m => BeginRequest_wf m
  | Req_DeviceEarlyBootEnded m => EarlyBootEndedRequest_wf m
  | Req_DeviceConvertStorageKeyToEphemeral m => ConvertStorageKeyToEphemeralRequest_wf m
  | Req_DeviceGetKeyCharacteristics m => GetKeyCharacteristicsRequest_wf m
  | Req_OperationUpdateAad m => UpdateAadRequest_wf m
  | Req_OperationUpdate m => UpdateRequest_wf m
  | Req_OperationFinish m => FinishRequest_wf m
  | Req_OperationAbort m => AbortRequest_wf m
  | Req_RpcGetHardwareInfo m => GetRpcHardwareInfoRequest_wf m
  | Req_RpcGenerateEcdsaP256KeyPair m => GenerateEcdsaP256KeyPairRequest_wf m
  | Req_RpcGenerateCertificateRequest m => GenerateCertificateRequestRequest_wf m
  | Req_RpcGenerateCertificateV2Request m => GenerateCertificateRequestV2Request_wf m
  | Req_SharedSecretGetSharedSecretParameters m => GetSharedSecretParametersRequest_wf m
  | Req_SharedSecretComputeSharedSecret m => ComputeSharedSecretRequest_wf m
  | Req_SecureClockGenerateTimeStamp m => GenerateTimeStampRequest_wf m
  | Req_GetRootOfTrustChallenge m => GetRootOfTrustChallengeRequest_wf m
  | Req_GetRootOfTrust m => GetRootOfTrustRequest_wf m
  | Req_SendRootOfTrust m => SendRootOfTrustRequest_wf m
  | Req_SetHalInfo m => SetHalInfoRequest_wf m
  | Req_SetBootInfo m => SetBootInfoRequest_wf m
  | Req_SetAttestationIds m => SetAttestationIdsRequest_wf m
  | Req_SetHalVersion m => SetHalVersionRequest_wf m
  | Req_SetAdditionalAttestationInfo m => SetAdditionalAttestationInfoRequest_wf m
  end.
Lemma PerformOpReq_codec_ok : codec_ok PerformOpReq_codec PerformOpReq_wf 6.
Proof.
  apply message_codec_ok. intros m. destruct m; cbn [PerformOpReq_enc PerformOpReq_dec PerformOpReq_wf fst snd]; intros Hm;
  match goal with
  | |- context [to_cbor_value ?c] =>
    first [destruct (GetHardwareInfoRequest_codec_ok _ Hm) as (v & Hv & Hv1 & Hv2 & Hv3) | destruct (AddRngEntropyRequest_codec_ok _ Hm) as (v & Hv & Hv1 & Hv2 & Hv3) | destruct (GenerateKeyRequest_codec_ok _ Hm) as (v & Hv & Hv1 & Hv2 & Hv3) | destruct (ImportKeyRequest_codec_ok _ Hm) as (v & Hv & Hv1 & Hv2 & Hv3) | destruct (ImportWrappedKeyRequest_codec_ok _ Hm) as (v & Hv & Hv1 & Hv2 & Hv3) | destruct (UpgradeKeyRequest_codec_ok _ Hm) as (v & Hv & Hv1 & Hv2 & Hv3) | destruct (DeleteKeyRequest_codec_ok _ Hm) as (v & Hv & Hv1 & Hv2 & Hv3) | destruct (DeleteAllKeysRequest_codec_ok _ Hm) as (v & Hv & Hv1 & Hv2 & Hv3) | destruct (DestroyAttestationIdsRequest_codec_ok _ Hm) as (v & Hv & Hv1 & Hv2 & Hv3) | destruct (BeginRequest_codec_ok _ Hm) as (v & Hv & Hv1 & Hv2 & Hv3) | destruct (EarlyBootEndedRequest_codec_ok _ Hm) as (v & Hv & Hv1 & Hv2 & Hv3) | destruct (ConvertStorageKeyToEphemeralRequest_codec_ok _ Hm) as (v & Hv & Hv1 & Hv2 & Hv3) | destruct (GetKeyCharacteristicsRequest_codec_ok _ Hm) as (v & Hv & Hv1 & Hv2 & Hv3) | destruct (UpdateAadRequest_codec_ok _ Hm) as (v & Hv & Hv1 & Hv2 & Hv3) | destruct (UpdateRequest_codec_ok _ Hm) as (v & Hv & Hv1 & Hv2 & Hv3) | destruct (FinishRequest_codec_ok _ Hm) as (v & Hv & Hv1 & Hv2 & Hv3) | destruct (AbortRequest_codec_ok _ Hm) as (v & Hv & Hv1 & Hv2 & Hv3) | destruct (GetRpcHardwareInfoRequest_codec_ok _ Hm) as (v & Hv & Hv1 & Hv2 & Hv3) | destruct (GenerateEcdsaP256KeyPairRequest_codec_ok _ Hm) as (v & Hv & Hv1 & Hv2 & Hv3) | destruct (GenerateCertificateRequestRequest_codec_ok _ Hm) as (v & Hv & Hv1 & Hv2 & Hv3) | destruct (GenerateCertificateRequestV2Request_codec_ok _ Hm) as (v & Hv & Hv1 & Hv2 & Hv3) | destruct (GetSharedSecretParametersRequest_codec_ok _ Hm) as (v & Hv & Hv1 & Hv2 & Hv3) | destruct (ComputeSharedSecretRequest_codec_ok _ Hm) as (v & Hv & Hv1 & Hv2 & Hv3) | destruct (GenerateTimeStampRequest_codec_ok _ Hm) as (v & Hv & Hv1 & Hv2 & Hv3) | destruct (GetRootOfTrustChallengeRequest_codec_ok _ Hm) as (v & Hv & Hv1 & Hv2 & Hv3) | destruct (GetRootOfTrustRequest_codec_ok _ Hm) as (v & Hv & Hv1 & Hv2 & Hv3) | destruct (SendRootOfTrustRequest_codec_ok _ Hm) as (v & Hv & Hv1 & Hv2 & Hv3) | destruct (SetHalInfoRequest_codec_ok _ Hm) as (v & Hv & Hv1 & Hv2 & Hv3) | destruct (SetBootInfoRequest_codec_ok _ Hm) as (v & Hv & Hv1 & Hv2 & Hv3) | destruct (SetAttestationIdsRequest_codec_ok _ Hm) as (v & Hv & Hv1 & Hv2 & Hv3) | destruct (SetHalVersionRequest_codec_ok _ Hm) as (v & Hv & Hv1 & Hv2 & Hv3) | destruct (SetAdditionalAttestationInfoRequest_codec_ok _ Hm) as (v & Hv & Hv1 & Hv2 & Hv3)]
  end;
  exists v; (split_and!; [exact Hv|rewrite Hv1; reflexivity|lia|exact Hv3]).
Qed.
Definition PerformOpRsp_wf (m : PerformOpRsp) : Prop :=
  match m with
  | Rsp_DeviceGetHardwareInfo m => GetHardwareInfoResponse_wf m
  | Rsp_DeviceAddRngEntropy m => AddRngEntropyResponse_wf m
  | Rsp_DeviceGenerateKey m => GenerateKeyResponse_wf m
  | Rsp_DeviceImportKey m => ImportKeyResponse_wf m
  | Rsp_DeviceImportWrappedKey m => ImportWrappedKeyResponse_wf m
  | Rsp_DeviceUpgradeKey m => UpgradeKeyResponse_wf m
  | Rsp_DeviceDeleteKey m => DeleteKeyResponse_wf m
  | Rsp_DeviceDeleteAllKeys m => DeleteAllKeysResponse_wf m
  | Rsp_DeviceDestroyAttestationIds m => DestroyAttestationIdsResponse_wf m
  | Rsp_DeviceBegin m => BeginResponse_wf m
  | Rsp_DeviceEarlyBootEnded m => EarlyBootEndedResponse_wf m
  | Rsp_DeviceConvertStorageKeyToEphemeral m => ConvertStorageKeyToEphemeralResponse_wf m
  | Rsp_DeviceGetKeyCharacteristics m => GetKeyCharacteristicsResponse_wf m
  | Rsp_OperationUpdateAad m => UpdateAadResponse_wf m
  | Rsp_OperationUpdate m => UpdateResponse_wf m
  | Rsp_OperationFinish m => FinishResponse_wf m
  | Rsp_OperationAbort m => AbortResponse_wf m
  | Rsp_RpcGetHardwareInfo m => GetRpcHardwareInfoResponse_wf m
  | Rsp_RpcGenerateEcdsaP256KeyPair m => GenerateEcdsaP256KeyPairResponse_wf m
  | Rsp_RpcGenerateCertificateRequest m => GenerateCertificateRequestResponse_wf m
  | Rsp_RpcGenerateCertificateV2Request m => GenerateCertificateRequestV2Response_wf m
  | Rsp_SharedSecretGetSharedSecretParameters m => GetSharedSecretParametersResponse_wf m
  | Rsp_SharedSecretComputeSharedSecret m => ComputeSharedSecretResponse_wf m
  | Rsp_SecureClockGenerateTimeStamp m => GenerateTimeStampResponse_wf m
  | Rsp_GetRootOfTrustChallenge m => GetRootOfTrustChallengeResponse_wf m
  | Rsp_GetRootOfTrust m => GetRootOfTrustResponse_wf m
  | Rsp_SendRootOfTrust m => SendRootOfTrustResponse_wf m
  | Rsp_SetHalInfo m => SetHalInfoResponse_wf m
  | Rsp_SetBootInfo m => SetBootInfoResponse_wf m
  | Rsp_SetAttestationIds m => SetAttestationIdsResponse_wf m
  | Rsp_SetHalVersion m => SetHalVersionResponse_wf m
  | Rsp_SetAdditionalAttestationInfo m => SetAdditionalAttestationInfoResponse_wf m
  end.
Lemma PerformOpRsp_codec_ok : codec_ok PerformOpRsp_codec PerformOpRsp_wf 7.
Proof.
  apply message_codec_ok. intros m. destruct m; cbn [PerformOpRsp_enc PerformOpRsp_dec PerformOpRsp_wf fst snd]; intros Hm;
  match goal with
  | |- context [to_cbor_value ?c] =>
    first [destruct (GetHardwareInfoResponse_codec_ok _ Hm) as (v & Hv & Hv1 & Hv2 & Hv3) | destruct (AddRngEntropyResponse_codec_ok _ Hm) as (v & Hv & Hv1 & Hv2 & Hv3) | destruct (GenerateKeyResponse_codec_ok _ Hm) as (v & Hv & Hv1 & Hv2 & Hv3) | destruct (ImportKeyResponse_codec_ok _ Hm) as (v & Hv & Hv1 & Hv2 & Hv3) | destruct (ImportWrappedKeyResponse_codec_ok _ Hm) as (v & Hv & Hv1 & Hv2 & Hv3) | destruct (UpgradeKeyResponse_codec_ok _ Hm) as (v & Hv & Hv1 & Hv2 & Hv3) | destruct (DeleteKeyResponse_codec_ok _ Hm) as (v & Hv & Hv1 & Hv2 & Hv3) | destruct (DeleteAllKeysResponse_codec_ok _ Hm) as (v & Hv & Hv1 & Hv2 & Hv3) | destruct (DestroyAttestationIdsResponse_codec_ok _ Hm) as (v & Hv & Hv1 & Hv2 & Hv3) | destruct (BeginResponse_codec_ok _ Hm) as (v & Hv & Hv1 & Hv2 & Hv3) | destruct (EarlyBootEndedResponse_codec_ok _ Hm) as (v & Hv & Hv1 & Hv2 & Hv3) | destruct (ConvertStorageKeyToEphemeralResponse_codec_ok _ Hm) as (v & Hv & Hv1 & Hv2 & Hv3) | destruct (GetKeyCharacteristicsResponse_codec_ok _ Hm) as (v & Hv & Hv1 & Hv2 & Hv3) | destruct (UpdateAadResponse_codec_ok _ Hm) as (v & Hv & Hv1 & Hv2 & Hv3) | destruct (UpdateResponse_codec_ok _ Hm) as (v & Hv & Hv1 & Hv2 & Hv3) | destruct (FinishResponse_codec_ok _ Hm) as (v & Hv & Hv1 & Hv2 & Hv3) | destruct (AbortResponse_codec_ok _ Hm) as (v & Hv & Hv1 & Hv2 & Hv3) | destruct (GetRpcHardwareInfoResponse_codec_ok _ Hm) as (v & Hv & Hv1 & Hv2 & Hv3) | destruct (GenerateEcdsaP256KeyPairResponse_codec_ok _ Hm) as (v & Hv & Hv1 & Hv2 & Hv3) | destruct (GenerateCertificateRequestResponse_codec_ok _ Hm) as (v & Hv & Hv1 & Hv2 & Hv3) | destruct (GenerateCertificateRequestV2Response_codec_ok _ Hm) as (v & Hv & Hv1 & Hv2 & Hv3) | destruct (GetSharedSecretParametersResponse_codec_ok _ Hm) as (v & Hv & Hv1 & Hv2 & Hv3) | destruct (ComputeSharedSecretResponse_codec_ok _ Hm) as (v & Hv & Hv1 & Hv2 & Hv3) | destruct (GenerateTimeStampResponse_codec_ok _ Hm) as (v & Hv & Hv1 & Hv2 & Hv3) | destruct (GetRootOfTrustChallengeResponse_codec_ok _ Hm) as (v & Hv & Hv1 & Hv2 & Hv3) | destruct (GetRootOfTrustResponse_codec_ok _ Hm) as (v & Hv & Hv1 & Hv2 & Hv3) | destruct (SendRootOfTrustResponse_codec_ok _ Hm) as (v & Hv & Hv1 & Hv2 & Hv3) | destruct (SetHalInfoResponse_codec_ok _ Hm) as (v & Hv & Hv1 & Hv2 & Hv3) | destruct (SetBootInfoResponse_codec_ok _ Hm) as (v & Hv & Hv1 & Hv2 & Hv3) | destruct (SetAttestationIdsResponse_codec_ok _ Hm) as (v & Hv & Hv1 & Hv2 & Hv3) | destruct (SetHalVersionResponse_codec_ok _ Hm) as (v & Hv & Hv1 & Hv2 & Hv3) | destruct (SetAdditionalAttestationInfoResponse_codec_ok _ Hm) as (v & Hv & Hv1 & Hv2 & Hv3)]
  end;
  exists v; (split_and!; [exact Hv|rewrite Hv1; reflexivity|lia|exact Hv3]).
Qed.
Definition PerformOpResponse_wf (s : PerformOpResponse) : Prop := (is_i32 (PerformOpResponse_error_code s) ∧ ((from_option PerformOpRsp_wf True) (PerformOpResponse_rsp s) ∧ True)).
Lemma PerformOpResponse_codec_ok : codec_ok PerformOpResponse_codec PerformOpResponse_wf 9.
Proof. refine (derive_struct_ok _ _ _ _ _ _ (field_ok _ _ _ _ _ _ i32_codec_ok (field_ok _ _ _ _ _ _ (option_codec_ok _ _ _ PerformOpRsp_codec_ok) (no_fields_ok 0))) _). by intros []. Qed.

(** ** Messages as bytes *)

(** C28: every well-formed request, serialized for transport, is deserialized to the
    same request, and every well-formed response to the same response. *)
Theorem message_roundtrip `{CiboriumLaws} :
  (∀ req, PerformOpReq_wf req →
     ∃ b, into_vec PerformOpReq_codec req = Ok b ∧ from_slice PerformOpReq_codec b = Ok req) ∧
  (∀ rsp, PerformOpResponse_wf rsp →
     ∃ b, into_vec PerformOpResponse_codec rsp = Ok b ∧ from_slice PerformOpResponse_codec b = Ok rsp).
Proof.
  split; intros m Hm; [eapply (slice_roundtrip PerformOpReq_codec)|eapply (slice_roundtrip PerformOpResponse_codec)];
    eauto using PerformOpReq_codec_ok, PerformOpResponse_codec_ok; lia.
Qed.

Definition sample_request : PerformOpReq :=
  Req_DeviceGenerateKey {|
    GenerateKeyRequest_key_params :=
      [KP_Algorithm Algorithm_Aes; KP_KeySize 256; KP_ApplicationId (bytes_of_string "app"); KP_NoAuthRequired];
    GenerateKeyRequest_attestation_key := None |}.
Lemma message_roundtrip_witness :
  ∃ b, into_vec (C := numbering) PerformOpReq_codec sample_request = Ok b ∧
       from_slice (C := numbering) PerformOpReq_codec b = Ok sample_request.
Proof.
  apply (proj1 (message_roundtrip (H := numbering) (H0 := numbering_laws))).
  cbn. split_and!; try exact I. repeat (constructor; [cbn; try exact I; range_lia|]). constructor.
Defined.

(** A flag parameter is decoded from a pair of its tag and a value; for most flags
    only the value [true] is accepted, but for [CallerNonce], [AllowWhileOnBody] and
    [StorageKey] any value is, [false] included. *)
Theorem flag_decoding (v : Value) :
  (∀ f, f ∈ [KP_CallerNonce; KP_AllowWhileOnBody; KP_StorageKey] →
     from_cbor_value KeyParam_codec (VArray [VInteger (Tag_discr (tag f)); v]) = Ok f) ∧
  (∀ f, f ∈ [KP_IncludeUniqueId; KP_BootloaderOnly; KP_RollbackResistance; KP_EarlyBootOnly;
             KP_NoAuthRequired; KP_TrustedUserPresenceRequired; KP_TrustedConfirmationRequired;
             KP_UnlockedDeviceRequired; KP_DeviceUniqueAttestation; KP_ResetSinceIdRotation] →
     from_cbor_value KeyParam_codec (VArray [VInteger (Tag_discr (tag f)); v]) = Ok f ↔ v = VBool true).
Proof.
  assert (∀ t, from_cbor_value KeyParam_codec (VArray [VInteger (Tag_discr t); v]) = key_param_from t v) as Ht.
  { intros t. change (Tag_discr t) with (discr t). cbn [from_cbor_value KeyParam_codec].
    by rewrite derive_enum_from. }
  split; intros f Hf; rewrite Ht.
  - repeat (apply elem_of_cons in Hf as [->|Hf]; [done|]). by apply elem_of_nil in Hf.
  - assert (∀ p : KeyParam, (_ ← check_bool v; Ok p) = Ok p ↔ v = VBool true) as Hc.
    { intros p. destruct v as [| | | |[]| | | |]; cbn; naive_solver. }
    repeat (apply elem_of_cons in Hf as [->|Hf]; [apply Hc|]). by apply elem_of_nil in Hf.
Qed.
Lemma flag_decoding_witness :
  from_cbor_value KeyParam_codec (VArray [VInteger (Tag_discr Tag_StorageKey); VBool false]) = Ok KP_StorageKey.
Proof. apply (proj1 (flag_decoding (VBool false)) KP_StorageKey). right; right; left. Defined.
