(* ===== verification/WireSafe.v ===== *)
(** * Decoding of requests ([wire/src/keymint.rs], [wire/src/lib.rs])

    Decoding is total and establishes the ranges of integers: whatever bytes a request is made
    of, the result is an error or a request whose fields are representable in their types. *)

From S2P Require Import Prelude Wire Codec WireCodec.

(** ** Sound decoders *)

(** A decoder that does not panic, and whose results are well-formed. *)
Definition sound {E A} (wf : A → Prop) (r : res E A) : Prop :=
  match r with Ok a => wf a | Err _ => True | Panic => False end.
Definition codec_sound {A} (c : Codec A) (wf : A → Prop) : Prop :=
  ∀ v, sound wf (from_cbor_value c v).
Definition fields_sound {A} (fs : Fields A) (wf : A → Prop) : Prop :=
  ∀ a, from_option (sound wf) True (from_fields fs a).
Create HintDb sound.

Lemma sound_bind {E A B} (wf : A → Prop) (wf' : B → Prop) (r : res E A) (f : A → res E B) :
  sound wf r → (∀ a, wf a → sound wf' (f a)) → sound wf' (r ≫= f).
Proof. destruct r; cbn; auto. Qed.
Lemma cbor_type_error_sound {A} (wf : A → Prop) v want : sound wf (cbor_type_error v want).
Proof. by destruct v. Qed.
#[export] Hint Resolve cbor_type_error_sound : sound.

Lemma int_sound P `{∀ z, Decision (P z)} want : codec_sound (int_codec P want) P.
Proof. intros v. destruct v; cbn; auto with sound. by case_decide. Qed.
Lemma bool_sound : codec_sound bool_codec (λ _, True).
Proof. intros v. destruct v; cbn; auto with sound. Qed.
Lemma bytes_sound : codec_sound bytes_codec (λ _, True).
Proof. intros v. destruct v; cbn; auto with sound. Qed.
Lemma array_sound n : codec_sound (array_codec n) (λ b, len b = n).
Proof. intros v. destruct v; cbn; auto with sound. by case_decide. Qed.
Lemma enum_sound {A} `{REnum A} : codec_sound (derive_enum (A:=A)) (λ _, True).
Proof. intros v. destruct v; cbn; auto with sound. case_decide; [|done]. by destruct (try_from_n i). Qed.
Lemma vec_sound {A} (c : Codec A) wf : codec_sound c wf → codec_sound (vec_codec c) (Forall wf).
Proof.
  intros Hc v. destruct v as [| | | | | | |a|]; cbn; auto with sound.
  induction a as [|v a IH]; cbn; [done|]. eapply sound_bind; [apply Hc|]. intros x Hx.
  eapply sound_bind; [exact IH|]. intros xs Hxs. by constructor.
Qed.
Lemma option_sound {A} (c : Codec A) wf : codec_sound c wf → codec_sound (option_codec c) (from_option wf True).
Proof.
  intros Hc v. destruct v as [| | | | | | |[|v [|]]|]; cbn; auto with sound.
  by eapply sound_bind; [apply Hc|].
Qed.
Lemma no_fields_sound : fields_sound no_fields (λ _, True).
Proof. by intros []. Qed.
Lemma field_sound {A B} (c : Codec A) (fs : Fields B) wf wf' :
  codec_sound c wf → fields_sound fs wf' → fields_sound (field c fs) (λ p, wf p.1 ∧ wf' p.2).
Proof.
  intros Hc Hfs a. destruct a as [|v a]; cbn; [done|]. specialize (Hfs a).
  destruct (from_fields fs a) as [r|]; cbn in *; [|done].
  eapply sound_bind; [exact Hfs|]. intros y Hy. eapply sound_bind; [apply Hc|]. by intros x Hx.
Qed.
Lemma derive_struct_sound {A B} want (fs : Fields A) (mk : A → B) un wf wf' :
  fields_sound fs wf → (∀ x, wf x → wf' (mk x)) → codec_sound (derive_struct want fs mk un) wf'.
Proof.
  intros Hfs Hmk v. destruct v as [| | | | | | |a|]; cbn; auto with sound. specialize (Hfs a).
  destruct (from_fields fs a) as [r|]; cbn in *; [|done].
  eapply sound_bind; [exact Hfs|]. intros x Hx. by apply Hmk.
Qed.
Lemma u32_sound : codec_sound u32_codec is_u32.
Proof. apply int_sound. Qed.
Lemma u64_sound : codec_sound u64_codec is_u64.
Proof. apply int_sound. Qed.
Lemma i64_sound : codec_sound i64_codec is_i64.
Proof. apply int_sound. Qed.
Lemma i32_sound : codec_sound i32_codec is_i32.
Proof. apply int_sound. Qed.
#[export] Hint Resolve u32_sound u64_sound i64_sound i32_sound bool_sound bytes_sound array_sound enum_sound vec_sound
  option_sound no_fields_sound field_sound : sound.

(** ** Key parameters *)

Lemma check_bool_sound v : sound (λ _, True) (check_bool v).
Proof. destruct v as [| | | |[]| | | |]; cbn; auto with sound. Qed.
Lemma newtype_u32_sound : codec_sound KeySizeInBits_codec is_u32.
Proof. intros v. eapply sound_bind; [apply u32_sound|done]. Qed.
Lemma newtype_u64_sound : codec_sound RsaExponent_codec is_u64.
Proof. intros v. eapply sound_bind; [apply u64_sound|done]. Qed.
Lemma datetime_sound : codec_sound DateTime_codec is_i64.
Proof. intros v. eapply sound_bind; [apply i64_sound|done]. Qed.
Lemma key_param_from_sound t v : sound kp_wf (key_param_from t v).
Proof.
  destruct t; cbn [key_param_from]; try done;
    first [ eapply sound_bind; [apply check_bool_sound|done]
          | eapply sound_bind; [apply enum_sound|done]
          | eapply sound_bind; [apply bytes_sound|done]
          | eapply sound_bind; [apply u32_sound|by intros]
          | eapply sound_bind; [apply newtype_u32_sound|by intros]
          | eapply sound_bind; [apply u64_sound|by intros]
          | eapply sound_bind; [apply newtype_u64_sound|by intros]
          | eapply sound_bind; [apply datetime_sound|by intros] ].
Qed.
Lemma key_param_sound : codec_sound KeyParam_codec kp_wf.
Proof.
  intros v. destruct v as [| | | | | | |[|v0 [|raw [|]]]|]; cbn [from_cbor_value KeyParam_codec]; auto with sound; try done.
  eapply sound_bind; [apply enum_sound|]. intros t _. apply key_param_from_sound.
Qed.
#[export] Hint Resolve key_param_sound : sound.

(** ** Structures *)

Ltac solve_sound := eapply derive_struct_sound;
  [eauto 20 with sound | intros x Hx; repeat match type of x with prod _ _ => destruct x as [? x] end; exact Hx].
Lemma Timestamp_sound : codec_sound Timestamp_codec Timestamp_wf.
Proof. solve_sound. Qed.
#[export] Hint Resolve Timestamp_sound : sound.
Lemma TimeStampToken_sound : codec_sound TimeStampToken_codec TimeStampToken_wf.
Proof. solve_sound. Qed.
#[export] Hint Resolve TimeStampToken_sound : sound.
Lemma SharedSecretParameters_sound : codec_sound SharedSecretParameters_codec SharedSecretParameters_wf.
Proof. solve_sound. Qed.
#[export] Hint Resolve SharedSecretParameters_sound : sound.
Lemma AttestationKey_sound : codec_sound AttestationKey_codec AttestationKey_wf.
Proof. solve_sound. Qed.
#[export] Hint Resolve AttestationKey_sound : sound.
Lemma HardwareAuthToken_sound : codec_sound HardwareAuthToken_codec HardwareAuthToken_wf.
Proof. solve_sound. Qed.
#[export] Hint Resolve HardwareAuthToken_sound : sound.
Lemma MacedPublicKey_sound : codec_sound MacedPublicKey_codec MacedPublicKey_wf.
Proof. solve_sound. Qed.
#[export] Hint Resolve MacedPublicKey_sound : sound.
Lemma AttestationIdInfo_sound : codec_sound AttestationIdInfo_codec AttestationIdInfo_wf.
Proof. solve_sound. Qed.
#[export] Hint Resolve AttestationIdInfo_sound : sound.
Lemma GetHardwareInfoRequest_sound : codec_sound GetHardwareInfoRequest_codec GetHardwareInfoRequest_wf.
Proof. solve_sound. Qed.
Lemma AddRngEntropyRequest_sound : codec_sound AddRngEntropyRequest_codec AddRngEntropyRequest_wf.
Proof. solve_sound. Qed.
Lemma GenerateKeyRequest_sound : codec_sound GenerateKeyRequest_codec GenerateKeyRequest_wf.
Proof. solve_sound. Qed.
Lemma ImportKeyRequest_sound : codec_sound ImportKeyRequest_codec ImportKeyRequest_wf.
Proof. solve_sound. Qed.
Lemma ImportWrappedKeyRequest_sound : codec_sound ImportWrappedKeyRequest_codec ImportWrappedKeyRequest_wf.
Proof. solve_sound. Qed.
Lemma UpgradeKeyRequest_sound : codec_sound UpgradeKeyRequest_codec UpgradeKeyRequest_wf.
Proof. solve_sound. Qed.
Lemma DeleteKeyRequest_sound : codec_sound DeleteKeyRequest_codec DeleteKeyRequest_wf.
Proof. solve_sound. Qed.
Lemma DeleteAllKeysRequest_sound : codec_sound DeleteAllKeysRequest_codec DeleteAllKeysRequest_wf.
Proof. solve_sound. Qed.
Lemma DestroyAttestationIdsRequest_sound : codec_sound DestroyAttestationIdsRequest_codec DestroyAttestationIdsRequest_wf.
Proof. solve_sound. Qed.
Lemma BeginRequest_sound : codec_sound BeginRequest_codec BeginRequest_wf.
Proof. solve_sound. Qed.
Lemma EarlyBootEndedRequest_sound : codec_sound EarlyBootEndedRequest_codec EarlyBootEndedRequest_wf.
Proof. solve_sound. Qed.
Lemma ConvertStorageKeyToEphemeralRequest_sound : codec_sound ConvertStorageKeyToEphemeralRequest_codec ConvertStorageKeyToEphemeralRequest_wf.
Proof. solve_sound. Qed.
Lemma GetKeyCharacteristicsRequest_sound : codec_sound GetKeyCharacteristicsRequest_codec GetKeyCharacteristicsRequest_wf.
Proof. solve_sound. Qed.
Lemma UpdateAadRequest_sound : codec_sound UpdateAadRequest_codec UpdateAadRequest_wf.
Proof. solve_sound. Qed.
Lemma UpdateRequest_sound : codec_sound UpdateRequest_codec UpdateRequest_wf.
Proof. solve_sound. Qed.
Lemma FinishRequest_sound : codec_sound FinishRequest_codec FinishRequest_wf.
Proof. solve_sound. Qed.
Lemma AbortRequest_sound : codec_sound AbortRequest_codec AbortRequest_wf.
Proof. solve_sound. Qed.
Lemma GetRpcHardwareInfoRequest_sound : codec_sound GetRpcHardwareInfoRequest_codec GetRpcHardwareInfoRequest_wf.
Proof. solve_sound. Qed.
Lemma GenerateEcdsaP256KeyPairRequest_sound : codec_sound GenerateEcdsaP256KeyPairRequest_codec GenerateEcdsaP256KeyPairRequest_wf.
Proof. solve_sound. Qed.
Lemma GenerateCertificateRequestRequest_sound : codec_sound GenerateCertificateRequestRequest_codec GenerateCertificateRequestRequest_wf.
Proof. solve_sound. Qed.
Lemma GenerateCertificateRequestV2Request_sound : codec_sound GenerateCertificateRequestV2Request_codec GenerateCertificateRequestV2Request_wf.
Proof. solve_sound. Qed.
Lemma GetSharedSecretParametersRequest_sound : codec_sound GetSharedSecretParametersRequest_codec GetSharedSecretParametersRequest_wf.
Proof. solve_sound. Qed.
Lemma ComputeSharedSecretRequest_sound : codec_sound ComputeSharedSecretRequest_codec ComputeSharedSecretRequest_wf.
Proof. solve_sound. Qed.
Lemma GenerateTimeStampRequest_sound : codec_sound GenerateTimeStampRequest_codec GenerateTimeStampRequest_wf.
Proof. solve_sound. Qed.
Lemma GetRootOfTrustChallengeRequest_sound : codec_sound GetRootOfTrustChallengeRequest_codec GetRootOfTrustChallengeRequest_wf.
Proof. solve_sound. Qed.
Lemma GetRootOfTrustRequest_sound : codec_sound GetRootOfTrustRequest_codec GetRootOfTrustRequest_wf.
Proof. solve_sound. Qed.
Lemma SendRootOfTrustRequest_sound : codec_sound SendRootOfTrustRequest_codec SendRootOfTrustRequest_wf.
Proof. solve_sound. Qed.
Lemma SetHalInfoRequest_sound : codec_sound SetHalInfoRequest_codec SetHalInfoRequest_wf.
Proof. solve_sound. Qed.
Lemma SetBootInfoRequest_sound : codec_sound SetBootInfoRequest_codec SetBootInfoRequest_wf.
Proof. solve_sound. Qed.
Lemma SetAttestationIdsRequest_sound : codec_sound SetAttestationIdsRequest_codec SetAttestationIdsRequest_wf.
Proof. solve_sound. Qed.
Lemma SetHalVersionRequest_sound : codec_sound SetHalVersionRequest_codec SetHalVersionRequest_wf.
Proof. solve_sound. Qed.
Lemma SetAdditionalAttestationInfoRequest_sound : codec_sound SetAdditionalAttestationInfoRequest_codec SetAdditionalAttestationInfoRequest_wf.
Proof. solve_sound. Qed.

#[export] Hint Resolve GetHardwareInfoRequest_sound AddRngEntropyRequest_sound
  GenerateKeyRequest_sound ImportKeyRequest_sound ImportWrappedKeyRequest_sound
  UpgradeKeyRequest_sound DeleteKeyRequest_sound DeleteAllKeysRequest_sound
  DestroyAttestationIdsRequest_sound BeginRequest_sound EarlyBootEndedRequest_sound
  ConvertStorageKeyToEphemeralRequest_sound GetKeyCharacteristicsRequest_sound UpdateAadRequest_sound
  UpdateRequest_sound FinishRequest_sound AbortRequest_sound GetRpcHardwareInfoRequest_sound
  GenerateEcdsaP256KeyPairRequest_sound GenerateCertificateRequestRequest_sound
  GenerateCertificateRequestV2Request_sound GetSharedSecretParametersRequest_sound
  ComputeSharedSecretRequest_sound GenerateTimeStampRequest_sound GetRootOfTrustChallengeRequest_sound
  GetRootOfTrustRequest_sound SendRootOfTrustRequest_sound SetHalInfoRequest_sound
  SetBootInfoRequest_sound SetAttestationIdsRequest_sound SetHalVersionRequest_sound
  SetAdditionalAttestationInfoRequest_sound : sound.

(** ** Requests *)

Lemma codec_sound_at {A} (c : Codec A) wf v : codec_sound c wf → sound wf (from_cbor_value c v).
Proof. intros H. apply H. Qed.
Lemma KeyMintOperation_sound : codec_sound KeyMintOperation_codec (λ _, True).
Proof. intros v. destruct v; cbn; auto with sound. case_decide; [|done]. by destruct (try_from_n i). Qed.
Lemma PerformOpReq_dec_sound op v : sound PerformOpReq_wf (PerformOpReq_dec op v).
Proof.
  destruct op; cbn [PerformOpReq_dec];
    (eapply sound_bind; [eapply codec_sound_at; eauto with sound|by intros]).
Qed.
Lemma PerformOpReq_sound : codec_sound PerformOpReq_codec PerformOpReq_wf.
Proof.
  intros v. destruct v as [| | | | | | |[|v0 [|val [|]]]|]; cbn [from_cbor_value PerformOpReq_codec message_codec];
    auto with sound; try done.
  eapply sound_bind; [apply KeyMintOperation_sound|]. intros op _. apply PerformOpReq_dec_sound.
Qed.

Lemma PerformOpReq_from_slice_sound `{Ciborium} data :
  sound PerformOpReq_wf (from_slice PerformOpReq_codec data).
Proof.
  unfold from_slice, read_to_value. destruct (from_reader data) as [[v [|]]|]; cbn; try done.
  apply PerformOpReq_sound.
Qed.
