(* ===== verification/LegacyMsg.v ===== *)
(** * Legacy messages of the Trusty channel ([wire/src/legacy.rs])

    The subset of the C++ Keymaster messages that reaches the application from the
    bootloader, other trusted applications and provisioning tools: the inner encoding
    ([InnerSerialize], with the derived implementations for structs), the three families
    of request and response enums, and the framing of requests and responses.  Parsing
    never panics, inverts serialization and yields well-formed values only; a request is
    classified in the same way by its command word and by its contents; the receiver of
    a response recovers its error code. *)

From S2P Require Import Prelude Wire Codec WireCodec.

(** ** Versions and errors *)

Inductive KmVersion : Set :=
| Keymaster1 | Keymaster11 | Keymaster2 | Keymaster3 | Keymaster4 | Keymaster41
| KeyMint1 | KeyMint2 | KeyMint3.
Definition KmVersion_discr (v : KmVersion) : Z :=
  match v with
  | Keymaster1 => 10 | Keymaster11 => 11 | Keymaster2 => 20 | Keymaster3 => 30
  | Keymaster4 => 40 | Keymaster41 => 41 | KeyMint1 => 100 | KeyMint2 => 200 | KeyMint3 => 300
  end.
Ltac solve_variants :=
  first [abstract (intros []; enum_complete) |
         abstract (apply (bool_decide_unpack _); vm_compute; exact I)].
#[export, refine] Instance KmVersion_enum : REnum KmVersion := {|
  discr := KmVersion_discr;
  variants := [Keymaster1; Keymaster11; Keymaster2; Keymaster3; Keymaster4; Keymaster41;
    KeyMint1; KeyMint2; KeyMint3] |}.
Proof. all: solve_variants. Defined.
#[export] Instance KmVersion_eq_dec : EqDecision KmVersion := enum_eq_dec.
#[export] Instance KmVersion_i32 : EnumI32 KmVersion.
Proof. solve_enum_i32. Qed.

Definition message_version (v : KmVersion) : Z :=
  match v with
  | Keymaster1 => 1
  | Keymaster11 => 2
  | Keymaster2 | Keymaster3 | Keymaster4 | Keymaster41 => 3
  | KeyMint1 | KeyMint2 | KeyMint3 => 4
  end.

Definition TRUSTY_RESPONSE_BITMASK : Z := 0x01.
Definition TRUSTY_STOP_BITMASK : Z := 0x02.
Definition TRUSTY_CMD_SHIFT : Z := 2.
Definition CMD_SIZE : Z := 4.
Definition ERROR_CODE_SIZE : Z := 4.
Definition LEGACY_NON_SEC_RSP_HEADER_SIZE : Z := CMD_SIZE + ERROR_CODE_SIZE.

Inductive LegacyError : Set :=
| DataTruncated
| ExcessData (n : Z)
| AllocationFailed
| UnexpectedResponse
| UnknownCommand (cmd : Z)
| InvalidEnumValue (v : Z).
#[export] Instance LegacyError_eq_dec : EqDecision LegacyError.
Proof. solve_decision. Defined.
Abbreviation LResult := (res LegacyError).

(** ** Traits *)

Class TrustyMessageId (A Code : Type) := message_code : A → Code.
Class TrustyDeserialize (A : Type) := from_code_and_data : Z → bytes → LResult A.
(** [raw_code] and [serialize_into] of a response; the state is the output buffer. *)
Class TrustySerialize (A : Type) := {
  raw_code : A → Z;
  message_into : A → stM bytes LegacyError unit
}.

(** The encoding of the fields of a message: [deserialize] returns the value and the
    remaining data, [serialize_into] appends to a buffer. *)
Record InnerSerialize (A : Type) := mk_inner {
  deserialize : bytes → LResult (A * bytes);
  serialize_into : A → stM bytes LegacyError unit
}.
Arguments mk_inner {A} _ _.
Arguments deserialize {A} _ _.
Arguments serialize_into {A} _ _ _.

Definition extend_from_slice (b : bytes) : stM bytes LegacyError unit := modify (λ buf, buf ++ b).

Section legacy_messages.
Context `{T : Target}.

(** ** Primitive encodings *)

(** An [n]-byte integer in native order. *)
Definition uint_inner (n : nat) : InnerSerialize Z := {|
  deserialize data :=
    _ ← reject_if (bool_decide (len data < Z.of_nat n)) DataTruncated;
    int_data ← slice_to data (Z.of_nat n);
    rest ← slice_from data (Z.of_nat n);
    Ok (from_ne_bytes int_data, rest);
  serialize_into v := extend_from_slice (to_ne_bytes n v)
|}.
Definition u64_inner : InnerSerialize Z := uint_inner 8.
Definition u32_inner : InnerSerialize Z := uint_inner 4.

Definition u8_inner : InnerSerialize u8 := {|
  deserialize data :=
    match data with
    | [] => Err DataTruncated
    | b :: rest => Ok (b, rest)
    end;
  serialize_into v := extend_from_slice [v]
|}.

Definition bool_inner : InnerSerialize bool := {|
  deserialize data :=
    '(v, rest) ← deserialize u32_inner data;
    Ok (bool_decide (v ≠ 0), rest);
  serialize_into b := serialize_into u32_inner (Z.b2z b)
|}.

Definition vec_inner : InnerSerialize bytes := {|
  deserialize data :=
    '(n, rest) ← deserialize u32_inner data;
    _ ← reject_if (bool_decide (len rest < n)) DataTruncated;
    buf ← slice_to rest n;
    rest' ← slice_from rest n;
    Ok (buf, rest');
  serialize_into v :=
    _ ← extend_from_slice (to_ne_bytes 4 (as_u32 (len v)));
    extend_from_slice v
|}.

(** [KmVersion], [Algorithm] and [VerifiedBootState]. *)
Definition enum_inner {A} `{REnum A} : InnerSerialize A := {|
  deserialize data :=
    '(v, rest) ← deserialize u32_inner data;
    x ← ok_or (try_from_n (as_i32 v)) (InvalidEnumValue v);
    Ok (x, rest);
  serialize_into x := serialize_into u32_inner (as_u32 (discr x))
|}.

(** ** The derived encoding of structs: the fields in order *)

Definition legacy_unit : InnerSerialize unit := {|
  deserialize data := Ok (tt, data);
  serialize_into _ := mret tt
|}.
Definition legacy_field {A B} (c : InnerSerialize A) (fs : InnerSerialize B) : InnerSerialize (A * B) := {|
  deserialize data :=
    '(x, data) ← deserialize c data;
    '(y, data) ← deserialize fs data;
    Ok ((x, y), data);
  serialize_into p :=
    _ ← serialize_into c p.1;
    serialize_into fs p.2
|}.
Definition legacy_struct {A B} (fs : InnerSerialize A) (mk : A → B) (un : B → A) : InnerSerialize B := {|
  deserialize data := '(x, data) ← deserialize fs data; Ok (mk x, data);
  serialize_into s := serialize_into fs (un s)
|}.

(** ** Messages *)

Record GetVersionRequest : Set := mk_GetVersionRequest {}.
Definition GetVersionRequest_inner : InnerSerialize GetVersionRequest :=
  legacy_struct legacy_unit
    (λ _, mk_GetVersionRequest)
    (λ _, tt).
Record GetVersionResponse : Set := mk_GetVersionResponse { GetVersionResponse_major_ver : u8;
  GetVersionResponse_minor_ver : u8; GetVersionResponse_subminor_ver : u8 }.
Definition GetVersionResponse_inner : InnerSerialize GetVersionResponse :=
  legacy_struct (legacy_field u8_inner (legacy_field u8_inner (legacy_field u8_inner legacy_unit)))
    (λ '(x0, (x1, (x2, _))), mk_GetVersionResponse x0 x1 x2)
    (λ s, (GetVersionResponse_major_ver s, (GetVersionResponse_minor_ver s,
      (GetVersionResponse_subminor_ver s, tt)))).
Record GetVersion2Request : Set := mk_GetVersion2Request { GetVersion2Request_max_message_version :
  Z }.
Definition GetVersion2Request_inner : InnerSerialize GetVersion2Request :=
  legacy_struct (legacy_field u32_inner legacy_unit)
    (λ '(x0, _), mk_GetVersion2Request x0)
    (λ s, (GetVersion2Request_max_message_version s, tt)).
Record GetVersion2Response : Set := mk_GetVersion2Response { GetVersion2Response_max_message_version
  : Z; GetVersion2Response_km_version : KmVersion; GetVersion2Response_km_date : Z }.
Definition GetVersion2Response_inner : InnerSerialize GetVersion2Response :=
  legacy_struct (legacy_field u32_inner (legacy_field (enum_inner (A:=KmVersion)) (legacy_field
    u32_inner legacy_unit)))
    (λ '(x0, (x1, (x2, _))), mk_GetVersion2Response x0 x1 x2)
    (λ s, (GetVersion2Response_max_message_version s, (GetVersion2Response_km_version s,
      (GetVersion2Response_km_date s, tt)))).
Record ConfigureBootPatchlevelRequest : Set := mk_ConfigureBootPatchlevelRequest {
  ConfigureBootPatchlevelRequest_boot_patchlevel : Z }.
Definition ConfigureBootPatchlevelRequest_inner : InnerSerialize ConfigureBootPatchlevelRequest :=
  legacy_struct (legacy_field u32_inner legacy_unit)
    (λ '(x0, _), mk_ConfigureBootPatchlevelRequest x0)
    (λ s, (ConfigureBootPatchlevelRequest_boot_patchlevel s, tt)).
Record ConfigureBootPatchlevelResponse : Set := mk_ConfigureBootPatchlevelResponse {}.
Definition ConfigureBootPatchlevelResponse_inner : InnerSerialize ConfigureBootPatchlevelResponse :=
  legacy_struct legacy_unit
    (λ _, mk_ConfigureBootPatchlevelResponse)
    (λ _, tt).
Record ConfigureVerifiedBootInfoRequest : Set := mk_ConfigureVerifiedBootInfoRequest {
  ConfigureVerifiedBootInfoRequest_boot_state : bytes;
  ConfigureVerifiedBootInfoRequest_bootloader_state : bytes;
  ConfigureVerifiedBootInfoRequest_vbmeta_digest : bytes }.
Definition ConfigureVerifiedBootInfoRequest_inner : InnerSerialize ConfigureVerifiedBootInfoRequest :=
  legacy_struct (legacy_field vec_inner (legacy_field vec_inner (legacy_field vec_inner legacy_unit)))
    (λ '(x0, (x1, (x2, _))), mk_ConfigureVerifiedBootInfoRequest x0 x1 x2)
    (λ s, (ConfigureVerifiedBootInfoRequest_boot_state s,
      (ConfigureVerifiedBootInfoRequest_bootloader_state s,
      (ConfigureVerifiedBootInfoRequest_vbmeta_digest s, tt)))).
Record ConfigureVerifiedBootInfoResponse : Set := mk_ConfigureVerifiedBootInfoResponse {}.
Definition ConfigureVerifiedBootInfoResponse_inner : InnerSerialize ConfigureVerifiedBootInfoResponse :=
  legacy_struct legacy_unit
    (λ _, mk_ConfigureVerifiedBootInfoResponse)
    (λ _, tt).
Record SetAttestationIdsRequest : Set := mk_SetAttestationIdsRequest {
  SetAttestationIdsRequest_brand : bytes; SetAttestationIdsRequest_device : bytes;
  SetAttestationIdsRequest_product : bytes; SetAttestationIdsRequest_serial : bytes;
  SetAttestationIdsRequest_imei : bytes; SetAttestationIdsRequest_meid : bytes;
  SetAttestationIdsRequest_manufacturer : bytes; SetAttestationIdsRequest_model : bytes }.
Definition SetAttestationIdsRequest_inner : InnerSerialize SetAttestationIdsRequest :=
  legacy_struct (legacy_field vec_inner (legacy_field vec_inner (legacy_field vec_inner (legacy_field
    vec_inner (legacy_field vec_inner (legacy_field vec_inner (legacy_field vec_inner (legacy_field
    vec_inner legacy_unit))))))))
    (λ '(x0, (x1, (x2, (x3, (x4, (x5, (x6, (x7, _)))))))), mk_SetAttestationIdsRequest x0 x1 x2 x3 x4 x5
      x6 x7)
    (λ s, (SetAttestationIdsRequest_brand s, (SetAttestationIdsRequest_device s,
      (SetAttestationIdsRequest_product s, (SetAttestationIdsRequest_serial s,
      (SetAttestationIdsRequest_imei s, (SetAttestationIdsRequest_meid s,
      (SetAttestationIdsRequest_manufacturer s, (SetAttestationIdsRequest_model s, tt))))))))).
Record SetAttestationIdsResponse : Set := mk_SetAttestationIdsResponse {}.
Definition SetAttestationIdsResponse_inner : InnerSerialize SetAttestationIdsResponse :=
  legacy_struct legacy_unit
    (λ _, mk_SetAttestationIdsResponse)
    (λ _, tt).
Record SetAttestationIdsKM3Request : Set := mk_SetAttestationIdsKM3Request {
  SetAttestationIdsKM3Request_base : SetAttestationIdsRequest;
  SetAttestationIdsKM3Request_second_imei : bytes }.
Definition SetAttestationIdsKM3Request_inner : InnerSerialize SetAttestationIdsKM3Request :=
  legacy_struct (legacy_field SetAttestationIdsRequest_inner (legacy_field vec_inner legacy_unit))
    (λ '(x0, (x1, _)), mk_SetAttestationIdsKM3Request x0 x1)
    (λ s, (SetAttestationIdsKM3Request_base s, (SetAttestationIdsKM3Request_second_imei s, tt))).
Record SetAttestationIdsKM3Response : Set := mk_SetAttestationIdsKM3Response {}.
Definition SetAttestationIdsKM3Response_inner : InnerSerialize SetAttestationIdsKM3Response :=
  legacy_struct legacy_unit
    (λ _, mk_SetAttestationIdsKM3Response)
    (λ _, tt).
Record GetAuthTokenKeyRequest : Set := mk_GetAuthTokenKeyRequest {}.
Definition GetAuthTokenKeyRequest_inner : InnerSerialize GetAuthTokenKeyRequest :=
  legacy_struct legacy_unit
    (λ _, mk_GetAuthTokenKeyRequest)
    (λ _, tt).
Record GetDeviceInfoRequest : Set := mk_GetDeviceInfoRequest {}.
Definition GetDeviceInfoRequest_inner : InnerSerialize GetDeviceInfoRequest :=
  legacy_struct legacy_unit
    (λ _, mk_GetDeviceInfoRequest)
    (λ _, tt).
Record GetUdsCertsRequest : Set := mk_GetUdsCertsRequest {}.
Definition GetUdsCertsRequest_inner : InnerSerialize GetUdsCertsRequest :=
  legacy_struct legacy_unit
    (λ _, mk_GetUdsCertsRequest)
    (λ _, tt).
Record GetUdsCertsResponse : Set := mk_GetUdsCertsResponse { GetUdsCertsResponse_uds_certs : bytes
  }.
Definition GetUdsCertsResponse_inner : InnerSerialize GetUdsCertsResponse :=
  legacy_struct (legacy_field vec_inner legacy_unit)
    (λ '(x0, _), mk_GetUdsCertsResponse x0)
    (λ s, (GetUdsCertsResponse_uds_certs s, tt)).
Record SetBootParamsRequest : Set := mk_SetBootParamsRequest { SetBootParamsRequest_os_version : Z;
  SetBootParamsRequest_os_patchlevel : Z; SetBootParamsRequest_device_locked : bool;
  SetBootParamsRequest_verified_boot_state : VerifiedBootState;
  SetBootParamsRequest_verified_boot_key : bytes; SetBootParamsRequest_verified_boot_hash : bytes }.
Definition SetBootParamsRequest_inner : InnerSerialize SetBootParamsRequest :=
  legacy_struct (legacy_field u32_inner (legacy_field u32_inner (legacy_field bool_inner (legacy_field
    (enum_inner (A:=VerifiedBootState)) (legacy_field vec_inner (legacy_field vec_inner
    legacy_unit))))))
    (λ '(x0, (x1, (x2, (x3, (x4, (x5, _)))))), mk_SetBootParamsRequest x0 x1 x2 x3 x4 x5)
    (λ s, (SetBootParamsRequest_os_version s, (SetBootParamsRequest_os_patchlevel s,
      (SetBootParamsRequest_device_locked s, (SetBootParamsRequest_verified_boot_state s,
      (SetBootParamsRequest_verified_boot_key s, (SetBootParamsRequest_verified_boot_hash s,
      tt))))))).
Record SetBootParamsResponse : Set := mk_SetBootParamsResponse {}.
Definition SetBootParamsResponse_inner : InnerSerialize SetBootParamsResponse :=
  legacy_struct legacy_unit
    (λ _, mk_SetBootParamsResponse)
    (λ _, tt).
Record SetAttestationKeyRequest : Set := mk_SetAttestationKeyRequest {
  SetAttestationKeyRequest_algorithm : Algorithm; SetAttestationKeyRequest_key_data : bytes }.
Definition SetAttestationKeyRequest_inner : InnerSerialize SetAttestationKeyRequest :=
  legacy_struct (legacy_field (enum_inner (A:=Algorithm)) (legacy_field vec_inner legacy_unit))
    (λ '(x0, (x1, _)), mk_SetAttestationKeyRequest x0 x1)
    (λ s, (SetAttestationKeyRequest_algorithm s, (SetAttestationKeyRequest_key_data s, tt))).
Record SetAttestationKeyResponse : Set := mk_SetAttestationKeyResponse {}.
Definition SetAttestationKeyResponse_inner : InnerSerialize SetAttestationKeyResponse :=
  legacy_struct legacy_unit
    (λ _, mk_SetAttestationKeyResponse)
    (λ _, tt).
Record AppendAttestationCertChainRequest : Set := mk_AppendAttestationCertChainRequest {
  AppendAttestationCertChainRequest_algorithm : Algorithm;
  AppendAttestationCertChainRequest_cert_data : bytes }.
Definition AppendAttestationCertChainRequest_inner : InnerSerialize AppendAttestationCertChainRequest :=
  legacy_struct (legacy_field (enum_inner (A:=Algorithm)) (legacy_field vec_inner legacy_unit))
    (λ '(x0, (x1, _)), mk_AppendAttestationCertChainRequest x0 x1)
    (λ s, (AppendAttestationCertChainRequest_algorithm s, (AppendAttestationCertChainRequest_cert_data
      s, tt))).
Record AppendAttestationCertChainResponse : Set := mk_AppendAttestationCertChainResponse {}.
Definition AppendAttestationCertChainResponse_inner : InnerSerialize AppendAttestationCertChainResponse :=
  legacy_struct legacy_unit
    (λ _, mk_AppendAttestationCertChainResponse)
    (λ _, tt).
Record ClearAttestationCertChainRequest : Set := mk_ClearAttestationCertChainRequest {
  ClearAttestationCertChainRequest_algorithm : Algorithm }.
Definition ClearAttestationCertChainRequest_inner : InnerSerialize ClearAttestationCertChainRequest :=
  legacy_struct (legacy_field (enum_inner (A:=Algorithm)) legacy_unit)
    (λ '(x0, _), mk_ClearAttestationCertChainRequest x0)
    (λ s, (ClearAttestationCertChainRequest_algorithm s, tt)).
Record ClearAttestationCertChainResponse : Set := mk_ClearAttestationCertChainResponse {}.
Definition ClearAttestationCertChainResponse_inner : InnerSerialize ClearAttestationCertChainResponse :=
  legacy_struct legacy_unit
    (λ _, mk_ClearAttestationCertChainResponse)
    (λ _, tt).
Record SetWrappedAttestationKeyRequest : Set := mk_SetWrappedAttestationKeyRequest {
  SetWrappedAttestationKeyRequest_algorithm : Algorithm; SetWrappedAttestationKeyRequest_key_data :
  bytes }.
Definition SetWrappedAttestationKeyRequest_inner : InnerSerialize SetWrappedAttestationKeyRequest :=
  legacy_struct (legacy_field (enum_inner (A:=Algorithm)) (legacy_field vec_inner legacy_unit))
    (λ '(x0, (x1, _)), mk_SetWrappedAttestationKeyRequest x0 x1)
    (λ s, (SetWrappedAttestationKeyRequest_algorithm s, (SetWrappedAttestationKeyRequest_key_data s,
      tt))).
Record SetWrappedAttestationKeyResponse : Set := mk_SetWrappedAttestationKeyResponse {}.
Definition SetWrappedAttestationKeyResponse_inner : InnerSerialize SetWrappedAttestationKeyResponse :=
  legacy_struct legacy_unit
    (λ _, mk_SetWrappedAttestationKeyResponse)
    (λ _, tt).
Record AppendUdsCertificateRequest : Set := mk_AppendUdsCertificateRequest {
  AppendUdsCertificateRequest_cert_data : bytes }.
Definition AppendUdsCertificateRequest_inner : InnerSerialize AppendUdsCertificateRequest :=
  legacy_struct (legacy_field vec_inner legacy_unit)
    (λ '(x0, _), mk_AppendUdsCertificateRequest x0)
    (λ s, (AppendUdsCertificateRequest_cert_data s, tt)).
Record AppendUdsCertificateResponse : Set := mk_AppendUdsCertificateResponse {}.
Definition AppendUdsCertificateResponse_inner : InnerSerialize AppendUdsCertificateResponse :=
  legacy_struct legacy_unit
    (λ _, mk_AppendUdsCertificateResponse)
    (λ _, tt).
Record ClearUdsCertificateRequest : Set := mk_ClearUdsCertificateRequest {}.
Definition ClearUdsCertificateRequest_inner : InnerSerialize ClearUdsCertificateRequest :=
  legacy_struct legacy_unit
    (λ _, mk_ClearUdsCertificateRequest)
    (λ _, tt).
Record ClearUdsCertificateResponse : Set := mk_ClearUdsCertificateResponse {}.
Definition ClearUdsCertificateResponse_inner : InnerSerialize ClearUdsCertificateResponse :=
  legacy_struct legacy_unit
    (λ _, mk_ClearUdsCertificateResponse)
    (λ _, tt).

(** Two responses are written without a length, so they cannot be parsed. *)
Record GetAuthTokenKeyResponse : Set := mk_GetAuthTokenKeyResponse {
  GetAuthTokenKeyResponse_key_material : bytes }.
Definition GetAuthTokenKeyResponse_inner : InnerSerialize GetAuthTokenKeyResponse := {|
  deserialize _ := Err UnexpectedResponse;
  serialize_into s := extend_from_slice (GetAuthTokenKeyResponse_key_material s)
|}.
Record GetDeviceInfoResponse : Set := mk_GetDeviceInfoResponse {
  GetDeviceInfoResponse_device_ids : bytes }.
Definition GetDeviceInfoResponse_inner : InnerSerialize GetDeviceInfoResponse := {|
  deserialize _ := Err UnexpectedResponse;
  serialize_into s := extend_from_slice (GetDeviceInfoResponse_device_ids s)
|}.

(** ** Request and response enums *)

(** One arm of [from_code_and_data]. *)
Definition request_arm {A R} (mk : A → R) (c : InnerSerialize A) (data : bytes) : LResult (R * bytes) :=
  '(req, rest) ← deserialize c data;
  Ok (mk req, rest).

Inductive CuttlefishKeymasterOperation : Set :=
| CuttlefishOp_ConfigureBootPatchlevel | CuttlefishOp_ConfigureVerifiedBootInfo |
CuttlefishOp_SetAttestationIds.
Definition CuttlefishKeymasterOperation_discr (v : CuttlefishKeymasterOperation) : Z :=
  match v with
  | CuttlefishOp_ConfigureBootPatchlevel => 33
  | CuttlefishOp_ConfigureVerifiedBootInfo => 34
  | CuttlefishOp_SetAttestationIds => 38
  end.
#[export, refine] Instance CuttlefishKeymasterOperation_enum : REnum CuttlefishKeymasterOperation := {|
  discr := CuttlefishKeymasterOperation_discr;
  variants := [CuttlefishOp_ConfigureBootPatchlevel; CuttlefishOp_ConfigureVerifiedBootInfo;
    CuttlefishOp_SetAttestationIds] |}.
Proof. all: solve_variants. Defined.
#[export] Instance CuttlefishKeymasterOperation_eq_dec : EqDecision CuttlefishKeymasterOperation := enum_eq_dec.
Inductive CuttlefishPerformOpReq : Type :=
| CuttlefishReq_ConfigureBootPatchlevel (m : ConfigureBootPatchlevelRequest)
| CuttlefishReq_ConfigureVerifiedBootInfo (m : ConfigureVerifiedBootInfoRequest)
| CuttlefishReq_SetAttestationIds (m : SetAttestationIdsRequest).
Inductive CuttlefishPerformOpRsp : Type :=
| CuttlefishRsp_ConfigureBootPatchlevel (m : ConfigureBootPatchlevelResponse)
| CuttlefishRsp_ConfigureVerifiedBootInfo (m : ConfigureVerifiedBootInfoResponse)
| CuttlefishRsp_SetAttestationIds (m : SetAttestationIdsResponse).
#[export] Instance CuttlefishPerformOpReq_id : TrustyMessageId CuttlefishPerformOpReq CuttlefishKeymasterOperation :=
  λ req,
  match req with
  | CuttlefishReq_ConfigureBootPatchlevel _ => CuttlefishOp_ConfigureBootPatchlevel
  | CuttlefishReq_ConfigureVerifiedBootInfo _ => CuttlefishOp_ConfigureVerifiedBootInfo
  | CuttlefishReq_SetAttestationIds _ => CuttlefishOp_SetAttestationIds
  end.
#[export] Instance CuttlefishPerformOpRsp_id : TrustyMessageId CuttlefishPerformOpRsp CuttlefishKeymasterOperation :=
  λ rsp,
  match rsp with
  | CuttlefishRsp_ConfigureBootPatchlevel _ => CuttlefishOp_ConfigureBootPatchlevel
  | CuttlefishRsp_ConfigureVerifiedBootInfo _ => CuttlefishOp_ConfigureVerifiedBootInfo
  | CuttlefishRsp_SetAttestationIds _ => CuttlefishOp_SetAttestationIds
  end.
#[export] Instance CuttlefishPerformOpReq_deserialize : TrustyDeserialize CuttlefishPerformOpReq :=
  λ cmd data,
  '(req, rest) ←
    if decide (cmd = 33) then request_arm CuttlefishReq_ConfigureBootPatchlevel ConfigureBootPatchlevelRequest_inner data else
    if decide (cmd = 34) then request_arm CuttlefishReq_ConfigureVerifiedBootInfo ConfigureVerifiedBootInfoRequest_inner data else
    if decide (cmd = 38) then request_arm CuttlefishReq_SetAttestationIds SetAttestationIdsRequest_inner data else
    Err (UnknownCommand cmd);
  if decide (rest = []) then Ok req else Err (ExcessData (len rest)).
#[export] Instance CuttlefishPerformOpRsp_serialize : TrustySerialize CuttlefishPerformOpRsp := {|
  raw_code rsp := as_u32 (discr (message_code rsp));
  message_into rsp :=
    match rsp with
    | CuttlefishRsp_ConfigureBootPatchlevel m => serialize_into ConfigureBootPatchlevelResponse_inner m
    | CuttlefishRsp_ConfigureVerifiedBootInfo m => serialize_into ConfigureVerifiedBootInfoResponse_inner m
    | CuttlefishRsp_SetAttestationIds m => serialize_into SetAttestationIdsResponse_inner m
    end
|}.

Inductive TrustyKeymasterOperation : Set :=
| TrustyOp_GetVersion | TrustyOp_GetVersion2 | TrustyOp_SetBootParams | TrustyOp_SetAttestationKey |
TrustyOp_AppendAttestationCertChain | TrustyOp_ClearAttestationCertChain |
TrustyOp_SetWrappedAttestationKey | TrustyOp_SetAttestationIds | TrustyOp_SetAttestationIdsKM3 |
TrustyOp_ConfigureBootPatchlevel | TrustyOp_AppendUdsCertificate | TrustyOp_ClearUdsCertificate.
Definition TrustyKeymasterOperation_discr (v : TrustyKeymasterOperation) : Z :=
  match v with
  | TrustyOp_GetVersion => 7
  | TrustyOp_GetVersion2 => 28
  | TrustyOp_SetBootParams => 0x1000
  | TrustyOp_SetAttestationKey => 0x2000
  | TrustyOp_AppendAttestationCertChain => 0x3000
  | TrustyOp_ClearAttestationCertChain => 0xa000
  | TrustyOp_SetWrappedAttestationKey => 0xb000
  | TrustyOp_SetAttestationIds => 0xc000
  | TrustyOp_SetAttestationIdsKM3 => 0xc001
  | TrustyOp_ConfigureBootPatchlevel => 0xd0000
  | TrustyOp_AppendUdsCertificate => 0xe0000
  | TrustyOp_ClearUdsCertificate => 0xe0001
  end.
#[export, refine] Instance TrustyKeymasterOperation_enum : REnum TrustyKeymasterOperation := {|
  discr := TrustyKeymasterOperation_discr;
  variants := [TrustyOp_GetVersion; TrustyOp_GetVersion2; TrustyOp_SetBootParams;
    TrustyOp_SetAttestationKey; TrustyOp_AppendAttestationCertChain;
    TrustyOp_ClearAttestationCertChain; TrustyOp_SetWrappedAttestationKey;
    TrustyOp_SetAttestationIds; TrustyOp_SetAttestationIdsKM3;
    TrustyOp_ConfigureBootPatchlevel; TrustyOp_AppendUdsCertificate;
    TrustyOp_ClearUdsCertificate] |}.
Proof. all: solve_variants. Defined.
#[export] Instance TrustyKeymasterOperation_eq_dec : EqDecision TrustyKeymasterOperation := enum_eq_dec.
Inductive TrustyPerformOpReq : Type :=
| TrustyReq_GetVersion (m : GetVersionRequest)
| TrustyReq_GetVersion2 (m : GetVersion2Request)
| TrustyReq_SetBootParams (m : SetBootParamsRequest)
| TrustyReq_SetAttestationKey (m : SetAttestationKeyRequest)
| TrustyReq_AppendAttestationCertChain (m : AppendAttestationCertChainRequest)
| TrustyReq_ClearAttestationCertChain (m : ClearAttestationCertChainRequest)
| TrustyReq_SetWrappedAttestationKey (m : SetWrappedAttestationKeyRequest)
| TrustyReq_SetAttestationIds (m : SetAttestationIdsRequest)
| TrustyReq_SetAttestationIdsKM3 (m : SetAttestationIdsKM3Request)
| TrustyReq_ConfigureBootPatchlevel (m : ConfigureBootPatchlevelRequest)
| TrustyReq_AppendUdsCertificate (m : AppendUdsCertificateRequest)
| TrustyReq_ClearUdsCertificate (m : ClearUdsCertificateRequest).
Inductive TrustyPerformOpRsp : Type :=
| TrustyRsp_GetVersion (m : GetVersionResponse)
| TrustyRsp_GetVersion2 (m : GetVersion2Response)
| TrustyRsp_SetBootParams (m : SetBootParamsResponse)
| TrustyRsp_SetAttestationKey (m : SetAttestationKeyResponse)
| TrustyRsp_AppendAttestationCertChain (m : AppendAttestationCertChainResponse)
| TrustyRsp_ClearAttestationCertChain (m : ClearAttestationCertChainResponse)
| TrustyRsp_SetWrappedAttestationKey (m : SetWrappedAttestationKeyResponse)
| TrustyRsp_SetAttestationIds (m : SetAttestationIdsResponse)
| TrustyRsp_SetAttestationIdsKM3 (m : SetAttestationIdsKM3Response)
| TrustyRsp_ConfigureBootPatchlevel (m : ConfigureBootPatchlevelResponse)
| TrustyRsp_AppendUdsCertificate (m : AppendUdsCertificateResponse)
| TrustyRsp_ClearUdsCertificate (m : ClearUdsCertificateResponse).
#[export] Instance TrustyPerformOpReq_id : TrustyMessageId TrustyPerformOpReq TrustyKeymasterOperation :=
  λ req,
  match req with
  | TrustyReq_GetVersion _ => TrustyOp_GetVersion
  | TrustyReq_GetVersion2 _ => TrustyOp_GetVersion2
  | TrustyReq_SetBootParams _ => TrustyOp_SetBootParams
  | TrustyReq_SetAttestationKey _ => TrustyOp_SetAttestationKey
  | TrustyReq_AppendAttestationCertChain _ => TrustyOp_AppendAttestationCertChain
  | TrustyReq_ClearAttestationCertChain _ => TrustyOp_ClearAttestationCertChain
  | TrustyReq_SetWrappedAttestationKey _ => TrustyOp_SetWrappedAttestationKey
  | TrustyReq_SetAttestationIds _ => TrustyOp_SetAttestationIds
  | TrustyReq_SetAttestationIdsKM3 _ => TrustyOp_SetAttestationIdsKM3
  | TrustyReq_ConfigureBootPatchlevel _ => TrustyOp_ConfigureBootPatchlevel
  | TrustyReq_AppendUdsCertificate _ => TrustyOp_AppendUdsCertificate
  | TrustyReq_ClearUdsCertificate _ => TrustyOp_ClearUdsCertificate
  end.
#[export] Instance TrustyPerformOpRsp_id : TrustyMessageId TrustyPerformOpRsp TrustyKeymasterOperation :=
  λ rsp,
  match rsp with
  | TrustyRsp_GetVersion _ => TrustyOp_GetVersion
  | TrustyRsp_GetVersion2 _ => TrustyOp_GetVersion2
  | TrustyRsp_SetBootParams _ => TrustyOp_SetBootParams
  | TrustyRsp_SetAttestationKey _ => TrustyOp_SetAttestationKey
  | TrustyRsp_AppendAttestationCertChain _ => TrustyOp_AppendAttestationCertChain
  | TrustyRsp_ClearAttestationCertChain _ => TrustyOp_ClearAttestationCertChain
  | TrustyRsp_SetWrappedAttestationKey _ => TrustyOp_SetWrappedAttestationKey
  | TrustyRsp_SetAttestationIds _ => TrustyOp_SetAttestationIds
  | TrustyRsp_SetAttestationIdsKM3 _ => TrustyOp_SetAttestationIdsKM3
  | TrustyRsp_ConfigureBootPatchlevel _ => TrustyOp_ConfigureBootPatchlevel
  | TrustyRsp_AppendUdsCertificate _ => TrustyOp_AppendUdsCertificate
  | TrustyRsp_ClearUdsCertificate _ => TrustyOp_ClearUdsCertificate
  end.
#[export] Instance TrustyPerformOpReq_deserialize : TrustyDeserialize TrustyPerformOpReq :=
  λ cmd data,
  '(req, rest) ←
    if decide (cmd = 7) then request_arm TrustyReq_GetVersion GetVersionRequest_inner data else
    if decide (cmd = 28) then request_arm TrustyReq_GetVersion2 GetVersion2Request_inner data else
    if decide (cmd = 0x1000) then request_arm TrustyReq_SetBootParams SetBootParamsRequest_inner data else
    if decide (cmd = 0x2000) then request_arm TrustyReq_SetAttestationKey SetAttestationKeyRequest_inner data else
    if decide (cmd = 0x3000) then request_arm TrustyReq_AppendAttestationCertChain AppendAttestationCertChainRequest_inner data else
    if decide (cmd = 0xa000) then request_arm TrustyReq_ClearAttestationCertChain ClearAttestationCertChainRequest_inner data else
    if decide (cmd = 0xb000) then request_arm TrustyReq_SetWrappedAttestationKey SetWrappedAttestationKeyRequest_inner data else
    if decide (cmd = 0xc000) then request_arm TrustyReq_SetAttestationIds SetAttestationIdsRequest_inner data else
    if decide (cmd = 0xc001) then request_arm TrustyReq_SetAttestationIdsKM3 SetAttestationIdsKM3Request_inner data else
    if decide (cmd = 0xd0000) then request_arm TrustyReq_ConfigureBootPatchlevel ConfigureBootPatchlevelRequest_inner data else
    if decide (cmd = 0xe0000) then request_arm TrustyReq_AppendUdsCertificate AppendUdsCertificateRequest_inner data else
    if decide (cmd = 0xe0001) then request_arm TrustyReq_ClearUdsCertificate ClearUdsCertificateRequest_inner data else
    Err (UnknownCommand cmd);
  if decide (rest = []) then Ok req else Err (ExcessData (len rest)).
#[export] Instance TrustyPerformOpRsp_serialize : TrustySerialize TrustyPerformOpRsp := {|
  raw_code rsp := as_u32 (discr (message_code rsp));
  message_into rsp :=
    match rsp with
    | TrustyRsp_GetVersion m => serialize_into GetVersionResponse_inner m
    | TrustyRsp_GetVersion2 m => serialize_into GetVersion2Response_inner m
    | TrustyRsp_SetBootParams m => serialize_into SetBootParamsResponse_inner m
    | TrustyRsp_SetAttestationKey m => serialize_into SetAttestationKeyResponse_inner m
    | TrustyRsp_AppendAttestationCertChain m => serialize_into AppendAttestationCertChainResponse_inner m
    | TrustyRsp_ClearAttestationCertChain m => serialize_into ClearAttestationCertChainResponse_inner m
    | TrustyRsp_SetWrappedAttestationKey m => serialize_into SetWrappedAttestationKeyResponse_inner m
    | TrustyRsp_SetAttestationIds m => serialize_into SetAttestationIdsResponse_inner m
    | TrustyRsp_SetAttestationIdsKM3 m => serialize_into SetAttestationIdsKM3Response_inner m
    | TrustyRsp_ConfigureBootPatchlevel m => serialize_into ConfigureBootPatchlevelResponse_inner m
    | TrustyRsp_AppendUdsCertificate m => serialize_into AppendUdsCertificateResponse_inner m
    | TrustyRsp_ClearUdsCertificate m => serialize_into ClearUdsCertificateResponse_inner m
    end
|}.

Inductive TrustyKeymasterSecureOperation : Set :=
| TrustySecureOp_GetAuthTokenKey | TrustySecureOp_GetDeviceInfo | TrustySecureOp_GetUdsCerts |
TrustySecureOp_SetAttestationIds.
Definition TrustyKeymasterSecureOperation_discr (v : TrustyKeymasterSecureOperation) : Z :=
  match v with
  | TrustySecureOp_GetAuthTokenKey => 0
  | TrustySecureOp_GetDeviceInfo => 1
  | TrustySecureOp_GetUdsCerts => 2
  | TrustySecureOp_SetAttestationIds => 0xc000
  end.
#[export, refine] Instance TrustyKeymasterSecureOperation_enum : REnum TrustyKeymasterSecureOperation := {|
  discr := TrustyKeymasterSecureOperation_discr;
  variants := [TrustySecureOp_GetAuthTokenKey; TrustySecureOp_GetDeviceInfo;
    TrustySecureOp_GetUdsCerts; TrustySecureOp_SetAttestationIds] |}.
Proof. all: solve_variants. Defined.
#[export] Instance TrustyKeymasterSecureOperation_eq_dec : EqDecision TrustyKeymasterSecureOperation := enum_eq_dec.
Inductive TrustyPerformSecureOpReq : Type :=
| TrustySecureReq_GetAuthTokenKey (m : GetAuthTokenKeyRequest)
| TrustySecureReq_GetDeviceInfo (m : GetDeviceInfoRequest)
| TrustySecureReq_GetUdsCerts (m : GetUdsCertsRequest)
| TrustySecureReq_SetAttestationIds (m : SetAttestationIdsRequest).
Inductive TrustyPerformSecureOpRsp : Type :=
| TrustySecureRsp_GetAuthTokenKey (m : GetAuthTokenKeyResponse)
| TrustySecureRsp_GetDeviceInfo (m : GetDeviceInfoResponse)
| TrustySecureRsp_GetUdsCerts (m : GetUdsCertsResponse)
| TrustySecureRsp_SetAttestationIds (m : SetAttestationIdsResponse).
#[export] Instance TrustyPerformSecureOpReq_id : TrustyMessageId TrustyPerformSecureOpReq TrustyKeymasterSecureOperation :=
  λ req,
  match req with
  | TrustySecureReq_GetAuthTokenKey _ => TrustySecureOp_GetAuthTokenKey
  | TrustySecureReq_GetDeviceInfo _ => TrustySecureOp_GetDeviceInfo
  | TrustySecureReq_GetUdsCerts _ => TrustySecureOp_GetUdsCerts
  | TrustySecureReq_SetAttestationIds _ => TrustySecureOp_SetAttestationIds
  end.
#[export] Instance TrustyPerformSecureOpRsp_id : TrustyMessageId TrustyPerformSecureOpRsp TrustyKeymasterSecureOperation :=
  λ rsp,
  match rsp with
  | TrustySecureRsp_GetAuthTokenKey _ => TrustySecureOp_GetAuthTokenKey
  | TrustySecureRsp_GetDeviceInfo _ => TrustySecureOp_GetDeviceInfo
  | TrustySecureRsp_GetUdsCerts _ => TrustySecureOp_GetUdsCerts
  | TrustySecureRsp_SetAttestationIds _ => TrustySecureOp_SetAttestationIds
  end.
#[export] Instance TrustyPerformSecureOpReq_deserialize : TrustyDeserialize TrustyPerformSecureOpReq :=
  λ cmd data,
  '(req, rest) ←
    if decide (cmd = 0) then request_arm TrustySecureReq_GetAuthTokenKey GetAuthTokenKeyRequest_inner data else
    if decide (cmd = 1) then request_arm TrustySecureReq_GetDeviceInfo GetDeviceInfoRequest_inner data else
    if decide (cmd = 2) then request_arm TrustySecureReq_GetUdsCerts GetUdsCertsRequest_inner data else
    if decide (cmd = 0xc000) then request_arm TrustySecureReq_SetAttestationIds SetAttestationIdsRequest_inner data else
    Err (UnknownCommand cmd);
  if decide (rest = []) then Ok req else Err (ExcessData (len rest)).
#[export] Instance TrustyPerformSecureOpRsp_serialize : TrustySerialize TrustyPerformSecureOpRsp := {|
  raw_code rsp := as_u32 (discr (message_code rsp));
  message_into rsp :=
    match rsp with
    | TrustySecureRsp_GetAuthTokenKey m => serialize_into GetAuthTokenKeyResponse_inner m
    | TrustySecureRsp_GetDeviceInfo m => serialize_into GetDeviceInfoResponse_inner m
    | TrustySecureRsp_GetUdsCerts m => serialize_into GetUdsCertsResponse_inner m
    | TrustySecureRsp_SetAttestationIds m => serialize_into SetAttestationIdsResponse_inner m
    end
|}.

(** ** Framing *)

Definition deserialize_trusty_request_message {A} `{TrustyDeserialize A} (data : bytes) : LResult A :=
  '(raw_cmd, data) ← deserialize u32_inner data;
  let cmd := Z.shiftr raw_cmd TRUSTY_CMD_SHIFT in
  _ ← reject_if (bool_decide (Z.land raw_cmd TRUSTY_RESPONSE_BITMASK = TRUSTY_RESPONSE_BITMASK))
        UnexpectedResponse;
  from_code_and_data cmd data.
Definition deserialize_trusty_req (data : bytes) : LResult TrustyPerformOpReq :=
  deserialize_trusty_request_message data.
Definition deserialize_trusty_secure_req (data : bytes) : LResult TrustyPerformSecureOpReq :=
  deserialize_trusty_request_message data.

Inductive LegacyResult (A : Type) : Type :=
| LegacyResult_Ok (rsp : A)
| LegacyResult_Err (cmd : Z) (code : ErrorCode).
Arguments LegacyResult_Ok {A} rsp.
Arguments LegacyResult_Err {A} cmd code.

Definition LegacyResult_cmd {A} `{TrustySerialize A} (r : LegacyResult A) : Z :=
  match r with
  | LegacyResult_Ok rsp => raw_code rsp
  | LegacyResult_Err cmd _ => cmd
  end.

(** [cmd << TRUSTY_CMD_SHIFT | TRUSTY_RESPONSE_BITMASK | TRUSTY_STOP_BITMASK] on [u32]. *)
Definition response_cmd (cmd : Z) : Z :=
  Z.lor (Z.lor (as_u32 (Z.shiftl cmd TRUSTY_CMD_SHIFT)) TRUSTY_RESPONSE_BITMASK) TRUSTY_STOP_BITMASK.

(** The buffer of a computation that writes to a new [Vec]. *)
Definition new_vec (c : stM bytes LegacyError unit) : LResult bytes :=
  match c [] with
  | (Ok _, buf) => Ok buf
  | (Err e, _) => Err e
  | (Panic, _) => Panic
  end.

Definition serialize_trusty_response_message {A} `{TrustySerialize A} (result : LegacyResult A) : LResult bytes :=
  new_vec (
    _ ← extend_from_slice (to_ne_bytes 4 (response_cmd (LegacyResult_cmd result)));
    match result with
    | LegacyResult_Ok rsp =>
      _ ← extend_from_slice (to_ne_bytes 4 (as_u32 (discr ErrorCode_Ok)));
      message_into rsp
    | LegacyResult_Err _ code => extend_from_slice (to_ne_bytes 4 (as_u32 (discr code)))
    end).
Definition serialize_trusty_rsp (rsp : TrustyPerformOpRsp) : LResult bytes :=
  serialize_trusty_response_message (LegacyResult_Ok rsp).

Definition serialize_trusty_raw_rsp (cmd : Z) (raw_data : bytes) : LResult bytes :=
  new_vec (
    _ ← extend_from_slice (to_ne_bytes 4 (response_cmd cmd));
    extend_from_slice raw_data).
Definition serialize_trusty_secure_rsp (rsp : TrustyPerformSecureOpRsp) : LResult bytes :=
  match rsp with
  | TrustySecureRsp_GetAuthTokenKey m =>
    serialize_trusty_raw_rsp (raw_code rsp) (GetAuthTokenKeyResponse_key_material m)
  | TrustySecureRsp_GetDeviceInfo m =>
    serialize_trusty_raw_rsp (raw_code rsp) (GetDeviceInfoResponse_device_ids m)
  | TrustySecureRsp_GetUdsCerts _ => serialize_trusty_response_message (LegacyResult_Ok rsp)
  | TrustySecureRsp_SetAttestationIds _ => serialize_trusty_response_message (LegacyResult_Ok rsp)
  end.

Definition deserialize_trusty_rsp_error_code (rsp : bytes) : LResult ErrorCode :=
  _ ← reject_if (bool_decide (len rsp < LEGACY_NON_SEC_RSP_HEADER_SIZE)) DataTruncated;
  header ← slice_range rsp CMD_SIZE LEGACY_NON_SEC_RSP_HEADER_SIZE;
  '(error_code, _) ← deserialize u32_inner header;
  ok_or (try_from_n (as_i32 error_code)) (InvalidEnumValue error_code).

Definition serialize_trusty_error_rsp (op : TrustyKeymasterOperation) (rc : ErrorCode) : LResult bytes :=
  serialize_trusty_response_message (A:=TrustyPerformOpRsp) (LegacyResult_Err (as_u32 (discr op)) rc).
Definition serialize_trusty_secure_error_rsp (op : TrustyKeymasterSecureOperation) (rc : ErrorCode)
    : LResult bytes :=
  serialize_trusty_response_message (A:=TrustyPerformSecureOpRsp) (LegacyResult_Err (as_u32 (discr op)) rc).

(** ** Classification of requests *)

Definition is_trusty_bootloader_code (code : Z) : bool :=
  match try_from_n (A:=TrustyKeymasterOperation) code with
  | Some (TrustyOp_SetBootParams | TrustyOp_ConfigureBootPatchlevel) => true
  | _ => false
  end.
Definition is_trusty_bootloader_req (req : TrustyPerformOpReq) : bool :=
  match req with
  | TrustyReq_SetBootParams _ | TrustyReq_ConfigureBootPatchlevel _ => true
  | _ => false
  end.
Definition is_trusty_provisioning_code (code : Z) : bool :=
  match try_from_n (A:=TrustyKeymasterOperation) code with
  | Some (TrustyOp_SetAttestationKey | TrustyOp_AppendAttestationCertChain
         | TrustyOp_ClearAttestationCertChain | TrustyOp_SetWrappedAttestationKey
         | TrustyOp_SetAttestationIds | TrustyOp_SetAttestationIdsKM3
         | TrustyOp_AppendUdsCertificate | TrustyOp_ClearUdsCertificate) => true
  | _ => false
  end.
Definition is_trusty_provisioning_req (req : TrustyPerformOpReq) : bool :=
  match req with
  | TrustyReq_SetAttestationKey _ | TrustyReq_AppendAttestationCertChain _
  | TrustyReq_ClearAttestationCertChain _ | TrustyReq_SetWrappedAttestationKey _
  | TrustyReq_SetAttestationIds _ | TrustyReq_SetAttestationIdsKM3 _
  | TrustyReq_AppendUdsCertificate _ | TrustyReq_ClearUdsCertificate _ => true
  | _ => false
  end.

(** ** Correctness of the inner encodings *)

(** [wf] describes the values that can be written: what is written for them is read back,
    and only such values are ever read. *)
Class InnerLaws {A} (c : InnerSerialize A) (wf : A → Prop) : Prop := {
  inner_roundtrip a : wf a →
    ∃ enc, (∀ buf, serialize_into c a buf = (Ok tt, buf ++ enc)) ∧
           ∀ rest, deserialize c (enc ++ rest) = Ok (a, rest);
  inner_sound data :
    match deserialize c data with
    | Ok (a, rest) => wf a ∧ ∃ enc, data = enc ++ rest
    | Err _ => True
    | Panic => False
    end
}.

#[export] Instance uint_laws n : InnerLaws (uint_inner n) (is_unsigned (8 * Z.of_nat n)).
Proof.
  split.
  - intros v Hv. exists (to_ne_bytes n v). split; [done|]. intros rest. cbn [deserialize uint_inner].
    assert (len (to_ne_bytes n v) = Z.of_nat n) as Hl by (unfold len; by rewrite length_to_ne_bytes).
    rewrite bool_decide_eq_false_2 by (rewrite len_app; pose proof (len_nonneg rest); lia).
    rewrite <- Hl. cbn. rewrite slice_to_app. cbn. rewrite slice_from_app. cbn.
    by rewrite from_to_ne_bytes, as_unsigned_id.
  - intros data. cbn [deserialize uint_inner].
    case_bool_decide as Hlen; cbn; [done|].
    destruct (slice_split (E:=LegacyError) data (Z.of_nat n)) as [-> ->]; [lia|]. cbn.
    split; [|exists (take (Z.to_nat (Z.of_nat n)) data); by rewrite take_drop].
    rewrite Nat2Z.id. pose proof (from_ne_bytes_range (take n data)) as H.
    rewrite length_take_le in H by (unfold len in Hlen; lia). done.
Qed.
#[export] Instance u32_laws : InnerLaws u32_inner is_u32.
Proof. apply (uint_laws 4). Qed.
#[export] Instance u64_laws : InnerLaws u64_inner is_u64.
Proof. apply (uint_laws 8). Qed.
#[export] Instance u8_laws : InnerLaws u8_inner (λ _, True).
Proof.
  split.
  - intros v _. by exists [v].
  - intros [|b data]; cbn; [done|]. split; [done|]. by exists [b].
Qed.

(** Encodings built by converting a [u32]. *)
Lemma inner_u32_sound data :
  match deserialize u32_inner data with
  | Ok (v, rest) => is_u32 v ∧ ∃ enc, data = enc ++ rest
  | Err _ => True
  | Panic => False
  end.
Proof. apply u32_laws. Qed.

#[export] Instance bool_laws : InnerLaws bool_inner (λ _, True).
Proof.
  split.
  - intros b _. destruct (inner_roundtrip (c:=u32_inner) (Z.b2z b)) as (enc & Hs & Hd);
      [destruct b; cbn; range_lia|].
    exists enc. split; [apply Hs|]. intros rest. cbn [deserialize bool_inner]. rewrite Hd. cbn.
    by destruct b.
  - intros data. cbn [deserialize bool_inner]. pose proof (inner_u32_sound data) as H.
    destruct (deserialize u32_inner data) as [[v rest]|e|]; cbn; [|done|done]. naive_solver.
Qed.

#[export] Instance enum_laws {A} `{EnumI32 A} : InnerLaws (enum_inner (A:=A)) (λ _, True).
Proof.
  split.
  - intros x _. pose proof (discr_is_i32 x) as Hx.
    destruct (inner_roundtrip (c:=u32_inner) (as_u32 (discr x))) as (enc & Hs & Hd);
      [apply as_unsigned_range; lia|].
    exists enc. split; [apply Hs|]. intros rest. cbn [deserialize enum_inner]. rewrite Hd. cbn.
    by rewrite as_signed_as_unsigned, try_from_discr by (done || lia).
  - intros data. cbn [deserialize enum_inner]. pose proof (inner_u32_sound data) as Hd.
    destruct (deserialize u32_inner data) as [[v rest]|e|]; cbn; [|done|done].
    destruct (try_from_n (as_i32 v)); cbn; naive_solver.
Qed.

#[export] Instance vec_laws : InnerLaws vec_inner (λ b, is_u32 (len b)).
Proof.
  split.
  - intros b Hb. destruct (inner_roundtrip (c:=u32_inner) (as_u32 (len b))) as (enc & Hs & Hd);
      [apply as_unsigned_range; lia|].
    exists (enc ++ b). split.
    { intros buf. specialize (Hs buf). cbn in *. unfold extend_from_slice, modify in *.
      unfold mbind, stM_bind. injection Hs as Hs. by rewrite Hs, app_assoc. }
    intros rest. cbn [deserialize vec_inner]. rewrite <- app_assoc, Hd. cbn.
    rewrite as_unsigned_id by done.
    rewrite bool_decide_eq_false_2 by (rewrite len_app; pose proof (len_nonneg rest); lia). cbn.
    rewrite slice_to_app. cbn. by rewrite slice_from_app.
  - intros data. cbn [deserialize vec_inner]. pose proof (inner_u32_sound data) as Hd.
    destruct (deserialize u32_inner data) as [[n rest]|e|]; cbn; [|done|done].
    destruct Hd as [Hn [enc ->]]. case_bool_decide as Hlen; cbn; [done|].
    destruct (slice_split (E:=LegacyError) rest n) as [-> ->]; [range_lia|]. cbn. split.
    + unfold len. rewrite length_take_le by (unfold len in *; range_lia). range_lia.
    + exists (enc ++ take (Z.to_nat n) rest). by rewrite <- app_assoc, take_drop.
Qed.

#[export] Instance legacy_unit_laws : InnerLaws legacy_unit (λ _, True).
Proof.
  split.
  - intros [] _. exists []. split; [|done]. intros buf. cbn. by rewrite app_nil_r.
  - intros data. cbn. split; [done|]. by exists [].
Qed.
#[export] Instance legacy_field_laws {A B} (c : InnerSerialize A) (fs : InnerSerialize B) wf1 wf2 :
  InnerLaws c wf1 → InnerLaws fs wf2 → InnerLaws (legacy_field c fs) (λ p, wf1 p.1 ∧ wf2 p.2).
Proof.
  intros Hc Hfs. split.
  - intros [x y] [Hx Hy]. destruct (inner_roundtrip x Hx) as (enc1 & Hs1 & Hd1).
    destruct (inner_roundtrip y Hy) as (enc2 & Hs2 & Hd2). exists (enc1 ++ enc2). split.
    + intros buf. cbn. unfold mbind, stM_bind. by rewrite Hs1, Hs2, app_assoc.
    + intros rest. cbn. rewrite <- app_assoc, Hd1. cbn. by rewrite Hd2.
  - intros data. cbn. pose proof (inner_sound (c:=c) data) as H1.
    destruct (deserialize c data) as [[x data1]|e|]; cbn; [|done|done]. destruct H1 as [Hx [enc1 ->]].
    pose proof (inner_sound (c:=fs) data1) as H2.
    destruct (deserialize fs data1) as [[y data2]|e|]; cbn; [|done|done].
    destruct H2 as [Hy [enc2 ->]]. split; [done|]. exists (enc1 ++ enc2). by rewrite app_assoc.
Qed.
Lemma legacy_struct_laws {A B} (fs : InnerSerialize A) (mk : A → B) un wf wf' :
  InnerLaws fs wf → (∀ s, mk (un s) = s) → (∀ x, un (mk x) = x) → (∀ s, wf (un s) ↔ wf' s) →
  InnerLaws (legacy_struct fs mk un) wf'.
Proof.
  intros Hfs Hmk Hun Hwf. split.
  - intros s Hs. destruct (inner_roundtrip (un s)) as (enc & Hs1 & Hd1); [by apply Hwf|].
    exists enc. split; [apply Hs1|]. intros rest. cbn. rewrite Hd1. cbn. by rewrite Hmk.
  - intros data. cbn. pose proof (inner_sound (c:=fs) data) as H.
    destruct (deserialize fs data) as [[x rest]|e|]; cbn; [|done|done].
    rewrite <- Hwf, Hun. done.
Qed.

Ltac unit_pairs := repeat match goal with p : (_ * _)%type |- _ => destruct p | u : unit |- _ => destruct u end.
Ltac struct_laws :=
  eapply legacy_struct_laws;
    [typeclasses eauto | intros []; reflexivity | intros; unit_pairs; reflexivity
    | intros []; match goal with |- _ ↔ ?w _ => unfold w end; cbn; tauto].

Definition GetVersionRequest_wf (s : GetVersionRequest) : Prop := True.
#[export] Instance GetVersionRequest_laws : InnerLaws GetVersionRequest_inner GetVersionRequest_wf.
Proof. struct_laws. Qed.
Definition GetVersionResponse_wf (s : GetVersionResponse) : Prop := True ∧ True ∧ True.
#[export] Instance GetVersionResponse_laws : InnerLaws GetVersionResponse_inner GetVersionResponse_wf.
Proof. struct_laws. Qed.
Definition GetVersion2Request_wf (s : GetVersion2Request) : Prop := is_u32
  (GetVersion2Request_max_message_version s).
#[export] Instance GetVersion2Request_laws : InnerLaws GetVersion2Request_inner GetVersion2Request_wf.
Proof. struct_laws. Qed.
Definition GetVersion2Response_wf (s : GetVersion2Response) : Prop := is_u32
  (GetVersion2Response_max_message_version s) ∧ True ∧ is_u32 (GetVersion2Response_km_date s).
#[export] Instance GetVersion2Response_laws : InnerLaws GetVersion2Response_inner GetVersion2Response_wf.
Proof. struct_laws. Qed.
Definition ConfigureBootPatchlevelRequest_wf (s : ConfigureBootPatchlevelRequest) : Prop := is_u32
  (ConfigureBootPatchlevelRequest_boot_patchlevel s).
#[export] Instance ConfigureBootPatchlevelRequest_laws : InnerLaws ConfigureBootPatchlevelRequest_inner ConfigureBootPatchlevelRequest_wf.
Proof. struct_laws. Qed.
Definition ConfigureBootPatchlevelResponse_wf (s : ConfigureBootPatchlevelResponse) : Prop := True.
#[export] Instance ConfigureBootPatchlevelResponse_laws : InnerLaws ConfigureBootPatchlevelResponse_inner ConfigureBootPatchlevelResponse_wf.
Proof. struct_laws. Qed.
Definition ConfigureVerifiedBootInfoRequest_wf (s : ConfigureVerifiedBootInfoRequest) : Prop :=
  is_u32 (len (ConfigureVerifiedBootInfoRequest_boot_state s)) ∧ is_u32 (len
  (ConfigureVerifiedBootInfoRequest_bootloader_state s)) ∧ is_u32 (len
  (ConfigureVerifiedBootInfoRequest_vbmeta_digest s)).
#[export] Instance ConfigureVerifiedBootInfoRequest_laws : InnerLaws ConfigureVerifiedBootInfoRequest_inner ConfigureVerifiedBootInfoRequest_wf.
Proof. struct_laws. Qed.
Definition ConfigureVerifiedBootInfoResponse_wf (s : ConfigureVerifiedBootInfoResponse) : Prop :=
  True.
#[export] Instance ConfigureVerifiedBootInfoResponse_laws : InnerLaws ConfigureVerifiedBootInfoResponse_inner ConfigureVerifiedBootInfoResponse_wf.
Proof. struct_laws. Qed.
Definition SetAttestationIdsRequest_wf (s : SetAttestationIdsRequest) : Prop := is_u32 (len
  (SetAttestationIdsRequest_brand s)) ∧ is_u32 (len (SetAttestationIdsRequest_device s)) ∧ is_u32
  (len (SetAttestationIdsRequest_product s)) ∧ is_u32 (len (SetAttestationIdsRequest_serial s)) ∧
  is_u32 (len (SetAttestationIdsRequest_imei s)) ∧ is_u32 (len (SetAttestationIdsRequest_meid s)) ∧
  is_u32 (len (SetAttestationIdsRequest_manufacturer s)) ∧ is_u32 (len
  (SetAttestationIdsRequest_model s)).
#[export] Instance SetAttestationIdsRequest_laws : InnerLaws SetAttestationIdsRequest_inner SetAttestationIdsRequest_wf.
Proof. struct_laws. Qed.
Definition SetAttestationIdsResponse_wf (s : SetAttestationIdsResponse) : Prop := True.
#[export] Instance SetAttestationIdsResponse_laws : InnerLaws SetAttestationIdsResponse_inner SetAttestationIdsResponse_wf.
Proof. struct_laws. Qed.
Definition SetAttestationIdsKM3Request_wf (s : SetAttestationIdsKM3Request) : Prop :=
  SetAttestationIdsRequest_wf (SetAttestationIdsKM3Request_base s) ∧ is_u32 (len
  (SetAttestationIdsKM3Request_second_imei s)).
#[export] Instance SetAttestationIdsKM3Request_laws : InnerLaws SetAttestationIdsKM3Request_inner SetAttestationIdsKM3Request_wf.
Proof. struct_laws. Qed.
Definition SetAttestationIdsKM3Response_wf (s : SetAttestationIdsKM3Response) : Prop := True.
#[export] Instance SetAttestationIdsKM3Response_laws : InnerLaws SetAttestationIdsKM3Response_inner SetAttestationIdsKM3Response_wf.
Proof. struct_laws. Qed.
Definition GetAuthTokenKeyRequest_wf (s : GetAuthTokenKeyRequest) : Prop := True.
#[export] Instance GetAuthTokenKeyRequest_laws : InnerLaws GetAuthTokenKeyRequest_inner GetAuthTokenKeyRequest_wf.
Proof. struct_laws. Qed.
Definition GetDeviceInfoRequest_wf (s : GetDeviceInfoRequest) : Prop := True.
#[export] Instance GetDeviceInfoRequest_laws : InnerLaws GetDeviceInfoRequest_inner GetDeviceInfoRequest_wf.
Proof. struct_laws. Qed.
Definition GetUdsCertsRequest_wf (s : GetUdsCertsRequest) : Prop := True.
#[export] Instance GetUdsCertsRequest_laws : InnerLaws GetUdsCertsRequest_inner GetUdsCertsRequest_wf.
Proof. struct_laws. Qed.
Definition GetUdsCertsResponse_wf (s : GetUdsCertsResponse) : Prop := is_u32 (len
  (GetUdsCertsResponse_uds_certs s)).
#[export] Instance GetUdsCertsResponse_laws : InnerLaws GetUdsCertsResponse_inner GetUdsCertsResponse_wf.
Proof. struct_laws. Qed.
Definition SetBootParamsRequest_wf (s : SetBootParamsRequest) : Prop := is_u32
  (SetBootParamsRequest_os_version s) ∧ is_u32 (SetBootParamsRequest_os_patchlevel s) ∧ True ∧ True
  ∧ is_u32 (len (SetBootParamsRequest_verified_boot_key s)) ∧ is_u32 (len
  (SetBootParamsRequest_verified_boot_hash s)).
#[export] Instance SetBootParamsRequest_laws : InnerLaws SetBootParamsRequest_inner SetBootParamsRequest_wf.
Proof. struct_laws. Qed.
Definition SetBootParamsResponse_wf (s : SetBootParamsResponse) : Prop := True.
#[export] Instance SetBootParamsResponse_laws : InnerLaws SetBootParamsResponse_inner SetBootParamsResponse_wf.
Proof. struct_laws. Qed.
Definition SetAttestationKeyRequest_wf (s : SetAttestationKeyRequest) : Prop := True ∧ is_u32 (len
  (SetAttestationKeyRequest_key_data s)).
#[export] Instance SetAttestationKeyRequest_laws : InnerLaws SetAttestationKeyRequest_inner SetAttestationKeyRequest_wf.
Proof. struct_laws. Qed.
Definition SetAttestationKeyResponse_wf (s : SetAttestationKeyResponse) : Prop := True.
#[export] Instance SetAttestationKeyResponse_laws : InnerLaws SetAttestationKeyResponse_inner SetAttestationKeyResponse_wf.
Proof. struct_laws. Qed.
Definition AppendAttestationCertChainRequest_wf (s : AppendAttestationCertChainRequest) : Prop :=
  True ∧ is_u32 (len (AppendAttestationCertChainRequest_cert_data s)).
#[export] Instance AppendAttestationCertChainRequest_laws : InnerLaws AppendAttestationCertChainRequest_inner AppendAttestationCertChainRequest_wf.
Proof. struct_laws. Qed.
Definition AppendAttestationCertChainResponse_wf (s : AppendAttestationCertChainResponse) : Prop :=
  True.
#[export] Instance AppendAttestationCertChainResponse_laws : InnerLaws AppendAttestationCertChainResponse_inner AppendAttestationCertChainResponse_wf.
Proof. struct_laws. Qed.
Definition ClearAttestationCertChainRequest_wf (s : ClearAttestationCertChainRequest) : Prop :=
  True.
#[export] Instance ClearAttestationCertChainRequest_laws : InnerLaws ClearAttestationCertChainRequest_inner ClearAttestationCertChainRequest_wf.
Proof. struct_laws. Qed.
Definition ClearAttestationCertChainResponse_wf (s : ClearAttestationCertChainResponse) : Prop :=
  True.
#[export] Instance ClearAttestationCertChainResponse_laws : InnerLaws ClearAttestationCertChainResponse_inner ClearAttestationCertChainResponse_wf.
Proof. struct_laws. Qed.
Definition SetWrappedAttestationKeyRequest_wf (s : SetWrappedAttestationKeyRequest) : Prop := True ∧
  is_u32 (len (SetWrappedAttestationKeyRequest_key_data s)).
#[export] Instance SetWrappedAttestationKeyRequest_laws : InnerLaws SetWrappedAttestationKeyRequest_inner SetWrappedAttestationKeyRequest_wf.
Proof. struct_laws. Qed.
Definition SetWrappedAttestationKeyResponse_wf (s : SetWrappedAttestationKeyResponse) : Prop :=
  True.
#[export] Instance SetWrappedAttestationKeyResponse_laws : InnerLaws SetWrappedAttestationKeyResponse_inner SetWrappedAttestationKeyResponse_wf.
Proof. struct_laws. Qed.
Definition AppendUdsCertificateRequest_wf (s : AppendUdsCertificateRequest) : Prop := is_u32 (len
  (AppendUdsCertificateRequest_cert_data s)).
#[export] Instance AppendUdsCertificateRequest_laws : InnerLaws AppendUdsCertificateRequest_inner AppendUdsCertificateRequest_wf.
Proof. struct_laws. Qed.
Definition AppendUdsCertificateResponse_wf (s : AppendUdsCertificateResponse) : Prop := True.
#[export] Instance AppendUdsCertificateResponse_laws : InnerLaws AppendUdsCertificateResponse_inner AppendUdsCertificateResponse_wf.
Proof. struct_laws. Qed.
Definition ClearUdsCertificateRequest_wf (s : ClearUdsCertificateRequest) : Prop := True.
#[export] Instance ClearUdsCertificateRequest_laws : InnerLaws ClearUdsCertificateRequest_inner ClearUdsCertificateRequest_wf.
Proof. struct_laws. Qed.
Definition ClearUdsCertificateResponse_wf (s : ClearUdsCertificateResponse) : Prop := True.
#[export] Instance ClearUdsCertificateResponse_laws : InnerLaws ClearUdsCertificateResponse_inner ClearUdsCertificateResponse_wf.
Proof. struct_laws. Qed.

(** ** Requests *)

(** The body a client sends for a request, and the requests that can be sent. *)
Definition CuttlefishPerformOpReq_body (req : CuttlefishPerformOpReq) : stM bytes LegacyError unit :=
  match req with
  | CuttlefishReq_ConfigureBootPatchlevel m => serialize_into ConfigureBootPatchlevelRequest_inner m
  | CuttlefishReq_ConfigureVerifiedBootInfo m => serialize_into ConfigureVerifiedBootInfoRequest_inner m
  | CuttlefishReq_SetAttestationIds m => serialize_into SetAttestationIdsRequest_inner m
  end.
Definition CuttlefishPerformOpReq_wf (req : CuttlefishPerformOpReq) : Prop :=
  match req with
  | CuttlefishReq_ConfigureBootPatchlevel m => ConfigureBootPatchlevelRequest_wf m
  | CuttlefishReq_ConfigureVerifiedBootInfo m => ConfigureVerifiedBootInfoRequest_wf m
  | CuttlefishReq_SetAttestationIds m => SetAttestationIdsRequest_wf m
  end.
Definition TrustyPerformOpReq_body (req : TrustyPerformOpReq) : stM bytes LegacyError unit :=
  match req with
  | TrustyReq_GetVersion m => serialize_into GetVersionRequest_inner m
  | TrustyReq_GetVersion2 m => serialize_into GetVersion2Request_inner m
  | TrustyReq_SetBootParams m => serialize_into SetBootParamsRequest_inner m
  | TrustyReq_SetAttestationKey m => serialize_into SetAttestationKeyRequest_inner m
  | TrustyReq_AppendAttestationCertChain m => serialize_into AppendAttestationCertChainRequest_inner m
  | TrustyReq_ClearAttestationCertChain m => serialize_into ClearAttestationCertChainRequest_inner m
  | TrustyReq_SetWrappedAttestationKey m => serialize_into SetWrappedAttestationKeyRequest_inner m
  | TrustyReq_SetAttestationIds m => serialize_into SetAttestationIdsRequest_inner m
  | TrustyReq_SetAttestationIdsKM3 m => serialize_into SetAttestationIdsKM3Request_inner m
  | TrustyReq_ConfigureBootPatchlevel m => serialize_into ConfigureBootPatchlevelRequest_inner m
  | TrustyReq_AppendUdsCertificate m => serialize_into AppendUdsCertificateRequest_inner m
  | TrustyReq_ClearUdsCertificate m => serialize_into ClearUdsCertificateRequest_inner m
  end.
Definition TrustyPerformOpReq_wf (req : TrustyPerformOpReq) : Prop :=
  match req with
  | TrustyReq_GetVersion m => GetVersionRequest_wf m
  | TrustyReq_GetVersion2 m => GetVersion2Request_wf m
  | TrustyReq_SetBootParams m => SetBootParamsRequest_wf m
  | TrustyReq_SetAttestationKey m => SetAttestationKeyRequest_wf m
  | TrustyReq_AppendAttestationCertChain m => AppendAttestationCertChainRequest_wf m
  | TrustyReq_ClearAttestationCertChain m => ClearAttestationCertChainRequest_wf m
  | TrustyReq_SetWrappedAttestationKey m => SetWrappedAttestationKeyRequest_wf m
  | TrustyReq_SetAttestationIds m => SetAttestationIdsRequest_wf m
  | TrustyReq_SetAttestationIdsKM3 m => SetAttestationIdsKM3Request_wf m
  | TrustyReq_ConfigureBootPatchlevel m => ConfigureBootPatchlevelRequest_wf m
  | TrustyReq_AppendUdsCertificate m => AppendUdsCertificateRequest_wf m
  | TrustyReq_ClearUdsCertificate m => ClearUdsCertificateRequest_wf m
  end.
Definition TrustyPerformSecureOpReq_body (req : TrustyPerformSecureOpReq) : stM bytes LegacyError unit :=
  match req with
  | TrustySecureReq_GetAuthTokenKey m => serialize_into GetAuthTokenKeyRequest_inner m
  | TrustySecureReq_GetDeviceInfo m => serialize_into GetDeviceInfoRequest_inner m
  | TrustySecureReq_GetUdsCerts m => serialize_into GetUdsCertsRequest_inner m
  | TrustySecureReq_SetAttestationIds m => serialize_into SetAttestationIdsRequest_inner m
  end.
Definition TrustyPerformSecureOpReq_wf (req : TrustyPerformSecureOpReq) : Prop :=
  match req with
  | TrustySecureReq_GetAuthTokenKey m => GetAuthTokenKeyRequest_wf m
  | TrustySecureReq_GetDeviceInfo m => GetDeviceInfoRequest_wf m
  | TrustySecureReq_GetUdsCerts m => GetUdsCertsRequest_wf m
  | TrustySecureReq_SetAttestationIds m => SetAttestationIdsRequest_wf m
  end.

(** What a family of requests promises to the framing code. *)
Class RequestLaws {R Code} `{TrustyDeserialize R, TrustyMessageId R Code, REnum Code}
    (body : R → stM bytes LegacyError unit) (wf : R → Prop) : Prop := {
  request_roundtrip req : wf req →
    ∃ enc, body req [] = (Ok tt, enc) ∧ from_code_and_data (discr (message_code req)) enc = Ok req;
  request_sound cmd data :
    match from_code_and_data cmd data with
    | Ok req => wf req ∧ cmd = discr (message_code req)
    | Err _ => True
    | Panic => False
    end
}.

Lemma request_arm_roundtrip {A R} (mk : A → R) (c : InnerSerialize A) wf a :
  InnerLaws c wf → wf a →
  ∃ enc, serialize_into c a [] = (Ok tt, enc) ∧ request_arm mk c enc = Ok (mk a, []).
Proof.
  intros Hc Ha. destruct (inner_roundtrip a Ha) as (enc & Hs & Hd). exists enc. split; [apply Hs|].
  unfold request_arm. rewrite <- (app_nil_r enc), Hd. done.
Qed.
Lemma request_arm_sound {A R} (mk : A → R) (c : InnerSerialize A) wf data :
  InnerLaws c wf →
  match request_arm mk c data with
  | Ok (r, _) => ∃ a, r = mk a ∧ wf a
  | Err _ => True
  | Panic => False
  end.
Proof.
  intros Hc. unfold request_arm. pose proof (inner_sound (c:=c) data) as H.
  destruct (deserialize c data) as [[a rest]|e|]; cbn; [|done|done]. naive_solver.
Qed.

(** The end of [from_code_and_data]: all the data must have been used. *)
Lemma all_used_sound {R} (r : LResult (R * bytes)) (P : R → Prop) :
  match r with Ok (r, _) => P r | Err _ => True | Panic => False end →
  match '(req, rest) ← r; if decide (rest = []) then Ok req else Err (ExcessData (len rest)) with
  | Ok req => P req | Err _ => True | Panic => False
  end.
Proof. destruct r as [[r rest]|e|]; cbn; [|done|done]. by case_decide. Qed.

Ltac request_roundtrip_arm m Hm :=
  match goal with |- ∃ _, _ ∧ _ = Ok (?mk m) =>
    let enc := fresh in let Hs := fresh in let Ha := fresh in
    destruct (request_arm_roundtrip mk _ _ m _ Hm) as (enc & Hs & Ha);
    exists enc; split; [exact Hs|]; unfold from_code_and_data;
    match goal with |- ?f _ _ = _ => unfold f end; cbn -[request_arm];
    repeat (case_decide; [try done; rewrite Ha; done|]); done
  end.
Ltac request_sound_arm :=
  match goal with
  | |- match request_arm ?mk ?c ?data with _ => _ end =>
    let H := fresh in
    epose proof (request_arm_sound mk c _ data _) as H;
    destruct (request_arm mk c data) as [[? ?]|?|]; [|done|done];
    destruct H as (? & -> & ?); split; [assumption|reflexivity]
  end.
#[export] Instance CuttlefishPerformOpReq_laws :
  RequestLaws CuttlefishPerformOpReq_body CuttlefishPerformOpReq_wf.
Proof.
  split.
  - intros [m|m|m] Hm; request_roundtrip_arm m Hm.
  - intros cmd data. unfold from_code_and_data, CuttlefishPerformOpReq_deserialize.
    apply (all_used_sound _ (λ req, CuttlefishPerformOpReq_wf req ∧ cmd = discr (message_code req))).
    repeat (case_decide; [subst cmd; request_sound_arm|]); done.
Qed.
#[export] Instance TrustyPerformOpReq_laws :
  RequestLaws TrustyPerformOpReq_body TrustyPerformOpReq_wf.
Proof.
  split.
  - intros [m|m|m|m|m|m|m|m|m|m|m|m] Hm; request_roundtrip_arm m Hm.
  - intros cmd data. unfold from_code_and_data, TrustyPerformOpReq_deserialize.
    apply (all_used_sound _ (λ req, TrustyPerformOpReq_wf req ∧ cmd = discr (message_code req))).
    repeat (case_decide; [subst cmd; request_sound_arm|]); done.
Qed.
#[export] Instance TrustyPerformSecureOpReq_laws :
  RequestLaws TrustyPerformSecureOpReq_body TrustyPerformSecureOpReq_wf.
Proof.
  split.
  - intros [m|m|m|m] Hm; request_roundtrip_arm m Hm.
  - intros cmd data. unfold from_code_and_data, TrustyPerformSecureOpReq_deserialize.
    apply (all_used_sound _ (λ req, TrustyPerformSecureOpReq_wf req ∧ cmd = discr (message_code req))).
    repeat (case_decide; [subst cmd; request_sound_arm|]); done.
Qed.
(** What [u32::deserialize] reads is the encoding of its result. *)
Lemma inner_u32_word data :
  match deserialize u32_inner data with
  | Ok (v, rest) => is_u32 v ∧ data = to_ne_bytes 4 v ++ rest
  | Err _ => True
  | Panic => False
  end.
Proof.
  pose proof (inner_u32_sound data) as H.
  destruct (deserialize u32_inner data) as [[v rest]|e|] eqn:Hd; [|done|done].
  destruct H as [Hv _]. split; [done|].
  cbn [deserialize u32_inner uint_inner] in Hd. case_bool_decide as Hlen; cbn in Hd; [done|].
  destruct (slice_split (E:=LegacyError) data 4) as [H1 H2]; [lia|].
  change (Z.of_nat 4) with 4 in *. rewrite H1, H2 in Hd. cbn in Hd. injection Hd as <- <-.
  rewrite to_from_ne_bytes; [by rewrite (take_drop 4)|].
  rewrite length_take_le by (unfold len in Hlen; lia). done.
Qed.

(** A request frame: the command word, possibly with the stop bit, and the body. *)
Definition request_word {R Code} `{TrustyMessageId R Code, REnum Code} (req : R) (stop : bool) : Z :=
  Z.lor (Z.shiftl (discr (message_code req)) TRUSTY_CMD_SHIFT) (if stop then TRUSTY_STOP_BITMASK else 0).

(** Command values that survive the shift. *)
Class SmallCodes (Code : Type) `{REnum Code} : Prop := discr_small (v : Code) : is_unsigned 30 (discr v).
#[export] Instance Trusty_small : SmallCodes TrustyKeymasterOperation.
Proof. intros []; cbn; range_lia. Qed.
#[export] Instance TrustySecure_small : SmallCodes TrustyKeymasterSecureOperation.
Proof. intros []; cbn; range_lia. Qed.

Lemma word_split c (b : Z) : is_unsigned 30 c → (b = 0 ∨ b = 1 ∨ b = 2 ∨ b = 3) →
  is_u32 (Z.lor (Z.shiftl c 2) b) ∧ Z.shiftr (Z.lor (Z.shiftl c 2) b) 2 = c ∧
  Z.land (Z.lor (Z.shiftl c 2) b) 1 = Z.land b 1.
Proof.
  intros Hc Hb. assert (Z.lor (Z.shiftl c 2) b = c * 4 + b) as ->.
  { rewrite Z.shiftl_mul_pow2 by lia. rewrite <- Z.add_nocarry_lor; [lia|].
    apply Z.bits_inj'. intros n Hn. rewrite Z.land_spec, Z.bits_0.
    destruct (decide (n < 2)) as [Hlt|Hge]; [by rewrite Z.mul_pow2_bits_low by lia|].
    rewrite (Z.bits_above_log2 b n); [by rewrite andb_false_r|lia|].
    destruct Hb as [->|[->|[->| ->]]]; cbn; lia. }
  split_and!; [range_lia| |].
  - rewrite Z.shiftr_div_pow2 by lia. change (2 ^ 2) with 4. symmetry; apply Z.div_unique with b; lia.
  - change 1 with (Z.ones 1). rewrite !Z.land_ones by lia. change (2 ^ 1) with 2.
    replace (c * 4 + b) with (b + (c * 2) * 2) by lia. by rewrite Z_mod_plus_full.
Qed.

Lemma request_message_roundtrip {R Code} `{RequestLaws R Code body wf} `{!SmallCodes Code} req stop :
  wf req → ∃ enc, body req [] = (Ok tt, enc) ∧
    deserialize_trusty_request_message (to_ne_bytes 4 (request_word req stop) ++ enc) = Ok req.
Proof.
  intros Hreq. destruct (request_roundtrip req Hreq) as (enc & Hb & Hd). exists enc. split; [done|].
  assert (∃ b, (if stop then TRUSTY_STOP_BITMASK else 0) = b ∧ (b = 0 ∨ b = 1 ∨ b = 2 ∨ b = 3) ∧ Z.land b 1 = 0)
    as (b & Hb1 & Hb2 & Hb3) by (destruct stop; [exists 2|exists 0]; naive_solver).
  unfold request_word. rewrite Hb1.
  destruct (word_split (discr (message_code req)) b) as (Hu & Hs & Hl); [apply discr_small|done|].
  destruct (inner_roundtrip (c:=u32_inner) _ Hu) as (w & Hw & Hw').
  specialize (Hw []). injection Hw as Hw. cbn in Hw. subst w.
  unfold deserialize_trusty_request_message. unfold TRUSTY_CMD_SHIFT. rewrite Hw'.
  cbn [mbind res_bind]. unfold TRUSTY_RESPONSE_BITMASK. rewrite Hl, Hb3, Hs. exact Hd.
Qed.

Lemma request_message_sound {R Code} `{RequestLaws R Code body wf} data :
  match deserialize_trusty_request_message (A:=R) data with
  | Ok req => wf req ∧ ∃ word rest, data = to_ne_bytes 4 word ++ rest ∧ is_u32 word ∧
      Z.odd word = false ∧ Z.shiftr word TRUSTY_CMD_SHIFT = discr (message_code req)
  | Err _ => True
  | Panic => False
  end.
Proof.
  unfold deserialize_trusty_request_message. pose proof (inner_u32_word data) as Hd.
  destruct (deserialize u32_inner data) as [[word rest]|e|]; cbn [mbind res_bind]; [|done|done].
  destruct Hd as [Hw ->]. case_bool_decide as Hbit; cbn [mbind res_bind reject_if]; [done|].
  pose proof (request_sound (R:=R) (Z.shiftr word TRUSTY_CMD_SHIFT) rest) as Hs.
  destruct (from_code_and_data _ _) as [req|e|]; [|done|done]. destruct Hs as [Hwf Hc].
  split; [done|]. exists word, rest. split_and!; [done..| |done].
  rewrite <- Z.bit0_odd. apply not_true_iff_false. intros Hb. apply Hbit.
  unfold TRUSTY_RESPONSE_BITMASK. change 1 with (Z.ones 1). rewrite Z.land_ones by lia.
  rewrite Z.bit0_odd in Hb. by rewrite Zmod_odd, Hb.
Qed.

(** C35: A legacy request that a client frames (the command word with or without the stop
    bit, then the serialized fields) is recovered exactly, on the non-secure and on the
    secure port, whatever the byte order. *)
Theorem legacy_request_roundtrip :
  (∀ req stop, TrustyPerformOpReq_wf req →
     ∃ enc, TrustyPerformOpReq_body req [] = (Ok tt, enc) ∧
       deserialize_trusty_req (to_ne_bytes 4 (request_word req stop) ++ enc) = Ok req) ∧
  (∀ req stop, TrustyPerformSecureOpReq_wf req →
     ∃ enc, TrustyPerformSecureOpReq_body req [] = (Ok tt, enc) ∧
       deserialize_trusty_secure_req (to_ne_bytes 4 (request_word req stop) ++ enc) = Ok req).
Proof. split; intros req stop; apply request_message_roundtrip. Qed.

(** Parsing a legacy request never panics, and what it accepts is a well-typed request
    whose command word has the response bit clear; the port-independent filters that look
    at the command word only classify the message exactly as those that look at the parsed
    request, and no request is both a bootloader and a provisioning request. *)
Theorem legacy_request_classified data :
  match deserialize_trusty_req data with
  | Ok req => TrustyPerformOpReq_wf req ∧
      ∃ word rest, data = to_ne_bytes 4 word ++ rest ∧ is_u32 word ∧ Z.odd word = false ∧
        is_trusty_provisioning_code (Z.shiftr word TRUSTY_CMD_SHIFT) = is_trusty_provisioning_req req ∧
        is_trusty_bootloader_code (Z.shiftr word TRUSTY_CMD_SHIFT) = is_trusty_bootloader_req req ∧
        is_trusty_provisioning_req req && is_trusty_bootloader_req req = false
  | Err _ => True
  | Panic => False
  end.
Proof.
  pose proof (request_message_sound (R:=TrustyPerformOpReq) data) as H.
  unfold deserialize_trusty_req.
  destruct (deserialize_trusty_request_message data) as [req|e|]; [|done|done].
  destruct H as [Hwf (word & rest & Hd & Hw & Hb & Hc)]. split; [done|]. exists word, rest.
  rewrite Hc. split_and!; [done..| | |];
  by destruct req; vm_compute.
Qed.

(** ** Responses *)

(** Serialization appends to the buffer, whatever the value. *)
Definition appends (c : stM bytes LegacyError unit) : Prop :=
  ∃ enc, ∀ buf, c buf = (Ok tt, buf ++ enc).
Lemma appends_bind (c d : stM bytes LegacyError unit) : appends c → appends d → appends (_ ← c; d).
Proof.
  intros [e1 H1] [e2 H2]. exists (e1 ++ e2). intros buf. unfold mbind, stM_bind.
  by rewrite H1, H2, app_assoc.
Qed.
Lemma appends_ret : appends (mret tt).
Proof. exists []. intros buf. by rewrite app_nil_r. Qed.
Lemma appends_extend b : appends (extend_from_slice b).
Proof. by exists b. Qed.

Create HintDb appends.
#[local] Hint Resolve appends_bind appends_ret appends_extend : appends.

Lemma message_into_appends (rsp : TrustyPerformOpRsp) : appends (message_into rsp).
Proof. destruct rsp; cbn; auto 10 with appends. Qed.
Lemma secure_message_into_appends (rsp : TrustyPerformSecureOpRsp) : appends (message_into rsp).
Proof. destruct rsp; cbn; auto 10 with appends. Qed.

Lemma new_vec_extend b (c : stM bytes LegacyError unit) :
  appends c → ∃ enc, new_vec (_ ← extend_from_slice b; c) = Ok (b ++ enc) ∧ new_vec c = Ok enc.
Proof.
  intros [enc H]. exists enc. unfold new_vec, mbind, stM_bind, extend_from_slice, modify. cbn.
  by rewrite !H.
Qed.

Lemma error_code_of_header (word : Z) rc rest :
  deserialize_trusty_rsp_error_code (to_ne_bytes 4 word ++ to_ne_bytes 4 (as_u32 (discr rc)) ++ rest) = Ok rc.
Proof.
  set (w := to_ne_bytes 4 word). set (c := to_ne_bytes 4 (as_u32 (discr rc))).
  assert (len w = 4) as Hw by (unfold len, w; by rewrite length_to_ne_bytes).
  assert (len c = 4) as Hc by (unfold len, c; by rewrite length_to_ne_bytes).
  unfold deserialize_trusty_rsp_error_code, LEGACY_NON_SEC_RSP_HEADER_SIZE, CMD_SIZE, ERROR_CODE_SIZE.
  rewrite bool_decide_eq_false_2 by (rewrite !len_app; pose proof (len_nonneg rest); lia).
  cbn [mbind res_bind reject_if]. unfold slice_range.
  rewrite decide_True by (rewrite !len_app; pose proof (len_nonneg rest); lia).
  assert (take (Z.to_nat (4 + 4 - 4)) (drop (Z.to_nat 4) (w ++ c ++ rest)) = c) as ->.
  { rewrite drop_app_length' by (unfold len in Hw; lia). by rewrite take_app_length' by (unfold len in Hc; lia). }
  cbn [mbind res_bind]. pose proof (discr_is_i32 rc) as Hrc.
  destruct (inner_roundtrip (c:=u32_inner) (as_u32 (discr rc))) as (enc & Hs & Hd);
    [apply as_unsigned_range; lia|].
  specialize (Hs []). injection Hs as Hs. cbn in Hs. fold c in Hs. subst enc.
  rewrite <- (app_nil_r c), Hd. cbn [mbind res_bind].
  by rewrite as_signed_as_unsigned, try_from_discr by (done || lia).
Qed.

Lemma response_message {A} `{TrustySerialize A} (r : LegacyResult A) :
  (∀ rsp : A, appends (message_into rsp)) →
  ∃ enc, serialize_trusty_response_message r =
    Ok (to_ne_bytes 4 (response_cmd (LegacyResult_cmd r)) ++
        to_ne_bytes 4 (as_u32 (discr match r with LegacyResult_Ok _ => ErrorCode_Ok | LegacyResult_Err _ rc => rc end)) ++
        enc) ∧ (∀ cmd rc, r = LegacyResult_Err cmd rc → enc = []).
Proof.
  intros Ha. unfold serialize_trusty_response_message. destruct r as [rsp|cmd rc].
  - edestruct (new_vec_extend (to_ne_bytes 4 (response_cmd (LegacyResult_cmd (LegacyResult_Ok rsp)))))
      as (e1 & -> & H1); [apply appends_bind; [apply appends_extend|apply Ha]|].
    edestruct (new_vec_extend (to_ne_bytes 4 (as_u32 (discr ErrorCode_Ok)))) as (e2 & H2 & _); [apply (Ha rsp)|].
    exists e2. rewrite H1 in H2. injection H2 as ->. done.
  - exists []. rewrite app_nil_r. done.
Qed.

(** The receiver of a response on the non-secure channel recovers the result: the error
    code of an error response, and [Ok] for every successful response.  Error responses
    have 8 bytes, which tells them from the response that carries a 32-byte auth token key,
    where the error code is left out. *)
Theorem legacy_response_code :
  (∀ op rc, ∃ buf, serialize_trusty_error_rsp op rc = Ok buf ∧
     deserialize_trusty_rsp_error_code buf = Ok rc ∧ len buf = 8) ∧
  (∀ op rc, ∃ buf, serialize_trusty_secure_error_rsp op rc = Ok buf ∧
     deserialize_trusty_rsp_error_code buf = Ok rc ∧ len buf = 8) ∧
  (∀ rsp, ∃ buf, serialize_trusty_rsp rsp = Ok buf ∧
     deserialize_trusty_rsp_error_code buf = Ok ErrorCode_Ok) ∧
  (∀ key, len key = 32 → ∃ buf,
     serialize_trusty_secure_rsp (TrustySecureRsp_GetAuthTokenKey (mk_GetAuthTokenKeyResponse key)) = Ok buf ∧
     len buf = 36).
Proof.
  assert (∀ w, len (to_ne_bytes 4 w) = 4) as Hlen by (intros; unfold len; by rewrite length_to_ne_bytes).
  split_and!.
  - intros op rc. destruct (response_message (LegacyResult_Err (as_u32 (discr op)) rc) message_into_appends)
      as (enc & He & Hn). rewrite (Hn _ _ eq_refl) in He. eexists. split; [exact He|].
    split; [apply error_code_of_header|]. rewrite !len_app, !Hlen. done.
  - intros op rc. destruct (response_message (LegacyResult_Err (as_u32 (discr op)) rc) secure_message_into_appends)
      as (enc & He & Hn). rewrite (Hn _ _ eq_refl) in He. eexists. split; [exact He|].
    split; [apply error_code_of_header|]. rewrite !len_app, !Hlen. done.
  - intros rsp. destruct (response_message (LegacyResult_Ok rsp) message_into_appends) as (enc & He & _).
    eexists. split; [exact He|]. apply error_code_of_header.
  - intros key Hkey. eexists. split; [reflexivity|]. cbn. rewrite len_app, Hlen, Hkey. done.
Qed.
End legacy_messages.

(** ** Concrete messages *)

Module SampleMsg.
#[local] Instance target : Target := arm64.

Definition boot_params : SetBootParamsRequest :=
  mk_SetBootParamsRequest 0x01010101 0x02020202 false VerifiedBootState_Unverified
    (u8_of <$> [1; 2; 3]) (u8_of <$> [5; 4; 3]).
Definition boot_params_data : bytes :=
  u8_of <$> [1; 1; 1; 1; 2; 2; 2; 2; 0; 0; 0; 0; 2; 0; 0; 0; 3; 0; 0; 0; 1; 2; 3; 3; 0; 0; 0; 5; 4; 3].

(** The bytes the unit test of the source expects. *)
Example boot_params_bytes :
  new_vec (serialize_into SetBootParamsRequest_inner boot_params) = Ok boot_params_data.
Proof. by vm_compute. Qed.
Example uds_certs_bytes :
  serialize_trusty_secure_rsp (TrustySecureRsp_GetUdsCerts (mk_GetUdsCertsResponse (u8_of <$> [1; 2; 3]))) =
  Ok (u8_of <$> [0x0b; 0; 0; 0; 0; 0; 0; 0; 3; 0; 0; 0; 1; 2; 3]).
Proof. by vm_compute. Qed.

Lemma legacy_request_roundtrip_witness :
  TrustyPerformOpReq_wf (TrustyReq_SetBootParams boot_params) ∧
  ∃ enc, TrustyPerformOpReq_body (TrustyReq_SetBootParams boot_params) [] = (Ok tt, enc) ∧
    deserialize_trusty_req
      (to_ne_bytes 4 (request_word (TrustyReq_SetBootParams boot_params) true) ++ enc) =
    Ok (TrustyReq_SetBootParams boot_params).
Proof.
  assert (TrustyPerformOpReq_wf (TrustyReq_SetBootParams boot_params)) as Hwf by decide_compute.
  split; [exact Hwf|]. exact (proj1 legacy_request_roundtrip _ true Hwf).
Defined.

Lemma legacy_response_code_witness :
  len (replicate 32 (u8_of 7)) = 32 ∧
  ∃ buf, serialize_trusty_secure_rsp
      (TrustySecureRsp_GetAuthTokenKey (mk_GetAuthTokenKeyResponse (replicate 32 (u8_of 7)))) = Ok buf ∧
    len buf = 36.
Proof.
  split; [reflexivity|]. apply (proj2 (proj2 (proj2 legacy_response_code))). reflexivity.
Defined.
End SampleMsg.
