(* ===== verification/KeyblobLegacy.v ===== *)
(** * Legacy key blobs ([common/src/keyblob/legacy.rs])

    The two binary formats of key blobs written by the C++ implementation: encrypted blobs
    and plaintext blobs with a MAC under a fixed key.  Serialization and parsing are
    inverse to each other, parsed blobs carry a derivation version exactly when their
    format is versioned, and a plaintext blob is accepted only with the MAC of its
    contents and hidden parameters.  The parsers of both formats panic on some inputs. *)

From S2P Require Import Prelude Wire TagLegacy CryptoTypes TagParams Crypto.

Definition KEY_BLOB_VERSION : u8 := u8_of 0.
(** [b"IntegrityAssuredBlob0\0"]. *)
Definition HMAC_KEY : bytes := bytes_of_string "IntegrityAssuredBlob0" ++ [u8_of 0].
Definition MAC_LEN : Z := 8.

Inductive AuthEncryptedBlobFormat : Set :=
| AesOcb
| AesGcmWithSwEnforced
| AesGcmWithSecureDeletion
| AesGcmWithSwEnforcedVersioned
| AesGcmWithSecureDeletionVersioned.
#[export] Instance AuthEncryptedBlobFormat_eq_dec : EqDecision AuthEncryptedBlobFormat.
Proof. solve_decision. Defined.

(** [format as u8]. *)
Definition format_byte (f : AuthEncryptedBlobFormat) : u8 :=
  u8_of match f with
        | AesOcb => 0
        | AesGcmWithSwEnforced => 1
        | AesGcmWithSecureDeletion => 2
        | AesGcmWithSwEnforcedVersioned => 3
        | AesGcmWithSecureDeletionVersioned => 4
        end.
Definition requires_secure_deletion (f : AuthEncryptedBlobFormat) : bool :=
  match f with AesGcmWithSecureDeletion | AesGcmWithSecureDeletionVersioned => true | _ => false end.
Definition is_versioned (f : AuthEncryptedBlobFormat) : bool :=
  match f with AesGcmWithSwEnforcedVersioned | AesGcmWithSecureDeletionVersioned => true | _ => false end.

Record LegacyEncryptedKeyBlob := mk_encrypted {
  ekb_format : AuthEncryptedBlobFormat;
  ekb_nonce : bytes;
  ekb_ciphertext : bytes;
  ekb_tag : bytes;
  ekb_kdf_version : option Z;
  ekb_addl_info : option Z;
  ekb_hw_enforced : list KeyParam;
  ekb_sw_enforced : list KeyParam;
  ekb_key_slot : option Z
}.

Record LegacyKeyBlob := mk_keyblob {
  kb_key_material : bytes;
  kb_hw_enforced : list KeyParam;
  kb_sw_enforced : list KeyParam
}.

Section blobs.
Context `{T : Target}.

(** A length as [u32], and the data. *)
Definition sized (b : bytes) : bytes := to_ne_bytes 4 (as_u32 (len b)) ++ b.

Definition LegacyEncryptedKeyBlob_serialize (b : LegacyEncryptedKeyBlob) : Result bytes :=
  hw_enforced_data ← serialize (ekb_hw_enforced b);
  sw_enforced_data ← serialize (ekb_sw_enforced b);
  version_data ←
    (if is_versioned (ekb_format b) then
       kdf_version ← ok_or (ekb_kdf_version b) (Hal InvalidKeyBlob);
       addl_info ← ok_or (ekb_addl_info b) (Hal InvalidKeyBlob);
       Ok (to_ne_bytes 4 kdf_version ++ to_ne_bytes 4 (as_u32 addl_info))
     else Ok []);
  Ok ([format_byte (ekb_format b)] ++ sized (ekb_nonce b) ++ sized (ekb_ciphertext b) ++ sized (ekb_tag b) ++
      version_data ++ hw_enforced_data ++ sw_enforced_data ++
      match ekb_key_slot b with Some slot => to_ne_bytes 4 slot | None => [] end).

Definition format_of_byte (x : u8) : Result AuthEncryptedBlobFormat :=
  if decide (x = format_byte AesOcb) then Ok AesOcb
  else if decide (x = format_byte AesGcmWithSwEnforced) then Ok AesGcmWithSwEnforced
  else if decide (x = format_byte AesGcmWithSecureDeletion) then Ok AesGcmWithSecureDeletion
  else if decide (x = format_byte AesGcmWithSwEnforcedVersioned) then Ok AesGcmWithSwEnforcedVersioned
  else if decide (x = format_byte AesGcmWithSecureDeletionVersioned) then
    Ok AesGcmWithSecureDeletionVersioned
  else km_err InvalidKeyBlob.

(** The remaining data is nothing or a slot. *)
Definition consume_key_slot : stM bytes Error (option Z) :=
  data ← get_st;
  match len data with
  | 0 => mret None
  | 4 => slot ← consume_u32; mret (Some slot)
  | _ => liftr (km_err InvalidKeyBlob)
  end.

(** The cursor [data] is the state; [deserialize_from] is the body of the function. *)
Definition deserialize_from : stM bytes Error LegacyEncryptedKeyBlob :=
  x ← consume_u8;
  format ← liftr (format_of_byte x);
  nonce ← consume_vec;
  ciphertext ← consume_vec;
  tag ← consume_vec;
  '(kdf_version, addl_info) ←
    (if is_versioned format then
       kdf_version ← consume_u32;
       addl_info ← consume_i32;
       mret (Some kdf_version, Some addl_info)
     else mret (None, None));
  hw_enforced ← deserialize;
  sw_enforced ← deserialize;
  key_slot ← consume_key_slot;
  mret (mk_encrypted format nonce ciphertext tag kdf_version addl_info hw_enforced sw_enforced key_slot).
Definition LegacyEncryptedKeyBlob_deserialize (data : bytes) : Result LegacyEncryptedKeyBlob :=
  (deserialize_from data).1.

Context `{H : Hmac} `{CTE : ConstTimeEq}.

Definition compute_hmac (data : bytes) (hidden : list KeyParam) : Result bytes :=
  hidden_data ← serialize hidden;
  op ← hmac_begin (Explicit HMAC_KEY) Digest_Sha256;
  op ← acc_update op data;
  op ← acc_update op hidden_data;
  tag ← acc_finish op;
  Ok (take (Z.to_nat MAC_LEN) tag).

Definition LegacyKeyBlob_serialize (b : LegacyKeyBlob) (hidden : list KeyParam) : Result bytes :=
  hw_enforced_data ← serialize (kb_hw_enforced b);
  sw_enforced_data ← serialize (kb_sw_enforced b);
  let result := [KEY_BLOB_VERSION] ++ sized (kb_key_material b) ++ hw_enforced_data ++ sw_enforced_data in
  mac ← compute_hmac result hidden;
  Ok (result ++ mac).

(** The fields, read from the start of the data; what is left must be the MAC. *)
Definition LegacyKeyBlob_fields : stM bytes Error LegacyKeyBlob :=
  version ← consume_u8;
  _ ← liftr (reject_if (bool_decide (version ≠ KEY_BLOB_VERSION)) (Hal InvalidKeyBlob));
  key_material ← consume_vec;
  hw_enforced ← deserialize;
  sw_enforced ← deserialize;
  data ← get_st;
  rest ← liftr (slice_from data MAC_LEN);
  _ ← liftr (reject_if (bool_decide (rest ≠ [])) (Hal InvalidKeyBlob));
  mret (mk_keyblob key_material hw_enforced sw_enforced).
Definition LegacyKeyBlob_deserialize (data : bytes) (hidden : list KeyParam) : Result LegacyKeyBlob :=
  _ ← reject_if (bool_decide (len data < MAC_LEN + 4 + 4 + 4)) (Hal InvalidKeyBlob);
  mac ← slice_from data (len data - MAC_LEN);
  body ← slice_to data (len data - MAC_LEN);
  computed_mac ← compute_hmac body hidden;
  _ ← reject_if (negb (ct_eq mac computed_mac)) (Hal InvalidKeyBlob);
  (LegacyKeyBlob_fields data).1.

(** A tag that is repeated makes the lookup fail, and is left out like an absent one. *)
Definition hidden (params : list KeyParam) (rots : list bytes) : Result (list KeyParam) :=
  let app_id := match get_opt_tag_value as_ApplicationId params with
                | Ok (Some v) => Ok [KP_ApplicationId v] | Panic => Panic | _ => Ok [] end in
  let app_data := match get_opt_tag_value as_ApplicationData params with
                  | Ok (Some v) => Ok [KP_ApplicationData v] | Panic => Panic | _ => Ok [] end in
  app_id ← app_id;
  app_data ← app_data;
  Ok (app_id ++ app_data ++ (KP_RootOfTrust <$> rots)).


(** ** Correctness *)

(** Parameter lists that can be written. *)
Definition params_ok (ps : list KeyParam) : Prop :=
  Forall kp_wf ps ∧ len (blobs ps) < 2 ^ 32 ∧ 12 * len ps < 2 ^ 32.

(** [c] reads [a] from [enc], whatever follows. *)
Definition parses {A} (c : stM bytes Error A) (a : A) (enc : bytes) : Prop :=
  ∀ rest, c (enc ++ rest) = (Ok a, rest).

Lemma parses_bind {A B} (c : stM bytes Error A) (k : A → stM bytes Error B) a b enc enc' :
  parses c a enc → parses (k a) b enc' → parses (c ≫= k) b (enc ++ enc').
Proof.
  intros Hc Hk rest. unfold mbind, stM_bind. rewrite <- app_assoc, Hc. apply Hk.
Qed.
Lemma parses_run {A B} (c : stM bytes Error A) (k : A → stM bytes Error B) a enc rest :
  parses c a enc → (c ≫= k) (enc ++ rest) = k a rest.
Proof. intros Hc. unfold mbind, stM_bind. by rewrite Hc. Qed.
Lemma parses_u8 x : parses consume_u8 x [x].
Proof. done. Qed.
Lemma parses_sized b : is_u32 (len b) → parses consume_vec b (sized b).
Proof. intros Hb rest. unfold sized. rewrite <- app_assoc. by apply consume_vec_app. Qed.
Lemma parses_u32 z : is_u32 z → parses consume_u32 z (to_ne_bytes 4 z).
Proof. intros Hz rest. by rewrite consume_u32_app, as_unsigned_id. Qed.
Lemma parses_i32 z : is_i32 z → parses consume_i32 z (to_ne_bytes 4 (as_u32 z)).
Proof. intros Hz rest. by apply consume_i32_app. Qed.
Lemma parses_params ps : params_ok ps → ∃ enc, serialize ps = Ok enc ∧ parses deserialize ps enc.
Proof. intros (? & ? & ?). by apply serialize_deserialize. Qed.
Lemma format_of_format_byte f : format_of_byte (format_byte f) = Ok f.
Proof. by destruct f. Qed.

(** The encrypted blobs the format can represent. *)
Record encrypted_ok (b : LegacyEncryptedKeyBlob) : Prop := {
  eok_nonce : is_u32 (len (ekb_nonce b));
  eok_ciphertext : is_u32 (len (ekb_ciphertext b));
  eok_tag : is_u32 (len (ekb_tag b));
  eok_versioned :
    if is_versioned (ekb_format b)
    then (∃ v, ekb_kdf_version b = Some v ∧ is_u32 v) ∧ (∃ i, ekb_addl_info b = Some i ∧ is_i32 i)
    else ekb_kdf_version b = None ∧ ekb_addl_info b = None;
  eok_hw : params_ok (ekb_hw_enforced b);
  eok_sw : params_ok (ekb_sw_enforced b);
  eok_slot : ∀ slot, ekb_key_slot b = Some slot → is_u32 slot
}.

Lemma consume_key_slot_all slot :
  (∀ s, slot = Some s → is_u32 s) →
  consume_key_slot match slot with Some s => to_ne_bytes 4 s | None => [] end = (Ok slot, []).
Proof.
  intros Hs. destruct slot as [s|]; [|done]. unfold consume_key_slot, mbind at 1, stM_bind at 1, get_st.
  assert (len (to_ne_bytes 4 s) = 4) as -> by (unfold len; by rewrite length_to_ne_bytes).
  rewrite <- (app_nil_r (to_ne_bytes 4 s)).
  rewrite (parses_run consume_u32 _ s) by (apply parses_u32; auto). done.
Qed.

(** An encrypted legacy blob whose lengths fit their fields, and which has derivation
    data exactly if its format is versioned, can be serialized, and parsing the result
    gives it back. *)
Theorem legacy_encrypted_blob_roundtrip b :
  encrypted_ok b →
  ∃ data, LegacyEncryptedKeyBlob_serialize b = Ok data ∧ LegacyEncryptedKeyBlob_deserialize data = Ok b.
Proof.
  intros [Hn Hc Ht Hv Hhw Hsw Hs]. unfold LegacyEncryptedKeyBlob_serialize.
  destruct (parses_params _ Hhw) as (hw & -> & Phw). destruct (parses_params _ Hsw) as (sw & -> & Psw).
  cbn [mbind res_bind].
  assert (∃ vd, (if is_versioned (ekb_format b) then
       kdf_version ← ok_or (ekb_kdf_version b) (Hal InvalidKeyBlob);
       addl_info ← ok_or (ekb_addl_info b) (Hal InvalidKeyBlob);
       Ok (to_ne_bytes 4 kdf_version ++ to_ne_bytes 4 (as_u32 addl_info))
     else Ok []) = Ok vd ∧
     parses (if is_versioned (ekb_format b) then
       kdf_version ← consume_u32; addl_info ← consume_i32; mret (Some kdf_version, Some addl_info)
     else mret (None, None)) (ekb_kdf_version b, ekb_addl_info b) vd) as (vd & -> & Pv).
  { destruct (is_versioned (ekb_format b)).
    - destruct Hv as [(v & -> & Hv) (i & -> & Hi)]. eexists. split; [reflexivity|].
      apply (parses_bind _ _ v); [by apply parses_u32|]. rewrite <- (app_nil_r (to_ne_bytes 4 (as_u32 i))).
      apply (parses_bind _ _ i); [by apply parses_i32|]. by intros rest.
    - destruct Hv as [-> ->]. by exists []. }
  eexists. split; [reflexivity|].
  unfold LegacyEncryptedKeyBlob_deserialize, deserialize_from.
  rewrite (parses_run consume_u8 _ _ _ _ (parses_u8 _)).
  unfold mbind at 1, stM_bind at 1, liftr at 1. rewrite format_of_format_byte. cbn beta iota.
  rewrite (parses_run consume_vec _ _ _ _ (parses_sized _ Hn)).
  rewrite (parses_run consume_vec _ _ _ _ (parses_sized _ Hc)).
  rewrite (parses_run consume_vec _ _ _ _ (parses_sized _ Ht)).
  rewrite (parses_run _ _ _ _ _ Pv).
  rewrite (parses_run deserialize _ _ _ _ Phw), (parses_run deserialize _ _ _ _ Psw).
  unfold mbind at 1, stM_bind at 1. rewrite consume_key_slot_all by apply Hs.
  by destruct b.
Qed.

(** Parsing sets the derivation version and the additional information exactly when the
    format is versioned, as the comment on the struct demands. *)
Theorem legacy_encrypted_blob_versioned data b :
  LegacyEncryptedKeyBlob_deserialize data = Ok b →
  (is_versioned (ekb_format b) = true ↔ is_Some (ekb_kdf_version b)) ∧
  (is_versioned (ekb_format b) = true ↔ is_Some (ekb_addl_info b)).
Proof.
  unfold LegacyEncryptedKeyBlob_deserialize. destruct (deserialize_from data) as [r s] eqn:Hd.
  cbn. intros ->. unfold deserialize_from in Hd.
  repeat (st_step; cbn beta iota in * ).
  match goal with H : (if is_versioned ?f then _ else _) _ = (Ok ?p, _) |- _ =>
    destruct p as [v i]; destruct (is_versioned f) eqn:Hf; st_inv end; subst; cbn; rewrite Hf;
    split; split; intros Hx; solve [done | by eexists | by destruct Hx].
Qed.

(** ** Plaintext blobs *)

(** The HMAC implementation computes the function [h] of everything absorbed, however it is
    cut into pieces, with 32-byte results. *)
Class HmacChunks (h : bytes → bytes → bytes) : Prop := {
  hmac_chunks key chunks :
    (op ← hmac_begin (Explicit key) Digest_Sha256; op ← update_chunks op chunks; acc_finish op) =
    Ok (h key (concat chunks));
  length_hmac_chunks key data : length (h key data) = 32%nat
}.

Context `{HC : HmacChunks h} `{CTL : !ConstTimeEqLaws}.

(** The MAC that authenticates a body with its hidden parameters. *)
Definition blob_mac (body hidden_data : bytes) : bytes :=
  take (Z.to_nat MAC_LEN) (h HMAC_KEY (body ++ hidden_data)).

Lemma len_blob_mac body hd : len (blob_mac body hd) = MAC_LEN.
Proof. unfold blob_mac, len. rewrite length_take, length_hmac_chunks. done. Qed.

Lemma compute_hmac_ok body hidden hd :
  serialize hidden = Ok hd → compute_hmac body hidden = Ok (blob_mac body hd).
Proof.
  intros Hs. unfold compute_hmac. rewrite Hs. cbn [mbind res_bind].
  pose proof (hmac_chunks HMAC_KEY [body; hd]) as Hh. cbn [update_chunks concat] in Hh.
  destruct (hmac_begin (Explicit HMAC_KEY) Digest_Sha256) as [op| |]; cbn in *; [|done|done].
  destruct (acc_update op body) as [op1| |]; cbn in *; [|done|done].
  destruct (acc_update op1 hd) as [op2| |]; cbn in *; [|done|done].
  rewrite app_nil_r in Hh. by rewrite Hh.
Qed.

Lemma len_to_ne_bytes n z : len (to_ne_bytes n z) = Z.of_nat n.
Proof. unfold len. by rewrite length_to_ne_bytes. Qed.

Lemma serialize_min_len ps data : params_ok ps → serialize ps = Ok data → 12 ≤ len data.
Proof.
  intros (Hwf & Hb & Hn) Hs. pose proof (len_nonneg (blobs ps)).
  destruct (serialize_layout ps) as (enc & Hs' & _); [done|range_lia|done|].
  rewrite Hs in Hs'. injection Hs' as ->. rewrite !len_app, !len_to_ne_bytes. pose proof (len_nonneg enc). lia.
Qed.

(** Splitting off the MAC. *)
Lemma deserialize_mac body mac hidden hd :
  len mac = MAC_LEN → 12 ≤ len body → serialize hidden = Ok hd →
  LegacyKeyBlob_deserialize (body ++ mac) hidden =
  if ct_eq mac (blob_mac body hd) then (LegacyKeyBlob_fields (body ++ mac)).1 else km_err InvalidKeyBlob.
Proof.
  intros Hm Hb Hs. unfold LegacyKeyBlob_deserialize, MAC_LEN in *.
  rewrite bool_decide_eq_false_2 by (rewrite len_app; lia). cbn [mbind res_bind reject_if].
  replace (len (body ++ mac) - 8) with (len body) by (rewrite len_app; lia).
  rewrite slice_from_app, slice_to_app. cbn [mbind res_bind].
  rewrite (compute_hmac_ok _ _ _ Hs). cbn [mbind res_bind]. by destruct (ct_eq _ _).
Qed.

(** A plaintext legacy blob can be serialized with any representable hidden parameters,
    and parsing the result with the same hidden parameters gives it back. *)
Theorem legacy_keyblob_roundtrip b hidden :
  is_u32 (len (kb_key_material b)) → params_ok (kb_hw_enforced b) → params_ok (kb_sw_enforced b) →
  params_ok hidden →
  ∃ data, LegacyKeyBlob_serialize b hidden = Ok data ∧ LegacyKeyBlob_deserialize data hidden = Ok b.
Proof.
  intros Hk Hhw Hsw Hh. unfold LegacyKeyBlob_serialize.
  destruct (parses_params _ Hhw) as (hw & Ehw & Phw). destruct (parses_params _ Hsw) as (sw & Esw & Psw).
  destruct (parses_params _ Hh) as (hd & Ehd & _).
  rewrite Ehw, Esw. cbn [mbind res_bind]. rewrite (compute_hmac_ok _ _ _ Ehd). cbn [mbind res_bind].
  eexists. split; [reflexivity|].
  rewrite (deserialize_mac _ _ _ hd) by (first [apply len_blob_mac | done |
    pose proof (serialize_min_len _ _ Hhw Ehw); rewrite !len_app;
    pose proof (len_nonneg sw); pose proof (len_nonneg (sized (kb_key_material b)));
    pose proof (len_nonneg [KEY_BLOB_VERSION]); lia]).
  rewrite (proj2 (ct_eq_true _ _) eq_refl).
  set (mac := blob_mac _ _). assert (len mac = MAC_LEN) as Hmac by apply len_blob_mac.
  rewrite <- !app_assoc. unfold LegacyKeyBlob_fields.
  rewrite (parses_run consume_u8 _ _ _ _ (parses_u8 _)). unfold mbind at 1, stM_bind at 1, liftr at 1.
  rewrite (parses_run consume_vec _ _ _ _ (parses_sized _ Hk)).
  rewrite (parses_run deserialize _ _ _ _ Phw), (parses_run deserialize _ _ _ _ Psw).
  unfold mbind, stM_bind, get_st, liftr.
  pose proof (slice_from_app (E:=Error) mac []) as Hr. rewrite app_nil_r, Hmac in Hr. rewrite Hr.
  by destruct b.
Qed.

(** C39: A plaintext legacy blob is accepted only if its last eight bytes are the truncated
    HMAC, under the fixed key, of all that precedes them and the serialized hidden
    parameters, and its fields end exactly where the MAC begins. *)
Theorem legacy_keyblob_authentic data hidden hd b :
  serialize hidden = Ok hd → LegacyKeyBlob_deserialize data hidden = Ok b →
  ∃ body, data = body ++ blob_mac body hd ∧ ∃ rest, LegacyKeyBlob_fields data = (Ok b, rest) ∧ len rest = MAC_LEN.
Proof.
  intros Hs Hd.
  assert (MAC_LEN + 12 ≤ len data) as Hlen.
  { unfold LegacyKeyBlob_deserialize in Hd. case_bool_decide; [done|]. unfold MAC_LEN in *. lia. }
  unfold MAC_LEN in *. set (n := Z.to_nat (len data - 8)).
  rewrite <- (take_drop n data), (deserialize_mac (take n data) (drop n data) hidden hd) in Hd by
    (done || unfold MAC_LEN, n, len in *; rewrite ?length_take, ?length_drop; lia).
  destruct (ct_eq (drop n data) _) eqn:Hct; [|done]. apply ct_eq_true in Hct.
  exists (take n data). rewrite <- Hct, take_drop in *. split; [done|].
  destruct (LegacyKeyBlob_fields data) as [r rest] eqn:Hf. cbn in Hd. subst r. exists rest.
  split; [done|]. unfold LegacyKeyBlob_fields in Hf. st_inv.
  repeat match goal with H : _ = Ok _ |- _ => apply slice_from_Ok in H as [? ->] || apply reject_if_Ok in H end.
  match goal with H : bool_decide (drop _ ?l ≠ []) = false |- _ =>
    apply bool_decide_eq_false in H; apply dec_stable in H; apply drop_nil_inv in H end.
  unfold len, MAC_LEN in *. lia.
Qed.

(** The MAC key is a constant, so anybody can make a blob that passes the check; for every
    choice of hidden parameters there is such a blob on which parsing panics (it announces
    more byte-string data than there is). *)
Theorem legacy_keyblob_forged_panics hidden :
  params_ok hidden → ∃ data, LegacyKeyBlob_deserialize data hidden = Panic.
Proof.
  intros Hh. destruct (parses_params _ Hh) as (hd & Ehd & _).
  set (body := [KEY_BLOB_VERSION] ++ sized [] ++ to_ne_bytes 4 (2 ^ 32 - 1) ++ to_ne_bytes 4 0).
  exists (body ++ blob_mac body hd).
  assert (len body = 13) as Hb.
  { unfold body, sized, len. rewrite !length_app, !length_to_ne_bytes. done. }
  rewrite (deserialize_mac _ _ _ hd) by (first [apply len_blob_mac | done | lia]).
  rewrite (proj2 (ct_eq_true _ _) eq_refl). pose proof (len_blob_mac body hd) as Hm.
  set (mac := blob_mac _ _) in *. unfold body. rewrite <- !app_assoc. unfold LegacyKeyBlob_fields.
  rewrite (parses_run consume_u8 _ _ _ _ (parses_u8 _)). unfold mbind at 1, stM_bind at 1, liftr at 1.
  assert (is_u32 (len (A:=u8) [])) as Hnil by (unfold len; cbn; range_lia).
  rewrite (parses_run consume_vec _ [] _ _ (parses_sized [] Hnil)).
  assert (∀ rest, len rest < 2 ^ 32 - 1 → ∃ s, deserialize (to_ne_bytes 4 (2 ^ 32 - 1) ++ rest) = (Panic, s)) as Hp.
  { intros rest Hr. unfold deserialize.
    assert (is_u32 (2 ^ 32 - 1)) as Hmax by range_lia.
    rewrite (parses_run consume_u32 _ _ _ _ (parses_u32 _ Hmax)).
    unfold mbind at 1, stM_bind at 1, get_st at 1. unfold mbind at 1, stM_bind at 1, liftr at 1.
    unfold slice_to at 1. rewrite decide_False by lia. by eexists. }
  destruct (Hp (to_ne_bytes 4 0 ++ mac)) as [s Hs].
  { rewrite len_app, len_to_ne_bytes. unfold MAC_LEN in Hm. lia. }
  unfold mbind at 1, stM_bind at 1. by rewrite Hs.
Qed.

(** An application ID that is given twice is not part of the hidden parameters at all. *)
Lemma legacy_hidden_repeated a b rots :
  hidden [KP_ApplicationId a; KP_ApplicationId b] rots = hidden [] rots.
Proof. done. Qed.
End blobs.

(** ** Concrete blobs *)

Module SampleLegacyBlob.
#[local] Instance target : Target := arm64.
#[local] Instance acc : AccumulatingOperation := {|
  acc_op := bytes;
  acc_max_input_size := λ _, None;
  acc_update := λ op data, Ok (op ++ data);
  acc_finish := λ op, Ok (take 32 (reverse op ++ replicate 32 (u8_of 0)))
|}.
#[local] Instance hmac : Hmac := {| hmac_begin := λ _ _, Ok [] |}.
#[local] Instance cte : ConstTimeEq := {| ct_eq := λ a b, bool_decide (a = b) |}.
#[local] Instance cte_laws : ConstTimeEqLaws.
Proof. split. intros a b. apply bool_decide_eq_true. Qed.

Definition h (key data : bytes) : bytes := take 32 (reverse data ++ replicate 32 (u8_of 0)).
Lemma update_chunks_concat (op : bytes) chunks : update_chunks op chunks = Ok (op ++ concat chunks).
Proof.
  revert op. induction chunks as [|c l IH]; intros op; cbn.
  - by rewrite app_nil_r.
  - rewrite IH. by rewrite app_assoc.
Qed.
#[local] Instance hmac_h : HmacChunks h.
Proof.
  split.
  - intros key chunks. cbn. by rewrite update_chunks_concat.
  - intros key data. unfold h. rewrite length_take, length_app, length_replicate. lia.
Qed.

Definition params : list KeyParam := [KP_Purpose KeyPurpose_Sign; KP_KeySize 256; KP_NoAuthRequired].
Definition sample_hidden : list KeyParam := [KP_ApplicationId (bytes_of_string "app"); KP_RootOfTrust (bytes_of_string "rot")].
Lemma params_sample : params_ok params.
Proof. split_and!; [repeat constructor; cbn; done|vm_compute; reflexivity..]. Defined.
Lemma hidden_sample : params_ok sample_hidden.
Proof. split_and!; [repeat constructor; cbn; done|vm_compute; reflexivity..]. Defined.

Definition encrypted : LegacyEncryptedKeyBlob :=
  mk_encrypted AesGcmWithSecureDeletionVersioned (replicate 12 (u8_of 1)) (bytes_of_string "secret")
    (replicate 16 (u8_of 2)) (Some 1) (Some (-3)) params [] (Some 7).
Lemma encrypted_sample : encrypted_ok encrypted.
Proof.
  split; cbn [ekb_nonce ekb_ciphertext ekb_tag ekb_hw_enforced ekb_sw_enforced encrypted]; try decide_compute.
  - cbn. split; eexists; (split; [reflexivity|]); range_lia.
  - apply params_sample.
  - split_and!; [constructor|by vm_compute..].
  - intros slot [= <-]. range_lia.
Defined.
Lemma legacy_encrypted_blob_roundtrip_witness :
  encrypted_ok encrypted ∧
  ∃ data, LegacyEncryptedKeyBlob_serialize encrypted = Ok data ∧
    LegacyEncryptedKeyBlob_deserialize data = Ok encrypted.
Proof. split; [apply encrypted_sample|]. apply legacy_encrypted_blob_roundtrip, encrypted_sample. Defined.

Definition encrypted_data : bytes :=
  match LegacyEncryptedKeyBlob_serialize encrypted with Ok d => d | _ => [] end.
Lemma legacy_encrypted_blob_versioned_witness :
  LegacyEncryptedKeyBlob_deserialize encrypted_data = Ok encrypted ∧
  (is_versioned (ekb_format encrypted) = true ↔ is_Some (ekb_kdf_version encrypted)) ∧
  (is_versioned (ekb_format encrypted) = true ↔ is_Some (ekb_addl_info encrypted)).
Proof.
  assert (LegacyEncryptedKeyBlob_deserialize encrypted_data = Ok encrypted) as Hd by (vm_compute; reflexivity).
  split; [exact Hd|]. exact (legacy_encrypted_blob_versioned _ _ Hd).
Defined.

Definition plain : LegacyKeyBlob := mk_keyblob (bytes_of_string "key material") params params.
Lemma legacy_keyblob_roundtrip_witness :
  is_u32 (len (kb_key_material plain)) ∧ params_ok params ∧ params_ok sample_hidden ∧
  ∃ data, LegacyKeyBlob_serialize plain sample_hidden = Ok data ∧
    LegacyKeyBlob_deserialize data sample_hidden = Ok plain.
Proof.
  assert (is_u32 (len (kb_key_material plain))) as Hk by decide_compute.
  split_and!; [exact Hk|apply params_sample|apply hidden_sample|].
  apply (legacy_keyblob_roundtrip (h:=h) plain sample_hidden Hk params_sample params_sample hidden_sample).
Defined.

Definition plain_data : bytes :=
  match LegacyKeyBlob_serialize plain sample_hidden with Ok d => d | _ => [] end.
Definition hidden_data : bytes := match serialize sample_hidden with Ok d => d | _ => [] end.
Lemma legacy_keyblob_authentic_witness :
  serialize sample_hidden = Ok hidden_data ∧ LegacyKeyBlob_deserialize plain_data sample_hidden = Ok plain ∧
  ∃ body, plain_data = body ++ blob_mac (h:=h) body hidden_data ∧
    ∃ rest, LegacyKeyBlob_fields plain_data = (Ok plain, rest) ∧ len rest = MAC_LEN.
Proof.
  assert (serialize sample_hidden = Ok hidden_data) as Hs by (vm_compute; reflexivity).
  assert (LegacyKeyBlob_deserialize plain_data sample_hidden = Ok plain) as Hd by (vm_compute; reflexivity).
  split_and!; [exact Hs|exact Hd|]. exact (legacy_keyblob_authentic _ _ _ _ Hs Hd).
Defined.

Lemma legacy_keyblob_forged_panics_witness :
  params_ok sample_hidden ∧ ∃ data, LegacyKeyBlob_deserialize data sample_hidden = Panic.
Proof.
  split; [apply hidden_sample|]. exact (legacy_keyblob_forged_panics (h:=h) _ hidden_sample).
Defined.
End SampleLegacyBlob.
