(* ===== verification/EcKeys.v ===== *)
(** * Public keys, key import and signatures ([common/src/crypto/ec.rs], [crypto/rsa.rs])

    The public key information of asymmetric keys, the import of elliptic-curve keys in
    PKCS#8, SEC1 and raw form, and the conversion of ECDSA signatures between DER and
    COSE.  Imported keys carry the curve they were announced with, signatures survive the
    conversion in both directions, and the behaviour on integers that are too long is
    characterized: some panic, and some overwrite the other half of the signature. *)

From S2P Require Import Prelude Wire CryptoTypes.

(** ** Object identifiers *)

Abbreviation Oid := string.
Definition X509_NIST_OID : Oid := "1.2.840.10045.2.1".
Definition X509_ED25519_OID : Oid := "1.3.101.112".
Definition X509_X25519_OID : Oid := "1.3.101.110".
Definition ECDSA_SHA256_SIGNATURE_OID : Oid := "1.2.840.10045.4.3.2".
Definition ALGO_PARAM_P224_OID : Oid := "1.3.132.0.33".
Definition ALGO_PARAM_P256_OID : Oid := "1.2.840.10045.3.1.7".
Definition ALGO_PARAM_P384_OID : Oid := "1.3.132.0.34".
Definition ALGO_PARAM_P521_OID : Oid := "1.3.132.0.35".
Definition RSA_X509_OID : Oid := "1.2.840.113549.1.1.1".
Definition SHA256_PKCS1_SIGNATURE_OID : Oid := "1.2.840.113549.1.1.11".
Definition SEC1_UNCOMPRESSED_PREFIX : u8 := u8_of 0x04.
Definition CURVE25519_PRIV_KEY_LEN : Z := 32.

Definition curve_to_signing_oid (curve : EcCurve) : Oid :=
  match curve with
  | EcCurve_P224 | EcCurve_P256 | EcCurve_P384 | EcCurve_P521 => ECDSA_SHA256_SIGNATURE_OID
  | EcCurve_Curve25519 => X509_ED25519_OID
  end.

(** The curve and the type of curve of a key. *)
Definition EcKey_curve_type (k : EcKey) : CurveType :=
  match k with
  | EcKey_P224 _ | EcKey_P256 _ | EcKey_P384 _ | EcKey_P521 _ => CurveType_Nist
  | EcKey_Ed25519 _ => CurveType_EdDsa
  | EcKey_X25519 _ => CurveType_Xdh
  end.
Definition EcKey_curve (k : EcKey) : EcCurve :=
  match k with
  | EcKey_P224 _ => EcCurve_P224
  | EcKey_P256 _ => EcCurve_P256
  | EcKey_P384 _ => EcCurve_P384
  | EcKey_P521 _ => EcCurve_P521
  | EcKey_Ed25519 _ | EcKey_X25519 _ => EcCurve_Curve25519
  end.

(** ** Subject public key information *)

Inductive AlgorithmParameters : Set := Params_Oid (oid : Oid) | Params_Null.
Record SubjectPublicKeyInfo := mk_spki {
  spki_oid : Oid;
  spki_parameters : option AlgorithmParameters;
  spki_key : bytes
}.

(** The public halves of keys, computed by the crypto traits, and the constructor of bit
    strings of the [der] crate, which bounds their length. *)
Class PublicKeys := {
  ec_subject_public_key : OpaqueOr EcKey → Result bytes;
  rsa_subject_public_key : OpaqueOr bytes → Result bytes;
  bit_string_from_bytes : bytes → option bytes
}.

Section spki.
Context `{PK : PublicKeys}.

Definition ec_subject_public_key_info (key : OpaqueOr EcKey) (curve : EcCurve) (curve_type : CurveType)
    : Result SubjectPublicKeyInfo :=
  buf ← ec_subject_public_key key;
  '(oid, parameters) ←
    match curve_type with
    | CurveType_Nist =>
      nist_curve ← NistCurve_try_from curve;
      let params_oid := match nist_curve with
                        | Nist_P224 => ALGO_PARAM_P224_OID
                        | Nist_P256 => ALGO_PARAM_P256_OID
                        | Nist_P384 => ALGO_PARAM_P384_OID
                        | Nist_P521 => ALGO_PARAM_P521_OID
                        end in
      Ok (X509_NIST_OID, Some (Params_Oid params_oid))
    | CurveType_EdDsa => Ok (X509_ED25519_OID, None)
    | CurveType_Xdh => Ok (X509_X25519_OID, None)
    end;
  match bit_string_from_bytes buf with
  | Some key => Ok (mk_spki oid parameters key)
  | None => Panic
  end.
Definition rsa_subject_public_key_info (key : OpaqueOr bytes) : Result SubjectPublicKeyInfo :=
  pub_key ← rsa_subject_public_key key;
  key ← ok_or (bit_string_from_bytes pub_key) (Hal UnknownError);
  Ok (mk_spki RSA_X509_OID (Some Params_Null) key).
Definition subject_public_key_info (k : KeyMaterial) : Result (option SubjectPublicKeyInfo) :=
  match k with
  | KM_Rsa key => i ← rsa_subject_public_key_info key; Ok (Some i)
  | KM_Ec curve curve_type key => i ← ec_subject_public_key_info key curve curve_type; Ok (Some i)
  | _ => Ok None
  end.
End spki.

(** The coordinates of an uncompressed point. *)
Definition coordinates_from_pub_key (pub_key : bytes) (curve : NistCurve) : Result (bytes * bytes) :=
  let coord_len := NistCurve_coord_len curve in
  _ ← reject_if (bool_decide (len pub_key ≠ 1 + 2 * coord_len)) (Hal UnsupportedKeySize);
  match pub_key with
  | [] => Panic
  | b :: _ =>
    _ ← reject_if (bool_decide (b ≠ SEC1_UNCOMPRESSED_PREFIX)) (Hal UnsupportedKeySize);
    x ← slice_range pub_key 1 (1 + coord_len);
    y ← slice_from pub_key (1 + coord_len);
    Ok (x, y)
  end.

(** ** Import *)

(** The parsers of the [pkcs8] and [sec1] crates. *)
Class Pkcs8 := {
  any : Type;
  any_from_oid : Oid → any;
  any_decode_as_oid : any → option Oid;
  pkcs8_parse : bytes → option (Oid * option any * bytes);
  (* the parameters of an [ECPrivateKey], and the named curve in them *)
  sec1_parse : bytes → Result (option (option Oid))
}.

Section import.
Context `{P : Pkcs8}.

Record PrivateKeyInfo := mk_private_key_info {
  pki_oid : Oid;
  pki_parameters : option any;
  pki_private_key : bytes
}.

Definition import_raw_ed25519_key (data : bytes) : Result KeyMaterial :=
  if decide (len data = CURVE25519_PRIV_KEY_LEN)
  then Ok (KM_Ec EcCurve_Curve25519 CurveType_EdDsa (Explicit (EcKey_Ed25519 data)))
  else km_err InvalidInputLength.
Definition import_raw_x25519_key (data : bytes) : Result KeyMaterial :=
  if decide (len data = CURVE25519_PRIV_KEY_LEN)
  then Ok (KM_Ec EcCurve_Curve25519 CurveType_Xdh (Explicit (EcKey_X25519 data)))
  else km_err InvalidInputLength.

(** A 32-byte key in an OCTET STRING, after its two-byte prefix. *)
Definition curve_private_key (private_key : bytes) : Result bytes :=
  match private_key with
  | b0 :: b1 :: raw =>
    if decide (len private_key = 2 + CURVE25519_PRIV_KEY_LEN ∧ u8_val b0 = 0x04 ∧ u8_val b1 = 0x20)
    then Ok raw else km_err InvalidArgument
  | _ => km_err InvalidArgument
  end.

Definition import_pkcs8_key_impl (key_info : PrivateKeyInfo) : Result KeyMaterial :=
  let algo_params := pki_parameters key_info in
  if decide (pki_oid key_info = X509_NIST_OID) then
    algo_params ← ok_or algo_params (Hal InvalidArgument);
    curve_oid ← ok_or (any_decode_as_oid algo_params) (Hal InvalidArgument);
    let k := pki_private_key key_info in
    '(curve, key) ←
      (if decide (curve_oid = ALGO_PARAM_P224_OID) then Ok (EcCurve_P224, EcKey_P224 k)
       else if decide (curve_oid = ALGO_PARAM_P256_OID) then Ok (EcCurve_P256, EcKey_P256 k)
       else if decide (curve_oid = ALGO_PARAM_P384_OID) then Ok (EcCurve_P384, EcKey_P384 k)
       else if decide (curve_oid = ALGO_PARAM_P521_OID) then Ok (EcCurve_P521, EcKey_P521 k)
       else km_err ImportParameterMismatch);
    Ok (KM_Ec curve CurveType_Nist (Explicit key))
  else if decide (pki_oid key_info = X509_ED25519_OID) then
    match algo_params with
    | Some _ => km_err InvalidArgument
    | None => raw ← curve_private_key (pki_private_key key_info); import_raw_ed25519_key raw
    end
  else if decide (pki_oid key_info = X509_X25519_OID) then
    match algo_params with
    | Some _ => km_err InvalidArgument
    | None => raw ← curve_private_key (pki_private_key key_info); import_raw_x25519_key raw
    end
  else km_err InvalidArgument.

Definition import_pkcs8_key (data : bytes) : Result KeyMaterial :=
  '(oid, params, key) ← ok_or (pkcs8_parse data) (Hal InvalidArgument);
  import_pkcs8_key_impl (mk_private_key_info oid params key).

Definition import_sec1_private_key (data : bytes) : Result KeyMaterial :=
  ec_key_parameters ← sec1_parse data;
  ec_parameters ← ok_or ec_key_parameters (Hal InvalidArgument);
  parameters_oid ← ok_or ec_parameters (Hal InvalidArgument);
  import_pkcs8_key_impl (mk_private_key_info X509_NIST_OID (Some (any_from_oid parameters_oid)) data).

(** Elliptic-curve key material whose labels say what the key is. *)
Definition ec_labelled (m : KeyMaterial) : Prop :=
  ∃ k, m = KM_Ec (EcKey_curve k) (EcKey_curve_type k) (Explicit k) ∧
    match k with EcKey_Ed25519 b | EcKey_X25519 b => len b = CURVE25519_PRIV_KEY_LEN | _ => True end.

Lemma import_raw_labelled data m :
  import_raw_ed25519_key data = Ok m ∨ import_raw_x25519_key data = Ok m → ec_labelled m.
Proof.
  unfold import_raw_ed25519_key, import_raw_x25519_key. intros [H|H]; case_decide; try done;
    injection H as <-; [by exists (EcKey_Ed25519 data)|by exists (EcKey_X25519 data)].
Qed.
Lemma import_pkcs8_impl_labelled i m : import_pkcs8_key_impl i = Ok m → ec_labelled m.
Proof.
  unfold import_pkcs8_key_impl. intros H. case_decide.
  - res_inv. destruct x1 as [c k].
    repeat case_decide; try done; simplify_eq;
      [by exists (EcKey_P224 (pki_private_key i))|by exists (EcKey_P256 (pki_private_key i))
      |by exists (EcKey_P384 (pki_private_key i))|by exists (EcKey_P521 (pki_private_key i))].
  - repeat case_decide; try done; destruct (pki_parameters i); try done; res_inv;
      eapply import_raw_labelled; eauto.
Qed.

(** Whatever the format, an imported elliptic-curve key is labelled with the curve and the
    type of the key it contains, and a Curve25519 key has exactly 32 bytes. *)
Theorem ec_import_labelled data m :
  import_pkcs8_key data = Ok m ∨ import_sec1_private_key data = Ok m ∨
  import_raw_ed25519_key data = Ok m ∨ import_raw_x25519_key data = Ok m →
  ec_labelled m.
Proof.
  intros [H|[H|H]]; [..|by eapply import_raw_labelled].
  - unfold import_pkcs8_key in H. res_inv. destruct x as [[oid params] key].
    by eapply import_pkcs8_impl_labelled.
  - unfold import_sec1_private_key in H. res_inv. by eapply import_pkcs8_impl_labelled.
Qed.
End import.

(** ** Signatures *)

(** [NistSignature] with its derived DER encoding, and [UintRef] of the [der] crate, which
    drops leading zeros. *)
Class NistSignatures := {
  uint_new : bytes → option bytes;
  nist_sig_from_der : bytes → option (bytes * bytes);
  nist_sig_to_der : bytes * bytes → option bytes
}.
Class NistSignaturesLaws `{NistSignatures} : Prop := {
  uint_new_strips b u : uint_new b = Some u →
    ∃ k, b = replicate k (u8_of 0) ++ u;
  nist_sig_roundtrip r s b : nist_sig_to_der (r, s) = Some b → nist_sig_from_der b = Some (r, s);
  nist_sig_parsed b r s : nist_sig_from_der b = Some (r, s) →
    nist_sig_to_der (r, s) = Some b ∧ (r ≠ [] ∧ uint_new r = Some r) ∧ (s ≠ [] ∧ uint_new s = Some s);
  uint_new_padded k u : u ≠ [] ∧ uint_new u = Some u → uint_new (replicate k (u8_of 0) ++ u) = Some u
}.

Section signatures.
Context `{T : Target} `{NS : NistSignatures}.

(** [sig[off..off + data.len()].copy_from_slice(data)]. *)
Definition copy_into (sig : bytes) (off : Z) (data : bytes) : Result bytes :=
  end_ ← ovf_unsigned 64 (off + len data);
  if decide (0 ≤ off ≤ end_ ∧ end_ ≤ len sig) then Ok (overwrite sig off data) else Panic.

Definition to_cose_signature (curve : EcCurve) (sig : bytes) : Result bytes :=
  match curve with
  | EcCurve_Curve25519 => Ok sig
  | _ =>
    '(r, s) ← ok_or (nist_sig_from_der sig) (Hal EncodingError);
    nist_curve ← NistCurve_try_from curve;
    let l := NistCurve_coord_len nist_curve in
    let sig := replicate (Z.to_nat (2 * l)) (u8_of 0) in
    r_offset ← ovf_unsigned 64 (l - len r);
    s_offset ← ovf_unsigned 64 (l + l - len s);
    sig ← copy_into sig r_offset r;
    copy_into sig s_offset s
  end.

Definition from_cose_signature (curve : EcCurve) (sig : bytes) : Result bytes :=
  match curve with
  | EcCurve_Curve25519 => Ok sig
  | _ =>
    nist_curve ← NistCurve_try_from curve;
    let l := NistCurve_coord_len nist_curve in
    _ ← reject_if (bool_decide (len sig ≠ 2 * l)) (Hal EncodingError);
    r ← slice_to sig l;
    r ← ok_or (uint_new r) (Hal EncodingError);
    s ← slice_from sig l;
    s ← ok_or (uint_new s) (Hal EncodingError);
    ok_or (nist_sig_to_der (r, s)) (Hal EncodingError)
  end.

(** ** Correctness *)

(** [b] with zeros in front, [n] bytes long. *)
Definition pad_to (n : Z) (b : bytes) : bytes := replicate (Z.to_nat (n - len b)) (u8_of 0) ++ b.

Lemma len_replicate {A} n (x : A) : len (replicate n x) = Z.of_nat n.
Proof. unfold len. by rewrite length_replicate. Qed.
Lemma len_pad_to n b : len b ≤ n → len (pad_to n b) = n.
Proof. intros H. unfold pad_to. rewrite len_app, len_replicate. pose proof (len_nonneg b). lia. Qed.

Lemma copy_into_ok (l1 l2 l3 data : bytes) :
  len data = len l2 → len (l1 ++ l2 ++ l3) < 2 ^ 64 →
  copy_into (l1 ++ l2 ++ l3) (len l1) data = Ok (l1 ++ data ++ l3).
Proof.
  intros Hl Hmax. unfold copy_into. rewrite !len_app in Hmax.
  pose proof (len_nonneg l1). pose proof (len_nonneg l2). pose proof (len_nonneg l3).
  rewrite ovf_unsigned_ok by range_lia. cbn. rewrite decide_True by (rewrite !len_app; lia).
  f_equal. apply overwrite_app. unfold len in *. lia.
Qed.

Lemma coord_len_range c : 28 ≤ NistCurve_coord_len c ≤ 66.
Proof. destruct c; cbn; lia. Qed.

(** The conversion on a NIST curve, and its first step: the first integer goes to the end of
    the first half. *)
Lemma to_cose_nist c sig r s :
  nist_sig_from_der sig = Some (r, s) →
  to_cose_signature (EcCurve_of_nist c) sig =
  r_offset ← ovf_unsigned 64 (NistCurve_coord_len c - len r);
  s_offset ← ovf_unsigned 64 (NistCurve_coord_len c + NistCurve_coord_len c - len s);
  sig ← copy_into (replicate (Z.to_nat (2 * NistCurve_coord_len c)) (u8_of 0)) r_offset r;
  copy_into sig s_offset s.
Proof. intros Hp. unfold to_cose_signature. rewrite Hp. by destruct c. Qed.
Lemma ovf_unsigned_wraps z :
  ~ (0 ≤ z < 2 ^ 64) →
  ovf_unsigned 64 z = if overflow_checks then Panic else Ok (E:=Error) (as_unsigned 64 z).
Proof. intros H. unfold ovf_unsigned. by rewrite decide_False. Qed.
Lemma zeros_split (a b : Z) :
  0 ≤ a → 0 ≤ b →
  replicate (Z.to_nat (a + b)) (u8_of 0) = replicate (Z.to_nat a) (u8_of 0) ++ replicate (Z.to_nat b) (u8_of 0).
Proof. intros ??. by rewrite Z2Nat.inj_add, replicate_add. Qed.
Lemma copy_first l r :
  0 ≤ l < 2 ^ 32 → len r ≤ l →
  copy_into (replicate (Z.to_nat (2 * l)) (u8_of 0)) (l - len r) r =
  Ok (pad_to l r ++ replicate (Z.to_nat l) (u8_of 0)).
Proof.
  intros Hl Hr. pose proof (len_nonneg r). replace (2 * l) with ((l - len r) + (len r + l)) by lia.
  rewrite !zeros_split by lia.
  assert (l - len r = len (replicate (Z.to_nat (l - len r)) (u8_of 0))) as He
    by (rewrite len_replicate; lia).
  rewrite He at 2. rewrite copy_into_ok by (rewrite ?len_app, !len_replicate; lia).
  unfold pad_to. by rewrite <- app_assoc.
Qed.

Lemma to_cose_fits curve c sig r s :
  curve = EcCurve_of_nist c → nist_sig_from_der sig = Some (r, s) →
  len r ≤ NistCurve_coord_len c → len s ≤ NistCurve_coord_len c →
  to_cose_signature curve sig = Ok (pad_to (NistCurve_coord_len c) r ++ pad_to (NistCurve_coord_len c) s).
Proof.
  intros -> Hp Hr Hs. pose proof (coord_len_range c). pose proof (len_nonneg r). pose proof (len_nonneg s).
  rewrite (to_cose_nist c sig r s Hp).
  set (l := NistCurve_coord_len c) in *.
  rewrite !ovf_unsigned_ok by range_lia. cbn [mbind res_bind].
  rewrite copy_first by lia. cbn [mbind res_bind].
  assert (len (pad_to l r) = l) as Hpr by (by apply len_pad_to).
  assert (replicate (Z.to_nat l) (u8_of 0) =
          replicate (Z.to_nat (l - len s)) (u8_of 0) ++ replicate (Z.to_nat (len s)) (u8_of 0) ++ []) as ->.
  { rewrite app_nil_r, <- zeros_split by lia. do 2 f_equal. lia. }
  rewrite (app_assoc (pad_to l r)).
  assert (l + l - len s = len (pad_to l r ++ replicate (Z.to_nat (l - len s)) (u8_of 0))) as ->
    by (rewrite len_app, len_replicate; lia).
  rewrite copy_into_ok by (rewrite ?len_app, ?len_replicate; change (len (A:=u8) []) with 0; lia).
  by rewrite app_nil_r, <- !app_assoc.
Qed.

Context `{NL : !NistSignaturesLaws}.

Lemma pad_to_stripped n b u : len b = n → uint_new b = Some u → pad_to n u = b ∧ len u ≤ n.
Proof.
  intros Hb Hu. destruct (uint_new_strips _ _ Hu) as [k ->]. rewrite len_app, len_replicate in Hb.
  split; [|lia]. unfold pad_to. f_equal. f_equal. lia.
Qed.

(** Conversions of signatures are inverse to each other: a COSE signature that converts to
    DER is recovered from it, and a DER signature whose integers fit the curve is recovered
    from its COSE form. *)
Theorem cose_signature_roundtrip curve sig sig' :
  (from_cose_signature curve sig = Ok sig' → to_cose_signature curve sig' = Ok sig) ∧
  (∀ c r s, curve = EcCurve_of_nist c → nist_sig_from_der sig = Some (r, s) →
     len r ≤ NistCurve_coord_len c → len s ≤ NistCurve_coord_len c →
     to_cose_signature curve sig = Ok sig' → from_cose_signature curve sig' = Ok sig).
Proof.
  assert (∀ c sig, from_cose_signature (EcCurve_of_nist c) sig =
    let l := NistCurve_coord_len c in
    _ ← reject_if (bool_decide (len sig ≠ 2 * l)) (Hal EncodingError);
    r ← slice_to sig l;
    r ← ok_or (uint_new r) (Hal EncodingError);
    s ← slice_from sig l;
    s ← ok_or (uint_new s) (Hal EncodingError);
    ok_or (nist_sig_to_der (r, s)) (Hal EncodingError)) as Hfrom by (by intros []).
  split.
  - destruct (decide (curve = EcCurve_Curve25519)) as [->|Hc]; [by intros [= <-]|].
    assert (∃ c, curve = EcCurve_of_nist c) as [c ->].
    { destruct curve; [by exists Nist_P224|by exists Nist_P256|by exists Nist_P384|by exists Nist_P521|done]. }
    rewrite Hfrom. cbn zeta. intros H. pose proof (coord_len_range c).
    set (l := NistCurve_coord_len c) in *.
    apply res_bind_Ok in H as ([] & Hlen & H). apply reject_if_Ok, bool_decide_eq_false, dec_stable in Hlen.
    apply res_bind_Ok in H as (rb & Hrb & H). apply slice_to_Ok in Hrb as [_ ->].
    apply res_bind_Ok in H as (r & Hr & H). apply ok_or_Ok in Hr.
    apply res_bind_Ok in H as (sb & Hsb & H). apply slice_from_Ok in Hsb as [_ ->].
    apply res_bind_Ok in H as (s & Hs & H). apply ok_or_Ok in Hs. apply ok_or_Ok in H.
    apply (pad_to_stripped l) in Hr as [Hr Hrl]; [|unfold len in *; rewrite length_take; lia].
    apply (pad_to_stripped l) in Hs as [Hs Hsl]; [|unfold len in *; rewrite length_drop; lia].
    rewrite (to_cose_fits _ c _ r s) by (done || by apply nist_sig_roundtrip).
    fold l. rewrite Hr, Hs. f_equal. apply take_drop.
  - intros c r s -> Hp Hr Hs Ht. rewrite (to_cose_fits _ c _ r s) in Ht by done. injection Ht as <-.
    destruct (nist_sig_parsed _ _ _ Hp) as (Hd & Hur & Hus). rewrite Hfrom. cbn zeta.
    set (l := NistCurve_coord_len c) in *.
    rewrite bool_decide_eq_false_2 by (rewrite len_app, !len_pad_to by done; lia). cbn [mbind res_bind reject_if].
    assert (len (pad_to l r) = l) as Hpr by (by apply len_pad_to).
    pose proof (slice_to_app (E:=Error) (pad_to l r) (pad_to l s)) as H1.
    pose proof (slice_from_app (E:=Error) (pad_to l r) (pad_to l s)) as H2.
    rewrite Hpr in H1, H2. rewrite H1, H2.
    cbn [mbind res_bind].
    unfold pad_to. rewrite !uint_new_padded by done. cbn [ok_or mbind res_bind]. by rewrite Hd.
Qed.

(** A DER signature whose integers do not fit the curve is not rejected: a first integer
    that is too long panics, whether overflow is checked or not, and a second one of up to
    twice the coordinate size silently overwrites the first. *)
Theorem cose_signature_too_long c sig r s :
  nist_sig_from_der sig = Some (r, s) → len r < 2 ^ 63 → len s < 2 ^ 63 →
  (NistCurve_coord_len c < len r → to_cose_signature (EcCurve_of_nist c) sig = Panic) ∧
  (len r ≤ NistCurve_coord_len c → NistCurve_coord_len c < len s ≤ 2 * NistCurve_coord_len c →
   to_cose_signature (EcCurve_of_nist c) sig =
   Ok (take (Z.to_nat (2 * NistCurve_coord_len c - len s)) (pad_to (NistCurve_coord_len c) r) ++ s)).
Proof.
  intros Hp Hr63 Hs63. pose proof (coord_len_range c). pose proof (len_nonneg r). pose proof (len_nonneg s).
  rewrite (to_cose_nist c sig r s Hp).
  set (l := NistCurve_coord_len c) in *. split.
  - intros Hlong. rewrite (ovf_unsigned_wraps (l - len r)) by lia.
    destruct overflow_checks eqn:Hov; [done|]. cbn [mbind res_bind].
    assert (as_unsigned 64 (l - len r) = l - len r + 2 ^ 64) as ->.
    { unfold as_unsigned. symmetry. apply Z.mod_unique with (-1); lia. }
    assert (∃ so, ovf_unsigned (E:=Error) 64 (l + l - len s) = Ok so) as [so ->].
    { unfold ovf_unsigned. rewrite Hov. case_decide; by eexists. }
    cbn [mbind res_bind].
    enough (∀ z, copy_into z (l - len r + 2 ^ 64) r = Panic) as -> by done. intros z.
    unfold copy_into. rewrite ovf_unsigned_wraps, Hov by lia. cbn [mbind res_bind].
    rewrite decide_False; [done|].
    assert (as_unsigned 64 (l - len r + 2 ^ 64 + len r) = l) as ->; [|lia].
    unfold as_unsigned. symmetry. apply Z.mod_unique with 1; lia.
  - intros Hr Hs. rewrite !ovf_unsigned_ok by range_lia. cbn [mbind res_bind].
    rewrite copy_first by lia. cbn [mbind res_bind].
    set (rp := pad_to l r). assert (len rp = l) as Hrp by (by apply len_pad_to).
    set (n := Z.to_nat (2 * l - len s)).
    assert (rp ++ replicate (Z.to_nat l) (u8_of 0) =
            take n rp ++ (drop n rp ++ replicate (Z.to_nat l) (u8_of 0)) ++ []) as ->.
    { by rewrite app_nil_r, app_assoc, take_drop. }
    assert (len (take n rp) = 2 * l - len s) as Hn by (unfold n; unfold len in *; rewrite length_take; lia).
    replace (l + l - len s) with (len (take n rp)) by lia.
    rewrite copy_into_ok.
    + rewrite app_nil_r. done.
    + rewrite len_app, len_replicate. unfold n in *. unfold len in *. rewrite length_drop. lia.
    + rewrite !len_app, len_replicate. change (len (A:=u8) []) with 0. unfold n in *. unfold len in *.
      rewrite length_take, length_drop. lia.
Qed.
End signatures.

(** ** A sample signature format *)

Module SampleEc.
(** Unsigned integers without leading zeros, and signatures as two length-prefixed
    integers. *)
Fixpoint strip (b : bytes) : bytes :=
  match b with x :: r => if decide (u8_val x = 0 ∧ r ≠ []) then strip r else b | [] => [] end.
Definition stripped (b : bytes) : bool := bool_decide (b ≠ [] ∧ strip b = b).
Definition to_der (rs : bytes * bytes) : option bytes :=
  if bool_decide (len rs.1 < 256) && stripped rs.1 && stripped rs.2
  then Some (u8_of (len rs.1) :: rs.1 ++ rs.2) else None.
Definition from_der (b : bytes) : option (bytes * bytes) :=
  match b with
  | [] => None
  | n :: t =>
    let r := take (Z.to_nat (u8_val n)) t in let s := drop (Z.to_nat (u8_val n)) t in
    if bool_decide (len r = u8_val n) && stripped r && stripped s then Some (r, s) else None
  end.
#[export] Instance sample_nist : NistSignatures :=
  {| uint_new b := Some (strip b); nist_sig_from_der := from_der; nist_sig_to_der := to_der |}.

Lemma strip_zeros b : ∃ k, b = replicate k (u8_of 0) ++ strip b.
Proof.
  induction b as [|x b [k IH]]; [by exists 0%nat|]. cbn [strip]. case_decide as Hx; [|by exists 0%nat].
  exists (S k). cbn. f_equal; [|done]. rewrite <- (byte.of_Z_unsigned x). by f_equal; apply Hx.
Qed.
Lemma strip_padded k b : b ≠ [] → strip (replicate k (u8_of 0) ++ b) = strip b.
Proof. intros Hb. induction k; [done|]. cbn. rewrite decide_True; [done|]. split; [done|]. by destruct k. Qed.
#[export] Instance sample_nist_laws : NistSignaturesLaws.
Proof.
  split.
  - intros b u [= <-]. apply strip_zeros.
  - intros r s b. cbn. unfold to_der, from_der. cbn. intros H.
    destruct (bool_decide (len r < 256)) eqn:Hl; [|done]. apply bool_decide_eq_true in Hl.
    destruct (stripped r) eqn:Hr; [|done]. destruct (stripped s) eqn:Hs; [|done]. injection H as <-.
    pose proof (len_nonneg r). rewrite u8_val_of by lia.
    assert (Z.to_nat (len r) = length r) as -> by (unfold len; lia).
    rewrite take_app_length, drop_app_length, Hr, Hs. by rewrite bool_decide_eq_true_2.
  - intros b r s. cbn. unfold from_der, to_der. destruct b as [|n t]; [done|].
    destruct (bool_decide (len (take _ t) = _)) eqn:Hl; [|done]. apply bool_decide_eq_true in Hl.
    destruct (stripped (take _ t)) eqn:Hr; [|done]. destruct (stripped (drop _ t)) eqn:Hs; [|done].
    cbn. intros [= <- <-]. cbn. rewrite Hr, Hs, Hl, take_drop.
    pose proof (byte.unsigned_range n). unfold u8_val in *. rewrite bool_decide_eq_true_2 by lia. cbn.
    unfold stripped in *. apply bool_decide_eq_true in Hr as [Hrn Hr], Hs as [Hsn Hs]. rewrite Hr, Hs.
    split; [|done]. do 2 f_equal. apply byte.of_Z_unsigned.
  - intros k u [Hn H]. cbn in *. injection H as H. by rewrite strip_padded, H.
Qed.

#[export] Instance sample_pkcs8 : Pkcs8 := {|
  any := Oid; any_from_oid o := o; any_decode_as_oid := Some;
  pkcs8_parse b := match b with
                   | t :: k => Some (if decide (u8_val t = 1) then (X509_NIST_OID, Some ALGO_PARAM_P384_OID, k)
                                     else (X509_ED25519_OID, None, k))
                   | [] => None
                   end;
  sec1_parse b := match b with [] => km_err InvalidArgument | _ => Ok (Some (Some ALGO_PARAM_P521_OID)) end
|}.
Definition ed_key : bytes := u8_of 0 :: u8_of 4 :: u8_of 32 :: replicate 32 (u8_of 7).

Lemma ec_import_labelled_witness :
  import_pkcs8_key ed_key = Ok (KM_Ec EcCurve_Curve25519 CurveType_EdDsa (Explicit (EcKey_Ed25519 (replicate 32 (u8_of 7))))) ∧
  ec_labelled (KM_Ec EcCurve_Curve25519 CurveType_EdDsa (Explicit (EcKey_Ed25519 (replicate 32 (u8_of 7))))).
Proof.
  assert (import_pkcs8_key ed_key =
    Ok (KM_Ec EcCurve_Curve25519 CurveType_EdDsa (Explicit (EcKey_Ed25519 (replicate 32 (u8_of 7)))))) as H
    by (vm_compute; reflexivity).
  split; [exact H|]. apply (ec_import_labelled ed_key). left. exact H.
Defined.

#[local] Instance target : Target := arm64.
Definition cose : bytes := replicate 3 (u8_of 0) ++ replicate 25 (u8_of 9) ++ replicate 28 (u8_of 5).
Definition der : bytes := u8_of 25 :: replicate 25 (u8_of 9) ++ replicate 28 (u8_of 5).
Lemma cose_signature_roundtrip_witness :
  to_cose_signature EcCurve_P224 der = Ok cose ∧ from_cose_signature EcCurve_P224 cose = Ok der.
Proof.
  assert (from_cose_signature EcCurve_P224 cose = Ok der) as H by (vm_compute; reflexivity).
  assert (to_cose_signature EcCurve_P224 der = Ok cose) as H'.
  { exact (proj1 (cose_signature_roundtrip EcCurve_P224 cose der) H). }
  split; [exact H'|].
  apply (proj2 (cose_signature_roundtrip EcCurve_P224 der cose)
          Nist_P224 (replicate 25 (u8_of 9)) (replicate 28 (u8_of 5))); [..|exact H']; vm_compute; congruence.
Defined.
Definition long_der : bytes := u8_of 1 :: u8_of 9 :: replicate 56 (u8_of 5).
Lemma cose_signature_too_long_witness :
  to_cose_signature (T:=arm64) EcCurve_P224 long_der = Ok (replicate 56 (u8_of 5)).
Proof.
  apply (proj2 (cose_signature_too_long (T:=arm64) (NS:=sample_nist) Nist_P224 long_der [u8_of 9] (replicate 56 (u8_of 5))
           ltac:(vm_compute; reflexivity) ltac:(vm_compute; reflexivity) ltac:(vm_compute; reflexivity)));
    vm_compute; intuition congruence.
Defined.
End SampleEc.
