(* ===== verification/KeyTraits.v ===== *)
(** * RSA keys and the default methods of the asymmetric traits

    Import of RSA keys from PKCS#8, their sizes and public halves ([common/src/crypto/rsa.rs]),
    and the methods of the traits [Rsa] and [Ec] that have a default
    ([common/src/crypto/traits.rs]).  The parser of [RSAPrivateKey] structures is the one of
    the [pkcs1] crate. *)

From S2P Require Import Prelude Wire CryptoTypes TagParams TagGen Crypto EcKeys.

(** What the source uses of a parsed [RSAPrivateKey]: modulus and public exponent, as
    big-endian bytes, and the DER encoding of the [RSAPublicKey] made of them. *)
Record RsaPrivateKey := mk_rsa_private_key {
  rsa_modulus : bytes;
  rsa_public_exponent : bytes;
  rsa_public_key_der : option bytes
}.
(** The [pkcs1] and [sec1] crates, and the public keys an implementation computes. *)
Class Pkcs1 := {
  rsa_from_der : bytes → option RsaPrivateKey;
  (* the public key of an [ECPrivateKey], which is optional *)
  sec1_public_key : bytes → option (option bytes);
}.
Class EcPublicKeys := {
  nist_public_key : bytes → NistCurve → Result bytes;
  ed25519_public_key : bytes → Result bytes;
  x25519_public_key : bytes → Result bytes
}.

Section rsa.
Context `{Tgt : Target} `{P1 : Pkcs1} `{P8 : Pkcs8} `{EP : EcPublicKeys}.

Definition RsaKey_subject_public_key (key : bytes) : Result bytes :=
  rsa_pvt_key ← ok_or (rsa_from_der key) Der;
  ok_or (rsa_public_key_der rsa_pvt_key) Der.
(** [Key::size]: in bytes, or 0 for a key that cannot be parsed. *)
Definition RsaKey_size (key : bytes) : Z :=
  match rsa_from_der key with Some k => len (rsa_modulus k) | None => 0 end.

Definition rsa_import_pkcs1 (private_key : bytes) : Result (KeyMaterial * Z * Z) :=
  parsed_key ← ok_or (rsa_from_der private_key) (Hal InvalidArgument);
  key_size ← ovf_unsigned 32 (as_u32 (len (rsa_modulus parsed_key)) * 8);
  let pub_exponent_bytes := rsa_public_exponent parsed_key in
  _ ← reject_if (bool_decide (8 < len pub_exponent_bytes)) (Hal InvalidArgument);
  let offset := 8 - len pub_exponent_bytes in
  let pub_exponent := from_be_bytes (overwrite (replicate 8 (u8_of 0)) offset pub_exponent_bytes) in
  Ok (KM_Rsa (Explicit private_key), key_size, pub_exponent).
Definition rsa_import_pkcs8 (data : bytes) : Result (KeyMaterial * Z * Z) :=
  '(oid, _, private_key) ← ok_or (pkcs8_parse data) (Hal InvalidArgument);
  _ ← reject_if (bool_decide (oid ≠ RSA_X509_OID)) (Hal InvalidArgument);
  rsa_import_pkcs1 private_key.

(** The default methods. *)
Definition Rsa_import_pkcs8_key_default (data : bytes) (_params : list KeyParam)
    : Result (KeyMaterial * Z * Z) := rsa_import_pkcs8 data.
Definition Rsa_subject_public_key_default (key : OpaqueOr bytes) : Result bytes :=
  rsa_key ← explicit key; RsaKey_subject_public_key rsa_key.
Definition Ec_import_pkcs8_key_default (data : bytes) (_params : list KeyParam) : Result KeyMaterial :=
  import_pkcs8_key data.
Definition Ec_import_raw_ed25519_key_default (data : bytes) (_params : list KeyParam) : Result KeyMaterial :=
  import_raw_ed25519_key data.
Definition Ec_import_raw_x25519_key_default (data : bytes) (_params : list KeyParam) : Result KeyMaterial :=
  import_raw_x25519_key data.
Definition Ec_subject_public_key_default (key : OpaqueOr EcKey) : Result bytes :=
  ec_key ← explicit key;
  match ec_key with
  | EcKey_P224 nist_key | EcKey_P256 nist_key | EcKey_P384 nist_key | EcKey_P521 nist_key =>
    public_key ← ok_or (sec1_public_key nist_key) Der;
    match public_key with
    | Some pub_key => Ok pub_key
    | None =>
      nist_curve ← NistCurve_try_from (EcKey_curve ec_key);
      nist_public_key nist_key nist_curve
    end
  | EcKey_Ed25519 ed25519_key => ed25519_public_key ed25519_key
  | EcKey_X25519 x25519_key => x25519_public_key x25519_key
  end.

(** The traits with these defaults. *)
Definition default_imports : ImportTraits := {|
  rsa_import_pkcs8_key := Rsa_import_pkcs8_key_default;
  ec_import_pkcs8_key := Ec_import_pkcs8_key_default;
  ec_import_raw_ed25519_key := Ec_import_raw_ed25519_key_default;
  ec_import_raw_x25519_key := Ec_import_raw_x25519_key_default;
  aes_import_key := Aes_import_key_default;
  des_import_key := Des_import_key_default;
  hmac_import_key := Hmac_import_key_default
|}.

(** ** What an imported RSA key is announced as *)

Lemma le_combine_cons b l : le_combine (b :: l) = Z.lor (byte.unsigned b) (Z.shiftl (le_combine l) 8).
Proof. done. Qed.
Lemma le_combine_app_zeros l n : le_combine (l ++ replicate n (u8_of 0)) = le_combine l.
Proof.
  induction l as [|b l IH]; [|by rewrite <- app_comm_cons, !le_combine_cons, IH].
  induction n as [|n IH]; [done|]. cbn [app replicate] in *. by rewrite le_combine_cons, IH.
Qed.
Lemma from_be_bytes_zeros n b : from_be_bytes (replicate n (u8_of 0) ++ b) = from_be_bytes b.
Proof. unfold from_be_bytes. rewrite reverse_app, reverse_replicate. apply le_combine_app_zeros. Qed.
Lemma padded_exponent e : len e ≤ 8 →
  overwrite (replicate 8 (u8_of 0)) (8 - len e) e = replicate (8 - length e) (u8_of 0) ++ e.
Proof.
  intros He. unfold overwrite, len in *. rewrite take_replicate, drop_replicate.
  replace (8 - _)%nat with 0%nat by lia. rewrite app_nil_r. f_equal. f_equal. lia.
Qed.

(** The lengths of the [der] crate are below 256 MiB. *)
Class Pkcs1Laws : Prop := {
  rsa_modulus_len der k : rsa_from_der der = Some k → len (rsa_modulus k) < 2 ^ 28
}.
Context `{PL : !Pkcs1Laws}.

Lemma rsa_key_bits der k : rsa_from_der der = Some k →
  ovf_unsigned (E:=Error) 32 (as_u32 (len (rsa_modulus k)) * 8) = Ok (8 * len (rsa_modulus k)).
Proof.
  intros Hk%rsa_modulus_len. pose proof (len_nonneg (rsa_modulus k)).
  rewrite as_unsigned_id by (split; lia). rewrite Z.mul_comm. apply ovf_unsigned_ok. split; lia.
Qed.

(** An RSA key is imported exactly when its PKCS#8 wrapper says it is one, it parses and its
    exponent fits 64 bits. The material is the inner structure, the size is eight times the
    bytes of the modulus, and the exponent is the number its bytes are. *)
Theorem rsa_import_spec data key key_size exponent :
  rsa_import_pkcs8 data = Ok (key, key_size, exponent) ↔
  ∃ params der k,
    pkcs8_parse data = Some (RSA_X509_OID, params, der) ∧ rsa_from_der der = Some k ∧
    len (rsa_public_exponent k) ≤ 8 ∧ key = KM_Rsa (Explicit der) ∧
    key_size = 8 * RsaKey_size der ∧ exponent = from_be_bytes (rsa_public_exponent k).
Proof.
  unfold rsa_import_pkcs8, rsa_import_pkcs1, RsaKey_size. split.
  - intros H. apply res_bind_Ok in H as ([[oid params] der] & Hp%ok_or_Ok & H).
    apply res_bind_Ok in H as (? & Ho%reject_if_Ok%bool_decide_eq_false & H). apply dec_stable in Ho as ->.
    apply res_bind_Ok in H as (k & Hk%ok_or_Ok & H). rewrite (rsa_key_bits der k Hk) in H. cbn [mbind res_bind] in H.
    apply res_bind_Ok in H as (? & He%reject_if_Ok%bool_decide_eq_false & H).
    injection H as <- <- <-. exists params, der, k. rewrite Hk, padded_exponent by lia.
    split_and!; try done; [lia|apply from_be_bytes_zeros].
  - intros (params & der & k & Hp & Hk & He & -> & -> & ->). rewrite Hp. cbn [ok_or mbind res_bind].
    rewrite bool_decide_eq_false_2 by naive_solver. cbn [reject_if mbind res_bind]. rewrite Hk. cbn [ok_or mbind res_bind].
    rewrite (rsa_key_bits der k Hk). cbn [mbind res_bind]. rewrite bool_decide_eq_false_2 by lia.
    cbn [reject_if mbind res_bind]. by rewrite padded_exponent, from_be_bytes_zeros by lia.
Qed.
End rsa.
