(* ===== verification/Asn1.v ===== *)
(** * Authorization lists in ASN.1 ([ta/src/cert.rs])

    The DER encoding and decoding of the [AuthorizationList] of an attestation extension
    and of a secure key wrapper, with the hand-written encoding of explicit tags above 30.
    The [der] crate is a parameter ([DerCrate]): encodings of integers, octet strings, NULL,
    sets and lengths, and the reader's primitives.  The announced length is the length
    written, tags are recovered, what is encoded decodes to the same parameters; user
    secure IDs are never written, so they are not covered when an encoding is
    authenticated. *)

From S2P Require Import Prelude Wire TagLegacy TagParams Codec WireCodec.

(** ** The [der] crate *)

(** The [Encode] trait; the state is what has been written. *)
Record Encode (A : Type) := mk_encode {
  encoded_len : A → Result Z;
  encode : A → stM bytes Error unit
}.
Arguments mk_encode {A} _ _.
Arguments encoded_len {A} _ _.
Arguments encode {A} _ _ _.

Inductive VerifiedBootStateAsn1 : Set :=
| Asn1_Verified | Asn1_SelfSigned | Asn1_Unverified | Asn1_Failed.
Record RootOfTrust := mk_rot {
  rot_verified_boot_key : bytes;
  rot_device_locked : bool;
  rot_verified_boot_state : VerifiedBootStateAsn1;
  rot_verified_boot_hash : bytes
}.

(** Encoders and decoders of the crate: [i64], NULL, octet strings, sets of [i64] with
    insertion in order, lengths (with their maximum), and what the [Sequence] macro derives
    for [RootOfTrust].  Readers consume the state. *)
Class DerCrate := {
  length_max : Z;
  length_enc : Encode Z;
  int_enc : Encode Z;
  null_enc : Encode unit;
  octet_string_new : bytes → Result unit;
  octets_enc : Encode bytes;
  set_insert_ordered : list Z → Z → Result (list Z);
  set_enc : Encode (list Z);
  rot_enc : Encode RootOfTrust;
  length_decode : stM bytes Error Z;
  tlv_bytes : stM bytes Error bytes;
  i32_from_der : bytes → Result Z;
  u32_from_der : bytes → Result Z;
  i64_from_der : bytes → Result Z;
  u64_from_der : bytes → Result Z;
  null_from_der : bytes → Result unit;
  octets_from_der : bytes → Result bytes;
  set_from_der : bytes → Result (list Z);
  rot_from_der : bytes → Result RootOfTrust
}.

(** ** Explicit tags *)

Record ExplicitTaggedValue (A : Type) := mk_etv { etv_tag : Z; etv_val : A }.
Arguments mk_etv {A} _ _.
Arguments etv_tag {A} _.
Arguments etv_val {A} _.

(** The derived function of the [Tag] enum: the first variant with this raw value. *)
Definition from_raw_tag_value (raw_tag : Z) : Tag :=
  default Tag_Invalid (head (filter (λ t, raw_tag_value t = raw_tag) variants)).

Definition write_byte (b : Z) : stM bytes Error unit := modify (λ out, out ++ [u8_of b]).
Definition read_byte : stM bytes Error Z := λ data,
  match data with
  | b :: data' => (Ok (u8_val b), data')
  | [] => (Err Der, data)
  end.

Section asn1.
Context `{D : DerCrate}.

(** [Length + Length]. *)
Definition length_add (n : Z) (r : Result Z) : Result Z :=
  m ← r;
  if decide (n + m ≤ length_max) then Ok (n + m) else Err Der.

Section tagged.
Context {A : Type} (c : Encode A).

Definition explicit_tag_len (v : ExplicitTaggedValue A) : Result Z :=
  let t := etv_tag v in
  if decide (0 ≤ t ≤ 0x1e) then Ok 1
  else if decide (0x1f ≤ t ≤ 0x7f) then Ok 2
  else if decide (0x80 ≤ t ≤ 0x3fff) then Ok 3
  else Err Der.
Definition explicit_tag_encode (v : ExplicitTaggedValue A) : stM bytes Error unit :=
  let t := etv_tag v in
  if decide (0 ≤ t ≤ 0x1e) then write_byte (Z.lor 0xa0 t)
  else if decide (0x1f ≤ t ≤ 0x7f) then
    _ ← write_byte 0xbf;
    write_byte t
  else if decide (0x80 ≤ t ≤ 0x3fff) then
    _ ← write_byte 0xbf;
    _ ← write_byte (Z.lor (Z.shiftr t 7) 0x80);
    write_byte (Z.land t 0x7f)
  else liftr (Err Der).
Definition ExplicitTaggedValue_encoded_len (v : ExplicitTaggedValue A) : Result Z :=
  inner_len ← encoded_len c (etv_val v);
  tag_len ← explicit_tag_len v;
  n ← length_add tag_len (encoded_len length_enc inner_len);
  length_add n (Ok inner_len).
Definition ExplicitTaggedValue_encode (v : ExplicitTaggedValue A) : stM bytes Error unit :=
  inner_len ← liftr (encoded_len c (etv_val v));
  _ ← explicit_tag_encode v;
  _ ← encode length_enc inner_len;
  encode c (etv_val v).

Definition asn1_val (val : Result (option (ExplicitTaggedValue A))) : stM bytes Error unit :=
  val ← liftr val;
  match val with
  | Some v => ExplicitTaggedValue_encode v
  | None => mret tt
  end.
Definition asn1_len (val : Result (option (ExplicitTaggedValue A))) : Result Z :=
  val ← val;
  match val with
  | Some v => ExplicitTaggedValue_encoded_len v
  | None => Ok 0
  end.
End tagged.

(** ** Macros that select the value of a field *)

(** A lookup failure becomes [der::ErrorKind::Failed]. *)
Definition der_failed (_ : Error) : Error := Der.

(** Insert in order, skipping a value equal to the one before it. *)
Fixpoint set_of_integer_from (results : list Z) (set : list Z) (prev_val : option Z) : Result (list Z) :=
  match results with
  | [] => Ok set
  | val :: results' =>
    let val := as_i64 val in
    if bool_decide (prev_val = Some val) then set_of_integer_from results' set prev_val
    else set ← set_insert_ordered set val; set_of_integer_from results' set (Some val)
  end.
Definition asn1_set_of_integer (params : list KeyParam) (t : Tag) (sel : KeyParam → option Z)
    : Result (option (ExplicitTaggedValue (list Z))) :=
  match omap sel params with
  | [] => Ok None
  | results => set ← set_of_integer_from results [] None; Ok (Some (mk_etv (raw_tag_value t) set))
  end.
Definition asn1_integer (params : list KeyParam) (t : Tag) (sel : KeyParam → option Z)
    : Result (option (ExplicitTaggedValue Z)) :=
  val ← map_err der_failed (get_opt_tag_value sel params);
  match val with
  | Some val => Ok (Some (mk_etv (raw_tag_value t) (as_i64 val)))
  | None => Ok None
  end.
Definition asn1_integer_datetime (params : list KeyParam) (t : Tag) (sel : KeyParam → option Z)
    : Result (option (ExplicitTaggedValue Z)) :=
  val ← map_err der_failed (get_opt_tag_value sel params);
  match val with
  | Some val => Ok (Some (mk_etv (raw_tag_value t) val))
  | None => Ok None
  end.
Definition asn1_null (params : list KeyParam) (t : Tag) (flag : KeyParam)
    : Result (option (ExplicitTaggedValue unit)) :=
  b ← map_err der_failed (get_bool_tag_value params flag);
  match b with
  | true => Ok (Some (mk_etv (raw_tag_value t) tt))
  | false => Ok None
  end.
Definition asn1_octet_string (params : list KeyParam) (t : Tag) (sel : KeyParam → option bytes)
    : Result (option (ExplicitTaggedValue bytes)) :=
  val ← map_err der_failed (get_opt_tag_value sel params);
  match val with
  | Some val => _ ← octet_string_new val; Ok (Some (mk_etv (raw_tag_value t) val))
  | None => Ok None
  end.

(** ** The list *)

Record AuthorizationList := mk_authz {
  al_auths : list KeyParam;
  al_keygen_params : list KeyParam;
  al_rot_info : option KeyParam;
  al_app_id : option KeyParam;
  al_additional_attestation_info : list KeyParam
}.

(** The integer in a parameter of the given variant, as [v as i64] would read it. *)
Definition int_Purpose (p : KeyParam) : option Z := discr <$> as_Purpose p.
Definition int_Algorithm (p : KeyParam) : option Z := discr <$> as_Algorithm p.
Definition int_KeySize (p : KeyParam) : option Z :=
  match p with KP_KeySize v => Some v | _ => None end.
Definition int_BlockMode (p : KeyParam) : option Z := discr <$> as_BlockMode p.
Definition int_Digest (p : KeyParam) : option Z := discr <$> as_Digest p.
Definition int_Padding (p : KeyParam) : option Z := discr <$> as_Padding p.
Definition int_MinMacLength (p : KeyParam) : option Z :=
  match p with KP_MinMacLength v => Some v | _ => None end.
Definition int_EcCurve (p : KeyParam) : option Z := discr <$> as_EcCurve p.
Definition int_RsaPublicExponent (p : KeyParam) : option Z :=
  match p with KP_RsaPublicExponent v => Some v | _ => None end.
Definition int_RsaOaepMgfDigest (p : KeyParam) : option Z := discr <$> as_RsaOaepMgfDigest p.
Definition int_ActiveDatetime (p : KeyParam) : option Z :=
  match p with KP_ActiveDatetime v => Some v | _ => None end.
Definition int_OriginationExpireDatetime (p : KeyParam) : option Z :=
  match p with KP_OriginationExpireDatetime v => Some v | _ => None end.
Definition int_UsageExpireDatetime (p : KeyParam) : option Z :=
  match p with KP_UsageExpireDatetime v => Some v | _ => None end.
Definition int_UsageCountLimit (p : KeyParam) : option Z :=
  match p with KP_UsageCountLimit v => Some v | _ => None end.
Definition int_UserAuthType (p : KeyParam) : option Z :=
  match p with KP_UserAuthType v => Some v | _ => None end.
Definition int_AuthTimeout (p : KeyParam) : option Z :=
  match p with KP_AuthTimeout v => Some v | _ => None end.
Definition int_CreationDatetime (p : KeyParam) : option Z :=
  match p with KP_CreationDatetime v => Some v | _ => None end.
Definition as_Origin (p : KeyParam) : option KeyOrigin :=
  match p with KP_Origin v => Some v | _ => None end.
Definition int_Origin (p : KeyParam) : option Z := discr <$> as_Origin p.
Definition int_OsVersion (p : KeyParam) : option Z :=
  match p with KP_OsVersion v => Some v | _ => None end.
Definition int_OsPatchlevel (p : KeyParam) : option Z :=
  match p with KP_OsPatchlevel v => Some v | _ => None end.
Definition int_VendorPatchlevel (p : KeyParam) : option Z :=
  match p with KP_VendorPatchlevel v => Some v | _ => None end.
Definition int_BootPatchlevel (p : KeyParam) : option Z :=
  match p with KP_BootPatchlevel v => Some v | _ => None end.
Definition as_AttestationIdBrand (p : KeyParam) : option bytes :=
  match p with KP_AttestationIdBrand v => Some v | _ => None end.
Definition as_AttestationIdDevice (p : KeyParam) : option bytes :=
  match p with KP_AttestationIdDevice v => Some v | _ => None end.
Definition as_AttestationIdProduct (p : KeyParam) : option bytes :=
  match p with KP_AttestationIdProduct v => Some v | _ => None end.
Definition as_AttestationIdSerial (p : KeyParam) : option bytes :=
  match p with KP_AttestationIdSerial v => Some v | _ => None end.
Definition as_AttestationIdImei (p : KeyParam) : option bytes :=
  match p with KP_AttestationIdImei v => Some v | _ => None end.
Definition as_AttestationIdMeid (p : KeyParam) : option bytes :=
  match p with KP_AttestationIdMeid v => Some v | _ => None end.
Definition as_AttestationIdManufacturer (p : KeyParam) : option bytes :=
  match p with KP_AttestationIdManufacturer v => Some v | _ => None end.
Definition as_AttestationIdModel (p : KeyParam) : option bytes :=
  match p with KP_AttestationIdModel v => Some v | _ => None end.
Definition as_AttestationIdSecondImei (p : KeyParam) : option bytes :=
  match p with KP_AttestationIdSecondImei v => Some v | _ => None end.
Definition as_ModuleHash (p : KeyParam) : option bytes :=
  match p with KP_ModuleHash v => Some v | _ => None end.

(** The root of trust and the application ID, which are not key characteristics. *)
Definition asn1_rot (l : AuthorizationList) : Result (option (ExplicitTaggedValue RootOfTrust)) :=
  match al_rot_info l with
  | Some (KP_RootOfTrust encoded_rot_info) =>
    rot ← rot_from_der encoded_rot_info;
    Ok (Some (mk_etv (raw_tag_value Tag_RootOfTrust) rot))
  | _ => Ok None
  end.
Definition asn1_app_id (l : AuthorizationList) : Result (option (ExplicitTaggedValue bytes)) :=
  match al_app_id l with
  | Some (KP_AttestationApplicationId app_id) =>
    _ ← octet_string_new app_id;
    Ok (Some (mk_etv (raw_tag_value Tag_AttestationApplicationId) app_id))
  | _ => Ok None
  end.

Definition encode_value (l : AuthorizationList) : stM bytes Error unit :=
  let auths := al_auths l in
  let keygen_params := al_keygen_params l in
  let additional := al_additional_attestation_info l in
  _ ← asn1_val set_enc (asn1_set_of_integer auths Tag_Purpose int_Purpose);
  _ ← asn1_val int_enc (asn1_integer auths Tag_Algorithm int_Algorithm);
  _ ← asn1_val int_enc (asn1_integer auths Tag_KeySize int_KeySize);
  _ ← asn1_val set_enc (asn1_set_of_integer auths Tag_BlockMode int_BlockMode);
  _ ← asn1_val set_enc (asn1_set_of_integer auths Tag_Digest int_Digest);
  _ ← asn1_val set_enc (asn1_set_of_integer auths Tag_Padding int_Padding);
  _ ← asn1_val null_enc (asn1_null auths Tag_CallerNonce KP_CallerNonce);
  _ ← asn1_val int_enc (asn1_integer auths Tag_MinMacLength int_MinMacLength);
  _ ← asn1_val int_enc (asn1_integer auths Tag_EcCurve int_EcCurve);
  _ ← asn1_val int_enc (asn1_integer auths Tag_RsaPublicExponent int_RsaPublicExponent);
  _ ← asn1_val set_enc (asn1_set_of_integer auths Tag_RsaOaepMgfDigest int_RsaOaepMgfDigest);
  _ ← asn1_val null_enc (asn1_null auths Tag_RollbackResistance KP_RollbackResistance);
  _ ← asn1_val null_enc (asn1_null auths Tag_EarlyBootOnly KP_EarlyBootOnly);
  _ ← asn1_val int_enc (asn1_integer_datetime auths Tag_ActiveDatetime int_ActiveDatetime);
  _ ← asn1_val int_enc (asn1_integer_datetime auths Tag_OriginationExpireDatetime
        int_OriginationExpireDatetime);
  _ ← asn1_val int_enc (asn1_integer_datetime auths Tag_UsageExpireDatetime int_UsageExpireDatetime);
  _ ← asn1_val int_enc (asn1_integer auths Tag_UsageCountLimit int_UsageCountLimit);
  _ ← asn1_val null_enc (asn1_null auths Tag_NoAuthRequired KP_NoAuthRequired);
  _ ← asn1_val int_enc (asn1_integer auths Tag_UserAuthType int_UserAuthType);
  _ ← asn1_val int_enc (asn1_integer auths Tag_AuthTimeout int_AuthTimeout);
  _ ← asn1_val null_enc (asn1_null auths Tag_AllowWhileOnBody KP_AllowWhileOnBody);
  _ ← asn1_val null_enc (asn1_null auths Tag_TrustedUserPresenceRequired
        KP_TrustedUserPresenceRequired);
  _ ← asn1_val null_enc (asn1_null auths Tag_TrustedConfirmationRequired
        KP_TrustedConfirmationRequired);
  _ ← asn1_val null_enc (asn1_null auths Tag_UnlockedDeviceRequired KP_UnlockedDeviceRequired);
  _ ← asn1_val int_enc (asn1_integer_datetime auths Tag_CreationDatetime int_CreationDatetime);
  _ ← asn1_val int_enc (asn1_integer auths Tag_Origin int_Origin);
  _ ← asn1_val rot_enc (asn1_rot l);
  _ ← asn1_val int_enc (asn1_integer auths Tag_OsVersion int_OsVersion);
  _ ← asn1_val int_enc (asn1_integer auths Tag_OsPatchlevel int_OsPatchlevel);
  _ ← asn1_val octets_enc (asn1_app_id l);
  _ ← asn1_val octets_enc (asn1_octet_string keygen_params Tag_AttestationIdBrand
        as_AttestationIdBrand);
  _ ← asn1_val octets_enc (asn1_octet_string keygen_params Tag_AttestationIdDevice
        as_AttestationIdDevice);
  _ ← asn1_val octets_enc (asn1_octet_string keygen_params Tag_AttestationIdProduct
        as_AttestationIdProduct);
  _ ← asn1_val octets_enc (asn1_octet_string keygen_params Tag_AttestationIdSerial
        as_AttestationIdSerial);
  _ ← asn1_val octets_enc (asn1_octet_string keygen_params Tag_AttestationIdImei as_AttestationIdImei);
  _ ← asn1_val octets_enc (asn1_octet_string keygen_params Tag_AttestationIdMeid as_AttestationIdMeid);
  _ ← asn1_val octets_enc (asn1_octet_string keygen_params Tag_AttestationIdManufacturer
        as_AttestationIdManufacturer);
  _ ← asn1_val octets_enc (asn1_octet_string keygen_params Tag_AttestationIdModel
        as_AttestationIdModel);
  _ ← asn1_val int_enc (asn1_integer auths Tag_VendorPatchlevel int_VendorPatchlevel);
  _ ← asn1_val int_enc (asn1_integer auths Tag_BootPatchlevel int_BootPatchlevel);
  _ ← asn1_val null_enc (asn1_null auths Tag_DeviceUniqueAttestation KP_DeviceUniqueAttestation);
  _ ← asn1_val octets_enc (asn1_octet_string keygen_params Tag_AttestationIdSecondImei
        as_AttestationIdSecondImei);
  _ ← asn1_val octets_enc (asn1_octet_string additional Tag_ModuleHash as_ModuleHash);
  mret tt.
Definition value_len (l : AuthorizationList) : Result Z :=
  let auths := al_auths l in
  let keygen_params := al_keygen_params l in
  let additional := al_additional_attestation_info l in
  n ← asn1_len set_enc (asn1_set_of_integer auths Tag_Purpose int_Purpose);
  n ← length_add n (asn1_len int_enc (asn1_integer auths Tag_Algorithm int_Algorithm));
  n ← length_add n (asn1_len int_enc (asn1_integer auths Tag_KeySize int_KeySize));
  n ← length_add n (asn1_len set_enc (asn1_set_of_integer auths Tag_BlockMode int_BlockMode));
  n ← length_add n (asn1_len set_enc (asn1_set_of_integer auths Tag_Digest int_Digest));
  n ← length_add n (asn1_len set_enc (asn1_set_of_integer auths Tag_Padding int_Padding));
  n ← length_add n (asn1_len null_enc (asn1_null auths Tag_CallerNonce KP_CallerNonce));
  n ← length_add n (asn1_len int_enc (asn1_integer auths Tag_MinMacLength int_MinMacLength));
  n ← length_add n (asn1_len int_enc (asn1_integer auths Tag_EcCurve int_EcCurve));
  n ← length_add n (asn1_len int_enc (asn1_integer auths Tag_RsaPublicExponent int_RsaPublicExponent));
  n ← length_add n (asn1_len set_enc (asn1_set_of_integer auths Tag_RsaOaepMgfDigest
        int_RsaOaepMgfDigest));
  n ← length_add n (asn1_len null_enc (asn1_null auths Tag_RollbackResistance KP_RollbackResistance));
  n ← length_add n (asn1_len null_enc (asn1_null auths Tag_EarlyBootOnly KP_EarlyBootOnly));
  n ← length_add n (asn1_len int_enc (asn1_integer_datetime auths Tag_ActiveDatetime
        int_ActiveDatetime));
  n ← length_add n (asn1_len int_enc (asn1_integer_datetime auths Tag_OriginationExpireDatetime
        int_OriginationExpireDatetime));
  n ← length_add n (asn1_len int_enc (asn1_integer_datetime auths Tag_UsageExpireDatetime
        int_UsageExpireDatetime));
  n ← length_add n (asn1_len int_enc (asn1_integer auths Tag_UsageCountLimit int_UsageCountLimit));
  n ← length_add n (asn1_len null_enc (asn1_null auths Tag_NoAuthRequired KP_NoAuthRequired));
  n ← length_add n (asn1_len int_enc (asn1_integer auths Tag_UserAuthType int_UserAuthType));
  n ← length_add n (asn1_len int_enc (asn1_integer auths Tag_AuthTimeout int_AuthTimeout));
  n ← length_add n (asn1_len null_enc (asn1_null auths Tag_AllowWhileOnBody KP_AllowWhileOnBody));
  n ← length_add n (asn1_len null_enc (asn1_null auths Tag_TrustedUserPresenceRequired
        KP_TrustedUserPresenceRequired));
  n ← length_add n (asn1_len null_enc (asn1_null auths Tag_TrustedConfirmationRequired
        KP_TrustedConfirmationRequired));
  n ← length_add n (asn1_len null_enc (asn1_null auths Tag_UnlockedDeviceRequired
        KP_UnlockedDeviceRequired));
  n ← length_add n (asn1_len int_enc (asn1_integer_datetime auths Tag_CreationDatetime
        int_CreationDatetime));
  n ← length_add n (asn1_len int_enc (asn1_integer auths Tag_Origin int_Origin));
  n ← length_add n (asn1_len rot_enc (asn1_rot l));
  n ← length_add n (asn1_len int_enc (asn1_integer auths Tag_OsVersion int_OsVersion));
  n ← length_add n (asn1_len int_enc (asn1_integer auths Tag_OsPatchlevel int_OsPatchlevel));
  n ← length_add n (asn1_len octets_enc (asn1_app_id l));
  n ← length_add n (asn1_len octets_enc (asn1_octet_string keygen_params Tag_AttestationIdBrand
        as_AttestationIdBrand));
  n ← length_add n (asn1_len octets_enc (asn1_octet_string keygen_params Tag_AttestationIdDevice
        as_AttestationIdDevice));
  n ← length_add n (asn1_len octets_enc (asn1_octet_string keygen_params Tag_AttestationIdProduct
        as_AttestationIdProduct));
  n ← length_add n (asn1_len octets_enc (asn1_octet_string keygen_params Tag_AttestationIdSerial
        as_AttestationIdSerial));
  n ← length_add n (asn1_len octets_enc (asn1_octet_string keygen_params Tag_AttestationIdImei
        as_AttestationIdImei));
  n ← length_add n (asn1_len octets_enc (asn1_octet_string keygen_params Tag_AttestationIdMeid
        as_AttestationIdMeid));
  n ← length_add n (asn1_len octets_enc (asn1_octet_string keygen_params
        Tag_AttestationIdManufacturer as_AttestationIdManufacturer));
  n ← length_add n (asn1_len octets_enc (asn1_octet_string keygen_params Tag_AttestationIdModel
        as_AttestationIdModel));
  n ← length_add n (asn1_len int_enc (asn1_integer auths Tag_VendorPatchlevel int_VendorPatchlevel));
  n ← length_add n (asn1_len int_enc (asn1_integer auths Tag_BootPatchlevel int_BootPatchlevel));
  n ← length_add n (asn1_len null_enc (asn1_null auths Tag_DeviceUniqueAttestation
        KP_DeviceUniqueAttestation));
  n ← length_add n (asn1_len octets_enc (asn1_octet_string keygen_params
        Tag_AttestationIdSecondImei as_AttestationIdSecondImei));
  n ← length_add n (asn1_len octets_enc (asn1_octet_string additional Tag_ModuleHash as_ModuleHash));
  Ok n.

(** ** Decoding *)

(** The parameters that the macros push. *)
Definition enum_of_integer {A} `{REnum A} (val : Z) : Result A := ok_or (try_from_n val) Der.
Fixpoint collect_enums {A} `{REnum A} (mk : A → KeyParam) (vals : list Z) : Result (list KeyParam) :=
  match vals with
  | [] => Ok []
  | val :: vals' => v ← enum_of_integer val; ps ← collect_enums mk vals'; Ok (mk v :: ps)
  end.
Definition key_params_from_asn1_set_of_integer {A} `{REnum A} (mk : A → KeyParam) (tlv : bytes)
    : Result (list KeyParam) :=
  vals ← set_from_der tlv;
  collect_enums mk vals.
Definition key_param_from_asn1_enum {A} `{REnum A} (mk : A → KeyParam) (tlv : bytes)
    : Result (list KeyParam) :=
  val ← i32_from_der tlv;
  v ← enum_of_integer val;
  Ok [mk v].
Definition key_param_from_asn1_integer (mk : Z → KeyParam) (from_der : bytes → Result Z) (tlv : bytes)
    : Result (list KeyParam) :=
  val ← from_der tlv;
  Ok [mk val].
Definition key_param_from_asn1_null (flag : KeyParam) (tlv : bytes) : Result (list KeyParam) :=
  _ ← null_from_der tlv;
  Ok [flag].
Definition key_param_from_asn1_octet_string (mk : bytes → KeyParam) (tlv : bytes) : Result (list KeyParam) :=
  val ← octets_from_der tlv;
  Ok [mk val].

Definition decode_value_from_bytes (t : Tag) (tlv : bytes) : Result (list KeyParam) :=
  match t with
  | Tag_Purpose => key_params_from_asn1_set_of_integer KP_Purpose tlv
  | Tag_Algorithm => key_param_from_asn1_enum KP_Algorithm tlv
  | Tag_KeySize => key_param_from_asn1_integer KP_KeySize u32_from_der tlv
  | Tag_BlockMode => key_params_from_asn1_set_of_integer KP_BlockMode tlv
  | Tag_Digest => key_params_from_asn1_set_of_integer KP_Digest tlv
  | Tag_Padding => key_params_from_asn1_set_of_integer KP_Padding tlv
  | Tag_CallerNonce => key_param_from_asn1_null KP_CallerNonce tlv
  | Tag_MinMacLength => key_param_from_asn1_integer KP_MinMacLength u32_from_der tlv
  | Tag_EcCurve => key_param_from_asn1_enum KP_EcCurve tlv
  | Tag_RsaPublicExponent => key_param_from_asn1_integer KP_RsaPublicExponent u64_from_der tlv
  | Tag_RsaOaepMgfDigest => key_params_from_asn1_set_of_integer KP_RsaOaepMgfDigest tlv
  | Tag_RollbackResistance => key_param_from_asn1_null KP_RollbackResistance tlv
  | Tag_EarlyBootOnly => key_param_from_asn1_null KP_EarlyBootOnly tlv
  | Tag_ActiveDatetime => key_param_from_asn1_integer KP_ActiveDatetime i64_from_der tlv
  | Tag_OriginationExpireDatetime => key_param_from_asn1_integer KP_OriginationExpireDatetime i64_from_der tlv
  | Tag_UsageExpireDatetime => key_param_from_asn1_integer KP_UsageExpireDatetime i64_from_der tlv
  | Tag_UsageCountLimit => key_param_from_asn1_integer KP_UsageCountLimit u32_from_der tlv
  | Tag_UserSecureId => key_param_from_asn1_integer KP_UserSecureId u64_from_der tlv
  | Tag_NoAuthRequired => key_param_from_asn1_null KP_NoAuthRequired tlv
  | Tag_UserAuthType => key_param_from_asn1_integer KP_UserAuthType u32_from_der tlv
  | Tag_AuthTimeout => key_param_from_asn1_integer KP_AuthTimeout u32_from_der tlv
  | Tag_AllowWhileOnBody => key_param_from_asn1_null KP_AllowWhileOnBody tlv
  | Tag_TrustedUserPresenceRequired => key_param_from_asn1_null KP_TrustedUserPresenceRequired tlv
  | Tag_TrustedConfirmationRequired => key_param_from_asn1_null KP_TrustedConfirmationRequired tlv
  | Tag_UnlockedDeviceRequired => key_param_from_asn1_null KP_UnlockedDeviceRequired tlv
  | Tag_CreationDatetime => key_param_from_asn1_integer KP_CreationDatetime i64_from_der tlv
  | Tag_Origin => key_param_from_asn1_enum KP_Origin tlv
  | Tag_RootOfTrust => Ok [KP_RootOfTrust tlv]
  | Tag_OsVersion => key_param_from_asn1_integer KP_OsVersion u32_from_der tlv
  | Tag_OsPatchlevel => key_param_from_asn1_integer KP_OsPatchlevel u32_from_der tlv
  | Tag_AttestationApplicationId => key_param_from_asn1_octet_string KP_AttestationApplicationId tlv
  | Tag_AttestationIdBrand => key_param_from_asn1_octet_string KP_AttestationIdBrand tlv
  | Tag_AttestationIdDevice => key_param_from_asn1_octet_string KP_AttestationIdDevice tlv
  | Tag_AttestationIdProduct => key_param_from_asn1_octet_string KP_AttestationIdProduct tlv
  | Tag_AttestationIdSerial => key_param_from_asn1_octet_string KP_AttestationIdSerial tlv
  | Tag_AttestationIdImei => key_param_from_asn1_octet_string KP_AttestationIdImei tlv
  | Tag_AttestationIdSecondImei => key_param_from_asn1_octet_string KP_AttestationIdSecondImei tlv
  | Tag_AttestationIdMeid => key_param_from_asn1_octet_string KP_AttestationIdMeid tlv
  | Tag_AttestationIdManufacturer => key_param_from_asn1_octet_string KP_AttestationIdManufacturer tlv
  | Tag_AttestationIdModel => key_param_from_asn1_octet_string KP_AttestationIdModel tlv
  | Tag_VendorPatchlevel => key_param_from_asn1_integer KP_VendorPatchlevel u32_from_der tlv
  | Tag_BootPatchlevel => key_param_from_asn1_integer KP_BootPatchlevel u32_from_der tlv
  | Tag_DeviceUniqueAttestation => key_param_from_asn1_null KP_DeviceUniqueAttestation tlv
  | Tag_ModuleHash => key_param_from_asn1_octet_string KP_ModuleHash tlv
  | _ => Err Der
  end.
Definition authz_list_tags : list Tag :=
  [Tag_Purpose; Tag_Algorithm; Tag_KeySize; Tag_BlockMode; Tag_Digest; Tag_Padding;
   Tag_CallerNonce; Tag_MinMacLength; Tag_EcCurve; Tag_RsaPublicExponent; Tag_RsaOaepMgfDigest;
   Tag_RollbackResistance; Tag_EarlyBootOnly; Tag_ActiveDatetime; Tag_OriginationExpireDatetime;
   Tag_UsageExpireDatetime; Tag_UsageCountLimit; Tag_UserSecureId; Tag_NoAuthRequired;
   Tag_UserAuthType; Tag_AuthTimeout; Tag_AllowWhileOnBody; Tag_TrustedUserPresenceRequired;
   Tag_TrustedConfirmationRequired; Tag_UnlockedDeviceRequired; Tag_CreationDatetime;
   Tag_CreationDatetime; Tag_Origin; Tag_RootOfTrust; Tag_OsVersion; Tag_OsPatchlevel;
   Tag_AttestationApplicationId; Tag_AttestationIdBrand; Tag_AttestationIdDevice;
   Tag_AttestationIdProduct; Tag_AttestationIdSerial; Tag_AttestationIdSerial;
   Tag_AttestationIdSerial; Tag_AttestationIdImei; Tag_AttestationIdMeid;
   Tag_AttestationIdManufacturer; Tag_AttestationIdModel; Tag_VendorPatchlevel;
   Tag_BootPatchlevel; Tag_DeviceUniqueAttestation; Tag_AttestationIdSecondImei; Tag_ModuleHash].

Definition decode_tag_from_bytes : stM bytes Error (option Tag) :=
  data ← get_st;
  match data with
  | [] => mret None
  | _ =>
    b1 ← read_byte;
    raw_tag ←
      (if decide (Z.land b1 0xbf = 0xbf) then
         b2 ← read_byte;
         if decide (Z.land b2 0x80 = 0x80) then
           b3 ← read_byte;
           mret (Z.lor (Z.shiftl (Z.lxor b2 0x80) 7) b3)
         else mret b2
       else mret (Z.lxor b1 0xa0));
    let t := from_raw_tag_value raw_tag in
    if decide (t = Tag_Invalid) then liftr (Err Der) else mret (Some t)
  end.

(** Read the value of the expected field if its tag comes next; the result is a tag that
    has been read without its value, and the parameters found. *)
Definition decode_opt_field (already_read_tag : option Tag) (expected_tag : Tag)
    : stM bytes Error (option Tag * list KeyParam) :=
  t ← match already_read_tag with None => decode_tag_from_bytes | Some _ => mret already_read_tag end;
  match t with
  | Some t =>
    if decide (t = expected_tag) then
      inner_len ← length_decode;
      data ← get_st;
      _ ← liftr (reject_if (bool_decide (len data < inner_len)) Der);
      next_tlv ← tlv_bytes;
      ps ← liftr (decode_value_from_bytes expected_tag next_tlv);
      mret (None, ps)
    else mret (Some t, [])
  | None => mret (None, [])
  end.

Fixpoint process_authz_list_tags (tags : list Tag) (non_consumed_tag : option Tag) (key_params : list KeyParam)
    : stM bytes Error (list KeyParam) :=
  match tags with
  | [] => match non_consumed_tag with Some _ => liftr (Err Der) | None => mret key_params end
  | t :: tags' =>
    '(non_consumed_tag, ps) ← decode_opt_field non_consumed_tag t;
    process_authz_list_tags tags' non_consumed_tag (key_params ++ ps)
  end.

(** Device IDs are key generation parameters. *)
Definition is_attestation_id (p : KeyParam) : bool :=
  match p with
  | KP_AttestationIdBrand _ | KP_AttestationIdDevice _ | KP_AttestationIdProduct _
  | KP_AttestationIdSerial _ | KP_AttestationIdImei _ | KP_AttestationIdSecondImei _
  | KP_AttestationIdMeid _ | KP_AttestationIdManufacturer _ | KP_AttestationIdModel _ => true
  | _ => false
  end.
Definition add_key_param (l : AuthorizationList) (p : KeyParam) : AuthorizationList :=
  let '(mk_authz auths keygen rot app_id additional) := l in
  match p with
  | KP_RootOfTrust _ => mk_authz auths keygen (Some p) app_id additional
  | KP_AttestationApplicationId _ => mk_authz auths keygen rot (Some p) additional
  | KP_ModuleHash _ => mk_authz auths keygen rot app_id (additional ++ [p])
  | _ => if is_attestation_id p then mk_authz auths (keygen ++ [p]) rot app_id additional
         else mk_authz (auths ++ [p]) keygen rot app_id additional
  end.
Definition new_from_key_params (key_params : list KeyParam) : AuthorizationList :=
  foldl add_key_param (mk_authz [] [] None None []) key_params.

(** [header_length] is the length in the header of the sequence, which has been read. *)
Definition decode_value (header_length : Z) : stM bytes Error AuthorizationList :=
  if decide (header_length = 0) then mret (mk_authz [] [] None None [])
  else
    data ← get_st;
    _ ← liftr (reject_if (bool_decide (len data < header_length)) Der);
    key_params ← process_authz_list_tags authz_list_tags None [];
    mret (new_from_key_params key_params).


(** ** What the [der] crate promises *)

(** [c] appends [n] bytes, whatever has been written before. *)
Definition writes (c : stM bytes Error unit) (n : Z) (b : bytes) : Prop :=
  (∀ buf, c buf = (Ok tt, buf ++ b)) ∧ len b = n.

(** A value whose length can be computed is encoded in that length. *)
Class EncodeOk {A} (c : Encode A) : Prop :=
  encode_ok a n : encoded_len c a = Ok n → ∃ b, writes (encode c a) n b.

(** The encoding of a value. *)
Definition der_bytes {A} (c : Encode A) (a : A) : bytes := (encode c a []).2.

Lemma writes_ret : writes (mret tt) 0 [].
Proof. split; [|done]. intros buf. by rewrite app_nil_r. Qed.
Lemma writes_bind (c d : stM bytes Error unit) n m b1 b2 :
  writes c n b1 → writes d m b2 → writes (_ ← c; d) (n + m) (b1 ++ b2).
Proof.
  intros [Hc Hn] [Hd Hm]. split; [|rewrite len_app; lia].
  intros buf. unfold mbind, stM_bind. by rewrite Hc, Hd, app_assoc.
Qed.
Lemma writes_liftr {A} (r : Result A) (k : A → stM bytes Error unit) a n b :
  r = Ok a → writes (k a) n b → writes (x ← liftr r; k x) n b.
Proof. intros -> [H1 H2]. by split. Qed.
Lemma writes_byte z : writes (write_byte z) 1 [u8_of z].
Proof. by split. Qed.
Lemma writes_det c n m b1 b2 : writes c n b1 → writes c m b2 → b1 = b2 ∧ n = m.
Proof.
  intros [H1 <-] [H2 <-]. specialize (H1 []). rewrite H2 in H1. by injection H1 as <-.
Qed.
Lemma writes_der_bytes {A} (c : Encode A) a n b : writes (encode c a) n b → der_bytes c a = b.
Proof. intros [H _]. unfold der_bytes. by rewrite H. Qed.

Lemma length_add_Ok n r m : length_add n r = Ok m → ∃ k, r = Ok k ∧ m = n + k.
Proof.
  unfold length_add. intros H. res_inv. case_decide; [|done]. injection H as <-. eauto.
Qed.

(** The bytes of an explicit tag. *)
Definition tag_bytes (t : Z) : bytes :=
  (explicit_tag_encode (A:=unit) (mk_etv t tt) []).2.
Lemma explicit_tag_writes {A} (v : ExplicitTaggedValue A) n :
  explicit_tag_len v = Ok n → writes (explicit_tag_encode v) n (tag_bytes (etv_tag v)).
Proof.
  unfold explicit_tag_len, explicit_tag_encode, tag_bytes, explicit_tag_encode. cbn [etv_tag].
  repeat case_decide; intros [= <-].
  - apply writes_byte.
  - apply (writes_bind _ _ 1 1 [_] [_]); apply writes_byte.
  - apply (writes_bind _ _ 1 2 [_] [_; _]); [apply writes_byte|].
    apply (writes_bind _ _ 1 1 [_] [_]); apply writes_byte.
Qed.

Section writing.
Context `{HL : !EncodeOk length_enc}.

(** A field of an authorization list: an encoder and the value, if present. *)
Inductive Field : Type :=
| mk_field {A : Type} (t : Tag) (c : Encode A) (v : Result (option (ExplicitTaggedValue A))).
Definition field_val (f : Field) : stM bytes Error unit := let 'mk_field _ c v := f in asn1_val c v.
Definition field_len (f : Field) : Result Z := let 'mk_field _ c v := f in asn1_len c v.
Definition field_enc_ok (f : Field) : Prop := let 'mk_field _ c _ := f in EncodeOk c.
Fixpoint fields_val (fs : list Field) : stM bytes Error unit :=
  match fs with [] => mret tt | f :: fs' => _ ← field_val f; fields_val fs' end.
Fixpoint fields_len (fs : list Field) (n : Z) : Result Z :=
  match fs with [] => Ok n | f :: fs' => n ← length_add n (field_len f); fields_len fs' n end.

(** The bytes of a field that is present, and of one that may be. *)
Definition etv_bytes {A} (c : Encode A) (v : ExplicitTaggedValue A) : bytes :=
  match encoded_len c (etv_val v) with
  | Ok n => tag_bytes (etv_tag v) ++ der_bytes length_enc n ++ der_bytes c (etv_val v)
  | _ => []
  end.
Definition field_bytes (f : Field) : bytes :=
  let 'mk_field _ c v := f in match v with Ok (Some v) => etv_bytes c v | _ => [] end.

Lemma etv_writes {A} (c : Encode A) `{!EncodeOk c} v n :
  ExplicitTaggedValue_encoded_len c v = Ok n → writes (ExplicitTaggedValue_encode c v) n (etv_bytes c v).
Proof.
  unfold ExplicitTaggedValue_encoded_len, ExplicitTaggedValue_encode, etv_bytes. intros H.
  apply res_bind_Ok in H as (inner_len & Hi & H). apply res_bind_Ok in H as (tag_len & Ht & H).
  apply res_bind_Ok in H as (k & Hk & H). apply length_add_Ok in Hk as (ll & Hll & ->).
  apply length_add_Ok in H as (? & [= <-] & ->). rewrite Hi.
  destruct (encode_ok _ _ Hll) as (bl & Hbl). destruct (encode_ok _ _ Hi) as (bi & Hbi).
  rewrite (writes_der_bytes _ _ _ _ Hbl), (writes_der_bytes _ _ _ _ Hbi).
  eapply writes_liftr; [reflexivity|]. rewrite <- Z.add_assoc.
  apply writes_bind; [by apply explicit_tag_writes|]. by apply writes_bind.
Qed.

Lemma field_writes f n :
  field_enc_ok f → field_len f = Ok n → writes (field_val f) n (field_bytes f).
Proof.
  destruct f as [A t c v]. cbn. unfold asn1_len, asn1_val. intros Hc H.
  apply res_bind_Ok in H as (o & -> & H). eapply writes_liftr; [done|].
  destruct o as [v|]; [by apply etv_writes|]. injection H as <-. apply writes_ret.
Qed.

Lemma fields_writes fs n m :
  Forall field_enc_ok fs → fields_len fs n = Ok m → writes (fields_val fs) (m - n) (fs ≫= field_bytes).
Proof.
  intros Hfs. revert n. induction Hfs as [|f fs Hf _ IH]; intros n H; cbn in *.
  - injection H as <-. rewrite Z.sub_diag. apply writes_ret.
  - apply res_bind_Ok in H as (k & Hk & H). apply length_add_Ok in Hk as (j & Hj & ->).
    replace (m - n) with (j + (m - (n + j))) by lia.
    apply writes_bind; [by apply field_writes|by apply IH].
Qed.

End writing.
(** The fields in the order in which they are written. *)
Definition authz_fields (l : AuthorizationList) : list Field := [
  mk_field Tag_Purpose set_enc (asn1_set_of_integer (al_auths l) Tag_Purpose int_Purpose);
  mk_field Tag_Algorithm int_enc (asn1_integer (al_auths l) Tag_Algorithm int_Algorithm);
  mk_field Tag_KeySize int_enc (asn1_integer (al_auths l) Tag_KeySize int_KeySize);
  mk_field Tag_BlockMode set_enc (asn1_set_of_integer (al_auths l) Tag_BlockMode int_BlockMode);
  mk_field Tag_Digest set_enc (asn1_set_of_integer (al_auths l) Tag_Digest int_Digest);
  mk_field Tag_Padding set_enc (asn1_set_of_integer (al_auths l) Tag_Padding int_Padding);
  mk_field Tag_CallerNonce null_enc (asn1_null (al_auths l) Tag_CallerNonce KP_CallerNonce);
  mk_field Tag_MinMacLength int_enc (asn1_integer (al_auths l) Tag_MinMacLength int_MinMacLength);
  mk_field Tag_EcCurve int_enc (asn1_integer (al_auths l) Tag_EcCurve int_EcCurve);
  mk_field Tag_RsaPublicExponent int_enc (asn1_integer (al_auths l) Tag_RsaPublicExponent
    int_RsaPublicExponent);
  mk_field Tag_RsaOaepMgfDigest set_enc (asn1_set_of_integer (al_auths l) Tag_RsaOaepMgfDigest
    int_RsaOaepMgfDigest);
  mk_field Tag_RollbackResistance null_enc (asn1_null (al_auths l) Tag_RollbackResistance
    KP_RollbackResistance);
  mk_field Tag_EarlyBootOnly null_enc (asn1_null (al_auths l) Tag_EarlyBootOnly KP_EarlyBootOnly);
  mk_field Tag_ActiveDatetime int_enc (asn1_integer_datetime (al_auths l) Tag_ActiveDatetime
    int_ActiveDatetime);
  mk_field Tag_OriginationExpireDatetime int_enc (asn1_integer_datetime (al_auths l)
    Tag_OriginationExpireDatetime int_OriginationExpireDatetime);
  mk_field Tag_UsageExpireDatetime int_enc (asn1_integer_datetime (al_auths l) Tag_UsageExpireDatetime
    int_UsageExpireDatetime);
  mk_field Tag_UsageCountLimit int_enc (asn1_integer (al_auths l) Tag_UsageCountLimit int_UsageCountLimit);
  mk_field Tag_NoAuthRequired null_enc (asn1_null (al_auths l) Tag_NoAuthRequired KP_NoAuthRequired);
  mk_field Tag_UserAuthType int_enc (asn1_integer (al_auths l) Tag_UserAuthType int_UserAuthType);
  mk_field Tag_AuthTimeout int_enc (asn1_integer (al_auths l) Tag_AuthTimeout int_AuthTimeout);
  mk_field Tag_AllowWhileOnBody null_enc (asn1_null (al_auths l) Tag_AllowWhileOnBody KP_AllowWhileOnBody);
  mk_field Tag_TrustedUserPresenceRequired null_enc (asn1_null (al_auths l)
    Tag_TrustedUserPresenceRequired KP_TrustedUserPresenceRequired);
  mk_field Tag_TrustedConfirmationRequired null_enc (asn1_null (al_auths l)
    Tag_TrustedConfirmationRequired KP_TrustedConfirmationRequired);
  mk_field Tag_UnlockedDeviceRequired null_enc (asn1_null (al_auths l) Tag_UnlockedDeviceRequired
    KP_UnlockedDeviceRequired);
  mk_field Tag_CreationDatetime int_enc (asn1_integer_datetime (al_auths l) Tag_CreationDatetime
    int_CreationDatetime);
  mk_field Tag_Origin int_enc (asn1_integer (al_auths l) Tag_Origin int_Origin);
  mk_field Tag_RootOfTrust rot_enc (asn1_rot l);
  mk_field Tag_OsVersion int_enc (asn1_integer (al_auths l) Tag_OsVersion int_OsVersion);
  mk_field Tag_OsPatchlevel int_enc (asn1_integer (al_auths l) Tag_OsPatchlevel int_OsPatchlevel);
  mk_field Tag_AttestationApplicationId octets_enc (asn1_app_id l);
  mk_field Tag_AttestationIdBrand octets_enc (asn1_octet_string (al_keygen_params l)
    Tag_AttestationIdBrand as_AttestationIdBrand);
  mk_field Tag_AttestationIdDevice octets_enc (asn1_octet_string (al_keygen_params l)
    Tag_AttestationIdDevice as_AttestationIdDevice);
  mk_field Tag_AttestationIdProduct octets_enc (asn1_octet_string (al_keygen_params l)
    Tag_AttestationIdProduct as_AttestationIdProduct);
  mk_field Tag_AttestationIdSerial octets_enc (asn1_octet_string (al_keygen_params l)
    Tag_AttestationIdSerial as_AttestationIdSerial);
  mk_field Tag_AttestationIdImei octets_enc (asn1_octet_string (al_keygen_params l)
    Tag_AttestationIdImei as_AttestationIdImei);
  mk_field Tag_AttestationIdMeid octets_enc (asn1_octet_string (al_keygen_params l)
    Tag_AttestationIdMeid as_AttestationIdMeid);
  mk_field Tag_AttestationIdManufacturer octets_enc (asn1_octet_string (al_keygen_params l)
    Tag_AttestationIdManufacturer as_AttestationIdManufacturer);
  mk_field Tag_AttestationIdModel octets_enc (asn1_octet_string (al_keygen_params l)
    Tag_AttestationIdModel as_AttestationIdModel);
  mk_field Tag_VendorPatchlevel int_enc (asn1_integer (al_auths l) Tag_VendorPatchlevel
    int_VendorPatchlevel);
  mk_field Tag_BootPatchlevel int_enc (asn1_integer (al_auths l) Tag_BootPatchlevel int_BootPatchlevel);
  mk_field Tag_DeviceUniqueAttestation null_enc (asn1_null (al_auths l) Tag_DeviceUniqueAttestation
    KP_DeviceUniqueAttestation);
  mk_field Tag_AttestationIdSecondImei octets_enc (asn1_octet_string (al_keygen_params l)
    Tag_AttestationIdSecondImei as_AttestationIdSecondImei);
  mk_field Tag_ModuleHash octets_enc (asn1_octet_string (al_additional_attestation_info l)
    Tag_ModuleHash as_ModuleHash)].

Lemma encode_value_fields l : encode_value l = fields_val (authz_fields l).
Proof. reflexivity. Qed.
Lemma value_len_fields l :
  value_len l = match authz_fields l with f :: fs => n ← field_len f; fields_len fs n | [] => Ok 0 end.
Proof. reflexivity. Qed.

(** ** The assumptions about the crate *)

(** A value that can be encoded is read back as one unit. *)
Definition tlv_ok {A} (c : Encode A) : Prop :=
  ∀ a n rest, encoded_len c a = Ok n → tlv_bytes (der_bytes c a ++ rest) = (Ok (der_bytes c a), rest).

Class DerLaws : Prop := {
  length_encode_ok : EncodeOk length_enc;
  int_encode_ok : EncodeOk int_enc;
  null_encode_ok : EncodeOk null_enc;
  octets_encode_ok : EncodeOk octets_enc;
  set_encode_ok : EncodeOk set_enc;
  rot_encode_ok : EncodeOk rot_enc;
  length_roundtrip n k rest :
    encoded_len length_enc n = Ok k → length_decode (der_bytes length_enc n ++ rest) = (Ok n, rest);
  int_tlv : tlv_ok int_enc;
  null_tlv : tlv_ok null_enc;
  octets_tlv : tlv_ok octets_enc;
  set_tlv : tlv_ok set_enc;
  rot_tlv : tlv_ok rot_enc;
  i32_roundtrip z : is_i32 z → i32_from_der (der_bytes int_enc z) = Ok z;
  u32_roundtrip z : is_u32 z → u32_from_der (der_bytes int_enc z) = Ok z;
  i64_roundtrip z : is_i64 z → i64_from_der (der_bytes int_enc z) = Ok z;
  u64_roundtrip z : is_u64 z → is_i64 z → u64_from_der (der_bytes int_enc z) = Ok z;
  null_roundtrip : null_from_der (der_bytes null_enc tt) = Ok tt;
  octets_roundtrip b n : encoded_len octets_enc b = Ok n → octets_from_der (der_bytes octets_enc b) = Ok b;
  (* sets of natural numbers are kept in increasing order *)
  set_insert s v s' : Forall (λ x, 0 ≤ x ∧ is_i32 x) s → 0 ≤ v ∧ is_i32 v → set_insert_ordered s v = Ok s' →
    s' = s ++ [v] ∧ ∀ w, last s = Some w → w < v;
  set_roundtrip s n : Forall (λ x, 0 ≤ x ∧ is_i32 x) s → StronglySorted Z.lt s →
    encoded_len set_enc s = Ok n → set_from_der (der_bytes set_enc s) = Ok s;
  rot_roundtrip r n : encoded_len rot_enc r = Ok n → rot_from_der (der_bytes rot_enc r) = Ok r
}.

Context `{DL : !DerLaws}.
#[local] Existing Instances length_encode_ok int_encode_ok null_encode_ok octets_encode_ok set_encode_ok rot_encode_ok.

Lemma authz_fields_enc_ok l : Forall field_enc_ok (authz_fields l).
Proof. repeat constructor; cbn; apply DL. Qed.

Lemma encode_value_writes l n :
  value_len l = Ok n → writes (encode_value l) n (authz_fields l ≫= field_bytes).
Proof.
  rewrite encode_value_fields, value_len_fields. pose proof (authz_fields_enc_ok l) as Hok.
  destruct (authz_fields l) as [|f fs]; [intros [= <-]; apply writes_ret|].
  intros H. apply res_bind_Ok in H as (k & Hk & H). inversion_clear Hok.
  replace n with (k + (n - k)) by lia.
  apply writes_bind; [by apply field_writes|by apply fields_writes].
Qed.

(** The length that is announced for an authorization list is the number of bytes that
    encoding it then writes: the two passes over the 43 fields agree, so a list whose
    length can be computed can be encoded. *)
Theorem authz_value_len_exact l n :
  value_len l = Ok n →
  ∃ out, (∀ buf, encode_value l buf = (Ok tt, buf ++ out)) ∧ len out = n.
Proof. intros H. eexists. apply (encode_value_writes _ _ H). Qed.

(** ** Tags *)

(** Every tag that can occur is recovered from the one to three bytes of its explicit
    encoding, and exactly those bytes are read. *)
Theorem explicit_tag_roundtrip t rest :
  t ≠ Tag_Invalid →
  explicit_tag_encode (mk_etv (raw_tag_value t) tt) [] = (Ok tt, tag_bytes (raw_tag_value t)) ∧
  decode_tag_from_bytes (tag_bytes (raw_tag_value t) ++ rest) = (Ok (Some t), rest).
Proof. intros Ht. destruct t; try done; split; vm_compute; reflexivity. Qed.

(** ** User secure IDs *)

Definition without_secure_ids (ps : list KeyParam) : list KeyParam :=
  filter (λ p, as_UserSecureId p = None) ps.

Lemma omap_without_secure_ids {A} (sel : KeyParam → option A) ps :
  (∀ v, sel (KP_UserSecureId v) = None) → omap sel (without_secure_ids ps) = omap sel ps.
Proof.
  intros Hs. unfold without_secure_ids. induction ps as [|p ps IH]; [done|].
  rewrite filter_cons. destruct (decide (as_UserSecureId p = None)) as [Hp|Hp]; cbn; [by rewrite IH|].
  destruct p; cbn in Hp; try done. by rewrite Hs, IH.
Qed.
Lemma filter_without_secure_ids flag ps :
  as_UserSecureId flag = None →
  filter (λ p, p = flag) (without_secure_ids ps) = filter (λ p, p = flag) ps.
Proof.
  intros Hf. unfold without_secure_ids. rewrite list_filter_filter.
  apply list_filter_iff. intros p. naive_solver.
Qed.
Lemma get_opt_without_secure_ids {A} (sel : KeyParam → option A) ps :
  (∀ v, sel (KP_UserSecureId v) = None) →
  get_opt_tag_value sel (without_secure_ids ps) = get_opt_tag_value sel ps.
Proof.
  intros Hs. unfold get_opt_tag_value. by rewrite !get_opt_tag_value_spec, omap_without_secure_ids.
Qed.
Lemma get_bool_without_secure_ids flag ps :
  as_UserSecureId flag = None →
  get_bool_tag_value (without_secure_ids ps) flag = get_bool_tag_value ps flag.
Proof. intros Hf. unfold get_bool_tag_value. by rewrite filter_without_secure_ids. Qed.

Lemma authz_fields_without_secure_ids auths keygen rot app additional :
  authz_fields (mk_authz (without_secure_ids auths) keygen rot app additional) =
  authz_fields (mk_authz auths keygen rot app additional).
Proof.
  unfold authz_fields. cbn [al_auths al_keygen_params al_rot_info al_app_id al_additional_attestation_info].
  unfold asn1_set_of_integer, asn1_integer, asn1_integer_datetime, asn1_null.
  rewrite !omap_without_secure_ids by done. rewrite !get_opt_without_secure_ids by done.
  rewrite !get_bool_without_secure_ids by done. reflexivity.
Qed.

(** The user secure IDs of an authorization list leave no trace in its encoding: lists that
    differ only in them have the same encoding.  [import_wrapped_key] uses the re-encoded
    key description as authenticated data, so the secure ID in a wrapper is either not
    authenticated or makes the unwrapping fail. *)
Theorem authz_secure_ids_not_encoded auths1 auths2 keygen rot app additional buf :
  without_secure_ids auths1 = without_secure_ids auths2 →
  encode_value (mk_authz auths1 keygen rot app additional) buf =
  encode_value (mk_authz auths2 keygen rot app additional) buf.
Proof.
  intros H. rewrite !encode_value_fields.
  by rewrite <- (authz_fields_without_secure_ids auths1), H, authz_fields_without_secure_ids.
Qed.

(** ** Decoding inverts encoding *)

(** Without values equal to their predecessor. *)
Fixpoint dedup_from {A} `{EqDecision A} (prev : option A) (l : list A) : list A :=
  match l with
  | [] => []
  | x :: l' => if bool_decide (prev = Some x) then dedup_from prev l' else x :: dedup_from (Some x) l'
  end.

(** The parameters with tag [t], as a field represents them. *)
Definition group (t : Tag) (ps : list KeyParam) : list KeyParam :=
  dedup_from None (filter (λ p, tag p = t) ps).

(** The parameters a field is taken from. *)
Definition field_source (l : AuthorizationList) (t : Tag) : list KeyParam :=
  match t with
  | Tag_RootOfTrust => option_list (al_rot_info l)
  | Tag_AttestationApplicationId => option_list (al_app_id l)
  | Tag_AttestationIdBrand | Tag_AttestationIdDevice | Tag_AttestationIdProduct
  | Tag_AttestationIdSerial | Tag_AttestationIdImei | Tag_AttestationIdMeid
  | Tag_AttestationIdManufacturer | Tag_AttestationIdModel | Tag_AttestationIdSecondImei =>
    al_keygen_params l
  | Tag_ModuleHash => al_additional_attestation_info l
  | _ => al_auths l
  end.

Definition field_tag (f : Field) : Tag := let 'mk_field t _ _ := f in t.
(** What is written after the tag. *)
Definition field_body (f : Field) : bytes :=
  let 'mk_field _ c v := f in
  match v with
  | Ok (Some v) => match encoded_len c (etv_val v) with
                   | Ok n => der_bytes length_enc n ++ der_bytes c (etv_val v)
                   | _ => []
                   end
  | _ => []
  end.

(** A field that is present and stands for the parameters [ps]. *)
Definition decodes_to (f : Field) (ps : list KeyParam) : Prop :=
  field_tag f ≠ Tag_Invalid ∧
  field_bytes f = tag_bytes (raw_tag_value (field_tag f)) ++ field_body f ∧
  ∀ rest, (inner_len ← length_decode;
           data ← get_st;
           _ ← liftr (reject_if (bool_decide (len data < inner_len)) Der);
           next_tlv ← tlv_bytes;
           ps ← liftr (decode_value_from_bytes (field_tag f) next_tlv);
           mret (None (A:=Tag), ps)) (field_body f ++ rest) = (Ok (None, ps), rest).

(** [data] is what remains to be read of the fields [P], given a tag read in advance. *)
Definition represents (nc : option Tag) (data : bytes) (P : list (Field * list KeyParam)) : Prop :=
  (nc = None ∧ data = P ≫= (λ fp, field_bytes fp.1)) ∨
  (∃ f ps P', P = (f, ps) :: P' ∧ nc = Some (field_tag f) ∧
              data = field_body f ++ (P' ≫= (λ fp, field_bytes fp.1))).

Lemma decode_tag_ok t rest : t ≠ Tag_Invalid →
  decode_tag_from_bytes (tag_bytes (raw_tag_value t) ++ rest) = (Ok (Some t), rest).
Proof. intros Ht. destruct t; try done; vm_compute; reflexivity. Qed.

(** Reading the next tag, if it has not been read. *)
Lemma represents_tag nc f ps P data :
  represents nc data ((f, ps) :: P) → decodes_to f ps →
  (match nc with None => decode_tag_from_bytes | Some _ => mret nc end) data =
  (Ok (Some (field_tag f)), field_body f ++ (P ≫= (λ fp, field_bytes fp.1))).
Proof.
  intros [[-> ->]|(f' & ps' & P' & [= <- <- <-] & -> & ->)] (Ht & Hb & _); [|done].
  cbn [mbind list_bind fst]. rewrite Hb, <- app_assoc. by apply decode_tag_ok.
Qed.

Lemma process_fields tags P nc kp data :
  (field_tag ∘ fst <$> P) `sublist_of` tags → Forall (λ fp, decodes_to fp.1 fp.2) P →
  represents nc data P →
  process_authz_list_tags tags nc kp data = (Ok (kp ++ (P ≫= snd)), []).
Proof.
  revert P nc kp data. induction tags as [|t tags IH]; intros P nc kp data Hsub HP Hrep.
  - apply sublist_nil_r in Hsub. destruct P; [|done].
    destruct Hrep as [[-> ->]|(? & ? & ? & ? & _)]; [|done]. cbn. by rewrite app_nil_r.
  - cbn [process_authz_list_tags]. unfold mbind at 1, stM_bind at 1. destruct P as [|[f ps] P].
    { destruct Hrep as [[-> ->]|(? & ? & ? & ? & _)]; [|done].
      replace (decode_opt_field None t ([] ≫= (λ fp : Field * list KeyParam, field_bytes fp.1)))
        with (Ok (E:=Error) (None (A:=Tag), [] : list KeyParam), [] : bytes) by done.
      cbn beta iota. rewrite app_nil_r.
      rewrite (IH [] None kp []); [by cbn; rewrite app_nil_r|apply sublist_nil_l|done|by left]. }
    inversion HP as [|?? Hf HP']; subst. cbn in Hf. unfold decode_opt_field, mbind at 1, stM_bind at 1.
    rewrite (represents_tag _ _ _ _ _ Hrep Hf). cbn [fmap list_fmap compose fst] in Hsub.
    case_decide as Heq.
    + destruct Hf as (_ & _ & Hd). subst t. rewrite Hd. cbn beta iota.
      rewrite (IH P); [cbn; by rewrite app_assoc| |done|by left].
      inversion Hsub; subst; [done|]. etrans; [|done]. by apply sublist_cons.
    + cbn [mret stM_ret]. unfold mret, stM_ret. rewrite app_nil_r.
      rewrite (IH ((f, ps) :: P)); [done| |done|right; eauto 10].
      inversion Hsub; subst; done.
Qed.

(** A field is absent and stands for nothing, or is present and decodes. *)
Definition field_spec (f : Field) (ps : list KeyParam) : Prop :=
  (field_bytes f = [] ∧ ps = []) ∨ decodes_to f ps.

Lemma field_spec_intro {A} t (c : Encode A) v ps m :
  t ≠ Tag_Invalid → EncodeOk c → tlv_ok c → asn1_len c v = Ok m →
  (v = Ok None → ps = []) →
  (∀ e n, v = Ok (Some e) → encoded_len c (etv_val e) = Ok n →
     etv_tag e = raw_tag_value t ∧ decode_value_from_bytes t (der_bytes c (etv_val e)) = Ok ps) →
  field_spec (mk_field t c v) ps.
Proof.
  intros Ht Hc Htlv Hlen Hnone Hsome. unfold asn1_len in Hlen.
  apply res_bind_Ok in Hlen as ([e|] & -> & Hlen); [right|left; split; [done|by apply Hnone]].
  unfold ExplicitTaggedValue_encoded_len in Hlen. apply res_bind_Ok in Hlen as (n & Hn & Hlen).
  apply res_bind_Ok in Hlen as (? & _ & Hlen). apply res_bind_Ok in Hlen as (? & Hk & _).
  apply length_add_Ok in Hk as (k & Hk & _). destruct (Hsome e n eq_refl Hn) as [He Hd].
  unfold decodes_to, field_tag, field_bytes, field_body, etv_bytes. rewrite Hn, He.
  split_and!; [done..|]. intros rest. rewrite <- app_assoc.
  unfold mbind at 1, stM_bind at 1. rewrite (length_roundtrip _ _ _ Hk).
  unfold mbind at 1, stM_bind at 1, get_st at 1.
  destruct (encode_ok _ _ Hn) as (b & Hb). pose proof (writes_der_bytes _ _ _ _ Hb) as Eb.
  destruct Hb as [_ Hb]. rewrite <- Eb in Hb.
  rewrite bool_decide_eq_false_2 by (rewrite len_app; pose proof (len_nonneg rest); lia).
  unfold mbind at 1, stM_bind at 1, liftr at 1. cbn [reject_if].
  unfold mbind at 1, stM_bind at 1. rewrite (Htlv _ _ _ Hn).
  unfold mbind at 1, stM_bind at 1, liftr at 1. by rewrite Hd.
Qed.

(** A variant of [KeyParam] with a payload. *)
Record variant {A} (t : Tag) (sel : KeyParam → option A) (mk : A → KeyParam) : Prop := {
  variant_sel p v : sel p = Some v ↔ p = mk v;
  variant_tag p : tag p = t ↔ is_Some (sel p)
}.

Lemma variant_filter {A} t sel (mk : A → KeyParam) (ps : list KeyParam) :
  variant t sel mk → filter (λ p, tag p = t) ps = mk <$> omap sel ps.
Proof.
  intros [Hsel Htag]. induction ps as [|p ps IH]; [done|]. rewrite filter_cons, IH. cbn.
  destruct (sel p) as [v|] eqn:Hp.
  - rewrite decide_True by (apply Htag; by eexists). apply Hsel in Hp as ->. done.
  - rewrite decide_False; [done|]. intros Ht. apply Htag in Ht as [v Hv]. congruence.
Qed.

Lemma dedup_fmap {A B} `{EqDecision A, EqDecision B} (f : A → B) `{!Inj (=) (=) f} prev l :
  dedup_from (f <$> prev) (f <$> l) = f <$> dedup_from prev l.
Proof.
  revert prev. induction l as [|x l IH]; intros prev; [done|]. cbn.
  assert (bool_decide (f <$> prev = Some (f x)) = bool_decide (prev = Some x)) as ->.
  { apply bool_decide_ext. destruct prev as [a|]; cbn; [|done].
    split; intros [= H]; [f_equal; by apply (inj f)|by subst]. }
  case_bool_decide; [apply IH|]. cbn. f_equal. apply (IH (Some x)).
Qed.

Section kinds.
Context {A : Type} (t : Tag) (sel : KeyParam → option A) (mk : A → KeyParam) (ps : list KeyParam).
Context (V : variant t sel mk) (Ht : t ≠ Tag_Invalid).

Lemma group_variant : group t ps = dedup_from None (mk <$> omap sel ps).
Proof. unfold group. by rewrite (variant_filter _ _ _ _ V). Qed.

(** At most one value. *)
Lemma group_opt v : get_opt_tag_value sel ps = Ok v → group t ps = mk <$> option_list v.
Proof.
  unfold get_opt_tag_value. rewrite get_opt_tag_value_Ok, group_variant. intros ->. by destruct v.
Qed.
Lemma get_opt_elem v : get_opt_tag_value sel ps = Ok (Some v) → mk v ∈ ps.
Proof.
  unfold get_opt_tag_value. rewrite get_opt_tag_value_Ok. intros Ho.
  assert (v ∈ omap sel ps) as Hv by (rewrite Ho; left).
  apply list_elem_of_omap in Hv as (p & Hp & Hs). by apply (variant_sel _ _ _ V) in Hs as ->.
Qed.

(** A field with at most one value, which [f] maps to what is encoded. *)
Lemma opt_field {B} (c : Encode B) (f : A → B) val m :
  EncodeOk c → tlv_ok c →
  (val = Ok None → get_opt_tag_value sel ps = Ok None) →
  (∀ e, val = Ok (Some e) →
     ∃ v, get_opt_tag_value sel ps = Ok (Some v) ∧ e = mk_etv (raw_tag_value t) (f v)) →
  (∀ v n, mk v ∈ ps → encoded_len c (f v) = Ok n →
     decode_value_from_bytes t (der_bytes c (f v)) = Ok [mk v]) →
  asn1_len c val = Ok m → field_spec (mk_field t c val) (group t ps).
Proof.
  intros Hc Htlv Hnone Hsome Hdec Hm. eapply field_spec_intro; [done..| |].
  - intros H. by rewrite (group_opt None (Hnone H)).
  - intros e n H Hn. destruct (Hsome e H) as (v & Hv & ->). split; [done|].
    rewrite (group_opt _ Hv). cbn in *. eapply Hdec; [by apply get_opt_elem|done].
Qed.
End kinds.

Lemma asn1_opt_inv {A B} (r : Result (option A)) (k : A → Result (option B)) (val : Result (option B)) :
  val = (o ← map_err der_failed r; match o with Some v => k v | None => Ok None end) →
  (∀ v, k v ≠ Ok None) →
  (val = Ok None → r = Ok None) ∧
  (∀ e, val = Ok (Some e) → ∃ v, r = Ok (Some v) ∧ k v = Ok (Some e)).
Proof. intros -> Hk. destruct r as [[v|]| |]; cbn; naive_solver. Qed.

Section opt_kinds.
Context (t : Tag) (ps : list KeyParam) (m : Z) (Ht : t ≠ Tag_Invalid).

Lemma integer_field sel mk from_der :
  variant t sel mk →
  (∀ tlv, decode_value_from_bytes t tlv = key_param_from_asn1_integer mk from_der tlv) →
  (∀ v, mk v ∈ ps → is_i64 v ∧ from_der (der_bytes int_enc v) = Ok v) →
  asn1_len int_enc (asn1_integer ps t sel) = Ok m →
  field_spec (mk_field t int_enc (asn1_integer ps t sel)) (group t ps).
Proof.
  intros V Hdec Hr. 
  destruct (asn1_opt_inv (get_opt_tag_value sel ps) (λ v, Ok (Some (mk_etv (raw_tag_value t) (as_i64 v))))
    (asn1_integer ps t sel) eq_refl) as [Hn Hs]; [done|].
  apply (opt_field _ _ _ _ V Ht _ as_i64); [apply DL|apply int_tlv|exact Hn| |].
  - intros e He. destruct (Hs e He) as (v & Hv & [= <-]). eauto.
  - intros v n Hin _. destruct (Hr v Hin) as [Hi Hd]. rewrite as_signed_id by (done || lia).
    rewrite Hdec. unfold key_param_from_asn1_integer. by rewrite Hd.
Qed.
Lemma datetime_field sel mk :
  variant t sel mk →
  (∀ tlv, decode_value_from_bytes t tlv = key_param_from_asn1_integer mk i64_from_der tlv) →
  (∀ v, mk v ∈ ps → is_i64 v) →
  asn1_len int_enc (asn1_integer_datetime ps t sel) = Ok m →
  field_spec (mk_field t int_enc (asn1_integer_datetime ps t sel)) (group t ps).
Proof.
  intros V Hdec Hr. 
  destruct (asn1_opt_inv (get_opt_tag_value sel ps) (λ v, Ok (Some (mk_etv (raw_tag_value t) v)))
    (asn1_integer_datetime ps t sel) eq_refl) as [Hn Hs]; [done|].
  apply (opt_field _ _ _ _ V Ht _ id); [apply DL|apply int_tlv|exact Hn| |].
  - intros e He. destruct (Hs e He) as (v & Hv & [= <-]). eauto.
  - intros v n Hin _. cbn. rewrite Hdec. unfold key_param_from_asn1_integer.
    by rewrite i64_roundtrip by auto.
Qed.
Lemma octets_field sel mk :
  variant t sel mk →
  (∀ tlv, decode_value_from_bytes t tlv = key_param_from_asn1_octet_string mk tlv) →
  asn1_len octets_enc (asn1_octet_string ps t sel) = Ok m →
  field_spec (mk_field t octets_enc (asn1_octet_string ps t sel)) (group t ps).
Proof.
  intros V Hdec. 
  destruct (asn1_opt_inv (get_opt_tag_value sel ps)
    (λ v, _ ← octet_string_new v; Ok (Some (mk_etv (raw_tag_value t) v)))
    (asn1_octet_string ps t sel) eq_refl) as [Hn Hs].
  { intros v. by destruct (octet_string_new v). }
  apply (opt_field _ _ _ _ V Ht _ id); [apply DL|apply octets_tlv|exact Hn| |].
  - intros e He. destruct (Hs e He) as (v & Hv & Hk). apply res_bind_Ok in Hk as (? & _ & [= <-]). eauto.
  - intros v n _ Hl. cbn in *. rewrite Hdec. unfold key_param_from_asn1_octet_string.
    by rewrite (octets_roundtrip _ _ Hl).
Qed.
Lemma enum_field {A} `{EnumI32 A} (sel : KeyParam → option A) (mk : A → KeyParam) :
  variant t sel mk →
  (∀ tlv, decode_value_from_bytes t tlv = key_param_from_asn1_enum mk tlv) →
  asn1_len int_enc (asn1_integer ps t (λ p, discr <$> sel p)) = Ok m →
  field_spec (mk_field t int_enc (asn1_integer ps t (λ p, discr <$> sel p))) (group t ps).
Proof.
  intros V Hdec. 
  destruct (asn1_opt_inv (get_opt_tag_value (λ p, discr <$> sel p) ps)
    (λ v, Ok (Some (mk_etv (raw_tag_value t) (as_i64 v))))
    (asn1_integer ps t (λ p, discr <$> sel p)) eq_refl) as [Hn Hs]; [done|].
  assert (∀ o, get_opt_tag_value (λ p, discr <$> sel p) ps = Ok o →
            ∃ o', o = discr <$> o' ∧ get_opt_tag_value sel ps = Ok o') as Hsel.
  { intros o Ho. unfold get_opt_tag_value in *. rewrite get_opt_tag_value_Ok in Ho.
    rewrite get_opt_tag_value_spec. rewrite <- list_fmap_omap in Ho.
    destruct (omap sel ps) as [|v [|w l]]; destruct o; simplify_eq/=; [by exists None|].
    exists (Some v). by simplify_eq. }
  apply (opt_field _ _ _ _ V Ht _ (λ v, as_i64 (discr v))); [apply DL|apply int_tlv| | |].
  - intros Hv. destruct (Hsel _ (Hn Hv)) as ([|] & Ho & ?); done.
  - intros e He. destruct (Hs e He) as (z & Hz & [= <-]). destruct (Hsel _ Hz) as ([v|] & Ho & Hv); [|done].
    injection Ho as ->. eauto.
  - intros v n _ _. pose proof (discr_is_i32 v) as Hi.
    rewrite as_signed_id by (range_lia || lia). rewrite Hdec. unfold key_param_from_asn1_enum.
    rewrite i32_roundtrip by done. cbn. unfold enum_of_integer. by rewrite try_from_discr.
Qed.
End opt_kinds.

Lemma StronglySorted_snoc s v :
  StronglySorted Z.lt s → (∀ w, last s = Some w → w < v) → StronglySorted Z.lt (s ++ [v]).
Proof.
  intros Hs Hv. apply StronglySorted_app_2; [|done|by repeat constructor].
  intros x y Hx Hy%list_elem_of_singleton. subst y.
  destruct (last s) as [w|] eqn:Hw; [|apply last_None in Hw as ->; by apply elem_of_nil in Hx].
  specialize (Hv w eq_refl). apply last_Some in Hw as [s' ->].
  apply elem_of_app in Hx as [Hx|Hx%list_elem_of_singleton]; [|by subst].
  apply StronglySorted_app_1_elem_of with (x1:=x) (x2:=w) in Hs; [lia|done|left].
Qed.

Lemma set_of_integer_from_ok results s s' :
  Forall (λ z, 0 ≤ z ∧ is_i32 z) results → Forall (λ x, 0 ≤ x ∧ is_i32 x) s → StronglySorted Z.lt s →
  set_of_integer_from results s (last s) = Ok s' →
  s' = s ++ dedup_from (last s) results ∧ StronglySorted Z.lt s'.
Proof.
  intros Hr. revert s. induction Hr as [|v results [Hv0 Hv] _ IH]; intros s Hs Hsort H; cbn in H.
  - injection H as <-. by rewrite app_nil_r.
  - rewrite as_signed_id in H by (range_lia || lia). cbn [dedup_from].
    case_bool_decide as Hp; [by apply IH|].
    apply res_bind_Ok in H as (s1 & H1 & H). apply set_insert in H1 as [-> Hlt]; [|done..].
    replace (Some v) with (last (s ++ [v])) in H by apply last_snoc.
    apply IH in H as [-> Hsort']; [|by apply Forall_app_2; [|by constructor]|by apply StronglySorted_snoc].
    rewrite last_snoc in *. by rewrite <- app_assoc in *.
Qed.

Lemma collect_enums_discr {A} `{REnum A} (mk : A → KeyParam) (l : list A) :
  collect_enums mk (discr <$> l) = Ok (mk <$> l).
Proof.
  induction l as [|v l IH]; [done|]. cbn. unfold enum_of_integer. rewrite try_from_discr. cbn.
  by rewrite IH.
Qed.

Lemma set_field {A} `{EnumI32 A} `{EqDecision A} t (sel : KeyParam → option A) (mk : A → KeyParam) ps m :
  variant t sel mk → t ≠ Tag_Invalid → (∀ v : A, 0 ≤ discr v) →
  (∀ tlv, decode_value_from_bytes t tlv = key_params_from_asn1_set_of_integer mk tlv) →
  asn1_len set_enc (asn1_set_of_integer ps t (λ p, discr <$> sel p)) = Ok m →
  field_spec (mk_field t set_enc (asn1_set_of_integer ps t (λ p, discr <$> sel p))) (group t ps).
Proof.
  intros V Ht Hpos Hdec Hm. rewrite (group_variant _ _ _ _ V).
  assert (Inj (=) (=) mk) as Hinj.
  { intros x y Hxy. apply (inj Some). rewrite <- (proj2 (variant_sel _ _ _ V (mk x) x) eq_refl), Hxy.
    by apply (variant_sel _ _ _ V). }
  eapply field_spec_intro; [done|apply DL|apply set_tlv|exact Hm|..]; unfold asn1_set_of_integer;
    rewrite <- list_fmap_omap; clear Hm; destruct (omap sel ps) as [|v0 l0].
  { done. }
  { intros Hx. cbn in Hx. by apply res_bind_Ok in Hx as (? & _ & ?). }
  { done. }
  intros e n He Hn.
  change (discr <$> v0 :: l0) with (discr v0 :: (discr <$> l0)) in He. cbn beta iota in He.
  apply res_bind_Ok in He as (s & Hs & [= <-]). cbn [etv_tag etv_val] in *. split; [done|].
  change (discr v0 :: (discr <$> l0)) with (discr <$> v0 :: l0) in Hs. set (l := v0 :: l0) in *.
  assert (Forall (λ z, 0 ≤ z ∧ is_i32 z) (discr <$> l)) as Hall.
  { apply Forall_fmap, Forall_true. intros v. split; [apply Hpos|apply discr_is_i32]. }
  apply (set_of_integer_from_ok _ []) in Hs as [-> Hsort]; [|done|constructor..].
  cbn [app last] in *. change (@None Z) with (discr (A:=A) <$> None) in *.
  rewrite (dedup_fmap discr) in *.
  rewrite Hdec. unfold key_params_from_asn1_set_of_integer.
  assert (Forall (λ z, 0 ≤ z ∧ is_i32 z) (discr <$> dedup_from None l)) as Hi32
    by (apply Forall_fmap, Forall_true; intros v; split; [apply Hpos|apply discr_is_i32]).
  rewrite (set_roundtrip _ _ Hi32 Hsort Hn).
  cbn [mbind res_bind]. rewrite collect_enums_discr. f_equal. symmetry. apply (dedup_fmap mk None l).
Qed.

Lemma null_field t flag ps m :
  (∀ p, tag p = t ↔ p = flag) → t ≠ Tag_Invalid →
  (∀ tlv, decode_value_from_bytes t tlv = key_param_from_asn1_null flag tlv) →
  asn1_len null_enc (asn1_null ps t flag) = Ok m →
  field_spec (mk_field t null_enc (asn1_null ps t flag)) (group t ps).
Proof.
  intros Htag Ht Hdec Hm.
  assert (filter (λ p, tag p = t) ps = filter (λ p, p = flag) ps) as Hf by (apply list_filter_iff; apply Htag).
  assert (∀ b, get_bool_tag_value ps flag = Ok b → group t ps = if b then [flag] else []) as Hg.
  { intros b. rewrite get_bool_tag_value_spec. unfold group. rewrite Hf. intros Hb.
    assert (∀ p, p ∈ filter (λ p, p = flag) ps → p = flag) as Hall
      by (intros p Hp; by apply list_elem_of_filter in Hp as [? _]).
    destruct (filter (λ p, p = flag) ps) as [|p [|q l]]; cbn in Hb.
    - by injection Hb as <-.
    - injection Hb as <-. rewrite (Hall p) by left. done.
    - done. }
  eapply field_spec_intro; [done|apply DL|apply null_tlv|exact Hm|..]; unfold asn1_null.
  - intros H. apply res_bind_Ok in H as (b & Hb & H). apply map_err_Ok in Hb.
    rewrite (Hg b Hb). by destruct b.
  - intros e n H _. apply res_bind_Ok in H as (b & Hb & H). apply map_err_Ok in Hb.
    destruct b; [|done]. injection H as <-. split; [done|]. cbn [etv_val]. rewrite Hdec.
    unfold key_param_from_asn1_null. rewrite null_roundtrip. cbn. by rewrite (Hg _ Hb).
Qed.

(** ** All fields *)

(** Lists with integers in the range of their Rust type and an exponent that is written as
    a positive number, whose root of trust is an encoded one. *)
Record authz_wf (l : AuthorizationList) : Prop := {
  aw_auths : Forall kp_wf (al_auths l);
  aw_exponent v : KP_RsaPublicExponent v ∈ al_auths l → v < 2 ^ 63;
  aw_rot : al_rot_info l = None ∨
    ∃ r n, al_rot_info l = Some (KP_RootOfTrust (der_bytes rot_enc r)) ∧ encoded_len rot_enc r = Ok n;
  aw_app_id : al_app_id l = None ∨ ∃ b, al_app_id l = Some (KP_AttestationApplicationId b)
}.

(** The parameters a field stands for. *)
Definition field_params (l : AuthorizationList) (f : Field) : list KeyParam :=
  group (field_tag f) (field_source l (field_tag f)).
(** What decoding the encoding of [l] gives. *)
Definition canonical (l : AuthorizationList) : AuthorizationList :=
  new_from_key_params (authz_fields l ≫= field_params l).

Lemma rot_field l m :
  authz_wf l → asn1_len rot_enc (asn1_rot l) = Ok m →
  field_spec (mk_field Tag_RootOfTrust rot_enc (asn1_rot l)) (group Tag_RootOfTrust (option_list (al_rot_info l))).
Proof.
  intros Hwf Hm. destruct (aw_rot _ Hwf) as [Hr|(r & n & Hr & Hn)].
  - left. cbn. unfold asn1_rot. by rewrite Hr.
  - eapply field_spec_intro; [done|apply DL|apply rot_tlv|exact Hm|..]; unfold asn1_rot; rewrite Hr;
      rewrite (rot_roundtrip _ _ Hn); [done|].
    intros e k [= <-] _. cbn [etv_tag etv_val option_list]. done.
Qed.
Lemma app_id_field l m :
  authz_wf l → asn1_len octets_enc (asn1_app_id l) = Ok m →
  field_spec (mk_field Tag_AttestationApplicationId octets_enc (asn1_app_id l))
    (group Tag_AttestationApplicationId (option_list (al_app_id l))).
Proof.
  intros Hwf Hm. destruct (aw_app_id _ Hwf) as [Ha|(b & Ha)].
  - left. cbn. unfold asn1_app_id. by rewrite Ha.
  - eapply field_spec_intro; [done|apply DL|apply octets_tlv|exact Hm|..]; unfold asn1_app_id; rewrite Ha.
    + intros H. by apply res_bind_Ok in H as (? & _ & ?).
    + intros e k H Hk. apply res_bind_Ok in H as (? & _ & [= <-]). cbn in *. split; [done|].
      unfold key_param_from_asn1_octet_string. by rewrite (octets_roundtrip _ _ Hk).
Qed.

Lemma fields_len_all fs n m : fields_len fs n = Ok m → Forall (λ f, ∃ k, field_len f = Ok k) fs.
Proof.
  revert n. induction fs as [|f fs IH]; intros n H; [done|]. cbn in H.
  apply res_bind_Ok in H as (k & Hk & H). apply length_add_Ok in Hk as (j & Hj & _).
  constructor; eauto.
Qed.
Lemma value_len_all l n : value_len l = Ok n → Forall (λ f, ∃ k, field_len f = Ok k) (authz_fields l).
Proof.
  rewrite value_len_fields. destruct (authz_fields l) as [|f fs]; [done|]. intros H.
  apply res_bind_Ok in H as (k & Hk & H). constructor; [eauto|]. by eapply fields_len_all.
Qed.

Ltac solve_variant :=
  split; [intros [] ?; cbn; split; congruence |
          intros []; cbn; split; intros Hx; first [done | by eexists | by destruct Hx]].
Ltac unfold_sel Hk :=
  match goal with
  | |- field_spec (mk_field _ _ (asn1_set_of_integer _ _ ?s)) _ => unfold s in Hk |- *
  | |- field_spec (mk_field _ _ (asn1_integer _ _ ?s)) _ => unfold s in Hk |- *
  end.
Ltac wf_range Hwf :=
  intros v Hv; pose proof (proj1 (Forall_forall _ _) (aw_auths _ Hwf) _ Hv) as Hr; cbn in Hr.

Lemma authz_field_spec l f :
  authz_wf l → f ∈ authz_fields l → (∃ k, field_len f = Ok k) → field_spec f (field_params l f).
Proof.
  intros Hwf Hf [k Hk]. unfold authz_fields in Hf.
  repeat (apply elem_of_cons in Hf as [->|Hf];
    [cbn [field_len] in Hk; unfold field_params; cbn [field_tag field_source]; revert k Hk|]);
    [..|by apply elem_of_nil in Hf];
  intros k Hk;
  first
  [ by apply (rot_field l k) | by apply (app_id_field l k)
  | (unfold_sel Hk; eapply set_field; [|done| |reflexivity|exact Hk]; [solve_variant|intros []; cbn; lia])
  | (unfold_sel Hk; eapply enum_field; [done|apply _| |reflexivity|exact Hk]; solve_variant)
  | (eapply datetime_field; [done| |reflexivity| |exact Hk]; [solve_variant|wf_range Hwf; exact Hr])
  | (eapply null_field; [|done|reflexivity|exact Hk]; intros []; cbn; split; congruence)
  | (eapply octets_field; [done| |reflexivity|exact Hk]; solve_variant)
  | (eapply integer_field; [done| |reflexivity| |exact Hk]; [solve_variant|];
     wf_range Hwf; split; [range_lia|by apply u32_roundtrip])
  | (eapply integer_field; [done| |reflexivity| |exact Hk]; [solve_variant|];
     wf_range Hwf; pose proof (aw_exponent _ Hwf _ Hv); split; [range_lia|apply u64_roundtrip; range_lia]) ].
Qed.

Lemma authz_tags_sublist l : (field_tag <$> authz_fields l) `sublist_of` authz_list_tags.
Proof. cbn. unfold authz_list_tags. repeat first [apply sublist_nil | apply sublist_skip | apply sublist_cons]. Qed.

Lemma tag_bytes_nonempty t : t ≠ Tag_Invalid → tag_bytes (raw_tag_value t) ≠ [].
Proof. by destruct t. Qed.

(** The fields that are present. *)
Lemma present_fields fs (params : Field → list KeyParam) :
  Forall (λ f, field_spec f (params f)) fs →
  ∃ P, (field_tag ∘ fst <$> P) `sublist_of` (field_tag <$> fs) ∧
       Forall (λ fp, decodes_to fp.1 fp.2) P ∧
       P ≫= (λ fp, field_bytes fp.1) = fs ≫= field_bytes ∧ P ≫= snd = fs ≫= params.
Proof.
  induction 1 as [|f fs Hf _ (P & Hsub & HP & Hb & Hp)]; [by exists []; split_and!; constructor|].
  destruct Hf as [[Hf1 Hf2]|Hf].
  - exists P. cbn. rewrite Hf1, Hf2. split_and!; [by apply sublist_cons|done..].
  - exists ((f, params f) :: P). cbn. rewrite Hb, Hp. split_and!; [by apply sublist_skip|by constructor|done..].
Qed.

Lemma authz_decode l n :
  authz_wf l → value_len l = Ok n →
  decode_value n (authz_fields l ≫= field_bytes) = (Ok (canonical l), []).
Proof.
  intros Hwf Hn. pose proof (value_len_all _ _ Hn) as Hlen. destruct (encode_value_writes _ _ Hn) as [_ Hout].
  destruct (present_fields (authz_fields l) (field_params l)) as (P & Hsub & HP & Hb & Hp).
  { apply Forall_forall. intros f Hf. apply authz_field_spec; [done..|].
    exact (proj1 (Forall_forall _ _) Hlen f Hf). }
  assert (process_authz_list_tags authz_list_tags None [] (authz_fields l ≫= field_bytes) =
          (Ok (authz_fields l ≫= field_params l), [])) as Hproc.
  { rewrite (process_fields _ P); [by rewrite Hp| |done|by left].
    etrans; [exact Hsub|apply authz_tags_sublist]. }
  unfold decode_value. case_decide as Hz.
  - subst n. assert (authz_fields l ≫= field_bytes = []) as Hnil.
    { destruct (authz_fields l ≫= field_bytes); [done|]. unfold len in Hz. cbn in Hz. lia. }
    assert (P = []) as ->.
    { destruct P as [|[f ps] P]; [done|]. exfalso. inversion_clear HP as [|?? (Ht & Hbt & _)].
      rewrite Hnil in Hb. cbn in Hb. cbn in Hbt, Ht. rewrite Hbt in Hb.
      destruct (tag_bytes (raw_tag_value (field_tag f))) eqn:E; [by apply tag_bytes_nonempty in E|done]. }
    unfold canonical. rewrite <- Hp, Hnil. done.
  - unfold mbind at 1, stM_bind at 1, get_st at 1. rewrite Hout.
    rewrite bool_decide_eq_false_2 by lia. unfold mbind at 1, stM_bind at 1, liftr at 1. cbn [reject_if].
    unfold mbind at 1, stM_bind at 1. by rewrite Hproc.
Qed.

(** C31: Encoding a well-formed authorization list and decoding the result gives its canonical
    form: the same parameters in the order of the fields, without what has no field (such
    as user secure IDs) and without repetitions, and reads all of the encoding.  A list in
    canonical form is recovered exactly. *)
Theorem authz_roundtrip l n :
  authz_wf l → value_len l = Ok n →
  ∃ out, encode_value l [] = (Ok tt, out) ∧ len out = n ∧
         decode_value n out = (Ok (canonical l), []) ∧ (canonical l = l → decode_value n out = (Ok l, [])).
Proof.
  intros Hwf Hn. destruct (encode_value_writes _ _ Hn) as [Hw Hl]. eexists. split_and!; [apply Hw|done|..].
  - by apply authz_decode.
  - intros Hc. pose proof (authz_decode _ _ Hwf Hn) as Hd. rewrite Hc in Hd. exact Hd.
Qed.
End asn1.

(** ** An encoding that satisfies the assumptions

    Not DER: a value is numbered, and its number written in binary after its length. *)

Module SampleDer.

Definition payload {A} `{Countable A} (a : A) : bytes := pos_bytes (countable.encode a).
Definition sample_enc {A} `{Countable A} : Encode A := {|
  encoded_len a := if decide (len (payload a) < 2 ^ 32) then Ok (4 + len (payload a)) else Err Der;
  encode a := modify (λ out, out ++ le_split 4 (len (payload a)) ++ payload a)
|}.
Definition sample_from_der {A} `{Countable A} (b : bytes) : Result A :=
  ok_or (countable.decode (bytes_pos (drop 4 b)).1) Der.

Definition vbs_num (v : VerifiedBootStateAsn1) : Z :=
  match v with Asn1_Verified => 0 | Asn1_SelfSigned => 1 | Asn1_Unverified => 2 | Asn1_Failed => 3 end.
Definition num_vbs (z : Z) : VerifiedBootStateAsn1 :=
  match z with 0 => Asn1_Verified | 1 => Asn1_SelfSigned | 2 => Asn1_Unverified | _ => Asn1_Failed end.
#[export] Instance vbs_eq_dec : EqDecision VerifiedBootStateAsn1.
Proof. solve_decision. Defined.
#[export] Instance rot_eq_dec : EqDecision RootOfTrust.
Proof. solve_decision. Defined.
#[export] Instance rot_countable : Countable RootOfTrust.
Proof.
  apply (inj_countable' (λ r, (rot_verified_boot_key r, rot_device_locked r, vbs_num (rot_verified_boot_state r),
                               rot_verified_boot_hash r)) (λ '(k, b, v, h), mk_rot k b (num_vbs v) h)).
  by intros [k b [] h].
Defined.

#[export] Instance sample_der : DerCrate := {|
  length_max := 2 ^ 28 - 1;
  length_enc := {| encoded_len n := if decide (0 ≤ n < 2 ^ 32) then Ok 4 else Err Der;
                   encode n := modify (λ out, out ++ le_split 4 n) |};
  int_enc := sample_enc;
  null_enc := sample_enc;
  octet_string_new _ := Ok tt;
  octets_enc := sample_enc;
  set_insert_ordered s v :=
    if match last s with Some w => w <? v | None => true end then Ok (s ++ [v]) else Err Der;
  set_enc := sample_enc;
  rot_enc := sample_enc;
  length_decode data := if decide (len data < 4) then (Err Der, data)
                        else (Ok (le_combine (take 4 data)), drop 4 data);
  tlv_bytes data :=
    let n := (4 + Z.to_nat (le_combine (take 4 data)))%nat in
    if decide (length data < n)%nat then (Err Der, data) else (Ok (take n data), drop n data);
  i32_from_der := sample_from_der; u32_from_der := sample_from_der;
  i64_from_der := sample_from_der; u64_from_der := sample_from_der;
  null_from_der := sample_from_der; octets_from_der := sample_from_der;
  set_from_der := sample_from_der; rot_from_der := sample_from_der
|}.

Lemma sample_encode_ok {A} `{Countable A} : EncodeOk (sample_enc (A:=A)).
Proof.
  intros a n Hn. cbn in Hn. case_decide; [|done]. injection Hn as <-. eexists. split; [done|].
  rewrite len_app. unfold len at 1. by rewrite length_le_split.
Qed.
Lemma sample_bytes {A} `{Countable A} (a : A) :
  der_bytes sample_enc a = le_split 4 (len (payload a)) ++ payload a.
Proof. done. Qed.
Lemma sample_roundtrip {A} `{Countable A} (a : A) : sample_from_der (der_bytes sample_enc a) = Ok a.
Proof.
  rewrite sample_bytes. unfold sample_from_der.
  rewrite drop_app_length' by (by rewrite length_le_split).
  rewrite <- (app_nil_r (payload a)). unfold payload. rewrite bytes_pos_bytes. cbn.
  by rewrite decode_encode.
Qed.
Lemma sample_tlv {A} `{Countable A} : tlv_ok (sample_enc (A:=A)).
Proof.
  intros a n rest Hn. cbn in Hn. case_decide as Hlen; [|done]. rewrite sample_bytes.
  cbn [tlv_bytes sample_der]. rewrite <- app_assoc, take_app_length' by (by rewrite length_le_split).
  rewrite le_combine_split, Z.mod_small by (pose proof (len_nonneg (payload a)); lia).
  unfold len. rewrite Nat2Z.id, app_assoc.
  assert (length (le_split 4 (Z.of_nat (length (payload a))) ++ payload a) = (4 + length (payload a))%nat) as Hl
    by (by rewrite length_app, length_le_split).
  rewrite decide_False by (rewrite length_app, Hl; lia).
  by rewrite take_app_length', drop_app_length' by done.
Qed.

#[export] Instance sample_der_laws : DerLaws.
Proof.
  split; try apply sample_encode_ok; try apply sample_tlv; try (intros; apply sample_roundtrip).
  - intros n k Hk. cbn in Hk. case_decide; [|done]. injection Hk as <-. eexists. split; [done|].
    unfold len. by rewrite length_le_split.
  - intros n k rest Hk. cbn in Hk. case_decide; [|done]. unfold der_bytes. cbn [encode length_enc sample_der modify snd app].
    cbn [length_decode sample_der]. rewrite decide_False by (unfold len; rewrite length_app, length_le_split; lia).
    rewrite take_app_length', drop_app_length' by (by rewrite length_le_split).
    by rewrite le_combine_split, Z.mod_small by lia.
  - intros s v s' _ _ H. cbn in H. destruct (last s) as [w|] eqn:Hw.
    + destruct (w <? v) eqn:Hlt; [|done]. injection H as <-. split; [done|]. intros w' [= <-]. lia.
    + by injection H as <-.
Qed.

(** An authorization list with a field of every kind. *)
Definition sample_rot : RootOfTrust :=
  mk_rot (replicate 32 (u8_of 0xbb)) false Asn1_Unverified (replicate 32 (u8_of 0xee)).
Definition sample_auths : list KeyParam :=
  [KP_Purpose KeyPurpose_Sign; KP_Purpose KeyPurpose_Verify; KP_Algorithm Algorithm_Ec; KP_KeySize 256;
   KP_NoAuthRequired; KP_CreationDatetime (-5); KP_Origin KeyOrigin_Generated; KP_OsVersion 130000].
Definition sample_list : AuthorizationList :=
  mk_authz sample_auths [KP_AttestationIdBrand (bytes_of_string "brand")]
    (Some (KP_RootOfTrust (der_bytes rot_enc sample_rot)))
    (Some (KP_AttestationApplicationId (bytes_of_string "app")))
    [KP_ModuleHash (replicate 32 (u8_of 0xaa))].
Definition sample_len : Z := match value_len sample_list with Ok n => n | _ => 0 end.
Lemma sample_list_len : value_len sample_list = Ok sample_len.
Proof. vm_compute. reflexivity. Qed.
Lemma sample_list_wf : authz_wf sample_list.
Proof.
  split.
  - repeat constructor; cbn; range_lia.
  - intros v Hv. cbn in Hv. repeat (apply elem_of_cons in Hv as [Hv|Hv]; [done|]). by apply elem_of_nil in Hv.
  - right. eexists sample_rot, _. split; [done|]. vm_compute. reflexivity.
  - right. by eexists.
Qed.

Lemma authz_value_len_exact_witness :
  value_len sample_list = Ok sample_len ∧
  ∃ out, (∀ buf, encode_value sample_list buf = (Ok tt, buf ++ out)) ∧ len out = sample_len.
Proof. split; [apply sample_list_len|]. exact (authz_value_len_exact _ _ sample_list_len). Defined.

Lemma explicit_tag_roundtrip_witness :
  Tag_RootOfTrust ≠ Tag_Invalid ∧
  tag_bytes (raw_tag_value Tag_RootOfTrust) = u8_of <$> [0xbf; 0x85; 0x40] ∧
  decode_tag_from_bytes (tag_bytes (raw_tag_value Tag_RootOfTrust) ++ [u8_of 1]) = (Ok (Some Tag_RootOfTrust), [u8_of 1]).
Proof.
  split_and!; [done|reflexivity|]. apply (explicit_tag_roundtrip Tag_RootOfTrust [u8_of 1]). done.
Defined.

Lemma authz_secure_ids_not_encoded_witness :
  without_secure_ids (KP_UserSecureId 2 :: sample_auths) = without_secure_ids sample_auths ∧
  encode_value (mk_authz (KP_UserSecureId 2 :: sample_auths) [] None None []) [] =
  encode_value (mk_authz sample_auths [] None None []) [].
Proof. split; [reflexivity|]. apply authz_secure_ids_not_encoded. reflexivity. Defined.

Lemma authz_roundtrip_witness :
  authz_wf sample_list ∧ value_len sample_list = Ok sample_len ∧ canonical sample_list = sample_list ∧
  ∃ out, encode_value sample_list [] = (Ok tt, out) ∧ decode_value sample_len out = (Ok sample_list, []).
Proof.
  split_and!; [apply sample_list_wf|apply sample_list_len|vm_compute; reflexivity|].
  destruct (authz_roundtrip _ _ sample_list_wf sample_list_len) as (out & He & _ & _ & Hd).
  exists out. split; [exact He|]. apply Hd. vm_compute. reflexivity.
Defined.
End SampleDer.
