(* ===== verification/Cert.v ===== *)
(** * Certificates and attestation extensions ([ta/src/cert.rs])

    The contents of the X.509 certificate of a new key: validity, key usage, issuer and
    subject, and the attestation extension with its two authorization lists.  The [x509_cert]
    crate is a parameter ([X509]).  A device ID is attested only if it is the provisioned
    one; the extension binds the key's characteristics to the root of trust; the form of a
    validity date is the one of RFC 5280 from 1970 on. *)

From S2P Require Import Prelude Wire TagLegacy CryptoTypes TagParams Codec WireCodec EcKeys Asn1.

Definition ATTESTATION_EXTENSION_OID : Oid := "1.3.6.1.4.1.11129.2.1.17".
Definition EMPTY_BOOT_KEY : bytes := replicate 32 (u8_of 0).

(** ** Contents of certificates *)

Inductive KeyUsages : Set :=
| DigitalSignature | KeyEncipherment | DataEncipherment | KeyAgreement | KeyCertSign.
#[export] Instance KeyUsages_eq_dec : EqDecision KeyUsages.
Proof. solve_decision. Defined.
#[export] Instance KeyUsages_countable : Countable KeyUsages.
Proof.
  apply (inj_countable'
    (λ u, match u with DigitalSignature => 0 | KeyEncipherment => 1 | DataEncipherment => 2
                     | KeyAgreement => 3 | KeyCertSign => 4 end)
    (λ n : Z, match n with 0 => DigitalSignature | 1 => KeyEncipherment | 2 => DataEncipherment
                     | 3 => KeyAgreement | _ => KeyCertSign end)).
  by intros [].
Defined.
Abbreviation KeyUsage := (gset KeyUsages).

Record BasicConstraints := mk_basic_constraints {
  bc_ca : bool;
  bc_path_len_constraint : option Z
}.
Inductive SecurityLevelAsn1 : Set := Asn1_Software | Asn1_TrustedEnvironment | Asn1_Strongbox.
Record AttestationExtension := mk_attestation_extension {
  ae_attestation_version : Z;
  ae_attestation_security_level : SecurityLevelAsn1;
  ae_keymint_version : Z;
  ae_keymint_security_level : SecurityLevelAsn1;
  ae_attestation_challenge : bytes;
  ae_unique_id : bytes;
  ae_sw_enforced : AuthorizationList;
  ae_hw_enforced : AuthorizationList
}.
Record Extension := mk_extension { extn_id : Oid; extn_critical : bool; extn_value : bytes }.

(** The [x509_cert] crate: names, serial numbers, times and bit strings, with their
    validation. *)
Class X509 := {
  rdn_sequence : Type;
  rdn_from_der : bytes → option rdn_sequence;
  rdn_to_der : rdn_sequence → option bytes;
  certificate_subject : bytes → option rdn_sequence;       (* of a parsed certificate *)
  serial_number_new : bytes → option bytes;
  bit_string_new : bytes → option bytes;
  UtcTime : Type;
  GeneralizedTime : Type;
  utc_from_unix_duration : Z → option UtcTime;             (* seconds *)
  general_from_unix_duration : Z → option GeneralizedTime;
  KEY_USAGE_OID : Oid;
  BASIC_CONSTRAINTS_OID : Oid
}.

(** Combined information needed for signing a fresh public key. *)
Record SigningInfo := mk_signing_info {
  si_attestation_info : option (bytes * bytes);   (* challenge and application ID *)
  si_signing_key : KeyMaterial;
  si_issuer_subject : bytes;
  si_chain : list Certificate
}.

Section cert.
Context `{X : X509} `{D : DerCrate}.

Inductive Time := Time_Utc (t : UtcTime) | Time_General (t : GeneralizedTime).
Record TbsCertificate := mk_tbs {
  tbs_serial_number : bytes;
  tbs_signature : Oid;                          (* no parameters *)
  tbs_issuer : rdn_sequence;
  tbs_not_before : Time;
  tbs_not_after : Time;
  tbs_subject : rdn_sequence;
  tbs_subject_public_key_info : SubjectPublicKeyInfo;
  tbs_extensions : list Extension
}.
Record X509Certificate := mk_certificate {
  cert_tbs_certificate : TbsCertificate;
  cert_signature_algorithm : Oid;
  cert_signature : bytes
}.

(** The encodings derived from the fields of these structures. *)
Class CertCodecs := {
  key_usage_enc : Encode KeyUsage;
  basic_constraints_enc : Encode BasicConstraints;
  sequence_header_enc : Encode Z;
  attestation_extension_enc : Encode AuthorizationList → Encode AttestationExtension;
  tbs_enc : Encode TbsCertificate;
  certificate_enc : Encode X509Certificate
}.

(** [Encode::to_der]: the buffer has the announced size. *)
Definition to_der {A} (c : Encode A) (a : A) : Result bytes :=
  n ← encoded_len c a;
  match encode c a [] with
  | (Ok _, out) => if decide (len out = n) then Ok out else Err Der
  | (Err e, _) => Err e
  | (Panic, _) => Panic
  end.
Definition asn1_der_encode {A} (c : Encode A) (obj : A) : Result bytes := to_der c obj.

(** [AuthorizationList] as a SEQUENCE. *)
Definition authz_enc `{!CertCodecs} : Encode AuthorizationList :=
  mk_encode
    (λ l, n ← value_len l; h ← encoded_len sequence_header_enc n; length_add h (Ok n))
    (λ l, n ← liftr (value_len l); _ ← encode sequence_header_enc n; encode_value l).

Definition certificate (tbs_cert : TbsCertificate) (sig_val : bytes) : Result X509Certificate :=
  signature ← ok_or (bit_string_new sig_val) Der;
  Ok (mk_certificate tbs_cert (tbs_signature tbs_cert) signature).

(** ** Validity *)

Definition MAX_UTC_TIME : Z := 2524608000.
Definition validity_time_from_datetime (when : Z) : Result Time :=
  let secs_since_epoch := Z.quot when 1000 in
  if decide (0 ≤ when) then
    let duration := secs_since_epoch in
    if decide (MAX_UTC_TIME ≤ duration) then
      t ← ok_or (general_from_unix_duration duration) Der; Ok (Time_General t)
    else
      t ← ok_or (utc_from_unix_duration duration) Der; Ok (Time_Utc t)
  else
    t ← ok_or (general_from_unix_duration 0) Der; Ok (Time_General t).

(** ** Extensions *)

Definition key_usage_bits_of (purpose : KeyPurpose) : KeyUsage :=
  match purpose with
  | KeyPurpose_Sign | KeyPurpose_Verify => {[ DigitalSignature ]}
  | KeyPurpose_Decrypt | KeyPurpose_Encrypt => {[ DataEncipherment; KeyEncipherment ]}
  | KeyPurpose_WrapKey => {[ KeyEncipherment ]}
  | KeyPurpose_AgreeKey => {[ KeyAgreement ]}
  | KeyPurpose_AttestKey => {[ KeyCertSign ]}
  end.
Definition key_usage_extension_bits (params : list KeyParam) : KeyUsage :=
  foldl (λ bits param, match param with
                       | KP_Purpose purpose => bits ∪ key_usage_bits_of purpose
                       | _ => bits
                       end) ∅ params.
Definition basic_constraints_ext_value (ca_required : bool) : BasicConstraints :=
  mk_basic_constraints ca_required None.

Definition octet_extension (oid : Oid) (critical : bool) (value : bytes) : Result Extension :=
  _ ← octet_string_new value; Ok (mk_extension oid critical value).
Definition opt_extension (oid : Oid) (critical : bool) (value : option bytes) : Result (list Extension) :=
  match value with
  | Some v => e ← octet_extension oid critical v; Ok [e]
  | None => Ok []
  end.

Definition tbs_certificate (info : option SigningInfo) (spki : SubjectPublicKeyInfo)
    (key_usage_ext_bits : bytes) (basic_constraint_ext_val attestation_ext : option bytes)
    (chars params : list KeyParam) : Result TbsCertificate :=
  cert_serial ← get_cert_serial params;
  cert_subject ← get_cert_subject params;
  not_before ← get_tag_value as_CertificateNotBefore params MissingNotBefore;
  not_after ← get_tag_value as_CertificateNotAfter params MissingNotAfter;
  sig_alg_oid ←
    match info with
    | Some info =>
      match si_signing_key info with
      | KM_Rsa _ => Ok SHA256_PKCS1_SIGNATURE_OID
      | KM_Ec curve _ _ => Ok (curve_to_signing_oid curve)
      | _ => km_err UnsupportedAlgorithm
      end
    | None =>
      alg ← get_algorithm params;
      match alg with
      | Algorithm_Rsa => Ok SHA256_PKCS1_SIGNATURE_OID
      | Algorithm_Ec => curve ← get_ec_curve chars; Ok (curve_to_signing_oid curve)
      | _ => km_err UnsupportedAlgorithm
      end
    end;
  let cert_issuer := match info with Some info => si_issuer_subject info | None => cert_subject end in
  key_usage_extension ← octet_extension KEY_USAGE_OID true key_usage_ext_bits;
  basic_constraint_ext ← opt_extension BASIC_CONSTRAINTS_OID true basic_constraint_ext_val;
  attest_ext ← opt_extension ATTESTATION_EXTENSION_OID false attestation_ext;
  let cert_extensions := key_usage_extension :: basic_constraint_ext ++ attest_ext in
  serial_number ← ok_or (serial_number_new cert_serial) Der;
  issuer ← ok_or (rdn_from_der cert_issuer) Der;
  not_before ← validity_time_from_datetime not_before;
  not_after ← validity_time_from_datetime not_after;
  subject ← ok_or (rdn_from_der cert_subject) Der;
  Ok (mk_tbs serial_number sig_alg_oid issuer not_before not_after subject spki cert_extensions).

Definition extract_subject (cert : Certificate) : Result bytes :=
  subject ← ok_or (certificate_subject (Certificate_encoded_certificate cert)) (Hal EncodingError);
  ok_or (rdn_to_der subject) (Hal EncodingError).

(** ** Authorization lists *)

Definition check_attestation_id (params : list KeyParam) (sel : KeyParam → option bytes)
    (mustmatch : option bytes) : Result unit :=
  val ← get_opt_tag_value sel params;
  match val with
  | None => Ok tt
  | Some val =>
    match mustmatch with
    | None => km_err CannotAttestIds
    | Some want => reject_if (bool_decide (val ≠ want)) (Hal CannotAttestIds)
    end
  end.

Definition AuthorizationList_new (auths keygen_params : list KeyParam)
    (attestation_ids : option AttestationIdInfo) (rot_info : option RootOfTrust) (app_id : option bytes)
    (additional_attestation_info : list KeyParam) : Result AuthorizationList :=
  _ ← check_attestation_id keygen_params as_AttestationIdBrand (AttestationIdInfo_brand <$> attestation_ids);
  _ ← check_attestation_id keygen_params as_AttestationIdDevice (AttestationIdInfo_device <$> attestation_ids);
  _ ← check_attestation_id keygen_params as_AttestationIdProduct (AttestationIdInfo_product <$> attestation_ids);
  _ ← check_attestation_id keygen_params as_AttestationIdSerial (AttestationIdInfo_serial <$> attestation_ids);
  _ ← check_attestation_id keygen_params as_AttestationIdImei (AttestationIdInfo_imei <$> attestation_ids);
  _ ← check_attestation_id keygen_params as_AttestationIdSecondImei (AttestationIdInfo_imei2 <$> attestation_ids);
  _ ← check_attestation_id keygen_params as_AttestationIdMeid (AttestationIdInfo_meid <$> attestation_ids);
  _ ← check_attestation_id keygen_params as_AttestationIdManufacturer
        (AttestationIdInfo_manufacturer <$> attestation_ids);
  _ ← check_attestation_id keygen_params as_AttestationIdModel (AttestationIdInfo_model <$> attestation_ids);
  encoded_rot ← match rot_info with
                | Some rot => r ← to_der rot_enc rot; Ok (Some r)
                | None => Ok None
                end;
  Ok (mk_authz auths keygen_params (KP_RootOfTrust <$> encoded_rot)
        (KP_AttestationApplicationId <$> app_id) additional_attestation_info).

Definition VerifiedBootState_into (state : VerifiedBootState) : VerifiedBootStateAsn1 :=
  match state with
  | VerifiedBootState_Verified => Asn1_Verified
  | VerifiedBootState_SelfSigned => Asn1_SelfSigned
  | VerifiedBootState_Unverified => Asn1_Unverified
  | VerifiedBootState_Failed => Asn1_Failed
  end.
Definition RootOfTrust_from (info : BootInfo) : RootOfTrust :=
  mk_rot (match verified_boot_key info with [] => EMPTY_BOOT_KEY | _ => verified_boot_key info end)
    (device_boot_locked info) (VerifiedBootState_into (verified_boot_state info)) (verified_boot_hash info).

(** The characteristics for the two lists; a later entry replaces an earlier one. *)
Fixpoint split_characteristics (security_lvl : SecurityLevel) (chars : list KeyCharacteristics)
    (sw_chars hw_chars : list KeyParam) : Result (list KeyParam * list KeyParam) :=
  match chars with
  | [] => Ok (sw_chars, hw_chars)
  | c :: chars' =>
    match security_level c with
    | SecurityLevel_Keystore | SecurityLevel_Software =>
      split_characteristics security_lvl chars' (authorizations c) hw_chars
    | l =>
      if decide (l = security_lvl) then split_characteristics security_lvl chars' sw_chars (authorizations c)
      else km_err InvalidTag
    end
  end.
Definition SecurityLevelAsn1_try_from (l : SecurityLevel) : Result SecurityLevelAsn1 :=
  match l with
  | SecurityLevel_Software => Ok Asn1_Software
  | SecurityLevel_TrustedEnvironment => Ok Asn1_TrustedEnvironment
  | SecurityLevel_Strongbox => Ok Asn1_Strongbox
  | SecurityLevel_Keystore => km_err InvalidArgument
  end.
Definition attestation_extension (keymint_version : Z) (challenge app_id : bytes)
    (security_lvl : SecurityLevel) (attestation_ids : option AttestationIdInfo)
    (params : list KeyParam) (chars : list KeyCharacteristics) (unique_id : bytes)
    (boot_info : BootInfo) (additional_attestation_info : list KeyParam) : Result AttestationExtension :=
  '(sw_chars, hw_chars) ← split_characteristics security_lvl chars [] [];
  let '(sw_params, hw_params) :=
    match security_lvl with SecurityLevel_Software => (params, []) | _ => ([], params) end in
  sw_enforced ← AuthorizationList_new sw_chars sw_params attestation_ids None (Some app_id)
                  additional_attestation_info;
  hw_enforced ← AuthorizationList_new hw_chars hw_params attestation_ids
                  (Some (RootOfTrust_from boot_info)) None [];
  sec_level ← SecurityLevelAsn1_try_from security_lvl;
  Ok (mk_attestation_extension keymint_version sec_level keymint_version sec_level challenge unique_id
        sw_enforced hw_enforced).

(** ** Device IDs *)

(** The requestable device IDs, with the provisioned value of each. *)
Definition attestation_id_table : list ((KeyParam → option bytes) * (AttestationIdInfo → bytes)) :=
  [(as_AttestationIdBrand, AttestationIdInfo_brand); (as_AttestationIdDevice, AttestationIdInfo_device);
   (as_AttestationIdProduct, AttestationIdInfo_product); (as_AttestationIdSerial, AttestationIdInfo_serial);
   (as_AttestationIdImei, AttestationIdInfo_imei); (as_AttestationIdSecondImei, AttestationIdInfo_imei2);
   (as_AttestationIdMeid, AttestationIdInfo_meid);
   (as_AttestationIdManufacturer, AttestationIdInfo_manufacturer);
   (as_AttestationIdModel, AttestationIdInfo_model)].
(** Each ID is requested at most once, and then with the provisioned value. *)
Definition ids_attestable (ids : option AttestationIdInfo) (params : list KeyParam) : Prop :=
  Forall (λ '(sel, field), match omap sel params with
                           | [] => True
                           | [v] => field <$> ids = Some v
                           | _ => False
                           end) attestation_id_table.
#[export] Instance ids_attestable_dec ids params : Decision (ids_attestable ids params).
Proof.
  apply Forall_dec. intros [sel field]. destruct (omap sel params) as [|v [|w l]]; apply _.
Defined.

Fixpoint check_ids (params : list KeyParam) (ids : option AttestationIdInfo)
    (table : list ((KeyParam → option bytes) * (AttestationIdInfo → bytes))) : Result unit :=
  match table with
  | [] => Ok tt
  | (sel, field) :: table' =>
    _ ← check_attestation_id params sel (field <$> ids); check_ids params ids table'
  end.
Lemma AuthorizationList_new_checks auths params ids rot app_id additional :
  AuthorizationList_new auths params ids rot app_id additional =
  _ ← check_ids params ids attestation_id_table;
  encoded_rot ← match rot with Some rot => r ← to_der rot_enc rot; Ok (Some r) | None => Ok None end;
  Ok (mk_authz auths params (KP_RootOfTrust <$> encoded_rot) (KP_AttestationApplicationId <$> app_id) additional).
Proof.
  unfold AuthorizationList_new, attestation_id_table. cbn [check_ids].
  repeat (match goal with |- (check_attestation_id ?p ?s ?f ≫= _) = _ =>
    destruct (check_attestation_id p s f) as [[]|?|]; [|reflexivity..] end; cbn [mbind res_bind]).
  done.
Qed.
Lemma check_attestation_id_spec params sel (want : option bytes) :
  check_attestation_id params sel want =
  match omap sel params with
  | [] => Ok tt
  | [v] => if decide (want = Some v) then Ok tt else km_err CannotAttestIds
  | _ => km_err InvalidTag
  end.
Proof.
  unfold check_attestation_id, get_opt_tag_value. rewrite get_opt_tag_value_spec.
  destruct (omap sel params) as [|v [|w l]]; [done| |done]. cbn [mbind res_bind].
  destruct want as [want|]; [|done]. unfold reject_if. case_bool_decide; case_decide; naive_solver.
Qed.
Lemma check_ids_spec params ids table :
  (check_ids params ids table = Ok tt ↔
   Forall (λ '(sel, field), match omap sel params with
                           | [] => True
                           | [v] => field <$> ids = Some v
                           | _ => False
                           end) table) ∧
  (check_ids params ids table = Ok tt ∨ check_ids params ids table = km_err CannotAttestIds ∨
   check_ids params ids table = km_err InvalidTag).
Proof.
  induction table as [|[sel field] table [IH1 IH2]]; cbn [check_ids]; [naive_solver|].
  rewrite Forall_cons, <- IH1, check_attestation_id_spec.
  destruct (omap sel params) as [|v [|w l]]; [naive_solver| |naive_solver]. case_decide; naive_solver.
Qed.

(** Device ID attestation: an authorization list is built exactly when every device ID asked
    for occurs once and is the provisioned one (and the root of trust can be encoded); it
    then carries its inputs.  Otherwise the error is [CannotAttestIds], or [InvalidTag] when
    an ID is repeated. *)
Theorem attestation_ids_provisioned auths params ids rot app_id additional :
  (ids_attestable ids params →
   AuthorizationList_new auths params ids rot app_id additional =
   encoded_rot ← match rot with Some rot => r ← to_der rot_enc rot; Ok (Some r) | None => Ok None end;
   Ok (mk_authz auths params (KP_RootOfTrust <$> encoded_rot) (KP_AttestationApplicationId <$> app_id) additional)) ∧
  (¬ ids_attestable ids params →
   AuthorizationList_new auths params ids rot app_id additional = km_err CannotAttestIds ∨
   AuthorizationList_new auths params ids rot app_id additional = km_err InvalidTag).
Proof.
  rewrite AuthorizationList_new_checks. unfold ids_attestable.
  destruct (check_ids_spec params ids attestation_id_table) as [[H1 H2] H3]. split.
  - intros H. by rewrite (H2 H).
  - intros H. destruct H3 as [H3|[->| ->]]; [|by left|by right]. by apply H1 in H3.
Qed.

(** ** The attestation extension *)

(** The list of characteristics that [extract_key_characteristics] builds for a new key. *)
Definition key_chars (lvl : SecurityLevel) (enforced keystore : list KeyParam) : list KeyCharacteristics :=
  {| security_level := lvl; authorizations := enforced |} ::
  match keystore with
  | [] => []
  | _ => [{| security_level := SecurityLevel_Keystore; authorizations := keystore |}]
  end.
Definition hardware_level (lvl : SecurityLevel) : bool :=
  match lvl with SecurityLevel_TrustedEnvironment | SecurityLevel_Strongbox => true | _ => false end.

Lemma split_key_chars lvl enforced keystore :
  hardware_level lvl = true →
  split_characteristics lvl (key_chars lvl enforced keystore) [] [] = Ok (keystore, enforced).
Proof. destruct lvl; try done; intros _; by destruct keystore. Qed.
Lemma split_software_chars enforced keystore :
  split_characteristics SecurityLevel_Software (key_chars SecurityLevel_Software enforced keystore) [] [] =
  Ok (match keystore with [] => enforced | _ => keystore end, []).
Proof. by destruct keystore. Qed.
Lemma ids_attestable_nil ids : ids_attestable ids [].
Proof. by repeat constructor. Qed.
Lemma AuthorizationList_new_Ok auths params ids rot app_id additional l :
  AuthorizationList_new auths params ids rot app_id additional = Ok l ↔
  ids_attestable ids params ∧ ∃ r,
    match rot with Some rot => ∃ b, to_der rot_enc rot = Ok b ∧ r = Some b | None => r = None end ∧
    l = mk_authz auths params (KP_RootOfTrust <$> r) (KP_AttestationApplicationId <$> app_id) additional.
Proof.
  rewrite AuthorizationList_new_checks.
  pose proof (proj1 (check_ids_spec params ids attestation_id_table)) as Hids.
  fold (ids_attestable ids params) in Hids. rewrite <- Hids.
  destruct (check_ids params ids attestation_id_table) as [[]| |]; [|naive_solver..].
  cbn [mbind res_bind]. destruct rot as [rot|]; [|naive_solver].
  destruct (to_der rot_enc rot); naive_solver.
Qed.

(** C22: The attestation extension of a key of a hardware-backed level: it exists exactly when the
    device IDs can be attested and the root of trust encodes; it states the level of the TA, the
    challenge and the unique ID it was given, the key's own authorizations and the boot
    information as hardware-enforced, and the characteristics left to Keystore, the application ID
    and the additional information as software-enforced. *)
Theorem attestation_extension_binds version challenge app_id lvl ids params enforced keystore
    unique_id boot additional ext :
  hardware_level lvl = true →
  attestation_extension version challenge app_id lvl ids params (key_chars lvl enforced keystore)
    unique_id boot additional = Ok ext ↔
  ids_attestable ids params ∧ ∃ asn1_lvl rot,
    SecurityLevelAsn1_try_from lvl = Ok asn1_lvl ∧ to_der rot_enc (RootOfTrust_from boot) = Ok rot ∧
    ext = mk_attestation_extension version asn1_lvl version asn1_lvl challenge unique_id
      (mk_authz keystore [] None (Some (KP_AttestationApplicationId app_id)) additional)
      (mk_authz enforced params (Some (KP_RootOfTrust rot)) None []).
Proof.
  intros Hl. unfold attestation_extension. rewrite split_key_chars by done. cbn [mbind res_bind].
  assert ((match lvl with SecurityLevel_Software => (params, []) | _ => ([], params) end) = ([], params))
    as -> by (by destruct lvl).
  pose proof (AuthorizationList_new_Ok enforced params ids (Some (RootOfTrust_from boot)) None []) as Hhw.
  rewrite (proj2 (AuthorizationList_new_Ok keystore [] ids None (Some app_id) additional _)
    (conj (ids_attestable_nil ids) (ex_intro _ None (conj eq_refl eq_refl)))). cbn [mbind res_bind]. split.
  - intros H. apply res_bind_Ok in H as (hw & (Hids & r & (b & Hb & ->) & ->)%Hhw & H).
    apply res_bind_Ok in H as (al & Hal & [= <-]). eauto 10.
  - intros (Hids & al & rot & Hal & Hrot & ->).
    rewrite (proj2 (Hhw _) (conj Hids (ex_intro _ _ (conj (ex_intro _ _ (conj Hrot eq_refl)) eq_refl)))).
    cbn [mbind res_bind]. by rewrite Hal.
Qed.

(** In a TA of the Software level, the key's own authorizations are attested only if there is
    nothing to be enforced by Keystore: otherwise the Keystore characteristics take their place in
    the software-enforced list, and neither list has them. *)
Theorem attestation_software_level version challenge app_id ids params enforced keystore
    unique_id boot additional ext :
  attestation_extension version challenge app_id SecurityLevel_Software ids params
    (key_chars SecurityLevel_Software enforced keystore) unique_id boot additional = Ok ext →
  al_auths (ae_hw_enforced ext) = [] ∧
  al_auths (ae_sw_enforced ext) = match keystore with [] => enforced | _ => keystore end.
Proof.
  unfold attestation_extension. rewrite split_software_chars. cbn [mbind res_bind]. intros H.
  apply res_bind_Ok in H as (sw & Hsw & H). apply res_bind_Ok in H as (hw & Hhw & H).
  apply res_bind_Ok in H as (lvl & _ & [= <-]).
  apply AuthorizationList_new_Ok in Hsw as (_ & ? & _ & ->).
  by apply AuthorizationList_new_Ok in Hhw as (_ & ? & _ & ->).
Qed.

(** ** Validity and key usage *)

(** The ranges of the two forms of time: up to 2049, and up to the year 9999. *)
Class X509Laws : Prop := {
  utc_range d : is_Some (utc_from_unix_duration d) ↔ 0 ≤ d < 2524608000;
  general_range d : is_Some (general_from_unix_duration d) ↔ 0 ≤ d ≤ 253402300799
}.

(** Validity dates: from 1970 to 2049 the date is a UtcTime, from 2050 to the end of 9999 (the
    undefined expiry) a GeneralizedTime, with the milliseconds dropped; a later date is an
    encoding error; an earlier one becomes the epoch, as a GeneralizedTime although it is before
    2050. *)
Theorem validity_time_form `{!X509Laws} when :
  (0 ≤ when < 2524608000000 →
   ∃ t, utc_from_unix_duration (when / 1000) = Some t ∧ validity_time_from_datetime when = Ok (Time_Utc t)) ∧
  (2524608000000 ≤ when < UNDEFINED_NOT_AFTER + 1000 →
   ∃ t, general_from_unix_duration (when / 1000) = Some t ∧
        validity_time_from_datetime when = Ok (Time_General t)) ∧
  (UNDEFINED_NOT_AFTER + 1000 ≤ when → validity_time_from_datetime when = Err Der) ∧
  (when < 0 →
   ∃ t, general_from_unix_duration 0 = Some t ∧ validity_time_from_datetime when = Ok (Time_General t)).
Proof.
  unfold validity_time_from_datetime, UNDEFINED_NOT_AFTER, MAX_UTC_TIME. cbn zeta.
  pose proof (utc_range (when / 1000)) as Hu. pose proof (general_range (when / 1000)) as Hg.
  assert (0 ≤ when → when `quot` 1000 = when / 1000) as Hq by (intros; apply Z.quot_div_nonneg; lia).
  assert (when = 1000 * (when / 1000) + when mod 1000 ∧ 0 ≤ when mod 1000 < 1000) as [Hd Hm].
  { split; [apply Z.div_mod; lia|by apply Z.mod_pos_bound]. }
  split_and!; intros Hw.
  - rewrite Hq, decide_True, decide_False by lia. destruct Hu as [_ [t ->]]; [lia|]. eauto.
  - rewrite Hq, !decide_True by lia. destruct Hg as [_ [t ->]]; [lia|]. eauto.
  - rewrite Hq, !decide_True by lia.
    destruct (general_from_unix_duration (when / 1000)); [|done]. exfalso.
    destruct Hg as [Hg _]. specialize (Hg (mk_is_Some _ _ eq_refl)). lia.
  - rewrite decide_False by lia. destruct (proj2 (general_range 0)) as [t ->]; [lia|]. eauto.
Qed.

Lemma key_usage_foldl params acc u :
  u ∈ foldl (λ bits param, match param with
                       | KP_Purpose purpose => bits ∪ key_usage_bits_of purpose
                       | _ => bits
                       end) acc params ↔
  u ∈ acc ∨ ∃ purpose, KP_Purpose purpose ∈ params ∧ u ∈ key_usage_bits_of purpose.
Proof.
  revert acc. induction params as [|p params IH]; intros acc; cbn [foldl].
  { set_solver. }
  rewrite IH. destruct p; set_solver.
Qed.
(** A usage is allowed exactly when some purpose of the key needs it. *)
Lemma key_usage_spec params u :
  u ∈ key_usage_extension_bits params ↔
  ∃ purpose, KP_Purpose purpose ∈ params ∧ u ∈ key_usage_bits_of purpose.
Proof. unfold key_usage_extension_bits. rewrite key_usage_foldl. set_solver. Qed.
Lemma key_cert_sign_spec params :
  KeyCertSign ∈ key_usage_extension_bits params ↔ KP_Purpose KeyPurpose_AttestKey ∈ params.
Proof.
  rewrite key_usage_spec. split; [|intros H; exists KeyPurpose_AttestKey; split; [done|cbn; set_solver]].
  intros (p & Hp & Hu). destruct p; cbn in Hu; try done; exfalso; set_solver.
Qed.

(** The to-be-signed part: the issuer is the signer's subject, or the certificate's own; the
    key usage comes first, and the attestation extension is not critical. *)
Lemma tbs_certificate_Ok info spki usage constraints attest chars params tbs :
  tbs_certificate info spki usage constraints attest chars params = Ok tbs →
  ∃ subject nb na,
    get_cert_subject params = Ok subject ∧
    omap as_CertificateNotBefore params = [nb] ∧ omap as_CertificateNotAfter params = [na] ∧
    validity_time_from_datetime nb = Ok (tbs_not_before tbs) ∧
    validity_time_from_datetime na = Ok (tbs_not_after tbs) ∧
    rdn_from_der subject = Some (tbs_subject tbs) ∧
    rdn_from_der (match info with Some i => si_issuer_subject i | None => subject end) = Some (tbs_issuer tbs) ∧
    tbs_subject_public_key_info tbs = spki ∧
    tbs_extensions tbs = mk_extension KEY_USAGE_OID true usage ::
      (mk_extension BASIC_CONSTRAINTS_OID true <$> option_list constraints) ++
      (mk_extension ATTESTATION_EXTENSION_OID false <$> option_list attest).
Proof.
  intros H. unfold tbs_certificate in H.
  apply res_bind_Ok in H as (serial & _ & H). apply res_bind_Ok in H as (subject & Hs & H).
  apply res_bind_Ok in H as (nb & Hnb & H). apply get_tag_value_Ok in Hnb.
  apply res_bind_Ok in H as (na & Hna & H). apply get_tag_value_Ok in Hna.
  apply res_bind_Ok in H as (oid & _ & H). apply res_bind_Ok in H as (e1 & He1 & H).
  apply res_bind_Ok in H as (e2 & He2 & H). apply res_bind_Ok in H as (e3 & He3 & H).
  apply res_bind_Ok in H as (sn & _ & H).
  apply res_bind_Ok in H as (issuer & Hi%ok_or_Ok & H).
  apply res_bind_Ok in H as (t1 & Ht1 & H). apply res_bind_Ok in H as (t2 & Ht2 & H).
  apply res_bind_Ok in H as (subj & Hsubj%ok_or_Ok & [= <-]).
  unfold octet_extension in He1. apply res_bind_Ok in He1 as (? & _ & [= <-]).
  assert (∀ oid c v e, opt_extension oid c v = Ok e → e = mk_extension oid c <$> option_list v) as Hopt.
  { intros oid' c [v|] e; cbn; [|congruence]. intros He. unfold octet_extension in He. res_inv. by simplify_eq. }
  apply Hopt in He2, He3. subst. exists subject, nb, na. cbn. by split_and!.
Qed.
End cert.

(** ** A sample crate *)

Module SampleX509.
Import SampleDer.
(** Names and numbers are kept as they are; the two forms of time have their ranges. *)
#[export] Instance sample_x509 : X509 := {|
  rdn_sequence := bytes; rdn_from_der := Some; rdn_to_der := Some;
  certificate_subject b := Some (take 4 b); serial_number_new := Some; bit_string_new := Some;
  UtcTime := Z; GeneralizedTime := Z;
  utc_from_unix_duration d := if decide (0 ≤ d < 2524608000) then Some d else None;
  general_from_unix_duration d := if decide (0 ≤ d ≤ 253402300799) then Some d else None;
  KEY_USAGE_OID := "2.5.29.15"; BASIC_CONSTRAINTS_OID := "2.5.29.19"
|}.
#[export] Instance sample_x509_laws : X509Laws.
Proof. split; intros d; cbn; case_decide; split; (done || by intros []). Qed.

Definition ids : AttestationIdInfo := {|
  AttestationIdInfo_brand := bytes_of_string "brand"; AttestationIdInfo_device := [];
  AttestationIdInfo_product := []; AttestationIdInfo_serial := []; AttestationIdInfo_imei := [];
  AttestationIdInfo_imei2 := []; AttestationIdInfo_meid := []; AttestationIdInfo_manufacturer := [];
  AttestationIdInfo_model := bytes_of_string "model" |}.
Definition params : list KeyParam :=
  [KP_AttestationIdModel (bytes_of_string "model"); KP_AttestationIdBrand (bytes_of_string "brand")].
Definition wrong : list KeyParam := [KP_AttestationIdBrand (bytes_of_string "other")].
Definition boot : BootInfo := {|
  verified_boot_key := []; device_boot_locked := true; verified_boot_state := VerifiedBootState_Verified;
  verified_boot_hash := [u8_of 9]; boot_patchlevel := 20240101 |}.
Definition enforced : list KeyParam := [KP_Algorithm Algorithm_Ec].
Definition keystore : list KeyParam := [KP_CreationDatetime 1].
Definition rot : bytes :=
  match to_der rot_enc (RootOfTrust_from boot) with Ok b => b | _ => [] end.

Lemma attestation_ids_provisioned_witness :
  AuthorizationList_new enforced params (Some ids) None None [] =
    Ok (mk_authz enforced params None None []) ∧
  ¬ ids_attestable (Some ids) wrong ∧
  (AuthorizationList_new enforced wrong (Some ids) None None [] = km_err CannotAttestIds ∨
   AuthorizationList_new enforced wrong (Some ids) None None [] = km_err InvalidTag).
Proof.
  assert (¬ ids_attestable (Some ids) wrong) as Hw by decide_compute.
  split; [|split; [exact Hw|]].
  - apply (proj1 (attestation_ids_provisioned enforced params (Some ids) None None [])). decide_compute.
  - apply (proj2 (attestation_ids_provisioned enforced wrong (Some ids) None None [])). exact Hw.
Defined.
Lemma attestation_extension_binds_witness :
  attestation_extension 300 [u8_of 1] [u8_of 2] SecurityLevel_TrustedEnvironment (Some ids) params
    (key_chars SecurityLevel_TrustedEnvironment enforced keystore) [] boot [] =
  Ok (mk_attestation_extension 300 Asn1_TrustedEnvironment 300 Asn1_TrustedEnvironment [u8_of 1] []
    (mk_authz keystore [] None (Some (KP_AttestationApplicationId [u8_of 2])) [])
    (mk_authz enforced params (Some (KP_RootOfTrust rot)) None [])).
Proof.
  apply (attestation_extension_binds 300 [u8_of 1] [u8_of 2] SecurityLevel_TrustedEnvironment (Some ids)
    params enforced keystore [] boot []); [reflexivity|].
  split; [decide_compute|]. exists Asn1_TrustedEnvironment, rot. split; [reflexivity|].
  split; [vm_compute; reflexivity|reflexivity].
Defined.
Lemma attestation_software_level_witness :
  ∃ ext, attestation_extension 300 [u8_of 1] [u8_of 2] SecurityLevel_Software (Some ids) params
    (key_chars SecurityLevel_Software enforced keystore) [] boot [] = Ok ext ∧
  al_auths (ae_hw_enforced ext) = [] ∧ al_auths (ae_sw_enforced ext) = keystore.
Proof.
  exists (mk_attestation_extension 300 Asn1_Software 300 Asn1_Software [u8_of 1] []
    (mk_authz keystore params None (Some (KP_AttestationApplicationId [u8_of 2])) [])
    (mk_authz [] [] (Some (KP_RootOfTrust rot)) None [])).
  match goal with |- ?e = _ ∧ _ => assert (e = Ok (mk_attestation_extension 300 Asn1_Software 300 Asn1_Software
    [u8_of 1] [] (mk_authz keystore params None (Some (KP_AttestationApplicationId [u8_of 2])) [])
    (mk_authz [] [] (Some (KP_RootOfTrust rot)) None []))) as H by (vm_compute; reflexivity) end.
  split; [exact H|]. exact (attestation_software_level _ _ _ _ _ _ _ _ _ _ _ H).
Defined.
Lemma validity_time_form_witness :
  validity_time_from_datetime 1999 = Ok (Time_Utc 1) ∧
  validity_time_from_datetime UNDEFINED_NOT_AFTER = Ok (Time_General 253402300799) ∧
  validity_time_from_datetime (-1) = Ok (Time_General 0).
Proof.
  split; [|split].
  - destruct (proj1 (validity_time_form 1999)) as (t & Ht & ->); [lia|]. injection Ht as <-. reflexivity.
  - destruct (proj1 (proj2 (validity_time_form UNDEFINED_NOT_AFTER))) as (t & Ht & ->);
      [unfold UNDEFINED_NOT_AFTER; lia|]. injection Ht as <-. reflexivity.
  - destruct (proj2 (proj2 (proj2 (validity_time_form (-1))))) as (t & Ht & ->); [lia|].
    injection Ht as <-. reflexivity.
Defined.
End SampleX509.
