(* ===== verification/Keyblob.v ===== *)
(** * Key blobs ([common/src/keyblob.rs], [common/src/keyblob/sdd_mem.rs], and the encoding
    of key material from [common/src/crypto.rs])

    Encrypted key blobs, the secure deletion secrets that can be bound into them,
    and the in-memory manager of those secrets.  COSE structures come from the
    [coset] crate, which is a parameter. *)

From S2P Require Import Prelude Wire TagInfo TagLegacy CryptoTypes TagParams TagGen TagBegin Crypto.
From S2P Require Import Codec CborRef WireCodec.

(** ** The encoding of key material *)

#[export] Instance CurveType_enum : REnum CurveType.
Proof.
  refine {| discr := λ t, match t with CurveType_Nist => 0 | CurveType_EdDsa => 1 | CurveType_Xdh => 2 end;
            variants := [CurveType_Nist; CurveType_EdDsa; CurveType_Xdh] |}.
  - intros []; set_solver.
  - decide_compute.
Defined.
#[export] Instance CurveType_i32 : EnumI32 CurveType.
Proof. solve_enum_i32. Qed.

Definition AesKey_bytes (k : AesKey) : bytes :=
  match k with AesKey128 k | AesKey192 k | AesKey256 k => k end.
Definition private_key_bytes (k : EcKey) : bytes :=
  match k with
  | EcKey_P224 k | EcKey_P256 k | EcKey_P384 k | EcKey_P521 k => k
  | EcKey_Ed25519 k | EcKey_X25519 k => k
  end.

(** An explicit EC key for a curve. *)
Definition ec_key_of (curve : EcCurve) (curve_type : CurveType) (raw_key : bytes) : CborResult EcKey :=
  match curve, curve_type with
  | EcCurve_P224, CurveType_Nist => Ok (EcKey_P224 raw_key)
  | EcCurve_P256, CurveType_Nist => Ok (EcKey_P256 raw_key)
  | EcCurve_P384, CurveType_Nist => Ok (EcKey_P384 raw_key)
  | EcCurve_P521, CurveType_Nist => Ok (EcKey_P521 raw_key)
  | EcCurve_Curve25519, CurveType_EdDsa =>
    if decide (len raw_key = 32) then Ok (EcKey_Ed25519 raw_key) else Err OutOfRangeIntegerValue
  | EcCurve_Curve25519, CurveType_Xdh =>
    if decide (len raw_key = 32) then Ok (EcKey_X25519 raw_key) else Err OutOfRangeIntegerValue
  | _, _ => Err NonEnumValue
  end.

Definition key_material_from (algo : Z) (opaque : bool) (raw_key_value : Value)
    : CborResult KeyMaterial :=
  match try_from_n (A:=Algorithm) algo with
  | Some Algorithm_Aes =>
    raw_key ← from_cbor_value bytes_codec raw_key_value;
    if opaque then Ok (KM_Aes (Opaque raw_key))
    else match AesKey_new raw_key with
         | Ok k => Ok (KM_Aes (Explicit k))
         | _ => Err (UnexpectedItem "bstr" "bstr len 16/24/32")
         end
  | Some Algorithm_TripleDes =>
    raw_key ← from_cbor_value bytes_codec raw_key_value;
    if opaque then Ok (KM_TripleDes (Opaque raw_key))
    else if decide (len raw_key = DES_KEY_SIZE_BYTES) then Ok (KM_TripleDes (Explicit raw_key))
    else Err (UnexpectedItem "bstr" "bstr len 24")
  | Some Algorithm_Hmac =>
    raw_key ← from_cbor_value bytes_codec raw_key_value;
    Ok (KM_Hmac (if opaque then Opaque raw_key else Explicit raw_key))
  | Some Algorithm_Rsa =>
    raw_key ← from_cbor_value bytes_codec raw_key_value;
    Ok (KM_Rsa (if opaque then Opaque raw_key else Explicit raw_key))
  | Some Algorithm_Ec =>
    match raw_key_value with
    | VArray [v0; v1; v2] =>
      raw_key ← from_cbor_value bytes_codec v2;
      curve_type ← from_cbor_value (derive_enum (A:=CurveType)) v1;
      curve ← from_cbor_value (derive_enum (A:=EcCurve)) v0;
      if opaque then Ok (KM_Ec curve curve_type (Opaque raw_key))
      else key ← ec_key_of curve curve_type raw_key; Ok (KM_Ec curve curve_type (Explicit key))
    | _ => cbor_type_error raw_key_value "arr len 2"
    end
  | None => Err (UnexpectedItem "unknown enum" "algo enum")
  end.

(** The algorithm, whether the key is opaque, and its data. *)
Definition key_material_to (k : KeyMaterial) : Algorithm * bool * Value :=
  match k with
  | KM_Aes (Opaque k) => (Algorithm_Aes, true, VBytes k)
  | KM_TripleDes (Opaque k) => (Algorithm_TripleDes, true, VBytes k)
  | KM_Hmac (Opaque k) => (Algorithm_Hmac, true, VBytes k)
  | KM_Rsa (Opaque k) => (Algorithm_Rsa, true, VBytes k)
  | KM_Ec curve curve_type (Opaque k) =>
    (Algorithm_Ec, true, VArray [VInteger (discr curve); VInteger (discr curve_type); VBytes k])
  | KM_Aes (Explicit k) => (Algorithm_Aes, false, VBytes (AesKey_bytes k))
  | KM_TripleDes (Explicit k) => (Algorithm_TripleDes, false, VBytes k)
  | KM_Hmac (Explicit k) => (Algorithm_Hmac, false, VBytes k)
  | KM_Rsa (Explicit k) => (Algorithm_Rsa, false, VBytes k)
  | KM_Ec curve curve_type (Explicit k) =>
    (Algorithm_Ec, false,
     VArray [VInteger (discr curve); VInteger (discr curve_type); VBytes (private_key_bytes k)])
  end.

Definition KeyMaterial_codec : Codec KeyMaterial := {|
  from_cbor_value value :=
    match value with
    | VArray [v0; v1; raw_key_value] =>
      opaque ← match v1 with VBool b => Ok b | v => cbor_type_error v "bool" end;
      algo ← match v0 with
             | VInteger i => if decide (is_i32 i) then Ok i else Err OutOfRangeIntegerValue
             | v => cbor_type_error v "uint"
             end;
      key_material_from algo opaque raw_key_value
    | _ => cbor_type_error value "arr len 3"
    end;
  to_cbor_value k :=
    let '(algo, opaque, v) := key_material_to k in
    Ok (VArray [VInteger (discr algo); VBool opaque; v])
|}.

(** The fixed-size keys have their size, and EC keys match their curve. *)
Definition km_wf (k : KeyMaterial) : Prop :=
  match k with
  | KM_Aes (Explicit (AesKey128 k)) => len k = 16
  | KM_Aes (Explicit (AesKey192 k)) => len k = 24
  | KM_Aes (Explicit (AesKey256 k)) => len k = 32
  | KM_TripleDes (Explicit k) => len k = DES_KEY_SIZE_BYTES
  | KM_Ec curve curve_type (Explicit k) => ec_key_of curve curve_type (private_key_bytes k) = Ok k
  | _ => True
  end.

Lemma KeyMaterial_codec_ok : codec_ok KeyMaterial_codec km_wf 2.
Proof.
  intros k Hk.
  assert (∀ (a : Algorithm) o v, from_cbor_value KeyMaterial_codec (VArray [VInteger (discr a); VBool o; v]) =
    key_material_from (discr a) o v) as Hf.
  { intros a o v. cbn [from_cbor_value KeyMaterial_codec mbind res_bind].
    by rewrite decide_True by apply discr_is_i32. }
  assert (∀ a : Algorithm, - 2 ^ 64 ≤ discr a < 2 ^ 64) as Hda
    by (intros a; pose proof (discr_is_i32 a); range_lia).
  assert (∀ (a : Algorithm) o v, to_cbor_value KeyMaterial_codec k = Ok (VArray [VInteger (discr a); VBool o; v]) →
    key_material_from (discr a) o v = Ok k → (vdepth v ≤ 1)%nat → vints v →
    ∃ w, to_cbor_value KeyMaterial_codec k = Ok w ∧ from_cbor_value KeyMaterial_codec w = Ok k ∧
         (vdepth w ≤ 2)%nat ∧ vints w) as Hgo.
  { intros a o v Ht Hfr Hd Hi. exists (VArray [VInteger (discr a); VBool o; v]). rewrite Hf.
    split_and!; [done..|cbn; lia|]. cbn [vints foldr]. pose proof (Hda a). split_and!; try done; lia. }
  destruct k as [[[]|]|[]|[]|[]|c ct [ek|b]]; cbn [km_wf] in Hk.
  1-10: eapply Hgo; try reflexivity; try done; try (cbn; lia);
    unfold key_material_from; rewrite try_from_discr;
    cbn [from_cbor_value bytes_codec mbind res_bind AesKey_bytes]; unfold AesKey_new; rewrite ?Hk;
    repeat first [rewrite decide_True by done | rewrite decide_False by done]; done.
  all: assert (∀ b, vints (VArray [VInteger (discr c); VInteger (discr ct); VBytes b])) as Hv
    by (intros b'; cbn [vints foldr]; pose proof (discr_is_i32 c); pose proof (discr_is_i32 ct);
        split_and!; try done; range_lia).
  - apply (Hgo Algorithm_Ec false (VArray [VInteger (discr c); VInteger (discr ct); VBytes (private_key_bytes ek)]));
      [done| |cbn; lia|apply Hv].
    unfold key_material_from. rewrite try_from_discr, !derive_enum_from. cbn [from_cbor_value bytes_codec mbind res_bind].
    by rewrite Hk.
  - apply (Hgo Algorithm_Ec true (VArray [VInteger (discr c); VInteger (discr ct); VBytes b]));
      [done| |cbn; lia|apply Hv].
    unfold key_material_from. by rewrite try_from_discr, !derive_enum_from.
Qed.

(** ** Secure deletion secrets *)

Record SecureDeletionData := {
  factory_reset_secret : bytes;      (* 32 bytes *)
  secure_deletion_secret : bytes     (* 16 bytes *)
}.
Definition SecureDeletionData_codec : Codec SecureDeletionData :=
  derive_struct "arr len 2" (field (array_codec 32) (field (array_codec 16) no_fields))
    (λ '(a, (b, _)), {| factory_reset_secret := a; secure_deletion_secret := b |})
    (λ s, (factory_reset_secret s, (secure_deletion_secret s, tt))).
Definition sdd_wf (s : SecureDeletionData) : Prop :=
  len (factory_reset_secret s) = 32 ∧ (len (secure_deletion_secret s) = 16 ∧ True).
Lemma SecureDeletionData_codec_ok : codec_ok SecureDeletionData_codec sdd_wf 1.
Proof.
  refine (derive_struct_ok _ _ _ _ _ _
    (field_ok _ _ _ _ _ _ (array_codec_ok 32) (field_ok _ _ _ _ _ _ (array_codec_ok 16) (no_fields_ok 0))) _).
  by intros [].
Qed.

Inductive SlotPurpose : Set := KeyGeneration | KeyImport | KeyUpgrade.

(** The manager of secure deletion secrets; slots are numbers.  Operations that may draw
    randomness change the manager's and the generator's state. *)
Class SecureDeletionSecretManager `{Rng} := {
  sdm_state : Type;
  get_or_create_factory_reset_secret : stM (sdm_state * rng_state) Error SecureDeletionData;
  get_factory_reset_secret : sdm_state → Result SecureDeletionData;
  new_secret : SlotPurpose → stM (sdm_state * rng_state) Error (Z * SecureDeletionData);
  get_secret : sdm_state → Z → Result SecureDeletionData;
  delete_secret : Z → stM sdm_state Error unit;
  delete_all : sdm_state → sdm_state
}.

(** What users of the manager rely on. *)
Class SDMLaws `{SecureDeletionSecretManager} (ok : sdm_state → Prop) : Prop := {
  get_or_create_Ok s r d s' r' :
    ok s → get_or_create_factory_reset_secret (s, r) = (Ok d, (s', r')) →
    ok s' ∧ get_factory_reset_secret s' = Ok d ∧ (∀ i, get_secret s' i = get_secret s i);
  get_or_create_Err s r e s' r' :
    ok s → get_or_create_factory_reset_secret (s, r) = (Err e, (s', r')) →
    ok s' ∧ (∀ i, get_secret s' i = get_secret s i);
  new_secret_Ok p s r i d s' r' :
    ok s → new_secret p (s, r) = (Ok (i, d), (s', r')) →
    ok s' ∧ get_secret s' i = Ok d ∧ (∃ e, get_secret s i = Err e) ∧
    (∀ j, j ≠ i → get_secret s' j = get_secret s j) ∧
    (∀ d', get_factory_reset_secret s = Ok d' → get_factory_reset_secret s' = Ok d') ∧
    (∃ s'', delete_secret i s' = (Ok tt, s'') ∧ ok s'' ∧ (∀ j, get_secret s'' j = get_secret s j));
  new_secret_Err p s r e s' r' :
    ok s → new_secret p (s, r) = (Err e, (s', r')) →
    ok s' ∧ (∀ j, get_secret s' j = get_secret s j);
  delete_secret_Ok i s s' :
    ok s → is_u32 i → delete_secret i s = (Ok tt, s') →
    ok s' ∧ (∃ e, get_secret s' i = Err e) ∧ (∀ j, j ≠ i → get_secret s' j = get_secret s j)
}.

(** Slots are 32-bit numbers. *)
Class SDMSlots `{SecureDeletionSecretManager} (ok : sdm_state → Prop) : Prop :=
  new_secret_slot p s r i d s' r' :
    ok s → new_secret p (s, r) = (Ok (i, d), (s', r')) → is_u32 i.

(** ** The in-memory manager *)

Module InMemory.
Section manager.
Context `{R : Rng}.

Record InMemorySlotManager := mk_mgr {
  factory_secret : option bytes;
  slots : list (option SecureDeletionData)     (* [N] of them *)
}.
Definition default_mgr (n : nat) : InMemorySlotManager :=
  {| factory_secret := None; slots := replicate n None |}.

Definition get_factory (m : InMemorySlotManager) : Result SecureDeletionData :=
  match factory_secret m with
  | Some secret => Ok {| factory_reset_secret := secret;
                         secure_deletion_secret := replicate 16 (u8_of 0) |}
  | None => km_err UnknownError
  end.
Definition get_or_create : stM (InMemorySlotManager * rng_state) Error SecureDeletionData :=
  λ '(m, r),
    let '(m', r') := match factory_secret m with
                     | None => let '(secret, r') := fill_bytes 32 r in
                               ({| factory_secret := Some secret; slots := slots m |}, r')
                     | Some _ => (m, r)
                     end in
    (get_factory m', (m', r')).

(** [for idx in 0..N]: take the first empty slot. *)
Definition new_secret (_purpose : SlotPurpose)
    : stM (InMemorySlotManager * rng_state) Error (Z * SecureDeletionData) :=
  λ '(m, r),
    match list_find (λ s, s = None) (slots m) with
    | Some (idx, _) =>
      match get_or_create (m, r) with
      | (Ok sdd, (m', r')) =>
        let '(secret, r'') := fill_bytes 16 r' in
        let sdd := {| factory_reset_secret := factory_reset_secret sdd;
                      secure_deletion_secret := secret |} in
        (Ok (as_u32 (Z.of_nat idx), sdd),
         ({| factory_secret := factory_secret m'; slots := <[idx := Some sdd]> (slots m') |}, r''))
      | (Err e, st) => (Err e, st)
      | (Panic, st) => (Panic, st)
      end
    | None => (km_err RollbackResistanceUnavailable, (m, r))
    end.

Definition get_secret (m : InMemorySlotManager) (slot : Z) : Result SecureDeletionData :=
  if decide (0 ≤ slot < len (slots m)) then
    match slots m !! Z.to_nat slot with
    | Some (Some data) => Ok data
    | _ => km_err InvalidKeyBlob
    end
  else km_err InvalidKeyBlob.

(** Indexing a slot that does not exist panics. *)
Definition delete_secret (slot : Z) : stM InMemorySlotManager Error unit :=
  λ m, match slots m !! Z.to_nat slot with
       | None => (Panic, m)
       | Some (Some _) =>
         (Ok tt, {| factory_secret := factory_secret m; slots := <[Z.to_nat slot := None]> (slots m) |})
       | Some None => (km_err InvalidKeyBlob, m)
       end.
Definition delete_all (m : InMemorySlotManager) : InMemorySlotManager :=
  {| factory_secret := None; slots := replicate (length (slots m)) None |}.

#[export] Instance InMemorySDM : SecureDeletionSecretManager := {|
  sdm_state := InMemorySlotManager;
  get_or_create_factory_reset_secret := get_or_create;
  get_factory_reset_secret := get_factory;
  Keyblob.new_secret := new_secret;
  Keyblob.get_secret := get_secret;
  Keyblob.delete_secret := delete_secret;
  Keyblob.delete_all := delete_all
|}.

(** Slot numbers fit their 32-bit representation. *)
Definition mgr_ok (m : InMemorySlotManager) : Prop := len (slots m) ≤ 2 ^ 32.

Lemma get_or_create_spec m r :
  ∃ secret r', get_or_create (m, r) =
    (Ok {| factory_reset_secret := secret; secure_deletion_secret := replicate 16 (u8_of 0) |},
     ({| factory_secret := Some secret; slots := slots m |}, r')) ∧
    (∀ secret', factory_secret m = Some secret' → secret = secret').
Proof.
  unfold get_or_create. destruct m as [[secret|] sl]; cbn.
  - exists secret, r. naive_solver.
  - destruct (fill_bytes 32 r) as [secret r']. exists secret, r'. naive_solver.
Qed.

Lemma slot_u32 sl (idx : nat) (x : option SecureDeletionData) :
  len sl ≤ 2 ^ 32 → sl !! idx = Some x → as_u32 (Z.of_nat idx) = Z.of_nat idx ∧ 0 ≤ Z.of_nat idx < len sl.
Proof.
  intros Hl Hx%lookup_lt_Some. unfold len in *. rewrite as_unsigned_id; range_lia.
Qed.

Lemma get_secret_insert m (idx : nat) x fs i :
  (idx < length (slots m))%nat → 0 ≤ i →
  get_secret {| factory_secret := fs; slots := <[idx := x]> (slots m) |} i =
  if decide (i = Z.of_nat idx) then match x with Some d => Ok d | None => km_err InvalidKeyBlob end
  else get_secret m i.
Proof.
  intros Hidx Hi. unfold get_secret. cbn [slots]. unfold len. rewrite length_insert.
  destruct (decide (i = Z.of_nat idx)) as [->|Hne].
  - rewrite decide_True by lia. by rewrite Nat2Z.id, list_lookup_insert_eq by done.
  - case_decide; [|done]. rewrite list_lookup_insert_ne by lia. done.
Qed.

Lemma get_secret_neg m i : i < 0 → get_secret m i = km_err InvalidKeyBlob.
Proof. intros Hi. unfold get_secret. by rewrite decide_False by lia. Qed.

#[export] Instance InMemorySDM_laws : SDMLaws mgr_ok.
Proof.
  split; cbn [sdm_state get_or_create_factory_reset_secret get_factory_reset_secret Keyblob.new_secret
              Keyblob.get_secret Keyblob.delete_secret InMemorySDM].
  - intros m r d m' r' Hok Hgc. destruct (get_or_create_spec m r) as (sec & r1 & He & _).
    rewrite He in Hgc. injection Hgc as <- <- <-. done.
  - intros m r e m' r' Hok Hgc. destruct (get_or_create_spec m r) as (sec & r1 & He & _).
    by rewrite He in Hgc.
  - intros p m r i d m' r' Hok Hn. unfold new_secret in Hn.
    destruct (list_find _ (slots m)) as [[idx x]|] eqn:Hfind; [|done].
    apply list_find_Some in Hfind as (Hidx & -> & _).
    destruct (get_or_create_spec m r) as (sec & r1 & He & Hsec). rewrite He in Hn. cbn in Hn.
    destruct (fill_bytes 16 r1) as [secret r2]. injection Hn as <- <- <- <-.
    destruct (slot_u32 _ _ _ Hok Hidx) as [-> Hr].
    assert (idx < length (slots m))%nat as Hlt by (unfold len in Hr; lia).
    set (sdd := {| factory_reset_secret := sec; secure_deletion_secret := secret |}).
    split_and!.
    + unfold mgr_ok, len in *. cbn. by rewrite length_insert.
    + rewrite get_secret_insert by (done || lia). by rewrite decide_True.
    + exists (Hal InvalidKeyBlob). unfold get_secret. rewrite decide_True by lia.
      by rewrite Nat2Z.id, Hidx.
    + intros j Hj. destruct (decide (0 ≤ j)); [|by rewrite !get_secret_neg by lia].
      rewrite get_secret_insert by done. by rewrite decide_False.
    + intros d'. unfold get_factory. cbn [factory_secret]. destruct (factory_secret m) as [s|]; [|done].
      by rewrite (Hsec s).
    + eexists. unfold delete_secret. cbn [slots factory_secret].
      rewrite Nat2Z.id, list_lookup_insert_eq by done. split; [reflexivity|].
      rewrite list_insert_insert_eq. split.
      { unfold mgr_ok, len in *. cbn. by rewrite length_insert. }
      intros j. destruct (decide (0 ≤ j)); [|by rewrite !get_secret_neg by lia].
      rewrite get_secret_insert by done. case_decide as Hj; [|done]. subst j.
      unfold get_secret. rewrite decide_True by done. by rewrite Nat2Z.id, Hidx.
  - intros p m r e m' r' Hok Hn. unfold new_secret in Hn.
    destruct (list_find _ (slots m)) as [[idx x]|]; [|by injection Hn as <- <- <-].
    destruct (get_or_create_spec m r) as (sec & r1 & He & Hsec). rewrite He in Hn. cbn in Hn.
    destruct (fill_bytes 16 r1) as [secret r2]. discriminate Hn.
  - intros i m m' Hok [Hi0 _] Hd. unfold delete_secret in Hd.
    destruct (slots m !! Z.to_nat i) as [[d|]|] eqn:Hi; [|done|done]. injection Hd as <-.
    pose proof (lookup_lt_Some _ _ _ Hi) as Hlt.
    split_and!.
    + unfold mgr_ok, len in *. cbn. by rewrite length_insert.
    + exists (Hal InvalidKeyBlob). rewrite get_secret_insert by done. by rewrite decide_True by lia.
    + intros j Hj. destruct (decide (0 ≤ j)); [|by rewrite !get_secret_neg by lia].
      rewrite get_secret_insert by done. by rewrite decide_False by lia.
Qed.
#[export] Instance InMemorySDM_slots : SDMSlots mgr_ok.
Proof.
  intros p m r i d m' r' Hok Hn. cbn [Keyblob.new_secret InMemorySDM] in Hn. unfold new_secret in Hn.
  destruct (list_find _ (slots m)) as [[idx x]|] eqn:Hfind; [|done].
  apply list_find_Some in Hfind as (Hidx & _ & _).
  destruct (get_or_create_spec m r) as (sec & r1 & He & _). rewrite He in Hn. cbn in Hn.
  destruct (fill_bytes 16 r1) as [secret r2]. injection Hn as <- <- <- <-.
  destruct (slot_u32 _ _ _ Hok Hidx) as [-> Hr]. unfold mgr_ok in Hok. unfold is_unsigned. lia.
Qed.
End manager.
End InMemory.

(** ** Key blobs *)

Record PlaintextKeyBlob := {
  characteristics : list KeyCharacteristics;
  key_material : KeyMaterial
}.
Definition suitable_for (k : PlaintextKeyBlob) (purpose : KeyPurpose) (sec_level : SecurityLevel)
    : Result unit :=
  chars ← characteristics_at (characteristics k) sec_level;
  if contains_tag_value as_Purpose chars purpose then Ok tt else km_err IncompatiblePurpose.

(** The parts of the [coset] crate that key blobs use: the [COSE_Encrypt0] structure with
    the protected header for AES-256-GCM and a given ciphertext, the additional
    authenticated data derived from its header, and its untagged encoding. *)
Class Coset := {
  CoseEncrypt0 : Type;
  cose_a256gcm : bytes → CoseEncrypt0;
  cose_a256gcm_aad : bytes;
  cose_ciphertext : CoseEncrypt0 → option bytes;
  cose_aad : CoseEncrypt0 → bytes;
  cose_codec : Codec CoseEncrypt0
}.
Class CosetLaws `{Coset} : Prop := {
  cose_ciphertext_build ct : cose_ciphertext (cose_a256gcm ct) = Some ct;
  cose_aad_build ct : cose_aad (cose_a256gcm ct) = cose_a256gcm_aad;
  cose_codec_build : codec_ok cose_codec (λ c, ∃ ct, c = cose_a256gcm ct) 4
}.

Definition COSE_ENCRYPT0_TAG : Z := 16.

Section encoding.
Context `{K : Coset}.

(** The encoding carries the CBOR tag of [COSE_Encrypt0]. *)
Definition CoseEncrypt0_codec : Codec CoseEncrypt0 := {|
  from_cbor_value value :=
    match value with
    | VTag t inner => if decide (t = COSE_ENCRYPT0_TAG) then from_cbor_value cose_codec inner
                      else Err (UnexpectedItem "tag" "tag 16")
    | _ => cbor_type_error value "tag 16"
    end;
  to_cbor_value c := v ← to_cbor_value cose_codec c; Ok (VTag COSE_ENCRYPT0_TAG v)
|}.

Record EncryptedKeyBlobV1 := {
  ekb_characteristics : list KeyCharacteristics;
  ekb_key_derivation_input : bytes;
  ekb_kek_context : bytes;
  ekb_encrypted_key_material : CoseEncrypt0;
  ekb_secure_deletion_slot : option Z
}.
Inductive EncryptedKeyBlob := V1 (blob : EncryptedKeyBlobV1).

Definition secure_deletion_slot (b : EncryptedKeyBlob) : option Z :=
  match b with V1 blob => ekb_secure_deletion_slot blob end.
Definition kek_context (b : EncryptedKeyBlob) : bytes :=
  match b with V1 blob => ekb_kek_context blob end.

Definition EncryptedKeyBlobV1_codec : Codec EncryptedKeyBlobV1 :=
  derive_struct "arr len 5"
    (field (vec_codec KeyCharacteristics_codec) (field (array_codec 32) (field bytes_codec
      (field CoseEncrypt0_codec (field (option_codec (derive_newtype u32_codec id id)) no_fields)))))
    (λ '(a, (b, (c, (d, (e, _))))), {| ekb_characteristics := a; ekb_key_derivation_input := b;
       ekb_kek_context := c; ekb_encrypted_key_material := d; ekb_secure_deletion_slot := e |})
    (λ s, (ekb_characteristics s, (ekb_key_derivation_input s, (ekb_kek_context s,
       (ekb_encrypted_key_material s, (ekb_secure_deletion_slot s, tt)))))).

(** The format version is an enum with the only variant [V1 = 0]. *)
Definition version_from (value : Value) : CborResult unit :=
  match value with
  | VInteger i => if decide (is_i32 i)
                  then if decide (i = 0) then Ok tt else Err OutOfRangeIntegerValue
                  else Err OutOfRangeIntegerValue
  | v => cbor_type_error v "int"
  end.
Definition EncryptedKeyBlob_codec : Codec EncryptedKeyBlob := {|
  from_cbor_value value :=
    match value with
    | VArray [v0; inner] =>
      _ ← version_from v0;
      b ← from_cbor_value EncryptedKeyBlobV1_codec inner;
      Ok (V1 b)
    | _ => cbor_type_error value "arr len 2"
    end;
  to_cbor_value b :=
    match b with
    | V1 inner => v ← to_cbor_value EncryptedKeyBlobV1_codec inner; Ok (VArray [VInteger 0; v])
    end
|}.
Definition EncryptedKeyBlob_new `{Ciborium} (data : bytes) : Result EncryptedKeyBlob :=
  map_err (λ _, Hal InvalidKeyBlob) (from_slice EncryptedKeyBlob_codec data).
End encoding.

(** ** Encryption *)

Definition ZERO_NONCE : bytes := replicate 12 (u8_of 0).

Section crypt.
Context `{C : Ciborium} `{K : Coset} `{HK : Hkdf} `{A : Aes} `{M : SecureDeletionSecretManager}.

(** The context information the key encryption key is derived from. *)
Definition kek_info (key_derivation_input : bytes) (characteristics : list KeyCharacteristics)
    (hidden : list KeyParam) (sdd : option SecureDeletionData) : Result bytes :=
  c ← map_err Cbor (into_vec (vec_codec KeyCharacteristics_codec) characteristics);
  h ← map_err Cbor (into_vec (vec_codec KeyParam_codec) hidden);
  s ← match sdd with
      | Some sdd => map_err Cbor (into_vec SecureDeletionData_codec sdd)
      | None => Ok []
      end;
  Ok (key_derivation_input ++ c ++ h ++ s).

Definition derive_kek (root_key : OpaqueOr bytes) (key_derivation_input : bytes)
    (characteristics : list KeyCharacteristics) (hidden : list KeyParam)
    (sdd : option SecureDeletionData) : Result (OpaqueOr AesKey) :=
  info ← kek_info key_derivation_input characteristics hidden sdd;
  match root_key with
  | Explicit key_material => hkdf_aes [] key_material info Aes256
  | Opaque _ => expand_aes root_key info Aes256
  end.

(** One-shot AES-GCM with a zero nonce and a 16-byte tag. *)
Definition seal (kek : OpaqueOr AesKey) (aad pt : bytes) : Result bytes :=
  op ← aes_begin_aead kek (GcmTag16 ZERO_NONCE) Encrypt;
  op ← aad_update_aad op aad;
  '(ct, op) ← aad_update op pt;
  rest ← aad_finish op;
  Ok (ct ++ rest).
Definition unseal (kek : OpaqueOr AesKey) (aad ct : bytes) : Result bytes :=
  op ← aes_begin_aead kek (GcmTag16 ZERO_NONCE) Decrypt;
  op ← aad_update_aad op aad;
  '(pt, op) ← aad_update op ct;
  rest ← map_err (λ _, Hal InvalidKeyBlob) (aad_finish op);
  Ok (pt ++ rest).

(** The part of [encrypt] after the secrets are obtained, but for the slot. *)
Definition encrypt_with (root_key : OpaqueOr bytes) (kek_context : bytes)
    (plaintext_keyblob : PlaintextKeyBlob) (hidden : list KeyParam)
    (sdd : option SecureDeletionData) : stM rng_state Error EncryptedKeyBlobV1 :=
  key_derivation_input ← random_bytes 32;
  kek ← liftr (derive_kek root_key key_derivation_input (characteristics plaintext_keyblob) hidden sdd);
  pt ← liftr (map_err Cbor (into_vec KeyMaterial_codec (key_material plaintext_keyblob)));
  ct ← liftr (seal kek cose_a256gcm_aad pt);
  mret {| ekb_characteristics := characteristics plaintext_keyblob;
          ekb_key_derivation_input := key_derivation_input;
          ekb_kek_context := kek_context;
          ekb_encrypted_key_material := cose_a256gcm ct;
          ekb_secure_deletion_slot := None |}.

Definition requires_sdd (chars : list KeyParam) : bool :=
  existsb (λ p, match p with KP_RollbackResistance | KP_UsageCountLimit 1 => true | _ => false end) chars.

(** A slot (which the caller holds) and the secrets to bind into the blob. *)
Definition obtain_secrets (required : bool) (purpose : SlotPurpose)
    : stM (option sdm_state * rng_state) Error (option Z * option SecureDeletionData) :=
  λ '(mgr, r),
    match required, mgr with
    | true, Some s =>
      match new_secret purpose (s, r) with
      | (Ok (slot, sdd), (s', r')) => (Ok (Some slot, Some sdd), (Some s', r'))
      | (Err e, (s', r')) => (Err e, (Some s', r'))
      | (Panic, (s', r')) => (Panic, (Some s', r'))
      end
    | true, None => (km_err RollbackResistanceUnavailable, (mgr, r))
    | false, Some s =>
      match get_or_create_factory_reset_secret (s, r) with
      | (Ok sdd, (s', r')) => (Ok (None, Some sdd), (Some s', r'))
      | (Err e, (s', r')) => (Err e, (Some s', r'))
      | (Panic, (s', r')) => (Panic, (Some s', r'))
      end
    | false, None => (Ok (None, None), (mgr, r))
    end.

(** Dropping the holder of a slot releases the slot; a failure to do so is only logged. *)
Definition drop_slot (slot : option Z) (mgr : option sdm_state) : option sdm_state :=
  match slot, mgr with
  | Some slot, Some s => Some (delete_secret slot s).2
  | _, _ => mgr
  end.

(** Encrypt while holding a slot: it goes into the blob, or is released on failure. *)
Definition encrypt_holding (root_key : OpaqueOr bytes) (kek_context : bytes)
    (plaintext_keyblob : PlaintextKeyBlob) (hidden : list KeyParam) (slot : option Z)
    (sdd : option SecureDeletionData) : stM (option sdm_state * rng_state) Error EncryptedKeyBlob :=
  λ '(mgr, r),
    match encrypt_with root_key kek_context plaintext_keyblob hidden sdd r with
    | (Ok b, r') =>
      (Ok (V1 {| ekb_characteristics := ekb_characteristics b;
                 ekb_key_derivation_input := ekb_key_derivation_input b;
                 ekb_kek_context := ekb_kek_context b;
                 ekb_encrypted_key_material := ekb_encrypted_key_material b;
                 ekb_secure_deletion_slot := slot |}), (mgr, r'))
    | (Err e, r') => (Err e, (drop_slot slot mgr, r'))
    | (Panic, r') => (Panic, (drop_slot slot mgr, r'))
    end.

Definition encrypt (sec_level : SecurityLevel) (root_key : OpaqueOr bytes) (kek_context : bytes)
    (plaintext_keyblob : PlaintextKeyBlob) (hidden : list KeyParam) (purpose : SlotPurpose)
    : stM (option sdm_state * rng_state) Error EncryptedKeyBlob :=
  chars ← liftr (characteristics_at (characteristics plaintext_keyblob) sec_level);
  p ← obtain_secrets (requires_sdd chars) purpose;
  encrypt_holding root_key kek_context plaintext_keyblob hidden p.1 p.2.

Definition decrypt (sdd_mgr : option sdm_state) (root_key : OpaqueOr bytes)
    (encrypted_keyblob : EncryptedKeyBlob) (hidden : list KeyParam) : Result PlaintextKeyBlob :=
  let 'V1 b := encrypted_keyblob in
  sdd ← match ekb_secure_deletion_slot b, sdd_mgr with
        | Some slot, Some s => d ← get_secret s slot; Ok (Some d)
        | Some _, None => km_err InvalidKeyBlob
        | None, Some s => d ← get_factory_reset_secret s; Ok (Some d)
        | None, None => Ok None
        end;
  kek ← derive_kek root_key (ekb_key_derivation_input b) (ekb_characteristics b) hidden sdd;
  let cose_encrypt := ekb_encrypted_key_material b in
  let extended_aad := cose_aad cose_encrypt in
  pt_data ← unseal kek extended_aad (default [] (cose_ciphertext cose_encrypt));
  key_material ← map_err Cbor (from_slice KeyMaterial_codec pt_data);
  Ok {| characteristics := ekb_characteristics b; key_material := key_material |}.
End crypt.

(** ** What key blobs guarantee *)

(** Decryption undoes encryption. *)
Class AeadLaws `{A : Aes} : Prop := {
  unseal_seal k aad pt ct : seal k aad pt = Ok ct → unseal k aad ct = Ok pt
}.

Section spec.
Context `{CL : CiboriumLaws} `{KL : CosetLaws} `{HK : Hkdf} `{AL : AeadLaws} `{ML : SDMLaws ok}.

Lemma characteristics_codec_ok :
  codec_ok (vec_codec KeyCharacteristics_codec) (Forall KeyCharacteristics_wf) 4.
Proof. apply vec_codec_ok, KeyCharacteristics_codec_ok. Qed.
Lemma params_codec_ok : codec_ok (vec_codec KeyParam_codec) (Forall kp_wf) 2.
Proof. apply vec_codec_ok, KeyParam_codec_ok. Qed.

Lemma into_writer_nonempty v b :
  (vdepth v < 16)%nat → vints v → into_writer v = Some b → b ≠ [].
Proof.
  intros Hd Hi Hb ->. destruct (from_reader_into_writer v Hd Hi) as (b' & Hb' & Hr).
  rewrite Hb in Hb'. injection Hb' as <-. cbn in Hr.
  assert (∀ w, (vdepth w < 16)%nat → vints w → w = v) as Hall.
  { intros w Hwd Hwi. destruct (from_reader_into_writer w Hwd Hwi) as (c & _ & Hc).
    specialize (Hc []). rewrite app_nil_r, Hr in Hc. by injection Hc as <-. }
  assert (VNull = VBool true) by (rewrite (Hall VNull), (Hall (VBool true)); cbn; (done || lia)). done.
Qed.

Lemma into_vec_nonempty {X} (c : Codec X) wf d a b :
  codec_ok c wf d → (d < 16)%nat → wf a → into_vec c a = Ok b → b ≠ [].
Proof.
  intros Hc Hd Ha Hb. destruct (Hc a Ha) as (v & Ht & _ & Hvd & Hvi).
  unfold into_vec in Hb. rewrite Ht in Hb. cbn [mbind res_bind] in Hb. apply ok_or_Ok in Hb.
  eapply (into_writer_nonempty v); [lia|done..].
Qed.

(** The information a key encryption key is derived from is unambiguous: it
    determines the random input, the key's characteristics, the hidden parameters
    (application id and data, root of trust) and the secure deletion secrets, also
    whether there are any.  So no two different sets of these share it. *)
Theorem kek_info_injective kdi1 kdi2 c1 c2 h1 h2 s1 s2 i :
  len kdi1 = 32 → len kdi2 = 32 →
  Forall KeyCharacteristics_wf c1 → Forall KeyCharacteristics_wf c2 →
  Forall kp_wf h1 → Forall kp_wf h2 → from_option sdd_wf True s1 → from_option sdd_wf True s2 →
  kek_info kdi1 c1 h1 s1 = Ok i → kek_info kdi2 c2 h2 s2 = Ok i →
  kdi1 = kdi2 ∧ c1 = c2 ∧ h1 = h2 ∧ s1 = s2.
Proof.
  intros Hk1 Hk2 Hc1 Hc2 Hh1 Hh2 Hs1 Hs2 I1 I2. unfold kek_info in *.
  apply res_bind_Ok in I1 as (b1 & E1 & I1). apply res_bind_Ok in I2 as (b2 & E2 & I2).
  apply res_bind_Ok in I1 as (d1 & F1 & I1). apply res_bind_Ok in I2 as (d2 & F2 & I2).
  apply res_bind_Ok in I1 as (e1 & G1 & I1). apply res_bind_Ok in I2 as (e2 & G2 & I2).
  apply map_err_Ok in E1, E2, F1, F2. rewrite <- I2 in I1. injection I1 as Heq.
  apply app_inj_1 in Heq as [-> Heq]; [|unfold len in *; lia].
  destruct (into_vec_inj _ _ _ _ _ _ _ _ _ characteristics_codec_ok ltac:(lia) Hc1 Hc2 E1 E2 Heq) as [-> Heq'].
  destruct (into_vec_inj _ _ _ _ _ _ _ _ _ params_codec_ok ltac:(lia) Hh1 Hh2 F1 F2 Heq') as [-> ->].
  split_and!; [done..|].
  destruct s1 as [s1|], s2 as [s2|]; cbn in Hs1, Hs2.
  - apply map_err_Ok in G1, G2.
    destruct (into_vec_inj _ _ _ _ _ _ _ [] [] SecureDeletionData_codec_ok ltac:(lia) Hs1 Hs2 G1 G2 eq_refl) as [-> _].
    done.
  - injection G2 as <-. apply map_err_Ok in G1.
    by apply (into_vec_nonempty _ _ _ _ _ SecureDeletionData_codec_ok) in G1; [|lia|].
  - injection G1 as <-. apply map_err_Ok in G2.
    by apply (into_vec_nonempty _ _ _ _ _ SecureDeletionData_codec_ok) in G2; [|lia|].
  - done.
Qed.

(** What [encrypt_with] puts into the blob. *)
Lemma encrypt_with_Ok root ctx p hidden sdd r b r' :
  encrypt_with root ctx p hidden sdd r = (Ok b, r') →
  ∃ kek pt ct,
    derive_kek root (ekb_key_derivation_input b) (characteristics p) hidden sdd = Ok kek ∧
    into_vec KeyMaterial_codec (key_material p) = Ok pt ∧ seal kek cose_a256gcm_aad pt = Ok ct ∧
    ekb_encrypted_key_material b = cose_a256gcm ct ∧ ekb_characteristics b = characteristics p ∧
    ekb_kek_context b = ctx.
Proof.
  unfold encrypt_with. intros (kdi & r1 & _ & Hm)%stM_bind_Ok.
  apply stM_bind_Ok in Hm as (kek & r2 & [= Hkek ->] & Hm).
  apply stM_bind_Ok in Hm as (pt & r3 & [= Hpt ->] & Hm). apply map_err_Ok in Hpt.
  apply stM_bind_Ok in Hm as (ct & r4 & [= Hct ->] & [= <- _]). eauto 10.
Qed.

Lemma decrypt_sealed mgr root b hidden p sdd slot r r' ctx :
  km_wf (key_material p) →
  encrypt_with root ctx p hidden sdd r = (Ok b, r') →
  match slot, mgr with
  | Some slot, Some s => d ← get_secret s slot; Ok (Some d)
  | Some _, None => km_err InvalidKeyBlob
  | None, Some s => d ← get_factory_reset_secret s; Ok (Some d)
  | None, None => Ok None
  end = Ok sdd →
  decrypt mgr root (V1 {| ekb_characteristics := ekb_characteristics b;
                 ekb_key_derivation_input := ekb_key_derivation_input b;
                 ekb_kek_context := ekb_kek_context b;
                 ekb_encrypted_key_material := ekb_encrypted_key_material b;
                 ekb_secure_deletion_slot := slot |}) hidden = Ok p.
Proof.
  intros Hwf (kek & pt & ct & Hkek & Hpt & Hct & He & Hc & _)%encrypt_with_Ok Hsdd.
  unfold decrypt. cbn [ekb_secure_deletion_slot ekb_key_derivation_input ekb_characteristics
    ekb_encrypted_key_material]. rewrite Hsdd. cbn [mbind res_bind]. rewrite Hc, Hkek. cbn [mbind res_bind].
  rewrite He, cose_aad_build, cose_ciphertext_build. cbn [from_option id].
  rewrite (unseal_seal _ _ _ _ Hct). cbn [mbind res_bind].
  destruct (slice_roundtrip KeyMaterial_codec _ _ (key_material p) KeyMaterial_codec_ok) as (b' & Hb & Hf);
    [lia|done|]. rewrite Hpt in Hb. injection Hb as <-. rewrite Hf. by destruct p.
Qed.

Lemma encrypt_split lvl root ctx p hidden purpose st v st' :
  encrypt lvl root ctx p hidden purpose st = (v, st') →
  (∃ e, characteristics_at (characteristics p) lvl = Err e ∧ v = Err e ∧ st' = st) ∨
  (characteristics_at (characteristics p) lvl = Panic ∧ v = Panic ∧ st' = st) ∨
  ∃ chars, characteristics_at (characteristics p) lvl = Ok chars ∧
    ((∃ slot sdd st1, obtain_secrets (requires_sdd chars) purpose st = (Ok (slot, sdd), st1) ∧
        encrypt_holding root ctx p hidden slot sdd st1 = (v, st')) ∨
     (∃ e, obtain_secrets (requires_sdd chars) purpose st = (Err e, st') ∧ v = Err e) ∨
     (obtain_secrets (requires_sdd chars) purpose st = (Panic, st') ∧ v = Panic)).
Proof.
  unfold encrypt, liftr, mbind, stM_bind. destruct (characteristics_at _ _) as [chars|e|]; cbn.
  - destruct (obtain_secrets _ _ st) as [[[slot sdd]|e|] st1] eqn:Ho; cbn; intros; simplify_eq; naive_solver.
  - intros [= <- <-]. naive_solver.
  - intros [= <- <-]. naive_solver.
Qed.

(** The secret a slot holds, if there is a manager. *)
Definition held (mgr : option sdm_state) (i : Z) : option (Result SecureDeletionData) :=
  (λ s, get_secret s i) <$> mgr.
Abbreviation mgr_good := (from_option ok True).

(** Obtaining secrets gives what decryption will find again, and a slot when one is
    required; failing to obtain them changes no slot. *)
Lemma obtain_secrets_Ok required purpose mgr r slot sdd mgr1 r1 :
  mgr_good mgr → obtain_secrets required purpose (mgr, r) = (Ok (slot, sdd), (mgr1, r1)) →
  mgr_good mgr1 ∧
  match slot, mgr1 with
  | Some slot, Some s => d ← get_secret s slot; Ok (Some d)
  | Some _, None => km_err InvalidKeyBlob
  | None, Some s => d ← get_factory_reset_secret s; Ok (Some d)
  | None, None => Ok None
  end = Ok sdd ∧ bool_decide (is_Some slot) = required ∧
  (∀ i, held (drop_slot slot mgr1) i = held mgr i).
Proof.
  intros Hok Ho. unfold obtain_secrets in Ho. destruct required, mgr as [s|]; cbn in Hok.
  - destruct (new_secret purpose (s, r)) as [[[i d]|e|] [s' r']] eqn:Hn; [|done..].
    injection Ho as <- <- <- <-.
    destruct (new_secret_Ok _ _ _ _ _ _ _ Hok Hn) as (Hok' & Hg & _ & _ & _ & s'' & Hd & _ & Hsame).
    cbn. rewrite Hg. split_and!; [done..|]. intros j. rewrite Hd. cbn. by rewrite Hsame.
  - done.
  - destruct (get_or_create_factory_reset_secret (s, r)) as [[d|e|] [s' r']] eqn:Hn; [|done..].
    injection Ho as <- <- <- <-. destruct (get_or_create_Ok _ _ _ _ _ Hok Hn) as (Hok' & Hg & Hsame).
    cbn. rewrite Hg. split_and!; [done..|]. intros j. by rewrite Hsame.
  - by injection Ho as <- <- <- <-.
Qed.
(** A slot that is required was free before, and no other slot is touched. *)
Lemma obtain_slot purpose mgr r slot sdd mgr1 r1 :
  mgr_good mgr → obtain_secrets true purpose (mgr, r) = (Ok (slot, sdd), (mgr1, r1)) →
  ∃ i s s1, slot = Some i ∧ mgr = Some s ∧ mgr1 = Some s1 ∧ ok s1 ∧ (∃ e, get_secret s i = Err e) ∧
            ∀ j, j ≠ i → get_secret s1 j = get_secret s j.
Proof.
  intros Hok Ho. unfold obtain_secrets in Ho. destruct mgr as [s|]; [|done].
  destruct (new_secret purpose (s, r)) as [[[i d]|e|] [s' r']] eqn:Hn; [|done..].
  injection Ho as <- <- <- <-.
  destruct (new_secret_Ok _ _ _ _ _ _ _ Hok Hn) as (Hok' & _ & Hfree & Hoth & _).
  exists i, s, s'. by split_and!.
Qed.
Lemma obtain_secrets_Err required purpose mgr r e mgr1 r1 :
  mgr_good mgr → obtain_secrets required purpose (mgr, r) = (Err e, (mgr1, r1)) →
  ∀ i, held mgr1 i = held mgr i.
Proof.
  intros Hok Ho i. unfold obtain_secrets in Ho. destruct required, mgr as [s|]; cbn in Hok.
  - destruct (new_secret purpose (s, r)) as [[[j d]|e'|] [s' r']] eqn:Hn; [done| |done].
    injection Ho as <- <- <-. destruct (new_secret_Err _ _ _ _ _ _ Hok Hn) as (_ & Hsame).
    cbn. by rewrite Hsame.
  - by injection Ho as <- <- <-.
  - destruct (get_or_create_factory_reset_secret (s, r)) as [[d|e'|] [s' r']] eqn:Hn; [done| |done].
    injection Ho as <- <- <-. destruct (get_or_create_Err _ _ _ _ _ Hok Hn) as (_ & Hsame).
    cbn. by rewrite Hsame.
  - done.
Qed.

Lemma encrypt_holding_Ok root ctx p hidden slot sdd mgr r blob mgr' r' :
  encrypt_holding root ctx p hidden slot sdd (mgr, r) = (Ok blob, (mgr', r')) →
  mgr' = mgr ∧ ∃ b, encrypt_with root ctx p hidden sdd r = (Ok b, r') ∧
    blob = V1 {| ekb_characteristics := ekb_characteristics b;
                 ekb_key_derivation_input := ekb_key_derivation_input b;
                 ekb_kek_context := ekb_kek_context b;
                 ekb_encrypted_key_material := ekb_encrypted_key_material b;
                 ekb_secure_deletion_slot := slot |}.
Proof.
  unfold encrypt_holding. destruct (encrypt_with _ _ _ _ _ r) as [[b|e|] r1]; [|done..].
  intros [= <- <- <-]. eauto.
Qed.

Lemma encrypt_decrypt lvl root ctx p hidden purpose mgr r blob mgr' r' :
  mgr_good mgr → km_wf (key_material p) →
  encrypt lvl root ctx p hidden purpose (mgr, r) = (Ok blob, (mgr', r')) →
  decrypt mgr' root blob hidden = Ok p.
Proof.
  intros Hok Hwf He.
  apply encrypt_split in He as [(? & _ & ? & _)|[(_ & ? & _)|(chars & _ & [Hd|[(? & _ & ?)|(_ & ?)]])]];
    [done..| |done|done].
  destruct Hd as (slot & sdd & [mgr1 r1] & Ho & Hh).
  apply obtain_secrets_Ok in Ho as (_ & Hsdd & _ & _); [|done].
  apply encrypt_holding_Ok in Hh as (-> & b & Hb & ->). by eapply decrypt_sealed.
Qed.

(** A blob in storage: what [encrypt] gives can be written and parsed back. *)
Definition ekb_wf (b : EncryptedKeyBlob) : Prop :=
  let 'V1 b := b in
  Forall KeyCharacteristics_wf (ekb_characteristics b) ∧
  length (ekb_key_derivation_input b) = 32%nat ∧ True ∧
  (∃ ct, ekb_encrypted_key_material b = cose_a256gcm ct) ∧
  match ekb_secure_deletion_slot b with Some i => is_u32 i | None => True end ∧ True.
Lemma CoseEncrypt0_codec_ok : codec_ok CoseEncrypt0_codec (λ c, ∃ ct, c = cose_a256gcm ct) 5.
Proof.
  intros c Hc. destruct (cose_codec_build c Hc) as (v & Hv & Hv' & Hd & Hi).
  exists (VTag COSE_ENCRYPT0_TAG v). cbn. rewrite Hv, Hv'. unfold COSE_ENCRYPT0_TAG. split_and!; (done || lia).

Qed.
Lemma EncryptedKeyBlobV1_codec_ok : codec_ok EncryptedKeyBlobV1_codec (λ b, ekb_wf (V1 b)) 7.
Proof.
  unfold EncryptedKeyBlobV1_codec. eapply codec_ok_weaken.
  - apply derive_struct_ok; [|by intros []].
    apply field_ok; [apply characteristics_codec_ok|].
    apply field_ok; [apply array_codec_ok|]. apply field_ok; [apply bytes_codec_ok|].
    apply field_ok; [apply CoseEncrypt0_codec_ok|].
    apply field_ok; [|apply (no_fields_ok 0)].
    apply option_codec_ok, derive_newtype_ok; [apply u32_codec_ok|done].
  - cbn. lia.
  - intros [a b c d e]. cbn. unfold len, id. destruct e; intros (? & -> & ?); done.
Qed.
Lemma EncryptedKeyBlob_codec_ok : codec_ok EncryptedKeyBlob_codec ekb_wf 8.
Proof.
  intros [b] Hb. destruct (EncryptedKeyBlobV1_codec_ok b Hb) as (v & Hv & Hv' & Hd & Hi).
  exists (VArray [VInteger 0; v]). cbn [EncryptedKeyBlob_codec to_cbor_value from_cbor_value].
  rewrite Hv, Hv'. cbn. split_and!; (done || lia).
Qed.
Lemma encrypt_stored `{SL : !SDMSlots ok} lvl root ctx p hidden purpose mgr r blob mgr' r' data :
  mgr_good mgr → Forall KeyCharacteristics_wf (characteristics p) →
  encrypt lvl root ctx p hidden purpose (mgr, r) = (Ok blob, (mgr', r')) →
  into_vec EncryptedKeyBlob_codec blob = Ok data →
  EncryptedKeyBlob_new data = Ok blob ∧ kek_context blob = ctx ∧ mgr_good mgr' ∧ data ≠ [].
Proof.
  intros Hok Hwf He Hdata.
  apply encrypt_split in He as [(? & _ & ? & _)|[(_ & ? & _)|(chars & _ & [Hd|[(? & _ & ?)|(_ & ?)]])]];
    [done..| |done|done].
  destruct Hd as (slot & sdd & [mgr1 r1] & Ho & Hh).
  assert (match slot with Some i => is_u32 i | None => True end) as Hslot.
  { clear Hh. unfold obtain_secrets in Ho. destruct (requires_sdd chars), mgr as [s|]; [|done| |].
    - destruct (new_secret purpose (s, r)) as [[[i d]|e|] [s' r2]] eqn:Hn; [|done..].
      injection Ho as <- <- <- <-. by eapply new_secret_slot.
    - destruct (get_or_create_factory_reset_secret (s, r)) as [[d|e|] [s' r2]]; [|done..].
      by injection Ho as <- <- <- <-.
    - by injection Ho as <- <- <- <-. }
  apply obtain_secrets_Ok in Ho as (Hok1 & _ & _ & _); [|done].
  apply encrypt_holding_Ok in Hh as (-> & b & Hb & ->).
  assert (length (ekb_key_derivation_input b) = 32%nat) as Hkdi.
  { unfold encrypt_with in Hb. apply stM_bind_Ok in Hb as (kdi & r2 & Hk & Hb).
    unfold random_bytes in Hk. destruct (fill_bytes _ r1) as [k r3] eqn:Hf. injection Hk as <- <-.
    pose proof (length_fill_bytes 32 r1) as Hl. change (Z.to_nat 32) with 32%nat in Hf. rewrite Hf in Hl.
    apply stM_bind_Ok in Hb as (kek & r4 & [= _ ->] & Hb).
    apply stM_bind_Ok in Hb as (pt & r5 & [= _ ->] & Hb).
    by apply stM_bind_Ok in Hb as (ct & r6 & [= _ ->] & [= <- _]). }
  apply encrypt_with_Ok in Hb as (kek & pt & ct & _ & _ & _ & Hct & Hc & Hctx).
  match type of Hdata with into_vec _ ?blob = _ => assert (ekb_wf blob) as Hb end.
  { cbn. rewrite Hc. split_and!; eauto. }
  split_and!; [|done|done|by eapply (into_vec_nonempty _ _ _ _ _ EncryptedKeyBlob_codec_ok); [lia|..]].
  unfold EncryptedKeyBlob_new.
  destruct (slice_roundtrip _ _ _ _ EncryptedKeyBlob_codec_ok ltac:(lia) Hb) as (d & Hd & Hf).
  rewrite Hdata in Hd. injection Hd as <-. by rewrite Hf.
Qed.

(** C5: a key blob that was encrypted is decrypted, by the same device state, root key
    and hidden parameters, to exactly the key that went in. *)
Theorem keyblob_roundtrip lvl root ctx p hidden purpose mgr r blob mgr' r' :
  mgr_good mgr → km_wf (key_material p) →
  encrypt lvl root ctx p hidden purpose (mgr, r) = (Ok blob, (mgr', r')) →
  decrypt mgr' root blob hidden = Ok p.
Proof. apply encrypt_decrypt. Qed.

(** A failed encryption leaks no secure deletion slot: every slot holds what it held
    before. *)
Theorem keyblob_no_slot_leak lvl root ctx p hidden purpose mgr r e mgr' r' :
  mgr_good mgr →
  encrypt lvl root ctx p hidden purpose (mgr, r) = (Err e, (mgr', r')) →
  ∀ i, held mgr' i = held mgr i.
Proof.
  intros Hok He i.
  apply encrypt_split in He as [(? & _ & _ & [= -> _])|[(_ & ? & _)|(chars & _ & [Hd|[(? & Ho & ?)|(_ & ?)]])]];
    [done|done| | |done].
  - destruct Hd as (slot & sdd & [mgr1 r1] & Ho & Hh).
    apply obtain_secrets_Ok in Ho as (_ & _ & _ & Hsame); [|done].
    unfold encrypt_holding in Hh. destruct (encrypt_with _ _ _ _ _ r1) as [[b|e'|] r2]; [done| |done].
    injection Hh as <- <- <-. apply Hsame.
  - by eapply obtain_secrets_Err.
Qed.

(** C8: a key with rollback resistance (or a usage limit of one) is always bound to a
    slot of its own, which was free before, without touching any other slot; and once
    that slot is deleted its blob can never be decrypted again, whatever root key or
    hidden parameters are used. *)
Theorem keyblob_secure_deletion lvl root ctx p hidden purpose mgr r blob mgr' r' chars :
  mgr_good mgr → characteristics_at (characteristics p) lvl = Ok chars →
  KP_RollbackResistance ∈ chars ∨ KP_UsageCountLimit 1 ∈ chars →
  encrypt lvl root ctx p hidden purpose (mgr, r) = (Ok blob, (mgr', r')) →
  ∃ i s s', mgr = Some s ∧ mgr' = Some s' ∧ secure_deletion_slot blob = Some i ∧
    (∃ e, get_secret s i = Err e) ∧ (∀ j, j ≠ i → get_secret s' j = get_secret s j) ∧
    (is_u32 i → ∀ s'' root' hidden', delete_secret i s' = (Ok tt, s'') →
     ∃ e, decrypt (Some s'') root' blob hidden' = Err e).
Proof.
  intros Hok Hchars Hreq He.
  apply encrypt_split in He as [(? & _ & ? & _)|[(_ & ? & _)|(chars' & Hc & [Hd|[(? & _ & ?)|(_ & ?)]])]];
    [done..| |done|done].
  destruct Hd as (slot & sdd & [mgr1 r1] & Ho & Hh). rewrite Hchars in Hc. injection Hc as <-.
  assert (requires_sdd chars = true) as Hsdd.
  { apply existsb_exists. destruct Hreq as [Hin|Hin]; eexists; (split; [by apply list_elem_of_In|done]). }
  rewrite Hsdd in Ho. apply obtain_slot in Ho as (i & s & s1 & -> & -> & -> & Hok1 & Hfree & Hoth); [|done].
  apply encrypt_holding_Ok in Hh as (-> & b & Hb & ->).
  exists i, s, s1. cbn [secure_deletion_slot ekb_secure_deletion_slot]. split_and!; [done..|].
  intros Hi s'' root' hidden' Hdel.
  destruct (delete_secret_Ok _ _ _ Hok1 Hi Hdel) as (_ & [e Hg] & _).
  exists e. unfold decrypt. cbn [ekb_secure_deletion_slot]. by rewrite Hg.
Qed.
End spec.

(** ** A small device to run the definitions on

    Identity cipher, constant key derivation, counting random bytes, the in-memory
    slot manager. *)

Module Sample.
#[export] Instance rng : Rng := counter_rng.
#[export] Instance cbor : Ciborium := Rfc8949.codec.
#[export] Instance cbor_laws : CiboriumLaws := Rfc8949.codec_laws.
#[export] Instance cbor_size : CiboriumSize := Rfc8949.codec_size.
#[export] Instance coset : Coset := {|
  CoseEncrypt0 := bytes;
  cose_a256gcm := λ ct, ct;
  cose_a256gcm_aad := bytes_of_string "Encrypt0";
  cose_ciphertext := λ c, Some c;
  cose_aad := λ _, bytes_of_string "Encrypt0";
  cose_codec := bytes_codec
|}.
#[export] Instance coset_laws : CosetLaws.
Proof. split; try done. apply (codec_ok_weaken _ _ _ _ _ bytes_codec_ok); [lia|done]. Qed.
#[export] Instance hkdf_inst : Hkdf := {|
  hkdf_extract := λ _ ikm, Ok (Explicit ikm);
  hkdf_expand := λ _ _ n, Ok (replicate (Z.to_nat n) (u8_of 9))
|}.
#[export] Instance emit : EmittingOperation := {|
  emit_op := unit; emit_update := λ op data, Ok (data, op); emit_finish := λ _, Ok []
|}.
#[export] Instance aad : AadOperation := {|
  aad_op := unit; aad_update_aad := λ op _, Ok op; aad_update := λ op data, Ok (data, op);
  aad_finish := λ _, Ok []
|}.
#[export] Instance aes : Aes := {| aes_begin := λ _ _ _, Ok tt; aes_begin_aead := λ _ _ _, Ok tt |}.
#[export] Instance aes_laws : AeadLaws.
Proof. split. intros k a pt ct [= <-]. unfold unseal. cbn. by rewrite !app_nil_r. Qed.

Definition root : OpaqueOr bytes := Explicit (bytes_of_string "root of the device").
Definition hid : list KeyParam := [KP_ApplicationId (bytes_of_string "app")].
Definition key : PlaintextKeyBlob := {|
  characteristics := [{| security_level := SecurityLevel_TrustedEnvironment;
     authorizations := [KP_Algorithm Algorithm_Aes; KP_KeySize 128; KP_RollbackResistance] |}];
  key_material := KM_Aes (Explicit (AesKey128 (replicate 16 (u8_of 3))))
|}.
Definition mgr : option InMemory.InMemorySlotManager := Some (InMemory.default_mgr 2).
(** [enc m] encrypts [key] on manager state [m]. *)
Definition enc (m : option InMemory.InMemorySlotManager)
    : Result EncryptedKeyBlob * (option InMemory.InMemorySlotManager * Z) :=
  encrypt (M := InMemory.InMemorySDM) SecurityLevel_TrustedEnvironment root [] key hid KeyGeneration (m, 5).
Definition blob : EncryptedKeyBlob :=
  match (enc mgr).1 with Ok b => b | _ => V1 (Build_EncryptedKeyBlobV1 [] [] [] ([] : bytes) None) end.

Lemma mgr_ok : InMemory.mgr_ok (InMemory.default_mgr 2).
Proof. unfold InMemory.mgr_ok. vm_compute. discriminate. Qed.
Lemma km_ok : km_wf (key_material key).
Proof. reflexivity. Qed.

Lemma keyblob_roundtrip_witness :
  decrypt (M := InMemory.InMemorySDM) (enc mgr).2.1 root blob hid
  = Ok key.
Proof.
  apply (keyblob_roundtrip (ML := InMemory.InMemorySDM_laws (R := rng)) SecurityLevel_TrustedEnvironment root []
    key hid KeyGeneration mgr 5 _ _ (enc mgr).2.2).
  - exact mgr_ok.
  - exact km_ok.
  - vm_compute. reflexivity.
Defined.

Lemma keyblob_no_slot_leak_witness :
  (enc (Some (InMemory.default_mgr 0))).1 = Err (Hal RollbackResistanceUnavailable) ∧
  ∀ i, held (H3 := rng) (H4 := InMemory.InMemorySDM) (enc (Some (InMemory.default_mgr 0))).2.1 i =
       held (H3 := rng) (H4 := InMemory.InMemorySDM) (Some (InMemory.default_mgr 0)) i.
Proof.
  split; [vm_compute; reflexivity|].
  apply (keyblob_no_slot_leak (ML := InMemory.InMemorySDM_laws (R := rng)) SecurityLevel_TrustedEnvironment root []
    key hid KeyGeneration (Some (InMemory.default_mgr 0)) 5 (Hal RollbackResistanceUnavailable) _
    (enc (Some (InMemory.default_mgr 0))).2.2).
  - vm_compute. discriminate.
  - vm_compute. reflexivity.
Defined.

Definition key_chars : list KeyParam := [KP_Algorithm Algorithm_Aes; KP_KeySize 128; KP_RollbackResistance].
Lemma keyblob_secure_deletion_witness :
  ∃ i s s', mgr = Some s ∧ (enc mgr).2.1 = Some s' ∧ secure_deletion_slot blob = Some i ∧
    (∃ e, InMemory.get_secret s i = Err e) ∧
    (∀ j, j ≠ i → InMemory.get_secret s' j = InMemory.get_secret s j) ∧
    (is_u32 i → ∀ s'' root' hidden', InMemory.delete_secret i s' = (Ok tt, s'') →
     ∃ e, decrypt (M := InMemory.InMemorySDM) (Some s'') root' blob hidden' = Err e).
Proof.
  apply (keyblob_secure_deletion (ML := InMemory.InMemorySDM_laws (R := rng)) SecurityLevel_TrustedEnvironment
    root [] key hid KeyGeneration mgr 5 _ _ (enc mgr).2.2 key_chars).
  - exact mgr_ok.
  - reflexivity.
  - left. decide_compute.
  - vm_compute. reflexivity.
Defined.

(** Instantiated at two inputs with a common information string. *)
Lemma kek_info_injective_witness :
  hid = hid ∧ @None SecureDeletionData = None.
Proof.
  pose (kdi := replicate 32 (u8_of 1) : bytes).
  pose (i := match kek_info kdi [] hid None with Ok i => i | _ => [] end).
  assert (kek_info kdi [] hid None = Ok i) as Hi by (vm_compute; reflexivity).
  assert (Forall kp_wf hid) as Hh by (repeat constructor).
  exact (proj2 (proj2 (kek_info_injective kdi kdi [] [] hid hid None None i eq_refl eq_refl
    (Forall_nil_2 _) (Forall_nil_2 _) Hh Hh I I Hi Hi))).
Defined.
End Sample.
