(* ===== verification/TaState.v ===== *)
(** * State of the trusted application ([ta/src/lib.rs], [ta/src/clock.rs],
    [ta/src/secret.rs], [ta/src/device.rs], [common/src/crypto/traits.rs])

    The state of a [KeyMintTa], the device-specific traits it is built on, and the
    methods that do not concern operations: start-of-day configuration, shared
    secret negotiation, device HMACs, key blob access and use counts. *)

From S2P Require Import Prelude Wire TagInfo TagLegacy CryptoTypes TagParams TagGen TagBegin Crypto.
From S2P Require Import Codec WireCodec Keyblob.

(** ** Traits of a device *)

(** The asymmetric and DES halves of the crypto traits, as operations use them. *)
Class Des `{EmittingOperation} := {
  des_begin : OpaqueOr bytes → DesMode → SymmetricOperation → Result emit_op
}.
Class Rsa `{AccumulatingOperation} := {
  rsa_begin_decrypt : OpaqueOr bytes → DecryptionMode → Result acc_op;
  rsa_begin_sign : OpaqueOr bytes → SignMode → Result acc_op
}.
Class Ec `{AccumulatingOperation} := {
  ec_begin_agree : OpaqueOr EcKey → Result acc_op;
  ec_begin_sign : OpaqueOr EcKey → Digest → Result acc_op
}.
Class Sha256 := { sha256_hash : bytes → Result bytes }.

(** What is authenticated by the MAC of a timestamp token. *)
Definition TIME_STAMP_MAC_LABEL : bytes := bytes_of_string "Auth Verification".
Definition timestamp_token_mac_input (token : TimeStampToken) : bytes :=
  TIME_STAMP_MAC_LABEL ++
  to_be_bytes 8 (tst_challenge token) ++
  to_be_bytes 8 (tst_timestamp token) ++
  to_be_bytes 4 1.

(** Keys held by the device; an agreed HMAC key may be moved into hardware, which then
    computes HMACs. *)
Class RetrieveKeyMaterial := {
  root_kek : bytes → Result (OpaqueOr bytes);
  dev_kek_context : Result bytes;
  kak : Result (OpaqueOr AesKey);
  hw_device_hmac : Type;
  hmac_key_agreed : bytes → option hw_device_hmac;
  hw_hmac : hw_device_hmac → bytes → Result bytes;
  keys_timestamp_token_mac_input : TimeStampToken → Result bytes   (* by default the function above *)
}.
(** Handling of key blobs in an earlier format. *)
Class LegacyKeyHandler := {
  legacy_state : Type;
  convert_legacy_key : legacy_state → bytes → list KeyParam → BootInfo → SecurityLevel →
                       Result PlaintextKeyBlob;
  delete_legacy_key : bytes → stM legacy_state Error unit
}.
Definition is_legacy_key `{LegacyKeyHandler} (s : legacy_state) (keyblob : bytes)
    (params : list KeyParam) (root_of_trust : BootInfo) : bool :=
  is_ok (convert_legacy_key s keyblob params root_of_trust SecurityLevel_TrustedEnvironment).

(** ** Operations in progress *)

Section state.
Context `{ACC : AccumulatingOperation} `{EMIT : EmittingOperation} `{AAD : AadOperation}
  `{R : Rng} `{M : !SecureDeletionSecretManager} `{KM : RetrieveKeyMaterial} `{LK : LegacyKeyHandler}.

Inductive CryptoOperation :=
| Op_Aes (op : emit_op)
| Op_AesGcm (op : aad_op)
| Op_Des (op : emit_op)
| Op_HmacSign (op : acc_op) (tag_len : Z)
| Op_HmacVerify (op : acc_op) (tag_len_range : Z * Z)      (* half open *)
| Op_RsaDecrypt (op : acc_op)
| Op_RsaSign (op : acc_op)
| Op_EcAgree (op : acc_op)
| Op_EcSign (op : acc_op).

Record AuthInfo := {
  secure_ids : list Z;
  auth_type : Z;
  timeout_secs : option Z
}.

(** Handles are 64-bit integers; the handle is also the challenge for authentication. *)
Record Operation := {
  handle : Z;
  aad_allowed : bool;
  slot_to_delete : option Z;
  trusted_conf_data : option bytes;
  auth_info : option AuthInfo;
  crypto_op : CryptoOperation;
  input_size : Z
}.

(** ** The state *)

Record HalInfo := { os_version : Z; os_patchlevel : Z; vendor_patchlevel : Z }.
Record UseCount := { uc_key_id : bytes; uc_count : Z }.
Inductive KeyMintHalVersion : Set := HAL_V4 | HAL_V3 | HAL_V2 | HAL_V1.

Definition MAX_TEE_OPERATIONS : nat := 16.
Definition MAX_STRONGBOX_OPERATIONS : nat := 4.
Definition MAX_USE_COUNTED_KEYS : nat := 32.
Definition ALLOWED_ADDITIONAL_ATTESTATION_TAGS : list Tag := [Tag_ModuleHash].

(** Implementation of the device HMAC: in hardware or with a key in memory. *)
Inductive DeviceHmac := HwDeviceHmac (h : hw_device_hmac) | SoftDeviceHmac (key : bytes).

(** The fields of the Rust structure, the state of the trait objects it owns, and the
    readings of the device's clock, bootloader and presence sensors. *)
Record KeyMintTa := mk_ta {
  ta_rng : rng_state;
  ta_clock : option Z;                        (* time in milliseconds, if there is a clock *)
  ta_sdd_mgr : option sdm_state;
  ta_legacy_key : option legacy_state;
  ta_bootloader_done : bool;
  ta_tup_available : bool;
  ta_security_level : SecurityLevel;          (* of [hw_info] *)
  ta_aidl_version : KeyMintHalVersion;
  ta_shared_secret_params : option SharedSecretParameters;
  ta_boot_info : option BootInfo;
  ta_rot_data : option bytes;
  ta_hal_info : option HalInfo;
  ta_additional_attestation_info : list KeyParam;
  ta_in_early_boot : bool;
  ta_device_hmac : option DeviceHmac;
  ta_rot_challenge : bytes;
  ta_operations : list (option Operation);
  ta_use_count : list (option UseCount);
  ta_presence_required_op : option Z
}.

(** Assignments to fields. *)
Definition set_rng (x : rng_state) (s : KeyMintTa) : KeyMintTa :=
  let '(mk_ta _ b c d e f g h i j k l m n o p q r t) := s in mk_ta x b c d e f g h i j k l m n o p q r t.
Definition set_sdd_mgr (x : option sdm_state) (s : KeyMintTa) : KeyMintTa :=
  let '(mk_ta a b _ d e f g h i j k l m n o p q r t) := s in mk_ta a b x d e f g h i j k l m n o p q r t.
Definition set_legacy_key (x : option legacy_state) (s : KeyMintTa) : KeyMintTa :=
  let '(mk_ta a b c _ e f g h i j k l m n o p q r t) := s in mk_ta a b c x e f g h i j k l m n o p q r t.
Definition set_aidl_version (x : KeyMintHalVersion) (s : KeyMintTa) : KeyMintTa :=
  let '(mk_ta a b c d e f g _ i j k l m n o p q r t) := s in mk_ta a b c d e f g x i j k l m n o p q r t.
Definition set_shared_secret_params (x : option SharedSecretParameters) (s : KeyMintTa) : KeyMintTa :=
  let '(mk_ta a b c d e f g h _ j k l m n o p q r t) := s in mk_ta a b c d e f g h x j k l m n o p q r t.
Definition set_boot_rot (x : option BootInfo) (y : option bytes) (s : KeyMintTa) : KeyMintTa :=
  let '(mk_ta a b c d e f g h i _ _ l m n o p q r t) := s in mk_ta a b c d e f g h i x y l m n o p q r t.
Definition set_hal (x : option HalInfo) (s : KeyMintTa) : KeyMintTa :=
  let '(mk_ta a b c d e f g h i j k _ m n o p q r t) := s in mk_ta a b c d e f g h i j k x m n o p q r t.
Definition set_attestation_info (x : list KeyParam) (s : KeyMintTa) : KeyMintTa :=
  let '(mk_ta a b c d e f g h i j k l _ n o p q r t) := s in mk_ta a b c d e f g h i j k l x n o p q r t.
Definition set_in_early_boot (x : bool) (s : KeyMintTa) : KeyMintTa :=
  let '(mk_ta a b c d e f g h i j k l m _ o p q r t) := s in mk_ta a b c d e f g h i j k l m x o p q r t.
Definition set_device_hmac (x : option DeviceHmac) (s : KeyMintTa) : KeyMintTa :=
  let '(mk_ta a b c d e f g h i j k l m n _ p q r t) := s in mk_ta a b c d e f g h i j k l m n x p q r t.
Definition set_operations (x : list (option Operation)) (s : KeyMintTa) : KeyMintTa :=
  let '(mk_ta a b c d e f g h i j k l m n o p _ r t) := s in mk_ta a b c d e f g h i j k l m n o p x r t.
Definition set_use_count (x : list (option UseCount)) (s : KeyMintTa) : KeyMintTa :=
  let '(mk_ta a b c d e f g h i j k l m n o p q _ t) := s in mk_ta a b c d e f g h i j k l m n o p q x t.
Definition set_presence (x : option Z) (s : KeyMintTa) : KeyMintTa :=
  let '(mk_ta a b c d e f g h i j k l m n o p q r _) := s in mk_ta a b c d e f g h i j k l m n o p q r x.

Definition set_rot_challenge (x : bytes) (s : KeyMintTa) : KeyMintTa :=
  let '(mk_ta a b c d e f g h i j k l m n o _ q r t) := s in mk_ta a b c d e f g h i j k l m n o x q r t.
(** Use of the random number generator. *)
Definition with_rng {A} (m : stM rng_state Error A) : stM KeyMintTa Error A := λ s,
  let '(r, g) := m (ta_rng s) in (r, set_rng g s).

(** A newly started trusted application. *)
Definition KeyMintTa_new (sec_level : SecurityLevel) (rng : rng_state) (clock : option Z)
    (sdd : option sdm_state) (legacy : option legacy_state) (bl_done tup : bool) : KeyMintTa :=
  let max_operations := if decide (sec_level = SecurityLevel_Strongbox)
                        then MAX_STRONGBOX_OPERATIONS else MAX_TEE_OPERATIONS in
  {| ta_rng := rng; ta_clock := clock; ta_sdd_mgr := sdd; ta_legacy_key := legacy;
     ta_bootloader_done := bl_done; ta_tup_available := tup; ta_security_level := sec_level;
     ta_aidl_version := HAL_V4; ta_shared_secret_params := None; ta_boot_info := None;
     ta_rot_data := None; ta_hal_info := None; ta_additional_attestation_info := [];
     ta_in_early_boot := true; ta_device_hmac := None; ta_rot_challenge := replicate 16 (u8_of 0);
     ta_operations := replicate max_operations None;
     ta_use_count := replicate MAX_USE_COUNTED_KEYS None; ta_presence_required_op := None |}.
End state.

Abbreviation TA := (stM KeyMintTa Error).

(** ** Methods *)

Section methods.
Context `{T : Target} `{ACC : AccumulatingOperation} `{EMIT : EmittingOperation} `{AAD : AadOperation}
  `{HM : !Hmac} `{CM : !AesCmac} `{AES : !Aes} `{HK : Hkdf} `{R : Rng} `{M : !SecureDeletionSecretManager}
  `{KM : RetrieveKeyMaterial} `{LK : LegacyKeyHandler} `{CTE : ConstTimeEq} `{SHA : Sha256}
  `{C : Ciborium} `{K : Coset}.

Definition is_strongbox (s : KeyMintTa) : bool :=
  bool_decide (ta_security_level s = SecurityLevel_Strongbox).
Definition secure_storage_available (s : KeyMintTa) : SecureStorage :=
  match ta_sdd_mgr s with Some _ => Available | None => Unavailable end.
Definition boot_info (s : KeyMintTa) : Result BootInfo :=
  ok_or (ta_boot_info s) (Hal HardwareNotYetAvailable).
Definition boot_info_hashed_key (s : KeyMintTa) : Result BootInfo :=
  b ← boot_info s;
  if decide (len (verified_boot_key b) > 32) then
    h ← sha256_hash (verified_boot_key b);
    Ok {| verified_boot_key := h; device_boot_locked := device_boot_locked b;
          verified_boot_state := verified_boot_state b; verified_boot_hash := verified_boot_hash b;
          boot_patchlevel := boot_patchlevel b |}
  else Ok b.
Definition root_of_trust (s : KeyMintTa) : Result bytes :=
  ok_or (ta_rot_data s) (Hal HardwareNotYetAvailable).

(** *** HMACs with the device's agreed key *)

Definition soft_hmac (key data : bytes) : Result bytes :=
  op ← hmac_begin (Explicit key) Digest_Sha256;
  op ← acc_update op data;
  acc_finish op.
Definition device_hmac (s : KeyMintTa) (data : bytes) : Result bytes :=
  match ta_device_hmac s with
  | Some (HwDeviceHmac h) => hw_hmac h data
  | Some (SoftDeviceHmac key) => soft_hmac key data
  | None => km_err HardwareNotYetAvailable
  end.
Definition verify_device_hmac (s : KeyMintTa) (data mac : bytes) : Result bool :=
  remac ← device_hmac s data;
  Ok (ct_eq mac remac).

(** What is authenticated by the MAC of an authentication token. *)
Definition hardware_auth_token_mac_input (token : HardwareAuthToken) : bytes :=
  to_be_bytes 1 0 ++
  to_ne_bytes 8 (hat_challenge token) ++
  to_ne_bytes 8 (hat_user_id token) ++
  to_ne_bytes 8 (hat_authenticator_id token) ++
  to_be_bytes 4 (discr (hat_authenticator_type token)) ++
  to_be_bytes 8 (hat_timestamp token).
Definition generate_timestamp (s : KeyMintTa) (challenge : Z) : Result TimeStampToken :=
  match ta_clock s with
  | Some now =>
    let ret := {| tst_challenge := challenge; tst_timestamp := now; tst_mac := [] |} in
    mac_input ← keys_timestamp_token_mac_input ret;
    mac ← device_hmac s mac_input;
    Ok {| tst_challenge := challenge; tst_timestamp := now; tst_mac := mac |}
  | None => km_err Unimplemented
  end.

(** *** Shared secret negotiation *)

Definition get_shared_secret_params : TA SharedSecretParameters := λ s,
  match ta_shared_secret_params s with
  | Some p => (Ok p, s)
  | None =>
    let '(nonce, r) := fill_bytes 32 (ta_rng s) in
    let p := {| SharedSecretParameters_seed := []; SharedSecretParameters_nonce := nonce |} in
    (Ok p, set_shared_secret_params (Some p) (set_rng r s))
  end.

#[export] Instance SharedSecretParameters_eq_dec : EqDecision SharedSecretParameters.
Proof. solve_decision. Defined.

Fixpoint shared_secret_context_from (params : list SharedSecretParameters)
    (must_include : SharedSecretParameters) (result : bytes) (seen : bool) : Result bytes :=
  match params with
  | [] => if seen then Ok result else km_err InvalidArgument
  | p :: params' =>
    _ ← reject_if (bool_decide (len (SharedSecretParameters_nonce p) ≠ 32)) (Hal InvalidArgument);
    shared_secret_context_from params' must_include
      (result ++ SharedSecretParameters_seed p ++ SharedSecretParameters_nonce p)
      (if decide (p = must_include) then true else seen)
  end.
Definition shared_secret_context (params : list SharedSecretParameters)
    (must_include : SharedSecretParameters) : Result bytes :=
  shared_secret_context_from params must_include [] false.

Definition KEY_AGREEMENT_LABEL : bytes := bytes_of_string "KeymasterSharedMac".
Definition KEY_CHECK_LABEL : bytes := bytes_of_string "Keymaster HMAC Verification".

Definition compute_shared_secret (params : list SharedSecretParameters) : TA bytes := λ s,
  match ta_shared_secret_params s with
  | None => (km_err HardwareNotYetAvailable, s)
  | Some local_params =>
    match (context ← shared_secret_context params local_params;
           k ← kak;
           ckdf k KEY_AGREEMENT_LABEL [context] SHA256_DIGEST_LEN) with
    | Ok key =>
      let h := match hmac_key_agreed key with Some h => HwDeviceHmac h | None => SoftDeviceHmac key end in
      let s' := set_device_hmac (Some h) s in
      (device_hmac s' KEY_CHECK_LABEL, s')
    | Err e => (Err e, s)
    | Panic => (Panic, s)
    end
  end.

(** *** Start-of-day configuration *)

(** The root of trust that is bound into key blobs. *)
Definition RootOfTrustInfo_codec : Codec (bytes * bool * VerifiedBootState) :=
  derive_struct "arr len 3" (field bytes_codec (field bool_codec (field derive_enum no_fields)))
    (λ '(a, (b, (c, _))), (a, b, c)) (λ '(a, b, c), (a, (b, (c, tt)))).

Definition set_boot_info (info : BootInfo) : TA unit := λ s,
  if negb (ta_in_early_boot s) then (km_err EarlyBootEnded, s)
  else match ta_boot_info s with
       | Some existing_boot_info =>
         if decide (existing_boot_info = info) then (Ok tt, s) else (km_err RootOfTrustAlreadySet, s)
       | None =>
         match into_vec RootOfTrustInfo_codec
                 (verified_boot_key info, device_boot_locked info, verified_boot_state info) with
         | Ok rot => (Ok tt, set_boot_rot (Some info) (Some rot) s)
         | _ => (km_err EncodingError, set_boot_rot (Some info) (ta_rot_data s) s)
         end
       end.

Definition set_hal_info (info : HalInfo) : TA unit := λ s,
  match ta_hal_info s with
  | None => (Ok tt, set_hal (Some info) s)
  | Some _ => (Ok tt, s)
  end.

(** [downgrade] is the crate feature that lets the HAL choose another version. *)
Definition set_hal_version (downgrade : bool) (aidl_version : Z) : TA unit := λ s,
  match (match aidl_version with
         | 100 => Some HAL_V1 | 200 => Some HAL_V2 | 300 => Some HAL_V3 | 400 => Some HAL_V4
         | _ => None
         end) with
  | None => (km_err InvalidArgument, s)
  | Some v => if downgrade then (Ok tt, set_aidl_version v s) else (Ok tt, s)
  end.

Definition early_boot_ended : TA unit := λ s, (Ok tt, set_in_early_boot false s).

Definition add_rng_entropy (data : bytes) : TA unit := λ s,
  if decide (len data > 2048) then (km_err InvalidInputLength, s)
  else (Ok tt, set_rng (add_entropy data (ta_rng s)) s).

(** One parameter of [set_additional_attestation_info]. *)
Definition set_attestation_param (param : KeyParam) : TA unit := λ s,
  let t := tag param in
  if bool_decide (t ∉ ALLOWED_ADDITIONAL_ATTESTATION_TAGS) then (Ok tt, s)
  else match list_find (λ x, tag x = t) (ta_additional_attestation_info s) with
       | Some (_, value) =>
         if decide (value = param) then (Ok tt, s)
         else (if decide (t = Tag_ModuleHash) then km_err ModuleHashAlreadySet else km_err InvalidTag, s)
       | None => (Ok tt, set_attestation_info (ta_additional_attestation_info s ++ [param]) s)
       end.
Fixpoint set_additional_attestation_info (info : list KeyParam) : TA unit :=
  match info with
  | [] => mret tt
  | param :: info' => _ ← set_attestation_param param; set_additional_attestation_info info'
  end.

(** *** Access to key blobs *)

Definition keyblob_parse_decrypt_backlevel (s : KeyMintTa) (key_blob : bytes) (params : list KeyParam)
    : Result (PlaintextKeyBlob * option Z) :=
  match EncryptedKeyBlob_new key_blob with
  | Ok encrypted_keyblob =>
    rot ← root_of_trust s;
    hid ← hidden params rot;
    let sdd_slot := secure_deletion_slot encrypted_keyblob in
    kek ← root_kek (kek_context encrypted_keyblob);
    keyblob ← decrypt (ta_sdd_mgr s) kek encrypted_keyblob hid;
    Ok (keyblob, sdd_slot)
  | Err e =>
    match ta_legacy_key s with
    | Some old_key =>
      b ← boot_info s;
      if is_legacy_key old_key key_blob params b then km_err KeyRequiresUpgrade else Err e
    | None => Err e
    end
  | Panic => Panic
  end.

(** The version of a key against the current one. *)
Definition check_version (v curr : Z) : Result unit :=
  match v ?= curr with
  | Lt => km_err KeyRequiresUpgrade
  | Eq => Ok tt
  | Gt => km_err InvalidKeyBlob
  end.
Definition check_key_version (s : KeyMintTa) (param : KeyParam) : Result unit :=
  match param with
  | KP_OsVersion v =>
    match ta_hal_info s with
    | Some h => if decide (os_version h = 0)
                then reject_if (bool_decide (v ≠ 0)) (Hal KeyRequiresUpgrade)
                else check_version v (os_version h)
    | None => Ok tt
    end
  | KP_OsPatchlevel v =>
    match ta_hal_info s with Some h => check_version v (os_patchlevel h) | None => Ok tt end
  | KP_VendorPatchlevel v =>
    match ta_hal_info s with Some h => check_version v (vendor_patchlevel h) | None => Ok tt end
  | KP_BootPatchlevel v =>
    match ta_boot_info s with Some b => check_version v (boot_patchlevel b) | None => Ok tt end
  | _ => Ok tt
  end.
Fixpoint check_key_versions (s : KeyMintTa) (key_chars : list KeyParam) : Result unit :=
  match key_chars with
  | [] => Ok tt
  | param :: key_chars' => _ ← check_key_version s param; check_key_versions s key_chars'
  end.

Definition keyblob_parse_decrypt (s : KeyMintTa) (key_blob : bytes) (params : list KeyParam)
    : Result (PlaintextKeyBlob * option Z) :=
  '(keyblob, slot) ← keyblob_parse_decrypt_backlevel s key_blob params;
  key_chars ← characteristics_at (characteristics keyblob) (ta_security_level s);
  _ ← check_key_versions s key_chars;
  Ok (keyblob, slot).

Definition get_key_characteristics (s : KeyMintTa) (key_blob app_id app_data : bytes)
    : Result (list KeyCharacteristics) :=
  let params := match app_id with [] => [] | _ => [KP_ApplicationId app_id] end ++
                match app_data with [] => [] | _ => [KP_ApplicationData app_data] end in
  '(keyblob, _) ← keyblob_parse_decrypt s key_blob params;
  Ok (characteristics keyblob).

(** Deletion of keys: errors are only logged. *)
Definition delete_key (keyblob : bytes) : TA unit := λ s,
  match EncryptedKeyBlob_new keyblob with
  | Ok (V1 b) =>
    match ta_sdd_mgr s, ekb_secure_deletion_slot b with
    | Some m, Some slot =>
      match delete_secret slot m with
      | (Panic, m') => (Panic, set_sdd_mgr (Some m') s)
      | (_, m') => (Ok tt, set_sdd_mgr (Some m') s)
      end
    | _, _ => (Ok tt, s)
    end
  | Panic => (Panic, s)
  | Err _ =>
    match ta_legacy_key s with
    | Some old_key =>
      match delete_legacy_key keyblob old_key with
      | (Panic, old_key') => (Panic, set_legacy_key (Some old_key') s)
      | (_, old_key') => (Ok tt, set_legacy_key (Some old_key') s)
      end
    | None => (Ok tt, s)
    end
  end.
Definition delete_all_keys : TA unit := λ s,
  match ta_sdd_mgr s with
  | Some m => (Ok tt, set_sdd_mgr (Some (delete_all m)) s)
  | None => (Ok tt, s)
  end.

(** The characteristics that KeyMint itself adds to a new key. *)
Definition keymint_tags (s : KeyMintTa) (origin : KeyOrigin) : list KeyParam :=
  KP_Origin origin ::
  match ta_hal_info s with
  | Some h => [KP_OsVersion (os_version h); KP_OsPatchlevel (os_patchlevel h);
               KP_VendorPatchlevel (vendor_patchlevel h)]
  | None => []
  end ++
  match ta_boot_info s with Some b => [KP_BootPatchlevel (boot_patchlevel b)] | None => [] end.
Fixpoint add_keymint_tags (s : KeyMintTa) (chars : list KeyCharacteristics) (origin : KeyOrigin)
    : Result (list KeyCharacteristics) :=
  match chars with
  | [] => km_err InvalidArgument
  | kc :: chars' =>
    if decide (security_level kc = ta_security_level s)
    then Ok ({| security_level := security_level kc;
                authorizations := authorizations kc ++ keymint_tags s origin |} :: chars')
    else rest ← add_keymint_tags s chars' origin; Ok (kc :: rest)
  end.

(** *** Use counts *)

Definition key_id (keyblob : bytes) : Result bytes :=
  op ← hmac_begin (Explicit (replicate 16 (u8_of 0))) Digest_Sha256;
  op ← acc_update op keyblob;
  tag ← acc_finish op;
  if decide (len tag = 32) then Ok tag else km_err SecureHwCommunicationFailed.

(** The first free entry and the entry of the key; the search stops at the latter. *)
Fixpoint find_use_count (key_id : bytes) (l : list (option UseCount)) (idx : nat) (free_idx : option nat)
    : option nat * option nat :=
  match l with
  | [] => (free_idx, None)
  | None :: l' =>
    find_use_count key_id l' (S idx) (match free_idx with None => Some idx | _ => free_idx end)
  | Some uc :: l' => if decide (uc_key_id uc = key_id) then (free_idx, Some idx)
                     else find_use_count key_id l' (S idx) free_idx
  end.

Definition update_use_count (key_id : bytes) (max_uses : Z) : TA unit := λ s,
  let l := ta_use_count s in
  let '(free_idx, slot_idx) := find_use_count key_id l 0 None in
  let '(l, slot_idx) :=
    match slot_idx, free_idx with
    | None, Some idx => (<[idx := Some {| uc_key_id := key_id; uc_count := 0 |}]> l, Some idx)
    | _, _ => (l, slot_idx)
    end in
  let s := set_use_count l s in
  match slot_idx with
  | Some idx =>
    match l !! idx with
    | Some (Some c) =>
      if decide (max_uses ≤ uc_count c) then (km_err KeyMaxOpsExceeded, s)
      else (Ok tt, set_use_count
              (<[idx := Some {| uc_key_id := uc_key_id c; uc_count := uc_count c + 1 |}]> l) s)
    | _ => (Panic, s)
    end
  | None => (km_err TooManyOperations, s)
  end.
End methods.

(** ** Responses *)

(** Split a response into messages of at most [max_size] bytes, each starting with a byte
    that tells whether more follow; [fuel] bounds the number of messages. *)
Fixpoint split_rsp_loop (fuel : nat) (rsp_data : bytes) (allowed_msg_length : Z) : list bytes :=
  match fuel with
  | O => []
  | S fuel' =>
    if decide (len rsp_data > allowed_msg_length) then
      (NEXT_MESSAGE_SIGNAL_TRUE :: take (Z.to_nat allowed_msg_length) rsp_data) ::
      split_rsp_loop fuel' (drop (Z.to_nat allowed_msg_length) rsp_data) allowed_msg_length
    else [NEXT_MESSAGE_SIGNAL_FALSE :: rsp_data]
  end.
Definition split_rsp (rsp_data : bytes) (max_size : Z) : Result (list bytes) :=
  _ ← reject_if (bool_decide (rsp_data = []) || bool_decide (max_size < 2)) (Hal InvalidArgument);
  let allowed_msg_length := max_size - 1 in
  Ok (split_rsp_loop (length rsp_data) rsp_data allowed_msg_length).

(** The HAL side: whether to wait for another message, and this message's data
    ([hal/src/lib.rs]). *)
Definition extract_rsp (rsp : bytes) : option (bool * bytes) :=
  match rsp with
  | b :: c :: data => Some (bool_decide (b = NEXT_MESSAGE_SIGNAL_TRUE), c :: data)
  | _ => None
  end.

Definition op_ok_rsp (rsp : PerformOpRsp) : PerformOpResponse :=
  {| PerformOpResponse_error_code := 0; PerformOpResponse_rsp := Some rsp |}.
Definition error_rsp (error_code : Z) : PerformOpResponse :=
  {| PerformOpResponse_error_code := error_code; PerformOpResponse_rsp := None |}.
Definition op_error_rsp (op : KeyMintOperation) (err : Error) : PerformOpResponse :=
  if is_rpc_operation op then
    let rpc_err := match err with
                   | Cbor _ | Der | Alloc => Rpc_Failed
                   | Hal _ => Rpc_Failed
                   | Rpc e => e
                   end in
    error_rsp (RpcErrorCode_discr rpc_err)
  else
    let hal_err := match err with
                   | Cbor _ | Der => InvalidArgument
                   | Hal e => e
                   | Rpc _ => InvalidArgument
                   | Alloc => MemoryAllocationFailed
                   end in
    error_rsp (discr hal_err).

(** ** Responses survive the channel *)

(** Read messages until one says that no more follow. *)
Fixpoint reassemble (msgs : list bytes) : option bytes :=
  match msgs with
  | [] => None
  | m :: rest =>
    match extract_rsp m with
    | Some (true, d) => (d ++.) <$> reassemble rest
    | Some (false, d) => match rest with [] => Some d | _ => None end
    | None => None
    end
  end.

Lemma extract_rsp_cons b (d : bytes) :
  d ≠ [] → extract_rsp (b :: d) = Some (bool_decide (b = NEXT_MESSAGE_SIGNAL_TRUE), d).
Proof. by destruct d. Qed.

Lemma split_rsp_loop_spec fuel data allowed :
  1 ≤ allowed → data ≠ [] → (length data ≤ fuel)%nat →
  reassemble (split_rsp_loop fuel data allowed) = Some data ∧
  Forall (λ m, len m ≤ allowed + 1) (split_rsp_loop fuel data allowed).
Proof.
  intros Ha. revert data. induction fuel as [|fuel IH]; intros data Hne Hf.
  { destruct data; [done|cbn in Hf; lia]. }
  cbn [split_rsp_loop]. case_decide as Hl.
  - set (n := Z.to_nat allowed). unfold len in Hl.
    assert (length (take n data) = n) as Ht by (rewrite length_take; lia).
    destruct (IH (drop n data)) as [Hr Hs].
    { intros Hd%(f_equal length). rewrite length_drop in Hd. cbn in Hd. lia. }
    { rewrite length_drop. lia. }
    cbn [reassemble]. rewrite extract_rsp_cons by (intros Hd%(f_equal length); cbn in *; lia).
    rewrite bool_decide_eq_true_2 by done. rewrite Hr. cbn. rewrite take_drop. split; [done|].
    constructor; [|done]. unfold len. cbn. rewrite Ht. lia.
  - cbn [reassemble]. rewrite extract_rsp_cons by done. rewrite bool_decide_eq_false_2 by done.
    split; [done|]. constructor; [|done]. unfold len in *. cbn. lia.
Qed.

(** A non-empty response sent over a channel that carries at least two bytes at a
    time is always split successfully, into messages no longer than the channel
    allows, and reading the messages back gives the response. *)
Theorem split_rsp_reassembles rsp_data max_size :
  rsp_data ≠ [] → 2 ≤ max_size →
  ∃ msgs, split_rsp rsp_data max_size = Ok msgs ∧ Forall (λ m, len m ≤ max_size) msgs ∧
          reassemble msgs = Some rsp_data.
Proof.
  intros Hne Hm. unfold split_rsp. rewrite !bool_decide_eq_false_2 by (done || lia). cbn.
  destruct (split_rsp_loop_spec (length rsp_data) rsp_data (max_size - 1)) as [Hr Hs]; [lia|done|done|].
  eexists. split_and!; [done| |done]. eapply Forall_impl; [done|]. cbn. intros. lia.
Qed.
Lemma split_rsp_reassembles_witness :
  ∃ msgs, split_rsp (bytes_of_string "a response") 4 = Ok msgs ∧ Forall (λ m, len m ≤ 4) msgs ∧
          reassemble msgs = Some (bytes_of_string "a response").
Proof. apply split_rsp_reassembles; [discriminate|lia]. Defined.

(** ** What is authenticated *)

Section macs.
Context `{T : Target}.

Definition hat_wf (t : HardwareAuthToken) : Prop :=
  is_i64 (hat_challenge t) ∧ is_i64 (hat_user_id t) ∧ is_i64 (hat_authenticator_id t) ∧ is_i64 (hat_timestamp t).
Definition tst_wf (t : TimeStampToken) : Prop := is_i64 (tst_challenge t) ∧ is_i64 (tst_timestamp t).

Lemma to_ne_bytes_signed_inj n z1 z2 :
  (0 < n)%nat → is_signed (8 * Z.of_nat n) z1 → is_signed (8 * Z.of_nat n) z2 →
  to_ne_bytes n z1 = to_ne_bytes n z2 → z1 = z2.
Proof.
  intros Hn H1 H2 He%(f_equal from_ne_bytes). rewrite !from_to_ne_bytes in He.
  rewrite <- (as_signed_as_unsigned (8 * Z.of_nat n) z1), <- (as_signed_as_unsigned (8 * Z.of_nat n) z2)
    by (lia || done). by rewrite He.
Qed.
Lemma to_be_bytes_signed_inj n z1 z2 :
  (0 < n)%nat → is_signed (8 * Z.of_nat n) z1 → is_signed (8 * Z.of_nat n) z2 →
  to_be_bytes n z1 = to_be_bytes n z2 → z1 = z2.
Proof.
  intros Hn H1 H2 He%to_be_bytes_inj.
  rewrite <- (as_signed_as_unsigned (8 * Z.of_nat n) z1), <- (as_signed_as_unsigned (8 * Z.of_nat n) z2)
    by (lia || done). by rewrite He.
Qed.

Lemma hat_mac_input_inj t1 t2 :
  hat_wf t1 → hat_wf t2 → hardware_auth_token_mac_input t1 = hardware_auth_token_mac_input t2 →
  hat_challenge t1 = hat_challenge t2 ∧ hat_user_id t1 = hat_user_id t2 ∧
  hat_authenticator_id t1 = hat_authenticator_id t2 ∧
  hat_authenticator_type t1 = hat_authenticator_type t2 ∧ hat_timestamp t1 = hat_timestamp t2.
Proof.
  intros (?&?&?&?) (?&?&?&?) Hq. unfold hardware_auth_token_mac_input in Hq.
  apply app_inj_1 in Hq as [_ Hq]; [|done].
  apply app_inj_1 in Hq as [E1 Hq]; [|by rewrite !length_to_ne_bytes].
  apply app_inj_1 in Hq as [E2 Hq]; [|by rewrite !length_to_ne_bytes].
  apply app_inj_1 in Hq as [E3 Hq]; [|by rewrite !length_to_ne_bytes].
  apply app_inj_1 in Hq as [E4 E5]; [|by rewrite !length_to_be_bytes].
  apply to_ne_bytes_signed_inj in E1, E2, E3; [|(lia || done)..].
  apply to_be_bytes_signed_inj in E4; [|lia|apply discr_is_i32..].
  apply to_be_bytes_signed_inj in E5; [|(lia || done)..].
  split_and!; try done. by apply (inj discr).
Qed.

(** The input of a token's MAC determines every field of the token, for
    authentication tokens and for timestamp tokens, and no authentication token, no
    timestamp token and no trusted confirmation data share a MAC input. *)
Theorem mac_inputs_unambiguous :
  (∀ t1 t2, hat_wf t1 → hat_wf t2 →
     hardware_auth_token_mac_input t1 = hardware_auth_token_mac_input t2 →
     hat_challenge t1 = hat_challenge t2 ∧ hat_user_id t1 = hat_user_id t2 ∧
     hat_authenticator_id t1 = hat_authenticator_id t2 ∧
     hat_authenticator_type t1 = hat_authenticator_type t2 ∧ hat_timestamp t1 = hat_timestamp t2) ∧
  (∀ t1 t2, tst_wf t1 → tst_wf t2 → timestamp_token_mac_input t1 = timestamp_token_mac_input t2 →
     tst_challenge t1 = tst_challenge t2 ∧ tst_timestamp t1 = tst_timestamp t2) ∧
  (∀ t1 t2, hardware_auth_token_mac_input t1 ≠ timestamp_token_mac_input t2) ∧
  (∀ t msg, hardware_auth_token_mac_input t ≠ bytes_of_string "confirmation token" ++ msg) ∧
  (∀ t msg, timestamp_token_mac_input t ≠ bytes_of_string "confirmation token" ++ msg).
Proof.
  split_and!.
  - apply hat_mac_input_inj.
  - intros t1 t2 [??] [??] Hq. unfold timestamp_token_mac_input in Hq.
    apply app_inj_1 in Hq as [_ Hq]; [|done].
    apply app_inj_1 in Hq as [E1 Hq]; [|by rewrite !length_to_be_bytes].
    apply app_inj_1 in Hq as [E2 _]; [|by rewrite !length_to_be_bytes].
    apply to_be_bytes_signed_inj in E1, E2; (lia || done).
  - intros t1 t2 H. discriminate H.
  - intros t msg H. discriminate H.
  - intros t msg H. discriminate H.
Qed.
End macs.

Lemma mac_inputs_unambiguous_witness :
  let t := {| hat_challenge := 7; hat_user_id := 1; hat_authenticator_id := 2;
              hat_authenticator_type := HardwareAuthenticatorType_Password; hat_timestamp := 99; hat_mac := [] |} in
  let t' := {| hat_challenge := 7; hat_user_id := 1; hat_authenticator_id := 2;
              hat_authenticator_type := HardwareAuthenticatorType_Password; hat_timestamp := 99;
              hat_mac := [u8_of 1] |} in
  hat_timestamp t = hat_timestamp t'.
Proof.
  intros t t'. apply (proj1 (mac_inputs_unambiguous (T := arm64)) t t').
  - unfold hat_wf, is_signed; cbn; lia.
  - unfold hat_wf, is_signed; cbn; lia.
  - vm_compute. reflexivity.
Defined.

(** ** Use counts *)

(** How often a key has been used, according to the table. *)
Fixpoint uses_in (l : list (option UseCount)) (id : bytes) : Z :=
  match l with
  | [] => 0
  | Some uc :: l' => if decide (uc_key_id uc = id) then uc_count uc else uses_in l' id
  | None :: l' => uses_in l' id
  end.
Definition entry_of (id : bytes) (o : option UseCount) : Prop := ∃ uc, o = Some uc ∧ uc_key_id uc = id.

Lemma find_use_count_spec id l idx free :
  match find_use_count id l idx free with
  | (_, Some i) => ∃ j uc, i = (idx + j)%nat ∧ l !! j = Some (Some uc) ∧ uc_key_id uc = id ∧
      uses_in l id = uc_count uc ∧ Forall (λ o, ¬ entry_of id o) (take j l)
  | (f, None) => Forall (λ o, ¬ entry_of id o) l ∧ uses_in l id = 0 ∧
      (f = free ∨ (free = None ∧ ∃ j, f = Some (idx + j)%nat ∧ l !! j = Some None))
  end.
Proof.
  revert idx free. induction l as [|[uc|] l IH]; intros idx free; cbn [find_use_count uses_in].
  - split_and!; [constructor|done|by left].
  - case_decide as Hid.
    + exists 0%nat, uc. split_and!; [lia|done..|]. constructor.
    + specialize (IH (S idx) free). destruct (find_use_count id l (S idx) free) as [f [i|]].
      * destruct IH as (j & uc' & -> & Hj & Hk & Hu & Hall). exists (S j), uc'.
        split_and!; [lia|done..|]. cbn. constructor; [|done]. intros (? & [= <-] & ?). done.
      * destruct IH as (Hall & Hu & Hf). split_and!; [|done|].
        { constructor; [|done]. intros (? & [= <-] & ?). done. }
        destruct Hf as [->|(-> & j & -> & Hj)]; [by left|right]. split; [done|].
        exists (S j). split; [f_equal; lia|done].
  - set (free' := match free with None => Some idx | _ => free end).
    specialize (IH (S idx) free'). destruct (find_use_count id l (S idx) free') as [f [i|]].
    + destruct IH as (j & uc' & -> & Hj & Hk & Hu & Hall). exists (S j), uc'.
      split_and!; [lia|done..|]. cbn. constructor; [|done]. by intros (? & ? & ?).
    + destruct IH as (Hall & Hu & Hf). split_and!; [|done|].
      { constructor; [|done]. by intros (? & ? & ?). }
      destruct free as [k|]; cbn in free'; subst free'.
      * destruct Hf as [->|[[=] _]]. by left.
      * right. split; [done|]. destruct Hf as [->|[[=] _]]. exists 0%nat. split; [f_equal; lia|done].
Qed.

Lemma uses_in_insert_self id l j uc :
  (j < length l)%nat → Forall (λ o, ¬ entry_of id o) (take j l) → uc_key_id uc = id →
  uses_in (<[j := Some uc]> l) id = uc_count uc.
Proof.
  revert j. induction l as [|o l IH]; intros [|j] Hj Hall Huc; cbn in *; [lia..| |].
  - by rewrite decide_True.
  - inversion Hall as [|?? Ho Hall']; subst. destruct o as [uc'|].
    + rewrite decide_False by (intros ?; apply Ho; by exists uc'). apply IH; [lia|done..].
    + apply IH; [lia|done..].
Qed.
Lemma uses_in_insert_other id id' l j o uc :
  l !! j = Some o → (∀ uc', o = Some uc' → uc_key_id uc' = id) → uc_key_id uc = id → id' ≠ id →
  uses_in (<[j := Some uc]> l) id' = uses_in l id'.
Proof.
  revert j. induction l as [|o' l IH]; intros [|j] Hj Ho Huc Hne; cbn in *; [done..| |].
  - injection Hj as ->. rewrite decide_False by congruence.
    destruct o as [uc'|]; [|done]. rewrite decide_False; [done|]. rewrite (Ho uc' eq_refl). congruence.
  - destruct o' as [uc'|]; [case_decide; [done|]|]; by apply IH.
Qed.

Section use_count.
Context `{ACC : AccumulatingOperation} `{EMIT : EmittingOperation} `{AAD : AadOperation}
  `{R : Rng} `{M : !SecureDeletionSecretManager} `{KM : RetrieveKeyMaterial} `{LK : LegacyKeyHandler}.

Lemma ta_use_count_set l (s : KeyMintTa) : ta_use_count (set_use_count l s) = l.
Proof. by destruct s. Qed.

(** One call: it counts up by one, to at most the limit, or fails and counts nothing. *)
Lemma update_use_count_spec id max s r s' :
  update_use_count id max s = (r, s') →
  (∀ id', id' ≠ id → uses_in (ta_use_count s') id' = uses_in (ta_use_count s) id') ∧
  match r with
  | Ok _ => uses_in (ta_use_count s') id = uses_in (ta_use_count s) id + 1 ∧
            uses_in (ta_use_count s') id ≤ max
  | Err _ => uses_in (ta_use_count s') id = uses_in (ta_use_count s) id
  | Panic => False
  end.
Proof.
  unfold update_use_count. pose proof (find_use_count_spec id (ta_use_count s) 0 None) as Hf.
  destruct (find_use_count id (ta_use_count s) 0 None) as [f [i|]].
  - destruct Hf as (j & uc & -> & Hj & Hk & Hu & Hall). cbn [Nat.add] in *. rewrite Hj.
    pose proof (lookup_lt_Some _ _ _ Hj) as Hlt.
    case_decide as Hmax; intros [= <- <-]; rewrite ?ta_use_count_set.
    + done.
    + split.
      * intros id' Hne. eapply (uses_in_insert_other id); [done| |done|done]. by intros ? [= <-].
      * rewrite (uses_in_insert_self id) by done. cbn. lia.
  - destruct Hf as (Hall & Hu & [->|(_ & j & -> & Hj)]); cbn [Nat.add].
    + intros [= <- <-]. by rewrite ta_use_count_set.
    + pose proof (lookup_lt_Some _ _ _ Hj) as Hlt.
      assert (Forall (λ o, ¬ entry_of id o) (take j (ta_use_count s))) as Hall' by (by apply Forall_take).
      rewrite list_lookup_insert_eq by done. cbn [uc_count uc_key_id].
      case_decide as Hmax; intros [= <- <-]; rewrite ?ta_use_count_set.
      * split; [|by rewrite Hu, (uses_in_insert_self id) by done].
        intros id' Hne. by eapply (uses_in_insert_other id).
      * rewrite list_insert_insert_eq. split.
        { intros id' Hne. by eapply (uses_in_insert_other id). }
        rewrite Hu, (uses_in_insert_self id) by done. cbn. lia.
Qed.

(** A sequence of uses of keys, each with the limit its characteristics give, and which
    of them succeed. *)
Fixpoint use_keys (calls : list (bytes * Z)) (s : KeyMintTa) : list bool * KeyMintTa :=
  match calls with
  | [] => ([], s)
  | (id, max) :: calls' =>
    let '(r, s1) := update_use_count id max s in
    let '(oks, s2) := use_keys calls' s1 in
    (is_ok r :: oks, s2)
  end.
(** How many uses of [id] succeed. *)
Definition successes (id : bytes) (calls : list (bytes * Z)) (oks : list bool) : Z :=
  len (filter (λ c, c.1.1 = id ∧ c.2 = true) (zip calls oks)).

Lemma use_keys_count id max calls s oks s' :
  (∀ m, (id, m) ∈ calls → m = max) → uses_in (ta_use_count s) id ≤ Z.max 0 max →
  use_keys calls s = (oks, s') →
  uses_in (ta_use_count s') id = uses_in (ta_use_count s) id + successes id calls oks ∧
  uses_in (ta_use_count s') id ≤ Z.max 0 max.
Proof.
  revert s oks. induction calls as [|[id' m] calls IH]; intros s oks Hm Hle; cbn [use_keys].
  { intros [= <- <-]. unfold successes, len. cbn. lia. }
  destruct (update_use_count id' m s) as [r s1] eqn:Hu.
  destruct (use_keys calls s1) as [oks1 s2] eqn:Hrest. intros [= <- <-].
  apply update_use_count_spec in Hu as [Hother Hr].
  assert (uses_in (ta_use_count s1) id = uses_in (ta_use_count s) id +
            (if decide (id' = id ∧ is_ok r = true) then 1 else 0) ∧
          uses_in (ta_use_count s1) id ≤ Z.max 0 max) as [H1 H1'].
  { destruct (decide (id' = id)) as [->|Hne].
    - assert (m = max) as -> by (apply Hm; by left).
      destruct r; cbn; [rewrite decide_True by done|rewrite decide_False by naive_solver|]; [lia..|done].
    - rewrite Hother by done. rewrite decide_False by naive_solver. lia. }
  destruct (IH s1 oks1) as [H2 H2']; [intros; apply Hm; by right|done|done|].
  split; [|done]. rewrite H2, H1. unfold successes, len. cbn [zip_with]. rewrite filter_cons. cbn [fst snd].
  case_decide; cbn [length]; lia.
Qed.

(** C34: over the whole time since boot, whatever other keys are used in between, a key
    with a limit on its uses per boot is used successfully at most that often. *)
Theorem max_uses_respected id max calls s oks s' :
  ta_use_count s = replicate MAX_USE_COUNTED_KEYS None →
  (∀ m, (id, m) ∈ calls → m = max) → 0 ≤ max →
  use_keys calls s = (oks, s') → successes id calls oks ≤ max.
Proof.
  intros Hfresh Hm Hmax Hrun. assert (uses_in (ta_use_count s) id = 0) as H0.
  { rewrite Hfresh. done. }
  destruct (use_keys_count id max calls s oks s') as [H1 H2]; [done|lia|done|]. lia.
Qed.
End use_count.

(** ** Start-of-day information is latched *)

Section config.
Context `{T : Target} `{ACC : AccumulatingOperation} `{EMIT : EmittingOperation} `{AAD : AadOperation}
  `{HM : !Hmac} `{CM : !AesCmac} `{AES : !Aes} `{HK : Hkdf} `{R : Rng} `{M : !SecureDeletionSecretManager}
  `{KM : RetrieveKeyMaterial} `{LK : LegacyKeyHandler} `{CTE : ConstTimeEq} `{SHA : Sha256}
  `{C : Ciborium} `{K : Coset}.

(** The configuration requests. *)
Inductive ConfigCall :=
| Cfg_SetBootInfo (b : BootInfo)
| Cfg_SetHalInfo (h : HalInfo)
| Cfg_SetHalVersion (downgrade : bool) (v : Z)
| Cfg_SetAdditionalAttestationInfo (info : list KeyParam)
| Cfg_EarlyBootEnded
| Cfg_AddRngEntropy (data : bytes)
| Cfg_GetSharedSecretParameters
| Cfg_ComputeSharedSecret (params : list SharedSecretParameters).
Definition config_step (c : ConfigCall) (s : KeyMintTa) : KeyMintTa :=
  match c with
  | Cfg_SetBootInfo b => (set_boot_info b s).2
  | Cfg_SetHalInfo h => (set_hal_info h s).2
  | Cfg_SetHalVersion d v => (set_hal_version d v s).2
  | Cfg_SetAdditionalAttestationInfo info => (set_additional_attestation_info info s).2
  | Cfg_EarlyBootEnded => (early_boot_ended s).2
  | Cfg_AddRngEntropy data => (add_rng_entropy data s).2
  | Cfg_GetSharedSecretParameters => (get_shared_secret_params s).2
  | Cfg_ComputeSharedSecret params => (compute_shared_secret params s).2
  end.
Definition config_run (calls : list ConfigCall) (s : KeyMintTa) : KeyMintTa :=
  foldl (λ s c, config_step c s) s calls.

(** What may not be lost from one state to a later one. *)
Definition latched (s s' : KeyMintTa) : Prop :=
  (∀ b, ta_boot_info s = Some b → ta_boot_info s' = Some b ∧ ta_rot_data s' = ta_rot_data s) ∧
  (∀ h, ta_hal_info s = Some h → ta_hal_info s' = Some h) ∧
  (ta_in_early_boot s = false → ta_in_early_boot s' = false ∧ ta_boot_info s' = ta_boot_info s) ∧
  (∀ p, ta_shared_secret_params s = Some p → ta_shared_secret_params s' = Some p) ∧
  (ta_additional_attestation_info s `prefix_of` ta_additional_attestation_info s').
#[export] Instance latched_refl : Reflexive latched.
Proof. intros s. by split_and!. Qed.
#[export] Instance latched_trans : Transitive latched.
Proof.
  intros s1 s2 s3 (A1 & A2 & A3 & A4 & A5) (B1 & B2 & B3 & B4 & B5). split_and!; [|by eauto| |by eauto|by etrans].
  - intros b Hb. destruct (A1 b Hb) as [Hb' Hr]. destruct (B1 b Hb') as [? Hr']. split; congruence.
  - intros E. destruct (A3 E) as [E' Hb]. destruct (B3 E') as [? Hb']. split; congruence.
Qed.

(** States that differ in a field that is not latched, or was not set. *)
Ltac latch := unfold latched; cbn; split_and!; intros; try done; by simplify_eq.
Lemma set_attestation_latched info s : latched s (set_additional_attestation_info info s).2.
Proof.
  revert s. induction info as [|p info IH]; intros s; [done|].
  cbn [set_additional_attestation_info]. unfold mbind, stM_bind.
  assert (latched s (set_attestation_param p s).2) as H1.
  { unfold set_attestation_param. case_bool_decide; [done|].
    destruct (list_find _ _) as [[? ?]|]; [by repeat case_decide|].
    destruct s. cbn. split_and!; intros; try done. by eexists. }
  destruct (set_attestation_param p s) as [[u|e|] s1]; cbn in *; [|done..].
  etrans; [done|apply IH].
Qed.

Lemma config_step_latched c s : latched s (config_step c s).
Proof.
  destruct c as [b|h|d v|info| |data| |params]; cbn [config_step].
  - unfold set_boot_info. destruct s as [? ? ? ? ? ? ? ? ? bi ? ? ? eb]; cbn.
    destruct eb; cbn; [|done]. destruct bi as [b'|]; cbn; [by case_decide|].
    repeat case_match; latch.
  - unfold set_hal_info. destruct s as [? ? ? ? ? ? ? ? ? ? ? [hi|]]; cbn; [done|].
    latch.
  - unfold set_hal_version. destruct s, d; repeat case_match; latch.
  - apply set_attestation_latched.
  - destruct s. latch.
  - unfold add_rng_entropy. case_decide; [done|]. destruct s. latch.
  - unfold get_shared_secret_params. destruct s as [? ? ? ? ? ? ? ? [p|]]; cbn; [done|].
    destruct (fill_bytes 32 _). latch.
  - unfold compute_shared_secret. destruct s as [? ? ? ? ? ? ? ? [p|]]; cbn; [|done].
    destruct (shared_secret_context _ _ ≫= _) as [key| |]; cbn; [|done..]. latch.
Qed.

(** Whatever configuration requests arrive and in whatever order, boot information,
    HAL information, the local shared-secret parameters and attested additional
    information are never changed once set, the root of trust bound into key blobs
    stays that of the boot information, and after the end of early boot the boot
    information can no longer be set at all. *)
Theorem config_latched calls s : latched s (config_run calls s).
Proof.
  unfold config_run. revert s. induction calls as [|c calls IH]; intros s; cbn; [done|].
  etrans; [apply config_step_latched|apply IH].
Qed.

(** ** Key versions *)

(** The version in a key's characteristics is the device's current one. *)
Definition version_current (s : KeyMintTa) (p : KeyParam) : Prop :=
  match p with
  | KP_OsVersion v => ∀ h, ta_hal_info s = Some h → v = os_version h
  | KP_OsPatchlevel v => ∀ h, ta_hal_info s = Some h → v = os_patchlevel h
  | KP_VendorPatchlevel v => ∀ h, ta_hal_info s = Some h → v = vendor_patchlevel h
  | KP_BootPatchlevel v => ∀ b, ta_boot_info s = Some b → v = boot_patchlevel b
  | _ => True
  end.

Lemma check_version_Ok v curr u : check_version v curr = Ok u ↔ v = curr.
Proof.
  unfold check_version. destruct u. destruct (Z.compare_spec v curr); split; intros; try done; lia.
Qed.

Lemma check_key_version_Ok s p u : check_key_version s p = Ok u ↔ version_current s p.
Proof.
  destruct p; cbn; try (destruct u; naive_solver).
  - destruct (ta_hal_info s) as [h|]; [|destruct u; naive_solver].
    case_decide as H0; [rewrite reject_if_Ok, bool_decide_eq_false|rewrite check_version_Ok].
    + split; [intros Hv ? [= <-]; lia|intros Hv; specialize (Hv h eq_refl); lia].
    + naive_solver.
  - destruct (ta_hal_info s); [rewrite check_version_Ok|destruct u]; naive_solver.
  - destruct (ta_hal_info s); [rewrite check_version_Ok|destruct u]; naive_solver.
  - destruct (ta_boot_info s); [rewrite check_version_Ok|destruct u]; naive_solver.
Qed.
Lemma check_key_versions_Ok s l u : check_key_versions s l = Ok u ↔ Forall (version_current s) l.
Proof.
  induction l as [|p l IH]; cbn [check_key_versions]; [destruct u; naive_solver|].
  rewrite res_bind_Ok, Forall_cons. setoid_rewrite check_key_version_Ok.
  split; [intros (? & ? & ?)|intros [? ?]; exists tt]; naive_solver.
Qed.

Lemma keymint_tags_current s o : Forall (version_current s) (keymint_tags s o).
Proof.
  unfold keymint_tags. constructor; [done|].
  destruct (ta_hal_info s) eqn:Hh, (ta_boot_info s) eqn:Hb; cbn;
    repeat constructor; cbn; intros ? Heq; rewrite ?Hh, ?Hb in Heq; by injection Heq as <-.
Qed.

(** A key blob is only accepted for use when every OS version and patch level in
    its characteristics is exactly the device's current one (neither older nor newer),
    and the tags the device itself puts on a new key always are. *)
Theorem key_versions_current s kb params k slot :
  keyblob_parse_decrypt s kb params = Ok (k, slot) →
  (∃ chars, characteristics_at (characteristics k) (ta_security_level s) = Ok chars ∧
            Forall (version_current s) chars) ∧
  (∀ origin, check_key_versions s (keymint_tags s origin) = Ok tt).
Proof.
  unfold keyblob_parse_decrypt. intros Hp. split.
  - apply res_bind_Ok in Hp as ([k' slot'] & _ & Hp). apply res_bind_Ok in Hp as (chars & Hc & Hp).
    apply res_bind_Ok in Hp as (u & Hv & [= <- <-]). exists chars. split; [done|].
    by eapply check_key_versions_Ok.
  - intros origin. apply check_key_versions_Ok, keymint_tags_current.
Qed.
End config.

(** ** Devices that agree on a secret *)

Section agreement.
Context `{T : Target} `{ACC : AccumulatingOperation} `{EMIT : EmittingOperation} `{AAD : AadOperation}
  `{HM : !Hmac} `{CM : !AesCmac} `{AES : !Aes} `{HK : Hkdf} `{R : Rng} `{M : !SecureDeletionSecretManager}
  `{KM : RetrieveKeyMaterial} `{LK : LegacyKeyHandler} `{CTL : ConstTimeEqLaws} `{SHA : Sha256}
  `{C : Ciborium} `{K : Coset}.

(** The context does not depend on whose parameters have to be included. *)
Lemma shared_secret_context_from_indep params p1 p2 acc b1 b2 c1 c2 :
  shared_secret_context_from params p1 acc b1 = Ok c1 → shared_secret_context_from params p2 acc b2 = Ok c2 →
  c1 = c2.
Proof.
  revert acc b1 b2. induction params as [|p params IH]; intros acc b1 b2; cbn.
  - destruct b1, b2; naive_solver.
  - intros H1 H2. res_inv. eauto.
Qed.
Lemma shared_secret_context_from_seen params p acc b c :
  shared_secret_context_from params p acc b = Ok c → b = true ∨ p ∈ params.
Proof.
  revert acc b. induction params as [|q params IH]; intros acc b; cbn.
  - destruct b; naive_solver.
  - intros Hs. res_inv. apply IH in Hs as [Hs|Hs]; [|right; by right]. case_decide; [right; subst; left|by left].
Qed.

Lemma compute_shared_secret_Ok params (s : KeyMintTa) c s' :
  compute_shared_secret params s = (Ok c, s') →
  ∃ local k context key, ta_shared_secret_params s = Some local ∧ local ∈ params ∧
    shared_secret_context params local = Ok context ∧ kak = Ok k ∧
    ckdf k KEY_AGREEMENT_LABEL [context] SHA256_DIGEST_LEN = Ok key ∧
    ta_device_hmac s' = Some (match hmac_key_agreed key with Some h => HwDeviceHmac h | None => SoftDeviceHmac key end) ∧
    device_hmac s' KEY_CHECK_LABEL = Ok c.
Proof.
  unfold compute_shared_secret, mbind, res_bind. destruct (ta_shared_secret_params s) as [local|]; [|done].
  destruct (shared_secret_context params local) as [context| |] eqn:Hctx; [|done..].
  destruct kak as [k| |] eqn:Hk; [|done..].
  destruct (ckdf k KEY_AGREEMENT_LABEL [context] SHA256_DIGEST_LEN) as [key| |] eqn:Hc; [|done..].
  intros [= Hd <-]. exists local, k, context, key. split_and!; try done; [|by destruct s].
  by apply shared_secret_context_from_seen in Hctx as [|].
Qed.

Lemma device_hmac_same (s1 s2 : KeyMintTa) data :
  ta_device_hmac s1 = ta_device_hmac s2 → device_hmac s1 data = device_hmac s2 data.
Proof. unfold device_hmac. by intros ->. Qed.

(** C36: two devices that compute the shared secret from the same parameters, each seeing
    its own among them, obtain the same check value, and a timestamp token that one
    of them issues (for the challenge asked for, with its clock's time) is accepted as
    authentic by the other. *)
Theorem shared_secret_interop params (s1 s2 : KeyMintTa) c1 c2 s1' s2' :
  (∀ t, keys_timestamp_token_mac_input t = Ok (timestamp_token_mac_input t)) →
  compute_shared_secret params s1 = (Ok c1, s1') → compute_shared_secret params s2 = (Ok c2, s2') →
  c1 = c2 ∧
  ∀ challenge ts, generate_timestamp s1' challenge = Ok ts →
    tst_challenge ts = challenge ∧ ta_clock s1' = Some (tst_timestamp ts) ∧
    verify_device_hmac s2' (timestamp_token_mac_input ts) (tst_mac ts) = Ok true.
Proof.
  intros Hmac (l1 & k1 & x1 & key1 & _ & _ & Hx1 & Hk1 & Hc1 & Hd1 & Hv1)%compute_shared_secret_Ok
    (l2 & k2 & x2 & key2 & _ & _ & Hx2 & Hk2 & Hc2 & Hd2 & Hv2)%compute_shared_secret_Ok.
  assert (x1 = x2) as -> by (by eapply shared_secret_context_from_indep).
  assert (key1 = key2) as -> by congruence.
  assert (∀ data, device_hmac s1' data = device_hmac s2' data) as Hsame
    by (intros; apply device_hmac_same; congruence).
  rewrite Hsame in Hv1. split; [congruence|]. intros challenge ts Hg. unfold generate_timestamp in Hg.
  destruct (ta_clock s1') as [now|]; [|done]. rewrite Hmac in Hg. cbn in Hg. res_inv. cbn.
  split_and!; [done..|]. unfold verify_device_hmac. rewrite <- Hsame.
  match goal with H : device_hmac _ _ = Ok _ |- _ => unfold timestamp_token_mac_input in *; cbn in *; rewrite H end.
  cbn. f_equal. by apply ct_eq_true.
Qed.
End agreement.

(** ** A small device *)

Module SampleTa.
Import Keyblob.Sample.
#[export] Instance target : Target := arm64.
#[export] Instance acc : AccumulatingOperation := {|
  acc_op := bytes;
  acc_max_input_size := λ _, None;
  acc_update := λ op data, Ok (op ++ data);
  acc_finish := λ op, Ok (take 32 (op ++ replicate 32 (u8_of 0)))
|}.
#[export] Instance hmac : Hmac := {| hmac_begin := λ _ _, Ok [] |}.
#[export] Instance cmac : AesCmac := {| cmac_begin := λ _, Ok [] |}.
#[export] Instance des : Des := {| des_begin := λ _ _ _, Ok tt |}.
#[export] Instance rsa : Rsa := {| rsa_begin_decrypt := λ _ _, Ok []; rsa_begin_sign := λ _ _, Ok [] |}.
#[export] Instance ec : Ec := {| ec_begin_agree := λ _, Ok []; ec_begin_sign := λ _ _, Ok [] |}.
#[export] Instance sdm : SecureDeletionSecretManager := InMemory.InMemorySDM.
#[export] Instance keys : RetrieveKeyMaterial := {|
  root_kek := λ _, Ok root; dev_kek_context := Ok []; kak := Ok (Explicit (AesKey256 (replicate 32 (u8_of 4))));
  hw_device_hmac := Empty_set; hmac_key_agreed := λ _, None; hw_hmac := λ h _, match h with end;
  keys_timestamp_token_mac_input := λ t, Ok (timestamp_token_mac_input t)
|}.
#[export] Instance legacy : LegacyKeyHandler := {|
  legacy_state := unit; convert_legacy_key := λ _ _ _ _ _, km_err InvalidKeyBlob;
  delete_legacy_key := λ _ s, (Ok tt, s)
|}.
#[export] Instance cte : ConstTimeEq := {| ct_eq := λ a b, bool_decide (a = b) |}.
#[export] Instance sha : Sha256 := {| sha256_hash := λ b, Ok (take 32 b) |}.

Definition fresh : KeyMintTa :=
  KeyMintTa_new SecurityLevel_TrustedEnvironment (0 : rng_state) (Some 1000)
    (Some (InMemory.mk_mgr (Some (replicate 32 (u8_of 6))) (replicate 4 None) : sdm_state)) None true false.
Definition boot : BootInfo := {|
  verified_boot_key := replicate 32 (u8_of 8); device_boot_locked := true;
  verified_boot_state := VerifiedBootState_Verified; verified_boot_hash := replicate 32 (u8_of 9);
  boot_patchlevel := 20240105 |}.
Definition booted : KeyMintTa :=
  config_run [Cfg_SetBootInfo boot; Cfg_SetHalInfo {| os_version := 140000; os_patchlevel := 202401;
                                                       vendor_patchlevel := 20240105 |};
              Cfg_EarlyBootEnded] fresh.

(** A key blob made on the device, for the given characteristics and key. *)
Definition make_blob (chars : list KeyParam) (k : KeyMaterial) : bytes :=
  let p := {| characteristics := [{| security_level := SecurityLevel_TrustedEnvironment;
                                     authorizations := chars ++ keymint_tags booted KeyOrigin_Generated |}];
              key_material := k |} in
  match (rot ← root_of_trust booted; hidden [] rot) with
  | Ok hid =>
    match encrypt SecurityLevel_TrustedEnvironment root [] p hid KeyGeneration (ta_sdd_mgr booted, ta_rng booted) with
    | (Ok b, _) => match into_vec EncryptedKeyBlob_codec b with Ok data => data | _ => [] end
    | _ => []
    end
  | _ => []
  end.
Definition aes_chars : list KeyParam :=
  [KP_Purpose KeyPurpose_Encrypt; KP_Algorithm Algorithm_Aes; KP_KeySize 128; KP_BlockMode BlockMode_Gcm;
   KP_Padding PaddingMode_None; KP_MinMacLength 96; KP_NoAuthRequired].
Definition aes_blob : bytes := make_blob aes_chars (KM_Aes (Explicit (AesKey128 (replicate 16 (u8_of 3))))).

Lemma max_uses_respected_witness :
  successes [u8_of 1] [([u8_of 1], 2); ([u8_of 2], 1); ([u8_of 1], 2); ([u8_of 1], 2)]
    (use_keys [([u8_of 1], 2); ([u8_of 2], 1); ([u8_of 1], 2); ([u8_of 1], 2)] fresh).1 ≤ 2.
Proof.
  apply (max_uses_respected [u8_of 1] 2 _ fresh _
    (use_keys [([u8_of 1], 2); ([u8_of 2], 1); ([u8_of 1], 2); ([u8_of 1], 2)] fresh).2).
  - reflexivity.
  - intros m Hm. repeat (apply elem_of_cons in Hm as [Hm|Hm]; [by simplify_eq|]). by apply elem_of_nil in Hm.
  - lia.
  - reflexivity.
Defined.

Lemma key_versions_current_witness :
  (∃ chars, characteristics_at
     (match keyblob_parse_decrypt booted aes_blob [] with Ok (k, _) => characteristics k | _ => [] end)
     SecurityLevel_TrustedEnvironment = Ok chars ∧ Forall (version_current booted) chars) ∧
  (∀ origin, check_key_versions booted (keymint_tags booted origin) = Ok tt).
Proof.
  pose (r := keyblob_parse_decrypt booted aes_blob []).
  assert (keyblob_parse_decrypt booted aes_blob [] = r) as Hr by reflexivity.
  vm_compute in r. rewrite Hr. unfold r in *. exact (key_versions_current booted aes_blob [] _ _ Hr).
Defined.

#[export] Instance cte_laws : ConstTimeEqLaws.
Proof. split. intros a b. apply bool_decide_eq_true. Qed.
(** The parameters of two devices, and the first device after it has drawn its own. *)
Definition drawn : KeyMintTa := (get_shared_secret_params booted).2.
Definition agreed : list SharedSecretParameters :=
  [{| SharedSecretParameters_seed := []; SharedSecretParameters_nonce := replicate 32 (u8_of 77) |}] ++
  option_list (ta_shared_secret_params drawn).
Definition agreement := compute_shared_secret agreed drawn.
Definition check_value : bytes := value [] agreement.
Lemma shared_secret_interop_witness :
  check_value = check_value ∧
  ∀ challenge ts, generate_timestamp agreement.2 challenge = Ok ts →
    tst_challenge ts = challenge ∧ ta_clock agreement.2 = Some (tst_timestamp ts) ∧
    verify_device_hmac agreement.2 (timestamp_token_mac_input ts) (tst_mac ts) = Ok true.
Proof.
  apply (shared_secret_interop agreed drawn drawn check_value check_value agreement.2 agreement.2).
  - reflexivity.
  - succeeds.
  - succeeds.
Defined.
End SampleTa.
