(* ===== verification/Keys.v ===== *)
(** * Creation, import and upgrade of keys ([ta/src/keys.rs])

    The requests that make a key blob: generation, import, import of a wrapped key, and
    upgrade, with the certificate of an asymmetric key and its attestation.  A new key can be
    used by the device that made it and carries its current versions; an upgrade never goes
    back; certificates are signed by the key they should be. *)

From S2P Require Import Prelude Wire TagInfo TagLegacy CryptoTypes TagParams TagGen TagBegin Crypto.
From S2P Require Import Codec WireCodec Keyblob TaState EcKeys Asn1 Cert.

Definition MAX_ATTESTATION_CHALLENGE_LEN : Z := 128.
Definition SECURE_KEY_WRAPPER_VERSION : Z := 0.

(** ** Device traits *)

Inductive SigningKey : Set := Batch | DeviceUnique.
Inductive SigningAlgorithm : Set := SigningAlgorithm_Ec | SigningAlgorithm_Rsa.
Record SigningKeyType := mk_signing_key_type { which : SigningKey; algo_hint : SigningAlgorithm }.
#[export] Instance SigningKey_eq_dec : EqDecision SigningKey.
Proof. solve_decision. Defined.
#[export] Instance SigningAlgorithm_eq_dec : EqDecision SigningAlgorithm.
Proof. solve_decision. Defined.
#[export] Instance SigningKeyType_eq_dec : EqDecision SigningKeyType.
Proof. solve_decision. Defined.
Record AttestationChainInfo := mk_chain_info { aci_chain : list Certificate; aci_issuer : bytes }.

(** Retrieval of the attestation keys and of the attestation IDs, and the secret behind
    unique IDs. *)
Class RetrieveCertSigningInfo := {
  signing_key : SigningKeyType → Result KeyMaterial;
  cert_chain : SigningKeyType → Result (list Certificate)
}.
Class RetrieveAttestationIds := {
  attest_ids_state : Type;
  attest_ids_get : attest_ids_state → Result AttestationIdInfo;
  attest_ids_destroy_all : stM attest_ids_state Error unit
}.
Class UniqueIdHbk := { unique_id_hbk : Result bytes }.
Definition UNIQUE_ID_LABEL : bytes := bytes_of_string "UniqueID HBK 32B".
Definition default_unique_id_hbk `{Target} `{AesCmac} `{RetrieveKeyMaterial} : Result bytes :=
  key ← kak; ckdf key UNIQUE_ID_LABEL [] 32.

(** The generators of the crypto traits. *)
Class KeyGenerators `{Rng} := {
  aes_generate_key : AesVariant → list KeyParam → stM rng_state Error KeyMaterial;
  des_generate_key : list KeyParam → stM rng_state Error KeyMaterial;
  hmac_generate_key : Z → list KeyParam → stM rng_state Error KeyMaterial;
  rsa_generate_key : Z → Z → list KeyParam → stM rng_state Error KeyMaterial;
  ec_generate_nist_key : NistCurve → list KeyParam → stM rng_state Error KeyMaterial;
  ec_generate_ed25519_key : list KeyParam → stM rng_state Error KeyMaterial;
  ec_generate_x25519_key : list KeyParam → stM rng_state Error KeyMaterial
}.

(** ** Wrapped keys *)

Record KeyDescription := mk_key_description { kd_key_format : Z; kd_key_params : AuthorizationList }.
Record SecureKeyWrapper := mk_wrapper {
  skw_version : Z;
  skw_encrypted_transport_key : bytes;
  skw_initialization_vector : bytes;
  skw_key_description : KeyDescription;
  skw_encrypted_key : bytes;
  skw_tag : bytes
}.
(** The codecs derived for the two structures, from the one of authorization lists. *)
Class WrapperCodecs := {
  wrapper_from_der : (Z → stM bytes Error AuthorizationList) → bytes → Result SecureKeyWrapper;
  key_description_enc : Encode AuthorizationList → Encode KeyDescription
}.
Inductive KeyImport : Set := Wrapped | NonWrapped.

Definition HalVersion_discr (v : KeyMintHalVersion) : Z :=
  match v with HAL_V4 => 400 | HAL_V3 => 300 | HAL_V2 => 200 | HAL_V1 => 100 end.

Section keys.
Context `{T : Target} `{ACC : AccumulatingOperation} `{EMIT : EmittingOperation} `{AAD : AadOperation}
  `{HM : !Hmac} `{CM : !AesCmac} `{AES : !Aes} `{HK : Hkdf} `{R : Rng} `{M : !SecureDeletionSecretManager}
  `{KM : RetrieveKeyMaterial} `{LK : LegacyKeyHandler} `{SHA : Sha256} `{C : Ciborium} `{K : Coset}
  `{RSA : !Rsa} `{EC : !Ec} `{PK : PublicKeys} `{I : ImportTraits} `{KG : !KeyGenerators}
  `{X : X509} `{D : DerCrate} `{CC : !CertCodecs} `{WC : WrapperCodecs}
  `{SI : RetrieveCertSigningInfo} `{AI : RetrieveAttestationIds} `{UI : UniqueIdHbk}.

(** The rest of the state of a [KeyMintTa], which certificates need: whether there is signing
    information, the caches of chains and IDs, and the source of IDs. *)
Record KeyMintKeys := mk_keys {
  ks_ta : KeyMintTa;
  ks_sign_info : bool;
  ks_attest_ids : option attest_ids_state;
  ks_attestation_chain_info : list (SigningKeyType * AttestationChainInfo);
  ks_attestation_id_info : option AttestationIdInfo
}.
Definition set_ta (s : KeyMintTa) (k : KeyMintKeys) : KeyMintKeys :=
  mk_keys s (ks_sign_info k) (ks_attest_ids k) (ks_attestation_chain_info k) (ks_attestation_id_info k).
Definition set_chain_info (c : list (SigningKeyType * AttestationChainInfo)) (k : KeyMintKeys) : KeyMintKeys :=
  mk_keys (ks_ta k) (ks_sign_info k) (ks_attest_ids k) c (ks_attestation_id_info k).
Definition set_id_info (i : option AttestationIdInfo) (k : KeyMintKeys) : KeyMintKeys :=
  mk_keys (ks_ta k) (ks_sign_info k) (ks_attest_ids k) (ks_attestation_chain_info k) i.
Abbreviation KTA := (stM KeyMintKeys Error).

(** A method that uses the first part of the state only, and uses of the secure deletion
    manager. *)
Definition with_ta {A} (m : stM KeyMintTa Error A) : KTA A := λ k,
  let '(r, s) := m (ks_ta k) in (r, set_ta s k).
Definition with_sdd {A} (m : stM (option sdm_state * rng_state) Error A) : stM KeyMintTa Error A := λ s,
  let '(r, (mgr, g)) := m (ta_sdd_mgr s, ta_rng s) in (r, set_rng g (set_sdd_mgr mgr s)).

(** ** Attestation IDs ([ta/src/lib.rs]) *)

Definition set_attestation_ids (ids : AttestationIdInfo) : KTA unit := λ k,
  match ks_attest_ids k, ks_attestation_id_info k with
  | None, None => (Ok tt, set_id_info (Some ids) k)
  | _, _ => (Ok tt, k)
  end.
Definition get_attestation_ids : KTA (option AttestationIdInfo) := λ k,
  match ks_attestation_id_info k, ks_attest_ids k with
  | None, Some get_ids_impl =>
    match attest_ids_get get_ids_impl with
    | Ok ids => (Ok (Some ids), set_id_info (Some ids) k)
    | Err _ => (Ok None, k)
    | Panic => (Panic, k)
    end
  | ids, _ => (Ok ids, k)
  end.
Definition destroy_attestation_ids : KTA unit := λ k,
  match ks_attest_ids k with
  | Some attest_ids =>
    let '(r, attest_ids) := attest_ids_destroy_all attest_ids in
    (r, mk_keys (ks_ta k) (ks_sign_info k) (Some attest_ids) (ks_attestation_chain_info k) None)
  | None => (km_err Unimplemented, k)
  end.

(** ** Certificates *)

(** The chain of a signing key, read once and then remembered. *)
Definition chain_info (key_type : SigningKeyType) : KTA AttestationChainInfo := λ k,
  match list_find (λ e, e.1 = key_type) (ks_attestation_chain_info k) with
  | Some (_, (_, info)) => (Ok info, k)
  | None =>
    match
      chain ← cert_chain key_type;
      first ← ok_or (head chain) (Hal KeymintNotConfigured);
      issuer ← extract_subject first;
      Ok (mk_chain_info chain issuer)
    with
    | Ok info => (Ok info, set_chain_info ((key_type, info) :: ks_attestation_chain_info k) k)
    | Err e => (Err e, k)
    | Panic => (Panic, k)
    end
  end.
Definition get_signing_info (key_type : SigningKeyType) : KTA SigningInfo :=
  available ← gets ks_sign_info;
  _ ← liftr (reject_if (negb available) (Hal AttestationKeysNotProvisioned));
  info ← chain_info key_type;
  key ← liftr (signing_key key_type);
  mret (mk_signing_info None key (aci_issuer info) (aci_chain info)).

Definition sign_cert_data (signing_key : KeyMaterial) (tbs_data : bytes) : Result bytes :=
  match signing_key with
  | KM_Rsa key =>
    op ← rsa_begin_sign key (Sign_Pkcs1_1_5Padding Digest_Sha256);
    op ← acc_update op tbs_data;
    acc_finish op
  | KM_Ec curve _ key =>
    let digest := match curve with EcCurve_Curve25519 => Digest_None | _ => Digest_Sha256 end in
    op ← ec_begin_sign key digest;
    op ← acc_update op tbs_data;
    acc_finish op
  | _ => km_err IncompatibleAlgorithm
  end.

Definition calculate_unique_id (app_id : bytes) (params : list KeyParam) : Result bytes :=
  include ← get_bool_tag_value params KP_IncludeUniqueId;
  match include with
  | false => Ok []
  | true =>
    creation_datetime ← get_tag_value int_CreationDatetime params InvalidArgument;
    let rounded_datetime := Z.quot creation_datetime 2592000000 in
    reset ← get_bool_tag_value params KP_ResetSinceIdRotation;
    let combined_input := to_ne_bytes 8 rounded_datetime ++ app_id ++ [u8_of (if (reset : bool) then 1 else 0)] in
    hbk ← unique_id_hbk;
    op ← hmac_begin (Explicit hbk) Digest_Sha256;
    op ← acc_update op combined_input;
    tag ← acc_finish op;
    slice_to tag 16
  end.

Definition attestation_ext_val (s : KeyMintTa) (info : option SigningInfo)
    (id_info : option AttestationIdInfo) (params : list KeyParam) (chars : list KeyCharacteristics)
    : Result (option bytes) :=
  match info with
  | Some (mk_signing_info (Some (challenge, app_id)) _ _ _) =>
    unique_id ← calculate_unique_id app_id params;
    boot_info ← boot_info_hashed_key s;
    attest_ext ← attestation_extension (HalVersion_discr (ta_aidl_version s)) challenge app_id
      (ta_security_level s) id_info params chars unique_id boot_info (ta_additional_attestation_info s);
    v ← asn1_der_encode (attestation_extension_enc authz_enc) attest_ext;
    Ok (Some v)
  | _ => Ok None
  end.
Definition basic_constraints_ext (key_usage_ext_bits : KeyUsage) : Result (option bytes) :=
  if decide (KeyCertSign ∈ key_usage_ext_bits) then
    v ← asn1_der_encode basic_constraints_enc (basic_constraints_ext_value true);
    Ok (Some v)
  else Ok None.
Definition build_cert (s : KeyMintTa) (id_info : option AttestationIdInfo) (info : option SigningInfo)
    (spki : SubjectPublicKeyInfo) (params : list KeyParam) (chars : list KeyCharacteristics)
    (key_usage_ext_val : bytes) (basic_constraints_ext_val : option bytes) : Result Certificate :=
  attest_ext_val ← attestation_ext_val s info id_info params chars;
  our_chars ← characteristics_at chars (ta_security_level s);
  tbs_cert ← tbs_certificate info spki key_usage_ext_val basic_constraints_ext_val attest_ext_val
    our_chars params;
  tbs_data ← asn1_der_encode tbs_enc tbs_cert;
  sig_data ← match info with
             | Some info => sign_cert_data (si_signing_key info) tbs_data
             | None => Ok []
             end;
  cert ← certificate tbs_cert sig_data;
  cert_data ← asn1_der_encode certificate_enc cert;
  Ok {| Certificate_encoded_certificate := cert_data |}.
Definition generate_cert (info : option SigningInfo) (spki : SubjectPublicKeyInfo)
    (params : list KeyParam) (chars : list KeyCharacteristics) : KTA Certificate :=
  let key_usage_ext_bits := key_usage_extension_bits params in
  key_usage_ext_val ← liftr (asn1_der_encode key_usage_enc key_usage_ext_bits);
  basic_constraints_ext_val ← liftr (basic_constraints_ext key_usage_ext_bits);
  id_info ← get_attestation_ids;
  s ← gets ks_ta;
  liftr (build_cert s id_info info spki params chars key_usage_ext_val basic_constraints_ext_val).

(** ** Key blobs *)

(** Encrypt under a fresh key encryption key and serialize. *)
Definition seal_keyblob (params : list KeyParam) (keyblob : PlaintextKeyBlob) (purpose : SlotPurpose)
    : stM KeyMintTa Error bytes :=
  kek_context ← liftr dev_kek_context;
  root ← liftr (root_kek kek_context);
  s ← get_st;
  rot ← liftr (root_of_trust s);
  hid ← liftr (hidden params rot);
  encrypted_keyblob ← with_sdd (encrypt (ta_security_level s) root kek_context keyblob hid purpose);
  liftr (map_err Cbor (into_vec EncryptedKeyBlob_codec encrypted_keyblob)).

Definition is_signing_key (params : list KeyParam) : bool :=
  existsb (λ p, match p with
                | KP_Purpose KeyPurpose_Sign | KP_Purpose KeyPurpose_AttestKey => true
                | _ => false
                end) params.
Definition as_AttestationChallenge (p : KeyParam) : option bytes :=
  match p with KP_AttestationChallenge v => Some v | _ => None end.
Definition as_AttestationApplicationId (p : KeyParam) : option bytes :=
  match p with KP_AttestationApplicationId v => Some v | _ => None end.

(** The key that signs the certificate of a new asymmetric key, if any. *)
Definition device_signing_info (params : list KeyParam) (key_material : KeyMaterial)
    (attestation_info : bytes * bytes) : KTA SigningInfo :=
  s ← gets ks_ta;
  unique ← liftr (get_bool_tag_value params KP_DeviceUniqueAttestation);
  which_key ← liftr match unique, is_strongbox s with
                    | false, _ => Ok Batch
                    | true, true => Ok DeviceUnique
                    | true, false => km_err InvalidArgument
                    end;
  algo_hint ← liftr match key_material with
                    | KM_Rsa _ => Ok SigningAlgorithm_Rsa
                    | KM_Ec _ _ _ => Ok SigningAlgorithm_Ec
                    | _ => km_err InvalidArgument
                    end;
  info ← get_signing_info (mk_signing_key_type which_key algo_hint);
  mret (mk_signing_info (Some attestation_info) (si_signing_key info) (si_issuer_subject info) (si_chain info)).
Definition attest_key_signing_info (s : KeyMintTa) (attest_keyinfo : AttestationKey)
    (attestation_info : bytes * bytes) : Result SigningInfo :=
  '(attest_keyblob, _) ← keyblob_parse_decrypt s (AttestationKey_key_blob attest_keyinfo)
                           (AttestationKey_attest_key_params attest_keyinfo);
  _ ← suitable_for attest_keyblob KeyPurpose_AttestKey (ta_security_level s);
  _ ← reject_if (bool_decide (AttestationKey_issuer_subject_name attest_keyinfo = []))
        (Hal InvalidArgument);
  Ok (mk_signing_info (Some attestation_info) (key_material attest_keyblob)
        (AttestationKey_issuer_subject_name attest_keyinfo) []).
Definition signing_info (params : list KeyParam) (attestation_key : option AttestationKey)
    (key_mat : KeyMaterial) : KTA (option SigningInfo) :=
  attest_challenge ← liftr (get_opt_tag_value as_AttestationChallenge params);
  match attest_challenge with
  | Some attest_challenge =>
    _ ← liftr (reject_if (bool_decide (MAX_ATTESTATION_CHALLENGE_LEN < len attest_challenge))
                 (Hal InvalidInputLength));
    attest_app_id ← liftr (get_opt_tag_value as_AttestationApplicationId params);
    attest_app_id ← liftr (ok_or attest_app_id (Hal AttestationApplicationIdMissing));
    let attestation_info := (attest_challenge, attest_app_id) in
    match attestation_key with
    | Some attest_keyinfo =>
      s ← gets ks_ta;
      info ← liftr (attest_key_signing_info s attest_keyinfo attestation_info);
      mret (Some info)
    | None =>
      info ← device_signing_info params key_mat attestation_info;
      mret (Some info)
    end
  | None =>
    _ ← liftr (reject_if (bool_decide (is_Some attestation_key)) (Hal AttestationChallengeMissing));
    if is_signing_key params then
      subject ← liftr (get_cert_subject params);
      mret (Some (mk_signing_info None key_mat subject []))
    else mret None
  end.

Definition certificate_chain (params : list KeyParam) (attestation_key : option AttestationKey)
    (chars : list KeyCharacteristics) (key_mat : KeyMaterial) : KTA (list Certificate) :=
  spki ← liftr (subject_public_key_info key_mat);
  match spki with
  | Some spki =>
    info ← signing_info params attestation_key key_mat;
    leaf_cert ← generate_cert info spki params chars;
    mret (leaf_cert :: match info with Some info => si_chain info | None => [] end)
  | None => mret []
  end.

Definition bound_characteristics (chars : list KeyCharacteristics) : list KeyCharacteristics :=
  filter (λ c, security_level c ≠ SecurityLevel_Keystore) chars.
Definition finish_keyblob_creation (params : list KeyParam) (attestation_key : option AttestationKey)
    (chars : list KeyCharacteristics) (key_mat : KeyMaterial) (purpose : SlotPurpose)
    : KTA KeyCreationResult :=
  let keyblob := {| characteristics := bound_characteristics chars; key_material := key_mat |} in
  chain ← certificate_chain params attestation_key chars key_mat;
  serialized_keyblob ← with_ta (seal_keyblob params keyblob purpose);
  mret {| KeyCreationResult_key_blob := serialized_keyblob;
          KeyCreationResult_key_characteristics := chars;
          KeyCreationResult_certificate_chain := chain |}.

(** ** Generation *)

Definition generate_material (keygen_info : KeyGenInfo) (params : list KeyParam)
    : stM rng_state Error KeyMaterial :=
  match keygen_info with
  | Gen_Aes variant => aes_generate_key variant params
  | Gen_TripleDes => des_generate_key params
  | Gen_Hmac key_size => hmac_generate_key key_size params
  | Gen_Rsa key_size pub_exponent => rsa_generate_key key_size pub_exponent params
  | Gen_NistEc curve => ec_generate_nist_key curve params
  | Gen_Ed25519 => ec_generate_ed25519_key params
  | Gen_X25519 => ec_generate_x25519_key params
  end.
Definition generate_key_material (params : list KeyParam)
    : stM KeyMintTa Error (KeyMaterial * list KeyCharacteristics) :=
  s ← get_st;
  p ← liftr (extract_key_gen_characteristics (secure_storage_available s) params (ta_security_level s));
  chars ← liftr (add_keymint_tags s p.1 KeyOrigin_Generated);
  key ← with_rng (generate_material p.2 params);
  mret (key, chars).
Definition generate_key (params : list KeyParam) (attestation_key : option AttestationKey)
    : KTA KeyCreationResult :=
  p ← with_ta (generate_key_material params);
  finish_keyblob_creation params attestation_key p.2 p.1 KeyGeneration.

(** ** Import *)

Definition import_key (params : list KeyParam) (key_format : KeyFormat) (key_data : bytes)
    (attestation_key : option AttestationKey) (import_type : KeyImport) : KTA KeyCreationResult :=
  s ← gets ks_ta;
  early ← liftr (if ta_in_early_boot s then Ok false else get_bool_tag_value params KP_EarlyBootOnly);
  _ ← liftr (reject_if early (Hal EarlyBootEnded));
  p ← liftr (extract_key_import_characteristics (secure_storage_available s) params
               (ta_security_level s) key_format key_data);
  chars ← liftr (add_keymint_tags s p.1 match import_type with
                                        | NonWrapped => KeyOrigin_Imported
                                        | Wrapped => KeyOrigin_SecurelyImported
                                        end);
  finish_keyblob_creation params attestation_key chars p.2 Keyblob.KeyImport.

(** ** Import of a wrapped key *)

Definition xor_bytes (a b : bytes) : bytes :=
  zip_with (λ x y, u8_of (Z.lxor (u8_val x) (u8_val y))) a b.
Definition gcm_mode_of_tag_len (tag_len : Z) (nonce : bytes) : Result GcmMode :=
  match tag_len with
  | 12 => Ok (GcmTag12 nonce) | 13 => Ok (GcmTag13 nonce) | 14 => Ok (GcmTag14 nonce)
  | 15 => Ok (GcmTag15 nonce) | 16 => Ok (GcmTag16 nonce)
  | _ => km_err InvalidMacLength
  end.
Definition as_UserSecureId (p : KeyParam) : option Z :=
  match p with KP_UserSecureId v => Some v | _ => None end.
(** Replace the secure user ID that stands for an authenticator type. *)
Definition substitute_sid (imported_key_params : list KeyParam) (password_sid biometric_sid : Z)
    : Result (list KeyParam) :=
  sid ← get_opt_tag_value as_UserSecureId imported_key_params;
  match sid with
  | None => Ok imported_key_params
  | Some secure_id =>
    let password := discr HardwareAuthenticatorType_Password in
    let fingerprint := discr HardwareAuthenticatorType_Fingerprint in
    let without := filter (λ p, as_UserSecureId p = None) imported_key_params in
    if bool_decide (Z.land secure_id password = password) &&
       bool_decide (Z.land secure_id fingerprint = fingerprint)
    then Ok (without ++ [KP_UserSecureId (as_u64 password_sid)])
    else if bool_decide (Z.land secure_id password = password)
    then Ok (without ++ [KP_UserSecureId (as_u64 password_sid)])
    else if bool_decide (Z.land secure_id fingerprint = fingerprint)
    then Ok (without ++ [KP_UserSecureId (as_u64 biometric_sid)])
    else Ok imported_key_params
  end.

(** The transport key: decrypted with the wrapping key, and unmasked. *)
Definition transport_key (s : KeyMintTa) (wrapping_key : PlaintextKeyBlob) (unwrapping_params : list KeyParam)
    (encrypted_transport_key masking_key : bytes) : Result AesKey :=
  masked_transport_key ←
    match key_material wrapping_key with
    | KM_Rsa key =>
      chars ← characteristics_at (characteristics wrapping_key) (ta_security_level s);
      decrypt_mode ← check_rsa_wrapping_key_params chars unwrapping_params;
      op ← rsa_begin_decrypt key decrypt_mode;
      op ← acc_update op encrypted_transport_key;
      acc_finish op
    | _ => km_err InvalidArgument
    end;
  _ ← reject_if (bool_decide (len masked_transport_key ≠ len masking_key)) (Hal InvalidArgument);
  let unmasked_transport_key := xor_bytes masked_transport_key masking_key in
  if decide (len unmasked_transport_key = 32) then Ok (AesKey256 unmasked_transport_key)
  else km_err InvalidArgument.
Definition unwrap_key (key : AesKey) (wrapper : SecureKeyWrapper) : Result bytes :=
  let nonce := skw_initialization_vector wrapper in
  _ ← reject_if (bool_decide (len nonce ≠ GCM_NONCE_SIZE)) (Hal InvalidArgument);
  gcm_mode ← gcm_mode_of_tag_len (len (skw_tag wrapper)) nonce;
  op ← aes_begin_aead (Explicit key) gcm_mode Decrypt;
  aad ← asn1_der_encode (key_description_enc authz_enc) (skw_key_description wrapper);
  op ← aad_update_aad op aad;
  '(out1, op) ← aad_update op (skw_encrypted_key wrapper);
  '(out2, op) ← aad_update op (skw_tag wrapper);
  out3 ← aad_finish op;
  Ok (out1 ++ out2 ++ out3).
Definition imported_params (auths : list KeyParam) (password_sid biometric_sid : Z) : Result (list KeyParam) :=
  params ← substitute_sid auths password_sid biometric_sid;
  Ok (params ++ [KP_CertificateNotBefore UNDEFINED_NOT_BEFORE; KP_CertificateNotAfter UNDEFINED_NOT_AFTER]).
Definition import_wrapped_key (wrapped_key_data wrapping_key_blob masking_key : bytes)
    (unwrapping_params : list KeyParam) (password_sid biometric_sid : Z) : KTA KeyCreationResult :=
  s ← gets ks_ta;
  p ← liftr (keyblob_parse_decrypt s wrapping_key_blob unwrapping_params);
  wrapper ← liftr (wrapper_from_der decode_value wrapped_key_data);
  _ ← liftr (reject_if (bool_decide (skw_version wrapper ≠ SECURE_KEY_WRAPPER_VERSION)) (Hal InvalidArgument));
  key ← liftr (transport_key s p.1 unwrapping_params (skw_encrypted_transport_key wrapper) masking_key);
  imported_key_data ← liftr (unwrap_key key wrapper);
  params ← liftr (imported_params (al_auths (kd_key_params (skw_key_description wrapper)))
                    password_sid biometric_sid);
  format ← liftr (ok_or (try_from_n (kd_key_format (skw_key_description wrapper))) (Hal UnsupportedKeyFormat));
  import_key params format imported_key_data None Wrapped.

(** ** Upgrade *)

Definition upgrade (v curr : Z) : Result (Z * bool) :=
  match v ?= curr with
  | Lt => Ok (curr, true)
  | Eq => Ok (v, false)
  | Gt => km_err InvalidArgument
  end.
Definition upgrade_param (s : KeyMintTa) (param : KeyParam) : Result (KeyParam * bool) :=
  match param with
  | KP_OsVersion v =>
    match ta_hal_info s with
    | Some h =>
      if decide (os_version h = 0) then Ok (KP_OsVersion 0, bool_decide (v ≠ 0))
      else p ← upgrade v (os_version h); Ok (KP_OsVersion p.1, p.2)
    | None => Ok (param, false)
    end
  | KP_OsPatchlevel v =>
    match ta_hal_info s with
    | Some h => p ← upgrade v (os_patchlevel h); Ok (KP_OsPatchlevel p.1, p.2)
    | None => Ok (param, false)
    end
  | KP_VendorPatchlevel v =>
    match ta_hal_info s with
    | Some h => p ← upgrade v (vendor_patchlevel h); Ok (KP_VendorPatchlevel p.1, p.2)
    | None => Ok (param, false)
    end
  | KP_BootPatchlevel v =>
    match ta_boot_info s with
    | Some b => p ← upgrade v (boot_patchlevel b); Ok (KP_BootPatchlevel p.1, p.2)
    | None => Ok (param, false)
    end
  | _ => Ok (param, false)
  end.
Fixpoint upgrade_params (s : KeyMintTa) (params : list KeyParam) (modified : bool)
    : Result (list KeyParam * bool) :=
  match params with
  | [] => Ok ([], modified)
  | param :: params' =>
    p ← upgrade_param s param;
    rest ← upgrade_params s params' (modified || p.2);
    Ok (p.1 :: rest.1, rest.2)
  end.
Fixpoint upgrade_characteristics (s : KeyMintTa) (chars : list KeyCharacteristics) (modified : bool)
    : Result (list KeyCharacteristics * bool) :=
  match chars with
  | [] => Ok ([], modified)
  | kc :: chars' =>
    p ← (if decide (security_level kc ≠ ta_security_level s) then Ok (authorizations kc, modified)
         else upgrade_params s (authorizations kc) modified);
    rest ← upgrade_characteristics s chars' p.2;
    Ok ({| security_level := security_level kc; authorizations := p.1 |} :: rest.1, rest.2)
  end.
(** The key to upgrade, and whether it comes from a legacy blob. *)
Definition keyblob_to_upgrade (s : KeyMintTa) (blob : bytes) (upgrade_params : list KeyParam)
    : Result (PlaintextKeyBlob * bool) :=
  match keyblob_parse_decrypt_backlevel s blob upgrade_params with
  | Ok v => Ok (v.1, false)
  | Err (Hal KeyRequiresUpgrade) =>
    legacy_handler ← ok_or (ta_legacy_key s) (Hal KeymintNotConfigured);
    b ← ok_or (ta_boot_info s) (Hal HardwareNotYetAvailable);
    k ← convert_legacy_key legacy_handler blob upgrade_params b (ta_security_level s);
    Ok (k, true)
  | Err e => Err e
  | Panic => Panic
  end.
Definition upgrade_key (blob : bytes) (params : list KeyParam) : stM KeyMintTa Error bytes :=
  s ← get_st;
  p ← liftr (keyblob_to_upgrade s blob params);
  u ← liftr (upgrade_characteristics s (characteristics p.1) p.2);
  if negb u.2 then mret []
  else seal_keyblob params {| characteristics := u.1; key_material := key_material p.1 |} KeyUpgrade.

(** ** What upgrades do to versions *)

(** A version is newer than the device's. *)
Definition version_future (s : KeyMintTa) (p : KeyParam) : Prop :=
  match p with
  | KP_OsVersion v => ∃ h, ta_hal_info s = Some h ∧ os_version h ≠ 0 ∧ os_version h < v
  | KP_OsPatchlevel v => ∃ h, ta_hal_info s = Some h ∧ os_patchlevel h < v
  | KP_VendorPatchlevel v => ∃ h, ta_hal_info s = Some h ∧ vendor_patchlevel h < v
  | KP_BootPatchlevel v => ∃ b, ta_boot_info s = Some b ∧ boot_patchlevel b < v
  | _ => False
  end.

Lemma upgrade_cases v curr :
  (upgrade v curr = km_err InvalidArgument ∧ curr < v) ∨
  (∃ m, upgrade v curr = Ok (curr, m) ∧ v ≤ curr ∧ (m = false ↔ v = curr)).
Proof.
  unfold upgrade. destruct (Z.compare_spec v curr); [right..|by left].
  - exists false. subst. split; [done|]. split; [lia|done].
  - exists true. split; [done|]. split; [lia|]. split; [done|lia].
Qed.
Lemma upgrade_param_cases s p :
  (upgrade_param s p = km_err InvalidArgument ∧ version_future s p) ∨
  (∃ p' m, upgrade_param s p = Ok (p', m) ∧ ¬ version_future s p ∧ version_current s p' ∧
           tag p' = tag p ∧ (m = false ↔ p' = p)).
Proof.
  destruct p; cbn [upgrade_param version_future];
    try (right; eexists _, _; split; [reflexivity|]; naive_solver).
  - destruct (ta_hal_info s) as [h|] eqn:Hh;
      [|right; eexists _, _; split; [reflexivity|]; cbn; rewrite Hh; split_and!; naive_solver].
    case_decide as H0.
    + right. eexists _, _. split; [reflexivity|]. cbn. rewrite Hh, bool_decide_eq_false.
      split; [naive_solver|]. split; [naive_solver|]. split; [done|].
      split; [intros ?%dec_stable; congruence|naive_solver].
    + destruct (upgrade_cases v (os_version h)) as [[-> ?]|(m & -> & ? & Hm)]; [left; naive_solver|].
      right. eexists _, _. split; [reflexivity|]. cbn. rewrite Hh. split_and!; naive_solver lia.
  - destruct (ta_hal_info s) as [h|] eqn:Hh;
      [|right; eexists _, _; split; [reflexivity|]; cbn; rewrite Hh; split_and!; naive_solver].
    destruct (upgrade_cases v (os_patchlevel h)) as [[-> ?]|(m & -> & ? & Hm)]; [left; naive_solver|].
    right. eexists _, _. split; [reflexivity|]. cbn. rewrite Hh. split_and!; naive_solver lia.
  - destruct (ta_hal_info s) as [h|] eqn:Hh;
      [|right; eexists _, _; split; [reflexivity|]; cbn; rewrite Hh; split_and!; naive_solver].
    destruct (upgrade_cases v (vendor_patchlevel h)) as [[-> ?]|(m & -> & ? & Hm)]; [left; naive_solver|].
    right. eexists _, _. split; [reflexivity|]. cbn. rewrite Hh. split_and!; naive_solver lia.
  - destruct (ta_boot_info s) as [b|] eqn:Hb;
      [|right; eexists _, _; split; [reflexivity|]; cbn; rewrite Hb; split_and!; naive_solver].
    destruct (upgrade_cases v (boot_patchlevel b)) as [[-> ?]|(m & -> & ? & Hm)]; [left; naive_solver|].
    right. eexists _, _. split; [reflexivity|]. cbn. rewrite Hb. split_and!; naive_solver lia.
Qed.

Lemma upgrade_params_cases s ps m :
  (upgrade_params s ps m = km_err InvalidArgument ∧ Exists (version_future s) ps) ∨
  (∃ ps' m', upgrade_params s ps m = Ok (ps', m') ∧ ¬ Exists (version_future s) ps ∧
     Forall (version_current s) ps' ∧ tag <$> ps' = tag <$> ps ∧
     (m' = false ↔ m = false ∧ ps' = ps)).
Proof.
  revert m. induction ps as [|p ps IH]; intros m; cbn [upgrade_params].
  { right. eexists _, _. split; [reflexivity|]. 
    split; [by intros []%Exists_nil|]. split; [done|]. split; [done|]. split; [done|by intros []]. }
  rewrite Exists_cons.
  destruct (upgrade_param_cases s p) as [[-> ?]|(p' & mp & -> & Hp & Hc & Ht & Hm)]; [by left; eauto|].
  cbn [mbind res_bind]. cbn [snd fst].
  destruct (IH (m || mp)) as [[-> ?]|(ps' & m' & -> & Hps & Hcs & Hts & Hms)]; [by left; eauto|].
  right. eexists _, _. split; [reflexivity|]. cbn [fst snd]. split; [by intros [?|?]%Exists_cons|].
  split; [by constructor|]. split; [cbn; by rewrite Ht, Hts|].
  rewrite Hms, orb_false_iff, Hm. split; [intros ((? & ->) & ->)|intros (? & [= -> ->])]; done.
Qed.

(** The characteristics after an upgrade: everything at the device's level is current. *)
Lemma upgrade_characteristics_cases s cs m :
  (upgrade_characteristics s cs m = km_err InvalidArgument ∧
   Exists (λ kc, security_level kc = ta_security_level s ∧ Exists (version_future s) (authorizations kc)) cs) ∨
  (∃ cs' m', upgrade_characteristics s cs m = Ok (cs', m') ∧
     ¬ Exists (λ kc, security_level kc = ta_security_level s ∧ Exists (version_future s) (authorizations kc)) cs ∧
     Forall (λ kc, security_level kc = ta_security_level s → Forall (version_current s) (authorizations kc)) cs' ∧
     (m' = false ↔ m = false ∧ cs' = cs)).
Proof.
  revert m. induction cs as [|[l ps] cs IH]; intros m; cbn [upgrade_characteristics].
  { right. eexists _, _. split; [reflexivity|]. 
    split; [by intros []%Exists_nil|]. split; [done|]. split; [done|by intros []]. }
  rewrite Exists_cons. cbn [security_level authorizations]. case_decide as Hl.
  - cbn [mbind res_bind fst snd].
    destruct (IH m) as [[-> ?]|(cs' & m' & -> & Hcs & Hc & Hm)]; [by left; eauto|].
    right. eexists _, _. split; [reflexivity|]. cbn [fst snd]. split; [by intros [[??]|?]%Exists_cons|].
    split; [by constructor|]. rewrite Hm. split; [intros (? & ->)|intros (? & [= ->])]; done.
  - destruct (upgrade_params_cases s ps m) as [[-> ?]|(ps' & mp & -> & Hps & Hc & _ & Hm)]; [by left; eauto|].
    cbn [mbind res_bind fst snd].
    destruct (IH mp) as [[-> ?]|(cs' & m' & -> & Hcs & Hcc & Hm')]; [by left; eauto|].
    right. eexists _, _. split; [reflexivity|]. cbn [fst snd]. split; [by intros [[??]|?]%Exists_cons|].
    split; [by constructor|]. rewrite Hm', Hm. split; [intros ((? & ->) & ->)|intros (? & [= -> ->])]; done.
Qed.

(** An upgrade never goes back to an older version: if some version at the device's level is
    newer than the device's, the request fails and nothing changes. *)
Theorem upgrade_refuses_downgrade s blob params old legacy kc p :
  keyblob_to_upgrade s blob params = Ok (old, legacy) →
  kc ∈ characteristics old → security_level kc = ta_security_level s →
  p ∈ authorizations kc → version_future s p →
  upgrade_key blob params s = (km_err InvalidArgument, s).
Proof.
  intros Hold Hkc Hl Hp Hf. unfold upgrade_key.
  unfold get_st, liftr, mbind, stM_bind. rewrite Hold. cbn [fst snd].
  destruct (upgrade_characteristics_cases s (characteristics old) legacy) as [[-> _]|(cs' & m' & _ & Hn & _)];
    [done|].
  exfalso. apply Hn, Exists_exists. exists kc. split; [done|]. split; [done|]. apply Exists_exists. eauto.
Qed.

(** ** Blobs that can be used again *)

Section usable.
Context `{CL : !CiboriumLaws} `{KL : !CosetLaws} `{AL : !AeadLaws} `{ML : !SDMLaws ok} `{SL : !SDMSlots ok}.

(** States that differ in the random numbers and secure deletion secrets only. *)
Definition same_device (s s' : KeyMintTa) : Prop := ∃ g mgr, s' = set_rng g (set_sdd_mgr mgr s).
Lemma version_current_same s s' p : same_device s s' → version_current s' p ↔ version_current s p.
Proof. intros (g & mgr & ->). destruct s, p; reflexivity. Qed.
Lemma same_device_level s s' : same_device s s' → ta_security_level s' = ta_security_level s.
Proof. intros (g & mgr & ->). by destruct s. Qed.

Lemma seal_keyblob_Ok params k purpose s data s' :
  from_option ok True (ta_sdd_mgr s) → km_wf (key_material k) →
  Forall KeyCharacteristics_wf (characteristics k) →
  seal_keyblob params k purpose s = (Ok data, s') →
  same_device s s' ∧ data ≠ [] ∧
  (∃ chars, characteristics_at (characteristics k) (ta_security_level s) = Ok chars) ∧
  ∃ slot, keyblob_parse_decrypt_backlevel s' data params = Ok (k, slot).
Proof.
  intros Hok Hkm Hwf H. unfold seal_keyblob in H.
  apply stM_bind_Ok in H as (ctx & s1 & [= Hctx <-] & H).
  apply stM_bind_Ok in H as (root & s2 & [= Hroot <-] & H).
  apply stM_bind_Ok in H as (s3 & s'' & [= <- <-] & H).
  apply stM_bind_Ok in H as (rot & s5 & [= Hrot <-] & H).
  apply stM_bind_Ok in H as (hid & s6 & [Hhid <-]%pair_equal_spec & H).
  apply stM_bind_Ok in H as (blob & s7 & He & [= Hdata <-]). apply map_err_Ok in Hdata.
  unfold with_sdd in He.
  destruct (encrypt _ _ _ _ _ _ (ta_sdd_mgr s, ta_rng s)) as [r [mgr g]] eqn:Henc.
  injection He as -> <-.
  destruct (encrypt_stored _ _ _ _ _ _ _ _ _ _ _ _ Hok Hwf Henc Hdata) as (Hnew & Hkc & _ & Hne).
  pose proof (encrypt_decrypt _ _ _ _ _ _ _ _ _ _ _ Hok Hkm Henc) as Hdec.
  split; [by exists g, mgr|]. split; [done|]. split.
  - apply encrypt_split in Henc as [(? & _ & ? & _)|[(_ & ? & _)|(chars & Hc & _)]]; [done..|]. eauto.
  - exists (secure_deletion_slot blob). unfold keyblob_parse_decrypt_backlevel. rewrite Hnew.
    assert (root_of_trust (set_rng g (set_sdd_mgr mgr s)) = root_of_trust s) as -> by (by destruct s).
    rewrite Hrot. cbn [mbind res_bind]. rewrite Hhid. cbn [mbind res_bind]. rewrite Hkc, Hroot.
    cbn [mbind res_bind].
    assert (ta_sdd_mgr (set_rng g (set_sdd_mgr mgr s)) = mgr) as -> by (by destruct s). by rewrite Hdec.
Qed.

Lemma characteristics_at_elem cs l chars :
  characteristics_at cs l = Ok chars →
  ∃ kc, kc ∈ cs ∧ security_level kc = l ∧ authorizations kc = chars.
Proof.
  unfold characteristics_at. intros (r & H & Hr%ok_or_Ok)%res_bind_Ok. subst r.
  assert (∀ cs r, characteristics_at_from r cs l = Ok (Some chars) →
    r = Some chars ∨ ∃ kc, kc ∈ cs ∧ security_level kc = l ∧ authorizations kc = chars) as Hgo.
  { clear. induction cs as [|kc cs IH]; intros r; cbn [characteristics_at_from]; [intros [= ->]; by left|].
    case_decide as Hl.
    - intros [->|(kc' & ? & ?)]%IH; [by left|right; exists kc'; split; [by right|done]].
    - destruct r; [done|].
      intros [[= <-]|(kc' & ? & ?)]%IH; right; [exists kc|exists kc']; (split; [constructor|]); done. }
  by destruct (Hgo cs None H) as [?|?].
Qed.

(** The device's versions are representable. *)
Definition versions_wf (s : KeyMintTa) : Prop :=
  (∀ h, ta_hal_info s = Some h → is_u32 (os_version h) ∧ is_u32 (os_patchlevel h) ∧ is_u32 (vendor_patchlevel h)) ∧
  (∀ b, ta_boot_info s = Some b → is_u32 (boot_patchlevel b)).

Lemma upgrade_param_wf s p p' m :
  versions_wf s → kp_wf p → upgrade_param s p = Ok (p', m) → kp_wf p'.
Proof.
  intros [Hh Hb] Hp. destruct p; cbn [upgrade_param]; try by intros [= <- _].
  - destruct (ta_hal_info s) as [h|]; [|by intros [= <- _]]. specialize (Hh h eq_refl) as (? & ? & ?).
    case_decide; [intros [= <- _]; cbn; range_lia|].
    destruct (upgrade_cases v (os_version h)) as [[-> _]|(m' & -> & _)]; [done|]. by intros [= <- _].
  - destruct (ta_hal_info s) as [h|]; [|by intros [= <- _]]. specialize (Hh h eq_refl) as (? & ? & ?).
    destruct (upgrade_cases v (os_patchlevel h)) as [[-> _]|(m' & -> & _)]; [done|]. by intros [= <- _].
  - destruct (ta_hal_info s) as [h|]; [|by intros [= <- _]]. specialize (Hh h eq_refl) as (? & ? & ?).
    destruct (upgrade_cases v (vendor_patchlevel h)) as [[-> _]|(m' & -> & _)]; [done|]. by intros [= <- _].
  - destruct (ta_boot_info s) as [b|]; [|by intros [= <- _]]. specialize (Hb b eq_refl).
    destruct (upgrade_cases v (boot_patchlevel b)) as [[-> _]|(m' & -> & _)]; [done|]. by intros [= <- _].
Qed.
Lemma upgrade_params_wf s ps m ps' m' :
  versions_wf s → Forall kp_wf ps → upgrade_params s ps m = Ok (ps', m') → Forall kp_wf ps'.
Proof.
  intros Hv. revert m ps' m'. induction ps as [|p ps IH]; intros m ps' m'; cbn [upgrade_params].
  { by intros _ [= <- _]. }
  intros [Hp Hps]%Forall_cons ([p' m1] & Hu & Hr)%res_bind_Ok.
  apply res_bind_Ok in Hr as ([ps1 m2] & Hus & [= <- _]). cbn in *.
  constructor; [by eapply upgrade_param_wf|by eapply IH].
Qed.
Lemma upgrade_characteristics_wf s cs m cs' m' :
  versions_wf s → Forall KeyCharacteristics_wf cs → upgrade_characteristics s cs m = Ok (cs', m') →
  Forall KeyCharacteristics_wf cs'.
Proof.
  intros Hv. revert m cs' m'. induction cs as [|kc cs IH]; intros m cs' m'; cbn [upgrade_characteristics].
  { by intros _ [= <- _]. }
  intros [(_ & Hkc & _) Hcs]%Forall_cons ([ps m1] & Hu & Hr)%res_bind_Ok.
  apply res_bind_Ok in Hr as ([cs1 m2] & Hus & [= <- _]). cbn in *.
  constructor; [|by eapply IH]. split; [done|]. split; [|done]. cbn.
  case_decide; [by injection Hu as <- _|by eapply upgrade_params_wf].
Qed.

(** C14: What an upgrade gives: an empty answer means that nothing was touched and the key, which is
    not in a legacy format, already has the current versions; otherwise the answer is a blob that
    the same device accepts for use (so with current versions) and that holds the same key. *)
Theorem upgrade_key_current blob params s data s' old legacy :
  from_option ok True (ta_sdd_mgr s) → versions_wf s →
  keyblob_to_upgrade s blob params = Ok (old, legacy) →
  km_wf (key_material old) → Forall KeyCharacteristics_wf (characteristics old) →
  upgrade_key blob params s = (Ok data, s') →
  (data = [] ∧ s' = s ∧ legacy = false ∧
   ∀ kc, kc ∈ characteristics old → security_level kc = ta_security_level s →
         Forall (version_current s) (authorizations kc)) ∨
  (data ≠ [] ∧ same_device s s' ∧ ∃ cs slot,
   keyblob_parse_decrypt s' data params = Ok ({| characteristics := cs; key_material := key_material old |}, slot)).
Proof.
  intros Hok Hv Hold Hkm Hwf H. unfold upgrade_key in H.
  apply stM_bind_Ok in H as (s1 & s2 & [= <- <-] & H).
  apply stM_bind_Ok in H as (p & s3 & [Hp <-]%pair_equal_spec & H). rewrite Hold in Hp. injection Hp as <-.
  apply stM_bind_Ok in H as ([cs m] & s4 & [Hu <-]%pair_equal_spec & H). cbn [fst snd] in *.
  destruct (upgrade_characteristics_cases s (characteristics old) legacy) as [[Hu' _]|(cs' & m' & Hu' & _ & Hc & Hm)];
    rewrite Hu' in Hu; [done|]. injection Hu as -> ->.
  destruct m; cbn [negb] in H.
  - right. apply seal_keyblob_Ok in H as (Hs & Hne & [chars Hchars] & slot & Hd);
      [|done|done|by apply (upgrade_characteristics_wf _ _ _ _ _ Hv Hwf Hu')].
    split; [done|]. split; [done|]. exists cs, slot. unfold keyblob_parse_decrypt. rewrite Hd. cbn [mbind res_bind].
    cbn [characteristics] in *. rewrite (same_device_level _ _ Hs), Hchars. cbn [mbind res_bind].
    apply characteristics_at_elem in Hchars as (kc & Hkc & Hl & <-).
    rewrite (proj2 (check_key_versions_Ok s' (authorizations kc) tt)); [done|].
    eapply Forall_impl; [by apply (proj1 (Forall_forall _ _) Hc kc Hkc)|].
    intros q. by apply version_current_same.
  - left. injection H as <- <-. destruct (proj1 Hm eq_refl) as [-> ->]. split_and!; [done..|].
    intros kc Hkc. by apply (proj1 (Forall_forall _ _) Hc kc Hkc).
Qed.

(** ** New keys *)

(** The parts that build certificates leave the rest of the state alone. *)
Lemma keeps_ta_gets {A} (f : KeyMintKeys → A) : preserves ks_ta (gets (E:=Error) f).
Proof. done. Qed.
Lemma keeps_ta_ids : preserves ks_ta get_attestation_ids.
Proof.
  intros k. unfold get_attestation_ids. destruct (ks_attestation_id_info k), (ks_attest_ids k); try done.
  by destruct (attest_ids_get _).
Qed.
Lemma keeps_ta_chain t : preserves ks_ta (chain_info t).
Proof.
  intros k. unfold chain_info. destruct (list_find _ _) as [[? []]|]; [done|].
  match goal with |- context [match ?c with Ok _ => _ | Err _ => _ | Panic => _ end] => by destruct c end.
Qed.
#[local] Hint Resolve keeps_ta_gets keeps_ta_ids keeps_ta_chain : preserves.
Lemma keeps_ta_certificate_chain params ak chars key : preserves ks_ta (certificate_chain params ak chars key).
Proof.
  assert (∀ info spki, preserves ks_ta (generate_cert info spki params chars)) as Hcert
    by (unfold generate_cert; auto 10 with preserves).
  assert (∀ t, preserves ks_ta (get_signing_info t)) as Hinfo by (unfold get_signing_info; auto 10 with preserves).
  assert (∀ key i, preserves ks_ta (device_signing_info params key i)) as Hdev
    by (unfold device_signing_info; auto 10 with preserves).
  assert (preserves ks_ta (signing_info params ak key)) as Hsig.
  { unfold signing_info. apply preserves_bind; [auto with preserves|]. intros [c|].
    - destruct ak; auto 10 with preserves.
    - apply preserves_bind; [auto with preserves|]. intros _. destruct (is_signing_key params); auto 10 with preserves. }
  unfold certificate_chain. apply preserves_bind; [auto with preserves|]. intros [spki|]; auto 10 with preserves.
Qed.

Lemma finish_keyblob_creation_Ok params ak chars key purpose k res k' :
  from_option ok True (ta_sdd_mgr (ks_ta k)) → km_wf key →
  Forall KeyCharacteristics_wf (bound_characteristics chars) →
  finish_keyblob_creation params ak chars key purpose k = (Ok res, k') →
  same_device (ks_ta k) (ks_ta k') ∧ KeyCreationResult_key_characteristics res = chars ∧
  (∃ cl, characteristics_at (bound_characteristics chars) (ta_security_level (ks_ta k)) = Ok cl) ∧
  ∃ slot, keyblob_parse_decrypt_backlevel (ks_ta k') (KeyCreationResult_key_blob res) params =
    Ok ({| characteristics := bound_characteristics chars; key_material := key |}, slot).
Proof.
  intros Hok Hkm Hwf H. unfold finish_keyblob_creation in H.
  apply stM_bind_Ok in H as (chain & k1 & Hchain & H).
  pose proof (keeps_ta_certificate_chain params ak chars key k) as Hta. rewrite Hchain in Hta. cbn in Hta.
  apply stM_bind_Ok in H as (data & k2 & Hseal & [= <- <-]).
  unfold with_ta in Hseal. rewrite Hta in Hseal.
  destruct (seal_keyblob _ _ _ (ks_ta k)) as [r s'] eqn:Hs. injection Hseal as -> <-.
  apply seal_keyblob_Ok in Hs as (? & _ & ? & ?); try done.
Qed.

Lemma created_versions st params extra s cs o chars cl :
  extract_key_characteristics st params extra (ta_security_level s) = Ok cs →
  add_keymint_tags s cs o = Ok chars →
  characteristics_at (bound_characteristics chars) (ta_security_level s) = Ok cl →
  Forall (version_current s) cl.
Proof.
  intros (Hall & _ & ->)%extract_key_characteristics_Ok Hadd (kc & Hkc & Hl & <-)%characteristics_at_elem.
  unfold key_characteristics in Hadd. cbn [add_keymint_tags security_level] in Hadd.
  rewrite decide_True in Hadd by done. injection Hadd as <-.
  apply list_elem_of_filter in Hkc as [Hks Hkc]. apply elem_of_cons in Hkc as [->|Hkc].
  - cbn [authorizations]. apply Forall_app. split; [|apply keymint_tags_current].
    apply Forall_forall. intros p Hp. rewrite sort_by_Permutation in Hp. apply list_elem_of_filter in Hp as [_ Hp].
    destruct (proj1 (Forall_forall _ _) Hall p Hp) as [Hauto _].
    destruct p; try done; exfalso; apply Hauto; cbn; set_solver.
  - exfalso. destruct (filter (keystore_policed st) (params ++ extra)); [by apply elem_of_nil in Hkc|].
    apply list_elem_of_singleton in Hkc as ->. by apply Hks.
Qed.

(** Key material made by the crypto traits is well-formed. *)
Class KeyTraitsLaws : Prop := {
  generate_material_wf info params g key g' :
    generate_material info params g = (Ok key, g') → km_wf key;
  rsa_import_wf data params key n e : rsa_import_pkcs8_key data params = Ok (key, n, e) → km_wf key;
  ec_import_wf data params key :
    ec_import_pkcs8_key data params = Ok key ∨ ec_import_raw_ed25519_key data params = Ok key ∨
    ec_import_raw_x25519_key data params = Ok key → km_wf key;
  aes_import_wf data params key n : aes_import_key data params = Ok (key, n) → km_wf key;
  des_import_wf data params key : des_import_key data params = Ok key → km_wf key;
  hmac_import_wf data params key n : hmac_import_key data params = Ok (key, n) → km_wf key
}.
Context `{TL : !KeyTraitsLaws}.

Ltac res_inv_pairs := repeat first
  [ res_step
  | match goal with
    | H : (let '(_, _) := ?x in _) = Ok _ |- _ => destruct x
    | H : (_, _) = (_, _) |- _ => injection H as H; try subst
    end ]; cbn beta iota in *.
Lemma import_characteristics_Ok st params lvl fmt data cs key :
  extract_key_import_characteristics st params lvl fmt data = Ok (cs, key) →
  km_wf key ∧ ∃ extra, extract_key_characteristics st params extra lvl = Ok cs.
Proof.
  unfold extract_key_import_characteristics. intros H.
  apply res_bind_Ok in H as (algo & _ & H). apply res_bind_Ok in H as ([extra key'] & Hkey & H).
  apply res_bind_Ok in H as (cs' & Hcs & [= <- <-]). split; [|eauto].
  clear Hcs. destruct algo.
  - unfold check_rsa_import_params in Hkey. res_inv_pairs. by eapply rsa_import_wf.
  - unfold check_ec_import_params in Hkey. res_inv_pairs. eapply ec_import_wf.
    destruct (x : bool); [|case_decide; [|done]]; res_inv_pairs; [case_decide; res_inv_pairs; eauto|eauto].
  - unfold check_aes_import_params in Hkey. res_inv_pairs. by eapply aes_import_wf.
  - unfold check_3des_import_params in Hkey. res_inv_pairs. by eapply des_import_wf.
  - unfold check_hmac_import_params in Hkey. res_inv_pairs. by eapply hmac_import_wf.
Qed.

(** How both requests end: characteristics extracted from the parameters get the device's tags,
    and the blob is made from them. *)
Definition created (k : KeyMintKeys) (params : list KeyParam) (ak : option AttestationKey)
    (key : KeyMaterial) (res : KeyCreationResult) (k' : KeyMintKeys) : Prop :=
  ∃ k1 cs chars o purpose st extra,
    same_device (ks_ta k) (ks_ta k1) ∧ ta_sdd_mgr (ks_ta k1) = ta_sdd_mgr (ks_ta k) ∧
    extract_key_characteristics st params extra (ta_security_level (ks_ta k)) = Ok cs ∧
    add_keymint_tags (ks_ta k) cs o = Ok chars ∧ km_wf key ∧
    finish_keyblob_creation params ak chars key purpose k1 = (Ok res, k').

Lemma generate_key_material_Ok params s key chars s' :
  generate_key_material params s = (Ok (key, chars), s') →
  ∃ cs info g,
    extract_key_gen_characteristics (secure_storage_available s) params (ta_security_level s) = Ok (cs, info) ∧
    add_keymint_tags s cs KeyOrigin_Generated = Ok chars ∧
    generate_material info params (ta_rng s) = (Ok key, g) ∧ s' = set_rng g s.
Proof.
  unfold generate_key_material. intros (s2 & s3 & [= <- <-] & Hm)%stM_bind_Ok.
  apply stM_bind_Ok in Hm as ([cs info] & s4 & [Hex <-]%pair_equal_spec & Hm).
  apply stM_bind_Ok in Hm as (chars' & s5 & [Hadd <-]%pair_equal_spec & Hm).
  apply stM_bind_Ok in Hm as (key' & s6 & Hrng & [= <- <- <-]). unfold with_rng in Hrng.
  destruct (generate_material _ _ _) as [r g] eqn:Hgm. injection Hrng as -> <-. by exists cs, info, g.
Qed.
Lemma gen_characteristics_Ok st params lvl cs info :
  extract_key_gen_characteristics st params lvl = Ok (cs, info) →
  extract_key_characteristics st params [] lvl = Ok cs.
Proof.
  unfold extract_key_gen_characteristics. intros (a & _ & Hex)%res_bind_Ok.
  apply res_bind_Ok in Hex as (i & _ & Hex). by apply res_bind_Ok in Hex as (cs' & Hex & [= <- <-]).
Qed.
Lemma same_device_set_rng g s : same_device s (set_rng g s).
Proof. exists g, (ta_sdd_mgr s). by destruct s. Qed.

Lemma generated_created params ak k key chars s' purpose res k' :
  generate_key_material params (ks_ta k) = (Ok (key, chars), s') →
  finish_keyblob_creation params ak chars key purpose (set_ta s' k) = (Ok res, k') →
  created k params ak key res k'.
Proof.
  intros (cs & info & g & Hex%gen_characteristics_Ok & Hadd & Hgm & ->)%generate_key_material_Ok Hfin.
  exists (set_ta (set_rng g (ks_ta k)) k). do 6 eexists.
  split_and!; [apply same_device_set_rng| |exact Hex|exact Hadd|by eapply generate_material_wf|exact Hfin].
  cbn. by destruct (ks_ta k).
Qed.
Lemma generate_key_created params ak k res k' :
  generate_key params ak k = (Ok res, k') → ∃ key, created k params ak key res k'.
Proof.
  unfold generate_key. intros ([key chars] & k1 & Hg & Hfin)%stM_bind_Ok.
  unfold with_ta in Hg. destruct (generate_key_material params (ks_ta k)) as [r s1] eqn:Hm.
  injection Hg as -> <-. exists key. by eapply generated_created.
Qed.
(** The characteristics of a new key are representable when the parameters are. *)
Lemma generated_wf st params extra s cs o chars :
  versions_wf s → Forall kp_wf (params ++ extra) →
  extract_key_characteristics st params extra (ta_security_level s) = Ok cs →
  add_keymint_tags s cs o = Ok chars → Forall KeyCharacteristics_wf chars.
Proof.
  intros [Hh Hb] Hwf (_ & _ & ->)%extract_key_characteristics_Ok Hadd.
  assert (∀ Q `{∀ p, Decision (Q p)}, Forall kp_wf (sort_by param_compare (filter Q (params ++ extra)))) as Hsort.
  { intros Q HQ. apply Forall_forall. intros p Hp. rewrite sort_by_Permutation in Hp.
    apply list_elem_of_filter in Hp as [_ Hp]. by apply (proj1 (Forall_forall _ _) Hwf). }
  unfold key_characteristics in Hadd. cbn [add_keymint_tags security_level] in Hadd.
  rewrite decide_True in Hadd by done. injection Hadd as <-. constructor.
  - split; [done|]. split; [|done]. apply Forall_app. split; [apply Hsort|]. unfold keymint_tags.
    constructor; [done|]. apply Forall_app.
    destruct (ta_hal_info s) as [h|], (ta_boot_info s) as [b|];
      try specialize (Hh _ eq_refl) as (? & ? & ?); try specialize (Hb _ eq_refl);
      rewrite ?Forall_cons, ?Forall_nil; cbn [kp_wf]; naive_solver.
  - pose proof (Hsort (keystore_policed st) _) as Hk. destruct (filter _ (params ++ extra)); [done|].
    apply Forall_singleton. by split.
Qed.
Lemma import_key_created params fmt data ak ty k res k' :
  import_key params fmt data ak ty k = (Ok res, k') → ∃ key, created k params ak key res k'.
Proof.
  unfold import_key. intros (s & k1 & [= <- <-] & H)%stM_bind_Ok.
  apply stM_bind_Ok in H as (early & k1 & [_ <-]%pair_equal_spec & H).
  apply stM_bind_Ok in H as ([] & k1 & [_ <-]%pair_equal_spec & H).
  apply stM_bind_Ok in H as ([cs key] & k1 & [Hex <-]%pair_equal_spec & H).
  apply stM_bind_Ok in H as (chars & k1 & [Hadd <-]%pair_equal_spec & H).
  apply import_characteristics_Ok in Hex as (Hkm & extra & Hex).
  exists key, k. do 6 eexists. split_and!; [|done|exact Hex|exact Hadd|exact Hkm|exact H].
  exists (ta_rng (ks_ta k)), (ta_sdd_mgr (ks_ta k)). by destruct (ks_ta k).
Qed.

Lemma created_usable k params ak key res k' :
  from_option ok True (ta_sdd_mgr (ks_ta k)) → created k params ak key res k' →
  Forall KeyCharacteristics_wf (KeyCreationResult_key_characteristics res) →
  ∃ slot, keyblob_parse_decrypt (ks_ta k') (KeyCreationResult_key_blob res) params =
    Ok ({| characteristics := bound_characteristics (KeyCreationResult_key_characteristics res);
           key_material := key |}, slot).
Proof.
  intros Hok (k1 & cs & chars & o & purpose & st & extra & Hs1 & Hm1 & Hex & Hadd & Hkm & Hfin) Hwf.
  assert (KeyCreationResult_key_characteristics res = chars) as Hres.
  { unfold finish_keyblob_creation in Hfin. apply stM_bind_Ok in Hfin as (? & ? & _ & Hfin).
    by apply stM_bind_Ok in Hfin as (? & ? & _ & [= <- _]). }
  rewrite Hres in *. apply finish_keyblob_creation_Ok in Hfin as (Hs2 & _ & [cl Hcl] & slot & Hd).
  - exists slot. unfold keyblob_parse_decrypt. rewrite Hd. cbn [mbind res_bind characteristics].
    rewrite (same_device_level _ _ Hs2), Hcl. cbn [mbind res_bind].
    rewrite (proj2 (check_key_versions_Ok (ks_ta k') cl tt)); [done|].
    rewrite (same_device_level _ _ Hs1) in Hcl.
    eapply Forall_impl; [by eapply created_versions|].
    intros q Hq. by rewrite (version_current_same _ _ _ Hs2), (version_current_same _ _ _ Hs1).
  - by rewrite Hm1.
  - done.
  - apply Forall_forall. intros kc [_ Hkc]%list_elem_of_filter. by apply (proj1 (Forall_forall _ _) Hwf).
Qed.

(** C13: A key that was generated or imported can be used: the same device, given the same
    parameters, decrypts the blob it answered with, accepts the versions in it, and finds the
    characteristics it announced (but those left to Keystore). *)
Theorem new_key_usable k params ak res k' :
  from_option ok True (ta_sdd_mgr (ks_ta k)) →
  generate_key params ak k = (Ok res, k') ∨
  (∃ fmt data ty, import_key params fmt data ak ty k = (Ok res, k')) →
  Forall KeyCharacteristics_wf (KeyCreationResult_key_characteristics res) →
  ∃ key slot,
    keyblob_parse_decrypt (ks_ta k') (KeyCreationResult_key_blob res) params =
    Ok ({| characteristics := bound_characteristics (KeyCreationResult_key_characteristics res);
           key_material := key |}, slot).
Proof.
  intros Hok Hnew Hwf.
  assert (∃ key, created k params ak key res k') as [key Hc].
  { destruct Hnew as [Hgen|(fmt & data & ty & Himp)]; [by apply generate_key_created|by eapply import_key_created]. }
  exists key. by eapply created_usable.
Qed.
End usable.

(** ** Secure user IDs of wrapped keys *)

(** The ID that replaces one that names authenticator types: the password's if its bit is set,
    else the biometric one if the fingerprint bit is. *)
Definition real_sid (secure_id password_sid biometric_sid : Z) : Z :=
  if Z.testbit secure_id 0 then as_u64 password_sid
  else if Z.testbit secure_id 1 then as_u64 biometric_sid
  else secure_id.

Lemma land_bit v i : Z.land v (2 ^ Z.of_nat i) = 2 ^ Z.of_nat i ↔ Z.testbit v (Z.of_nat i) = true.
Proof.
  split.
  - intros H. apply (f_equal (λ z, Z.testbit z (Z.of_nat i))) in H.
    by rewrite Z.land_spec, Z.pow2_bits_true, andb_true_r in H by lia.
  - intros H. apply Z.bits_inj'. intros n Hn. rewrite Z.land_spec.
    destruct (decide (n = Z.of_nat i)) as [->|Hni].
    + by rewrite H, Z.pow2_bits_true by lia.
    + by rewrite Z.pow2_bits_false, andb_false_r by lia.
Qed.

Lemma substitute_sid_cases ps pw bio v :
  omap as_UserSecureId ps = [v] →
  substitute_sid ps pw bio =
  Ok (if Z.testbit v 0 || Z.testbit v 1
      then filter (λ p, as_UserSecureId p = None) ps ++ [KP_UserSecureId (real_sid v pw bio)]
      else ps).
Proof.
  intros Hv. unfold substitute_sid, real_sid, get_opt_tag_value. rewrite get_opt_tag_value_spec, Hv.
  cbn [mbind res_bind]. cbn zeta.
  pose proof (land_bit v 0) as H0. pose proof (land_bit v 1) as H1. change (2 ^ Z.of_nat 0) with 1 in H0. change (Z.of_nat 0) with 0 in H0.
  change (2 ^ Z.of_nat 1) with 2 in H1. change (Z.of_nat 1) with 1 in H1.
  change (discr HardwareAuthenticatorType_Password) with 1.
  change (discr HardwareAuthenticatorType_Fingerprint) with 2.
  rewrite (bool_decide_ext _ _ H0), (bool_decide_ext _ _ H1).
  destruct (Z.testbit v 0), (Z.testbit v 1); done.
Qed.
Lemma omap_without_sid ps :
  omap as_UserSecureId (filter (λ p, as_UserSecureId p = None) ps) = [].
Proof.
  induction ps as [|p ps IH]; [done|]. rewrite filter_cons. case_decide as H; [|done]. cbn. by rewrite H.
Qed.

(** The secure user ID in the parameters of a wrapped key is replaced by the password's or
    the biometric ID of the caller according to the authenticator types it names, the password
    having precedence; other IDs stay; repeated ones are rejected; all other parameters are kept
    in order, and the key gets an unlimited validity. *)
Theorem wrapped_key_params ps pw bio :
  match omap as_UserSecureId ps with
  | [] => imported_params ps pw bio =
      Ok (ps ++ [KP_CertificateNotBefore UNDEFINED_NOT_BEFORE; KP_CertificateNotAfter UNDEFINED_NOT_AFTER])
  | [v] => ∃ ps', imported_params ps pw bio = Ok ps' ∧
      omap as_UserSecureId ps' = [real_sid v pw bio] ∧
      filter (λ p, as_UserSecureId p = None) ps' =
      filter (λ p, as_UserSecureId p = None) ps ++
      [KP_CertificateNotBefore UNDEFINED_NOT_BEFORE; KP_CertificateNotAfter UNDEFINED_NOT_AFTER]
  | _ => imported_params ps pw bio = km_err InvalidTag
  end.
Proof.
  unfold imported_params. destruct (omap as_UserSecureId ps) as [|v [|w l]] eqn:Hps.
  - unfold substitute_sid, get_opt_tag_value. by rewrite get_opt_tag_value_spec, Hps.
  - rewrite (substitute_sid_cases _ _ _ _ Hps). cbn [mbind res_bind]. eexists. split; [reflexivity|].
    rewrite omap_app, filter_app. unfold real_sid.
    destruct (Z.testbit v 0) eqn:H0; [|destruct (Z.testbit v 1) eqn:H1]; cbn [orb].
    3: rewrite Hps; split; [done|]; rewrite !filter_cons, !filter_nil; by rewrite !decide_True.
    all: rewrite omap_app, omap_without_sid, filter_app, list_filter_filter_l by (by intros ??).
    all: split; [done|]. all: rewrite !filter_cons, !filter_nil. all: by rewrite decide_False, !decide_True, app_nil_r.
  - unfold substitute_sid, get_opt_tag_value. by rewrite get_opt_tag_value_spec, Hps.
Qed.

(** ** Who signs a certificate, and what it says *)

Lemma device_signing_info_Ok params key ai k i k' :
  device_signing_info params key ai k = (Ok i, k') →
  si_attestation_info i = Some ai ∧ ∃ t,
    signing_key t = Ok (si_signing_key i) ∧
    (which t = DeviceUnique ↔ KP_DeviceUniqueAttestation ∈ params) ∧
    (which t = DeviceUnique → ta_security_level (ks_ta k) = SecurityLevel_Strongbox) ∧
    algo_hint t = match key with KM_Rsa _ => SigningAlgorithm_Rsa | _ => SigningAlgorithm_Ec end.
Proof.
  unfold device_signing_info. intros (s & k1 & [= <- <-] & H)%stM_bind_Ok.
  apply stM_bind_Ok in H as (unique & k1 & [Hu <-]%pair_equal_spec & H).
  apply stM_bind_Ok in H as (w & k1 & [Hw <-]%pair_equal_spec & H).
  apply stM_bind_Ok in H as (hint & k1 & [Hh <-]%pair_equal_spec & H).
  apply stM_bind_Ok in H as (info & k1 & Hi & [= <- <-]). split; [done|].
  exists (mk_signing_key_type w hint). cbn [which algo_hint si_signing_key].
  unfold get_signing_info in Hi. apply stM_bind_Ok in Hi as (av & k2 & _ & Hi).
  apply stM_bind_Ok in Hi as ([] & k3 & _ & Hi). apply stM_bind_Ok in Hi as (ci & k4 & _ & Hi).
  apply stM_bind_Ok in Hi as (sk & k5 & [Hk <-]%pair_equal_spec & [= <- <-]).
  split; [done|]. unfold is_strongbox in Hw.
  destruct unique; [apply get_bool_tag_value_true in Hu|apply get_bool_tag_value_false in Hu];
    [case_bool_decide as Hs; [|done]|]; injection Hw as <-;
    (split; [done|]; split; [done|]; by destruct key; simplify_eq).
Qed.
Lemma attest_key_signing_info_Ok s a ai i :
  attest_key_signing_info s a ai = Ok i →
  ∃ kb slot chars,
    keyblob_parse_decrypt s (AttestationKey_key_blob a) (AttestationKey_attest_key_params a) = Ok (kb, slot) ∧
    characteristics_at (characteristics kb) (ta_security_level s) = Ok chars ∧
    KeyPurpose_AttestKey ∈ omap as_Purpose chars ∧ AttestationKey_issuer_subject_name a ≠ [] ∧
    i = mk_signing_info (Some ai) (key_material kb) (AttestationKey_issuer_subject_name a) [].
Proof.
  unfold attest_key_signing_info. intros ([kb slot] & Hd & H)%res_bind_Ok.
  apply res_bind_Ok in H as ([] & Hs & H). apply res_bind_Ok in H as ([] & Hi & [= <-]).
  apply reject_if_Ok, bool_decide_eq_false in Hi.
  unfold suitable_for in Hs. apply res_bind_Ok in Hs as (chars & Hc & Hp).
  destruct (contains_tag_value as_Purpose chars KeyPurpose_AttestKey) eqn:Hct; [|done].
  apply contains_tag_value_true in Hct. eauto 10.
Qed.

(** C23: The signer of a new key's certificate.  With a challenge (of at most 128 bytes, and with
    an application ID) the certificate is an attestation: signed by the given attestation key, if
    the device accepts its blob, it has the purpose ATTEST_KEY and the issuer has a name, or else
    by the batch key, or by the device-unique key exactly when that is asked for, which only
    StrongBox allows.  Without a challenge no attestation key may be given, and the key signs its
    own certificate if it can sign at all. *)
Theorem attestation_signer params ak key k info k' :
  signing_info params ak key k = (Ok info, k') →
  match omap as_AttestationChallenge params with
  | [] => ak = None ∧
      if is_signing_key params
      then ∃ subject, get_cert_subject params = Ok subject ∧ info = Some (mk_signing_info None key subject [])
      else info = None
  | [c] => len c ≤ MAX_ATTESTATION_CHALLENGE_LEN ∧ ∃ app i,
      omap as_AttestationApplicationId params = [app] ∧ info = Some i ∧
      si_attestation_info i = Some (c, app) ∧
      match ak with
      | Some a => ∃ kb slot chars,
          keyblob_parse_decrypt (ks_ta k) (AttestationKey_key_blob a) (AttestationKey_attest_key_params a)
            = Ok (kb, slot) ∧
          characteristics_at (characteristics kb) (ta_security_level (ks_ta k)) = Ok chars ∧
          KeyPurpose_AttestKey ∈ omap as_Purpose chars ∧ AttestationKey_issuer_subject_name a ≠ [] ∧
          i = mk_signing_info (Some (c, app)) (key_material kb) (AttestationKey_issuer_subject_name a) []
      | None => ∃ t,
          signing_key t = Ok (si_signing_key i) ∧
          (which t = DeviceUnique ↔ KP_DeviceUniqueAttestation ∈ params) ∧
          (which t = DeviceUnique → ta_security_level (ks_ta k) = SecurityLevel_Strongbox) ∧
          algo_hint t = match key with KM_Rsa _ => SigningAlgorithm_Rsa | _ => SigningAlgorithm_Ec end
      end
  | _ => False
  end.
Proof.
  unfold signing_info. intros (c & k1 & [Hc <-]%pair_equal_spec & H)%stM_bind_Ok.
  apply get_opt_tag_value_Ok in Hc. rewrite Hc. destruct c as [c|]; cbn [option_list].
  - apply stM_bind_Ok in H as ([] & k1 & [Hlen <-]%pair_equal_spec & H).
    apply reject_if_Ok, bool_decide_eq_false in Hlen. split; [lia|].
    apply stM_bind_Ok in H as (app & k1 & [Happ <-]%pair_equal_spec & H). apply get_opt_tag_value_Ok in Happ.
    apply stM_bind_Ok in H as (app' & k1 & [Ha%ok_or_Ok <-]%pair_equal_spec & H). subst app. exists app'.
    destruct ak as [a|].
    + apply stM_bind_Ok in H as (s & k1 & [= <- <-] & H).
      apply stM_bind_Ok in H as (i & k1 & [Hi <-]%pair_equal_spec & [= <- <-]).
      apply attest_key_signing_info_Ok in Hi as (kb & slot & chars & ? & ? & ? & ? & ->). eauto 20.
    + apply stM_bind_Ok in H as (i & k1 & Hi & [= <- <-]).
      apply device_signing_info_Ok in Hi as (? & ?). eauto 10.
  - apply stM_bind_Ok in H as ([] & k1 & [Hak <-]%pair_equal_spec & H).
    apply reject_if_Ok, bool_decide_eq_false in Hak. split; [by destruct ak; [destruct Hak|]|].
    destruct (is_signing_key params); [|by injection H as <- <-].
    apply stM_bind_Ok in H as (subject & k1 & [Hs <-]%pair_equal_spec & [= <- <-]). eauto.
Qed.

(** A certificate is what it should be: it is signed, if at all, over the encoding of its own
    contents by the signer's key; it holds the public key it is made for; it is a CA certificate
    exactly when the key may attest; and it has an attestation extension, with the challenge,
    exactly when the signer is to attest. *)
Theorem certificate_contents info spki params chars k cert k' :
  generate_cert info spki params chars k = (Ok cert, k') →
  ∃ tbs tbs_data sig x usage constraints attest,
    asn1_der_encode tbs_enc tbs = Ok tbs_data ∧
    match info with Some i => sign_cert_data (si_signing_key i) tbs_data = Ok sig | None => sig = [] end ∧
    certificate tbs sig = Ok x ∧ asn1_der_encode certificate_enc x = Ok (Certificate_encoded_certificate cert) ∧
    tbs_subject_public_key_info tbs = spki ∧
    tbs_extensions tbs = mk_extension KEY_USAGE_OID true usage ::
      (mk_extension BASIC_CONSTRAINTS_OID true <$> option_list constraints) ++
      (mk_extension ATTESTATION_EXTENSION_OID false <$> option_list attest) ∧
    asn1_der_encode key_usage_enc (key_usage_extension_bits params) = Ok usage ∧
    (is_Some constraints ↔ KP_Purpose KeyPurpose_AttestKey ∈ params) ∧
    match info ≫= si_attestation_info with
    | Some (challenge, _) => ∃ v ext, attest = Some v ∧ ae_attestation_challenge ext = challenge ∧
        asn1_der_encode (attestation_extension_enc authz_enc) ext = Ok v
    | None => attest = None
    end.
Proof.
  unfold generate_cert. intros (usage & k1 & [Hu <-]%pair_equal_spec & H)%stM_bind_Ok.
  apply stM_bind_Ok in H as (constraints & k1 & [Hbc <-]%pair_equal_spec & H).
  apply stM_bind_Ok in H as (ids & k1 & _ & H). apply stM_bind_Ok in H as (s & k2 & [= <- <-] & H).
  injection H as H _. unfold build_cert in H.
  apply res_bind_Ok in H as (attest & Hatt & H). apply res_bind_Ok in H as (our & _ & H).
  apply res_bind_Ok in H as (tbs & Htbs & H). apply res_bind_Ok in H as (tbs_data & Hdata & H).
  apply res_bind_Ok in H as (sig & Hsig & H). apply res_bind_Ok in H as (x & Hx & H).
  apply res_bind_Ok in H as (data & Hd & [= <-]).
  apply tbs_certificate_Ok in Htbs as (_ & _ & _ & _ & _ & _ & _ & _ & _ & _ & Hspki & Hext).
  exists tbs, tbs_data, sig, x, usage, constraints, attest. split_and!; try done.
  - destruct info; [done|by injection Hsig as <-].
  - rewrite <- key_cert_sign_spec. unfold basic_constraints_ext in Hbc.
    case_decide as Hk; [apply res_bind_Ok in Hbc as (v & _ & [= <-])|injection Hbc as <-].
    + split; [done|by exists v].
    + split; [by intros []|done].
  - destruct info as [[[[challenge app]|] sk isub ch]|]; cbn in *; [|by injection Hatt as <-..].
    apply res_bind_Ok in Hatt as (uid & _ & Hatt). apply res_bind_Ok in Hatt as (b & _ & Hatt).
    apply res_bind_Ok in Hatt as (ext & Hae & Hatt). apply res_bind_Ok in Hatt as (v & Hv & [= <-]).
    exists v, ext. split; [done|]. split; [|done]. unfold attestation_extension in Hae.
    apply res_bind_Ok in Hae as ([sw hw] & _ & Hae). destruct (match _ with SecurityLevel_Software => _ | _ => _ end).
    by res_inv.
Qed.
End keys.

(** ** A device that makes keys *)

Module SampleKeys.
Import Keyblob.Sample SampleTa SampleDer SampleX509.
#[export] Instance public_keys : PublicKeys := {|
  ec_subject_public_key _ := Ok (u8_of 4 :: replicate 64 (u8_of 1)); rsa_subject_public_key _ := Ok [u8_of 2];
  bit_string_from_bytes := Some |}.
#[export] Instance import_traits : ImportTraits := {|
  rsa_import_pkcs8_key _ _ := Ok (KM_Rsa (Opaque []), 2048, 65537);
  ec_import_pkcs8_key _ _ := Ok (KM_Ec EcCurve_P256 CurveType_Nist (Opaque []));
  ec_import_raw_ed25519_key _ _ := Ok (KM_Ec EcCurve_Curve25519 CurveType_EdDsa (Opaque []));
  ec_import_raw_x25519_key _ _ := Ok (KM_Ec EcCurve_Curve25519 CurveType_Xdh (Opaque []));
  aes_import_key _ _ := Ok (KM_Aes (Opaque []), 128);
  des_import_key _ _ := Ok (KM_TripleDes (Opaque []));
  hmac_import_key d _ := Ok (KM_Hmac (Explicit d), 8 * len d) |}.
#[export] Instance generators : KeyGenerators := {|
  aes_generate_key _ _ := mret (KM_Aes (Opaque []));
  des_generate_key _ := mret (KM_TripleDes (Opaque []));
  hmac_generate_key _ _ := mret (KM_Hmac (Opaque []));
  rsa_generate_key _ _ _ := mret (KM_Rsa (Opaque []));
  ec_generate_nist_key c _ := mret (KM_Ec (EcCurve_of_nist c) CurveType_Nist (Opaque [u8_of 7]));
  ec_generate_ed25519_key _ := mret (KM_Ec EcCurve_Curve25519 CurveType_EdDsa (Opaque []));
  ec_generate_x25519_key _ := mret (KM_Ec EcCurve_Curve25519 CurveType_Xdh (Opaque [])) |}.
Definition one_byte {A} : Encode A := mk_encode (λ _, Ok 1) (λ _, write_byte 5).
#[export] Instance cert_codecs : CertCodecs := {|
  key_usage_enc := one_byte; basic_constraints_enc := one_byte; sequence_header_enc := one_byte;
  attestation_extension_enc _ := one_byte; tbs_enc := one_byte; certificate_enc := one_byte |}.
Definition wrapper : SecureKeyWrapper :=
  mk_wrapper 0 [] [] (mk_key_description 3 (mk_authz [] [] None None [])) [] [].
#[export] Instance wrapper_codecs : WrapperCodecs := {|
  wrapper_from_der _ _ := Ok wrapper; key_description_enc _ := one_byte |}.
#[export] Instance signing : RetrieveCertSigningInfo := {|
  signing_key _ := Ok (KM_Ec EcCurve_P256 CurveType_Nist (Opaque [u8_of 1]));
  cert_chain _ := Ok [{| Certificate_encoded_certificate := [u8_of 48] |}] |}.
#[export] Instance attest_ids : RetrieveAttestationIds := {|
  attest_ids_state := unit; attest_ids_get _ := km_err CannotAttestIds;
  attest_ids_destroy_all := λ s, (Ok tt, s) |}.
#[export] Instance hbk : UniqueIdHbk := {| unique_id_hbk := default_unique_id_hbk |}.

#[export] Instance key_traits : KeyTraitsLaws.
Proof.
  split; cbn; try (by intros; simplify_eq).
  - intros info params g key g'. destruct info; cbn; by intros [= <- _].
  - intros ??? [H|[H|H]]; by injection H as <-.
Qed.

Definition keys : KeyMintKeys := mk_keys booted true None [] None.
Definition ec_params : list KeyParam :=
  [KP_Purpose KeyPurpose_Sign; KP_Algorithm Algorithm_Ec; KP_KeySize 256; KP_EcCurve EcCurve_P256;
   KP_Digest Digest_Sha256; KP_NoAuthRequired; KP_AttestationChallenge [u8_of 1];
   KP_AttestationApplicationId [u8_of 2]; KP_CertificateNotBefore 0; KP_CertificateNotAfter 1000].
Definition created_key := generate_key ec_params None keys.
Definition created_res : KeyCreationResult :=
  value {| KeyCreationResult_key_blob := []; KeyCreationResult_key_characteristics := [];
           KeyCreationResult_certificate_chain := [] |} created_key.

(** The same device with other patch levels. *)
Definition at_patchlevel (p : Z) : KeyMintTa :=
  config_run [Cfg_SetBootInfo SampleTa.boot; Cfg_SetHalInfo {| os_version := 140000; os_patchlevel := p;
                                                       vendor_patchlevel := 20240105 |};
              Cfg_EarlyBootEnded] fresh.
Definition old_key : PlaintextKeyBlob * bool :=
  match keyblob_to_upgrade (at_patchlevel 202402) aes_blob [] with
  | Ok p => p
  | _ => ({| characteristics := []; key_material := KM_Hmac (Opaque []) |}, true)
  end.
Definition upgraded := upgrade_key aes_blob [] (at_patchlevel 202402).

Lemma patchlevel_wf p : is_u32 p → versions_wf (at_patchlevel p).
Proof.
  intros Hp. split.
  - intros h [= <-]. cbn. split_and!; range_lia.
  - intros b [= <-]. cbn. range_lia.
Qed.
#[local] Instance kp_wf_dec p : Decision (kp_wf p).
Proof. destruct p; cbn; unfold is_unsigned, is_signed; apply _. Defined.
#[local] Instance kc_wf_dec kc : Decision (KeyCharacteristics_wf kc).
Proof. unfold KeyCharacteristics_wf. apply _. Defined.
Lemma old_key_wf : Forall KeyCharacteristics_wf (characteristics old_key.1).
Proof. decide_compute. Qed.
Lemma created_wf : Forall KeyCharacteristics_wf (KeyCreationResult_key_characteristics created_res).
Proof. decide_compute. Qed.
Definition slots_ok : sdm_state → Prop := InMemory.mgr_ok.
#[export] Instance slots_laws : SDMLaws slots_ok := InMemory.InMemorySDM_laws.
#[export] Instance slots_u32 : SDMSlots slots_ok := InMemory.InMemorySDM_slots.
Lemma sample_mgr_ok : InMemory.mgr_ok (InMemory.mk_mgr (Some (replicate 32 (u8_of 6))) (replicate 4 None)).
Proof. vm_compute. discriminate. Qed.

Lemma new_key_usable_witness :
  created_key.1 = Ok created_res ∧ ∃ key slot,
    keyblob_parse_decrypt (ks_ta created_key.2) (KeyCreationResult_key_blob created_res) ec_params =
    Ok ({| characteristics := bound_characteristics (KeyCreationResult_key_characteristics created_res);
           key_material := key |}, slot).
Proof.
  split; [vm_compute; reflexivity|].
  apply (new_key_usable keys ec_params None created_res created_key.2 (ok:=slots_ok)).
  - exact sample_mgr_ok.
  - left. succeeds.
  - exact created_wf.
Defined.
Lemma upgrade_refuses_downgrade_witness :
  upgrade_key aes_blob [] (at_patchlevel 202312) = (km_err InvalidArgument, at_patchlevel 202312).
Proof.
  apply (upgrade_refuses_downgrade (at_patchlevel 202312) aes_blob [] old_key.1 old_key.2
    {| security_level := SecurityLevel_TrustedEnvironment;
       authorizations := aes_chars ++ keymint_tags booted KeyOrigin_Generated |} (KP_OsPatchlevel 202401)).
  - vm_compute. reflexivity.
  - apply (bool_decide_unpack _). vm_compute. exact I.
  - reflexivity.
  - decide_compute.
  - eexists. split; [reflexivity|]. cbn. lia.
Defined.
Lemma upgrade_key_current_witness :
  (value [] upgraded = [] ∧ upgraded.2 = at_patchlevel 202402 ∧ old_key.2 = false ∧
   ∀ kc, kc ∈ characteristics old_key.1 → security_level kc = ta_security_level (at_patchlevel 202402) →
         Forall (version_current (at_patchlevel 202402)) (authorizations kc)) ∨
  (value [] upgraded ≠ [] ∧ same_device (at_patchlevel 202402) upgraded.2 ∧ ∃ cs slot,
   keyblob_parse_decrypt upgraded.2 (value [] upgraded) [] =
   Ok ({| characteristics := cs; key_material := key_material old_key.1 |}, slot)).
Proof.
  apply (upgrade_key_current aes_blob [] (at_patchlevel 202402) (value [] upgraded) upgraded.2 old_key.1 old_key.2
    (ok:=slots_ok)).
  - exact sample_mgr_ok.
  - apply patchlevel_wf. range_lia.
  - vm_compute. reflexivity.
  - vm_compute. reflexivity.
  - exact old_key_wf.
  - succeeds.
Defined.
Definition signer := signing_info ec_params None (KM_Ec EcCurve_P256 CurveType_Nist (Opaque [])) keys.
Definition signer_info : SigningInfo :=
  mk_signing_info (Some ([u8_of 1], [u8_of 2])) (KM_Ec EcCurve_P256 CurveType_Nist (Opaque [u8_of 1])) [u8_of 48]
    [{| Certificate_encoded_certificate := [u8_of 48] |}].
Lemma attestation_signer_witness :
  len [u8_of 1] ≤ MAX_ATTESTATION_CHALLENGE_LEN ∧ ∃ app i,
    omap as_AttestationApplicationId ec_params = [app] ∧ Some signer_info = Some i ∧
    si_attestation_info i = Some ([u8_of 1], app) ∧ ∃ t,
      signing_key t = Ok (si_signing_key i) ∧
      (which t = DeviceUnique ↔ KP_DeviceUniqueAttestation ∈ ec_params) ∧
      (which t = DeviceUnique → ta_security_level (ks_ta keys) = SecurityLevel_Strongbox) ∧
      algo_hint t = SigningAlgorithm_Ec.
Proof.
  apply (attestation_signer ec_params None (KM_Ec EcCurve_P256 CurveType_Nist (Opaque [])) keys
           (Some signer_info) signer.2).
  assert (value None signer = Some signer_info) as <- by (vm_compute; reflexivity). succeeds.
Defined.
Definition ec_spki : SubjectPublicKeyInfo :=
  mk_spki X509_NIST_OID (Some (Params_Oid ALGO_PARAM_P256_OID)) [u8_of 4; u8_of 1].
Definition ec_cert := generate_cert (Some signer_info) ec_spki ec_params
  (KeyCreationResult_key_characteristics created_res) keys.
Lemma certificate_contents_witness :
  ∃ tbs tbs_data sig x usage constraints attest,
    asn1_der_encode tbs_enc tbs = Ok tbs_data ∧
    sign_cert_data (si_signing_key signer_info) tbs_data = Ok sig ∧
    certificate tbs sig = Ok x ∧ asn1_der_encode certificate_enc x = Ok [u8_of 5] ∧
    tbs_subject_public_key_info tbs = ec_spki ∧
    tbs_extensions tbs = mk_extension KEY_USAGE_OID true usage ::
      (mk_extension BASIC_CONSTRAINTS_OID true <$> option_list constraints) ++
      (mk_extension ATTESTATION_EXTENSION_OID false <$> option_list attest) ∧
    asn1_der_encode key_usage_enc (key_usage_extension_bits ec_params) = Ok usage ∧
    (is_Some constraints ↔ KP_Purpose KeyPurpose_AttestKey ∈ ec_params) ∧
    ∃ v ext, attest = Some v ∧ ae_attestation_challenge ext = [u8_of 1] ∧
      asn1_der_encode (attestation_extension_enc authz_enc) ext = Ok v.
Proof.
  apply (certificate_contents (Some signer_info) ec_spki ec_params
    (KeyCreationResult_key_characteristics created_res) keys
    {| Certificate_encoded_certificate := [u8_of 5] |} ec_cert.2).
  assert (value {| Certificate_encoded_certificate := [] |} ec_cert =
          {| Certificate_encoded_certificate := [u8_of 5] |}) as <- by (vm_compute; reflexivity). succeeds.
Defined.
End SampleKeys.
