(* ===== verification/DerRef.v ===== *)
(** * The distinguished encoding of ASN.1 (X.690), as far as the code uses it

    The [der] crate is a parameter of the development. This file shows that what is assumed of
    it can be met by the standard encoding itself: definite lengths in the shortest form,
    integers in two's complement without superfluous bytes, sets in the order of their encodings.
    The structures that the [Sequence] macro derives (root of trust, attestation extension,
    signatures, wrapped keys) are encoded with it too, so that the encodings that are written
    down in the repository's tests can be compared with those of the model. *)

From S2P Require Import Prelude Wire TagLegacy CryptoTypes TagParams Codec CborRef WireCodec EcKeys Asn1 Cert Keys.

Module X690.
Import Rfc8949(take_exact, take_exact_app, take_exact_be, from_be_small).

(** ** Lengths *)

(** The longest object the crate handles. *)
Definition LENGTH_MAX : Z := 2 ^ 28 - 1.
(** How many bytes follow the first one. *)
Definition length_ext (n : Z) : nat :=
  if decide (n < 2 ^ 7) then 0 else if decide (n < 2 ^ 8) then 1 else if decide (n < 2 ^ 16) then 2
  else if decide (n < 2 ^ 24) then 3 else 4.
Definition length_octets (n : Z) : bytes :=
  match length_ext n with
  | O => [u8_of n]
  | k => u8_of (0x80 + Z.of_nat k) :: to_be_bytes k n
  end.
Definition length_size (n : Z) : Z := 1 + Z.of_nat (length_ext n).
Definition read_length (b : bytes) : option (Z * bytes) :=
  match b with
  | [] => None
  | x :: b =>
    if decide (u8_val x < 0x80) then Some (u8_val x, b)
    else
      let k := Z.to_nat (u8_val x - 0x80) in
      if decide (1 ≤ k ≤ 4)%nat then
        '(d, rest) ← take_exact k b;
        let n := from_be_bytes d in
        if decide (length_ext n = k ∧ n ≤ LENGTH_MAX) then Some (n, rest) else None
      else None
  end.

Lemma length_length_octets n : len (length_octets n) = length_size n.
Proof.
  unfold length_octets, length_size, len. destruct (length_ext n) eqn:He; [done|].
  cbn [length]. rewrite length_to_be_bytes. lia.
Qed.
Lemma length_ext_bound n : 0 ≤ n ≤ LENGTH_MAX →
  (length_ext n ≤ 4)%nat ∧ n < 2 ^ (8 * Z.of_nat (length_ext n)) ∨ length_ext n = 0%nat ∧ n < 128.
Proof. unfold length_ext, LENGTH_MAX. intros Hn. repeat case_decide; lia. Qed.
Lemma read_length_octets n rest : 0 ≤ n ≤ LENGTH_MAX → read_length (length_octets n ++ rest) = Some (n, rest).
Proof.
  intros Hn. destruct (length_ext n) as [|k] eqn:He; unfold length_octets; rewrite He.
  - assert (n < 128) by (unfold length_ext in He; repeat case_decide; (done || lia)).
    cbn [app read_length]. rewrite !u8_val_of by lia. by rewrite decide_True by lia.
  - destruct (length_ext_bound n Hn) as [[Hk Hb]|[H0 _]]; [|congruence]. rewrite He in *.
    cbn [app read_length]. rewrite u8_val_of by lia. rewrite decide_False by lia.
    replace (Z.to_nat (0x80 + Z.of_nat (S k) - 0x80)) with (S k) by lia. cbv zeta.
    rewrite decide_True by lia. rewrite take_exact_be. cbn [mbind option_bind]. rewrite from_be_small by lia.
    rewrite decide_True by lia. done.
Qed.

(** ** Objects *)

Definition tlv (tag : Z) (body : bytes) : bytes := u8_of tag :: length_octets (len body) ++ body.
Definition tlv_size (body : bytes) : Z := 1 + length_size (len body) + len body.
(** An object with the given tag at the start of the input. *)
Definition read_tlv (tag : Z) (b : bytes) : option (bytes * bytes) :=
  match b with
  | t :: b =>
    if decide (u8_val t = tag) then '(n, rest) ← read_length b; take_exact (Z.to_nat n) rest else None
  | [] => None
  end.
(** Any object, whole; tags that take more than a byte are not used here. *)
Definition read_any (b : bytes) : option (bytes * bytes) :=
  match b with
  | t :: b' =>
    if decide (u8_val t mod 32 = 31) then None
    else
      '(n, rest) ← read_length b';
      '(body, rest) ← take_exact (Z.to_nat n) rest;
      Some (take (length b - length rest) b, rest)
  | [] => None
  end.

Definition tag_ok (tag : Z) : Prop := 0 ≤ tag < 256 ∧ tag mod 32 ≠ 31.
Lemma len_tlv tag body : len (tlv tag body) = tlv_size body.
Proof.
  unfold tlv, tlv_size. rewrite <- length_length_octets. unfold len. cbn [length]. rewrite length_app. lia.
Qed.
Lemma take_exact_len b rest : take_exact (Z.to_nat (len b)) (b ++ rest) = Some (b, rest).
Proof. unfold len. rewrite Nat2Z.id. apply take_exact_app. Qed.
Lemma tlv_size_len body : tlv_size body ≤ LENGTH_MAX → len body ≤ LENGTH_MAX.
Proof. unfold tlv_size, length_size. lia. Qed.
Lemma read_tlv_app tag body rest :
  tag_ok tag → len body ≤ LENGTH_MAX → read_tlv tag (tlv tag body ++ rest) = Some (body, rest).
Proof.
  intros [Ht _] Hl. unfold tlv, read_tlv. cbn [app]. rewrite u8_val_of, decide_True by done.
  pose proof (len_nonneg body).
  rewrite <- app_assoc, read_length_octets by lia. cbn [mbind option_bind]. apply take_exact_len.
Qed.
Lemma read_any_app tag body rest :
  tag_ok tag → tlv_size body ≤ LENGTH_MAX → read_any (tlv tag body ++ rest) = Some (tlv tag body, rest).
Proof.
  intros [Ht Ht'] Hl. unfold tlv, read_any. cbn [app]. rewrite u8_val_of, decide_False by done.
  unfold tlv_size, length_size in Hl. pose proof (len_nonneg body).
  rewrite <- app_assoc, read_length_octets by lia. cbn [mbind option_bind]. rewrite take_exact_len. cbn [mbind option_bind].
  do 2 f_equal. rewrite app_assoc, app_comm_cons. apply take_app_length'. rewrite !length_app. cbn [length]. rewrite !length_app. lia.
Qed.

(** ** Integers *)

(** The shortest two's complement form, of at least one byte. *)
Fixpoint find_size (fuel n : nat) (z : Z) : nat :=
  match fuel with
  | O => n
  | S fuel' => if decide (is_signed (8 * Z.of_nat n) z) then n else find_size fuel' (S n) z
  end.
Definition int_size (z : Z) : nat := find_size 8 1 z.
Definition int_octets (z : Z) : bytes := to_be_bytes (int_size z) z.
Definition octets_int (b : bytes) : option Z :=
  let z := as_signed (8 * len b) (from_be_bytes b) in
  if decide (int_octets z = b) then Some z else None.

Lemma find_size_fits fuel n z :
  is_signed (8 * Z.of_nat (n + fuel)) z → (0 < n)%nat →
  is_signed (8 * Z.of_nat (find_size fuel n z)) z ∧ (n ≤ find_size fuel n z ≤ n + fuel)%nat.
Proof.
  revert n. induction fuel as [|fuel IH]; intros n Hz Hn; cbn [find_size]; [rewrite Nat.add_0_r in Hz; split; [done|lia]|].
  case_decide; [split; [done|lia]|]. rewrite <- Nat.add_succ_comm in Hz. destruct (IH (S n) Hz) as [? ?]; [lia|]. split; [done|lia].
Qed.
Lemma find_size_least fuel n z k : (n ≤ k < find_size fuel n z)%nat → ¬ is_signed (8 * Z.of_nat k) z.
Proof.
  revert n. induction fuel as [|fuel IH]; intros n Hk; cbn [find_size] in Hk; [lia|]. case_decide; [lia|].
  destruct (decide (k = n)) as [->|]; [done|]. apply (IH (S n)). lia.
Qed.
Lemma int_size_fits z : is_i64 z → is_signed (8 * Z.of_nat (int_size z)) z ∧ (1 ≤ int_size z ≤ 9)%nat.
Proof. intros Hz. apply find_size_fits; [|lia]. change (8 * Z.of_nat (1 + 8)) with 72. range_lia. Qed.
Lemma octets_int_octets z : is_i64 z → octets_int (int_octets z) = Some z.
Proof.
  intros Hz. destruct (int_size_fits z Hz) as [Hs Hn]. unfold octets_int.
  assert (len (int_octets z) = Z.of_nat (int_size z)) as -> by (unfold len, int_octets; by rewrite length_to_be_bytes).
  assert (from_be_bytes (int_octets z) = as_unsigned (8 * Z.of_nat (int_size z)) z) as -> by apply from_to_be_bytes.
  rewrite as_signed_as_unsigned by (done || lia). cbv zeta. by rewrite decide_True.
Qed.
Lemma len_int_octets z : is_i64 z → 1 ≤ len (int_octets z) ≤ 9.
Proof. intros Hz. unfold len, int_octets. rewrite length_to_be_bytes. pose proof (int_size_fits z Hz). lia. Qed.
(** Natural numbers of more bytes are larger. *)
Lemma int_size_mono w v : 0 ≤ w → 0 ≤ v → is_i64 w → (int_size w < int_size v)%nat → w < v.
Proof.
  intros Hw Hv Hi Hs. destruct (int_size_fits w Hi) as [Hfit Hn].
  pose proof (find_size_least 8 1 v (int_size w)) as Hl. destruct (decide (w < v)) as [|Hle]; [done|].
  destruct Hl; [unfold int_size in *; lia|]. unfold is_signed in *.
  assert (0 < 2 ^ (8 * Z.of_nat (int_size w) - 1)) by (apply Z.pow_pos_nonneg; lia). lia.
Qed.

(** ** Encoders and decoders *)

Definition tlv_enc {A} (tag : Z) (body : A → option bytes) : Encode A := {|
  encoded_len a := b ← ok_or (body a) Der; if decide (tlv_size b ≤ LENGTH_MAX) then Ok (tlv_size b) else Err Der;
  encode a := λ out, match body a with Some b => (Ok tt, out ++ tlv tag b) | None => (Err Der, out) end
|}.
Definition from_der {A} (tag : Z) (dec : bytes → option A) (b : bytes) : Result A :=
  match read_tlv tag b with Some (body, []) => ok_or (dec body) Der | _ => Err Der end.

Section tlv_enc.
Context {A : Type} (tag : Z) (body : A → option bytes).
Lemma tlv_enc_len a n : encoded_len (tlv_enc tag body) a = Ok n →
  ∃ b, body a = Some b ∧ tlv_size b ≤ LENGTH_MAX ∧ n = tlv_size b ∧ der_bytes (tlv_enc tag body) a = tlv tag b.
Proof.
  cbn. intros H. apply res_bind_Ok in H as (b & Hb%ok_or_Ok & H). case_decide; [|done]. injection H as <-.
  exists b. split_and!; try done. unfold der_bytes. cbn. by rewrite Hb.
Qed.
Lemma tlv_enc_ok : EncodeOk (tlv_enc tag body).
Proof.
  intros a n Hn. destruct (tlv_enc_len a n Hn) as (b & Hb & _ & -> & _). exists (tlv tag b). split; [|apply len_tlv].
  intros buf. cbn. by rewrite Hb.
Qed.
Lemma read_any_enc a n rest : tag_ok tag → encoded_len (tlv_enc tag body) a = Ok n →
  read_any (der_bytes (tlv_enc tag body) a ++ rest) = Some (der_bytes (tlv_enc tag body) a, rest).
Proof. intros Ht Hn. destruct (tlv_enc_len a n Hn) as (b & _ & Hl & _ & ->). by apply read_any_app. Qed.
Lemma from_der_enc {B} (dec : bytes → option B) a n x : tag_ok tag → encoded_len (tlv_enc tag body) a = Ok n →
  (∀ b, body a = Some b → tlv_size b ≤ LENGTH_MAX → dec b = Some x) → from_der tag dec (der_bytes (tlv_enc tag body) a) = Ok x.
Proof.
  intros Ht Hn Hdec. destruct (tlv_enc_len a n Hn) as (b & Hb & Hl & _ & ->). unfold from_der.
  rewrite <- (app_nil_r (tlv tag b)), read_tlv_app by (done || by apply tlv_size_len). by rewrite (Hdec b Hb Hl).
Qed.
End tlv_enc.

Definition int_body (z : Z) : option bytes := if decide (is_i64 z) then Some (int_octets z) else None.
Definition int_in (lo hi : Z) (b : bytes) : option Z :=
  z ← octets_int b; if decide (lo ≤ z ≤ hi) then Some z else None.
Definition null_body (_ : unit) : option bytes := Some [].
Definition null_of (b : bytes) : option unit := match b with [] => Some tt | _ => None end.

(** Elements of a set are in the order of their encodings: by length, then by value. *)
Definition set_lt (w v : Z) : bool :=
  bool_decide (int_size w < int_size v)%nat ||
  (bool_decide (int_size w = int_size v) && bool_decide (from_be_bytes (int_octets w) < from_be_bytes (int_octets v))).
Fixpoint set_ascending (s : list Z) : bool :=
  match s with x :: (y :: _) as s' => set_lt x y && set_ascending s' | _ => true end.
Definition set_body (s : list Z) : option bytes := @concat u8 <$> mapM (λ z, tlv 0x02 <$> int_body z) s.
Fixpoint read_ints (fuel : nat) (b : bytes) : option (list Z) :=
  match fuel, b with
  | _, [] => Some []
  | O, _ => None
  | S fuel', _ =>
    '(x, rest) ← read_tlv 0x02 b;
    z ← int_in (- 2 ^ 31) (2 ^ 31 - 1) x;
    zs ← read_ints fuel' rest;
    Some (z :: zs)
  end.
Definition set_of (b : bytes) : option (list Z) :=
  s ← read_ints (length b) b; if set_ascending s then Some s else None.

Definition bool_octets (b : bool) : bytes := [u8_of (if b then 0xff else 0)].
Definition bool_of (b : bytes) : option bool :=
  if decide (b = bool_octets true) then Some true else if decide (b = bool_octets false) then Some false else None.
Definition vbs_num (v : VerifiedBootStateAsn1) : Z :=
  match v with Asn1_Verified => 0 | Asn1_SelfSigned => 1 | Asn1_Unverified => 2 | Asn1_Failed => 3 end.
Definition vbs_of (b : bytes) : option VerifiedBootStateAsn1 :=
  z ← octets_int b;
  match z with 0 => Some Asn1_Verified | 1 => Some Asn1_SelfSigned | 2 => Some Asn1_Unverified
             | 3 => Some Asn1_Failed | _ => None end.
Definition rot_body (r : RootOfTrust) : option bytes :=
  Some (tlv 0x04 (rot_verified_boot_key r) ++ tlv 0x01 (bool_octets (rot_device_locked r)) ++
        tlv 0x0a (int_octets (vbs_num (rot_verified_boot_state r))) ++ tlv 0x04 (rot_verified_boot_hash r)).
Definition rot_of (b : bytes) : option RootOfTrust :=
  '(key, b) ← read_tlv 0x04 b;
  '(locked, b) ← read_tlv 0x01 b; locked ← bool_of locked;
  '(state, b) ← read_tlv 0x0a b; state ← vbs_of state;
  '(hash, b) ← read_tlv 0x04 b;
  match b with [] => Some (mk_rot key locked state hash) | _ => None end.

Definition st_of {A} (r : bytes → option (A * bytes)) : stM bytes Error A := λ b,
  match r b with Some (a, rest) => (Ok a, rest) | None => (Err Der, b) end.
#[export] Instance der : DerCrate := {|
  length_max := LENGTH_MAX;
  length_enc := {|
    encoded_len n := if decide (0 ≤ n ≤ LENGTH_MAX) then Ok (length_size n) else Err Der;
    encode n := modify (λ out, out ++ length_octets n) |};
  int_enc := tlv_enc 0x02 int_body;
  null_enc := tlv_enc 0x05 null_body;
  octet_string_new b := if decide (len b ≤ LENGTH_MAX) then Ok tt else Err Der;
  octets_enc := tlv_enc 0x04 Some;
  set_insert_ordered s v :=
    if match last s with Some w => set_lt w v | None => true end then Ok (s ++ [v]) else Err Der;
  set_enc := tlv_enc 0x31 set_body;
  rot_enc := tlv_enc 0x30 rot_body;
  length_decode := st_of read_length;
  tlv_bytes := st_of read_any;
  i32_from_der := from_der 0x02 (int_in (- 2 ^ 31) (2 ^ 31 - 1));
  u32_from_der := from_der 0x02 (int_in 0 (2 ^ 32 - 1));
  i64_from_der := from_der 0x02 (int_in (- 2 ^ 63) (2 ^ 63 - 1));
  u64_from_der := from_der 0x02 (int_in 0 (2 ^ 64 - 1));
  null_from_der := from_der 0x05 null_of;
  octets_from_der := from_der 0x04 Some;
  set_from_der := from_der 0x31 set_of;
  rot_from_der := from_der 0x30 rot_of
|}.

(** ** The laws hold *)

Lemma len_small_tlv body : len body ≤ 127 → tlv_size body = 2 + len body.
Proof. intros Hl. unfold tlv_size, length_size, length_ext. rewrite decide_True by lia. lia. Qed.
Lemma int_enc_len z : is_i64 z → ∃ n, encoded_len int_enc z = Ok n.
Proof.
  intros Hz. cbn. unfold int_body. rewrite decide_True by done. cbn [ok_or mbind res_bind].
  pose proof (len_int_octets z Hz) as Hl. rewrite len_small_tlv by lia. rewrite decide_True by (unfold LENGTH_MAX; lia). by eexists.
Qed.
Lemma int_roundtrip lo hi z : is_i64 z → lo ≤ z ≤ hi → from_der 0x02 (int_in lo hi) (der_bytes int_enc z) = Ok z.
Proof.
  intros Hz Hr. destruct (int_enc_len z Hz) as [n Hn]. eapply from_der_enc; [by split; cbn|exact Hn|].
  intros b Hb _. unfold int_body in Hb. case_decide; [|done]. injection Hb as <-. unfold int_in.
  rewrite octets_int_octets by done. cbn. by rewrite decide_True.
Qed.

Lemma set_lt_nat w v : 0 ≤ w → 0 ≤ v → is_i64 w → is_i64 v → set_lt w v = true ↔ w < v.
Proof.
  intros Hw Hv Hiw Hiv. unfold set_lt. rewrite orb_true_iff, andb_true_iff, !bool_decide_eq_true.
  pose proof (int_size_mono w v Hw Hv Hiw). pose proof (int_size_mono v w Hv Hw Hiv).
  assert (∀ z, 0 ≤ z → is_i64 z → from_be_bytes (int_octets z) = z) as Hval.
  { intros z Hz Hi. destruct (int_size_fits z Hi) as [Hs Hn]. apply from_be_small.
    unfold is_signed in Hs. assert (2 ^ (8 * Z.of_nat (int_size z) - 1) ≤ 2 ^ (8 * Z.of_nat (int_size z)))
      by (apply Z.pow_le_mono_r; lia). lia. }
  rewrite !Hval by done. destruct (Nat.lt_trichotomy (int_size w) (int_size v)) as [|[|]]; lia.
Qed.
Lemma set_ascending_sorted s : Forall (λ x, 0 ≤ x ∧ is_i64 x) s → StronglySorted Z.lt s → set_ascending s = true.
Proof.
  intros Hn Hs. induction Hs as [|x s Hs IH Hx]; [done|]. destruct s as [|y s]; [done|].
  change (set_ascending (x :: y :: s)) with (set_lt x y && set_ascending (y :: s)).
  inversion_clear Hn as [|?? [Hx0 Hx1] Hn']. rewrite IH by done. inversion_clear Hn' as [|?? [Hy0 Hy1] _].
  inversion_clear Hx as [|?? Hxy _]. by rewrite (proj2 (set_lt_nat x y Hx0 Hy0 Hx1 Hy1)).
Qed.
Lemma set_body_cons z s :
  set_body (z :: s) = o ← int_body z; b ← set_body s; Some (tlv 0x02 o ++ b).
Proof. unfold set_body. cbn -[tlv]. destruct (int_body z); [|done]. by destruct (mapM _ s). Qed.
Lemma read_ints_body s b fuel : Forall is_i32 s → set_body s = Some b → (length b ≤ fuel)%nat → read_ints fuel b = Some s.
Proof.
  revert b fuel. induction s as [|z s IH]; intros b fuel Hs Hb Hf.
  { cbn in Hb. injection Hb as <-. by destruct fuel. }
  inversion_clear Hs as [|?? Hz Hs']. assert (is_i64 z) as Hi by range_lia.
  rewrite set_body_cons in Hb. unfold int_body in Hb. rewrite decide_True in Hb by done. cbn [mbind option_bind] in Hb.
  destruct (set_body s) as [bs|] eqn:Hm; [|done]. cbn [mbind option_bind] in Hb. apply (inj Some) in Hb as <-.
  pose proof (len_int_octets z Hi) as Hl. rewrite length_app in Hf.
  assert (0 < length (tlv 0x02 (int_octets z)))%nat by (cbn; lia).
  destruct fuel as [|fuel]; [lia|]. destruct (tlv 0x02 (int_octets z) ++ bs) as [|x0 b0] eqn:Hb; [done|].
  cbn [read_ints]. rewrite <- Hb.
  rewrite read_tlv_app; [|by split; cbn|unfold LENGTH_MAX; lia].
  cbn [mbind option_bind]. unfold int_in. rewrite octets_int_octets by done. cbn [mbind option_bind].
  rewrite decide_True by range_lia. cbn [mbind option_bind]. rewrite (IH bs) by (done || lia). done.
Qed.

Lemma bool_of_octets b : bool_of (bool_octets b) = Some b.
Proof. by destruct b. Qed.
Lemma vbs_of_octets v : vbs_of (int_octets (vbs_num v)) = Some v.
Proof. by destruct v. Qed.
Lemma len_tlv_app tag b rest : len (tlv tag b ++ rest) ≤ LENGTH_MAX → len b ≤ LENGTH_MAX.
Proof. rewrite len_app, len_tlv. pose proof (len_nonneg rest). unfold tlv_size, length_size. lia. Qed.
Lemma rot_of_body r b : rot_body r = Some b → tlv_size b ≤ LENGTH_MAX → rot_of b = Some r.
Proof.
  intros Hb Hl%tlv_size_len. unfold rot_body in Hb. apply (inj Some) in Hb as <-. unfold rot_of.
  destruct r as [key locked state hash]. cbn [rot_verified_boot_key rot_device_locked rot_verified_boot_state rot_verified_boot_hash] in *.
  rewrite read_tlv_app; [|by split; cbn|by eapply len_tlv_app]. cbn [mbind option_bind].
  rewrite read_tlv_app; [|by split; cbn|by destruct locked]. cbn [mbind option_bind]. rewrite bool_of_octets. cbn [mbind option_bind].
  rewrite read_tlv_app; [|by split; cbn|by destruct state]. cbn [mbind option_bind]. rewrite vbs_of_octets. cbn [mbind option_bind].
  rewrite <- (app_nil_r (tlv 0x04 hash)). rewrite read_tlv_app; [done|by split; cbn|].
  apply (len_tlv_app 0x04 _ []). rewrite !len_app in Hl. pose proof (len_nonneg (tlv 0x04 key)).
  pose proof (len_nonneg (tlv 0x01 (bool_octets locked))). pose proof (len_nonneg (tlv 0x0a (int_octets (vbs_num state)))).
  rewrite app_nil_r. lia.
Qed.

Lemma tlv_ok_enc {A} tag (body : A → option bytes) : tag_ok tag → tlv_ok (tlv_enc tag body).
Proof.
  intros Ht a n rest Hn. change (st_of read_any (der_bytes (tlv_enc tag body) a ++ rest) = (Ok (der_bytes (tlv_enc tag body) a), rest)).
  unfold st_of. by rewrite (read_any_enc tag body a n rest Ht Hn).
Qed.
#[export] Instance der_laws : DerLaws.
Proof.
  split; try apply tlv_enc_ok; try (apply tlv_ok_enc; by split; cbn).
  - intros n k Hk. cbn in Hk. case_decide; [|done]. injection Hk as <-. eexists. split; [done|apply length_length_octets].
  - intros n k rest Hk. cbn in Hk. case_decide; [|done].
    change (st_of read_length (length_octets n ++ rest) = (Ok n, rest)). unfold st_of. by rewrite read_length_octets.
  - intros z Hz. apply int_roundtrip; range_lia.
  - intros z Hz. apply int_roundtrip; range_lia.
  - intros z Hz. apply int_roundtrip; range_lia.
  - intros z Hz Hi. apply int_roundtrip; range_lia.
  - reflexivity.
  - intros b n Hn. eapply from_der_enc; [by split; cbn|exact Hn|]. by intros ? [= <-].
  - intros s v s' Hs [Hv Hvi] H. cbn in H. destruct (last s) as [w|] eqn:Hw; [|by injection H as <-].
    destruct (set_lt w v) eqn:Hlt; [|done]. injection H as <-. split; [done|]. intros w' [= <-].
    apply last_Some in Hw as [s0 ->]. apply Forall_app in Hs as [_ Hw]. inversion_clear Hw as [|?? [Hw0 Hw1] _].
    apply set_lt_nat; (done || range_lia).
  - intros s n Hs Hsort Hn. eapply from_der_enc; [by split; cbn|exact Hn|]. intros b Hb _. unfold set_of.
    rewrite (read_ints_body s b) by (done || (eapply Forall_impl; [exact Hs|by intros ? []])). cbn [mbind option_bind].
    rewrite set_ascending_sorted; [done|eapply Forall_impl; [exact Hs|]; intros x []; split; [done|range_lia]|done].
  - intros r n Hn. eapply from_der_enc; [by split; cbn|exact Hn|]. apply rot_of_body.
Qed.

(** ** Sequences *)

(** What a field adds: its length, and how it is written. *)
Definition part {B} (e : Encode B) (b : B) : Result Z * stM bytes Error unit := (encoded_len e b, encode e b).
Fixpoint parts_len (l : list (Result Z * stM bytes Error unit)) : Result Z :=
  match l with [] => Ok 0 | p :: l' => n ← p.1; m ← parts_len l'; Ok (n + m) end.
Fixpoint parts_encode (l : list (Result Z * stM bytes Error unit)) : stM bytes Error unit :=
  match l with [] => mret tt | p :: l' => _ ← p.2; parts_encode l' end.
Definition sequence_header : Encode Z := {|
  encoded_len n := if decide (0 ≤ n ≤ LENGTH_MAX) then Ok (1 + length_size n) else Err Der;
  encode n := modify (λ out, out ++ u8_of 0x30 :: length_octets n) |}.
Definition seq_enc {A} (parts : A → list (Result Z * stM bytes Error unit)) : Encode A := {|
  encoded_len a := n ← parts_len (parts a); h ← encoded_len sequence_header n;
                   if decide (h + n ≤ LENGTH_MAX) then Ok (h + n) else Err Der;
  encode a := n ← liftr (parts_len (parts a)); _ ← encode sequence_header n; parts_encode (parts a) |}.
Definition enumerated_enc : Encode Z := tlv_enc 0x0a int_body.

Definition level_num (l : SecurityLevelAsn1) : Z :=
  match l with Asn1_Software => 0 | Asn1_TrustedEnvironment => 1 | Asn1_Strongbox => 2 end.
Definition level_of (b : bytes) : option SecurityLevelAsn1 :=
  z ← octets_int b;
  match z with 0 => Some Asn1_Software | 1 => Some Asn1_TrustedEnvironment | 2 => Some Asn1_Strongbox | _ => None end.
Definition extension_parts (authz : Encode AuthorizationList) (e : AttestationExtension) : list (Result Z * stM bytes Error unit) :=
  [part int_enc (ae_attestation_version e); part enumerated_enc (level_num (ae_attestation_security_level e));
   part int_enc (ae_keymint_version e); part enumerated_enc (level_num (ae_keymint_security_level e));
   part octets_enc (ae_attestation_challenge e); part octets_enc (ae_unique_id e);
   part authz (ae_sw_enforced e); part authz (ae_hw_enforced e)].

(** A structure with its own reader of the contents, at the start of the input. *)
Definition read_with {A} (dec : Z → stM bytes Error A) (b : bytes) : option (A * bytes) :=
  '(body, rest) ← read_tlv 0x30 b;
  match dec (len body) body with (Ok a, []) => Some (a, rest) | _ => None end.
Definition authz_from_der (b : bytes) : Result AuthorizationList :=
  match read_with decode_value b with Some (l, []) => Ok l | _ => Err Der end.
Definition extension_of (b : bytes) : option AttestationExtension :=
  '(x, b) ← read_tlv 0x02 b; av ← int_in (- 2 ^ 31) (2 ^ 31 - 1) x;
  '(x, b) ← read_tlv 0x0a b; asl ← level_of x;
  '(x, b) ← read_tlv 0x02 b; kv ← int_in (- 2 ^ 31) (2 ^ 31 - 1) x;
  '(x, b) ← read_tlv 0x0a b; ksl ← level_of x;
  '(challenge, b) ← read_tlv 0x04 b;
  '(id, b) ← read_tlv 0x04 b;
  '(sw, b) ← read_with decode_value b;
  '(hw, b) ← read_with decode_value b;
  match b with [] => Some (mk_attestation_extension av asl kv ksl challenge id sw hw) | _ => None end.

Definition description_of (dec : Z → stM bytes Error AuthorizationList) (b : bytes) : option KeyDescription :=
  '(x, b) ← read_tlv 0x02 b; fmt ← int_in (- 2 ^ 31) (2 ^ 31 - 1) x;
  '(ps, b) ← read_with dec b;
  match b with [] => Some (mk_key_description fmt ps) | _ => None end.
Definition wrapper_of (dec : Z → stM bytes Error AuthorizationList) (b : bytes) : option SecureKeyWrapper :=
  '(x, b) ← read_tlv 0x02 b; ver ← int_in (- 2 ^ 31) (2 ^ 31 - 1) x;
  '(key, b) ← read_tlv 0x04 b;
  '(iv, b) ← read_tlv 0x04 b;
  '(x, b) ← read_tlv 0x30 b; desc ← description_of dec x;
  '(ekey, b) ← read_tlv 0x04 b;
  '(tag, b) ← read_tlv 0x04 b;
  match b with [] => Some (mk_wrapper ver key iv desc ekey tag) | _ => None end.
#[export] Instance wrapper_codecs : WrapperCodecs := {|
  wrapper_from_der dec := from_der 0x30 (wrapper_of dec);
  key_description_enc authz := seq_enc (λ d, [part int_enc (kd_key_format d); part authz (kd_key_params d)])
|}.

(** ** Parsing is unambiguous *)

Lemma take_exact_inv n b x rest : take_exact n b = Some (x, rest) → b = x ++ rest ∧ length x = n.
Proof.
  unfold take_exact. case_decide; [|done]. intros [= <- <-]. split; [by rewrite take_drop|]. rewrite length_take. lia.
Qed.
Lemma to_from_be_bytes b : to_be_bytes (length b) (from_be_bytes b) = b.
Proof.
  unfold to_be_bytes, from_be_bytes. rewrite (split_le_combine' (reverse b)) by apply length_reverse.
  apply reverse_involutive.
Qed.
Lemma from_be_bytes_nonneg b : 0 ≤ from_be_bytes b.
Proof. unfold from_be_bytes. pose proof (le_combine_bound (reverse b)). lia. Qed.
Lemma read_length_inv b n rest : read_length b = Some (n, rest) → b = length_octets n ++ rest ∧ 0 ≤ n ≤ LENGTH_MAX.
Proof.
  destruct b as [|x b]; [done|]. cbn [read_length]. pose proof (byte.unsigned_range x) as Hx. fold (u8_val x) in Hx.
  case_decide as Hs.
  - intros [= <- <-]. split; [|unfold LENGTH_MAX; lia]. unfold length_octets, length_ext.
    rewrite decide_True by lia. by rewrite u8_of_val.
  - cbv zeta. case_decide as Hk; [|done]. destruct (take_exact _ b) as [[d r]|] eqn:Ht; [|done]. cbn [mbind option_bind].
    case_decide as Hn; [|done]. intros [= <- <-]. apply take_exact_inv in Ht as [-> Hl]. destruct Hn as [He Hm].
    pose proof (from_be_bytes_nonneg d). split; [|lia]. unfold length_octets. rewrite He.
    destruct (Z.to_nat (u8_val x - 0x80)) as [|k] eqn:Hkk; [lia|]. rewrite <- Hl at 2. rewrite to_from_be_bytes. cbn [app].
    f_equal. rewrite <- (u8_of_val x). f_equal. lia.
Qed.
Lemma read_tlv_inv tag b body rest :
  read_tlv tag b = Some (body, rest) → b = tlv tag body ++ rest ∧ len body ≤ LENGTH_MAX.
Proof.
  destruct b as [|t b]; [done|]. cbn [read_tlv]. case_decide as Ht; [|done].
  destruct (read_length b) as [[n r]|] eqn:Hr; [|done]. cbn [mbind option_bind]. intros Hx.
  apply read_length_inv in Hr as [-> Hn]. apply take_exact_inv in Hx as [-> Hl].
  assert (n = len body) as -> by (unfold len; lia). unfold tlv. rewrite <- Ht, u8_of_val. split; [|lia].
  cbn [app]. by rewrite <- app_assoc.
Qed.

(** ** Signatures *)

Import SampleEc(strip, stripped, strip_zeros, strip_padded).
(** A natural number without leading zeros, as the contents of an INTEGER. *)
Definition uint_octets (u : bytes) : bytes :=
  match u with x :: _ => if decide (u8_val x < 0x80) then u else u8_of 0 :: u | [] => [] end.
Definition uint_of (c : bytes) : option bytes :=
  let u := strip c in if decide (c ≠ [] ∧ uint_octets u = c) then Some u else None.
Definition sig_to_der (rs : bytes * bytes) : option bytes :=
  let b := tlv 0x02 (uint_octets rs.1) ++ tlv 0x02 (uint_octets rs.2) in
  if stripped rs.1 && stripped rs.2 && bool_decide (len b ≤ LENGTH_MAX) then Some (tlv 0x30 b) else None.
Definition sig_from_der (b : bytes) : option (bytes * bytes) :=
  '(body, rest) ← read_tlv 0x30 b;
  '(r, s) ← read_tlv 0x02 body;
  '(s, rest') ← read_tlv 0x02 s;
  match rest, rest' with [], [] => r ← uint_of r; s ← uint_of s; Some (r, s) | _, _ => None end.
#[export] Instance nist : NistSignatures :=
  {| uint_new b := Some (strip b); nist_sig_from_der := sig_from_der; nist_sig_to_der := sig_to_der |}.

Lemma stripped_true u : stripped u = true ↔ u ≠ [] ∧ strip u = u.
Proof. apply bool_decide_eq_true. Qed.
Lemma strip_uint_octets u : stripped u = true → strip (uint_octets u) = u ∧ uint_octets u ≠ [].
Proof.
  intros [Hn Hs]%stripped_true. destruct u as [|x u]; [done|]. unfold uint_octets. case_decide; [done|].
  split; [|done]. rewrite <- Hs at 2. apply (strip_padded 1). done.
Qed.
Lemma uint_of_octets u : stripped u = true → uint_of (uint_octets u) = Some u.
Proof. intros Hs. destruct (strip_uint_octets u Hs) as [He Hn]. unfold uint_of. rewrite He. by rewrite decide_True. Qed.
Lemma strip_strip b : strip (strip b) = strip b.
Proof.
  induction b as [|x b IH]; [done|]. cbn [strip]. case_decide as Hx; [done|]. cbn [strip]. by rewrite decide_False.
Qed.
Lemma strip_nonempty b : b ≠ [] → strip b ≠ [].
Proof. induction b as [|x b IH]; [done|]. intros _. cbn [strip]. case_decide as Hx; [apply IH, Hx|done]. Qed.
Lemma uint_of_inv c u : uint_of c = Some u → uint_octets u = c ∧ stripped u = true.
Proof.
  unfold uint_of. cbv zeta. case_decide as Hc; [|done]. intros [= <-]. split; [apply Hc|]. apply stripped_true.
  split; [apply strip_nonempty, Hc|apply strip_strip].
Qed.
#[export] Instance nist_laws : NistSignaturesLaws.
Proof.
  split.
  - intros b u [= <-]. apply strip_zeros.
  - intros r s b H. cbn in H. unfold sig_to_der in H. cbn [fst snd] in H.
    destruct (stripped r) eqn:Hr; [|done]. destruct (stripped s) eqn:Hs; [|done].
    case_bool_decide as Hl; [|done]. cbn [andb] in H. apply (inj Some) in H as <-.
    match goal with |- nist_sig_from_der ?x = _ => change (nist_sig_from_der x) with (sig_from_der x) end. unfold sig_from_der.
    rewrite <- (app_nil_r (tlv 0x30 _)), read_tlv_app by (done || by split; cbn). cbn [mbind option_bind].
    rewrite read_tlv_app; [|by split; cbn|by eapply len_tlv_app]. cbn [mbind option_bind].
    rewrite <- (app_nil_r (tlv 0x02 (uint_octets s))), read_tlv_app; [|by split; cbn|].
    { cbn [mbind option_bind]. by rewrite !uint_of_octets. }
    apply (len_tlv_app 0x02 _ []). rewrite app_nil_r. rewrite len_app in Hl. pose proof (len_nonneg (tlv 0x02 (uint_octets r))). lia.
  - intros b r s H. cbn in H. unfold sig_from_der in H.
    destruct (read_tlv 0x30 b) as [[body rest]|] eqn:Hb; [|done]. cbn [mbind option_bind] in H.
    destruct (read_tlv 0x02 body) as [[rb sb]|] eqn:Hr; [|done]. cbn [mbind option_bind] in H.
    destruct (read_tlv 0x02 sb) as [[sb' rest']|] eqn:Hs; [|done]. cbn [mbind option_bind] in H.
    destruct rest as [|], rest' as [|]; try done.
    destruct (uint_of rb) as [r'|] eqn:Hur; [|done]. destruct (uint_of sb') as [s'|] eqn:Hus; [|done].
    cbn in H. injection H as -> ->. apply uint_of_inv in Hur as [<- Hsr], Hus as [<- Hss].
    apply read_tlv_inv in Hb as [-> Hl], Hr as [-> _], Hs as [-> _]. rewrite !app_nil_r in *.
    match goal with |- nist_sig_to_der ?x = _ ∧ _ => change (nist_sig_to_der x) with (sig_to_der x) end.
    unfold sig_to_der. cbn [fst snd]. rewrite Hsr, Hss, bool_decide_eq_true_2 by done.
    apply stripped_true in Hsr as [Hrn Hsr], Hss as [Hsn Hss]. cbn [uint_new nist]. by rewrite Hsr, Hss.
  - intros k u [Hn H]. cbn in *. injection H as H. by rewrite strip_padded, H.
Qed.

(** ** Private keys (RFC 5208 and RFC 5915) *)

(** Base-128 digits, most significant first; the last one has its high bit clear. *)
Fixpoint oid_arcs (acc : Z) (b : bytes) : option (list Z) :=
  match b with
  | [] => if decide (acc = 0) then Some [] else None
  | x :: b' =>
    let acc := acc * 128 + u8_val x mod 128 in
    if decide (0x80 ≤ u8_val x) then oid_arcs acc b' else cons acc <$> oid_arcs 0 b'
  end.
Definition show_arc (z : Z) : string := pretty.pretty (Z.to_N z).
Definition oid_of (b : bytes) : option Oid :=
  match b with
  | x :: b' =>
    let first := Z.min (u8_val x / 40) 2 in
    arcs ← oid_arcs 0 b';
    Some (String.concat "." (show_arc <$> first :: u8_val x - 40 * first :: arcs))
  | [] => None
  end.

(** An optional object, told by its tag. *)
Definition read_opt (tag : Z) (b : bytes) : option (option bytes * bytes) :=
  match b with
  | t :: _ => if decide (u8_val t = tag) then '(x, rest) ← read_tlv tag b; Some (Some x, rest) else Some (None, b)
  | [] => Some (None, [])
  end.
Definition named_curve (b : bytes) : option Oid :=
  '(x, rest) ← read_tlv 0x06 b; match rest with [] => oid_of x | _ => None end.
Definition sec1_of (b : bytes) : option (option (option Oid)) :=
  '(v, b) ← read_tlv 0x02 b; ver ← int_in 1 1 v;
  '(key, b) ← read_tlv 0x04 b;
  '(ps, b) ← read_opt 0xa0 b;
  '(pk, b) ← read_opt 0xa1 b;
  match b with [] => Some (match ps with Some x => Some (named_curve x) | None => None end) | _ => None end.
(** The parameters of an algorithm are kept as they are. *)
Definition pkcs8_of (b : bytes) : option (Oid * option (Oid + bytes) * bytes) :=
  '(v, b) ← read_tlv 0x02 b; ver ← int_in 0 0 v;
  '(alg, b) ← read_tlv 0x30 b;
  '(oid, ps) ← read_tlv 0x06 alg; oid ← oid_of oid;
  '(key, b) ← read_tlv 0x04 b;
  match b with [] => Some (oid, if decide (ps = []) then None else Some (inr ps), key) | _ => None end.
#[export] Instance pkcs8 : Pkcs8 := {|
  any := Oid + bytes;
  any_from_oid := inl;
  any_decode_as_oid a := match a with inl o => Some o | inr b => named_curve b end;
  pkcs8_parse b := match read_tlv 0x30 b with Some (x, []) => pkcs8_of x | _ => None end;
  sec1_parse := from_der 0x30 sec1_of
|}.
End X690.
