(* ===== verification/Fuzz.v ===== *)
(** * The fuzz targets ([wire/fuzz], [common/fuzz], [ta/fuzz])

    Four fuzz targets look for data on which a parser of untrusted input crashes: requests from the
    HAL service, requests of the older protocol, key blobs, and wrapped keys with their
    authorization lists.  No such data exists: the targets come to their end on every input, and what
    the parsers accept is in the ranges of its types. *)

From S2P Require Import Prelude Wire Codec CborRef WireCodec WireSafe LegacyMsg Asn1 Cert Keyblob Keys DerRef.

(** ** The targets *)

(** [let _ = ..;]: the result is dropped. *)
Definition dropped {E A} (r : res E A) : res Empty_set unit :=
  match r with Panic => Panic | _ => Ok tt end.

Section targets.
Context `{T : Target} `{C : Ciborium} `{K : Coset} `{D : DerCrate} `{WC : !WrapperCodecs}.
Definition fuzz_message (data : bytes) : res Empty_set unit := dropped (from_slice PerformOpReq_codec data).
Definition fuzz_legacy_message (data : bytes) : res Empty_set unit := dropped (deserialize_trusty_req data).
Definition fuzz_keyblob (data : bytes) : res Empty_set unit := dropped (EncryptedKeyBlob_new data).
Definition fuzz_keydescription (data : bytes) : res Empty_set unit := dropped (wrapper_from_der decode_value data).
End targets.

Lemma dropped_Ok {E A} (wf : A → Prop) (r : res E A) : sound wf r → dropped r = Ok tt.
Proof. by destruct r. Qed.
Lemma sound_map_err {E E' A} (wf : A → Prop) (f : E → E') (r : res E A) : sound wf r → sound wf (map_err f r).
Proof. by destruct r. Qed.

(** ** Key blobs *)

(** Decoding of the encrypted part, which is the [coset] crate's, does not panic. *)
Class CosetSafe `{K : Coset} : Prop := { cose_decode_sound : codec_sound cose_codec (λ _, True) }.

(** What parsing establishes of a blob. *)
Definition parsed_blob `{Coset} (b : EncryptedKeyBlob) : Prop :=
  let 'V1 b := b in
  Forall KeyCharacteristics_wf (ekb_characteristics b) ∧ len (ekb_key_derivation_input b) = 32 ∧
  from_option is_u32 True (ekb_secure_deletion_slot b).

Section keyblob.
Context `{CS : CosetSafe}.
Lemma KeyCharacteristics_sound : codec_sound KeyCharacteristics_codec KeyCharacteristics_wf.
Proof. solve_sound. Qed.
Lemma CoseEncrypt0_sound : codec_sound CoseEncrypt0_codec (λ _, True).
Proof.
  intros v. destruct v; cbn; auto with sound. case_decide; [|done]. apply cose_decode_sound.
Qed.
Lemma slot_sound : codec_sound (derive_newtype u32_codec id id) is_u32.
Proof. intros v. cbn. eapply sound_bind; [apply u32_sound|]. by intros. Qed.
Lemma EncryptedKeyBlobV1_sound : codec_sound EncryptedKeyBlobV1_codec (λ b, parsed_blob (V1 b)).
Proof.
  eapply derive_struct_sound.
  - apply field_sound; [apply vec_sound, KeyCharacteristics_sound|].
    apply field_sound; [apply array_sound|]. apply field_sound; [apply bytes_sound|].
    apply field_sound; [apply CoseEncrypt0_sound|].
    apply field_sound; [apply option_sound, slot_sound|apply no_fields_sound].
  - intros (a & b & c & d & e & ?) (Ha & Hb & _ & _ & He & _). done.
Qed.
Lemma EncryptedKeyBlob_sound : codec_sound EncryptedKeyBlob_codec parsed_blob.
Proof.
  intros v. destruct v as [| | | | | | |[|v0 [|v1 [|]]]|]; cbn [from_cbor_value EncryptedKeyBlob_codec]; auto with sound; try done.
  eapply (sound_bind (λ _, True)).
  - destruct v0; cbn; auto with sound. by repeat case_decide.
  - intros _ _. eapply sound_bind; [apply EncryptedKeyBlobV1_sound|]. by intros.
Qed.
Lemma EncryptedKeyBlob_new_sound `{Ciborium} data : sound parsed_blob (EncryptedKeyBlob_new data).
Proof.
  apply sound_map_err. unfold from_slice, read_to_value. destruct (from_reader data) as [[v [|]]|]; cbn; try done.
  apply EncryptedKeyBlob_sound.
Qed.
End keyblob.

(** ** Wrapped keys *)

(** Stateful decoders. *)
Definition sound_st {S E A} (wf : A → Prop) (c : stM S E A) : Prop := ∀ s, sound wf (c s).1.
Lemma sound_st_bind {S E A B} (wf : A → Prop) (wf' : B → Prop) (c : stM S E A) (f : A → stM S E B) :
  sound_st wf c → (∀ a, wf a → sound_st wf' (f a)) → sound_st wf' (c ≫= f).
Proof.
  intros Hc Hf s. unfold mbind, stM_bind. specialize (Hc s).
  destruct (c s) as [[a|e|] s']; cbn in *; [by apply Hf|done..].
Qed.
Lemma sound_st_ret {S E A} (wf : A → Prop) (a : A) : wf a → sound_st wf (mret a : stM S E A).
Proof. by intros Ha s. Qed.
Lemma sound_st_liftr {S E A} (wf : A → Prop) (r : res E A) : sound wf r → sound_st (S:=S) wf (liftr r).
Proof. by intros Hr s. Qed.
Lemma sound_st_get {S E} : sound_st (E:=E) (λ _, True) (get_st (S:=S)).
Proof. by intros s. Qed.
Lemma sound_reject {E} b (e : E) : sound (λ _, True) (reject_if b e).
Proof. by destruct b. Qed.
Lemma sound_ok_or {E A} (o : option A) (e : E) : sound (λ _, True) (ok_or o e).
Proof. by destruct o. Qed.
#[export] Hint Resolve sound_st_liftr sound_st_get sound_reject sound_ok_or : sound.

(** The decoders of the [der] crate and those derived with it do not panic, and numbers are in the
    range that is asked for. *)
Class DerSafe `{D : DerCrate} `{WC : !WrapperCodecs} : Prop := {
  length_decode_sound : sound_st (λ _, True) length_decode;
  tlv_bytes_sound : sound_st (λ _, True) tlv_bytes;
  i32_from_der_sound b : sound is_i32 (i32_from_der b);
  u32_from_der_sound b : sound is_u32 (u32_from_der b);
  i64_from_der_sound b : sound is_i64 (i64_from_der b);
  u64_from_der_sound b : sound is_u64 (u64_from_der b);
  null_from_der_sound b : sound (λ _, True) (null_from_der b);
  octets_from_der_sound b : sound (λ _, True) (octets_from_der b);
  set_from_der_sound b : sound (λ _, True) (set_from_der b);
  wrapper_from_der_sound dec P data : (∀ n, sound_st P (dec n)) →
    sound (λ w, P (kd_key_params (skw_key_description w))) (wrapper_from_der dec data)
}.

Definition authz_wf (l : AuthorizationList) : Prop :=
  Forall kp_wf (al_auths l) ∧ Forall kp_wf (al_keygen_params l) ∧ Forall kp_wf (al_additional_attestation_info l).

Section wrapper.
Context `{DS : DerSafe}.
Lemma collect_enums_sound {A} `{REnum A} (mk : A → KeyParam) vals :
  (∀ v, kp_wf (mk v)) → sound (Forall kp_wf) (collect_enums mk vals).
Proof.
  intros Hmk. induction vals as [|val vals IH]; cbn; [done|].
  eapply sound_bind; [apply sound_ok_or|]. intros v _. eapply sound_bind; [exact IH|]. intros ps Hps. by constructor.
Qed.
Lemma set_field_sound {A} `{REnum A} (mk : A → KeyParam) tlv :
  (∀ v, kp_wf (mk v)) → sound (Forall kp_wf) (key_params_from_asn1_set_of_integer mk tlv).
Proof. intros Hmk. eapply sound_bind; [apply set_from_der_sound|]. intros vals _. by apply collect_enums_sound. Qed.
Lemma enum_field_sound {A} `{REnum A} (mk : A → KeyParam) tlv :
  (∀ v, kp_wf (mk v)) → sound (Forall kp_wf) (key_param_from_asn1_enum mk tlv).
Proof.
  intros Hmk. eapply sound_bind; [apply i32_from_der_sound|]. intros val _.
  eapply sound_bind; [apply sound_ok_or|]. intros v _. by repeat constructor.
Qed.
Lemma integer_field_sound P (mk : Z → KeyParam) dec tlv :
  (∀ b, sound P (dec b)) → (∀ v, P v → kp_wf (mk v)) → sound (Forall kp_wf) (key_param_from_asn1_integer mk dec tlv).
Proof. intros Hdec Hmk. eapply sound_bind; [apply Hdec|]. intros v Hv. repeat constructor. by apply Hmk. Qed.
Lemma null_field_sound flag tlv : kp_wf flag → sound (Forall kp_wf) (key_param_from_asn1_null flag tlv).
Proof. intros Hf. eapply sound_bind; [apply null_from_der_sound|]. intros _ _. by repeat constructor. Qed.
Lemma octets_field_sound (mk : bytes → KeyParam) tlv :
  (∀ v, kp_wf (mk v)) → sound (Forall kp_wf) (key_param_from_asn1_octet_string mk tlv).
Proof. intros Hmk. eapply sound_bind; [apply octets_from_der_sound|]. intros v _. by repeat constructor. Qed.
Lemma decode_value_from_bytes_sound t tlv : sound (Forall kp_wf) (decode_value_from_bytes t tlv).
Proof.
  destruct t; cbn [decode_value_from_bytes]; try done;
    first [ by apply set_field_sound | by apply enum_field_sound | by apply null_field_sound | by apply octets_field_sound
          | by apply (integer_field_sound is_u32 _ _ _ u32_from_der_sound)
          | by apply (integer_field_sound is_u64 _ _ _ u64_from_der_sound)
          | by apply (integer_field_sound is_i64 _ _ _ i64_from_der_sound)
          | by repeat constructor ].
Qed.

Lemma read_byte_sound : sound_st (λ _, True) read_byte.
Proof. by intros []. Qed.
Lemma decode_tag_sound : sound_st (λ _, True) decode_tag_from_bytes.
Proof.
  unfold decode_tag_from_bytes. eapply sound_st_bind; [apply sound_st_get|]. intros [|b data] _; [by apply sound_st_ret|].
  eapply sound_st_bind; [apply read_byte_sound|]. intros b1 _. eapply (sound_st_bind (λ _, True)).
  - case_decide; [|by apply sound_st_ret]. eapply sound_st_bind; [apply read_byte_sound|]. intros b2 _.
    case_decide; [|by apply sound_st_ret]. eapply sound_st_bind; [apply read_byte_sound|]. intros b3 _. by apply sound_st_ret.
  - intros raw _. case_decide; [by apply sound_st_liftr|by apply sound_st_ret].
Qed.
Lemma decode_opt_field_sound read expected :
  sound_st (λ p, Forall kp_wf p.2) (decode_opt_field read expected).
Proof.
  unfold decode_opt_field. eapply (sound_st_bind (λ _, True)); [destruct read; [by apply sound_st_ret|apply decode_tag_sound]|].
  intros [t|] _; [|by apply sound_st_ret]. case_decide; [|by apply sound_st_ret].
  eapply sound_st_bind; [apply length_decode_sound|]. intros n _. eapply sound_st_bind; [apply sound_st_get|]. intros data _.
  eapply sound_st_bind; [apply sound_st_liftr, sound_reject|]. intros _ _.
  eapply sound_st_bind; [apply tlv_bytes_sound|]. intros tlv _.
  eapply sound_st_bind; [apply sound_st_liftr, decode_value_from_bytes_sound|]. intros ps Hps. by apply sound_st_ret.
Qed.
Lemma process_tags_sound tags : ∀ read ps, Forall kp_wf ps →
  sound_st (Forall kp_wf) (process_authz_list_tags tags read ps).
Proof.
  induction tags as [|t tags IH]; intros read ps Hps; cbn [process_authz_list_tags].
  - destruct read; [by apply sound_st_liftr|by apply sound_st_ret].
  - eapply sound_st_bind; [apply decode_opt_field_sound|]. intros [read' ps'] Hps'. apply IH. by apply Forall_app.
Qed.
Lemma add_key_param_wf l p : authz_wf l → kp_wf p → authz_wf (add_key_param l p).
Proof.
  destruct l as [auths keygen rot app additional]. intros (H1 & H2 & H3) Hp. unfold add_key_param.
  destruct p; cbn [is_attestation_id]; unfold authz_wf; cbn; rewrite ?Forall_app, ?Forall_singleton; done.
Qed.
Lemma new_from_key_params_wf ps : Forall kp_wf ps → authz_wf (new_from_key_params ps).
Proof.
  unfold new_from_key_params. assert (authz_wf (mk_authz [] [] None None [])) as Hl by done.
  revert Hl. generalize (mk_authz [] [] None None []). induction ps as [|p ps IH]; intros l Hl Hps; cbn; [done|].
  inversion_clear Hps. apply IH; [by apply add_key_param_wf|done].
Qed.
Lemma decode_value_sound n : sound_st authz_wf (decode_value n).
Proof.
  unfold decode_value. case_decide; [by apply sound_st_ret|].
  eapply sound_st_bind; [apply sound_st_get|]. intros data _.
  eapply sound_st_bind; [apply sound_st_liftr, sound_reject|]. intros _ _.
  eapply sound_st_bind; [by apply process_tags_sound|]. intros ps Hps. by apply sound_st_ret, new_from_key_params_wf.
Qed.
End wrapper.

(** ** No input crashes a target *)

Section safe.
Context `{T : Target} `{C : Ciborium} `{CS : CosetSafe} `{DS : DerSafe}.
(** C27: No data crashes a parser of untrusted input: each of the four fuzz targets comes to its end on every
    input, on every target machine. What is accepted as a request, as a request of the older protocol or as a
    key blob has every integer in the range of its type, and so have the authorizations of a wrapped key. *)
Theorem fuzz_targets_safe data :
  (fuzz_message data = Ok tt ∧ sound PerformOpReq_wf (from_slice PerformOpReq_codec data)) ∧
  (fuzz_legacy_message data = Ok tt ∧ sound TrustyPerformOpReq_wf (deserialize_trusty_req data)) ∧
  (fuzz_keyblob data = Ok tt ∧ sound parsed_blob (EncryptedKeyBlob_new data)) ∧
  (fuzz_keydescription data = Ok tt ∧
   sound (λ w, authz_wf (kd_key_params (skw_key_description w))) (wrapper_from_der decode_value data)).
Proof.
  assert (sound PerformOpReq_wf (from_slice PerformOpReq_codec data)) as H1 by apply PerformOpReq_from_slice_sound.
  assert (sound TrustyPerformOpReq_wf (deserialize_trusty_req data)) as H2.
  { pose proof (request_message_sound (R:=TrustyPerformOpReq) data) as H. unfold deserialize_trusty_req.
    destruct (deserialize_trusty_request_message data); naive_solver. }
  pose proof (EncryptedKeyBlob_new_sound data) as H3.
  pose proof (wrapper_from_der_sound decode_value authz_wf data decode_value_sound) as H4.
  split_and!; try done; by eapply dropped_Ok.
Qed.
End safe.

(** ** The reference decoders *)

Section x690.
#[local] Existing Instances X690.der X690.wrapper_codecs.
Lemma ok_or_sound {A} (P : A → Prop) (o : option A) : (∀ a, o = Some a → P a) → sound P (ok_or o Der).
Proof. destruct o; cbn; auto. Qed.
Lemma from_der_sound {A} tag (dec : bytes → option A) (P : A → Prop) b :
  (∀ body a, dec body = Some a → P a) → sound P (X690.from_der tag dec b).
Proof.
  intros Hdec. unfold X690.from_der. destruct (X690.read_tlv tag b) as [[body [|]]|]; try done.
  apply ok_or_sound, Hdec.
Qed.
Lemma st_of_sound {A} (r : bytes → option (A * bytes)) : sound_st (λ _, True) (X690.st_of r).
Proof. intros b. unfold X690.st_of. by destruct (r b) as [[]|]. Qed.
Lemma int_in_sound lo hi (P : Z → Prop) : (∀ z, lo ≤ z ≤ hi → P z) →
  ∀ body a, X690.int_in lo hi body = Some a → P a.
Proof.
  intros HP body a H. unfold X690.int_in in H. apply bind_Some in H as (z & _ & H). case_decide; [|done].
  injection H as <-. by apply HP.
Qed.
Lemma read_with_sound {A} (dec : Z → stM bytes Error A) P b a rest :
  (∀ n, sound_st P (dec n)) → X690.read_with dec b = Some (a, rest) → P a.
Proof.
  intros Hdec H. unfold X690.read_with in H. apply bind_Some in H as ([body rest'] & _ & H).
  pose proof (Hdec (len body) body) as Hs. destruct (dec (len body) body) as [[x| |] [|]]; try done.
  injection H as <- <-. exact Hs.
Qed.
Lemma description_of_sound dec P b d :
  (∀ n, sound_st P (dec n)) → X690.description_of dec b = Some d → P (kd_key_params d).
Proof.
  intros Hdec H. unfold X690.description_of in H.
  apply bind_Some in H as ([x b1] & _ & H). apply bind_Some in H as (fmt & _ & H).
  apply bind_Some in H as ([ps [|]] & Hps & H); [|done]. injection H as <-. by eapply read_with_sound.
Qed.
Lemma wrapper_of_sound dec P b w :
  (∀ n, sound_st P (dec n)) → X690.wrapper_of dec b = Some w → P (kd_key_params (skw_key_description w)).
Proof.
  intros Hdec H. unfold X690.wrapper_of in H.
  apply bind_Some in H as ([x b1] & _ & H). apply bind_Some in H as (ver & _ & H).
  apply bind_Some in H as ([key b2] & _ & H). apply bind_Some in H as ([iv b3] & _ & H).
  apply bind_Some in H as ([y b4] & _ & H). apply bind_Some in H as (desc & Hd & H).
  apply bind_Some in H as ([ekey b5] & _ & H). apply bind_Some in H as ([tag [|]] & _ & H); [|done].
  injection H as <-. by eapply description_of_sound.
Qed.
#[export] Instance x690_safe : DerSafe.
Proof.
  split; intros; cbn; try apply st_of_sound.
  5-7: by apply from_der_sound.
  5: by apply from_der_sound; intros body w; apply wrapper_of_sound.
  all: apply from_der_sound, int_in_sound; intros z Hz; unfold is_i32, is_u32, is_i64, is_u64; range_lia.
Qed.
End x690.

Module SampleFuzz.
#[local] Existing Instances Rfc8949.codec Sample.coset X690.der X690.wrapper_codecs.
#[local] Instance coset_safe : CosetSafe.
Proof. split. apply bytes_sound. Qed.
#[local] Instance target : Target := arm64.
(** A byte that starts no item, or one that is not finished. *)
Definition garbage : bytes := u8_of <$> [0x30; 0x82; 0xff].
(** A request, as it is sent. *)
Definition aborting : PerformOpReq := Req_OperationAbort {| AbortRequest_op_handle := -5 |}.
Definition request : bytes := match into_vec PerformOpReq_codec aborting with Ok data => data | _ => [] end.
Lemma fuzz_targets_safe_witness :
  from_slice PerformOpReq_codec request = Ok aborting ∧ PerformOpReq_wf aborting ∧
  (fuzz_message garbage = Ok tt ∧ sound PerformOpReq_wf (from_slice PerformOpReq_codec garbage)) ∧
  (fuzz_legacy_message garbage = Ok tt ∧ sound TrustyPerformOpReq_wf (deserialize_trusty_req garbage)) ∧
  (fuzz_keyblob garbage = Ok tt ∧ sound parsed_blob (EncryptedKeyBlob_new garbage)) ∧
  (fuzz_keydescription garbage = Ok tt ∧
   sound (λ w, authz_wf (kd_key_params (skw_key_description w))) (wrapper_from_der decode_value garbage)).
Proof.
  assert (from_slice PerformOpReq_codec request = Ok aborting) as Hr by (vm_compute; reflexivity).
  destruct (fuzz_targets_safe (CS:=coset_safe) (DS:=x690_safe) request) as [[_ Hs] _]. rewrite Hr in Hs.
  split; [exact Hr|]. split; [exact Hs|]. apply (fuzz_targets_safe (CS:=coset_safe) (DS:=x690_safe)).
Defined.
End SampleFuzz.
