(* ===== verification/Rkp.v ===== *)
(** * Remote key provisioning ([ta/src/rkp.rs])

    Key pairs whose public keys the device certifies: their generation, with the MAC that lets
    the device recognize them, and the requests for certificates over them.  COSE structures
    belong to the [coset] crate, a parameter here; keys in COSE format are made by
    [public_cose_key] ([common/src/crypto/ec.rs]). *)

From stdpp Require Import pretty.
From S2P Require Import Prelude Wire TagInfo TagLegacy CryptoTypes TagParams TagGen TagBegin Crypto.
From S2P Require Import Codec WireCodec Keyblob TaState EcKeys Asn1 Cert Keys.

(** ** The [coset] crate *)

(** The entries of the IANA registries that are used. *)
Inductive CoseAlgorithm : Set := Cose_ES256 | Cose_ES384 | Cose_EdDSA | Cose_ECDH_ES_HKDF_256.
Inductive CoseCurve : Set := Cose_P256 | Cose_P384 | Cose_P521 | Cose_X25519 | Cose_Ed25519.
Definition cose_curve_value (c : CoseCurve) : Z :=
  match c with Cose_P256 => 1 | Cose_P384 => 2 | Cose_P521 => 3 | Cose_X25519 => 4 | Cose_Ed25519 => 6 end.
(** Labels of the curve and of the x-coordinate in [OkpKeyParameter]. *)
Definition OKP_CRV : Z := -1.
Definition OKP_X : Z := -2.

Inductive Label : Set := Label_Int (i : Z) | Label_Text (s : string).
#[export] Instance Label_eq_dec : EqDecision Label.
Proof. solve_decision. Defined.

(** Messages with a MAC: built with the algorithm HMAC 256/256 from a payload and a tag, which
    is computed over the data to be authenticated; that of a message without payload does not
    exist (the crate panics). *)
Class CoseMac0s := {
  CoseMac0 : Type;
  mac0_hmac256 : bytes → bytes → CoseMac0;
  mac0_hmac256_tbm : bytes → bytes → bytes;             (* external data, payload *)
  mac0_payload : CoseMac0 → option bytes;
  mac0_tag : CoseMac0 → bytes;
  mac0_tbm : bytes → CoseMac0 → option bytes;
  mac0_to_vec : CoseMac0 → CborResult bytes;
  mac0_from_slice : bytes → CborResult CoseMac0;
  mac0_to_tagged_vec : CoseMac0 → CborResult bytes;
  mac0_from_tagged_slice : bytes → CborResult CoseMac0
}.
Class CoseMac0Laws `{CoseMac0s} : Prop := {
  mac0_payload_build p t : mac0_payload (mac0_hmac256 p t) = Some p;
  mac0_tag_build p t : mac0_tag (mac0_hmac256 p t) = t;
  mac0_tbm_build aad p t : mac0_tbm aad (mac0_hmac256 p t) = Some (mac0_hmac256_tbm aad p);
  mac0_tbm_payload aad m : mac0_tbm aad m = None ↔ mac0_payload m = None;
  mac0_roundtrip p t b : mac0_to_vec (mac0_hmac256 p t) = Ok b → mac0_from_slice b = Ok (mac0_hmac256 p t);
  mac0_tagged_roundtrip p t b :
    mac0_to_tagged_vec (mac0_hmac256 p t) = Ok b → mac0_from_tagged_slice b = Ok (mac0_hmac256 p t)
}.

(** Keys, built step by step. *)
Class CoseKeys := {
  CoseKey : Type;
  new_ec2_pub_key : CoseCurve → bytes → bytes → CoseKey;
  new_okp_key : CoseKey;
  with_param : Z → Value → CoseKey → CoseKey;
  with_algorithm : CoseAlgorithm → CoseKey → CoseKey;
  with_key_id : bytes → CoseKey → CoseKey;
  cose_key_params : CoseKey → list (Label * Value);
  cose_key_to_vec : CoseKey → CborResult bytes;
  cose_key_from_cbor_value : Value → CborResult CoseKey
}.
(** Signed messages, from the algorithm, the payload and the signature. *)
Class CoseSign1s := {
  sign1_tbs : CoseAlgorithm → bytes → bytes → bytes;      (* external data, payload *)
  sign1_to_cbor_value : CoseAlgorithm → bytes → bytes → CborResult Value
}.

(** ** Public keys as COSE keys *)

Definition RKP_TEST_KEY_CBOR_MARKER : Z := -70000.
Inductive CoseKeyPurpose : Set := Cose_Agree | Cose_Sign.

Section cose_key.
Context `{PK : PublicKeys} `{CK : CoseKeys}.

Definition public_cose_key (key : OpaqueOr EcKey) (curve : EcCurve) (curve_type : CurveType)
    (purpose : CoseKeyPurpose) (key_id : option bytes) (test_mode : bool) : Result CoseKey :=
  let nist_algo := match purpose with
                   | Cose_Agree => Cose_ECDH_ES_HKDF_256
                   | Cose_Sign => Cose_ES256
                   end in
  pub_key ← ec_subject_public_key key;
  builder ←
    match curve_type with
    | CurveType_Nist =>
      nist_curve ← NistCurve_try_from curve;
      '(x, y) ← coordinates_from_pub_key pub_key nist_curve;
      cose_nist_curve ← match nist_curve with
                        | Nist_P224 => km_err Unimplemented
                        | Nist_P256 => Ok Cose_P256
                        | Nist_P384 => Ok Cose_P384
                        | Nist_P521 => Ok Cose_P521
                        end;
      Ok (with_algorithm nist_algo (new_ec2_pub_key cose_nist_curve x y))
    | CurveType_EdDsa =>
      Ok (with_algorithm Cose_EdDSA
            (with_param OKP_X (VBytes pub_key)
              (with_param OKP_CRV (VInteger (cose_curve_value Cose_Ed25519)) new_okp_key)))
    | CurveType_Xdh =>
      Ok (with_algorithm Cose_ECDH_ES_HKDF_256
            (with_param OKP_X (VBytes pub_key)
              (with_param OKP_CRV (VInteger (cose_curve_value Cose_X25519)) new_okp_key)))
    end;
  let builder := match key_id with Some key_id => with_key_id key_id builder | None => builder end in
  let builder := if (test_mode : bool) then with_param RKP_TEST_KEY_CBOR_MARKER VNull builder else builder in
  Ok builder.
End cose_key.

(** ** Device traits *)

Inductive CsrSigningAlgorithm : Set := Csr_ES256 | Csr_ES384 | Csr_EdDSA.
Record PubDiceArtifacts := mk_dice_artifacts { uds_certs_data : bytes; dice_cert_chain : bytes }.
Record RpcV2TestCDIPriv := mk_test_cdi_priv { test_cdi_priv : option (OpaqueOr EcKey); cdi_context : bytes }.
Record DiceInfo := mk_dice_info {
  pub_dice_artifacts : PubDiceArtifacts;
  signing_algorithm : CsrSigningAlgorithm;
  rpc_v2_test_cdi_priv : option RpcV2TestCDIPriv
}.
Class RetrieveRpcArtifacts := {
  derive_bytes_from_hbk : bytes → Z → Result bytes;
  rpc_compute_hmac_sha256 : bytes → Result bytes;
  rpc_get_dice_info : bool → Result DiceInfo;
  rpc_sign_data : bytes → Result bytes;
  rpc_sign_data_in_cose_sign1 : CsrSigningAlgorithm → bytes → Result bytes
}.
Definition RPC_HMAC_KEY_CONTEXT : bytes := bytes_of_string "Key to MAC public keys".
Definition RPC_HMAC_KEY_LEN : Z := 32.

(** Helper function to serialize a value into bytes. *)
Definition serialize_cbor `{Ciborium} (cbor_value : Value) : Result bytes :=
  ok_or (into_writer cbor_value) (Cbor EncodeFailed).

(** The methods that have a default implementation. *)
Definition default_compute_hmac_sha256 `{Hmac} (derive : bytes → Z → Result bytes) (input : bytes)
    : Result bytes :=
  secret ← derive RPC_HMAC_KEY_CONTEXT RPC_HMAC_KEY_LEN;
  hmac_sha256 secret input.
Definition default_sign_data_in_cose_sign1 `{Ciborium} `{CoseSign1s} (sign_data : bytes → Result bytes)
    (signing_algorithm : CsrSigningAlgorithm) (payload : bytes) : Result bytes :=
  let cose_sign_algorithm := match signing_algorithm with
                             | Csr_ES256 => Cose_ES256
                             | Csr_ES384 => Cose_ES384
                             | Csr_EdDSA => Cose_EdDSA
                             end in
  signature ← sign_data (sign1_tbs cose_sign_algorithm [] payload);
  signed_data_cbor ← map_err Cbor (sign1_to_cbor_value cose_sign_algorithm payload signature);
  serialize_cbor signed_data_cbor.

(** ** Information about the component ([ta/src/lib.rs]) *)

Definition IRPC_V2 : Z := 2.
Definition IRPC_V3 : Z := 3.
Definition AUTH_REQ_SCHEMA_V1 : Z := 1.
Definition CERT_TYPE_KEYMINT : string := "keymint".
Definition MINIMUM_SUPPORTED_KEYS_IN_CSR : Z := 20.
Definition MAX_CHALLENGE_SIZE_V2 : Z := 64.

Record RpcInfoV2 := mk_rpc_v2 {
  v2_author_name : string; v2_supported_eek_curve : EekCurve; v2_unique_id : string; v2_fused : bool }.
Record RpcInfoV3 := mk_rpc_v3 {
  v3_author_name : string; v3_unique_id : string; v3_fused : bool; v3_supported_num_of_keys_in_csr : Z }.
Inductive RpcInfo := RpcInfo_V2 (info : RpcInfoV2) | RpcInfo_V3 (info : RpcInfoV3).
Definition get_version (info : RpcInfo) : Z :=
  match info with RpcInfo_V2 _ => IRPC_V2 | RpcInfo_V3 _ => IRPC_V3 end.

Definition RPC_P256_KEYGEN_PARAMS : list KeyParam :=
  [KP_Purpose KeyPurpose_AttestKey; KP_Algorithm Algorithm_Ec; KP_KeySize 256; KP_EcCurve EcCurve_P256;
   KP_NoAuthRequired; KP_Digest Digest_Sha256; KP_CertificateNotBefore UNDEFINED_NOT_BEFORE;
   KP_CertificateNotAfter UNDEFINED_NOT_AFTER].

(** ** [String::from_utf8_lossy] *)

Definition in_range (lo hi : Z) (b : u8) : bool := (lo <=? u8_val b) && (u8_val b <=? hi).
(** The byte at [i], or zero past the end. *)
Definition safe_get (bs : bytes) (i : nat) : u8 := default (u8_of 0) (bs !! i).
(** Whether a character starts here, and how many bytes it, or the malformed sequence, has. *)
Definition utf8_char (bs : bytes) : bool * nat :=
  let b := safe_get bs 0 in let b1 := safe_get bs 1 in let b2 := safe_get bs 2 in let b3 := safe_get bs 3 in
  let cont := in_range 0x80 0xBF in
  if in_range 0 0x7F b then (true, 1%nat)
  else if in_range 0xC2 0xDF b then if cont b1 then (true, 2%nat) else (false, 1%nat)
  else if in_range 0xE0 0xEF b then
    if (in_range 0xE0 0xE0 b && in_range 0xA0 0xBF b1) || (in_range 0xE1 0xEC b && cont b1) ||
       (in_range 0xED 0xED b && in_range 0x80 0x9F b1) || (in_range 0xEE 0xEF b && cont b1)
    then if cont b2 then (true, 3%nat) else (false, 2%nat)
    else (false, 1%nat)
  else if in_range 0xF0 0xF4 b then
    if (in_range 0xF0 0xF0 b && in_range 0x90 0xBF b1) || (in_range 0xF1 0xF3 b && cont b1) ||
       (in_range 0xF4 0xF4 b && in_range 0x80 0x8F b1)
    then if cont b2 then if cont b3 then (true, 4%nat) else (false, 3%nat) else (false, 2%nat)
    else (false, 1%nat)
  else (false, 1%nat).
Definition REPLACEMENT_CHARACTER : bytes := [u8_of 0xEF; u8_of 0xBF; u8_of 0xBD].
Fixpoint utf8_lossy (fuel : nat) (bs : bytes) : bytes :=
  match fuel, bs with
  | S fuel', _ :: _ =>
    let '(valid, n) := utf8_char bs in
    (if valid then take n bs else REPLACEMENT_CHARACTER) ++ utf8_lossy fuel' (drop n bs)
  | _, _ => []
  end.
Definition from_utf8_lossy (bs : bytes) : string :=
  String.string_of_list_byte (utf8_lossy (length bs) bs).

Section rkp.
Context `{T : Target} `{ACC : AccumulatingOperation} `{EMIT : EmittingOperation} `{AAD : AadOperation}
  `{HM : !Hmac} `{CM : !AesCmac} `{AES : !Aes} `{HK : Hkdf} `{R : Rng} `{M : !SecureDeletionSecretManager}
  `{KM : RetrieveKeyMaterial} `{LK : LegacyKeyHandler} `{SHA : Sha256} `{CTE : ConstTimeEq}
  `{C : Ciborium} `{K : Coset}
  `{RSA : !Rsa} `{EC : !Ec} `{PK : PublicKeys} `{I : ImportTraits} `{KG : !KeyGenerators}
  `{X : X509} `{D : DerCrate} `{CC : !CertCodecs} `{WC : WrapperCodecs}
  `{SI : RetrieveCertSigningInfo} `{AI : RetrieveAttestationIds} `{UI : UniqueIdHbk}
  `{CK : CoseKeys} `{CM0 : CoseMac0s} `{RPC : RetrieveRpcArtifacts}.

(** The state, with what remote provisioning needs: the fixed description of the component and
    the DICE information, which is remembered. *)
Record KeyMintRpc := mk_rpc {
  rs_keys : KeyMintKeys;
  rs_rpc_info : RpcInfo;
  rs_dice_info : option DiceInfo
}.
Abbreviation RTA := (stM KeyMintRpc Error).
Definition set_keys (k : KeyMintKeys) (s : KeyMintRpc) : KeyMintRpc := mk_rpc k (rs_rpc_info s) (rs_dice_info s).
Definition with_keys {A} (m : stM KeyMintKeys Error A) : RTA A := λ s,
  let '(r, k) := m (rs_keys s) in (r, set_keys k s).

Definition get_dice_info : RTA (option DiceInfo) := λ s,
  match rs_dice_info s with
  | None =>
    match rpc_get_dice_info false with
    | Ok dice_info => (Ok (Some dice_info), mk_rpc (rs_keys s) (rs_rpc_info s) (Some dice_info))
    | Err _ => (Ok None, s)
    | Panic => (Panic, s)
    end
  | info => (Ok info, s)
  end.

Definition uds_certs : RTA bytes :=
  dice_info ← get_dice_info;
  dice_info ← liftr (ok_or dice_info (Rpc Rpc_Failed));
  mret (uds_certs_data (pub_dice_artifacts dice_info)).

(** ** Device information *)

Definition device_info_value (s : KeyMintTa) (rpc_info : RpcInfo) (ids : AttestationIdInfo)
    (boot_info : BootInfo) (hal_info : HalInfo) : Result Value :=
  let text := λ b, VText (from_utf8_lossy b) in
  let bootloader_state := if device_boot_locked boot_info then "locked" else "unlocked" in
  let vb_state := match verified_boot_state boot_info with
                  | VerifiedBootState_Verified => "green"
                  | VerifiedBootState_SelfSigned => "yellow"
                  | VerifiedBootState_Unverified => "orange"
                  | VerifiedBootState_Failed => "red"
                  end in
  security_level ← match ta_security_level s with
                   | SecurityLevel_TrustedEnvironment => Ok "tee"
                   | SecurityLevel_Strongbox => Ok "strongbox"
                   | _ => km_err HardwareTypeUnavailable
                   end;
  let fused := match rpc_info with
               | RpcInfo_V2 rpc_info_v2 => v2_fused rpc_info_v2
               | RpcInfo_V3 rpc_info_v3 => v3_fused rpc_info_v3
               end in
  Ok (VMap
    [(VText "brand", text (AttestationIdInfo_brand ids));
     (VText "fused", VInteger (if fused then 1 else 0));
     (VText "model", text (AttestationIdInfo_model ids));
     (VText "device", text (AttestationIdInfo_device ids));
     (VText "product", text (AttestationIdInfo_product ids));
     (VText "vb_state", VText vb_state);
     (VText "os_version", VText (pretty (os_version hal_info)));
     (VText "manufacturer", text (AttestationIdInfo_manufacturer ids));
     (VText "vbmeta_digest", VBytes (verified_boot_hash boot_info));
     (VText "security_level", VText security_level);
     (VText "boot_patch_level", VInteger (boot_patchlevel boot_info));
     (VText "bootloader_state", VText bootloader_state);
     (VText "system_patch_level", VInteger (os_patchlevel hal_info));
     (VText "vendor_patch_level", VInteger (vendor_patchlevel hal_info))])%string.
Definition rpc_device_info_cbor : RTA Value :=
  ids ← with_keys get_attestation_ids;
  ids ← liftr (ok_or ids (Hal AttestationIdsNotProvisioned));
  s ← gets (λ s, ks_ta (rs_keys s));
  boot_info ← liftr (ok_or (ta_boot_info s) (Hal HardwareNotYetAvailable));
  hal_info ← liftr (ok_or (ta_hal_info s) (Hal HardwareNotYetAvailable));
  rpc_info ← gets rs_rpc_info;
  liftr (device_info_value s rpc_info ids boot_info hal_info).
Definition rpc_device_info : RTA bytes :=
  info ← rpc_device_info_cbor;
  liftr (serialize_cbor info).

Definition get_rpc_hardware_info (s : KeyMintRpc) : Result RpcHardwareInfo :=
  match rs_rpc_info s with
  | RpcInfo_V2 i => Ok {| RpcHardwareInfo_version_number := IRPC_V2;
                          RpcHardwareInfo_rpc_author_name := v2_author_name i;
                          RpcHardwareInfo_supported_eek_curve := v2_supported_eek_curve i;
                          RpcHardwareInfo_unique_id := Some (v2_unique_id i);
                          RpcHardwareInfo_supported_num_keys_in_csr := MINIMUM_SUPPORTED_KEYS_IN_CSR |}
  | RpcInfo_V3 i => Ok {| RpcHardwareInfo_version_number := IRPC_V3;
                          RpcHardwareInfo_rpc_author_name := v3_author_name i;
                          RpcHardwareInfo_supported_eek_curve := EekCurve_None;
                          RpcHardwareInfo_unique_id := Some (v3_unique_id i);
                          RpcHardwareInfo_supported_num_keys_in_csr := v3_supported_num_of_keys_in_csr i |}
  end.

(** ** Key pairs *)

Definition build_maced_pub_key (pub_cose_key : bytes) (compute_mac : bytes → Result bytes) : Result bytes :=
  tag ← compute_mac (mac0_hmac256_tbm [] pub_cose_key);
  map_err Cbor (mac0_to_vec (mac0_hmac256 pub_cose_key tag)).
(** The MAC of a public key; in test mode the key is all zeros. *)
Definition pub_key_mac (test_mode : bool) (data : bytes) : Result bytes :=
  if test_mode then hmac_sha256 (replicate 32 (u8_of 0)) data
  else rpc_compute_hmac_sha256 data.
Definition maced_pub_key (test_mode : bool) (key_material : KeyMaterial) : Result bytes :=
  pub_cose_key ← match key_material with
                 | KM_Ec curve curve_type key => public_cose_key key curve curve_type Cose_Sign None test_mode
                 | _ => km_err InvalidKeyBlob
                 end;
  pub_cose_key_encoded ← map_err Cbor (cose_key_to_vec pub_cose_key);
  build_maced_pub_key pub_cose_key_encoded (pub_key_mac test_mode).
Definition generate_ecdsa_p256_keypair (test_mode : bool) : RTA (MacedPublicKey * bytes) :=
  rpc_info ← gets rs_rpc_info;
  _ ← liftr (reject_if ((IRPC_V2 <? get_version rpc_info) && test_mode) (Rpc Rpc_Removed));
  p ← with_keys (with_ta (generate_key_material RPC_P256_KEYGEN_PARAMS));
  maced_pub_key ← liftr (maced_pub_key test_mode p.1);
  key_result ← with_keys (finish_keyblob_creation RPC_P256_KEYGEN_PARAMS None p.2 p.1 KeyGeneration);
  mret ({| MacedPublicKey_maced_key := maced_pub_key |}, KeyCreationResult_key_blob key_result).

(** ** Requests for certificates *)

Definition generate_cert_req (test_mode : bool) (keys_to_sign : list MacedPublicKey)
    (eek_chain challenge : bytes) : RTA (DeviceInfo * ProtectedData * bytes) :=
  rpc_info ← gets rs_rpc_info;
  _ ← liftr (reject_if (IRPC_V2 <? get_version rpc_info) (Rpc Rpc_Removed));
  _ ← rpc_device_info;
  liftr (km_err Unimplemented).

(** Validate one key of a request: it must not be a test key, and have the device's MAC. *)
Definition check_maced_key (key_to_sign : MacedPublicKey) : Result Value :=
  cose_mac0 ← map_err Cbor (mac0_from_slice (MacedPublicKey_maced_key key_to_sign));
  pub_cose_key_cbor ←
    match mac0_payload cose_mac0 with
    | Some pub_cose_key_data =>
      pub_cose_key_cbor ← map_err Cbor (read_to_value pub_cose_key_data);
      pub_cose_key ← map_err Cbor (cose_key_from_cbor_value pub_cose_key_cbor);
      _ ← reject_if (existsb (λ param, bool_decide (param.1 = Label_Int RKP_TEST_KEY_CBOR_MARKER))
                       (cose_key_params pub_cose_key)) (Rpc Rpc_TestKeyInProductionRequest);
      Ok pub_cose_key_cbor
    | None => Err (Rpc Rpc_Failed)
    end;
  data ← match mac0_tbm [] cose_mac0 with Some data => Ok data | None => Panic end;
  computed_tag ← rpc_compute_hmac_sha256 data;
  _ ← reject_if (negb (ct_eq (mac0_tag cose_mac0) computed_tag)) (Rpc Rpc_InvalidMac);
  Ok pub_cose_key_cbor.
Fixpoint check_maced_keys (keys_to_sign : list MacedPublicKey) : Result (list Value) :=
  match keys_to_sign with
  | [] => Ok []
  | key_to_sign :: keys_to_sign' =>
    pub_cose_key ← check_maced_key key_to_sign;
    pub_cose_keys ← check_maced_keys keys_to_sign';
    Ok (pub_cose_key :: pub_cose_keys)
  end.

Definition csr_payload (version : Z) (device_info : Value) (pub_cose_keys : list Value) : Value :=
  VArray [VInteger version; VText CERT_TYPE_KEYMINT; device_info; VArray pub_cose_keys].
Definition generate_cert_req_v2 (keys_to_sign : list MacedPublicKey) (challenge : bytes) : RTA bytes :=
  rpc_info ← gets rs_rpc_info;
  _ ← liftr (reject_if (get_version rpc_info <? IRPC_V3) (Hal Unimplemented));
  _ ← liftr (reject_if (MAX_CHALLENGE_SIZE_V2 <? len challenge) (Hal InvalidArgument));
  pub_cose_keys ← liftr (check_maced_keys keys_to_sign);
  rpc_device_info ← rpc_device_info_cbor;
  csr_payload_data ← liftr (serialize_cbor (csr_payload (get_version rpc_info) rpc_device_info pub_cose_keys));
  signed_data_payload_data ← liftr (serialize_cbor (VArray [VBytes challenge; VBytes csr_payload_data]));
  dice_info ← get_dice_info;
  dice_info ← liftr (ok_or dice_info (Rpc Rpc_Failed));
  uds_certs ← liftr (map_err Cbor (read_to_value (uds_certs_data (pub_dice_artifacts dice_info))));
  dice_cert_chain ← liftr (map_err Cbor (read_to_value (dice_cert_chain (pub_dice_artifacts dice_info))));
  signed_data ← liftr (rpc_sign_data_in_cose_sign1 (signing_algorithm dice_info) signed_data_payload_data);
  signed_data_cbor ← liftr (map_err Cbor (read_to_value signed_data));
  liftr (serialize_cbor (VArray [VInteger AUTH_REQ_SCHEMA_V1; uds_certs; dice_cert_chain; signed_data_cbor])).

(** ** The order of the device information *)

(** The order of map keys that RFC 7049 calls canonical: shorter ones first, then
    lexicographic. *)
Definition canonical_lt (k1 k2 : Value) : Prop :=
  match k1, k2 with
  | VText s1, VText s2 =>
    (String.length s1 < String.length s2)%nat ∨
    (String.length s1 = String.length s2 ∧ String.compare s1 s2 = Lt)
  | _, _ => False
  end.

(** The map of device information has its keys in the canonical order of RFC 7049, whatever
    the device, so it is the encoding the server expects. *)
Theorem device_info_canonical s rpc_info ids b h v :
  device_info_value s rpc_info ids b h = Ok v →
  ∃ m, v = VMap m ∧ StronglySorted canonical_lt (m.*1) ∧ length m = 14%nat.
Proof.
  unfold device_info_value. intros (lvl & _ & [= <-])%res_bind_Ok.
  eexists. split; [reflexivity|]. split; [|done]. cbn [fmap list_fmap fst].
  repeat (apply SSorted_cons; [|repeat (apply Forall_cons; split; [first [left; cbn; lia|right; by split]|]);
                                 by apply Forall_nil]).
  apply SSorted_nil.
Qed.

(** ** What goes into a request *)

Context `{CTL : !ConstTimeEqLaws}.

(** The key in a request: the payload of a message with the device's MAC, and not a test key. *)
Definition device_key (key : MacedPublicKey) (v : Value) : Prop :=
  ∃ m payload data ck,
    mac0_from_slice (MacedPublicKey_maced_key key) = Ok m ∧ mac0_payload m = Some payload ∧
    mac0_tbm [] m = Some data ∧ rpc_compute_hmac_sha256 data = Ok (mac0_tag m) ∧
    read_to_value payload = Ok v ∧ cose_key_from_cbor_value v = Ok ck ∧
    Label_Int RKP_TEST_KEY_CBOR_MARKER ∉ (cose_key_params ck).*1.

Lemma no_marker ps :
  existsb (λ param : Label * Value, bool_decide (param.1 = Label_Int RKP_TEST_KEY_CBOR_MARKER)) ps = false ↔
  Label_Int RKP_TEST_KEY_CBOR_MARKER ∉ ps.*1.
Proof.
  induction ps as [|p ps IH]; cbn; [split; [intros _ []%elem_of_nil|done]|].
  rewrite orb_false_iff, IH, bool_decide_eq_false, not_elem_of_cons. naive_solver.
Qed.
Lemma check_maced_key_Ok key v : check_maced_key key = Ok v ↔ device_key key v.
Proof.
  unfold check_maced_key. split.
  - intros (m & Hm%map_err_Ok & H)%res_bind_Ok. apply res_bind_Ok in H as (v' & Hp & H).
    destruct (mac0_payload m) as [payload|] eqn:Hpay; [|done].
    apply res_bind_Ok in Hp as (v0 & Hv%map_err_Ok & Hp). apply res_bind_Ok in Hp as (ck & Hck%map_err_Ok & Hp).
    apply res_bind_Ok in Hp as ([] & Hmk%reject_if_Ok%no_marker & [= ->]).
    apply res_bind_Ok in H as (data & Hd & H). apply res_bind_Ok in H as (tag & Ht & H).
    apply res_bind_Ok in H as ([] & Heq%reject_if_Ok & [= ->]).
    destruct (mac0_tbm [] m) as [d|] eqn:Htbm; [|done]. injection Hd as ->.
    apply negb_false_iff, ct_eq_true in Heq. subst tag. by exists m, payload, data, ck.
  - intros (m & payload & data & ck & -> & Hpay & Htbm & Hmac & Hv & Hck & Hmk%no_marker).
    cbn [map_err mbind res_bind]. rewrite Hpay, Hv. cbn [map_err mbind res_bind]. rewrite Hck.
    cbn [map_err mbind res_bind]. rewrite Hmk. cbn [reject_if mbind res_bind]. rewrite Htbm.
    cbn [mbind res_bind]. rewrite Hmac. cbn [mbind res_bind].
    by rewrite (proj2 (ct_eq_true _ _) eq_refl).
Qed.
Lemma check_maced_keys_Ok keys vs : check_maced_keys keys = Ok vs ↔ Forall2 device_key keys vs.
Proof.
  revert vs. induction keys as [|key keys IH]; intros vs; cbn [check_maced_keys].
  - split; [by intros [= <-]|by intros ->%Forall2_nil_inv_l].
  - rewrite res_bind_Ok. split.
    + intros (v & Hv%check_maced_key_Ok & H). apply res_bind_Ok in H as (vs' & Hvs%IH & [= <-]). by constructor.
    + intros (v & vs' & Hv%check_maced_key_Ok & Hvs%IH & ->)%Forall2_cons_inv_l. exists v. by rewrite Hvs.
Qed.

(** Collecting device information does not touch the DICE information. *)
Lemma preserves_gets {S E A B} (f : S → A) (g : S → B) : preserves (E:=E) g (gets f).
Proof. done. Qed.
Lemma keeps_dice_with_keys {A} (m : stM KeyMintKeys Error A) : preserves rs_dice_info (with_keys m).
Proof. intros s. unfold with_keys. by destruct (m (rs_keys s)). Qed.
Lemma keeps_dice_device_info : preserves rs_dice_info rpc_device_info_cbor.
Proof.
  unfold rpc_device_info_cbor. auto 10 using keeps_dice_with_keys, preserves_gets with preserves.
Qed.
Lemma coordinates_from_pub_key_Ok pub curve x y :
  coordinates_from_pub_key pub curve = Ok (x, y) →
  pub = SEC1_UNCOMPRESSED_PREFIX :: x ++ y ∧ len x = NistCurve_coord_len curve ∧ len y = NistCurve_coord_len curve.
Proof.
  unfold coordinates_from_pub_key. intros ([] & Hl%reject_if_Ok%bool_decide_eq_false & H)%res_bind_Ok.
  apply dec_stable in Hl. destruct pub as [|b pub]; [done|].
  apply res_bind_Ok in H as ([] & Hb%reject_if_Ok%bool_decide_eq_false%dec_stable & H). subst b.
  apply res_bind_Ok in H as (x' & Hx & H). apply res_bind_Ok in H as (y' & Hy & [= -> ->]).
  apply slice_from_Ok in Hy as [H2 ->]. unfold slice_range in Hx.
  case_decide as H1; [|done]. injection Hx as <-. unfold len in *. cbn [length] in *.
  set (n := NistCurve_coord_len curve) in *. assert (0 ≤ n) by lia.
  replace (Z.to_nat (1 + n)) with (S (Z.to_nat n)) by lia.
  replace (Z.to_nat (1 + n - 1)) with (Z.to_nat n) by lia. change (Z.to_nat 1) with 1%nat. cbn [drop].
  rewrite take_drop, length_take, !length_drop. split; [done|lia].
Qed.

(** C24: A request for certificates is only made when every key in it, in the order given, is a
    production key that carries this device's MAC (one failing key is enough to refuse), and for
    a challenge of at most 64 bytes; the device signs the challenge together with exactly these
    keys and its own description, and presents the signature with its DICE chain. *)
Theorem csr_authentic keys challenge s out s' :
  generate_cert_req_v2 keys challenge s = (Ok out, s') →
  get_version (rs_rpc_info s) = IRPC_V3 ∧ len challenge ≤ MAX_CHALLENGE_SIZE_V2 ∧
  ∃ pubs info payload data dice uds chain sig signed,
    Forall2 device_key keys pubs ∧ (rpc_device_info_cbor s).1 = Ok info ∧
    serialize_cbor (csr_payload IRPC_V3 info pubs) = Ok payload ∧
    serialize_cbor (VArray [VBytes challenge; VBytes payload]) = Ok data ∧
    (rs_dice_info s = Some dice ∨ rpc_get_dice_info false = Ok dice) ∧
    rpc_sign_data_in_cose_sign1 (signing_algorithm dice) data = Ok sig ∧
    read_to_value (uds_certs_data (pub_dice_artifacts dice)) = Ok uds ∧
    read_to_value (dice_cert_chain (pub_dice_artifacts dice)) = Ok chain ∧
    read_to_value sig = Ok signed ∧
    serialize_cbor (VArray [VInteger AUTH_REQ_SCHEMA_V1; uds; chain; signed]) = Ok out.
Proof.
  unfold generate_cert_req_v2. intros (ri & s1 & [= <- <-] & H)%stM_bind_Ok.
  apply stM_bind_Ok in H as ([] & s1 & [Hv%reject_if_Ok <-]%pair_equal_spec & H).
  apply stM_bind_Ok in H as ([] & s1 & [Hc%reject_if_Ok <-]%pair_equal_spec & H).
  assert (get_version (rs_rpc_info s) = IRPC_V3) as Hv3 by (by destruct (rs_rpc_info s)).
  rewrite Hv3 in H. split; [done|]. split; [by apply Z.ltb_ge|].
  apply stM_bind_Ok in H as (pubs & s1 & [Hk%check_maced_keys_Ok <-]%pair_equal_spec & H).
  apply stM_bind_Ok in H as (info & s1 & Hi & H).
  assert (rs_dice_info s1 = rs_dice_info s) as Hs1.
  { pose proof (keeps_dice_device_info s) as Hd. by rewrite Hi in Hd. }
  apply stM_bind_Ok in H as (payload & s2 & [Hp <-]%pair_equal_spec & H).
  apply stM_bind_Ok in H as (data & s2 & [Hd <-]%pair_equal_spec & H).
  apply stM_bind_Ok in H as (dice' & s2 & Hdice & H).
  apply stM_bind_Ok in H as (dice & s3 & [Hdd%ok_or_Ok <-]%pair_equal_spec & H). subst dice'.
  apply stM_bind_Ok in H as (uds & s3 & [Hu%map_err_Ok <-]%pair_equal_spec & H).
  apply stM_bind_Ok in H as (chain & s3 & [Hch%map_err_Ok <-]%pair_equal_spec & H).
  apply stM_bind_Ok in H as (sig & s3 & [Hsig <-]%pair_equal_spec & H).
  apply stM_bind_Ok in H as (signed & s3 & [Hsd%map_err_Ok <-]%pair_equal_spec & [Ho _]%pair_equal_spec).
  exists pubs, info, payload, data, dice, uds, chain, sig, signed. split_and!; try done.
  - by rewrite Hi.
  - unfold get_dice_info in Hdice. rewrite Hs1 in Hdice. destruct (rs_dice_info s); [left; congruence|].
    right. by destruct (rpc_get_dice_info false); simplify_eq.
Qed.

(** ** Key pairs are recognized *)

(** The public key of a P-256 pair. *)
Definition p256_cose_key (test_mode : bool) (x y : bytes) : CoseKey :=
  let key := with_algorithm Cose_ES256 (new_ec2_pub_key Cose_P256 x y) in
  if test_mode then with_param RKP_TEST_KEY_CBOR_MARKER VNull key else key.
Class CoseKeyLaws : Prop := {
  ec2_params c x y :
    cose_key_params (new_ec2_pub_key c x y) =
    [(Label_Int (-1), VInteger (cose_curve_value c)); (Label_Int (-2), VBytes x); (Label_Int (-3), VBytes y)];
  params_with_algorithm a k : cose_key_params (with_algorithm a k) = cose_key_params k;
  params_with_param l v k : cose_key_params (with_param l v k) = cose_key_params k ++ [(Label_Int l, v)];
  cose_key_roundtrip test x y b :
    cose_key_to_vec (p256_cose_key test x y) = Ok b →
    ∃ v, read_to_value b = Ok v ∧ cose_key_from_cbor_value v = Ok (p256_cose_key test x y)
}.
(** NIST keys are generated for the curve that was asked for. *)
Class NistGeneratorLaws : Prop := {
  generate_nist_curve c params g key g' :
    ec_generate_nist_key c params g = (Ok key, g') → ∃ k, key = KM_Ec (EcCurve_of_nist c) CurveType_Nist k
}.
Context `{CKL : !CoseKeyLaws} `{CML : !CoseMac0Laws} `{NG : !NistGeneratorLaws}.

Lemma p256_marker test x y :
  Label_Int RKP_TEST_KEY_CBOR_MARKER ∈ (cose_key_params (p256_cose_key test x y)).*1 ↔ test = true.
Proof.
  unfold p256_cose_key. destruct test; rewrite ?params_with_param, params_with_algorithm, ec2_params; cbn.
  - split; [done|]. intros _. decide_compute.
  - split; [|done]. intros H. exfalso. revert H. decide_compute.
Qed.
Lemma p256_public_cose_key key test ck :
  public_cose_key key EcCurve_P256 CurveType_Nist Cose_Sign None test = Ok ck →
  ∃ x y, ec_subject_public_key key = Ok (SEC1_UNCOMPRESSED_PREFIX :: x ++ y) ∧
         len x = 32 ∧ len y = 32 ∧ ck = p256_cose_key test x y.
Proof.
  unfold public_cose_key. intros (pub & Hpub & H)%res_bind_Ok. cbn [NistCurve_try_from mbind res_bind] in H.
  apply res_bind_Ok in H as (b & H & [= <-]). apply res_bind_Ok in H as ([x y] & Hxy & [= <-]).
  exists x, y. apply coordinates_from_pub_key_Ok in Hxy as (-> & Hx & Hy). by rewrite Hpub.
Qed.

Lemma maced_key_checked test key maced :
  maced_pub_key test (KM_Ec EcCurve_P256 CurveType_Nist key) = Ok maced →
  ∃ x y, ec_subject_public_key key = Ok (SEC1_UNCOMPRESSED_PREFIX :: x ++ y) ∧ len x = 32 ∧ len y = 32 ∧
    if test
    then check_maced_key {| MacedPublicKey_maced_key := maced |} = Err (Rpc Rpc_TestKeyInProductionRequest)
    else ∃ v, check_maced_key {| MacedPublicKey_maced_key := maced |} = Ok v ∧
              cose_key_from_cbor_value v = Ok (p256_cose_key false x y).
Proof.
  unfold maced_pub_key, build_maced_pub_key.
  intros (ck & (x & y & Hpub & Hx & Hy & ->)%p256_public_cose_key & H)%res_bind_Ok.
  apply res_bind_Ok in H as (enc & Henc%map_err_Ok & H). apply res_bind_Ok in H as (tag & Htag & Hb%map_err_Ok).
  apply cose_key_roundtrip in Henc as (v & Hv & Hck). apply mac0_roundtrip in Hb.
  exists x, y. split_and!; [done..|]. pose proof (p256_marker test x y) as Hm.
  destruct test; cbn [pub_key_mac] in Htag.
  - unfold check_maced_key. cbn [MacedPublicKey_maced_key]. rewrite Hb. cbn [map_err mbind res_bind].
    rewrite mac0_payload_build, Hv. cbn [map_err mbind res_bind]. rewrite Hck. cbn [map_err mbind res_bind].
    destruct (existsb _ _) eqn:He; [done|]. apply no_marker in He. by destruct He; apply Hm.
  - exists v. split; [|done]. apply check_maced_key_Ok. eexists _, _, _, _. split_and!; [exact Hb|..].
    + apply mac0_payload_build.
    + apply mac0_tbm_build.
    + by rewrite mac0_tag_build.
    + done.
    + exact Hck.
    + by intros ?%Hm.
Qed.

Lemma rpc_params_gen st lvl cs info :
  extract_key_gen_characteristics st RPC_P256_KEYGEN_PARAMS lvl = Ok (cs, info) → info = Gen_NistEc Nist_P256.
Proof.
  unfold extract_key_gen_characteristics. intros (a & Ha & H)%res_bind_Ok.
  assert (a = Algorithm_Ec) as -> by (vm_compute in Ha; congruence).
  apply res_bind_Ok in H as (i & Hi & H). apply res_bind_Ok in H as (cs' & _ & [= _ <-]).
  destruct lvl; vm_compute in Hi; congruence.
Qed.

Section usable.
Context `{CL : !CiboriumLaws} `{KL : !CosetLaws} `{AL : !AeadLaws} `{ML : !SDMLaws ok} `{SL : !SDMSlots ok}
  `{TL : !KeyTraitsLaws}.

(** A key pair for remote provisioning: the key blob holds the private key of the public key
    that is returned, and can be used on this device.  If the pair was made in production mode the
    device accepts the public key in a request for certificates, and puts that very key in it; in
    test mode (which version 3 of the interface refuses) the public key is refused there as a test
    key. *)
Theorem rpc_keypair test_mode s maced blob s' :
  from_option ok True (ta_sdd_mgr (ks_ta (rs_keys s))) → versions_wf (ks_ta (rs_keys s)) →
  generate_ecdsa_p256_keypair test_mode s = (Ok (maced, blob), s') →
  ∃ chars key slot x y,
    keyblob_parse_decrypt (ks_ta (rs_keys s')) blob RPC_P256_KEYGEN_PARAMS =
      Ok ({| characteristics := chars; key_material := KM_Ec EcCurve_P256 CurveType_Nist key |}, slot) ∧
    ec_subject_public_key key = Ok (SEC1_UNCOMPRESSED_PREFIX :: x ++ y) ∧ len x = 32 ∧ len y = 32 ∧
    if test_mode
    then get_version (rs_rpc_info s) = IRPC_V2 ∧
         check_maced_key maced = Err (Rpc Rpc_TestKeyInProductionRequest)
    else ∃ v, check_maced_key maced = Ok v ∧ cose_key_from_cbor_value v = Ok (p256_cose_key false x y).
Proof.
  intros Hok Hv. unfold generate_ecdsa_p256_keypair. intros (ri & s1 & [= <- <-] & H)%stM_bind_Ok.
  apply stM_bind_Ok in H as ([] & s1 & [Hver%reject_if_Ok <-]%pair_equal_spec & H).
  apply stM_bind_Ok in H as ([km chars] & s1 & Hg & H). cbn [fst snd] in *.
  apply stM_bind_Ok in H as (pk & s2 & [Hpk <-]%pair_equal_spec & H).
  apply stM_bind_Ok in H as (kr & s2 & Hfin & [= <- <- <-]).
  unfold with_keys, with_ta in Hg. destruct (generate_key_material _ (ks_ta (rs_keys s))) as [r t1] eqn:Hgm.
  injection Hg as -> <-.
  unfold with_keys in Hfin. cbn [rs_keys set_keys] in Hfin.
  destruct (finish_keyblob_creation _ _ _ _ _ _) as [r k'] eqn:Hfin'. injection Hfin as -> <-.
  cbn [rs_keys set_keys].
  pose proof (generated_created _ _ _ _ _ _ _ _ _ Hgm Hfin') as Hc.
  apply generate_key_material_Ok in Hgm as (cs & info & g & Hex & Hadd & Hmat & _).
  pose proof (rpc_params_gen _ _ _ _ Hex) as ->. cbn [generate_material] in Hmat.
  apply generate_nist_curve in Hmat as [key ->]. cbn [EcCurve_of_nist] in *.
  apply maced_key_checked in Hpk as (x & y & Hpub & Hx & Hy & Hcheck).
  assert (KeyCreationResult_key_characteristics kr = chars) as Hchars.
  { unfold finish_keyblob_creation in Hfin'. apply stM_bind_Ok in Hfin' as (? & ? & _ & Hf).
    by apply stM_bind_Ok in Hf as (? & ? & _ & [= <- _]). }
  destruct (created_usable _ _ _ _ _ _ Hok Hc) as [slot Hd].
  { rewrite Hchars. eapply generated_wf; [done| |by eapply gen_characteristics_Ok|done].
    rewrite app_nil_r. unfold RPC_P256_KEYGEN_PARAMS. repeat (apply Forall_cons; split; [try done; cbn; range_lia|]).
    by apply Forall_nil. }
  eexists _, key, slot, x, y. split_and!; [exact Hd|done..|].
  destruct test_mode; [|done]. split; [|done].
  destruct (rs_rpc_info s); [done|]. by cbn in Hver.
Qed.
End usable.
End rkp.

(** ** A device that is provisioned remotely *)

Module SampleRkp.
Import Keyblob.Sample SampleTa SampleDer SampleX509 SampleKeys.

(** Messages as a payload, byte by byte, followed by the tag; the empty message has no payload. *)
Fixpoint put (p t : bytes) : bytes :=
  match p with [] => u8_of 0 :: t | b :: p' => u8_of 1 :: b :: put p' t end.
Fixpoint get (bs : bytes) : option (bytes * bytes) :=
  match bs with
  | m :: bs' =>
    if decide (m = u8_of 0) then Some ([], bs')
    else match bs' with b :: bs'' => (λ '(p, t), (b :: p, t)) <$> get bs'' | [] => None end
  | [] => None
  end.
Lemma get_put p t : get (put p t) = Some (p, t).
Proof. induction p as [|b p IH]; [done|]. cbn [put get]. rewrite decide_False by done. by rewrite IH. Qed.
Definition get_mac0 (bs : bytes) : CborResult (option bytes * bytes) :=
  match bs with
  | [] => Ok (None, [])
  | _ => '(p, t) ← ok_or (get bs) DecodeFailed; Ok (Some p, t)
  end.
Definition put_mac0 (m : option bytes * bytes) : CborResult bytes :=
  match m.1 with Some p => Ok (put p m.2) | None => Err EncodeFailed end.
#[export] Instance mac0s : CoseMac0s := {|
  CoseMac0 := option bytes * bytes;
  mac0_hmac256 p t := (Some p, t); mac0_hmac256_tbm aad p := p ++ aad; mac0_payload := fst; mac0_tag := snd;
  mac0_tbm aad m := (λ p, p ++ aad) <$> m.1;
  mac0_to_vec := put_mac0; mac0_from_slice := get_mac0;
  mac0_to_tagged_vec := put_mac0; mac0_from_tagged_slice := get_mac0 |}.
Lemma mac0_put_get p t b : put_mac0 (Some p, t) = Ok b → get_mac0 b = Ok (Some p, t).
Proof. intros [= <-]. unfold get_mac0. cbn [fst snd]. rewrite get_put. by destruct p. Qed.
#[export] Instance mac0_laws : CoseMac0Laws.
Proof.
  split; cbn; try done; [|exact mac0_put_get..].
  intros aad [[]  t]; cbn; split; done.
Qed.

(** Keys as their parameters. *)
Definition key_entry (e : Value * Value) : CborResult (Label * Value) :=
  match e.1 with VInteger l => Ok (Label_Int l, e.2) | v => cbor_type_error v "int" end.
Definition key_value (k : list (Label * Value)) : Value :=
  VMap ((λ e, (match e.1 with Label_Int l => VInteger l | Label_Text s => VText s end, e.2)) <$> k).
#[export] Instance cose_keys : CoseKeys := {|
  CoseKey := list (Label * Value);
  new_ec2_pub_key c x y := [(Label_Int (-1), VInteger (cose_curve_value c)); (Label_Int (-2), VBytes x);
                            (Label_Int (-3), VBytes y)];
  new_okp_key := []; with_param l v k := k ++ [(Label_Int l, v)]; with_algorithm _ k := k; with_key_id _ k := k;
  cose_key_params k := k;
  cose_key_to_vec k := ok_or (into_writer (key_value k)) EncodeFailed;
  cose_key_from_cbor_value v := match v with VMap m => collect key_entry m | _ => Err DecodeFailed end |}.
#[export] Instance cose_key_laws : CoseKeyLaws.
Proof.
  split; try done. intros test x y b Hb.
  assert (∃ b', into_writer (key_value (p256_cose_key test x y)) = Some b' ∧
          ∀ rest, from_reader (b' ++ rest) = Some (key_value (p256_cose_key test x y), rest)) as (b' & Hw & Hr).
  { apply from_reader_into_writer; [destruct test; cbn; lia|]. destruct test; vm_compute; repeat split; discriminate. }
  cbn [cose_key_to_vec cose_keys] in Hb. rewrite Hw in Hb. injection Hb as ->.
  eexists. specialize (Hr []). rewrite app_nil_r in Hr.
  unfold read_to_value. rewrite Hr. split; [reflexivity|]. by destruct test.
Qed.
#[export] Instance nist_generators : NistGeneratorLaws.
Proof. split. intros c params g key g' [= <- _]. by eexists. Qed.
#[export] Instance cte_laws : ConstTimeEqLaws.
Proof. split. intros a b. cbn. apply bool_decide_eq_true. Qed.

Definition dice_chain : bytes := match into_writer (VArray [VInteger 7]) with Some b => b | None => [] end.
#[export] Instance artifacts : RetrieveRpcArtifacts := {|
  derive_bytes_from_hbk _ n := Ok (replicate (Z.to_nat n) (u8_of 5));
  rpc_compute_hmac_sha256 := default_compute_hmac_sha256 (λ _ n, Ok (replicate (Z.to_nat n) (u8_of 5)));
  rpc_get_dice_info _ := Ok (mk_dice_info (mk_dice_artifacts dice_chain dice_chain) Csr_EdDSA None);
  rpc_sign_data d := Ok d;
  rpc_sign_data_in_cose_sign1 _ d :=
    ok_or (into_writer (VArray [VBytes d])) (Cbor EncodeFailed) |}.

Definition ids : AttestationIdInfo := {|
  AttestationIdInfo_brand := bytes_of_string "Brand"; AttestationIdInfo_device := bytes_of_string "device";
  AttestationIdInfo_product := bytes_of_string "product"; AttestationIdInfo_serial := [];
  AttestationIdInfo_imei := []; AttestationIdInfo_imei2 := []; AttestationIdInfo_meid := [];
  AttestationIdInfo_manufacturer := u8_of 0xC3 :: u8_of 0x28 :: bytes_of_string "maker";
  AttestationIdInfo_model := bytes_of_string "model" |}.
Definition rpc_v3 : RpcInfo := RpcInfo_V3 (mk_rpc_v3 "author" "id" true 20).
Definition rpc_dev : KeyMintRpc := mk_rpc (mk_keys booted true None [] (Some ids)) rpc_v3 None.
Definition keypair := generate_ecdsa_p256_keypair false rpc_dev.
Definition keypair_value : MacedPublicKey * bytes := value ({| MacedPublicKey_maced_key := [] |}, []) keypair.
Definition csr := generate_cert_req_v2 [keypair_value.1; keypair_value.1] [u8_of 1; u8_of 2] keypair.2.

(** Malformed sequences are replaced, the rest is kept. *)
Example lossy_text :
  String.list_byte_of_string (from_utf8_lossy (AttestationIdInfo_manufacturer ids)) =
  REPLACEMENT_CHARACTER ++ bytes_of_string "(maker".
Proof. vm_compute. reflexivity. Qed.

Lemma device_info_canonical_witness :
  ∃ m, value VNull (rpc_device_info_cbor rpc_dev) = VMap m ∧ StronglySorted canonical_lt (m.*1) ∧ length m = 14%nat.
Proof.
  apply (device_info_canonical booted rpc_v3 ids SampleTa.boot
    {| os_version := 140000; os_patchlevel := 202401; vendor_patchlevel := 20240105 |}).
  vm_compute. reflexivity.
Defined.
Lemma csr_authentic_witness :
  get_version (rs_rpc_info keypair.2) = IRPC_V3 ∧ 2 ≤ MAX_CHALLENGE_SIZE_V2 ∧
  ∃ pubs info payload data dice uds chain sig signed,
    Forall2 device_key [keypair_value.1; keypair_value.1] pubs ∧ (rpc_device_info_cbor keypair.2).1 = Ok info ∧
    serialize_cbor (csr_payload IRPC_V3 info pubs) = Ok payload ∧
    serialize_cbor (VArray [VBytes [u8_of 1; u8_of 2]; VBytes payload]) = Ok data ∧
    (rs_dice_info keypair.2 = Some dice ∨ rpc_get_dice_info false = Ok dice) ∧
    rpc_sign_data_in_cose_sign1 (signing_algorithm dice) data = Ok sig ∧
    read_to_value (uds_certs_data (pub_dice_artifacts dice)) = Ok uds ∧
    read_to_value (dice_cert_chain (pub_dice_artifacts dice)) = Ok chain ∧
    read_to_value sig = Ok signed ∧
    serialize_cbor (VArray [VInteger AUTH_REQ_SCHEMA_V1; uds; chain; signed]) = Ok (value [] csr).
Proof.
  apply (csr_authentic [keypair_value.1; keypair_value.1] [u8_of 1; u8_of 2] keypair.2 (value [] csr) csr.2).
  succeeds.
Defined.
Lemma rpc_keypair_witness :
  ∃ chars key slot x y,
    keyblob_parse_decrypt (ks_ta (rs_keys keypair.2)) keypair_value.2 RPC_P256_KEYGEN_PARAMS =
      Ok ({| characteristics := chars; key_material := KM_Ec EcCurve_P256 CurveType_Nist key |}, slot) ∧
    ec_subject_public_key key = Ok (SEC1_UNCOMPRESSED_PREFIX :: x ++ y) ∧ len x = 32 ∧ len y = 32 ∧
    ∃ v, check_maced_key keypair_value.1 = Ok v ∧ cose_key_from_cbor_value v = Ok (p256_cose_key false x y).
Proof.
  apply (rpc_keypair (ok:=slots_ok) false rpc_dev keypair_value.1 keypair_value.2 keypair.2).
  - exact sample_mgr_ok.
  - apply (patchlevel_wf 202401). range_lia.
  - transitivity (Ok (E:=Error) keypair_value, keypair.2); [succeeds|]. by destruct keypair_value.
Defined.
End SampleRkp.
