(* ===== verification/Operation.v ===== *)
(** * Operations in progress ([ta/src/operation.rs])

    Starting, feeding, finishing and aborting cryptographic operations, with the
    checks of key policy, user authentication, user presence and trusted
    confirmation. *)

From S2P Require Import Prelude Wire TagInfo TagLegacy CryptoTypes TagParams TagGen TagBegin Crypto.
From S2P Require Import Codec WireCodec Keyblob TaState.

Definition CONFIRMATION_TOKEN_SIZE : Z := 32.
Definition CONFIRMATION_DATA_PREFIX : bytes := bytes_of_string "confirmation token".
Definition CONFIRMATION_MESSAGE_MAX_LEN : Z := 6144.

(** The loop of [AuthInfo::new] over the key's characteristics. *)
Record AuthScan := {
  as_secure_ids : list Z; as_auth_type : option Z; as_timeout : option Z; as_no_auth : bool
}.
Definition auth_scan_step (st : AuthScan) (param : KeyParam) : Result AuthScan :=
  match param with
  | KP_UserSecureId sid =>
    Ok {| as_secure_ids := as_secure_ids st ++ [sid]; as_auth_type := as_auth_type st;
          as_timeout := as_timeout st; as_no_auth := as_no_auth st |}
  | KP_UserAuthType atype =>
    match as_auth_type st with
    | None => Ok {| as_secure_ids := as_secure_ids st; as_auth_type := Some atype;
                    as_timeout := as_timeout st; as_no_auth := as_no_auth st |}
    | Some _ => km_err InvalidKeyBlob
    end
  | KP_AuthTimeout secs =>
    match as_timeout st with
    | None => Ok {| as_secure_ids := as_secure_ids st; as_auth_type := as_auth_type st;
                    as_timeout := Some secs; as_no_auth := as_no_auth st |}
    | Some _ => km_err InvalidKeyBlob
    end
  | KP_NoAuthRequired =>
    Ok {| as_secure_ids := as_secure_ids st; as_auth_type := as_auth_type st;
          as_timeout := as_timeout st; as_no_auth := true |}
  | _ => Ok st
  end.
Fixpoint auth_scan (st : AuthScan) (key_chars : list KeyParam) : Result AuthScan :=
  match key_chars with
  | [] => Ok st
  | p :: l => st' ← auth_scan_step st p; auth_scan st' l
  end.
Definition AuthInfo_new (key_chars : list KeyParam) : Result (option AuthInfo) :=
  st ← auth_scan {| as_secure_ids := []; as_auth_type := None; as_timeout := None; as_no_auth := false |} key_chars;
  match as_secure_ids st, as_auth_type st with
  | [], _ => Ok None
  | _, Some atype =>
    if as_no_auth st then km_err InvalidKeyBlob
    else Ok (Some {| secure_ids := as_secure_ids st; auth_type := atype; timeout_secs := as_timeout st |})
  | _, None => km_err KeyUserNotAuthenticated
  end.

Section operation.
Context `{T : Target} `{ACC : AccumulatingOperation} `{EMIT : EmittingOperation} `{AAD : AadOperation}
  `{HM : !Hmac} `{AES : !Aes} `{DES : !Des} `{RSA : !Rsa} `{EC : !Ec} `{HK : Hkdf} `{R : Rng}
  `{M : !SecureDeletionSecretManager} `{KM : RetrieveKeyMaterial} `{LK : LegacyKeyHandler}
  `{CTE : ConstTimeEq} `{C : Ciborium} `{K : Coset}.

(** ** Helpers *)

Definition max_input_size (c : CryptoOperation) : option Z :=
  match c with
  | Op_HmacSign op _ | Op_HmacVerify op _ | Op_RsaDecrypt op | Op_RsaSign op | Op_EcAgree op
  | Op_EcSign op => acc_max_input_size op
  | _ => None
  end.
Definition set_input_size (x : Z) (op : Operation) : Operation :=
  {| handle := handle op; aad_allowed := aad_allowed op; slot_to_delete := slot_to_delete op;
     trusted_conf_data := trusted_conf_data op; auth_info := auth_info op; crypto_op := crypto_op op;
     input_size := x |}.
Definition check_size (op : Operation) (n : Z) : Result Operation :=
  size ← ovf_unsigned 64 (input_size op + n);
  let op := set_input_size size op in
  match max_input_size (crypto_op op) with
  | Some max_size => _ ← reject_if (bool_decide (input_size op > max_size)) (Hal InvalidInputLength); Ok op
  | None => Ok op
  end.

Definition new_operation_index (s : KeyMintTa) : Result nat :=
  ok_or (fst <$> list_find (λ o, o = None) (ta_operations s)) (Hal TooManyOperations).
Definition has_handle (h : Z) (o : option Operation) : Prop :=
  match o with Some op => handle op = h | None => False end.
#[export] Instance has_handle_dec h o : Decision (has_handle h o).
Proof. destruct o; cbn; apply _. Defined.
Definition op_index (s : KeyMintTa) (op_handle : Z) : Result nat :=
  ok_or (fst <$> list_find (has_handle op_handle) (ta_operations s)) (Hal InvalidOperation).

(** [rng.next_u64() as i64]. *)
Definition next_handle (r : rng_state) : Z * rng_state :=
  let '(buf, r') := fill_bytes 8 r in (as_i64 (le_combine buf), r').
(** The loop draws until the handle is not in use; the model stops after [fuel] draws. *)
Fixpoint new_op_handle_loop (fuel : nat) : TA Z := λ s,
  match fuel with
  | O => (Panic, s)
  | S fuel' =>
    let '(h, r) := next_handle (ta_rng s) in
    let s := set_rng r s in
    match op_index s h with
    | Err _ => (Ok h, s)
    | _ => new_op_handle_loop fuel' s
    end
  end.
(** One more draw than there can be operations in progress. *)
Definition new_op_handle : TA Z := λ s, new_op_handle_loop (S (length (ta_operations s))) s.

(** ** Authentication *)

Definition check_auth_token (s : KeyMintTa) (auth_token : HardwareAuthToken) (info : AuthInfo)
    (now timeout_secs challenge : option Z) : Result unit :=
  let mac_input := hardware_auth_token_mac_input auth_token in
  verified ← verify_device_hmac s mac_input (hat_mac auth_token);
  _ ← reject_if (negb verified) (Hal KeyUserNotAuthenticated);
  _ ← reject_if (bool_decide (Z.land (as_u32 (discr (hat_authenticator_type auth_token))) (auth_type info) = 0))
        (Hal KeyUserNotAuthenticated);
  _ ← reject_if (negb (existsb (λ sid, bool_decide (hat_user_id auth_token = as_i64 sid) ||
                                      bool_decide (hat_authenticator_id auth_token = as_i64 sid))
                              (secure_ids info)))
        (Hal KeyUserNotAuthenticated);
  _ ← match now, timeout_secs with
      | Some now, Some timeout_secs =>
        limit ← ovf_signed 64 (hat_timestamp auth_token + 1000 * timeout_secs);
        reject_if (bool_decide (now > limit)) (Hal KeyUserNotAuthenticated)
      | _, _ => Ok tt
      end;
  match challenge with
  | Some challenge => reject_if (bool_decide (hat_challenge auth_token ≠ challenge)) (Hal KeyUserNotAuthenticated)
  | None => Ok tt
  end.

(** For an operation that has begun; also says whether to check again next time. *)
Definition check_subsequent_auth (s : KeyMintTa) (op : Operation) (auth_token : option HardwareAuthToken)
    (timestamp_token : option TimeStampToken) : Result bool :=
  match auth_info op with
  | Some info =>
    auth_token ← ok_or auth_token (Hal KeyUserNotAuthenticated);
    match timeout_secs info with
    | Some secs =>
      _ ← reject_if (bool_decide (is_Some (ta_clock s))) (Hal InvalidAuthorizationTimeout);
      ts ← ok_or timestamp_token (Hal InvalidArgument);
      _ ← reject_if (bool_decide (tst_challenge ts ≠ handle op)) (Hal InvalidArgument);
      verified ← verify_device_hmac s (timestamp_token_mac_input ts) (tst_mac ts);
      _ ← reject_if (negb verified) (Hal InvalidArgument);
      _ ← check_auth_token s auth_token info (Some (tst_timestamp ts)) (Some secs) (Some (handle op));
      Ok false
    | None =>
      _ ← check_auth_token s auth_token info None None (Some (handle op));
      Ok true
    end
  | None => Ok false
  end.

Definition verify_confirmation_token (s : KeyMintTa) (data : bytes) (token : option bytes) : Result unit :=
  match token with
  | Some token =>
    _ ← reject_if (bool_decide (len token ≠ CONFIRMATION_TOKEN_SIZE)) (Hal InvalidArgument);
    ok ← map_err (λ _, Hal VerificationFailed) (verify_device_hmac s data token);
    reject_if (negb ok) (Hal NoUserConfirmation)
  | None => km_err NoUserConfirmation
  end.

(** ** Starting an operation *)

Definition check_begin_auths (key_chars : list KeyParam) (key_blob : bytes) : TA unit :=
  s ← get_st;
  bl ← liftr (if ta_bootloader_done s then get_bool_tag_value key_chars KP_BootloaderOnly else Ok false);
  _ ← liftr (reject_if bl (Hal InvalidKeyBlob));
  eb ← liftr (if negb (ta_in_early_boot s) then get_bool_tag_value key_chars KP_EarlyBootOnly else Ok false);
  _ ← liftr (reject_if eb (Hal EarlyBootEnded));
  max_uses ← liftr (get_opt_tag_value as_MaxUsesPerBoot key_chars);
  match max_uses with
  | Some max_uses => id ← liftr (key_id key_blob); update_use_count id max_uses
  | None => mret tt
  end.

(** The checks that a timeout allows at the start; what is left to check later. *)
Definition begin_auth (s : KeyMintTa) (info : option AuthInfo) (auth_token : option HardwareAuthToken)
    : Result (option AuthInfo) :=
  match info with
  | Some i =>
    match timeout_secs i with
    | Some secs =>
      match ta_clock s with
      | Some now =>
        auth_token ← ok_or auth_token (Hal KeyUserNotAuthenticated);
        _ ← check_auth_token s auth_token i (Some now) (Some secs) None;
        Ok None
      | None =>
        match auth_token with
        | Some auth_token => _ ← check_auth_token s auth_token i None None None; Ok info
        | None => Ok info
        end
      end
    | None => Ok info
    end
  | None => Ok info
  end.

Definition direction (purpose : KeyPurpose) : Result SymmetricOperation :=
  match purpose with
  | KeyPurpose_Encrypt => Ok Encrypt
  | KeyPurpose_Decrypt => Ok Decrypt
  | _ => km_err IncompatiblePurpose
  end.
(** A nonce that was chosen here has to be returned. *)
Definition nonce_params (caller_nonce nonce : option bytes) : list KeyParam :=
  match caller_nonce, nonce with None, Some n => [KP_Nonce n] | _, _ => [] end.
Definition DesMode_nonce (m : DesMode) : option bytes :=
  match m with DesCbcNoPadding n | DesCbcPkcs7Padding n => Some n | _ => None end.

(** The cryptographic operation for a key, whether it takes additional data, and the
    parameters to return. *)
Definition begin_crypto (purpose : KeyPurpose) (key_chars params : list KeyParam) (key : KeyMaterial)
    : stM rng_state Error (CryptoOperation * bool * list KeyParam) :=
  match key with
  | KM_Aes key =>
    caller_nonce ← liftr (get_opt_tag_value as_Nonce params);
    mode ← AesMode_new params caller_nonce;
    dir ← liftr (direction purpose);
    let ret := nonce_params caller_nonce (AesMode_nonce mode) in
    match mode with
    | Cipher m => op ← liftr (aes_begin key m dir); mret (Op_Aes op, false, ret)
    | Aead m => op ← liftr (aes_begin_aead key m dir); mret (Op_AesGcm op, true, ret)
    end
  | KM_TripleDes key =>
    caller_nonce ← liftr (get_opt_tag_value as_Nonce params);
    mode ← DesMode_new params caller_nonce;
    dir ← liftr (direction purpose);
    op ← liftr (des_begin key mode dir);
    mret (Op_Des op, false, nonce_params caller_nonce (DesMode_nonce mode))
  | KM_Hmac key =>
    digest ← liftr (get_digest params);
    match purpose with
    | KeyPurpose_Sign =>
      mac_len ← liftr (get_tag_value as_MacLength params MissingMacLength);
      op ← liftr (hmac_begin key digest);
      mret (Op_HmacSign op (mac_len / 8), false, [])
    | KeyPurpose_Verify =>
      min_mac_len ← liftr (get_tag_value as_MinMacLength key_chars MissingMinMacLength);
      let min_tag_len := min_mac_len / 8 in
      max_tag_len ← liftr (digest_len digest);
      op ← liftr (hmac_begin key digest);
      mret (Op_HmacVerify op (min_tag_len, max_tag_len), false, [])
    | _ => liftr (km_err IncompatiblePurpose)
    end
  | KM_Rsa key =>
    match purpose with
    | KeyPurpose_Decrypt =>
      mode ← liftr (DecryptionMode_new params);
      op ← liftr (rsa_begin_decrypt key mode);
      mret (Op_RsaDecrypt op, false, [])
    | KeyPurpose_Sign =>
      mode ← liftr (SignMode_new params);
      op ← liftr (rsa_begin_sign key mode);
      mret (Op_RsaSign op, false, [])
    | _ => liftr (km_err IncompatiblePurpose)
    end
  | KM_Ec _ _ key =>
    match purpose with
    | KeyPurpose_AgreeKey => op ← liftr (ec_begin_agree key); mret (Op_EcAgree op, false, [])
    | KeyPurpose_Sign =>
      digest ← liftr (get_digest params);
      op ← liftr (ec_begin_sign key digest);
      mret (Op_EcSign op, false, [])
    | _ => liftr (km_err IncompatiblePurpose)
    end
  end.

(** Enter an operation in the table. *)
Definition store_operation (op_idx : nat) (op : Operation) (presence_required : bool) : TA unit := λ s,
  let s := set_operations (<[op_idx := Some op]> (ta_operations s)) s in
  (Ok tt, if presence_required then set_presence (Some (handle op)) s else s).

(** [begin_operation] up to the point where the operation is entered in the table: the
    index for it, the operation, whether it needs proof of presence, and the parameters
    to return. *)
Definition prepare_operation (purpose : KeyPurpose) (key_blob : bytes) (params : list KeyParam)
    (auth_token : option HardwareAuthToken) : TA (nat * Operation * bool * list KeyParam) :=
  s ← get_st;
  op_idx ← liftr (new_operation_index s);
  p ← liftr (keyblob_parse_decrypt s key_blob params);
  let keyblob := p.1 in
  let sdd_slot := p.2 in
  key_chars ← liftr (characteristics_at (characteristics keyblob) (ta_security_level s));
  _ ← liftr (check_begin_params key_chars purpose params);
  _ ← check_begin_auths key_chars key_blob;
  conf ← liftr (if decide (purpose = KeyPurpose_Sign)
                then get_bool_tag_value key_chars KP_TrustedConfirmationRequired else Ok false);
  let conf_data := if (conf : bool) then Some CONFIRMATION_DATA_PREFIX else None in
  limit ← liftr (get_opt_tag_value as_UsageCountLimit key_chars);
  let slot := match limit with Some 1 => sdd_slot | _ => None end in
  presence_required ← liftr (get_bool_tag_value key_chars KP_TrustedUserPresenceRequired);
  s ← get_st;
  _ ← liftr (reject_if (presence_required && bool_decide (is_Some (ta_presence_required_op s)))
               (Hal ConcurrentProofOfPresenceRequested));
  info ← liftr (AuthInfo_new key_chars);
  info ← liftr (begin_auth s info auth_token);
  op_handle ← new_op_handle;
  c ← with_rng (begin_crypto purpose key_chars params (key_material keyblob));
  let '(crypto, aad_ok, ret_params) := c in
  mret (op_idx, {| handle := op_handle; aad_allowed := aad_ok; slot_to_delete := slot;
                   trusted_conf_data := conf_data; auth_info := info; crypto_op := crypto;
                   input_size := 0 |}, presence_required, ret_params).
Definition begin_operation (purpose : KeyPurpose) (key_blob : bytes) (params : list KeyParam)
    (auth_token : option HardwareAuthToken) : TA InternalBeginResult :=
  prep ← prepare_operation purpose key_blob params auth_token;
  let '(op_idx, op, presence_required, ret_params) := prep in
  _ ← store_operation op_idx op presence_required;
  mret {| InternalBeginResult_challenge := handle op; InternalBeginResult_params := ret_params;
          InternalBeginResult_op_handle := handle op |}.

(** ** Feeding an operation *)

Definition clear_auth (op : Operation) : Operation :=
  {| handle := handle op; aad_allowed := aad_allowed op; slot_to_delete := slot_to_delete op;
     trusted_conf_data := trusted_conf_data op; auth_info := None; crypto_op := crypto_op op;
     input_size := input_size op |}.
Definition set_crypto (c : CryptoOperation) (op : Operation) : Operation :=
  {| handle := handle op; aad_allowed := aad_allowed op; slot_to_delete := slot_to_delete op;
     trusted_conf_data := trusted_conf_data op; auth_info := auth_info op; crypto_op := c;
     input_size := input_size op |}.
Definition set_conf (d : option bytes) (op : Operation) : Operation :=
  {| handle := handle op; aad_allowed := aad_allowed op; slot_to_delete := slot_to_delete op;
     trusted_conf_data := d; auth_info := auth_info op; crypto_op := crypto_op op;
     input_size := input_size op |}.
Definition forbid_aad (op : Operation) : Operation :=
  {| handle := handle op; aad_allowed := false; slot_to_delete := slot_to_delete op;
     trusted_conf_data := trusted_conf_data op; auth_info := auth_info op; crypto_op := crypto_op op;
     input_size := input_size op |}.

Definition clear_presence (op_handle : Z) (s : KeyMintTa) : KeyMintTa :=
  if decide (ta_presence_required_op s = Some op_handle) then set_presence None s else s.

(** Run [f] on an operation after checking authentication; if [f] fails, the operation
    is destroyed. *)
Definition with_authed_operation {X} (op_handle : Z) (auth_token : option HardwareAuthToken)
    (timestamp_token : option TimeStampToken) (f : Operation → Result (X * Operation)) : TA X := λ s,
  match op_index s op_handle with
  | Ok op_idx =>
    match ta_operations s !! op_idx with
    | Some (Some op) =>
      match check_subsequent_auth s op auth_token timestamp_token with
      | Ok check_again =>
        let op := if check_again then op else clear_auth op in
        match f op with
        | Ok (v, op') => (Ok v, set_operations (<[op_idx := Some op']> (ta_operations s)) s)
        | Err e =>
          (Err e, set_operations (<[op_idx := None]> (ta_operations s)) (clear_presence op_handle s))
        | Panic => (Panic, s)
        end
      | Err e => (Err e, s)
      | Panic => (Panic, s)
      end
    | _ => (Panic, s)
    end
  | Err e => (Err e, s)
  | Panic => (Panic, s)
  end.

Definition update_aad_op (data : bytes) (op : Operation) : Result (unit * Operation) :=
  _ ← reject_if (negb (aad_allowed op)) (Hal InvalidTag);
  match crypto_op op with
  | Op_AesGcm c => c ← aad_update_aad c data; Ok (tt, set_crypto (Op_AesGcm c) op)
  | _ => km_err InvalidOperation
  end.
Definition op_update_aad (op_handle : Z) (data : bytes) (auth_token : option HardwareAuthToken)
    (timestamp_token : option TimeStampToken) : TA unit :=
  with_authed_operation op_handle auth_token timestamp_token (update_aad_op data).

Definition extend_conf (data : bytes) (op : Operation) : Result Operation :=
  match trusted_conf_data op with
  | Some conf =>
    _ ← reject_if (bool_decide (len conf + len data >
                                len CONFIRMATION_DATA_PREFIX + CONFIRMATION_MESSAGE_MAX_LEN)) (Hal InvalidArgument);
    Ok (set_conf (Some (conf ++ data)) op)
  | None => Ok op
  end.

Definition crypto_update (c : CryptoOperation) (data : bytes) : Result (bytes * CryptoOperation) :=
  match c with
  | Op_Aes op => '(out, op) ← emit_update op data; Ok (out, Op_Aes op)
  | Op_AesGcm op => '(out, op) ← aad_update op data; Ok (out, Op_AesGcm op)
  | Op_Des op => '(out, op) ← emit_update op data; Ok (out, Op_Des op)
  | Op_HmacSign op n => op ← acc_update op data; Ok ([], Op_HmacSign op n)
  | Op_HmacVerify op rg => op ← acc_update op data; Ok ([], Op_HmacVerify op rg)
  | Op_RsaDecrypt op => op ← acc_update op data; Ok ([], Op_RsaDecrypt op)
  | Op_RsaSign op => op ← acc_update op data; Ok ([], Op_RsaSign op)
  | Op_EcAgree op => op ← acc_update op data; Ok ([], Op_EcAgree op)
  | Op_EcSign op => op ← acc_update op data; Ok ([], Op_EcSign op)
  end.

Definition update_op (check_presence tup_available : bool) (data : bytes) (op : Operation)
    : Result (bytes * Operation) :=
  _ ← reject_if (check_presence && negb tup_available) (Hal ProofOfPresenceRequired);
  op ← extend_conf data op;
  let op := forbid_aad op in
  op ← check_size op (len data);
  '(out, c) ← crypto_update (crypto_op op) data;
  Ok (out, set_crypto c op).
Definition op_update (op_handle : Z) (data : bytes) (auth_token : option HardwareAuthToken)
    (timestamp_token : option TimeStampToken) : TA bytes := λ s,
  let check_presence := bool_decide (ta_presence_required_op s = Some op_handle) in
  let s := clear_presence op_handle s in
  with_authed_operation op_handle auth_token timestamp_token
    (update_op check_presence (ta_tup_available s) data) s.

(** ** Ending an operation *)

Definition take_operation (op_handle : Z) : TA Operation := λ s,
  match op_index s op_handle with
  | Ok op_idx =>
    match ta_operations s !! op_idx with
    | Some (Some op) => (Ok op, set_operations (<[op_idx := None]> (ta_operations s)) s)
    | _ => (Panic, s)
    end
  | Err e => (Err e, s)
  | Panic => (Panic, s)
  end.

Definition opt_update (op : acc_op) (data : option bytes) : Result acc_op :=
  match data with Some data => acc_update op data | None => Ok op end.
Definition emit_all (op : emit_op) (data : option bytes) : Result bytes :=
  '(out, op) ← match data with Some data => emit_update op data | None => Ok ([], op) end;
  rest ← emit_finish op;
  Ok (out ++ rest).

Definition crypto_finish (c : CryptoOperation) (data signature : option bytes) : Result bytes :=
  match c with
  | Op_Aes op | Op_Des op => emit_all op data
  | Op_AesGcm op =>
    '(out, op) ← match data with Some data => aad_update op data | None => Ok ([], op) end;
    rest ← aad_finish op;
    Ok (out ++ rest)
  | Op_HmacSign op tag_len =>
    op ← opt_update op data;
    tag ← acc_finish op;
    Ok (take (Z.to_nat tag_len) tag)
  | Op_HmacVerify op (lo, hi) =>
    sig ← ok_or signature (Hal InvalidArgument);
    _ ← reject_if (negb (bool_decide (lo ≤ len sig < hi))) (Hal InvalidArgument);
    op ← opt_update op data;
    got ← acc_finish op;
    got ← slice_to got (len sig);
    if ct_eq got sig then Ok [] else km_err VerificationFailed
  | Op_RsaDecrypt op | Op_RsaSign op | Op_EcAgree op | Op_EcSign op =>
    op ← opt_update op data;
    acc_finish op
  end.

(** A successful use of a single-use key deletes its slot; a failure is only logged. *)
Definition delete_used_slot (slot : option Z) : TA unit := λ s,
  match slot, ta_sdd_mgr s with
  | Some slot, Some m =>
    match delete_secret slot m with
    | (Panic, m') => (Panic, set_sdd_mgr (Some m') s)
    | (_, m') => (Ok tt, set_sdd_mgr (Some m') s)
    end
  | _, _ => (Ok tt, s)
  end.

Definition check_finish_presence (op_handle : Z) : TA unit := λ s,
  if decide (ta_presence_required_op s = Some op_handle) then
    (reject_if (negb (ta_tup_available s)) (Hal ProofOfPresenceRequired), set_presence None s)
  else (Ok tt, s).

Definition op_finish (op_handle : Z) (data signature : option bytes)
    (auth_token : option HardwareAuthToken) (timestamp_token : option TimeStampToken)
    (confirmation_token : option bytes) : TA bytes :=
  op ← take_operation op_handle;
  s ← get_st;
  _ ← liftr (check_subsequent_auth s op auth_token timestamp_token);
  _ ← check_finish_presence op_handle;
  op ← liftr (match data with Some data => extend_conf data op | None => Ok op end);
  op ← liftr (check_size op (from_option len 0 data));
  result ← liftr (crypto_finish (crypto_op op) data signature);
  s ← get_st;
  _ ← liftr (match trusted_conf_data op with
             | Some conf => verify_confirmation_token s conf confirmation_token
             | None => Ok tt
             end);
  _ ← delete_used_slot (slot_to_delete op);
  mret result.

Definition op_abort (op_handle : Z) : TA unit :=
  _ ← modify (clear_presence op_handle);
  _ ← take_operation op_handle;
  mret tt.

(** ** HMAC verification *)

(** Verification of a MAC against too long a signature does not end in an error but
    in a panic. The longest signature accepted is computed from the size of the digest in
    bits, so any signature longer than the MAC but shorter than eight times that passes
    the length check and the slice of the computed MAC is out of range. *)
Theorem hmac_verify_long_signature (key : OpaqueOr bytes) chars params r c aad ret r' :
  begin_crypto KeyPurpose_Verify chars params (KM_Hmac key) r = (Ok (c, aad, ret), r') →
  ∃ digest bits op lo,
    get_digest params = Ok digest ∧ digest_len digest = Ok bits ∧ c = Op_HmacVerify op (lo, bits) ∧
    ∀ op' sig mac, acc_finish op' = Ok mac → lo ≤ len sig < bits → len mac < len sig →
      crypto_finish (Op_HmacVerify op' (lo, bits)) None (Some sig) = Panic.
Proof.
  unfold begin_crypto. intros Hb. st_inv. simplify_eq. do 4 eexists. split_and!; [done..|].
  intros op' sig mac Hmac Hsig Hlen. cbn. rewrite bool_decide_eq_true_2 by done. cbn. rewrite Hmac. cbn.
  unfold slice_to. by rewrite decide_False by lia.
Qed.
End operation.
