(* ===== verification/NoOp.v ===== *)
(** * Placeholder implementations ([common/src/crypto/traits.rs], [ta/src/device.rs])

    Implementations of the traits for use while the code is ported to a new environment.
    Their methods fail with [Unimplemented], where the trait allows failure.  They show
    what a forgotten placeholder does: no key blob is made or opened without an HMAC, none is
    made with a placeholder for the manager of secrets, but a placeholder for the random
    number generator goes unnoticed until a second operation is started. *)

From S2P Require Import Prelude Wire TagInfo TagLegacy CryptoTypes TagParams TagGen TagBegin Crypto.
From S2P Require Import Codec CborRef WireCodec Keyblob TaState EcKeys KeyTraits Asn1 Cert Keys Rkp Operation.

(** ** The implementations *)

Definition unimpl {A} : Result A := km_err Unimplemented.

(** The buffer stays as it is; all callers pass one filled with zeroes. *)
Definition NoOpRng : Rng := {|
  rng_state := unit;
  add_entropy _ s := s;
  fill_bytes n s := (replicate n (u8_of 0), s);
  length_fill_bytes n _ := length_replicate n (u8_of 0)
|}.

Definition InsecureEq : ConstTimeEq := {| ct_eq left right := bool_decide (left = right) |}.
Definition NoOpClock_now : Z := 0.

Section traits.
Context `{ACC : AccumulatingOperation} `{EMIT : EmittingOperation} `{AAD : AadOperation}.

Definition NoOpAes : Aes := {| aes_begin _ _ _ := unimpl; aes_begin_aead _ _ _ := unimpl |}.
Definition NoOpDes : Des := {| des_begin _ _ _ := unimpl |}.
Definition NoOpHmac : Hmac := {| hmac_begin _ _ := unimpl |}.
Definition NoOpAesCmac : AesCmac := {| cmac_begin _ := unimpl |}.
Definition NoOpRsa : Rsa := {| rsa_begin_decrypt _ _ := unimpl; rsa_begin_sign _ _ := unimpl |}.
Definition NoOpEc : Ec := {| ec_begin_agree _ := unimpl; ec_begin_sign _ _ := unimpl |}.
Definition NoOpEcPublicKeys : EcPublicKeys :=
  {| nist_public_key _ _ := unimpl; ed25519_public_key _ := unimpl; x25519_public_key _ := unimpl |}.
End traits.

Section manager.
Context `{R : Rng}.

Definition NoOpRsa_generate_key (key_size pub_exponent : Z) (params : list KeyParam)
    : stM rng_state Error KeyMaterial := liftr unimpl.
Definition NoOpEc_generate_nist_key (curve : NistCurve) (params : list KeyParam)
    : stM rng_state Error KeyMaterial := liftr unimpl.
Definition NoOpEc_generate_ed25519_key (params : list KeyParam)
    : stM rng_state Error KeyMaterial := liftr unimpl.
Definition NoOpEc_generate_x25519_key (params : list KeyParam)
    : stM rng_state Error KeyMaterial := liftr unimpl.

Definition NoOpSdsManager : SecureDeletionSecretManager := {|
  sdm_state := unit;
  get_or_create_factory_reset_secret := liftr unimpl;
  get_factory_reset_secret _ := unimpl;
  new_secret _ := liftr unimpl;
  get_secret _ _ := unimpl;
  delete_secret _ := liftr unimpl;
  delete_all s := s
|}.
End manager.

(** The methods that are not implemented are the defaults of the trait. *)
Definition NoOpRetrieveKeyMaterial : RetrieveKeyMaterial := {|
  root_kek _ := unimpl;
  dev_kek_context := Ok [];
  kak := unimpl;
  hw_device_hmac := Empty_set;
  hmac_key_agreed _ := None;
  hw_hmac h := match h with end;
  keys_timestamp_token_mac_input token := Ok (timestamp_token_mac_input token)
|}.
Definition NoOpRetrieveCertSigningInfo : RetrieveCertSigningInfo :=
  {| signing_key _ := unimpl; cert_chain _ := unimpl |}.
Definition BootloaderDone_done : bool := true.
Definition TrustedPresenceUnsupported_available : bool := false.

Definition NoOpRetrieveRpcArtifacts `{Hmac} `{Ciborium} `{CoseSign1s} : RetrieveRpcArtifacts := {|
  derive_bytes_from_hbk _ _ := unimpl;
  rpc_compute_hmac_sha256 := default_compute_hmac_sha256 (λ _ _, unimpl);
  rpc_get_dice_info _ := unimpl;
  rpc_sign_data _ := unimpl;
  rpc_sign_data_in_cose_sign1 := default_sign_data_in_cose_sign1 (λ _, unimpl)
|}.

(** ** What they do *)

(** Without an HMAC no key encryption key is derived, so that no key blob is made or
    opened, whatever implements the other traits. *)
Section no_hmac.
Context `{ACC : AccumulatingOperation} `{C : Ciborium} `{K : Coset} `{A : Aes} `{M : SecureDeletionSecretManager}.
Existing Instance NoOpHmac.

Lemma noop_derive_kek root kdi chars hidden sdd kek : derive_kek root kdi chars hidden sdd ≠ Ok kek.
Proof.
  unfold derive_kek. intros Hk. apply res_bind_Ok in Hk as (info & _ & Hk).
  destruct root; [|done]. unfold hkdf_aes in Hk. by apply res_bind_Ok in Hk as (data & Hk & _).
Qed.
Theorem noop_hmac_no_keyblob :
  (∀ lvl root ctx p hidden purpose st b st', encrypt lvl root ctx p hidden purpose st ≠ (Ok b, st')) ∧
  (∀ mgr root b hidden p, decrypt mgr root b hidden ≠ Ok p).
Proof.
  split.
  - intros lvl root ctx p hidden purpose st b st' He.
    apply encrypt_split in He as [(? & _ & ? & _)|[(_ & ? & _)|(chars & _ & [Hd|[(? & _ & ?)|(_ & ?)]])]]; try done.
    destruct Hd as (slot & sdd & [mgr r] & _ & Hh). unfold encrypt_holding in Hh.
    destruct (encrypt_with _ _ _ _ _ r) as [[b'| |] r'] eqn:Hw; try done.
    apply encrypt_with_Ok in Hw as (kek & ? & ? & Hk & _). by eapply noop_derive_kek.
  - intros mgr root [b] hidden p Hd. unfold decrypt in Hd. apply res_bind_Ok in Hd as (sdd & _ & Hd).
    apply res_bind_Ok in Hd as (kek & Hk & _). by eapply noop_derive_kek.
Qed.
End no_hmac.

(** With a placeholder for the manager of secrets, no key blob is made at all, and keys that
    need a slot are refused with [Unimplemented] rather than bound to nothing. *)
Section no_manager.
Context `{C : Ciborium} `{K : Coset} `{HK : Hkdf} `{A : Aes} `{R : Rng}.
Existing Instance NoOpSdsManager.

Theorem noop_manager_refuses lvl root ctx p hidden purpose s r chars :
  characteristics_at (characteristics p) lvl = Ok chars →
  encrypt lvl root ctx p hidden purpose (Some s, r) = (km_err Unimplemented, (Some s, r)).
Proof. intros Hc. unfold encrypt, liftr, mbind, stM_bind. rewrite Hc. by destruct (requires_sdd chars). Qed.
End no_manager.

(** A placeholder for the random number generator gives the handle 0 every time: while an
    operation with this handle is in progress, the search for another handle never ends, with
    however many draws. *)
Section no_rng.
Existing Instance NoOpRng.
Context `{T : Target} `{ACC : AccumulatingOperation} `{EMIT : EmittingOperation} `{AAD : AadOperation}
  `{HM : !Hmac} `{M : !SecureDeletionSecretManager (H := NoOpRng)} `{KM : RetrieveKeyMaterial} `{LK : LegacyKeyHandler}.

Lemma noop_next_handle r : next_handle (R := NoOpRng) r = (0, r).
Proof. reflexivity. Qed.
Theorem noop_rng_second_handle (s : KeyMintTa) fuel :
  (op_index s 0 = Err (Hal InvalidOperation) → (new_op_handle_loop (S fuel) s).1 = Ok 0) ∧
  ((∃ i, op_index s 0 = Ok i) → (new_op_handle_loop fuel s).1 = Panic).
Proof.
  assert (∀ r (s : KeyMintTa), op_index (set_rng r s) 0 = op_index s 0) as Hs by (by intros r []).
  split.
  - intros Hi. cbn [new_op_handle_loop]. by rewrite noop_next_handle, Hs, Hi.
  - revert s. induction fuel as [|fuel IH]; [done|]. intros s [i Hi]. cbn [new_op_handle_loop].
    rewrite noop_next_handle, Hs, Hi. apply IH. exists i. by rewrite Hs.
Qed.
End no_rng.
