(* ===== verification/OperationSpec.v ===== *)
(** * Correctness of operations

    What [ta/src/operation.rs] promises: the table of operations behaves as a map from
    handles to operations, authentication, confirmation and single use are enforced over
    any sequence of calls, and the cases where a check is missed. *)

From S2P Require Import Prelude Wire TagInfo TagLegacy CryptoTypes TagParams TagGen TagBegin Crypto.
From S2P Require Import Codec WireCodec Keyblob TaState Operation.

(** ** The table of operations as a map *)

Section table.
Context `{ACC : AccumulatingOperation} `{EMIT : EmittingOperation} `{AAD : AadOperation}.
Implicit Types (l : list (option Operation)) (op : Operation).

(** No two operations in progress share a handle. *)
Definition distinct l : Prop := ∀ i j oi oj,
  l !! i = Some (Some oi) → l !! j = Some (Some oj) → handle oi = handle oj → i = j.

Definition abs l : gmap Z Operation :=
  foldr (λ o m, match o with Some op => <[handle op := op]> m | None => m end) ∅ l.

Lemma distinct_cons o l :
  distinct (o :: l) →
  distinct l ∧ (∀ op i op', o = Some op → l !! i = Some (Some op') → handle op' ≠ handle op).
Proof.
  intros Hd. split.
  - intros i j oi oj Hi Hj Heq. by apply (Hd (S i) (S j) oi oj Hi Hj) in Heq as [= ->].
  - intros op i op' -> Hi Heq. by apply (Hd (S i) 0%nat op' op Hi eq_refl) in Heq.
Qed.

Lemma distinct_empty l : Forall (.= None) l → distinct l.
Proof. intros Hl i j oi oj Hi. by apply (proj1 (Forall_lookup _ _) Hl) in Hi. Qed.

Lemma abs_lookup l h op :
  distinct l → abs l !! h = Some op ↔ ∃ i, l !! i = Some (Some op) ∧ handle op = h.
Proof.
  induction l as [|o l IH]; cbn [abs foldr]; intros Hd.
  { split; [done|]. by intros ([|i] & ? & _). }
  apply distinct_cons in Hd as [Hd Ho]. fold (abs l). specialize (IH Hd). destruct o as [op0|].
  - destruct (decide (handle op0 = h)) as [<-|Hne].
    + rewrite lookup_insert_eq. split; [intros [= <-]; by exists 0%nat|].
      intros ([|i] & Hi & Heq); [by injection Hi as ->|]. by destruct (Ho op0 i op eq_refl Hi).
    + rewrite lookup_insert_ne by done. rewrite IH.
      split; [intros (i & ? & ?); by exists (S i)|intros ([|i] & Hi & ?); [|by exists i]].
      by injection Hi as ->.
  - rewrite IH. split; [intros (i & ? & ?); by exists (S i)|intros ([|i] & ? & ?); [done|by exists i]].
Qed.

Lemma abs_lookup_None l h :
  distinct l → abs l !! h = None ↔ ∀ i op, l !! i = Some (Some op) → handle op ≠ h.
Proof.
  intros Hd. rewrite eq_None_not_Some. split.
  - intros Hn i op Hi Heq. apply Hn. exists op. rewrite abs_lookup by done. by exists i.
  - intros Hn [op Hop]. apply abs_lookup in Hop as (i & Hi & Heq); [|done]. by eapply Hn.
Qed.

(** An operation enters a free slot under a new handle, or replaces itself. *)
Lemma abs_insert_Some l i o op :
  distinct l → l !! i = Some o → (∀ j op', l !! j = Some (Some op') → handle op' = handle op → j = i) →
  (∀ op0, o = Some op0 → handle op0 = handle op) →
  distinct (<[i := Some op]> l) ∧ abs (<[i := Some op]> l) = <[handle op := op]> (abs l).
Proof.
  intros Hd Hi Hu Ho. pose proof (lookup_lt_Some _ _ _ Hi) as Hlt.
  assert (distinct (<[i := Some op]> l)) as Hd'.
  { intros j k oj ok [(<- & [= <-] & _)|[? Hj]]%list_lookup_insert_Some
      [(<- & [= <-] & _)|[? Hk]]%list_lookup_insert_Some Heq; [done| | |by eapply Hd].
    - symmetry. by eapply Hu.
    - by eapply Hu. }
  split; [done|]. apply map_eq. intros h. apply option_eq. intros op'. rewrite abs_lookup by done.
  setoid_rewrite list_lookup_insert_Some. rewrite lookup_insert_Some, abs_lookup by done. split.
  - intros (j & [(<- & [= <-] & _)|[Hne Hj]] & <-); [by left|right]. split; [|by exists j].
    intros Heq. by destruct Hne; symmetry; eapply Hu.
  - intros [[<- <-]|[Hne (j & Hj & <-)]]; [exists i; naive_solver|].
    exists j. split; [|done]. right. split; [|done]. intros <-.
    rewrite Hj in Hi. injection Hi as <-. by eapply Hne, eq_sym, Ho.
Qed.

Lemma abs_insert_None l i op :
  distinct l → l !! i = Some (Some op) →
  distinct (<[i := None]> l) ∧ abs (<[i := None]> l) = delete (handle op) (abs l).
Proof.
  intros Hd Hi. assert (distinct (<[i := None]> l)) as Hd'.
  { intros j k oj ok [(_ & [=] & _)|[_ Hj]]%list_lookup_insert_Some
      [(_ & [=] & _)|[_ Hk]]%list_lookup_insert_Some. by eapply Hd. }
  split; [done|]. apply map_eq. intros h. apply option_eq. intros op'. rewrite abs_lookup by done.
  setoid_rewrite list_lookup_insert_Some. rewrite lookup_delete_Some, abs_lookup by done. split.
  - intros (j & [(_ & [=] & _)|[Hne Hj]] & <-). split; [|by exists j].
    intros Heq. by apply Hne, (Hd i j op op').
  - intros [Hne (j & Hj & <-)]. exists j. split; [|done]. right. split; [|done]. intros <-.
    by simplify_eq.
Qed.
End table.

(** ** What each method does to the table *)

Create Rewrite HintDb ops.
Section methods.
Context `{T : Target} `{ACC : AccumulatingOperation} `{EMIT : EmittingOperation} `{AAD : AadOperation}
  `{HM : !Hmac} `{AES : !Aes} `{DES : !Des} `{RSA : !Rsa} `{EC : !Ec} `{HK : Hkdf} `{R : Rng}
  `{M : !SecureDeletionSecretManager} `{KM : RetrieveKeyMaterial} `{LK : LegacyKeyHandler}
  `{CTE : ConstTimeEq} `{C : Ciborium} `{K : Coset}.

Lemma op_index_Ok (s : KeyMintTa) h i :
  op_index s h = Ok i → ∃ op, ta_operations s !! i = Some (Some op) ∧ handle op = h.
Proof.
  unfold op_index. rewrite ok_or_Ok. intros ([j o] & Hf & ->)%fmap_Some_1.
  apply list_find_Some in Hf as (Hi & Hh & _). destruct o as [op|]; [|done]. by exists op.
Qed.
Lemma op_index_Err (s : KeyMintTa) h e :
  op_index s h = Err e → e = Hal InvalidOperation ∧ ∀ i op, ta_operations s !! i = Some (Some op) → handle op ≠ h.
Proof.
  unfold op_index. destruct (list_find _ _) as [[]|] eqn:Hf; [done|]. cbn. intros [= <-]. split; [done|].
  apply list_find_None in Hf. intros i op Hi Heq.
  by apply (proj1 (Forall_lookup _ _) Hf i (Some op)) in Hi.
Qed.
Lemma op_index_no_panic (s : KeyMintTa) h : op_index s h ≠ Panic.
Proof. apply ok_or_nopanic. Qed.

Lemma ta_operations_set_rng r (s : KeyMintTa) : ta_operations (set_rng r s) = ta_operations s.
Proof. by destruct s. Qed.
Lemma ta_operations_set_presence p (s : KeyMintTa) : ta_operations (set_presence p s) = ta_operations s.
Proof. by destruct s. Qed.
Lemma ta_operations_set_operations l (s : KeyMintTa) : ta_operations (set_operations l s) = l.
Proof. by destruct s. Qed.
Lemma ta_operations_set_use_count l (s : KeyMintTa) : ta_operations (set_use_count l s) = ta_operations s.
Proof. by destruct s. Qed.
Lemma ta_operations_set_sdd_mgr m (s : KeyMintTa) : ta_operations (set_sdd_mgr m s) = ta_operations s.
Proof. by destruct s. Qed.
Lemma ta_operations_clear_presence h (s : KeyMintTa) : ta_operations (clear_presence h s) = ta_operations s.
Proof. unfold clear_presence. case_decide; [apply ta_operations_set_presence|done]. Qed.
#[local] Hint Rewrite ta_operations_set_rng ta_operations_set_presence ta_operations_set_operations
  ta_operations_set_use_count ta_operations_set_sdd_mgr ta_operations_clear_presence : ops.

Lemma update_use_count_state id max (s : KeyMintTa) :
  ∃ l, (update_use_count id max s).2 = set_use_count l s.
Proof.
  unfold update_use_count. destruct (find_use_count _ _ _ _) as [fi si].
  destruct si, fi; cbn; repeat case_match; cbn; eexists; by destruct s.
Qed.
Lemma update_use_count_preserves id max : preserves ta_operations (update_use_count id max).
Proof. intros s. destruct (update_use_count_state id max s) as [l ->]. by autorewrite with ops. Qed.
Lemma check_begin_auths_preserves chars kb : preserves ta_operations (check_begin_auths chars kb).
Proof.
  unfold check_begin_auths. repeat (apply preserves_bind; [auto with preserves|intros]).
  case_match; auto using update_use_count_preserves with preserves.
Qed.
Lemma new_op_handle_loop_preserves fuel : preserves ta_operations (new_op_handle_loop fuel).
Proof.
  induction fuel as [|fuel IH]; intros s; cbn [new_op_handle_loop]; [done|].
  destruct (next_handle _) as [h r]. destruct (op_index _ h); cbn; rewrite ?IH; by autorewrite with ops.
Qed.
Lemma with_rng_preserves {X} (m : stM rng_state Error X) : preserves ta_operations (with_rng m).
Proof. intros s. unfold with_rng. destruct (m _). cbn. by autorewrite with ops. Qed.
Lemma new_op_handle_preserves : preserves ta_operations new_op_handle.
Proof. intros s. apply new_op_handle_loop_preserves. Qed.
#[local] Hint Resolve update_use_count_preserves check_begin_auths_preserves new_op_handle_preserves
  with_rng_preserves : preserves.

Lemma prepare_operation_preserves purpose kb params tok :
  preserves ta_operations (prepare_operation purpose kb params tok).
Proof.
  unfold prepare_operation. repeat (apply preserves_bind; [auto with preserves|intros]).
  repeat case_match; auto with preserves.
Qed.

(** A handle that is drawn is not in use. *)
Lemma new_op_handle_fresh (s : KeyMintTa) h s' :
  new_op_handle s = (Ok h, s') → ∀ i op, ta_operations s !! i = Some (Some op) → handle op ≠ h.
Proof.
  unfold new_op_handle. generalize (S (length (ta_operations s))) as fuel. intros fuel. revert s.
  induction fuel as [|fuel IH]; intros s; cbn [new_op_handle_loop]; [done|].
  destruct (next_handle _) as [h' r]. destruct (op_index _ h') eqn:Hix.
  - intros Hl. specialize (IH _ Hl). by autorewrite with ops in IH.
  - intros [= <- <-]. apply op_index_Err in Hix as [_ Hix]. by autorewrite with ops in Hix.
  - by destruct (op_index_no_panic _ _ Hix).
Qed.

(** What has been checked, and with which results, when an operation starts: on a key
    [k] with the characteristics [chars], whose blob uses the secure deletion slot [slot]. *)
Record started (purpose : KeyPurpose) (kb : bytes) (params : list KeyParam) (tok : option HardwareAuthToken)
    (s : KeyMintTa) (k : PlaintextKeyBlob) (slot : option Z) (chars : list KeyParam)
    (i : nat) (op : Operation) (pres : bool) : Prop := {
  st_index : ta_operations s !! i = Some None;
  st_handle : ∀ j op', ta_operations s !! j = Some (Some op') → handle op' ≠ handle op;
  st_key : keyblob_parse_decrypt s kb params = Ok (k, slot);
  st_chars : characteristics_at (characteristics k) (ta_security_level s) = Ok chars;
  st_params : check_begin_params chars purpose params = Ok tt;
  st_boot : (KP_BootloaderOnly ∈ chars → ta_bootloader_done s = false) ∧
    (KP_EarlyBootOnly ∈ chars → ta_in_early_boot s = true);
  st_conf : ∃ conf : bool, trusted_conf_data op = (if conf then Some CONFIRMATION_DATA_PREFIX else None) ∧
    (if decide (purpose = KeyPurpose_Sign)
     then get_bool_tag_value chars KP_TrustedConfirmationRequired else Ok false) = Ok conf;
  st_slot : ∃ limit, get_opt_tag_value as_UsageCountLimit chars = Ok limit ∧
    slot_to_delete op = match limit with Some 1 => slot | _ => None end;
  st_presence : get_bool_tag_value chars KP_TrustedUserPresenceRequired = Ok pres ∧
    (pres = true → ta_presence_required_op s = None);
  st_auth : ∃ info, AuthInfo_new chars = Ok info ∧ begin_auth s info tok = Ok (auth_info op);
  st_crypto : ∃ r ret r', begin_crypto purpose chars params (key_material k) r =
    (Ok (crypto_op op, aad_allowed op, ret), r');
  st_size : input_size op = 0
}.

Lemma new_operation_index_Ok (s : KeyMintTa) i :
  new_operation_index s = Ok i → ta_operations s !! i = Some None.
Proof.
  unfold new_operation_index. rewrite ok_or_Ok. intros ([j o] & Hf & ->)%fmap_Some_1.
  by apply list_find_Some in Hf as (Hi & -> & _).
Qed.

(** Of the checks at the start, counting a use is the only one that changes the state. *)
Lemma check_begin_auths_state chars kb (s : KeyMintTa) :
  ∃ l, (check_begin_auths chars kb s).2 = set_use_count l s.
Proof.
  assert (∃ l, s = set_use_count l s) as Hs by (exists (ta_use_count s); by destruct s).
  unfold check_begin_auths, mbind, stM_bind, get_st, liftr.
  repeat (case_match; simplify_eq; try exact Hs); apply update_use_count_state.
Qed.

Lemma check_begin_auths_boot chars kb (s : KeyMintTa) u s' :
  check_begin_auths chars kb s = (Ok u, s') →
  (KP_BootloaderOnly ∈ chars → ta_bootloader_done s = false) ∧
  (KP_EarlyBootOnly ∈ chars → ta_in_early_boot s = true).
Proof.
  unfold check_begin_auths. intros Hc. st_inv.
  repeat match goal with H : reject_if _ _ = Ok _ |- _ => apply reject_if_Ok in H; subst end.
  split; intros Hin.
  - destruct (ta_bootloader_done _); [|done]. by edestruct get_bool_tag_value_false.
  - destruct (ta_in_early_boot _); [done|]. cbn in *. by edestruct get_bool_tag_value_false.
Qed.

Lemma prepare_operation_Ok purpose kb params tok (s : KeyMintTa) i op pres ret s' :
  prepare_operation purpose kb params tok s = (Ok (i, op, pres, ret), s') →
  ∃ k slot chars, started purpose kb params tok s k slot chars i op pres ∧
    ∃ r r', begin_crypto purpose chars params (key_material k) r = (Ok (crypto_op op, aad_allowed op, ret), r').
Proof.
  unfold prepare_operation. intros Hp. st_inv.
  repeat match goal with x : _ * _ |- _ => destruct x end. st_inv. cbn [fst snd] in *. simplify_eq.
  match goal with
  | Hc : check_begin_auths ?ch _ ?s0 = (Ok _, ?s1), Hk : keyblob_parse_decrypt _ _ _ = Ok (?k, ?sl),
    Hp : check_begin_params _ _ _ = Ok ?u |- _ =>
    exists k, sl, ch; destruct u; pose proof (check_begin_auths_boot _ _ _ _ _ Hc) as Hboot; pose proof (check_begin_auths_state ch kb s0) as [l Hl];
    rewrite Hc in Hl; cbn in Hl; subst s1; rename s0 into s
  end.
  assert (∀ x, ta_operations (set_use_count x s) = ta_operations s ∧
               ta_presence_required_op (set_use_count x s) = ta_presence_required_op s ∧
               ∀ i, begin_auth (set_use_count x s) i tok = begin_auth s i tok) as Hs by (by destruct s).
  destruct (Hs l) as (Ho & Hpr & Ha). rewrite Hpr, Ha in *.
  unfold with_rng in *. match goal with H : context [begin_crypto ?a ?b ?c ?d ?r] |- _ =>
    destruct (begin_crypto a b c d r) as [v r'] eqn:Hc; injection H as -> _ end.
  split; [|by eauto]. split; cbn; try done; eauto using new_operation_index_Ok.
  - rewrite <- Ho. by eapply new_op_handle_fresh.
  - split; [done|]. intros ->. res_inv. cbn in *.
    destruct (ta_presence_required_op s); [|done]. by rewrite bool_decide_eq_true_2 in * by eauto.
Qed.

(** [begin_operation] either fails and leaves the table alone, or starts an operation. *)
Lemma begin_operation_inv purpose kb params tok (s : KeyMintTa) r s' :
  begin_operation purpose kb params tok s = (r, s') → r ≠ Panic →
  (∃ e, r = Err e ∧ ta_operations s' = ta_operations s) ∨
  (∃ k slot chars i op pres ret,
     started purpose kb params tok s k slot chars i op pres ∧
     r = Ok {| InternalBeginResult_challenge := handle op; InternalBeginResult_params := ret;
               InternalBeginResult_op_handle := handle op |} ∧
     ta_operations s' = <[i := Some op]> (ta_operations s) ∧
     (pres = true → ta_presence_required_op s' = Some (handle op)) ∧
     ∃ rng rng', begin_crypto purpose chars params (key_material k) rng =
       (Ok (crypto_op op, aad_allowed op, ret), rng')).
Proof.
  unfold begin_operation, mbind, stM_bind.
  pose proof (prepare_operation_preserves purpose kb params tok s) as Hops.
  destruct (prepare_operation purpose kb params tok s) as [[p|e|] s1] eqn:Hp; cbn in Hops.
  - destruct p as [[[i op] pres] ret]. intros [= <- <-] _. right.
    apply prepare_operation_Ok in Hp as (k & slot & chars & Hst & Hcr).
    exists k, slot, chars, i, op, pres, ret. split_and!; [done..| | |done].
    + destruct pres; autorewrite with ops; by rewrite Hops.
    + intros ->. by destruct s1.
  - intros [= <- <-] _. left. eauto.
  - intros [= <- <-]. done.
Qed.

(** The same for a call on an operation in progress, up to the point where [f] runs. *)
Lemma with_authed_operation_inv {X} h tok tst (f : Operation → Result (X * Operation)) (s : KeyMintTa) r s' :
  with_authed_operation h tok tst f s = (r, s') → r ≠ Panic →
  (∃ e, r = Err e ∧ s' = s ∧
     (∀ i op, ta_operations s !! i = Some (Some op) → handle op = h → distinct (ta_operations s) →
              check_subsequent_auth s op tok tst = Err e)) ∨
  (∃ i op again, ta_operations s !! i = Some (Some op) ∧ handle op = h ∧
     check_subsequent_auth s op tok tst = Ok again ∧
     ((∃ v op', f (if again then op else clear_auth op) = Ok (v, op') ∧ r = Ok v ∧
                s' = set_operations (<[i := Some op']> (ta_operations s)) s) ∨
      (∃ e, f (if again then op else clear_auth op) = Err e ∧ r = Err e ∧
            s' = set_operations (<[i := None]> (ta_operations s)) (clear_presence h s)))).
Proof.
  unfold with_authed_operation. intros Hw Hr. destruct (op_index s h) as [i|e|] eqn:Hi.
  - apply op_index_Ok in Hi as (op & Hop & Hh). rewrite Hop in Hw.
    destruct (check_subsequent_auth s op tok tst) as [again|e|] eqn:Ha.
    + right. exists i, op, again. split_and!; [done..|].
      destruct (f _) as [[v op']|e|]; injection Hw as <- <-; [left|right|done]; eauto.
    + left. injection Hw as <- <-. exists e. split_and!; [done..|]. intros j op' Hj Hh' Hd.
      assert (j = i) as -> by (eapply Hd; [done..|congruence]). by simplify_eq.
    + by injection Hw as <- <-.
  - left. injection Hw as <- <-. exists e. split_and!; [done..|]. intros j op' Hj Hh' _.
    apply op_index_Err in Hi as [_ Hi]. by destruct (Hi j op').
  - by injection Hw as <- <-.
Qed.

Lemma take_operation_inv h (s : KeyMintTa) r s' :
  take_operation h s = (r, s') → r ≠ Panic →
  (r = Err (Hal InvalidOperation) ∧ s' = s ∧ ∀ i op, ta_operations s !! i = Some (Some op) → handle op ≠ h) ∨
  (∃ i op, ta_operations s !! i = Some (Some op) ∧ handle op = h ∧ r = Ok op ∧
           s' = set_operations (<[i := None]> (ta_operations s)) s).
Proof.
  unfold take_operation. intros Ht Hr. destruct (op_index s h) as [i|e|] eqn:Hi.
  - apply op_index_Ok in Hi as (op & Hop & Hh). rewrite Hop in Ht. injection Ht as <- <-. right. by exists i, op.
  - injection Ht as <- <-. apply op_index_Err in Hi as [-> Hi]. by left.
  - by injection Ht as <- <-.
Qed.

Lemma delete_used_slot_preserves slot : preserves ta_operations (delete_used_slot slot).
Proof.
  intros s. unfold delete_used_slot. repeat case_match; cbn; by autorewrite with ops.
Qed.
Lemma check_finish_presence_preserves h : preserves ta_operations (check_finish_presence h).
Proof. intros s. unfold check_finish_presence. case_decide; cbn; by autorewrite with ops. Qed.

(** Everything in [op_finish] after the operation is removed from the table. *)
Lemma op_finish_take h data sig tok tst conf (s : KeyMintTa) :
  ta_operations (op_finish h data sig tok tst conf s).2 = ta_operations (take_operation h s).2.
Proof.
  unfold op_finish, mbind at 1, stM_bind at 1. destruct (take_operation h s) as [[op|e|] s1]; [|done..].
  match goal with |- ta_operations (?c s1).2 = _ => cut (preserves ta_operations c); [intros Hc; apply Hc|] end.
  repeat (apply preserves_bind; [auto using check_finish_presence_preserves, delete_used_slot_preserves
    with preserves|intros]); auto with preserves.
Qed.

(** ** Calls, and what they mean for the map of operations *)

Inductive Call :=
| Begin (purpose : KeyPurpose) (key_blob : bytes) (params : list KeyParam) (auth_token : option HardwareAuthToken)
| UpdateAad (h : Z) (data : bytes) (auth_token : option HardwareAuthToken) (timestamp_token : option TimeStampToken)
| Update (h : Z) (data : bytes) (auth_token : option HardwareAuthToken) (timestamp_token : option TimeStampToken)
| Finish (h : Z) (data signature : option bytes) (auth_token : option HardwareAuthToken)
    (timestamp_token : option TimeStampToken) (confirmation_token : option bytes)
| Abort (h : Z).
Inductive Reply := Begun (r : InternalBeginResult) | Done | Output (data : bytes).
Definition do_call (c : Call) : TA Reply :=
  match c with
  | Begin purpose kb params tok => r ← begin_operation purpose kb params tok; mret (Begun r)
  | UpdateAad h data tok tst => _ ← op_update_aad h data tok tst; mret Done
  | Update h data tok tst => out ← op_update h data tok tst; mret (Output out)
  | Finish h data sig tok tst conf => out ← op_finish h data sig tok tst conf; mret (Output out)
  | Abort h => _ ← op_abort h; mret Done
  end.

(** The specification: operations are entries of a map from handles. A new operation has
    an unused handle; a call on an operation changes its own entry only, and on failure
    either leaves the map alone or removes the entry; [finish] and [abort] always remove
    the entry; a handle without an entry is refused with [InvalidOperation]. *)
Inductive abs_step : Call → Result Reply → gmap Z Operation → gmap Z Operation → Prop :=
| abs_begin purpose kb params tok ret op m :
    m !! handle op = None →
    abs_step (Begin purpose kb params tok)
      (Ok (Begun {| InternalBeginResult_challenge := handle op; InternalBeginResult_params := ret;
                    InternalBeginResult_op_handle := handle op |})) m (<[handle op := op]> m)
| abs_begin_fails purpose kb params tok e m : abs_step (Begin purpose kb params tok) (Err e) m m
| abs_update_aad h data tok tst op op' m :
    m !! h = Some op → handle op' = h → abs_step (UpdateAad h data tok tst) (Ok Done) m (<[h := op']> m)
| abs_update_aad_refused h data tok tst e m :
    (m !! h = None → e = Hal InvalidOperation) → abs_step (UpdateAad h data tok tst) (Err e) m m
| abs_update_aad_fails h data tok tst e op m :
    m !! h = Some op → abs_step (UpdateAad h data tok tst) (Err e) m (delete h m)
| abs_update h data tok tst op op' out m :
    m !! h = Some op → handle op' = h → abs_step (Update h data tok tst) (Ok (Output out)) m (<[h := op']> m)
| abs_update_refused h data tok tst e m :
    (m !! h = None → e = Hal InvalidOperation) → abs_step (Update h data tok tst) (Err e) m m
| abs_update_fails h data tok tst e op m :
    m !! h = Some op → abs_step (Update h data tok tst) (Err e) m (delete h m)
| abs_finish h data sig tok tst conf r m :
    (m !! h = None → r = Err (Hal InvalidOperation)) →
    abs_step (Finish h data sig tok tst conf) r m (delete h m)
| abs_abort h r m :
    r = (if decide (is_Some (m !! h)) then Ok Done else Err (Hal InvalidOperation)) →
    abs_step (Abort h) r m (delete h m).

(** Running a call's method and wrapping its result. *)
Lemma wrap_inv {X Y} (m : TA X) (g : X → Y) (s : KeyMintTa) r s' :
  (x ← m; mret (g x)) s = (r, s') → r ≠ Panic →
  (∃ x, m s = (Ok x, s') ∧ r = Ok (g x)) ∨ (∃ e, m s = (Err e, s') ∧ r = Err e).
Proof.
  unfold mbind, stM_bind, mret, stM_ret. destruct (m s) as [[x|e|] s1]; intros [= <- <-] ?; naive_solver.
Qed.

Lemma check_size_handle (op op' : Operation) n : check_size op n = Ok op' → ∃ z, op' = set_input_size z op.
Proof. unfold check_size. intros Hc. res_inv. split_match_in Hc; res_inv; eauto. Qed.
Lemma update_aad_op_handle data (op op' : Operation) v : update_aad_op data op = Ok (v, op') → handle op' = handle op.
Proof. unfold update_aad_op. intros Hu. res_inv. split_match_in Hu. by res_inv. Qed.
Lemma extend_conf_handle data (op op' : Operation) : extend_conf data op = Ok op' → ∃ d, op' = set_conf d op.
Proof.
  unfold extend_conf. intros Hc. split_match_in Hc; res_inv; [by eexists|].
  exists None. destruct op'. cbn in *. by subst.
Qed.
Lemma update_op_handle b t data (op op' : Operation) v : update_op b t data op = Ok (v, op') → handle op' = handle op.
Proof.
  unfold update_op. intros Hu. res_inv.
  repeat match goal with
  | H : extend_conf _ _ = Ok _ |- _ => apply extend_conf_handle in H as [? ->]
  | H : check_size _ _ = Ok _ |- _ => apply check_size_handle in H as [? ->]
  end. split_match_in Hu. by res_inv.
Qed.
Lemma handle_after_auth (again : bool) (op : Operation) : handle (if again then op else clear_auth op) = handle op.
Proof. by destruct again. Qed.

(** Both kinds of update, for [f] that keeps the handle. *)
Lemma with_authed_operation_abs {X} h tok tst (f : Operation → Result (X * Operation)) (s : KeyMintTa) r s' :
  (∀ op v op', f op = Ok (v, op') → handle op' = handle op) →
  distinct (ta_operations s) → with_authed_operation h tok tst f s = (r, s') → r ≠ Panic →
  let m := abs (ta_operations s) in let m' := abs (ta_operations s') in
  distinct (ta_operations s') ∧ length (ta_operations s') = length (ta_operations s) ∧
  ((∃ v op again op', r = Ok v ∧ m !! h = Some op ∧ check_subsequent_auth s op tok tst = Ok again ∧
      f (if again then op else clear_auth op) = Ok (v, op') ∧ handle op' = h ∧ m' = <[h := op']> m) ∨
   (∃ e, r = Err e ∧ m' = m ∧ (m !! h = None → e = Hal InvalidOperation)) ∨
   (∃ e op, r = Err e ∧ m !! h = Some op ∧ m' = delete h m)).
Proof.
  intros Hf Hd Hw Hr m m'. destruct (op_index s h) as [i0|e0|] eqn:Hix;
    [|unfold with_authed_operation in Hw; rewrite Hix in Hw; injection Hw as <- <-..]; [| |done].
  2: { apply op_index_Err in Hix as [-> _]. split_and!; [done..|]. right. left. eauto. }
  apply op_index_Ok in Hix as (op0 & Hop0 & Hh0).
  assert (m !! h = Some op0) as Hm by (apply abs_lookup; eauto).
  apply with_authed_operation_inv in Hw as [(e & -> & -> & _)|(i & op & again & Hi & Hh & Hau & Hw)]; [| |done].
  { split_and!; [done..|]. right. left. exists e. by rewrite Hm. }
  assert (m !! h = Some op) as Hm' by (apply abs_lookup; eauto).
  destruct Hw as [(v & op' & Hfv & -> & ->)|(e & _ & -> & ->)]; unfold m'; autorewrite with ops;
    rewrite length_insert.
  - pose proof (Hf _ _ _ Hfv) as Hh'. rewrite handle_after_auth in Hh'.
    destruct (abs_insert_Some (ta_operations s) i (Some op) op') as [? ->]; [done..| | |].
    + intros j op2 Hj Heq. eapply Hd; [done..|congruence].
    + intros ? [= <-]. congruence.
    + split_and!; [done..|]. left. exists v, op, again, op'. by rewrite Hh', Hh.
  - destruct (abs_insert_None (ta_operations s) i op) as [? ->]; [done..|].
    split_and!; [done..|]. right. right. exists e, op. by rewrite Hh.
Qed.

Lemma take_operation_abs h (s : KeyMintTa) :
  distinct (ta_operations s) →
  let s' := (take_operation h s).2 in
  distinct (ta_operations s') ∧ length (ta_operations s') = length (ta_operations s) ∧
  abs (ta_operations s') = delete h (abs (ta_operations s)) ∧
  is_ok (take_operation h s).1 = bool_decide (is_Some (abs (ta_operations s) !! h)) ∧
  (abs (ta_operations s) !! h = None → (take_operation h s).1 = Err (Hal InvalidOperation)).
Proof.
  intros Hd. assert (∃ r s', take_operation h s = (r, s') ∧ r ≠ Panic) as (r & s' & Ht & Hr).
  { unfold take_operation. destruct (op_index s h) eqn:Hi; [|by eauto|by destruct (op_index_no_panic s h)].
    apply op_index_Ok in Hi as (op & -> & _). by eauto. }
  rewrite Ht. cbn. apply take_operation_inv in Ht as [(-> & -> & Hn)|(i & op & Hi & <- & -> & ->)]; [| |done].
  - apply abs_lookup_None in Hn; [|done]. rewrite Hn. split_and!; try done.
    by rewrite delete_id.
  - autorewrite with ops. rewrite length_insert.
    destruct (abs_insert_None (ta_operations s) i op) as [? ->]; [done..|].
    assert (abs (ta_operations s) !! handle op = Some op) as -> by (apply abs_lookup; eauto).
    by split_and!.
Qed.

Lemma begin_abs purpose kb params tok (s : KeyMintTa) r s' :
  distinct (ta_operations s) → do_call (Begin purpose kb params tok) s = (r, s') → r ≠ Panic →
  distinct (ta_operations s') ∧ length (ta_operations s') = length (ta_operations s) ∧
  abs_step (Begin purpose kb params tok) r (abs (ta_operations s)) (abs (ta_operations s')).
Proof.
  intros Hd Hc Hr. apply wrap_inv in Hc as [(x & Hb & ->)|(e & Hb & ->)]; [| |done].
  - apply begin_operation_inv in Hb
      as [(e & [=] & _)|(k & sl & ch & i & op & pres & ret & Hst & [= ->] & -> & _)]; [|done].
    destruct (abs_insert_Some (ta_operations s) i None op) as [? ->];
      [done|by eapply st_index| |done|].
    { intros j op' Hj Heq. by destruct (st_handle _ _ _ _ _ _ _ _ _ _ _ Hst j op'). }
    rewrite length_insert. split_and!; [done..|]. constructor.
    apply abs_lookup_None; [done|]. intros. by eapply st_handle.
  - apply begin_operation_inv in Hb as [(e' & _ & ->)|(k & sl & ch & i & op & pres & ret & _ & [=] & _)]; [|done].
    split_and!; [done..|constructor].
Qed.

(** Each call implements its step of the specification. *)
Lemma table_step c (s : KeyMintTa) r s' :
  distinct (ta_operations s) → do_call c s = (r, s') → r ≠ Panic →
  distinct (ta_operations s') ∧ length (ta_operations s') = length (ta_operations s) ∧
  abs_step c r (abs (ta_operations s)) (abs (ta_operations s')).
Proof.
  intros Hd Hc Hr. destruct c as [purpose kb params tok|h data tok tst|h data tok tst|h data sig tok tst conf|h].
  - by apply begin_abs.
  - apply wrap_inv in Hc as [(x & Hc & ->)|(e & Hc & ->)]; [| |done];
      (eapply with_authed_operation_abs in Hc as (? & ? & Hs); [|eauto using update_aad_op_handle|done..]);
      split_and!; try done; destruct Hs as [(?&?&?&?&?&?&?&?&?&->)|[(?&?&->&?)|(?&?&?&?&->)]]; simplify_eq;
      econstructor; eauto.
  - apply wrap_inv in Hc as [(x & Hc & ->)|(e & Hc & ->)]; [| |done]; unfold op_update in Hc;
      (eapply with_authed_operation_abs in Hc as (? & ? & Hs); [|eauto using update_op_handle| |done]);
      try (by autorewrite with ops); autorewrite with ops in *;
      split_and!; try done; destruct Hs as [(?&?&?&?&?&?&?&?&?&->)|[(?&?&->&?)|(?&?&?&?&->)]]; simplify_eq;
      econstructor; eauto.
  - pose proof (op_finish_take h data sig tok tst conf s) as Hft.
    destruct (take_operation_abs h s Hd) as (? & ? & Ha & _ & Hn).
    assert (abs (ta_operations s) !! h = None → (op_finish h data sig tok tst conf s).1 = Err (Hal InvalidOperation)) as Hn'.
    { intros Hnone. specialize (Hn Hnone). unfold op_finish, mbind, stM_bind.
      destruct (take_operation h s) as [[]?]; cbn in *; congruence. }
    apply wrap_inv in Hc as [(x & Hc & ->)|(e & Hc & ->)]; [| |done]; rewrite Hc in *; cbn in *;
      rewrite Hft, Ha; split_and!; try done; apply abs_finish; intros Hnone; specialize (Hn' Hnone); by simplify_eq.
  - destruct (take_operation_abs h (clear_presence h s)) as (? & ? & Ha & Hok & Hn);
      [by autorewrite with ops|]. autorewrite with ops in *.
    cbn in Hc. unfold op_abort, modify, mbind, stM_bind, mret, stM_ret in Hc.
    destruct (take_operation h (clear_presence h s)) as [[op|e|] s1]; cbn in *; injection Hc as <- <-; [| |done];
      rewrite Ha; split_and!; try done; apply abs_abort.
    + symmetry in Hok. apply bool_decide_eq_true in Hok. by rewrite decide_True.
    + symmetry in Hok. apply bool_decide_eq_false in Hok. rewrite decide_False by done.
      rewrite <- eq_None_not_Some in Hok. by injection (Hn Hok) as ->.
Qed.

(** ** Sequences of calls *)

(** What happened since start-up, and the state it led to. Between calls the rest of
    the device may change: other requests are served, time passes, a user is present or
    not. *)
Inductive run : list (Call * Result Reply) → KeyMintTa → Prop :=
| run_start s : Forall (.= None) (ta_operations s) → run [] s
| run_call evs s c r s' : run evs s → do_call c s = (r, s') → r ≠ Panic → run (evs ++ [(c, r)]) s'
| run_env evs s s' : run evs s → ta_operations s' = ta_operations s → run evs s'.

(** The data that the operation now known by [h] has been given so far. *)
Definition note_update (h : Z) (chunks : list bytes) (ev : Call * Result Reply) : list bytes :=
  match ev with
  | (Begin _ _ _ _, Ok (Begun r)) => if decide (InternalBeginResult_op_handle r = h) then [] else chunks
  | (Update h' data _ _, Ok _) => if decide (h' = h) then chunks ++ [data] else chunks
  | _ => chunks
  end.
Definition updates_of (h : Z) (evs : list (Call * Result Reply)) : list bytes := foldl (note_update h) [] evs.
Definition input_of (h : Z) (evs : list (Call * Result Reply)) : bytes := concat (updates_of h evs).

(** What the fields of an operation say about its past. *)
Record op_inv (chunks : list bytes) (op : Operation) : Prop := {
  inv_conf : ∀ d, trusted_conf_data op = Some d →
    d = CONFIRMATION_DATA_PREFIX ++ concat chunks ∧ len (concat chunks) ≤ CONFIRMATION_MESSAGE_MAX_LEN;
  inv_aad : aad_allowed op = true → chunks = [] ∧ ∃ c, crypto_op op = Op_AesGcm c;
  inv_size : input_size op = as_unsigned 64 (len (concat chunks))
}.
Definition session_inv (evs : list (Call * Result Reply)) (m : gmap Z Operation) : Prop :=
  map_Forall (λ h op, op_inv (updates_of h evs) op) m.

Lemma ovf_unsigned_as w z (x : Z) : ovf_unsigned (E:=Error) w z = Ok x → x = as_unsigned w z.
Proof. 
  unfold ovf_unsigned. case_decide; [|case_match]; intros [= <-]; [|done].
  symmetry. by apply as_unsigned_id.
Qed.

Lemma begin_crypto_aad purpose chars params key r c ret r' :
  begin_crypto purpose chars params key r = (Ok (c, true, ret), r') → ∃ a, c = Op_AesGcm a.
Proof.
  unfold begin_crypto. intros Hb. destruct key; try (destruct purpose; st_inv; done).
  st_inv. case_match; st_inv; simplify_eq. by eexists.
Qed.
Lemma started_inv purpose kb params tok (s : KeyMintTa) k slot chars i op pres :
  started purpose kb params tok s k slot chars i op pres → op_inv [] op.
Proof.
  intros Hst. split.
  - intros d Hd. destruct (st_conf _ _ _ _ _ _ _ _ _ _ _ Hst) as (conf & Hc & _). rewrite Hc in Hd.
    destruct conf; [injection Hd as <-; done|done].
  - intros Ha. split; [done|]. destruct (st_crypto _ _ _ _ _ _ _ _ _ _ _ Hst) as (r & ret & r' & Hc).
    rewrite Ha in Hc. by eapply begin_crypto_aad.
  - by rewrite (st_size _ _ _ _ _ _ _ _ _ _ _ Hst).
Qed.

Lemma clear_auth_inv chunks op : op_inv chunks op → op_inv chunks (clear_auth op).
Proof. by intros []. Qed.
Lemma update_aad_op_inv chunks data (op op' : Operation) v :
  op_inv chunks op → update_aad_op data op = Ok (v, op') → op_inv chunks op' ∧ chunks = [].
Proof.
  intros [Hc Ha Hs] Hu. unfold update_aad_op in Hu. res_inv.
  destruct (aad_allowed op) eqn:Hal; [|done]. destruct (Ha eq_refl) as [-> [c Hop]].
  rewrite Hop in Hu. res_inv. split; [|done]. split; [done| |done]. cbn. by eauto.
Qed.

#[local] Opaque CONFIRMATION_DATA_PREFIX.
(** How each field changes when data arrives. *)
Lemma extend_conf_inv chunks data (op op' : Operation) :
  op_inv chunks op → extend_conf data op = Ok op' →
  ∀ d, trusted_conf_data op' = Some d →
       d = CONFIRMATION_DATA_PREFIX ++ concat chunks ++ data ∧
       len (concat chunks ++ data) ≤ CONFIRMATION_MESSAGE_MAX_LEN.
Proof.
  intros [Hc _ _] He d Hd. unfold extend_conf in He. 
  destruct (trusted_conf_data op) as [d0|] eqn:Hop; [|res_inv; congruence].
  destruct (Hc d0 eq_refl) as [-> _]. res_inv. apply (inj Some) in Hd as <-.
  match goal with H : bool_decide _ = false |- _ => apply bool_decide_eq_false in H end.
  rewrite <- (assoc_L (++)). split; [done|]. rewrite !len_app in *. lia.
Qed.
Lemma check_size_Ok chunks (op op' : Operation) (data : bytes) :
  input_size op = as_unsigned 64 (len (concat chunks)) → check_size op (len data) = Ok op' →
  input_size op' = as_unsigned 64 (len (concat chunks ++ data)) ∧
  ∀ n, max_input_size (crypto_op op) = Some n → input_size op' ≤ n.
Proof.
  intros Hs Hc. unfold check_size in Hc. apply res_bind_Ok in Hc as (z & Hz & Hc).
  apply ovf_unsigned_as in Hz. assert (z = as_unsigned 64 (len (concat chunks ++ data))) as ->.
  { rewrite Hz, Hs, len_app. unfold as_unsigned. by rewrite Zplus_mod_idemp_l. }
  cbn [crypto_op set_input_size] in Hc. destruct (max_input_size (crypto_op op)) as [m|]; res_inv.
  - match goal with H : bool_decide _ = false |- _ => apply bool_decide_eq_false in H end.
    split; [done|]. intros ? [= <-]. cbn in *. lia.
  - by split.
Qed.

Lemma update_op_inv chunks b t data (op op' : Operation) v :
  op_inv chunks op → update_op b t data op = Ok (v, op') → op_inv (chunks ++ [data]) op'.
Proof.
  intros Hinv Hu. unfold update_op in Hu. res_inv.
  match goal with He : extend_conf _ _ = Ok ?op1, Hs : check_size _ _ = Ok ?op2 |- _ =>
    pose proof (extend_conf_inv _ _ _ _ Hinv He) as Hconf;
    apply extend_conf_handle in He as [d0 ->];
    pose proof (check_size_handle _ _ _ Hs) as [z ->];
    apply (check_size_Ok chunks) in Hs as [Hsz _]; [|apply Hinv]
  end.
  split_match_in Hu. res_inv. split.
  - cbn. rewrite concat_app. cbn. rewrite app_nil_r. apply Hconf.
  - done.
  - cbn. rewrite concat_app. cbn. by rewrite app_nil_r.
Qed.

Lemma updates_of_snoc h evs ev : updates_of h (evs ++ [ev]) = note_update h (updates_of h evs) ev.
Proof. unfold updates_of. by rewrite foldl_app. Qed.

(** An event that is neither a start nor an update tells nothing new. *)
Lemma session_inv_same evs ev m m' :
  (∀ h chunks, note_update h chunks ev = chunks) → m' ⊆ m → session_inv evs m → session_inv (evs ++ [ev]) m'.
Proof.
  intros Hn Hsub Hinv h op Hop. rewrite updates_of_snoc, Hn.
  apply Hinv. by eapply lookup_weaken.
Qed.
Lemma session_inv_insert evs ev m h op :
  (∀ h' chunks, h' ≠ h → note_update h' chunks ev = chunks) → op_inv (note_update h (updates_of h evs) ev) op →
  session_inv evs m → session_inv (evs ++ [ev]) (<[h := op]> m).
Proof.
  intros Hn Hop Hinv h' op' [[<- <-]|[Hne Hl]]%lookup_insert_Some; rewrite updates_of_snoc; [done|].
  rewrite Hn by done. by apply Hinv.
Qed.

Lemma session_inv_begin evs purpose kb params tok (s : KeyMintTa) r s' :
  distinct (ta_operations s) → session_inv evs (abs (ta_operations s)) →
  do_call (Begin purpose kb params tok) s = (r, s') → r ≠ Panic →
  session_inv (evs ++ [(Begin purpose kb params tok, r)]) (abs (ta_operations s')).
Proof.
  intros Hd Hinv Hc Hr. apply wrap_inv in Hc as [(x & Hb & ->)|(e & Hb & ->)]; [| |done].
  - apply begin_operation_inv in Hb
      as [(e & [=] & _)|(k & sl & ch & i & op & pres & ret & Hst & [= ->] & -> & _)]; [|done].
    destruct (abs_insert_Some (ta_operations s) i None op) as [_ ->];
      [done|by eapply st_index| |done|].
    { intros j op' Hj Heq. by destruct (st_handle _ _ _ _ _ _ _ _ _ _ _ Hst j op'). }
    apply session_inv_insert; [|cbn|done].
    + intros h' chunks Hne. cbn. by rewrite decide_False.
    + rewrite decide_True by done. by eapply started_inv.
  - apply begin_operation_inv in Hb as [(e' & _ & ->)|(k & sl & ch & i & op & pres & ret & _ & [=] & _)]; [|done].
    eapply session_inv_same; [done|reflexivity|done].
Qed.

Lemma session_inv_update_aad evs h data tok tst (s : KeyMintTa) r s' :
  distinct (ta_operations s) → session_inv evs (abs (ta_operations s)) →
  do_call (UpdateAad h data tok tst) s = (r, s') → r ≠ Panic →
  session_inv (evs ++ [(UpdateAad h data tok tst, r)]) (abs (ta_operations s')).
Proof.
  intros Hd Hinv Hc Hr.
  apply wrap_inv in Hc as [(x & Hc & ->)|(e & Hc & ->)]; [| |done];
    (eapply with_authed_operation_abs in Hc as (_ & _ & Hs); [|eauto using update_aad_op_handle|done..]);
    destruct Hs as [(v & op & again & op' & ? & Hm & _ & Hf & _ & ->)|[(?&?&->&_)|(?&?&?&_&->)]]; simplify_eq.
  - apply session_inv_insert; [done| |done]. cbn. eapply update_aad_op_inv; [|done].
    destruct again; [|apply clear_auth_inv]; by apply Hinv.
  - eapply session_inv_same; [done|reflexivity|done].
  - eapply session_inv_same; [done|apply delete_subseteq|done].
Qed.

Lemma session_inv_update evs h data tok tst (s : KeyMintTa) r s' :
  distinct (ta_operations s) → session_inv evs (abs (ta_operations s)) →
  do_call (Update h data tok tst) s = (r, s') → r ≠ Panic →
  session_inv (evs ++ [(Update h data tok tst, r)]) (abs (ta_operations s')).
Proof.
  intros Hd Hinv Hc Hr.
  apply wrap_inv in Hc as [(x & Hc & ->)|(e & Hc & ->)]; [| |done]; unfold op_update in Hc;
    (eapply with_authed_operation_abs in Hc as (_ & _ & Hs); [|eauto using update_op_handle| |done]);
    try (by autorewrite with ops); autorewrite with ops in Hs;
    destruct Hs as [(v & op & again & op' & ? & Hm & _ & Hf & _ & ->)|[(?&?&->&_)|(?&?&?&_&->)]]; simplify_eq.
  - apply session_inv_insert; [|cbn|done].
    + intros h' chunks Hne. cbn. by rewrite decide_False.
    + rewrite decide_True by done. eapply update_op_inv; [|done].
      destruct again; [|apply clear_auth_inv]; by apply Hinv.
  - eapply session_inv_same; [done|reflexivity|done].
  - eapply session_inv_same; [done|apply delete_subseteq|done].
Qed.

Lemma run_inv evs (s : KeyMintTa) :
  run evs s → distinct (ta_operations s) ∧ session_inv evs (abs (ta_operations s)).
Proof.
  induction 1 as [s Hnone|evs s c r s' _ [Hd Hinv] Hc Hr|evs s s' _ [Hd Hinv] Heq].
  - pose proof (distinct_empty _ Hnone) as Hd. split; [done|].
    intros h op (i & Hi & _)%abs_lookup; [|done]. by apply (proj1 (Forall_lookup _ _) Hnone) in Hi.
  - destruct (table_step c s r s') as (Hd' & _ & Hs); [done..|]. split; [done|].
    destruct c; [exact (session_inv_begin _ _ _ _ _ _ _ _ Hd Hinv Hc Hr)|
      exact (session_inv_update_aad _ _ _ _ _ _ _ _ Hd Hinv Hc Hr)|
      exact (session_inv_update _ _ _ _ _ _ _ _ Hd Hinv Hc Hr)|..];
      inversion Hs; subst; (eapply session_inv_same; [done|apply delete_subseteq|done]).
  - by rewrite Heq.
Qed.

(** Sequences of calls for the specification, from no operations at all. *)
Inductive abs_run : list (Call * Result Reply) → gmap Z Operation → Prop :=
| abs_run_start : abs_run [] ∅
| abs_run_call evs m c r m' : abs_run evs m → abs_step c r m m' → abs_run (evs ++ [(c, r)]) m'.

Lemma abs_size (l : list (option Operation)) : (size (abs l) ≤ length l)%nat.
Proof.
  induction l as [|[op|] l IH]; cbn [abs foldr length]; [by rewrite map_size_empty| |unfold abs in IH; lia].
  rewrite map_size_insert. unfold abs in IH. case_match; cbn; lia.
Qed.

(** C1: the table of operations refines a map from handles to operations: every sequence
    of calls, with whatever happens on the device in between, is a sequence of steps of
    the specification [abs_step] with the same results; the table never holds two
    operations with the same handle, and it holds each operation of the map once. *)
Theorem table_refines_map evs (s : KeyMintTa) :
  run evs s →
  abs_run evs (abs (ta_operations s)) ∧ distinct (ta_operations s) ∧
  (size (abs (ta_operations s)) ≤ length (ta_operations s))%nat ∧
  (∀ h op, abs (ta_operations s) !! h = Some op ↔ ∃ i, ta_operations s !! i = Some (Some op) ∧ handle op = h).
Proof.
  intros Hrun. pose proof (run_inv evs s Hrun) as [Hd _].
  split; [|split_and!; [done|apply abs_size|intros; by apply abs_lookup]]. clear Hd.
  induction Hrun as [s Hnone|evs s c r s' Hrun IH Hc Hr|evs s s' _ IH Heq].
  - assert (abs (ta_operations s) = ∅) as ->; [|constructor].
    induction Hnone as [|o l -> _ IH]; [done|]. by cbn.
  - apply run_inv in Hrun as [Hd _]. econstructor; [done|]. by apply table_step.
  - by rewrite Heq.
Qed.

(** ** What a successful call has checked *)

(** The checks of tokens do not depend on the table of operations or on presence. *)
Lemma check_subsequent_auth_ops l p (s : KeyMintTa) op tok tst :
  check_subsequent_auth (set_operations l s) op tok tst = check_subsequent_auth s op tok tst ∧
  check_subsequent_auth (set_presence p s) op tok tst = check_subsequent_auth s op tok tst.
Proof. by destruct s. Qed.
Lemma verify_confirmation_token_ops l p (s : KeyMintTa) d t :
  verify_confirmation_token (set_operations l s) d t = verify_confirmation_token s d t ∧
  verify_confirmation_token (set_presence p s) d t = verify_confirmation_token s d t.
Proof. by destruct s. Qed.

Record finished (h : Z) (data signature : option bytes) (tok : option HardwareAuthToken)
    (tst : option TimeStampToken) (conf : option bytes) (s s' : KeyMintTa) (out : bytes) (op op1 op2 : Operation) : Prop := {
  fin_live : ∃ i, ta_operations s !! i = Some (Some op) ∧ handle op = h;
  fin_auth : ∃ again, check_subsequent_auth s op tok tst = Ok again;
  fin_presence : ta_presence_required_op s = Some h → ta_tup_available s = true;
  fin_conf : match data with Some data => extend_conf data op | None => Ok op end = Ok op1;
  fin_size : check_size op1 (from_option len 0 data) = Ok op2;
  fin_output : crypto_finish (crypto_op op2) data signature = Ok out;
  fin_token : ∀ d, trusted_conf_data op2 = Some d → verify_confirmation_token s d conf = Ok tt;
  fin_slot : ∀ sl m, slot_to_delete op2 = Some sl → ta_sdd_mgr s = Some m →
    (delete_secret sl m).1 ≠ Panic ∧ ta_sdd_mgr s' = Some (delete_secret sl m).2
}.

Lemma check_finish_presence_Ok h (s : KeyMintTa) u s' :
  check_finish_presence h s = (Ok u, s') →
  (ta_presence_required_op s = Some h → ta_tup_available s = true) ∧ (s' = s ∨ s' = set_presence None s).
Proof.
  unfold check_finish_presence. case_decide as Hd; [|intros [= _ <-]; auto].
  destruct (ta_tup_available s); cbn; intros Heq; simplify_eq; auto.
Qed.
Lemma delete_used_slot_Ok slot (s : KeyMintTa) u s' :
  delete_used_slot slot s = (Ok u, s') → ∀ sl m, slot = Some sl → ta_sdd_mgr s = Some m →
  (delete_secret sl m).1 ≠ Panic ∧ ta_sdd_mgr s' = Some (delete_secret sl m).2.
Proof.
  unfold delete_used_slot. intros Hd sl m -> Hm. rewrite Hm in Hd.
  destruct (delete_secret sl m) as [[]?]; simplify_eq; by destruct s.
Qed.

Lemma op_finish_Ok h data sig tok tst conf (s : KeyMintTa) out s' :
  op_finish h data sig tok tst conf s = (Ok out, s') →
  ∃ op op1 op2, finished h data sig tok tst conf s s' out op op1 op2.
Proof.
  unfold op_finish. intros Hf. apply stM_bind_Ok in Hf as (op & s1 & Ht & Hf).
  apply take_operation_inv in Ht as [[[=] _]|(i & op' & Hi & Hh & [= <-] & ->)]; [|done].
  st_inv. repeat match goal with
  | H : check_subsequent_auth _ _ _ _ = _ |- _ => rewrite (proj1 (check_subsequent_auth_ops _ None _ _ _ _)) in H
  | H : check_finish_presence _ _ = _ |- _ => apply check_finish_presence_Ok in H as [Hpres Hs2]
  | H : check_size _ _ = Ok ?op2 |- _ => eexists op, _, op2
  end.
  assert (∀ l, ta_presence_required_op (set_operations l s) = ta_presence_required_op s ∧
               ta_tup_available (set_operations l s) = ta_tup_available s ∧
               ta_sdd_mgr (set_operations l s) = ta_sdd_mgr s ∧
               ta_sdd_mgr (set_presence None (set_operations l s)) = ta_sdd_mgr s) as Hsame by (by destruct s).
  destruct (Hsame (<[i := None]> (ta_operations s))) as (Hs1 & Hs3 & Hs4 & Hs5). rewrite Hs1, Hs3 in Hpres.
  split; eauto.
  - intros d Hd. rewrite Hd in *. destruct Hs2 as [-> | ->];
      rewrite ?(proj2 (verify_confirmation_token_ops [] _ _ _ _)), (proj1 (verify_confirmation_token_ops _ None _ _ _)) in *;
      by match goal with H : verify_confirmation_token _ _ _ = Ok ?u |- _ => destruct u end.
  - intros sl m Hsl Hm. eapply delete_used_slot_Ok; [done..|]. destruct Hs2 as [-> | ->]; by rewrite ?Hs4, ?Hs5.
Qed.

(** ** Trusted confirmation *)

Context `{CTL : !ConstTimeEqLaws}.

Lemma verify_device_hmac_true (s : KeyMintTa) data mac :
  verify_device_hmac s data mac = Ok true → device_hmac s data = Ok mac.
Proof.
  unfold verify_device_hmac. intros Hv. res_inv.
  match goal with H : ct_eq _ _ = true |- _ => apply ct_eq_true in H as -> end. done.
Qed.

(** C4: after any sequence of calls, an operation that needs a trusted confirmation is
    only finished when a 32-byte confirmation token is given that is the device's MAC of
    the prefix followed by exactly the data the operation was given, over all its
    updates and the final call, and this data is at most 6144 bytes long. *)
Theorem confirmation_enforced evs (s : KeyMintTa) h op d data sig tok tst conf out s' :
  run evs s → abs (ta_operations s) !! h = Some op → trusted_conf_data op = Some d →
  op_finish h data sig tok tst conf s = (Ok out, s') →
  let message := input_of h evs ++ from_option id [] data in
  ∃ token, conf = Some token ∧ len token = 32 ∧
           device_hmac s (CONFIRMATION_DATA_PREFIX ++ message) = Ok token ∧
           len message ≤ CONFIRMATION_MESSAGE_MAX_LEN.
Proof.
  intros Hrun Hop Hconf Hf message. apply run_inv in Hrun as [Hd Hinv]. pose proof (Hinv h op Hop) as Hi.
  apply op_finish_Ok in Hf as (op0 & op1 & op2 & [Hlive _ _ Hext Hsize _ Htok _]).
  apply abs_lookup in Hlive; [|done]. assert (op0 = op) as -> by congruence.
  assert (∃ d', trusted_conf_data op2 = Some d' ∧ d' = CONFIRMATION_DATA_PREFIX ++ message ∧
                len message ≤ CONFIRMATION_MESSAGE_MAX_LEN) as (d' & Hd' & -> & Hlen).
  { apply check_size_handle in Hsize as [z ->]. cbn [trusted_conf_data set_input_size].
    unfold message, input_of. destruct data as [data|]; cbn [from_option].
    - pose proof (extend_conf_inv _ _ _ _ Hi Hext) as He. unfold extend_conf in Hext. rewrite Hconf in Hext.
      res_inv. eexists. split; [done|]. apply (He _ eq_refl).
    - injection Hext as <-. exists d. destruct (inv_conf _ _ Hi d Hconf) as [-> ?]. by rewrite app_nil_r. }
  specialize (Htok _ Hd'). unfold verify_confirmation_token in Htok. destruct conf as [token|]; [|done].
  res_inv. exists token.
  repeat match goal with
  | H : bool_decide _ = false |- _ => apply bool_decide_eq_false, dec_stable in H
  | H : negb ?b = false |- _ => apply negb_false_iff in H; subst
  end.
  split_and!; [done|done|by apply verify_device_hmac_true|done].
Qed.

(** ** Authentication *)

(** A token made by an authenticator of this device for a user of the key. *)
Record token_valid (s : KeyMintTa) (t : HardwareAuthToken) (info : AuthInfo) : Prop := {
  tok_mac : device_hmac s (hardware_auth_token_mac_input t) = Ok (hat_mac t);
  tok_type : Z.land (as_u32 (discr (hat_authenticator_type t))) (auth_type info) ≠ 0;
  tok_user : ∃ sid, sid ∈ secure_ids info ∧ (hat_user_id t = as_i64 sid ∨ hat_authenticator_id t = as_i64 sid)
}.

Lemma check_auth_token_Ok (s : KeyMintTa) t info now timeout challenge u :
  check_auth_token s t info now timeout challenge = Ok u →
  token_valid s t info ∧
  (∀ n secs, now = Some n → timeout = Some secs → is_i64 (hat_timestamp t + 1000 * secs) →
             n ≤ hat_timestamp t + 1000 * secs) ∧
  (∀ c, challenge = Some c → hat_challenge t = c).
Proof.
  unfold check_auth_token. intros Hc.
  apply res_bind_Ok in Hc as (v & Hv & Hc). apply res_bind_Ok in Hc as (? & Hneg & Hc).
  apply reject_if_Ok, negb_false_iff in Hneg. subst v.
  apply res_bind_Ok in Hc as (? & Htype & Hc). apply reject_if_Ok, bool_decide_eq_false in Htype.
  apply res_bind_Ok in Hc as (? & Hid & Hc). apply reject_if_Ok, negb_false_iff in Hid.
  apply res_bind_Ok in Hc as (? & Htime & Hc). split_and!.
  - split; [by apply verify_device_hmac_true|done|].
    apply existsb_exists in Hid as (sid & Hsid & Hor). exists sid. split; [by apply list_elem_of_In|].
    apply orb_true_iff in Hor as [Hor|Hor]; apply bool_decide_eq_true in Hor; auto.
  - intros n secs -> -> Hr. rewrite ovf_signed_ok in Htime by done. cbn in Htime.
    apply reject_if_Ok, bool_decide_eq_false in Htime. lia.
  - intros c ->. apply reject_if_Ok, bool_decide_eq_false, dec_stable in Hc. done.
Qed.

(** What has to hold of the tokens given with a call on an operation with handle [h]. *)
Definition call_authenticated (s : KeyMintTa) (h : Z) (info : AuthInfo) (tok : option HardwareAuthToken)
    (tst : option TimeStampToken) : Prop :=
  ∃ t, tok = Some t ∧ token_valid s t info ∧ hat_challenge t = h ∧
    ∀ secs, timeout_secs info = Some secs →
      ∃ ts, tst = Some ts ∧ tst_challenge ts = h ∧
            device_hmac s (timestamp_token_mac_input ts) = Ok (tst_mac ts) ∧
            (is_i64 (hat_timestamp t + 1000 * secs) → tst_timestamp ts ≤ hat_timestamp t + 1000 * secs).

Lemma check_subsequent_auth_Ok (s : KeyMintTa) op info tok tst again :
  auth_info op = Some info → check_subsequent_auth s op tok tst = Ok again →
  call_authenticated s (handle op) info tok tst ∧ again = bool_decide (timeout_secs info = None).
Proof.
  intros Hinfo Hc. unfold check_subsequent_auth in Hc. rewrite Hinfo in Hc.
  apply res_bind_Ok in Hc as (t & Ht & Hc). apply ok_or_Ok in Ht. subst tok.
  destruct (timeout_secs info) as [secs|] eqn:Hsecs; res_inv.
  - repeat match goal with
    | H : bool_decide (_ ≠ _) = false |- _ => apply bool_decide_eq_false, dec_stable in H
    | H : negb ?b = false |- _ => apply negb_false_iff in H; subst
    | H : check_auth_token _ _ _ _ _ _ = Ok _ |- _ => apply check_auth_token_Ok in H as (Hv & Htime & Hch)
    end.
    split; [|done]. exists t. split_and!; [done..|by apply Hch|].
    rewrite Hsecs. intros ? [= <-].
    eexists. split_and!; [done..|by apply verify_device_hmac_true|]. by apply Htime.
  - match goal with H : check_auth_token _ _ _ _ _ _ = Ok _ |- _ => apply check_auth_token_Ok in H as (Hv & _ & Hch) end.
    split; [|done]. exists t. split_and!; [done..|by apply Hch|]. rewrite Hsecs. intros ? [=].
Qed.

Lemma call_authenticated_presence p (s : KeyMintTa) h info tok tst :
  call_authenticated (set_presence p s) h info tok tst → call_authenticated s h info tok tst.
Proof. intros (t & -> & [] & ?). exists t. by destruct s. Qed.

(** The operation and the tokens of a call. *)
Definition call_tokens (c : Call) : option (Z * option HardwareAuthToken * option TimeStampToken) :=
  match c with
  | UpdateAad h _ tok tst | Update h _ tok tst | Finish h _ _ tok tst _ => Some (h, tok, tst)
  | _ => None
  end.

Lemma update_aad_op_auth data (op op' : Operation) v :
  update_aad_op data op = Ok (v, op') → auth_info op' = auth_info op.
Proof. unfold update_aad_op. intros Hu. res_inv. split_match_in Hu. by res_inv. Qed.
Lemma update_op_auth b t data (op op' : Operation) v :
  update_op b t data op = Ok (v, op') → auth_info op' = auth_info op.
Proof.
  unfold update_op. intros Hu. res_inv.
  repeat match goal with
  | H : extend_conf _ _ = Ok _ |- _ => apply extend_conf_handle in H as [? ->]
  | H : check_size _ _ = Ok _ |- _ => apply check_size_handle in H as [? ->]
  end. split_match_in Hu. by res_inv.
Qed.

Lemma with_authed_operation_auth {X} h tok tst (f : Operation → Result (X * Operation)) (s : KeyMintTa) v s' op info :
  (∀ op v op', f op = Ok (v, op') → handle op' = handle op ∧ auth_info op' = auth_info op) →
  distinct (ta_operations s) → abs (ta_operations s) !! h = Some op → auth_info op = Some info →
  with_authed_operation h tok tst f s = (Ok v, s') →
  call_authenticated s h info tok tst ∧
  ∀ op', abs (ta_operations s') !! h = Some op' → timeout_secs info = None → auth_info op' = Some info.
Proof.
  intros Hf Hd Hop Hinfo Hw.
  eapply with_authed_operation_abs in Hw as (_ & _ & Hs); [|by intros; eapply Hf|done..].
  destruct Hs as [(v' & op1 & again & op2 & _ & Hm & Hau & Hfv & Hh & ->)|[(?&[=]&_)|(?&?&[=]&_)]].
  assert (op1 = op) as -> by congruence. apply Hf in Hfv as [Hh' Ha]. rewrite handle_after_auth in Hh'.
  apply check_subsequent_auth_Ok with (info := info) in Hau as [Hca ->]; [|done].
  split; [congruence|]. rewrite lookup_insert_eq. intros ? [= <-] Hto. rewrite Ha.
  by rewrite bool_decide_eq_true_2 by done.
Qed.

(** C3: no call on an operation whose key needs authentication succeeds without a token
    with the device's MAC for one of the key's users, of an accepted kind of
    authenticator, made for this very operation (its challenge is the handle); with a
    timeout, also a timestamp token for this operation with the device's MAC that shows
    the token is recent enough. Without a timeout the requirement stays in force for
    the following calls. *)
Theorem auth_enforced evs (s : KeyMintTa) c h tok tst op info v s' :
  run evs s → call_tokens c = Some (h, tok, tst) → abs (ta_operations s) !! h = Some op →
  auth_info op = Some info → do_call c s = (Ok v, s') →
  call_authenticated s h info tok tst ∧
  ∀ op', abs (ta_operations s') !! h = Some op' → timeout_secs info = None → auth_info op' = Some info.
Proof.
  intros Hrun Hct Hop Hinfo Hc. apply run_inv in Hrun as [Hd _].
  destruct c as [|h' data tok' tst'|h' data tok' tst'|h' data sig tok' tst' conf|]; try done;
    injection Hct as -> -> ->; (apply wrap_inv in Hc as [(x & Hc & _)|(e & _ & [=])]; [|done]).
  - eapply with_authed_operation_auth; [|done..]. eauto using update_aad_op_handle, update_aad_op_auth.
  - unfold op_update in Hc. eapply with_authed_operation_auth in Hc as [Ha Hn];
      [|eauto using update_op_handle, update_op_auth|by autorewrite with ops..|done].
    split; [|done]. unfold clear_presence in Ha. case_decide; by eauto using call_authenticated_presence.
  - pose proof (op_finish_take h data sig tok tst conf s) as Ht. destruct (take_operation_abs h s Hd) as (_ & _ & Ha & _).
    apply op_finish_Ok in Hc as Hfin. rewrite Hc in Ht. cbn in Ht.
    destruct Hfin as (op0 & op1 & op2 & [Hlive [again Hau] _ _ _ _ _ _]).
    pose proof Hlive as (i & _ & Hh). apply abs_lookup in Hlive; [|done]. assert (op0 = op) as -> by congruence.
    apply check_subsequent_auth_Ok with (info := info) in Hau as [Hca _]; [|done]. rewrite Hh in Hca.
    split; [done|]. rewrite Ht, Ha, lookup_delete_eq. done.
Qed.

(** ** The start of an operation *)

Lemma auth_scan_Ok l st st' :
  auth_scan st l = Ok st' →
  as_secure_ids st' = as_secure_ids st ++ omap as_UserSecureId l ∧
  (∀ a, as_auth_type st' = Some a ↔ as_auth_type st = Some a ∨ KP_UserAuthType a ∈ l) ∧
  (∀ t, as_timeout st' = Some t ↔ as_timeout st = Some t ∨ KP_AuthTimeout t ∈ l) ∧
  (as_no_auth st' = true ↔ as_no_auth st = true ∨ KP_NoAuthRequired ∈ l).
Proof.
  revert st. induction l as [|p l IH]; intros st; cbn [auth_scan omap list_omap].
  { intros [= ->]. rewrite app_nil_r. set_solver. }
  intros (st1 & Hst & Hl)%res_bind_Ok. apply IH in Hl as (Hi & Ha & Ht & Hn). clear IH.
  destruct p; cbn [auth_scan_step] in Hst; split_match_in Hst; injection Hst as <-; cbn in *;
    rewrite Hi; setoid_rewrite elem_of_cons; setoid_rewrite Ha; setoid_rewrite Ht; rewrite Hn;
    rewrite <- ?(assoc_L (++)); naive_solver.
Qed.

(** The authentication requirements in a key's characteristics. *)
Lemma AuthInfo_new_Ok chars info :
  AuthInfo_new chars = Ok info →
  (info = None ∧ (omap as_UserSecureId chars = [])) ∨
  (∃ i, info = Some i ∧ secure_ids i = omap as_UserSecureId chars ∧ secure_ids i ≠ [] ∧
        KP_UserAuthType (auth_type i) ∈ chars ∧ (KP_NoAuthRequired ∉ chars) ∧
        ∀ t, timeout_secs i = Some t ↔ KP_AuthTimeout t ∈ chars).
Proof.
  unfold AuthInfo_new. intros (st & Hs & Hi)%res_bind_Ok. apply auth_scan_Ok in Hs as (Hids & Ha & Ht & Hn).
  cbn in Hids, Ha, Ht, Hn. destruct (as_secure_ids st) as [|sid ids] eqn:Hsids.
  { left. by injection Hi as <-. }
  destruct (as_auth_type st) as [a|]; [|done]. destruct (as_no_auth st); [done|]. injection Hi as <-.
  right. eexists. split; [done|]. cbn. split_and!; [done..| | |].
  - destruct (Ha a) as [[|] _]; [|done..]. done.
  - intros Hin. destruct Hn as [_ Hn]. by discriminate Hn; right.
  - intros t. rewrite Ht. naive_solver.
Qed.

(** The authentication that characteristics [chars] ask for has been checked with token
    [tok], or is recorded in [op]. *)
Definition auth_recorded (s : KeyMintTa) (tok : option HardwareAuthToken) (chars : list KeyParam) (op : Operation) : Prop :=
  ((omap as_UserSecureId chars = []) ∧ auth_info op = None) ∨
  ∃ info, secure_ids info = omap as_UserSecureId chars ∧ KP_UserAuthType (auth_type info) ∈ chars ∧
    (KP_NoAuthRequired ∉ chars) ∧ (∀ t, timeout_secs info = Some t ↔ KP_AuthTimeout t ∈ chars) ∧
    match timeout_secs info, ta_clock s with
    | Some secs, Some now =>
      auth_info op = None ∧ ∃ t, tok = Some t ∧ token_valid s t info ∧
        (is_i64 (hat_timestamp t + 1000 * secs) → now ≤ hat_timestamp t + 1000 * secs)
    | _, _ => auth_info op = Some info
    end.

(** C12: when an operation starts on a key that names users, either the authentication
    was checked at the start (which needs both a timeout and a clock: a valid token was
    given and it was recent enough) and nothing is left to check, or the requirements of
    the key (all its users, its authenticator types and its timeout) are recorded in the
    operation, to be checked by the later calls. A key that names users is never also
    marked as needing no authentication. *)
Theorem begin_auth_recorded purpose kb params tok (s : KeyMintTa) r s' :
  distinct (ta_operations s) → begin_operation purpose kb params tok s = (Ok r, s') →
  ∃ k slot chars op,
    keyblob_parse_decrypt s kb params = Ok (k, slot) ∧
    characteristics_at (characteristics k) (ta_security_level s) = Ok chars ∧
    abs (ta_operations s') !! InternalBeginResult_op_handle r = Some op ∧
    auth_recorded s tok chars op.
Proof.
  intros Hd Hb. apply begin_operation_inv in Hb
    as [(e & [=] & _)|(k & sl & ch & i & op & pres & ret & Hst & [= ->] & Ho & _)]; [|done].
  exists k, sl, ch, op. split_and!; [by eapply st_key|by eapply st_chars| |].
  { rewrite Ho. cbn. destruct (abs_insert_Some (ta_operations s) i None op) as [_ ->];
      [done|by eapply st_index| |done|by rewrite lookup_insert_eq].
    intros j op' Hj Heq. by destruct (st_handle _ _ _ _ _ _ _ _ _ _ _ Hst j op'). }
  destruct (st_auth _ _ _ _ _ _ _ _ _ _ _ Hst) as (info & Hinfo & Hba).
  apply AuthInfo_new_Ok in Hinfo as [[-> Hn]|(inf & -> & Hids & _ & Hty & Hno & Hto)].
  { left. cbn in Hba. by injection Hba as <-. }
  right. exists inf. split_and!; [done..|]. unfold begin_auth in Hba.
  destruct (timeout_secs inf) as [secs|]; [|by injection Hba as <-].
  destruct (ta_clock s) as [now|].
  - apply res_bind_Ok in Hba as (t & Ht & Hba). apply ok_or_Ok in Ht.
    apply res_bind_Ok in Hba as (u & Hct & [= <-]).
    apply check_auth_token_Ok in Hct as (Hv & Hnow & _). split; [done|]. exists t. split_and!; [done..|].
    by apply Hnow.
  - destruct tok as [t|]; [|by injection Hba as <-]. by apply res_bind_Ok in Hba as (u & _ & [= <-]).
Qed.

(** The restrictions that [chars] put on the use of the key are met or recorded, for an
    operation [op] that started in state [s] and led to [s']. *)
Record restricted (s s' : KeyMintTa) (purpose : KeyPurpose) (chars : list KeyParam) (slot : option Z)
    (op : Operation) : Prop := {
  re_bootloader : KP_BootloaderOnly ∈ chars → ta_bootloader_done s = false;
  re_early_boot : KP_EarlyBootOnly ∈ chars → ta_in_early_boot s = true;
  re_conf : purpose = KeyPurpose_Sign → KP_TrustedConfirmationRequired ∈ chars →
    trusted_conf_data op = Some CONFIRMATION_DATA_PREFIX;
  re_single_use : KP_UsageCountLimit 1 ∈ chars → slot_to_delete op = slot;
  re_presence : KP_TrustedUserPresenceRequired ∈ chars →
    ta_presence_required_op s = None ∧ ta_presence_required_op s' = Some (handle op)
}.

(** The restrictions in a key's characteristics are in force from the start of an
    operation: a bootloader-only or early-boot key is not usable later; a signature that
    needs a trusted confirmation starts to record its input; a single-use key is marked
    for deletion; an operation that needs proof of presence is the only one of its kind
    in progress and is marked as such. *)
Theorem begin_restrictions purpose kb params tok (s : KeyMintTa) r s' :
  distinct (ta_operations s) → begin_operation purpose kb params tok s = (Ok r, s') →
  ∃ k slot chars op,
    keyblob_parse_decrypt s kb params = Ok (k, slot) ∧
    characteristics_at (characteristics k) (ta_security_level s) = Ok chars ∧
    abs (ta_operations s') !! InternalBeginResult_op_handle r = Some op ∧
    check_begin_params chars purpose params = Ok tt ∧ restricted s s' purpose chars slot op.
Proof.
  intros Hd Hb. apply begin_operation_inv in Hb
    as [(e & [=] & _)|(k & sl & ch & i & op & pres & ret & Hst & [= ->] & Ho & Hpr)]; [|done].
  exists k, sl, ch, op. destruct Hst as [Hix Hh Hk Hch Hp [Hbl Heb] Hc Hsl [Hpres Hnone] _ _ _].
  split_and!; [done..| |done|].
  { rewrite Ho. cbn. destruct (abs_insert_Some (ta_operations s) i None op) as [_ ->];
      [done..| |done|by rewrite lookup_insert_eq].
    intros j op' Hj Heq. by destruct (Hh j op'). }
  split; [done..| | |].
  - intros -> Hin. destruct Hc as (conf & -> & Hconf). rewrite decide_True in Hconf by done.
    destruct conf; [done|]. by apply get_bool_tag_value_false in Hconf.
  - intros Hin. destruct Hsl as (limit & Hlim & ->). apply get_opt_tag_value_Ok in Hlim.
    assert (1 ∈ omap as_UsageCountLimit ch) as Hin'.
    { apply list_elem_of_omap. by exists (KP_UsageCountLimit 1). }
    rewrite Hlim in Hin'. destruct limit; cbn in Hin'; [|by apply elem_of_nil in Hin'].
    by apply list_elem_of_singleton in Hin' as <-.
  - intros Hin. destruct pres; [by split; [apply Hnone|apply Hpr]|].
    by apply get_bool_tag_value_false in Hpres.
Qed.

(** ** Limits on input *)

(** What [check_size] has let through, for an operation that was given [chunks] before. *)
Lemma check_size_limit chunks (op op' : Operation) (data : bytes) limit :
  input_size op = as_unsigned 64 (len (concat chunks)) → check_size op (len data) = Ok op' →
  max_input_size (crypto_op op) = Some limit → is_u64 (len (concat chunks ++ data)) →
  len (concat chunks ++ data) ≤ limit.
Proof.
  intros Hs Hc Hmax Hr. apply (check_size_Ok chunks) in Hc as [Hsz Hlim]; [|done].
  rewrite as_unsigned_id in Hsz by done. rewrite <- Hsz. by apply Hlim.
Qed.

(** C33: additional data is only ever accepted by an authenticated cipher that has not
    been given any data yet. An operation that announces a limit on its input takes no
    data, neither in an update nor with the final call, that would bring the total of all
    its updates and the final call above the limit (for totals that fit in a machine
    word). *)
Theorem input_limits evs (s : KeyMintTa) h op tok tst :
  run evs s → abs (ta_operations s) !! h = Some op →
  (∀ aad s', op_update_aad h aad tok tst s = (Ok tt, s') →
     updates_of h evs = [] ∧ ∃ c, crypto_op op = Op_AesGcm c) ∧
  (∀ limit, max_input_size (crypto_op op) = Some limit →
     (∀ data out s', op_update h data tok tst s = (Ok out, s') →
        is_u64 (len (input_of h evs ++ data)) → len (input_of h evs ++ data) ≤ limit) ∧
     (∀ data sig conf out s', op_finish h data sig tok tst conf s = (Ok out, s') →
        let total := len (input_of h evs ++ from_option id [] data) in is_u64 total → total ≤ limit)).
Proof.
  intros Hrun Hop. apply run_inv in Hrun as [Hd Hinv]. pose proof (Hinv h op Hop) as Hi.
  split; [|intros limit Hmax; split].
  - intros aad s' Hu. eapply with_authed_operation_abs in Hu as (_ & _ & Hs); [|eauto using update_aad_op_handle|done..].
    destruct Hs as [(v & op1 & again & op' & _ & Hm & _ & Hf & _)|[(?&[=]&_)|(?&?&[=]&_)]].
    assert (op1 = op) as -> by congruence. unfold update_aad_op in Hf. res_inv.
    apply (inv_aad _ _ Hi). destruct (aad_allowed op) eqn:Ha; [done|]. destruct again; cbn in *; by rewrite Ha in *.
  - intros data out s' Hu Hr. unfold op_update in Hu.
    eapply with_authed_operation_abs in Hu as (_ & _ & Hs); [|eauto using update_op_handle|by autorewrite with ops|done].
    autorewrite with ops in Hs.
    destruct Hs as [(v & op1 & again & op' & _ & Hm & _ & Hf & _)|[(?&[=]&_)|(?&?&[=]&_)]].
    assert (op1 = op) as -> by congruence. unfold update_op in Hf. res_inv.
    match goal with He : extend_conf _ _ = Ok _, Hs : check_size _ _ = Ok _ |- _ =>
      apply extend_conf_handle in He as [d ->]; eapply (check_size_limit (updates_of h evs)) in Hs; [done| | |done] end.
    + destruct again; apply Hi.
    + by destruct again.
  - intros data sig conf out s' (op0 & op1 & op2 & [Hlive _ _ Hext Hsize _ _ _])%op_finish_Ok total Hr.
    apply abs_lookup in Hlive; [|done]. assert (op0 = op) as -> by congruence.
    assert (∃ d, op1 = set_conf d op) as [d ->].
    { destruct data; [by apply extend_conf_handle in Hext|]. injection Hext as <-. exists (trusted_conf_data op). by destruct op. }
    eapply (check_size_limit (updates_of h evs) (set_conf d op) op2 (from_option id [] data)); [apply Hi| |done..].
    destruct data; exact Hsize.
Qed.

(** ** Keys that are used once *)

(** C32: when an operation on a single-use key succeeds, the secret in the key's secure
    deletion slot is gone: no secret can be read from the slot any more, and no other
    slot is affected (if the storage does not fail). *)
Theorem single_use_deleted `{ML : !SDMLaws ok} (s : KeyMintTa) h op slot m data sig tok tst conf out s' :
  distinct (ta_operations s) → abs (ta_operations s) !! h = Some op → slot_to_delete op = Some slot →
  is_u32 slot → ta_sdd_mgr s = Some m → ok m → (delete_secret slot m).1 = Ok tt →
  op_finish h data sig tok tst conf s = (Ok out, s') →
  ∃ m', ta_sdd_mgr s' = Some m' ∧ (∃ e, get_secret m' slot = Err e) ∧
        ∀ j, j ≠ slot → get_secret m' j = get_secret m j.
Proof.
  intros Hd Hop Hslot Hr Hm Hok Hdel Hf.
  apply op_finish_Ok in Hf as (op0 & op1 & op2 & [Hlive _ _ Hext Hsize _ _ Hsl]).
  apply abs_lookup in Hlive; [|done]. assert (op0 = op) as -> by congruence.
  assert (slot_to_delete op2 = Some slot) as Hs2.
  { apply check_size_handle in Hsize as [z ->]. destruct data; [apply extend_conf_handle in Hext as [d ->]|injection Hext as <-]; done. }
  destruct (Hsl slot m Hs2 Hm) as [_ Hs']. destruct (delete_secret slot m) as [r m'] eqn:Hds. cbn in *. subst r.
  apply delete_secret_Ok in Hds as (_ & He & Hoth); [|done..]. eauto.
Qed.
(** ** New handles *)

(** The first [n] handles that the generator would give. *)
Fixpoint draws (n : nat) (r : rng_state) : list Z :=
  match n with
  | O => []
  | S n' => let '(h, r') := next_handle r in h :: draws n' r'
  end.
Definition live_handles (s : KeyMintTa) : list Z := handle <$> omap id (ta_operations s).

Lemma live_handles_in (s : KeyMintTa) i op : ta_operations s !! i = Some (Some op) → handle op ∈ live_handles s.
Proof.
  intros Hi. apply list_elem_of_fmap. exists op. split; [done|]. apply list_elem_of_omap.
  exists (Some op). split; [by eapply list_elem_of_lookup_2|done].
Qed.
Lemma length_live_handles (s : KeyMintTa) : (length (live_handles s) ≤ length (ta_operations s))%nat.
Proof.
  unfold live_handles. rewrite length_fmap. induction (ta_operations s) as [|[op|] l IH]; cbn; lia.
Qed.

Lemma new_op_handle_loop_unused fuel (s : KeyMintTa) h :
  h ∈ draws fuel (ta_rng s) → h ∉ live_handles s → ∃ h' s', new_op_handle_loop fuel s = (Ok h', s').
Proof.
  revert s. induction fuel as [|fuel IH]; intros s; cbn [draws new_op_handle_loop]; [by intros ?%elem_of_nil|].
  destruct (next_handle (ta_rng s)) as [h0 r]. intros Hin Hlive.
  assert (live_handles (set_rng r s) = live_handles s ∧ ta_rng (set_rng r s) = r) as [Hl Hr] by (by destruct s).
  destruct (op_index (set_rng r s) h0) as [i|e|] eqn:Hix; [|by eauto|by destruct (op_index_no_panic _ _ Hix)].
  apply op_index_Ok in Hix as (op & Hi & <-). apply live_handles_in in Hi. rewrite Hl in Hi.
  apply elem_of_cons in Hin as [->|Hin]; [done|]. apply IH; by rewrite ?Hr, ?Hl.
Qed.

(** C38: when the random number generator does not repeat itself within as many draws as
    the table has slots, plus one, drawing a handle for a new operation ends, and the
    handle is not that of an operation in progress. *)
Theorem new_op_handle_unused (s : KeyMintTa) :
  NoDup (draws (S (length (ta_operations s))) (ta_rng s)) →
  ∃ h s', new_op_handle s = (Ok h, s') ∧ ta_operations s' = ta_operations s ∧ h ∉ live_handles s.
Proof.
  intros Hnd. set (n := S (length (ta_operations s))) in *.
  assert (∀ k r, length (draws k r) = k) as Hlen.
  { induction k as [|k IH]; intros r; cbn; [done|]. destruct (next_handle r). cbn. by rewrite IH. }
  assert (∃ h, h ∈ draws n (ta_rng s) ∧ h ∉ live_handles s) as (h & Hh & Hn).
  { destruct (decide (Forall (.∈ live_handles s) (draws n (ta_rng s)))) as [Hall|Hex].
    - exfalso. assert (draws n (ta_rng s) ⊆+ live_handles s) as Hsub.
      { apply NoDup_submseteq; [done|]. by apply Forall_forall. }
      apply submseteq_length in Hsub. rewrite Hlen in Hsub. pose proof (length_live_handles s). lia.
    - apply not_Forall_Exists, Exists_exists in Hex as (h & ? & ?); [|apply _]. eauto. }
  destruct (new_op_handle_loop_unused n s h) as (h' & s' & Hnew); [done..|].
  exists h', s'. split; [done|]. pose proof (new_op_handle_preserves s) as Hp.
  pose proof (new_op_handle_fresh s h' s' Hnew) as Hf. unfold new_op_handle in *. fold n in Hp.
  rewrite Hnew in Hp. split; [done|]. unfold live_handles.
  rewrite list_elem_of_fmap. intros (op & -> & (o & Ho & Hid)%list_elem_of_omap). cbn in Hid. subst o.
  apply list_elem_of_lookup in Ho as [i Hi]. by destruct (Hf i op).
Qed.

(** ** Proof of presence *)

Lemma presence_set (s : KeyMintTa) p :
  ta_presence_required_op (set_presence p s) = p ∧ ta_tup_available (set_presence p s) = ta_tup_available s ∧
  ta_operations (set_presence p s) = ta_operations s.
Proof. by destruct s. Qed.

(** While an operation is marked as needing proof of presence, no data is processed
    and it is not finished unless the user is present. The mark does not survive a
    failed authentication, though: an update with bad tokens leaves the operation in the
    table without the mark, and from then on the operation is updated without regard to
    the user's presence. *)
Theorem presence_checked_once (s : KeyMintTa) h op :
  distinct (ta_operations s) → abs (ta_operations s) !! h = Some op →
  ta_presence_required_op s = Some h → ta_tup_available s = false →
  (∀ data tok tst out s', op_update h data tok tst s ≠ (Ok out, s')) ∧
  (∀ data sig tok tst conf out s', op_finish h data sig tok tst conf s ≠ (Ok out, s')) ∧
  (∀ data tok tst e, check_subsequent_auth s op tok tst = Err e →
     op_update h data tok tst s = (Err e, set_presence None s) ∧
     (∀ data' tok' tst', op_update h data' tok' tst' (set_presence None s) =
        with_authed_operation h tok' tst' (update_op false false data') (set_presence None s))).
Proof.
  intros Hd Hop Hpres Htup. destruct (presence_set s None) as (Hp1 & Hp2 & Hp3).
  assert (clear_presence h s = set_presence None s) as Hclear by (unfold clear_presence; by rewrite decide_True).
  split_and!.
  - intros data tok tst out s' Hu. unfold op_update in Hu. rewrite bool_decide_eq_true_2, Hclear, Hp2, Htup in Hu by done.
    apply with_authed_operation_inv in Hu as [(e & [=] & _)|(i & op' & again & _ & _ & _ & Hu)]; [|done].
    by destruct Hu as [(v & op'' & [=] & _)|(e & _ & [=] & _)].
  - intros data sig tok tst conf out s' (op0 & op1 & op2 & Hfin)%op_finish_Ok.
    pose proof (fin_presence _ _ _ _ _ _ _ _ _ _ _ _ Hfin Hpres). congruence.
  - intros data tok tst e He. unfold op_update. split.
    + rewrite Hclear. unfold with_authed_operation.
      apply abs_lookup in Hop as (i & Hi & Hh); [|done].
      destruct (op_index (set_presence None s) h) as [j|e'|] eqn:Hix; [| |by destruct (op_index_no_panic _ _ Hix)].
      * apply op_index_Ok in Hix as (op' & Hj & Hh'). rewrite Hj. rewrite Hp3 in Hj.
        assert (i = j) as <- by (eapply Hd; [done..|congruence]). assert (op' = op) as -> by congruence.
        by rewrite (proj2 (check_subsequent_auth_ops [] _ _ _ _ _)), He.
      * apply op_index_Err in Hix as [_ Hix]. rewrite Hp3 in Hix. by destruct (Hix i op Hi).
    + intros data' tok' tst'. rewrite bool_decide_eq_false_2 by (by rewrite Hp1).
      unfold clear_presence. rewrite decide_False by (by rewrite Hp1). by rewrite Hp2, Htup.
Qed.

(** A presence requirement also outlives its operation: when the tokens given with
    the last call are bad, the operation is gone but its mark stays, and no operation
    that needs proof of presence can be started any more, until the mark's handle is
    named in a call of update or abort. *)
Theorem presence_mark_leaks (s : KeyMintTa) h op data sig tok tst conf e :
  distinct (ta_operations s) → abs (ta_operations s) !! h = Some op →
  ta_presence_required_op s = Some h → check_subsequent_auth s op tok tst = Err e →
  ∃ s', op_finish h data sig tok tst conf s = (Err e, s') ∧
        abs (ta_operations s') !! h = None ∧ ta_presence_required_op s' = Some h ∧
        ∀ purpose kb params tok' r s'' k slot chars,
          begin_operation purpose kb params tok' s' = (Ok r, s'') →
          keyblob_parse_decrypt s' kb params = Ok (k, slot) →
          characteristics_at (characteristics k) (ta_security_level s') = Ok chars →
          KP_TrustedUserPresenceRequired ∉ chars.
Proof.
  intros Hd Hop Hpres He. destruct (take_operation_abs h s Hd) as (_ & _ & Ha & _ & _).
  destruct (take_operation h s) as [r s1] eqn:Ht. cbn in Ha.
  assert (r = Ok op ∧ s1 = set_operations (ta_operations s1) s) as [-> Hs1].
  { pose proof Hop as (i & Hi & Hh)%abs_lookup; [|done]. assert (r ≠ Panic) as Hr.
    { unfold take_operation in Ht. destruct (op_index s h) eqn:Hix; [| |by destruct (op_index_no_panic _ _ Hix)].
      - apply op_index_Ok in Hix as (op' & Hj & _). rewrite Hj in Ht. by injection Ht as <- _.
      - by injection Ht as <- _. }
    apply take_operation_inv in Ht as [(_ & _ & Hn)|(j & op' & Hj & Hh' & -> & ->)]; [|split|done].
    - by destruct (Hn i op Hi).
    - assert (i = j) as <- by (eapply Hd; [done..|congruence]). by simplify_eq.
    - by destruct s. }
  assert (ta_presence_required_op s1 = Some h) as Hp1 by (rewrite Hs1; by destruct s).
  exists s1. split_and!; [|by rewrite Ha, lookup_delete_eq|done|].
  - unfold op_finish, mbind, stM_bind, liftr, get_st. rewrite Ht, Hs1.
    by rewrite (proj1 (check_subsequent_auth_ops _ None _ _ _ _)), He.
  - intros purpose kb params tok' b s2 k slot chars Hb Hk Hc.
    apply begin_operation_inv in Hb
      as [(? & [=] & _)|(k' & sl & ch & i & op' & pres & ret & Hst & _)]; [|done].
    destruct Hst as [_ _ Hk' Hch _ _ _ _ [Hpr Hnone] _ _ _]. rewrite Hk in Hk'. injection Hk' as <- <-.
    rewrite Hc in Hch. injection Hch as <-. destruct pres; [|by apply get_bool_tag_value_false].
    by rewrite Hnone in Hp1.
Qed.

End methods.
#[export] Hint Rewrite @ta_operations_set_rng @ta_operations_set_presence @ta_operations_set_operations
  @ta_operations_set_use_count @ta_operations_set_sdd_mgr @ta_operations_clear_presence : ops.

(** ** Running sequences of calls *)

Section exec.
Context `{T : Target} `{ACC : AccumulatingOperation} `{EMIT : EmittingOperation} `{AAD : AadOperation}
  `{HM : !Hmac} `{AES : !Aes} `{DES : !Des} `{RSA : !Rsa} `{EC : !Ec} `{HK : Hkdf} `{R : Rng}
  `{M : !SecureDeletionSecretManager} `{KM : RetrieveKeyMaterial} `{LK : LegacyKeyHandler}
  `{CTE : ConstTimeEq} `{C : Ciborium} `{K : Coset}.

Fixpoint exec (calls : list Call) (s : KeyMintTa) : list (Call * Result Reply) * KeyMintTa :=
  match calls with
  | [] => ([], s)
  | c :: calls' => let '(r, s1) := do_call c s in
                   let '(evs, s2) := exec calls' s1 in ((c, r) :: evs, s2)
  end.
Definition no_panics (evs : list (Call * Result Reply)) : bool :=
  forallb (λ ev, match ev.2 with Panic => false | _ => true end) evs.

Lemma exec_run_from evs calls (s : KeyMintTa) :
  run evs s → no_panics (exec calls s).1 = true → run (evs ++ (exec calls s).1) (exec calls s).2.
Proof.
  revert evs s. induction calls as [|c calls IH]; intros evs s Hrun; cbn [exec]; [by rewrite app_nil_r|].
  destruct (do_call c s) as [r s1] eqn:Hc. specialize (IH (evs ++ [(c, r)]) s1).
  destruct (exec calls s1) as [evs' s2]. cbn [no_panics forallb fst snd] in *. intros [Hr Hn]%andb_true_iff.
  rewrite <- (assoc_L (++)) in IH. apply IH; [|done]. econstructor; [done..|]. by intros ->.
Qed.
Lemma exec_run calls (s : KeyMintTa) :
  Forall (.= None) (ta_operations s) → no_panics (exec calls s).1 = true → run (exec calls s).1 (exec calls s).2.
Proof. intros Hs. apply (exec_run_from []). by constructor. Qed.
End exec.

(** ** Examples *)

Module SampleOps.
Import Keyblob.Sample SampleTa.
(** The device after start-up, with an agreed HMAC key; [clock] and [tup] as given. *)
Definition ready (clock : option Z) (tup : bool) : KeyMintTa :=
  let s := KeyMintTa_new SecurityLevel_TrustedEnvironment (0 : rng_state) clock
    (Some (InMemory.mk_mgr (Some (replicate 32 (u8_of 6))) (replicate 4 None) : sdm_state)) None true tup in
  let s := config_run [Cfg_SetBootInfo boot; Cfg_SetHalInfo {| os_version := 140000; os_patchlevel := 202401;
                                                              vendor_patchlevel := 20240105 |};
                       Cfg_EarlyBootEnded] s in
  set_device_hmac (Some (SoftDeviceHmac (replicate 32 (u8_of 5)))) s.

(** A key blob made on the device, which may take up a slot. *)
Definition provision (chars : list KeyParam) (k : KeyMaterial) (s : KeyMintTa) : bytes * KeyMintTa :=
  let p := {| characteristics := [{| security_level := SecurityLevel_TrustedEnvironment;
                                     authorizations := chars ++ keymint_tags s KeyOrigin_Generated |}];
              key_material := k |} in
  match (rot ← root_of_trust s; hidden [] rot) with
  | Ok hid =>
    match encrypt SecurityLevel_TrustedEnvironment root [] p hid KeyGeneration (ta_sdd_mgr s, ta_rng s) with
    | (Ok b, (m, r)) => (match into_vec EncryptedKeyBlob_codec b with Ok data => data | _ => [] end,
                         set_sdd_mgr m (set_rng r s))
    | _ => ([], s)
    end
  | _ => ([], s)
  end.

Definition hmac_key : KeyMaterial := KM_Hmac (Explicit (replicate 16 (u8_of 3))).
Definition hmac_chars (extra : list KeyParam) : list KeyParam :=
  [KP_Purpose KeyPurpose_Sign; KP_Purpose KeyPurpose_Verify; KP_Algorithm Algorithm_Hmac; KP_KeySize 128;
   KP_Digest Digest_Sha256; KP_MinMacLength 128] ++ extra.
Definition sign_params : list KeyParam := [KP_Digest Digest_Sha256; KP_MacLength 256].
(** A signing operation on a new key with the given further characteristics. *)
Definition signing (extra : list KeyParam) (tok : option HardwareAuthToken) (s : KeyMintTa)
    : Result InternalBeginResult * KeyMintTa :=
  let '(kb, s) := provision (hmac_chars extra) hmac_key s in begin_operation KeyPurpose_Sign kb sign_params tok s.
Definition signing_handle (extra : list KeyParam) (tok : option HardwareAuthToken) (s : KeyMintTa) : Z :=
  match signing extra tok s with (Ok r, _) => InternalBeginResult_op_handle r | _ => 0 end.

(** The same, as the first of a sequence of calls. *)
Definition session (extra : list KeyParam) (tok : option HardwareAuthToken) (calls : list Call) (s : KeyMintTa)
    : list (Call * Result Reply) * KeyMintTa :=
  let '(kb, s) := provision (hmac_chars extra) hmac_key s in
  exec (Begin KeyPurpose_Sign kb sign_params tok :: calls) s.
Lemma session_run extra tok calls s :
  Forall (.= None) (ta_operations (provision (hmac_chars extra) hmac_key s).2) →
  no_panics (session extra tok calls s).1 = true → run (session extra tok calls s).1 (session extra tok calls s).2.
Proof. unfold session. destruct (provision _ _ _) as [kb s1]. apply exec_run. Qed.
Lemma session_distinct extra tok calls s :
  Forall (.= None) (ta_operations (provision (hmac_chars extra) hmac_key s).2) →
  no_panics (session extra tok calls s).1 = true → distinct (ta_operations (session extra tok calls s).2).
Proof. intros. by eapply run_inv, session_run. Qed.
Ltac run_session := apply session_run; [decide_compute | vm_compute; reflexivity].

(** The handle of the first operation. *)
Definition h1 : Z := 72340172838076673.
Definition order : bytes := bytes_of_string "pay 5".
Definition more : bytes := bytes_of_string "0".

Definition conf_session := session [KP_NoAuthRequired; KP_TrustedConfirmationRequired] None
  [Update h1 order None None] (ready (Some 1000) true).
Definition conf_token : bytes :=
  match device_hmac conf_session.2 (CONFIRMATION_DATA_PREFIX ++ order ++ more) with Ok t => t | _ => [] end.

(** The operation with a given handle. *)
Definition no_op : Operation :=
  {| handle := 0; aad_allowed := false; slot_to_delete := None; trusted_conf_data := None; auth_info := None;
     crypto_op := Op_EcSign []; input_size := 0 |}.
Definition op_of (h : Z) (s : KeyMintTa) : Operation := default no_op (abs (ta_operations s) !! h).
Lemma op_of_lookup h s : bool_decide (is_Some (abs (ta_operations s) !! h)) = true → abs (ta_operations s) !! h = Some (op_of h s).
Proof. unfold op_of. rewrite bool_decide_eq_true. by intros [op ->]. Qed.
Ltac the_op := apply op_of_lookup; vm_compute; reflexivity.

Lemma table_refines_map_witness :
  abs_run conf_session.1 (abs (ta_operations conf_session.2)) ∧ distinct (ta_operations conf_session.2) ∧
  (size (abs (ta_operations conf_session.2)) ≤ length (ta_operations conf_session.2))%nat ∧
  (∀ h op, abs (ta_operations conf_session.2) !! h = Some op ↔
     ∃ i, ta_operations conf_session.2 !! i = Some (Some op) ∧ handle op = h).
Proof. apply table_refines_map. run_session. Defined.

Lemma confirmation_enforced_witness :
  ∃ token, Some conf_token = Some token ∧ len token = 32 ∧
    device_hmac conf_session.2 (CONFIRMATION_DATA_PREFIX ++ input_of h1 conf_session.1 ++ more) = Ok token ∧
    len (input_of h1 conf_session.1 ++ more) ≤ CONFIRMATION_MESSAGE_MAX_LEN.
Proof.
  eapply (confirmation_enforced conf_session.1 conf_session.2 h1 (op_of h1 conf_session.2)
    (CONFIRMATION_DATA_PREFIX ++ order) (Some more) None None None (Some conf_token) (value [] _)).
  - run_session.
  - the_op.
  - vm_compute. reflexivity.
  - succeeds.
Defined.

(** An authentication token for operation [h1], at the given time. *)
Definition auth_token (challenge timestamp : Z) : HardwareAuthToken :=
  let t := {| hat_challenge := challenge; hat_user_id := 42; hat_authenticator_id := 0;
              hat_authenticator_type := HardwareAuthenticatorType_Password; hat_timestamp := timestamp; hat_mac := [] |} in
  {| hat_challenge := challenge; hat_user_id := 42; hat_authenticator_id := 0;
     hat_authenticator_type := HardwareAuthenticatorType_Password; hat_timestamp := timestamp;
     hat_mac := match device_hmac (ready None true) (hardware_auth_token_mac_input t) with Ok m => m | _ => [] end |}.
Definition user_params : list KeyParam := [KP_UserSecureId 42; KP_UserAuthType 1].

Definition auth_session := session user_params None [] (ready (Some 1000) true).
Definition auth_update := Update h1 order (Some (auth_token h1 900)) None.
Lemma auth_enforced_witness :
  let info := {| secure_ids := [42]; auth_type := 1; timeout_secs := None |} in
  call_authenticated auth_session.2 h1 info (Some (auth_token h1 900)) None ∧
  (∀ op', abs (ta_operations (do_call auth_update auth_session.2).2) !! h1 = Some op' →
          timeout_secs info = None → auth_info op' = Some info).
Proof.
  eapply (auth_enforced auth_session.1 auth_session.2 auth_update h1 (Some (auth_token h1 900)) None
    (op_of h1 auth_session.2) _ (value Done _)).
  - run_session.
  - reflexivity.
  - the_op.
  - vm_compute. reflexivity.
  - succeeds.
Defined.

(** A key with a timeout, and one with every restriction that [begin] looks at. *)
Definition timed := provision (hmac_chars (user_params ++ [KP_AuthTimeout 10])) hmac_key (ready (Some 1000) true).
Definition timed_begin := begin_operation KeyPurpose_Sign timed.1 sign_params (Some (auth_token 0 900)) timed.2.
Definition no_result : InternalBeginResult :=
  {| InternalBeginResult_challenge := 0; InternalBeginResult_params := []; InternalBeginResult_op_handle := 0 |}.
Lemma begin_auth_recorded_witness :
  ∃ k slot chars op,
    keyblob_parse_decrypt timed.2 timed.1 sign_params = Ok (k, slot) ∧
    characteristics_at (characteristics k) (ta_security_level timed.2) = Ok chars ∧
    abs (ta_operations timed_begin.2) !! InternalBeginResult_op_handle (value no_result timed_begin) = Some op ∧
    auth_recorded timed.2 (Some (auth_token 0 900)) chars op.
Proof.
  apply (begin_auth_recorded KeyPurpose_Sign).
  - apply distinct_empty. decide_compute.
  - succeeds.
Defined.

Definition strict := provision (hmac_chars [KP_NoAuthRequired; KP_TrustedConfirmationRequired; KP_UsageCountLimit 1;
                                            KP_TrustedUserPresenceRequired]) hmac_key (ready (Some 1000) true).
Definition strict_begin := begin_operation KeyPurpose_Sign strict.1 sign_params None strict.2.
Lemma begin_restrictions_witness :
  ∃ k slot chars op,
    keyblob_parse_decrypt strict.2 strict.1 sign_params = Ok (k, slot) ∧
    characteristics_at (characteristics k) (ta_security_level strict.2) = Ok chars ∧
    abs (ta_operations strict_begin.2) !! InternalBeginResult_op_handle (value no_result strict_begin) = Some op ∧
    check_begin_params chars KeyPurpose_Sign sign_params = Ok tt ∧
    restricted strict.2 strict_begin.2 KeyPurpose_Sign chars slot op.
Proof.
  apply (begin_restrictions KeyPurpose_Sign strict.1 sign_params None).
  - apply distinct_empty. decide_compute.
  - succeeds.
Defined.

Definition update_session := session [KP_NoAuthRequired] None [Update h1 order None None] (ready (Some 1000) true).
Definition once_session := session [KP_NoAuthRequired; KP_UsageCountLimit 1] None [] (ready (Some 1000) true).
(** Provisioning the single-use key took one more draw. *)
Definition h2 : Z := 144680345676153346.
Definition once_mgr : InMemory.InMemorySlotManager := default (InMemory.default_mgr 0) (ta_sdd_mgr once_session.2).
Lemma single_use_deleted_witness :
  ∃ m', ta_sdd_mgr (op_finish h2 (Some order) None None None None once_session.2).2 = Some m' ∧
        (∃ e, get_secret m' 0 = Err e) ∧ ∀ j, j ≠ 0 → get_secret m' j = get_secret once_mgr j.
Proof.
  eapply (single_use_deleted (M := sdm) (ok := InMemory.mgr_ok) (ML := InMemory.InMemorySDM_laws) once_session.2 h2 (op_of h2 once_session.2) 0 once_mgr
    (Some order) None None None None (value [] _)).
  - apply session_distinct; [decide_compute | vm_compute; reflexivity].
  - the_op.
  - vm_compute. reflexivity.
  - range_lia.
  - vm_compute. reflexivity.
  - vm_compute. done.
  - vm_compute. reflexivity.
  - succeeds.
Defined.

Lemma new_op_handle_unused_witness :
  ∃ h s', new_op_handle update_session.2 = (Ok h, s') ∧ ta_operations s' = ta_operations update_session.2 ∧
          h ∉ live_handles update_session.2.
Proof. apply new_op_handle_unused. decide_compute. Defined.

(** The user is not present. *)
Definition presence_session := session (user_params ++ [KP_TrustedUserPresenceRequired]) None [] (ready (Some 1000) false).
Lemma presence_checked_once_witness :
  (op_update h1 order None None presence_session.2 =
     (Err (Hal KeyUserNotAuthenticated), set_presence None presence_session.2)) ∧
  is_ok (op_update h1 order (Some (auth_token h1 900)) None (set_presence None presence_session.2)).1 = true.
Proof.
  destruct (presence_checked_once presence_session.2 h1 (op_of h1 presence_session.2)) as (_ & _ & Hp).
  - apply session_distinct; [decide_compute | vm_compute; reflexivity].
  - the_op.
  - vm_compute. reflexivity.
  - vm_compute. reflexivity.
  - split; [|vm_compute; reflexivity]. refine (proj1 (Hp order None None (Hal KeyUserNotAuthenticated) _)). vm_compute. reflexivity.
Defined.

Lemma presence_mark_leaks_witness :
  ∃ s', op_finish h1 (Some order) None None None None presence_session.2 = (Err (Hal KeyUserNotAuthenticated), s') ∧
        abs (ta_operations s') !! h1 = None ∧ ta_presence_required_op s' = Some h1.
Proof.
  destruct (presence_mark_leaks presence_session.2 h1 (op_of h1 presence_session.2) (Some order) None None None None
    (Hal KeyUserNotAuthenticated)) as (s' & ? & ? & ? & _).
  - apply session_distinct; [decide_compute | vm_compute; reflexivity].
  - the_op.
  - vm_compute. reflexivity.
  - vm_compute. reflexivity.
  - eauto.
Defined.

Definition verify_op : CryptoOperation := @Op_HmacVerify acc emit aad [] (16, 256).
Lemma hmac_verify_long_signature_witness :
  begin_crypto KeyPurpose_Verify (hmac_chars []) sign_params hmac_key (0 : rng_state) =
    (Ok (verify_op, false, []), 0) ∧
  crypto_finish verify_op None (Some (replicate 33 (u8_of 0))) = Panic.
Proof.
  split; [vm_compute; reflexivity|].
  destruct (hmac_verify_long_signature (R := rng) (Explicit (replicate 16 (u8_of 3))) (hmac_chars []) sign_params 0
    verify_op false [] 0) as (digest & bits & op & lo & _ & _ & Hc & Hp); [vm_compute; reflexivity|].
  injection Hc as <- <- <-. eapply Hp; [reflexivity|vm_compute; done..].
Defined.
End SampleOps.
