(* ===== verification/Sessions.v ===== *)
(** * Operations from start to end

    Every operation, whatever else the device does in between, computes what it would compute
    alone ([operations_isolated]); so signatures made in one operation are accepted in another,
    and data encrypted in one operation is decrypted in another. *)

From S2P Require Import Prelude Wire TagInfo TagLegacy CryptoTypes TagParams TagGen TagBegin Crypto.
From S2P Require Import Codec WireCodec Keyblob TaState Operation OperationSpec.

(** ** One operation alone *)

Section solo.
Context `{ACC : AccumulatingOperation} `{EMIT : EmittingOperation} `{AAD : AadOperation} `{CTE : ConstTimeEq}.

Fixpoint crypto_aads (c : CryptoOperation) (aads : list bytes) : Result CryptoOperation :=
  match aads, c with
  | [], _ => Ok c
  | aad :: aads', Op_AesGcm op => op ← aad_update_aad op aad; crypto_aads (Op_AesGcm op) aads'
  | _, _ => km_err InvalidOperation
  end.
Fixpoint crypto_updates (c : CryptoOperation) (chunks : list bytes) : Result (bytes * CryptoOperation) :=
  match chunks with
  | [] => Ok ([], c)
  | data :: chunks' => '(o, c) ← crypto_update c data; '(os, c) ← crypto_updates c chunks'; Ok (o ++ os, c)
  end.
(** Additional data, then input. *)
Definition crypto_feed (c : CryptoOperation) (aads chunks : list bytes) : Result (bytes * CryptoOperation) :=
  c ← crypto_aads c aads; crypto_updates c chunks.
(** All of an operation: everything it puts out. *)
Definition crypto_run (c : CryptoOperation) (aads chunks : list bytes) (data signature : option bytes) : Result bytes :=
  '(out, c) ← crypto_feed c aads chunks;
  rest ← crypto_finish c data signature;
  Ok (out ++ rest).

Lemma crypto_aads_snoc aads aad : ∀ c c1 c2,
  crypto_aads c aads = Ok (Op_AesGcm c1) → aad_update_aad c1 aad = Ok c2 →
  crypto_aads c (aads ++ [aad]) = Ok (Op_AesGcm c2).
Proof.
  induction aads as [|a aads IH]; intros c c1 c2 Ha Hu; cbn [crypto_aads app] in *.
  { injection Ha as ->. by rewrite Hu. }
  destruct c; try done. apply res_bind_Ok in Ha as (op1 & -> & Ha). by apply (IH _ c1).
Qed.
Lemma crypto_updates_app chunks chunks' : ∀ c,
  crypto_updates c (chunks ++ chunks') =
  '(o, c) ← crypto_updates c chunks; '(os, c) ← crypto_updates c chunks'; Ok (o ++ os, c).
Proof.
  induction chunks as [|data chunks IH]; intros c; cbn [crypto_updates app].
  { cbn [mbind res_bind]. by destruct (crypto_updates c chunks') as [[]| |]. }
  destruct (crypto_update c data) as [[o c1]| |]; cbn [mbind res_bind]; [|done..]. rewrite IH.
  destruct (crypto_updates c1 chunks) as [[o1 c2]| |]; cbn [mbind res_bind]; [|done..].
  destruct (crypto_updates c2 chunks') as [[o2 c3]| |]; cbn [mbind res_bind]; [|done..]. by rewrite (assoc_L (++)).
Qed.
Lemma crypto_feed_aad c aads aad c1 c2 :
  crypto_feed c aads [] = Ok ([], Op_AesGcm c1) → aad_update_aad c1 aad = Ok c2 →
  crypto_feed c (aads ++ [aad]) [] = Ok ([], Op_AesGcm c2).
Proof.
  unfold crypto_feed. intros Hf Hu. apply res_bind_Ok in Hf as (c' & Ha & [= ->]).
  by rewrite (crypto_aads_snoc aads aad c c1 c2).
Qed.
Lemma crypto_feed_chunk c aads chunks data out c1 o c2 :
  crypto_feed c aads chunks = Ok (out, c1) → crypto_update c1 data = Ok (o, c2) →
  crypto_feed c aads (chunks ++ [data]) = Ok (out ++ o, c2).
Proof.
  unfold crypto_feed. intros Hf Hu. apply res_bind_Ok in Hf as (c' & -> & Hf). cbn [mbind res_bind].
  rewrite crypto_updates_app, Hf. cbn [crypto_updates mbind res_bind]. rewrite Hu. cbn [mbind res_bind].
  by rewrite app_nil_r.
Qed.
End solo.

(** ** What has been done with a handle *)

(** How the operation known by a handle was started, what it has been given since, and what it
    has put out. *)
Record History := mk_history {
  hi_purpose : KeyPurpose; hi_blob : bytes; hi_params : list KeyParam; hi_reply : InternalBeginResult;
  hi_aads : list bytes; hi_chunks : list bytes; hi_out : bytes
}.
Definition add_aad (data : bytes) (H : History) : History :=
  mk_history (hi_purpose H) (hi_blob H) (hi_params H) (hi_reply H) (hi_aads H ++ [data]) (hi_chunks H) (hi_out H).
Definition add_chunk (data out : bytes) (H : History) : History :=
  mk_history (hi_purpose H) (hi_blob H) (hi_params H) (hi_reply H) (hi_aads H) (hi_chunks H ++ [data]) (hi_out H ++ out).
Definition note (h : Z) (H : option History) (ev : Call * Result Reply) : option History :=
  match ev with
  | (Begin purpose kb params _, Ok (Begun r)) =>
    if decide (InternalBeginResult_op_handle r = h) then Some (mk_history purpose kb params r [] [] []) else H
  | (UpdateAad h' data _ _, Ok _) => if decide (h' = h) then add_aad data <$> H else H
  | (Update h' data _ _, Ok (Output o)) => if decide (h' = h) then add_chunk data o <$> H else H
  | _ => H
  end.
Definition history (h : Z) (evs : list (Call * Result Reply)) : option History := foldl (note h) None evs.
Lemma history_snoc h evs ev : history h (evs ++ [ev]) = note h (history h evs) ev.
Proof. unfold history. by rewrite foldl_app. Qed.

Section sessions.
Context `{T : Target} `{ACC : AccumulatingOperation} `{EMIT : EmittingOperation} `{AAD : AadOperation}
  `{HM : !Hmac} `{AES : !Aes} `{DES : !Des} `{RSA : !Rsa} `{EC : !Ec} `{HK : Hkdf} `{R : Rng}
  `{M : !SecureDeletionSecretManager} `{KM : RetrieveKeyMaterial} `{LK : LegacyKeyHandler}
  `{CTE : ConstTimeEq} `{C : Ciborium} `{K : Coset}.

(** The start that a history speaks of: a call in the sequence [evs], whose key blob decrypted
    to key [k] with the characteristics [chars], policy allowed the use, and the cryptographic
    operation that was set up was [c]. *)
Record origin (evs : list (Call * Result Reply)) (H : History) (k : KeyMaterial) (chars : list KeyParam)
    (c : CryptoOperation) : Prop := {
  or_begin : ∃ evs0 (s0 : KeyMintTa) tok b slot, run evs0 s0 ∧
    (evs0 ++ [(Begin (hi_purpose H) (hi_blob H) (hi_params H) tok, Ok (Begun (hi_reply H)))]) `prefix_of` evs ∧
    keyblob_parse_decrypt s0 (hi_blob H) (hi_params H) = Ok (b, slot) ∧ key_material b = k ∧
    characteristics_at (characteristics b) (ta_security_level s0) = Ok chars;
  or_policy : check_begin_params chars (hi_purpose H) (hi_params H) = Ok tt;
  or_crypto : ∃ r aad_ok r', begin_crypto (hi_purpose H) chars (hi_params H) k r =
    (Ok (c, aad_ok, InternalBeginResult_params (hi_reply H)), r')
}.
Lemma origin_snoc evs ev H H' k chars c :
  hi_purpose H' = hi_purpose H → hi_blob H' = hi_blob H → hi_params H' = hi_params H → hi_reply H' = hi_reply H →
  origin evs H k chars c → origin (evs ++ [ev]) H' k chars c.
Proof.
  intros Hp Hb Hpa Hr [(evs0 & s0 & tok & b & slot & Hrun & Hpre & Hk) Hpol Hc].
  split; rewrite ?Hp, ?Hb, ?Hpa, ?Hr; [|done..].
  exists evs0, s0, tok, b, slot. split_and!; [done|by apply prefix_app_r|apply Hk..].
Qed.

(** The operation in the table is the one that was set up, after what it was given. *)
Record traced (h : Z) (evs : list (Call * Result Reply)) (op : Operation) (H : History) (k : KeyMaterial)
    (chars : list KeyParam) (c : CryptoOperation) : Prop := {
  tr_history : history h evs = Some H;
  tr_origin : origin evs H k chars c;
  tr_feed : crypto_feed c (hi_aads H) (hi_chunks H) = Ok (hi_out H, crypto_op op);
  tr_aad : aad_allowed op = true → hi_chunks H = []
}.
Definition all_traced (evs : list (Call * Result Reply)) (m : gmap Z Operation) : Prop :=
  map_Forall (λ h op, ∃ H k chars c, traced h evs op H k chars c) m.

Lemma traced_other h evs ev op H k chars c :
  note h (history h evs) ev = history h evs → traced h evs op H k chars c → traced h (evs ++ [ev]) op H k chars c.
Proof.
  intros Hn [Hh Ho Hf Ha]. split; [|by eapply origin_snoc|done..]. by rewrite history_snoc, Hn.
Qed.
Lemma traced_same h evs op op' H k chars c :
  crypto_op op' = crypto_op op → aad_allowed op' = aad_allowed op →
  traced h evs op H k chars c → traced h evs op' H k chars c.
Proof. intros Hc Ha [? ? Hf Haad]. split; [done..|by rewrite Hc|by rewrite Ha]. Qed.
Lemma traced_after_auth h evs (again : bool) op H k chars c :
  traced h evs op H k chars c → traced h evs (if again then op else clear_auth op) H k chars c.
Proof. apply traced_same; by destruct again. Qed.

Lemma all_traced_same evs ev m m' :
  (∀ h H, note h H ev = H) → m' ⊆ m → all_traced evs m → all_traced (evs ++ [ev]) m'.
Proof.
  intros Hn Hsub Hall h op Hop. destruct (Hall h op) as (H & k & chars & c & Ht); [by eapply lookup_weaken|].
  exists H, k, chars, c. by apply traced_other.
Qed.
Lemma all_traced_insert evs ev m h op :
  (∀ h' H, h' ≠ h → note h' H ev = H) → (∃ H k chars c, traced h (evs ++ [ev]) op H k chars c) →
  all_traced evs m → all_traced (evs ++ [ev]) (<[h := op]> m).
Proof.
  intros Hn Hop Hall h' op' [[<- <-]|[Hne Hl]]%lookup_insert_Some; [done|].
  destruct (Hall h' op' Hl) as (H & k & chars & c & Ht). exists H, k, chars, c. by apply traced_other; [apply Hn|].
Qed.

Lemma traced_begin evs purpose kb params tok (s : KeyMintTa) r s' :
  run evs s → distinct (ta_operations s) → all_traced evs (abs (ta_operations s)) →
  do_call (Begin purpose kb params tok) s = (r, s') → r ≠ Panic →
  all_traced (evs ++ [(Begin purpose kb params tok, r)]) (abs (ta_operations s')).
Proof.
  intros Hrun Hd Hall Hc Hr. apply wrap_inv in Hc as [(x & Hb & ->)|(e & Hb & ->)]; [| |done].
  - apply begin_operation_inv in Hb
      as [(e & [=] & _)|(k & sl & ch & i & op & pres & ret & Hst & [= ->] & -> & _ & Hcr)]; [|done].
    destruct (abs_insert_Some (ta_operations s) i None op) as [_ ->];
      [done|by eapply st_index| |done|].
    { intros j op' Hj Heq. by destruct (st_handle _ _ _ _ _ _ _ _ _ _ _ Hst j op'). }
    apply all_traced_insert; [| |done].
    + intros h' H Hne. cbn. by rewrite decide_False.
    + set (b := {| InternalBeginResult_challenge := _ |}).
      exists (mk_history purpose kb params b [] [] []), (key_material k), ch, (crypto_op op).
      split; [rewrite history_snoc; cbn; by rewrite decide_True| |done..].
      destruct Hst. split; cbn; [|done|destruct Hcr as (r & r' & Hcr); eauto].
      exists evs, s, tok, k, sl. by split_and!.
  - apply begin_operation_inv in Hb as [(e' & _ & ->)|(k & sl & ch & i & op & pres & ret & _ & [=] & _)]; [|done].
    eapply all_traced_same; [done|reflexivity|done].
Qed.

Lemma traced_update_aad evs h data tok tst (s : KeyMintTa) r s' :
  distinct (ta_operations s) → all_traced evs (abs (ta_operations s)) →
  do_call (UpdateAad h data tok tst) s = (r, s') → r ≠ Panic →
  all_traced (evs ++ [(UpdateAad h data tok tst, r)]) (abs (ta_operations s')).
Proof.
  intros Hd Hall Hc Hr.
  apply wrap_inv in Hc as [(x & Hc & ->)|(e & Hc & ->)]; [| |done];
    (eapply with_authed_operation_abs in Hc as (_ & _ & Hs); [|eauto using update_aad_op_handle|done..]);
    destruct Hs as [(v & op & again & op' & ? & Hm & _ & Hf & _ & ->)|[(?&?&->&_)|(?&?&?&_&->)]]; simplify_eq.
  - apply all_traced_insert; [|destruct (Hall h op Hm) as (H & k & chars & c & Ht)|done].
    { intros h' H Hne. cbn. by rewrite decide_False. }
    apply (traced_after_auth _ _ again) in Ht. set (op0 := if again then op else clear_auth op) in *.
    unfold update_aad_op in Hf. destruct (aad_allowed op0) eqn:Hal; [|done]. cbn [reject_if negb mbind res_bind] in Hf.
    destruct (crypto_op op0) as [|a| | | | | | |] eqn:Hop; try done.
    apply res_bind_Ok in Hf as (a' & Ha & [= <- <-]). destruct Ht as [Hh Ho Hfd Haad]. specialize (Haad Hal).
    exists (add_aad data H), k, chars, c. split; cbn; [|by apply (origin_snoc _ _ H)| |done].
    + rewrite history_snoc, Hh. cbn. by rewrite decide_True.
    + change (crypto_feed c (hi_aads H ++ [data]) (hi_chunks H) = Ok (hi_out H, Op_AesGcm a')).
      rewrite Haad in *. rewrite Hop in Hfd. assert (hi_out H = []) as Hnil.
      { unfold crypto_feed in Hfd. apply res_bind_Ok in Hfd as (? & _ & Heq). by injection Heq. }
      rewrite Hnil in *.
      by eapply crypto_feed_aad.
  - eapply all_traced_same; [done|reflexivity|done].
  - eapply all_traced_same; [done|apply delete_subseteq|done].
Qed.

Lemma update_op_crypto b t data (op op' : Operation) v :
  update_op b t data op = Ok (v, op') → crypto_update (crypto_op op) data = Ok (v, crypto_op op') ∧ aad_allowed op' = false.
Proof.
  unfold update_op. intros Hu. res_inv.
  repeat match goal with
  | H : extend_conf _ _ = Ok _ |- _ => apply extend_conf_handle in H as [? ->]
  | H : check_size _ _ = Ok _ |- _ => apply check_size_handle in H as [? ->]
  end. split_match_in Hu. by res_inv.
Qed.
Lemma traced_update evs h data tok tst (s : KeyMintTa) r s' :
  distinct (ta_operations s) → all_traced evs (abs (ta_operations s)) →
  do_call (Update h data tok tst) s = (r, s') → r ≠ Panic →
  all_traced (evs ++ [(Update h data tok tst, r)]) (abs (ta_operations s')).
Proof.
  intros Hd Hall Hc Hr.
  apply wrap_inv in Hc as [(x & Hc & ->)|(e & Hc & ->)]; [| |done]; unfold op_update in Hc;
    (eapply with_authed_operation_abs in Hc as (_ & _ & Hs); [|eauto using update_op_handle| |done]);
    try (by autorewrite with ops); autorewrite with ops in Hs;
    destruct Hs as [(v & op & again & op' & ? & Hm & _ & Hf & _ & ->)|[(?&?&->&_)|(?&?&?&_&->)]]; simplify_eq.
  - apply all_traced_insert; [|destruct (Hall h op Hm) as (H & k & chars & c & Ht)|done].
    { intros h' H Hne. cbn. by rewrite decide_False. }
    apply (traced_after_auth _ _ again) in Ht. apply update_op_crypto in Hf as [Hcu Hna].
    destruct Ht as [Hh Ho Hfd _]. exists (add_chunk data v H), k, chars, c.
    split; cbn; [|by apply (origin_snoc _ _ H)|by eapply crypto_feed_chunk|by rewrite Hna].
    rewrite history_snoc, Hh. cbn. by rewrite decide_True.
  - eapply all_traced_same; [done|reflexivity|done].
  - eapply all_traced_same; [done|apply delete_subseteq|done].
Qed.

Lemma run_traced evs (s : KeyMintTa) : run evs s → all_traced evs (abs (ta_operations s)).
Proof.
  induction 1 as [s Hnone|evs s c r s' Hrun IH Hc Hr|evs s s' Hrun IH Heq].
  - intros h op (i & Hi & _)%abs_lookup; [|by apply distinct_empty].
    by apply (proj1 (Forall_lookup _ _) Hnone) in Hi.
  - pose proof (run_inv evs s Hrun) as [Hd _]. destruct (table_step c s r s') as (Hd' & _ & Hs); [done..|].
    destruct c; [exact (traced_begin _ _ _ _ _ _ _ _ Hrun Hd IH Hc Hr)|
      exact (traced_update_aad _ _ _ _ _ _ _ _ Hd IH Hc Hr)|
      exact (traced_update _ _ _ _ _ _ _ _ Hd IH Hc Hr)|..];
      inversion Hs; subst; (eapply all_traced_same; [done|apply delete_subseteq|done]).
  - by rewrite Heq.
Qed.

(** An operation that can be finished without tokens, and whose key has no slot to delete. *)
Record unrestricted (s : KeyMintTa) (h : Z) (op : Operation) : Prop := {
  ur_auth : auth_info op = None;
  ur_presence : ta_presence_required_op s ≠ Some h;
  ur_conf : trusted_conf_data op = None;
  ur_slot : slot_to_delete op = None
}.
Lemma op_finish_plain h data sig tok tst conf (s : KeyMintTa) op op2 :
  distinct (ta_operations s) → abs (ta_operations s) !! h = Some op → unrestricted s h op →
  check_size op (from_option len 0 data) = Ok op2 →
  (op_finish h data sig tok tst conf s).1 = crypto_finish (crypto_op op) data sig.
Proof.
  intros Hd Hop [Hau Hpr Hco Hsl] Hsz. apply abs_lookup in Hop as (i & Hi & Hh); [|done].
  unfold op_finish. unfold mbind at 1, stM_bind at 1, take_operation.
  destruct (op_index s h) as [j|e|] eqn:Hix; [|by apply op_index_Err in Hix as [_ Hix]; destruct (Hix i op)|
    by destruct (op_index_no_panic s h)].
  apply op_index_Ok in Hix as (op' & Hj & Hh'). assert (j = i) as -> by (eapply Hd; [done..|congruence]).
  rewrite Hi in *. simplify_eq. set (s1 := set_operations _ s).
  assert (ta_presence_required_op s1 = ta_presence_required_op s) as Hs1 by (by destruct s).
  unfold mbind at 1, stM_bind at 1, get_st at 1. unfold mbind at 1, stM_bind at 1, liftr at 1.
  unfold check_subsequent_auth at 1. rewrite Hau. unfold mbind at 1, stM_bind at 1, check_finish_presence.
  rewrite Hs1, decide_False by done. unfold mbind at 1, stM_bind at 1, liftr at 1.
  assert (match data with Some d => extend_conf d op' | None => Ok op' end = Ok op') as ->.
  { destruct data; [|done]. unfold extend_conf. by rewrite Hco. }
  unfold mbind at 1, stM_bind at 1, liftr at 1. rewrite Hsz. apply check_size_handle in Hsz as [z ->].
  unfold mbind at 1, stM_bind at 1, liftr at 1. cbn [crypto_op set_input_size trusted_conf_data slot_to_delete].
  destruct (crypto_finish (crypto_op op') data sig) as [out|e|]; [|done..].
  unfold mbind, stM_bind, get_st, liftr. by rewrite Hco, Hsl.
Qed.

(** [finish] ends what was begun. *)
Lemma finish_run evs (s : KeyMintTa) h op H k chars c data sig tok tst conf :
  run evs s → abs (ta_operations s) !! h = Some op → traced h evs op H k chars c →
  (∀ out s', op_finish h data sig tok tst conf s = (Ok out, s') →
     crypto_run c (hi_aads H) (hi_chunks H) data sig = Ok (hi_out H ++ out)) ∧
  (∀ op2, unrestricted s h op → check_size op (from_option len 0 data) = Ok op2 →
     crypto_run c (hi_aads H) (hi_chunks H) data sig = app (hi_out H) <$> (op_finish h data sig tok tst conf s).1).
Proof.
  intros Hrun Hop Ht. pose proof (run_inv evs s Hrun) as [Hd _]. unfold crypto_run.
  rewrite (tr_feed _ _ _ _ _ _ _ Ht). cbn [mbind res_bind]. split.
  - intros out s' (op0 & op1 & op2 & [Hlive _ _ Hconf Hsz Hout _ _])%op_finish_Ok.
    assert (op0 = op) as -> by (apply abs_lookup in Hlive; [|done]; by simplify_eq).
    apply check_size_handle in Hsz as [z ->].
    assert (crypto_op op1 = crypto_op op) as Hc.
    { destruct data; [by apply extend_conf_handle in Hconf as [? ->]|by simplify_eq]. }
    cbn in Hout. rewrite Hc in Hout. by rewrite Hout.
  - intros op2 Hur Hsz. rewrite (op_finish_plain h data sig tok tst conf s op op2) by done.
    by destruct (crypto_finish (crypto_op op) data sig).
Qed.

(** C2: every operation computes what it would compute alone. Whatever calls are made on the
    device, and whatever else happens there, an operation in progress was started by a [begin]
    with a key blob and parameters that policy allows, and its cryptographic state is the one set
    up then, fed with exactly the data of the successful calls on its handle, in order: additional
    data first, then input. When [finish] succeeds, all its output together is that of the
    cryptographic operation run alone; and when nothing but the size is left to check, [finish]
    gives just that, errors included. *)
Theorem operations_isolated evs (s : KeyMintTa) h op :
  run evs s → abs (ta_operations s) !! h = Some op →
  ∃ H k chars c, traced h evs op H k chars c ∧
    (∀ data sig tok tst conf out s', op_finish h data sig tok tst conf s = (Ok out, s') →
       crypto_run c (hi_aads H) (hi_chunks H) data sig = Ok (hi_out H ++ out)) ∧
    (∀ data sig tok tst conf op2, unrestricted s h op → check_size op (from_option len 0 data) = Ok op2 →
       crypto_run c (hi_aads H) (hi_chunks H) data sig = app (hi_out H) <$> (op_finish h data sig tok tst conf s).1).
Proof.
  intros Hrun Hop. destruct (run_traced evs s Hrun h op Hop) as (H & k & chars & c & Ht).
  exists H, k, chars, c. split; [done|]. split; intros; by eapply finish_run.
Qed.

(** ** Signatures with an HMAC key *)

(** All the input of an operation, with what [finish] brings. *)
Definition message (H : History) (data : option bytes) : bytes := concat (hi_chunks H) ++ default [] data.
Lemma message_chunks H data : concat (hi_chunks H ++ option_list data) = message H data.
Proof. unfold message. rewrite concat_app. destruct data; cbn; by rewrite ?app_nil_r. Qed.

(** Operations that only take in data until the end. *)
Lemma opt_update_chunks (op : acc_op) data : opt_update op data = update_chunks op (option_list data).
Proof. destruct data as [data|]; [|done]. cbn. by destruct (acc_update op data). Qed.
Lemma crypto_updates_acc (mk : acc_op → CryptoOperation) chunks :
  (∀ op data, crypto_update (mk op) data = op' ← acc_update op data; Ok ([], mk op')) →
  ∀ op, crypto_updates (mk op) chunks = op' ← update_chunks op chunks; Ok ([], mk op').
Proof.
  intros Hmk. induction chunks as [|data chunks IH]; intros op; cbn [crypto_updates update_chunks]; [done|].
  rewrite Hmk. destruct (acc_update op data) as [op1| |]; cbn [mbind res_bind]; [|done..]. rewrite IH.
  by destruct (update_chunks op1 chunks).
Qed.
Lemma crypto_run_acc (mk : acc_op → CryptoOperation) op aads chunks data sig (f : bytes → Result bytes) out :
  (∀ op data, crypto_update (mk op) data = op' ← acc_update op data; Ok ([], mk op')) →
  (∀ op, crypto_finish (mk op) data sig = op ← opt_update op data; mac ← acc_finish op; f mac) →
  crypto_feed (mk op) aads chunks = Ok out → crypto_aads (mk op) aads = Ok (mk op) →
  crypto_run (mk op) aads chunks data sig =
  op ← update_chunks op (chunks ++ option_list data); mac ← acc_finish op; f mac.
Proof.
  intros Hu Hfin Hfeed Ha. unfold crypto_run. unfold crypto_feed in *. rewrite Ha in *. cbn [mbind res_bind] in *.
  rewrite (crypto_updates_acc mk) in * by done. rewrite update_chunks_app.
  destruct (update_chunks op chunks) as [op1| |]; cbn [mbind res_bind] in *; [|done..].
  rewrite Hfin, opt_update_chunks. destruct (update_chunks op1 _) as [op2| |]; cbn [mbind res_bind]; [|done..].
  destruct (acc_finish op2) as [mac| |]; cbn [mbind res_bind]; [|done..]. by destruct (f mac).
Qed.
Lemma crypto_feed_no_aad c aads chunks out :
  (∀ op, c ≠ Op_AesGcm op) → crypto_feed c aads chunks = Ok out → crypto_aads c aads = Ok c.
Proof.
  intros Hc Hf. destruct aads as [|a aads]; [done|]. destruct c; [..|]; try done. by destruct (Hc op).
Qed.

Lemma crypto_feed_acc (mk : acc_op → CryptoOperation) op aads chunks out c :
  (∀ op data, crypto_update (mk op) data = op' ← acc_update op data; Ok ([], mk op')) →
  crypto_aads (mk op) aads = Ok (mk op) → crypto_feed (mk op) aads chunks = Ok (out, c) → out = [].
Proof.
  intros Hu Ha Hf. unfold crypto_feed in Hf. rewrite Ha in Hf. cbn [mbind res_bind] in Hf.
  rewrite (crypto_updates_acc mk) in Hf by done. apply res_bind_Ok in Hf as (op' & _ & Heq). by injection Heq.
Qed.

Section hmac.
Context `{HR : !HmacRuns mac}.

(** What policy requires of an HMAC signature's length. *)
Lemma check_begin_hmac_facts chars params :
  omap as_Algorithm chars = [Algorithm_Hmac] → check_begin_params chars KeyPurpose_Sign params = Ok tt →
  ∃ digest bits n lo, get_digest params = Ok digest ∧ digest_len digest = Ok bits ∧
    omap as_MacLength params = [n] ∧ omap as_MinMacLength chars = [lo] ∧ lo ≤ n ≤ bits ∧ n mod 8 = 0.
Proof.
  intros Halg (algo & nonce & [Ha _ _ _ _ _ Hc _])%check_begin_params_checked.
  rewrite Halg in Ha. injection Ha as <-. unfold check_begin_hmac_params in Hc.
  do 2 apply res_bind_Ok in Hc as (? & _ & Hc). apply res_bind_Ok in Hc as (digest & Hd & Hc).
  apply res_bind_Ok in Hc as (? & Hm & _). rewrite decide_True in Hm by done.
  apply res_bind_Ok in Hm as (n & Hn%get_tag_value_Ok & Hm). apply res_bind_Ok in Hm as (long & Hl & Hm).
  apply res_bind_Ok in Hm as (? & ->%reject_if_Ok & Hm). apply res_bind_Ok in Hm as (lo & Hlo%get_tag_value_Ok & Hm).
  apply reject_if_Ok, bool_decide_eq_false in Hm. case_decide as Hmod; [done|].
  apply res_bind_Ok in Hl as (bits & Hb & [= Hl%bool_decide_eq_false]).
  exists digest, bits, n, lo. split_and!; (done || lia).
Qed.

Lemma sign_session h evs op H key chars c :
  traced h evs op H (KM_Hmac (Explicit key)) chars c → hi_purpose H = KeyPurpose_Sign →
  omap as_Algorithm chars = [Algorithm_Hmac] →
  ∃ digest bits n lo, get_digest (hi_params H) = Ok digest ∧ digest_len digest = Ok bits ∧
    omap as_MacLength (hi_params H) = [n] ∧ omap as_MinMacLength chars = [lo] ∧ lo ≤ n ≤ bits ∧ hi_out H = [] ∧
    ∀ data sig, crypto_run c (hi_aads H) (hi_chunks H) data sig =
      Ok (take (Z.to_nat (n / 8)) (mac digest key (message H data))).
Proof.
  intros Ht Hp Halg. destruct (tr_origin _ _ _ _ _ _ _ Ht) as [_ Hpol (r & a & r' & Hc)]. rewrite Hp in Hpol, Hc.
  destruct (check_begin_hmac_facts _ _ Halg Hpol) as (digest & bits & n & lo & Hd & Hb & Hn & Hlo & Hle & _).
  exists digest, bits, n, lo. do 4 (split; [done|]). split; [lia|].
  unfold begin_crypto in Hc. st_inv.
  match goal with H : get_digest _ = Ok ?d |- _ => assert (d = digest) as -> by congruence end. simplify_eq.
  match goal with H : get_tag_value as_MacLength _ _ = Ok _ |- _ => apply get_tag_value_Ok in H; rewrite Hn in H; injection H as <- end.
  match goal with H : hmac_begin _ _ = Ok _ |- _ => rename H into Hbeg end. pose proof (tr_feed _ _ _ _ _ _ _ Ht) as Hf.
  split; [by eapply (crypto_feed_acc (λ op, Op_HmacSign op (n / 8))); [..|by eapply crypto_feed_no_aad|]|].
  intros data sig. erewrite (crypto_run_acc (λ op, Op_HmacSign op (n / 8)) _ _ _ _ _ (λ tag, Ok (take (Z.to_nat (n / 8)) tag)));
    [|done..|by eapply crypto_feed_no_aad].
  pose proof (hmac_run key digest bits (hi_chunks H ++ option_list data) Hb) as Hr. rewrite Hbeg, message_chunks in Hr.
  cbn [mbind res_bind] in Hr. apply res_bind_Ok in Hr as (op' & -> & Hr). cbn [mbind res_bind]. by rewrite Hr.
Qed.

Lemma verify_session `{CTL : !ConstTimeEqLaws} h evs op H key chars c digest bits :
  traced h evs op H (KM_Hmac (Explicit key)) chars c → hi_purpose H = KeyPurpose_Verify →
  get_digest (hi_params H) = Ok digest → digest_len digest = Ok bits →
  ∃ lo, omap as_MinMacLength chars = [lo] ∧ hi_out H = [] ∧
    ∀ data sig, lo / 8 ≤ len sig → 8 * len sig ≤ bits → 
      crypto_run c (hi_aads H) (hi_chunks H) data (Some sig) =
      if decide (sig = take (length sig) (mac digest key (message H data))) then Ok [] else km_err VerificationFailed.
Proof.
  intros Ht Hp Hd Hb. destruct (tr_origin _ _ _ _ _ _ _ Ht) as [_ Hpol (r & a & r' & Hc)]. rewrite Hp in Hpol, Hc.
  unfold begin_crypto in Hc. st_inv.
  match goal with H : get_digest _ = Ok ?d |- _ => assert (d = digest) as -> by congruence end. simplify_eq.
  match goal with H : digest_len _ = Ok ?b |- _ => assert (b = bits) as -> by congruence end.
  match goal with H : get_tag_value as_MinMacLength _ _ = Ok ?x |- _ => apply get_tag_value_Ok in H; rename x into lo; exists lo; split; [done|] end.
  match goal with H : hmac_begin _ _ = Ok _ |- _ => rename H into Hbeg end. pose proof (tr_feed _ _ _ _ _ _ _ Ht) as Hf.
  split; [by eapply (crypto_feed_acc (λ op, Op_HmacVerify op (lo / 8, bits))); [..|by eapply crypto_feed_no_aad|]|].
  intros data sig Hlo Hhi.
  pose proof (length_hmac_run key digest bits (message H data) Hb) as Hlen.
  erewrite (crypto_run_acc (λ op, Op_HmacVerify op (lo / 8, bits)) _ _ _ _ _
    (λ got, got ← slice_to got (len sig); if ct_eq got sig then Ok [] else km_err VerificationFailed));
    [|done| |done|by eapply crypto_feed_no_aad].
  2: { intros op'. cbn [crypto_finish ok_or mbind res_bind]. rewrite bool_decide_eq_true_2; [done|].
       split; [done|]. pose proof (len_nonneg sig). destruct digest; cbn in Hb; simplify_eq; lia. }
  pose proof (hmac_run key digest bits (hi_chunks H ++ option_list data) Hb) as Hr. rewrite Hbeg, message_chunks in Hr.
  cbn [mbind res_bind] in Hr. apply res_bind_Ok in Hr as (op' & -> & Hr). cbn [mbind res_bind]. rewrite Hr.
  cbn [mbind res_bind]. destruct (slice_split (E:=Error) (mac digest key (message H data)) (len sig)) as [-> _];
    [pose proof (len_nonneg sig); lia|]. cbn [mbind res_bind].
  unfold len. rewrite Nat2Z.id. case_decide as Heq.
  - by rewrite (proj2 (ct_eq_true _ _)).
  - destruct (ct_eq _ sig) eqn:He; [|done]. apply ct_eq_true in He. congruence.
Qed.

(** C6: a signature that one operation made with an HMAC key is accepted by another operation that
    verifies it with the same key and digest, on any device and whatever else happens there, if
    both are given the same message, in whatever pieces; any other signature of that length is
    refused with [VerificationFailed]. The length needs no further assumption: policy lets
    signatures be made only in lengths that are accepted afterwards. *)
Theorem hmac_sign_verify `{CTL : !ConstTimeEqLaws} key chars digest
    evs1 (s1 : KeyMintTa) h1 op1 H1 c1 data1 sig1 tok1 tst1 conf1 tag s1'
    evs2 (s2 : KeyMintTa) h2 op2 H2 c2 data2 tok2 tst2 conf2 op2' :
  omap as_Algorithm chars = [Algorithm_Hmac] →
  get_digest (hi_params H1) = Ok digest → get_digest (hi_params H2) = Ok digest →
  run evs1 s1 → abs (ta_operations s1) !! h1 = Some op1 →
  traced h1 evs1 op1 H1 (KM_Hmac (Explicit key)) chars c1 → hi_purpose H1 = KeyPurpose_Sign →
  op_finish h1 data1 sig1 tok1 tst1 conf1 s1 = (Ok tag, s1') →
  run evs2 s2 → abs (ta_operations s2) !! h2 = Some op2 →
  traced h2 evs2 op2 H2 (KM_Hmac (Explicit key)) chars c2 → hi_purpose H2 = KeyPurpose_Verify →
  unrestricted s2 h2 op2 → check_size op2 (from_option len 0 data2) = Ok op2' →
  (message H2 data2 = message H1 data1 → (op_finish h2 data2 (Some tag) tok2 tst2 conf2 s2).1 = Ok []) ∧
  (∀ sig, length sig = length tag →
     (op_finish h2 data2 (Some sig) tok2 tst2 conf2 s2).1 =
     if decide (sig = take (length sig) (mac digest key (message H2 data2))) then Ok [] else km_err VerificationFailed).
Proof.
  intros Halg Hd1 Hd2 Hrun1 Hop1 Ht1 Hp1 Hf1 Hrun2 Hop2 Ht2 Hp2 Hur Hsz.
  destruct (sign_session _ _ _ _ _ _ _ Ht1 Hp1 Halg) as (digest' & bits & n & lo & Hd & Hb & _ & Hlo & Hle & Ho1 & Hsign).
  rewrite Hd1 in Hd. injection Hd as <-.
  destruct (verify_session _ _ _ _ _ _ _ _ _ Ht2 Hp2 Hd2 Hb) as (lo' & Hlo' & Ho2 & Hver).
  rewrite Hlo in Hlo'. injection Hlo' as <-. pose proof (length_hmac_run key digest bits (message H1 data1) Hb) as Hlen.
  destruct (finish_run _ _ _ _ _ _ _ _ data1 sig1 tok1 tst1 conf1 Hrun1 Hop1 Ht1) as [Hr1 _].
  specialize (Hr1 _ _ Hf1). rewrite Hsign, Ho1 in Hr1. cbn [app] in Hr1. injection Hr1 as <-.
  set (tag := take _ (mac digest key (message H1 data1))) in *.
  pose proof (Z.div_le_mono lo n 8) as Hmono. pose proof (Z.mul_div_le n 8) as Hmul.
  assert (len tag = Z.max 0 (n / 8)) as Hlt by (unfold tag, len in *; rewrite length_take; lia).
  assert (∀ sig, length sig = length tag → (op_finish h2 data2 (Some sig) tok2 tst2 conf2 s2).1 =
     if decide (sig = take (length sig) (mac digest key (message H2 data2))) then Ok [] else km_err VerificationFailed) as Hv.
  { intros sig Hls. rewrite <- Hver by (unfold len in *; rewrite Hls; lia).
    destruct (finish_run _ _ _ _ _ _ _ _ data2 (Some sig) tok2 tst2 conf2 Hrun2 Hop2 Ht2) as [_ Hr2].
    rewrite (Hr2 _ Hur Hsz), Ho2. by destruct (op_finish _ _ _ _ _ _ _).1. }
  split; [|done]. intros Hm. rewrite (Hv tag eq_refl), Hm. rewrite decide_True; [done|].
  unfold tag. rewrite length_take. destruct (Nat.min_spec (Z.to_nat (n / 8)) (length (mac digest key (message H1 data1))))
    as [[_ ->]|[? ->]]; [done|]. by rewrite !take_ge.
Qed.
End hmac.

(** ** Encryption with AES-GCM *)

Lemma crypto_aads_gcm aads : ∀ op : aad_op, crypto_aads (Op_AesGcm op) aads = op ← feed_aad op aads; Ok (Op_AesGcm op).
Proof.
  induction aads as [|aad aads IH]; intros op; cbn [crypto_aads feed_aad]; [done|].
  destruct (aad_update_aad op aad) as [op1| |]; cbn [mbind res_bind]; [|done..]. apply IH.
Qed.
Lemma crypto_updates_gcm chunks : ∀ op : aad_op,
  crypto_updates (Op_AesGcm op) chunks = '(o, op) ← feed op chunks; Ok (o, Op_AesGcm op).
Proof.
  induction chunks as [|data chunks IH]; intros op; cbn [crypto_updates feed crypto_update]; [done|].
  destruct (aad_update op data) as [[o op1]| |]; cbn [mbind res_bind]; [|done..]. rewrite IH.
  by destruct (feed op1 chunks) as [[]| |].
Qed.
Lemma crypto_run_gcm (op : aad_op) aads chunks data sig :
  crypto_run (Op_AesGcm op) aads chunks data sig =
  op ← feed_aad op aads; '(o, op) ← feed op (chunks ++ option_list data); rest ← aad_finish op; Ok (o ++ rest).
Proof.
  unfold crypto_run, crypto_feed. rewrite crypto_aads_gcm.
  destruct (feed_aad op aads) as [op1| |]; cbn [mbind res_bind]; [|done..]. rewrite crypto_updates_gcm, feed_app.
  destruct (feed op1 chunks) as [[o op2]| |]; cbn [mbind res_bind]; [|done..].
  destruct data as [data|]; cbn [crypto_finish option_list feed mbind res_bind].
  - change (option_list (Some data)) with [data]. cbn [feed].
    destruct (aad_update op2 data) as [[o' op3]| |]; cbn [mbind res_bind]; [|done..]. rewrite app_nil_r.
    destruct (aad_finish op3); cbn [mbind res_bind]; [|done..]. by rewrite (assoc_L (++)).
  - change (option_list (@None bytes)) with (@nil bytes). cbn [feed mbind res_bind]. rewrite app_nil_r.
    by destruct (aad_finish op2).
Qed.

(** The mode in which an operation was started: the nonce is given, or chosen and returned. *)
Definition gcm_mode (nonce : bytes) (tag_len : Z) : option GcmMode :=
  match tag_len with
  | 12 => Some (GcmTag12 nonce) | 13 => Some (GcmTag13 nonce) | 14 => Some (GcmTag14 nonce)
  | 15 => Some (GcmTag15 nonce) | 16 => Some (GcmTag16 nonce) | _ => None
  end.
Lemma gcm_mode_nonce nonce t m : gcm_mode nonce t = Some m → AesMode_nonce (Aead m) = Some nonce.
Proof. unfold gcm_mode. intros Hm. repeat case_match; by simplify_eq. Qed.
Definition session_mode (H : History) : option GcmMode :=
  match omap as_Nonce (hi_params H ++ InternalBeginResult_params (hi_reply H)), omap as_MacLength (hi_params H) with
  | [nonce], [bits] => gcm_mode nonce (bits / 8)
  | _, _ => None
  end.

Lemma AesMode_new_gcm params cn r mode r' :
  get_block_mode params = Ok BlockMode_Gcm → AesMode_new params cn r = (Ok mode, r') →
  ∃ n bits m, mode = Aead m ∧ omap as_MacLength params = [bits] ∧ gcm_mode n (bits / 8) = Some m ∧
    (∀ n', cn = Some n' → n' = n).
Proof.
  intros Hb Hm. unfold AesMode_new in Hm. apply stM_bind_Ok in Hm as (bm & r1 & Hbm & Hm).
  rewrite Hb in Hbm. injection Hbm as <- <-. st_inv.
  match goal with H : nonce_array _ _ _ = (Ok ?n, _) |- _ => rename n into nn; rename H into Hn; exists nn end.
  match goal with H : get_tag_value as_MacLength _ _ = Ok ?b |- _ => exists b; apply get_tag_value_Ok in H end.
  assert (∀ n', cn = Some n' → n' = nn) as Hcn.
  { intros n' ->. unfold nonce_array, nonce in Hn. st_inv. by repeat case_decide; simplify_eq. }
  unfold gcm_mode. repeat case_match; simplify_eq; eexists; split_and!; try done.
Qed.

Lemma gcm_session h evs op H key chars c mode :
  traced h evs op H (KM_Aes (Explicit key)) chars c → get_block_mode (hi_params H) = Ok BlockMode_Gcm →
  session_mode H = Some mode →
  ∃ dir, direction (hi_purpose H) = Ok dir ∧
    ∀ data sig, crypto_run c (hi_aads H) (hi_chunks H) data sig =
      aead_run (Explicit key) mode dir (hi_aads H) (hi_chunks H ++ option_list data).
Proof.
  intros Ht Hb Hmode. destruct (tr_origin _ _ _ _ _ _ _ Ht) as [_ _ (r & a & r' & Hc)].
  unfold begin_crypto in Hc.
  apply stM_bind_Ok in Hc as (cn & r1 & Hcn & Hc). unfold liftr in Hcn. injection Hcn as Hcn <-. apply get_opt_tag_value_Ok in Hcn.
  apply stM_bind_Ok in Hc as (md & r2 & Hmd & Hc). apply AesMode_new_gcm in Hmd as (n & bits & m & -> & Hbits & Hm & Hn); [|done].
  rewrite (gcm_mode_nonce _ _ _ Hm) in Hc.
  apply stM_bind_Ok in Hc as (dir & r3 & Hdir & Hc). unfold liftr in Hdir. injection Hdir as Hdir <-.
  apply stM_bind_Ok in Hc as (o & r4 & Ho & Hc). unfold liftr in Ho. injection Ho as Ho <-.
  unfold mret, stM_ret in Hc. injection Hc as <- _ Hret _. exists dir. split; [done|].
  assert (mode = m) as ->.
  { unfold session_mode in Hmode. rewrite <- Hret, omap_app, Hcn, Hbits in Hmode.
    destruct cn as [n'|]; cbn in Hmode; [rewrite (Hn n' eq_refl) in Hmode|]; congruence. }
  intros data sig. rewrite crypto_run_gcm. unfold aead_run. by rewrite Ho.
Qed.

Section gcm_sessions.
Context `{AR : !AeadRuns sealf openf accepts}.

(** C7: what one operation encrypted with an AES key in GCM mode, another operation decrypts with
    the same key, nonce, tag length and additional data, on any device and whatever else happens
    there, in whatever pieces data is given; and a decryption succeeds on nothing but the
    encryption, with that key, nonce and additional data, of what it puts out. *)
Theorem gcm_encrypt_decrypt key mode
    evs1 (s1 : KeyMintTa) h1 op1 H1 chars1 c1 data1 sig1 tok1 tst1 conf1 out1 s1'
    evs2 (s2 : KeyMintTa) h2 op2 H2 chars2 c2 data2 sig2 tok2 tst2 conf2 op2' :
  get_block_mode (hi_params H1) = Ok BlockMode_Gcm → get_block_mode (hi_params H2) = Ok BlockMode_Gcm →
  session_mode H1 = Some mode → session_mode H2 = Some mode → concat (hi_aads H2) = concat (hi_aads H1) →
  run evs1 s1 → abs (ta_operations s1) !! h1 = Some op1 →
  traced h1 evs1 op1 H1 (KM_Aes (Explicit key)) chars1 c1 → hi_purpose H1 = KeyPurpose_Encrypt →
  accepts Encrypt key mode (hi_aads H1) (len (message H1 data1)) = true →
  op_finish h1 data1 sig1 tok1 tst1 conf1 s1 = (Ok out1, s1') →
  run evs2 s2 → abs (ta_operations s2) !! h2 = Some op2 →
  traced h2 evs2 op2 H2 (KM_Aes (Explicit key)) chars2 c2 → hi_purpose H2 = KeyPurpose_Decrypt →
  accepts Decrypt key mode (hi_aads H2) (len (message H2 data2)) = true →
  unrestricted s2 h2 op2 → check_size op2 (from_option len 0 data2) = Ok op2' →
  (message H2 data2 = hi_out H1 ++ out1 →
     app (hi_out H2) <$> (op_finish h2 data2 sig2 tok2 tst2 conf2 s2).1 = Ok (message H1 data1)) ∧
  (∀ pt, app (hi_out H2) <$> (op_finish h2 data2 sig2 tok2 tst2 conf2 s2).1 = Ok pt →
     message H2 data2 = sealf key mode (concat (hi_aads H1)) pt).
Proof.
  intros Hb1 Hb2 Hm1 Hm2 Haad Hrun1 Hop1 Ht1 Hp1 Hacc1 Hf1 Hrun2 Hop2 Ht2 Hp2 Hacc2 Hur Hsz.
  destruct (gcm_session _ _ _ _ _ _ _ _ Ht1 Hb1 Hm1) as (dir1 & Hd1 & Hr1). rewrite Hp1 in Hd1. injection Hd1 as <-.
  destruct (gcm_session _ _ _ _ _ _ _ _ Ht2 Hb2 Hm2) as (dir2 & Hd2 & Hr2). rewrite Hp2 in Hd2. injection Hd2 as <-.
  destruct (finish_run _ _ _ _ _ _ _ _ data1 sig1 tok1 tst1 conf1 Hrun1 Hop1 Ht1) as [Hf _].
  specialize (Hf _ _ Hf1). rewrite Hr1, aead_run_seal, message_chunks in Hf by (by rewrite message_chunks). injection Hf as Hf.
  destruct (finish_run _ _ _ _ _ _ _ _ data2 sig2 tok2 tst2 conf2 Hrun2 Hop2 Ht2) as [_ Hg].
  specialize (Hg _ Hur Hsz). rewrite Hr2, aead_run_open, message_chunks in Hg by (by rewrite message_chunks).
  rewrite <- Hg, Haad. split; [|apply open_authentic]. intros ->. by rewrite <- Hf, open_sealed.
Qed.
End gcm_sessions.
End sessions.

(** ** A device with small cryptography *)

Module SampleSessions.
#[local] Existing Instances Keyblob.Sample.rng Keyblob.Sample.cbor Keyblob.Sample.coset Keyblob.Sample.hkdf_inst
  Keyblob.Sample.emit SampleTa.target SampleTa.keys SampleTa.legacy SampleTa.cte SampleTa.cte_laws SampleTa.sdm SampleTa.sha.

(** MACs and tags are sums; encryption turns the data around. What is signed without a digest is
    at most 32 bytes long. *)
Definition byte_sum (b : bytes) : Z := foldr (λ x s, u8_val x + s) 0 b.
Definition mac (digest : Digest) (key data : bytes) : bytes :=
  match digest_len digest with
  | Ok bits => reverse (to_be_bytes (Z.to_nat (bits / 8)) (3 * byte_sum key + byte_sum data))
  | _ => []
  end.
#[local] Instance acc : AccumulatingOperation := {|
  acc_op := Digest * bytes * bytes;
  acc_max_input_size := λ op, if decide (op.1.1 = Digest_None) then Some 32 else None;
  acc_update := λ op data, Ok (op.1, op.2 ++ data);
  acc_finish := λ op, Ok (mac op.1.1 op.1.2 op.2)
|}.
#[local] Instance hmac : Hmac := {| hmac_begin := λ key digest, k ← explicit key; Ok (digest, k, []) |}.
#[local] Instance rsa : Rsa := {| rsa_begin_decrypt := λ _ _, Ok (Digest_None, [], []);
                                  rsa_begin_sign := λ _ _, Ok (Digest_None, [], []) |}.
#[local] Instance ec : Ec := {| ec_begin_agree := λ _, Ok (Digest_None, [], []);
                                ec_begin_sign := λ _ _, Ok (Digest_None, [], []) |}.
#[local] Instance des : Des := {| des_begin := λ _ _ _, Ok tt |}.
#[local] Instance cmac : AesCmac := {| cmac_begin := λ _, Ok (Digest_None, [], []) |}.
Lemma update_chunks_sum chunks : ∀ op : acc_op, update_chunks op chunks = Ok (op.1, op.2 ++ concat chunks).
Proof.
  induction chunks as [|x l IH]; intros [op d]; cbn [update_chunks concat]; [cbn; by rewrite app_nil_r|].
  cbn. rewrite IH. cbn. by rewrite <- (assoc_L (++)).
Qed.
#[local] Instance mac_runs : HmacRuns mac.
Proof.
  split.
  - intros key digest bits chunks _. cbn. by rewrite update_chunks_sum.
  - intros key digest bits data Hb. unfold mac, len. rewrite Hb, length_reverse, length_to_be_bytes. by destruct digest; cbn in Hb; simplify_eq.
Qed.

Definition key_bytes (k : AesKey) : bytes := match k with AesKey128 b | AesKey192 b | AesKey256 b => b end.
Definition nonce_of (m : GcmMode) : bytes := default [] (AesMode_nonce (Aead m)).
Definition sum_tag (key : AesKey) (mode : GcmMode) (aad pt : bytes) : bytes :=
  to_be_bytes (Z.to_nat (GcmMode_tag_len mode))
    (byte_sum (key_bytes key) + 3 * byte_sum (nonce_of mode) + 5 * byte_sum aad + 7 * byte_sum pt).
Definition sum_seal (key : AesKey) (mode : GcmMode) (aad pt : bytes) : bytes := reverse pt ++ sum_tag key mode aad pt.
Definition sum_open (key : AesKey) (mode : GcmMode) (aad data : bytes) : Result bytes :=
  let n := (length data - Z.to_nat (GcmMode_tag_len mode))%nat in
  let pt := reverse (take n data) in
  if decide (drop n data = sum_tag key mode aad pt) then Ok pt else km_err VerificationFailed.
#[local] Instance aad : AadOperation := {|
  aad_op := SymmetricOperation * AesKey * GcmMode * bytes * bytes;
  aad_update_aad := λ '(dir, k, m, a, d) data, Ok (dir, k, m, a ++ data, d);
  aad_update := λ '(dir, k, m, a, d) data, Ok ([], (dir, k, m, a, d ++ data));
  aad_finish := λ '(dir, k, m, a, d), match dir with Encrypt => Ok (sum_seal k m a d) | Decrypt => sum_open k m a d end
|}.
#[local] Instance aes : Aes := {|
  aes_begin := λ _ _ _, Ok tt;
  aes_begin_aead := λ key mode dir, k ← explicit key; Ok (dir, k, mode, [], [])
|}.
Lemma feed_aad_sum aads : ∀ dir k m a d, feed_aad (dir, k, m, a, d) aads = Ok (dir, k, m, a ++ concat aads, d).
Proof.
  induction aads as [|x l IH]; intros dir k m a d; cbn [feed_aad concat]; [by rewrite app_nil_r|].
  cbn. rewrite IH. by rewrite <- (assoc_L (++)).
Qed.
Lemma feed_sum chunks : ∀ dir k m a d, feed (dir, k, m, a, d) chunks = Ok ([], (dir, k, m, a, d ++ concat chunks)).
Proof.
  induction chunks as [|x l IH]; intros dir k m a d; cbn [feed concat]; [by rewrite app_nil_r|].
  cbn. rewrite IH. cbn. by rewrite <- (assoc_L (++)).
Qed.
Definition takes_all (dir : SymmetricOperation) (key : AesKey) (mode : GcmMode) (aads : list bytes) (n : Z) : bool := true.
#[local] Instance aead_runs : AeadRuns sum_seal sum_open takes_all.
Proof.
  split.
  - intros key mode aads chunks _. unfold aead_run. cbn. rewrite feed_aad_sum. cbn. by rewrite feed_sum.
  - intros key mode aads chunks _. unfold aead_run. cbn. rewrite feed_aad_sum. cbn. rewrite feed_sum. cbn.
    by destruct (sum_open _ _ _ _).
  - intros key mode aad pt. unfold sum_open, sum_seal.
    assert (length (sum_tag key mode aad pt) = Z.to_nat (GcmMode_tag_len mode)) as Hl by apply length_to_be_bytes.
    rewrite length_app, Hl. replace (_ + _ - _)%nat with (length (reverse pt)) by lia.
    rewrite take_app_length, drop_app_length, reverse_involutive. by rewrite decide_True.
  - intros key mode aad data pt. unfold sum_open, sum_seal. case_decide as Ht; [|done]. intros [= <-].
    rewrite reverse_involutive, <- Ht. by rewrite take_drop.
Qed.

(** The device after start-up, and a key blob made on it. *)
Definition dev : KeyMintTa :=
  config_run [Cfg_SetBootInfo SampleTa.boot;
              Cfg_SetHalInfo {| os_version := 140000; os_patchlevel := 202401; vendor_patchlevel := 20240105 |};
              Cfg_EarlyBootEnded]
    (KeyMintTa_new SecurityLevel_TrustedEnvironment (0 : rng_state) (Some 1000) None None true false).
Definition make_blob (chars : list KeyParam) (k : KeyMaterial) : bytes :=
  let p := {| characteristics := [{| security_level := SecurityLevel_TrustedEnvironment;
                                     authorizations := chars ++ keymint_tags dev KeyOrigin_Generated |}];
              key_material := k |} in
  match (rot ← root_of_trust dev; hidden [] rot) with
  | Ok hid =>
    match encrypt SecurityLevel_TrustedEnvironment Keyblob.Sample.root [] p hid KeyGeneration (None, ta_rng dev) with
    | (Ok b, _) => match into_vec EncryptedKeyBlob_codec b with Ok data => data | _ => [] end
    | _ => []
    end
  | _ => []
  end.

(** A signing and a verifying operation on the same key, at the same time. *)
Definition hmac_key : bytes := replicate 16 (u8_of 3).
Definition hmac_blob : bytes := make_blob (SampleOps.hmac_chars [KP_NoAuthRequired]) (KM_Hmac (Explicit hmac_key)).
Definition sign_params : list KeyParam := [KP_Digest Digest_Sha256; KP_MacLength 160].
Definition verify_params : list KeyParam := [KP_Digest Digest_Sha256].
(** The handles of the first and the second operation. *)
Definition h1 : Z := 0.
Definition h2 : Z := 72340172838076673.
Definition mac_calls : list Call :=
  [Begin KeyPurpose_Sign hmac_blob sign_params None; Update h1 (bytes_of_string "pay ") None None;
   Begin KeyPurpose_Verify hmac_blob verify_params None; Update h2 (bytes_of_string "pa") None None;
   Update h1 (bytes_of_string "5") None None].
Definition mac_session := exec mac_calls dev.

(** The operation with a given handle, its history, and what its key blob contains. *)
Definition no_reply : InternalBeginResult :=
  {| InternalBeginResult_challenge := 0; InternalBeginResult_params := []; InternalBeginResult_op_handle := 0 |}.
Definition history_of (h : Z) (evs : list (Call * Result Reply)) : History :=
  default (mk_history KeyPurpose_Sign [] [] no_reply [] [] []) (history h evs).
Definition no_op : Operation :=
  {| handle := 0; aad_allowed := false; slot_to_delete := None; trusted_conf_data := None; auth_info := None;
     crypto_op := Op_EcSign (Digest_None, [], []); input_size := 0 |}.
Definition op_of (h : Z) (s : KeyMintTa) : Operation := default no_op (abs (ta_operations s) !! h).
Lemma session_op_lookup h s : bool_decide (is_Some (abs (ta_operations s) !! h)) = true → abs (ta_operations s) !! h = Some (op_of h s).
Proof. unfold op_of. rewrite bool_decide_eq_true. by intros [op ->]. Qed.
Definition contents (kb : bytes) : PlaintextKeyBlob :=
  match keyblob_parse_decrypt dev kb [] with Ok (b, _) => b | _ => {| characteristics := []; key_material := KM_Hmac (Opaque []) |} end.
Definition chars_of (kb : bytes) : list KeyParam :=
  match characteristics_at (characteristics (contents kb)) SecurityLevel_TrustedEnvironment with Ok c => c | _ => [] end.

Lemma mac_run : run mac_session.1 mac_session.2.
Proof. apply exec_run; [decide_compute|vm_compute; reflexivity]. Qed.
Definition sign_op : CryptoOperation := Op_HmacSign (Digest_Sha256, hmac_key, []) 20.
Definition verify_op : CryptoOperation := Op_HmacVerify (Digest_Sha256, hmac_key, []) (16, 256).
(** Equality by evaluation, without writing the normal forms out. *)
Ltac evaluates := match goal with |- _ = ?b => vm_cast_no_check (eq_refl b) end.
Lemma sign_traced :
  traced h1 mac_session.1 (op_of h1 mac_session.2) (history_of h1 mac_session.1) (KM_Hmac (Explicit hmac_key))
    (chars_of hmac_blob) sign_op.
Proof.
  split; [vm_compute; reflexivity| |evaluates|vm_compute; done].
  split; [|vm_compute; reflexivity|exists (ta_rng dev), false, (ta_rng dev); evaluates].
  exists [], dev, None, (contents hmac_blob), None. split_and!.
  - constructor. decide_compute.
  - exists (drop 1 mac_session.1). vm_compute. reflexivity.
  - vm_compute. reflexivity.
  - vm_compute. reflexivity.
  - vm_compute. reflexivity.
Qed.
Lemma verify_traced :
  traced h2 mac_session.1 (op_of h2 mac_session.2) (history_of h2 mac_session.1) (KM_Hmac (Explicit hmac_key))
    (chars_of hmac_blob) verify_op.
Proof.
  split; [vm_compute; reflexivity| |evaluates|vm_compute; done].
  split; [|vm_compute; reflexivity|exists (ta_rng dev), false, (ta_rng dev); evaluates].
  pose (before := exec (take 2 mac_calls) dev).
  exists before.1, before.2, None, (contents hmac_blob), None. split_and!; [| |evaluates..].
  - apply exec_run; [decide_compute|vm_compute; reflexivity].
  - exists (drop 3 mac_session.1). evaluates.
Qed.
Ltac the_op := apply session_op_lookup; vm_compute; reflexivity.
Ltac free_op := split; [evaluates|vm_compute; discriminate|evaluates..].

Lemma operations_isolated_witness :
  ∃ H k chars c, traced h1 mac_session.1 (op_of h1 mac_session.2) H k chars c ∧
    (∀ data sig tok tst conf out s', op_finish h1 data sig tok tst conf mac_session.2 = (Ok out, s') →
       crypto_run c (hi_aads H) (hi_chunks H) data sig = Ok (hi_out H ++ out)) ∧
    (∀ data sig tok tst conf op2, unrestricted mac_session.2 h1 (op_of h1 mac_session.2) →
       check_size (op_of h1 mac_session.2) (from_option len 0 data) = Ok op2 →
       crypto_run c (hi_aads H) (hi_chunks H) data sig = app (hi_out H) <$> (op_finish h1 data sig tok tst conf mac_session.2).1).
Proof. apply operations_isolated; [apply mac_run|the_op]. Defined.

(** The rest of the message reaches both operations in different pieces. *)
Definition sign_end := op_finish h1 (Some (bytes_of_string "0")) None None None None mac_session.2.
Definition signature : bytes := value [] sign_end.
Definition verified_end (sig : bytes) := (op_finish h2 (Some (bytes_of_string "y 50")) (Some sig) None None None mac_session.2).1.
Lemma hmac_sign_verify_witness :
  signature ≠ [] ∧ verified_end signature = Ok [] ∧ verified_end (replicate 20 (u8_of 0)) = km_err VerificationFailed.
Proof.
  destruct (hmac_sign_verify hmac_key (chars_of hmac_blob) Digest_Sha256
    mac_session.1 mac_session.2 h1 (op_of h1 mac_session.2) (history_of h1 mac_session.1)
      sign_op (Some (bytes_of_string "0")) None None None None signature sign_end.2
    mac_session.1 mac_session.2 h2 (op_of h2 mac_session.2) (history_of h2 mac_session.1)
      verify_op (Some (bytes_of_string "y 50")) None None None
      (match check_size (op_of h2 mac_session.2) 4 with Ok op => op | _ => no_op end)) as [Hgood Hbad].
  1-3: vm_compute; reflexivity.
  - apply mac_run.
  - the_op.
  - apply sign_traced.
  - vm_compute; reflexivity.
  - succeeds.
  - apply mac_run.
  - the_op.
  - apply verify_traced.
  - vm_compute; reflexivity.
  - free_op.
  - evaluates.
  - split; [vm_compute; discriminate|]. split; [apply Hgood; vm_compute; reflexivity|].
    unfold verified_end. rewrite Hbad by (vm_compute; reflexivity). vm_compute. reflexivity.
Defined.

(** An encryption with a nonce chosen on the device; then a decryption, while another
    encryption with the same key is in progress. *)
Definition aes_key : AesKey := AesKey128 (replicate 16 (u8_of 9)).
Definition gcm_blob : bytes := make_blob
  [KP_Purpose KeyPurpose_Encrypt; KP_Purpose KeyPurpose_Decrypt; KP_Algorithm Algorithm_Aes; KP_KeySize 128;
   KP_BlockMode BlockMode_Gcm; KP_Padding PaddingMode_None; KP_MinMacLength 96; KP_NoAuthRequired] (KM_Aes (Explicit aes_key)).
Definition gcm_params : list KeyParam := [KP_BlockMode BlockMode_Gcm; KP_Padding PaddingMode_None; KP_MacLength 96].
Definition enc_session := exec
  [Begin KeyPurpose_Encrypt gcm_blob gcm_params None; UpdateAad h1 (bytes_of_string "to: ") None None;
   UpdateAad h1 (bytes_of_string "bob") None None; Update h1 (bytes_of_string "attack at") None None] dev.
Definition enc_nonce : list KeyParam := InternalBeginResult_params (hi_reply (history_of h1 enc_session.1)).
Definition enc_end := op_finish h1 (Some (bytes_of_string " dawn")) None None None None enc_session.2.
Definition ciphertext : bytes := hi_out (history_of h1 enc_session.1) ++ value [] enc_end.
Definition h3 : Z := 144680345676153346.
Definition dec_calls : list Call :=
  [Begin KeyPurpose_Encrypt gcm_blob gcm_params None; Begin KeyPurpose_Decrypt gcm_blob (gcm_params ++ enc_nonce) None;
   UpdateAad h3 (bytes_of_string "to: bob") None None; Update h1 (bytes_of_string "other") None None;
   Update h3 (take 7 ciphertext) None None].
Definition dec_session := exec dec_calls dev.
Definition gcm_op (dir : SymmetricOperation) : CryptoOperation :=
  Op_AesGcm (dir, aes_key, GcmTag12 (replicate 12 (u8_of 1)), [], []).
Lemma enc_run : run enc_session.1 enc_session.2.
Proof. apply exec_run; [decide_compute|vm_compute; reflexivity]. Qed.
Lemma dec_run : run dec_session.1 dec_session.2.
Proof. apply exec_run; [decide_compute|vm_compute; reflexivity]. Qed.
Lemma enc_traced :
  traced h1 enc_session.1 (op_of h1 enc_session.2) (history_of h1 enc_session.1) (KM_Aes (Explicit aes_key))
    (chars_of gcm_blob) (gcm_op Encrypt).
Proof.
  pose (r := (next_handle (ta_rng dev)).2). split; [vm_compute; reflexivity| |evaluates|vm_compute; done].
  split; [|vm_compute; reflexivity|exists r, true, (random_bytes 12 r).2; evaluates].
  exists [], dev, None, (contents gcm_blob), None. split_and!; [| |evaluates..].
  - constructor. decide_compute.
  - exists (drop 1 enc_session.1). evaluates.
Qed.
Lemma dec_traced :
  traced h3 dec_session.1 (op_of h3 dec_session.2) (history_of h3 dec_session.1) (KM_Aes (Explicit aes_key))
    (chars_of gcm_blob) (gcm_op Decrypt).
Proof.
  split; [vm_compute; reflexivity| |evaluates|vm_compute; done].
  split; [|vm_compute; reflexivity|exists (ta_rng dev), true, (ta_rng dev); evaluates].
  pose (before := exec (take 1 dec_calls) dev).
  exists before.1, before.2, None, (contents gcm_blob), None. split_and!; [| |evaluates..].
  - apply exec_run; [decide_compute|vm_compute; reflexivity].
  - exists (drop 2 dec_session.1). evaluates.
Qed.

Definition dec_end := (op_finish h3 (Some (drop 7 ciphertext)) None None None None dec_session.2).1.
Lemma gcm_encrypt_decrypt_witness :
  app (hi_out (history_of h3 dec_session.1)) <$> dec_end = Ok (bytes_of_string "attack at dawn") ∧
  ciphertext = sum_seal aes_key (GcmTag12 (replicate 12 (u8_of 1))) (bytes_of_string "to: bob") (bytes_of_string "attack at dawn").
Proof.
  destruct (gcm_encrypt_decrypt aes_key (GcmTag12 (replicate 12 (u8_of 1)))
    enc_session.1 enc_session.2 h1 (op_of h1 enc_session.2) (history_of h1 enc_session.1) (chars_of gcm_blob)
      (gcm_op Encrypt) (Some (bytes_of_string " dawn")) None None None None (value [] enc_end) enc_end.2
    dec_session.1 dec_session.2 h3 (op_of h3 dec_session.2) (history_of h3 dec_session.1) (chars_of gcm_blob)
      (gcm_op Decrypt) (Some (drop 7 ciphertext)) None None None None
      (match check_size (op_of h3 dec_session.2) (len (drop 7 ciphertext)) with Ok op => op | _ => no_op end)) as [Hopen Hauth].
  1-5: vm_compute; reflexivity.
  - apply enc_run.
  - the_op.
  - apply enc_traced.
  - vm_compute; reflexivity.
  - reflexivity.
  - succeeds.
  - apply dec_run.
  - the_op.
  - apply dec_traced.
  - vm_compute; reflexivity.
  - reflexivity.
  - free_op.
  - evaluates.
  - assert (app (hi_out (history_of h3 dec_session.1)) <$> dec_end = Ok (bytes_of_string "attack at dawn")) as Hpt.
    { unfold dec_end. rewrite Hopen by (vm_compute; reflexivity). vm_compute. reflexivity. }
    split; [exact Hpt|]. transitivity (message (history_of h3 dec_session.1) (Some (drop 7 ciphertext))); [vm_compute; reflexivity|].
    rewrite (Hauth _ Hpt). vm_compute. reflexivity.
Defined.

(** An elliptic curve signature without a digest, and the start of an encryption. *)
Definition ec_blob : bytes := make_blob
  [KP_Purpose KeyPurpose_Sign; KP_Algorithm Algorithm_Ec; KP_KeySize 256; KP_EcCurve EcCurve_P256;
   KP_Digest Digest_None; KP_NoAuthRequired] (KM_Ec EcCurve_P256 CurveType_Nist (Explicit (EcKey_P256 (replicate 32 (u8_of 4))))).
Definition ec_session := exec
  [Begin KeyPurpose_Sign ec_blob [KP_Digest Digest_None] None; Update h1 (replicate 20 (u8_of 1)) None None] dev.
Definition new_session := exec [Begin KeyPurpose_Encrypt gcm_blob gcm_params None] dev.
Definition last_bytes : bytes := replicate 12 (u8_of 2).
Definition refused {A} (r : Result A * KeyMintTa) : bool :=
  match r.1 with Err (Hal InvalidInputLength) => true | _ => false end.

(** The limit is reached by an update and by the final call; one byte more is refused. Additional
    data is accepted by the encryption. *)
Lemma input_limits_witness :
  (updates_of h1 new_session.1 = [] ∧ ∃ c, crypto_op (op_of h1 new_session.2) = Op_AesGcm c) ∧
  max_input_size (crypto_op (op_of h1 ec_session.2)) = Some 32 ∧
  len (input_of h1 ec_session.1) = 20 ∧
  len (input_of h1 ec_session.1 ++ last_bytes) ≤ 32 ∧
  len (input_of h1 ec_session.1 ++ from_option id [] (Some last_bytes)) ≤ 32 ∧
  refused (op_update h1 (u8_of 0 :: last_bytes) None None ec_session.2) &&
  refused (op_finish h1 (Some (u8_of 0 :: last_bytes)) None None None None ec_session.2) = true.
Proof.
  destruct (input_limits new_session.1 new_session.2 h1 (op_of h1 new_session.2) None None) as [Haad _].
  { apply exec_run; [decide_compute|vm_compute; reflexivity]. }
  { the_op. }
  destruct (input_limits ec_session.1 ec_session.2 h1 (op_of h1 ec_session.2) None None) as [_ Hlimit].
  { apply exec_run; [decide_compute|vm_compute; reflexivity]. }
  { the_op. }
  destruct (Hlimit 32) as [Hupdate Hfinish]; [evaluates|].
  split; [|split_and!; [evaluates..| | |evaluates]].
  - apply (Haad (bytes_of_string "to: bob") (op_update_aad h1 (bytes_of_string "to: bob") None None new_session.2).2).
    match goal with |- ?x = _ => vm_cast_no_check (eq_refl x) end.
  - eapply (Hupdate last_bytes (value [] _)); [succeeds|vm_compute; split; congruence].
  - eapply (Hfinish (Some last_bytes) None None (value [] _)); [succeeds|vm_compute; split; congruence].
Defined.
End SampleSessions.
