(* ===== verification/Dispatch.v ===== *)
(** * The requests of a trusted application ([ta/src/lib.rs])

    The dispatcher that hands each request to its method, and the methods that are not in the
    other files: hardware information, the transfer of the root of trust to StrongBox, and
    storage keys.  Every request gets a response of its own kind or an error of the right
    interface; what is set at start of day stays, whatever requests arrive; and what the
    transfer of the root of trust does and does not achieve. *)

From S2P Require Import Prelude Wire TagInfo TagLegacy CryptoTypes TagParams TagGen TagBegin Crypto.
From S2P Require Import Codec WireCodec WireSafe Keyblob TaState EcKeys Asn1 Cert Keys Rkp.
From S2P Require Import Operation OperationSpec.

(** Re-wrapping of storage keys for the inline encryption hardware, by the device. *)
Class StorageKeyWrapper := { ephemeral_wrap : KeyMaterial → Result bytes }.
(** Encoding with a CBOR tag, by the [coset] crate, of types that have an encoding. *)
Class TaggedCbor := {
  to_tagged_vec : ∀ {A}, Z → Codec A → A → CborResult bytes;
  from_tagged_slice : ∀ {A}, Z → Codec A → bytes → CborResult A
}.
Definition BOOT_INFO_TAG : Z := 40001.

(** What is fixed about the hardware; its security level is in the state of [TaState]. *)
Record HardwareInfo := mk_hw_info {
  hw_version_number : Z; hw_impl_name : string; hw_author_name : string; hw_unique_id : string }.

Section rot.
Context `{T : Target} `{ACC : AccumulatingOperation} `{EMIT : EmittingOperation} `{AAD : AadOperation}
  `{HM : !Hmac} `{R : Rng} `{M : !SecureDeletionSecretManager}
  `{KM : RetrieveKeyMaterial} `{LK : LegacyKeyHandler} `{SHA : Sha256} `{CTE : ConstTimeEq}
  `{CM0 : CoseMac0s} `{TC : TaggedCbor}.

(** ** Transfer of the root of trust *)

Definition get_root_of_trust_challenge : TA bytes := λ s,
  if negb (is_strongbox s) then (km_err Unimplemented, s)
  else let '(challenge, r) := fill_bytes 16 (ta_rng s) in
       (Ok challenge, set_rot_challenge challenge (set_rng r s)).
Definition encoding_err {A} (r : CborResult A) (e : ErrorCode) : Result A := map_err (λ _, Hal e) r.
Definition get_root_of_trust (s : KeyMintTa) (challenge : bytes) : Result bytes :=
  _ ← reject_if (is_strongbox s) (Hal Unimplemented);
  info ← boot_info_hashed_key s;
  payload ← encoding_err (to_tagged_vec BOOT_INFO_TAG BootInfo_codec info) EncodingError;
  tag ← device_hmac s (mac0_hmac256_tbm challenge payload);
  encoding_err (mac0_to_tagged_vec (mac0_hmac256 payload tag)) EncodingError.
(** What is received, if it is authentic. *)
Definition received_root_of_trust (s : KeyMintTa) (root_of_trust : bytes) : Result BootInfo :=
  mac0 ← encoding_err (mac0_from_tagged_slice root_of_trust) InvalidArgument;
  data ← match mac0_tbm (ta_rot_challenge s) mac0 with Some data => Ok data | None => Panic end;
  verified ← verify_device_hmac s data (mac0_tag mac0);
  _ ← reject_if (negb verified) (Hal VerificationFailed);
  payload ← ok_or (mac0_payload mac0) (Hal InvalidArgument);
  encoding_err (from_tagged_slice BOOT_INFO_TAG BootInfo_codec payload) InvalidArgument.
Definition send_root_of_trust (root_of_trust : bytes) : TA unit :=
  s ← get_st;
  _ ← liftr (reject_if (negb (is_strongbox s)) (Hal Unimplemented));
  info ← liftr (received_root_of_trust s root_of_trust);
  match ta_boot_info s with
  | None => modify (set_boot_rot (Some info) (ta_rot_data s))
  | Some _ => mret tt
  end.
End rot.

Section dispatch.
Context `{T : Target} `{ACC : AccumulatingOperation} `{EMIT : EmittingOperation} `{AAD : AadOperation}
  `{HM : !Hmac} `{CM : !AesCmac} `{AES : !Aes} `{DES : !Des} `{HK : Hkdf} `{R : Rng}
  `{M : !SecureDeletionSecretManager}
  `{KM : RetrieveKeyMaterial} `{LK : LegacyKeyHandler} `{SHA : Sha256} `{CTE : ConstTimeEq}
  `{C : Ciborium} `{K : Coset}
  `{RSA : !Rsa} `{EC : !Ec} `{PK : PublicKeys} `{I : ImportTraits} `{KG : !KeyGenerators}
  `{X : X509} `{D : DerCrate} `{CC : !CertCodecs} `{WC : WrapperCodecs}
  `{SI : RetrieveCertSigningInfo} `{AI : RetrieveAttestationIds} `{UI : UniqueIdHbk}
  `{CK : CoseKeys} `{CM0 : CoseMac0s} `{RPC : RetrieveRpcArtifacts} `{TC : TaggedCbor}
  `{SW : StorageKeyWrapper}.

(** The whole state: also the description of the hardware and whether there is a wrapper of
    storage keys. *)
Record KeyMintDevice := mk_device {
  ds_rpc : KeyMintRpc;
  ds_hw_info : HardwareInfo;
  ds_sk_wrapper : bool
}.
Abbreviation KTA := (stM KeyMintKeys Error).
Abbreviation RTA := (stM KeyMintRpc Error).
Abbreviation DTA := (stM KeyMintDevice Error).
Definition ds_ta (d : KeyMintDevice) : KeyMintTa := ks_ta (rs_keys (ds_rpc d)).
Definition on_rpc {A} (m : stM KeyMintRpc Error A) : DTA A := λ d,
  let '(r, s) := m (ds_rpc d) in (r, mk_device s (ds_hw_info d) (ds_sk_wrapper d)).
Definition on_keys {A} (m : stM KeyMintKeys Error A) : DTA A := on_rpc (with_keys m).
Definition on_ta {A} (m : stM KeyMintTa Error A) : DTA A := on_keys (with_ta m).
(** A method that only reads the state. *)
Definition reads {A} (f : KeyMintTa → Result A) : DTA A := λ d, (f (ds_ta d), d).

Definition get_hardware_info (d : KeyMintDevice) : Result KeyMintHardwareInfo :=
  Ok {| KeyMintHardwareInfo_version_number := hw_version_number (ds_hw_info d);
        KeyMintHardwareInfo_security_level := ta_security_level (ds_ta d);
        KeyMintHardwareInfo_key_mint_name := hw_impl_name (ds_hw_info d);
        KeyMintHardwareInfo_key_mint_author_name := hw_author_name (ds_hw_info d);
        KeyMintHardwareInfo_timestamp_token_required := bool_decide (ta_clock (ds_ta d) = None) |}.

Definition convert_storage_key_to_ephemeral (d : KeyMintDevice) (keyblob : bytes) : Result bytes :=
  if ds_sk_wrapper d then
    '(keyblob, _) ← keyblob_parse_decrypt (ds_ta d) keyblob [];
    chars ← characteristics_at (characteristics keyblob) (ta_security_level (ds_ta d));
    storage ← get_bool_tag_value chars KP_StorageKey;
    _ ← reject_if (negb storage) (Hal InvalidArgument);
    ephemeral_wrap (key_material keyblob)
  else km_err Unimplemented.

(** ** The dispatcher *)

(** The response to a request from what its method gives. *)
Definition respond {A} (op : KeyMintOperation) (m : DTA A) (rsp : A → PerformOpRsp)
    : DTA PerformOpResponse := λ d,
  match m d with
  | (Ok ret, d') => (Ok (op_ok_rsp (rsp ret)), d')
  | (Err e, d') => (Ok (op_error_rsp op e), d')
  | (Panic, d') => (Panic, d')
  end.

(** [downgrade] is the crate feature of [set_hal_version]. *)
Definition process_req (downgrade : bool) (req : PerformOpReq) : DTA PerformOpResponse :=
  let op := code req in
  match req with
  | Req_SetBootInfo r =>
    match try_from_n (SetBootInfoRequest_verified_boot_state r) with
    | None => mret (op_error_rsp op (Cbor OutOfRangeIntegerValue))
    | Some verified_boot_state =>
      respond op (on_ta (set_boot_info
        {| verified_boot_key := SetBootInfoRequest_verified_boot_key r;
           device_boot_locked := SetBootInfoRequest_device_boot_locked r;
           verified_boot_state := verified_boot_state;
           verified_boot_hash := SetBootInfoRequest_verified_boot_hash r;
           boot_patchlevel := SetBootInfoRequest_boot_patchlevel r |}))
        (λ _, Rsp_SetBootInfo Build_SetBootInfoResponse)
    end
  | Req_SetHalInfo r =>
    respond op (on_ta (set_hal_info {| os_version := SetHalInfoRequest_os_version r;
                                       os_patchlevel := SetHalInfoRequest_os_patchlevel r;
                                       vendor_patchlevel := SetHalInfoRequest_vendor_patchlevel r |}))
      (λ _, Rsp_SetHalInfo Build_SetHalInfoResponse)
  | Req_SetAttestationIds r =>
    respond op (on_keys (set_attestation_ids (SetAttestationIdsRequest_ids r)))
      (λ _, Rsp_SetAttestationIds Build_SetAttestationIdsResponse)
  | Req_SetHalVersion r =>
    respond op (on_ta (set_hal_version downgrade (SetHalVersionRequest_aidl_version r)))
      (λ _, Rsp_SetHalVersion Build_SetHalVersionResponse)
  | Req_SharedSecretGetSharedSecretParameters _ =>
    respond op (on_ta get_shared_secret_params)
      (λ ret, Rsp_SharedSecretGetSharedSecretParameters {| GetSharedSecretParametersResponse_ret := ret |})
  | Req_SharedSecretComputeSharedSecret r =>
    respond op (on_ta (compute_shared_secret (ComputeSharedSecretRequest_params r)))
      (λ ret, Rsp_SharedSecretComputeSharedSecret {| ComputeSharedSecretResponse_ret := ret |})
  | Req_SecureClockGenerateTimeStamp r =>
    respond op (reads (λ s, generate_timestamp s (GenerateTimeStampRequest_challenge r)))
      (λ ret, Rsp_SecureClockGenerateTimeStamp {| GenerateTimeStampResponse_ret := ret |})
  | Req_DeviceGetHardwareInfo _ =>
    respond op (λ d, (get_hardware_info d, d))
      (λ ret, Rsp_DeviceGetHardwareInfo {| GetHardwareInfoResponse_ret := ret |})
  | Req_DeviceAddRngEntropy r =>
    respond op (on_ta (add_rng_entropy (AddRngEntropyRequest_data r)))
      (λ _, Rsp_DeviceAddRngEntropy Build_AddRngEntropyResponse)
  | Req_DeviceGenerateKey r =>
    respond op (on_keys (generate_key (GenerateKeyRequest_key_params r) (GenerateKeyRequest_attestation_key r)))
      (λ ret, Rsp_DeviceGenerateKey {| GenerateKeyResponse_ret := ret |})
  | Req_DeviceImportKey r =>
    respond op (on_keys (import_key (ImportKeyRequest_key_params r) (ImportKeyRequest_key_format r)
                           (ImportKeyRequest_key_data r) (ImportKeyRequest_attestation_key r) NonWrapped))
      (λ ret, Rsp_DeviceImportKey {| ImportKeyResponse_ret := ret |})
  | Req_DeviceImportWrappedKey r =>
    respond op (on_keys (import_wrapped_key (ImportWrappedKeyRequest_wrapped_key_data r)
                           (ImportWrappedKeyRequest_wrapping_key_blob r) (ImportWrappedKeyRequest_masking_key r)
                           (ImportWrappedKeyRequest_unwrapping_params r) (ImportWrappedKeyRequest_password_sid r)
                           (ImportWrappedKeyRequest_biometric_sid r)))
      (λ ret, Rsp_DeviceImportWrappedKey {| ImportWrappedKeyResponse_ret := ret |})
  | Req_DeviceUpgradeKey r =>
    respond op (on_ta (upgrade_key (UpgradeKeyRequest_key_blob_to_upgrade r) (UpgradeKeyRequest_upgrade_params r)))
      (λ ret, Rsp_DeviceUpgradeKey {| UpgradeKeyResponse_ret := ret |})
  | Req_DeviceDeleteKey r =>
    respond op (on_ta (delete_key (DeleteKeyRequest_key_blob r)))
      (λ _, Rsp_DeviceDeleteKey Build_DeleteKeyResponse)
  | Req_DeviceDeleteAllKeys _ =>
    respond op (on_ta delete_all_keys) (λ _, Rsp_DeviceDeleteAllKeys Build_DeleteAllKeysResponse)
  | Req_DeviceDestroyAttestationIds _ =>
    respond op (on_keys destroy_attestation_ids)
      (λ _, Rsp_DeviceDestroyAttestationIds Build_DestroyAttestationIdsResponse)
  | Req_DeviceBegin r =>
    respond op (on_ta (begin_operation (BeginRequest_purpose r) (BeginRequest_key_blob r)
                         (BeginRequest_params r) (BeginRequest_auth_token r)))
      (λ ret, Rsp_DeviceBegin {| BeginResponse_ret := ret |})
  | Req_DeviceEarlyBootEnded _ =>
    respond op (on_ta early_boot_ended) (λ _, Rsp_DeviceEarlyBootEnded Build_EarlyBootEndedResponse)
  | Req_DeviceConvertStorageKeyToEphemeral r =>
    respond op (λ d, (convert_storage_key_to_ephemeral d (ConvertStorageKeyToEphemeralRequest_storage_key_blob r), d))
      (λ ret, Rsp_DeviceConvertStorageKeyToEphemeral {| ConvertStorageKeyToEphemeralResponse_ret := ret |})
  | Req_DeviceGetKeyCharacteristics r =>
    respond op (reads (λ s, get_key_characteristics s (GetKeyCharacteristicsRequest_key_blob r)
                              (GetKeyCharacteristicsRequest_app_id r) (GetKeyCharacteristicsRequest_app_data r)))
      (λ ret, Rsp_DeviceGetKeyCharacteristics {| GetKeyCharacteristicsResponse_ret := ret |})
  | Req_GetRootOfTrustChallenge _ =>
    respond op (on_ta get_root_of_trust_challenge)
      (λ ret, Rsp_GetRootOfTrustChallenge {| GetRootOfTrustChallengeResponse_ret := ret |})
  | Req_GetRootOfTrust r =>
    respond op (reads (λ s, get_root_of_trust s (GetRootOfTrustRequest_challenge r)))
      (λ ret, Rsp_GetRootOfTrust {| GetRootOfTrustResponse_ret := ret |})
  | Req_SendRootOfTrust r =>
    respond op (on_ta (send_root_of_trust (SendRootOfTrustRequest_root_of_trust r)))
      (λ _, Rsp_SendRootOfTrust Build_SendRootOfTrustResponse)
  | Req_SetAdditionalAttestationInfo r =>
    respond op (on_ta (set_additional_attestation_info (SetAdditionalAttestationInfoRequest_info r)))
      (λ _, Rsp_SetAdditionalAttestationInfo Build_SetAdditionalAttestationInfoResponse)
  | Req_OperationUpdateAad r =>
    respond op (on_ta (op_update_aad (UpdateAadRequest_op_handle r) (UpdateAadRequest_input r)
                         (UpdateAadRequest_auth_token r) (UpdateAadRequest_timestamp_token r)))
      (λ _, Rsp_OperationUpdateAad Build_UpdateAadResponse)
  | Req_OperationUpdate r =>
    respond op (on_ta (op_update (UpdateRequest_op_handle r) (UpdateRequest_input r)
                         (UpdateRequest_auth_token r) (UpdateRequest_timestamp_token r)))
      (λ ret, Rsp_OperationUpdate {| UpdateResponse_ret := ret |})
  | Req_OperationFinish r =>
    respond op (on_ta (op_finish (FinishRequest_op_handle r) (FinishRequest_input r) (FinishRequest_signature r)
                         (FinishRequest_auth_token r) (FinishRequest_timestamp_token r)
                         (FinishRequest_confirmation_token r)))
      (λ ret, Rsp_OperationFinish {| FinishResponse_ret := ret |})
  | Req_OperationAbort r =>
    respond op (on_ta (op_abort (AbortRequest_op_handle r))) (λ _, Rsp_OperationAbort Build_AbortResponse)
  | Req_RpcGetHardwareInfo _ =>
    respond op (λ d, (get_rpc_hardware_info (ds_rpc d), d))
      (λ ret, Rsp_RpcGetHardwareInfo {| GetRpcHardwareInfoResponse_ret := ret |})
  | Req_RpcGenerateEcdsaP256KeyPair r =>
    respond op (on_rpc (generate_ecdsa_p256_keypair (GenerateEcdsaP256KeyPairRequest_test_mode r)))
      (λ p, Rsp_RpcGenerateEcdsaP256KeyPair {| GenerateEcdsaP256KeyPairResponse_maced_public_key := p.1;
                                               GenerateEcdsaP256KeyPairResponse_ret := p.2 |})
  | Req_RpcGenerateCertificateRequest r =>
    respond op (on_rpc (generate_cert_req (GenerateCertificateRequestRequest_test_mode r)
                          (GenerateCertificateRequestRequest_keys_to_sign r)
                          (GenerateCertificateRequestRequest_endpoint_encryption_cert_chain r)
                          (GenerateCertificateRequestRequest_challenge r)))
      (λ p, Rsp_RpcGenerateCertificateRequest {| GenerateCertificateRequestResponse_device_info := p.1.1;
                                                 GenerateCertificateRequestResponse_protected_data := p.1.2;
                                                 GenerateCertificateRequestResponse_ret := p.2 |})
  | Req_RpcGenerateCertificateV2Request r =>
    respond op (on_rpc (generate_cert_req_v2 (GenerateCertificateRequestV2Request_keys_to_sign r)
                          (GenerateCertificateRequestV2Request_challenge r)))
      (λ ret, Rsp_RpcGenerateCertificateV2Request {| GenerateCertificateRequestV2Response_ret := ret |})
  end.

(** A hand-encoded response for [UnknownError], should encoding fail. *)
Definition invalid_cbor_rsp_data : bytes := [u8_of 0x82; u8_of 0x39; u8_of 0x03; u8_of 0xe7; u8_of 0x80].
(** One serialized request, to a serialized response. *)
Definition encode_response (rsp : PerformOpResponse) : Result bytes :=
  match into_vec PerformOpResponse_codec rsp with
  | Ok rsp_data => Ok rsp_data
  | Err _ => Ok invalid_cbor_rsp_data
  | Panic => Panic
  end.
Definition process (downgrade : bool) (req_data : bytes) : DTA bytes :=
  rsp ← match from_slice PerformOpReq_codec req_data with
        | Ok req => process_req downgrade req
        | Err _ => mret (error_rsp (discr EncodingError))
        | Panic => liftr Panic
        end;
  liftr (encode_response rsp).

(** ** Responses match requests *)

Definition rsp_code (rsp : PerformOpRsp) : KeyMintOperation := (PerformOpRsp_enc rsp).1.
(** A response to an operation: of its kind, or an error of the interface the operation is in. *)
Definition answers (op : KeyMintOperation) (rsp : PerformOpResponse) : Prop :=
  match PerformOpResponse_rsp rsp with
  | Some r => PerformOpResponse_error_code rsp = 0 ∧ rsp_code r = op
  | None =>
    if is_rpc_operation op then ∃ e, PerformOpResponse_error_code rsp = RpcErrorCode_discr e
    else ∃ e : ErrorCode, PerformOpResponse_error_code rsp = discr e
  end.
Lemma op_error_rsp_answers op e : answers op (op_error_rsp op e).
Proof. unfold answers, op_error_rsp. destruct (is_rpc_operation op); cbn; eauto. Qed.
Lemma respond_answers {A} op (m : DTA A) (rsp : A → PerformOpRsp) d r d' :
  (∀ a, rsp_code (rsp a) = op) → respond op m rsp d = (Ok r, d') → answers op r.
Proof.
  intros Hop. unfold respond. destruct (m d) as [[a|e|] d1]; intros [= <- <-].
  - split; [done|apply Hop].
  - apply op_error_rsp_answers.
Qed.

Lemma process_req_answers downgrade req d rsp d' :
  process_req downgrade req d = (Ok rsp, d') → answers (code req) rsp.
Proof.
  destruct req; cbn [process_req]; try (apply respond_answers; done).
  destruct (try_from_n _) as [st|]; [by apply respond_answers|]. intros [= <- <-]. apply op_error_rsp_answers.
Qed.

(** C18: Every serialized request gets a response that the HAL service can decode, as long as the
    method that is called does not panic (and its results fit their types): if the request itself
    cannot be decoded, an encoding error, with nothing changed; else the response of the method, which
    carries results of the operation that was asked for and no error, or an error code of the
    interface the operation belongs to, so that errors of remote provisioning are never mistaken
    for those of KeyMint. *)
Theorem every_request_answered `{CL : !CiboriumLaws} downgrade data d :
  (∀ req, from_slice PerformOpReq_codec data = Ok req →
     ∃ rsp, (process_req downgrade req d).1 = Ok rsp ∧ PerformOpResponse_wf rsp) →
  ∃ out d' rsp, process downgrade data d = (Ok out, d') ∧
    from_slice PerformOpResponse_codec out = Ok rsp ∧
    match from_slice PerformOpReq_codec data with
    | Ok req => process_req downgrade req d = (Ok rsp, d') ∧ answers (code req) rsp
    | _ => d' = d ∧ rsp = error_rsp (discr EncodingError)
    end.
Proof.
  intros Hreq. unfold process, mbind, stM_bind. pose proof (PerformOpReq_from_slice_sound data) as Hsafe.
  assert (∀ rsp, PerformOpResponse_wf rsp → ∃ out,
    encode_response rsp = Ok out ∧ from_slice PerformOpResponse_codec out = Ok rsp) as Henc.
  { intros rsp Hwf. edestruct (slice_roundtrip PerformOpResponse_codec) as (b & Hb & ?);
      [apply PerformOpResponse_codec_ok|lia|exact Hwf|]. exists b. unfold encode_response. by rewrite Hb. }
  destruct (from_slice PerformOpReq_codec data) as [req|e|] eqn:Hd; [| |done].
  - destruct (Hreq req eq_refl) as (rsp & Hr & Hwf). destruct (process_req downgrade req d) as [r d'] eqn:Hp.
    cbn in Hr. subst r. destruct (Henc rsp Hwf) as (out & Ho & Hf). exists out, d', rsp.
    unfold liftr. rewrite Ho. split_and!; [done..|]. by eapply process_req_answers.
  - destruct (Henc (error_rsp (discr EncodingError))) as (out & Ho & Hf).
    { split; [apply discr_is_i32|done]. }
    exists out, d, (error_rsp (discr EncodingError)). unfold mret, stM_ret, liftr. by rewrite Ho.
Qed.

(** ** What stays from request to request *)

(** The fields that only configuration requests write. *)
Definition config (s : KeyMintTa) :=
  (ta_security_level s, ta_shared_secret_params s, ta_boot_info s, ta_rot_data s, ta_hal_info s,
   ta_additional_attestation_info s, ta_in_early_boot s).
Lemma config_set_rng x s : config (set_rng x s) = config s.
Proof. by destruct s. Qed.
Lemma config_set_sdd_mgr x s : config (set_sdd_mgr x s) = config s.
Proof. by destruct s. Qed.
Lemma config_set_legacy_key x s : config (set_legacy_key x s) = config s.
Proof. by destruct s. Qed.
Lemma config_set_operations x s : config (set_operations x s) = config s.
Proof. by destruct s. Qed.
Lemma config_set_use_count x s : config (set_use_count x s) = config s.
Proof. by destruct s. Qed.
Lemma config_set_presence x s : config (set_presence x s) = config s.
Proof. by destruct s. Qed.
Lemma config_set_rot_challenge x s : config (set_rot_challenge x s) = config s.
Proof. by destruct s. Qed.
Lemma config_clear_presence h s : config (clear_presence h s) = config s.
Proof. unfold clear_presence. case_decide; [apply config_set_presence|done]. Qed.
Create Rewrite HintDb config.
#[local] Hint Rewrite config_set_rng config_set_sdd_mgr config_set_legacy_key config_set_operations
  config_set_use_count config_set_presence config_set_rot_challenge config_clear_presence : config.
Ltac keeps_config := intros s; repeat case_match; simplify_eq/=; autorewrite with config; done.

Lemma config_with_rng {A} (m : stM rng_state Error A) : preserves config (with_rng m).
Proof. unfold with_rng. keeps_config. Qed.
Lemma config_with_sdd {A} (m : stM (option sdm_state * rng_state) Error A) : preserves config (with_sdd m).
Proof. unfold with_sdd. keeps_config. Qed.
Lemma config_delete_key kb : preserves config (delete_key kb).
Proof. unfold delete_key. keeps_config. Qed.
Lemma config_delete_all_keys : preserves config delete_all_keys.
Proof. unfold delete_all_keys. keeps_config. Qed.
Lemma config_update_use_count id max : preserves config (update_use_count id max).
Proof. intros s. destruct (update_use_count_state id max s) as [l ->]. by autorewrite with config. Qed.
Lemma config_new_op_handle : preserves config new_op_handle.
Proof.
  assert (∀ fuel, preserves config (new_op_handle_loop fuel)) as Hloop.
  { induction fuel as [|fuel IH]; intros s; cbn [new_op_handle_loop]; [done|].
    destruct (next_handle _) as [h r]. destruct (op_index _ h); cbn; rewrite ?IH; by autorewrite with config. }
  intros s. apply Hloop.
Qed.
Lemma config_store_operation i op p : preserves config (store_operation i op p).
Proof. unfold store_operation. keeps_config. Qed.
Lemma config_with_authed_operation {A} h tok tst (f : Operation → Result (A * Operation)) :
  preserves config (with_authed_operation h tok tst f).
Proof. unfold with_authed_operation. keeps_config. Qed.
Lemma config_take_operation h : preserves config (take_operation h).
Proof. unfold take_operation. keeps_config. Qed.
Lemma config_delete_used_slot slot : preserves config (delete_used_slot slot).
Proof. unfold delete_used_slot. keeps_config. Qed.
Lemma config_check_finish_presence h : preserves config (check_finish_presence h).
Proof. unfold check_finish_presence. keeps_config. Qed.
Lemma config_get_challenge : preserves config get_root_of_trust_challenge.
Proof. unfold get_root_of_trust_challenge. keeps_config. Qed.
Lemma config_modify_clear h : preserves (E:=Error) config (modify (clear_presence h)).
Proof. intros s. apply config_clear_presence. Qed.
#[local] Hint Resolve config_with_rng config_with_sdd config_delete_key config_delete_all_keys
  config_update_use_count config_new_op_handle config_store_operation config_with_authed_operation
  config_take_operation config_delete_used_slot config_check_finish_presence config_get_challenge
  config_modify_clear preserves_gets : preserves.
Ltac preserves_steps := repeat (apply preserves_bind; [auto with preserves|intros]);
  repeat case_match; auto with preserves.

Lemma config_check_begin_auths chars kb : preserves config (check_begin_auths chars kb).
Proof. unfold check_begin_auths. preserves_steps. Qed.
#[local] Hint Resolve config_check_begin_auths : preserves.
Lemma config_begin purpose kb params tok : preserves config (begin_operation purpose kb params tok).
Proof.
  assert (preserves config (prepare_operation purpose kb params tok)) as Hp
    by (unfold prepare_operation; preserves_steps).
  unfold begin_operation. apply preserves_bind; [done|]. intros [[[i op] p] ret]. preserves_steps.
Qed.
Lemma config_update_aad h data tok tst : preserves config (op_update_aad h data tok tst).
Proof. apply config_with_authed_operation. Qed.
Lemma config_update h data tok tst : preserves config (op_update h data tok tst).
Proof.
  intros s. unfold op_update. cbn zeta. rewrite config_with_authed_operation. apply config_clear_presence.
Qed.
Lemma config_finish h data sig tok tst conf : preserves config (op_finish h data sig tok tst conf).
Proof. unfold op_finish. preserves_steps. Qed.
Lemma config_abort h : preserves config (op_abort h).
Proof. unfold op_abort. preserves_steps. Qed.
Lemma config_seal params kb purpose : preserves config (seal_keyblob params kb purpose).
Proof. unfold seal_keyblob. preserves_steps. Qed.
Lemma config_generate_material params : preserves config (generate_key_material params).
Proof. unfold generate_key_material. preserves_steps. Qed.
#[local] Hint Resolve config_begin config_update_aad config_update config_finish config_abort config_seal
  config_generate_material : preserves.
Lemma config_upgrade_key kb params : preserves config (upgrade_key kb params).
Proof. unfold upgrade_key. preserves_steps. Qed.
#[local] Hint Resolve config_upgrade_key : preserves.

(** The same for the larger states. *)
Definition kconfig (k : KeyMintKeys) := config (ks_ta k).
Definition rconfig (s : KeyMintRpc) := kconfig (rs_keys s).
Definition dconfig (d : KeyMintDevice) := config (ds_ta d).
Lemma kconfig_with_ta {A} (m : TA A) : preserves config m → preserves kconfig (with_ta m).
Proof. intros Hm k. unfold with_ta. specialize (Hm (ks_ta k)). by destruct (m (ks_ta k)). Qed.
Lemma kconfig_ks_ta {A} (m : KTA A) : preserves ks_ta m → preserves kconfig m.
Proof. intros Hm k. unfold kconfig. by rewrite Hm. Qed.
Lemma rconfig_with_keys {A} (m : KTA A) : preserves kconfig m → preserves rconfig (with_keys m).
Proof. intros Hm s. unfold with_keys. specialize (Hm (rs_keys s)). by destruct (m (rs_keys s)). Qed.
Lemma dconfig_on_rpc {A} (m : RTA A) : preserves rconfig m → preserves dconfig (on_rpc m).
Proof. intros Hm d. unfold on_rpc. specialize (Hm (ds_rpc d)). by destruct (m (ds_rpc d)). Qed.
Lemma dconfig_on_keys {A} (m : KTA A) : preserves kconfig m → preserves dconfig (on_keys m).
Proof. intros Hm. by apply dconfig_on_rpc, rconfig_with_keys. Qed.
Lemma dconfig_on_ta {A} (m : TA A) : preserves config m → preserves dconfig (on_ta m).
Proof. intros Hm. by apply dconfig_on_keys, kconfig_with_ta. Qed.
#[local] Hint Resolve kconfig_with_ta rconfig_with_keys : preserves.

Lemma kconfig_get_ids : preserves kconfig get_attestation_ids.
Proof. apply kconfig_ks_ta, keeps_ta_ids. Qed.
Lemma kconfig_set_ids ids : preserves kconfig (set_attestation_ids ids).
Proof. intros k. unfold set_attestation_ids. by repeat case_match. Qed.
Lemma kconfig_destroy_ids : preserves kconfig destroy_attestation_ids.
Proof. intros k. unfold destroy_attestation_ids. by repeat case_match. Qed.
Lemma kconfig_certificate_chain params ak chars key : preserves kconfig (certificate_chain params ak chars key).
Proof. apply kconfig_ks_ta, keeps_ta_certificate_chain. Qed.
#[local] Hint Resolve kconfig_get_ids kconfig_set_ids kconfig_destroy_ids kconfig_certificate_chain : preserves.
Lemma kconfig_finish_creation params ak chars key purpose :
  preserves kconfig (finish_keyblob_creation params ak chars key purpose).
Proof. unfold finish_keyblob_creation. preserves_steps. Qed.
#[local] Hint Resolve kconfig_finish_creation : preserves.
Lemma kconfig_generate_key params ak : preserves kconfig (generate_key params ak).
Proof. unfold generate_key. preserves_steps. Qed.
Lemma kconfig_import_key params fmt data ak ty : preserves kconfig (import_key params fmt data ak ty).
Proof. unfold import_key. preserves_steps. Qed.
#[local] Hint Resolve kconfig_generate_key kconfig_import_key : preserves.
Lemma kconfig_import_wrapped_key a b c ps pw bio : preserves kconfig (import_wrapped_key a b c ps pw bio).
Proof. unfold import_wrapped_key. preserves_steps. Qed.
Lemma rconfig_get_dice_info : preserves rconfig get_dice_info.
Proof. intros s. unfold get_dice_info. by repeat case_match. Qed.
#[local] Hint Resolve kconfig_import_wrapped_key rconfig_get_dice_info : preserves.
Lemma rconfig_device_info : preserves rconfig rpc_device_info_cbor.
Proof. unfold rpc_device_info_cbor. preserves_steps. Qed.
#[local] Hint Resolve rconfig_device_info : preserves.
Lemma rconfig_keypair test : preserves rconfig (generate_ecdsa_p256_keypair test).
Proof. unfold generate_ecdsa_p256_keypair. preserves_steps. Qed.
Lemma rconfig_cert_req test keys eek c : preserves rconfig (generate_cert_req test keys eek c).
Proof. unfold generate_cert_req, rpc_device_info. preserves_steps. Qed.
Lemma rconfig_cert_req_v2 keys c : preserves rconfig (generate_cert_req_v2 keys c).
Proof. unfold generate_cert_req_v2. preserves_steps. Qed.

(** What may not be lost or changed, from one request to a later one. *)
Definition retained (s s' : KeyMintTa) : Prop :=
  ta_security_level s' = ta_security_level s ∧
  (∀ b, ta_boot_info s = Some b → ta_boot_info s' = Some b ∧ ta_rot_data s' = ta_rot_data s) ∧
  (∀ h, ta_hal_info s = Some h → ta_hal_info s' = Some h) ∧
  (ta_in_early_boot s = false → ta_in_early_boot s' = false) ∧
  (∀ p, ta_shared_secret_params s = Some p → ta_shared_secret_params s' = Some p) ∧
  (ta_additional_attestation_info s `prefix_of` ta_additional_attestation_info s').
#[export] Instance retained_refl : Reflexive retained.
Proof. intros s. by split_and!. Qed.
#[export] Instance retained_trans : Transitive retained.
Proof.
  intros s1 s2 s3 (A0 & A1 & A2 & A3 & A4 & A5) (B0 & B1 & B2 & B3 & B4 & B5).
  split; [congruence|]. split.
  { intros b Hb. destruct (A1 b Hb) as [Hb' Hr]. destruct (B1 b Hb') as [? Hr']. split; congruence. }
  split; [by eauto|]. split; [by eauto|]. split; [by eauto|by etrans].
Qed.
Lemma latched_retained s s' : ta_security_level s' = ta_security_level s → latched s s' → retained s s'.
Proof. intros Hl (? & ? & H & ? & ?). split_and!; try done. intros E. by destruct (H E). Qed.
Lemma config_retained s s' : config s' = config s → retained s s'.
Proof. intros [= Hl Hp Hb Hr Hh Ha He]. split_and!; [done|..]; rewrite ?Hp, ?Hb, ?Hr, ?Hh, ?Ha, ?He; by auto. Qed.
Lemma config_step_retained c s : retained s (config_step c s).
Proof.
  apply latched_retained; [|apply config_step_latched].
  destruct c as [b|h|d v|info| |data| |params]; cbn [config_step].
  - unfold set_boot_info. destruct s; repeat case_match; by simplify_eq/=.
  - unfold set_hal_info. destruct s; repeat case_match; by simplify_eq/=.
  - unfold set_hal_version. destruct s; repeat case_match; by simplify_eq/=.
  - revert s. induction info as [|p info IH]; intros s; [done|].
    cbn [set_additional_attestation_info]. unfold mbind, stM_bind.
    assert (ta_security_level (set_attestation_param p s).2 = ta_security_level s) as H1
      by (unfold set_attestation_param; destruct s; repeat case_match; by simplify_eq/=).
    destruct (set_attestation_param p s) as [[u|e|] s1]; cbn in *; [|done..]. by rewrite IH.
  - by destruct s.
  - unfold add_rng_entropy. destruct s; repeat case_match; by simplify_eq/=.
  - unfold get_shared_secret_params. destruct s; repeat case_match; by simplify_eq/=.
  - unfold compute_shared_secret. destruct s; repeat case_match; by simplify_eq/=.
Qed.
Lemma send_root_of_trust_retained data s : retained s (send_root_of_trust data s).2.
Proof.
  unfold send_root_of_trust, mbind, stM_bind, get_st, liftr. cbn.
  destruct (reject_if _ _); [|done..]. destruct (received_root_of_trust s data) as [info|e|]; [|done..].
  destruct (ta_boot_info s) eqn:Hb; [done|]. destruct s; cbn in *. subst. by split_and!.
Qed.

Lemma respond_state {A} op (m : DTA A) rsp d : (respond op m rsp d).2 = (m d).2.
Proof. unfold respond. by destruct (m d) as [[] ?]. Qed.
Lemma on_ta_state {A} (m : TA A) d : ds_ta (on_ta m d).2 = (m (ds_ta d)).2.
Proof. unfold on_ta, on_keys, on_rpc, with_keys, with_ta, ds_ta. by destruct (m _). Qed.
Lemma process_req_retained downgrade req d :
  retained (ds_ta d) (ds_ta (process_req downgrade req d).2).
Proof.
  destruct req; cbn [process_req]; rewrite ?respond_state; try reflexivity;
    try (apply config_retained, dconfig_on_ta; by auto with preserves);
    try (apply config_retained, dconfig_on_keys; by auto with preserves);
    try (apply config_retained, dconfig_on_rpc; by auto using rconfig_keypair, rconfig_cert_req, rconfig_cert_req_v2).
  - rewrite on_ta_state. apply (config_step_retained (Cfg_AddRngEntropy _)).
  - rewrite on_ta_state. apply (config_step_retained Cfg_EarlyBootEnded).
  - rewrite on_ta_state. apply (config_step_retained Cfg_GetSharedSecretParameters).
  - rewrite on_ta_state. apply (config_step_retained (Cfg_ComputeSharedSecret _)).
  - rewrite on_ta_state. apply send_root_of_trust_retained.
  - rewrite on_ta_state. apply (config_step_retained (Cfg_SetHalInfo _)).
  - destruct (try_from_n _) as [st|]; [|reflexivity]. rewrite respond_state, on_ta_state.
    apply (config_step_retained (Cfg_SetBootInfo _)).
  - rewrite on_ta_state. apply (config_step_retained (Cfg_SetHalVersion _ _)).
  - rewrite on_ta_state. apply (config_step_retained (Cfg_SetAdditionalAttestationInfo _)).
Qed.

(** A sequence of requests. *)
Definition run (downgrade : bool) (reqs : list PerformOpReq) (d : KeyMintDevice) : KeyMintDevice :=
  foldl (λ d req, (process_req downgrade req d).2) d reqs.
Lemma run_retained downgrade reqs d : retained (ds_ta d) (ds_ta (run downgrade reqs d)).
Proof.
  unfold run. revert d. induction reqs as [|req reqs IH]; intros d; cbn; [done|].
  etrans; [apply process_req_retained|apply IH].
Qed.

(** C19: Whatever requests of whatever kind arrive, in whatever order and with whatever outcome,
    the security level, boot information, the root of trust bound into key blobs, HAL information,
    the local shared-secret parameters and attested additional information never change once set,
    early boot does not begin again, and no boot information is accepted from the bootloader
    channel after its end. *)
Theorem requests_retain_configuration downgrade reqs d :
  retained (ds_ta d) (ds_ta (run downgrade reqs d)) ∧
  (ta_in_early_boot (ds_ta d) = false → ∀ b, ∃ e,
    on_ta (set_boot_info b) (run downgrade reqs d) = (Err e, run downgrade reqs d)).
Proof.
  split; [apply run_retained|]. intros He b. exists (Hal EarlyBootEnded).
  destruct (run_retained downgrade reqs d) as (_ & _ & _ & Hb & _). specialize (Hb He).
  unfold on_ta, on_keys, on_rpc, with_keys, with_ta, set_boot_info, ds_ta in *. rewrite Hb. cbn.
  by destruct (run _ _ _) as [[[] ? ?] ? ?].
Qed.

(** ** What the transfer of the root of trust achieves *)

Class TaggedCborLaws : Prop := {
  tagged_roundtrip {A} t (c : Codec A) wf depth a b :
    codec_ok c wf depth → (depth < 15)%nat → is_u64 t → wf a →
    to_tagged_vec t c a = Ok b → from_tagged_slice t c b = Ok a
}.
Context `{TCL : !TaggedCborLaws} `{CML : !CoseMac0Laws} `{CTL : !ConstTimeEqLaws}.

Lemma encoding_err_Ok {A} (r : CborResult A) e v : encoding_err r e = Ok v ↔ r = Ok v.
Proof. apply map_err_Ok. Qed.

(** C25: The root of trust that the TEE answers with to a challenge of StrongBox is accepted by
    StrongBox if both have agreed on the same HMAC key, and gives it the boot information of the
    TEE (with the verified boot key hashed if it is long), unless it has boot information already,
    which is kept. *)
Theorem root_of_trust_transfer t s challenge s1 data :
  from_option BootInfo_wf True (ta_boot_info t) →
  get_root_of_trust_challenge s = (Ok challenge, s1) →
  get_root_of_trust t challenge = Ok data →
  (∀ m, device_hmac s1 m = device_hmac t m) →
  is_strongbox s = true ∧ is_strongbox t = false ∧ ∃ info,
    boot_info_hashed_key t = Ok info ∧
    send_root_of_trust data s1 =
      (Ok tt, match ta_boot_info s with
              | None => set_boot_rot (Some info) (ta_rot_data s) s1
              | Some _ => s1
              end).
Proof.
  intros Hwf Hc Hg Hmac. unfold get_root_of_trust_challenge in Hc.
  destruct (is_strongbox s) eqn:Hsb; [|done]. cbn [negb] in Hc.
  destruct (fill_bytes 16 _) as [c r] eqn:Hf. injection Hc as -> <-. split; [done|].
  unfold get_root_of_trust in Hg. apply res_bind_Ok in Hg as ([] & Ht%reject_if_Ok & Hg). split; [done|].
  apply res_bind_Ok in Hg as (info & Hi & Hg). exists info. split; [done|].
  apply res_bind_Ok in Hg as (payload & Hp%encoding_err_Ok & Hg).
  apply res_bind_Ok in Hg as (tag & Htag & Hd%encoding_err_Ok).
  assert (BootInfo_wf info) as Hwfi.
  { unfold boot_info_hashed_key, boot_info in Hi. destruct (ta_boot_info t) as [b|]; [|done]. cbn in Hi, Hwf.
    case_decide; [apply res_bind_Ok in Hi as (h & _ & [= <-])|injection Hi as <-]; [|done].
    destruct Hwf as (_ & _ & _ & _ & ? & _). by split_and!. }
  set (s1 := set_rot_challenge challenge (set_rng r s)) in *.
  assert (received_root_of_trust s1 data = Ok info) as Hrcv.
  { unfold received_root_of_trust. rewrite (mac0_tagged_roundtrip _ _ _ Hd). cbn [encoding_err map_err mbind res_bind].
    assert (ta_rot_challenge s1 = challenge) as -> by (by destruct s). rewrite mac0_tbm_build. cbn [mbind res_bind].
    unfold verify_device_hmac. rewrite Hmac, Htag, mac0_tag_build. cbn [mbind res_bind].
    rewrite (proj2 (ct_eq_true _ _) eq_refl). cbn [negb reject_if mbind res_bind]. rewrite mac0_payload_build.
    cbn [ok_or mbind res_bind]. 
    assert (from_tagged_slice BOOT_INFO_TAG BootInfo_codec payload = Ok info) as ->; [|done].
    eapply tagged_roundtrip; [exact BootInfo_codec_ok|lia|by split|exact Hwfi|exact Hp]. }
  unfold send_root_of_trust, mbind, stM_bind, get_st, liftr, modify.
  assert (is_strongbox s1 = true) as -> by (by destruct s). cbn [negb reject_if]. rewrite Hrcv.
  assert (ta_boot_info s1 = ta_boot_info s) as -> by (by destruct s).
  destruct (ta_boot_info s); [done|]. by destruct s.
Qed.

Lemma finish_needs_root params ak chars key purpose k res k' :
  finish_keyblob_creation params ak chars key purpose k = (Ok res, k') → is_Some (ta_rot_data (ks_ta k)).
Proof.
  unfold finish_keyblob_creation. intros (chain & k1 & Hch & H)%stM_bind_Ok.
  pose proof (keeps_ta_certificate_chain params ak chars key k) as Hta. rewrite Hch in Hta. cbn in Hta.
  apply stM_bind_Ok in H as (data & k2 & Hs & _). unfold with_ta in Hs. rewrite Hta in Hs.
  destruct (seal_keyblob _ _ _ (ks_ta k)) as [r s'] eqn:Hseal. injection Hs as -> _. unfold seal_keyblob in Hseal.
  apply stM_bind_Ok in Hseal as (ctx & s1 & [_ <-]%pair_equal_spec & H).
  apply stM_bind_Ok in H as (root & s1 & [_ <-]%pair_equal_spec & H).
  apply stM_bind_Ok in H as (s2 & s3 & [= <- <-] & H).
  apply stM_bind_Ok in H as (rot & s1 & [Hrot%ok_or_Ok _]%pair_equal_spec & _). by exists rot.
Qed.
Lemma generate_needs_root params ak k res k' :
  generate_key params ak k = (Ok res, k') → is_Some (ta_rot_data (ks_ta k)).
Proof.
  unfold generate_key. intros (p & k1 & Hg & Hfin%finish_needs_root)%stM_bind_Ok.
  pose proof (kconfig_with_ta _ (config_generate_material params) k) as Hc. rewrite Hg in Hc.
  by injection Hc as _ _ _ <-.
Qed.
Lemma import_needs_root params fmt data ak ty k res k' :
  import_key params fmt data ak ty k = (Ok res, k') → is_Some (ta_rot_data (ks_ta k)).
Proof.
  unfold import_key. intros (s & k1 & [= <- <-] & H)%stM_bind_Ok.
  apply stM_bind_Ok in H as (e & k1 & [_ <-]%pair_equal_spec & H).
  apply stM_bind_Ok in H as (u & k1 & [_ <-]%pair_equal_spec & H).
  apply stM_bind_Ok in H as (p & k1 & [_ <-]%pair_equal_spec & H).
  apply stM_bind_Ok in H as (chars & k1 & [_ <-]%pair_equal_spec & H). by eapply finish_needs_root.
Qed.
Lemma on_keys_Ok {A} (m : KTA A) d a d' :
  on_keys m d = (Ok a, d') → ∃ k', m (rs_keys (ds_rpc d)) = (Ok a, k').
Proof. unfold on_keys, on_rpc, with_keys. destruct (m _) as [r k']. intros [= -> _]. by exists k'. Qed.

(** But boot information received this way does not make keys usable: the root of trust that
    is bound into key blobs is not set with it, and no later request sets it, so that StrongBox
    cannot make any key, nor decrypt any, until it is restarted. *)
Theorem transferred_root_unusable downgrade r d d1 reqs d2 :
  ta_boot_info (ds_ta d) = None → ta_rot_data (ds_ta d) = None →
  process_req downgrade (Req_SendRootOfTrust r) d = (Ok (op_ok_rsp (Rsp_SendRootOfTrust Build_SendRootOfTrustResponse)), d1) →
  run downgrade reqs d1 = d2 →
  is_Some (ta_boot_info (ds_ta d2)) ∧
  (∀ params ak res d', on_keys (generate_key params ak) d2 ≠ (Ok res, d')) ∧
  (∀ params fmt data ak ty res d', on_keys (import_key params fmt data ak ty) d2 ≠ (Ok res, d')) ∧
  (∀ blob params b, EncryptedKeyBlob_new blob = Ok b →
     keyblob_parse_decrypt (ds_ta d2) blob params = km_err HardwareNotYetAvailable).
Proof.
  intros Hb Hr Hsend Hrun. subst d2. cbn [process_req] in Hsend.
  assert (∃ info, ds_ta d1 = set_boot_rot (Some info) None (ds_ta d)) as [info Hd1].
  { unfold respond in Hsend. pose proof (on_ta_state (send_root_of_trust (SendRootOfTrustRequest_root_of_trust r)) d) as Hst.
    destruct (on_ta _ d) as [res d'] eqn:Ho. destruct res as [[]|e|]; [|by destruct e|done]. injection Hsend as <-.
    cbn [snd] in Hst. rewrite Hst. unfold on_ta, on_keys, on_rpc, with_keys, with_ta in Ho.
    fold (ds_ta d) in Ho. destruct (send_root_of_trust _ (ds_ta d)) as [res s'] eqn:Hs.
    injection Ho as -> _. unfold send_root_of_trust in Hs.
    apply stM_bind_Ok in Hs as (s0 & s2 & [= <- <-] & Hs). apply stM_bind_Ok in Hs as (u & s2 & [_ <-]%pair_equal_spec & Hs).
    apply stM_bind_Ok in Hs as (info & s2 & [_ <-]%pair_equal_spec & Hs). rewrite Hb, Hr in Hs.
    injection Hs as <-. by exists info. }
  assert (ta_boot_info (ds_ta (run downgrade reqs d1)) = Some info ∧
          ta_rot_data (ds_ta (run downgrade reqs d1)) = None) as [Hb2 Hr2].
  { destruct (run_retained downgrade reqs d1) as (_ & Hkeep & _).
    destruct (Hkeep info) as [-> ->]; rewrite Hd1; by destruct (ds_ta d). }
  generalize dependent (run downgrade reqs d1). intros d2 Hb2 Hr2. split; [by eexists|].
  assert (∀ k, ks_ta k = ds_ta d2 → ¬ is_Some (ta_rot_data (ks_ta k))) as Hno.
  { intros k ->. rewrite Hr2. by intros []. }
  split_and!.
  - intros params ak res d' (k' & H%generate_needs_root)%on_keys_Ok. by eapply Hno.
  - intros params fmt data ak ty res d' (k' & H%import_needs_root)%on_keys_Ok. by eapply Hno.
  - intros blob params b Hblob. unfold keyblob_parse_decrypt, keyblob_parse_decrypt_backlevel, root_of_trust.
    by rewrite Hblob, Hr2.
Qed.

(** A root of trust message without a payload makes StrongBox panic, although the code
    means to refuse it: the tag is checked, which needs the payload, before the payload is. *)
Theorem root_of_trust_no_payload s data m :
  is_strongbox s = true → mac0_from_tagged_slice data = Ok m → mac0_payload m = None →
  send_root_of_trust data s = (Panic, s).
Proof.
  intros Hs Hm Hp. unfold send_root_of_trust, mbind, stM_bind, get_st, liftr. rewrite Hs. cbn [negb reject_if].
  unfold received_root_of_trust. rewrite Hm. cbn [encoding_err map_err mbind res_bind].
  by rewrite (proj2 (mac0_tbm_payload _ _) Hp).
Qed.
End dispatch.

(** ** A TEE and a StrongBox *)

Module SampleDevice.
Import Keyblob.Sample SampleTa SampleDer SampleX509 SampleKeys SampleRkp.
#[export] Instance tagged : TaggedCbor := {|
  to_tagged_vec _ t c a := v ← to_cbor_value c a; ok_or (into_writer (VTag t v)) EncodeFailed;
  from_tagged_slice _ t c b :=
    v ← read_to_value b;
    match v with
    | VTag t' v => if decide (t' = t) then from_cbor_value c v else Err (UnexpectedItem "tag" "other tag")
    | _ => cbor_type_error v "tag"
    end |}.
#[export] Instance tagged_laws : TaggedCborLaws.
Proof.
  split. intros A t c wf depth a b Hc Hd Ht Ha. cbn [to_tagged_vec from_tagged_slice tagged]. destruct (Hc a Ha) as (v & -> & Hf & Hv & Hi).
  destruct (from_reader_into_writer (VTag t v)) as (b' & Hw & Hr); [cbn; lia|done|].
  cbn [mbind res_bind]. rewrite Hw. intros [= ->]. specialize (Hr []). rewrite app_nil_r in Hr.
  unfold read_to_value. rewrite Hr. cbn. by rewrite decide_True.
Qed.
#[export] Instance wrapper : StorageKeyWrapper := {| ephemeral_wrap _ := Ok [u8_of 1] |}.

Definition hw : HardwareInfo := mk_hw_info 4 "name" "author" "id".
Definition device (s : KeyMintTa) : KeyMintDevice :=
  mk_device (mk_rpc (mk_keys s true None [] (Some ids)) rpc_v3 None) hw true.
(** The TEE, which has booted, and StrongBox, which has not been told anything yet, after
    agreeing on a key. *)
Definition agreed (s : KeyMintTa) : KeyMintTa := set_device_hmac (Some (SoftDeviceHmac (replicate 32 (u8_of 3)))) s.
Definition tee : KeyMintTa := agreed booted.
Definition strongbox : KeyMintTa :=
  agreed (KeyMintTa_new SecurityLevel_Strongbox (0 : rng_state) (Some 1000) None None true false).
Definition challenged := get_root_of_trust_challenge strongbox.
Definition sent : bytes := match get_root_of_trust tee (value [] challenged) with Ok b => b | _ => [] end.

Definition begin_bytes : bytes :=
  match into_vec PerformOpReq_codec (Req_DeviceBegin {| BeginRequest_purpose := KeyPurpose_Encrypt;
          BeginRequest_key_blob := []; BeginRequest_params := []; BeginRequest_auth_token := None |}) with
  | Ok b => b | _ => [] end.
Lemma every_request_answered_witness :
  ∃ out d' rsp, process false begin_bytes (device booted) = (Ok out, d') ∧
    from_slice PerformOpResponse_codec out = Ok rsp ∧
    match from_slice PerformOpReq_codec begin_bytes with
    | Ok req => process_req false req (device booted) = (Ok rsp, d') ∧ answers (code req) rsp
    | _ => d' = device booted ∧ rsp = error_rsp (discr EncodingError)
    end.
Proof.
  apply (every_request_answered false begin_bytes (device booted)).
  intros req Hreq. exists (error_rsp (discr InvalidKeyBlob)). split.
  - assert (from_slice PerformOpReq_codec begin_bytes =
      Ok (Req_DeviceBegin {| BeginRequest_purpose := KeyPurpose_Encrypt;
            BeginRequest_key_blob := []; BeginRequest_params := []; BeginRequest_auth_token := None |})) as Hb
      by (vm_compute; reflexivity).
    rewrite Hb in Hreq. injection Hreq as <-. vm_compute. reflexivity.
  - split; [apply discr_is_i32|done].
Defined.
Lemma root_of_trust_transfer_witness :
  is_strongbox strongbox = true ∧ is_strongbox tee = false ∧ ∃ info,
    boot_info_hashed_key tee = Ok info ∧
    send_root_of_trust sent challenged.2 = (Ok tt, set_boot_rot (Some info) (ta_rot_data strongbox) challenged.2).
Proof.
  apply (root_of_trust_transfer tee strongbox (value [] challenged) challenged.2 sent).
  - cbn. split_and!; try done; range_lia.
  - succeeds.
  - vm_compute. reflexivity.
  - intros m. reflexivity.
Defined.
Lemma transferred_root_unusable_witness :
  is_Some (ta_boot_info (ds_ta (run false [Req_SetBootInfo {| SetBootInfoRequest_verified_boot_key := verified_boot_key SampleTa.boot;
       SetBootInfoRequest_device_boot_locked := true; SetBootInfoRequest_verified_boot_state := 0;
       SetBootInfoRequest_verified_boot_hash := verified_boot_hash SampleTa.boot;
       SetBootInfoRequest_boot_patchlevel := boot_patchlevel SampleTa.boot |}]
     (process_req false (Req_SendRootOfTrust {| SendRootOfTrustRequest_root_of_trust := sent |}) (device challenged.2)).2))).
Proof.
  eapply (transferred_root_unusable false {| SendRootOfTrustRequest_root_of_trust := sent |} (device challenged.2)).
  - vm_compute. reflexivity.
  - vm_compute. reflexivity.
  - assert (value (error_rsp 0) (process_req false (Req_SendRootOfTrust {| SendRootOfTrustRequest_root_of_trust := sent |})
                     (device challenged.2)) =
            op_ok_rsp (Rsp_SendRootOfTrust Build_SendRootOfTrustResponse)) as <- by (vm_compute; reflexivity).
    succeeds.
  - reflexivity.
Defined.
Lemma root_of_trust_no_payload_witness : send_root_of_trust [] strongbox = (Panic, strongbox).
Proof.
  eapply (root_of_trust_no_payload strongbox []); [reflexivity..|]. reflexivity.
Defined.
End SampleDevice.
