(* ===== verification/HalTypes.v ===== *)
(** * Conversions between HAL types and wire types ([hal/src/hal.rs])

    The HAL service talks to its clients in types generated from the AIDL interface, whose
    enumerations are plain 32-bit integers, and to the trusted application in the stricter
    wire types.  The generated code is not part of the repository: its structures and its
    tagged union are data here (module [Aidl]), and the numbers of its constants are a
    parameter, of which only that they are those of the wire types is assumed.  Conversion of
    key parameters loses nothing in either direction, except the tags it does not know. *)

From S2P Require Import Prelude Wire Codec WireCodec.

(** ** The generated types *)

(** Enumerations are newtypes of [i32]; [V_Other] stands for the variants that the service
    never looks at. *)
Inductive KeyParameterValue : Set :=
| V_Algorithm (v : Z) | V_BlockMode (v : Z) | V_PaddingMode (v : Z) | V_Digest (v : Z)
| V_EcCurve (v : Z) | V_Origin (v : Z) | V_KeyPurpose (v : Z) | V_HardwareAuthenticatorType (v : Z)
| V_BoolValue (v : bool) | V_Integer (v : Z) | V_LongInteger (v : Z) | V_DateTime (v : Z)
| V_Blob (v : bytes) | V_Other.

Module Aidl.
(** The numbers of [Tag::NAME], [ErrorCode::NAME] and [TagType::NAME]. *)
Class Constants := {
  tag_number : Wire.Tag → Z;
  error_number : Wire.ErrorCode → Z;
  tag_type_number : Wire.TagType → Z
}.
(** The interface and the wire types are kept in step. *)
Class ConstantsLaws `{Constants} : Prop := {
  tag_number_sync t : tag_number t = discr t;
  error_number_sync e : error_number e = discr e;
  tag_type_number_sync t : tag_type_number t = discr t
}.

Record KeyParameter := mk_param { tag : Z; value : KeyParameterValue }.
Record Timestamp := mk_timestamp { milliSeconds : Z }.
Record TimeStampToken := mk_timestamp_token {
  tst_challenge : Z; tst_timestamp : Timestamp; tst_mac : bytes }.
Record HardwareAuthToken := mk_auth_token {
  hat_challenge : Z; userId : Z; authenticatorId : Z; authenticatorType : Z;
  hat_timestamp : Timestamp; hat_mac : bytes }.
Record SharedSecretParameters := mk_shared_params { seed : bytes; nonce : bytes }.
Record Certificate := mk_certificate { encodedCertificate : bytes }.
Record KeyCharacteristics := mk_characteristics {
  securityLevel : Z; authorizations : list KeyParameter }.
Record KeyCreationResult := mk_creation {
  keyBlob : bytes; keyCharacteristics : list KeyCharacteristics; certificateChain : list Certificate }.
Record KeyMintHardwareInfo := mk_hw_info {
  versionNumber : Z; hw_securityLevel : Z; keyMintName : string; keyMintAuthorName : string;
  timestampTokenRequired : bool }.
Record AttestationKey := mk_attest_key {
  ak_keyBlob : bytes; attestKeyParams : list KeyParameter; issuerSubjectName : bytes }.
Record DeviceInfo := mk_device_info { deviceInfo : bytes }.
Record MacedPublicKey := mk_maced { macedKey : bytes }.
Record ProtectedData := mk_protected { protectedData : bytes }.
Record RpcHardwareInfo := mk_rpc_info {
  rpc_versionNumber : Z; rpcAuthorName : string; supportedEekCurve : Z; uniqueId : option string;
  supportedNumKeysInCsr : Z }.
End Aidl.

(** [binder::Status]: a code of the service itself, or an exception of the transport. *)
Inductive ExceptionCode : Set := BAD_PARCELABLE | TRANSACTION_FAILED | ILLEGAL_ARGUMENT.
Inductive Status : Set :=
| ServiceSpecific (code : Z)
| Exception_ (code : ExceptionCode).

(** Marker of the type that did not convert. *)
Inductive ValueNotRecognized : Set :=
| NR_KeyPurpose | NR_Algorithm | NR_BlockMode | NR_Digest | NR_PaddingMode | NR_EcCurve | NR_ErrorCode
| NR_HardwareAuthenticatorType | NR_KeyFormat | NR_KeyOrigin | NR_SecurityLevel | NR_Tag | NR_TagType
| NR_KmVersion | NR_EekCurve | NR_Origin | NR_Bool | NR_Blob | NR_DateTime | NR_Integer | NR_LongInteger.
Abbreviation Converted A := (res ValueNotRecognized A).

(** [TryFrom<i32>] for an enum reports the enum's own marker. *)
Class NotRecognized (A : Type) := not_recognized : ValueNotRecognized.
#[export] Instance nr_KeyPurpose : NotRecognized KeyPurpose := NR_KeyPurpose.
#[export] Instance nr_Algorithm : NotRecognized Algorithm := NR_Algorithm.
#[export] Instance nr_BlockMode : NotRecognized BlockMode := NR_BlockMode.
#[export] Instance nr_Digest : NotRecognized Digest := NR_Digest.
#[export] Instance nr_PaddingMode : NotRecognized PaddingMode := NR_PaddingMode.
#[export] Instance nr_EcCurve : NotRecognized EcCurve := NR_EcCurve.
#[export] Instance nr_ErrorCode : NotRecognized ErrorCode := NR_ErrorCode.
#[export] Instance nr_HardwareAuthenticatorType : NotRecognized HardwareAuthenticatorType := NR_HardwareAuthenticatorType.
#[export] Instance nr_KeyFormat : NotRecognized KeyFormat := NR_KeyFormat.
#[export] Instance nr_KeyOrigin : NotRecognized KeyOrigin := NR_KeyOrigin.
#[export] Instance nr_SecurityLevel : NotRecognized SecurityLevel := NR_SecurityLevel.
#[export] Instance nr_Tag : NotRecognized Tag := NR_Tag.
#[export] Instance nr_TagType : NotRecognized TagType := NR_TagType.

(** The [enum_convert!] macro, in its two directions. *)
Definition enum_fromm {A} `{REnum A} (v : A) : Z := discr v.
Definition enum_try_fromm {A} `{REnum A} `{NR : NotRecognized A} (v : Z) : Converted A :=
  ok_or (try_from_n v) not_recognized.

Section convert.
Context `{K : Aidl.Constants}.

(** A specific error code where there is one. *)
Definition conversion_error (err : ValueNotRecognized) : ErrorCode :=
  match err with
  | NR_KeyPurpose => UnsupportedPurpose
  | NR_Algorithm => UnsupportedAlgorithm
  | NR_BlockMode => UnsupportedBlockMode
  | NR_PaddingMode => UnsupportedPaddingMode
  | NR_Digest => UnsupportedDigest
  | NR_KeyFormat => UnsupportedKeyFormat
  | NR_EcCurve => UnsupportedEcCurve
  | _ => InvalidArgument
  end.
Definition failed_conversion (err : ValueNotRecognized) : Status :=
  ServiceSpecific (Aidl.error_number (conversion_error err)).

(** The type of a tag given by its number, from the top bits. *)
Definition hal_tag_type (tag : Z) : Z :=
  let x := as_i32 (Z.land (as_u32 tag) 0xf0000000) in
  if decide (x = Aidl.tag_type_number TagType_Enum) then Aidl.tag_type_number TagType_Enum
  else if decide (x = Aidl.tag_type_number TagType_EnumRep) then Aidl.tag_type_number TagType_EnumRep
  else if decide (x = Aidl.tag_type_number TagType_Uint) then Aidl.tag_type_number TagType_Uint
  else if decide (x = Aidl.tag_type_number TagType_UintRep) then Aidl.tag_type_number TagType_UintRep
  else if decide (x = Aidl.tag_type_number TagType_Ulong) then Aidl.tag_type_number TagType_Ulong
  else if decide (x = Aidl.tag_type_number TagType_Date) then Aidl.tag_type_number TagType_Date
  else if decide (x = Aidl.tag_type_number TagType_Bool) then Aidl.tag_type_number TagType_Bool
  else if decide (x = Aidl.tag_type_number TagType_Bignum) then Aidl.tag_type_number TagType_Bignum
  else if decide (x = Aidl.tag_type_number TagType_Bytes) then Aidl.tag_type_number TagType_Bytes
  else if decide (x = Aidl.tag_type_number TagType_UlongRep) then Aidl.tag_type_number TagType_UlongRep
  else Aidl.tag_type_number TagType_Invalid.

(** ** Wire types to HAL types *)

Definition SharedSecretParameters_fromm (v : SharedSecretParameters) : Aidl.SharedSecretParameters :=
  Aidl.mk_shared_params (SharedSecretParameters_seed v) (SharedSecretParameters_nonce v).
Definition TimeStampToken_fromm (v : TimeStampToken) : Aidl.TimeStampToken :=
  Aidl.mk_timestamp_token (tst_challenge v) (Aidl.mk_timestamp (tst_timestamp v)) (tst_mac v).
Definition Certificate_fromm (v : Certificate) : Aidl.Certificate :=
  Aidl.mk_certificate (Certificate_encoded_certificate v).
Definition DeviceInfo_fromm (v : DeviceInfo) : Aidl.DeviceInfo := Aidl.mk_device_info (DeviceInfo_device_info v).
Definition HardwareAuthToken_fromm (v : HardwareAuthToken) : Aidl.HardwareAuthToken :=
  Aidl.mk_auth_token (hat_challenge v) (hat_user_id v) (hat_authenticator_id v)
    (enum_fromm (hat_authenticator_type v)) (Aidl.mk_timestamp (hat_timestamp v)) (hat_mac v).
Definition KeyMintHardwareInfo_fromm (v : KeyMintHardwareInfo) : Aidl.KeyMintHardwareInfo :=
  Aidl.mk_hw_info (KeyMintHardwareInfo_version_number v) (enum_fromm (KeyMintHardwareInfo_security_level v))
    (KeyMintHardwareInfo_key_mint_name v) (KeyMintHardwareInfo_key_mint_author_name v)
    (KeyMintHardwareInfo_timestamp_token_required v).
Definition MacedPublicKey_fromm (v : MacedPublicKey) : Aidl.MacedPublicKey := Aidl.mk_maced (MacedPublicKey_maced_key v).
Definition ProtectedData_fromm (v : ProtectedData) : Aidl.ProtectedData :=
  Aidl.mk_protected (ProtectedData_protected_data v).
Definition RpcHardwareInfo_fromm (v : RpcHardwareInfo) : Aidl.RpcHardwareInfo :=
  Aidl.mk_rpc_info (RpcHardwareInfo_version_number v) (RpcHardwareInfo_rpc_author_name v)
    (EekCurve_discr (RpcHardwareInfo_supported_eek_curve v)) (RpcHardwareInfo_unique_id v)
    (RpcHardwareInfo_supported_num_keys_in_csr v).

Definition KeyParam_tag_value (val : KeyParam) : Tag * KeyParameterValue :=
  match val with
  | KP_Purpose v => (Tag_Purpose, V_KeyPurpose (discr v))
  | KP_Algorithm v => (Tag_Algorithm, V_Algorithm (discr v))
  | KP_BlockMode v => (Tag_BlockMode, V_BlockMode (discr v))
  | KP_Digest v => (Tag_Digest, V_Digest (discr v))
  | KP_Padding v => (Tag_Padding, V_PaddingMode (discr v))
  | KP_EcCurve v => (Tag_EcCurve, V_EcCurve (discr v))
  | KP_RsaOaepMgfDigest v => (Tag_RsaOaepMgfDigest, V_Digest (discr v))
  | KP_Origin v => (Tag_Origin, V_Origin (discr v))
  | KP_KeySize v => (Tag_KeySize, V_Integer (as_i32 v))
  | KP_MinMacLength v => (Tag_MinMacLength, V_Integer (as_i32 v))
  | KP_MaxUsesPerBoot v => (Tag_MaxUsesPerBoot, V_Integer (as_i32 v))
  | KP_UsageCountLimit v => (Tag_UsageCountLimit, V_Integer (as_i32 v))
  | KP_UserId v => (Tag_UserId, V_Integer (as_i32 v))
  | KP_UserAuthType v => (Tag_UserAuthType, V_HardwareAuthenticatorType (as_i32 v))
  | KP_AuthTimeout v => (Tag_AuthTimeout, V_Integer (as_i32 v))
  | KP_OsVersion v => (Tag_OsVersion, V_Integer (as_i32 v))
  | KP_OsPatchlevel v => (Tag_OsPatchlevel, V_Integer (as_i32 v))
  | KP_VendorPatchlevel v => (Tag_VendorPatchlevel, V_Integer (as_i32 v))
  | KP_BootPatchlevel v => (Tag_BootPatchlevel, V_Integer (as_i32 v))
  | KP_MacLength v => (Tag_MacLength, V_Integer (as_i32 v))
  | KP_MaxBootLevel v => (Tag_MaxBootLevel, V_Integer (as_i32 v))
  | KP_RsaPublicExponent v => (Tag_RsaPublicExponent, V_LongInteger (as_i64 v))
  | KP_UserSecureId v => (Tag_UserSecureId, V_LongInteger (as_i64 v))
  | KP_CallerNonce => (Tag_CallerNonce, V_BoolValue true)
  | KP_IncludeUniqueId => (Tag_IncludeUniqueId, V_BoolValue true)
  | KP_BootloaderOnly => (Tag_BootloaderOnly, V_BoolValue true)
  | KP_RollbackResistance => (Tag_RollbackResistance, V_BoolValue true)
  | KP_EarlyBootOnly => (Tag_EarlyBootOnly, V_BoolValue true)
  | KP_AllowWhileOnBody => (Tag_AllowWhileOnBody, V_BoolValue true)
  | KP_NoAuthRequired => (Tag_NoAuthRequired, V_BoolValue true)
  | KP_TrustedUserPresenceRequired => (Tag_TrustedUserPresenceRequired, V_BoolValue true)
  | KP_TrustedConfirmationRequired => (Tag_TrustedConfirmationRequired, V_BoolValue true)
  | KP_UnlockedDeviceRequired => (Tag_UnlockedDeviceRequired, V_BoolValue true)
  | KP_DeviceUniqueAttestation => (Tag_DeviceUniqueAttestation, V_BoolValue true)
  | KP_StorageKey => (Tag_StorageKey, V_BoolValue true)
  | KP_ResetSinceIdRotation => (Tag_ResetSinceIdRotation, V_BoolValue true)
  | KP_ActiveDatetime v => (Tag_ActiveDatetime, V_DateTime v)
  | KP_OriginationExpireDatetime v => (Tag_OriginationExpireDatetime, V_DateTime v)
  | KP_UsageExpireDatetime v => (Tag_UsageExpireDatetime, V_DateTime v)
  | KP_CreationDatetime v => (Tag_CreationDatetime, V_DateTime v)
  | KP_CertificateNotBefore v => (Tag_CertificateNotBefore, V_DateTime v)
  | KP_CertificateNotAfter v => (Tag_CertificateNotAfter, V_DateTime v)
  | KP_ApplicationId v => (Tag_ApplicationId, V_Blob v)
  | KP_ApplicationData v => (Tag_ApplicationData, V_Blob v)
  | KP_AttestationChallenge v => (Tag_AttestationChallenge, V_Blob v)
  | KP_AttestationApplicationId v => (Tag_AttestationApplicationId, V_Blob v)
  | KP_AttestationIdBrand v => (Tag_AttestationIdBrand, V_Blob v)
  | KP_AttestationIdDevice v => (Tag_AttestationIdDevice, V_Blob v)
  | KP_AttestationIdProduct v => (Tag_AttestationIdProduct, V_Blob v)
  | KP_AttestationIdSerial v => (Tag_AttestationIdSerial, V_Blob v)
  | KP_AttestationIdImei v => (Tag_AttestationIdImei, V_Blob v)
  | KP_AttestationIdSecondImei v => (Tag_AttestationIdSecondImei, V_Blob v)
  | KP_AttestationIdMeid v => (Tag_AttestationIdMeid, V_Blob v)
  | KP_AttestationIdManufacturer v => (Tag_AttestationIdManufacturer, V_Blob v)
  | KP_AttestationIdModel v => (Tag_AttestationIdModel, V_Blob v)
  | KP_Nonce v => (Tag_Nonce, V_Blob v)
  | KP_RootOfTrust v => (Tag_RootOfTrust, V_Blob v)
  | KP_CertificateSerial v => (Tag_CertificateSerial, V_Blob v)
  | KP_CertificateSubject v => (Tag_CertificateSubject, V_Blob v)
  | KP_ModuleHash v => (Tag_ModuleHash, V_Blob v)
  end.
Definition KeyParam_fromm (val : KeyParam) : Aidl.KeyParameter :=
  let '(tag, value) := KeyParam_tag_value val in Aidl.mk_param (Aidl.tag_number tag) value.
Definition KeyCharacteristics_fromm (v : KeyCharacteristics) : Aidl.KeyCharacteristics :=
  Aidl.mk_characteristics (enum_fromm (security_level v)) (KeyParam_fromm <$> authorizations v).
Definition KeyCreationResult_fromm (v : KeyCreationResult) : Aidl.KeyCreationResult :=
  Aidl.mk_creation (KeyCreationResult_key_blob v)
    (KeyCharacteristics_fromm <$> KeyCreationResult_key_characteristics v)
    (Certificate_fromm <$> KeyCreationResult_certificate_chain v).

(** ** HAL types to wire types *)

Definition wire_timestamp_token (v : Aidl.TimeStampToken) : TimeStampToken :=
  {| tst_challenge := Aidl.tst_challenge v; tst_timestamp := Aidl.milliSeconds (Aidl.tst_timestamp v);
     tst_mac := Aidl.tst_mac v |}.
Definition wire_shared_secret_params (v : Aidl.SharedSecretParameters) : SharedSecretParameters :=
  {| SharedSecretParameters_seed := Aidl.seed v; SharedSecretParameters_nonce := Aidl.nonce v |}.
Definition wire_maced_public_key (v : Aidl.MacedPublicKey) : MacedPublicKey :=
  {| MacedPublicKey_maced_key := Aidl.macedKey v |}.
Definition HardwareAuthToken_try_fromm (v : Aidl.HardwareAuthToken) : Converted HardwareAuthToken :=
  authenticator_type ← enum_try_fromm (Aidl.authenticatorType v);
  Ok {| hat_challenge := Aidl.hat_challenge v; hat_user_id := Aidl.userId v;
        hat_authenticator_id := Aidl.authenticatorId v; hat_authenticator_type := authenticator_type;
        hat_timestamp := Aidl.milliSeconds (Aidl.hat_timestamp v); hat_mac := Aidl.hat_mac v |}.

(** The [value_of!] macro, for each variant it is used with. *)
Definition value_of_KeyPurpose (val : Aidl.KeyParameter) : Converted Z :=
  match Aidl.value val with V_KeyPurpose v => Ok v | _ => Err NR_KeyPurpose end.
Definition value_of_Algorithm (val : Aidl.KeyParameter) : Converted Z :=
  match Aidl.value val with V_Algorithm v => Ok v | _ => Err NR_Algorithm end.
Definition value_of_BlockMode (val : Aidl.KeyParameter) : Converted Z :=
  match Aidl.value val with V_BlockMode v => Ok v | _ => Err NR_BlockMode end.
Definition value_of_Digest (val : Aidl.KeyParameter) : Converted Z :=
  match Aidl.value val with V_Digest v => Ok v | _ => Err NR_Digest end.
Definition value_of_PaddingMode (val : Aidl.KeyParameter) : Converted Z :=
  match Aidl.value val with V_PaddingMode v => Ok v | _ => Err NR_PaddingMode end.
Definition value_of_EcCurve (val : Aidl.KeyParameter) : Converted Z :=
  match Aidl.value val with V_EcCurve v => Ok v | _ => Err NR_EcCurve end.
Definition value_of_Origin (val : Aidl.KeyParameter) : Converted Z :=
  match Aidl.value val with V_Origin v => Ok v | _ => Err NR_Origin end.
Definition value_of_HardwareAuthenticatorType (val : Aidl.KeyParameter) : Converted Z :=
  match Aidl.value val with V_HardwareAuthenticatorType v => Ok v | _ => Err NR_HardwareAuthenticatorType end.
Definition value_of_Integer (val : Aidl.KeyParameter) : Converted Z :=
  match Aidl.value val with V_Integer v => Ok v | _ => Err NR_Integer end.
Definition value_of_LongInteger (val : Aidl.KeyParameter) : Converted Z :=
  match Aidl.value val with V_LongInteger v => Ok v | _ => Err NR_LongInteger end.
Definition value_of_DateTime (val : Aidl.KeyParameter) : Converted Z :=
  match Aidl.value val with V_DateTime v => Ok v | _ => Err NR_DateTime end.
Definition hal_check_bool (val : Aidl.KeyParameter) : Converted unit :=
  match Aidl.value val with V_BoolValue true => Ok tt | _ => Err NR_Bool end.
Definition clone_blob (val : Aidl.KeyParameter) : Converted bytes :=
  match Aidl.value val with V_Blob b => Ok b | _ => Err NR_Blob end.

(** Which of the constants of the interface a tag number is. *)
Definition named_tag (tag : Z) : option Tag := head (filter (λ t, Aidl.tag_number t = tag) variants).

(** [Ok None]: a tag that is not known, which is dropped. *)
Definition KeyParam_try_fromm (val : Aidl.KeyParameter) : Converted (option KeyParam) :=
  match named_tag (Aidl.tag val) with
  | Some Tag_Purpose => x ← value_of_KeyPurpose val; v ← enum_try_fromm x; Ok (Some (KP_Purpose v))
  | Some Tag_Algorithm => x ← value_of_Algorithm val; v ← enum_try_fromm x; Ok (Some (KP_Algorithm v))
  | Some Tag_BlockMode => x ← value_of_BlockMode val; v ← enum_try_fromm x; Ok (Some (KP_BlockMode v))
  | Some Tag_Digest => x ← value_of_Digest val; v ← enum_try_fromm x; Ok (Some (KP_Digest v))
  | Some Tag_Padding => x ← value_of_PaddingMode val; v ← enum_try_fromm x; Ok (Some (KP_Padding v))
  | Some Tag_EcCurve => x ← value_of_EcCurve val; v ← enum_try_fromm x; Ok (Some (KP_EcCurve v))
  | Some Tag_RsaOaepMgfDigest => x ← value_of_Digest val; v ← enum_try_fromm x; Ok (Some (KP_RsaOaepMgfDigest v))
  | Some Tag_Origin => x ← value_of_Origin val; v ← enum_try_fromm x; Ok (Some (KP_Origin v))
  | Some Tag_UserAuthType => x ← value_of_HardwareAuthenticatorType val; Ok (Some (KP_UserAuthType (as_u32 x)))
  | Some Tag_KeySize => x ← value_of_Integer val; Ok (Some (KP_KeySize (as_u32 x)))
  | Some Tag_MinMacLength => x ← value_of_Integer val; Ok (Some (KP_MinMacLength (as_u32 x)))
  | Some Tag_MaxUsesPerBoot => x ← value_of_Integer val; Ok (Some (KP_MaxUsesPerBoot (as_u32 x)))
  | Some Tag_UsageCountLimit => x ← value_of_Integer val; Ok (Some (KP_UsageCountLimit (as_u32 x)))
  | Some Tag_UserId => x ← value_of_Integer val; Ok (Some (KP_UserId (as_u32 x)))
  | Some Tag_AuthTimeout => x ← value_of_Integer val; Ok (Some (KP_AuthTimeout (as_u32 x)))
  | Some Tag_OsVersion => x ← value_of_Integer val; Ok (Some (KP_OsVersion (as_u32 x)))
  | Some Tag_OsPatchlevel => x ← value_of_Integer val; Ok (Some (KP_OsPatchlevel (as_u32 x)))
  | Some Tag_VendorPatchlevel => x ← value_of_Integer val; Ok (Some (KP_VendorPatchlevel (as_u32 x)))
  | Some Tag_BootPatchlevel => x ← value_of_Integer val; Ok (Some (KP_BootPatchlevel (as_u32 x)))
  | Some Tag_MacLength => x ← value_of_Integer val; Ok (Some (KP_MacLength (as_u32 x)))
  | Some Tag_MaxBootLevel => x ← value_of_Integer val; Ok (Some (KP_MaxBootLevel (as_u32 x)))
  | Some Tag_RsaPublicExponent => x ← value_of_LongInteger val; Ok (Some (KP_RsaPublicExponent (as_u64 x)))
  | Some Tag_UserSecureId => x ← value_of_LongInteger val; Ok (Some (KP_UserSecureId (as_u64 x)))
  | Some Tag_CallerNonce => _ ← hal_check_bool val; Ok (Some KP_CallerNonce)
  | Some Tag_IncludeUniqueId => _ ← hal_check_bool val; Ok (Some KP_IncludeUniqueId)
  | Some Tag_BootloaderOnly => _ ← hal_check_bool val; Ok (Some KP_BootloaderOnly)
  | Some Tag_RollbackResistance => _ ← hal_check_bool val; Ok (Some KP_RollbackResistance)
  | Some Tag_EarlyBootOnly => _ ← hal_check_bool val; Ok (Some KP_EarlyBootOnly)
  | Some Tag_NoAuthRequired => _ ← hal_check_bool val; Ok (Some KP_NoAuthRequired)
  | Some Tag_AllowWhileOnBody => _ ← hal_check_bool val; Ok (Some KP_AllowWhileOnBody)
  | Some Tag_TrustedUserPresenceRequired => _ ← hal_check_bool val; Ok (Some KP_TrustedUserPresenceRequired)
  | Some Tag_TrustedConfirmationRequired => _ ← hal_check_bool val; Ok (Some KP_TrustedConfirmationRequired)
  | Some Tag_UnlockedDeviceRequired => _ ← hal_check_bool val; Ok (Some KP_UnlockedDeviceRequired)
  | Some Tag_DeviceUniqueAttestation => _ ← hal_check_bool val; Ok (Some KP_DeviceUniqueAttestation)
  | Some Tag_StorageKey => _ ← hal_check_bool val; Ok (Some KP_StorageKey)
  | Some Tag_ResetSinceIdRotation => _ ← hal_check_bool val; Ok (Some KP_ResetSinceIdRotation)
  | Some Tag_ActiveDatetime => x ← value_of_DateTime val; Ok (Some (KP_ActiveDatetime x))
  | Some Tag_OriginationExpireDatetime => x ← value_of_DateTime val; Ok (Some (KP_OriginationExpireDatetime x))
  | Some Tag_UsageExpireDatetime => x ← value_of_DateTime val; Ok (Some (KP_UsageExpireDatetime x))
  | Some Tag_CreationDatetime => x ← value_of_DateTime val; Ok (Some (KP_CreationDatetime x))
  | Some Tag_CertificateNotBefore => x ← value_of_DateTime val; Ok (Some (KP_CertificateNotBefore x))
  | Some Tag_CertificateNotAfter => x ← value_of_DateTime val; Ok (Some (KP_CertificateNotAfter x))
  | Some Tag_ApplicationId => v ← clone_blob val; Ok (Some (KP_ApplicationId v))
  | Some Tag_ApplicationData => v ← clone_blob val; Ok (Some (KP_ApplicationData v))
  | Some Tag_RootOfTrust => v ← clone_blob val; Ok (Some (KP_RootOfTrust v))
  | Some Tag_AttestationChallenge => v ← clone_blob val; Ok (Some (KP_AttestationChallenge v))
  | Some Tag_AttestationApplicationId => v ← clone_blob val; Ok (Some (KP_AttestationApplicationId v))
  | Some Tag_AttestationIdBrand => v ← clone_blob val; Ok (Some (KP_AttestationIdBrand v))
  | Some Tag_AttestationIdDevice => v ← clone_blob val; Ok (Some (KP_AttestationIdDevice v))
  | Some Tag_AttestationIdProduct => v ← clone_blob val; Ok (Some (KP_AttestationIdProduct v))
  | Some Tag_AttestationIdSerial => v ← clone_blob val; Ok (Some (KP_AttestationIdSerial v))
  | Some Tag_AttestationIdImei => v ← clone_blob val; Ok (Some (KP_AttestationIdImei v))
  | Some Tag_AttestationIdSecondImei => v ← clone_blob val; Ok (Some (KP_AttestationIdSecondImei v))
  | Some Tag_AttestationIdMeid => v ← clone_blob val; Ok (Some (KP_AttestationIdMeid v))
  | Some Tag_AttestationIdManufacturer => v ← clone_blob val; Ok (Some (KP_AttestationIdManufacturer v))
  | Some Tag_AttestationIdModel => v ← clone_blob val; Ok (Some (KP_AttestationIdModel v))
  | Some Tag_Nonce => v ← clone_blob val; Ok (Some (KP_Nonce v))
  | Some Tag_CertificateSerial => v ← clone_blob val; Ok (Some (KP_CertificateSerial v))
  | Some Tag_CertificateSubject => v ← clone_blob val; Ok (Some (KP_CertificateSubject v))
  | Some Tag_ModuleHash => v ← clone_blob val; Ok (Some (KP_ModuleHash v))
  | Some (Tag_UniqueId | Tag_HardwareType | Tag_MinSecondsBetweenOps | Tag_IdentityCredentialKey
          | Tag_AssociatedData | Tag_ConfirmationToken) => Err NR_Tag
  | Some Tag_Invalid | None => Ok None
  end.

(** [iter().filter_map(|p| p.try_innto().transpose()).collect::<Result<Vec<KeyParam>, _>>()]. *)
Fixpoint key_params_try_innto (params : list Aidl.KeyParameter) : Converted (list KeyParam) :=
  match params with
  | [] => Ok []
  | p :: params' =>
    o ← KeyParam_try_fromm p;
    l ← key_params_try_innto params';
    Ok (match o with Some v => v :: l | None => l end)
  end.
Definition AttestationKey_try_fromm (v : Aidl.AttestationKey) : Converted AttestationKey :=
  params ← key_params_try_innto (Aidl.attestKeyParams v);
  Ok {| AttestationKey_key_blob := Aidl.ak_keyBlob v; AttestationKey_attest_key_params := params;
        AttestationKey_issuer_subject_name := Aidl.issuerSubjectName v |}.
(** [match arg { None => None, Some(k) => Some(k.clone().try_innto()?) }]. *)
Definition opt_try_innto {A B} (f : A → Converted B) (o : option A) : Converted (option B) :=
  match o with None => Ok None | Some a => b ← f a; Ok (Some b) end.

(** ** Nothing is lost *)

(** The integers of a HAL parameter fit their Rust types. *)
Definition hp_wf (p : Aidl.KeyParameter) : Prop :=
  is_i32 (Aidl.tag p) ∧
  match Aidl.value p with
  | V_Algorithm v | V_BlockMode v | V_PaddingMode v | V_Digest v | V_EcCurve v | V_Origin v
  | V_KeyPurpose v | V_HardwareAuthenticatorType v | V_Integer v => is_i32 v
  | V_LongInteger v | V_DateTime v => is_i64 v
  | _ => True
  end.
(** The tags that the service looks at. *)
Definition known_tag (p : Aidl.KeyParameter) : bool :=
  match named_tag (Aidl.tag p) with Some Tag_Invalid | None => false | Some _ => true end.

Lemma enum_try_fromm_Ok {A} `{REnum A} `{!NotRecognized A} z (v : A) :
  enum_try_fromm z = Ok v ↔ enum_fromm v = z.
Proof. unfold enum_try_fromm. by rewrite ok_or_Ok, try_from_n_Some. Qed.
Lemma as_u32_i32 z : is_i32 z → as_i32 (as_u32 z) = z ∧ is_u32 (as_u32 z).
Proof. intros. split; [by apply as_signed_as_unsigned|by apply as_unsigned_range]. Qed.
Lemma as_u64_i64 z : is_i64 z → as_i64 (as_u64 z) = z ∧ is_u64 (as_u64 z).
Proof. intros. split; [by apply as_signed_as_unsigned|by apply as_unsigned_range]. Qed.

(** The enum [v] converts back from its number. *)
Ltac convert_back :=
  match goal with
  | |- context [@enum_try_fromm ?A ?r ?n ?z] =>
    match goal with
    | v : A |- _ => rewrite (proj2 (@enum_try_fromm_Ok A r n z v) eq_refl)
    end
  end.

Section laws.
Context `{KL : !Aidl.ConstantsLaws}.

Lemma named_tag_Some z t : named_tag z = Some t ↔ discr t = z.
Proof.
  rewrite <- try_from_n_Some. unfold named_tag, try_from_n.
  assert (filter (λ t, Aidl.tag_number t = z) variants = filter (λ t : Tag, discr t = z) variants) as ->; [|done].
  apply list_filter_iff. intros t'. by rewrite Aidl.tag_number_sync.
Qed.

Lemma KeyParam_try_fromm_fromm p : kp_wf p → KeyParam_try_fromm (KeyParam_fromm p) = Ok (Some p).
Proof.
  intros Hp. unfold KeyParam_fromm. destruct (KeyParam_tag_value p) as [t v] eqn:Htv.
  unfold KeyParam_try_fromm. cbn [Aidl.tag]. rewrite (proj2 (named_tag_Some _ t)) by (by rewrite Aidl.tag_number_sync).
  destruct p; cbn in Htv, Hp; injection Htv as <- <-; cbn -[enum_try_fromm];
    rewrite ?as_unsigned_as_signed by done; try done; by convert_back.
Qed.

Lemma KeyParam_fromm_tag p : Aidl.tag (KeyParam_fromm p) = discr (tag p).
Proof. by destruct p; cbn; rewrite Aidl.tag_number_sync. Qed.
Lemma KeyParam_fromm_wf p : kp_wf p → hp_wf (KeyParam_fromm p).
Proof.
  intros Hp. split; [rewrite KeyParam_fromm_tag; apply discr_i32|].
  destruct p; cbn in *; try done;
    first [by apply as_signed_range|match goal with v : _ |- _ => exact (discr_is_i32 v) end].
Qed.

Lemma KeyParam_try_fromm_Some hp p :
  hp_wf hp → KeyParam_try_fromm hp = Ok (Some p) → hp = KeyParam_fromm p ∧ kp_wf p.
Proof.
  intros [_ Hv]. destruct hp as [z v]. unfold KeyParam_try_fromm. cbn [Aidl.tag Aidl.value] in *.
  destruct (named_tag z) as [t|] eqn:Ht; [|done]. apply named_tag_Some in Ht as <-.
  destruct t; try done; destruct v; try done; cbn -[enum_try_fromm];
    (intros [= <-] || (rewrite res_bind_Ok; intros (v' & <-%enum_try_fromm_Ok & [= <-])) ||
     (destruct v; [intros [= <-]|done])); unfold KeyParam_fromm; cbn; rewrite Aidl.tag_number_sync; try done;
    (destruct (as_u32_i32 _ Hv) as [-> ?] || destruct (as_u64_i64 _ Hv) as [-> ?]); done.
Qed.

Lemma KeyParam_try_fromm_None hp : KeyParam_try_fromm hp = Ok None ↔ known_tag hp = false.
Proof.
  unfold KeyParam_try_fromm, known_tag. destruct (named_tag (Aidl.tag hp)) as [t|]; [|done].
  destruct t; try done; rewrite ?res_bind_Ok; (split; [|done]); intros (x & _ & Hx); try done;
    apply res_bind_Ok in Hx as (? & _ & [=]).
Qed.
Lemma KeyParam_fromm_known p : known_tag (KeyParam_fromm p) = true.
Proof.
  unfold known_tag. rewrite KeyParam_fromm_tag, (proj2 (named_tag_Some _ (tag p)) eq_refl). by destruct p.
Qed.
Lemma KeyParam_try_fromm_Err hp : KeyParam_try_fromm hp ≠ Panic.
Proof.
  destruct hp as [z v]. unfold KeyParam_try_fromm. destruct (named_tag _) as [t|]; [|done].
  destruct t; try done; destruct v as [| | | | | | | |[]| | | | |]; try done; cbn -[enum_try_fromm];
    unfold enum_try_fromm; by destruct (try_from_n v).
Qed.

(** C30: Key parameters that arrive from a client are converted exactly: conversion succeeds with
    certain wire parameters if and only if those, written as HAL parameters, are the parameters
    that were given, in the same order and without the ones whose tag is not known, which are
    silently dropped. In particular a number that is no value of the tag's enumeration, a value
    of a type other than the tag's, a false flag or an unsupported tag is an error (a negative
    number for an unsigned tag is not: the same bits are taken as unsigned), and parameters
    sent back to a client can be given to the service again. Conversion never panics. *)
Theorem hal_params_exact hps ps :
  Forall hp_wf hps →
  (key_params_try_innto hps = Ok ps ↔ filter known_tag hps = KeyParam_fromm <$> ps ∧ Forall kp_wf ps) ∧
  key_params_try_innto hps ≠ Panic.
Proof.
  intros Hwf. revert ps. induction Hwf as [|hp hps Hhp _ IH]; intros ps.
  { cbn. split; [|done]. split; [by intros [= <-]|]. by destruct ps as [|? ?]; [|intros [? _]]. }
  assert (key_params_try_innto hps ≠ Panic) as Hnp by apply (IH []). rewrite filter_cons. cbn [key_params_try_innto].
  destruct (KeyParam_try_fromm hp) as [[p|]|e|] eqn:Hp; cbn; [| | |by destruct (KeyParam_try_fromm_Err hp)].
  - apply KeyParam_try_fromm_Some in Hp as [-> Hpw]; [|done]. rewrite KeyParam_fromm_known. cbn.
    split; [|by destruct (key_params_try_innto hps)]. rewrite res_bind_Ok. split.
    + intros (l & Hl & [= <-]). apply IH in Hl as [-> Hl]. by split; [|constructor].
    + destruct ps as [|p' ps]; [by intros [? _]|]. cbn. intros [[=E1 E2] [Hp' Hps]%Forall_cons].
      exists ps. split; [by apply IH|]. do 2 f_equal. apply (f_equal KeyParam_try_fromm) in E1.
      rewrite !KeyParam_try_fromm_fromm in E1 by done. congruence.
  - apply KeyParam_try_fromm_None in Hp as ->. cbn. split; [|by destruct (key_params_try_innto hps)].
    rewrite <- (proj1 (IH ps)). by destruct (key_params_try_innto hps).
  - split; [|done]. split; [done|]. destruct (known_tag hp) eqn:Hk; cbn.
    + destruct ps as [|p ps]; [by intros [? _]|]. cbn. intros [[= -> _] [Hp' _]%Forall_cons]. by rewrite KeyParam_try_fromm_fromm in Hp.
    + apply KeyParam_try_fromm_None in Hk. congruence.
Qed.

Lemma HardwareAuthToken_try_fromm_Ok v w :
  HardwareAuthToken_try_fromm v = Ok w ↔ v = HardwareAuthToken_fromm w.
Proof.
  destruct v as [? ? ? ty [?] ?], w. unfold HardwareAuthToken_try_fromm. rewrite res_bind_Ok. cbn -[enum_try_fromm]. split.
  - by intros (x & <-%enum_try_fromm_Ok & [= <- <- <- <- <- <-]).
  - intros [= -> -> -> -> -> ->]. eexists. by split; [apply enum_try_fromm_Ok|].
Qed.
Lemma wire_timestamp_token_fromm w : wire_timestamp_token (TimeStampToken_fromm w) = w.
Proof. by destruct w. Qed.
Lemma TimeStampToken_fromm_wire v : TimeStampToken_fromm (wire_timestamp_token v) = v.
Proof. by destruct v as [? [] ?]. Qed.

(** Both sides agree on the type of a tag. *)
Theorem hal_tag_type_sync t : hal_tag_type (Aidl.tag_number t) = Aidl.tag_type_number (tag_type t).
Proof.
  unfold hal_tag_type, tag_type, tag_u32. rewrite Aidl.tag_number_sync, !Aidl.tag_type_number_sync.
  cbn -[as_signed as_unsigned]. repeat case_decide; try done; by rewrite Aidl.tag_type_number_sync.
Qed.
End laws.
End convert.

(** A concrete interface: the numbers are those of the wire types. *)
Module SampleAidl.
#[export] Instance constants : Aidl.Constants := {|
  Aidl.tag_number := discr; Aidl.error_number := discr; Aidl.tag_type_number := discr |}.
#[export] Instance constants_laws : Aidl.ConstantsLaws.
Proof. by split. Qed.

(** An unknown tag is dropped from a list. *)
Definition hal_params : list Aidl.KeyParameter :=
  [Aidl.mk_param (discr Tag_Purpose) (V_KeyPurpose 2); Aidl.mk_param 7 (V_Integer 5);
   Aidl.mk_param (discr Tag_UserSecureId) (V_LongInteger (-1))].

Lemma hal_params_exact_witness :
  key_params_try_innto hal_params = Ok [KP_Purpose KeyPurpose_Sign; KP_UserSecureId (2 ^ 64 - 1)].
Proof.
  apply hal_params_exact; [|split; [by vm_compute|by repeat constructor]].
  repeat constructor; vm_compute; discriminate.
Defined.
End SampleAidl.
