(* ===== verification/HalEnv.v ===== *)
(** * Information about userspace ([hal/src/env.rs])

    The HAL service reads the version and the patchlevels of the system from properties and
    sends them to the trusted application.  The regular expression engine and the property
    store are parameters; property values are their UTF-8 bytes.  The extraction of
    patchlevels is shown to accept the dates written as YYYY-MM-DD and nothing else. *)

From S2P Require Import Prelude Wire Codec WireCodec.

(** ** Decimal numbers *)

Definition is_digit (b : u8) : bool := bool_decide (48 ≤ u8_val b ≤ 57).
(** [str::parse::<u32>]: an optional sign, then at least one digit, without overflow. *)
Fixpoint parse_digits (acc : Z) (s : bytes) : option Z :=
  match s with
  | [] => Some acc
  | b :: s' =>
    if is_digit b then
      let acc' := acc * 10 + (u8_val b - 48) in
      if decide (is_u32 acc') then parse_digits acc' s' else None
    else None
  end.
Definition parse_u32 (s : bytes) : option Z :=
  match s with
  | [] => None
  | b :: s' => if decide (b = u8_of 43) then match s' with [] => None | _ => parse_digits 0 s' end
               else parse_digits 0 s
  end.

(** [n] decimal digits of [v]. *)
Fixpoint decimal (n : nat) (v : Z) : bytes :=
  match n with O => [] | S n' => decimal n' (v / 10) ++ [u8_of (48 + v mod 10)] end.

(** ** Extraction *)

(** Failures carry messages, which are not modelled. *)
Definition EnvError := unit.
Definition OS_VERSION_PROPERTY : string := "ro.build.version.release".
Definition OS_VERSION_REGEX : string := "^(?P<major>\d{1,2})(\.(?P<minor>\d{1,2}))?(\.(?P<sub>\d{1,2}))?$".
Definition OS_PATCHLEVEL_PROPERTY : string := "ro.build.version.security_patch".
Definition VENDOR_PATCHLEVEL_PROPERTY : string := "ro.vendor.build.security_patch".
Definition PATCHLEVEL_REGEX : string := "^(?P<year>\d{4})-(?P<month>\d{2})-(?P<day>\d{2})$".

(** The [regex] crate: compilation of a pattern may fail; a match gives its named groups. *)
Class Regex := { captures : string → bytes → option (option (string → option bytes)) }.
Class SystemProperties := { read_property : string → option (option bytes) }.

Section env.
Context `{T : Target} `{RE : Regex} `{SP : SystemProperties}.

Definition extract_u32 (value : option bytes) : res EnvError Z :=
  match value with
  | Some s => ok_or (parse_u32 s) tt
  | None => Err tt
  end.
Definition get_property (name : string) : res EnvError bytes :=
  match read_property name with
  | Some (Some value) => Ok value
  | _ => Err tt
  end.
(** [Regex::new(re)?.captures(text).ok_or(..)?]. *)
Definition match_regex (re : string) (text : bytes) : res EnvError (string → option bytes) :=
  c ← ok_or (captures re text) tt;
  ok_or c tt.

Definition extract_truncated_patchlevel (prop_value : bytes) : res EnvError Z :=
  captures ← match_regex PATCHLEVEL_REGEX prop_value;
  year ← extract_u32 (captures "year");
  month ← extract_u32 (captures "month");
  _ ← reject_if (negb (bool_decide (1 ≤ month ≤ 12))) tt;
  y ← ovf_unsigned 32 (year * 100);
  ovf_unsigned 32 (y + month).
Definition extract_patchlevel (prop_value : bytes) : res EnvError Z :=
  captures ← match_regex PATCHLEVEL_REGEX prop_value;
  year ← extract_u32 (captures "year");
  month ← extract_u32 (captures "month");
  _ ← reject_if (negb (bool_decide (1 ≤ month ≤ 12))) tt;
  day ← extract_u32 (captures "day");
  _ ← reject_if (negb (bool_decide (1 ≤ day ≤ 31))) tt;
  y ← ovf_unsigned 32 (year * 10000);
  m ← ovf_unsigned 32 (month * 100);
  ym ← ovf_unsigned 32 (y + m);
  ovf_unsigned 32 (ym + day).
Definition unwrap_or {A} (r : res EnvError A) (d : A) : A := match r with Ok a => a | _ => d end.
Definition populate_hal_info_from (os_version_prop os_patchlevel_prop vendor_patchlevel_prop : bytes)
    : res EnvError SetHalInfoRequest :=
  captures ← match_regex OS_VERSION_REGEX os_version_prop;
  major ← extract_u32 (captures "major");
  let minor := unwrap_or (extract_u32 (captures "minor")) 0 in
  let sub := unwrap_or (extract_u32 (captures "sub")) 0 in
  a ← ovf_unsigned 32 (major * 10000);
  b ← ovf_unsigned 32 (minor * 100);
  ab ← ovf_unsigned 32 (a + b);
  os_version ← ovf_unsigned 32 (ab + sub);
  os_patchlevel ← extract_truncated_patchlevel os_patchlevel_prop;
  vendor_patchlevel ← extract_patchlevel vendor_patchlevel_prop;
  Ok {| SetHalInfoRequest_os_version := os_version; SetHalInfoRequest_os_patchlevel := os_patchlevel;
        SetHalInfoRequest_vendor_patchlevel := vendor_patchlevel |}.
Definition populate_hal_info : res EnvError SetHalInfoRequest :=
  os_version_prop ← get_property OS_VERSION_PROPERTY;
  os_patchlevel_prop ← get_property OS_PATCHLEVEL_PROPERTY;
  vendor_patchlevel_prop ← get_property VENDOR_PATCHLEVEL_PROPERTY;
  populate_hal_info_from os_version_prop os_patchlevel_prop vendor_patchlevel_prop.
End env.

(** ** Decimal numbers and their digits *)

Definition digits (n : nat) (s : bytes) : Prop := length s = n ∧ Forall (λ b, is_digit b = true) s.
Definition ascii_only (s : bytes) : Prop := Forall (λ b, u8_val b < 128) s.

Lemma decimal_digits n v : digits n (decimal n v).
Proof.
  revert v. induction n as [|n IH]; intros v; [by split|]. destruct (IH (v / 10)) as [Hl Hf]. cbn. split.
  - rewrite length_app, Hl. cbn. lia.
  - apply Forall_app. split; [done|]. constructor; [|done]. unfold is_digit. apply bool_decide_eq_true.
    pose proof (Z.mod_pos_bound v 10). rewrite u8_val_of; lia.
Qed.

Lemma parse_digits_decimal n v acc rest :
  0 ≤ v < 10 ^ Z.of_nat n → 0 ≤ acc → is_u32 (acc * 10 ^ Z.of_nat n + v) →
  parse_digits acc (decimal n v ++ rest) = parse_digits (acc * 10 ^ Z.of_nat n + v) rest.
Proof.
  revert v rest. induction n as [|n IH]; intros v rest Hv Ha Hr.
  { cbn in *. f_equal. lia. }
  rewrite Nat2Z.inj_succ, Z.pow_succ_r in * by lia. cbn [decimal]. rewrite <- app_assoc.
  pose proof (Z.mod_pos_bound v 10). pose proof (Z.div_mod v 10). unfold is_unsigned in *.
  rewrite IH; [|split; [apply Z.div_pos; lia|apply Z.div_lt_upper_bound; lia]|lia|nia].
  cbn [parse_digits app]. rewrite (u8_val_of (48 + v mod 10)) by lia.
  replace (is_digit (u8_of (48 + v mod 10))) with true
    by (symmetry; unfold is_digit; apply bool_decide_eq_true; rewrite u8_val_of; lia).
  replace ((acc * 10 ^ Z.of_nat n + v / 10) * 10 + (48 + v mod 10 - 48))
    with (acc * (10 * 10 ^ Z.of_nat n) + v) by lia.
  by rewrite decide_True.
Qed.

Lemma digits_decimal n s : digits n s → ∃ v, 0 ≤ v < 10 ^ Z.of_nat n ∧ s = decimal n v.
Proof.
  revert s. induction n as [|n IH]; intros s [Hl Hf].
  { destruct s; [|done]. exists 0. cbn. split; [lia|done]. }
  destruct s as [|b s' _] using rev_ind; [done|]. rewrite length_app in Hl. cbn in Hl.
  apply Forall_app in Hf as [Hf [Hb _]%Forall_cons].
  destruct (IH s') as (v & Hv & ->); [split; [lia|done]|]. unfold is_digit in Hb. apply bool_decide_eq_true in Hb.
  exists (v * 10 + (u8_val b - 48)). rewrite Nat2Z.inj_succ, Z.pow_succ_r by lia. split; [lia|]. cbn [decimal].
  rewrite Z.div_add_l, (Z.div_small (u8_val b - 48)), Z.add_0_r by lia.
  rewrite (Z.add_comm (v * 10)), Z.mod_add, Z.mod_small by lia. do 2 f_equal.
  replace (48 + (u8_val b - 48)) with (u8_val b) by lia. by rewrite u8_of_val.
Qed.

Lemma parse_digits_ascii acc s v : parse_digits acc s = Some v → ascii_only s.
Proof.
  revert acc. induction s as [|b s IH]; intros acc; [by constructor|]. cbn. destruct (is_digit b) eqn:Hb; [|done].
  case_decide; [|done]. intros Hs. constructor; [|by eapply IH]. unfold is_digit in Hb.
  apply bool_decide_eq_true in Hb. lia.
Qed.
Lemma parse_u32_ascii s v : parse_u32 s = Some v → ascii_only s.
Proof.
  destruct s as [|b s]; [done|]. unfold parse_u32. case_decide as Hb.
  - subst b. destruct s as [|b s]; [done|]. intros Hs%parse_digits_ascii. by constructor.
  - apply parse_digits_ascii.
Qed.
Lemma parse_u32_decimal n v :
  (0 < n)%nat → 0 ≤ v < 10 ^ Z.of_nat n → is_u32 v → parse_u32 (decimal n v) = Some v.
Proof.
  intros Hn Hv Hr. destruct (decimal_digits n v) as [Hl Hf].
  pose proof (parse_digits_decimal n v 0 [] Hv) as Hp. rewrite app_nil_r in Hp. cbn in Hp.
  destruct (decimal n v) as [|b s] eqn:Hd; [cbn in *; lia|]. unfold parse_u32.
  rewrite decide_False; [apply Hp; [lia|done]|]. intros ->. by apply Forall_cons in Hf as [? _].
Qed.

(** ** The patterns *)

(** [\d{n}] also matches digits that are not ASCII. *)
Definition unicode_digits (n : nat) (s : bytes) : Prop := ascii_only s → digits n s.
Definition dash : bytes := [u8_of 45].
Definition dot : bytes := [u8_of 46].
Definition dotted (o : option bytes) : bytes := match o with Some s => dot ++ s | None => [] end.
(** One or two digits. *)
Definition upto2 (P : nat → bytes → Prop) (s : bytes) : Prop := P 1%nat s ∨ P 2%nat s.

Class RegexLaws `{Regex} : Prop := {
  patchlevel_sound text c :
    captures PATCHLEVEL_REGEX text = Some (Some c) →
    ∃ y m d, text = y ++ dash ++ m ++ dash ++ d ∧
      c "year"%string = Some y ∧ c "month"%string = Some m ∧ c "day"%string = Some d ∧
      unicode_digits 4 y ∧ unicode_digits 2 m ∧ unicode_digits 2 d;
  patchlevel_complete y m d :
    digits 4 y → digits 2 m → digits 2 d →
    ∃ c, captures PATCHLEVEL_REGEX (y ++ dash ++ m ++ dash ++ d) = Some (Some c) ∧
      c "year"%string = Some y ∧ c "month"%string = Some m ∧ c "day"%string = Some d;
  version_sound text c :
    captures OS_VERSION_REGEX text = Some (Some c) →
    ∃ major, text = major ++ dotted (c "minor"%string) ++ dotted (c "sub"%string) ∧
      c "major"%string = Some major ∧ upto2 unicode_digits major ∧
      from_option (upto2 unicode_digits) True (c "minor"%string) ∧
      from_option (upto2 unicode_digits) True (c "sub"%string);
  version_complete major minor sub :
    upto2 digits major → from_option (upto2 digits) True minor → from_option (upto2 digits) True sub →
    (sub = None ∨ minor ≠ None) →
    ∃ c, captures OS_VERSION_REGEX (major ++ dotted minor ++ dotted sub) = Some (Some c) ∧
      c "major"%string = Some major ∧ c "minor"%string = minor ∧ c "sub"%string = sub
}.

Section laws.
Context `{T : Target} `{RE : Regex} `{RL : !RegexLaws}.

Lemma extract_u32_Ok n s v :
  unicode_digits n s → (0 < n <= 4)%nat → extract_u32 (Some s) = Ok v →
  0 ≤ v < 10 ^ Z.of_nat n ∧ s = decimal n v.
Proof.
  intros Hs Hn Hp%ok_or_Ok. destruct (digits_decimal n s) as (v' & Hv' & ->); [by eapply Hs, parse_u32_ascii|].
  assert (10 ^ Z.of_nat n ≤ 10 ^ 4) by (apply Z.pow_le_mono_r; lia).
  rewrite parse_u32_decimal in Hp by (lia || (unfold is_unsigned; lia)). by injection Hp as <-.
Qed.
Lemma extract_u32_decimal n v :
  (0 < n <= 4)%nat → 0 ≤ v < 10 ^ Z.of_nat n → extract_u32 (Some (decimal n v)) = Ok v.
Proof.
  intros Hn Hv. assert (10 ^ Z.of_nat n ≤ 10 ^ 4) by (apply Z.pow_le_mono_r; lia).
  unfold extract_u32. rewrite parse_u32_decimal; [done|lia|lia|unfold is_unsigned; lia].
Qed.

(** A date written as YYYY-MM-DD. *)
Definition date_text (y m d : Z) : bytes := decimal 4 y ++ dash ++ decimal 2 m ++ dash ++ decimal 2 d.

(** The number that stands for a date, with the day or without. *)
Definition date_number (y m d : Z) : Z := y * 10000 + m * 100 + d.
Definition month_number (y m : Z) : Z := y * 100 + m.

Lemma match_patchlevel text c :
  match_regex PATCHLEVEL_REGEX text = Ok c → captures PATCHLEVEL_REGEX text = Some (Some c).
Proof. unfold match_regex. by intros (o & ->%ok_or_Ok & ->%ok_or_Ok)%res_bind_Ok. Qed.
Lemma match_date y m d :
  ∃ c, match_regex PATCHLEVEL_REGEX (date_text y m d) = Ok c ∧ c "year"%string = Some (decimal 4 y) ∧
       c "month"%string = Some (decimal 2 m) ∧ c "day"%string = Some (decimal 2 d).
Proof.
  destruct (patchlevel_complete (decimal 4 y) (decimal 2 m) (decimal 2 d)) as (c & Hc & Hyd);
    [apply decimal_digits..|]. exists c. split; [|done]. unfold match_regex, date_text. by rewrite Hc.
Qed.

Lemma extract_patchlevel_date y m d :
  0 ≤ y < 10000 → 0 ≤ m < 100 → 0 ≤ d < 100 →
  extract_patchlevel (date_text y m d) =
    if bool_decide (1 ≤ m ≤ 12 ∧ 1 ≤ d ≤ 31) then Ok (date_number y m d) else Err tt.
Proof.
  intros Hy Hm Hd. destruct (match_date y m d) as (c & Hc & Hcy & Hcm & Hcd). unfold extract_patchlevel.
  rewrite Hc. cbn [mbind res_bind]. rewrite Hcy, Hcm, Hcd, !extract_u32_decimal by (cbn; lia). cbn [mbind res_bind].
  repeat case_bool_decide; cbn [reject_if negb mbind res_bind]; try (done || lia);
    repeat (rewrite ovf_unsigned_ok by (unfold is_unsigned; lia); cbn [mbind res_bind]); (done || lia).
Qed.
Lemma extract_truncated_date y m d :
  0 ≤ y < 10000 → 0 ≤ m < 100 →
  extract_truncated_patchlevel (date_text y m d) =
    if bool_decide (1 ≤ m ≤ 12) then Ok (month_number y m) else Err tt.
Proof.
  intros Hy Hm. destruct (match_date y m d) as (c & Hc & Hcy & Hcm & Hcd). unfold extract_truncated_patchlevel.
  rewrite Hc. cbn [mbind res_bind]. rewrite Hcy, Hcm, !extract_u32_decimal by (cbn; lia). cbn [mbind res_bind].
  repeat case_bool_decide; cbn [reject_if negb mbind res_bind]; try (done || lia);
    repeat (rewrite ovf_unsigned_ok by (unfold is_unsigned; lia); cbn [mbind res_bind]); (done || lia).
Qed.

Lemma patchlevel_text text c :
  match_regex PATCHLEVEL_REGEX text = Ok c →
  ∃ y m d, text = y ++ dash ++ m ++ dash ++ d ∧
    c "year"%string = Some y ∧ c "month"%string = Some m ∧ c "day"%string = Some d ∧
    unicode_digits 4 y ∧ unicode_digits 2 m ∧ unicode_digits 2 d.
Proof. intros Hc%match_patchlevel. by apply patchlevel_sound. Qed.

Lemma extract_patchlevel_Ok text v :
  extract_patchlevel text = Ok v ↔
  ∃ y m d, 0 ≤ y < 10000 ∧ 1 ≤ m ≤ 12 ∧ 1 ≤ d ≤ 31 ∧ text = date_text y m d ∧ v = date_number y m d.
Proof.
  split.
  - intros Hv. pose proof Hv as Hv'. unfold extract_patchlevel in Hv'.
    apply res_bind_Ok in Hv' as (c & Hc & Hv'). apply patchlevel_text in Hc as (y & m & d & -> & Hy & Hm & Hd & Uy & Um & Ud).
    rewrite Hy, Hm, Hd in Hv'. apply res_bind_Ok in Hv' as (yv & [Ry ->]%(extract_u32_Ok 4) & Hv'); [|done|lia].
    apply res_bind_Ok in Hv' as (mv & [Rm ->]%(extract_u32_Ok 2) & Hv'); [|done|lia].
    apply res_bind_Ok in Hv' as (_ & _ & Hv').
    apply res_bind_Ok in Hv' as (dv & [Rd ->]%(extract_u32_Ok 2) & _); [|done|lia]. cbn in Ry, Rm, Rd.
    fold (date_text yv mv dv) in *. rewrite extract_patchlevel_date in Hv by lia.
    case_bool_decide; [|done]. injection Hv as <-. exists yv, mv, dv. naive_solver.
  - intros (y & m & d & Hy & Hm & Hd & -> & ->). rewrite extract_patchlevel_date by lia.
    by rewrite bool_decide_eq_true_2.
Qed.

Lemma extract_truncated_Ok text v :
  extract_truncated_patchlevel text = Ok v →
  ∃ y m day, 0 ≤ y < 10000 ∧ 1 ≤ m ≤ 12 ∧ text = decimal 4 y ++ dash ++ decimal 2 m ++ dash ++ day ∧
             v = month_number y m.
Proof.
  unfold extract_truncated_patchlevel. intros (c & Hc & Hv)%res_bind_Ok.
  apply patchlevel_text in Hc as (y & m & d & -> & Hy & Hm & Hd & Uy & Um & Ud). rewrite Hy, Hm in Hv.
  apply res_bind_Ok in Hv as (yv & [Ry ->]%(extract_u32_Ok 4) & Hv); [|done|lia].
  apply res_bind_Ok in Hv as (mv & [Rm ->]%(extract_u32_Ok 2) & Hv); [|done|lia]. cbn in Ry, Rm.
  apply res_bind_Ok in Hv as (_ & Hr%reject_if_Ok & Hv). case_bool_decide; [|done].
  rewrite ovf_unsigned_ok in Hv by (unfold is_unsigned; lia). cbn in Hv.
  rewrite ovf_unsigned_ok in Hv by (unfold is_unsigned; lia). injection Hv as <-. exists yv, mv, d. naive_solver.
Qed.

(** A number of at most two digits, possibly missing. *)
Lemma extract_u32_small s v : upto2 unicode_digits s → extract_u32 (Some s) = Ok v → 0 ≤ v < 100.
Proof. intros [H|H] [? _]%(extract_u32_Ok _ _ _ H); cbn in *; lia. Qed.
Lemma extract_u32_or_zero o :
  from_option (upto2 unicode_digits) True o → 0 ≤ unwrap_or (extract_u32 o) 0 < 100.
Proof.
  destruct o as [s|]; cbn -[extract_u32]; [|done]. intros Hs. destruct (extract_u32 (Some s)) eqn:He; cbn; [|lia..].
  by eapply extract_u32_small.
Qed.
Lemma extract_u32_no_panic o : extract_u32 o ≠ Panic.
Proof. destruct o as [s|]; cbn; [|done]. by destruct (parse_u32 s). Qed.
Lemma match_regex_no_panic re text : match_regex re text ≠ Panic.
Proof. unfold match_regex. destruct (captures re text) as [[]|]; done. Qed.

Definition version_number (major minor sub : Z) : Z := major * 10000 + minor * 100 + sub.
Lemma version_no_overflow {A} (f : Z → res EnvError A) major minor sub :
  0 ≤ major < 100 → 0 ≤ minor < 100 → 0 ≤ sub < 100 →
  (a ← ovf_unsigned 32 (major * 10000); b ← ovf_unsigned 32 (minor * 100);
   ab ← ovf_unsigned 32 (a + b); os_version ← ovf_unsigned 32 (ab + sub); f os_version) =
  f (version_number major minor sub).
Proof. intros. by repeat (rewrite ovf_unsigned_ok by (unfold is_unsigned; lia); cbn [mbind res_bind]). Qed.

Lemma extract_truncated_no_panic text : extract_truncated_patchlevel text ≠ Panic.
Proof.
  unfold extract_truncated_patchlevel. destruct (match_regex _ _) as [c| |] eqn:Hc;
    [|done|by destruct (match_regex_no_panic PATCHLEVEL_REGEX text)].
  apply patchlevel_text in Hc as (y & m & d & _ & Hy & Hm & _ & Uy & Um & _). cbn [mbind res_bind]. rewrite Hy, Hm.
  destruct (extract_u32 (Some y)) as [yv| |] eqn:Ey; [|done|by destruct (extract_u32_no_panic (Some y))].
  cbn [mbind res_bind]. destruct (extract_u32 (Some m)) as [mv| |] eqn:Em; [|done|by destruct (extract_u32_no_panic (Some m))].
  apply (extract_u32_Ok 4) in Ey as [Ry _]; [|done|lia]. apply (extract_u32_Ok 2) in Em as [Rm _]; [|done|lia].
  cbn in *. case_bool_decide; cbn; [|done]. by repeat (rewrite ovf_unsigned_ok by (unfold is_unsigned; lia); cbn).
Qed.
Lemma extract_patchlevel_no_panic text : extract_patchlevel text ≠ Panic.
Proof.
  unfold extract_patchlevel. destruct (match_regex _ _) as [c| |] eqn:Hc;
    [|done|by destruct (match_regex_no_panic PATCHLEVEL_REGEX text)].
  apply patchlevel_text in Hc as (y & m & d & _ & Hy & Hm & Hd & Uy & Um & Ud). cbn [mbind res_bind]. rewrite Hy, Hm, Hd.
  destruct (extract_u32 (Some y)) as [yv| |] eqn:Ey; [|done|by destruct (extract_u32_no_panic (Some y))].
  cbn [mbind res_bind]. destruct (extract_u32 (Some m)) as [mv| |] eqn:Em; [|done|by destruct (extract_u32_no_panic (Some m))].
  cbn [mbind res_bind]. destruct (extract_u32 (Some d)) as [dv| |] eqn:Ed; [| |by destruct (extract_u32_no_panic (Some d))];
    case_bool_decide; cbn [reject_if negb mbind res_bind]; try done.
  apply (extract_u32_Ok 4) in Ey as [Ry _]; [|done|lia]. apply (extract_u32_Ok 2) in Em as [Rm _]; [|done|lia].
  apply (extract_u32_Ok 2) in Ed as [Rd _]; [|done|lia]. cbn in Ry, Rm, Rd. case_bool_decide; cbn [reject_if negb mbind res_bind]; [|done].
  by repeat (rewrite ovf_unsigned_ok by (unfold is_unsigned; lia); cbn [mbind res_bind]).
Qed.

(** What the service tells the trusted application about the system is read off the
    properties without a panic or an overflow, whatever their values: the version is made of
    at most three numbers below 100, and the patchlevels are dates. A vendor patchlevel is accepted
    exactly when it is a date written as YYYY-MM-DD with a month and a day in range; the day of the
    system patchlevel is not looked at. *)
Theorem hal_info_dates os_version_prop os_patchlevel_prop vendor_patchlevel_prop :
  populate_hal_info_from os_version_prop os_patchlevel_prop vendor_patchlevel_prop ≠ Panic ∧
  (∀ info, populate_hal_info_from os_version_prop os_patchlevel_prop vendor_patchlevel_prop = Ok info →
   (∃ major minor sub, 0 ≤ major < 100 ∧ 0 ≤ minor < 100 ∧ 0 ≤ sub < 100 ∧
      SetHalInfoRequest_os_version info = version_number major minor sub) ∧
   (∃ y m day, 0 ≤ y < 10000 ∧ 1 ≤ m ≤ 12 ∧
      os_patchlevel_prop = decimal 4 y ++ dash ++ decimal 2 m ++ dash ++ day ∧
      SetHalInfoRequest_os_patchlevel info = month_number y m) ∧
   extract_patchlevel vendor_patchlevel_prop = Ok (SetHalInfoRequest_vendor_patchlevel info)) ∧
  (∀ v, extract_patchlevel vendor_patchlevel_prop = Ok v ↔
   ∃ y m d, 0 ≤ y < 10000 ∧ 1 ≤ m ≤ 12 ∧ 1 ≤ d ≤ 31 ∧
     vendor_patchlevel_prop = date_text y m d ∧ v = date_number y m d).
Proof.
  split; [|split; [|apply extract_patchlevel_Ok]]; unfold populate_hal_info_from;
    (destruct (match_regex OS_VERSION_REGEX os_version_prop) as [c| |] eqn:Hc; cbn [mbind res_bind];
     [|done|by destruct (match_regex_no_panic OS_VERSION_REGEX os_version_prop)]);
    unfold match_regex in Hc; apply res_bind_Ok in Hc as (o & Hc%ok_or_Ok & ->%ok_or_Ok);
    apply version_sound in Hc as (major & _ & -> & Umaj & Umin%extract_u32_or_zero & Usub%extract_u32_or_zero);
    (destruct (extract_u32 (Some major)) as [maj| |] eqn:Hmaj; cbn [mbind res_bind];
     [|done|by destruct (extract_u32_no_panic (Some major))]);
    apply extract_u32_small in Hmaj; [|done| |done]; rewrite version_no_overflow by done.
  - pose proof (extract_truncated_no_panic os_patchlevel_prop). pose proof (extract_patchlevel_no_panic vendor_patchlevel_prop).
    by destruct (extract_truncated_patchlevel _), (extract_patchlevel _).
  - intros info (p & Hp%extract_truncated_Ok & Hi)%res_bind_Ok. apply res_bind_Ok in Hi as (v & Hv & [= <-]).
    split_and!; [|done..]. do 3 eexists. split_and!; [..|reflexivity]; lia.
Qed.

(** Versions of one to three numbers and a pair of dates are accepted. *)
Theorem hal_info_accepted n1 n2 n3 major minor sub y1 m1 d1 y2 m2 d2 :
  (n1 = 1 ∨ n1 = 2)%nat → (n2 = 1 ∨ n2 = 2)%nat → (n3 = 1 ∨ n3 = 2)%nat →
  0 ≤ major < 10 ^ Z.of_nat n1 → 0 ≤ minor < 10 ^ Z.of_nat n2 → 0 ≤ sub < 10 ^ Z.of_nat n3 →
  0 ≤ y1 < 10000 → 1 ≤ m1 ≤ 12 → 0 ≤ y2 < 10000 → 1 ≤ m2 ≤ 12 → 1 ≤ d2 ≤ 31 →
  populate_hal_info_from (decimal n1 major ++ dotted (Some (decimal n2 minor)) ++ dotted (Some (decimal n3 sub)))
    (date_text y1 m1 d1) (date_text y2 m2 d2) =
  Ok {| SetHalInfoRequest_os_version := version_number major minor sub;
        SetHalInfoRequest_os_patchlevel := month_number y1 m1;
        SetHalInfoRequest_vendor_patchlevel := date_number y2 m2 d2 |}.
Proof.
  intros H1 H2 H3 Rmaj Rmin Rsub Hy1 Hm1 Hy2 Hm2 Hd2.
  assert (∀ n v, (n = 1 ∨ n = 2)%nat → upto2 digits (decimal n v)) as Hdig.
  { intros n v [-> | ->]; [left|right]; apply decimal_digits. }
  destruct (version_complete (decimal n1 major) (Some (decimal n2 minor)) (Some (decimal n3 sub)))
    as (c & Hc & Cmaj & Cmin & Csub); [by apply Hdig..|by right|].
  unfold populate_hal_info_from, match_regex. rewrite Hc. cbn [ok_or mbind res_bind]. rewrite Cmaj, Cmin, Csub.
  rewrite !extract_u32_decimal by (lia || done). cbn [mbind res_bind unwrap_or].
  rewrite version_no_overflow by (destruct H1 as [-> | ->], H2 as [-> | ->], H3 as [-> | ->]; cbn in *; lia).
  rewrite extract_truncated_date, extract_patchlevel_date by lia. by rewrite !bool_decide_eq_true_2.
Qed.
End laws.

(** ** A concrete engine for the two patterns *)
Module SampleRegex.
#[local] Instance digits_dec n s : Decision (digits n s).
Proof. unfold digits. apply _. Defined.
#[local] Instance upto2_dec s : Decision (upto2 digits s).
Proof. unfold upto2. apply _. Defined.

Fixpoint split_dots (s : bytes) : list bytes :=
  match s with
  | [] => [[]]
  | b :: s' => if decide (b = u8_of 46) then [] :: split_dots s'
               else match split_dots s' with p :: ps => (b :: p) :: ps | [] => [[b]] end
  end.
Lemma split_dots_digits s rest : Forall (λ b, is_digit b = true) s →
  split_dots (s ++ rest) = match split_dots rest with p :: ps => (s ++ p) :: ps | [] => [s] end.
Proof.
  induction 1 as [|b s Hb _ IH]; cbn [app split_dots].
  - by destruct (split_dots rest) eqn:E; [destruct rest; cbn in E; [|case_decide; [|destruct (split_dots rest)]]|].
  - rewrite decide_False by (intros ->; discriminate Hb). rewrite IH. by destruct (split_dots rest).
Qed.
Lemma split_dots_last s : Forall (λ b, is_digit b = true) s → split_dots s = [s].
Proof. intros Hs. rewrite <- (app_nil_r s) at 1. rewrite split_dots_digits by done. cbn. by rewrite app_nil_r. Qed.
Lemma split_dots_dot s rest : Forall (λ b, is_digit b = true) s → split_dots (s ++ dot ++ rest) = s :: split_dots rest.
Proof. intros Hs. rewrite split_dots_digits by done. cbn. by rewrite decide_True, app_nil_r. Qed.
Lemma split_dots_join s : s = match split_dots s with p :: ps => p ++ concat ((dot ++.) <$> ps) | [] => [] end.
Proof.
  induction s as [|b s IH]; [done|]. cbn. destruct (split_dots s) as [|p ps] eqn:E; [by subst s|].
  case_decide as Hb; cbn; by rewrite IH at 1; subst.
Qed.

Definition version_caps (major : bytes) (minor sub : option bytes) : string → option bytes := λ name,
  if decide (name = "major"%string) then Some major
  else if decide (name = "minor"%string) then minor
  else if decide (name = "sub"%string) then sub else None.
Definition match_version (text : bytes) : option (string → option bytes) :=
  match split_dots text with
  | [a] => if decide (upto2 digits a) then Some (version_caps a None None) else None
  | [a; b] => if decide (upto2 digits a ∧ upto2 digits b) then Some (version_caps a (Some b) None) else None
  | [a; b; c] => if decide (upto2 digits a ∧ upto2 digits b ∧ upto2 digits c)
                 then Some (version_caps a (Some b) (Some c)) else None
  | _ => None
  end.
Definition match_patchlevel_text (text : bytes) : option (string → option bytes) :=
  let y := take 4 text in let m := take 2 (drop 5 text) in let d := drop 8 text in
  if decide (text = y ++ dash ++ m ++ dash ++ d ∧ digits 4 y ∧ digits 2 m ∧ digits 2 d)
  then Some (λ name, if decide (name = "year"%string) then Some y
                     else if decide (name = "month"%string) then Some m
                     else if decide (name = "day"%string) then Some d else None)
  else None.
#[export] Instance regex : Regex := {|
  captures re text :=
    if decide (re = PATCHLEVEL_REGEX) then Some (match_patchlevel_text text)
    else if decide (re = OS_VERSION_REGEX) then Some (match_version text) else None |}.

Lemma upto2_digits_all s : upto2 digits s → Forall (λ b, is_digit b = true) s.
Proof. by intros [[_ H]|[_ H]]. Qed.
Lemma upto2_digits_unicode s : upto2 digits s → upto2 unicode_digits s.
Proof. intros [H|H]; [left|right]; by intros _. Qed.

#[export] Instance regex_laws : RegexLaws.
Proof.
  split.
  - intros text c. cbn. intros [= H]. unfold match_patchlevel_text in H. case_decide as Hd; [|done].
    injection H as <-. destruct Hd as (Ht & Hy & Hm & Hd). do 3 eexists.
    split_and!; [exact Ht|done|done|done|by intros _..].
  - intros y m d [Hy Hy'] [Hm Hm'] [Hd Hd']. cbn. unfold match_patchlevel_text.
    destruct y as [|y1 [|y2 [|y3 [|y4 [|]]]]]; try done. destruct m as [|m1 [|m2 [|]]]; try done. cbn.
    rewrite !drop_0, !decide_True by (repeat split; done). eexists. split_and!; reflexivity.
  - intros text c. cbn. intros [= H]. unfold match_version in H. pose proof (split_dots_join text) as Hj.
    destruct (split_dots text) as [|p1 [|p2 [|p3 [|]]]]; try done; case_decide as Hd; try done; injection H as <-;
      exists p1; cbn in Hj; rewrite ?app_nil_r in Hj; destruct_and?;
      (split_and!; [rewrite Hj; cbn; by rewrite ?app_nil_r|reflexivity|..]); cbn; try done; by apply upto2_digits_unicode.
  - intros major minor sub Hmaj Hmin Hsub Hs. exists (version_caps major minor sub).
    split; [|by split_and!]. change (Some (match_version (major ++ dotted minor ++ dotted sub)) =
      Some (Some (version_caps major minor sub))). f_equal. unfold match_version.
    pose proof (upto2_digits_all _ Hmaj).
    destruct minor as [mi|], sub as [su|]; cbn [from_option dotted] in *; try (by destruct Hs);
      rewrite ?app_nil_r, <- ?app_assoc.
    + rewrite !split_dots_dot, split_dots_last by eauto using upto2_digits_all. by rewrite decide_True.
    + rewrite !split_dots_dot, split_dots_last by eauto using upto2_digits_all. by rewrite decide_True.
    + rewrite split_dots_last by done. by rewrite decide_True.
Qed.

#[local] Instance target : Target := {| big_endian := false; overflow_checks := true |}.
Lemma hal_info_accepted_witness :
  populate_hal_info_from (bytes_of_string "12.5.7") (bytes_of_string "2021-02-02") (bytes_of_string "2022-03-04") =
  Ok {| SetHalInfoRequest_os_version := 120507; SetHalInfoRequest_os_patchlevel := 202102;
        SetHalInfoRequest_vendor_patchlevel := 20220304 |}.
Proof. apply (hal_info_accepted 2 1 1 12 5 7 2021 2 2 2022 3 4); cbn; lia. Defined.
Lemma hal_info_dates_witness : extract_patchlevel (bytes_of_string "2022-03-04") = Ok 20220304.
Proof.
  apply (proj2 (proj2 (hal_info_dates [] [] (bytes_of_string "2022-03-04")))). exists 2022, 3, 4.
  split_and!; [lia..|reflexivity|reflexivity].
Defined.
End SampleRegex.
