(* ===== verification/Hal.v ===== *)
(** * The HAL service ([hal/src/lib.rs], [keymint.rs], [rpc.rs], [secureclock.rs], [sharedsecret.rs])

    The service turns each method of its binder interfaces into a request to the trusted
    application, sent over a channel as bytes, and the response into the method's results.
    A channel is a parameter, with the framing of stream-oriented channels modelled; a binder
    object that stands for an operation in progress keeps the operation's handle and splits
    large inputs over several requests.  Calls are atomic: the service holds the lock of the
    channel while a request is answered.  Requests made without results of their own are
    the same as the generated request and response messages; what becomes of a request that
    reaches the trusted application is in [HalSpec]. *)

From S2P Require Import Prelude Wire Codec CborRef WireCodec HalTypes HalEnv.

Abbreviation HAL T := (stM T Status).

(** ** Framing of byte streams *)

(** Streams of the standard library; an error is that of the transport. *)
Class Write (W : Type) := { write_all : bytes → stM W unit unit }.
Class Read (R : Type) := { read_exact : nat → stM R unit bytes }.

(** [m.map_err(|_| e)]. *)
Definition stream_err {S A} (m : stM S unit A) (e : Status) : HAL S A := λ s,
  let '(r, s') := m s in (map_err (λ _, e) r, s').

Section framing.
Context {W R : Type} `{Write W} `{Read R}.

Definition write_msg (data : bytes) : HAL W unit :=
  data_len ← liftr (if decide (is_u32 (len data)) then Ok (len data) else Err (Exception_ BAD_PARCELABLE));
  _ ← stream_err (write_all (to_be_bytes 4 data_len)) (Exception_ BAD_PARCELABLE);
  stream_err (write_all data) (Exception_ BAD_PARCELABLE).
Definition read_msg : HAL R bytes :=
  len_data ← stream_err (read_exact 4) (Exception_ TRANSACTION_FAILED);
  stream_err (read_exact (Z.to_nat (from_be_bytes len_data))) (Exception_ TRANSACTION_FAILED).
End framing.

(** ** Channels *)

(** A message-oriented channel to a trusted application. *)
Class SerializedChannel (T : Type) := {
  MAX_SIZE : Z;
  execute : bytes → HAL T bytes
}.

Record MessageChannel (R W : Type) := mk_message_channel { r : R; w : W }.
Arguments mk_message_channel {R W}.
Arguments r {R W}.
Arguments w {R W}.
#[export] Instance message_channel {R W} `{Read R} `{Write W} : SerializedChannel (MessageChannel R W) := {|
  MAX_SIZE := 4096;
  execute serialized_req := λ c,
    match write_msg serialized_req (w c) with
    | (Ok _, w') => let '(rsp, r') := read_msg (r c) in (rsp, mk_message_channel r' w')
    | (Err e, w') => (Err e, mk_message_channel (r c) w')
    | (Panic, w') => (Panic, mk_message_channel (r c) w')
    end
|}.

(** [AsCborValue + Code<KeyMintOperation>]: a request or response with its operation. *)
Class Message (A : Type) := { msg_codec : Codec A; CODE : KeyMintOperation }.
Arguments CODE A {_}.
#[export] Instance GetHardwareInfoRequest_msg : Message GetHardwareInfoRequest := {| msg_codec := GetHardwareInfoRequest_codec; CODE := Op_DeviceGetHardwareInfo |}.
#[export] Instance GetHardwareInfoResponse_msg : Message GetHardwareInfoResponse := {| msg_codec := GetHardwareInfoResponse_codec; CODE := Op_DeviceGetHardwareInfo |}.
#[export] Instance AddRngEntropyRequest_msg : Message AddRngEntropyRequest := {| msg_codec := AddRngEntropyRequest_codec; CODE := Op_DeviceAddRngEntropy |}.
#[export] Instance AddRngEntropyResponse_msg : Message AddRngEntropyResponse := {| msg_codec := AddRngEntropyResponse_codec; CODE := Op_DeviceAddRngEntropy |}.
#[export] Instance GenerateKeyRequest_msg : Message GenerateKeyRequest := {| msg_codec := GenerateKeyRequest_codec; CODE := Op_DeviceGenerateKey |}.
#[export] Instance GenerateKeyResponse_msg : Message GenerateKeyResponse := {| msg_codec := GenerateKeyResponse_codec; CODE := Op_DeviceGenerateKey |}.
#[export] Instance ImportKeyRequest_msg : Message ImportKeyRequest := {| msg_codec := ImportKeyRequest_codec; CODE := Op_DeviceImportKey |}.
#[export] Instance ImportKeyResponse_msg : Message ImportKeyResponse := {| msg_codec := ImportKeyResponse_codec; CODE := Op_DeviceImportKey |}.
#[export] Instance ImportWrappedKeyRequest_msg : Message ImportWrappedKeyRequest := {| msg_codec := ImportWrappedKeyRequest_codec; CODE := Op_DeviceImportWrappedKey |}.
#[export] Instance ImportWrappedKeyResponse_msg : Message ImportWrappedKeyResponse := {| msg_codec := ImportWrappedKeyResponse_codec; CODE := Op_DeviceImportWrappedKey |}.
#[export] Instance UpgradeKeyRequest_msg : Message UpgradeKeyRequest := {| msg_codec := UpgradeKeyRequest_codec; CODE := Op_DeviceUpgradeKey |}.
#[export] Instance UpgradeKeyResponse_msg : Message UpgradeKeyResponse := {| msg_codec := UpgradeKeyResponse_codec; CODE := Op_DeviceUpgradeKey |}.
#[export] Instance DeleteKeyRequest_msg : Message DeleteKeyRequest := {| msg_codec := DeleteKeyRequest_codec; CODE := Op_DeviceDeleteKey |}.
#[export] Instance DeleteKeyResponse_msg : Message DeleteKeyResponse := {| msg_codec := DeleteKeyResponse_codec; CODE := Op_DeviceDeleteKey |}.
#[export] Instance DeleteAllKeysRequest_msg : Message DeleteAllKeysRequest := {| msg_codec := DeleteAllKeysRequest_codec; CODE := Op_DeviceDeleteAllKeys |}.
#[export] Instance DeleteAllKeysResponse_msg : Message DeleteAllKeysResponse := {| msg_codec := DeleteAllKeysResponse_codec; CODE := Op_DeviceDeleteAllKeys |}.
#[export] Instance DestroyAttestationIdsRequest_msg : Message DestroyAttestationIdsRequest := {| msg_codec := DestroyAttestationIdsRequest_codec; CODE := Op_DeviceDestroyAttestationIds |}.
#[export] Instance DestroyAttestationIdsResponse_msg : Message DestroyAttestationIdsResponse := {| msg_codec := DestroyAttestationIdsResponse_codec; CODE := Op_DeviceDestroyAttestationIds |}.
#[export] Instance BeginRequest_msg : Message BeginRequest := {| msg_codec := BeginRequest_codec; CODE := Op_DeviceBegin |}.
#[export] Instance BeginResponse_msg : Message BeginResponse := {| msg_codec := BeginResponse_codec; CODE := Op_DeviceBegin |}.
#[export] Instance EarlyBootEndedRequest_msg : Message EarlyBootEndedRequest := {| msg_codec := EarlyBootEndedRequest_codec; CODE := Op_DeviceEarlyBootEnded |}.
#[export] Instance EarlyBootEndedResponse_msg : Message EarlyBootEndedResponse := {| msg_codec := EarlyBootEndedResponse_codec; CODE := Op_DeviceEarlyBootEnded |}.
#[export] Instance ConvertStorageKeyToEphemeralRequest_msg : Message ConvertStorageKeyToEphemeralRequest := {| msg_codec := ConvertStorageKeyToEphemeralRequest_codec; CODE := Op_DeviceConvertStorageKeyToEphemeral |}.
#[export] Instance ConvertStorageKeyToEphemeralResponse_msg : Message ConvertStorageKeyToEphemeralResponse := {| msg_codec := ConvertStorageKeyToEphemeralResponse_codec; CODE := Op_DeviceConvertStorageKeyToEphemeral |}.
#[export] Instance GetKeyCharacteristicsRequest_msg : Message GetKeyCharacteristicsRequest := {| msg_codec := GetKeyCharacteristicsRequest_codec; CODE := Op_DeviceGetKeyCharacteristics |}.
#[export] Instance GetKeyCharacteristicsResponse_msg : Message GetKeyCharacteristicsResponse := {| msg_codec := GetKeyCharacteristicsResponse_codec; CODE := Op_DeviceGetKeyCharacteristics |}.
#[export] Instance UpdateAadRequest_msg : Message UpdateAadRequest := {| msg_codec := UpdateAadRequest_codec; CODE := Op_OperationUpdateAad |}.
#[export] Instance UpdateAadResponse_msg : Message UpdateAadResponse := {| msg_codec := UpdateAadResponse_codec; CODE := Op_OperationUpdateAad |}.
#[export] Instance UpdateRequest_msg : Message UpdateRequest := {| msg_codec := UpdateRequest_codec; CODE := Op_OperationUpdate |}.
#[export] Instance UpdateResponse_msg : Message UpdateResponse := {| msg_codec := UpdateResponse_codec; CODE := Op_OperationUpdate |}.
#[export] Instance FinishRequest_msg : Message FinishRequest := {| msg_codec := FinishRequest_codec; CODE := Op_OperationFinish |}.
#[export] Instance FinishResponse_msg : Message FinishResponse := {| msg_codec := FinishResponse_codec; CODE := Op_OperationFinish |}.
#[export] Instance AbortRequest_msg : Message AbortRequest := {| msg_codec := AbortRequest_codec; CODE := Op_OperationAbort |}.
#[export] Instance AbortResponse_msg : Message AbortResponse := {| msg_codec := AbortResponse_codec; CODE := Op_OperationAbort |}.
#[export] Instance GetRpcHardwareInfoRequest_msg : Message GetRpcHardwareInfoRequest := {| msg_codec := GetRpcHardwareInfoRequest_codec; CODE := Op_RpcGetHardwareInfo |}.
#[export] Instance GetRpcHardwareInfoResponse_msg : Message GetRpcHardwareInfoResponse := {| msg_codec := GetRpcHardwareInfoResponse_codec; CODE := Op_RpcGetHardwareInfo |}.
#[export] Instance GenerateEcdsaP256KeyPairRequest_msg : Message GenerateEcdsaP256KeyPairRequest := {| msg_codec := GenerateEcdsaP256KeyPairRequest_codec; CODE := Op_RpcGenerateEcdsaP256KeyPair |}.
#[export] Instance GenerateEcdsaP256KeyPairResponse_msg : Message GenerateEcdsaP256KeyPairResponse := {| msg_codec := GenerateEcdsaP256KeyPairResponse_codec; CODE := Op_RpcGenerateEcdsaP256KeyPair |}.
#[export] Instance GenerateCertificateRequestRequest_msg : Message GenerateCertificateRequestRequest := {| msg_codec := GenerateCertificateRequestRequest_codec; CODE := Op_RpcGenerateCertificateRequest |}.
#[export] Instance GenerateCertificateRequestResponse_msg : Message GenerateCertificateRequestResponse := {| msg_codec := GenerateCertificateRequestResponse_codec; CODE := Op_RpcGenerateCertificateRequest |}.
#[export] Instance GenerateCertificateRequestV2Request_msg : Message GenerateCertificateRequestV2Request := {| msg_codec := GenerateCertificateRequestV2Request_codec; CODE := Op_RpcGenerateCertificateV2Request |}.
#[export] Instance GenerateCertificateRequestV2Response_msg : Message GenerateCertificateRequestV2Response := {| msg_codec := GenerateCertificateRequestV2Response_codec; CODE := Op_RpcGenerateCertificateV2Request |}.
#[export] Instance GetSharedSecretParametersRequest_msg : Message GetSharedSecretParametersRequest := {| msg_codec := GetSharedSecretParametersRequest_codec; CODE := Op_SharedSecretGetSharedSecretParameters |}.
#[export] Instance GetSharedSecretParametersResponse_msg : Message GetSharedSecretParametersResponse := {| msg_codec := GetSharedSecretParametersResponse_codec; CODE := Op_SharedSecretGetSharedSecretParameters |}.
#[export] Instance ComputeSharedSecretRequest_msg : Message ComputeSharedSecretRequest := {| msg_codec := ComputeSharedSecretRequest_codec; CODE := Op_SharedSecretComputeSharedSecret |}.
#[export] Instance ComputeSharedSecretResponse_msg : Message ComputeSharedSecretResponse := {| msg_codec := ComputeSharedSecretResponse_codec; CODE := Op_SharedSecretComputeSharedSecret |}.
#[export] Instance GenerateTimeStampRequest_msg : Message GenerateTimeStampRequest := {| msg_codec := GenerateTimeStampRequest_codec; CODE := Op_SecureClockGenerateTimeStamp |}.
#[export] Instance GenerateTimeStampResponse_msg : Message GenerateTimeStampResponse := {| msg_codec := GenerateTimeStampResponse_codec; CODE := Op_SecureClockGenerateTimeStamp |}.
#[export] Instance GetRootOfTrustChallengeRequest_msg : Message GetRootOfTrustChallengeRequest := {| msg_codec := GetRootOfTrustChallengeRequest_codec; CODE := Op_GetRootOfTrustChallenge |}.
#[export] Instance GetRootOfTrustChallengeResponse_msg : Message GetRootOfTrustChallengeResponse := {| msg_codec := GetRootOfTrustChallengeResponse_codec; CODE := Op_GetRootOfTrustChallenge |}.
#[export] Instance GetRootOfTrustRequest_msg : Message GetRootOfTrustRequest := {| msg_codec := GetRootOfTrustRequest_codec; CODE := Op_GetRootOfTrust |}.
#[export] Instance GetRootOfTrustResponse_msg : Message GetRootOfTrustResponse := {| msg_codec := GetRootOfTrustResponse_codec; CODE := Op_GetRootOfTrust |}.
#[export] Instance SendRootOfTrustRequest_msg : Message SendRootOfTrustRequest := {| msg_codec := SendRootOfTrustRequest_codec; CODE := Op_SendRootOfTrust |}.
#[export] Instance SendRootOfTrustResponse_msg : Message SendRootOfTrustResponse := {| msg_codec := SendRootOfTrustResponse_codec; CODE := Op_SendRootOfTrust |}.
#[export] Instance SetHalInfoRequest_msg : Message SetHalInfoRequest := {| msg_codec := SetHalInfoRequest_codec; CODE := Op_SetHalInfo |}.
#[export] Instance SetHalInfoResponse_msg : Message SetHalInfoResponse := {| msg_codec := SetHalInfoResponse_codec; CODE := Op_SetHalInfo |}.
#[export] Instance SetBootInfoRequest_msg : Message SetBootInfoRequest := {| msg_codec := SetBootInfoRequest_codec; CODE := Op_SetBootInfo |}.
#[export] Instance SetBootInfoResponse_msg : Message SetBootInfoResponse := {| msg_codec := SetBootInfoResponse_codec; CODE := Op_SetBootInfo |}.
#[export] Instance SetAttestationIdsRequest_msg : Message SetAttestationIdsRequest := {| msg_codec := SetAttestationIdsRequest_codec; CODE := Op_SetAttestationIds |}.
#[export] Instance SetAttestationIdsResponse_msg : Message SetAttestationIdsResponse := {| msg_codec := SetAttestationIdsResponse_codec; CODE := Op_SetAttestationIds |}.
#[export] Instance SetHalVersionRequest_msg : Message SetHalVersionRequest := {| msg_codec := SetHalVersionRequest_codec; CODE := Op_SetHalVersion |}.
#[export] Instance SetHalVersionResponse_msg : Message SetHalVersionResponse := {| msg_codec := SetHalVersionResponse_codec; CODE := Op_SetHalVersion |}.
#[export] Instance SetAdditionalAttestationInfoRequest_msg : Message SetAdditionalAttestationInfoRequest := {| msg_codec := SetAdditionalAttestationInfoRequest_codec; CODE := Op_SetAdditionalAttestationInfo |}.
#[export] Instance SetAdditionalAttestationInfoResponse_msg : Message SetAdditionalAttestationInfoResponse := {| msg_codec := SetAdditionalAttestationInfoResponse_codec; CODE := Op_SetAdditionalAttestationInfo |}.


Definition failed_cbor (err : CborError) : Status := ServiceSpecific (discr EncodingError).

Section channel.
Context {T : Type} `{CH : SerializedChannel T} `{C : Ciborium}.

Definition encode_request {R} `{Message R} (req : R) : res Status bytes :=
  code ← map_err failed_cbor (to_cbor_value KeyMintOperation_codec (CODE R));
  val ← map_err failed_cbor (to_cbor_value msg_codec req);
  ok_or (into_writer (VArray [code; val])) (ServiceSpecific (discr EncodingError)).
(** [match value { Array(a) if a.len() == 2 => a, _ => .. }]. *)
Definition array2 (value : Value) : res Status (Value * Value) :=
  match value with VArray [x; y] => Ok (x, y) | _ => map_err failed_cbor (cbor_type_error value "arr of len 2") end.
Definition array1 (value : Value) : res Status Value :=
  match value with VArray [x] => Ok x | _ => map_err failed_cbor (cbor_type_error value "arr of len 1") end.
Definition decode_response {S} `{Message S} (rsp_data : bytes) : res Status S :=
  rsp_value ← map_err failed_cbor (read_to_value rsp_data);
  '(code_value, opt_response) ← array2 rsp_value;
  error_code ← map_err failed_cbor (from_cbor_value i32_codec code_value);
  _ ← reject_if (bool_decide (error_code ≠ discr ErrorCode_Ok)) (ServiceSpecific error_code);
  rsp ← array1 opt_response;
  '(op_value, inner_rsp) ← array2 rsp;
  op_type ← map_err failed_cbor (from_cbor_value KeyMintOperation_codec op_value);
  _ ← reject_if (bool_decide (op_type ≠ CODE S)) (failed_cbor (UnexpectedItem "wrong ret code" "rsp ret code"));
  map_err failed_cbor (from_cbor_value msg_codec inner_rsp).
Definition channel_execute {R S} `{Message R} `{Message S} (req : R) : HAL T S :=
  req_data ← liftr (encode_request req);
  _ ← liftr (reject_if (bool_decide (MAX_SIZE < len req_data)) (ServiceSpecific (discr InvalidInputLength)));
  rsp_data ← execute req_data;
  liftr (decode_response rsp_data).
End channel.

(** ** Requests and responses as generated messages *)

(** The variants of the request and response enums that hold a method's messages. *)
Class Method (R S : Type) := {
  wrap_req : R → PerformOpReq;
  wrap_rsp : S → PerformOpRsp;
  unwrap_rsp : PerformOpRsp → option S
}.
#[export] Instance DeviceGetHardwareInfo_call : Method GetHardwareInfoRequest GetHardwareInfoResponse := {|
  wrap_req := Req_DeviceGetHardwareInfo; wrap_rsp := Rsp_DeviceGetHardwareInfo; unwrap_rsp m := match m with Rsp_DeviceGetHardwareInfo s => Some s | _ => None end |}.
#[export] Instance DeviceAddRngEntropy_call : Method AddRngEntropyRequest AddRngEntropyResponse := {|
  wrap_req := Req_DeviceAddRngEntropy; wrap_rsp := Rsp_DeviceAddRngEntropy; unwrap_rsp m := match m with Rsp_DeviceAddRngEntropy s => Some s | _ => None end |}.
#[export] Instance DeviceGenerateKey_call : Method GenerateKeyRequest GenerateKeyResponse := {|
  wrap_req := Req_DeviceGenerateKey; wrap_rsp := Rsp_DeviceGenerateKey; unwrap_rsp m := match m with Rsp_DeviceGenerateKey s => Some s | _ => None end |}.
#[export] Instance DeviceImportKey_call : Method ImportKeyRequest ImportKeyResponse := {|
  wrap_req := Req_DeviceImportKey; wrap_rsp := Rsp_DeviceImportKey; unwrap_rsp m := match m with Rsp_DeviceImportKey s => Some s | _ => None end |}.
#[export] Instance DeviceImportWrappedKey_call : Method ImportWrappedKeyRequest ImportWrappedKeyResponse := {|
  wrap_req := Req_DeviceImportWrappedKey; wrap_rsp := Rsp_DeviceImportWrappedKey; unwrap_rsp m := match m with Rsp_DeviceImportWrappedKey s => Some s | _ => None end |}.
#[export] Instance DeviceUpgradeKey_call : Method UpgradeKeyRequest UpgradeKeyResponse := {|
  wrap_req := Req_DeviceUpgradeKey; wrap_rsp := Rsp_DeviceUpgradeKey; unwrap_rsp m := match m with Rsp_DeviceUpgradeKey s => Some s | _ => None end |}.
#[export] Instance DeviceDeleteKey_call : Method DeleteKeyRequest DeleteKeyResponse := {|
  wrap_req := Req_DeviceDeleteKey; wrap_rsp := Rsp_DeviceDeleteKey; unwrap_rsp m := match m with Rsp_DeviceDeleteKey s => Some s | _ => None end |}.
#[export] Instance DeviceDeleteAllKeys_call : Method DeleteAllKeysRequest DeleteAllKeysResponse := {|
  wrap_req := Req_DeviceDeleteAllKeys; wrap_rsp := Rsp_DeviceDeleteAllKeys; unwrap_rsp m := match m with Rsp_DeviceDeleteAllKeys s => Some s | _ => None end |}.
#[export] Instance DeviceDestroyAttestationIds_call : Method DestroyAttestationIdsRequest DestroyAttestationIdsResponse := {|
  wrap_req := Req_DeviceDestroyAttestationIds; wrap_rsp := Rsp_DeviceDestroyAttestationIds; unwrap_rsp m := match m with Rsp_DeviceDestroyAttestationIds s => Some s | _ => None end |}.
#[export] Instance DeviceBegin_call : Method BeginRequest BeginResponse := {|
  wrap_req := Req_DeviceBegin; wrap_rsp := Rsp_DeviceBegin; unwrap_rsp m := match m with Rsp_DeviceBegin s => Some s | _ => None end |}.
#[export] Instance DeviceEarlyBootEnded_call : Method EarlyBootEndedRequest EarlyBootEndedResponse := {|
  wrap_req := Req_DeviceEarlyBootEnded; wrap_rsp := Rsp_DeviceEarlyBootEnded; unwrap_rsp m := match m with Rsp_DeviceEarlyBootEnded s => Some s | _ => None end |}.
#[export] Instance DeviceConvertStorageKeyToEphemeral_call : Method ConvertStorageKeyToEphemeralRequest ConvertStorageKeyToEphemeralResponse := {|
  wrap_req := Req_DeviceConvertStorageKeyToEphemeral; wrap_rsp := Rsp_DeviceConvertStorageKeyToEphemeral; unwrap_rsp m := match m with Rsp_DeviceConvertStorageKeyToEphemeral s => Some s | _ => None end |}.
#[export] Instance DeviceGetKeyCharacteristics_call : Method GetKeyCharacteristicsRequest GetKeyCharacteristicsResponse := {|
  wrap_req := Req_DeviceGetKeyCharacteristics; wrap_rsp := Rsp_DeviceGetKeyCharacteristics; unwrap_rsp m := match m with Rsp_DeviceGetKeyCharacteristics s => Some s | _ => None end |}.
#[export] Instance OperationUpdateAad_call : Method UpdateAadRequest UpdateAadResponse := {|
  wrap_req := Req_OperationUpdateAad; wrap_rsp := Rsp_OperationUpdateAad; unwrap_rsp m := match m with Rsp_OperationUpdateAad s => Some s | _ => None end |}.
#[export] Instance OperationUpdate_call : Method UpdateRequest UpdateResponse := {|
  wrap_req := Req_OperationUpdate; wrap_rsp := Rsp_OperationUpdate; unwrap_rsp m := match m with Rsp_OperationUpdate s => Some s | _ => None end |}.
#[export] Instance OperationFinish_call : Method FinishRequest FinishResponse := {|
  wrap_req := Req_OperationFinish; wrap_rsp := Rsp_OperationFinish; unwrap_rsp m := match m with Rsp_OperationFinish s => Some s | _ => None end |}.
#[export] Instance OperationAbort_call : Method AbortRequest AbortResponse := {|
  wrap_req := Req_OperationAbort; wrap_rsp := Rsp_OperationAbort; unwrap_rsp m := match m with Rsp_OperationAbort s => Some s | _ => None end |}.
#[export] Instance RpcGetHardwareInfo_call : Method GetRpcHardwareInfoRequest GetRpcHardwareInfoResponse := {|
  wrap_req := Req_RpcGetHardwareInfo; wrap_rsp := Rsp_RpcGetHardwareInfo; unwrap_rsp m := match m with Rsp_RpcGetHardwareInfo s => Some s | _ => None end |}.
#[export] Instance RpcGenerateEcdsaP256KeyPair_call : Method GenerateEcdsaP256KeyPairRequest GenerateEcdsaP256KeyPairResponse := {|
  wrap_req := Req_RpcGenerateEcdsaP256KeyPair; wrap_rsp := Rsp_RpcGenerateEcdsaP256KeyPair; unwrap_rsp m := match m with Rsp_RpcGenerateEcdsaP256KeyPair s => Some s | _ => None end |}.
#[export] Instance RpcGenerateCertificateRequest_call : Method GenerateCertificateRequestRequest GenerateCertificateRequestResponse := {|
  wrap_req := Req_RpcGenerateCertificateRequest; wrap_rsp := Rsp_RpcGenerateCertificateRequest; unwrap_rsp m := match m with Rsp_RpcGenerateCertificateRequest s => Some s | _ => None end |}.
#[export] Instance RpcGenerateCertificateV2Request_call : Method GenerateCertificateRequestV2Request GenerateCertificateRequestV2Response := {|
  wrap_req := Req_RpcGenerateCertificateV2Request; wrap_rsp := Rsp_RpcGenerateCertificateV2Request; unwrap_rsp m := match m with Rsp_RpcGenerateCertificateV2Request s => Some s | _ => None end |}.
#[export] Instance SharedSecretGetSharedSecretParameters_call : Method GetSharedSecretParametersRequest GetSharedSecretParametersResponse := {|
  wrap_req := Req_SharedSecretGetSharedSecretParameters; wrap_rsp := Rsp_SharedSecretGetSharedSecretParameters; unwrap_rsp m := match m with Rsp_SharedSecretGetSharedSecretParameters s => Some s | _ => None end |}.
#[export] Instance SharedSecretComputeSharedSecret_call : Method ComputeSharedSecretRequest ComputeSharedSecretResponse := {|
  wrap_req := Req_SharedSecretComputeSharedSecret; wrap_rsp := Rsp_SharedSecretComputeSharedSecret; unwrap_rsp m := match m with Rsp_SharedSecretComputeSharedSecret s => Some s | _ => None end |}.
#[export] Instance SecureClockGenerateTimeStamp_call : Method GenerateTimeStampRequest GenerateTimeStampResponse := {|
  wrap_req := Req_SecureClockGenerateTimeStamp; wrap_rsp := Rsp_SecureClockGenerateTimeStamp; unwrap_rsp m := match m with Rsp_SecureClockGenerateTimeStamp s => Some s | _ => None end |}.
#[export] Instance GetRootOfTrustChallenge_call : Method GetRootOfTrustChallengeRequest GetRootOfTrustChallengeResponse := {|
  wrap_req := Req_GetRootOfTrustChallenge; wrap_rsp := Rsp_GetRootOfTrustChallenge; unwrap_rsp m := match m with Rsp_GetRootOfTrustChallenge s => Some s | _ => None end |}.
#[export] Instance GetRootOfTrust_call : Method GetRootOfTrustRequest GetRootOfTrustResponse := {|
  wrap_req := Req_GetRootOfTrust; wrap_rsp := Rsp_GetRootOfTrust; unwrap_rsp m := match m with Rsp_GetRootOfTrust s => Some s | _ => None end |}.
#[export] Instance SendRootOfTrust_call : Method SendRootOfTrustRequest SendRootOfTrustResponse := {|
  wrap_req := Req_SendRootOfTrust; wrap_rsp := Rsp_SendRootOfTrust; unwrap_rsp m := match m with Rsp_SendRootOfTrust s => Some s | _ => None end |}.
#[export] Instance SetHalInfo_call : Method SetHalInfoRequest SetHalInfoResponse := {|
  wrap_req := Req_SetHalInfo; wrap_rsp := Rsp_SetHalInfo; unwrap_rsp m := match m with Rsp_SetHalInfo s => Some s | _ => None end |}.
#[export] Instance SetBootInfo_call : Method SetBootInfoRequest SetBootInfoResponse := {|
  wrap_req := Req_SetBootInfo; wrap_rsp := Rsp_SetBootInfo; unwrap_rsp m := match m with Rsp_SetBootInfo s => Some s | _ => None end |}.
#[export] Instance SetAttestationIds_call : Method SetAttestationIdsRequest SetAttestationIdsResponse := {|
  wrap_req := Req_SetAttestationIds; wrap_rsp := Rsp_SetAttestationIds; unwrap_rsp m := match m with Rsp_SetAttestationIds s => Some s | _ => None end |}.
#[export] Instance SetHalVersion_call : Method SetHalVersionRequest SetHalVersionResponse := {|
  wrap_req := Req_SetHalVersion; wrap_rsp := Rsp_SetHalVersion; unwrap_rsp m := match m with Rsp_SetHalVersion s => Some s | _ => None end |}.
#[export] Instance SetAdditionalAttestationInfo_call : Method SetAdditionalAttestationInfoRequest SetAdditionalAttestationInfoResponse := {|
  wrap_req := Req_SetAdditionalAttestationInfo; wrap_rsp := Rsp_SetAdditionalAttestationInfo; unwrap_rsp m := match m with Rsp_SetAdditionalAttestationInfo s => Some s | _ => None end |}.

Class MethodLaws (R S : Type) `{Message R} `{Message S} `{!Method R S} : Prop := {
  wrap_req_enc (req : R) : PerformOpReq_enc (wrap_req req) = (CODE R, to_cbor_value msg_codec req);
  wrap_rsp_dec val :
    PerformOpRsp_dec (CODE S) val = (m ← from_cbor_value (msg_codec (A:=S)) val; Ok (wrap_rsp m));
  unwrap_rsp_Some m (s : S) : unwrap_rsp m = Some s ↔ m = wrap_rsp s;
  unwrap_rsp_None m : unwrap_rsp (S:=S) m = None ↔ (PerformOpRsp_enc m).1 ≠ CODE S;
  call_codes : CODE S = CODE R
}.
Ltac solve_call :=
  split; [done|done|intros []; cbn; split; congruence|intros []; cbn; split; congruence|done].
#[export] Instance DeviceGetHardwareInfo_call_laws : MethodLaws GetHardwareInfoRequest GetHardwareInfoResponse.
Proof. solve_call. Qed.
#[export] Instance DeviceAddRngEntropy_call_laws : MethodLaws AddRngEntropyRequest AddRngEntropyResponse.
Proof. solve_call. Qed.
#[export] Instance DeviceGenerateKey_call_laws : MethodLaws GenerateKeyRequest GenerateKeyResponse.
Proof. solve_call. Qed.
#[export] Instance DeviceImportKey_call_laws : MethodLaws ImportKeyRequest ImportKeyResponse.
Proof. solve_call. Qed.
#[export] Instance DeviceImportWrappedKey_call_laws : MethodLaws ImportWrappedKeyRequest ImportWrappedKeyResponse.
Proof. solve_call. Qed.
#[export] Instance DeviceUpgradeKey_call_laws : MethodLaws UpgradeKeyRequest UpgradeKeyResponse.
Proof. solve_call. Qed.
#[export] Instance DeviceDeleteKey_call_laws : MethodLaws DeleteKeyRequest DeleteKeyResponse.
Proof. solve_call. Qed.
#[export] Instance DeviceDeleteAllKeys_call_laws : MethodLaws DeleteAllKeysRequest DeleteAllKeysResponse.
Proof. solve_call. Qed.
#[export] Instance DeviceDestroyAttestationIds_call_laws : MethodLaws DestroyAttestationIdsRequest DestroyAttestationIdsResponse.
Proof. solve_call. Qed.
#[export] Instance DeviceBegin_call_laws : MethodLaws BeginRequest BeginResponse.
Proof. solve_call. Qed.
#[export] Instance DeviceEarlyBootEnded_call_laws : MethodLaws EarlyBootEndedRequest EarlyBootEndedResponse.
Proof. solve_call. Qed.
#[export] Instance DeviceConvertStorageKeyToEphemeral_call_laws : MethodLaws ConvertStorageKeyToEphemeralRequest ConvertStorageKeyToEphemeralResponse.
Proof. solve_call. Qed.
#[export] Instance DeviceGetKeyCharacteristics_call_laws : MethodLaws GetKeyCharacteristicsRequest GetKeyCharacteristicsResponse.
Proof. solve_call. Qed.
#[export] Instance OperationUpdateAad_call_laws : MethodLaws UpdateAadRequest UpdateAadResponse.
Proof. solve_call. Qed.
#[export] Instance OperationUpdate_call_laws : MethodLaws UpdateRequest UpdateResponse.
Proof. solve_call. Qed.
#[export] Instance OperationFinish_call_laws : MethodLaws FinishRequest FinishResponse.
Proof. solve_call. Qed.
#[export] Instance OperationAbort_call_laws : MethodLaws AbortRequest AbortResponse.
Proof. solve_call. Qed.
#[export] Instance RpcGetHardwareInfo_call_laws : MethodLaws GetRpcHardwareInfoRequest GetRpcHardwareInfoResponse.
Proof. solve_call. Qed.
#[export] Instance RpcGenerateEcdsaP256KeyPair_call_laws : MethodLaws GenerateEcdsaP256KeyPairRequest GenerateEcdsaP256KeyPairResponse.
Proof. solve_call. Qed.
#[export] Instance RpcGenerateCertificateRequest_call_laws : MethodLaws GenerateCertificateRequestRequest GenerateCertificateRequestResponse.
Proof. solve_call. Qed.
#[export] Instance RpcGenerateCertificateV2Request_call_laws : MethodLaws GenerateCertificateRequestV2Request GenerateCertificateRequestV2Response.
Proof. solve_call. Qed.
#[export] Instance SharedSecretGetSharedSecretParameters_call_laws : MethodLaws GetSharedSecretParametersRequest GetSharedSecretParametersResponse.
Proof. solve_call. Qed.
#[export] Instance SharedSecretComputeSharedSecret_call_laws : MethodLaws ComputeSharedSecretRequest ComputeSharedSecretResponse.
Proof. solve_call. Qed.
#[export] Instance SecureClockGenerateTimeStamp_call_laws : MethodLaws GenerateTimeStampRequest GenerateTimeStampResponse.
Proof. solve_call. Qed.
#[export] Instance GetRootOfTrustChallenge_call_laws : MethodLaws GetRootOfTrustChallengeRequest GetRootOfTrustChallengeResponse.
Proof. solve_call. Qed.
#[export] Instance GetRootOfTrust_call_laws : MethodLaws GetRootOfTrustRequest GetRootOfTrustResponse.
Proof. solve_call. Qed.
#[export] Instance SendRootOfTrust_call_laws : MethodLaws SendRootOfTrustRequest SendRootOfTrustResponse.
Proof. solve_call. Qed.
#[export] Instance SetHalInfo_call_laws : MethodLaws SetHalInfoRequest SetHalInfoResponse.
Proof. solve_call. Qed.
#[export] Instance SetBootInfo_call_laws : MethodLaws SetBootInfoRequest SetBootInfoResponse.
Proof. solve_call. Qed.
#[export] Instance SetAttestationIds_call_laws : MethodLaws SetAttestationIdsRequest SetAttestationIdsResponse.
Proof. solve_call. Qed.
#[export] Instance SetHalVersion_call_laws : MethodLaws SetHalVersionRequest SetHalVersionResponse.
Proof. solve_call. Qed.
#[export] Instance SetAdditionalAttestationInfo_call_laws : MethodLaws SetAdditionalAttestationInfoRequest SetAdditionalAttestationInfoResponse.
Proof. solve_call. Qed.

Lemma PerformOpRsp_dec_code c val m : PerformOpRsp_dec c val = Ok m → (PerformOpRsp_enc m).1 = c.
Proof. destruct c; cbn [PerformOpRsp_dec]; intros (x & _ & [= <-])%res_bind_Ok; done. Qed.

Section messages.
Context {T : Type} `{CH : SerializedChannel T} `{C : Ciborium} {R S : Type} `{MR : Message R} `{MS : Message S}
  `{CA : !Method R S} `{CL : !MethodLaws R S}.

(** What a response means to the caller of a method. *)
Definition rsp_outcome (rsp : PerformOpResponse) : res Status S :=
  if bool_decide (PerformOpResponse_error_code rsp ≠ 0) then Err (ServiceSpecific (PerformOpResponse_error_code rsp))
  else ok_or (PerformOpResponse_rsp rsp ≫= unwrap_rsp) (ServiceSpecific (discr EncodingError)).

Lemma encode_request_message (req : R) :
  encode_request req = map_err failed_cbor (into_vec PerformOpReq_codec (wrap_req req)).
Proof.
  unfold encode_request, into_vec. cbn [to_cbor_value PerformOpReq_codec message_codec]. rewrite wrap_req_enc. cbn.
  destruct (to_cbor_value msg_codec req); cbn; try done. by destruct (into_writer _).
Qed.

Lemma decode_inner (op_value inner_rsp : Value) m :
  from_cbor_value PerformOpRsp_codec (VArray [op_value; inner_rsp]) = Ok m →
  (op_type ← map_err failed_cbor (from_cbor_value KeyMintOperation_codec op_value);
   _ ← reject_if (bool_decide (op_type ≠ CODE S)) (failed_cbor (UnexpectedItem "wrong ret code" "rsp ret code"));
   map_err failed_cbor (from_cbor_value msg_codec inner_rsp)) =
  ok_or (unwrap_rsp m) (ServiceSpecific (discr EncodingError)).
Proof.
  cbn [from_cbor_value PerformOpRsp_codec message_codec]. intros (op & Hop & Hm)%res_bind_Ok.
  cbn [from_cbor_value] in *. rewrite Hop. cbn [map_err mbind res_bind].
  case_bool_decide as Hc; cbn [reject_if mbind res_bind].
  - rewrite (proj2 (unwrap_rsp_None m)); [done|]. by rewrite (PerformOpRsp_dec_code _ _ _ Hm).
  - subst op. rewrite wrap_rsp_dec in Hm. apply res_bind_Ok in Hm as (s & -> & [= <-]).
    by rewrite (proj2 (unwrap_rsp_Some _ s)).
Qed.

Lemma decode_response_message b rsp :
  from_slice PerformOpResponse_codec b = Ok rsp → decode_response b = rsp_outcome rsp.
Proof.
  unfold from_slice, decode_response, rsp_outcome. intros (v & -> & Hv)%res_bind_Ok.
  destruct v as [| | | | | | |a|]; try done. destruct a as [|v0 [|v1 [|]]]; try done. revert Hv.
  cbn [from_cbor_value PerformOpResponse_codec derive_struct from_fields field no_fields mbind option_bind].
  intros (x & Hx & [= <-])%res_bind_Ok. apply res_bind_Ok in Hx as (r1 & Hr1 & Hx).
  apply res_bind_Ok in Hx as (c & Hc & [= <-]). apply res_bind_Ok in Hr1 as (? & [= <-] & Hr1).
  apply res_bind_Ok in Hr1 as (o & Ho & [= <-]). cbn [map_err mbind res_bind array2]. rewrite Hc. cbn -[KeyMintOperation_codec].
  case_bool_decide as He; [done|]. cbn -[KeyMintOperation_codec].
  destruct v1 as [| | | | | | |[|v1 [|]]|]; try done; cbn in Ho; [by injection Ho as <-|].
  apply res_bind_Ok in Ho as (m & Hm & [= <-]). cbn -[KeyMintOperation_codec].
  destruct v1 as [| | | | | | |[|v10 [|v11 [|]]]|]; try done. by apply decode_inner.
Qed.
End messages.

(** ** Messages about the environment *)

(** [let _ = m], [if let Err(e) = m { warn!(..) }]. *)
Definition ignore_err {T A} (m : HAL T A) : HAL T unit := λ t,
  match m t with
  | (Panic, t') => (Panic, t')
  | (_, t') => (Ok tt, t')
  end.
(** [r.map_err(failed_conversion)?]. *)
Definition liftc {T A} `{Aidl.Constants} (r : Converted A) : HAL T A := liftr (map_err failed_conversion r).

Section service.
Context {T : Type} `{CH : SerializedChannel T} `{C : Ciborium} `{K : Aidl.Constants}.

(** The version of the HAL the service is built for: feature [hal_v4]. *)
Definition hal_aidl_version : Z := 400.
Definition send_hal_info `{Tgt : Target} `{RE : Regex} `{SP : SystemProperties} : HAL T unit :=
  req ← liftr (map_err (λ _, Exception_ BAD_PARCELABLE) populate_hal_info);
  _ ← channel_execute (S:=SetHalInfoResponse) req;
  ignore_err (channel_execute (S:=SetHalVersionResponse) {| SetHalVersionRequest_aidl_version := hal_aidl_version |}).
Definition send_boot_info (req : SetBootInfoRequest) : HAL T unit :=
  _ ← channel_execute (S:=SetBootInfoResponse) req; mret tt.
Definition send_attest_ids (ids : AttestationIdInfo) : HAL T unit :=
  _ ← channel_execute (S:=SetAttestationIdsResponse) {| SetAttestationIdsRequest_ids := ids |}; mret tt.
Definition hal_early_boot_ended : HAL T unit :=
  _ ← channel_execute (S:=EarlyBootEndedResponse) Build_EarlyBootEndedRequest; mret tt.

(** ** [IKeyMintDevice] *)

Definition getHardwareInfo : HAL T Aidl.KeyMintHardwareInfo :=
  rsp ← channel_execute (S:=GetHardwareInfoResponse) Build_GetHardwareInfoRequest;
  mret (KeyMintHardwareInfo_fromm (GetHardwareInfoResponse_ret rsp)).
Definition addRngEntropy (data : bytes) : HAL T unit :=
  _ ← channel_execute (S:=AddRngEntropyResponse) {| AddRngEntropyRequest_data := data |}; mret tt.
Definition generateKey (keyParams : list Aidl.KeyParameter) (attestationKey : option Aidl.AttestationKey)
    : HAL T Aidl.KeyCreationResult :=
  key_params ← liftc (key_params_try_innto keyParams);
  attestation_key ← liftc (opt_try_innto AttestationKey_try_fromm attestationKey);
  rsp ← channel_execute (S:=GenerateKeyResponse)
    {| GenerateKeyRequest_key_params := key_params; GenerateKeyRequest_attestation_key := attestation_key |};
  mret (KeyCreationResult_fromm (GenerateKeyResponse_ret rsp)).
Definition importKey (keyParams : list Aidl.KeyParameter) (keyFormat : Z) (keyData : bytes)
    (attestationKey : option Aidl.AttestationKey) : HAL T Aidl.KeyCreationResult :=
  key_params ← liftc (key_params_try_innto keyParams);
  key_format ← liftc (enum_try_fromm keyFormat);
  attestation_key ← liftc (opt_try_innto AttestationKey_try_fromm attestationKey);
  rsp ← channel_execute (S:=ImportKeyResponse)
    {| ImportKeyRequest_key_params := key_params; ImportKeyRequest_key_format := key_format;
       ImportKeyRequest_key_data := keyData; ImportKeyRequest_attestation_key := attestation_key |};
  mret (KeyCreationResult_fromm (ImportKeyResponse_ret rsp)).
Definition importWrappedKey (wrappedKeyData wrappingKeyBlob maskingKey : bytes)
    (unwrappingParams : list Aidl.KeyParameter) (passwordSid biometricSid : Z) : HAL T Aidl.KeyCreationResult :=
  unwrapping_params ← liftc (key_params_try_innto unwrappingParams);
  rsp ← channel_execute (S:=ImportWrappedKeyResponse)
    {| ImportWrappedKeyRequest_wrapped_key_data := wrappedKeyData;
       ImportWrappedKeyRequest_wrapping_key_blob := wrappingKeyBlob;
       ImportWrappedKeyRequest_masking_key := maskingKey;
       ImportWrappedKeyRequest_unwrapping_params := unwrapping_params;
       ImportWrappedKeyRequest_password_sid := passwordSid;
       ImportWrappedKeyRequest_biometric_sid := biometricSid |};
  mret (KeyCreationResult_fromm (ImportWrappedKeyResponse_ret rsp)).
Definition upgradeKey (keyBlobToUpgrade : bytes) (upgradeParams : list Aidl.KeyParameter) : HAL T bytes :=
  upgrade_params ← liftc (key_params_try_innto upgradeParams);
  rsp ← channel_execute (S:=UpgradeKeyResponse)
    {| UpgradeKeyRequest_key_blob_to_upgrade := keyBlobToUpgrade; UpgradeKeyRequest_upgrade_params := upgrade_params |};
  mret (UpgradeKeyResponse_ret rsp).
Definition deleteKey (keyBlob : bytes) : HAL T unit :=
  _ ← channel_execute (S:=DeleteKeyResponse) {| DeleteKeyRequest_key_blob := keyBlob |}; mret tt.
Definition deleteAllKeys : HAL T unit :=
  _ ← channel_execute (S:=DeleteAllKeysResponse) Build_DeleteAllKeysRequest; mret tt.
Definition destroyAttestationIds : HAL T unit :=
  _ ← channel_execute (S:=DestroyAttestationIdsResponse) Build_DestroyAttestationIdsRequest; mret tt.
(** The binder object for an operation shares the channel; it is its handle here. *)
Record BeginResult := mk_begin_result {
  br_challenge : Z; br_params : list Aidl.KeyParameter; br_operation : option Z }.
Definition begin (purpose : Z) (keyBlob : bytes) (params : list Aidl.KeyParameter)
    (authToken : option Aidl.HardwareAuthToken) : HAL T BeginResult :=
  purpose ← liftc (enum_try_fromm purpose);
  params ← liftc (key_params_try_innto params);
  auth_token ← liftc (opt_try_innto HardwareAuthToken_try_fromm authToken);
  rsp ← channel_execute (S:=BeginResponse)
    {| BeginRequest_purpose := purpose; BeginRequest_key_blob := keyBlob; BeginRequest_params := params;
       BeginRequest_auth_token := auth_token |};
  let ret := BeginResponse_ret rsp in
  mret (mk_begin_result (InternalBeginResult_challenge ret) (KeyParam_fromm <$> InternalBeginResult_params ret)
          (Some (InternalBeginResult_op_handle ret))).
Definition deviceLocked (_passwordOnly : bool) (_timestampToken : option Aidl.TimeStampToken) : HAL T unit :=
  liftr (Err (ServiceSpecific (Aidl.error_number Unimplemented))).
Definition earlyBootEnded : HAL T unit := hal_early_boot_ended.
Definition convertStorageKeyToEphemeral (storageKeyBlob : bytes) : HAL T bytes :=
  rsp ← channel_execute (S:=ConvertStorageKeyToEphemeralResponse)
    {| ConvertStorageKeyToEphemeralRequest_storage_key_blob := storageKeyBlob |};
  mret (ConvertStorageKeyToEphemeralResponse_ret rsp).
Definition getKeyCharacteristics (keyBlob appId appData : bytes) : HAL T (list Aidl.KeyCharacteristics) :=
  rsp ← channel_execute (S:=GetKeyCharacteristicsResponse)
    {| GetKeyCharacteristicsRequest_key_blob := keyBlob; GetKeyCharacteristicsRequest_app_id := appId;
       GetKeyCharacteristicsRequest_app_data := appData |};
  mret (KeyCharacteristics_fromm <$> GetKeyCharacteristicsResponse_ret rsp).
Definition getRootOfTrustChallenge : HAL T bytes :=
  rsp ← channel_execute (S:=GetRootOfTrustChallengeResponse) Build_GetRootOfTrustChallengeRequest;
  mret (GetRootOfTrustChallengeResponse_ret rsp).
Definition getRootOfTrust (challenge : bytes) : HAL T bytes :=
  rsp ← channel_execute (S:=GetRootOfTrustResponse) {| GetRootOfTrustRequest_challenge := challenge |};
  mret (GetRootOfTrustResponse_ret rsp).
Definition sendRootOfTrust (root_of_trust : bytes) : HAL T unit :=
  _ ← channel_execute (S:=SendRootOfTrustResponse) {| SendRootOfTrustRequest_root_of_trust := root_of_trust |};
  mret tt.
Definition setAdditionalAttestationInfo (info : list Aidl.KeyParameter) : HAL T unit :=
  info ← liftc (key_params_try_innto info);
  _ ← channel_execute (S:=SetAdditionalAttestationInfoResponse) {| SetAdditionalAttestationInfoRequest_info := info |};
  mret tt.

(** ** [IRemotelyProvisionedComponent], [ISecureClock], [ISharedSecret]; out parameters are results *)

Definition rpc_getHardwareInfo : HAL T Aidl.RpcHardwareInfo :=
  rsp ← channel_execute (S:=GetRpcHardwareInfoResponse) Build_GetRpcHardwareInfoRequest;
  mret (RpcHardwareInfo_fromm (GetRpcHardwareInfoResponse_ret rsp)).
Definition generateEcdsaP256KeyPair (testMode : bool) : HAL T (Aidl.MacedPublicKey * bytes) :=
  rsp ← channel_execute (S:=GenerateEcdsaP256KeyPairResponse)
    {| GenerateEcdsaP256KeyPairRequest_test_mode := testMode |};
  mret (MacedPublicKey_fromm (GenerateEcdsaP256KeyPairResponse_maced_public_key rsp),
        GenerateEcdsaP256KeyPairResponse_ret rsp).
Definition generateCertificateRequest (testMode : bool) (keysToSign : list Aidl.MacedPublicKey)
    (endpointEncryptionCertChain challenge : bytes) : HAL T (Aidl.DeviceInfo * Aidl.ProtectedData * bytes) :=
  rsp ← channel_execute (S:=GenerateCertificateRequestResponse)
    {| GenerateCertificateRequestRequest_test_mode := testMode;
       GenerateCertificateRequestRequest_keys_to_sign := wire_maced_public_key <$> keysToSign;
       GenerateCertificateRequestRequest_endpoint_encryption_cert_chain := endpointEncryptionCertChain;
       GenerateCertificateRequestRequest_challenge := challenge |};
  mret (DeviceInfo_fromm (GenerateCertificateRequestResponse_device_info rsp),
        ProtectedData_fromm (GenerateCertificateRequestResponse_protected_data rsp),
        GenerateCertificateRequestResponse_ret rsp).
Definition generateCertificateRequestV2 (keysToSign : list Aidl.MacedPublicKey) (challenge : bytes) : HAL T bytes :=
  rsp ← channel_execute (S:=GenerateCertificateRequestV2Response)
    {| GenerateCertificateRequestV2Request_keys_to_sign := wire_maced_public_key <$> keysToSign;
       GenerateCertificateRequestV2Request_challenge := challenge |};
  mret (GenerateCertificateRequestV2Response_ret rsp).
Definition generateTimeStamp (challenge : Z) : HAL T Aidl.TimeStampToken :=
  rsp ← channel_execute (S:=GenerateTimeStampResponse) {| GenerateTimeStampRequest_challenge := challenge |};
  mret (TimeStampToken_fromm (GenerateTimeStampResponse_ret rsp)).
Definition getSharedSecretParameters : HAL T Aidl.SharedSecretParameters :=
  rsp ← channel_execute (S:=GetSharedSecretParametersResponse) Build_GetSharedSecretParametersRequest;
  mret (SharedSecretParameters_fromm (GetSharedSecretParametersResponse_ret rsp)).
Definition computeSharedSecret (params : list Aidl.SharedSecretParameters) : HAL T bytes :=
  rsp ← channel_execute (S:=ComputeSharedSecretResponse)
    {| ComputeSharedSecretRequest_params := wire_shared_secret_params <$> params |};
  mret (ComputeSharedSecretResponse_ret rsp).
End service.

(** ** [IKeyMintOperation] *)

(** Maximum overhead of the encoding of an operation's messages. *)
Definition MAX_CBOR_OVERHEAD : Z := 350.

Section operation.
Context {T : Type} `{CH : SerializedChannel T} `{C : Ciborium} `{K : Aidl.Constants}.

(** A compile-time constant: a channel with a smaller [MAX_SIZE] does not build. *)
Definition MAX_DATA_SIZE : Z := MAX_SIZE - MAX_CBOR_OVERHEAD.

(** An operation in progress: the channel, which it shares, and its handle, unless it has failed. *)
Record HalOperation := mk_hal_operation { ho_channel : T; ho_handle : option Z }.

Definition invalidate (o : HalOperation) : HalOperation := mk_hal_operation (ho_channel o) None.
Definition validate_handle : HAL HalOperation Z := λ o,
  (ok_or (ho_handle o) (ServiceSpecific (Aidl.error_number InvalidOperationHandle)), o).
(** [execute] of an operation: a failed request invalidates it. *)
Definition op_execute {R S} `{Message R} `{Message S} (req : R) : HAL HalOperation S := λ o,
  let '(result, t) := channel_execute req (ho_channel o) in
  let o' := mk_hal_operation t (ho_handle o) in
  (result, match result with Err _ => invalidate o' | _ => o' end).
(** [m.inspect_err(|_| self.invalidate())]. *)
Definition inspect_err_invalidate {A} (m : HAL HalOperation A) : HAL HalOperation A := λ o,
  let '(result, o') := m o in (result, match result with Err _ => invalidate o' | _ => o' end).
(** [let result = m; self.invalidate(); result]. *)
Definition then_invalidate {A} (m : HAL HalOperation A) : HAL HalOperation A := λ o,
  let '(result, o') := m o in (result, match result with Panic => o' | _ => invalidate o' end).

(** The loop over batches: [send] makes and sends the request for one of them.  Running out of
    fuel stands for not terminating. *)
Fixpoint batches {A} (fuel : nat) (send : bytes → HAL HalOperation A) (input : bytes) : HAL HalOperation (list A) :=
  match input, fuel with
  | [], _ => mret []
  | _, O => liftr Panic
  | _, S fuel' =>
    let batch_len := Z.min MAX_DATA_SIZE (len input) in
    rsp ← inspect_err_invalidate (send (take (Z.to_nat batch_len) input));
    rsps ← batches fuel' send (drop (Z.to_nat batch_len) input);
    mret (rsp :: rsps)
  end.
Definition updateAad (input : bytes) (authToken : option Aidl.HardwareAuthToken)
    (timeStampToken : option Aidl.TimeStampToken) : HAL HalOperation unit :=
  op_handle ← validate_handle;
  auth_token ← liftc (opt_try_innto HardwareAuthToken_try_fromm authToken);
  let timestamp_token := wire_timestamp_token <$> timeStampToken in
  _ ← batches (length input) (λ batch, op_execute (S:=UpdateAadResponse)
        {| UpdateAadRequest_op_handle := op_handle; UpdateAadRequest_input := batch;
           UpdateAadRequest_auth_token := auth_token; UpdateAadRequest_timestamp_token := timestamp_token |}) input;
  mret tt.
Definition send_update (op_handle : Z) (auth_token : option HardwareAuthToken)
    (timestamp_token : option TimeStampToken) (batch : bytes) : HAL HalOperation UpdateResponse :=
  op_execute {| UpdateRequest_op_handle := op_handle; UpdateRequest_input := batch;
                UpdateRequest_auth_token := auth_token; UpdateRequest_timestamp_token := timestamp_token |}.
Definition update (input : bytes) (authToken : option Aidl.HardwareAuthToken)
    (timeStampToken : option Aidl.TimeStampToken) : HAL HalOperation bytes :=
  op_handle ← validate_handle;
  auth_token ← liftc (opt_try_innto HardwareAuthToken_try_fromm authToken);
  let timestamp_token := wire_timestamp_token <$> timeStampToken in
  rsps ← batches (length input) (send_update op_handle auth_token timestamp_token) input;
  mret (concat (UpdateResponse_ret <$> rsps)).

(** The loop of [finish]: what was put out, and the last batch. *)
Fixpoint finish_batches (fuel : nat) (send : bytes → HAL HalOperation UpdateResponse) (input output : bytes)
    : HAL HalOperation (bytes * bytes) :=
  if decide (MAX_DATA_SIZE < len input) then
    match fuel with
    | O => liftr Panic
    | S fuel' =>
      rsp ← inspect_err_invalidate (send (take (Z.to_nat MAX_DATA_SIZE) input));
      finish_batches fuel' send (drop (Z.to_nat MAX_DATA_SIZE) input) (output ++ UpdateResponse_ret rsp)
    end
  else mret (output, input).
Definition finish (input signature : option bytes) (authToken : option Aidl.HardwareAuthToken)
    (timestampToken : option Aidl.TimeStampToken) (confirmationToken : option bytes) : HAL HalOperation bytes :=
  op_handle ← validate_handle;
  auth_token ← liftc (opt_try_innto HardwareAuthToken_try_fromm authToken);
  let timestamp_token := wire_timestamp_token <$> timestampToken in
  '(output, input) ← match input with
    | Some input =>
      '(output, last) ← finish_batches (length input) (send_update op_handle auth_token timestamp_token) input [];
      mret (output, Some last)
    | None => mret ([], None)
    end;
  rsp ← then_invalidate (op_execute (S:=FinishResponse)
    {| FinishRequest_op_handle := op_handle; FinishRequest_input := input; FinishRequest_signature := signature;
       FinishRequest_auth_token := auth_token; FinishRequest_timestamp_token := timestamp_token;
       FinishRequest_confirmation_token := confirmationToken |});
  mret (output ++ FinishResponse_ret rsp).
Definition abort : HAL HalOperation unit :=
  op_handle ← validate_handle;
  _ ← then_invalidate (op_execute (S:=AbortResponse) {| AbortRequest_op_handle := op_handle |});
  mret tt.
(** When the binder object goes away. *)
Definition drop_operation (o : HalOperation) : T := ho_channel (ignore_err abort o).2.
End operation.
Arguments HalOperation T : clear implicits.

(** ** Framing keeps message boundaries *)

Section framing_laws.
Context {W R : Type} `{Write W} `{Read R}.

(** What has gone into a writer, and what a reader has left. *)
Class StreamView := { written : W → bytes; pending : R → bytes }.
(** [write_all] and [read_exact] deal in whole buffers; reading more than there is fails. *)
Class StreamLaws `{StreamView} : Prop := {
  write_all_Ok data w u w' : write_all data w = (Ok u, w') → written w' = written w ++ data;
  read_exact_Ok n r : (n <= length (pending r))%nat →
    ∃ r', read_exact n r = (Ok (take n (pending r)), r') ∧ pending r' = drop n (pending r);
  read_exact_Err n r : (length (pending r) < n)%nat → (read_exact n r).1 = Err tt
}.
Context `{SV : !StreamView} `{SL : !StreamLaws}.

Definition frame (data : bytes) : bytes := to_be_bytes 4 (len data) ++ data.
Fixpoint write_msgs (msgs : list bytes) : HAL W unit :=
  match msgs with [] => mret tt | m :: msgs' => _ ← write_msg m; write_msgs msgs' end.
Fixpoint read_msgs (n : nat) : HAL R (list bytes) :=
  match n with O => mret [] | S n' => m ← read_msg; ms ← read_msgs n'; mret (m :: ms) end.

Lemma stream_err_Ok {S A} (m : stM S unit A) e s a s' : stream_err m e s = (Ok a, s') ↔ m s = (Ok a, s').
Proof. unfold stream_err. destruct (m s) as [[] ?]; cbn; naive_solver. Qed.
Lemma write_msg_Ok m w u w' :
  write_msg m w = (Ok u, w') → is_u32 (len m) ∧ written w' = written w ++ frame m.
Proof.
  unfold write_msg. intros (l & w1 & Hl & Hw)%stM_bind_Ok. unfold liftr in Hl.
  case_decide; [|done]. injection Hl as <- <-. apply stM_bind_Ok in Hw as ([] & w2 & Hw1%stream_err_Ok & Hw2%stream_err_Ok).
  apply write_all_Ok in Hw1, Hw2. split; [done|]. by rewrite Hw2, Hw1, <- app_assoc.
Qed.
Lemma write_msgs_Ok msgs w u w' :
  write_msgs msgs w = (Ok u, w') → Forall (λ m, is_u32 (len m)) msgs ∧ written w' = written w ++ concat (frame <$> msgs).
Proof.
  revert w. induction msgs as [|m msgs IH]; intros w; cbn [write_msgs].
  - intros [= <- <-]. cbn. by rewrite app_nil_r.
  - intros (u1 & w1 & [Hm Hw]%write_msg_Ok & [Hms Hws]%IH)%stM_bind_Ok. split; [by constructor|].
    cbn. by rewrite Hws, Hw, app_assoc.
Qed.
Lemma read_frame m r rest :
  is_u32 (len m) → pending r = frame m ++ rest → ∃ r', read_msg r = (Ok m, r') ∧ pending r' = rest.
Proof.
  intros Hm Hr. unfold frame in Hr. rewrite <- app_assoc in Hr.
  pose proof (length_to_be_bytes 4 (len m)) as H4. unfold read_msg, mbind, stM_bind.
  destruct (read_exact_Ok 4 r) as (r1 & E1 & P1); [rewrite Hr, length_app; lia|].
  unfold stream_err. rewrite E1, Hr. cbn [map_err]. rewrite take_app_length' by done.
  rewrite Hr, drop_app_length' in P1 by done. rewrite from_to_be_bytes, as_unsigned_id by done. unfold len. rewrite Nat2Z.id.
  destruct (read_exact_Ok (length m) r1) as (r2 & E2 & P2); [rewrite P1, length_app; lia|].
  rewrite E2, P1. exists r2. rewrite take_app_length. split; [done|]. by rewrite P2, P1, drop_app_length.
Qed.

(** Messages survive a byte stream: whatever messages were written, a reader that receives the
    bytes written gets exactly those messages, in order, and has nothing left; and a reader that
    receives only part of a message reports an error instead of a shorter message. *)
Theorem framing_roundtrip msgs w w' r :
  write_msgs msgs w = (Ok tt, w') → pending r = drop (length (written w)) (written w') →
  (∃ r', read_msgs (length msgs) r = (Ok msgs, r') ∧ pending r' = []) ∧
  (∀ m rest r1, is_u32 (len m) → rest ≠ [] → pending r1 ++ rest = frame m →
     (read_msg r1).1 = Err (Exception_ TRANSACTION_FAILED)).
Proof.
  intros [Hms Hw]%write_msgs_Ok Hr. rewrite Hw, drop_app_length in Hr. split.
  - clear Hw w w'. revert r Hr. induction Hms as [|m msgs Hm _ IH]; intros r Hr; cbn in *; [by exists r|].
    destruct (read_frame m r _ Hm Hr) as (r1 & E1 & P1). destruct (IH r1 P1) as (r2 & E2 & P2).
    exists r2. unfold mbind, stM_bind. by rewrite E1, E2.
  - clear - SL. intros m rest r Hm Hne Hf. unfold read_msg, mbind, stM_bind, stream_err.
    pose proof (length_to_be_bytes 4 (len m)) as H4. assert (0 < length rest)%nat by (destruct rest; cbn; [done|lia]).
    pose proof (f_equal length Hf) as Hl. unfold frame in Hl. rewrite !length_app, H4 in Hl.
    destruct (decide (length (pending r) < 4)%nat) as [Hs|Hs].
    { pose proof (read_exact_Err 4 r Hs) as He. destruct (read_exact 4 r) as [[] ?]; cbn in *; congruence. }
    destruct (read_exact_Ok 4 r) as (r1 & E1 & P1); [lia|]. rewrite E1. cbn [map_err].
    assert (take 4 (pending r) = to_be_bytes 4 (len m)) as ->.
    { rewrite <- (take_app_le _ rest) by lia. rewrite Hf. unfold frame. by rewrite take_app_length'. }
    rewrite from_to_be_bytes, as_unsigned_id by done. unfold len. rewrite Nat2Z.id.
    pose proof (read_exact_Err (length m) r1) as He. rewrite P1, length_drop in He. specialize (He ltac:(lia)).
    destruct (read_exact (length m) r1) as [[] ?]; cbn in *; congruence.
Qed.
End framing_laws.

(** ** The life of an operation *)

Section lifecycle.
Context {T : Type} `{CH : SerializedChannel T} `{C : Ciborium} `{K : Aidl.Constants}.
Implicit Types o : HalOperation T.

(** Success keeps the handle, failure drops it. *)
Definition keeps_or_drops {A} (m : HAL (HalOperation T) A) : Prop := ∀ o,
  match m o with
  | (Ok _, o') => ho_handle o' = ho_handle o
  | (Err _, o') => ho_handle o' = None
  | (Panic, _) => True
  end.
Lemma keeps_op_execute {R S} `{Message R} `{Message S} (req : R) : keeps_or_drops (op_execute (S:=S) req).
Proof. intros o. unfold op_execute. by destruct (channel_execute req (ho_channel o)) as [[] t]. Qed.
Lemma keeps_inspect {A} (m : HAL (HalOperation T) A) : keeps_or_drops m → keeps_or_drops (inspect_err_invalidate m).
Proof. intros Hm o. specialize (Hm o). unfold inspect_err_invalidate. by destruct (m o) as [[] ?]. Qed.
Lemma keeps_ret {A} (a : A) : keeps_or_drops (mret a).
Proof. by intros o. Qed.
Lemma keeps_panic {A} : keeps_or_drops (liftr (Panic (A:=A))).
Proof. by intros o. Qed.
Lemma keeps_bind {A B} (m : HAL (HalOperation T) A) (f : A → HAL (HalOperation T) B) :
  keeps_or_drops m → (∀ a, keeps_or_drops (f a)) → keeps_or_drops (m ≫= f).
Proof.
  intros Hm Hf o. specialize (Hm o). unfold mbind, stM_bind. destruct (m o) as [[a| |] o1]; [|done..].
  specialize (Hf a o1). destruct (f a o1) as [[] o2]; congruence.
Qed.
#[local] Hint Resolve keeps_op_execute keeps_inspect keeps_ret keeps_panic keeps_bind : core.
Lemma keeps_batches {A} fuel (send : bytes → HAL (HalOperation T) A) input :
  (∀ b, keeps_or_drops (send b)) → keeps_or_drops (batches fuel send input).
Proof. intros Hs. revert input. induction fuel; intros []; cbn [batches]; auto 6. Qed.
Lemma keeps_finish_batches fuel send input output :
  (∀ b, keeps_or_drops (send b)) → keeps_or_drops (finish_batches fuel send input output).
Proof. intros Hs. revert input output. induction fuel; intros; cbn [finish_batches]; case_decide; auto 6. Qed.
Lemma then_invalidate_drops {A} (m : HAL (HalOperation T) A) o :
  match then_invalidate m o with (Panic, _) => True | (_, o') => ho_handle o' = None end.
Proof. unfold then_invalidate. by destruct (m o) as [[] ?]. Qed.

Definition token_ok (authToken : option Aidl.HardwareAuthToken) : Prop :=
  is_ok (opt_try_innto HardwareAuthToken_try_fromm authToken) = true.
#[export] Instance token_ok_dec a : Decision (token_ok a).
Proof. unfold token_ok. apply _. Defined.
Lemma liftc_bind {A B} (r : Converted A) (f : A → HAL (HalOperation T) B) a o :
  r = Ok a → (liftc r ≫= f) o = f a o.
Proof. by intros ->. Qed.
Lemma validate_bind {A} (f : Z → HAL (HalOperation T) A) h o :
  ho_handle o = Some h → (validate_handle ≫= f) o = f h o.
Proof. intros Hh. unfold mbind, stM_bind, validate_handle. by rewrite Hh. Qed.
Lemma dead_bind {A} (f : Z → HAL (HalOperation T) A) o :
  ho_handle o = None →
  (validate_handle ≫= f) o = (Err (ServiceSpecific (Aidl.error_number InvalidOperationHandle)), o).
Proof. intros Hh. unfold mbind, stM_bind, validate_handle. by rewrite Hh. Qed.

(** The methods of an operation. *)
Inductive op_method : Type :=
| M_updateAad (input : bytes) (authToken : option Aidl.HardwareAuthToken) (tst : option Aidl.TimeStampToken)
| M_update (input : bytes) (authToken : option Aidl.HardwareAuthToken) (tst : option Aidl.TimeStampToken)
| M_finish (input signature : option bytes) (authToken : option Aidl.HardwareAuthToken)
    (tst : option Aidl.TimeStampToken) (confirmationToken : option bytes)
| M_abort.
Definition call_method (m : op_method) : HAL (HalOperation T) bytes :=
  match m with
  | M_updateAad input a t => _ ← updateAad input a t; mret []
  | M_update input a t => update input a t
  | M_finish input s a t c => finish input s a t c
  | M_abort => _ ← abort; mret []
  end.
Definition ends_operation (m : op_method) : bool := match m with M_finish _ _ _ _ _ | M_abort => true | _ => false end.
Definition method_token (m : op_method) : option Aidl.HardwareAuthToken :=
  match m with M_updateAad _ a _ | M_update _ a _ | M_finish _ _ a _ _ => a | M_abort => None end.
(** A client calls methods one after the other. *)
Inductive op_step : HalOperation T → HalOperation T → Prop :=
| op_step_call m o r o' : call_method m o = (r, o') → r ≠ Panic → op_step o o'.

Lemma call_dead m o :
  ho_handle o = None → call_method m o = (Err (ServiceSpecific (Aidl.error_number InvalidOperationHandle)), o).
Proof.
  intros Hh. destruct m; cbn [call_method]; unfold updateAad, update, finish, abort; try by apply dead_bind.
  all: unfold mbind at 1, stM_bind; by rewrite dead_bind.
Qed.

Lemma update_methods_keep m o h :
  ends_operation m = false → ho_handle o = Some h → token_ok (method_token m) →
  match call_method m o with
  | (Ok _, o') => ho_handle o' = Some h
  | (Err _, o') => ho_handle o' = None
  | (Panic, _) => True
  end.
Proof.
  intros Hm Hh Ht. unfold token_ok in Ht. destruct (opt_try_innto _ _) as [tok| |] eqn:Hc in Ht; try done.
  assert (∀ A (k : HAL (HalOperation T) A), keeps_or_drops k →
    match k o with (Ok _, o') => ho_handle o' = Some h | (Err _, o') => ho_handle o' = None | (Panic, _) => True end) as Hk.
  { intros A k Hk. specialize (Hk o). by rewrite Hh in Hk. }
  destruct m; try done; cbn [call_method method_token] in *; unfold updateAad, update.
  - unfold mbind at 1, stM_bind at 1. rewrite (validate_bind _ h) by done. rewrite (liftc_bind _ _ tok) by done.
    match goal with |- context [match ?k o with _ => _ end] =>
      assert (keeps_or_drops k) as Hb by (apply keeps_bind; [apply keeps_batches|]; auto);
      specialize (Hk _ k Hb); by destruct (k o) as [[] ?] end.
  - rewrite (validate_bind _ h) by done. rewrite (liftc_bind _ _ tok) by done. apply Hk.
    apply keeps_bind; [apply keeps_batches; intros; unfold send_update|]; auto.
Qed.

Lemma finish_drops input sig authToken tst conf o tok :
  opt_try_innto HardwareAuthToken_try_fromm authToken = Ok tok →
  match finish input sig authToken tst conf o with (Panic, _) => True | (_, o') => ho_handle o' = None end.
Proof.
  intros Hc. destruct (ho_handle o) as [h|] eqn:Hh; [|unfold finish; by rewrite dead_bind].
  unfold finish. rewrite (validate_bind _ h) by done. rewrite (liftc_bind _ _ tok) by done.
  match goal with |- context [(?k ≫= ?f) o] =>
    assert (keeps_or_drops k) as Hk; [|unfold mbind at 1, stM_bind at 1; specialize (Hk o);
      destruct (k o) as [[[out last]| |] o1]; [|done..]] end.
  { destruct input as [input|]; [apply keeps_bind; [apply keeps_finish_batches; intros; unfold send_update|intros []]|];
      auto. }
  match goal with |- context [(then_invalidate ?k ≫= _) o1] =>
    pose proof (then_invalidate_drops k o1) as Hd; unfold mbind at 1, stM_bind at 1;
    by destruct (then_invalidate k o1) as [[] ?] end.
Qed.
Lemma abort_drops o : match abort o with (Panic, _) => True | (_, o') => ho_handle o' = None end.
Proof.
  destruct (ho_handle o) as [h|] eqn:Hh; [|unfold abort; by rewrite dead_bind]. unfold abort.
  rewrite (validate_bind _ h) by done.
  match goal with |- context [(then_invalidate ?k ≫= _) o] =>
    pose proof (then_invalidate_drops k o) as Hd; unfold mbind at 1, stM_bind at 1;
    by destruct (then_invalidate k o) as [[] ?] end.
Qed.

Lemma end_methods_drop m o :
  ends_operation m = true → token_ok (method_token m) →
  match call_method m o with (Panic, _) => True | (_, o') => ho_handle o' = None end.
Proof.
  intros Hm Ht. unfold token_ok in Ht. destruct (opt_try_innto _ _) as [tok| |] eqn:Hc in Ht; try done.
  destruct m; try done; cbn [call_method method_token] in *; [by eapply finish_drops|].
  pose proof (abort_drops o) as Ha. unfold mbind at 1, stM_bind at 1. by destruct (abort o) as [[] ?].
Qed.

(** A token that does not convert is noticed before anything is sent. *)
Lemma bad_token m o h :
  ho_handle o = Some h → ¬ token_ok (method_token m) →
  ∃ e, call_method m o = (Err (failed_conversion e), o) ∧
       opt_try_innto HardwareAuthToken_try_fromm (method_token m) = Err e.
Proof.
  intros Hh Ht. unfold token_ok in Ht.
  assert (∃ e, opt_try_innto HardwareAuthToken_try_fromm (method_token m) = Err e) as [e He].
  { destruct (method_token m) as [a|]; [|done]. cbn in *. unfold HardwareAuthToken_try_fromm, enum_try_fromm in *.
    destruct (try_from_n _); cbn in *; [done|eauto]. }
  exists e. split; [|done]. destruct m; try done; cbn [call_method method_token] in *; unfold updateAad, update, finish.
  - unfold mbind at 1, stM_bind at 1. rewrite (validate_bind _ h) by done. unfold liftc. by rewrite He.
  - rewrite (validate_bind _ h) by done. unfold liftc. by rewrite He.
  - rewrite (validate_bind _ h) by done. unfold liftc. by rewrite He.
Qed.

Lemma op_step_handle o o' : op_step o o' → ho_handle o' = ho_handle o ∨ ho_handle o' = None.
Proof.
  intros Hs. destruct Hs as [m o r o' Hm Hr]. destruct (ho_handle o) as [h|] eqn:Hh; [|rewrite (call_dead m) in Hm by done; injection Hm as <- <-; auto].
  destruct (decide (token_ok (method_token m))) as [Ht|Ht].
  - destruct (ends_operation m) eqn:He.
    + pose proof (end_methods_drop m o He Ht) as Hd. rewrite Hm in Hd. by destruct r; auto.
    + pose proof (update_methods_keep m o h He Hh Ht) as Hk. rewrite Hm in Hk. by destruct r; auto.
  - destruct (bad_token m o h Hh Ht) as (e & E & _). rewrite E in Hm. injection Hm as <- <-. auto.
Qed.

(** C17: The life of an operation object, whatever methods its client calls: the handle it holds
    never becomes another one; once it is gone, every method fails with an invalid handle
    error and sends nothing, and dropping the object sends nothing; finishing or aborting
    removes the handle, and so does any failure of an update, so that the trusted application is
    never asked to go on with an operation that has failed. The exception is a failure to convert
    the authentication token, on which the object is left as it is. *)
Theorem operation_lifecycle o o' :
  rtc op_step o o' →
  (ho_handle o' = ho_handle o ∨ ho_handle o' = None) ∧
  (ho_handle o' = None →
     drop_operation o' = ho_channel o' ∧
     ∀ m, call_method m o' = (Err (ServiceSpecific (Aidl.error_number InvalidOperationHandle)), o')) ∧
  (∀ m r o'', call_method m o' = (r, o'') → r ≠ Panic →
     if decide (token_ok (method_token m))
     then ends_operation m = true ∨ is_ok r = false → ho_handle o'' = None
     else o'' = o' ∧ is_ok r = false).
Proof.
  intros Hs. split_and!.
  - induction Hs as [o|o o1 o2 H1 _ IH]; [by left|]. apply op_step_handle in H1. destruct H1, IH; [left|right..]; congruence.
  - intros Hh. split; [|by intros; apply call_dead]. unfold drop_operation, ignore_err, abort. by rewrite dead_bind.
  - clear Hs. intros m r o'' Hm Hr. case_decide as Ht.
    + intros Hor. destruct (ends_operation m) eqn:He.
      * pose proof (end_methods_drop m o' He Ht) as Hd. rewrite Hm in Hd. by destruct r.
      * destruct Hor as [|Hf]; [done|]. destruct (ho_handle o') as [h|] eqn:Hh.
        -- pose proof (update_methods_keep m o' h He Hh Ht) as Hk. rewrite Hm in Hk. by destruct r.
        -- rewrite call_dead in Hm by done. by injection Hm as <- <-.
    + destruct (ho_handle o') as [h|] eqn:Hh.
      * destruct (bad_token m o' h Hh Ht) as (e & E & _). rewrite E in Hm. by injection Hm as <- <-.
      * rewrite call_dead in Hm by done. by injection Hm as <- <-.
Qed.
End lifecycle.

(** ** Batches *)

(** [l] in pieces of [n], the last of which may be shorter; and all but the last piece, with it. *)
Fixpoint chunks_upto (fuel n : nat) (l : bytes) : list bytes :=
  match l, fuel with
  | [], _ | _, O => []
  | _, S fuel' => take n l :: chunks_upto fuel' n (drop n l)
  end.
Definition chunks (n : nat) (l : bytes) : list bytes := chunks_upto (length l) n l.
Fixpoint split_last_upto (fuel n : nat) (l : bytes) : list bytes * bytes :=
  match fuel with
  | O => ([], l)
  | S fuel' => if decide (n < length l)%nat
               then let '(cs, last) := split_last_upto fuel' n (drop n l) in (take n l :: cs, last)
               else ([], l)
  end.
Definition split_last (n : nat) (l : bytes) : list bytes * bytes := split_last_upto (length l) n l.

Lemma chunks_spec n l : (0 < n)%nat → concat (chunks n l) = l ∧ Forall (λ c, 0 < length c <= n)%nat (chunks n l).
Proof.
  intros Hn. unfold chunks. assert (length l <= length l)%nat as Hf by lia. revert Hf. generalize (length l) at 2 3 4 as fuel.
  intros fuel. revert l.
  induction fuel as [|fuel IH]; intros l Hf; (destruct l as [|b l]; [done|]); [cbn in Hf; lia|].
  cbn [chunks_upto]. destruct (IH (drop n (b :: l))) as [E Hc].
  { rewrite length_drop. cbn in *. lia. }
  cbn [concat]. rewrite E, take_drop. split; [done|]. constructor; [|done].
  rewrite length_take. cbn. lia.
Qed.
Lemma split_last_spec n l : (0 < n)%nat →
  concat (split_last n l).1 ++ (split_last n l).2 = l ∧
  Forall (λ c, length c = n) (split_last n l).1 ∧ (length (split_last n l).2 <= n)%nat.
Proof.
  intros Hn. unfold split_last. assert (length l <= length l)%nat as Hf by lia. revert Hf.
  generalize (length l) at 2 3 4 5 6 as fuel. intros fuel. revert l.
  induction fuel as [|fuel IH]; intros l Hf; cbn [split_last_upto].
  { destruct l; [|cbn in Hf; lia]. cbn. repeat constructor. lia. }
  case_decide as Hl; [|cbn; split_and!; [done|done|lia]].
  destruct (IH (drop n l)) as (E & Hc & Hlast). { rewrite length_drop. lia. }
  destruct (split_last_upto fuel n (drop n l)) as [cs last]. cbn in *. rewrite <- app_assoc, E, take_drop.
  split_and!; [done| |done]. constructor; [|done]. rewrite length_take. lia.
Qed.

Section batching.
Context {T : Type} `{CH : SerializedChannel T} `{C : Ciborium}.

(** One request for each piece, until one fails. *)
Fixpoint send_all {A} (send : bytes → HAL (HalOperation T) A) (cs : list bytes) : HAL (HalOperation T) (list A) :=
  match cs with
  | [] => mret []
  | c :: cs' => rsp ← send c; rsps ← send_all send cs'; mret (rsp :: rsps)
  end.

Lemma inspect_op_execute {R S} `{Message R} `{Message S} (req : R) (o : HalOperation T) :
  inspect_err_invalidate (op_execute (S:=S) req) o = op_execute req o.
Proof. unfold inspect_err_invalidate, op_execute. by destruct (channel_execute req (ho_channel o)) as [[] ?]. Qed.

(** The loops end, and send what they should. *)
Lemma batches_chunks {A} (send : bytes → HAL (HalOperation T) A) input o :
  0 < MAX_DATA_SIZE → (∀ c o, inspect_err_invalidate (send c) o = send c o) →
  batches (length input) send input o = send_all send (chunks (Z.to_nat MAX_DATA_SIZE) input) o.
Proof.
  intros Hmax Hs. unfold chunks. assert (length input <= length input)%nat as Hf by lia. revert Hf.
  generalize (length input) at 2 3 4 as fuel. intros fuel. revert input o.
  induction fuel as [|fuel IH]; intros input o Hf; (destruct input as [|b input]; [done|]); [cbn in Hf; lia|].
  cbn [batches chunks_upto send_all]. set (l := b :: input) in *. set (n := Z.to_nat MAX_DATA_SIZE).
  assert (take (Z.to_nat (Z.min MAX_DATA_SIZE (len l))) l = take n l ∧
          drop (Z.to_nat (Z.min MAX_DATA_SIZE (len l))) l = drop n l) as [-> ->].
  { unfold len. destruct (decide (MAX_DATA_SIZE ≤ Z.of_nat (length l))).
    - rewrite Z.min_l by lia. done.
    - rewrite Z.min_r, Nat2Z.id by lia. by rewrite firstn_all, skipn_all, take_ge, drop_ge by lia. }
  unfold mbind at 1 3, stM_bind at 1 3. rewrite Hs. destruct (send (take n l) o) as [[a| |] o1]; [|done..].
  unfold mbind, stM_bind. rewrite IH; [done|]. rewrite length_drop. subst l. cbn in *. lia.
Qed.
Lemma finish_batches_chunks (send : bytes → HAL (HalOperation T) UpdateResponse) input output o :
  0 < MAX_DATA_SIZE → (∀ c o, inspect_err_invalidate (send c) o = send c o) →
  finish_batches (length input) send input output o =
  (rsps ← send_all send (split_last (Z.to_nat MAX_DATA_SIZE) input).1;
   mret (output ++ concat (UpdateResponse_ret <$> rsps), (split_last (Z.to_nat MAX_DATA_SIZE) input).2)) o.
Proof.
  intros Hmax Hs. unfold split_last. assert (length input <= length input)%nat as Hf by lia. revert Hf.
  generalize (length input) at 2 3 4 5 as fuel. intros fuel. revert input output o.
  set (n := Z.to_nat MAX_DATA_SIZE).
  induction fuel as [|fuel IH]; intros input output o Hf; cbn [finish_batches split_last_upto].
  { destruct input; [|cbn in Hf; lia]. rewrite decide_False by (unfold len; cbn [length]; lia). cbn. unfold mbind, stM_bind. cbn. by rewrite app_nil_r. }
  unfold len. case_decide as Hl; [rewrite decide_True by lia|rewrite decide_False by lia; cbn; unfold mbind, stM_bind; cbn; by rewrite app_nil_r].
  specialize (IH (drop n input)). rewrite length_drop in IH.
  destruct (split_last_upto fuel n (drop n input)) as [cs last]. cbn [fst snd send_all] in *.
  fold n. unfold mbind, stM_bind in *. rewrite Hs. destruct (send (take n input) o) as [[a| |] o1]; [|done..].
  rewrite IH by lia. destruct (send_all send cs o1) as [[rsps| |] o2]; [|done..]. cbn. by rewrite app_assoc.
Qed.
End batching.

(** ** Streams in memory, and a channel that does not answer *)

Module SampleChannel.
Import SampleAidl.
#[export] Instance buffer_write : Write bytes := {| write_all data := λ w, (Ok tt, w ++ data) |}.
#[export] Instance buffer_read : Read bytes := {|
  read_exact n := λ r, if decide (n <= length r)%nat then (Ok (take n r), drop n r) else (Err tt, r) |}.
#[export] Instance buffer_view : StreamView (W:=bytes) (R:=bytes) := {| written := id; pending := id |}.
#[export] Instance buffer_laws : StreamLaws (W:=bytes) (R:=bytes).
Proof.
  split; unfold id; cbn.
  - by intros data w u w' [= <- <-].
  - intros n r Hn. rewrite decide_True by done. eauto.
  - intros n r Hn. by rewrite decide_False by lia.
Qed.
Definition stream : bytes := (write_msgs (W:=bytes) [bytes_of_string "abc"; []] []).2.
Lemma framing_roundtrip_witness :
  ∃ r', read_msgs 2 stream = (Ok [bytes_of_string "abc"; []], r') ∧ pending (W:=bytes) r' = [].
Proof.
  apply (framing_roundtrip [bytes_of_string "abc"; []] ([] : bytes) stream stream); vm_compute; reflexivity.
Defined.

(** The messages sent are kept. *)
#[export] Instance silent : SerializedChannel (list bytes) := {| MAX_SIZE := 4096; execute data := λ log, (Ok [], log ++ [data]) |}.
#[local] Instance cbor : Ciborium := Rfc8949.codec.
Definition aborted := call_method M_abort (mk_hal_operation ([] : list bytes) (Some 5)).
Lemma operation_lifecycle_witness :
  len (ho_channel aborted.2) = 1 ∧
  call_method M_abort aborted.2 = (Err (ServiceSpecific (-28)), aborted.2) ∧
  drop_operation aborted.2 = ho_channel aborted.2.
Proof.
  destruct (operation_lifecycle (mk_hal_operation ([] : list bytes) (Some 5)) aborted.2) as (_ & Hd & _).
  - apply rtc_once. apply (op_step_call M_abort _ aborted.1); [vm_compute; reflexivity|vm_compute; discriminate].
  - split; [vm_compute; reflexivity|]. destruct Hd as [E1 E2]; [vm_compute; reflexivity|]. split; [apply E2|exact E1].
Defined.

(** The exchange of the unit tests of the service: what is sent for a request without
    parameters, and what its response means. *)
Example generate_key_request_bytes :
  encode_request {| GenerateKeyRequest_key_params := []; GenerateKeyRequest_attestation_key := None |} =
  Ok (u8_of <$> [0x82; 0x13; 0x82; 0x80; 0x80]).
Proof. vm_compute. reflexivity. Qed.
Example generate_key_response_bytes :
  decode_response (u8_of <$> [0x82; 0x00; 0x81; 0x82; 0x13; 0x81; 0x83; 0x41; 0x01; 0x80; 0x80]) =
  Ok {| GenerateKeyResponse_ret := {| KeyCreationResult_key_blob := [u8_of 1];
          KeyCreationResult_key_characteristics := []; KeyCreationResult_certificate_chain := [] |} |}.
Proof. vm_compute. reflexivity. Qed.
Example generate_key_error_bytes :
  decode_response (S:=GenerateKeyResponse) (u8_of <$> [0x82; 0x21; 0x80]) = Err (ServiceSpecific (discr UnsupportedPurpose)).
Proof. vm_compute. reflexivity. Qed.
End SampleChannel.
