(* ===== verification/HalSpec.v ===== *)
(** * The HAL service and the trusted application together

    What a method of the HAL service does when its channel leads to the trusted application of
    [Dispatch]: a request that fits the channel is processed exactly once and its outcome is
    that of the method; large inputs of operations arrive in full, in pieces that always fit;
    and which failures leave the trusted application with an operation that nobody can reach. *)

From S2P Require Import Prelude Wire TagInfo TagLegacy CryptoTypes TagParams TagGen TagBegin Crypto.
From S2P Require Import Codec CborRef WireCodec WireSafe Keyblob TaState EcKeys Asn1 Cert Keys Rkp.
From S2P Require Import Operation OperationSpec Dispatch HalTypes HalEnv Hal.

(** ** Sizes of requests *)

Section sizes.
Context `{C : Ciborium} `{CS : !CiboriumSize}.

Definition small_auth_token (t : HardwareAuthToken) : Prop := len (hat_mac t) ≤ 32.
Definition small_timestamp_token (t : TimeStampToken) : Prop := len (tst_mac t) ≤ 32.

Lemma head_size_small n : n < 256 → head_size n ≤ 2.
Proof. intros. unfold head_size. repeat case_decide; lia. Qed.
Lemma into_vec_size {A} (c : Codec A) a b v :
  into_vec c a = Ok b → to_cbor_value c a = Ok v → vints v → vsize v < 2 ^ 64 → len b ≤ vsize v.
Proof. unfold into_vec. intros Hb Hv Hi Hs. rewrite Hv in Hb. cbn in Hb. apply ok_or_Ok in Hb. by apply into_writer_size. Qed.

(** Arrays of a few elements have a head of one byte. *)
Ltac short_heads :=
  repeat match goal with
  | |- context [head_size (len (@cons ?A ?x ?l))] =>
    change (head_size (len (@cons A x l))) with 1
  | |- context [head_size (len (@nil ?A))] => change (head_size (len (@nil A))) with 1
  end.
Ltac head_ranges :=
  repeat match goal with
  | |- context [head_size ?n] =>
    lazymatch goal with H : 1 ≤ head_size n ≤ 9 |- _ => fail | _ => pose proof (head_size_range n) end
  end.

(** Sizes of the parts that operations send along. *)
Definition opt_size {A} (c : Codec A) (o : option A) (n : Z) : Prop :=
  ∀ v, to_cbor_value (option_codec c) o = Ok v → 1 ≤ vsize v ≤ n.
Lemma opt_auth_token_size o : from_option small_auth_token True o → opt_size HardwareAuthToken_codec o 74.
Proof.
  intros Ho v. destruct o as [[ch uid aid ty ts mac]|]; cbn; intros [= <-]; cbn; [|done].
  unfold small_auth_token in Ho. cbn in Ho. pose proof (head_size_small (len mac) ltac:(lia)).
  assert (head_size (int_arg (HardwareAuthenticatorType_discr ty)) = 1) by (by destruct ty).
  short_heads. head_ranges. pose proof (len_nonneg mac). lia.
Qed.
Lemma opt_timestamp_token_size o : from_option small_timestamp_token True o → opt_size TimeStampToken_codec o 55.
Proof.
  intros Ho v. destruct o as [[ch ts mac]|]; cbn; intros [= <-]; cbn; [|done].
  unfold small_timestamp_token in Ho. cbn in Ho. pose proof (head_size_small (len mac) ltac:(lia)).
  short_heads. head_ranges. pose proof (len_nonneg mac). lia.
Qed.
Lemma opt_bytes_size o n : from_option (λ b, len b ≤ n) True o → 0 ≤ n < 256 → opt_size bytes_codec o (n + 3).
Proof.
  intros Ho Hn v. destruct o as [b|]; cbn; intros [= <-]; cbn; [|short_heads; lia]. cbn in Ho. pose proof (head_size_small (len b) ltac:(lia)).
  short_heads. head_ranges. pose proof (len_nonneg b). lia.
Qed.
Lemma opt_input_size o n : from_option (λ b, len b ≤ n) True o → 0 ≤ n → opt_size bytes_codec o (n + 10).
Proof.
  intros Ho Hn v. destruct o as [b|]; cbn; intros [= <-]; cbn; [|short_heads; lia]. cbn in Ho.
  short_heads. head_ranges. pose proof (len_nonneg b). lia.
Qed.

Lemma update_request_size h input auth_token timestamp_token v :
  from_option small_auth_token True auth_token → from_option small_timestamp_token True timestamp_token →
  to_cbor_value PerformOpReq_codec (Req_OperationUpdate {| UpdateRequest_op_handle := h; UpdateRequest_input := input;
    UpdateRequest_auth_token := auth_token; UpdateRequest_timestamp_token := timestamp_token |}) = Ok v →
  vsize v < len input + MAX_CBOR_OVERHEAD.
Proof.
  intros Ha%opt_auth_token_size Ht%opt_timestamp_token_size.
  cbn -[option_codec HardwareAuthToken_codec TimeStampToken_codec].
  intros (v1 & Hv1 & [= <-])%res_bind_Ok. apply res_bind_Ok in Hv1 as (vs & Hv1 & [= <-]).
  apply res_bind_Ok in Hv1 as (v2 & Hv1 & [= <-]). apply res_bind_Ok in Hv1 as (v3 & Hv1 & [= <-]).
  apply res_bind_Ok in Hv1 as (va & Hva%Ha & Hv1). apply res_bind_Ok in Hv1 as (v4 & Hv1 & [= <-]).
  apply res_bind_Ok in Hv1 as (vt & Hvt%Ht & [= <-]). cbn [vsize foldr]. short_heads. head_ranges.
  change (head_size (int_arg (KeyMintOperation_discr Op_OperationUpdate))) with 2. unfold MAX_CBOR_OVERHEAD. lia.
Qed.
Lemma finish_request_size h input signature auth_token timestamp_token confirmation_token n v :
  from_option (λ b, len b ≤ n) True input → 0 ≤ n →
  from_option (λ b, len b ≤ 132) True signature → from_option (λ b, len b ≤ 32) True confirmation_token →
  from_option small_auth_token True auth_token → from_option small_timestamp_token True timestamp_token →
  to_cbor_value PerformOpReq_codec (Req_OperationFinish {| FinishRequest_op_handle := h; FinishRequest_input := input;
    FinishRequest_signature := signature; FinishRequest_auth_token := auth_token;
    FinishRequest_timestamp_token := timestamp_token; FinishRequest_confirmation_token := confirmation_token |}) = Ok v →
  vsize v < n + MAX_CBOR_OVERHEAD.
Proof.
  intros Hin Hn Hs Hc Ha%opt_auth_token_size Ht%opt_timestamp_token_size.
  apply opt_input_size in Hin; [|done]. apply opt_bytes_size in Hs; [|lia]. apply opt_bytes_size in Hc; [|lia].
  cbn -[option_codec HardwareAuthToken_codec TimeStampToken_codec].
  intros (v1 & Hv1 & [= <-])%res_bind_Ok. apply res_bind_Ok in Hv1 as (vs & Hv1 & [= <-]).
  apply res_bind_Ok in Hv1 as (v2 & Hv1 & [= <-]).
  apply res_bind_Ok in Hv1 as (vi & Hvi%Hin & Hv1). apply res_bind_Ok in Hv1 as (v3 & Hv1 & [= <-]).
  apply res_bind_Ok in Hv1 as (vg & Hvg%Hs & Hv1). apply res_bind_Ok in Hv1 as (v4 & Hv1 & [= <-]).
  apply res_bind_Ok in Hv1 as (va & Hva%Ha & Hv1). apply res_bind_Ok in Hv1 as (v5 & Hv1 & [= <-]).
  apply res_bind_Ok in Hv1 as (vt & Hvt%Ht & Hv1). apply res_bind_Ok in Hv1 as (v6 & Hv1 & [= <-]).
  apply res_bind_Ok in Hv1 as (vc & Hvc%Hc & [= <-]). cbn [vsize foldr]. short_heads. head_ranges.
  change (head_size (int_arg (KeyMintOperation_discr Op_OperationFinish))) with 2. unfold MAX_CBOR_OVERHEAD. lia.
Qed.
End sizes.

(** ** Calls *)

Section calls.
Context `{Tgt : Target} `{ACC : AccumulatingOperation} `{EMIT : EmittingOperation} `{AAD : AadOperation}
  `{HM : !Hmac} `{CM : !AesCmac} `{AES : !Aes} `{DES : !Des} `{HK : Hkdf} `{Rn : Rng}
  `{M : !SecureDeletionSecretManager}
  `{KM : RetrieveKeyMaterial} `{LK : LegacyKeyHandler} `{SHA : Sha256} `{CTE : ConstTimeEq}
  `{C : Ciborium} `{K : Coset}
  `{RSA : !Rsa} `{EC : !Ec} `{PK : PublicKeys} `{I : ImportTraits} `{KG : !KeyGenerators}
  `{X : X509} `{D : DerCrate} `{CC : !CertCodecs} `{WC : WrapperCodecs}
  `{SI : RetrieveCertSigningInfo} `{AI : RetrieveAttestationIds} `{UI : UniqueIdHbk}
  `{CK : CoseKeys} `{CM0 : CoseMac0s} `{RPC : RetrieveRpcArtifacts} `{TC : TaggedCbor}
  `{SW : StorageKeyWrapper} `{A : Aidl.Constants}
  {T : Type} `{CH : SerializedChannel T}.

(** A channel behind which a trusted application answers. *)
Class Connection := { ta_of : T → KeyMintDevice; downgrade : bool }.
(** What the trusted application answers arrives, and nothing else happens to it. *)
Class ConnectionLaws `{Connection} : Prop := {
  execute_process data t b d' :
    process downgrade data (ta_of t) = (Ok b, d') →
    ∃ t', execute data t = (Ok b, t') ∧ ta_of t' = d'
}.
Context `{CN : !Connection} `{CNL : !ConnectionLaws} `{CL : !CiboriumLaws}.

Section call.
Context {R S : Type} `{MR : Message R} `{MS : Message S} `{CA : !Method R S} `{CAL : !MethodLaws R S}.

(** The request fits the channel. *)
Definition request_fits (req : R) : Prop :=
  ∀ b, into_vec PerformOpReq_codec (wrap_req req) = Ok b → len b ≤ MAX_SIZE.

Lemma channel_execute_process (req : R) t rsp d' :
  PerformOpReq_wf (wrap_req req) → request_fits req →
  process_req downgrade (wrap_req req) (ta_of t) = (Ok rsp, d') → PerformOpResponse_wf rsp →
  ∃ t', channel_execute (S:=S) req t = (rsp_outcome rsp, t') ∧ ta_of t' = d'.
Proof.
  intros Hwf Hfit Hp Hrwf. unfold channel_execute. rewrite encode_request_message.
  destruct (slice_roundtrip PerformOpReq_codec PerformOpReq_wf 6 (wrap_req req)) as (b & Hb & Hfrom);
    [apply PerformOpReq_codec_ok|lia|done|]. rewrite Hb. specialize (Hfit b Hb).
  destruct (slice_roundtrip PerformOpResponse_codec PerformOpResponse_wf 9 rsp) as (b' & Hb' & Hfrom');
    [apply PerformOpResponse_codec_ok|lia|done|].
  assert (process downgrade b (ta_of t) = (Ok b', d')) as Hproc.
  { unfold process, mbind, stM_bind. rewrite Hfrom, Hp. unfold liftr, encode_response. by rewrite Hb'. }
  apply execute_process in Hproc as (t' & He & Hd'). exists t'. split; [|done].
  unfold mbind, stM_bind, liftr. cbn [map_err]. rewrite bool_decide_eq_false_2 by lia. cbn [reject_if]. rewrite He.
  by rewrite (decode_response_message b' rsp).
Qed.

Lemma channel_execute_oversized (req : R) t :
  PerformOpReq_wf (wrap_req req) → ¬ request_fits req →
  channel_execute (S:=S) req t = (Err (ServiceSpecific (discr InvalidInputLength)), t).
Proof.
  intros Hwf Hfit. unfold channel_execute. rewrite encode_request_message.
  destruct (slice_roundtrip PerformOpReq_codec PerformOpReq_wf 6 (wrap_req req)) as (b & Hb & _);
    [apply PerformOpReq_codec_ok|lia|done|]. rewrite Hb. unfold mbind, stM_bind, liftr. cbn [map_err].
  rewrite bool_decide_eq_true_2; [done|]. apply Z.nle_gt. intros Hle. apply Hfit. intros b' Hb'.
  rewrite Hb in Hb'. by injection Hb' as <-.
Qed.

(** C15: A method call of the HAL service is a call of the trusted application: if its request fits the
    channel, the request is processed once, and the outcome of the method is the results
    that the trusted application gave, of the right kind, or the error code it gave; if it does not
    fit, the method fails and the trusted application does not hear of it. *)
Theorem hal_call_refines (req : R) t :
  PerformOpReq_wf (wrap_req req) →
  (∀ rsp d', request_fits req →
     process_req downgrade (wrap_req req) (ta_of t) = (Ok rsp, d') → PerformOpResponse_wf rsp →
     ∃ t', ta_of t' = d' ∧
       match PerformOpResponse_rsp rsp with
       | Some m => ∃ s : S, m = wrap_rsp s ∧ channel_execute req t = (Ok s, t')
       | None => PerformOpResponse_error_code rsp ≠ 0 →
                 channel_execute (S:=S) req t = (Err (ServiceSpecific (PerformOpResponse_error_code rsp)), t')
       end) ∧
  (¬ request_fits req → channel_execute (S:=S) req t = (Err (ServiceSpecific (discr InvalidInputLength)), t)).
Proof.
  intros Hwf. split.
  - intros rsp d' Hfit Hp Hrwf. destruct (channel_execute_process req t rsp d') as (t' & He & Hd'); [done..|].
    exists t'. split; [done|]. apply process_req_answers in Hp. unfold answers, rsp_code in Hp. rewrite He. unfold rsp_outcome.
    destruct (PerformOpResponse_rsp rsp) as [m|]; cbn [mbind option_bind].
    + destruct Hp as [-> Hc]. destruct (unwrap_rsp m) as [s|] eqn:Hu.
      * exists s. split; [by apply unwrap_rsp_Some|done].
      * apply unwrap_rsp_None in Hu. destruct Hu. rewrite Hc, call_codes. unfold code. by rewrite wrap_req_enc.
    + intros Hne. by rewrite bool_decide_eq_true_2.
  - by apply channel_execute_oversized.
Qed.

(** The outcome of a call, on the side of the trusted application. *)
Definition ta_call (req : R) : stM KeyMintDevice Status S := λ d,
  let '(r, d') := process_req downgrade (wrap_req req) d in
  (match r with Ok rsp => rsp_outcome (R:=R) rsp | _ => Panic end, d').
(** Whether the handle survives. *)
Definition handle_after {A} (r : res Status A) (h : option Z) : option Z :=
  match r with Err _ => None | _ => h end.
Lemma op_execute_ta (req : R) t h r d' :
  PerformOpReq_wf (wrap_req req) → request_fits req →
  (∀ rsp, (process_req downgrade (wrap_req req) (ta_of t)).1 = Ok rsp → PerformOpResponse_wf rsp) →
  ta_call req (ta_of t) = (r, d') → r ≠ Panic →
  ∃ t', op_execute req (mk_hal_operation t h) = (r, mk_hal_operation t' (handle_after r h)) ∧ ta_of t' = d'.
Proof.
  intros Hwf Hfit Hrwf. unfold ta_call. destruct (process_req downgrade (wrap_req req) (ta_of t)) as [[rsp| |] d1] eqn:Hp;
    intros [= <- <-] Hr; try done.
  destruct (channel_execute_process req t rsp d1) as (t' & He & Hd); [done..|by apply Hrwf|]. exists t'.
  unfold op_execute. cbn [ho_channel]. rewrite He. split; [|done]. by destruct (rsp_outcome rsp).
Qed.
End call.

(** Responses to the methods of operations are well-formed. *)
Lemma respond_wf {B} op (m : stM KeyMintDevice Error B) rsp d r :
  (∀ b, PerformOpRsp_wf (rsp b)) → (respond op m rsp d).1 = Ok r → PerformOpResponse_wf r.
Proof.
  intros Hw. unfold respond. destruct (m d) as [[b|e|] d']; cbn; intros [= <-].
  - split; [by vm_compute|]. split; [apply Hw|done].
  - unfold op_error_rsp. destruct (is_rpc_operation op); (split; [|done]); [by destruct e as [| | |[]|]; vm_compute|apply discr_is_i32].
Qed.

(** ** Large inputs *)

Section large.
Context `{CSZ : !CiboriumSize}
  (Hdata : 0 < MAX_DATA_SIZE (T:=T)) (Hmax : MAX_SIZE (T:=T) < 2 ^ 64)
  (h : Z) (auth_token : option HardwareAuthToken) (timestamp_token : option TimeStampToken)
  (Hh : is_i64 h)
  (Hauth : from_option (λ t, HardwareAuthToken_wf t ∧ small_auth_token t) True auth_token)
  (Htst : from_option (λ t, TimeStampToken_wf t ∧ small_timestamp_token t) True timestamp_token).

Definition update_request (input : bytes) : UpdateRequest :=
  {| UpdateRequest_op_handle := h; UpdateRequest_input := input;
     UpdateRequest_auth_token := auth_token; UpdateRequest_timestamp_token := timestamp_token |}.
Definition finish_request (input signature confirmation_token : option bytes) : FinishRequest :=
  {| FinishRequest_op_handle := h; FinishRequest_input := input; FinishRequest_signature := signature;
     FinishRequest_auth_token := auth_token; FinishRequest_timestamp_token := timestamp_token;
     FinishRequest_confirmation_token := confirmation_token |}.

Lemma opt_and_l {B} (P Q : B → Prop) o : from_option (λ b, P b ∧ Q b) True o → from_option P True o.
Proof. destruct o; [by intros []|done]. Qed.
Lemma opt_and_r {B} (P Q : B → Prop) o : from_option (λ b, P b ∧ Q b) True o → from_option Q True o.
Proof. destruct o; [by intros []|done]. Qed.

Lemma update_request_wf input : PerformOpReq_wf (wrap_req (update_request input)).
Proof. cbn. unfold UpdateRequest_wf. cbn. eauto 10 using opt_and_l. Qed.
Lemma finish_request_wf input signature conf : PerformOpReq_wf (wrap_req (finish_request input signature conf)).
Proof.
  cbn. unfold FinishRequest_wf. cbn.
  assert (∀ o : option bytes, from_option (λ _, True) True o) by by intros []. eauto 15 using opt_and_l.
Qed.
Lemma sized_fits {R S} `{MR : Message R} `{MS : Message S} `{CA : !Method R S} `{CAL : !MethodLaws R S} (req : R) n :
  PerformOpReq_wf (wrap_req req) → n ≤ MAX_DATA_SIZE (T:=T) →
  (∀ v, to_cbor_value PerformOpReq_codec (wrap_req req) = Ok v → vsize v < n + MAX_CBOR_OVERHEAD) → request_fits req.
Proof.
  intros Hwf Hn Hs b Hb. destruct (PerformOpReq_codec_ok _ Hwf) as (v & Hv & _ & _ & Hi). specialize (Hs v Hv).
  unfold MAX_DATA_SIZE in *. pose proof (into_vec_size _ _ b v Hb Hv Hi ltac:(lia)). lia.
Qed.
Lemma update_request_fits input : len input ≤ MAX_DATA_SIZE (T:=T) → request_fits (update_request input).
Proof.
  intros Hl. eapply (sized_fits _ (len input)); [apply update_request_wf|done|]. intros v.
  apply update_request_size; eauto using opt_and_r.
Qed.
Lemma finish_request_fits input signature conf :
  from_option (λ b, len b ≤ MAX_DATA_SIZE (T:=T)) True input →
  from_option (λ b, len b ≤ 132) True signature → from_option (λ b, len b ≤ 32) True conf →
  request_fits (finish_request input signature conf).
Proof.
  intros Hi Hs Hc. eapply (sized_fits _ (MAX_DATA_SIZE (T:=T))); [apply finish_request_wf|done|]. intros v.
  apply finish_request_size; eauto using opt_and_r. lia.
Qed.

Lemma send_update_ta input t hd r d' :
  len input ≤ MAX_DATA_SIZE (T:=T) → ta_call (update_request input) (ta_of t) = (r, d') → r ≠ Panic →
  ∃ t', send_update h auth_token timestamp_token input (mk_hal_operation t hd) =
        (r, mk_hal_operation t' (handle_after r hd)) ∧ ta_of t' = d'.
Proof.
  intros Hl. apply op_execute_ta; [apply update_request_wf|by apply update_request_fits|].
  intros rsp. cbn [wrap_req OperationUpdate_call process_req]. apply respond_wf. intros b. by cbn.
Qed.

(** The trusted application takes one piece after the other. *)
Fixpoint ta_updates (cs : list bytes) : stM KeyMintDevice Status (list UpdateResponse) :=
  match cs with
  | [] => mret []
  | c :: cs' => rsp ← ta_call (update_request c); rsps ← ta_updates cs'; mret (rsp :: rsps)
  end.
Lemma send_all_ta cs t hd r d' :
  Forall (λ c, len c ≤ MAX_DATA_SIZE (T:=T)) cs → ta_updates cs (ta_of t) = (r, d') → r ≠ Panic →
  ∃ t', send_all (send_update h auth_token timestamp_token) cs (mk_hal_operation t hd) =
        (r, mk_hal_operation t' (handle_after r hd)) ∧ ta_of t' = d'.
Proof.
  intros Hcs. revert t hd r d'. induction Hcs as [|c cs Hc _ IH]; intros t hd r d'; cbn [ta_updates send_all].
  - intros [= <- <-] _. by exists t.
  - unfold mbind, stM_bind. destruct (ta_call (update_request c) (ta_of t)) as [[a|e|] d1] eqn:Hd; [| |by intros [= <- <-]].
    + destruct (send_update_ta c t hd (Ok a) d1) as (t1 & -> & <-); [done..|]. cbn [handle_after].
      destruct (ta_updates cs (ta_of t1)) as [r1 d2] eqn:Hu. intros Hr Hnp.
      destruct (IH t1 hd r1 d2 Hu) as (t2 & -> & <-); [by destruct r1; injection Hr as <- <-|].
      exists t2. by destruct r1; injection Hr as <- <-.
    + intros [= <- <-] _. destruct (send_update_ta c t hd (Err e) d1) as (t1 & -> & <-); [done..|]. by exists t1.
Qed.

Lemma inspect_send_update c (o : HalOperation T) :
  inspect_err_invalidate (send_update h auth_token timestamp_token c) o = send_update h auth_token timestamp_token c o.
Proof. apply inspect_op_execute. Qed.
Lemma chunks_fit input :
  concat (chunks (Z.to_nat (MAX_DATA_SIZE (T:=T))) input) = input ∧
  Forall (λ c, 0 < len c ≤ MAX_DATA_SIZE (T:=T)) (chunks (Z.to_nat (MAX_DATA_SIZE (T:=T))) input).
Proof.
  destruct (chunks_spec (Z.to_nat (MAX_DATA_SIZE (T:=T))) input) as [E Hc]; [lia|]. split; [done|].
  eapply Forall_impl; [exact Hc|]. unfold len. cbn. lia.
Qed.

(** An update with an input of any size reaches the trusted application in full and in
    order: the input is cut into non-empty pieces that concatenate to it, each piece goes out in
    one request, which always fits the channel (the tokens sent along being of the usual size),
    until one fails, and the output is that of the pieces taken together. The object
    keeps its handle unless an update failed. For an empty input nothing is sent. *)
Theorem update_delivered input authToken timeStampToken t r d' :
  opt_try_innto HardwareAuthToken_try_fromm authToken = Ok auth_token →
  wire_timestamp_token <$> timeStampToken = timestamp_token →
  let cs := chunks (Z.to_nat (MAX_DATA_SIZE (T:=T))) input in
  ta_updates cs (ta_of t) = (r, d') → r ≠ Panic →
  concat cs = input ∧ Forall (λ c, 0 < len c ≤ MAX_DATA_SIZE (T:=T)) cs ∧
  Forall (λ c, request_fits (update_request c)) cs ∧
  ∃ t', update input authToken timeStampToken (mk_hal_operation t (Some h)) =
          ((λ rsps, concat (UpdateResponse_ret <$> rsps)) <$> r, mk_hal_operation t' (handle_after r (Some h))) ∧
        ta_of t' = d'.
Proof.
  intros Hat Htt cs Hta Hr. destruct (chunks_fit input) as [E Hc]. fold cs in E, Hc. split_and!; [done|done| |].
  { eapply Forall_impl; [exact Hc|]. intros c Hl. apply update_request_fits. cbn in Hl. lia. }
  destruct (send_all_ta cs t (Some h) r d') as (t' & Hs & Hd); [|done..|].
  { eapply Forall_impl; [exact Hc|]. cbn. lia. }
  exists t'. split; [|done]. unfold update. rewrite (validate_bind _ h) by done. rewrite (liftc_bind _ _ auth_token) by done.
  rewrite Htt. unfold mbind, stM_bind. rewrite batches_chunks by (done || apply inspect_send_update). fold cs. rewrite Hs.
  by destruct r.
Qed.

(** What finishing amounts to on the other side. *)
Definition ta_finish (input signature confirmation_token : option bytes) : stM KeyMintDevice Status bytes :=
  match input with
  | Some input =>
    let '(cs, last) := split_last (Z.to_nat (MAX_DATA_SIZE (T:=T))) input in
    rsps ← ta_updates cs;
    rsp ← ta_call (S:=FinishResponse) (finish_request (Some last) signature confirmation_token);
    mret (concat (UpdateResponse_ret <$> rsps) ++ FinishResponse_ret rsp)
  | None =>
    rsp ← ta_call (S:=FinishResponse) (finish_request None signature confirmation_token);
    mret (FinishResponse_ret rsp)
  end.

Lemma send_finish_ta input signature conf t hd r d' :
  from_option (λ b, len b ≤ MAX_DATA_SIZE (T:=T)) True input →
  from_option (λ b, len b ≤ 132) True signature → from_option (λ b, len b ≤ 32) True conf →
  ta_call (S:=FinishResponse) (finish_request input signature conf) (ta_of t) = (r, d') → r ≠ Panic →
  ∃ t', then_invalidate (op_execute (finish_request input signature conf)) (mk_hal_operation t hd) =
        (r, mk_hal_operation t' None) ∧ ta_of t' = d'.
Proof.
  intros Hi Hs Hc Hta Hr. destruct (op_execute_ta (S:=FinishResponse) (finish_request input signature conf) t hd r d')
    as (t' & He & Hd); [apply finish_request_wf|by apply finish_request_fits| |done..|].
  { intros rsp. cbn [wrap_req OperationFinish_call process_req]. apply respond_wf. intros b. by cbn. }
  exists t'. split; [|done]. unfold then_invalidate. rewrite He. by destruct r.
Qed.
Lemma split_last_fit input :
  Forall (λ c, len c ≤ MAX_DATA_SIZE (T:=T)) (split_last (Z.to_nat (MAX_DATA_SIZE (T:=T))) input).1 ∧
  len (split_last (Z.to_nat (MAX_DATA_SIZE (T:=T))) input).2 ≤ MAX_DATA_SIZE (T:=T).
Proof.
  destruct (split_last_spec (Z.to_nat (MAX_DATA_SIZE (T:=T))) input) as (_ & Hc & Hl); [lia|]. unfold len. split; [|lia].
  eapply Forall_impl; [exact Hc|]. cbn. lia.
Qed.

(** C16: Finishing with an input of any size, a signature of at most 132 bytes and tokens of the usual
    size never runs into the limit of the channel: all but the last piece of the input go out as
    updates, the last piece, never more than the channel can take, with the request to finish, and the
    output is put together from all of them. The object has no handle afterwards, whether
    it worked or not. *)
Theorem finish_delivered input signature authToken timestampToken confirmationToken t r d' :
  opt_try_innto HardwareAuthToken_try_fromm authToken = Ok auth_token →
  wire_timestamp_token <$> timestampToken = timestamp_token →
  from_option (λ b, len b ≤ 132) True signature → from_option (λ b, len b ≤ 32) True confirmationToken →
  ta_finish input signature confirmationToken (ta_of t) = (r, d') → r ≠ Panic →
  ∃ t', finish input signature authToken timestampToken confirmationToken (mk_hal_operation t (Some h)) =
          (r, mk_hal_operation t' None) ∧ ta_of t' = d'.
Proof.
  intros Hat Htt Hs Hc Hta Hr. unfold finish. rewrite (validate_bind _ h) by done.
  rewrite (liftc_bind _ _ auth_token) by done. rewrite Htt. unfold ta_finish in Hta. destruct input as [input|].
  - pose proof (split_last_fit input) as [Hf Hl].
    unfold mbind, stM_bind. rewrite finish_batches_chunks by (done || apply inspect_send_update).
    destruct (split_last _ input) as [cs last]. cbn [fst snd] in *. unfold mbind, stM_bind in *.
    destruct (ta_updates cs (ta_of t)) as [[rsps|e|] d1] eqn:Hu; [| |by injection Hta as <- <-].
    + destruct (send_all_ta cs t (Some h) (Ok rsps) d1) as (t1 & -> & <-); [done..|]. cbn [handle_after].
      destruct (ta_call _ (ta_of t1)) as [[rsp|e|] d2] eqn:Hcall; injection Hta as <- <-; [| |done].
      * destruct (send_finish_ta (Some last) signature confirmationToken t1 (Some h) (Ok rsp) d2) as (t2 & He & Hd); [done..|].
        exists t2. split; [|done]. unfold finish_request in He. unfold mret, stM_ret. rewrite He. by rewrite app_nil_l.
      * destruct (send_finish_ta (Some last) signature confirmationToken t1 (Some h) (Err e) d2) as (t2 & He & Hd); [done..|].
        exists t2. split; [|done]. unfold finish_request in He. unfold mret, stM_ret. by rewrite He.
    + injection Hta as <- <-. destruct (send_all_ta cs t (Some h) (Err e) d1) as (t1 & -> & <-); [done..|]. by exists t1.
  - unfold mbind, stM_bind in *. destruct (ta_call _ (ta_of t)) as [[rsp|e|] d2] eqn:Hcall; injection Hta as <- <-; [| |done].
    + destruct (send_finish_ta None signature confirmationToken t (Some h) (Ok rsp) d2) as (t2 & He & Hd); [done..|].
      exists t2. split; [|done]. unfold finish_request in He. unfold mret, stM_ret. by rewrite He.
    + destruct (send_finish_ta None signature confirmationToken t (Some h) (Err e) d2) as (t2 & He & Hd); [done..|].
      exists t2. split; [|done]. unfold finish_request in He. unfold mret, stM_ret. by rewrite He.
Qed.
End large.

(** C40: If a request to finish does not fit the channel, for instance because of a long signature,
    the object loses its handle without the trusted application having heard of it: the operation
    stays in its table, and dropping the object does not abort it either. *)
Theorem oversized_finish_strands h auth_token input signature authToken timestampToken confirmationToken t :
  opt_try_innto HardwareAuthToken_try_fromm authToken = Ok auth_token →
  from_option (λ b, len b ≤ MAX_DATA_SIZE (T:=T)) True input →
  let req := finish_request h auth_token (wire_timestamp_token <$> timestampToken) input signature confirmationToken in
  PerformOpReq_wf (wrap_req req) → ¬ request_fits req →
  finish input signature authToken timestampToken confirmationToken (mk_hal_operation t (Some h)) =
    (Err (ServiceSpecific (discr InvalidInputLength)), mk_hal_operation t None) ∧
  drop_operation (mk_hal_operation t None) = t.
Proof.
  intros Hat Hi req Hwf Hfit.
  assert (then_invalidate (op_execute (S:=FinishResponse) req) (mk_hal_operation t (Some h)) =
          (Err (ServiceSpecific (discr InvalidInputLength)), mk_hal_operation t None)) as He.
  { unfold then_invalidate, op_execute. cbn [ho_channel]. by rewrite channel_execute_oversized. }
  unfold finish. rewrite (validate_bind _ h) by done. rewrite (liftc_bind _ _ auth_token) by done. split; [|done].
  subst req. unfold finish_request in He. unfold mbind, stM_bind. destruct input as [input|]; [|by unfold mret, stM_ret; rewrite He].
  assert (∀ send o, finish_batches (T:=T) (length input) send input [] o = (Ok ([], input), o)) as ->;
    [|unfold mret, stM_ret; by rewrite He].
  intros send o. cbn in Hi. by destruct input; cbn [finish_batches length]; rewrite decide_False by lia.
Qed.
End calls.

(** ** A service in front of a device *)

Module SampleHal.
Import Keyblob.Sample SampleTa SampleDer SampleX509 SampleKeys SampleRkp SampleDevice SampleOps SampleAidl.

(** A channel for messages of up to 360 bytes, ten of which an operation can use. *)
#[export] Instance channel : SerializedChannel KeyMintDevice := {|
  MAX_SIZE := 360;
  execute data := λ d,
    match process false data d with
    | (Ok b, d') => (Ok b, d')
    | (Err _, d') => (Err (Exception_ TRANSACTION_FAILED), d')
    | (Panic, d') => (Panic, d')
    end |}.
#[export] Instance connection : Connection := {| ta_of := id; downgrade := false |}.
#[export] Instance connection_laws : ConnectionLaws.
Proof. split. intros data t b d' Hp. exists d'. cbn [execute channel ta_of connection downgrade] in *. unfold id in *. by rewrite Hp. Qed.

(** A signing operation is in progress. *)
Definition dev : KeyMintDevice :=
  SampleDevice.device (session [KP_NoAuthRequired] None [] (ready (Some 1000) true)).2.
Definition text : bytes := bytes_of_string "a message of more than ten bytes".

Definition answered := process_req false (Req_DeviceAddRngEntropy {| AddRngEntropyRequest_data := order |}) dev.
Lemma hal_call_refines_witness :
  ∃ t', channel_execute (R:=AddRngEntropyRequest) (S:=AddRngEntropyResponse)
          {| AddRngEntropyRequest_data := order |} dev = (Ok Build_AddRngEntropyResponse, t').
Proof.
  destruct (hal_call_refines (S:=AddRngEntropyResponse) {| AddRngEntropyRequest_data := order |} dev) as [Hc _]; [done|].
  destruct (Hc (value (error_rsp 0) answered) answered.2) as (t' & _ & E).
  - intros b Hb. vm_compute in Hb. injection Hb as <-. vm_compute. discriminate.
  - change (answered = (Ok (value (error_rsp 0) answered), answered.2)). succeeds.
  - assert (value (error_rsp 0) answered = op_ok_rsp (Rsp_DeviceAddRngEntropy Build_AddRngEntropyResponse)) as ->
      by (vm_compute; reflexivity). vm_compute. repeat split; discriminate.
  - assert (value (error_rsp 0) answered = op_ok_rsp (Rsp_DeviceAddRngEntropy Build_AddRngEntropyResponse)) as Ea
      by (vm_compute; reflexivity). rewrite Ea in E. cbn in E. destruct E as (s & _ & E). exists t'. by destruct s.
Defined.

Lemma tiny_data : 0 < MAX_DATA_SIZE (T:=KeyMintDevice).
Proof. reflexivity. Qed.
Lemma h1_i64 : is_i64 h1.
Proof. vm_compute. split; [discriminate|reflexivity]. Qed.
Definition updated := ta_updates h1 None None (chunks 10 text) dev.
Lemma update_delivered_witness :
  (length (chunks (Z.to_nat (MAX_DATA_SIZE (T:=KeyMintDevice))) text) = 4)%nat ∧
  ∃ t', update text None None (mk_hal_operation dev (Some h1)) = (Ok [], mk_hal_operation t' (Some h1)).
Proof.
  split; [vm_compute; reflexivity|].
  destruct (update_delivered tiny_data eq_refl h1 None None h1_i64 I I text None None dev (Ok (value [] updated)) updated.2)
    as (_ & _ & _ & t' & E & _); [reflexivity|reflexivity| |discriminate|].
  - change (updated = (Ok (value [] updated), updated.2)). succeeds.
  - assert (concat (UpdateResponse_ret <$> value [] updated) = []) as Hn by (vm_compute; reflexivity).
    exists t'. rewrite E. cbn [fmap res_fmap handle_after]. by rewrite Hn.
Defined.
Definition finished := ta_finish (T:=KeyMintDevice) h1 None None (Some text) None None dev.
Lemma finish_delivered_witness :
  len (value [] finished) = 32 ∧
  ∃ t', finish (Some text) None None None None (mk_hal_operation dev (Some h1)) =
        (Ok (value [] finished), mk_hal_operation t' None).
Proof.
  split; [vm_compute; reflexivity|].
  destruct (finish_delivered tiny_data eq_refl h1 None None h1_i64 I I (Some text) None None None None dev
    (Ok (value [] finished)) finished.2) as (t' & E & _); [reflexivity|reflexivity|exact I|exact I| |discriminate|].
  - change (finished = (Ok (value [] finished), finished.2)). succeeds.
  - by exists t'.
Defined.

(** A signature that is too long for the channel. *)
Lemma oversized_finish_strands_witness :
  finish None (Some (replicate 400 (u8_of 0))) None None None (mk_hal_operation dev (Some h1)) =
    (Err (ServiceSpecific (-21)), mk_hal_operation dev None) ∧
  drop_operation (mk_hal_operation dev None) = dev ∧
  bool_decide (is_Some (abs (ta_operations (ds_ta dev)) !! h1)) = true.
Proof.
  destruct (oversized_finish_strands h1 None None (Some (replicate 400 (u8_of 0))) None None None dev) as [E1 E2].
  - reflexivity.
  - exact I.
  - cbn. repeat split; apply h1_i64.
  - intros Hfit. specialize (Hfit _ eq_refl). vm_compute in Hfit. by apply Hfit.
  - split_and!; [exact E1|exact E2|vm_compute; reflexivity].
Defined.

(** The response that the trusted application has encoded by hand. *)
Example hand_encoded_error :
  into_vec PerformOpResponse_codec (error_rsp (discr UnknownError)) = Ok invalid_cbor_rsp_data.
Proof. vm_compute. reflexivity. Qed.
End SampleHal.
