(* ===== verification/Boring.v ===== *)
(** * The BoringSSL implementation of the cryptographic traits ([boringssl/src])

    What the crate does itself: the choice of algorithms and parameters, the buffering of
    input and output around the library's calls, and the translation of its errors.  The
    library, reached through the [openssl] crate or directly ([bssl_sys], the build for
    Android), is a parameter: its objects are values that its functions pass on, a function of
    the [openssl] crate gives a result or the stack of errors, and a function of the library
    gives a return code. *)

From S2P Require Import Prelude Wire TagLegacy CryptoTypes TagParams TagGen Crypto EcKeys KeyTraits TaState Keys.

(** ** Errors *)

(** [bssl_sys]: the parts of a packed error code, and the constants the translation knows. *)
Class BsslErrors := {
  ERR_GET_REASON : Z → Z;
  ERR_GET_LIB : Z → Z;
  ERR_R_MALLOC_FAILURE : Z; ERR_R_SHOULD_NOT_HAVE_BEEN_CALLED : Z; ERR_R_PASSED_NULL_PARAMETER : Z;
  ERR_R_INTERNAL_ERROR : Z; ERR_R_OVERFLOW : Z;
  ERR_LIB_USER : Z; ERR_LIB_EVP : Z; ERR_LIB_ASN1 : Z; ERR_LIB_CIPHER : Z; ERR_LIB_PKCS8 : Z;
  ERR_LIB_X509V3 : Z; ERR_LIB_RSA : Z;
  EVP_R_UNSUPPORTED_ALGORITHM : Z; EVP_R_OPERATON_NOT_INITIALIZED : Z;
  EVP_R_OPERATION_NOT_SUPPORTED_FOR_THIS_KEYTYPE : Z; EVP_R_BUFFER_TOO_SMALL : Z;
  EVP_R_EXPECTING_AN_RSA_KEY : Z; EVP_R_EXPECTING_A_DSA_KEY : Z; EVP_R_MISSING_PARAMETERS : Z;
  EVP_R_DIFFERENT_PARAMETERS : Z; EVP_R_DECODE_ERROR : Z; EVP_R_DIFFERENT_KEY_TYPES : Z;
  ASN1_R_ENCODE_ERROR : Z;
  CIPHER_R_DATA_NOT_MULTIPLE_OF_BLOCK_LENGTH : Z; CIPHER_R_WRONG_FINAL_BLOCK_LENGTH : Z;
  CIPHER_R_UNSUPPORTED_KEY_SIZE : Z; CIPHER_R_BAD_KEY_LENGTH : Z; CIPHER_R_BAD_DECRYPT : Z;
  CIPHER_R_INVALID_KEY_LENGTH : Z;
  PKCS8_R_UNSUPPORTED_PRIVATE_KEY_ALGORITHM : Z; PKCS8_R_UNKNOWN_CIPHER : Z;
  PKCS8_R_PRIVATE_KEY_ENCODE_ERROR : Z; PKCS8_R_PRIVATE_KEY_DECODE_ERROR : Z; PKCS8_R_ENCODE_ERROR : Z;
  X509V3_R_UNKNOWN_OPTION : Z;
  RSA_R_KEY_SIZE_TOO_SMALL : Z; RSA_R_DATA_TOO_LARGE_FOR_KEY_SIZE : Z;
  RSA_R_DATA_TOO_SMALL_FOR_KEY_SIZE : Z; RSA_R_DATA_TOO_LARGE_FOR_MODULUS : Z; RSA_R_DATA_TOO_LARGE : Z
}.

Section errors.
Context `{BE : BsslErrors}.

Definition translate_evp_error (reason : Z) : ErrorCode :=
  if decide (reason ∈ [EVP_R_UNSUPPORTED_ALGORITHM; EVP_R_OPERATON_NOT_INITIALIZED;
                       EVP_R_OPERATION_NOT_SUPPORTED_FOR_THIS_KEYTYPE]) then UnsupportedAlgorithm
  else if decide (reason ∈ [EVP_R_BUFFER_TOO_SMALL; EVP_R_EXPECTING_AN_RSA_KEY;
                            EVP_R_EXPECTING_A_DSA_KEY; EVP_R_MISSING_PARAMETERS]) then InvalidKeyBlob
  else if decide (reason ∈ [EVP_R_DIFFERENT_PARAMETERS; EVP_R_DECODE_ERROR]) then InvalidArgument
  else if decide (reason = EVP_R_DIFFERENT_KEY_TYPES) then IncompatibleAlgorithm
  else BoringSslError.
Definition translate_asn1_error (reason : Z) : ErrorCode :=
  if decide (reason = ASN1_R_ENCODE_ERROR) then InvalidArgument else BoringSslError.
Definition translate_cipher_error (reason : Z) : ErrorCode :=
  if decide (reason ∈ [CIPHER_R_DATA_NOT_MULTIPLE_OF_BLOCK_LENGTH; CIPHER_R_WRONG_FINAL_BLOCK_LENGTH])
  then InvalidInputLength
  else if decide (reason ∈ [CIPHER_R_UNSUPPORTED_KEY_SIZE; CIPHER_R_BAD_KEY_LENGTH]) then UnsupportedKeySize
  else if decide (reason = CIPHER_R_BAD_DECRYPT) then InvalidArgument
  else if decide (reason = CIPHER_R_INVALID_KEY_LENGTH) then InvalidKeyBlob
  else BoringSslError.
Definition translate_pkcs8_error (reason : Z) : ErrorCode :=
  if decide (reason ∈ [PKCS8_R_UNSUPPORTED_PRIVATE_KEY_ALGORITHM; PKCS8_R_UNKNOWN_CIPHER])
  then UnsupportedAlgorithm
  else if decide (reason ∈ [PKCS8_R_PRIVATE_KEY_ENCODE_ERROR; PKCS8_R_PRIVATE_KEY_DECODE_ERROR])
  then InvalidKeyBlob
  else if decide (reason = PKCS8_R_ENCODE_ERROR) then InvalidArgument
  else BoringSslError.
Definition translate_x509v3_error (reason : Z) : ErrorCode :=
  if decide (reason = X509V3_R_UNKNOWN_OPTION) then UnsupportedAlgorithm else BoringSslError.
Definition translate_rsa_error (reason : Z) : ErrorCode :=
  if decide (reason = RSA_R_KEY_SIZE_TOO_SMALL) then IncompatiblePaddingMode
  else if decide (reason ∈ [RSA_R_DATA_TOO_LARGE_FOR_KEY_SIZE; RSA_R_DATA_TOO_SMALL_FOR_KEY_SIZE])
  then InvalidInputLength
  else if decide (reason ∈ [RSA_R_DATA_TOO_LARGE_FOR_MODULUS; RSA_R_DATA_TOO_LARGE]) then InvalidArgument
  else BoringSslError.
Definition map_openssl_err (code : Z) : ErrorCode :=
  let reason := ERR_GET_REASON code in
  if decide (reason = ERR_R_MALLOC_FAILURE) then MemoryAllocationFailed
  else if decide (reason ∈ [ERR_R_SHOULD_NOT_HAVE_BEEN_CALLED; ERR_R_PASSED_NULL_PARAMETER;
                            ERR_R_INTERNAL_ERROR; ERR_R_OVERFLOW]) then BoringSslError
  else
    let lib := as_u32 (ERR_GET_LIB code) in
    if decide (lib = ERR_LIB_USER) then default BoringSslError (try_from_n reason)
    else if decide (lib = ERR_LIB_EVP) then translate_evp_error reason
    else if decide (lib = ERR_LIB_ASN1) then translate_asn1_error reason
    else if decide (lib = ERR_LIB_CIPHER) then translate_cipher_error reason
    else if decide (lib = ERR_LIB_PKCS8) then translate_pkcs8_error reason
    else if decide (lib = ERR_LIB_X509V3) then translate_x509v3_error reason
    else if decide (lib = ERR_LIB_RSA) then translate_rsa_error reason
    else BoringSslError.

(** [ErrorStack]: the packed codes, the oldest first. *)
Definition map_openssl_errstack (errors : list Z) : ErrorCode :=
  match errors with [] => BoringSslError | err :: _ => map_openssl_err err end.
Definition from_openssl_err (errors : list Z) : Error := Hal (map_openssl_errstack errors).
(** [openssl_err_or!]. *)
Definition openssl_err_or (dflt : ErrorCode) (errors : list Z) : Error :=
  Hal match errors with [] => dflt | err :: _ => map_openssl_err err end.
(** [ossl!(e)] and [e.map_err(openssl_err!(..))]. *)
Definition ossl {A} (r : res (list Z) A) : Result A := map_err from_openssl_err r.

(** What a function of the library returns: its return code, its results, and the stack of
    errors after it. *)
Record ffi_result (A : Type) := mk_ffi { rc : Z; out : A; err_stack : list Z }.
Arguments mk_ffi {A} rc out err_stack.
Arguments rc {A} f.
Arguments out {A} f.
Arguments err_stack {A} f.
Definition openssl_last_err {A} (r : ffi_result A) : Error := from_openssl_err (err_stack r).
Definition cvt {A} (r : ffi_result A) : Result A :=
  if decide (rc r ≤ 0) then Err (openssl_last_err r) else Ok (out r).
(** [if r != 1 { return Err(openssl_last_err()) }]. *)
Definition expect_1 {A} (r : ffi_result A) : Result A :=
  if decide (rc r ≠ 1) then Err (openssl_last_err r) else Ok (out r).
(** A pointer and the stack of errors; [None] is null. *)
Definition cvt_p {A} (r : option A * list Z) : Result A := ok_or r.1 (from_openssl_err r.2).
End errors.
Arguments mk_ffi {A} rc out err_stack.
Arguments rc {A} f.
Arguments out {A} f.
Arguments err_stack {A} f.

(** ** Digests *)

Inductive MessageDigest : Set := Md_md5 | Md_sha1 | Md_sha224 | Md_sha256 | Md_sha384 | Md_sha512.
Definition digest_into_openssl (digest : Digest) : option MessageDigest :=
  match digest with
  | Digest_None => None
  | Digest_Md5 => Some Md_md5 | Digest_Sha1 => Some Md_sha1 | Digest_Sha224 => Some Md_sha224
  | Digest_Sha256 => Some Md_sha256 | Digest_Sha384 => Some Md_sha384 | Digest_Sha512 => Some Md_sha512
  end.
Definition digest_into_openssl_ffi (digest : Digest) : Result MessageDigest :=
  match digest with
  | Digest_Md5 => Ok Md_md5 | Digest_Sha1 => Ok Md_sha1 | Digest_Sha224 => Ok Md_sha224
  | Digest_Sha256 => Ok Md_sha256 | Digest_Sha384 => Ok Md_sha384 | Digest_Sha512 => Ok Md_sha512
  | _ => km_err UnsupportedDigest
  end.

(** ** Symmetric ciphers *)

(** [openssl::symm]: ciphers, and a [Crypter], which writes into a buffer and says how much. *)
Inductive SymmCipher : Set :=
| aes_128_ecb | aes_192_ecb | aes_256_ecb | aes_128_cbc | aes_192_cbc | aes_256_cbc
| aes_128_ctr | aes_192_ctr | aes_256_ctr | aes_128_gcm | aes_192_gcm | aes_256_gcm
| des_ede3 | des_ede3_cbc.
Inductive SymmMode : Set := Mode_Encrypt | Mode_Decrypt.
Class Symm := {
  Crypter : Type;
  Crypter_new : SymmCipher → SymmMode → bytes → option bytes → res (list Z) Crypter;
  Crypter_pad : bool → Crypter → Crypter;
  Crypter_aad_update : bytes → Crypter → res (list Z) Crypter;
  (* input and output buffer; how many bytes were written, and the buffer *)
  Crypter_update : bytes → bytes → Crypter → res (list Z) (Z * bytes * Crypter);
  Crypter_finalize : bytes → Crypter → res (list Z) (Z * bytes * Crypter);
  (* a buffer of the length of the tag *)
  Crypter_get_tag : bytes → Crypter → res (list Z) bytes;
  Crypter_set_tag : bytes → Crypter → res (list Z) Crypter
}.

(** [vec![0; n]] and [v.truncate(n)]. *)
Definition zeros (n : Z) : bytes := replicate (Z.to_nat n) (u8_of 0).
Definition truncate (n : Z) (v : bytes) : bytes := take (Z.to_nat n) v.

Definition dir_mode (dir : SymmetricOperation) : SymmMode :=
  match dir with Encrypt => Mode_Encrypt | Decrypt => Mode_Decrypt end.

Section symm.
Context `{Tgt : Target} `{BE : BsslErrors} `{SY : Symm}.

Record BoringAesOperation := mk_aes_op { aes_crypter : Crypter }.
Record BoringAesGcmEncryptOperation := mk_gcm_enc { enc_mode : GcmMode; enc_inner : BoringAesOperation }.
Record BoringAesGcmDecryptOperation := mk_gcm_dec {
  dec_crypter : Crypter;
  decrypt_tag_len : Z;
  pending_input_tail : bytes
}.

Definition aes_ecb_cipher (key : AesKey) : SymmCipher * bytes :=
  match key with AesKey128 k => (aes_128_ecb, k) | AesKey192 k => (aes_192_ecb, k) | AesKey256 k => (aes_256_ecb, k) end.
Definition aes_cbc_cipher (key : AesKey) : SymmCipher * bytes :=
  match key with AesKey128 k => (aes_128_cbc, k) | AesKey192 k => (aes_192_cbc, k) | AesKey256 k => (aes_256_cbc, k) end.
Definition aes_ctr_cipher (key : AesKey) : SymmCipher * bytes :=
  match key with AesKey128 k => (aes_128_ctr, k) | AesKey192 k => (aes_192_ctr, k) | AesKey256 k => (aes_256_ctr, k) end.
Definition aes_gcm_cipher (key : AesKey) : SymmCipher * bytes :=
  match key with AesKey128 k => (aes_128_gcm, k) | AesKey192 k => (aes_192_gcm, k) | AesKey256 k => (aes_256_gcm, k) end.

Definition BoringAes_begin (key : OpaqueOr AesKey) (mode : CipherMode) (dir : SymmetricOperation)
    : Result BoringAesOperation :=
  key ← explicit key;
  let dir_mode := dir_mode dir in
  crypter ←
    match mode with
    | EcbNoPadding | EcbPkcs7Padding =>
      let '(cipher, key) := aes_ecb_cipher key in
      crypter ← ossl (Crypter_new cipher dir_mode key None);
      Ok (Crypter_pad (match mode with EcbPkcs7Padding => true | _ => false end) crypter)
    | CbcNoPadding n | CbcPkcs7Padding n =>
      let '(cipher, key) := aes_cbc_cipher key in
      crypter ← ossl (Crypter_new cipher dir_mode key (Some n));
      Ok (Crypter_pad (match mode with CbcPkcs7Padding _ => true | _ => false end) crypter)
    | Ctr n =>
      let '(cipher, key) := aes_ctr_cipher key in
      ossl (Crypter_new cipher dir_mode key (Some n))
    end;
  Ok (mk_aes_op crypter).
Definition GcmMode_nonce (mode : GcmMode) : bytes :=
  match mode with GcmTag12 n | GcmTag13 n | GcmTag14 n | GcmTag15 n | GcmTag16 n => n end.
Definition BoringAes_begin_aead (key : OpaqueOr AesKey) (mode : GcmMode) (dir : SymmetricOperation)
    : Result (BoringAesGcmEncryptOperation + BoringAesGcmDecryptOperation) :=
  key ← explicit key;
  let '(cipher, key) := aes_gcm_cipher key in
  crypter ← ossl (Crypter_new cipher (dir_mode dir) key (Some (GcmMode_nonce mode)));
  Ok match dir with
     | Encrypt => inl (mk_gcm_enc mode (mk_aes_op crypter))
     | Decrypt => inr (mk_gcm_dec crypter (GcmMode_tag_len mode) [])
     end.

(** A buffer of [room] bytes, filled and cut to what was written. *)
Definition crypter_update (room : Z) (data : bytes) (c : Crypter) : Result (bytes * Crypter) :=
  '(out_len, output, c) ← ossl (Crypter_update data (zeros room) c);
  Ok (truncate out_len output, c).
Definition crypter_finalize (room : Z) (c : Crypter) : Result bytes :=
  '(out_len, output, _) ← ossl (Crypter_finalize (zeros room) c);
  Ok (truncate out_len output).

Definition BoringAesOperation_update (op : BoringAesOperation) (data : bytes) : Result (bytes * BoringAesOperation) :=
  '(output, c) ← crypter_update (len data + AES_BLOCK_SIZE) data (aes_crypter op);
  Ok (output, mk_aes_op c).
Definition BoringAesOperation_finish (op : BoringAesOperation) : Result bytes :=
  crypter_finalize AES_BLOCK_SIZE (aes_crypter op).

Definition GcmEncrypt_update_aad (op : BoringAesGcmEncryptOperation) (aad : bytes) : Result BoringAesGcmEncryptOperation :=
  c ← ossl (Crypter_aad_update aad (aes_crypter (enc_inner op)));
  Ok (mk_gcm_enc (enc_mode op) (mk_aes_op c)).
Definition GcmEncrypt_update (op : BoringAesGcmEncryptOperation) (data : bytes)
    : Result (bytes * BoringAesGcmEncryptOperation) :=
  '(output, inner) ← BoringAesOperation_update (enc_inner op) data;
  Ok (output, mk_gcm_enc (enc_mode op) inner).
Definition GcmEncrypt_finish (op : BoringAesGcmEncryptOperation) : Result bytes :=
  let tag_len := GcmMode_tag_len (enc_mode op) in
  '(offset, output, c) ←
    map_err (openssl_err_or VerificationFailed)
      (Crypter_finalize (zeros (AES_BLOCK_SIZE + tag_len)) (aes_crypter (enc_inner op)));
  buf ← slice_range output offset (offset + tag_len);
  tag ← ossl (Crypter_get_tag buf c);
  Ok (truncate (offset + tag_len) (overwrite output offset tag)).

Definition GcmDecrypt_update_aad (op : BoringAesGcmDecryptOperation) (aad : bytes) : Result BoringAesGcmDecryptOperation :=
  c ← ossl (Crypter_aad_update aad (dec_crypter op));
  Ok (mk_gcm_dec c (decrypt_tag_len op) (pending_input_tail op)).
(** [crypter.update(data, &mut output[offset..])], if there is data, and [offset += out_len]. *)
Definition gcm_feed (data output : bytes) (offset : Z) (c : Crypter) : Result (bytes * Z * Crypter) :=
  if decide (0 < len data) then
    rest ← slice_from output offset;
    '(out_len, rest, c) ← ossl (Crypter_update data rest c);
    Ok (take (Z.to_nat offset) output ++ rest, offset + out_len, c)
  else Ok (output, offset, c).
(** [v.resize(n, 0)]. *)
Definition resize (v : bytes) (n : Z) : bytes :=
  take (Z.to_nat n) v ++ replicate (Z.to_nat n - length v) (u8_of 0).
(** [v.copy_within(from.., 0)]. *)
Definition copy_to_front (v : bytes) (from : Z) : Result bytes :=
  src ← slice_from v from; Ok (overwrite v 0 src).
(** [v[from..].copy_from_slice(src)]. *)
Definition copy_from_slice_at (v : bytes) (from : Z) (src : bytes) : Result bytes :=
  dst ← slice_from v from;
  if decide (len dst = len src) then Ok (take (Z.to_nat from) v ++ src) else Panic.
Definition GcmDecrypt_update (op : BoringAesGcmDecryptOperation) (data : bytes)
    : Result (bytes * BoringAesGcmDecryptOperation) :=
  let pending := pending_input_tail op in
  let tag_len := decrypt_tag_len op in
  combined_len ← ovf_unsigned 64 (len pending + len data);
  if decide (combined_len ≤ tag_len) then
    Ok ([], mk_gcm_dec (dec_crypter op) tag_len (pending ++ data))
  else
    let cipherable_len := combined_len - tag_len in
    let cipherable_from_pending := Z.min cipherable_len (len pending) in
    let cipherable_from_data := cipherable_len - cipherable_from_pending in
    from_pending ← slice_to pending cipherable_from_pending;
    '(output, offset, c) ← gcm_feed from_pending (zeros (len data)) 0 (dec_crypter op);
    from_data ← slice_to data cipherable_from_data;
    '(output, offset, c) ← gcm_feed from_data output offset c;
    let leftover_pending := len pending - cipherable_from_pending in
    tail ← copy_to_front (resize pending tag_len) cipherable_from_pending;
    unused ← slice_from data cipherable_from_data;
    tail ← copy_from_slice_at tail leftover_pending unused;
    Ok (truncate offset output, mk_gcm_dec c tag_len tail).
Definition GcmDecrypt_finish (op : BoringAesGcmDecryptOperation) : Result bytes :=
  _ ← reject_if (bool_decide (len (pending_input_tail op) ≠ decrypt_tag_len op)) (Hal InvalidTag);
  c ← ossl (Crypter_set_tag (pending_input_tail op) (dec_crypter op));
  '(out_len, output, _) ← map_err (openssl_err_or VerificationFailed) (Crypter_finalize [] c);
  _ ← reject_if (bool_decide (out_len ≠ 0)) (Hal BoringSslError);
  Ok output.

(** *** Triple DES *)

Record BoringDesOperation := mk_des_op { des_crypter : Crypter }.
Definition BoringDes_begin (key : OpaqueOr bytes) (mode : DesMode) (dir : SymmetricOperation)
    : Result BoringDesOperation :=
  key ← explicit key;
  let dir_mode := dir_mode dir in
  crypter ←
    match mode with
    | DesEcbNoPadding | DesEcbPkcs7Padding =>
      crypter ← ossl (Crypter_new des_ede3 dir_mode key None);
      Ok (Crypter_pad (match mode with DesEcbPkcs7Padding => true | _ => false end) crypter)
    | DesCbcNoPadding n | DesCbcPkcs7Padding n =>
      crypter ← ossl (Crypter_new des_ede3_cbc dir_mode key (Some n));
      Ok (Crypter_pad (match mode with DesCbcPkcs7Padding _ => true | _ => false end) crypter)
    end;
  Ok (mk_des_op crypter).
Definition BoringDesOperation_update (op : BoringDesOperation) (data : bytes) : Result (bytes * BoringDesOperation) :=
  '(output, c) ← crypter_update (len data + DES_BLOCK_SIZE) data (des_crypter op);
  Ok (output, mk_des_op c).
Definition BoringDesOperation_finish (op : BoringDesOperation) : Result bytes :=
  crypter_finalize DES_BLOCK_SIZE (des_crypter op).
End symm.

(** ** MACs *)

(** The library's HMAC and CMAC contexts. *)
Class BsslMacs := {
  HMAC_CTX : Type;
  HMAC_CTX_new : option HMAC_CTX;
  HMAC_Init_ex : HMAC_CTX → bytes → MessageDigest → ffi_result HMAC_CTX;
  HMAC_Update : HMAC_CTX → bytes → ffi_result HMAC_CTX;
  (* the buffer and the length written *)
  HMAC_Final : HMAC_CTX → bytes → ffi_result (bytes * Z);
  CMAC_CTX : Type;
  CMAC_CTX_new : option CMAC_CTX;
  CMAC_Init : CMAC_CTX → bytes → SymmCipher → ffi_result CMAC_CTX;
  CMAC_Update : CMAC_CTX → bytes → ffi_result CMAC_CTX;
  CMAC_Final : CMAC_CTX → bytes → ffi_result (bytes * Z);
  EVP_MAX_MD_SIZE : Z
}.

Section macs.
Context `{BE : BsslErrors} `{BM : BsslMacs}.

Record BoringHmacOperation := mk_hmac_op { hmac_ctx : HMAC_CTX }.
Definition BoringHmac_begin (key : OpaqueOr bytes) (digest : Digest) : Result BoringHmacOperation :=
  key ← explicit key;
  ctx ← ok_or HMAC_CTX_new Alloc;
  digest ← digest_into_openssl_ffi digest;
  ctx ← expect_1 (HMAC_Init_ex ctx key digest);
  Ok (mk_hmac_op ctx).
Definition BoringHmacOperation_update (op : BoringHmacOperation) (data : bytes) : Result BoringHmacOperation :=
  ctx ← expect_1 (HMAC_Update (hmac_ctx op) data); Ok (mk_hmac_op ctx).
Definition BoringHmacOperation_finish (op : BoringHmacOperation) : Result bytes :=
  '(output, output_len) ← expect_1 (HMAC_Final (hmac_ctx op) (zeros EVP_MAX_MD_SIZE));
  Ok (truncate output_len output).

Record BoringAesCmacOperation := mk_cmac_op { cmac_ctx : CMAC_CTX }.
Definition BoringAesCmac_begin (key : OpaqueOr AesKey) : Result BoringAesCmacOperation :=
  key ← explicit key;
  let '(cipher, k) := aes_cbc_cipher key in
  ctx ← ok_or CMAC_CTX_new Alloc;
  ctx ← expect_1 (CMAC_Init ctx k cipher);
  Ok (mk_cmac_op ctx).
Definition BoringAesCmacOperation_update (op : BoringAesCmacOperation) (data : bytes) : Result BoringAesCmacOperation :=
  ctx ← expect_1 (CMAC_Update (cmac_ctx op) data); Ok (mk_cmac_op ctx).
Definition BoringAesCmacOperation_finish (op : BoringAesCmacOperation) : Result bytes :=
  '(output, output_len) ← expect_1 (CMAC_Final (cmac_ctx op) (zeros AES_BLOCK_SIZE));
  _ ← reject_if (bool_decide (output_len ≠ AES_BLOCK_SIZE)) (Hal BoringSslError);
  Ok output.
End macs.

(** ** Random numbers, hashing, comparison *)

(** The library's generator, [RAND_bytes] of which never fails; SHA-256; and a comparison of
    buffers of equal length. *)
Class BsslBasics := {
  rand_state : Type;
  RAND_seed : bytes → Z → rand_state → rand_state;
  rand_bytes : nat → rand_state → bytes * rand_state;
  length_rand_bytes n s : length (rand_bytes n s).1 = n;
  ossl_sha256 : bytes → bytes;
  memcmp_eq : bytes → bytes → bool
}.
Section basics.
Context `{BB : BsslBasics}.
Definition BoringRng : Rng := {|
  rng_state := rand_state;
  add_entropy data := RAND_seed data (as_i32 (len data));
  fill_bytes := rand_bytes;
  length_fill_bytes := length_rand_bytes
|}.
Definition BoringSha256 : Sha256 := {| sha256_hash data := Ok (ossl_sha256 data) |}.
Definition BoringEq : ConstTimeEq := {|
  ct_eq left right := if decide (len left ≠ len right) then false else memcmp_eq left right
|}.
End basics.

(** ** Asymmetric keys *)

Inductive Nid : Set := SECP224R1 | X9_62_PRIME256V1 | SECP384R1 | SECP521R1.
Inductive PKeyId : Set := Id_ED25519 | Id_X25519 | Id_other (id : Z).
#[export] Instance PKeyId_eq_dec : EqDecision PKeyId.
Proof. solve_decision. Defined.
#[export] Instance DecryptionMode_eq_dec : EqDecision DecryptionMode.
Proof. solve_decision. Defined.
Inductive RsaPadding : Set := Padding_NONE | Padding_PKCS1 | Padding_PKCS1_OAEP | Padding_PKCS1_PSS.

(** The [openssl] crate's keys, and the library's contexts for signing with a digest; a
    [PKEY_CTX] is part of the [MD_CTX] it was made with. *)
Class OpensslKeys `{BsslBasics} := {
  EcGroup : Type; OsslEcKey : Type; OsslRsa : Type; PKey : Type; PublicPKey : Type;
  from_curve_name : Nid → res (list Z) EcGroup;
  EcKey_generate : EcGroup → stM rand_state (list Z) OsslEcKey;
  EcKey_private_key_to_der : OsslEcKey → res (list Z) bytes;
  private_key_from_der_for_group : bytes → EcGroup → res (list Z) OsslEcKey;
  (* [public_key().to_bytes(group, UNCOMPRESSED, ctx)], with a new [BigNumContext] *)
  EcKey_public_key_bytes : OsslEcKey → EcGroup → res (list Z) bytes;
  PKey_generate : PKeyId → stM rand_state (list Z) PKey;
  private_key_from_raw_bytes : bytes → PKeyId → res (list Z) PKey;
  raw_private_key : PKey → res (list Z) bytes;
  raw_public_key : PKey → res (list Z) bytes;
  public_key_from_der : bytes → res (list Z) PublicPKey;
  PublicPKey_id : PublicPKey → PKeyId;
  PublicPKey_raw : PublicPKey → res (list Z) bytes;
  PKey_from_ec_key : OsslEcKey → res (list Z) PKey;
  PKey_from_rsa : OsslRsa → res (list Z) PKey;
  Deriver : Type;
  Deriver_new : PKey → res (list Z) Deriver;
  set_peer : Deriver → PublicPKey → res (list Z) Deriver;
  derive_to_vec : Deriver → res (list Z) bytes;
  X25519_PUBLIC_VALUE_LEN : Z;
  X25519_SHARED_KEY_LEN : Z;
  ffi_X25519 : bytes → bytes → bytes → ffi_result bytes;
  EcdsaSig : Type;
  EcdsaSig_sign : bytes → OsslEcKey → res (list Z) EcdsaSig;
  EcdsaSig_to_der : EcdsaSig → res (list Z) bytes;
  Signer : Type;
  Signer_new_without_digest : PKey → res (list Z) Signer;
  sign_oneshot_to_vec : Signer → bytes → res (list Z) bytes;
  MD_CTX : Type; PKEY_CTX : Type;
  EVP_MD_CTX_new : option MD_CTX * list Z;
  EVP_DigestSignInit : MD_CTX → MessageDigest → PKey → ffi_result (MD_CTX * option PKEY_CTX);
  EVP_PKEY_CTX_set_rsa_padding : PKEY_CTX → RsaPadding → MD_CTX → ffi_result MD_CTX;
  EVP_PKEY_CTX_set_rsa_pss_saltlen : PKEY_CTX → Z → MD_CTX → ffi_result MD_CTX;
  EVP_DigestUpdate : MD_CTX → bytes → ffi_result MD_CTX;
  (* with a null buffer: the largest size of a signature *)
  EVP_DigestSignFinal_len : MD_CTX → ffi_result (Z * MD_CTX);
  EVP_DigestSignFinal : MD_CTX → bytes → ffi_result (bytes * Z);
  BigNum : Type;
  BigNum_from_slice : bytes → res (list Z) BigNum;
  Rsa_generate_with_e : Z → BigNum → stM rand_state (list Z) OsslRsa;
  Rsa_private_key_to_der : OsslRsa → res (list Z) bytes;
  Rsa_private_key_from_der : bytes → res (list Z) OsslRsa;
  Rsa_size : OsslRsa → Z;
  private_encrypt : OsslRsa → bytes → bytes → RsaPadding → res (list Z) bytes;
  Decrypter : Type;
  Decrypter_new : PKey → res (list Z) Decrypter;
  set_rsa_padding : RsaPadding → Decrypter → res (list Z) Decrypter;
  set_rsa_oaep_md : MessageDigest → Decrypter → res (list Z) Decrypter;
  set_rsa_mgf1_md : MessageDigest → Decrypter → res (list Z) Decrypter;
  decrypt_len : Decrypter → bytes → res (list Z) Z;
  decrypt_into : Decrypter → bytes → bytes → res (list Z) (Z * bytes)
}.

Section ec.
Context `{Tgt : Target} `{BE : BsslErrors} `{BB : BsslBasics} `{OK : !OpensslKeys}.

Definition nist_curve_nid (curve : NistCurve) : Nid :=
  match curve with
  | Nist_P224 => SECP224R1 | Nist_P256 => X9_62_PRIME256V1 | Nist_P384 => SECP384R1 | Nist_P521 => SECP521R1
  end.
Definition nist_curve_to_group (curve : NistCurve) : Result EcGroup := ossl (from_curve_name (nist_curve_nid curve)).
Definition nist_key_to_group (key : EcKey) : Result EcGroup :=
  match key with
  | EcKey_P224 _ => ossl (from_curve_name SECP224R1)
  | EcKey_P256 _ => ossl (from_curve_name X9_62_PRIME256V1)
  | EcKey_P384 _ => ossl (from_curve_name SECP384R1)
  | EcKey_P521 _ => ossl (from_curve_name SECP521R1)
  | EcKey_Ed25519 _ | EcKey_X25519 _ => km_err UnsupportedEcCurve
  end.

(** [ossl!] of a call that uses the generator. *)
Definition ossl_rand {A} (m : stM rand_state (list Z) A) : stM rand_state Error A := λ s,
  let '(r, s') := m s in (ossl r, s').

Definition BoringEc_generate_nist_key (curve : NistCurve) (_params : list KeyParam) : stM rand_state Error KeyMaterial :=
  group ← liftr (nist_curve_to_group curve);
  ec_key ← ossl_rand (EcKey_generate group);
  nist_key ← liftr (ossl (EcKey_private_key_to_der ec_key));
  let key := match curve with
             | Nist_P224 => EcKey_P224 nist_key
             | Nist_P256 => EcKey_P256 nist_key
             | Nist_P384 => EcKey_P384 nist_key
             | Nist_P521 => EcKey_P521 nist_key
             end in
  mret (KM_Ec (EcCurve_of_nist curve) CurveType_Nist (Explicit key)).
Definition BoringEc_generate_ed25519_key (_params : list KeyParam) : stM rand_state Error KeyMaterial :=
  pkey ← ossl_rand (PKey_generate Id_ED25519);
  key ← liftr (ossl (raw_private_key pkey));
  _ ← liftr (reject_if (bool_decide (len key ≠ CURVE25519_PRIV_KEY_LEN)) (Hal UnsupportedKeySize));
  mret (KM_Ec EcCurve_Curve25519 CurveType_EdDsa (Explicit (EcKey_Ed25519 key))).
Definition BoringEc_generate_x25519_key (_params : list KeyParam) : stM rand_state Error KeyMaterial :=
  pkey ← ossl_rand (PKey_generate Id_X25519);
  key ← liftr (ossl (raw_private_key pkey));
  _ ← liftr (reject_if (bool_decide (len key ≠ CURVE25519_PRIV_KEY_LEN)) (Hal UnsupportedKeySize));
  mret (KM_Ec EcCurve_Curve25519 CurveType_Xdh (Explicit (EcKey_X25519 key))).

Definition BoringEc_nist_public_key (key : bytes) (curve : NistCurve) : Result bytes :=
  group ← nist_curve_to_group curve;
  ec_key ← ossl (private_key_from_der_for_group key group);
  ossl (EcKey_public_key_bytes ec_key group).
Definition BoringEc_ed25519_public_key (key : bytes) : Result bytes :=
  pkey ← ossl (private_key_from_raw_bytes key Id_ED25519); ossl (raw_public_key pkey).
Definition BoringEc_x25519_public_key (key : bytes) : Result bytes :=
  pkey ← ossl (private_key_from_raw_bytes key Id_X25519); ossl (raw_public_key pkey).

(** *** Operations *)

Record BoringEcAgreeOperation := mk_ec_agree { agree_key : EcKey; agree_pending : bytes; agree_max_size : Z }.
Record BoringEcDigestSignOperation := mk_ec_digest_sign { eds_pkey : PKey; eds_md_ctx : MD_CTX; eds_pctx : option PKEY_CTX }.
Record BoringEcUndigestSignOperation := mk_ec_undigest { eus_ec_key : OsslEcKey; eus_pending : bytes; eus_max_size : Z }.
Record BoringEd25519SignOperation := mk_ed25519 { ed_pkey : PKey; ed_pending : bytes }.
Definition MAX_ED25519_MSG_SIZE : Z := 16 * 1024.

Definition BoringEc_begin_agree (key : OpaqueOr EcKey) : Result BoringEcAgreeOperation :=
  key ← explicit key; Ok (mk_ec_agree key [] 164).
Definition BoringEcAgreeOperation_update (op : BoringEcAgreeOperation) (data : bytes) : Result BoringEcAgreeOperation :=
  Ok (mk_ec_agree (agree_key op) (agree_pending op ++ data) (agree_max_size op)).
Definition BoringEcAgreeOperation_finish (op : BoringEcAgreeOperation) : Result bytes :=
  peer_key ← ossl (public_key_from_der (agree_pending op));
  match agree_key op with
  | EcKey_P224 key | EcKey_P256 key | EcKey_P384 key | EcKey_P521 key =>
    group ← nist_key_to_group (agree_key op);
    ec_key ← ossl (private_key_from_der_for_group key group);
    pkey ← ossl (PKey_from_ec_key ec_key);
    deriver ← ossl (Deriver_new pkey);
    deriver ← map_err (λ _, Hal InvalidArgument) (ossl (set_peer deriver peer_key));
    ossl (derive_to_vec deriver)
  | EcKey_X25519 key =>
    peer_key ← ossl (public_key_from_der (agree_pending op));
    _ ← reject_if (bool_decide (PublicPKey_id peer_key ≠ Id_X25519)) (Hal InvalidArgument);
    peer_key_data ← ossl (PublicPKey_raw peer_key);
    _ ← reject_if (bool_decide (len peer_key_data ≠ X25519_PUBLIC_VALUE_LEN)) (Hal UnsupportedKeySize);
    expect_1 (ffi_X25519 (zeros X25519_SHARED_KEY_LEN) key peer_key_data)
  | EcKey_Ed25519 _ => km_err IncompatibleAlgorithm
  end.

(** The digesting half of EC and RSA signatures. *)
Definition digest_sign_init (digest : MessageDigest) (pkey : PKey) : Result (MD_CTX * PKEY_CTX) :=
  md_ctx ← cvt_p EVP_MD_CTX_new;
  '(md_ctx, pctx) ← expect_1 (EVP_DigestSignInit md_ctx digest pkey);
  pctx ← ok_or pctx (Hal BoringSslError);
  Ok (md_ctx, pctx).
Definition digest_sign_final (md_ctx : MD_CTX) : Result bytes :=
  '(max_siglen, md_ctx) ← cvt (EVP_DigestSignFinal_len md_ctx);
  '(buf, actual_siglen) ← cvt (EVP_DigestSignFinal md_ctx (zeros max_siglen));
  Ok (truncate actual_siglen buf).

Definition BoringEcDigestSignOperation_new (key : bytes) (curve : NistCurve) (digest : MessageDigest)
    : Result BoringEcDigestSignOperation :=
  group ← nist_curve_to_group curve;
  ec_key ← ossl (private_key_from_der_for_group key group);
  pkey ← ossl (PKey_from_ec_key ec_key);
  '(md_ctx, pctx) ← digest_sign_init digest pkey;
  Ok (mk_ec_digest_sign pkey md_ctx (Some pctx)).
Definition BoringEcDigestSignOperation_update (op : BoringEcDigestSignOperation) (data : bytes)
    : Result BoringEcDigestSignOperation :=
  md_ctx ← cvt (EVP_DigestUpdate (eds_md_ctx op) data);
  Ok (mk_ec_digest_sign (eds_pkey op) md_ctx (eds_pctx op)).
Definition BoringEcDigestSignOperation_finish (op : BoringEcDigestSignOperation) : Result bytes :=
  digest_sign_final (eds_md_ctx op).

Definition BoringEcUndigestSignOperation_new (key : bytes) (curve : NistCurve) : Result BoringEcUndigestSignOperation :=
  group ← nist_curve_to_group curve;
  ec_key ← ossl (private_key_from_der_for_group key group);
  Ok (mk_ec_undigest ec_key [] (NistCurve_coord_len curve)).
Definition BoringEcUndigestSignOperation_update (op : BoringEcUndigestSignOperation) (data : bytes)
    : Result BoringEcUndigestSignOperation :=
  max_extra_data ← ovf_unsigned 64 (eus_max_size op - len (eus_pending op));
  if decide (0 < max_extra_data) then
    let n := Z.min max_extra_data (len data) in
    chunk ← slice_to data n;
    Ok (mk_ec_undigest (eus_ec_key op) (eus_pending op ++ chunk) (eus_max_size op))
  else Ok op.
Definition BoringEcUndigestSignOperation_finish (op : BoringEcUndigestSignOperation) : Result bytes :=
  sig ← ossl (EcdsaSig_sign (eus_pending op) (eus_ec_key op)); ossl (EcdsaSig_to_der sig).

Definition BoringEd25519SignOperation_new (key : bytes) : Result BoringEd25519SignOperation :=
  pkey ← ossl (private_key_from_raw_bytes key Id_ED25519); Ok (mk_ed25519 pkey []).
Definition BoringEd25519SignOperation_update (op : BoringEd25519SignOperation) (data : bytes)
    : Result BoringEd25519SignOperation := Ok (mk_ed25519 (ed_pkey op) (ed_pending op ++ data)).
Definition BoringEd25519SignOperation_finish (op : BoringEd25519SignOperation) : Result bytes :=
  signer ← ossl (Signer_new_without_digest (ed_pkey op)); ossl (sign_oneshot_to_vec signer (ed_pending op)).

(** [BoringEc::begin_sign] chooses the operation. *)
Inductive BoringEcSign :=
| EcDigestSign (op : BoringEcDigestSignOperation)
| EcUndigestSign (op : BoringEcUndigestSignOperation)
| Ed25519Sign (op : BoringEd25519SignOperation).
Definition BoringEc_begin_sign (key : OpaqueOr EcKey) (digest : Digest) : Result BoringEcSign :=
  key ← explicit key;
  let curve := EcKey_curve key in
  match key with
  | EcKey_P224 k | EcKey_P256 k | EcKey_P384 k | EcKey_P521 k =>
    curve ← NistCurve_try_from curve;
    match digest_into_openssl digest with
    | Some digest => op ← BoringEcDigestSignOperation_new k curve digest; Ok (EcDigestSign op)
    | None => op ← BoringEcUndigestSignOperation_new k curve; Ok (EcUndigestSign op)
    end
  | EcKey_Ed25519 k => op ← BoringEd25519SignOperation_new k; Ok (Ed25519Sign op)
  | EcKey_X25519 _ => km_err IncompatibleAlgorithm
  end.
End ec.

Section rsa.
Context `{Tgt : Target} `{BE : BsslErrors} `{BB : BsslBasics} `{OK : !OpensslKeys} `{P1 : Pkcs1}.

Definition MIN_RSA_EXPONENT : Z := 3.
Definition BoringRsa_generate_key (key_size pub_exponent : Z) (_params : list KeyParam)
    : stM rand_state Error KeyMaterial :=
  _ ← liftr (reject_if (bool_decide (pub_exponent < MIN_RSA_EXPONENT)) (Hal InvalidArgument));
  _ ← liftr (reject_if (bool_decide (pub_exponent mod 2 ≠ 1)) (Hal InvalidArgument));
  exponent ← liftr (ossl (BigNum_from_slice (to_be_bytes 8 pub_exponent)));
  rsa_key ← ossl_rand (Rsa_generate_with_e key_size exponent);
  asn1_data ← liftr (ossl (Rsa_private_key_to_der rsa_key));
  mret (KM_Rsa (Explicit asn1_data)).

Definition PKCS1_UNDIGESTED_SIGNATURE_PADDING_OVERHEAD : Z := 11.
Definition zero_pad_left (data : bytes) (n : Z) : Result bytes :=
  padding_len ← ovf_unsigned 64 (n - len data);
  copy_from_slice_at (zeros n) padding_len data.

Record BoringRsaDecryptOperation := mk_rsa_decrypt {
  rd_key : bytes; rd_mode : DecryptionMode; rd_pending : bytes; rd_max_size : Z
}.
Definition BoringRsa_begin_decrypt (key : OpaqueOr bytes) (mode : DecryptionMode) : Result BoringRsaDecryptOperation :=
  key ← explicit key; Ok (mk_rsa_decrypt key mode [] (RsaKey_size key)).
Definition BoringRsaDecryptOperation_update (op : BoringRsaDecryptOperation) (data : bytes)
    : Result BoringRsaDecryptOperation :=
  Ok (mk_rsa_decrypt (rd_key op) (rd_mode op) (rd_pending op ++ data) (rd_max_size op)).
Definition decryption_padding (mode : DecryptionMode) : RsaPadding :=
  match mode with
  | Dec_NoPadding => Padding_NONE
  | Dec_OaepPadding _ _ => Padding_PKCS1_OAEP
  | Dec_Pkcs1_1_5Padding => Padding_PKCS1
  end.
Definition set_oaep_digests (mode : DecryptionMode) (decrypter : Decrypter) : Result Decrypter :=
  match mode with
  | Dec_OaepPadding msg_digest mgf_digest =>
    omsg_digest ← ok_or (digest_into_openssl msg_digest) (Hal UnsupportedDigest);
    omgf_digest ← ok_or (digest_into_openssl mgf_digest) (Hal UnsupportedDigest);
    decrypter ← ossl (set_rsa_oaep_md omsg_digest decrypter);
    ossl (set_rsa_mgf1_md omgf_digest decrypter)
  | _ => Ok decrypter
  end.
Definition BoringRsaDecryptOperation_finish (op : BoringRsaDecryptOperation) : Result bytes :=
  rsa_key ← ossl (Rsa_private_key_from_der (rd_key op));
  priv_key ← ossl (PKey_from_rsa rsa_key);
  decrypter ← ossl (Decrypter_new priv_key);
  decrypter ← ossl (set_rsa_padding (decryption_padding (rd_mode op)) decrypter);
  decrypter ← set_oaep_digests (rd_mode op) decrypter;
  buf_len ← ossl (decrypt_len decrypter (rd_pending op));
  pending_input ←
    (if bool_decide (rd_mode op = Dec_NoPadding) && bool_decide (len (rd_pending op) < buf_len)
     then zero_pad_left (rd_pending op) buf_len else Ok (rd_pending op));
  '(actual_len, output) ← ossl (decrypt_into decrypter pending_input (zeros buf_len));
  Ok (truncate actual_len output).

Record BoringRsaDigestSignOperation := mk_rsa_digest_sign {
  rds_pkey : PKey; rds_md_ctx : MD_CTX; rds_pctx : option PKEY_CTX
}.
Definition BoringRsaDigestSignOperation_new (key : bytes) (mode : SignMode) (digest : MessageDigest)
    (padding : RsaPadding) : Result BoringRsaDigestSignOperation :=
  rsa_key ← ossl (Rsa_private_key_from_der key);
  pkey ← ossl (PKey_from_rsa rsa_key);
  '(md_ctx, pctx) ← digest_sign_init digest pkey;
  md_ctx ← cvt (EVP_PKEY_CTX_set_rsa_padding pctx padding md_ctx);
  md_ctx ← match mode with
           | Sign_PssPadding digest =>
             bits ← digest_len digest;
             cvt (EVP_PKEY_CTX_set_rsa_pss_saltlen pctx (as_i32 (bits / 8)) md_ctx)
           | _ => Ok md_ctx
           end;
  Ok (mk_rsa_digest_sign pkey md_ctx (Some pctx)).
Definition BoringRsaDigestSignOperation_update (op : BoringRsaDigestSignOperation) (data : bytes)
    : Result BoringRsaDigestSignOperation :=
  md_ctx ← cvt (EVP_DigestUpdate (rds_md_ctx op) data);
  Ok (mk_rsa_digest_sign (rds_pkey op) md_ctx (rds_pctx op)).
Definition BoringRsaDigestSignOperation_finish (op : BoringRsaDigestSignOperation) : Result bytes :=
  digest_sign_final (rds_md_ctx op).

Record BoringRsaUndigestSignOperation := mk_rsa_undigest {
  rus_rsa_key : OsslRsa; left_pad : bool; rus_pending : bytes; rus_max_size : Z
}.
Definition BoringRsaUndigestSignOperation_new (key : bytes) (mode : SignMode) : Result BoringRsaUndigestSignOperation :=
  rsa_key ← ossl (Rsa_private_key_from_der key);
  '(left_pad, max_size) ←
    match mode with
    | Sign_NoPadding => Ok (true, Rsa_size rsa_key)
    | Sign_Pkcs1_1_5Padding Digest_None =>
      n ← ovf_unsigned 64 (Rsa_size rsa_key - PKCS1_UNDIGESTED_SIGNATURE_PADDING_OVERHEAD); Ok (false, n)
    | _ => km_err UnsupportedPaddingMode
    end;
  Ok (mk_rsa_undigest rsa_key left_pad [] max_size).
Definition BoringRsaUndigestSignOperation_update (op : BoringRsaUndigestSignOperation) (data : bytes)
    : Result BoringRsaUndigestSignOperation :=
  Ok (mk_rsa_undigest (rus_rsa_key op) (left_pad op) (rus_pending op ++ data) (rus_max_size op)).
Definition BoringRsaUndigestSignOperation_finish (op : BoringRsaUndigestSignOperation) : Result bytes :=
  let buf := zeros (Rsa_size (rus_rsa_key op)) in
  if left_pad op then
    padded_input ← zero_pad_left (rus_pending op) (rus_max_size op);
    ossl (private_encrypt (rus_rsa_key op) padded_input buf Padding_NONE)
  else ossl (private_encrypt (rus_rsa_key op) (rus_pending op) buf Padding_PKCS1).

Inductive BoringRsaSign :=
| RsaDigestSign (op : BoringRsaDigestSignOperation)
| RsaUndigestSign (op : BoringRsaUndigestSignOperation).
Definition BoringRsa_begin_sign (key : OpaqueOr bytes) (mode : SignMode) : Result BoringRsaSign :=
  key ← explicit key;
  let padding := match mode with
                 | Sign_NoPadding => Padding_NONE
                 | Sign_Pkcs1_1_5Padding _ => Padding_PKCS1
                 | Sign_PssPadding _ => Padding_PKCS1_PSS
                 end in
  match mode with
  | Sign_NoPadding | Sign_Pkcs1_1_5Padding Digest_None =>
    op ← BoringRsaUndigestSignOperation_new key mode; Ok (RsaUndigestSign op)
  | Sign_Pkcs1_1_5Padding digest | Sign_PssPadding digest =>
    match digest_into_openssl digest with
    | Some digest => op ← BoringRsaDigestSignOperation_new key mode digest padding; Ok (RsaDigestSign op)
    | None => km_err InvalidArgument
    end
  end.
End rsa.

(** ** The implementation of the traits *)

Section implementation.
Context `{Tgt : Target} `{BE : BsslErrors} `{SY : Symm} `{BM : BsslMacs} `{BB : BsslBasics} `{OK : !OpensslKeys}
        `{P1 : Pkcs1} `{P8 : Pkcs8}.

(** The operations that are boxed as [dyn AccumulatingOperation], and those that are boxed as
    [dyn EmittingOperation]. *)
Inductive BoringAcc :=
| Acc_EcAgree (op : BoringEcAgreeOperation)
| Acc_EcSign (op : BoringEcSign)
| Acc_RsaDecrypt (op : BoringRsaDecryptOperation)
| Acc_RsaSign (op : BoringRsaSign)
| Acc_Hmac (op : BoringHmacOperation)
| Acc_AesCmac (op : BoringAesCmacOperation).
Inductive BoringEmit := Emit_Aes (op : BoringAesOperation) | Emit_Des (op : BoringDesOperation).

Definition BoringAcc_max_input_size (op : BoringAcc) : option Z :=
  match op with
  | Acc_EcAgree op => Some (agree_max_size op)
  | Acc_EcSign (Ed25519Sign _) => Some MAX_ED25519_MSG_SIZE
  | Acc_RsaDecrypt op => Some (rd_max_size op)
  | Acc_RsaSign (RsaUndigestSign op) => Some (rus_max_size op)
  | _ => None
  end.
Definition BoringAcc_update (op : BoringAcc) (data : bytes) : Result BoringAcc :=
  match op with
  | Acc_EcAgree op => Acc_EcAgree <$> BoringEcAgreeOperation_update op data
  | Acc_EcSign (EcDigestSign op) => Acc_EcSign ∘ EcDigestSign <$> BoringEcDigestSignOperation_update op data
  | Acc_EcSign (EcUndigestSign op) => Acc_EcSign ∘ EcUndigestSign <$> BoringEcUndigestSignOperation_update op data
  | Acc_EcSign (Ed25519Sign op) => Acc_EcSign ∘ Ed25519Sign <$> BoringEd25519SignOperation_update op data
  | Acc_RsaDecrypt op => Acc_RsaDecrypt <$> BoringRsaDecryptOperation_update op data
  | Acc_RsaSign (RsaDigestSign op) => Acc_RsaSign ∘ RsaDigestSign <$> BoringRsaDigestSignOperation_update op data
  | Acc_RsaSign (RsaUndigestSign op) => Acc_RsaSign ∘ RsaUndigestSign <$> BoringRsaUndigestSignOperation_update op data
  | Acc_Hmac op => Acc_Hmac <$> BoringHmacOperation_update op data
  | Acc_AesCmac op => Acc_AesCmac <$> BoringAesCmacOperation_update op data
  end.
Definition BoringAcc_finish (op : BoringAcc) : Result bytes :=
  match op with
  | Acc_EcAgree op => BoringEcAgreeOperation_finish op
  | Acc_EcSign (EcDigestSign op) => BoringEcDigestSignOperation_finish op
  | Acc_EcSign (EcUndigestSign op) => BoringEcUndigestSignOperation_finish op
  | Acc_EcSign (Ed25519Sign op) => BoringEd25519SignOperation_finish op
  | Acc_RsaDecrypt op => BoringRsaDecryptOperation_finish op
  | Acc_RsaSign (RsaDigestSign op) => BoringRsaDigestSignOperation_finish op
  | Acc_RsaSign (RsaUndigestSign op) => BoringRsaUndigestSignOperation_finish op
  | Acc_Hmac op => BoringHmacOperation_finish op
  | Acc_AesCmac op => BoringAesCmacOperation_finish op
  end.
Definition boring_acc : AccumulatingOperation := {|
  acc_op := BoringAcc;
  acc_max_input_size := BoringAcc_max_input_size;
  acc_update := BoringAcc_update;
  acc_finish := BoringAcc_finish
|}.
Definition boring_emit : EmittingOperation := {|
  emit_op := BoringEmit;
  emit_update op data :=
    match op with
    | Emit_Aes op => '(o, op) ← BoringAesOperation_update op data; Ok (o, Emit_Aes op)
    | Emit_Des op => '(o, op) ← BoringDesOperation_update op data; Ok (o, Emit_Des op)
    end;
  emit_finish op :=
    match op with Emit_Aes op => BoringAesOperation_finish op | Emit_Des op => BoringDesOperation_finish op end
|}.
Definition boring_aad : AadOperation := {|
  aad_op := BoringAesGcmEncryptOperation + BoringAesGcmDecryptOperation;
  aad_update_aad op aad :=
    match op with
    | inl op => inl <$> GcmEncrypt_update_aad op aad
    | inr op => inr <$> GcmDecrypt_update_aad op aad
    end;
  aad_update op data :=
    match op with
    | inl op => '(o, op) ← GcmEncrypt_update op data; Ok (o, inl op)
    | inr op => '(o, op) ← GcmDecrypt_update op data; Ok (o, inr op)
    end;
  aad_finish op := match op with inl op => GcmEncrypt_finish op | inr op => GcmDecrypt_finish op end
|}.
#[local] Existing Instance boring_acc.
#[local] Existing Instance boring_emit.
#[local] Existing Instance boring_aad.
#[local] Existing Instance BoringRng.

Definition BoringAes : Aes := {|
  aes_begin key mode dir := Emit_Aes <$> BoringAes_begin key mode dir;
  aes_begin_aead := BoringAes_begin_aead
|}.
Definition BoringDes : Des := {| des_begin key mode dir := Emit_Des <$> BoringDes_begin key mode dir |}.
Definition BoringHmac : Hmac := {| hmac_begin key digest := Acc_Hmac <$> BoringHmac_begin key digest |}.
Definition BoringAesCmac : AesCmac := {| cmac_begin key := Acc_AesCmac <$> BoringAesCmac_begin key |}.
Definition BoringRsa : Rsa := {|
  rsa_begin_decrypt key mode := Acc_RsaDecrypt <$> BoringRsa_begin_decrypt key mode;
  rsa_begin_sign key mode := Acc_RsaSign <$> BoringRsa_begin_sign key mode
|}.
Definition BoringEc : Ec := {|
  ec_begin_agree key := Acc_EcAgree <$> BoringEc_begin_agree key;
  ec_begin_sign key digest := Acc_EcSign <$> BoringEc_begin_sign key digest
|}.
Definition boring_generators : KeyGenerators := {|
  aes_generate_key := Aes_generate_key_default;
  des_generate_key := Des_generate_key_default;
  hmac_generate_key := Hmac_generate_key_default;
  rsa_generate_key := BoringRsa_generate_key;
  ec_generate_nist_key := BoringEc_generate_nist_key;
  ec_generate_ed25519_key := BoringEc_generate_ed25519_key;
  ec_generate_x25519_key := BoringEc_generate_x25519_key
|}.
Definition boring_public_keys : EcPublicKeys := {|
  nist_public_key := BoringEc_nist_public_key;
  ed25519_public_key := BoringEc_ed25519_public_key;
  x25519_public_key := BoringEc_x25519_public_key
|}.
End implementation.
