(* ===== verification/BoringSpec.v ===== *)
(** * The BoringSSL implementation keeps the promises of the traits

    The buffering around AES-GCM computes the one-shot function however the input is cut
    ([boring_gcm_chunks]); the implementation satisfies the laws that the other theorems assume
    of the traits ([boring_implements]); and no operation panics on input that the trusted
    application lets through ([boring_no_panic]). *)

From S2P Require Import Prelude Wire TagLegacy CryptoTypes TagParams TagGen Crypto EcKeys KeyTraits KeyblobLegacy Keyblob TaState Keys Rkp Boring.

(** ** AES-GCM *)

(** The function of SP 800-38D: encryption is by a key stream, and the tag is a function of the
    additional data and the ciphertext.  [gcm_key_ok], [gcm_aad_ok] and [gcm_data_ok] say what
    the library takes: keys and nonces, and how much more data after some length. *)
Class GcmFunction := {
  keystream : bytes → bytes → nat → u8;
  gcm_tag : bytes → bytes → bytes → bytes → bytes;
  gcm_key_ok : SymmCipher → bytes → bytes → bool;
  gcm_aad_ok : Z → Z → bool;
  gcm_data_ok : Z → Z → bool
}.

Definition xor8 (a b : u8) : u8 := u8_of (Z.lxor (u8_val a) (u8_val b)).

Section gcm.
Context `{GF : GcmFunction}.

(** The key stream over [data] from position [off]. *)
Definition gctr_at (k n : bytes) (off : nat) (data : bytes) : bytes :=
  imap (λ i b, xor8 b (keystream k n (off + i))) data.
Definition gctr (k n data : bytes) : bytes := gctr_at k n 0 data.

Definition gcm_seal (k n : bytes) (tag_len : Z) (aad pt : bytes) : bytes :=
  let ct := gctr k n pt in ct ++ take (Z.to_nat tag_len) (gcm_tag k n aad ct).
Definition gcm_open (k n : bytes) (tag_len : Z) (aad data : bytes) : Result bytes :=
  if decide (len data < tag_len) then km_err InvalidTag
  else
    let m := Z.to_nat (len data - tag_len) in
    let ct := take m data in
    if decide (drop m data = take (Z.to_nat tag_len) (gcm_tag k n aad ct))
    then Ok (gctr k n ct) else km_err VerificationFailed.

Lemma length_gctr_at k n off data : length (gctr_at k n off data) = length data.
Proof. apply length_imap. Qed.
Lemma length_gctr k n data : length (gctr k n data) = length data.
Proof. apply length_gctr_at. Qed.
Lemma gctr_at_app k n off a b :
  gctr_at k n off (a ++ b) = gctr_at k n off a ++ gctr_at k n (off + length a) b.
Proof.
  unfold gctr_at. rewrite imap_app. f_equal. apply imap_ext. intros i x _. cbn. f_equal. f_equal. lia.
Qed.
Lemma xor8_cancel a b : xor8 (xor8 a b) b = a.
Proof.
  unfold xor8, u8_val, u8_of. rewrite byte.unsigned_of_Z. unfold byte.wrap.
  rewrite Z.mod_small.
  - rewrite Z.lxor_assoc, Z.lxor_nilpotent, Z.lxor_0_r. apply byte.of_Z_unsigned.
  - pose proof (byte.unsigned_range a). pose proof (byte.unsigned_range b).
    split; [apply Z.lxor_nonneg; lia|].
    destruct (decide (Z.lxor (byte.unsigned a) (byte.unsigned b) = 0)) as [->|Hn]; [lia|].
    apply Z.log2_lt_pow2; [|].
    { assert (0 ≤ Z.lxor (byte.unsigned a) (byte.unsigned b)) by (apply Z.lxor_nonneg; lia). lia. }
    eapply Z.le_lt_trans; [apply Z.log2_lxor; lia|].
    apply Z.max_lub_lt; (destruct (decide (byte.unsigned a = 0)); destruct (decide (byte.unsigned b = 0))).
    all: try (match goal with H : ?x = 0 |- context [Z.log2 ?x] => rewrite H; cbn; lia end).
    all: apply Z.log2_lt_pow2; lia.
Qed.
Lemma gctr_involutive k n data : gctr k n (gctr k n data) = data.
Proof.
  apply list_eq. intros i. unfold gctr, gctr_at. rewrite !list_lookup_imap.
  destruct (data !! i); [cbn; by rewrite xor8_cancel|done].
Qed.

(** What is sealed can be opened. *)
Lemma gcm_open_seal k n tag_len aad pt :
  0 ≤ tag_len ≤ 16 → length (gcm_tag k n aad (gctr k n pt)) = 16%nat →
  gcm_open k n tag_len aad (gcm_seal k n tag_len aad pt) = Ok pt.
Proof.
  intros Ht Hl. unfold gcm_open, gcm_seal. cbv zeta. unfold len.
  rewrite length_app, length_take, Hl, length_gctr.
  rewrite decide_False by lia.
  replace (Z.to_nat _) with (length (gctr k n pt)) by (rewrite length_gctr; lia).
  rewrite take_app_length, drop_app_length, decide_True by done. by rewrite gctr_involutive.
Qed.

(** The state of a [Crypter] for GCM. *)
Record Gcm := mk_gcm {
  g_mode : SymmMode; g_key : bytes; g_nonce : bytes; g_aad : bytes; g_data : bytes; g_tag : option bytes
}.
Definition g_absorb (data : bytes) (g : Gcm) : Gcm :=
  mk_gcm (g_mode g) (g_key g) (g_nonce g) (g_aad g) (g_data g ++ data) (g_tag g).
Definition g_crypt (g : Gcm) (data : bytes) : bytes := gctr_at (g_key g) (g_nonce g) (length (g_data g)) data.
Definition g_expected_tag (g : Gcm) (ct : bytes) : bytes := gcm_tag (g_key g) (g_nonce g) (g_aad g) ct.
Definition gcm_cipher (c : SymmCipher) : Prop := c = aes_128_gcm ∨ c = aes_192_gcm ∨ c = aes_256_gcm.

Context `{SY : Symm}.
(** What is assumed of a [Crypter] for GCM, which [is_gcm] relates to its state. *)
Class GcmLaws (is_gcm : Crypter → Gcm → Prop) : Prop := {
  gcm_new c m k n : gcm_cipher c →
    match Crypter_new c m k (Some n) with
    | Ok cr => gcm_key_ok c k n = true ∧ is_gcm cr (mk_gcm m k n [] [] None)
    | _ => gcm_key_ok c k n = false
    end;
  gcm_aad cr g aad : is_gcm cr g → g_data g = [] →
    match Crypter_aad_update aad cr with
    | Ok cr => gcm_aad_ok (len (g_aad g)) (len aad) = true ∧
               is_gcm cr (mk_gcm (g_mode g) (g_key g) (g_nonce g) (g_aad g ++ aad) [] (g_tag g))
    | _ => gcm_aad_ok (len (g_aad g)) (len aad) = false
    end;
  gcm_update cr g data buf : is_gcm cr g → (length data <= length buf)%nat →
    match Crypter_update data buf cr with
    | Ok (n, buf', cr) => gcm_data_ok (len (g_data g)) (len data) = true ∧ n = len data ∧
                          buf' = g_crypt g data ++ drop (length data) buf ∧ is_gcm cr (g_absorb data g)
    | _ => gcm_data_ok (len (g_data g)) (len data) = false
    end;
  gcm_data_ok_le a b a' b' : 0 ≤ a' → 0 ≤ b' → b' ≤ b → a' + b' ≤ a + b →
    gcm_data_ok a b = true → gcm_data_ok a' b' = true;
  gcm_data_ok_bound a b : gcm_data_ok a b = true → a + b < 2 ^ 62;
  gcm_finalize_encrypt cr g buf : is_gcm cr g → g_mode g = Mode_Encrypt →
    ∃ cr', Crypter_finalize buf cr = Ok (0, buf, cr') ∧
      ∀ tag, (length tag <= 16)%nat →
        Crypter_get_tag tag cr' =
        Ok (take (length tag) (g_expected_tag g (gctr (g_key g) (g_nonce g) (g_data g))));
  gcm_set_tag cr g tag : is_gcm cr g → g_mode g = Mode_Decrypt → 12 ≤ len tag ≤ 16 →
    ∃ cr', Crypter_set_tag tag cr = Ok cr' ∧
      is_gcm cr' (mk_gcm Mode_Decrypt (g_key g) (g_nonce g) (g_aad g) (g_data g) (Some tag));
  gcm_finalize_decrypt cr g tag buf : is_gcm cr g → g_mode g = Mode_Decrypt → g_tag g = Some tag →
    if decide (tag = take (length tag) (g_expected_tag g (g_data g)))
    then ∃ cr', Crypter_finalize buf cr = Ok (0, buf, cr')
    else Crypter_finalize buf cr = Err [];
  length_gcm_tag k n aad ct : length (gcm_tag k n aad ct) = 16%nat
}.

Context `{Tgt : Target} `{BE : BsslErrors} `{GL : GcmLaws is_gcm}.

Lemma g_crypt_app g a b : g_crypt g (a ++ b) = g_crypt g a ++ g_crypt (g_absorb a g) b.
Proof. unfold g_crypt. rewrite gctr_at_app. cbn. by rewrite length_app. Qed.
Lemma length_g_crypt g a : length (g_crypt g a) = length a.
Proof. apply length_gctr_at. Qed.
Lemma g_absorb_app g a b : g_absorb b (g_absorb a g) = g_absorb (a ++ b) g.
Proof. unfold g_absorb. cbn. by rewrite app_assoc. Qed.
Lemma g_absorb_nil g : g_absorb [] g = g.
Proof. destruct g. unfold g_absorb. cbn. by rewrite app_nil_r. Qed.

Lemma length_zeros n : 0 ≤ n → len (zeros n) = n.
Proof. intros. unfold len, zeros. rewrite length_replicate. lia. Qed.

(** A step of the cipher, into a buffer with room. *)
Lemma crypter_update_gcm cr g data buf :
  is_gcm cr g → (length data <= length buf)%nat → gcm_data_ok (len (g_data g)) (len data) = true →
  ∃ cr', Crypter_update data buf cr = Ok (len data, g_crypt g data ++ drop (length data) buf, cr') ∧
         is_gcm cr' (g_absorb data g).
Proof.
  intros Hg Hl Hok. pose proof (gcm_update cr g data buf Hg Hl) as H.
  destruct (Crypter_update _ _ _) as [[[n b] c]|e|]; [|congruence..].
  destruct H as (_ & -> & -> & Hc). eauto.
Qed.
Lemma gcm_feed_ok cr g data output off :
  is_gcm cr g → 0 ≤ off → off + len data ≤ len output → gcm_data_ok (len (g_data g)) (len data) = true →
  ∃ cr', gcm_feed data output off cr =
           Ok (take (Z.to_nat off) output ++ g_crypt g data ++ drop (Z.to_nat off + length data) output,
               off + len data, cr') ∧ is_gcm cr' (g_absorb data g).
Proof.
  intros Hg Ho Hl Hok. unfold gcm_feed. case_decide as Hd.
  - unfold slice_from. rewrite decide_True by lia. cbn [mbind res_bind].
    destruct (crypter_update_gcm cr g data (drop (Z.to_nat off) output)) as (cr' & -> & Hc);
      [done|rewrite length_drop; unfold len in *; lia|done|].
    exists cr'. cbn [ossl map_err mbind res_bind]. by rewrite drop_drop.
  - assert (data = []) as -> by (destruct data; [done|unfold len in Hd; cbn in Hd; lia]).
    exists cr. rewrite g_absorb_nil. split; [|done]. unfold g_crypt, gctr_at. cbn [imap app length].
    rewrite Nat.add_0_r, take_drop. unfold len. cbn. by rewrite Z.add_0_r.
Qed.

Lemma slice_to_in {E A} (l : list A) n : 0 ≤ n ≤ len l → slice_to (E:=E) l n = Ok (take (Z.to_nat n) l).
Proof. intros Hn. apply (slice_split l n Hn). Qed.

(** The last [tag_len] bytes are held back. *)
Lemma held_back (pending data : bytes) (t cfp : Z) :
  0 ≤ cfp ≤ len pending → len pending ≤ t → t - len pending + cfp ≤ len data →
  let cfd := len pending + len data - t - cfp in
  (tail ← copy_to_front (resize pending t) cfp;
   unused ← slice_from data cfd;
   copy_from_slice_at tail (len pending - cfp) unused) =
  Ok (drop (Z.to_nat cfp) pending ++ drop (Z.to_nat cfd) data).
Proof.
  intros Hc Ht Hd cfd. unfold len in *.
  assert (resize pending t = pending ++ replicate (Z.to_nat t - length pending) (u8_of 0)) as ->.
  { unfold resize. by rewrite take_ge by lia. }
  set (z := replicate _ _). assert (length z = (Z.to_nat t - length pending)%nat) as Hz by apply length_replicate.
  unfold copy_to_front, slice_from, overwrite. unfold len. rewrite length_app, Hz.
  rewrite decide_True by lia. cbn [mbind res_bind]. rewrite decide_True by lia. cbn [mbind res_bind].
  unfold copy_from_slice_at, slice_from, len. change (Z.to_nat 0) with 0%nat. rewrite take_0. cbn [app Nat.add].
  rewrite !length_app, !length_drop, !length_app, Hz. rewrite decide_True by lia. cbn [mbind res_bind].
  rewrite length_drop, !length_app, !length_drop, !length_app, Hz. rewrite decide_True by (subst cfd; lia).
  do 2 f_equal. rewrite drop_app_le by lia. rewrite <- app_assoc. apply take_app_length'.
  rewrite length_drop. lia.
Qed.

(** [total] bytes are not too much, not even at once. *)
Lemma piece_ok total a b :
  gcm_data_ok 0 total = true → 0 ≤ a → 0 ≤ b → a + b ≤ total → gcm_data_ok a b = true.
Proof. intros Ht ???. eapply gcm_data_ok_le; [..|exact Ht]; lia. Qed.

Lemma GcmDecrypt_update_ok total cr g t pending data :
  is_gcm cr g → 0 ≤ t ≤ 16 → len pending ≤ t → gcm_data_ok 0 total = true →
  len (g_data g) + (len pending + len data - t) ≤ total →
  let m := Z.to_nat (len pending + len data - t) in
  ∃ cr', GcmDecrypt_update (mk_gcm_dec cr t pending) data =
           Ok (g_crypt g (take m (pending ++ data)), mk_gcm_dec cr' t (drop m (pending ++ data))) ∧
         is_gcm cr' (g_absorb (take m (pending ++ data)) g).
Proof.
  intros Hg Ht Hp Hok Hlen m. pose proof (gcm_data_ok_bound _ _ Hok). pose proof (len_nonneg pending). pose proof (len_nonneg data).
  pose proof (len_nonneg (g_data g)). unfold GcmDecrypt_update. cbn [pending_input_tail decrypt_tag_len dec_crypter].
  rewrite ovf_unsigned_ok by (split; lia). cbn [mbind res_bind]. case_decide as Hc.
  { exists cr. assert (m = 0%nat) as -> by lia. rewrite take_0, drop_0, g_absorb_nil. done. }
  cbv zeta. set (cfp := Z.min (len pending + len data - t) (len pending)).
  set (cfd := len pending + len data - t - cfp).
  assert (0 ≤ cfp ≤ len pending ∧ 0 ≤ cfd ≤ len data ∧ m = (Z.to_nat cfp + Z.to_nat cfd)%nat ∧
          (cfd = 0 ∨ cfp = len pending)) as (Hcfp & Hcfd & Hm & Hor) by lia.
  assert (take m (pending ++ data) = take (Z.to_nat cfp) pending ++ take (Z.to_nat cfd) data ∧
          drop m (pending ++ data) = drop (Z.to_nat cfp) pending ++ drop (Z.to_nat cfd) data) as [-> ->].
  { rewrite take_app, drop_app, Hm. unfold len in *. destruct Hor as [Hor|Hor].
    - rewrite Hor. change (Z.to_nat 0) with 0%nat. rewrite !Nat.add_0_r. replace (_ - length pending)%nat with 0%nat by lia. done.
    - rewrite Hor, Nat2Z.id. rewrite (take_ge pending), (take_ge pending), (drop_ge pending), (drop_ge pending) by lia.
      by replace (_ + _ - _)%nat with (Z.to_nat cfd) by lia. }
  assert (len (take (Z.to_nat cfp) pending) = cfp) as Hl1 by (unfold len in *; rewrite length_take; lia).
  assert (len (take (Z.to_nat cfd) data) = cfd) as Hl2 by (unfold len in *; rewrite length_take; lia).
  rewrite (slice_to_in pending) by done. cbn [mbind res_bind].
  pose proof (length_zeros (len data) ltac:(lia)) as Hz.
  destruct (gcm_feed_ok cr g (take (Z.to_nat cfp) pending) (zeros (len data)) 0) as (c1 & -> & Hg1);
    [done|lia|lia|rewrite Hl1; apply (piece_ok total); (done || lia)|].
  cbn [mbind res_bind]. rewrite (slice_to_in data) by done. cbn [mbind res_bind].
  rewrite Hl1, Z.add_0_l. set (g1 := g_absorb (take (Z.to_nat cfp) pending) g) in *.
  match goal with |- context [gcm_feed _ ?o _ _] => set (out1 := o) end.
  assert (len out1 = len data) as Ho1.
  { subst out1. unfold len in *. rewrite !length_app, length_take, length_drop, length_g_crypt. cbn. lia. }
  destruct (gcm_feed_ok c1 g1 (take (Z.to_nat cfd) data) out1 cfp) as (c2 & -> & Hg2);
    [done|lia|lia| |].
  { subst g1. cbn. rewrite len_app, Hl1, Hl2. apply (piece_ok total); (done || lia). }
  cbn [mbind res_bind].
  pose proof (held_back pending data t cfp ltac:(lia) ltac:(lia) ltac:(lia)) as Hh. cbv zeta in Hh.
  fold cfd in Hh.
  apply res_bind_Ok in Hh as (tl & Htl & Hh). apply res_bind_Ok in Hh as (un & Hun & Hh).
  rewrite Htl. cbn [mbind res_bind]. rewrite Hun. cbn [mbind res_bind]. rewrite Hh. cbn [mbind res_bind].
  exists c2. rewrite <- g_absorb_app, g_crypt_app. split; [|done]. fold g1. do 3 f_equal.
  unfold truncate. subst out1. change (Z.to_nat 0) with 0%nat. rewrite take_0. cbn [app].
  assert (length (g_crypt g (take (Z.to_nat cfp) pending)) = Z.to_nat cfp) as Hlc
    by (rewrite length_g_crypt; unfold len in Hl1; lia).
  rewrite (take_app_length' (g_crypt g _)) by (by rewrite Hlc). rewrite app_assoc, Hl2. apply take_app_length'.
  rewrite length_app, Hlc, length_g_crypt. unfold len in Hl2. lia.
Qed.

(** What the library takes, piece by piece. *)
Fixpoint aad_accepted (n : Z) (aads : list bytes) : bool :=
  match aads with [] => true | aad :: aads' => gcm_aad_ok n (len aad) && aad_accepted (n + len aad) aads' end.
Definition g_aads (aad : bytes) (g : Gcm) : Gcm :=
  mk_gcm (g_mode g) (g_key g) (g_nonce g) (g_aad g ++ aad) [] (g_tag g).

#[local] Existing Instance boring_emit.
#[local] Existing Instance boring_aad.
#[local] Existing Instance BoringAes.

Definition gcm_op (cr : Crypter) (dir : SymmetricOperation) (mode : GcmMode) (pending : bytes) : aad_op :=
  match dir with
  | Encrypt => inl (mk_gcm_enc mode (mk_aes_op cr))
  | Decrypt => inr (mk_gcm_dec cr (GcmMode_tag_len mode) pending)
  end.

Lemma feed_aad_ok aads : ∀ cr g dir mode,
  is_gcm cr g → g_data g = [] → aad_accepted (len (g_aad g)) aads = true →
  ∃ cr', feed_aad (gcm_op cr dir mode []) aads = Ok (gcm_op cr' dir mode []) ∧ is_gcm cr' (g_aads (concat aads) g).
Proof.
  induction aads as [|aad aads IH]; intros cr g dir mode Hg Hd Ha.
  { exists cr. split; [done|]. destruct g. unfold g_aads. cbn in *. subst. by rewrite app_nil_r. }
  cbn [aad_accepted] in Ha. apply andb_true_iff in Ha as [Ha Has].
  pose proof (gcm_aad cr g aad Hg Hd) as Hu. destruct (Crypter_aad_update aad cr) as [c|e|] eqn:Hc; [|congruence..].
  destruct Hu as [_ Hu]. edestruct (IH c _ dir mode Hu) as (cr' & Hf & Hg'); [done|cbn; by rewrite len_app|].
  exists cr'. cbn [concat]. unfold g_aads in *. cbn in Hg'. rewrite app_assoc. split; [|done].
  cbn [feed_aad]. rewrite <- Hf. destruct dir; cbn; unfold GcmEncrypt_update_aad, GcmDecrypt_update_aad; cbn; by rewrite Hc.
Qed.

Lemma feed_decrypt total chunks : gcm_data_ok 0 total = true → ∀ cr g mode pending,
  is_gcm cr g → len pending ≤ GcmMode_tag_len mode →
  len (g_data g) + (len pending + len (concat chunks) - GcmMode_tag_len mode) ≤ total →
  let d := pending ++ concat chunks in
  let m := Z.to_nat (len d - GcmMode_tag_len mode) in
  ∃ cr', feed (gcm_op cr Decrypt mode pending) chunks =
           Ok (g_crypt g (take m d), gcm_op cr' Decrypt mode (drop m d)) ∧ is_gcm cr' (g_absorb (take m d) g).
Proof.
  intros Hok. induction chunks as [|data chunks IH]; intros cr g mode pending Hg Hp Hl.
  { exists cr. cbn [concat]. rewrite app_nil_r. cbv zeta.
    replace (Z.to_nat _) with 0%nat by lia. rewrite take_0, drop_0, g_absorb_nil. done. }
  cbn [concat] in *. rewrite len_app in Hl. pose proof (len_nonneg (concat chunks)). pose proof (len_nonneg pending). pose proof (len_nonneg data).
  assert (0 ≤ GcmMode_tag_len mode ≤ 16) as Ht by (destruct mode; cbn; lia). set (t := GcmMode_tag_len mode) in *.
  destruct (GcmDecrypt_update_ok total cr g t pending data) as (c1 & Hu & Hg1); [done|lia|done|done|lia|].
  set (m1 := Z.to_nat (len pending + len data - t)) in *.
  set (p1 := drop m1 (pending ++ data)) in *. set (f1 := take m1 (pending ++ data)) in *.
  assert (f1 ++ p1 = pending ++ data) as Hfp by apply take_drop.
  assert (len f1 + len p1 = len pending + len data) as Hlfp by (rewrite <- !len_app; by rewrite Hfp).
  assert (len f1 = Z.max 0 (len pending + len data - t)) as Hlf.
  { unfold f1, m1, len in *. rewrite length_take, length_app. lia. }
  destruct (IH c1 (g_absorb f1 g) mode p1) as (cr' & Hf & Hg'); [done|fold t; lia| |].
  { cbn. rewrite len_app. fold t. lia. }
  exists cr'. rewrite app_assoc, <- Hfp, <- app_assoc. cbv zeta. fold t in Hf, Hg'.
  set (d1 := p1 ++ concat chunks) in *.
  assert (Z.to_nat (len (f1 ++ d1) - t) = (length f1 + Z.to_nat (len d1 - t))%nat) as ->.
  { unfold d1. rewrite !len_app. unfold len in *. lia. }
  rewrite take_app_add, drop_app_add, <- g_absorb_app, g_crypt_app. split; [|done].
  cbn [feed]. unfold gcm_op in *. fold t in Hf |- *. cbn [aad_update boring_aad]. rewrite Hu. cbn [mbind res_bind].
  rewrite Hf. done.
Qed.

Lemma feed_encrypt total chunks : gcm_data_ok 0 total = true → ∀ cr g mode,
  is_gcm cr g → len (g_data g) + len (concat chunks) ≤ total →
  ∃ cr', feed (gcm_op cr Encrypt mode []) chunks = Ok (g_crypt g (concat chunks), gcm_op cr' Encrypt mode []) ∧
         is_gcm cr' (g_absorb (concat chunks) g).
Proof.
  intros Hok. induction chunks as [|data chunks IH]; intros cr g mode Hg Hl.
  { exists cr. by rewrite g_absorb_nil. }
  cbn [concat] in Hl. rewrite len_app in Hl. pose proof (len_nonneg data). pose proof (len_nonneg (g_data g)).
  pose proof (len_nonneg (concat chunks)).
  destruct (crypter_update_gcm cr g data (zeros (len data + AES_BLOCK_SIZE))) as (c1 & Hu & Hg1);
    [done| |apply (piece_ok total); (done || lia)|].
  { pose proof (length_zeros (len data + AES_BLOCK_SIZE)) as Hz. unfold AES_BLOCK_SIZE, len in *. lia. }
  destruct (IH c1 (g_absorb data g) mode) as (cr' & Hf & Hg'); [done|cbn; rewrite len_app; lia|].
  exists cr'. cbn [concat]. rewrite g_crypt_app, <- g_absorb_app. split; [|done].
  cbn [feed]. unfold gcm_op in *. cbn [aad_update boring_aad]. unfold GcmEncrypt_update, BoringAesOperation_update, crypter_update.
  cbn [enc_inner aes_crypter enc_mode]. rewrite Hu. cbn [ossl map_err mbind res_bind]. rewrite Hf. cbn [mbind res_bind].
  do 3 f_equal. unfold truncate. apply take_app_length'. rewrite length_g_crypt. unfold len. lia.
Qed.

Lemma GcmEncrypt_finish_ok cr g mode :
  is_gcm cr g → g_mode g = Mode_Encrypt →
  GcmEncrypt_finish (mk_gcm_enc mode (mk_aes_op cr)) =
  Ok (take (Z.to_nat (GcmMode_tag_len mode)) (g_expected_tag g (gctr (g_key g) (g_nonce g) (g_data g)))).
Proof.
  intros Hg Hm. unfold GcmEncrypt_finish. cbn [enc_mode enc_inner aes_crypter].
  assert (12 ≤ GcmMode_tag_len mode ≤ 16) as Ht by (destruct mode; cbn; lia). set (t := GcmMode_tag_len mode) in *.
  set (buf := zeros _). assert (len buf = 16 + t) as Hb by (apply length_zeros; lia).
  destruct (gcm_finalize_encrypt cr g buf Hg Hm) as (c & -> & Htag). cbn [map_err mbind res_bind].
  unfold slice_range. rewrite decide_True by lia. cbn [mbind res_bind].
  set (slot := take _ (drop _ buf)).
  assert (length slot = Z.to_nat t) as Hs.
  { subst slot. rewrite length_take, length_drop. unfold len in Hb. lia. }
  rewrite Htag by lia. cbn [ossl map_err mbind res_bind]. rewrite Hs. f_equal. unfold truncate, overwrite.
  change (Z.to_nat 0) with 0%nat. rewrite take_0. cbn [app]. apply take_app_length'.
  rewrite length_take. unfold g_expected_tag. rewrite length_gcm_tag. lia.
Qed.
Lemma GcmDecrypt_finish_ok cr g t pending :
  is_gcm cr g → g_mode g = Mode_Decrypt → 12 ≤ t ≤ 16 →
  GcmDecrypt_finish (mk_gcm_dec cr t pending) =
  if decide (len pending ≠ t) then km_err InvalidTag
  else if decide (pending = take (Z.to_nat t) (g_expected_tag g (g_data g))) then Ok [] else km_err VerificationFailed.
Proof.
  intros Hg Hm Ht. unfold GcmDecrypt_finish. cbn [pending_input_tail decrypt_tag_len dec_crypter].
  case_decide as Hl; [by rewrite bool_decide_eq_true_2|]. rewrite bool_decide_eq_false_2 by lia. cbn [reject_if mbind res_bind].
  destruct (gcm_set_tag cr g pending Hg Hm) as (c & -> & Hc); [lia|]. cbn [ossl map_err mbind res_bind].
  pose proof (gcm_finalize_decrypt c _ pending [] Hc eq_refl eq_refl) as Hf.
  assert (length pending = Z.to_nat t) as <- by (unfold len in Hl; lia). cbn in Hf. unfold g_expected_tag in *. cbn in Hf.
  case_decide; [destruct Hf as [c' Hf]|]; rewrite Hf; done.
Qed.

Definition gcm_key (key : AesKey) : bytes := (aes_gcm_cipher key).2.
(** The library takes the key, the pieces of additional data, and [n] bytes. *)
Definition gcm_accepts (key : AesKey) (mode : GcmMode) (aads : list bytes) (n : Z) : bool :=
  gcm_key_ok (aes_gcm_cipher key).1 (gcm_key key) (GcmMode_nonce mode) && aad_accepted 0 aads && gcm_data_ok 0 n.

(** The operation after the additional data. *)
Lemma begin_aead_ok key mode dir aads n :
  gcm_accepts key mode aads n = true →
  ∃ cr, (op ← aes_begin_aead (Explicit key) mode dir; feed_aad op aads) = Ok (gcm_op cr dir mode []) ∧
        is_gcm cr (mk_gcm (dir_mode dir) (gcm_key key) (GcmMode_nonce mode) (concat aads) [] None).
Proof.
  intros [[Hk Ha]%andb_true_iff _]%andb_true_iff. unfold gcm_key in *.
  assert (gcm_cipher (aes_gcm_cipher key).1) as Hc by (destruct key; unfold gcm_cipher; cbn; tauto).
  cbn [aes_begin_aead BoringAes]. unfold BoringAes_begin_aead. cbn [explicit mbind res_bind].
  destruct (aes_gcm_cipher key) as [c k]. cbn [fst snd] in *.
  pose proof (gcm_new c (dir_mode dir) k (GcmMode_nonce mode) Hc) as Hn.
  destruct (Crypter_new _ _ _ _) as [cr|e|]; [|congruence..]. destruct Hn as [_ Hg]. cbn [ossl map_err mbind res_bind].
  exact (feed_aad_ok aads cr _ dir mode Hg eq_refl Ha).
Qed.
Lemma aead_run_encrypt key mode aads chunks :
  gcm_accepts key mode aads (len (concat chunks)) = true →
  aead_run (Explicit key) mode Encrypt aads chunks =
  Ok (gcm_seal (gcm_key key) (GcmMode_nonce mode) (GcmMode_tag_len mode) (concat aads) (concat chunks)).
Proof.
  intros Hacc. destruct (begin_aead_ok key mode Encrypt aads _ Hacc) as (c1 & Hb & Hg1).
  unfold aead_run. rewrite <- res_bind_assoc, Hb. cbn [mbind res_bind]. apply andb_true_iff in Hacc as [_ Hd].
  destruct (feed_encrypt _ chunks Hd c1 _ mode Hg1) as (c2 & -> & Hg2); [done|].
  cbn [mbind res_bind gcm_op aad_finish boring_aad]. by rewrite (GcmEncrypt_finish_ok c2 _ mode Hg2 eq_refl).
Qed.
Lemma aead_run_decrypt key mode aads chunks :
  gcm_accepts key mode aads (Z.max 0 (len (concat chunks) - GcmMode_tag_len mode)) = true →
  aead_run (Explicit key) mode Decrypt aads chunks =
  gcm_open (gcm_key key) (GcmMode_nonce mode) (GcmMode_tag_len mode) (concat aads) (concat chunks).
Proof.
  intros Hacc. assert (12 ≤ GcmMode_tag_len mode ≤ 16) as Ht by (destruct mode; cbn; lia).
  destruct (begin_aead_ok key mode Decrypt aads _ Hacc) as (c1 & Hb & Hg1).
  unfold aead_run. rewrite <- res_bind_assoc, Hb. cbn [mbind res_bind]. apply andb_true_iff in Hacc as [_ Hd].
  destruct (feed_decrypt _ chunks Hd c1 _ mode [] Hg1) as (c2 & -> & Hg2); [unfold len; cbn; lia..|].
  cbn [mbind res_bind gcm_op aad_finish boring_aad app]. cbn [app] in Hg2.
  rewrite (GcmDecrypt_finish_ok c2 _ _ _ Hg2 eq_refl Ht). unfold gcm_open. set (t := GcmMode_tag_len mode) in *.
  set (d := concat chunks) in *. destruct (decide (len d < t)) as [Hs|Hs].
  - rewrite decide_True; [done|]. unfold len in *. rewrite length_drop. lia.
  - rewrite decide_False by (unfold len in *; rewrite length_drop; lia). unfold g_expected_tag. cbn.
    case_decide; [|done]. cbn [mbind res_bind]. by rewrite app_nil_r.
Qed.

(** C20: However additional data and input are cut into pieces, an AES-GCM operation of the
    implementation gives what the one-shot function of SP 800-38D gives on the whole, if the library
    takes that much: ciphertext and tag when encrypting; when decrypting, the plaintext if the
    input ends with the right tag, and the right error if the tag is wrong or the input shorter
    than a tag. *)
Theorem boring_gcm_chunks key mode dir aads chunks :
  let k := gcm_key key in
  let n := GcmMode_nonce mode in
  let t := GcmMode_tag_len mode in
  let payload := match dir with Encrypt => len (concat chunks) | Decrypt => Z.max 0 (len (concat chunks) - t) end in
  gcm_accepts key mode aads payload = true →
  aead_run (Explicit key) mode dir aads chunks =
  match dir with
  | Encrypt => Ok (gcm_seal k n t (concat aads) (concat chunks))
  | Decrypt => gcm_open k n t (concat aads) (concat chunks)
  end.
Proof. cbv zeta. destruct dir; [apply aead_run_encrypt|apply aead_run_decrypt]. Qed.

(** *** Key encryption *)

Lemma seal_aead_run k aad pt : seal k aad pt = aead_run k (GcmTag16 ZERO_NONCE) Encrypt [aad] [pt].
Proof.
  unfold seal, aead_run. destruct (aes_begin_aead _ _ _) as [op|e|]; [|done..]. cbn [mbind res_bind feed_aad].
  destruct (aad_update_aad op aad) as [op'|e|]; [|done..]. cbn [mbind res_bind feed].
  destruct (aad_update op' pt) as [[o op'']|e|]; [|done..]. cbn [mbind res_bind]. by rewrite app_nil_r.
Qed.
Lemma unseal_aead_run k aad ct pt :
  aead_run k (GcmTag16 ZERO_NONCE) Decrypt [aad] [ct] = Ok pt → unseal k aad ct = Ok pt.
Proof.
  unfold unseal, aead_run. destruct (aes_begin_aead _ _ _) as [op|e|]; [|done..]. cbn [mbind res_bind feed_aad].
  destruct (aad_update_aad op aad) as [op'|e|]; [|done..]. cbn [mbind res_bind feed].
  destruct (aad_update op' ct) as [[o op'']|e|]; [|done..]. cbn [mbind res_bind]. rewrite app_nil_r.
  by destruct (aad_finish op'').
Qed.
(** Sealing succeeds only for what the library takes. *)
Lemma seal_accepts k aad pt ct :
  seal k aad pt = Ok ct → ∃ key, k = Explicit key ∧ gcm_accepts key (GcmTag16 ZERO_NONCE) [aad] (len pt) = true.
Proof.
  intros H. destruct k as [key|]; [|done]. exists key. split; [done|]. unfold seal in H.
  apply res_bind_Ok in H as (op & Hb & H). apply res_bind_Ok in H as (op1 & Ha & H).
  apply res_bind_Ok in H as ([o op2] & Hu & _).
  cbn [aes_begin_aead BoringAes] in Hb. unfold BoringAes_begin_aead in Hb. cbn [explicit mbind res_bind] in Hb.
  unfold gcm_accepts, gcm_key.
  assert (gcm_cipher (aes_gcm_cipher key).1) as Hc by (destruct key; unfold gcm_cipher; cbn; tauto).
  destruct (aes_gcm_cipher key) as [c k]. cbn [fst snd] in *.
  pose proof (gcm_new c Mode_Encrypt k ZERO_NONCE Hc) as Hn. cbn [GcmMode_nonce dir_mode] in Hb |- *.
  destruct (Crypter_new _ _ _ _) as [cr|e|]; [|done..]. destruct Hn as [-> Hg]. injection Hb as <-.
  cbn in Ha. unfold GcmEncrypt_update_aad in Ha. cbn in Ha.
  pose proof (gcm_aad cr _ aad Hg eq_refl) as Had. destruct (Crypter_aad_update aad cr) as [c1|e|]; [|done..].
  destruct Had as [Had Hg1]. injection Ha as <-. cbn [aad_accepted]. cbn [g_aad] in Had. change (len []) with 0 in Had. rewrite Had.
  cbn in Hu. unfold GcmEncrypt_update, BoringAesOperation_update, crypter_update in Hu. cbn in Hu.
  pose proof (gcm_update c1 _ pt (zeros (len pt + AES_BLOCK_SIZE)) Hg1) as Hup. cbn in Hup.
  destruct (Crypter_update _ _ _) as [[[n b] c2]|e|]; [|done..]. cbn. apply Hup.
  pose proof (len_nonneg pt). pose proof (length_zeros (len pt + AES_BLOCK_SIZE)) as Hz. unfold AES_BLOCK_SIZE, len in *. lia.
Qed.
Lemma boring_aead_laws : AeadLaws.
Proof.
  split. intros k aad pt ct Hs. destruct (seal_accepts k aad pt ct Hs) as (key & -> & Hacc).
  rewrite seal_aead_run, aead_run_encrypt in Hs by (cbn [concat]; by rewrite app_nil_r).
  injection Hs as <-. apply unseal_aead_run. cbn [concat GcmMode_tag_len GcmMode_nonce]. rewrite !app_nil_r.
  set (ct := gcm_seal _ _ _ _ _).
  assert (len ct = len pt + 16) as Hl.
  { subst ct. unfold gcm_seal, len. rewrite length_app, length_take, length_gctr, length_gcm_tag. lia. }
  pose proof (len_nonneg pt). rewrite aead_run_decrypt; cbn [concat GcmMode_tag_len GcmMode_nonce]; rewrite !app_nil_r.
  - apply gcm_open_seal; [lia|apply length_gcm_tag].
  - rewrite Hl. by replace (Z.max 0 (len pt + 16 - 16)) with (len pt) by lia.
Qed.

(** *** As functions of the whole *)

Definition aead_seal (key : AesKey) (mode : GcmMode) : bytes → bytes → bytes :=
  gcm_seal (gcm_key key) (GcmMode_nonce mode) (GcmMode_tag_len mode).
Definition aead_open (key : AesKey) (mode : GcmMode) : bytes → bytes → Result bytes :=
  gcm_open (gcm_key key) (GcmMode_nonce mode) (GcmMode_tag_len mode).
Definition aead_accepts (dir : SymmetricOperation) (key : AesKey) (mode : GcmMode) (aads : list bytes) (n : Z) : bool :=
  gcm_accepts key mode aads match dir with Encrypt => n | Decrypt => Z.max 0 (n - GcmMode_tag_len mode) end.
Lemma boring_aead_runs : AeadRuns aead_seal aead_open aead_accepts.
Proof.
  split; unfold aead_seal, aead_open, aead_accepts.
  - intros. by apply aead_run_encrypt.
  - intros. by apply aead_run_decrypt.
  - intros key mode aad pt. apply gcm_open_seal; [destruct mode; cbn; lia|apply length_gcm_tag].
  - intros key mode aad data pt. unfold gcm_open. case_decide; [done|]. cbv zeta. case_decide as Ht; [|done].
    intros [= <-]. unfold gcm_seal. rewrite gctr_involutive, <- Ht. by rewrite take_drop.
Qed.
End gcm.

(** ** MACs *)

Section macs.
Context `{Tgt : Target} `{BE : BsslErrors} `{SY : Symm} `{BM : BsslMacs} `{BB : BsslBasics} `{OK : !OpensslKeys} `{P1 : Pkcs1}.

(** The length of a digest in bytes. *)
Definition md_size (md : MessageDigest) : Z :=
  match md with
  | Md_md5 => 16 | Md_sha1 => 20 | Md_sha224 => 28 | Md_sha256 => 32 | Md_sha384 => 48 | Md_sha512 => 64
  end.
(** HMAC and AES-CMAC of the library: contexts can be made, and absorb data. *)
Class MacLaws (h : MessageDigest → bytes → bytes → bytes) (c : AesKey → bytes → bytes)
    (is_hmac : HMAC_CTX → MessageDigest → bytes → bytes → Prop) (is_cmac : CMAC_CTX → AesKey → bytes → Prop) : Prop := {
  hmac_ctx_new : is_Some HMAC_CTX_new;
  hmac_init ctx key md : ∃ ctx' es, HMAC_Init_ex ctx key md = mk_ffi 1 ctx' es ∧ is_hmac ctx' md key [];
  hmac_absorb ctx md key d data : is_hmac ctx md key d →
    ∃ ctx' es, HMAC_Update ctx data = mk_ffi 1 ctx' es ∧ is_hmac ctx' md key (d ++ data);
  hmac_result ctx md key d buf : is_hmac ctx md key d → md_size md ≤ len buf →
    ∃ es, HMAC_Final ctx buf = mk_ffi 1 (h md key d ++ drop (Z.to_nat (md_size md)) buf, md_size md) es;
  max_md_size md : md_size md ≤ EVP_MAX_MD_SIZE;
  len_h md key d : len (h md key d) = md_size md;
  cmac_ctx_new : is_Some CMAC_CTX_new;
  cmac_init ctx key : AesKey_wf key →
    ∃ ctx' es, CMAC_Init ctx (aes_cbc_cipher key).2 (aes_cbc_cipher key).1 = mk_ffi 1 ctx' es ∧ is_cmac ctx' key [];
  cmac_absorb ctx key d data : is_cmac ctx key d →
    ∃ ctx' es, CMAC_Update ctx data = mk_ffi 1 ctx' es ∧ is_cmac ctx' key (d ++ data);
  cmac_result ctx key d buf : is_cmac ctx key d → len buf = 16 →
    ∃ es, CMAC_Final ctx buf = mk_ffi 1 (c key d, 16) es;
  length_c key d : length (c key d) = 16%nat
}.
Context `{ML : MacLaws h c is_hmac is_cmac}.
#[local] Existing Instance boring_acc.
#[local] Existing Instance BoringHmac.
#[local] Existing Instance BoringAesCmac.

Lemma expect_1_ok {A} (a : A) es : expect_1 (mk_ffi 1 a es) = Ok a.
Proof. done. Qed.

Lemma hmac_update_chunks chunks : ∀ ctx md key d, is_hmac ctx md key d →
  ∃ ctx', update_chunks (Acc_Hmac (mk_hmac_op ctx)) chunks = Ok (Acc_Hmac (mk_hmac_op ctx')) ∧
          is_hmac ctx' md key (d ++ concat chunks).
Proof.
  induction chunks as [|data chunks IH]; intros ctx md key d Hc; [exists ctx; cbn; by rewrite app_nil_r|].
  destruct (hmac_absorb ctx md key d data Hc) as (ctx1 & es & Hu & Hc1).
  destruct (IH ctx1 md key _ Hc1) as (ctx' & Hf & Hc'). exists ctx'. cbn [concat]. rewrite app_assoc. split; [|done].
  cbn. unfold BoringHmacOperation_update. cbn. rewrite Hu. cbn. exact Hf.
Qed.
Lemma cmac_update_chunks chunks : ∀ ctx key d, is_cmac ctx key d →
  ∃ ctx', update_chunks (Acc_AesCmac (mk_cmac_op ctx)) chunks = Ok (Acc_AesCmac (mk_cmac_op ctx')) ∧
          is_cmac ctx' key (d ++ concat chunks).
Proof.
  induction chunks as [|data chunks IH]; intros ctx key d Hc; [exists ctx; cbn; by rewrite app_nil_r|].
  destruct (cmac_absorb ctx key d data Hc) as (ctx1 & es & Hu & Hc1).
  destruct (IH ctx1 key _ Hc1) as (ctx' & Hf & Hc'). exists ctx'. cbn [concat]. rewrite app_assoc. split; [|done].
  cbn. unfold BoringAesCmacOperation_update. cbn. rewrite Hu. cbn. exact Hf.
Qed.

(** The function by the digest of the key parameters. *)
Definition hmac_of (digest : Digest) (key data : bytes) : bytes :=
  match digest_into_openssl_ffi digest with Ok md => h md key data | _ => [] end.
Lemma hmac_run_md key digest md chunks :
  digest_into_openssl_ffi digest = Ok md →
  (op ← hmac_begin (Explicit key) digest; op ← update_chunks op chunks; acc_finish op) = Ok (h md key (concat chunks)).
Proof.
  intros Hmd. destruct hmac_ctx_new as [ctx0 H0]. destruct (hmac_init ctx0 key md) as (ctx1 & es & Hi & Hc1).
  assert (hmac_begin (Explicit key) digest = Ok (Acc_Hmac (mk_hmac_op ctx1))) as ->.
  { cbn. unfold BoringHmac_begin. cbn. rewrite H0. cbn. rewrite Hmd. cbn. by rewrite Hi. }
  cbn [mbind res_bind]. destruct (hmac_update_chunks chunks ctx1 md key [] Hc1) as (ctx2 & -> & Hc2). cbn [mbind res_bind].
  cbn [acc_finish boring_acc BoringAcc_finish]. unfold BoringHmacOperation_finish. cbn [hmac_ctx].
  pose proof (max_md_size md) as Hmax. assert (0 ≤ md_size md) as Hpos by (by destruct md).
  destruct (hmac_result ctx2 md key _ (zeros EVP_MAX_MD_SIZE) Hc2) as [es' Hf]; [rewrite length_zeros; lia|].
  rewrite Hf, expect_1_ok. cbn [mbind res_bind]. unfold truncate. f_equal. apply take_app_length'.
  pose proof (len_h md key (concat chunks)) as Hl. unfold len in Hl. lia.
Qed.
Lemma boring_hmac_runs : HmacRuns hmac_of.
Proof.
  split; intros key digest bits x Hb; unfold hmac_of; destruct digest; cbn in Hb; simplify_eq; cbn [digest_into_openssl_ffi];
    solve [by apply hmac_run_md | by rewrite len_h].
Qed.
Lemma length_h_sha256 key d : length (h Md_sha256 key d) = 32%nat.
Proof. pose proof (len_h Md_sha256 key d) as Hl. unfold len in Hl. cbn in Hl. lia. Qed.
Lemma boring_hmac_chunks : HmacChunks (h Md_sha256).
Proof. split; [|apply length_h_sha256]. intros key chunks. by apply hmac_run_md. Qed.
Lemma boring_hmac_fn : HmacFn (h Md_sha256).
Proof.
  split; [|apply length_h_sha256]. intros key data.
  pose proof (hmac_chunks (HmacChunks:=boring_hmac_chunks) key [data]) as Hc. cbn [concat] in Hc. rewrite app_nil_r in Hc.
  rewrite <- Hc. unfold hmac_sha256. destruct (hmac_begin _ _) as [op|e|]; [|done..]. cbn [mbind res_bind update_chunks].
  by destruct (acc_update op data).
Qed.
Lemma boring_cmac_fn : CmacFn c.
Proof.
  split; [|apply length_c]. intros key chunks Hk. destruct cmac_ctx_new as [ctx0 H0].
  destruct (cmac_init ctx0 key Hk) as (ctx1 & es & Hi & Hc1).
  assert (cmac_begin (Explicit key) = Ok (Acc_AesCmac (mk_cmac_op ctx1))) as ->.
  { cbn. unfold BoringAesCmac_begin. cbn. destruct (aes_cbc_cipher key) as [ci k]. cbn in Hi. rewrite H0. cbn. by rewrite Hi. }
  cbn [mbind res_bind]. destruct (cmac_update_chunks chunks ctx1 key [] Hc1) as (ctx2 & -> & Hc2). cbn [mbind res_bind].
  cbn [acc_finish boring_acc BoringAcc_finish]. unfold BoringAesCmacOperation_finish. cbn [cmac_ctx].
  destruct (cmac_result ctx2 key _ (zeros AES_BLOCK_SIZE) Hc2 eq_refl) as [es' Hf]. by rewrite Hf.
Qed.
End macs.

(** ** Keys and comparison *)

Section keys.
Context `{Tgt : Target} `{BE : BsslErrors} `{BB : BsslBasics} `{OK : !OpensslKeys} `{P1 : Pkcs1} `{P8 : Pkcs8}.
#[local] Existing Instance BoringRng.
#[local] Existing Instance boring_generators.
#[local] Existing Instance default_imports.

(** The comparison of the library, which is given buffers of the same length only. *)
Class MemcmpLaws : Prop := { memcmp_eq_true a b : len a = len b → memcmp_eq a b = true ↔ a = b }.

Lemma boring_eq_laws `{!MemcmpLaws} : @ConstTimeEqLaws BoringEq.
Proof.
  split. intros a b. cbn. case_decide as Hl; [split; [done|by intros ->]|].
  apply memcmp_eq_true. lia.
Qed.

Lemma random_bytes_len n (s : rng_state) b s' : random_bytes n s = (Ok b, s') → len b = Z.max 0 n.
Proof.
  unfold random_bytes. pose proof (length_rand_bytes (Z.to_nat n) s) as Hl. cbn.
  destruct (rand_bytes _ s) as [x s1]. intros [= <- _]. unfold len. cbn in Hl. lia.
Qed.
Lemma ec_labelled_wf m : ec_labelled m → km_wf m.
Proof. intros (k & -> & Hk). destruct k; cbn; try done; unfold ec_key_of; cbn; by rewrite Hk. Qed.
Lemma generated_labelled info params g m g' :
  match info with Gen_NistEc _ | Gen_Ed25519 | Gen_X25519 => True | _ => False end →
  generate_material info params g = (Ok m, g') → ec_labelled m.
Proof.
  destruct info as [| | | |curve| |]; try done; intros _ H; cbn in H;
    unfold BoringEc_generate_nist_key, BoringEc_generate_ed25519_key, BoringEc_generate_x25519_key in H.
  - apply stM_bind_Ok in H as (? & ? & _ & H). apply stM_bind_Ok in H as (? & ? & _ & H).
    apply stM_bind_Ok in H as (k & ? & _ & H). injection H as <- _.
    destruct curve; [by exists (EcKey_P224 k)|by exists (EcKey_P256 k)|by exists (EcKey_P384 k)|by exists (EcKey_P521 k)].
  - apply stM_bind_Ok in H as (? & ? & _ & H). apply stM_bind_Ok in H as (k & ? & _ & H).
    apply stM_bind_Ok in H as (? & ? & Hk & H). injection H as <- _. exists (EcKey_Ed25519 k).
    injection Hk as Hk _. apply reject_if_Ok, bool_decide_eq_false, dec_stable in Hk. done.
  - apply stM_bind_Ok in H as (? & ? & _ & H). apply stM_bind_Ok in H as (k & ? & _ & H).
    apply stM_bind_Ok in H as (? & ? & Hk & H). injection H as <- _. exists (EcKey_X25519 k).
    injection Hk as Hk _. apply reject_if_Ok, bool_decide_eq_false, dec_stable in Hk. done.
Qed.

Lemma boring_key_laws : KeyTraitsLaws.
Proof.
  split.
  - intros info params g key g' H. destruct info as [v| |n|n e|curve| |] eqn:Hi;
      try (subst info; eapply ec_labelled_wf, generated_labelled; [|exact H]; done); cbn in H.
    + apply stM_bind_Ok in H as (k & s & Hk%random_bytes_len & H). injection H as <- _. by destruct v.
    + apply stM_bind_Ok in H as (k & s & _ & H). apply stM_bind_Ok in H as (d & s1 & Hd & H). injection H as <- _.
      injection Hd as Hd _. unfold DesKey_new in Hd. case_decide; [|done]. by injection Hd as <-.
    + apply stM_bind_Ok in H as (? & ? & _ & H). apply stM_bind_Ok in H as (k & s & _ & H). by injection H as <- _.
    + unfold BoringRsa_generate_key in H. do 5 apply stM_bind_Ok in H as (? & ? & _ & H). by injection H as <- _.
  - intros data params key n e H. cbn in H. unfold Rsa_import_pkcs8_key_default, rsa_import_pkcs8 in H.
    apply res_bind_Ok in H as ([[oid ?] der] & _ & H). apply res_bind_Ok in H as (? & _ & H).
    unfold rsa_import_pkcs1 in H. do 3 apply res_bind_Ok in H as (? & _ & H). by injection H as <- _ _.
  - intros data params key H. apply ec_labelled_wf, (ec_import_labelled data). cbn in H. tauto.
  - intros data params key n H. cbn in H. unfold Aes_import_key_default, AesKey_new in H.
    apply res_bind_Ok in H as (k & Hk & H). injection H as <- _. repeat case_decide; try done; by injection Hk as <-.
  - intros data params key H. cbn in H. unfold Des_import_key_default, DesKey_new in H.
    apply res_bind_Ok in H as (k & Hk & H). injection H as <-. case_decide; [|done]. by injection Hk as <-.
  - intros data params key n H. cbn in H. unfold Hmac_import_key_default in H.
    apply res_bind_Ok in H as (? & _ & H). by injection H as <- _.
Qed.
Lemma boring_nist_laws : NistGeneratorLaws.
Proof.
  split. intros curve params g key g' H. cbn in H. unfold BoringEc_generate_nist_key in H.
  do 3 apply stM_bind_Ok in H as (? & ? & _ & H). injection H as <- _. eauto.
Qed.
End keys.

(** ** Accumulating operations *)

Section accumulate.
Context `{Tgt : Target} `{BE : BsslErrors} `{SY : Symm} `{BM : BsslMacs} `{BB : BsslBasics} `{OK : !OpensslKeys}
        `{P1 : Pkcs1}.
#[local] Existing Instance boring_acc.
#[local] Existing Instance BoringRsa.
#[local] Existing Instance BoringEc.

(** Padding on the left panics exactly when there is too much data. *)
Lemma zero_pad_left_spec data n : 0 ≤ n < 2 ^ 64 → len data < 2 ^ 64 →
  zero_pad_left data n = if decide (len data ≤ n) then Ok (zeros (n - len data) ++ data) else Panic.
Proof.
  intros Hn Hd. pose proof (len_nonneg data). unfold zero_pad_left, ovf_unsigned. destruct (decide (len data ≤ n)) as [Hl|Hl].
  - rewrite decide_True by lia. cbn [mbind res_bind]. unfold copy_from_slice_at, slice_from.
    rewrite length_zeros, decide_True by lia. cbn [mbind res_bind]. rewrite decide_True.
    + do 2 f_equal. unfold zeros. rewrite take_replicate. f_equal. lia.
    + unfold zeros, len in *. rewrite drop_replicate, length_replicate. lia.
  - rewrite decide_False by lia. destruct overflow_checks; [done|]. cbn [mbind res_bind].
    assert (as_unsigned 64 (n - len data) = n - len data + 2 ^ 64) as ->.
    { unfold as_unsigned. symmetry. apply Zmod_unique with (-1); lia. }
    unfold copy_from_slice_at, slice_from. rewrite length_zeros by lia. by rewrite decide_False by lia.
Qed.

(** What an operation holds after it has absorbed [d]. *)
Definition absorbed (d : bytes) (op : BoringAcc) : BoringAcc :=
  match op with
  | Acc_EcAgree op => Acc_EcAgree (mk_ec_agree (agree_key op) (agree_pending op ++ d) (agree_max_size op))
  | Acc_EcSign (EcUndigestSign op) =>
    Acc_EcSign (EcUndigestSign (mk_ec_undigest (eus_ec_key op)
      (take (Z.to_nat (eus_max_size op)) (eus_pending op ++ d)) (eus_max_size op)))
  | Acc_EcSign (Ed25519Sign op) => Acc_EcSign (Ed25519Sign (mk_ed25519 (ed_pkey op) (ed_pending op ++ d)))
  | Acc_RsaDecrypt op => Acc_RsaDecrypt (mk_rsa_decrypt (rd_key op) (rd_mode op) (rd_pending op ++ d) (rd_max_size op))
  | Acc_RsaSign (RsaUndigestSign op) =>
    Acc_RsaSign (RsaUndigestSign (mk_rsa_undigest (rus_rsa_key op) (left_pad op) (rus_pending op ++ d) (rus_max_size op)))
  | op => op
  end.
(** Operations that hold their input themselves, and hold no more than they may. *)
Definition buffering (op : BoringAcc) : Prop :=
  match op with
  | Acc_EcAgree _ | Acc_EcSign (Ed25519Sign _) | Acc_RsaDecrypt _ | Acc_RsaSign (RsaUndigestSign _) => True
  | Acc_EcSign (EcUndigestSign op) => len (eus_pending op) ≤ eus_max_size op < 2 ^ 64
  | _ => False
  end.

Lemma update_absorbed op data : buffering op →
  acc_update op data = Ok (absorbed data op) ∧ buffering (absorbed data op).
Proof.
  destruct op as [op|[op|op|op]|op|[op|op]|op|op]; cbn; try done; intros [Hl Hm].
  unfold BoringEcUndigestSignOperation_update. pose proof (len_nonneg (eus_pending op)). pose proof (len_nonneg data).
  rewrite ovf_unsigned_ok by (split; lia). cbn [mbind res_bind]. split.
  - case_decide as Hd.
    + rewrite slice_to_in by lia. cbn. do 3 f_equal. destruct op as [k p m]. cbn in *. f_equal.
      rewrite take_app, (take_ge p) by (unfold len in *; lia). f_equal. unfold len in *.
      destruct (decide (m - Z.of_nat (length p) ≤ Z.of_nat (length data))).
      * f_equal. lia.
      * rewrite !take_ge by lia. done.
    + cbn. do 3 f_equal. destruct op as [k p m]. cbn in *. f_equal. unfold len in *.
      rewrite take_app, take_ge by lia. replace (_ - _)%nat with 0%nat by lia. by rewrite take_0, app_nil_r.
  - unfold len in *. rewrite length_take. lia.
Qed.
Lemma absorbed_nil op : buffering op → absorbed [] op = op.
Proof.
  destruct op as [[]|[op|op|[]]|[]|[op|[]]|op|op]; cbn; rewrite ?app_nil_r; try done.
  intros Hl. destruct op as [k p m]. cbn in *. by rewrite take_ge by (unfold len in *; lia).
Qed.
Lemma take_take_app {A} m (l k : list A) : take m (take m l ++ k) = take m (l ++ k).
Proof.
  rewrite !take_app, take_take, Nat.min_id, length_take. f_equal.
  destruct (decide (m <= length l)%nat); [|f_equal; lia]. by replace (m - _)%nat with 0%nat by lia; replace (m - _)%nat with 0%nat by lia.
Qed.
Lemma absorbed_app op a b : absorbed b (absorbed a op) = absorbed (a ++ b) op.
Proof.
  destruct op as [op|[op|op|op]|op|[op|op]|op|op]; cbn; rewrite ?app_assoc; try done. by rewrite take_take_app.
Qed.
Lemma update_chunks_absorbed chunks : ∀ op, buffering op →
  update_chunks op chunks = Ok (absorbed (concat chunks) op) ∧ buffering (absorbed (concat chunks) op).
Proof.
  induction chunks as [|data chunks IH]; intros op Hb; cbn [concat].
  - rewrite absorbed_nil by done. done.
  - destruct (update_absorbed op data Hb) as [Hu Hb1]. destruct (IH _ Hb1) as [Hc Hb2].
    rewrite absorbed_app in Hc, Hb2. cbn [update_chunks]. by rewrite Hu.
Qed.

(** An ECDSA signature without digest covers the input up to the length of a coordinate,
    however it is cut into pieces; the rest is ignored. *)
Theorem ec_undigested_signature key curve k chunks :
  NistCurve_try_from (EcKey_curve key) = Ok curve → private_key_bytes key = k →
  (op ← ec_begin_sign (Explicit key) Digest_None; op ← update_chunks op chunks; acc_finish op) =
  (group ← nist_curve_to_group curve;
   ec_key ← ossl (private_key_from_der_for_group k group);
   sig ← ossl (EcdsaSig_sign (take (Z.to_nat (NistCurve_coord_len curve)) (concat chunks)) ec_key);
   ossl (EcdsaSig_to_der sig)).
Proof.
  intros Hc <-. cbn [ec_begin_sign BoringEc]. unfold BoringEc_begin_sign. cbn [explicit mbind res_bind].
  assert (∀ b, (op ← Acc_EcSign <$> (op ← BoringEcUndigestSignOperation_new b curve; Ok (EcUndigestSign op));
                op ← update_chunks op chunks; acc_finish op) =
    (group ← nist_curve_to_group curve; ec_key ← ossl (private_key_from_der_for_group b group);
     sig ← ossl (EcdsaSig_sign (take (Z.to_nat (NistCurve_coord_len curve)) (concat chunks)) ec_key);
     ossl (EcdsaSig_to_der sig))) as Hg.
  { intros b. unfold BoringEcUndigestSignOperation_new. destruct (nist_curve_to_group curve) as [g|e|]; [|done..].
    cbn [mbind res_bind]. destruct (ossl (private_key_from_der_for_group b g)) as [ek|e|]; [|done..].
    cbn [mbind res_bind fmap res_fmap].
    destruct (update_chunks_absorbed chunks (Acc_EcSign (EcUndigestSign (mk_ec_undigest ek [] (NistCurve_coord_len curve))))) as [Hu _].
    { cbn. destruct curve; done. }
    rewrite Hu. done. }
  destruct key; cbn in Hc |- *; try done; injection Hc as <-; apply Hg.
Qed.

(** Functions of the [openssl] crate return errors; they panic only when a buffer they write to
    is too small. *)
Class OpensslNoPanic : Prop := {
  np_from_curve_name n : from_curve_name n ≠ Panic;
  np_private_key_from_der d g : private_key_from_der_for_group d g ≠ Panic;
  np_private_key_from_raw_bytes d i : private_key_from_raw_bytes d i ≠ Panic;
  np_public_key_from_der d : public_key_from_der d ≠ Panic;
  np_PublicPKey_raw k : PublicPKey_raw k ≠ Panic;
  np_PKey_from_ec_key k : PKey_from_ec_key k ≠ Panic;
  np_PKey_from_rsa k : PKey_from_rsa k ≠ Panic;
  np_Deriver_new k : Deriver_new k ≠ Panic;
  np_set_peer d k : set_peer d k ≠ Panic;
  np_derive_to_vec d : derive_to_vec d ≠ Panic;
  np_EcdsaSig_sign d k : EcdsaSig_sign d k ≠ Panic;
  np_EcdsaSig_to_der s : EcdsaSig_to_der s ≠ Panic;
  np_Signer_new k : Signer_new_without_digest k ≠ Panic;
  np_sign_oneshot s d : sign_oneshot_to_vec s d ≠ Panic;
  np_Rsa_private_key_from_der d : Rsa_private_key_from_der d ≠ Panic;
  np_Decrypter_new k : Decrypter_new k ≠ Panic;
  np_set_rsa_padding p d : set_rsa_padding p d ≠ Panic;
  np_set_rsa_oaep_md m d : set_rsa_oaep_md m d ≠ Panic;
  np_set_rsa_mgf1_md m d : set_rsa_mgf1_md m d ≠ Panic;
  np_decrypt_len d data : decrypt_len d data ≠ Panic;
  decrypt_len_range d data n : decrypt_len d data = Ok n → 0 ≤ n < 2 ^ 32;
  np_decrypt_into d data buf n : decrypt_len d data = Ok n → len buf = n →
    ∀ data', len data' = Z.max (len data) n ∨ data' = data → decrypt_into d data' buf ≠ Panic;
  Rsa_size_range k : 0 ≤ Rsa_size k < 2 ^ 32;
  np_private_encrypt k data buf p : len buf = Rsa_size k → private_encrypt k data buf p ≠ Panic
}.
Context `{NP : !OpensslNoPanic}.

Lemma bind_np {E A B} (m : res E A) (f : A → res E B) : m ≠ Panic → (∀ a, m = Ok a → f a ≠ Panic) → m ≫= f ≠ Panic.
Proof. destruct m; cbn; naive_solver. Qed.
Lemma fmap_np {E A B} (m : res E A) (f : A → B) : m ≠ Panic → f <$> m ≠ Panic.
Proof. by destruct m. Qed.
Lemma ossl_np {A} (m : res (list Z) A) : m ≠ Panic → ossl m ≠ Panic.
Proof. by destruct m. Qed.
Lemma map_err_np {E F A} (f : E → F) (m : res E A) : m ≠ Panic → map_err f m ≠ Panic.
Proof. by destruct m. Qed.
Lemma ok_or_np {E A} (o : option A) (e : E) : ok_or o e ≠ Panic.
Proof. by destruct o. Qed.
Lemma reject_if_np {E} b (e : E) : reject_if b e ≠ Panic.
Proof. by destruct b. Qed.
Lemma cvt_np {A} (r : ffi_result A) : cvt r ≠ Panic.
Proof. unfold cvt. by case_decide. Qed.
Lemma expect_1_np {A} (r : ffi_result A) : expect_1 r ≠ Panic.
Proof. unfold expect_1. by case_decide. Qed.
Lemma digest_sign_final_np m : digest_sign_final m ≠ Panic.
Proof.
  apply bind_np; [apply cvt_np|intros [n c] _]. apply bind_np; [apply cvt_np|intros [b k] _]. done.
Qed.
Lemma nist_key_to_group_np k : nist_key_to_group k ≠ Panic.
Proof. destruct k; try done; apply ossl_np, np_from_curve_name. Qed.

(** Steps of a computation that cannot panic. *)
Ltac np := repeat first
  [ done
  | apply ok_or_np | apply reject_if_np | apply cvt_np | apply expect_1_np | apply nist_key_to_group_np
  | apply ossl_np; solve [auto using np_from_curve_name, np_private_key_from_der, np_private_key_from_raw_bytes,
      np_public_key_from_der, np_PublicPKey_raw, np_PKey_from_ec_key, np_PKey_from_rsa, np_Deriver_new, np_set_peer,
      np_derive_to_vec, np_EcdsaSig_sign, np_EcdsaSig_to_der, np_Signer_new, np_sign_oneshot,
      np_Rsa_private_key_from_der, np_Decrypter_new, np_set_rsa_padding, np_set_rsa_oaep_md, np_set_rsa_mgf1_md,
      np_decrypt_len]
  | apply map_err_np
  | apply fmap_np
  | apply bind_np; [|intros ? _] ].

Lemma ec_agree_finish_np op : BoringEcAgreeOperation_finish op ≠ Panic.
Proof. unfold BoringEcAgreeOperation_finish. apply bind_np; [np|intros ? _]. destruct (agree_key op); np. Qed.
Lemma set_oaep_digests_np m d : set_oaep_digests m d ≠ Panic.
Proof. destruct m; [done|cbn; np|done]. Qed.
Lemma rsa_decrypt_finish_np op : len (rd_pending op) < 2 ^ 64 → BoringRsaDecryptOperation_finish op ≠ Panic.
Proof.
  intros Hl. unfold BoringRsaDecryptOperation_finish. do 4 (apply bind_np; [np|intros ? _]).
  apply bind_np; [apply set_oaep_digests_np|intros d _]. apply bind_np; [np|intros n Hn].
  apply map_err_Ok in Hn. pose proof (decrypt_len_range _ _ _ Hn) as Hr.
  assert (∀ data', len data' = Z.max (len (rd_pending op)) n ∨ data' = rd_pending op →
    ('(actual_len, output) ← ossl (decrypt_into d data' (zeros n)); Ok (truncate actual_len output)) ≠ Panic) as Hd.
  { intros data' Hd. apply bind_np; [|by intros [] _].
    apply ossl_np. eapply np_decrypt_into; [done|apply length_zeros; lia|done]. }
  destruct (bool_decide (rd_mode op = Dec_NoPadding) && bool_decide (len (rd_pending op) < n)) eqn:Hp; [|apply Hd; auto].
  apply andb_true_iff in Hp as [_ Hp%bool_decide_eq_true]. rewrite zero_pad_left_spec by lia. rewrite decide_True by lia.
  cbn [mbind res_bind]. apply Hd. left. rewrite len_app, length_zeros; lia.
Qed.

(** Operations that pass their input on. *)
Definition streaming (op : BoringAcc) : Prop :=
  match op with Acc_EcSign (EcDigestSign _) | Acc_RsaSign (RsaDigestSign _) | Acc_Hmac _ | Acc_AesCmac _ => True | _ => False end.
Lemma streaming_update op data : streaming op →
  acc_update op data ≠ Panic ∧ ∀ op', acc_update op data = Ok op' → streaming op'.
Proof.
  destruct op as [op|[op|op|op]|op|[op|op]|op|op]; cbn; try done; intros _;
    (split; [apply fmap_np, bind_np; [np|done]|intros op' (? & _ & <-)%res_fmap_Ok; done]).
Qed.
Lemma streaming_np chunks : ∀ op, streaming op → (op ← update_chunks op chunks; acc_finish op) ≠ Panic.
Proof.
  induction chunks as [|data chunks IH]; intros op Hs; cbn [update_chunks].
  - destruct op as [op|[op|op|op]|op|[op|op]|op|op]; cbn; try done; try apply digest_sign_final_np;
      (apply bind_np; [np|intros [] _; np]).
  - destruct (streaming_update op data Hs) as [Hn Hk]. rewrite res_bind_assoc. apply bind_np; [done|]. eauto.
Qed.

(** Operations as the implementation makes them. *)
#[local] Existing Instance BoringHmac.
#[local] Existing Instance BoringAesCmac.
Inductive begun : acc_op → Prop :=
| begun_agree key op : ec_begin_agree key = Ok op → begun op
| begun_ec_sign key digest op : ec_begin_sign key digest = Ok op → begun op
| begun_rsa_decrypt key mode op : rsa_begin_decrypt key mode = Ok op → begun op
| begun_rsa_sign key mode op : rsa_begin_sign key mode = Ok op → begun op
| begun_hmac key digest op : hmac_begin key digest = Ok op → begun op
| begun_cmac key op : cmac_begin key = Ok op → begun op.
(** They are streaming, or have nothing pending and room for all they may get. *)
Definition ready (op : BoringAcc) : Prop :=
  streaming op ∨ buffering op ∧
  match op with
  | Acc_RsaDecrypt op => rd_pending op = [] ∧ rd_max_size op < 2 ^ 64
  | Acc_RsaSign (RsaUndigestSign op) => rus_pending op = [] ∧ (left_pad op = true → 0 ≤ rus_max_size op < 2 ^ 32)
  | _ => True
  end.

Context `{PL : !Pkcs1Laws}.
Lemma RsaKey_size_range key : 0 ≤ RsaKey_size key < 2 ^ 28.
Proof.
  unfold RsaKey_size. destruct (rsa_from_der key) as [k|] eqn:Hk; [|done].
  pose proof (len_nonneg (rsa_modulus k)). pose proof (rsa_modulus_len key k Hk). lia.
Qed.
Lemma undigest_ready key mode op :
  BoringRsaUndigestSignOperation_new key mode = Ok op → ready (Acc_RsaSign (RsaUndigestSign op)).
Proof.
  unfold BoringRsaUndigestSignOperation_new. intros H. apply res_bind_Ok in H as (k & _ & H).
  apply res_bind_Ok in H as ([lp m] & Hm & [= <-]). right. cbn. split_and!; [done..|]. intros ->.
  pose proof (Rsa_size_range k). destruct mode as [|d|[]]; cbn in Hm; simplify_eq; try lia.
  apply res_bind_Ok in Hm as (? & _ & Hm). done.
Qed.
Lemma begun_ready op : begun op → ready op.
Proof.
  destruct 1 as [key op H|key digest op H|key mode op H|key mode op H|key digest op H|key op H]; cbn in H;
    apply res_fmap_Ok in H as (o & H & <-).
  - by right.
  - unfold BoringEc_begin_sign in H. apply res_bind_Ok in H as (k & _ & H).
    assert (∀ (d : option MessageDigest) b c,
      match d with
      | Some d => op ← BoringEcDigestSignOperation_new b c d; Ok (EcDigestSign op)
      | None => op ← BoringEcUndigestSignOperation_new b c; Ok (EcUndigestSign op)
      end = Ok o → ready (Acc_EcSign o)) as Hd.
    { intros [d|] b c' Ho; apply res_bind_Ok in Ho as (op & Hop & [= <-]); [by left|right].
      unfold BoringEcUndigestSignOperation_new in Hop. do 2 apply res_bind_Ok in Hop as (? & _ & Hop).
      injection Hop as <-. cbn. split; [|done]. destruct c'; done. }
    destruct k; try done; try (apply res_bind_Ok in H as (c' & _ & H); by eapply Hd).
    apply res_bind_Ok in H as (op & _ & [= <-]). by right.
  - unfold BoringRsa_begin_decrypt in H. apply res_bind_Ok in H as (k & _ & [= <-]). right. cbn.
    pose proof (RsaKey_size_range k). split_and!; [done..|lia].
  - unfold BoringRsa_begin_sign in H. apply res_bind_Ok in H as (k & _ & H).
    destruct mode as [|d|d]; [|destruct d..]; cbn in H; try done;
      apply res_bind_Ok in H as (op & Hop & [= <-]); try (by left); by eapply undigest_ready.
  - by left.
  - by left.
Qed.

(** C26: No operation of the implementation panics on input within the limit that it
    announces, which the trusted application enforces: neither while the pieces are absorbed
    nor at the end. *)
Theorem boring_no_panic op chunks :
  begun op →
  match acc_max_input_size op with Some max_size => len (concat chunks) ≤ max_size | None => True end →
  (op ← update_chunks op chunks; acc_finish op) ≠ Panic.
Proof.
  intros [Hs|[Hb Hr]]%begun_ready Hmax; [by apply streaming_np|].
  destruct (update_chunks_absorbed chunks op Hb) as [-> _]. cbn [mbind res_bind].
  destruct op as [op|[op|op|op]|op|[op|op]|op|op]; cbn in Hb, Hr, Hmax |- *; try done.
  - apply ec_agree_finish_np.
  - unfold BoringEcUndigestSignOperation_finish. np.
  - unfold BoringEd25519SignOperation_finish. np.
  - destruct Hr as [-> Hm]. apply rsa_decrypt_finish_np. cbn. lia.
  - destruct Hr as [-> Hm]. unfold BoringRsaUndigestSignOperation_finish. cbn [left_pad rus_pending rus_max_size rus_rsa_key app].
    pose proof (Rsa_size_range (rus_rsa_key op)).
    destruct (left_pad op); [|apply ossl_np, np_private_encrypt, length_zeros; lia].
    rewrite zero_pad_left_spec by (specialize (Hm eq_refl); lia). rewrite decide_True by done. cbn [mbind res_bind].
    apply ossl_np, np_private_encrypt, length_zeros. lia.
Qed.
End accumulate.

(** ** The laws the other theorems assume *)

Section implements.
Context `{Tgt : Target} `{BE : BsslErrors} `{SY : Symm} `{BM : BsslMacs} `{BB : BsslBasics} `{OK : !OpensslKeys}
        `{P1 : Pkcs1} `{P8 : Pkcs8} `{GF : GcmFunction}.
Context `{GL : !GcmLaws is_gcm} `{ML : !MacLaws h c is_hmac is_cmac} `{CL : !MemcmpLaws}.

(** C21: The implementation on top of the library is what the trusted application's theorems
    assume of the traits: opening undoes sealing, AES-GCM, HMAC with every digest and CMAC are functions
    of the data however it is cut, comparison is equality, and generated and imported keys are well-formed. *)
Theorem boring_implements :
  AeadLaws (A:=BoringAes) ∧ AeadRuns (A:=BoringAes) aead_seal aead_open aead_accepts ∧
  HmacFn (H0:=BoringHmac) (h Md_sha256) ∧ HmacChunks (H:=BoringHmac) (h Md_sha256) ∧ HmacRuns (H0:=BoringHmac) (hmac_of (h:=h)) ∧
  CmacFn (H0:=BoringAesCmac) c ∧ ConstTimeEqLaws (H:=BoringEq) ∧
  KeyTraitsLaws (I:=default_imports) (KG:=boring_generators) ∧ NistGeneratorLaws (KG:=boring_generators).
Proof.
  split_and!; [apply boring_aead_laws|apply boring_aead_runs|apply boring_hmac_fn|apply boring_hmac_chunks
              |apply boring_hmac_runs|apply boring_cmac_fn
              |apply boring_eq_laws|apply boring_key_laws|apply boring_nist_laws].
Qed.
End implements.

(** ** A small library *)

Module SampleBoring.
#[local] Instance target : Target := {| big_endian := false; overflow_checks := true |}.
#[local] Instance errors : BsslErrors := {|
  ERR_GET_REASON code := Z.land code 0xfff; ERR_GET_LIB code := Z.shiftr code 24;
  ERR_R_MALLOC_FAILURE := 65; ERR_R_SHOULD_NOT_HAVE_BEEN_CALLED := 66; ERR_R_PASSED_NULL_PARAMETER := 67;
  ERR_R_INTERNAL_ERROR := 68; ERR_R_OVERFLOW := 69;
  ERR_LIB_USER := 33; ERR_LIB_EVP := 6; ERR_LIB_ASN1 := 12; ERR_LIB_CIPHER := 30; ERR_LIB_PKCS8 := 19;
  ERR_LIB_X509V3 := 20; ERR_LIB_RSA := 4;
  EVP_R_UNSUPPORTED_ALGORITHM := 101; EVP_R_OPERATON_NOT_INITIALIZED := 102;
  EVP_R_OPERATION_NOT_SUPPORTED_FOR_THIS_KEYTYPE := 103; EVP_R_BUFFER_TOO_SMALL := 104;
  EVP_R_EXPECTING_AN_RSA_KEY := 105; EVP_R_EXPECTING_A_DSA_KEY := 106; EVP_R_MISSING_PARAMETERS := 107;
  EVP_R_DIFFERENT_PARAMETERS := 108; EVP_R_DECODE_ERROR := 109; EVP_R_DIFFERENT_KEY_TYPES := 110;
  ASN1_R_ENCODE_ERROR := 101;
  CIPHER_R_DATA_NOT_MULTIPLE_OF_BLOCK_LENGTH := 101; CIPHER_R_WRONG_FINAL_BLOCK_LENGTH := 102;
  CIPHER_R_UNSUPPORTED_KEY_SIZE := 103; CIPHER_R_BAD_KEY_LENGTH := 104; CIPHER_R_BAD_DECRYPT := 105;
  CIPHER_R_INVALID_KEY_LENGTH := 106;
  PKCS8_R_UNSUPPORTED_PRIVATE_KEY_ALGORITHM := 101; PKCS8_R_UNKNOWN_CIPHER := 102;
  PKCS8_R_PRIVATE_KEY_ENCODE_ERROR := 103; PKCS8_R_PRIVATE_KEY_DECODE_ERROR := 104; PKCS8_R_ENCODE_ERROR := 105;
  X509V3_R_UNKNOWN_OPTION := 101;
  RSA_R_KEY_SIZE_TOO_SMALL := 101; RSA_R_DATA_TOO_LARGE_FOR_KEY_SIZE := 102;
  RSA_R_DATA_TOO_SMALL_FOR_KEY_SIZE := 103; RSA_R_DATA_TOO_LARGE_FOR_MODULUS := 104; RSA_R_DATA_TOO_LARGE := 105
|}.

(** A key stream that counts, and a tag of lengths and a sum. *)
Definition byte_sum (b : bytes) : Z := foldr (λ x s, u8_val x + s) 0 b.
#[local] Instance gcm_function : GcmFunction := {|
  keystream k n i := u8_of (byte_sum k + byte_sum n + Z.of_nat i);
  gcm_tag k n aad ct := to_be_bytes 8 (len aad + 256 * byte_sum k) ++ to_be_bytes 8 (byte_sum aad + 7 * byte_sum ct);
  gcm_key_ok c k n := bool_decide (len n = 12);
  gcm_aad_ok _ _ := true;
  gcm_data_ok a b := bool_decide (a + b < 2 ^ 36)
|}.
#[local] Instance symm : Symm := {|
  Crypter := Gcm;
  Crypter_new c m k n :=
    match n with
    | Some n => if decide (len n = 12) then Ok (mk_gcm m k n [] [] None) else Err []
    | None => Err []
    end;
  Crypter_pad _ g := g;
  Crypter_aad_update aad g := Ok (mk_gcm (g_mode g) (g_key g) (g_nonce g) (g_aad g ++ aad) [] (g_tag g));
  Crypter_update data buf g :=
    if decide (len (g_data g) + len data < 2 ^ 36)
    then Ok (len data, g_crypt g data ++ drop (length data) buf, g_absorb data g) else Err [];
  Crypter_finalize buf g :=
    match g_mode g, g_tag g with
    | Mode_Encrypt, _ => Ok (0, buf, g)
    | Mode_Decrypt, Some tag =>
      if decide (tag = take (length tag) (g_expected_tag g (g_data g))) then Ok (0, buf, g) else Err []
    | _, None => Err []
    end;
  Crypter_get_tag tag g := Ok (take (length tag) (g_expected_tag g (gctr (g_key g) (g_nonce g) (g_data g))));
  Crypter_set_tag tag g := Ok (mk_gcm Mode_Decrypt (g_key g) (g_nonce g) (g_aad g) (g_data g) (Some tag))
|}.
Definition same (cr : Gcm) (g : Gcm) : Prop := cr = g.
#[local] Instance gcm_laws : GcmLaws (SY:=symm) same.
Proof.
  split; unfold same.
  - intros c m k n _. cbn. case_decide; [by rewrite bool_decide_eq_true_2|by rewrite bool_decide_eq_false_2].
  - intros cr g aad <- _. cbn. by split.
  - intros cr g data buf <- _. cbn. case_decide; [by rewrite bool_decide_eq_true_2|by rewrite bool_decide_eq_false_2].
  - intros a b a' b' ? ? ? ?. cbn. rewrite !bool_decide_eq_true. lia.
  - intros a b. cbn. rewrite bool_decide_eq_true. lia.
  - intros cr g buf <- Hm. exists cr. cbn. by rewrite Hm.
  - intros cr g tag <- Hm Hl. by eexists.
  - intros cr g tag buf <- Hm Ht. cbn. rewrite Hm, Ht. case_decide; [by eexists|done].
  - intros k n aad ct. cbn. by rewrite length_app, !length_to_be_bytes.
Qed.

(** A short tag, and pieces that do not respect its boundary. *)
Definition key : AesKey := AesKey128 (replicate 16 (u8_of 9)).
Definition mode : GcmMode := GcmTag12 (replicate 12 (u8_of 3)).
Definition aads : list bytes := [[u8_of 1]; []; [u8_of 2; u8_of 3]].
Definition message : bytes := bytes_of_string "attack at dawn".
Definition sealed : bytes := gcm_seal (gcm_key key) (GcmMode_nonce mode) 12 (concat aads) message.
Definition pieces : list bytes := [take 5 sealed; []; take 9 (drop 5 sealed); drop 14 sealed].
Lemma boring_gcm_chunks_witness :
  aead_run (A:=BoringAes) (Explicit key) mode Decrypt aads pieces = Ok message ∧
  aead_run (A:=BoringAes) (Explicit key) mode Decrypt aads (pieces ++ [[u8_of 0]]) = km_err VerificationFailed ∧
  aead_run (A:=BoringAes) (Explicit key) mode Encrypt aads [message] = Ok sealed.
Proof.
  split_and!; (etransitivity; [apply (boring_gcm_chunks (GL:=gcm_laws)); vm_compute; reflexivity|vm_compute; reflexivity]).
Defined.

(** MACs that hash keys and data by a sum. *)
Definition h (md : MessageDigest) (k d : bytes) : bytes :=
  to_be_bytes (Z.to_nat (md_size md)) (3 * byte_sum k + byte_sum d).
Definition c (k : AesKey) (d : bytes) : bytes := to_be_bytes 16 (3 * byte_sum (aes_cbc_cipher k).2 + byte_sum d).
#[local] Instance macs : BsslMacs := {|
  HMAC_CTX := MessageDigest * bytes * bytes;
  HMAC_CTX_new := Some (Md_sha256, [], []);
  HMAC_Init_ex _ k md := mk_ffi 1 (md, k, []) [];
  HMAC_Update ctx data := mk_ffi 1 (ctx.1, ctx.2 ++ data) [];
  HMAC_Final ctx buf :=
    mk_ffi 1 (h ctx.1.1 ctx.1.2 ctx.2 ++ drop (Z.to_nat (md_size ctx.1.1)) buf, md_size ctx.1.1) [];
  CMAC_CTX := bytes * bytes;
  CMAC_CTX_new := Some ([], []);
  CMAC_Init _ k _ := mk_ffi 1 (k, []) [];
  CMAC_Update ctx data := mk_ffi 1 (ctx.1, ctx.2 ++ data) [];
  CMAC_Final ctx buf := mk_ffi 1 (to_be_bytes 16 (3 * byte_sum ctx.1 + byte_sum ctx.2), 16) [];
  EVP_MAX_MD_SIZE := 64
|}.
#[local] Instance basics : BsslBasics := {|
  rand_state := nat;
  RAND_seed _ _ s := s;
  rand_bytes n s := (replicate n (u8_of (Z.of_nat s)), S s);
  length_rand_bytes n s := length_replicate n _;
  ossl_sha256 d := to_be_bytes 32 (byte_sum d);
  memcmp_eq a b := bool_decide (a = b)
|}.
(** Keys are byte strings; an RSA key of 16 bytes, whose operation is the identity. *)
#[local] Instance keys `{BB : BsslBasics} : OpensslKeys := {|
  EcGroup := unit; OsslEcKey := bytes; OsslRsa := bytes; PKey := bytes; PublicPKey := bytes;
  from_curve_name _ := Ok tt;
  EcKey_generate _ s := (Ok [], s);
  EcKey_private_key_to_der k := Ok k;
  private_key_from_der_for_group d _ := Ok d;
  EcKey_public_key_bytes k _ := Ok k;
  PKey_generate _ s := (Ok [], s);
  private_key_from_raw_bytes d _ := Ok d;
  raw_private_key k := Ok k;
  raw_public_key k := Ok k;
  public_key_from_der d := Ok d;
  PublicPKey_id _ := Id_X25519;
  PublicPKey_raw k := Ok k;
  PKey_from_ec_key k := Ok k;
  PKey_from_rsa k := Ok k;
  Deriver := bytes;
  Deriver_new k := Ok k;
  set_peer d k := Ok (d ++ k);
  derive_to_vec d := Ok d;
  X25519_PUBLIC_VALUE_LEN := 32;
  X25519_SHARED_KEY_LEN := 32;
  ffi_X25519 buf _ _ := mk_ffi 1 buf [];
  EcdsaSig := bytes;
  EcdsaSig_sign d k := Ok (k ++ d);
  EcdsaSig_to_der sig := Ok sig;
  Signer := bytes;
  Signer_new_without_digest k := Ok k;
  sign_oneshot_to_vec k d := Ok (k ++ d);
  MD_CTX := bytes; PKEY_CTX := unit;
  EVP_MD_CTX_new := (Some [], []);
  EVP_DigestSignInit ctx _ k := mk_ffi 1 (ctx ++ k, Some tt) [];
  EVP_PKEY_CTX_set_rsa_padding _ _ ctx := mk_ffi 1 ctx [];
  EVP_PKEY_CTX_set_rsa_pss_saltlen _ _ ctx := mk_ffi 1 ctx [];
  EVP_DigestUpdate ctx d := mk_ffi 1 (ctx ++ d) [];
  EVP_DigestSignFinal_len ctx := mk_ffi 1 (len ctx, ctx) [];
  EVP_DigestSignFinal ctx _ := mk_ffi 1 (ctx, len ctx) [];
  BigNum := bytes;
  BigNum_from_slice b := Ok b;
  Rsa_generate_with_e _ _ s := (Ok [], s);
  Rsa_private_key_to_der k := Ok k;
  Rsa_private_key_from_der d := Ok d;
  Rsa_size _ := 16;
  private_encrypt _ d _ _ := Ok d;
  Decrypter := bytes;
  Decrypter_new k := Ok k;
  set_rsa_padding _ d := Ok d;
  set_rsa_oaep_md _ d := Ok d;
  set_rsa_mgf1_md _ d := Ok d;
  decrypt_len _ _ := Ok 16;
  decrypt_into _ d _ := Ok (len d, d)
|}.
#[local] Instance no_panic : OpensslNoPanic (OK:=keys).
Proof. split; try done. intros d data n [= <-]. lia. Qed.
#[local] Instance pkcs1 : Pkcs1 := {|
  rsa_from_der d := Some (mk_rsa_private_key (replicate 16 (u8_of 1)) [u8_of 3] (Some d));
  sec1_public_key d := Some (Some d)
|}.
#[local] Instance pkcs1_laws : Pkcs1Laws (P1:=pkcs1).
Proof. split. intros der k [= <-]. done. Qed.
#[local] Instance pkcs8 : Pkcs8 := {|
  any := Oid;
  any_from_oid o := o;
  any_decode_as_oid o := Some o;
  pkcs8_parse d := Some (RSA_X509_OID, None, d);
  sec1_parse d := Ok None
|}.

(** A raw RSA signature of ten bytes in two pieces. *)
Definition rsa_op : acc_op (AccumulatingOperation:=boring_acc) :=
  Acc_RsaSign (RsaUndigestSign (mk_rsa_undigest (OK:=keys) [] true [] 16)).
Definition rsa_pieces : list bytes := [replicate 4 (u8_of 5); replicate 6 (u8_of 6)].
Lemma boring_no_panic_witness :
  let result := (op ← update_chunks rsa_op rsa_pieces; acc_finish op) in
  result ≠ Panic ∧ result = Ok (replicate 6 (u8_of 0) ++ concat rsa_pieces).
Proof.
  split; [|vm_compute; reflexivity].
  apply (boring_no_panic rsa_op rsa_pieces); [|vm_compute; discriminate].
  apply (begun_rsa_sign (Explicit []) Sign_NoPadding). reflexivity.
Defined.
End SampleBoring.
