(* ===== verification/CryptoRef.v ===== *)
(** * The algorithms behind the cryptographic library

    The [boringssl] crate calls a library of which only a contract is assumed ([BoringSpec]).
    Here the algorithms of the standards are written down as functions that can be run (MD5, SHA-1
    and SHA-2, HMAC, AES, CMAC, AES-GCM, triple DES), and put behind the library's interface:
    the instances [symm], [macs] and [basics] of module [Libcrypto] satisfy the contract, so that
    it holds of the algorithms the crate is used with.  That the functions are those of the
    standards is checked on the test vectors of [Conformance]. *)

From S2P Require Import Prelude Wire CryptoTypes Crypto EcKeys KeyTraits KeyblobLegacy Keyblob TaState Keys Rkp Boring BoringSpec.

(** ** Words and blocks *)

(** Words of [w] bits, with the mask that cuts to that width. *)
Definition ones (w : Z) : Z := 2 ^ w - 1.
Definition rotr (w m n x : Z) : Z := Z.lor (Z.shiftr x n) (Z.land (Z.shiftl x (w - n)) m).
Definition rotl (w m n x : Z) : Z := rotr w m (w - n) x.

(** Pieces of [n] bytes; the last one may be shorter. *)
Fixpoint pieces_of (fuel n : nat) (b : bytes) : list bytes :=
  match fuel, b with
  | S fuel', _ :: _ => take n b :: pieces_of fuel' n (drop n b)
  | _, _ => []
  end.
Definition blocks (n : nat) (b : bytes) : list bytes := pieces_of (length b) n b.

(** The message, a one bit, zeros, and its length in bits: a multiple of [block] bytes. *)
Definition md_pad (block length_size : Z) (length_bytes : Z → bytes) (m : bytes) : bytes :=
  m ++ u8_of 0x80 :: replicate (Z.to_nat ((- (len m + 1 + length_size)) mod block)) (u8_of 0)
    ++ length_bytes (8 * len m).

(** ** SHA-2 (FIPS 180-4) *)

Module Sha2.
Record Variant := mk_variant {
  word_bits : Z;
  mask : Z;
  constants : list Z;
  sum0 : Z * Z * Z; sum1 : Z * Z * Z;             (* rotations *)
  sigma0 : Z * Z * Z; sigma1 : Z * Z * Z          (* two rotations and a shift *)
}.
Definition State : Set := Z * Z * Z * Z * Z * Z * Z * Z.

Section variant.
Context (v : Variant).
Definition add (a b : Z) : Z := Z.land (a + b) (mask v).
Definition rot3 (r : Z * Z * Z) (x : Z) : Z :=
  let '(a, b, c) := r in
  Z.lxor (rotr (word_bits v) (mask v) a x) (Z.lxor (rotr (word_bits v) (mask v) b x) (rotr (word_bits v) (mask v) c x)).
Definition rot2_shift (r : Z * Z * Z) (x : Z) : Z :=
  let '(a, b, c) := r in
  Z.lxor (rotr (word_bits v) (mask v) a x) (Z.lxor (rotr (word_bits v) (mask v) b x) (Z.shiftr x c)).
Definition ch (x y z : Z) : Z := Z.lxor (Z.land x y) (Z.land (Z.lxor x (mask v)) z).
Definition maj (x y z : Z) : Z := Z.lxor (Z.land x y) (Z.lxor (Z.land x z) (Z.land y z)).

(** One round; [ws] are the next sixteen words of the message schedule. *)
Definition round (p : list Z * State) (k : Z) : list Z * State :=
  let '(ws, (a, b, c, d, e, f, g, h)) := p in
  let w0 := nth 0 ws 0 in
  let t1 := add h (rot3 (sum1 v) e + ch e f g + k + w0) in
  let t2 := rot3 (sum0 v) a + maj a b c in
  (tail ws ++ [add w0 (rot2_shift (sigma0 v) (nth 1 ws 0) + nth 9 ws 0 + rot2_shift (sigma1 v) (nth 14 ws 0))],
   (add t1 t2, a, b, c, add d t1, e, f, g)).
Definition compress (s : State) (block : bytes) : State :=
  let ws := from_be_bytes <$> blocks (Z.to_nat (word_bits v / 8)) block in
  let '(a, b, c, d, e, f, g, h) := s in
  let '(a', b', c', d', e', f', g', h') := (foldl round (ws, s) (constants v)).2 in
  (add a a', add b b', add c c', add d d', add e e', add f f', add g g', add h h').
Definition state_bytes (s : State) : bytes :=
  let '(a, b, c, d, e, f, g, h) := s in
  concat (to_be_bytes (Z.to_nat (word_bits v / 8)) <$> [a; b; c; d; e; f; g; h]).
Definition block_size : Z := 2 * word_bits v.
Definition hash (init : State) (n : nat) (m : bytes) : bytes :=
  let size := Z.to_nat (word_bits v / 4) in
  take n (state_bytes (foldl compress init
    (blocks (Z.to_nat block_size) (md_pad block_size (Z.of_nat size) (to_be_bytes size) m)))).

Lemma length_hash init n m : (n <= 8 * Z.to_nat (word_bits v / 8))%nat → length (hash init n m) = n.
Proof.
  intros Hn. unfold hash. set (s := foldl _ _ _). destruct s as [[[[[[[a b] c] d] e] f] g] h]. cbn.
  rewrite length_take, !length_app, !length_to_be_bytes. cbn. lia.
Qed.
End variant.

(** The constants are fractional parts of roots of the first prime numbers. *)
Definition is_prime (n : nat) : bool := forallb (λ d, negb (n mod d =? 0)%nat) (seq 2 (n - 2)).
Definition primes : list Z := Z.of_nat <$> List.filter is_prime (seq 2 408).
(** The largest number whose [k]th power is not above [n], from its highest bit down. *)
Definition root (bits : nat) (k n : Z) : Z :=
  foldr (λ i r, let r' := r + 2 ^ Z.of_nat i in if r' ^ k <=? n then r' else r) 0 (seq 0 bits).
(** The first 64 bits of the fractional part of the [k]th root of [p]. *)
Definition frac_root (k p : Z) : Z := as_unsigned 64 (root 69 k (p * 2 ^ (64 * k))).
Definition K512 : list Z := Eval vm_compute in frac_root 3 <$> primes.
Definition K256 : list Z := Eval vm_compute in (λ k, Z.shiftr k 32) <$> take 64 K512.
Definition v32 : Variant := mk_variant 32 (ones 32) K256 (2, 13, 22) (6, 11, 25) (7, 18, 3) (17, 19, 10).
Definition v64 : Variant := mk_variant 64 (ones 64) K512 (28, 34, 39) (14, 18, 41) (1, 8, 7) (19, 61, 6).
Definition state_of (l : list Z) : State :=
  match l with [a; b; c; d; e; f; g; h] => (a, b, c, d, e, f, g, h) | _ => (0, 0, 0, 0, 0, 0, 0, 0) end.
Definition H512 : State := Eval vm_compute in state_of (frac_root 2 <$> take 8 primes).
Definition H384 : State := Eval vm_compute in state_of (frac_root 2 <$> take 8 (drop 8 primes)).
Definition H256 : State := Eval vm_compute in state_of ((λ p, Z.shiftr (frac_root 2 p) 32) <$> take 8 primes).
Definition H224 : State := Eval vm_compute in state_of ((λ p, as_unsigned 32 (frac_root 2 p)) <$> take 8 (drop 8 primes)).
Definition sha224 : bytes → bytes := hash v32 H224 28.
Definition sha256 : bytes → bytes := hash v32 H256 32.
Definition sha384 : bytes → bytes := hash v64 H384 48.
Definition sha512 : bytes → bytes := hash v64 H512 64.
End Sha2.

(** ** SHA-1 (FIPS 180-4) and MD5 (RFC 1321) *)

Module Sha1.
Definition State : Set := Z * Z * Z * Z * Z.
Definition add (a b : Z) : Z := Z.land (a + b) (ones 32).
Definition parity (x y z : Z) : Z := Z.lxor x (Z.lxor y z).
Definition schedule : list ((Z → Z → Z → Z) * Z) :=
  replicate 20 (Sha2.ch Sha2.v32, 0x5a827999) ++ replicate 20 (parity, 0x6ed9eba1) ++
  replicate 20 (Sha2.maj, 0x8f1bbcdc) ++ replicate 20 (parity, 0xca62c1d6).
Definition round (p : list Z * State) (fk : (Z → Z → Z → Z) * Z) : list Z * State :=
  let '(ws, (a, b, c, d, e)) := p in
  let w0 := nth 0 ws 0 in
  let t := add (rotl 32 (ones 32) 5 a) (fk.1 b c d + e + fk.2 + w0) in
  (tail ws ++ [rotl 32 (ones 32) 1 (Z.lxor w0 (Z.lxor (nth 2 ws 0) (Z.lxor (nth 8 ws 0) (nth 13 ws 0))))],
   (t, a, rotl 32 (ones 32) 30 b, c, d)).
Definition compress (s : State) (block : bytes) : State :=
  let '(a, b, c, d, e) := s in
  let '(a', b', c', d', e') := (foldl round (from_be_bytes <$> blocks 4 block, s) schedule).2 in
  (add a a', add b b', add c c', add d d', add e e').
Definition sha1 (m : bytes) : bytes :=
  let '(a, b, c, d, e) :=
    foldl compress (0x67452301, 0xefcdab89, 0x98badcfe, 0x10325476, 0xc3d2e1f0)
      (blocks 64 (md_pad 64 8 (to_be_bytes 8) m)) in
  concat (to_be_bytes 4 <$> [a; b; c; d; e]).
Lemma length_sha1 m : length (sha1 m) = 20%nat.
Proof. unfold sha1. set (s := foldl _ _ _). destruct s as [[[[a b] c] d] e]. done. Qed.
End Sha1.

Module Md5.
Definition State : Set := Z * Z * Z * Z.
Definition add (a b : Z) : Z := Z.land (a + b) (ones 32).
Definition le_bytes (n : nat) (z : Z) : bytes := reverse (to_be_bytes n z).
Definition T : list Z := [
   0xd76aa478; 0xe8c7b756; 0x242070db; 0xc1bdceee; 0xf57c0faf; 0x4787c62a; 0xa8304613; 0xfd469501;
   0x698098d8; 0x8b44f7af; 0xffff5bb1; 0x895cd7be; 0x6b901122; 0xfd987193; 0xa679438e; 0x49b40821;
   0xf61e2562; 0xc040b340; 0x265e5a51; 0xe9b6c7aa; 0xd62f105d; 0x02441453; 0xd8a1e681; 0xe7d3fbc8;
   0x21e1cde6; 0xc33707d6; 0xf4d50d87; 0x455a14ed; 0xa9e3e905; 0xfcefa3f8; 0x676f02d9; 0x8d2a4c8a;
   0xfffa3942; 0x8771f681; 0x6d9d6122; 0xfde5380c; 0xa4beea44; 0x4bdecfa9; 0xf6bb4b60; 0xbebfbc70;
   0x289b7ec6; 0xeaa127fa; 0xd4ef3085; 0x04881d05; 0xd9d4d039; 0xe6db99e5; 0x1fa27cf8; 0xc4ac5665;
   0xf4292244; 0x432aff97; 0xab9423a7; 0xfc93a039; 0x655b59c3; 0x8f0ccc92; 0xffeff47d; 0x85845dd1;
   0x6fa87e4f; 0xfe2ce6e0; 0xa3014314; 0x4e0811a1; 0xf7537e82; 0xbd3af235; 0x2ad7d2bb; 0xeb86d391].
(** The function, the word, and the rotation of each step. *)
Definition not32 (x : Z) : Z := Z.lxor x (ones 32).
Definition schedule : list ((Z → Z → Z → Z) * Z * Z) :=
  let steps f (g : Z → Z) rots := (λ i, (f, g (Z.of_nat i) mod 16, nth (i mod 4) rots 0)) <$> seq 0 16 in
  steps (λ x y z, Z.lor (Z.land x y) (Z.land (not32 x) z)) (λ i, i) [7; 12; 17; 22] ++
  steps (λ x y z, Z.lor (Z.land x z) (Z.land y (not32 z))) (λ i, 5 * i + 1) [5; 9; 14; 20] ++
  steps (λ x y z, Z.lxor x (Z.lxor y z)) (λ i, 3 * i + 5) [4; 11; 16; 23] ++
  steps (λ x y z, Z.lxor y (Z.lor x (not32 z))) (λ i, 7 * i) [6; 10; 15; 21].
Definition step (ws : list Z) (s : State) (p : (Z → Z → Z → Z) * Z * Z * Z) : State :=
  let '(a, b, c, d) := s in
  let '(f, g, r, t) := p in
  (d, add b (rotl 32 (ones 32) r (add a (f b c d + t + nth (Z.to_nat g) ws 0))), b, c).
Definition compress (s : State) (block : bytes) : State :=
  let ws := (λ b, from_be_bytes (reverse b)) <$> blocks 4 block in
  let '(a, b, c, d) := s in
  let '(a', b', c', d') := foldl (step ws) s (zip_with pair schedule T) in
  (add a a', add b b', add c c', add d d').
Definition md5 (m : bytes) : bytes :=
  let '(a, b, c, d) :=
    foldl compress (0x67452301, 0xefcdab89, 0x98badcfe, 0x10325476) (blocks 64 (md_pad 64 8 (le_bytes 8) m)) in
  concat (le_bytes 4 <$> [a; b; c; d]).
Lemma length_md5 m : length (md5 m) = 16%nat.
Proof.
  unfold md5. set (s := foldl _ _ _). destruct s as [[[a b] c] d]. cbn. unfold le_bytes.
  by rewrite !length_app, !length_reverse, !length_to_be_bytes.
Qed.
End Md5.

(** ** HMAC (RFC 2104) *)

Module Rfc2104.
Definition digest (md : MessageDigest) : bytes → bytes :=
  match md with
  | Md_md5 => Md5.md5 | Md_sha1 => Sha1.sha1 | Md_sha224 => Sha2.sha224 | Md_sha256 => Sha2.sha256
  | Md_sha384 => Sha2.sha384 | Md_sha512 => Sha2.sha512
  end.
Definition block_size (md : MessageDigest) : nat :=
  match md with Md_sha384 | Md_sha512 => 128 | _ => 64 end.
Definition hmac (md : MessageDigest) (key data : bytes) : bytes :=
  let key := if decide (len key > Z.of_nat (block_size md)) then digest md key else key in
  let key := key ++ replicate (block_size md - length key) (u8_of 0) in
  digest md ((xor8 (u8_of 0x5c) <$> key) ++ digest md ((xor8 (u8_of 0x36) <$> key) ++ data)).

Lemma length_digest md m : len (digest md m) = md_size md.
Proof.
  unfold len. destruct md; cbn [digest md_size].
  - by rewrite Md5.length_md5.
  - by rewrite Sha1.length_sha1.
  - unfold Sha2.sha224. rewrite Sha2.length_hash; [done|vm_compute; lia].
  - unfold Sha2.sha256. rewrite Sha2.length_hash; [done|vm_compute; lia].
  - unfold Sha2.sha384. rewrite Sha2.length_hash; [done|vm_compute; lia].
  - unfold Sha2.sha512. rewrite Sha2.length_hash; [done|vm_compute; lia].
Qed.
Lemma length_hmac md key data : len (hmac md key data) = md_size md.
Proof. apply length_digest. Qed.
End Rfc2104.

(** ** AES (FIPS 197) *)

(** Blocks are numbers of 128 bits, and of 64 bits for DES: the bytes in big-endian order. *)
Module Fips197.
Definition SBOX : list Z := [
   0x63; 0x7c; 0x77; 0x7b; 0xf2; 0x6b; 0x6f; 0xc5; 0x30; 0x01; 0x67; 0x2b; 0xfe; 0xd7; 0xab; 0x76; 0xca;
   0x82; 0xc9; 0x7d; 0xfa; 0x59; 0x47; 0xf0; 0xad; 0xd4; 0xa2; 0xaf; 0x9c; 0xa4; 0x72; 0xc0; 0xb7; 0xfd;
   0x93; 0x26; 0x36; 0x3f; 0xf7; 0xcc; 0x34; 0xa5; 0xe5; 0xf1; 0x71; 0xd8; 0x31; 0x15; 0x04; 0xc7; 0x23;
   0xc3; 0x18; 0x96; 0x05; 0x9a; 0x07; 0x12; 0x80; 0xe2; 0xeb; 0x27; 0xb2; 0x75; 0x09; 0x83; 0x2c; 0x1a;
   0x1b; 0x6e; 0x5a; 0xa0; 0x52; 0x3b; 0xd6; 0xb3; 0x29; 0xe3; 0x2f; 0x84; 0x53; 0xd1; 0x00; 0xed; 0x20;
   0xfc; 0xb1; 0x5b; 0x6a; 0xcb; 0xbe; 0x39; 0x4a; 0x4c; 0x58; 0xcf; 0xd0; 0xef; 0xaa; 0xfb; 0x43; 0x4d;
   0x33; 0x85; 0x45; 0xf9; 0x02; 0x7f; 0x50; 0x3c; 0x9f; 0xa8; 0x51; 0xa3; 0x40; 0x8f; 0x92; 0x9d; 0x38;
   0xf5; 0xbc; 0xb6; 0xda; 0x21; 0x10; 0xff; 0xf3; 0xd2; 0xcd; 0x0c; 0x13; 0xec; 0x5f; 0x97; 0x44; 0x17;
   0xc4; 0xa7; 0x7e; 0x3d; 0x64; 0x5d; 0x19; 0x73; 0x60; 0x81; 0x4f; 0xdc; 0x22; 0x2a; 0x90; 0x88; 0x46;
   0xee; 0xb8; 0x14; 0xde; 0x5e; 0x0b; 0xdb; 0xe0; 0x32; 0x3a; 0x0a; 0x49; 0x06; 0x24; 0x5c; 0xc2; 0xd3;
   0xac; 0x62; 0x91; 0x95; 0xe4; 0x79; 0xe7; 0xc8; 0x37; 0x6d; 0x8d; 0xd5; 0x4e; 0xa9; 0x6c; 0x56; 0xf4;
   0xea; 0x65; 0x7a; 0xae; 0x08; 0xba; 0x78; 0x25; 0x2e; 0x1c; 0xa6; 0xb4; 0xc6; 0xe8; 0xdd; 0x74; 0x1f;
   0x4b; 0xbd; 0x8b; 0x8a; 0x70; 0x3e; 0xb5; 0x66; 0x48; 0x03; 0xf6; 0x0e; 0x61; 0x35; 0x57; 0xb9; 0x86;
   0xc1; 0x1d; 0x9e; 0xe1; 0xf8; 0x98; 0x11; 0x69; 0xd9; 0x8e; 0x94; 0x9b; 0x1e; 0x87; 0xe9; 0xce; 0x55;
   0x28; 0xdf; 0x8c; 0xa1; 0x89; 0x0d; 0xbf; 0xe6; 0x42; 0x68; 0x41; 0x99; 0x2d; 0x0f; 0xb0; 0x54; 0xbb; 0x16].
Definition sub_byte (x : Z) : Z := nth (Z.to_nat x) SBOX 0.
Definition inv_sub_byte (x : Z) : Z :=
  match list_find (eq x) SBOX with Some (i, _) => Z.of_nat i | None => 0 end.
Definition xtime (x : Z) : Z := let y := Z.shiftl x 1 in if decide (y < 256) then y else Z.lxor y 0x11b.
(** The product with a polynomial of degree at most three. *)
Definition mul (c x : Z) : Z :=
  let x2 := xtime x in let x4 := xtime x2 in let x8 := xtime x4 in
  Z.lxor (if Z.testbit c 0 then x else 0)
    (Z.lxor (if Z.testbit c 1 then x2 else 0)
      (Z.lxor (if Z.testbit c 2 then x4 else 0) (if Z.testbit c 3 then x8 else 0))).
Definition xor_all : list Z → list Z → list Z := zip_with Z.lxor.

(** The key schedule: words of four bytes, of which the last is transformed now and then. *)
Definition schedule_core (nk i : nat) (rcon : Z) (temp : list Z) : list Z :=
  if (i mod nk =? 0)%nat then
    match sub_byte <$> temp with a :: r => xor_all (r ++ [a]) [rcon; 0; 0; 0] | [] => [] end
  else if ((6 <? nk) && (i mod nk =? 4))%nat then sub_byte <$> temp
  else temp.
Fixpoint expand_words (fuel nk i : nat) (rcon : Z) (ws : list (list Z)) : list (list Z) :=
  match fuel with
  | O => ws
  | S fuel' =>
    let w := xor_all (nth (i - nk) ws []) (schedule_core nk i rcon (nth (i - 1) ws [])) in
    expand_words fuel' nk (S i) (if (i mod nk =? 0)%nat then xtime rcon else rcon) (ws ++ [w])
  end.
Fixpoint columns {A} (fuel : nat) (l : list A) : list (list A) :=
  match fuel, l with S fuel', _ :: _ => take 4 l :: columns fuel' (drop 4 l) | _, _ => [] end.
Fixpoint round_keys (fuel : nat) (ws : list (list Z)) : list (list Z) :=
  match fuel with O => [] | S fuel' => concat (take 4 ws) :: round_keys fuel' (drop 4 ws) end.
Definition expand_key (key : bytes) : list (list Z) :=
  let nk := (length key / 4)%nat in
  let rounds := (nk + 7)%nat in
  round_keys rounds (expand_words (4 * rounds - nk) nk nk 1 (columns nk (u8_val <$> key))).

Definition SHIFT_ROWS : list nat := [0; 5; 10; 15; 4; 9; 14; 3; 8; 13; 2; 7; 12; 1; 6; 11]%nat.
Definition INV_SHIFT_ROWS : list nat := [0; 13; 10; 7; 4; 1; 14; 11; 8; 5; 2; 15; 12; 9; 6; 3]%nat.
Definition permute (p : list nat) (s : list Z) : list Z := (λ i, nth i s 0) <$> p.
Definition mix_column (m : Z * Z * Z * Z) (col : list Z) : list Z :=
  let '(a, b, c, d) := m in
  match col with
  | [w; x; y; z] =>
    let row p q r s := Z.lxor (mul p w) (Z.lxor (mul q x) (Z.lxor (mul r y) (mul s z))) in
    [row a b c d; row d a b c; row c d a b; row b c d a]
  | _ => col
  end.
Definition mix_columns (m : Z * Z * Z * Z) (s : list Z) : list Z := concat (mix_column m <$> columns 4 s).
Definition FORWARD : Z * Z * Z * Z := (2, 3, 1, 1).
Definition BACKWARD : Z * Z * Z * Z := (14, 11, 13, 9).

Definition block_list (x : Z) : list Z := u8_val <$> to_be_bytes 16 x.
Definition list_block (s : list Z) : Z := from_be_bytes (u8_of <$> s).
Fixpoint encrypt_rounds (ks : list (list Z)) (s : list Z) : list Z :=
  match ks with
  | [] => s
  | [k] => xor_all (permute SHIFT_ROWS (sub_byte <$> s)) k
  | k :: ks' => encrypt_rounds ks' (xor_all (mix_columns FORWARD (permute SHIFT_ROWS (sub_byte <$> s))) k)
  end.
Fixpoint decrypt_rounds (ks : list (list Z)) (s : list Z) : list Z :=
  match ks with
  | [] => s
  | [k] => xor_all (inv_sub_byte <$> permute INV_SHIFT_ROWS s) k
  | k :: ks' => decrypt_rounds ks' (mix_columns BACKWARD (xor_all (inv_sub_byte <$> permute INV_SHIFT_ROWS s) k))
  end.
Definition with_first (rounds : list (list Z) → list Z → list Z) (ks : list (list Z)) (x : Z) : Z :=
  match ks with k :: ks' => list_block (rounds ks' (xor_all (block_list x) k)) | [] => x end.
Definition cipher (key : bytes) : Z → Z := with_first encrypt_rounds (expand_key key).
Definition inv_cipher (key : bytes) : Z → Z := with_first decrypt_rounds (reverse (expand_key key)).
End Fips197.

(** ** Triple DES (FIPS 46-3) *)

Module Fips46.
Definition IP : list Z := [
   58; 50; 42; 34; 26; 18; 10; 2; 60; 52; 44; 36; 28; 20; 12; 4; 62; 54; 46; 38; 30; 22; 14; 6; 64; 56; 48;
   40; 32; 24; 16; 8; 57; 49; 41; 33; 25; 17; 9; 1; 59; 51; 43; 35; 27; 19; 11; 3; 61; 53; 45; 37; 29; 21;
   13; 5; 63; 55; 47; 39; 31; 23; 15; 7].
Definition FP : list Z := [
   40; 8; 48; 16; 56; 24; 64; 32; 39; 7; 47; 15; 55; 23; 63; 31; 38; 6; 46; 14; 54; 22; 62; 30; 37; 5; 45;
   13; 53; 21; 61; 29; 36; 4; 44; 12; 52; 20; 60; 28; 35; 3; 43; 11; 51; 19; 59; 27; 34; 2; 42; 10; 50; 18;
   58; 26; 33; 1; 41; 9; 49; 17; 57; 25].
Definition E : list Z := [
   32; 1; 2; 3; 4; 5; 4; 5; 6; 7; 8; 9; 8; 9; 10; 11; 12; 13; 12; 13; 14; 15; 16; 17; 16; 17; 18; 19; 20; 21;
   20; 21; 22; 23; 24; 25; 24; 25; 26; 27; 28; 29; 28; 29; 30; 31; 32; 1].
Definition P : list Z := [
   16; 7; 20; 21; 29; 12; 28; 17; 1; 15; 23; 26; 5; 18; 31; 10; 2; 8; 24; 14; 32; 27; 3; 9; 19; 13; 30; 6;
   22; 11; 4; 25].
Definition PC1 : list Z := [
   57; 49; 41; 33; 25; 17; 9; 1; 58; 50; 42; 34; 26; 18; 10; 2; 59; 51; 43; 35; 27; 19; 11; 3; 60; 52; 44;
   36; 63; 55; 47; 39; 31; 23; 15; 7; 62; 54; 46; 38; 30; 22; 14; 6; 61; 53; 45; 37; 29; 21; 13; 5; 28; 20;
   12; 4].
Definition PC2 : list Z := [
   14; 17; 11; 24; 1; 5; 3; 28; 15; 6; 21; 10; 23; 19; 12; 4; 26; 8; 16; 7; 27; 20; 13; 2; 41; 52; 31; 37;
   47; 55; 30; 40; 51; 45; 33; 48; 44; 49; 39; 56; 34; 53; 46; 42; 50; 36; 29; 32].
Definition SHIFTS : list Z := [1; 1; 2; 2; 2; 2; 2; 2; 1; 2; 2; 2; 2; 2; 2; 1].
Definition S : list (list Z) := [
  [
   14; 4; 13; 1; 2; 15; 11; 8; 3; 10; 6; 12; 5; 9; 0; 7; 0; 15; 7; 4; 14; 2; 13; 1; 10; 6; 12; 11; 9; 5; 3;
   8; 4; 1; 14; 8; 13; 6; 2; 11; 15; 12; 9; 7; 3; 10; 5; 0; 15; 12; 8; 2; 4; 9; 1; 7; 5; 11; 3; 14; 10; 0; 6;
   13];
  [
   15; 1; 8; 14; 6; 11; 3; 4; 9; 7; 2; 13; 12; 0; 5; 10; 3; 13; 4; 7; 15; 2; 8; 14; 12; 0; 1; 10; 6; 9; 11;
   5; 0; 14; 7; 11; 10; 4; 13; 1; 5; 8; 12; 6; 9; 3; 2; 15; 13; 8; 10; 1; 3; 15; 4; 2; 11; 6; 7; 12; 0; 5;
   14; 9];
  [
   10; 0; 9; 14; 6; 3; 15; 5; 1; 13; 12; 7; 11; 4; 2; 8; 13; 7; 0; 9; 3; 4; 6; 10; 2; 8; 5; 14; 12; 11; 15;
   1; 13; 6; 4; 9; 8; 15; 3; 0; 11; 1; 2; 12; 5; 10; 14; 7; 1; 10; 13; 0; 6; 9; 8; 7; 4; 15; 14; 3; 11; 5; 2;
   12];
  [
   7; 13; 14; 3; 0; 6; 9; 10; 1; 2; 8; 5; 11; 12; 4; 15; 13; 8; 11; 5; 6; 15; 0; 3; 4; 7; 2; 12; 1; 10; 14;
   9; 10; 6; 9; 0; 12; 11; 7; 13; 15; 1; 3; 14; 5; 2; 8; 4; 3; 15; 0; 6; 10; 1; 13; 8; 9; 4; 5; 11; 12; 7; 2;
   14];
  [
   2; 12; 4; 1; 7; 10; 11; 6; 8; 5; 3; 15; 13; 0; 14; 9; 14; 11; 2; 12; 4; 7; 13; 1; 5; 0; 15; 10; 3; 9; 8;
   6; 4; 2; 1; 11; 10; 13; 7; 8; 15; 9; 12; 5; 6; 3; 0; 14; 11; 8; 12; 7; 1; 14; 2; 13; 6; 15; 0; 9; 10; 4;
   5; 3];
  [
   12; 1; 10; 15; 9; 2; 6; 8; 0; 13; 3; 4; 14; 7; 5; 11; 10; 15; 4; 2; 7; 12; 9; 5; 6; 1; 13; 14; 0; 11; 3;
   8; 9; 14; 15; 5; 2; 8; 12; 3; 7; 0; 4; 10; 1; 13; 11; 6; 4; 3; 2; 12; 9; 5; 15; 10; 11; 14; 1; 7; 6; 0; 8;
   13];
  [
   4; 11; 2; 14; 15; 0; 8; 13; 3; 12; 9; 7; 5; 10; 6; 1; 13; 0; 11; 7; 4; 9; 1; 10; 14; 3; 5; 12; 2; 15; 8;
   6; 1; 4; 11; 13; 12; 3; 7; 14; 10; 15; 6; 8; 0; 5; 9; 2; 6; 11; 13; 8; 1; 4; 10; 7; 9; 5; 0; 15; 14; 2; 3;
   12];
  [
   13; 2; 8; 4; 6; 15; 11; 1; 10; 9; 3; 14; 5; 0; 12; 7; 1; 15; 13; 8; 10; 3; 7; 4; 12; 5; 6; 11; 0; 14; 9;
   2; 7; 11; 4; 1; 9; 12; 14; 2; 0; 6; 10; 13; 15; 3; 5; 8; 2; 1; 14; 7; 4; 10; 8; 13; 15; 12; 9; 0; 3; 5; 6;
   11]].
(** The listed bits of a number of [n] bits, the first being the highest. *)
Definition permute (n : Z) (table : list Z) (x : Z) : Z :=
  foldl (λ r i, 2 * r + Z.b2z (Z.testbit x (n - i))) 0 table.
Definition rotl28 (n x : Z) : Z := rotl 28 (ones 28) n x.
Fixpoint subkeys (shifts : list Z) (c d : Z) : list Z :=
  match shifts with
  | [] => []
  | n :: shifts' => let c := rotl28 n c in let d := rotl28 n d in
                    permute 56 PC2 (Z.shiftl c 28 + d) :: subkeys shifts' c d
  end.
Definition expand_key (key : Z) : list Z :=
  let cd := permute 64 PC1 key in subkeys SHIFTS (Z.shiftr cd 28) (Z.land cd (ones 28)).
Definition sbox (x : Z) (i : nat) : Z :=
  let b := Z.land (Z.shiftr x (42 - 6 * Z.of_nat i)) 63 in
  let row := 2 * Z.shiftr b 5 + Z.land b 1 in
  nth (Z.to_nat (16 * row + Z.land (Z.shiftr b 1) 15)) (nth i S []) 0.
Definition f (r k : Z) : Z :=
  let x := Z.lxor (permute 32 E r) k in
  permute 32 P (foldl (λ acc i, 16 * acc + sbox x i) 0 (seq 0 8)).
Definition des (ks : list Z) (x : Z) : Z :=
  let y := permute 64 IP x in
  let '(l, r) := foldl (λ '(l, r) k, (r, Z.lxor l (f r k))) (Z.shiftr y 32, Z.land y (ones 32)) ks in
  permute 64 FP (Z.shiftl r 32 + l).
(** Encryption, decryption and encryption with the three parts of the key. *)
Definition parts (key : bytes) : list Z * list Z * list Z :=
  let part i := expand_key (from_be_bytes (take 8 (drop i key))) in (part 0%nat, part 8%nat, part 16%nat).
Definition cipher (key : bytes) (x : Z) : Z :=
  let '(k1, k2, k3) := parts key in des k3 (des (reverse k2) (des k1 x)).
Definition inv_cipher (key : bytes) (x : Z) : Z :=
  let '(k1, k2, k3) := parts key in des (reverse k1) (des k2 (des (reverse k3) x)).
End Fips46.

(** ** CMAC (SP 800-38B) *)

Module Sp800_38b.
Definition dbl (x : Z) : Z :=
  let y := Z.land (Z.shiftl x 1) (ones 128) in if Z.testbit x 127 then Z.lxor y 0x87 else y.
(** The last block, complete or padded with a one bit, and masked. *)
Definition last_block (k1 k2 : Z) (b : bytes) : Z :=
  if decide (length b = 16%nat) then Z.lxor (from_be_bytes b) k1
  else Z.lxor (from_be_bytes (b ++ u8_of 0x80 :: replicate (15 - length b) (u8_of 0))) k2.
Fixpoint chain (encrypt : Z → Z) (k1 k2 : Z) (x : Z) (bs : list bytes) : Z :=
  match bs with
  | [] => encrypt (Z.lxor x (last_block k1 k2 []))
  | [b] => encrypt (Z.lxor x (last_block k1 k2 b))
  | b :: bs' => chain encrypt k1 k2 (encrypt (Z.lxor x (from_be_bytes b))) bs'
  end.
Definition cmac (key data : bytes) : bytes :=
  let encrypt := Fips197.cipher key in
  let k1 := dbl (encrypt 0) in
  to_be_bytes 16 (chain encrypt k1 (dbl k1) 0 (blocks 16 data)).
End Sp800_38b.

(** ** GCM (SP 800-38D), with nonces of 96 bits *)

Module Sp800_38d.
Definition POLY : Z := Z.shiftl 0xe1 120.
Fixpoint gf_mul_from (fuel : nat) (x v z : Z) : Z :=
  match fuel with
  | O => z
  | S fuel' =>
    gf_mul_from fuel' x
      (let s := Z.shiftr v 1 in if Z.testbit v 0 then Z.lxor s POLY else s)
      (if Z.testbit x (Z.of_nat fuel') then Z.lxor z v else z)
  end.
Definition gf_mul (x y : Z) : Z := gf_mul_from 128 x y 0.
Definition padded_block (b : bytes) : Z := from_be_bytes (b ++ replicate (16 - length b) (u8_of 0)).
Definition ghash (h : Z) (xs : list Z) : Z := foldl (λ y x, gf_mul (Z.lxor y x) h) 0 xs.
Definition counter_block (nonce : bytes) (i : Z) : Z := Z.shiftl (from_be_bytes nonce) 32 + as_u32 (i + 1).
Definition tag (key nonce aad ct : bytes) : bytes :=
  let encrypt := Fips197.cipher key in
  let s := ghash (encrypt 0)
             ((padded_block <$> blocks 16 aad) ++ (padded_block <$> blocks 16 ct) ++
              [Z.shiftl (8 * len aad) 64 + 8 * len ct]) in
  to_be_bytes 16 (Z.lxor s (encrypt (counter_block nonce 0))).
Definition keystream_byte (key nonce : bytes) (i : nat) : u8 :=
  let block := Fips197.cipher key (counter_block nonce (1 + Z.of_nat (i / 16))) in
  nth (i mod 16) (to_be_bytes 16 block) (u8_of 0).
End Sp800_38d.

(** ** The library's interface *)

Module Libcrypto.
(** *** Block ciphers in their modes of operation *)

Record BlockCrypter := mk_block_crypter {
  bc_mode : SymmMode;
  bc_size : nat;                      (* of a block *)
  bc_fn : Z → Z;                      (* in the direction of [bc_mode] *)
  bc_chain : option Z;                (* the previous ciphertext block, if blocks are chained *)
  bc_pad : bool;
  bc_buf : bytes
}.
Definition block_step (b : BlockCrypter) (x : Z) : Z * BlockCrypter :=
  match bc_chain b with
  | None => (bc_fn b x, b)
  | Some v =>
    let '(y, v') := match bc_mode b with
                    | Mode_Encrypt => let y := bc_fn b (Z.lxor x v) in (y, y)
                    | Mode_Decrypt => (Z.lxor (bc_fn b x) v, x)
                    end in
    (y, mk_block_crypter (bc_mode b) (bc_size b) (bc_fn b) (Some v') (bc_pad b) (bc_buf b))
  end.
Fixpoint run_blocks (b : BlockCrypter) (bs : list bytes) : bytes * BlockCrypter :=
  match bs with
  | [] => ([], b)
  | x :: bs' => let '(y, b) := block_step b (from_be_bytes x) in
                let '(out, b) := run_blocks b bs' in (to_be_bytes (bc_size b) y ++ out, b)
  end.
Definition set_buf (buf : bytes) (b : BlockCrypter) : BlockCrypter :=
  mk_block_crypter (bc_mode b) (bc_size b) (bc_fn b) (bc_chain b) (bc_pad b) buf.
(** Whole blocks are processed; when padding is removed at the end, the last one is kept back. *)
Definition block_update (data : bytes) (b : BlockCrypter) : bytes * BlockCrypter :=
  let all := bc_buf b ++ data in
  let held := match bc_mode b with Mode_Decrypt => bc_pad b | Mode_Encrypt => false end in
  let n := (bc_size b * ((length all - if held then 1 else 0) / bc_size b))%nat in
  let '(out, b) := run_blocks b (blocks (bc_size b) (take n all)) in
  (out, set_buf (drop n all) b).
(** PKCS #7 padding. *)
Definition unpad (size : nat) (b : bytes) : option bytes :=
  x ← last b;
  let n := Z.to_nat (u8_val x) in
  if decide (1 <= n <= size)%nat then
    if decide (drop (length b - n) b = replicate n x) then Some (take (length b - n) b) else None
  else None.
Definition block_finalize (b : BlockCrypter) : option bytes :=
  match bc_pad b, bc_mode b with
  | false, _ => match bc_buf b with [] => Some [] | _ => None end
  | true, Mode_Encrypt =>
    let n := (bc_size b - length (bc_buf b))%nat in
    Some (run_blocks b [bc_buf b ++ replicate n (u8_of (Z.of_nat n))]).1
  | true, Mode_Decrypt =>
    if decide (length (bc_buf b) = bc_size b) then unpad (bc_size b) (run_blocks b [bc_buf b]).1 else None
  end.

(** *** Counter mode: the key, the initial counter, and how many bytes were processed *)

Record CtrCrypter := mk_ctr { ctr_key : bytes; ctr_iv : Z; ctr_pos : nat }.
Definition ctr_byte (c : CtrCrypter) (i : nat) : u8 :=
  nth (i mod 16) (to_be_bytes 16 (Fips197.cipher (ctr_key c) (as_unsigned 128 (ctr_iv c + Z.of_nat (i / 16))))) (u8_of 0).
Definition ctr_update (data : bytes) (c : CtrCrypter) : bytes * CtrCrypter :=
  (imap (λ i b, xor8 b (ctr_byte c (ctr_pos c + i))) data, mk_ctr (ctr_key c) (ctr_iv c) (ctr_pos c + length data)).

(** *** Ciphers *)

Inductive AnyCrypter := C_gcm (g : Gcm) | C_block (b : BlockCrypter) | C_ctr (c : CtrCrypter).
Definition key_size (c : SymmCipher) : nat :=
  match c with
  | aes_128_ecb | aes_128_cbc | aes_128_ctr | aes_128_gcm => 16
  | aes_192_ecb | aes_192_cbc | aes_192_ctr | aes_192_gcm | des_ede3 | des_ede3_cbc => 24
  | aes_256_ecb | aes_256_cbc | aes_256_ctr | aes_256_gcm => 32
  end.
Definition iv_size (c : SymmCipher) : nat :=
  match c with
  | aes_128_ecb | aes_192_ecb | aes_256_ecb | des_ede3 => 0
  | des_ede3_cbc => 8
  | aes_128_gcm | aes_192_gcm | aes_256_gcm => 12
  | _ => 16
  end.
Definition sizes_ok (c : SymmCipher) (key iv : bytes) : bool :=
  (length key =? key_size c)%nat && (length iv =? iv_size c)%nat.
Definition aes_fn (m : SymmMode) : bytes → Z → Z :=
  match m with Mode_Encrypt => Fips197.cipher | Mode_Decrypt => Fips197.inv_cipher end.
Definition des_fn (m : SymmMode) : bytes → Z → Z :=
  match m with Mode_Encrypt => Fips46.cipher | Mode_Decrypt => Fips46.inv_cipher end.
Definition new_crypter (c : SymmCipher) (m : SymmMode) (key iv : bytes) : AnyCrypter :=
  match c with
  | aes_128_gcm | aes_192_gcm | aes_256_gcm => C_gcm (mk_gcm m key iv [] [] None)
  | aes_128_ctr | aes_192_ctr | aes_256_ctr => C_ctr (mk_ctr key (from_be_bytes iv) 0)
  | aes_128_ecb | aes_192_ecb | aes_256_ecb => C_block (mk_block_crypter m 16 (aes_fn m key) None true [])
  | aes_128_cbc | aes_192_cbc | aes_256_cbc =>
    C_block (mk_block_crypter m 16 (aes_fn m key) (Some (from_be_bytes iv)) true [])
  | des_ede3 => C_block (mk_block_crypter m 8 (des_fn m key) None true [])
  | des_ede3_cbc => C_block (mk_block_crypter m 8 (des_fn m key) (Some (from_be_bytes iv)) true [])
  end.

(** At most [2^61 - 1] bytes of associated data and [2^36 - 32] of text. *)
#[export] Instance gcm_function : GcmFunction := {|
  keystream := Sp800_38d.keystream_byte;
  gcm_tag := Sp800_38d.tag;
  gcm_key_ok := sizes_ok;
  gcm_aad_ok a b := bool_decide (a + b < 2 ^ 61);
  gcm_data_ok a b := bool_decide (a + b ≤ 2 ^ 36 - 32)
|}.

(** Output goes to the front of a buffer that has room for one more block than the input. *)
Definition write_out {A} (room : Z) (out buf : bytes) (a : A) : res (list Z) (Z * bytes * A) :=
  if decide (room ≤ len buf) then Ok (len out, overwrite buf 0 out, a) else Panic.
Definition gcm_update_out (data buf : bytes) (g : Gcm) : res (list Z) (Z * bytes * AnyCrypter) :=
  if decide (gcm_data_ok (len (g_data g)) (len data) = true)
  then write_out (len data) (g_crypt g data) buf (C_gcm (g_absorb data g)) else Err [].
Definition gcm_finalize_out (buf : bytes) (g : Gcm) : res (list Z) (Z * bytes * AnyCrypter) :=
  match g_mode g, g_tag g with
  | Mode_Encrypt, _ => Ok (0, buf, C_gcm g)
  | Mode_Decrypt, Some tag =>
    if decide (tag = take (length tag) (g_expected_tag g (g_data g))) then Ok (0, buf, C_gcm g) else Err []
  | Mode_Decrypt, None => Err []
  end.
#[export] Instance symm : Symm := {|
  Crypter := AnyCrypter;
  Crypter_new c m key iv :=
    if sizes_ok c key (default [] iv) then Ok (new_crypter c m key (default [] iv)) else Err [];
  Crypter_pad pad c :=
    match c with
    | C_block b => C_block (mk_block_crypter (bc_mode b) (bc_size b) (bc_fn b) (bc_chain b) pad (bc_buf b))
    | _ => c
    end;
  Crypter_aad_update aad c :=
    match c with
    | C_gcm g => if gcm_aad_ok (len (g_aad g)) (len aad)
                 then Ok (C_gcm (mk_gcm (g_mode g) (g_key g) (g_nonce g) (g_aad g ++ aad) (g_data g) (g_tag g))) else Err []
    | _ => Err []
    end;
  Crypter_update data buf c :=
    match c with
    | C_gcm g => gcm_update_out data buf g
    | C_block b => let '(out, b') := block_update data b in write_out (len data + Z.of_nat (bc_size b)) out buf (C_block b')
    | C_ctr c => let '(out, c') := ctr_update data c in write_out (len data) out buf (C_ctr c')
    end;
  Crypter_finalize buf c :=
    match c with
    | C_gcm g => gcm_finalize_out buf g
    | C_block b => match block_finalize b with
                   | Some out => write_out (Z.of_nat (bc_size b)) out buf (C_block b)
                   | None => Err []
                   end
    | C_ctr c => Ok (0, buf, C_ctr c)
    end;
  Crypter_get_tag tag c :=
    match c with
    | C_gcm g => Ok (take (length tag) (g_expected_tag g (gctr (g_key g) (g_nonce g) (g_data g))))
    | _ => Err []
    end;
  Crypter_set_tag tag c :=
    match c with
    | C_gcm g => Ok (C_gcm (mk_gcm (g_mode g) (g_key g) (g_nonce g) (g_aad g) (g_data g) (Some tag)))
    | _ => Err []
    end
|}.
Definition is_gcm (c : AnyCrypter) (g : Gcm) : Prop := c = C_gcm g.
#[export] Instance gcm_laws : GcmLaws is_gcm.
Proof.
  split; unfold is_gcm.
  - intros c m k n Hc. cbn. destruct (sizes_ok c k n) eqn:Hs; [|done].
    split; [done|]. by destruct Hc as [-> | [-> | ->]].
  - intros cr g aad -> Hd. cbn. case_bool_decide; [|done]. by rewrite Hd.
  - intros cr g data buf -> Hl. cbn. unfold gcm_update_out. case_decide as Hok; [|by apply not_true_is_false].
    unfold write_out. rewrite decide_True by (unfold len; lia).
    assert (length (g_crypt g data) = length data) as Hc by apply length_g_crypt.
    split_and!; [done|unfold len; lia| |done]. unfold overwrite. cbn. by rewrite Hc.
  - intros a b a' b' ? ? ? ?. cbn. rewrite !bool_decide_eq_true. lia.
  - intros a b. cbn. rewrite bool_decide_eq_true. lia.
  - intros cr g buf -> Hm. exists (C_gcm g). cbn. unfold gcm_finalize_out. by rewrite Hm.
  - intros cr g tag -> Hm Hl. cbn. rewrite Hm. by eexists.
  - intros cr g tag buf -> Hm Ht. cbn [Crypter_finalize symm]. unfold gcm_finalize_out. rewrite Hm, Ht.
    case_decide; [by exists (C_gcm g)|done].
  - intros k n aad ct. apply length_to_be_bytes.
Qed.

(** *** MACs *)

#[export] Instance macs : BsslMacs := {|
  HMAC_CTX := MessageDigest * bytes * bytes;
  HMAC_CTX_new := Some (Md_sha256, [], []);
  HMAC_Init_ex _ key md := mk_ffi 1 (md, key, []) [];
  HMAC_Update ctx data := mk_ffi 1 (ctx.1, ctx.2 ++ data) [];
  HMAC_Final ctx buf :=
    mk_ffi 1 (overwrite buf 0 (Rfc2104.hmac ctx.1.1 ctx.1.2 ctx.2), md_size ctx.1.1) [];
  CMAC_CTX := bytes * bytes;
  CMAC_CTX_new := Some ([], []);
  CMAC_Init _ key cipher := mk_ffi (if (length key =? key_size cipher)%nat then 1 else 0) (key, []) [];
  CMAC_Update ctx data := mk_ffi 1 (ctx.1, ctx.2 ++ data) [];
  CMAC_Final ctx buf := mk_ffi 1 (overwrite buf 0 (Sp800_38b.cmac ctx.1 ctx.2), 16) [];
  EVP_MAX_MD_SIZE := 64
|}.
Definition aes_cmac (key : AesKey) (data : bytes) : bytes := Sp800_38b.cmac (aes_cbc_cipher key).2 data.
Definition is_hmac (ctx : MessageDigest * bytes * bytes) (md : MessageDigest) (key d : bytes) : Prop := ctx = (md, key, d).
Definition is_cmac (ctx : bytes * bytes) (key : AesKey) (d : bytes) : Prop := ctx = ((aes_cbc_cipher key).2, d).
#[export] Instance mac_laws : MacLaws Rfc2104.hmac aes_cmac is_hmac is_cmac.
Proof.
  split; unfold is_hmac, is_cmac; cbn.
  - by eexists.
  - intros ctx key md. by do 2 eexists.
  - intros ctx md key d data ->. by do 2 eexists.
  - intros ctx md key d buf -> _. eexists. cbn. unfold overwrite. cbn.
    by assert (length (Rfc2104.hmac md key d) = Z.to_nat (md_size md)) as ->
      by (pose proof (Rfc2104.length_hmac md key d); unfold len in *; lia).
  - intros []; cbn; lia.
  - intros md key d. apply Rfc2104.length_hmac.
  - by eexists.
  - intros ctx key Hk. do 2 eexists. split; [|done].
    destruct key; cbn in *; unfold len in Hk;
      match goal with |- context [(length ?k =? ?n)%nat] => by rewrite (proj2 (Nat.eqb_eq (length k) n)) by lia end.
  - intros ctx key d data ->. by do 2 eexists.
  - intros ctx key d buf -> Hl. eexists. cbn. unfold overwrite. cbn. unfold aes_cmac.
    rewrite drop_ge; [by rewrite app_nil_r|].
    unfold Sp800_38b.cmac. rewrite length_to_be_bytes. unfold len in Hl. lia.
  - intros key d. apply length_to_be_bytes.
Qed.

(** *** Random numbers, hashing, comparison *)

(** A generator that counts: what the tests of a generator can tell. *)
Definition count_bytes (n s : nat) : bytes * nat :=
  (take n (to_be_bytes 8 (Z.of_nat s) ++ replicate (n - 8) (u8_of 0)), S s).
#[export] Instance basics : BsslBasics.
Proof.
  refine {| rand_state := nat; RAND_seed _ _ s := s; rand_bytes := count_bytes;
            ossl_sha256 := Sha2.sha256; memcmp_eq a b := bool_decide (a = b) |}.
  intros n s. cbn [count_bytes fst]. rewrite length_take, length_app, length_to_be_bytes, length_replicate. lia.
Defined.
#[export] Instance memcmp_laws : MemcmpLaws.
Proof. split. intros a b _. apply bool_decide_eq_true. Qed.

(** The crate with these algorithms: it is what the trusted application's theorems assume. *)
#[local] Existing Instances SampleBoring.target SampleBoring.errors SampleBoring.keys SampleBoring.pkcs1
  SampleBoring.pkcs1_laws SampleBoring.pkcs8.
Lemma boring_implements_witness :
  AeadLaws (A:=BoringAes) ∧ AeadRuns (A:=BoringAes) aead_seal aead_open aead_accepts ∧
  HmacFn (H0:=BoringHmac) (Rfc2104.hmac Md_sha256) ∧ HmacChunks (H:=BoringHmac) (Rfc2104.hmac Md_sha256) ∧
  HmacRuns (H0:=BoringHmac) (hmac_of (h:=Rfc2104.hmac)) ∧
  CmacFn (H0:=BoringAesCmac) aes_cmac ∧ ConstTimeEqLaws (H:=BoringEq) ∧
  KeyTraitsLaws (I:=default_imports) (KG:=boring_generators) ∧ NistGeneratorLaws (KG:=boring_generators).
Proof. apply (boring_implements (GL:=gcm_laws) (ML:=mac_laws)). Defined.
End Libcrypto.
