(* ===== verification/Cddl.v ===== *)
(** * CDDL descriptions of the encodings ([wire/src/lib.rs], [wire/src/keymint.rs],
    [wire/src/types.rs], [derive/src/lib.rs], [common/src/crypto.rs], [common/src/keyblob.rs],
    [common/src/bin])

    Every type with an [AsCborValue] implementation describes its encoding in the schema
    language CDDL (RFC 8610), and two programs print the descriptions of the messages and
    of the key blobs.  The descriptions are texts that the code puts together, as here; what
    they mean, and whether they fit the encodings, is the subject of [CddlSpec]. *)

From Stdlib Require Import Ascii.
From stdpp Require Import pretty gmap.
From S2P Require Import Prelude Wire CryptoTypes Codec WireCodec Crypto Keyblob TaState.

(** ** The description methods of the [AsCborValue] trait *)

(** A text that is put together from others; [cddl_ref] can panic. *)
Abbreviation Text := (res Empty_set string).

Record Cddl := mk_cddl {
  cddl_typename : option string;
  cddl_schema : res Empty_set (option string)
}.

Definition cddl_ref (t : Cddl) : Text :=
  match cddl_typename t with
  | Some item_name => Ok item_name
  | None =>
    schema ← cddl_schema t;
    match schema with Some item_schema => Ok item_schema | None => Panic end
  end.

(** Texts one after the other; the line break. *)
Fixpoint texts (l : list Text) : Text :=
  match l with
  | [] => Ok EmptyString
  | t :: l' => s ← t; s' ← texts l'; Ok (s +:+ s')
  end.
Definition nl : string := String "010"%char EmptyString.

(** ** Primitive and generic types *)

Definition primitive (name : string) : Cddl := {| cddl_typename := Some name; cddl_schema := Ok None |}.
Definition bytes_cddl : Cddl := primitive "bstr".
Definition array_cddl (n : Z) : Cddl := primitive ("bstr .size " +:+ pretty n).
Definition string_cddl : Cddl := primitive "tstr".
Definition u64_cddl : Cddl := primitive "int".
Definition i64_cddl : Cddl := primitive "int".
Definition u32_cddl : Cddl := primitive "int".
Definition bool_cddl : Cddl := primitive "bool".
Definition unit_cddl : Cddl := primitive "null".
Definition i32_cddl : Cddl := primitive "int".

Definition CoseEncrypt0_cddl : Cddl := {|
  cddl_typename := None;
  cddl_schema := Ok (Some ("#6." +:+ pretty COSE_ENCRYPT0_TAG +:+ "(Cose_Encrypt0)"))
|}.
Definition option_cddl (t : Cddl) : Cddl := {|
  cddl_typename := None;
  cddl_schema := r ← cddl_ref t; Ok (Some ("[? " +:+ r +:+ "]"))
|}.
Definition vec_cddl (t : Cddl) : Cddl := {|
  cddl_typename := None;
  cddl_schema := r ← cddl_ref t; Ok (Some ("[* " +:+ r +:+ "]"))
|}.

(** ** The derive macro *)

(** The type definitions the macro copes with. *)
Inductive Data :=
| Struct_Named (fields : list (string * Cddl))
| Struct_Unnamed (fields : list Cddl)
| Enum (variants : list (string * Z)).

Definition cddl_struct (name : string) (data : Data) : res Empty_set (option string) :=
  match data with
  | Struct_Named [] => Ok (Some "[]"%string)
  | Struct_Named fields =>
    s ← texts ([Ok ("[" +:+ nl)] ++
               ((λ f, r ← cddl_ref f.2; Ok ("    " +:+ f.1 +:+ ": " +:+ r +:+ "," +:+ nl)) <$> fields) ++
               [Ok "]"%string]);
    Ok (Some s)
  | Struct_Unnamed [typ] => r ← cddl_ref typ; Ok (Some r)
  | Struct_Unnamed [] => Ok (Some "()"%string)
  | Struct_Unnamed fields =>
    s ← texts ([Ok ("[" +:+ nl)] ++
               ((λ f, r ← cddl_ref f; Ok ("    " +:+ r +:+ "," +:+ nl)) <$> fields) ++
               [Ok "]"%string]);
    Ok (Some s)
  | Enum variants =>
    s ← texts ([Ok ("&(" +:+ nl)] ++
               ((λ v, Ok ("    " +:+ name +:+ "_" +:+ v.1 +:+ ": " +:+ pretty v.2 +:+ "," +:+ nl)) <$> variants) ++
               [Ok ")"%string]);
    Ok (Some s)
  end.
Definition derive_cddl (name : string) (data : Data) : Cddl :=
  {| cddl_typename := Some name; cddl_schema := cddl_struct name data |}.
Definition enum_cddl {A} `{REnum A} (name : string) (vs : list (string * A)) : Cddl :=
  derive_cddl name (Enum (prod_map id discr <$> vs)).


(** ** Enums *)

Definition VerifiedBootState_variants : list (string * VerifiedBootState) :=
  [("Verified", VerifiedBootState_Verified); ("SelfSigned", VerifiedBootState_SelfSigned);
   ("Unverified", VerifiedBootState_Unverified); ("Failed", VerifiedBootState_Failed)]%string.
Definition VerifiedBootState_cddl : Cddl := enum_cddl "VerifiedBootState" VerifiedBootState_variants.

Definition Algorithm_variants : list (string * Algorithm) :=
  [("Rsa", Algorithm_Rsa); ("Ec", Algorithm_Ec); ("Aes", Algorithm_Aes);
   ("TripleDes", Algorithm_TripleDes); ("Hmac", Algorithm_Hmac)]%string.
Definition Algorithm_cddl : Cddl := enum_cddl "Algorithm" Algorithm_variants.

Definition BlockMode_variants : list (string * BlockMode) :=
  [("Ecb", BlockMode_Ecb); ("Cbc", BlockMode_Cbc); ("Ctr", BlockMode_Ctr);
   ("Gcm", BlockMode_Gcm)]%string.
Definition BlockMode_cddl : Cddl := enum_cddl "BlockMode" BlockMode_variants.

Definition Digest_variants : list (string * Digest) :=
  [("None", Digest_None); ("Md5", Digest_Md5); ("Sha1", Digest_Sha1); ("Sha224", Digest_Sha224);
   ("Sha256", Digest_Sha256); ("Sha384", Digest_Sha384); ("Sha512", Digest_Sha512)]%string.
Definition Digest_cddl : Cddl := enum_cddl "Digest" Digest_variants.

Definition EcCurve_variants : list (string * EcCurve) :=
  [("P224", EcCurve_P224); ("P256", EcCurve_P256); ("P384", EcCurve_P384);
   ("P521", EcCurve_P521); ("Curve25519", EcCurve_Curve25519)]%string.
Definition EcCurve_cddl : Cddl := enum_cddl "EcCurve" EcCurve_variants.

Definition CurveType_variants : list (string * CurveType) :=
  [("Nist", CurveType_Nist); ("EdDsa", CurveType_EdDsa); ("Xdh", CurveType_Xdh)]%string.
Definition CurveType_cddl : Cddl := enum_cddl "CurveType" CurveType_variants.

Definition ErrorCode_variants : list (string * ErrorCode) :=
  [("Ok", ErrorCode_Ok); ("RootOfTrustAlreadySet", RootOfTrustAlreadySet);
   ("UnsupportedPurpose", UnsupportedPurpose); ("IncompatiblePurpose", IncompatiblePurpose);
   ("UnsupportedAlgorithm", UnsupportedAlgorithm);
   ("IncompatibleAlgorithm", IncompatibleAlgorithm); ("UnsupportedKeySize", UnsupportedKeySize);
   ("UnsupportedBlockMode", UnsupportedBlockMode);
   ("IncompatibleBlockMode", IncompatibleBlockMode);
   ("UnsupportedMacLength", UnsupportedMacLength);
   ("UnsupportedPaddingMode", UnsupportedPaddingMode);
   ("IncompatiblePaddingMode", IncompatiblePaddingMode);
   ("UnsupportedDigest", UnsupportedDigest); ("IncompatibleDigest", IncompatibleDigest);
   ("InvalidExpirationTime", InvalidExpirationTime); ("InvalidUserId", InvalidUserId);
   ("InvalidAuthorizationTimeout", InvalidAuthorizationTimeout);
   ("UnsupportedKeyFormat", UnsupportedKeyFormat);
   ("IncompatibleKeyFormat", IncompatibleKeyFormat);
   ("UnsupportedKeyEncryptionAlgorithm", UnsupportedKeyEncryptionAlgorithm);
   ("UnsupportedKeyVerificationAlgorithm", UnsupportedKeyVerificationAlgorithm);
   ("InvalidInputLength", InvalidInputLength);
   ("KeyExportOptionsInvalid", KeyExportOptionsInvalid);
   ("DelegationNotAllowed", DelegationNotAllowed); ("KeyNotYetValid", KeyNotYetValid);
   ("KeyExpired", KeyExpired); ("KeyUserNotAuthenticated", KeyUserNotAuthenticated);
   ("OutputParameterNull", OutputParameterNull);
   ("InvalidOperationHandle", InvalidOperationHandle);
   ("InsufficientBufferSpace", InsufficientBufferSpace);
   ("VerificationFailed", VerificationFailed); ("TooManyOperations", TooManyOperations);
   ("UnexpectedNullPointer", UnexpectedNullPointer); ("InvalidKeyBlob", InvalidKeyBlob);
   ("ImportedKeyNotEncrypted", ImportedKeyNotEncrypted);
   ("ImportedKeyDecryptionFailed", ImportedKeyDecryptionFailed);
   ("ImportedKeyNotSigned", ImportedKeyNotSigned);
   ("ImportedKeyVerificationFailed", ImportedKeyVerificationFailed);
   ("InvalidArgument", InvalidArgument); ("UnsupportedTag", UnsupportedTag);
   ("InvalidTag", InvalidTag); ("MemoryAllocationFailed", MemoryAllocationFailed);
   ("ImportParameterMismatch", ImportParameterMismatch);
   ("SecureHwAccessDenied", SecureHwAccessDenied); ("OperationCancelled", OperationCancelled);
   ("ConcurrentAccessConflict", ConcurrentAccessConflict); ("SecureHwBusy", SecureHwBusy);
   ("SecureHwCommunicationFailed", SecureHwCommunicationFailed);
   ("UnsupportedEcField", UnsupportedEcField); ("MissingNonce", MissingNonce);
   ("InvalidNonce", InvalidNonce); ("MissingMacLength", MissingMacLength);
   ("KeyRateLimitExceeded", KeyRateLimitExceeded);
   ("CallerNonceProhibited", CallerNonceProhibited); ("KeyMaxOpsExceeded", KeyMaxOpsExceeded);
   ("InvalidMacLength", InvalidMacLength); ("MissingMinMacLength", MissingMinMacLength);
   ("UnsupportedMinMacLength", UnsupportedMinMacLength); ("UnsupportedKdf", UnsupportedKdf);
   ("UnsupportedEcCurve", UnsupportedEcCurve); ("KeyRequiresUpgrade", KeyRequiresUpgrade);
   ("AttestationChallengeMissing", AttestationChallengeMissing);
   ("KeymintNotConfigured", KeymintNotConfigured);
   ("AttestationApplicationIdMissing", AttestationApplicationIdMissing);
   ("CannotAttestIds", CannotAttestIds);
   ("RollbackResistanceUnavailable", RollbackResistanceUnavailable);
   ("HardwareTypeUnavailable", HardwareTypeUnavailable);
   ("ProofOfPresenceRequired", ProofOfPresenceRequired);
   ("ConcurrentProofOfPresenceRequested", ConcurrentProofOfPresenceRequested);
   ("NoUserConfirmation", NoUserConfirmation); ("DeviceLocked", DeviceLocked);
   ("EarlyBootEnded", EarlyBootEnded);
   ("AttestationKeysNotProvisioned", AttestationKeysNotProvisioned);
   ("AttestationIdsNotProvisioned", AttestationIdsNotProvisioned);
   ("InvalidOperation", InvalidOperation); ("StorageKeyUnsupported", StorageKeyUnsupported);
   ("IncompatibleMgfDigest", IncompatibleMgfDigest);
   ("UnsupportedMgfDigest", UnsupportedMgfDigest); ("MissingNotBefore", MissingNotBefore);
   ("MissingNotAfter", MissingNotAfter); ("MissingIssuerSubject", MissingIssuerSubject);
   ("InvalidIssuerSubject", InvalidIssuerSubject); ("BootLevelExceeded", BootLevelExceeded);
   ("HardwareNotYetAvailable", HardwareNotYetAvailable);
   ("ModuleHashAlreadySet", ModuleHashAlreadySet); ("Unimplemented", Unimplemented);
   ("VersionMismatch", VersionMismatch); ("UnknownError", UnknownError);
   ("EncodingError", EncodingError); ("BoringSslError", BoringSslError)]%string.
Definition ErrorCode_cddl : Cddl := enum_cddl "ErrorCode" ErrorCode_variants.

Definition HardwareAuthenticatorType_variants : list (string * HardwareAuthenticatorType) :=
  [("None", HardwareAuthenticatorType_None); ("Password", HardwareAuthenticatorType_Password);
   ("Fingerprint", HardwareAuthenticatorType_Fingerprint);
   ("Any", HardwareAuthenticatorType_Any)]%string.
Definition HardwareAuthenticatorType_cddl : Cddl := enum_cddl "HardwareAuthenticatorType" HardwareAuthenticatorType_variants.

Definition KeyFormat_variants : list (string * KeyFormat) :=
  [("X509", KeyFormat_X509); ("Pkcs8", KeyFormat_Pkcs8); ("Raw", KeyFormat_Raw)]%string.
Definition KeyFormat_cddl : Cddl := enum_cddl "KeyFormat" KeyFormat_variants.

Definition KeyOrigin_variants : list (string * KeyOrigin) :=
  [("Generated", KeyOrigin_Generated); ("Derived", KeyOrigin_Derived);
   ("Imported", KeyOrigin_Imported); ("Reserved", KeyOrigin_Reserved);
   ("SecurelyImported", KeyOrigin_SecurelyImported)]%string.
Definition KeyOrigin_cddl : Cddl := enum_cddl "KeyOrigin" KeyOrigin_variants.

Definition KeyPurpose_variants : list (string * KeyPurpose) :=
  [("Encrypt", KeyPurpose_Encrypt); ("Decrypt", KeyPurpose_Decrypt); ("Sign", KeyPurpose_Sign);
   ("Verify", KeyPurpose_Verify); ("WrapKey", KeyPurpose_WrapKey);
   ("AgreeKey", KeyPurpose_AgreeKey); ("AttestKey", KeyPurpose_AttestKey)]%string.
Definition KeyPurpose_cddl : Cddl := enum_cddl "KeyPurpose" KeyPurpose_variants.

Definition PaddingMode_variants : list (string * PaddingMode) :=
  [("None", PaddingMode_None); ("RsaOaep", PaddingMode_RsaOaep); ("RsaPss", PaddingMode_RsaPss);
   ("RsaPkcs115Encrypt", PaddingMode_RsaPkcs115Encrypt);
   ("RsaPkcs115Sign", PaddingMode_RsaPkcs115Sign); ("Pkcs7", PaddingMode_Pkcs7)]%string.
Definition PaddingMode_cddl : Cddl := enum_cddl "PaddingMode" PaddingMode_variants.

Definition SecurityLevel_variants : list (string * SecurityLevel) :=
  [("Software", SecurityLevel_Software);
   ("TrustedEnvironment", SecurityLevel_TrustedEnvironment);
   ("Strongbox", SecurityLevel_Strongbox); ("Keystore", SecurityLevel_Keystore)]%string.
Definition SecurityLevel_cddl : Cddl := enum_cddl "SecurityLevel" SecurityLevel_variants.

Definition Tag_variants : list (string * Tag) :=
  [("Invalid", Tag_Invalid); ("Purpose", Tag_Purpose); ("Algorithm", Tag_Algorithm);
   ("KeySize", Tag_KeySize); ("BlockMode", Tag_BlockMode); ("Digest", Tag_Digest);
   ("Padding", Tag_Padding); ("CallerNonce", Tag_CallerNonce);
   ("MinMacLength", Tag_MinMacLength); ("EcCurve", Tag_EcCurve);
   ("RsaPublicExponent", Tag_RsaPublicExponent); ("IncludeUniqueId", Tag_IncludeUniqueId);
   ("RsaOaepMgfDigest", Tag_RsaOaepMgfDigest); ("BootloaderOnly", Tag_BootloaderOnly);
   ("RollbackResistance", Tag_RollbackResistance); ("HardwareType", Tag_HardwareType);
   ("EarlyBootOnly", Tag_EarlyBootOnly); ("ActiveDatetime", Tag_ActiveDatetime);
   ("OriginationExpireDatetime", Tag_OriginationExpireDatetime);
   ("UsageExpireDatetime", Tag_UsageExpireDatetime);
   ("MinSecondsBetweenOps", Tag_MinSecondsBetweenOps); ("MaxUsesPerBoot", Tag_MaxUsesPerBoot);
   ("UsageCountLimit", Tag_UsageCountLimit); ("UserId", Tag_UserId);
   ("UserSecureId", Tag_UserSecureId); ("NoAuthRequired", Tag_NoAuthRequired);
   ("UserAuthType", Tag_UserAuthType); ("AuthTimeout", Tag_AuthTimeout);
   ("AllowWhileOnBody", Tag_AllowWhileOnBody);
   ("TrustedUserPresenceRequired", Tag_TrustedUserPresenceRequired);
   ("TrustedConfirmationRequired", Tag_TrustedConfirmationRequired);
   ("UnlockedDeviceRequired", Tag_UnlockedDeviceRequired); ("ApplicationId", Tag_ApplicationId);
   ("ApplicationData", Tag_ApplicationData); ("CreationDatetime", Tag_CreationDatetime);
   ("Origin", Tag_Origin); ("RootOfTrust", Tag_RootOfTrust); ("OsVersion", Tag_OsVersion);
   ("OsPatchlevel", Tag_OsPatchlevel); ("UniqueId", Tag_UniqueId);
   ("AttestationChallenge", Tag_AttestationChallenge);
   ("AttestationApplicationId", Tag_AttestationApplicationId);
   ("AttestationIdBrand", Tag_AttestationIdBrand);
   ("AttestationIdDevice", Tag_AttestationIdDevice);
   ("AttestationIdProduct", Tag_AttestationIdProduct);
   ("AttestationIdSerial", Tag_AttestationIdSerial);
   ("AttestationIdImei", Tag_AttestationIdImei); ("AttestationIdMeid", Tag_AttestationIdMeid);
   ("AttestationIdManufacturer", Tag_AttestationIdManufacturer);
   ("AttestationIdModel", Tag_AttestationIdModel); ("VendorPatchlevel", Tag_VendorPatchlevel);
   ("BootPatchlevel", Tag_BootPatchlevel);
   ("DeviceUniqueAttestation", Tag_DeviceUniqueAttestation);
   ("IdentityCredentialKey", Tag_IdentityCredentialKey); ("StorageKey", Tag_StorageKey);
   ("AttestationIdSecondImei", Tag_AttestationIdSecondImei);
   ("AssociatedData", Tag_AssociatedData); ("Nonce", Tag_Nonce); ("MacLength", Tag_MacLength);
   ("ResetSinceIdRotation", Tag_ResetSinceIdRotation);
   ("ConfirmationToken", Tag_ConfirmationToken); ("CertificateSerial", Tag_CertificateSerial);
   ("CertificateSubject", Tag_CertificateSubject);
   ("CertificateNotBefore", Tag_CertificateNotBefore);
   ("CertificateNotAfter", Tag_CertificateNotAfter); ("MaxBootLevel", Tag_MaxBootLevel);
   ("ModuleHash", Tag_ModuleHash)]%string.
Definition Tag_cddl : Cddl := enum_cddl "Tag" Tag_variants.

Definition TagType_variants : list (string * TagType) :=
  [("Invalid", TagType_Invalid); ("Enum", TagType_Enum); ("EnumRep", TagType_EnumRep);
   ("Uint", TagType_Uint); ("UintRep", TagType_UintRep); ("Ulong", TagType_Ulong);
   ("Date", TagType_Date); ("Bool", TagType_Bool); ("Bignum", TagType_Bignum);
   ("Bytes", TagType_Bytes); ("UlongRep", TagType_UlongRep)]%string.
Definition TagType_cddl : Cddl := enum_cddl "TagType" TagType_variants.

Definition EekCurve_variants : list (string * EekCurve) :=
  [("None", EekCurve_None); ("P256", EekCurve_P256); ("Curve25519", EekCurve_Curve25519)]%string.
Definition EekCurve_cddl : Cddl := enum_cddl "EekCurve" EekCurve_variants.

(** ** Newtypes and key parameters *)

Definition KeySizeInBits_cddl : Cddl := derive_cddl "KeySizeInBits" (Struct_Unnamed [u32_cddl]).

Definition RsaExponent_cddl : Cddl := derive_cddl "RsaExponent" (Struct_Unnamed [u64_cddl]).

Definition SecureDeletionSlot_cddl : Cddl := derive_cddl "SecureDeletionSlot" (Struct_Unnamed [u32_cddl]).

Definition DateTime_cddl : Cddl :=
  {| cddl_typename := Some "DateTime"%string; cddl_schema := Ok (Some "int"%string) |}.

(** A line of the description: the tag, how its value is described, and a comment. *)
Definition param_line (t : Tag) (value : Text) (comment : string) : Text :=
  r ← value;
  Ok ("    [" +:+ pretty (discr t) +:+ ", " +:+ r +:+ "], ; " +:+ comment +:+ nl).

Definition param_lines_1 : list Text := [
  param_line Tag_Algorithm (cddl_ref Algorithm_cddl) "Tag_Algorithm";
  param_line Tag_BlockMode (cddl_ref BlockMode_cddl) "Tag_BlockMode";
  param_line Tag_Padding (cddl_ref PaddingMode_cddl) "Tag_Padding";
  param_line Tag_Digest (cddl_ref Digest_cddl) "Tag_Digest";
  param_line Tag_EcCurve (cddl_ref EcCurve_cddl) "Tag_EcCurve";
  param_line Tag_Origin (cddl_ref KeyOrigin_cddl) "Tag_Origin";
  param_line Tag_Purpose (cddl_ref KeyPurpose_cddl) "Tag_Purpose";
  param_line Tag_KeySize (cddl_ref KeySizeInBits_cddl) "Tag_KeySize";
  param_line Tag_CallerNonce (cddl_ref bytes_cddl) "Tag_CallerNonce";
  param_line Tag_MinMacLength (cddl_ref u32_cddl) "Tag_MinMacLength";
  param_line Tag_RsaPublicExponent (cddl_ref RsaExponent_cddl) "Tag_RsaPublicExponent";
  param_line Tag_IncludeUniqueId (Ok "true"%string) "Tag_IncludeUniqueId";
  param_line Tag_RsaOaepMgfDigest (cddl_ref Digest_cddl) "Tag_RsaOaepMgfDigest";
  param_line Tag_BootloaderOnly (Ok "true"%string) "Tag_BootloaderOnly";
  param_line Tag_RollbackResistance (Ok "true"%string) "Tag_RollbackResistance";
  param_line Tag_EarlyBootOnly (Ok "true"%string) "Tag_EarlyBootOnly";
  param_line Tag_ActiveDatetime (cddl_ref DateTime_cddl) "Tag_ActiveDatetime";
  param_line Tag_OriginationExpireDatetime (cddl_ref DateTime_cddl) "Tag_OriginationExpireDatetime";
  param_line Tag_UsageExpireDatetime (cddl_ref DateTime_cddl) "Tag_UsageExpireDatetime";
  param_line Tag_MaxUsesPerBoot (cddl_ref u32_cddl) "Tag_MaxUsesPerBoot"].

Definition param_lines_2 : list Text := [
  param_line Tag_UsageCountLimit (cddl_ref u32_cddl) "Tag_UsageCountLimit";
  param_line Tag_UserId (cddl_ref u32_cddl) "Tag_UserId";
  param_line Tag_UserSecureId (cddl_ref u64_cddl) "Tag_UserSecureId";
  param_line Tag_NoAuthRequired (Ok "true"%string) "Tag_NoAuthRequired";
  param_line Tag_UserAuthType (cddl_ref u32_cddl) "Tag_UserAuthType";
  param_line Tag_AuthTimeout (cddl_ref u32_cddl) "Tag_AuthTimeout";
  param_line Tag_AllowWhileOnBody (Ok "true"%string) "Tag_AllowWhileOnBody";
  param_line Tag_TrustedUserPresenceRequired (Ok "true"%string) "Tag_TrustedUserPresenceRequired";
  param_line Tag_TrustedConfirmationRequired (Ok "true"%string) "Tag_TrustedConfirmationRequired";
  param_line Tag_UnlockedDeviceRequired (Ok "true"%string) "Tag_UnlockedDeviceRequired";
  param_line Tag_ApplicationId (cddl_ref bytes_cddl) "Tag_ApplicationId";
  param_line Tag_ApplicationData (cddl_ref bytes_cddl) "Tag_ApplicationData";
  param_line Tag_CreationDatetime (cddl_ref DateTime_cddl) "Tag_CreationDatetime";
  param_line Tag_RootOfTrust (cddl_ref bytes_cddl) "Tag_RootOfTrust";
  param_line Tag_OsVersion (cddl_ref u32_cddl) "Tag_OsVersion";
  param_line Tag_OsPatchlevel (cddl_ref u32_cddl) "Tag_OsPatchlevel";
  param_line Tag_AttestationChallenge (cddl_ref bytes_cddl) "Tag_AttestationChallenge";
  param_line Tag_AttestationApplicationId (cddl_ref bytes_cddl) "Tag_AttestationApplicationId";
  param_line Tag_AttestationIdBrand (cddl_ref bytes_cddl) "Tag_AttestationIdBrand";
  param_line Tag_AttestationIdDevice (cddl_ref bytes_cddl) "Tag_AttestationIdDevice"].

Definition param_lines_3 : list Text := [
  param_line Tag_AttestationIdProduct (cddl_ref bytes_cddl) "Tag_AttestationIdProduct";
  param_line Tag_AttestationIdSerial (cddl_ref bytes_cddl) "Tag_AttestationIdSerial";
  param_line Tag_AttestationIdImei (cddl_ref bytes_cddl) "Tag_AttestationIdImei";
  param_line Tag_AttestationIdSecondImei (cddl_ref bytes_cddl) "Tag_AttestationIdSecondImei";
  param_line Tag_AttestationIdMeid (cddl_ref bytes_cddl) "Tag_AttestationIdMeid";
  param_line Tag_AttestationIdManufacturer (cddl_ref bytes_cddl) "Tag_AttestationIdManufacturer";
  param_line Tag_AttestationIdModel (cddl_ref bytes_cddl) "Tag_AttestationIdModel";
  param_line Tag_VendorPatchlevel (cddl_ref u32_cddl) "Tag_VendorPatchlevel";
  param_line Tag_BootPatchlevel (cddl_ref u32_cddl) "Tag_BootPatchlevel";
  param_line Tag_DeviceUniqueAttestation (Ok "true"%string) "Tag_DeviceUniqueAttestation";
  param_line Tag_StorageKey (Ok "true"%string) "Tag_StorageKey";
  param_line Tag_Nonce (cddl_ref bytes_cddl) "Tag_Nonce";
  param_line Tag_MacLength (cddl_ref u32_cddl) "Tag_MacLength";
  param_line Tag_ResetSinceIdRotation (Ok "true"%string) "Tag_ResetSinceIdRotation";
  param_line Tag_CertificateSerial (cddl_ref bytes_cddl) "Tag_CertificateSerial";
  param_line Tag_CertificateSubject (cddl_ref bytes_cddl) "Tag_CertificateSubject";
  param_line Tag_CertificateNotBefore (cddl_ref DateTime_cddl) "Tag_CertificateNotBefore";
  param_line Tag_CertificateNotAfter (cddl_ref DateTime_cddl) "Tag_CertificateNotAfter";
  param_line Tag_MaxBootLevel (cddl_ref u32_cddl) "Tag_MaxBootLevel"].

Definition param_lines_4 : list Text := [
  param_line Tag_ModuleHash (cddl_ref bytes_cddl) "Tag_ModuleHash"].

Definition KeyParam_cddl : Cddl := {|
  cddl_typename := Some "KeyParam"%string;
  cddl_schema :=
    s ← texts ([Ok ("&(" +:+ nl)] ++ param_lines_1 ++ param_lines_2 ++ param_lines_3 ++ param_lines_4 ++ [Ok ")"%string]);
    Ok (Some s)
|}.

(** ** Structures *)

Definition Timestamp_cddl : Cddl :=
  derive_cddl "Timestamp" (Struct_Named [
    ("milliseconds", i64_cddl)]%string).

Definition TimeStampToken_cddl : Cddl :=
  derive_cddl "TimeStampToken" (Struct_Named [
    ("challenge", i64_cddl); ("timestamp", Timestamp_cddl); ("mac", bytes_cddl)]%string).

Definition SharedSecretParameters_cddl : Cddl :=
  derive_cddl "SharedSecretParameters" (Struct_Named [
    ("seed", bytes_cddl); ("nonce", bytes_cddl)]%string).

Definition KeyCharacteristics_cddl : Cddl :=
  derive_cddl "KeyCharacteristics" (Struct_Named [
    ("security_level", SecurityLevel_cddl);
    ("authorizations", vec_cddl KeyParam_cddl)]%string).

Definition AttestationKey_cddl : Cddl :=
  derive_cddl "AttestationKey" (Struct_Named [
    ("key_blob", bytes_cddl); ("attest_key_params", vec_cddl KeyParam_cddl);
    ("issuer_subject_name", bytes_cddl)]%string).

Definition HardwareAuthToken_cddl : Cddl :=
  derive_cddl "HardwareAuthToken" (Struct_Named [
    ("challenge", i64_cddl); ("user_id", i64_cddl); ("authenticator_id", i64_cddl);
    ("authenticator_type", HardwareAuthenticatorType_cddl);
    ("timestamp", Timestamp_cddl); ("mac", bytes_cddl)]%string).

Definition Certificate_cddl : Cddl :=
  derive_cddl "Certificate" (Struct_Named [
    ("encoded_certificate", bytes_cddl)]%string).

Definition KeyCreationResult_cddl : Cddl :=
  derive_cddl "KeyCreationResult" (Struct_Named [
    ("key_blob", bytes_cddl);
    ("key_characteristics", vec_cddl KeyCharacteristics_cddl);
    ("certificate_chain", vec_cddl Certificate_cddl)]%string).

Definition KeyMintHardwareInfo_cddl : Cddl :=
  derive_cddl "KeyMintHardwareInfo" (Struct_Named [
    ("version_number", i32_cddl); ("security_level", SecurityLevel_cddl);
    ("key_mint_name", string_cddl); ("key_mint_author_name", string_cddl);
    ("timestamp_token_required", bool_cddl)]%string).

Definition RpcHardwareInfo_cddl : Cddl :=
  derive_cddl "HardwareInfo" (Struct_Named [
    ("version_number", i32_cddl); ("rpc_author_name", string_cddl);
    ("supported_eek_curve", EekCurve_cddl); ("unique_id", option_cddl string_cddl);
    ("supported_num_keys_in_csr", i32_cddl)]%string).

Definition MacedPublicKey_cddl : Cddl :=
  derive_cddl "MacedPublicKey" (Struct_Named [
    ("maced_key", bytes_cddl)]%string).

Definition ProtectedData_cddl : Cddl :=
  derive_cddl "ProtectedData" (Struct_Named [
    ("protected_data", bytes_cddl)]%string).

Definition DeviceInfo_cddl : Cddl :=
  derive_cddl "DeviceInfo" (Struct_Named [
    ("device_info", bytes_cddl)]%string).

Definition InternalBeginResult_cddl : Cddl :=
  derive_cddl "InternalBeginResult" (Struct_Named [
    ("challenge", i64_cddl); ("params", vec_cddl KeyParam_cddl);
    ("op_handle", i64_cddl)]%string).

Definition AttestationIdInfo_cddl : Cddl :=
  derive_cddl "AttestationIdInfo" (Struct_Named [
    ("brand", bytes_cddl); ("device", bytes_cddl); ("product", bytes_cddl);
    ("serial", bytes_cddl); ("imei", bytes_cddl); ("imei2", bytes_cddl);
    ("meid", bytes_cddl); ("manufacturer", bytes_cddl); ("model", bytes_cddl)]%string).

Definition GetHardwareInfoRequest_cddl : Cddl :=
  derive_cddl "GetHardwareInfoRequest" (Struct_Named []%string).

Definition GetHardwareInfoResponse_cddl : Cddl :=
  derive_cddl "GetHardwareInfoResponse" (Struct_Named [
    ("ret", KeyMintHardwareInfo_cddl)]%string).

Definition AddRngEntropyRequest_cddl : Cddl :=
  derive_cddl "AddRngEntropyRequest" (Struct_Named [
    ("data", bytes_cddl)]%string).

Definition AddRngEntropyResponse_cddl : Cddl :=
  derive_cddl "AddRngEntropyResponse" (Struct_Named []%string).

Definition GenerateKeyRequest_cddl : Cddl :=
  derive_cddl "GenerateKeyRequest" (Struct_Named [
    ("key_params", vec_cddl KeyParam_cddl);
    ("attestation_key", option_cddl AttestationKey_cddl)]%string).

Definition GenerateKeyResponse_cddl : Cddl :=
  derive_cddl "GenerateKeyResponse" (Struct_Named [
    ("ret", KeyCreationResult_cddl)]%string).

Definition ImportKeyRequest_cddl : Cddl :=
  derive_cddl "ImportKeyRequest" (Struct_Named [
    ("key_params", vec_cddl KeyParam_cddl); ("key_format", KeyFormat_cddl);
    ("key_data", bytes_cddl); ("attestation_key", option_cddl AttestationKey_cddl)]%string).

Definition ImportKeyResponse_cddl : Cddl :=
  derive_cddl "ImportKeyResponse" (Struct_Named [
    ("ret", KeyCreationResult_cddl)]%string).

Definition ImportWrappedKeyRequest_cddl : Cddl :=
  derive_cddl "ImportWrappedKeyRequest" (Struct_Named [
    ("wrapped_key_data", bytes_cddl); ("wrapping_key_blob", bytes_cddl);
    ("masking_key", bytes_cddl); ("unwrapping_params", vec_cddl KeyParam_cddl);
    ("password_sid", i64_cddl); ("biometric_sid", i64_cddl)]%string).

Definition ImportWrappedKeyResponse_cddl : Cddl :=
  derive_cddl "ImportWrappedKeyResponse" (Struct_Named [
    ("ret", KeyCreationResult_cddl)]%string).

Definition UpgradeKeyRequest_cddl : Cddl :=
  derive_cddl "UpgradeKeyRequest" (Struct_Named [
    ("key_blob_to_upgrade", bytes_cddl); ("upgrade_params", vec_cddl KeyParam_cddl)]%string).

Definition UpgradeKeyResponse_cddl : Cddl :=
  derive_cddl "UpgradeKeyResponse" (Struct_Named [
    ("ret", bytes_cddl)]%string).

Definition DeleteKeyRequest_cddl : Cddl :=
  derive_cddl "DeleteKeyRequest" (Struct_Named [
    ("key_blob", bytes_cddl)]%string).

Definition DeleteKeyResponse_cddl : Cddl :=
  derive_cddl "DeleteKeyResponse" (Struct_Named []%string).

Definition DeleteAllKeysRequest_cddl : Cddl :=
  derive_cddl "DeleteAllKeysRequest" (Struct_Named []%string).

Definition DeleteAllKeysResponse_cddl : Cddl :=
  derive_cddl "DeleteAllKeysResponse" (Struct_Named []%string).

Definition DestroyAttestationIdsRequest_cddl : Cddl :=
  derive_cddl "DestroyAttestationIdsRequest" (Struct_Named []%string).

Definition DestroyAttestationIdsResponse_cddl : Cddl :=
  derive_cddl "DestroyAttestationIdsResponse" (Struct_Named []%string).

Definition BeginRequest_cddl : Cddl :=
  derive_cddl "BeginRequest" (Struct_Named [
    ("purpose", KeyPurpose_cddl); ("key_blob", bytes_cddl);
    ("params", vec_cddl KeyParam_cddl);
    ("auth_token", option_cddl HardwareAuthToken_cddl)]%string).

Definition BeginResponse_cddl : Cddl :=
  derive_cddl "BeginResponse" (Struct_Named [
    ("ret", InternalBeginResult_cddl)]%string).

Definition EarlyBootEndedRequest_cddl : Cddl :=
  derive_cddl "EarlyBootEndedRequest" (Struct_Named []%string).

Definition EarlyBootEndedResponse_cddl : Cddl :=
  derive_cddl "EarlyBootEndedResponse" (Struct_Named []%string).

Definition ConvertStorageKeyToEphemeralRequest_cddl : Cddl :=
  derive_cddl "ConvertStorageKeyToEphemeralRequest" (Struct_Named [
    ("storage_key_blob", bytes_cddl)]%string).

Definition ConvertStorageKeyToEphemeralResponse_cddl : Cddl :=
  derive_cddl "ConvertStorageKeyToEphemeralResponse" (Struct_Named [
    ("ret", bytes_cddl)]%string).

Definition GetKeyCharacteristicsRequest_cddl : Cddl :=
  derive_cddl "GetKeyCharacteristicsRequest" (Struct_Named [
    ("key_blob", bytes_cddl); ("app_id", bytes_cddl); ("app_data", bytes_cddl)]%string).

Definition GetKeyCharacteristicsResponse_cddl : Cddl :=
  derive_cddl "GetKeyCharacteristicsResponse" (Struct_Named [
    ("ret", vec_cddl KeyCharacteristics_cddl)]%string).

Definition GetRootOfTrustChallengeRequest_cddl : Cddl :=
  derive_cddl "GetRootOfTrustChallengeRequest" (Struct_Named []%string).

Definition GetRootOfTrustChallengeResponse_cddl : Cddl :=
  derive_cddl "GetRootOfTrustChallengeResponse" (Struct_Named [
    ("ret", array_cddl 16)]%string).

Definition GetRootOfTrustRequest_cddl : Cddl :=
  derive_cddl "GetRootOfTrustRequest" (Struct_Named [
    ("challenge", array_cddl 16)]%string).

Definition GetRootOfTrustResponse_cddl : Cddl :=
  derive_cddl "GetRootOfTrustResponse" (Struct_Named [
    ("ret", bytes_cddl)]%string).

Definition SendRootOfTrustRequest_cddl : Cddl :=
  derive_cddl "SendRootOfTrustRequest" (Struct_Named [
    ("root_of_trust", bytes_cddl)]%string).

Definition SendRootOfTrustResponse_cddl : Cddl :=
  derive_cddl "SendRootOfTrustResponse" (Struct_Named []%string).

Definition SetAdditionalAttestationInfoRequest_cddl : Cddl :=
  derive_cddl "SetAdditionalAttestationInfoRequest" (Struct_Named [
    ("info", vec_cddl KeyParam_cddl)]%string).

Definition SetAdditionalAttestationInfoResponse_cddl : Cddl :=
  derive_cddl "SetAdditionalAttestationInfoResponse" (Struct_Named []%string).

Definition UpdateAadRequest_cddl : Cddl :=
  derive_cddl "UpdateAadRequest" (Struct_Named [
    ("op_handle", i64_cddl); ("input", bytes_cddl);
    ("auth_token", option_cddl HardwareAuthToken_cddl);
    ("timestamp_token", option_cddl TimeStampToken_cddl)]%string).

Definition UpdateAadResponse_cddl : Cddl :=
  derive_cddl "UpdateAadResponse" (Struct_Named []%string).

Definition UpdateRequest_cddl : Cddl :=
  derive_cddl "UpdateRequest" (Struct_Named [
    ("op_handle", i64_cddl); ("input", bytes_cddl);
    ("auth_token", option_cddl HardwareAuthToken_cddl);
    ("timestamp_token", option_cddl TimeStampToken_cddl)]%string).

Definition UpdateResponse_cddl : Cddl :=
  derive_cddl "UpdateResponse" (Struct_Named [
    ("ret", bytes_cddl)]%string).

Definition FinishRequest_cddl : Cddl :=
  derive_cddl "FinishRequest" (Struct_Named [
    ("op_handle", i64_cddl); ("input", option_cddl bytes_cddl);
    ("signature", option_cddl bytes_cddl);
    ("auth_token", option_cddl HardwareAuthToken_cddl);
    ("timestamp_token", option_cddl TimeStampToken_cddl);
    ("confirmation_token", option_cddl bytes_cddl)]%string).

Definition FinishResponse_cddl : Cddl :=
  derive_cddl "FinishResponse" (Struct_Named [
    ("ret", bytes_cddl)]%string).

Definition AbortRequest_cddl : Cddl :=
  derive_cddl "AbortRequest" (Struct_Named [
    ("op_handle", i64_cddl)]%string).

Definition AbortResponse_cddl : Cddl :=
  derive_cddl "AbortResponse" (Struct_Named []%string).

Definition GetRpcHardwareInfoRequest_cddl : Cddl :=
  derive_cddl "GetRpcHardwareInfoRequest" (Struct_Named []%string).

Definition GetRpcHardwareInfoResponse_cddl : Cddl :=
  derive_cddl "GetRpcHardwareInfoResponse" (Struct_Named [
    ("ret", RpcHardwareInfo_cddl)]%string).

Definition GenerateEcdsaP256KeyPairRequest_cddl : Cddl :=
  derive_cddl "GenerateEcdsaP256KeyPairRequest" (Struct_Named [
    ("test_mode", bool_cddl)]%string).

Definition GenerateEcdsaP256KeyPairResponse_cddl : Cddl :=
  derive_cddl "GenerateEcdsaP256KeyPairResponse" (Struct_Named [
    ("maced_public_key", MacedPublicKey_cddl); ("ret", bytes_cddl)]%string).

Definition GenerateCertificateRequestRequest_cddl : Cddl :=
  derive_cddl "GenerateCertificateRequestRequest" (Struct_Named [
    ("test_mode", bool_cddl); ("keys_to_sign", vec_cddl MacedPublicKey_cddl);
    ("endpoint_encryption_cert_chain", bytes_cddl); ("challenge", bytes_cddl)]%string).

Definition GenerateCertificateRequestResponse_cddl : Cddl :=
  derive_cddl "GenerateCertificateRequestResponse" (Struct_Named [
    ("device_info", DeviceInfo_cddl); ("protected_data", ProtectedData_cddl);
    ("ret", bytes_cddl)]%string).

Definition GenerateCertificateRequestV2Request_cddl : Cddl :=
  derive_cddl "GenerateCertificateRequestV2Request" (Struct_Named [
    ("keys_to_sign", vec_cddl MacedPublicKey_cddl); ("challenge", bytes_cddl)]%string).

Definition GenerateCertificateRequestV2Response_cddl : Cddl :=
  derive_cddl "GenerateCertificateRequestV2Response" (Struct_Named [
    ("ret", bytes_cddl)]%string).

Definition GetSharedSecretParametersRequest_cddl : Cddl :=
  derive_cddl "GetSharedSecretParametersRequest" (Struct_Named []%string).

Definition GetSharedSecretParametersResponse_cddl : Cddl :=
  derive_cddl "GetSharedSecretParametersResponse" (Struct_Named [
    ("ret", SharedSecretParameters_cddl)]%string).

Definition ComputeSharedSecretRequest_cddl : Cddl :=
  derive_cddl "ComputeSharedSecretRequest" (Struct_Named [
    ("params", vec_cddl SharedSecretParameters_cddl)]%string).

Definition ComputeSharedSecretResponse_cddl : Cddl :=
  derive_cddl "ComputeSharedSecretResponse" (Struct_Named [
    ("ret", bytes_cddl)]%string).

Definition GenerateTimeStampRequest_cddl : Cddl :=
  derive_cddl "GenerateTimeStampRequest" (Struct_Named [
    ("challenge", i64_cddl)]%string).

Definition GenerateTimeStampResponse_cddl : Cddl :=
  derive_cddl "GenerateTimeStampResponse" (Struct_Named [
    ("ret", TimeStampToken_cddl)]%string).

Definition SetHalInfoRequest_cddl : Cddl :=
  derive_cddl "SetHalInfoRequest" (Struct_Named [
    ("os_version", u32_cddl); ("os_patchlevel", u32_cddl);
    ("vendor_patchlevel", u32_cddl)]%string).

Definition SetHalInfoResponse_cddl : Cddl :=
  derive_cddl "SetHalInfoResponse" (Struct_Named []%string).

Definition SetHalVersionRequest_cddl : Cddl :=
  derive_cddl "SetHalVersionRequest" (Struct_Named [
    ("aidl_version", u32_cddl)]%string).

Definition SetHalVersionResponse_cddl : Cddl :=
  derive_cddl "SetHalVersionResponse" (Struct_Named []%string).

Definition SetBootInfoRequest_cddl : Cddl :=
  derive_cddl "SetBootInfoRequest" (Struct_Named [
    ("verified_boot_key", bytes_cddl); ("device_boot_locked", bool_cddl);
    ("verified_boot_state", i32_cddl); ("verified_boot_hash", bytes_cddl);
    ("boot_patchlevel", u32_cddl)]%string).

Definition SetBootInfoResponse_cddl : Cddl :=
  derive_cddl "SetBootInfoResponse" (Struct_Named []%string).

Definition SetAttestationIdsRequest_cddl : Cddl :=
  derive_cddl "SetAttestationIdsRequest" (Struct_Named [
    ("ids", AttestationIdInfo_cddl)]%string).

Definition SetAttestationIdsResponse_cddl : Cddl :=
  derive_cddl "SetAttestationIdsResponse" (Struct_Named []%string).

(** ** Requests and responses *)

(** The operation codes as the source spells them. *)
Definition operation_codes : list (string * string) :=
  [("DeviceGetHardwareInfo", "0x11");
   ("DeviceAddRngEntropy", "0x12");
   ("DeviceGenerateKey", "0x13");
   ("DeviceImportKey", "0x14");
   ("DeviceImportWrappedKey", "0x15");
   ("DeviceUpgradeKey", "0x16");
   ("DeviceDeleteKey", "0x17");
   ("DeviceDeleteAllKeys", "0x18");
   ("DeviceDestroyAttestationIds", "0x19");
   ("DeviceBegin", "0x1a");
   ("DeviceEarlyBootEnded", "0x1c");
   ("DeviceConvertStorageKeyToEphemeral", "0x1d");
   ("DeviceGetKeyCharacteristics", "0x1e");
   ("OperationUpdateAad", "0x31");
   ("OperationUpdate", "0x32");
   ("OperationFinish", "0x33");
   ("OperationAbort", "0x34");
   ("RpcGetHardwareInfo", "0x41");
   ("RpcGenerateEcdsaP256KeyPair", "0x42");
   ("RpcGenerateCertificateRequest", "0x43");
   ("RpcGenerateCertificateV2Request", "0x44");
   ("SharedSecretGetSharedSecretParameters", "0x51");
   ("SharedSecretComputeSharedSecret", "0x52");
   ("SecureClockGenerateTimeStamp", "0x61");
   ("GetRootOfTrustChallenge", "0x71");
   ("GetRootOfTrust", "0x72");
   ("SendRootOfTrust", "0x73");
   ("SetHalInfo", "0x81");
   ("SetBootInfo", "0x82");
   ("SetAttestationIds", "0x83");
   ("SetHalVersion", "0x84");
   ("SetAdditionalAttestationInfo", "0x91")]%string.

Definition KeyMintOperation_cddl : Cddl := {|
  cddl_typename := Some "KeyMintOperation"%string;
  cddl_schema :=
    s ← texts ([Ok ("&(" +:+ nl)] ++
               ((λ c, Ok ("    " +:+ c.1 +:+ ": " +:+ c.2 +:+ "," +:+ nl)) <$> operation_codes) ++
               [Ok ")"%string]);
    Ok (Some s)
|}.

(** The description of messages: a pair for every operation, of its name and of how its
    arguments or results are described. *)
Definition messages_cddl (name : string) (types : list Cddl) : Cddl := {|
  cddl_typename := Some name;
  cddl_schema :=
    s ← texts ([Ok ("&(" +:+ nl)] ++
               zip_with (λ c t, r ← cddl_ref t; Ok ("    [" +:+ c.1 +:+ ", " +:+ r +:+ "]," +:+ nl))
                 operation_codes types ++
               [Ok ")"%string]);
    Ok (Some s)
|}.

Definition PerformOpReq_types : list Cddl := [
  GetHardwareInfoRequest_cddl;
  AddRngEntropyRequest_cddl;
  GenerateKeyRequest_cddl;
  ImportKeyRequest_cddl;
  ImportWrappedKeyRequest_cddl;
  UpgradeKeyRequest_cddl;
  DeleteKeyRequest_cddl;
  DeleteAllKeysRequest_cddl;
  DestroyAttestationIdsRequest_cddl;
  BeginRequest_cddl;
  EarlyBootEndedRequest_cddl;
  ConvertStorageKeyToEphemeralRequest_cddl;
  GetKeyCharacteristicsRequest_cddl;
  UpdateAadRequest_cddl;
  UpdateRequest_cddl;
  FinishRequest_cddl;
  AbortRequest_cddl;
  GetRpcHardwareInfoRequest_cddl;
  GenerateEcdsaP256KeyPairRequest_cddl;
  GenerateCertificateRequestRequest_cddl;
  GenerateCertificateRequestV2Request_cddl;
  GetSharedSecretParametersRequest_cddl;
  ComputeSharedSecretRequest_cddl;
  GenerateTimeStampRequest_cddl;
  GetRootOfTrustChallengeRequest_cddl;
  GetRootOfTrustRequest_cddl;
  SendRootOfTrustRequest_cddl;
  SetHalInfoRequest_cddl;
  SetBootInfoRequest_cddl;
  SetAttestationIdsRequest_cddl;
  SetHalVersionRequest_cddl;
  SetAdditionalAttestationInfoRequest_cddl].
Definition PerformOpReq_cddl : Cddl := messages_cddl "PerformOpReq" PerformOpReq_types.

Definition PerformOpRsp_types : list Cddl := [
  GetHardwareInfoResponse_cddl;
  AddRngEntropyResponse_cddl;
  GenerateKeyResponse_cddl;
  ImportKeyResponse_cddl;
  ImportWrappedKeyResponse_cddl;
  UpgradeKeyResponse_cddl;
  DeleteKeyResponse_cddl;
  DeleteAllKeysResponse_cddl;
  DestroyAttestationIdsResponse_cddl;
  BeginResponse_cddl;
  EarlyBootEndedResponse_cddl;
  ConvertStorageKeyToEphemeralResponse_cddl;
  GetKeyCharacteristicsResponse_cddl;
  UpdateAadResponse_cddl;
  UpdateResponse_cddl;
  FinishResponse_cddl;
  AbortResponse_cddl;
  GetRpcHardwareInfoResponse_cddl;
  GenerateEcdsaP256KeyPairResponse_cddl;
  GenerateCertificateRequestResponse_cddl;
  GenerateCertificateRequestV2Response_cddl;
  GetSharedSecretParametersResponse_cddl;
  ComputeSharedSecretResponse_cddl;
  GenerateTimeStampResponse_cddl;
  GetRootOfTrustChallengeResponse_cddl;
  GetRootOfTrustResponse_cddl;
  SendRootOfTrustResponse_cddl;
  SetHalInfoResponse_cddl;
  SetBootInfoResponse_cddl;
  SetAttestationIdsResponse_cddl;
  SetHalVersionResponse_cddl;
  SetAdditionalAttestationInfoResponse_cddl].
Definition PerformOpRsp_cddl : Cddl := messages_cddl "PerformOpRsp" PerformOpRsp_types.

Definition PerformOpResponse_cddl : Cddl :=
  derive_cddl "PerformOpResponse" (Struct_Named [
    ("error_code", i32_cddl); ("rsp", option_cddl PerformOpRsp_cddl)]%string).

(** ** Key material and key blobs *)

Definition KeyMaterial_cddl : Cddl := {|
  cddl_typename := Some "KeyMaterial"%string;
  cddl_schema :=
    s ← texts [
      Ok ("&(" +:+ nl);
      Ok ("  ; For each variant the `bool` second entry indicates whether the bstr for the key material" +:+ nl);
      Ok ("  ; is opaque (true), or explicit (false)." +:+ nl);
      Ok ("  [" +:+ pretty (discr Algorithm_Aes) +:+ ", bool, bstr], ; " +:+ "Algorithm_Aes" +:+ nl);
      Ok ("  [" +:+ pretty (discr Algorithm_TripleDes) +:+ ", bool, bstr], ; " +:+ "Algorithm_TripleDes" +:+ nl);
      Ok ("  [" +:+ pretty (discr Algorithm_Hmac) +:+ ", bool, bstr], ; " +:+ "Algorithm_Hmac" +:+ nl);
      Ok ("  ; An explicit RSA key is in the form of an ASN.1 DER encoding of a PKCS#1 `RSAPrivateKey`" +:+ nl);
      Ok ("  ; structure, as specified by RFC 3447 sections A.1.2 and 3.2." +:+ nl);
      Ok ("  [" +:+ pretty (discr Algorithm_Rsa) +:+ ", bool, bstr], ; " +:+ "Algorithm_Rsa" +:+ nl);
      Ok ("  ; An explicit EC key for a NIST curve is in the form of an ASN.1 DER encoding of a" +:+ nl);
      Ok ("  ; `ECPrivateKey` structure, as specified by RFC 5915 section 3." +:+ nl);
      Ok ("  ; An explicit EC key for curve 25519 is the raw key bytes." +:+ nl);
      Ok ("  [" +:+ pretty (discr Algorithm_Ec) +:+ ", bool, [EcCurve, CurveType, bstr]], ; " +:+ "Algorithm_Ec" +:+ nl);
      Ok ")"%string];
    Ok (Some s)
|}.

Definition Version_cddl : Cddl := derive_cddl "Version" (Enum [("V1"%string, 0)]).
Definition SecureDeletionData_cddl : Cddl :=
  derive_cddl "SecureDeletionData" (Struct_Named [
    ("factory_reset_secret", array_cddl 32); ("secure_deletion_secret", array_cddl 16)]%string).
Definition RootOfTrustInfo_cddl : Cddl :=
  derive_cddl "RootOfTrustInfo" (Struct_Named [
    ("verified_boot_key", bytes_cddl); ("device_boot_locked", bool_cddl);
    ("verified_boot_state", VerifiedBootState_cddl)]%string).
Definition EncryptedKeyBlobV1_cddl : Cddl :=
  derive_cddl "EncryptedKeyBlobV1" (Struct_Named [
    ("characteristics", vec_cddl KeyCharacteristics_cddl); ("key_derivation_input", array_cddl 32);
    ("kek_context", bytes_cddl); ("encrypted_key_material", CoseEncrypt0_cddl);
    ("secure_deletion_slot", option_cddl SecureDeletionSlot_cddl)]%string).
Definition EncryptedKeyBlob_cddl : Cddl := {|
  cddl_typename := Some "EncryptedKeyBlob"%string;
  cddl_schema :=
    r ← cddl_ref EncryptedKeyBlobV1_cddl;
    Ok (Some ("&(" +:+ nl +:+ "    [" +:+ pretty 0 +:+ ", " +:+ r +:+ "] ; Version::V1" +:+ nl +:+ ")"))
|}.

(** ** The programs that print the descriptions *)

(** The description of the messages. *)
Definition show_schema (t : Cddl) : Text :=
  schema ← cddl_schema t;
  match cddl_typename t, schema with
  | Some n, Some s => Ok (n +:+ " = " +:+ s +:+ nl)
  | _, _ => Ok EmptyString
  end.
Definition dumped_types : list Cddl := [
  DateTime_cddl; KeySizeInBits_cddl; RsaExponent_cddl; Algorithm_cddl; BlockMode_cddl;
  Digest_cddl; EcCurve_cddl; CurveType_cddl; ErrorCode_cddl; HardwareAuthenticatorType_cddl;
  KeyFormat_cddl; KeyOrigin_cddl; KeyPurpose_cddl; PaddingMode_cddl; SecurityLevel_cddl;
  Tag_cddl; TagType_cddl; AttestationKey_cddl; Certificate_cddl; DeviceInfo_cddl;
  HardwareAuthToken_cddl; KeyCharacteristics_cddl; KeyCreationResult_cddl;
  KeyMintHardwareInfo_cddl; EekCurve_cddl; MacedPublicKey_cddl; ProtectedData_cddl;
  RpcHardwareInfo_cddl; TimeStampToken_cddl; Timestamp_cddl; SharedSecretParameters_cddl;
  KeyParam_cddl; KeyMintOperation_cddl; GetHardwareInfoRequest_cddl;
  GetHardwareInfoResponse_cddl; AddRngEntropyRequest_cddl; AddRngEntropyResponse_cddl;
  GenerateKeyRequest_cddl; GenerateKeyResponse_cddl; ImportKeyRequest_cddl;
  ImportKeyResponse_cddl; ImportWrappedKeyRequest_cddl; ImportWrappedKeyResponse_cddl;
  UpgradeKeyRequest_cddl; UpgradeKeyResponse_cddl; DeleteKeyRequest_cddl; DeleteKeyResponse_cddl;
  DeleteAllKeysRequest_cddl; DeleteAllKeysResponse_cddl; DestroyAttestationIdsRequest_cddl;
  DestroyAttestationIdsResponse_cddl; BeginRequest_cddl; InternalBeginResult_cddl;
  EarlyBootEndedRequest_cddl; EarlyBootEndedResponse_cddl;
  ConvertStorageKeyToEphemeralRequest_cddl; ConvertStorageKeyToEphemeralResponse_cddl;
  GetKeyCharacteristicsRequest_cddl; GetKeyCharacteristicsResponse_cddl; UpdateAadRequest_cddl;
  UpdateAadResponse_cddl; UpdateRequest_cddl; UpdateResponse_cddl; FinishRequest_cddl;
  FinishResponse_cddl; AbortRequest_cddl; AbortResponse_cddl; GetRpcHardwareInfoRequest_cddl;
  GetRpcHardwareInfoResponse_cddl; GenerateEcdsaP256KeyPairRequest_cddl;
  GenerateEcdsaP256KeyPairResponse_cddl; GenerateCertificateRequestRequest_cddl;
  GenerateCertificateRequestResponse_cddl; GenerateCertificateRequestV2Request_cddl;
  GenerateCertificateRequestV2Response_cddl; GetSharedSecretParametersRequest_cddl;
  GetSharedSecretParametersResponse_cddl; ComputeSharedSecretRequest_cddl;
  ComputeSharedSecretResponse_cddl; GenerateTimeStampRequest_cddl;
  GenerateTimeStampResponse_cddl; PerformOpReq_cddl; PerformOpRsp_cddl; PerformOpResponse_cddl].
Definition cddl_dump : Text := texts (show_schema <$> dumped_types).

(** The description of key blobs, with the encoding of an example of every type. *)
Record AccumulatedSchema := { schema : string; samples : gmap string bytes }.

Definition add_name_schema (name sch : string) (self : AccumulatedSchema) : AccumulatedSchema :=
  {| schema := schema self +:+ name +:+ " = " +:+ sch +:+ nl; samples := samples self |}.

Definition preamble : string :=
  String.concat nl
  ["; encrypted_key_material is AES-GCM encrypted with:";
   "; - key derived as described below";
   "; - plaintext is the CBOR-serialization of `KeyMaterial`";
   "; - nonce value is fixed, all zeroes";
   "; - no additional data";
   ";";
   "; Key derivation uses HKDF (RFC 5869) with HMAC-SHA256 to generate an AES-256 key:";
   "; - input keying material = a root key held in hardware";
   "; - salt = absent";
   "; - info = the following three or four chunks of context data concatenated:";
   ";    - content of `EncryptedKeyBlob.key_derivation_input` (a random nonce)";
   ";    - CBOR-serialization of `EncryptedKeyBlob.characteristics`";
   ";    - CBOR-serialized array of additional hidden `KeyParam` items associated with the key, specifically:";
   ";        - [Tag_ApplicationId, bstr] if required";
   ";        - [Tag_ApplicationData, bstr] if required";
   ";        - [Tag_RootOfTrust, bstr .cbor RootOfTrustInfo]";
   ";    - (if secure storage is available) CBOR serialization of the `SecureDeletionData` structure, with:";
   ";        - `factory_reset_secret` always populated";
   ";        - `secure_deletion_secret` populated with:";
   ";           - all zeroes (if `EncryptedKeyBlob.secure_deletion_slot` is empty)";
   ";           - the contents of the slot (if `EncryptedKeyBlob.secure_deletion_slot` is non-empty)"]%string.

Section keyblob_dump.
Context `{Ciborium} `{K : Coset}.

(** Types without a name or a schema are skipped; the example has to be encodable. *)
Definition add {A} (t : Cddl) (c : Codec A) (sample : A) (self : AccumulatedSchema)
    : res Empty_set AccumulatedSchema :=
  sch ← cddl_schema t;
  match cddl_typename t, sch with
  | Some name, Some sch =>
    let self := add_name_schema name sch self in
    match into_vec c sample with
    | Ok data => Ok {| schema := schema self; samples := <[name := data]> (samples self) |}
    | _ => Panic
    end
  | _, _ => Ok self
  end.

Definition sample_keyblob : EncryptedKeyBlobV1 := {|
  ekb_characteristics := [];
  ekb_key_derivation_input := replicate 32 (u8_of 0);
  ekb_kek_context := [];
  ekb_encrypted_key_material := cose_a256gcm [u8_of 1; u8_of 2; u8_of 3];
  ekb_secure_deletion_slot := Some 1
|}.
Definition Version_codec : Codec unit := {|
  from_cbor_value := version_from;
  to_cbor_value _ := Ok (VInteger 0)
|}.
Definition SecureDeletionSlot_codec : Codec Z := derive_newtype u32_codec id id.
Definition ms_since_epoch : Z := 22593600000.

Definition accumulated : res Empty_set AccumulatedSchema :=
  s ← add EncryptedKeyBlob_cddl EncryptedKeyBlob_codec (V1 sample_keyblob) {| schema := EmptyString; samples := ∅ |};
  s ← add Version_cddl Version_codec tt s;
  s ← add EncryptedKeyBlobV1_cddl EncryptedKeyBlobV1_codec sample_keyblob s;
  s ← add KeyCharacteristics_cddl KeyCharacteristics_codec
        {| security_level := SecurityLevel_TrustedEnvironment; authorizations := [] |} s;
  s ← Ok (add_name_schema "Cose_Encrypt0"
        "[ protected: bstr, unprotected: { * (int / tstr) => any }, ciphertext: bstr / nil ]" s);
  s ← add KeyMaterial_cddl KeyMaterial_codec (KM_Aes (Explicit (AesKey128 (replicate 16 (u8_of 0))))) s;
  s ← add SecureDeletionSlot_cddl SecureDeletionSlot_codec 1 s;
  s ← add SecureDeletionData_cddl SecureDeletionData_codec
        {| factory_reset_secret := replicate 32 (u8_of 0);
           secure_deletion_secret := replicate 16 (u8_of 0) |} s;
  s ← add RootOfTrustInfo_cddl RootOfTrustInfo_codec
        (replicate 32 (u8_of 0), false, VerifiedBootState_Unverified) s;
  s ← add VerifiedBootState_cddl derive_enum VerifiedBootState_Unverified s;
  s ← add SecurityLevel_cddl derive_enum SecurityLevel_TrustedEnvironment s;
  s ← add KeyParam_cddl KeyParam_codec (KP_CreationDatetime ms_since_epoch) s;
  s ← add Tag_cddl derive_enum Tag_NoAuthRequired s;
  s ← add Algorithm_cddl derive_enum Algorithm_Ec s;
  s ← add BlockMode_cddl derive_enum BlockMode_Ecb s;
  s ← add Digest_cddl derive_enum Digest_None s;
  s ← add EcCurve_cddl derive_enum EcCurve_Curve25519 s;
  s ← add CurveType_cddl derive_enum CurveType_Nist s;
  s ← add KeyOrigin_cddl derive_enum KeyOrigin_Generated s;
  s ← add KeyPurpose_cddl derive_enum KeyPurpose_Sign s;
  s ← add HardwareAuthenticatorType_cddl derive_enum HardwareAuthenticatorType_Fingerprint s;
  s ← add PaddingMode_cddl derive_enum PaddingMode_None s;
  s ← add DateTime_cddl DateTime_codec ms_since_epoch s;
  s ← add KeySizeInBits_cddl KeySizeInBits_codec 256 s;
  add RsaExponent_cddl RsaExponent_codec 65537 s.
Definition keyblob_cddl_dump : Text :=
  s ← accumulated;
  Ok (preamble +:+ nl +:+ schema s +:+ nl).
End keyblob_dump.
