(* ===== verification/CddlSpec.v ===== *)
(** * What the CDDL descriptions mean, and what they describe

    A reader for the part of CDDL (RFC 8610) that the descriptions use, and the values a
    schema admits.  Read this way, the printed schemas are compared with the encodings of
    [Codec]: with three corrections the schema of the messages admits every well-formed
    request and response, and each of the corrections is needed. *)

From Stdlib Require Import Ascii.
From S2P Require Import Prelude Wire CryptoTypes Codec CborRef WireCodec Crypto Keyblob TaState Cddl.

(** ** Reading a schema *)

(** Words are names, numbers, control operators ([.size]) and tags ([#6.16]). *)
Inductive Token := TWord (w : string) | TInt (z : Z) | TSym (c : ascii).

Definition is_word_char (c : ascii) : bool :=
  let n := nat_of_ascii c in
  (Nat.leb 48 n && Nat.leb n 57) || (Nat.leb 65 n && Nat.leb n 90) || (Nat.leb 97 n && Nat.leb n 122)
  || bool_decide (c = "_"%char) || bool_decide (c = "."%char) || bool_decide (c = "-"%char)
  || bool_decide (c = "#"%char).

Definition digit (c : ascii) : option Z :=
  let n := nat_of_ascii c in
  if Nat.leb 48 n && Nat.leb n 57 then Some (Z.of_nat n - 48)
  else if Nat.leb 97 n && Nat.leb n 102 then Some (Z.of_nat n - 87)
  else None.
Fixpoint digits (base acc : Z) (s : string) : option Z :=
  match s with
  | EmptyString => Some acc
  | String c s' => d ← digit c; if decide (d < base) then digits base (base * acc + d) s' else None
  end.
Definition word_int (w : string) : option Z :=
  match w with
  | EmptyString | String "-" EmptyString => None
  | String "0" (String "x" h) => digits 16 0 h
  | String "-" d => Z.opp <$> digits 10 0 d
  | d => digits 10 0 d
  end.
Definition word_token (w : string) : Token :=
  match word_int w with Some z => TInt z | None => TWord w end.

(** [cur] is the word being read, reversed; comments run to the end of the line. *)
Fixpoint lex (s cur : string) (comment : bool) : list Token :=
  let flush := match cur with EmptyString => [] | _ => [word_token (String.rev cur)] end in
  match s with
  | EmptyString => flush
  | String c s' =>
    if comment then lex s' EmptyString (negb (bool_decide (c = "010"%char)))
    else if is_word_char c then lex s' (String c cur) false
    else flush ++
         if bool_decide (c = ";"%char) then lex s' EmptyString true
         else if bool_decide (c = " "%char ∨ c = "010"%char) then lex s' EmptyString false
         else TSym c :: lex s' EmptyString false
  end.

Inductive Occur := One | Opt | Many.

(** Member names in arrays and enumerations carry no meaning and are dropped; a choice
    between the members of a group is one between their types. *)
Inductive CType :=
| CWord (w : string)
| CInt (z : Z)
| CSize (n : Z)
| CTagged (t : Z) (c : CType)
| CArray (g : list (Occur * CType))
| CMap (k v : CType)
| CChoice (cs : list CType).

Definition occurrence (ts : list Token) : Occur * list Token :=
  match ts with
  | TSym "?" :: ts' => (Opt, ts')
  | TSym "*" :: ts' => (Many, ts')
  | _ => (One, ts)
  end.
Definition skip_key (ts : list Token) : list Token :=
  match ts with TWord _ :: TSym ":" :: ts' => ts' | _ => ts end.
Definition tag_number (w : string) : option Z :=
  match w with
  | String "#" (String "6" (String "." n)) => digits 10 0 n
  | _ => None
  end.
Definition expect (c : ascii) (ts : list Token) : option (list Token) :=
  match ts with TSym c' :: ts' => if bool_decide (c = c') then Some ts' else None | _ => None end.

(** A type, the alternatives that follow it, and the entries of a group up to its
    closing bracket. *)
Fixpoint read_type (fuel : nat) (ts : list Token) : option (CType * list Token) :=
  match fuel with
  | O => None
  | S fuel =>
    '(t, ts) ← match ts with
    | TInt z :: ts => Some (CInt z, ts)
    | TWord w :: TWord ".size" :: TInt n :: ts => if bool_decide (w = "bstr"%string) then Some (CSize n, ts) else None
    | TWord w :: ts =>
      match tag_number w with
      | Some n => ts ← expect "(" ts; '(t, ts) ← read_type fuel ts; ts ← expect ")" ts; Some (CTagged n t, ts)
      | None => Some (CWord w, ts)
      end
    | TSym "(" :: ts => '(t, ts) ← read_type fuel ts; ts ← expect ")" ts; Some (t, ts)
    | TSym "[" :: ts => '(g, ts) ← read_group fuel "]" ts; Some (CArray g, ts)
    | TSym "&" :: TSym "(" :: ts => '(g, ts) ← read_group fuel ")" ts; Some (CChoice (snd <$> g), ts)
    | TSym "{" :: TSym "*" :: ts =>
      '(k, ts) ← read_type fuel ts; ts ← expect "=" ts; ts ← expect ">" ts;
      '(v, ts) ← read_type fuel ts; ts ← expect "}" ts; Some (CMap k v, ts)
    | _ => None
    end;
    match ts with
    | TSym "/" :: ts => '(t', ts) ← read_type fuel ts; Some (CChoice [t; t'], ts)
    | _ => Some (t, ts)
    end
  end
with read_group (fuel : nat) (close : ascii) (ts : list Token) : option (list (Occur * CType) * list Token) :=
  match fuel with
  | O => None
  | S fuel =>
    match expect close ts with
    | Some ts => Some ([], ts)
    | None =>
      let '(o, ts) := occurrence ts in
      '(t, ts) ← read_type fuel (skip_key ts);
      let ts := match expect "," ts with Some ts => ts | None => ts end in
      '(g, ts) ← read_group fuel close ts;
      Some ((o, t) :: g, ts)
    end
  end.

Abbreviation Rules := (list (string * CType)).
Fixpoint read_rules (fuel : nat) (ts : list Token) : option Rules :=
  match fuel, ts with
  | _, [] => Some []
  | S fuel, TWord n :: TSym "=" :: ts =>
    '(t, ts) ← read_type fuel ts; rs ← read_rules fuel ts; Some ((n, t) :: rs)
  | _, _ => None
  end.
(** No step reads fewer than one token in two calls. *)
Definition read_schema (s : string) : option Rules :=
  let ts := lex s EmptyString false in read_rules (S (2 * length ts)) ts.

(** ** The values a schema admits *)

Fixpoint rule (rs : Rules) (n : string) : option CType :=
  match rs with
  | [] => None
  | (m, t) :: rs' => if decide (m = n) then Some t else rule rs' n
  end.

(** The types of the standard prelude. *)
Definition prelude (w : string) : option (Value → bool) :=
  if decide (w = "int"%string) then Some (λ v, match v with VInteger _ => true | _ => false end)
  else if decide (w = "bstr"%string) then Some (λ v, match v with VBytes _ => true | _ => false end)
  else if decide (w = "tstr"%string) then Some (λ v, match v with VText _ => true | _ => false end)
  else if decide (w = "bool"%string) then Some (λ v, match v with VBool _ => true | _ => false end)
  else if decide (w = "true"%string) then Some (λ v, match v with VBool true => true | _ => false end)
  else if decide (w = "null"%string ∨ w = "nil"%string) then Some (λ v, match v with VNull => true | _ => false end)
  else if decide (w = "any"%string) then Some (λ _, true)
  else None.

Inductive Admits (rs : Rules) : CType → Value → Prop :=
| Admits_prelude w f v : prelude w = Some f → f v = true → Admits rs (CWord w) v
| Admits_rule w t v : prelude w = None → rule rs w = Some t → Admits rs t v → Admits rs (CWord w) v
| Admits_int z : Admits rs (CInt z) (VInteger z)
| Admits_size n b : len b = n → Admits rs (CSize n) (VBytes b)
| Admits_tagged t c v : Admits rs c v → Admits rs (CTagged t c) (VTag t v)
| Admits_array g vs : Group rs g vs → Admits rs (CArray g) (VArray vs)
| Admits_map k v m : Forall (λ kv, Admits rs k kv.1 ∧ Admits rs v kv.2) m → Admits rs (CMap k v) (VMap m)
| Admits_choice cs c v : c ∈ cs → Admits rs c v → Admits rs (CChoice cs) v
with Group (rs : Rules) : list (Occur * CType) → list Value → Prop :=
| Group_nil : Group rs [] []
| Group_one t g v vs : Admits rs t v → Group rs g vs → Group rs ((One, t) :: g) (v :: vs)
| Group_opt_none t g vs : Group rs g vs → Group rs ((Opt, t) :: g) vs
| Group_opt_some t g v vs : Admits rs t v → Group rs g vs → Group rs ((Opt, t) :: g) (v :: vs)
| Group_many_stop t g vs : Group rs g vs → Group rs ((Many, t) :: g) vs
| Group_many_more t g v vs : Admits rs t v → Group rs ((Many, t) :: g) vs → Group rs ((Many, t) :: g) (v :: vs).

(** The names a schema uses and does not define. *)
Fixpoint names (t : CType) : list string :=
  match t with
  | CWord w => [w]
  | CInt _ | CSize _ => []
  | CTagged _ c => names c
  | CArray g => flat_map (λ e, names e.2) g
  | CMap k v => names k ++ names v
  | CChoice cs => flat_map names cs
  end.
Definition undefined (rs : Rules) (w : string) : bool :=
  match prelude w, rule rs w with None, None => true | _, _ => false end.
Definition undefined_names (rs : Rules) : list string :=
  filter (λ w, undefined rs w = true) (flat_map (λ r, names r.2) rs).

(** ** The printed schemas *)

Definition read_text (t : Text) : option Rules :=
  match t with Ok s => read_schema s | _ => None end.

(** The schema of the messages, as published. *)
Definition published : Rules := Eval vm_compute in default [] (read_text cddl_dump).

(** The corrections: the operation names become rules, the message types that are not
    printed are added, and [CallerNonce] is described as the flag it is. *)
Definition operation_rules : Rules := omap (λ c, z ← word_int c.2; Some (c.1, CInt z)) operation_codes.
Definition unprinted_types : list Cddl :=
  [BeginResponse_cddl; GetRootOfTrustChallengeRequest_cddl; GetRootOfTrustChallengeResponse_cddl;
   GetRootOfTrustRequest_cddl; GetRootOfTrustResponse_cddl; SendRootOfTrustRequest_cddl;
   SendRootOfTrustResponse_cddl; SetHalInfoRequest_cddl; SetHalInfoResponse_cddl;
   SetBootInfoRequest_cddl; SetBootInfoResponse_cddl; SetAttestationIdsRequest_cddl;
   SetAttestationIdsResponse_cddl; AttestationIdInfo_cddl; SetHalVersionRequest_cddl;
   SetHalVersionResponse_cddl; SetAdditionalAttestationInfoRequest_cddl;
   SetAdditionalAttestationInfoResponse_cddl].
Definition correct_entry (c : CType) : CType :=
  match c with
  | CArray [(One, CInt z); (One, CWord _)] =>
    if decide (z = discr Tag_CallerNonce) then CArray [(One, CInt z); (One, CWord "true")] else c
  | _ => c
  end.
Definition correct_params (r : string * CType) : string * CType :=
  match r with
  | (n, CChoice cs) => if decide (n = "KeyParam"%string) then (n, CChoice (correct_entry <$> cs)) else r
  | _ => r
  end.
Definition corrected : Rules := Eval vm_compute in
  (correct_params <$> published) ++ operation_rules ++
  default [] (read_text (texts (show_schema <$> unprinted_types))).

(** ** Encodings that fit a description *)

Definition describes {A} (rs : Rules) (t : CType) (c : Codec A) (wf : A → Prop) : Prop :=
  ∀ a v, wf a → to_cbor_value c a = Ok v → Admits rs t v.
Definition describes_fields {A} (rs : Rules) (g : list (Occur * CType)) (fs : Fields A) (wf : A → Prop) : Prop :=
  ∀ a vs, wf a → to_fields fs a = Ok vs → Group rs g vs.

Section describes.
Context (rs : Rules).

Lemma word_described {A} w t (c : Codec A) wf :
  prelude w = None → rule rs w = Some t → describes rs t c wf → describes rs (CWord w) c wf.
Proof. intros Hp Hr Hc a v Ha Hv. eapply Admits_rule; eauto. Qed.

Lemma int_described P `{∀ z, Decision (P z)} want : describes rs (CWord "int") (int_codec P want) P.
Proof. intros a v _ [= <-]. by eapply Admits_prelude. Qed.
Definition u64_described : describes rs (CWord "int") u64_codec is_u64 := int_described _ _.
Definition i64_described : describes rs (CWord "int") i64_codec is_i64 := int_described _ _.
Definition u32_described : describes rs (CWord "int") u32_codec is_u32 := int_described _ _.
Definition i32_described : describes rs (CWord "int") i32_codec is_i32 := int_described _ _.
Lemma bool_described : describes rs (CWord "bool") bool_codec (λ _, True).
Proof. intros a v _ [= <-]. by eapply Admits_prelude. Qed.
Lemma string_described : describes rs (CWord "tstr") string_codec (λ _, True).
Proof. intros a v _ [= <-]. by eapply Admits_prelude. Qed.
Lemma bytes_described : describes rs (CWord "bstr") bytes_codec (λ _, True).
Proof. intros a v _ [= <-]. by eapply Admits_prelude. Qed.
Lemma array_described n : describes rs (CSize n) (array_codec n) (λ b, len b = n).
Proof. intros a v Ha [= <-]. by constructor. Qed.
Lemma newtype_described {A B} t (c : Codec A) (mk : A → B) un wf :
  describes rs t c wf → describes rs t (derive_newtype c mk un) (λ b, wf (un b)).
Proof. intros Hc b v Hb Hv. by eapply Hc. Qed.

(** Round trips give the encodings. *)
Lemma described_encoding {A} t (c : Codec A) wf d a :
  codec_ok c wf d → describes rs t c wf → wf a → ∃ v, to_cbor_value c a = Ok v ∧ Admits rs t v.
Proof. intros Hc Hd Ha. destruct (Hc a Ha) as (v & Hv & _). eauto. Qed.

(** An enumeration has to list all variants. *)
Definition lists (cs : list CType) (z : Z) : bool :=
  existsb (λ c, match c with CInt z' => z =? z' | _ => false end) cs.
Definition enum_rule (A : Type) `{REnum A} (w : string) : bool :=
  match prelude w, rule rs w with
  | None, Some (CChoice cs) => forallb (λ v : A, lists cs (discr v)) variants
  | _, _ => false
  end.
Lemma lists_admits cs z : lists cs z = true → Admits rs (CChoice cs) (VInteger z).
Proof.
  intros (c & Hc & Hz)%existsb_exists. destruct c; try done. apply Z.eqb_eq in Hz as <-.
  apply list_elem_of_In in Hc. by eapply Admits_choice; [|constructor].
Qed.
Lemma enum_described {A} `{REnum A} w :
  enum_rule A w = true → describes rs (CWord w) (derive_enum (A:=A)) (λ _, True).
Proof.
  unfold enum_rule. intros He a v _ [= <-]. destruct (prelude w) eqn:?; [done|].
  destruct (rule rs w) as [[]|] eqn:?; try done. eapply Admits_rule; [done..|].
  apply lists_admits. rewrite forallb_forall in He. apply He, list_elem_of_In, variants_complete.
Qed.

Lemma many_admits t vs : Forall (Admits rs t) vs → Admits rs (CArray [(Many, t)]) (VArray vs).
Proof.
  intros Hvs. constructor. induction Hvs; [by do 2 constructor|by apply Group_many_more].
Qed.
Lemma vec_described {A} t (c : Codec A) wf :
  describes rs t c wf → describes rs (CArray [(Many, t)]) (vec_codec c) (Forall wf).
Proof.
  intros Hc l v Hl Hv. cbn in Hv. apply res_bind_Ok in Hv as (vs & Hvs & [= <-]). apply many_admits.
  revert vs Hvs. induction Hl as [|a l Ha _ IH]; intros vs Hvs; cbn in Hvs; [by injection Hvs as <-|].
  apply res_bind_Ok in Hvs as (v & Hv & Hvs). apply res_bind_Ok in Hvs as (vs' & Hvs & [= <-]).
  constructor; eauto.
Qed.
Lemma option_described {A} t (c : Codec A) wf :
  describes rs t c wf → describes rs (CArray [(Opt, t)]) (option_codec c) (from_option wf True).
Proof.
  intros Hc [a|] v Ha Hv; cbn in Hv; [apply res_bind_Ok in Hv as (v' & Hv & [= <-])|injection Hv as <-];
    repeat (constructor; eauto); apply Group_opt_none; constructor.
Qed.

Lemma no_fields_described : describes_fields rs [] no_fields (λ _, True).
Proof. intros a vs _ [= <-]. constructor. Qed.
Lemma field_described {A B} t g (c : Codec A) (fs : Fields B) wf1 wf2 :
  describes rs t c wf1 → describes_fields rs g fs wf2 →
  describes_fields rs ((One, t) :: g) (field c fs) (λ p, wf1 p.1 ∧ wf2 p.2).
Proof.
  intros Hc Hfs [a b] vs [Ha Hb] Hv. cbn in Hv. apply res_bind_Ok in Hv as (v & Hv & Hv').
  apply res_bind_Ok in Hv' as (vs' & Hv' & [= <-]). constructor; eauto.
Qed.
Lemma struct_described {A B} g want (fs : Fields A) (mk : A → B) un wf :
  describes_fields rs g fs wf → describes rs (CArray g) (derive_struct want fs mk un) (λ b, wf (un b)).
Proof. intros Hfs b v Hb Hv. cbn in Hv. apply res_bind_Ok in Hv as (vs & Hv & [= <-]). constructor; eauto. Qed.

(** Choices between pairs, selected by the first component. *)
Definition same_head (h c : CType) : bool :=
  match h, c with
  | CInt z, CInt z' => z =? z'
  | CWord w, CWord w' => bool_decide (w = w')
  | _, _ => false
  end.
Fixpoint pair_entry (h : CType) (cs : list CType) : option CType :=
  match cs with
  | [] => None
  | CArray [(One, h'); (One, t)] :: cs' => if same_head h h' then Some t else pair_entry h cs'
  | _ :: cs' => pair_entry h cs'
  end.
Lemma pair_entry_elem h cs t : pair_entry h cs = Some t → CArray [(One, h); (One, t)] ∈ cs.
Proof.
  induction cs as [|c cs IH]; [done|]. intros Hc. cbn in Hc.
  repeat case_match; simplify_eq; try (right; by apply IH).
  match goal with Hs : same_head ?h ?c = true |- _ =>
    destruct h, c; cbn in Hs; try done; [apply bool_decide_eq_true in Hs|apply Z.eqb_eq in Hs]; subst; left end.
Qed.
Lemma pair_admits h cs t v0 v :
  pair_entry h cs = Some t → Admits rs h v0 → Admits rs t v → Admits rs (CChoice cs) (VArray [v0; v]).
Proof.
  intros Hc%pair_entry_elem H0 Hv. eapply Admits_choice; [done|]. repeat (constructor; try done).
Qed.
End describes.

Ltac solve_rule := vm_compute; reflexivity.
Tactic Notation "described_by" uconstr(t) := eapply word_described; [solve_rule|solve_rule|refine t; solve_rule].

(** ** Key parameters *)

Section params.
Context (rs : Rules).

Lemma named_int_admits w z :
  prelude w = None → rule rs w = Some (CWord "int") → Admits rs (CWord w) (VInteger z).
Proof. intros Hp Hr. eapply Admits_rule; [done..|]. by eapply Admits_prelude. Qed.
Lemma enum_admits {A} `{REnum A} w (a : A) : enum_rule rs A w = true → Admits rs (CWord w) (VInteger (discr a)).
Proof. intros He. by eapply (enum_described rs w He a). Qed.

(** A parameter fits the entry of its tag if its value fits what the entry says. *)
Lemma param_admits p cs t v :
  pair_entry (CInt (discr (tag p))) cs = Some t →
  (∀ tg val, key_param_to p = Ok (tg, val) → Admits rs t val) →
  to_cbor_value KeyParam_codec p = Ok v → Admits rs (CChoice cs) v.
Proof.
  intros Ht Hf Hv. cbn [KeyParam_codec to_cbor_value] in Hv.
  apply res_bind_Ok in Hv as ([t' val] & Hv & [= <-]).
  assert (t' = tag p) as -> by (destruct p; by injection Hv).
  eapply pair_admits; [exact Ht|constructor|by eapply Hf].
Qed.
End params.

Ltac solve_value :=
  let Hv := fresh in intros ? ? Hv; injection Hv as <- <-;
  first [eapply Admits_prelude; reflexivity
        |apply named_int_admits; solve_rule
        |match goal with |- Admits _ _ (VInteger (_ ?a)) => 
           let A := type of a in let H := constr:(_ : REnum A) in
           refine (@enum_admits _ A H _ a _); solve_rule end].
Ltac solve_param :=
  match goal with Hv : to_cbor_value KeyParam_codec ?p = Ok _ |- _ =>
    eapply (param_admits _ p); [solve_rule|solve_value|exact Hv] end.

Lemma KeyParam_described : describes corrected (CWord "KeyParam") KeyParam_codec kp_wf.
Proof. eapply word_described; [solve_rule..|]. intros p v _ Hv. destruct p; solve_param. Qed.
Lemma published_KeyParam : describes published (CWord "KeyParam") KeyParam_codec (λ p, p ≠ KP_CallerNonce).
Proof. eapply word_described; [solve_rule..|]. intros p v Hp Hv. destruct p; first [done|solve_param]. Qed.

(** ** Structures *)

Lemma Timestamp_described : describes corrected (CWord "Timestamp") Timestamp_codec Timestamp_wf.
Proof. described_by (struct_described _ _ _ _ _ _ _ (field_described _ _ _ _ _ _ _ (i64_described _) (no_fields_described _))). Qed.
Lemma TimeStampToken_described : describes corrected (CWord "TimeStampToken") TimeStampToken_codec TimeStampToken_wf.
Proof. described_by (struct_described _ _ _ _ _ _ _ (field_described _ _ _ _ _ _ _ (i64_described _) (field_described _ _ _ _ _ _ _ Timestamp_described (field_described _ _ _ _ _ _ _ (bytes_described _) (no_fields_described _))))). Qed.
Lemma SharedSecretParameters_described : describes corrected (CWord "SharedSecretParameters") SharedSecretParameters_codec SharedSecretParameters_wf.
Proof. described_by (struct_described _ _ _ _ _ _ _ (field_described _ _ _ _ _ _ _ (bytes_described _) (field_described _ _ _ _ _ _ _ (bytes_described _) (no_fields_described _)))). Qed.
Lemma KeyCharacteristics_described : describes corrected (CWord "KeyCharacteristics") KeyCharacteristics_codec KeyCharacteristics_wf.
Proof. described_by (struct_described _ _ _ _ _ _ _ (field_described _ _ _ _ _ _ _ (enum_described (A:=SecurityLevel) _ _ _) (field_described _ _ _ _ _ _ _ (vec_described _ _ _ _ KeyParam_described) (no_fields_described _)))). Qed.
Lemma AttestationKey_described : describes corrected (CWord "AttestationKey") AttestationKey_codec AttestationKey_wf.
Proof. described_by (struct_described _ _ _ _ _ _ _ (field_described _ _ _ _ _ _ _ (bytes_described _) (field_described _ _ _ _ _ _ _ (vec_described _ _ _ _ KeyParam_described) (field_described _ _ _ _ _ _ _ (bytes_described _) (no_fields_described _))))). Qed.
Lemma HardwareAuthToken_described : describes corrected (CWord "HardwareAuthToken") HardwareAuthToken_codec HardwareAuthToken_wf.
Proof. described_by (struct_described _ _ _ _ _ _ _ (field_described _ _ _ _ _ _ _ (i64_described _) (field_described _ _ _ _ _ _ _ (i64_described _) (field_described _ _ _ _ _ _ _ (i64_described _) (field_described _ _ _ _ _ _ _ (enum_described (A:=HardwareAuthenticatorType) _ _ _) (field_described _ _ _ _ _ _ _ Timestamp_described (field_described _ _ _ _ _ _ _ (bytes_described _) (no_fields_described _)))))))). Qed.
Lemma Certificate_described : describes corrected (CWord "Certificate") Certificate_codec Certificate_wf.
Proof. described_by (struct_described _ _ _ _ _ _ _ (field_described _ _ _ _ _ _ _ (bytes_described _) (no_fields_described _))). Qed.
Lemma KeyCreationResult_described : describes corrected (CWord "KeyCreationResult") KeyCreationResult_codec KeyCreationResult_wf.
Proof. described_by (struct_described _ _ _ _ _ _ _ (field_described _ _ _ _ _ _ _ (bytes_described _) (field_described _ _ _ _ _ _ _ (vec_described _ _ _ _ KeyCharacteristics_described) (field_described _ _ _ _ _ _ _ (vec_described _ _ _ _ Certificate_described) (no_fields_described _))))). Qed.
Lemma KeyMintHardwareInfo_described : describes corrected (CWord "KeyMintHardwareInfo") KeyMintHardwareInfo_codec KeyMintHardwareInfo_wf.
Proof. described_by (struct_described _ _ _ _ _ _ _ (field_described _ _ _ _ _ _ _ (i32_described _) (field_described _ _ _ _ _ _ _ (enum_described (A:=SecurityLevel) _ _ _) (field_described _ _ _ _ _ _ _ (string_described _) (field_described _ _ _ _ _ _ _ (string_described _) (field_described _ _ _ _ _ _ _ (bool_described _) (no_fields_described _))))))). Qed.
Lemma RpcHardwareInfo_described : describes corrected (CWord "HardwareInfo") RpcHardwareInfo_codec RpcHardwareInfo_wf.
Proof. described_by (struct_described _ _ _ _ _ _ _ (field_described _ _ _ _ _ _ _ (i32_described _) (field_described _ _ _ _ _ _ _ (string_described _) (field_described _ _ _ _ _ _ _ (enum_described (A:=EekCurve) _ _ _) (field_described _ _ _ _ _ _ _ (option_described _ _ _ _ (string_described _)) (field_described _ _ _ _ _ _ _ (i32_described _) (no_fields_described _))))))). Qed.
Lemma MacedPublicKey_described : describes corrected (CWord "MacedPublicKey") MacedPublicKey_codec MacedPublicKey_wf.
Proof. described_by (struct_described _ _ _ _ _ _ _ (field_described _ _ _ _ _ _ _ (bytes_described _) (no_fields_described _))). Qed.
Lemma ProtectedData_described : describes corrected (CWord "ProtectedData") ProtectedData_codec ProtectedData_wf.
Proof. described_by (struct_described _ _ _ _ _ _ _ (field_described _ _ _ _ _ _ _ (bytes_described _) (no_fields_described _))). Qed.
Lemma DeviceInfo_described : describes corrected (CWord "DeviceInfo") DeviceInfo_codec DeviceInfo_wf.
Proof. described_by (struct_described _ _ _ _ _ _ _ (field_described _ _ _ _ _ _ _ (bytes_described _) (no_fields_described _))). Qed.
Lemma InternalBeginResult_described : describes corrected (CWord "InternalBeginResult") InternalBeginResult_codec InternalBeginResult_wf.
Proof. described_by (struct_described _ _ _ _ _ _ _ (field_described _ _ _ _ _ _ _ (i64_described _) (field_described _ _ _ _ _ _ _ (vec_described _ _ _ _ KeyParam_described) (field_described _ _ _ _ _ _ _ (i64_described _) (no_fields_described _))))). Qed.
Lemma AttestationIdInfo_described : describes corrected (CWord "AttestationIdInfo") AttestationIdInfo_codec AttestationIdInfo_wf.
Proof. described_by (struct_described _ _ _ _ _ _ _ (field_described _ _ _ _ _ _ _ (bytes_described _) (field_described _ _ _ _ _ _ _ (bytes_described _) (field_described _ _ _ _ _ _ _ (bytes_described _) (field_described _ _ _ _ _ _ _ (bytes_described _) (field_described _ _ _ _ _ _ _ (bytes_described _) (field_described _ _ _ _ _ _ _ (bytes_described _) (field_described _ _ _ _ _ _ _ (bytes_described _) (field_described _ _ _ _ _ _ _ (bytes_described _) (field_described _ _ _ _ _ _ _ (bytes_described _) (no_fields_described _))))))))))). Qed.
Lemma GetHardwareInfoRequest_described : describes corrected (CWord "GetHardwareInfoRequest") GetHardwareInfoRequest_codec GetHardwareInfoRequest_wf.
Proof. described_by (struct_described _ _ _ _ _ _ _ (no_fields_described _)). Qed.
Lemma GetHardwareInfoResponse_described : describes corrected (CWord "GetHardwareInfoResponse") GetHardwareInfoResponse_codec GetHardwareInfoResponse_wf.
Proof. described_by (struct_described _ _ _ _ _ _ _ (field_described _ _ _ _ _ _ _ KeyMintHardwareInfo_described (no_fields_described _))). Qed.
Lemma AddRngEntropyRequest_described : describes corrected (CWord "AddRngEntropyRequest") AddRngEntropyRequest_codec AddRngEntropyRequest_wf.
Proof. described_by (struct_described _ _ _ _ _ _ _ (field_described _ _ _ _ _ _ _ (bytes_described _) (no_fields_described _))). Qed.
Lemma AddRngEntropyResponse_described : describes corrected (CWord "AddRngEntropyResponse") AddRngEntropyResponse_codec AddRngEntropyResponse_wf.
Proof. described_by (struct_described _ _ _ _ _ _ _ (no_fields_described _)). Qed.
Lemma GenerateKeyRequest_described : describes corrected (CWord "GenerateKeyRequest") GenerateKeyRequest_codec GenerateKeyRequest_wf.
Proof. described_by (struct_described _ _ _ _ _ _ _ (field_described _ _ _ _ _ _ _ (vec_described _ _ _ _ KeyParam_described) (field_described _ _ _ _ _ _ _ (option_described _ _ _ _ AttestationKey_described) (no_fields_described _)))). Qed.
Lemma GenerateKeyResponse_described : describes corrected (CWord "GenerateKeyResponse") GenerateKeyResponse_codec GenerateKeyResponse_wf.
Proof. described_by (struct_described _ _ _ _ _ _ _ (field_described _ _ _ _ _ _ _ KeyCreationResult_described (no_fields_described _))). Qed.
Lemma ImportKeyRequest_described : describes corrected (CWord "ImportKeyRequest") ImportKeyRequest_codec ImportKeyRequest_wf.
Proof. described_by (struct_described _ _ _ _ _ _ _ (field_described _ _ _ _ _ _ _ (vec_described _ _ _ _ KeyParam_described) (field_described _ _ _ _ _ _ _ (enum_described (A:=KeyFormat) _ _ _) (field_described _ _ _ _ _ _ _ (bytes_described _) (field_described _ _ _ _ _ _ _ (option_described _ _ _ _ AttestationKey_described) (no_fields_described _)))))). Qed.
Lemma ImportKeyResponse_described : describes corrected (CWord "ImportKeyResponse") ImportKeyResponse_codec ImportKeyResponse_wf.
Proof. described_by (struct_described _ _ _ _ _ _ _ (field_described _ _ _ _ _ _ _ KeyCreationResult_described (no_fields_described _))). Qed.
Lemma ImportWrappedKeyRequest_described : describes corrected (CWord "ImportWrappedKeyRequest") ImportWrappedKeyRequest_codec ImportWrappedKeyRequest_wf.
Proof. described_by (struct_described _ _ _ _ _ _ _ (field_described _ _ _ _ _ _ _ (bytes_described _) (field_described _ _ _ _ _ _ _ (bytes_described _) (field_described _ _ _ _ _ _ _ (bytes_described _) (field_described _ _ _ _ _ _ _ (vec_described _ _ _ _ KeyParam_described) (field_described _ _ _ _ _ _ _ (i64_described _) (field_described _ _ _ _ _ _ _ (i64_described _) (no_fields_described _)))))))). Qed.
Lemma ImportWrappedKeyResponse_described : describes corrected (CWord "ImportWrappedKeyResponse") ImportWrappedKeyResponse_codec ImportWrappedKeyResponse_wf.
Proof. described_by (struct_described _ _ _ _ _ _ _ (field_described _ _ _ _ _ _ _ KeyCreationResult_described (no_fields_described _))). Qed.
Lemma UpgradeKeyRequest_described : describes corrected (CWord "UpgradeKeyRequest") UpgradeKeyRequest_codec UpgradeKeyRequest_wf.
Proof. described_by (struct_described _ _ _ _ _ _ _ (field_described _ _ _ _ _ _ _ (bytes_described _) (field_described _ _ _ _ _ _ _ (vec_described _ _ _ _ KeyParam_described) (no_fields_described _)))). Qed.
Lemma UpgradeKeyResponse_described : describes corrected (CWord "UpgradeKeyResponse") UpgradeKeyResponse_codec UpgradeKeyResponse_wf.
Proof. described_by (struct_described _ _ _ _ _ _ _ (field_described _ _ _ _ _ _ _ (bytes_described _) (no_fields_described _))). Qed.
Lemma DeleteKeyRequest_described : describes corrected (CWord "DeleteKeyRequest") DeleteKeyRequest_codec DeleteKeyRequest_wf.
Proof. described_by (struct_described _ _ _ _ _ _ _ (field_described _ _ _ _ _ _ _ (bytes_described _) (no_fields_described _))). Qed.
Lemma DeleteKeyResponse_described : describes corrected (CWord "DeleteKeyResponse") DeleteKeyResponse_codec DeleteKeyResponse_wf.
Proof. described_by (struct_described _ _ _ _ _ _ _ (no_fields_described _)). Qed.
Lemma DeleteAllKeysRequest_described : describes corrected (CWord "DeleteAllKeysRequest") DeleteAllKeysRequest_codec DeleteAllKeysRequest_wf.
Proof. described_by (struct_described _ _ _ _ _ _ _ (no_fields_described _)). Qed.
Lemma DeleteAllKeysResponse_described : describes corrected (CWord "DeleteAllKeysResponse") DeleteAllKeysResponse_codec DeleteAllKeysResponse_wf.
Proof. described_by (struct_described _ _ _ _ _ _ _ (no_fields_described _)). Qed.
Lemma DestroyAttestationIdsRequest_described : describes corrected (CWord "DestroyAttestationIdsRequest") DestroyAttestationIdsRequest_codec DestroyAttestationIdsRequest_wf.
Proof. described_by (struct_described _ _ _ _ _ _ _ (no_fields_described _)). Qed.
Lemma DestroyAttestationIdsResponse_described : describes corrected (CWord "DestroyAttestationIdsResponse") DestroyAttestationIdsResponse_codec DestroyAttestationIdsResponse_wf.
Proof. described_by (struct_described _ _ _ _ _ _ _ (no_fields_described _)). Qed.
Lemma BeginRequest_described : describes corrected (CWord "BeginRequest") BeginRequest_codec BeginRequest_wf.
Proof. described_by (struct_described _ _ _ _ _ _ _ (field_described _ _ _ _ _ _ _ (enum_described (A:=KeyPurpose) _ _ _) (field_described _ _ _ _ _ _ _ (bytes_described _) (field_described _ _ _ _ _ _ _ (vec_described _ _ _ _ KeyParam_described) (field_described _ _ _ _ _ _ _ (option_described _ _ _ _ HardwareAuthToken_described) (no_fields_described _)))))). Qed.
Lemma BeginResponse_described : describes corrected (CWord "BeginResponse") BeginResponse_codec BeginResponse_wf.
Proof. described_by (struct_described _ _ _ _ _ _ _ (field_described _ _ _ _ _ _ _ InternalBeginResult_described (no_fields_described _))). Qed.
Lemma EarlyBootEndedRequest_described : describes corrected (CWord "EarlyBootEndedRequest") EarlyBootEndedRequest_codec EarlyBootEndedRequest_wf.
Proof. described_by (struct_described _ _ _ _ _ _ _ (no_fields_described _)). Qed.
Lemma EarlyBootEndedResponse_described : describes corrected (CWord "EarlyBootEndedResponse") EarlyBootEndedResponse_codec EarlyBootEndedResponse_wf.
Proof. described_by (struct_described _ _ _ _ _ _ _ (no_fields_described _)). Qed.
Lemma ConvertStorageKeyToEphemeralRequest_described : describes corrected (CWord "ConvertStorageKeyToEphemeralRequest") ConvertStorageKeyToEphemeralRequest_codec ConvertStorageKeyToEphemeralRequest_wf.
Proof. described_by (struct_described _ _ _ _ _ _ _ (field_described _ _ _ _ _ _ _ (bytes_described _) (no_fields_described _))). Qed.
Lemma ConvertStorageKeyToEphemeralResponse_described : describes corrected (CWord "ConvertStorageKeyToEphemeralResponse") ConvertStorageKeyToEphemeralResponse_codec ConvertStorageKeyToEphemeralResponse_wf.
Proof. described_by (struct_described _ _ _ _ _ _ _ (field_described _ _ _ _ _ _ _ (bytes_described _) (no_fields_described _))). Qed.
Lemma GetKeyCharacteristicsRequest_described : describes corrected (CWord "GetKeyCharacteristicsRequest") GetKeyCharacteristicsRequest_codec GetKeyCharacteristicsRequest_wf.
Proof. described_by (struct_described _ _ _ _ _ _ _ (field_described _ _ _ _ _ _ _ (bytes_described _) (field_described _ _ _ _ _ _ _ (bytes_described _) (field_described _ _ _ _ _ _ _ (bytes_described _) (no_fields_described _))))). Qed.
Lemma GetKeyCharacteristicsResponse_described : describes corrected (CWord "GetKeyCharacteristicsResponse") GetKeyCharacteristicsResponse_codec GetKeyCharacteristicsResponse_wf.
Proof. described_by (struct_described _ _ _ _ _ _ _ (field_described _ _ _ _ _ _ _ (vec_described _ _ _ _ KeyCharacteristics_described) (no_fields_described _))). Qed.
Lemma GetRootOfTrustChallengeRequest_described : describes corrected (CWord "GetRootOfTrustChallengeRequest") GetRootOfTrustChallengeRequest_codec GetRootOfTrustChallengeRequest_wf.
Proof. described_by (struct_described _ _ _ _ _ _ _ (no_fields_described _)). Qed.
Lemma GetRootOfTrustChallengeResponse_described : describes corrected (CWord "GetRootOfTrustChallengeResponse") GetRootOfTrustChallengeResponse_codec GetRootOfTrustChallengeResponse_wf.
Proof. described_by (struct_described _ _ _ _ _ _ _ (field_described _ _ _ _ _ _ _ (array_described _ 16) (no_fields_described _))). Qed.
Lemma GetRootOfTrustRequest_described : describes corrected (CWord "GetRootOfTrustRequest") GetRootOfTrustRequest_codec GetRootOfTrustRequest_wf.
Proof. described_by (struct_described _ _ _ _ _ _ _ (field_described _ _ _ _ _ _ _ (array_described _ 16) (no_fields_described _))). Qed.
Lemma GetRootOfTrustResponse_described : describes corrected (CWord "GetRootOfTrustResponse") GetRootOfTrustResponse_codec GetRootOfTrustResponse_wf.
Proof. described_by (struct_described _ _ _ _ _ _ _ (field_described _ _ _ _ _ _ _ (bytes_described _) (no_fields_described _))). Qed.
Lemma SendRootOfTrustRequest_described : describes corrected (CWord "SendRootOfTrustRequest") SendRootOfTrustRequest_codec SendRootOfTrustRequest_wf.
Proof. described_by (struct_described _ _ _ _ _ _ _ (field_described _ _ _ _ _ _ _ (bytes_described _) (no_fields_described _))). Qed.
Lemma SendRootOfTrustResponse_described : describes corrected (CWord "SendRootOfTrustResponse") SendRootOfTrustResponse_codec SendRootOfTrustResponse_wf.
Proof. described_by (struct_described _ _ _ _ _ _ _ (no_fields_described _)). Qed.
Lemma SetAdditionalAttestationInfoRequest_described : describes corrected (CWord "SetAdditionalAttestationInfoRequest") SetAdditionalAttestationInfoRequest_codec SetAdditionalAttestationInfoRequest_wf.
Proof. described_by (struct_described _ _ _ _ _ _ _ (field_described _ _ _ _ _ _ _ (vec_described _ _ _ _ KeyParam_described) (no_fields_described _))). Qed.
Lemma SetAdditionalAttestationInfoResponse_described : describes corrected (CWord "SetAdditionalAttestationInfoResponse") SetAdditionalAttestationInfoResponse_codec SetAdditionalAttestationInfoResponse_wf.
Proof. described_by (struct_described _ _ _ _ _ _ _ (no_fields_described _)). Qed.
Lemma UpdateAadRequest_described : describes corrected (CWord "UpdateAadRequest") UpdateAadRequest_codec UpdateAadRequest_wf.
Proof. described_by (struct_described _ _ _ _ _ _ _ (field_described _ _ _ _ _ _ _ (i64_described _) (field_described _ _ _ _ _ _ _ (bytes_described _) (field_described _ _ _ _ _ _ _ (option_described _ _ _ _ HardwareAuthToken_described) (field_described _ _ _ _ _ _ _ (option_described _ _ _ _ TimeStampToken_described) (no_fields_described _)))))). Qed.
Lemma UpdateAadResponse_described : describes corrected (CWord "UpdateAadResponse") UpdateAadResponse_codec UpdateAadResponse_wf.
Proof. described_by (struct_described _ _ _ _ _ _ _ (no_fields_described _)). Qed.
Lemma UpdateRequest_described : describes corrected (CWord "UpdateRequest") UpdateRequest_codec UpdateRequest_wf.
Proof. described_by (struct_described _ _ _ _ _ _ _ (field_described _ _ _ _ _ _ _ (i64_described _) (field_described _ _ _ _ _ _ _ (bytes_described _) (field_described _ _ _ _ _ _ _ (option_described _ _ _ _ HardwareAuthToken_described) (field_described _ _ _ _ _ _ _ (option_described _ _ _ _ TimeStampToken_described) (no_fields_described _)))))). Qed.
Lemma UpdateResponse_described : describes corrected (CWord "UpdateResponse") UpdateResponse_codec UpdateResponse_wf.
Proof. described_by (struct_described _ _ _ _ _ _ _ (field_described _ _ _ _ _ _ _ (bytes_described _) (no_fields_described _))). Qed.
Lemma FinishRequest_described : describes corrected (CWord "FinishRequest") FinishRequest_codec FinishRequest_wf.
Proof. described_by (struct_described _ _ _ _ _ _ _ (field_described _ _ _ _ _ _ _ (i64_described _) (field_described _ _ _ _ _ _ _ (option_described _ _ _ _ (bytes_described _)) (field_described _ _ _ _ _ _ _ (option_described _ _ _ _ (bytes_described _)) (field_described _ _ _ _ _ _ _ (option_described _ _ _ _ HardwareAuthToken_described) (field_described _ _ _ _ _ _ _ (option_described _ _ _ _ TimeStampToken_described) (field_described _ _ _ _ _ _ _ (option_described _ _ _ _ (bytes_described _)) (no_fields_described _)))))))). Qed.
Lemma FinishResponse_described : describes corrected (CWord "FinishResponse") FinishResponse_codec FinishResponse_wf.
Proof. described_by (struct_described _ _ _ _ _ _ _ (field_described _ _ _ _ _ _ _ (bytes_described _) (no_fields_described _))). Qed.
Lemma AbortRequest_described : describes corrected (CWord "AbortRequest") AbortRequest_codec AbortRequest_wf.
Proof. described_by (struct_described _ _ _ _ _ _ _ (field_described _ _ _ _ _ _ _ (i64_described _) (no_fields_described _))). Qed.
Lemma AbortResponse_described : describes corrected (CWord "AbortResponse") AbortResponse_codec AbortResponse_wf.
Proof. described_by (struct_described _ _ _ _ _ _ _ (no_fields_described _)). Qed.
Lemma GetRpcHardwareInfoRequest_described : describes corrected (CWord "GetRpcHardwareInfoRequest") GetRpcHardwareInfoRequest_codec GetRpcHardwareInfoRequest_wf.
Proof. described_by (struct_described _ _ _ _ _ _ _ (no_fields_described _)). Qed.
Lemma GetRpcHardwareInfoResponse_described : describes corrected (CWord "GetRpcHardwareInfoResponse") GetRpcHardwareInfoResponse_codec GetRpcHardwareInfoResponse_wf.
Proof. described_by (struct_described _ _ _ _ _ _ _ (field_described _ _ _ _ _ _ _ RpcHardwareInfo_described (no_fields_described _))). Qed.
Lemma GenerateEcdsaP256KeyPairRequest_described : describes corrected (CWord "GenerateEcdsaP256KeyPairRequest") GenerateEcdsaP256KeyPairRequest_codec GenerateEcdsaP256KeyPairRequest_wf.
Proof. described_by (struct_described _ _ _ _ _ _ _ (field_described _ _ _ _ _ _ _ (bool_described _) (no_fields_described _))). Qed.
Lemma GenerateEcdsaP256KeyPairResponse_described : describes corrected (CWord "GenerateEcdsaP256KeyPairResponse") GenerateEcdsaP256KeyPairResponse_codec GenerateEcdsaP256KeyPairResponse_wf.
Proof. described_by (struct_described _ _ _ _ _ _ _ (field_described _ _ _ _ _ _ _ MacedPublicKey_described (field_described _ _ _ _ _ _ _ (bytes_described _) (no_fields_described _)))). Qed.
Lemma GenerateCertificateRequestRequest_described : describes corrected (CWord "GenerateCertificateRequestRequest") GenerateCertificateRequestRequest_codec GenerateCertificateRequestRequest_wf.
Proof. described_by (struct_described _ _ _ _ _ _ _ (field_described _ _ _ _ _ _ _ (bool_described _) (field_described _ _ _ _ _ _ _ (vec_described _ _ _ _ MacedPublicKey_described) (field_described _ _ _ _ _ _ _ (bytes_described _) (field_described _ _ _ _ _ _ _ (bytes_described _) (no_fields_described _)))))). Qed.
Lemma GenerateCertificateRequestResponse_described : describes corrected (CWord "GenerateCertificateRequestResponse") GenerateCertificateRequestResponse_codec GenerateCertificateRequestResponse_wf.
Proof. described_by (struct_described _ _ _ _ _ _ _ (field_described _ _ _ _ _ _ _ DeviceInfo_described (field_described _ _ _ _ _ _ _ ProtectedData_described (field_described _ _ _ _ _ _ _ (bytes_described _) (no_fields_described _))))). Qed.
Lemma GenerateCertificateRequestV2Request_described : describes corrected (CWord "GenerateCertificateRequestV2Request") GenerateCertificateRequestV2Request_codec GenerateCertificateRequestV2Request_wf.
Proof. described_by (struct_described _ _ _ _ _ _ _ (field_described _ _ _ _ _ _ _ (vec_described _ _ _ _ MacedPublicKey_described) (field_described _ _ _ _ _ _ _ (bytes_described _) (no_fields_described _)))). Qed.
Lemma GenerateCertificateRequestV2Response_described : describes corrected (CWord "GenerateCertificateRequestV2Response") GenerateCertificateRequestV2Response_codec GenerateCertificateRequestV2Response_wf.
Proof. described_by (struct_described _ _ _ _ _ _ _ (field_described _ _ _ _ _ _ _ (bytes_described _) (no_fields_described _))). Qed.
Lemma GetSharedSecretParametersRequest_described : describes corrected (CWord "GetSharedSecretParametersRequest") GetSharedSecretParametersRequest_codec GetSharedSecretParametersRequest_wf.
Proof. described_by (struct_described _ _ _ _ _ _ _ (no_fields_described _)). Qed.
Lemma GetSharedSecretParametersResponse_described : describes corrected (CWord "GetSharedSecretParametersResponse") GetSharedSecretParametersResponse_codec GetSharedSecretParametersResponse_wf.
Proof. described_by (struct_described _ _ _ _ _ _ _ (field_described _ _ _ _ _ _ _ SharedSecretParameters_described (no_fields_described _))). Qed.
Lemma ComputeSharedSecretRequest_described : describes corrected (CWord "ComputeSharedSecretRequest") ComputeSharedSecretRequest_codec ComputeSharedSecretRequest_wf.
Proof. described_by (struct_described _ _ _ _ _ _ _ (field_described _ _ _ _ _ _ _ (vec_described _ _ _ _ SharedSecretParameters_described) (no_fields_described _))). Qed.
Lemma ComputeSharedSecretResponse_described : describes corrected (CWord "ComputeSharedSecretResponse") ComputeSharedSecretResponse_codec ComputeSharedSecretResponse_wf.
Proof. described_by (struct_described _ _ _ _ _ _ _ (field_described _ _ _ _ _ _ _ (bytes_described _) (no_fields_described _))). Qed.
Lemma GenerateTimeStampRequest_described : describes corrected (CWord "GenerateTimeStampRequest") GenerateTimeStampRequest_codec GenerateTimeStampRequest_wf.
Proof. described_by (struct_described _ _ _ _ _ _ _ (field_described _ _ _ _ _ _ _ (i64_described _) (no_fields_described _))). Qed.
Lemma GenerateTimeStampResponse_described : describes corrected (CWord "GenerateTimeStampResponse") GenerateTimeStampResponse_codec GenerateTimeStampResponse_wf.
Proof. described_by (struct_described _ _ _ _ _ _ _ (field_described _ _ _ _ _ _ _ TimeStampToken_described (no_fields_described _))). Qed.
Lemma SetHalInfoRequest_described : describes corrected (CWord "SetHalInfoRequest") SetHalInfoRequest_codec SetHalInfoRequest_wf.
Proof. described_by (struct_described _ _ _ _ _ _ _ (field_described _ _ _ _ _ _ _ (u32_described _) (field_described _ _ _ _ _ _ _ (u32_described _) (field_described _ _ _ _ _ _ _ (u32_described _) (no_fields_described _))))). Qed.
Lemma SetHalInfoResponse_described : describes corrected (CWord "SetHalInfoResponse") SetHalInfoResponse_codec SetHalInfoResponse_wf.
Proof. described_by (struct_described _ _ _ _ _ _ _ (no_fields_described _)). Qed.
Lemma SetHalVersionRequest_described : describes corrected (CWord "SetHalVersionRequest") SetHalVersionRequest_codec SetHalVersionRequest_wf.
Proof. described_by (struct_described _ _ _ _ _ _ _ (field_described _ _ _ _ _ _ _ (u32_described _) (no_fields_described _))). Qed.
Lemma SetHalVersionResponse_described : describes corrected (CWord "SetHalVersionResponse") SetHalVersionResponse_codec SetHalVersionResponse_wf.
Proof. described_by (struct_described _ _ _ _ _ _ _ (no_fields_described _)). Qed.
Lemma SetBootInfoRequest_described : describes corrected (CWord "SetBootInfoRequest") SetBootInfoRequest_codec SetBootInfoRequest_wf.
Proof. described_by (struct_described _ _ _ _ _ _ _ (field_described _ _ _ _ _ _ _ (bytes_described _) (field_described _ _ _ _ _ _ _ (bool_described _) (field_described _ _ _ _ _ _ _ (i32_described _) (field_described _ _ _ _ _ _ _ (bytes_described _) (field_described _ _ _ _ _ _ _ (u32_described _) (no_fields_described _))))))). Qed.
Lemma SetBootInfoResponse_described : describes corrected (CWord "SetBootInfoResponse") SetBootInfoResponse_codec SetBootInfoResponse_wf.
Proof. described_by (struct_described _ _ _ _ _ _ _ (no_fields_described _)). Qed.
Lemma SetAttestationIdsRequest_described : describes corrected (CWord "SetAttestationIdsRequest") SetAttestationIdsRequest_codec SetAttestationIdsRequest_wf.
Proof. described_by (struct_described _ _ _ _ _ _ _ (field_described _ _ _ _ _ _ _ AttestationIdInfo_described (no_fields_described _))). Qed.
Lemma SetAttestationIdsResponse_described : describes corrected (CWord "SetAttestationIdsResponse") SetAttestationIdsResponse_codec SetAttestationIdsResponse_wf.
Proof. described_by (struct_described _ _ _ _ _ _ _ (no_fields_described _)). Qed.

(** ** Requests and responses *)

(** A message fits if the operation and the type of its contents make up an entry. *)
Lemma message_admits {M} (enc : M → KeyMintOperation * CborResult Value) dec m v cs w t z :
  to_cbor_value (message_codec dec enc) m = Ok v → discr (enc m).1 = z →
  pair_entry (CWord w) cs = Some t → prelude w = None → rule corrected w = Some (CInt z) →
  (∀ v', (enc m).2 = Ok v' → Admits corrected t v') → Admits corrected (CChoice cs) v.
Proof.
  intros Hv <- Ht Hp Hr Hc. cbn [message_codec to_cbor_value] in Hv. destruct (enc m) as [code val].
  apply res_bind_Ok in Hv as (v0 & [= <-] & Hv). apply res_bind_Ok in Hv as (v' & Hv' & [= <-]).
  eapply pair_admits; [exact Ht| |by apply Hc]. eapply Admits_rule; [done..|constructor].
Qed.
Ltac solve_message H w := eapply (message_admits _ _ _ _ _ w); [eassumption|reflexivity|solve_rule..|intros ?; apply H; assumption].
Lemma PerformOpReq_described : describes corrected (CWord "PerformOpReq") PerformOpReq_codec PerformOpReq_wf.
Proof.
  eapply word_described; [solve_rule..|]. intros m v Hm Hv. destruct m; cbn in Hm.
  - solve_message GetHardwareInfoRequest_described "DeviceGetHardwareInfo"%string.
  - solve_message AddRngEntropyRequest_described "DeviceAddRngEntropy"%string.
  - solve_message GenerateKeyRequest_described "DeviceGenerateKey"%string.
  - solve_message ImportKeyRequest_described "DeviceImportKey"%string.
  - solve_message ImportWrappedKeyRequest_described "DeviceImportWrappedKey"%string.
  - solve_message UpgradeKeyRequest_described "DeviceUpgradeKey"%string.
  - solve_message DeleteKeyRequest_described "DeviceDeleteKey"%string.
  - solve_message DeleteAllKeysRequest_described "DeviceDeleteAllKeys"%string.
  - solve_message DestroyAttestationIdsRequest_described "DeviceDestroyAttestationIds"%string.
  - solve_message BeginRequest_described "DeviceBegin"%string.
  - solve_message EarlyBootEndedRequest_described "DeviceEarlyBootEnded"%string.
  - solve_message ConvertStorageKeyToEphemeralRequest_described "DeviceConvertStorageKeyToEphemeral"%string.
  - solve_message GetKeyCharacteristicsRequest_described "DeviceGetKeyCharacteristics"%string.
  - solve_message UpdateAadRequest_described "OperationUpdateAad"%string.
  - solve_message UpdateRequest_described "OperationUpdate"%string.
  - solve_message FinishRequest_described "OperationFinish"%string.
  - solve_message AbortRequest_described "OperationAbort"%string.
  - solve_message GetRpcHardwareInfoRequest_described "RpcGetHardwareInfo"%string.
  - solve_message GenerateEcdsaP256KeyPairRequest_described "RpcGenerateEcdsaP256KeyPair"%string.
  - solve_message GenerateCertificateRequestRequest_described "RpcGenerateCertificateRequest"%string.
  - solve_message GenerateCertificateRequestV2Request_described "RpcGenerateCertificateV2Request"%string.
  - solve_message GetSharedSecretParametersRequest_described "SharedSecretGetSharedSecretParameters"%string.
  - solve_message ComputeSharedSecretRequest_described "SharedSecretComputeSharedSecret"%string.
  - solve_message GenerateTimeStampRequest_described "SecureClockGenerateTimeStamp"%string.
  - solve_message GetRootOfTrustChallengeRequest_described "GetRootOfTrustChallenge"%string.
  - solve_message GetRootOfTrustRequest_described "GetRootOfTrust"%string.
  - solve_message SendRootOfTrustRequest_described "SendRootOfTrust"%string.
  - solve_message SetHalInfoRequest_described "SetHalInfo"%string.
  - solve_message SetBootInfoRequest_described "SetBootInfo"%string.
  - solve_message SetAttestationIdsRequest_described "SetAttestationIds"%string.
  - solve_message SetHalVersionRequest_described "SetHalVersion"%string.
  - solve_message SetAdditionalAttestationInfoRequest_described "SetAdditionalAttestationInfo"%string.
Qed.
Lemma PerformOpRsp_described : describes corrected (CWord "PerformOpRsp") PerformOpRsp_codec PerformOpRsp_wf.
Proof.
  eapply word_described; [solve_rule..|]. intros m v Hm Hv. destruct m; cbn in Hm.
  - solve_message GetHardwareInfoResponse_described "DeviceGetHardwareInfo"%string.
  - solve_message AddRngEntropyResponse_described "DeviceAddRngEntropy"%string.
  - solve_message GenerateKeyResponse_described "DeviceGenerateKey"%string.
  - solve_message ImportKeyResponse_described "DeviceImportKey"%string.
  - solve_message ImportWrappedKeyResponse_described "DeviceImportWrappedKey"%string.
  - solve_message UpgradeKeyResponse_described "DeviceUpgradeKey"%string.
  - solve_message DeleteKeyResponse_described "DeviceDeleteKey"%string.
  - solve_message DeleteAllKeysResponse_described "DeviceDeleteAllKeys"%string.
  - solve_message DestroyAttestationIdsResponse_described "DeviceDestroyAttestationIds"%string.
  - solve_message BeginResponse_described "DeviceBegin"%string.
  - solve_message EarlyBootEndedResponse_described "DeviceEarlyBootEnded"%string.
  - solve_message ConvertStorageKeyToEphemeralResponse_described "DeviceConvertStorageKeyToEphemeral"%string.
  - solve_message GetKeyCharacteristicsResponse_described "DeviceGetKeyCharacteristics"%string.
  - solve_message UpdateAadResponse_described "OperationUpdateAad"%string.
  - solve_message UpdateResponse_described "OperationUpdate"%string.
  - solve_message FinishResponse_described "OperationFinish"%string.
  - solve_message AbortResponse_described "OperationAbort"%string.
  - solve_message GetRpcHardwareInfoResponse_described "RpcGetHardwareInfo"%string.
  - solve_message GenerateEcdsaP256KeyPairResponse_described "RpcGenerateEcdsaP256KeyPair"%string.
  - solve_message GenerateCertificateRequestResponse_described "RpcGenerateCertificateRequest"%string.
  - solve_message GenerateCertificateRequestV2Response_described "RpcGenerateCertificateV2Request"%string.
  - solve_message GetSharedSecretParametersResponse_described "SharedSecretGetSharedSecretParameters"%string.
  - solve_message ComputeSharedSecretResponse_described "SharedSecretComputeSharedSecret"%string.
  - solve_message GenerateTimeStampResponse_described "SecureClockGenerateTimeStamp"%string.
  - solve_message GetRootOfTrustChallengeResponse_described "GetRootOfTrustChallenge"%string.
  - solve_message GetRootOfTrustResponse_described "GetRootOfTrust"%string.
  - solve_message SendRootOfTrustResponse_described "SendRootOfTrust"%string.
  - solve_message SetHalInfoResponse_described "SetHalInfo"%string.
  - solve_message SetBootInfoResponse_described "SetBootInfo"%string.
  - solve_message SetAttestationIdsResponse_described "SetAttestationIds"%string.
  - solve_message SetHalVersionResponse_described "SetHalVersion"%string.
  - solve_message SetAdditionalAttestationInfoResponse_described "SetAdditionalAttestationInfo"%string.
Qed.
Lemma PerformOpResponse_described : describes corrected (CWord "PerformOpResponse") PerformOpResponse_codec PerformOpResponse_wf.
Proof. described_by (struct_described _ _ _ _ _ _ _ (field_described _ _ _ _ _ _ _ (i32_described _) (field_described _ _ _ _ _ _ _ (option_described _ _ _ _ PerformOpRsp_described) (no_fields_described _)))). Qed.

(** C29: the printed schema of the messages can be read, and with the corrections above it
    describes the protocol: every well-formed request and every well-formed response is
    encoded as a value that the schema admits. *)
Theorem messages_described :
  read_text cddl_dump = Some published ∧
  (∀ req, PerformOpReq_wf req →
     ∃ v, to_cbor_value PerformOpReq_codec req = Ok v ∧ Admits corrected (CWord "PerformOpReq") v) ∧
  (∀ rsp, PerformOpResponse_wf rsp →
     ∃ v, to_cbor_value PerformOpResponse_codec rsp = Ok v ∧ Admits corrected (CWord "PerformOpResponse") v).
Proof.
  split_and!; [solve_rule| |]; intros m; eapply described_encoding.
  - apply PerformOpReq_codec_ok.
  - apply PerformOpReq_described.
  - apply PerformOpResponse_codec_ok.
  - apply PerformOpResponse_described.
Qed.
Lemma messages_described_witness :
  ∃ v, to_cbor_value PerformOpReq_codec sample_request = Ok v ∧ Admits corrected (CWord "PerformOpReq") v.
Proof.
  apply (proj1 (proj2 messages_described)).
  cbn. split_and!; try exact I. repeat (constructor; [cbn; try exact I; range_lia|]). constructor.
Defined.

(** ** What the published schema lacks *)

Section inadmissible.
Context (rs : Rules).

Lemma word_rule w t v : prelude w = None → rule rs w = Some t → Admits rs (CWord w) v → Admits rs t v.
Proof. intros Hp Hr Ha. inversion Ha; congruence. Qed.
Lemma undefined_admits w v : undefined rs w = true → ¬ Admits rs (CWord w) v.
Proof. unfold undefined. intros Hu Ha. inversion Ha; subst; repeat case_match; congruence. Qed.

(** Entries that start with an undefined name admit nothing. *)
Definition dead_entry (c : CType) : bool :=
  match c with CArray ((One, CWord w) :: _) => undefined rs w | _ => false end.
Lemma dead_entry_admits c v : dead_entry c = true → ¬ Admits rs c v.
Proof.
  intros Hd Ha. destruct c as [| | | |[|[[] []] g]| |]; try done. inversion Ha as [| | | | |? ? Hg| |]; subst.
  inversion Hg; subst. by eapply undefined_admits.
Qed.
Lemma dead_choice cs v : forallb dead_entry cs = true → ¬ Admits rs (CChoice cs) v.
Proof.
  intros Hd Ha. inversion Ha as [| | | | | | |? c ? Hc Hv]; subst.
  eapply dead_entry_admits; [|exact Hv]. rewrite forallb_forall in Hd. by apply Hd, list_elem_of_In.
Qed.

(** A pair whose first component is an integer fits only the entries for that integer. *)
Definition other_entry (z : Z) (c : CType) : bool :=
  match c with CArray [(One, CInt z'); _] => negb (z =? z') | _ => false end.
Lemma other_entry_admits z c v : other_entry z c = true → ¬ Admits rs c (VArray [VInteger z; v]).
Proof.
  intros Ho Ha. destruct c as [| | | |[|[[] [|z'| | | | |]] [|e []]]| |]; try done.
  inversion Ha as [| | | | |? ? Hg| |]; subst. inversion Hg as [|? ? ? ? Hz| | | |]; subst. inversion Hz; subst.
  cbn in Ho. by rewrite Z.eqb_refl in Ho.
Qed.
Lemma pair_choice z cs v :
  Admits rs (CChoice cs) (VArray [VInteger z; v]) →
  ∃ c, c ∈ filter (λ c, other_entry z c = false) cs ∧ Admits rs c (VArray [VInteger z; v]).
Proof.
  intros Ha. inversion Ha as [| | | | | | |? c ? Hc Hv]; subst. exists c. split; [|done].
  apply list_elem_of_filter. split; [|done]. destruct (other_entry z c) eqn:Ho; [|done].
  by destruct (other_entry_admits _ _ _ Ho Hv).
Qed.
End inadmissible.

Lemma caller_nonce_published : ¬ Admits published (CWord "KeyParam") (VArray [VInteger (discr Tag_CallerNonce); VBool true]).
Proof.
  intros Ha. eapply word_rule in Ha; [|solve_rule..]. apply pair_choice in Ha as (c & Hc & Ha).
  vm_compute in Hc. apply elem_of_cons in Hc as [->|Hc%elem_of_nil]; [|done].
  inversion Ha as [| | | | |? ? Hg| |]; subst. inversion Hg as [|? ? ? ? _ Hg'| | | |]; subst.
  inversion Hg' as [|? ? ? ? Hb| | | |]; subst. inversion Hb as [? f ? Hf| | | | | | |]; subst; [|done].
  by injection Hf as <-.
Qed.

Lemma undefined_names_published w :
  w ∈ undefined_names published ↔
  w ∈ operation_codes.*1 ∨ (w ∈ omap cddl_typename unprinted_types ∧ w ≠ "AttestationIdInfo"%string).
Proof.
  assert (list_to_set (undefined_names published) =@{gset string}
    list_to_set (operation_codes.*1 ++
      filter (λ w, w ≠ "AttestationIdInfo"%string) (omap cddl_typename unprinted_types))) as Heq.
  { apply (bool_decide_unpack _). vm_compute. exact I. }
  rewrite <- (elem_of_list_to_set (C:=gset string) w (undefined_names published)), Heq.
  rewrite elem_of_list_to_set, elem_of_app, list_elem_of_filter. tauto.
Qed.

(** What the corrections are for.  As published, the schema admits no request and no
    response contents at all, because operations are referred to by names that are not
    defined; the undefined names are those of the operations and of seventeen message types
    that are not printed; and it describes every key parameter except [CallerNonce], which
    it takes for a byte string. *)
Theorem published_schema_gaps :
  (∀ v, ¬ Admits published (CWord "PerformOpReq") v ∧ ¬ Admits published (CWord "PerformOpRsp") v) ∧
  (∀ w, w ∈ undefined_names published ↔
        w ∈ operation_codes.*1 ∨
        (w ∈ omap cddl_typename unprinted_types ∧ w ≠ "AttestationIdInfo"%string)) ∧
  (∀ p v, to_cbor_value KeyParam_codec p = Ok v →
     Admits published (CWord "KeyParam") v ↔ p ≠ KP_CallerNonce).
Proof.
  split_and!.
  - intros v; split; intros Ha; (eapply word_rule in Ha; [|solve_rule..]);
      by eapply dead_choice in Ha; [|vm_compute].
  - apply undefined_names_published.
  - intros p v Hv. split; [|intros Hp; by eapply published_KeyParam]. intros Ha ->. injection Hv as <-.
    by apply caller_nonce_published.
Qed.
Lemma published_schema_gaps_witness :
  ¬ Admits published (CWord "KeyParam") (VArray [VInteger 1879048199; VBool true]).
Proof.
  intros Ha. by apply (proj2 (proj2 published_schema_gaps) KP_CallerNonce _ eq_refl) in Ha.
Defined.

(** ** The schema of key blobs *)

(** The rules that are printed, in their order. *)
Definition keyblob_rules_text : Text :=
  texts ((show_schema <$> [EncryptedKeyBlob_cddl; Version_cddl; EncryptedKeyBlobV1_cddl; KeyCharacteristics_cddl]) ++
    [Ok ("Cose_Encrypt0 = [ protected: bstr, unprotected: { * (int / tstr) => any }, ciphertext: bstr / nil ]" +:+ nl)] ++
    (show_schema <$> [KeyMaterial_cddl; SecureDeletionSlot_cddl; SecureDeletionData_cddl; RootOfTrustInfo_cddl;
       VerifiedBootState_cddl; SecurityLevel_cddl; KeyParam_cddl; Tag_cddl; Algorithm_cddl; BlockMode_cddl;
       Digest_cddl; EcCurve_cddl; CurveType_cddl; KeyOrigin_cddl; KeyPurpose_cddl;
       HardwareAuthenticatorType_cddl; PaddingMode_cddl; DateTime_cddl; KeySizeInBits_cddl; RsaExponent_cddl])).
Definition keyblob_rules : Rules := Eval vm_compute in default [] (read_text keyblob_rules_text).
Definition keyblob_corrected : Rules := Eval vm_compute in correct_params <$> keyblob_rules.

Lemma Version_codec_ok : codec_ok Version_codec (λ _, True) 0.
Proof. intros [] _. exists (VInteger 0). cbn. split_and!; (done || lia). Qed.
Lemma SecureDeletionSlot_codec_ok : codec_ok SecureDeletionSlot_codec is_u32 0.
Proof. refine (derive_newtype_ok _ _ _ _ _ u32_codec_ok _). done. Qed.
Lemma RootOfTrustInfo_codec_ok : codec_ok RootOfTrustInfo_codec (λ _, True) 1.
Proof.
  eapply codec_ok_weaken; [refine (derive_struct_ok _ _ _ _ _ _ (field_ok _ _ _ _ _ _ bytes_codec_ok
    (field_ok _ _ _ _ _ _ bool_codec_ok (field_ok _ _ _ _ _ _ derive_enum_ok (no_fields_ok 0)))) _)|done|].
  - by intros [[] ?].
  - by intros [[] ?].
Qed.

Section keyblobs.
Context `{CiboriumLaws} `{CosetLaws}.

Lemma add_Ok {A} (t : Cddl) (c : Codec A) wf d x text smp n sch :
  codec_ok c wf d → (d < 16)%nat → wf x → cddl_typename t = Some n → cddl_schema t = Ok (Some sch) →
  ∃ smp', add t c x {| schema := text; samples := smp |} =
          Ok {| schema := text +:+ n +:+ " = " +:+ sch +:+ nl; samples := smp' |}.
Proof.
  intros Hc Hd Hx Hn Hs. destruct (slice_roundtrip c _ _ _ Hc Hd Hx) as (data & Hdata & _).
  exists (<[n := data]> smp). unfold add. rewrite Hn, Hs. cbn [mbind res_bind]. by rewrite Hdata.
Qed.

Lemma sample_keyblob_wf : ekb_wf (V1 sample_keyblob).
Proof. cbn. split_and!; [constructor|done|done|by eexists|range_lia|done]. Qed.

(** The examples are encodable, so that the program prints the rules after its comments. *)
Tactic Notation "add_sample" uconstr(H) :=
  match goal with |- context [add ?t ?c ?x {| schema := ?s; samples := ?m |}] =>
    let n := eval vm_compute in (default EmptyString (cddl_typename t)) in
    let sch := eval vm_compute in (match cddl_schema t with Ok (Some sc) => sc | _ => EmptyString end) in
    let smp := fresh "smp" in
    destruct (add_Ok t c _ _ x s m n sch H) as [smp ->]; [lia| |reflexivity|solve_rule|cbn [mbind res_bind]] end;
  [solve [exact I|exact sample_keyblob_wf|reflexivity|cbn; split_and!; first [constructor|reflexivity|range_lia|done]]|].
Lemma keyblob_dump_total :
  ∃ text, keyblob_cddl_dump = Ok text ∧ read_schema text = Some keyblob_rules.
Proof.
  unfold keyblob_cddl_dump, accumulated.
  add_sample EncryptedKeyBlob_codec_ok.
  add_sample Version_codec_ok.
  add_sample EncryptedKeyBlobV1_codec_ok.
  add_sample KeyCharacteristics_codec_ok.
  unfold add_name_schema. cbn [schema samples]. add_sample KeyMaterial_codec_ok.
  add_sample SecureDeletionSlot_codec_ok.
  add_sample SecureDeletionData_codec_ok.
  add_sample RootOfTrustInfo_codec_ok.
  do 2 add_sample derive_enum_ok.
  add_sample KeyParam_codec_ok.
  do 10 add_sample derive_enum_ok.
  add_sample DateTime_codec_ok.
  add_sample KeySizeInBits_codec_ok.
  add_sample RsaExponent_codec_ok.
  eexists. split; [reflexivity|solve_rule].
Qed.
End keyblobs.

Lemma keyblob_KeyParam : describes keyblob_corrected (CWord "KeyParam") KeyParam_codec kp_wf.
Proof. eapply word_described; [solve_rule..|]. intros p v _ Hv. destruct p; solve_param. Qed.
Lemma keyblob_KeyCharacteristics :
  describes keyblob_corrected (CWord "KeyCharacteristics") KeyCharacteristics_codec KeyCharacteristics_wf.
Proof.
  described_by (struct_described _ _ _ _ _ _ _ (field_described _ _ _ _ _ _ _ (enum_described (A:=SecurityLevel) _ _ _)
    (field_described _ _ _ _ _ _ _ (vec_described _ _ _ _ keyblob_KeyParam) (no_fields_described _)))).
Qed.
Lemma keyblob_SecureDeletionSlot :
  describes keyblob_corrected (CWord "SecureDeletionSlot") SecureDeletionSlot_codec is_u32.
Proof. eapply word_described; [solve_rule..|]. refine (newtype_described _ _ _ _ _ _ (u32_described _)). Qed.
Lemma keyblob_SecureDeletionData :
  describes keyblob_corrected (CWord "SecureDeletionData") SecureDeletionData_codec sdd_wf.
Proof.
  described_by (struct_described _ _ _ _ _ _ _ (field_described _ _ _ _ _ _ _ (array_described _ 32)
    (field_described _ _ _ _ _ _ _ (array_described _ 16) (no_fields_described _)))).
Qed.
Lemma keyblob_RootOfTrustInfo :
  describes keyblob_corrected (CWord "RootOfTrustInfo") RootOfTrustInfo_codec (λ _, True).
Proof.
  assert (∃ wf, (∀ a, wf a) ∧ describes keyblob_corrected (CWord "RootOfTrustInfo") RootOfTrustInfo_codec wf)
    as (wf & Hwf & Hd); [|by intros a v _; apply Hd].
  eexists. split; [|described_by (struct_described _ _ _ _ _ _ _ (field_described _ _ _ _ _ _ _ (bytes_described _)
    (field_described _ _ _ _ _ _ _ (bool_described _) (field_described _ _ _ _ _ _ _
      (enum_described (A:=VerifiedBootState) _ _ _) (no_fields_described _)))))].
  by intros [[] ?].
Qed.

(** Key material: a triple for every algorithm. *)
Lemma triple_admits rs n cs z t o v :
  cs !! n = Some (CArray [(One, CInt z); (One, CWord "bool"); (One, t)]) → Admits rs t v →
  Admits rs (CChoice cs) (VArray [VInteger z; VBool o; v]).
Proof.
  intros Hc Hv. eapply Admits_choice; [by eapply list_elem_of_lookup_2|]. constructor.
  apply Group_one; [constructor|]. apply Group_one; [by eapply Admits_prelude|].
  apply Group_one; [done|constructor].
Qed.
Lemma ec_key_admits c ct b :
  Admits keyblob_corrected (CArray [(One, CWord "EcCurve"); (One, CWord "CurveType"); (One, CWord "bstr")])
    (VArray [VInteger (discr (A:=EcCurve) c); VInteger (discr (A:=CurveType) ct); VBytes b]).
Proof.
  constructor. apply Group_one; [apply enum_admits; solve_rule|]. apply Group_one; [apply enum_admits; solve_rule|].
  apply Group_one; [by eapply Admits_prelude|constructor].
Qed.
Lemma keyblob_KeyMaterial : describes keyblob_corrected (CWord "KeyMaterial") KeyMaterial_codec (λ _, True).
Proof.
  eapply word_described; [solve_rule..|]. intros k v _ Hv.
  destruct k as [[]|[]|[]|[]|c ct []]; injection Hv as <-.
  1-2: by eapply (triple_admits _ 0); [reflexivity|eapply Admits_prelude].
  1-2: by eapply (triple_admits _ 1); [reflexivity|eapply Admits_prelude].
  1-2: by eapply (triple_admits _ 2); [reflexivity|eapply Admits_prelude].
  1-2: by eapply (triple_admits _ 3); [reflexivity|eapply Admits_prelude].
  all: eapply (triple_admits _ 4); [reflexivity|apply ec_key_admits].
Qed.

(** The structure that holds the ciphertext is encoded by [coset]; RFC 8152 describes it as
    the rule that the program prints says. *)
Section keyblob_described.
Context `{CosetLaws}.
Context (Hcose : describes keyblob_corrected (CWord "Cose_Encrypt0") cose_codec (λ c, ∃ ct, c = cose_a256gcm ct)).

Lemma keyblob_CoseEncrypt0 :
  describes keyblob_corrected (CTagged COSE_ENCRYPT0_TAG (CWord "Cose_Encrypt0")) CoseEncrypt0_codec
    (λ c, ∃ ct, c = cose_a256gcm ct).
Proof. intros c v Hc Hv. apply res_bind_Ok in Hv as (v' & Hv & [= <-]). constructor. by eapply Hcose. Qed.
Lemma keyblob_EncryptedKeyBlobV1 :
  describes keyblob_corrected (CWord "EncryptedKeyBlobV1") EncryptedKeyBlobV1_codec (λ b, ekb_wf (V1 b)).
Proof.
  assert (∃ wf, (∀ b, ekb_wf (V1 b) → wf b) ∧
    describes keyblob_corrected (CWord "EncryptedKeyBlobV1") EncryptedKeyBlobV1_codec wf)
    as (wf & Hwf & Hd); [|by intros b v Hb; apply Hd, Hwf].
  eexists. split; [|described_by (struct_described _ _ _ _ _ _ _
    (field_described _ _ _ _ _ _ _ (vec_described _ _ _ _ keyblob_KeyCharacteristics)
    (field_described _ _ _ _ _ _ _ (array_described _ 32) (field_described _ _ _ _ _ _ _ (bytes_described _)
    (field_described _ _ _ _ _ _ _ keyblob_CoseEncrypt0
    (field_described _ _ _ _ _ _ _ (option_described _ _ _ _ keyblob_SecureDeletionSlot) (no_fields_described _)))))))].
  intros [a b c d [e|]]; cbn; unfold len; intros (? & -> & ?); done.
Qed.
Lemma keyblob_EncryptedKeyBlob :
  describes keyblob_corrected (CWord "EncryptedKeyBlob") EncryptedKeyBlob_codec ekb_wf.
Proof.
  eapply word_described; [solve_rule..|]. intros [b] v Hb Hv. apply res_bind_Ok in Hv as (v' & Hv & [= <-]).
  eapply (pair_admits _ (CInt 0)); [solve_rule|constructor|]. by eapply keyblob_EncryptedKeyBlobV1.
Qed.

(** The program that prints the schema of key blobs never fails, and with the
    correction of [CallerNonce] the schema describes what is stored: every well-formed
    key blob, the key material that is encrypted in it, and the secure deletion secrets
    and the root of trust that its encryption key is derived from. *)
Theorem keyblobs_described `{CiboriumLaws} :
  (∃ text, keyblob_cddl_dump = Ok text ∧ read_schema text = Some keyblob_rules) ∧
  (∀ b, ekb_wf b → ∃ v, to_cbor_value EncryptedKeyBlob_codec b = Ok v ∧
     Admits keyblob_corrected (CWord "EncryptedKeyBlob") v) ∧
  (∀ k, km_wf k → ∃ v, to_cbor_value KeyMaterial_codec k = Ok v ∧
     Admits keyblob_corrected (CWord "KeyMaterial") v) ∧
  (∀ s, sdd_wf s → ∃ v, to_cbor_value SecureDeletionData_codec s = Ok v ∧
     Admits keyblob_corrected (CWord "SecureDeletionData") v) ∧
  (∀ r, ∃ v, to_cbor_value RootOfTrustInfo_codec r = Ok v ∧
     Admits keyblob_corrected (CWord "RootOfTrustInfo") v).
Proof.
  split_and!; [apply keyblob_dump_total|intros b|intros k|intros s|intros r]; eapply described_encoding.
  - apply EncryptedKeyBlob_codec_ok.
  - apply keyblob_EncryptedKeyBlob.
  - apply KeyMaterial_codec_ok.
  - intros k' v _. by apply keyblob_KeyMaterial.
  - apply SecureDeletionData_codec_ok.
  - apply keyblob_SecureDeletionData.
  - apply RootOfTrustInfo_codec_ok.
  - apply keyblob_RootOfTrustInfo.
  - exact I.
Qed.
End keyblob_described.

(** [COSE_Encrypt0] structures with the protected header for AES-256-GCM. *)
Module SampleCose.
Definition protected : bytes := u8_of <$> [0xa1; 0x01; 0x03].
#[export] Instance coset : Coset := {|
  CoseEncrypt0 := bytes;
  cose_a256gcm := λ ct, ct;
  cose_a256gcm_aad := protected;
  cose_ciphertext := λ c, Some c;
  cose_aad := λ _, protected;
  cose_codec := {|
    from_cbor_value value :=
      match value with
      | VArray [VBytes _; VMap []; VBytes ct] => Ok ct
      | _ => cbor_type_error value "COSE_Encrypt0"
      end;
    to_cbor_value ct := Ok (VArray [VBytes protected; VMap []; VBytes ct])
  |}
|}.
#[export] Instance coset_laws : CosetLaws.
Proof. split; try done. intros c _. exists (VArray [VBytes protected; VMap []; VBytes c]). cbn. split_and!; (done || lia). Qed.
Lemma described :
  describes keyblob_corrected (CWord "Cose_Encrypt0") (cose_codec (Coset:=coset)) (λ c, ∃ ct, c = cose_a256gcm ct).
Proof.
  eapply word_described; [solve_rule..|]. intros c v _ [= <-]. constructor.
  apply Group_one; [by eapply Admits_prelude|]. apply Group_one; [by constructor|].
  apply Group_one; [|constructor]. eapply Admits_choice; [left|by eapply Admits_prelude].
Qed.
End SampleCose.

Lemma keyblobs_described_witness :
  ∃ v, to_cbor_value (EncryptedKeyBlob_codec (K:=SampleCose.coset)) (V1 (sample_keyblob (K:=SampleCose.coset))) = Ok v ∧
       Admits keyblob_corrected (CWord "EncryptedKeyBlob") v.
Proof.
  apply (proj1 (proj2 (keyblobs_described (H0:=SampleCose.coset_laws) SampleCose.described
    (H1:=Sample.cbor) (H2:=Sample.cbor_laws)))).
  cbn. split_and!; [constructor|reflexivity|exact I|by eexists|range_lia|exact I].
Defined.
