(* ===== verification/UnitTests.v ===== *)
(** * The repository's unit tests

    The tests that the repository keeps beside its code, run on the definitions of this
    development: each is a boolean that evaluates the same calls on the same data, and is shown to be
    true. Where a library is a parameter, the reference implementations are put in: [Rfc8949] for
    CBOR and [X690] for DER, so that the encodings written down in the tests are compared with
    those of the model byte by byte. Texts of error messages are not modelled, except those of
    [CborError]; a test that expects an error with a text expects an error here. *)

From S2P Require Import Prelude Wire TagInfo TagLegacy CryptoTypes TagParams TagGen TagBegin Crypto Errors Codec CborRef WireCodec.
From S2P Require Import WireSafe LegacyMsg KeyblobLegacy EcKeys KeyTraits Asn1 Cert Keyblob TaState Keys Dispatch HalTypes HalEnv Hal DerRef Cddl.

(** ** Notation of the tests *)

(** [hex::decode(..).unwrap()]: pairs of hexadecimal digits. *)
Definition hex_digit (c : Ascii.ascii) : Z :=
  let n := Z.of_nat (Ascii.nat_of_ascii c) in
  if decide (48 ≤ n ≤ 57) then n - 48 else if decide (97 ≤ n ≤ 102) then n - 87 else n - 55.
Fixpoint hex (s : string) : bytes :=
  match s with
  | String a (String b s') => u8_of (16 * hex_digit a + hex_digit b) :: hex s'
  | _ => []
  end.
Definition concat_hex (l : list string) : string := String.concat EmptyString l.

Definition ok_eq {E A} `{EqDecision A} (r : res E A) (a : A) : bool :=
  match r with Ok x => bool_decide (x = a) | _ => false end.
Definition is_ok {E A} (r : res E A) : bool := match r with Ok _ => true | _ => false end.
Definition is_err {E A} (r : res E A) : bool := match r with Err _ => true | _ => false end.
#[local] Instance little : Target := arm64.
#[local] Existing Instances Rfc8949.codec.


(** ** Messages *)

Fixpoint value_eqb (v w : Value) : bool :=
  match v, w with
  | VInteger a, VInteger b => bool_decide (a = b)
  | VBytes a, VBytes b => bool_decide (a = b)
  | VFloat a, VFloat b => bool_decide (a = b)
  | VText a, VText b => bool_decide (a = b)
  | VBool a, VBool b => Bool.eqb a b
  | VNull, VNull => true
  | VTag t a, VTag u b => bool_decide (t = u) && value_eqb a b
  | VArray a, VArray b =>
    (fix go a b := match a, b with [], [] => true | x :: a, y :: b => value_eqb x y && go a b | _, _ => false end) a b
  | VMap a, VMap b =>
    (fix go a b := match a, b with
                   | [], [] => true
                   | (k, x) :: a, (l, y) :: b => value_eqb k l && value_eqb x y && go a b
                   | _, _ => false
                   end) a b
  | _, _ => false
  end.

Module WireTests.
Definition test_read_to_value_ok : bool :=
  forallb (λ '(hexdata, want), match read_to_value (hex hexdata) with Ok got => value_eqb got want | _ => false end)
    [("01", VInteger 1); ("40", VBytes []); ("60", VText EmptyString)].
Definition test_read_to_value_fail : bool :=
  forallb (λ '(hexdata, want), match read_to_value (hex hexdata) with Err e => bool_decide (e = want) | _ => false end)
    [("0101", ExtraneousData); ("43", DecodeFailed); ("8001", ExtraneousData)].
Example wire_tests : test_read_to_value_ok && test_read_to_value_fail = true.
Proof. vm_compute. reflexivity. Qed.

(** Messages of the older protocol; [T] is the machine the test runs on. *)
Section legacy.
Context `{T : Target}.
#[local] Instance SetBootParamsRequest_eq_dec : EqDecision SetBootParamsRequest.
Proof. solve_decision. Defined.
#[local] Instance GetVersionResponse_eq_dec : EqDecision GetVersionResponse.
Proof. solve_decision. Defined.
Definition both_ways {A} `{EqDecision A} (c : InnerSerialize A) (msg : A) (data : bytes) : bool :=
  ok_eq (new_vec (serialize_into c msg)) data && ok_eq (LegacyMsg.deserialize c data) (msg, []).

Definition test_inner_serialize : bool :=
  both_ways SetBootParamsRequest_inner
    (mk_SetBootParamsRequest 0x01010101 0x02020202 false VerifiedBootState_Unverified (hex "010203") (hex "050403"))
    (hex (concat_hex
      (if big_endian
       then ["01010101"; "02020202"; "00000000"; "02000002"; "00000003"; "010203"; "00000003"; "050403"]
       else ["01010101"; "02020202"; "00000000"; "02000000"; "03000000"; "010203"; "03000000"; "050403"]))).
Definition test_get_version_serialize : bool :=
  both_ways GetVersionResponse_inner (mk_GetVersionResponse (u8_of 1) (u8_of 2) (u8_of 3)) (u8_of <$> [1; 2; 3]).
Definition test_inner_deserialize_fail : bool :=
  is_err (LegacyMsg.deserialize ConfigureBootPatchlevelRequest_inner (hex "010101")).
Definition test_trusty_serialize_rsp : bool :=
  ok_eq (serialize_trusty_secure_rsp (TrustySecureRsp_GetAuthTokenKey (mk_GetAuthTokenKeyResponse (u8_of <$> [1; 2; 3]))))
    (hex (if big_endian then "00000003010203" else "03000000010203")).
Definition test_get_uds_certs_rsp_serialize : bool :=
  ok_eq (serialize_trusty_secure_rsp (TrustySecureRsp_GetUdsCerts (mk_GetUdsCertsResponse (u8_of <$> [1; 2; 3]))))
    (hex (concat_hex (if big_endian then ["0000000b"; "00000000"; "00000003"; "010203"]
                      else ["0b000000"; "00000000"; "03000000"; "010203"]))).
End legacy.
Example legacy_message_tests :
  test_inner_serialize && test_get_version_serialize && test_inner_deserialize_fail &&
  test_trusty_serialize_rsp && test_get_uds_certs_rsp_serialize = true.
Proof. vm_compute. reflexivity. Qed.
(** On a big-endian machine the first of them fails: the boot state in the
    expected data of that case is not [00000002]. *)
Example legacy_message_tests_big_endian :
  let T := {| big_endian := true; overflow_checks := true |} in
  test_inner_serialize (T:=T) = false ∧ test_trusty_serialize_rsp (T:=T) = true ∧
  test_get_uds_certs_rsp_serialize (T:=T) = true.
Proof. vm_compute. split_and!; reflexivity. Qed.
End WireTests.

(** ** Tags *)

Definition fails_with {A} (r : Result A) (e : ErrorCode) : bool :=
  match r with Err e' => bool_decide (e' = Hal e) | _ => false end.
(** The same elements, as [BTreeSet]s are compared. *)
Definition same_elements {A} `{EqDecision A} (l k : list A) : bool :=
  forallb (λ x, bool_decide (x ∈ k)) l && forallb (λ x, bool_decide (x ∈ l)) k.

Module TagTests.
Definition test_characteristics_invalid : bool :=
  forallb (λ characteristics, fails_with (characteristics_valid characteristics) InvalidKeyBlob)
    [[KP_UsageCountLimit 42; KP_UsageCountLimit 43]; [KP_Nonce (u8_of <$> [1; 2])]].

Definition legacy_hex_data : string := concat_hex [
  "00000000"; (* blob data size *)
  "03000000"; (* param count *)
  "15000000"; (* param size *)
  "02000010"; (* Tag::ALGORITHM *)
  "20000000"; (* Algorithm::AES *)
  "03000030"; (* Tag::KEY_SIZE *)
  "00010000";
  "fb010070"; (* Tag::TRUSTED_USER_PRESENCE_REQUIRED *)
  "01"].
Definition test_legacy_serialization : bool :=
  let want_params := [KP_Algorithm Algorithm_Aes; KP_KeySize 256; KP_TrustedUserPresenceRequired] in
  ok_eq (TagLegacy.serialize want_params) (hex legacy_hex_data) &&
  match TagLegacy.deserialize (hex legacy_hex_data) with
  | (Ok got_params, data) => bool_decide (data = []) && bool_decide (got_params = want_params)
  | _ => false
  end.

Definition begin_chars : list KeyParam :=
  [KP_NoAuthRequired; KP_Algorithm Algorithm_Hmac; KP_KeySize 128; KP_Digest Digest_Sha256;
   KP_Purpose KeyPurpose_Sign; KP_Purpose KeyPurpose_Verify; KP_MinMacLength 160].
Definition test_check_begin_params_fail : bool :=
  forallb (λ '(purpose, params, e), fails_with (check_begin_params begin_chars purpose params) e)
    [(KeyPurpose_Encrypt, [KP_Digest Digest_Sha256; KP_MacLength 160], UnsupportedPurpose);
     (KeyPurpose_Sign, [KP_Digest Digest_Sha256], MissingMacLength);
     (KeyPurpose_Sign, [KP_Digest Digest_Sha512; KP_MacLength 160], IncompatibleDigest)].

Definition test_copyable_tags : bool :=
  forallb (λ t, match info t with
                | Ok i => user_can_specify i &&
                          (bool_decide (characteristic i = KeyMintEnforced) ||
                           bool_decide (characteristic i = KeystoreEnforced) ||
                           bool_decide (characteristic i = BothEnforced))
                | _ => false
                end) UNPOLICED_COPYABLE_TAGS.

Definition test_luhn_checksum : bool :=
  forallb (λ '(input, want), bool_decide (luhn_checksum input = want))
    [(0, 0); (7992739871, 3); (735423462345, 6); (721367498765427, 4)].
Definition test_increment_imei : bool :=
  forallb (λ '(input, want), ok_eq (increment_imei (hex input)) (hex want))
    [(EmptyString, EmptyString); ("01", EmptyString); ("01", EmptyString); ("7576", EmptyString);
     ("c328", EmptyString);
     ("373231333637343938373635343034", "373231333637343938373635343132");
     ("39393930", "3130303039")].
Example tag_tests :
  test_characteristics_invalid && test_legacy_serialization && test_check_begin_params_fail &&
  test_copyable_tags && test_luhn_checksum && test_increment_imei = true.
Proof. vm_compute. reflexivity. Qed.

(** The table of tags and the constants derived from it. *)
Definition tags_where (f : Info → bool) : list Tag := (filter (λ p, f p.2 = true) INFO).*1.
Definition test_auto_added_const : bool := same_elements (tags_where keymint_auto_adds) AUTO_ADDED_CHARACTERISTICS.
Definition test_keystore_enforced_const : bool :=
  same_elements (tags_where (λ i, bool_decide (characteristic i = KeystoreEnforced))) KEYSTORE_ENFORCED_CHARACTERISTICS.
Definition test_keymint_enforced_const : bool :=
  same_elements (tags_where (λ i, bool_decide (characteristic i = KeyMintEnforced))) KEYMINT_ENFORCED_CHARACTERISTICS.
Definition test_tag_bit_index_unique : bool :=
  bool_decide (NoDup ((λ p, bit_index p.2) <$> INFO)) && forallb (λ p, bool_decide (bit_index p.2 < 64)) INFO.
Definition test_tag_tracker : bool :=
  forallb (λ '(valid, most, last),
      match foldl (λ c t, c ← c; DuplicateTagChecker_add c t) (Ok DuplicateTagChecker_default) most with
      | Ok tracker => let result := DuplicateTagChecker_add tracker last in
                      if valid : bool then is_ok result else is_err result
      | _ => false
      end)
    [(true, [Tag_BlockMode], Tag_Padding); (true, [Tag_BlockMode; Tag_Padding], Tag_BlockMode);
     (true, [Tag_BlockMode], Tag_EcCurve); (true, [Tag_BlockMode; Tag_EcCurve], Tag_BlockMode);
     (false, [Tag_BlockMode; Tag_EcCurve; Tag_BlockMode], Tag_EcCurve)].
Example tag_info_tests :
  test_auto_added_const && test_keystore_enforced_const && test_keymint_enforced_const &&
  test_tag_bit_index_unique && test_tag_tracker = true.
Proof. vm_compute. reflexivity. Qed.
End TagTests.

(** ** Key blobs *)

Module KeyblobTests.
(** One after the other on the same data, as a test with [&mut data] does. *)
Fixpoint reads {A} `{EqDecision A} (c : stM bytes Error A) (want : list A) (data : bytes) : bool :=
  match want with
  | [] => fails_with (c data).1 InvalidKeyBlob
  | w :: want' => ok_eq (c data).1 w && reads c want' (c data).2
  end.
Definition test_consume_u8 : bool := reads consume_u8 (u8_of <$> [1; 2]) (u8_of <$> [1; 2]).
Definition test_consume_u32 : bool :=
  reads consume_u32 [0x04030201; 0x01020304] (hex "0102030404030201111213").
Definition test_consume_u64 : bool :=
  reads consume_u64 [0x0807060504030201; 0x0102030405060708] (hex "0102030405060708080706050403020111121314151617").
Definition test_consume_vec : bool :=
  reads consume_vec [hex "aa"; []; hex "bb"] (hex "01000000aa0000000001000000bb07000000bb") &&
  reads consume_vec [] (hex "010000").

Definition empty_params : string := concat_hex ["00000000"; "00000000"; "00000000"].
(** A blob of the given format, with what follows its tag and its two lists of parameters. *)
Definition blob_hex (format versions slot : string) : string :=
  concat_hex [format; "01000000"; "aa"; "02000000"; "bbbb"; "01000000"; "cc"; versions; empty_params; empty_params; slot].
#[local] Instance LegacyEncryptedKeyBlob_eq_dec : EqDecision LegacyEncryptedKeyBlob.
Proof. solve_decision. Defined.
Definition test_serialize_encrypted_keyblob : bool :=
  forallb (λ '(hex_data, want),
      match LegacyEncryptedKeyBlob_deserialize (hex hex_data) with
      | Ok got => bool_decide (got = want) && ok_eq (LegacyEncryptedKeyBlob_serialize got) (hex hex_data)
      | _ => false
      end)
    [(blob_hex "00" EmptyString EmptyString,
      mk_encrypted AesOcb (hex "aa") (hex "bbbb") (hex "cc") None None [] [] None);
     (blob_hex "01" EmptyString "06000000",
      mk_encrypted AesGcmWithSwEnforced (hex "aa") (hex "bbbb") (hex "cc") None None [] [] (Some 6));
     (blob_hex "03" "0101010104040404" "06000000",
      mk_encrypted AesGcmWithSwEnforcedVersioned (hex "aa") (hex "bbbb") (hex "cc")
        (Some 0x01010101) (Some 0x04040404) [] [] (Some 6))].
Definition test_deserialize_encrypted_keyblob_fail : bool :=
  forallb (λ hex_data, fails_with (LegacyEncryptedKeyBlob_deserialize (hex hex_data)) InvalidKeyBlob)
    [blob_hex "09" EmptyString EmptyString; blob_hex "02" EmptyString "060000"].
Definition test_deserialize_encrypted_keyblob_truncated : bool :=
  let data := hex (blob_hex "00" EmptyString EmptyString) in
  is_ok (LegacyEncryptedKeyBlob_deserialize data) &&
  forallb (λ n, is_err (LegacyEncryptedKeyBlob_deserialize (take n data))) (seq 0 (length data - 1)).
Example legacy_keyblob_tests :
  test_consume_u8 && test_consume_u32 && test_consume_u64 && test_consume_vec &&
  test_serialize_encrypted_keyblob && test_deserialize_encrypted_keyblob_fail &&
  test_deserialize_encrypted_keyblob_truncated = true.
Proof. vm_compute. reflexivity. Qed.

(** [FakeRng]: a [u8] that counts the bytes handed out; the tests take fewer than 256. *)
Definition fake_fill (n : nat) (s : Z) : bytes * Z := (u8_of <$> seqZ s (Z.of_nat n), (s + Z.of_nat n) mod 256).
#[local] Instance FakeRng : Rng.
Proof.
  refine {| rng_state := Z; add_entropy := λ _ s, s; fill_bytes := fake_fill |}.
  intros n s. cbn. by rewrite length_fmap, length_seqZ, Nat2Z.id.
Defined.
#[local] Instance SecureDeletionData_eq_dec : EqDecision SecureDeletionData.
Proof. solve_decision. Defined.
#[local] Existing Instances InMemory.InMemorySDM.

(** A holder is a slot that was allocated; dropping it gives the slot back. *)
Definition test_sdd_slot_holder : bool :=
  match new_secret KeyGeneration (InMemory.default_mgr 10, 0) with
  | (Ok (slot0, sdd0), (m, r)) =>
    bool_decide (slot0 = 0) && ok_eq (get_secret m slot0) sdd0 &&
    match new_secret KeyGeneration (m, r) with
    | (Ok (slot1, sdd1), (m, r)) =>
      bool_decide (slot1 = 1) && ok_eq (get_secret m slot1) sdd1 &&
      ok_eq (get_secret m slot0) sdd0 && ok_eq (get_secret m slot1) sdd1 && bool_decide (sdd0 ≠ sdd1) &&
      match new_secret KeyGeneration (m, r) with
      | (Ok (slot2, _), (m, r)) =>
        match drop_slot (Some slot2) (Some m) with
        | Some m =>
          is_err (get_secret m 2) &&
          match new_secret KeyGeneration (m, r) with
          | (Ok (slot2, sdd2b), (m, r)) => bool_decide (slot2 = 2) && ok_eq (get_secret m slot2) sdd2b
          | _ => false
          end
        | None => false
        end
      | _ => false
      end
    | _ => false
    end
  | _ => false
  end.
Definition test_sdd_factory_secret : bool :=
  let m := InMemory.default_mgr 10 in
  is_err (get_factory_reset_secret m) &&
  match get_or_create_factory_reset_secret (m, 0) with
  | (Ok secret1, (m, r)) =>
    ok_eq (get_factory_reset_secret m) secret1 && ok_eq (get_or_create_factory_reset_secret (m, r)).1 secret1
  | _ => false
  end.
Definition test_sdd_exhaustion : bool :=
  match (_ ← new_secret KeyGeneration; new_secret KeyGeneration) (InMemory.default_mgr 2, 0) with
  | (Ok (slot1a, sdd1a), (m, r)) =>
    is_err (new_secret KeyGeneration (m, r)).1 &&
    match delete_secret slot1a m with
    | (Ok _, m) => match (new_secret KeyGeneration (m, r)).1 with
                   | Ok (slot1b, sdd1b) => bool_decide (slot1a = slot1b) && bool_decide (sdd1a ≠ sdd1b)
                   | _ => false
                   end
    | _ => false
    end
  | _ => false
  end.
Example sdd_tests : test_sdd_slot_holder && test_sdd_factory_secret && test_sdd_exhaustion = true.
Proof. vm_compute. reflexivity. Qed.
End KeyblobTests.

(** ** Elliptic-curve keys and signatures *)

Module EcTests.
#[local] Existing Instances X690.nist X690.pkcs8.
Definition r_hex : string := "01b309d5eeffa5d550bde27630f9fc7f08492e4617bc158da08b913414cf675b".
Definition s_hex : string := "fcdca2e77d036c33fa78f4a892b98569358d83c047a7d8a74ce6fe12fbf919c6".
Definition sig_hex : string :=
  "3045022001b309d5eeffa5d550bde27630f9fc7f08492e4617bc158da08b913414cf675b022100fcdca2e77d036c33fa78f4a892b98569358d83c047a7d8a74ce6fe12fbf919c6".
Definition test_sig_decode : bool :=
  bool_decide (nist_sig_from_der (hex sig_hex) = Some (hex r_hex, hex s_hex)).
Definition transmutes (nist_sig_data cose_sig_data : bytes) : bool :=
  ok_eq (to_cose_signature EcCurve_P256 nist_sig_data) cose_sig_data &&
  ok_eq (from_cose_signature EcCurve_P256 cose_sig_data) nist_sig_data.
Definition test_longer_sig_transmute : bool :=
  transmutes (hex (concat_hex [
    "30"; "45"; "02"; "20"; "01b309d5eeffa5d550bde27630f9fc7f08492e4617bc158da08b913414cf675b"; "02"; "21";
    "00fcdca2e77d036c33fa78f4a892b98569358d83c047a7d8a74ce6fe12fbf919c6"]))
    (hex (concat_hex [r_hex; s_hex])).
Definition test_short_sig_transmute : bool :=
  transmutes (hex (concat_hex [
    "30"; "43"; "02"; "1e"; "09d5eeffa5d550bde27630f9fc7f08492e4617bc158da08b913414cf675b"; "02"; "21";
    "00fcdca2e77d036c33fa78f4a892b98569358d83c047a7d8a74ce6fe12fbf919c6"]))
    (hex (concat_hex ["000009d5eeffa5d550bde27630f9fc7f08492e4617bc158da08b913414cf675b"; s_hex])).
Definition sec1_key : bytes := hex (concat_hex [
  "3077"; "020101"; "0420"; "a6a30ca3dc87b58763736400e7e86260"; "9e8311f41e6b89888c33753218168517"; "a00a";
  "0608"; "2a8648ce3d030107"; "a144"; "0342"; "00"; "0481e4ce20d8be3dd40b940b3a3ba3e8";
  "cf5a3f2156eceb4debb8fce83cbe4a48"; "bd576a03eebf77d329a438fcdc509f37"; "1f092cad41e2ecf9f25cd82f31500f33";
  "8e"]).
Definition test_sec1_ec_import : bool :=
  match import_sec1_private_key sec1_key with
  | Ok (KM_Ec curve curve_type _key) => bool_decide (curve = EcCurve_P256) && bool_decide (curve_type = CurveType_Nist)
  | _ => false
  end.
Example ec_tests :
  test_sig_decode && test_longer_sig_transmute && test_short_sig_transmute && test_sec1_ec_import = true.
Proof. vm_compute. reflexivity. Qed.
End EcTests.

(** ** Attestation extensions *)

Module CertTests.
#[local] Existing Instances X690.der.
#[local] Instance AuthorizationList_eq_dec : EqDecision AuthorizationList.
Proof. solve_decision. Defined.
#[local] Instance SecurityLevelAsn1_eq_dec : EqDecision SecurityLevelAsn1.
Proof. solve_decision. Defined.
#[local] Instance AttestationExtension_eq_dec : EqDecision AttestationExtension.
Proof. solve_decision. Defined.

Definition root_of_trust : RootOfTrust :=
  mk_rot (replicate 32 (u8_of 0xbb)) false Asn1_Unverified (replicate 32 (u8_of 0xee)).
(** [EXPLICIT [704]] with the root of trust in it. *)
Definition rot_hex : list string :=
  ["bf8540"; "4c"; "304a"; "0420"; "bbbbbbbbbbbbbbbbbbbbbbbbbbbbbbbb"; "bbbbbbbbbbbbbbbbbbbbbbbbbbbbbbbb";
   "0101"; "00"; "0a01"; "02"; "0420"; "eeeeeeeeeeeeeeeeeeeeeeeeeeeeeeee"; "eeeeeeeeeeeeeeeeeeeeeeeeeeeeeeee"].

Section codecs.
(** The [Sequence] encodings the tests use; those of whole certificates are not needed. *)
Context `{X : X509} (base : CertCodecs).
Definition with_sequences : CertCodecs := {|
  key_usage_enc := key_usage_enc; basic_constraints_enc := basic_constraints_enc;
  sequence_header_enc := X690.sequence_header;
  attestation_extension_enc authz := X690.seq_enc (X690.extension_parts authz);
  tbs_enc := tbs_enc; certificate_enc := certificate_enc |}.
#[local] Existing Instance with_sequences.

Definition new_list (auths : list KeyParam) (rot : option RootOfTrust) (additional : list KeyParam)
    : Result AuthorizationList := AuthorizationList_new auths [] None rot None additional.
Definition test_attest_ext_encode_decode : bool :=
  let r := sw ← new_list [] None [];
           hw ← new_list [KP_Algorithm Algorithm_Ec] (Some root_of_trust) [];
           let v3 := HalVersion_discr HAL_V3 in
           let ext := mk_attestation_extension v3 Asn1_TrustedEnvironment v3 Asn1_TrustedEnvironment
                        (bytes_of_string "abc") (bytes_of_string "xxx") sw hw in
           got ← to_der (attestation_extension_enc authz_enc) ext; Ok (ext, got) in
  match r with
  | Ok (ext, got) =>
    bool_decide (got = hex (concat_hex
      (["3071"; "0202"; "012c"; "0a01"; "01"; "0202"; "012c"; "0a01"; "01"; "0403"; "616263"; "0403"; "787878";
        "3000"; "3055"; "a203"; "0201"; "03"] ++ rot_hex))) &&
    ok_eq (X690.from_der 0x30 X690.extension_of got) ext
  | _ => false
  end.

Definition test_explicit_tagged_value : bool :=
  ok_eq (to_der (mk_encode (ExplicitTaggedValue_encoded_len int_enc) (ExplicitTaggedValue_encode int_enc)) (mk_etv 2 16))
    (hex "a203020110") &&
  ok_eq (to_der (mk_encode (ExplicitTaggedValue_encoded_len null_enc) (ExplicitTaggedValue_encode null_enc)) (mk_etv 2 tt))
    (hex "a2020500") &&
  ok_eq (to_der (mk_encode (ExplicitTaggedValue_encoded_len int_enc) (ExplicitTaggedValue_encode int_enc)) (mk_etv 503 16))
    (hex "bf837703020110").

Definition list_encodes (authz_list : Result AuthorizationList) (want : list string) : bool :=
  ok_eq (l ← authz_list; to_der authz_enc l) (hex (concat_hex want)).
Definition test_authz_list_encode_decode : bool :=
  let authz_list := new_list [KP_Algorithm Algorithm_Ec] (Some root_of_trust) [KP_ModuleHash (replicate 32 (u8_of 0xaa))] in
  let want := ["307b"; "a203"; "0201"; "03"] ++ rot_hex ++
              ["bf8554"; "22"; "0420"; "aaaaaaaaaaaaaaaaaaaaaaaaaaaaaaaa"; "aaaaaaaaaaaaaaaaaaaaaaaaaaaaaaaa"] in
  list_encodes authz_list want &&
  match authz_list with Ok l => ok_eq (X690.authz_from_der (hex (concat_hex want))) l | _ => false end.
Definition test_authz_list_user_secure_id_encode : bool :=
  list_encodes
    (new_list [KP_Algorithm Algorithm_Ec; KP_UserSecureId 42; KP_UserSecureId 43; KP_UserSecureId 44]
       (Some root_of_trust) [])
    (["3055"; "a203"; "0201"; "03"] ++ rot_hex).
Definition test_authz_list_user_secure_id_decode : bool :=
  match new_list [KP_Algorithm Algorithm_Ec; KP_UserSecureId 2] (Some root_of_trust) [] with
  | Ok want =>
    ok_eq (X690.authz_from_der (hex (concat_hex
      (["305c"; "a203"; "0201"; "03"; "bf8376"; "03"; "0201"; "02"] ++ rot_hex)))) want
  | _ => false
  end.
Definition test_authz_list_dup_encode : bool :=
  match (l ← new_list [KP_Digest Digest_None; KP_Digest Digest_Sha1; KP_Digest Digest_Sha1] (Some root_of_trust) [];
         to_der authz_enc l) with
  | Ok got => is_ok (X690.authz_from_der got)
  | _ => false
  end.
Definition test_authz_list_order_fail : bool :=
  match new_list [KP_Digest Digest_Sha1; KP_Digest Digest_None] (Some root_of_trust) [] with
  | Ok l => is_err (to_der authz_enc l)
  | _ => false
  end.
Lemma cert_tests :
  test_attest_ext_encode_decode && test_explicit_tagged_value && test_authz_list_encode_decode &&
  test_authz_list_user_secure_id_encode && test_authz_list_user_secure_id_decode &&
  test_authz_list_dup_encode && test_authz_list_order_fail = true.
Proof. vm_compute. reflexivity. Qed.
End codecs.
End CertTests.

(** ** Wrapped keys and responses *)

Module TaTests.
#[local] Existing Instances X690.der X690.wrapper_codecs.
Definition test_invalid_data : bool :=
  ok_eq (into_vec PerformOpResponse_codec (error_rsp (discr UnknownError))) invalid_cbor_rsp_data.

Definition key_description_hex : list string := [
  "302e"; "020103"; "3029"; "a108"; "3106"; "020100"; "020101"; "a203"; "020120"; "a304"; "02020100"; "a405";
  "3103"; "020101"; "a605"; "3103"; "020140"; "bf837702"; "0500"].
Definition encoded_secure_key_wrapper : bytes := hex (concat_hex ([
  "30820179"; "020100"; "04820100"; "aad93ed5924f283b4bb5526fbe7a1412"; "f9d9749ec30db9062b29e574a8546f33";
  "c88732452f5b8e6a391ee76c39ed1712"; "c61d8df6213dec1cffbc17a8c6d04c7b"; "30893d8daa9b2015213e219468215532";
  "07f8f9931c4caba23ed3bee28b36947e"; "47f10e0a5c3dc51c988a628daad3e5e1"; "f4005e79c2d5a96c284b4b8d7e4948f3";
  "31e5b85dd5a236f85579f3ea1d1b8484"; "87470bdb0ab4f81a12bee42c99fe0df4"; "bee3759453e69ad1d68a809ce06b949f";
  "7694a990429b2fe81e066ff43e56a216"; "02db70757922a4bcc23ab89f1e35da77"; "586775f423e519c2ea394caf48a28d0c";
  "8020f1dcf6b3a68ec246f615ae96dae9"; "a079b1f6eb959033c1af5c125fd94168"; "040c"; "6d9721d08589581ab49204a3"]
  ++ key_description_hex ++ [
  "0420"; "a61c6e247e25b3e6e69aa78eb03c2d4a"; "c20d1f99a9a024a76f35c8e2cab9b68d"; "0410";
  "2560c70109ae67c030f00b98b512a670"])).
Definition secure_key_wrapper : Result SecureKeyWrapper := wrapper_from_der decode_value encoded_secure_key_wrapper.
Definition test_secure_key_wrapper : bool :=
  match secure_key_wrapper with
  | Ok w =>
    bool_decide (skw_version w = 0) &&
    bool_decide (try_from_n (kd_key_format (skw_key_description w)) = Some KeyFormat_Raw) &&
    let purpose_values := omap as_Purpose (al_auths (kd_key_params (skw_key_description w))) in
    bool_decide (length purpose_values = 2%nat) && bool_decide (KeyPurpose_Encrypt ∈ purpose_values) &&
    bool_decide (KeyPurpose_Decrypt ∈ purpose_values)
  | _ => false
  end.
Section codecs.
Context `{X : X509} (base : CertCodecs).
#[local] Instance sequences : CertCodecs := CertTests.with_sequences base.
Definition test_key_description_encode_decode : bool :=
  ok_eq (w ← secure_key_wrapper; to_der (key_description_enc authz_enc) (skw_key_description w))
    (hex (concat_hex key_description_hex)).
Lemma wrapper_tests :
  test_invalid_data && test_secure_key_wrapper && test_key_description_encode_decode = true.
Proof. vm_compute. reflexivity. Qed.
End codecs.

(** The messages of a response, as marker and contents. *)
Definition split_is (rsp : bytes) (max_size : Z) (want : list (u8 * bytes)) : bool :=
  ok_eq (split_rsp rsp max_size) ((λ '(marker, msg), marker :: msg) <$> want).
Definition test_split_rsp_invalid_input : bool :=
  fails_with (split_rsp [] 5) InvalidArgument && fails_with (split_rsp (hex "822180") 1) InvalidArgument.
Definition test_split_rsp_smaller_input : bool :=
  split_is (hex "8213828080") 20 [(NEXT_MESSAGE_SIGNAL_FALSE, hex "8213828080")].
Definition test_split_rsp_allowed_size_input : bool :=
  split_is (hex "8213828080") 6 [(NEXT_MESSAGE_SIGNAL_FALSE, hex "8213828080")].
Definition test_split_rsp_max_size_input : bool :=
  let rsp := hex "821382808082" in
  split_is rsp 6 [(NEXT_MESSAGE_SIGNAL_TRUE, take 5 rsp); (NEXT_MESSAGE_SIGNAL_FALSE, drop 5 rsp)].
Definition splits_into (rsp1 rsp2 rsp3 : bytes) : bool :=
  split_is (rsp1 ++ rsp2 ++ rsp3) 6
    [(NEXT_MESSAGE_SIGNAL_TRUE, rsp1); (NEXT_MESSAGE_SIGNAL_TRUE, rsp2); (NEXT_MESSAGE_SIGNAL_FALSE, rsp3)].
Definition test_split_rsp_larger_input_perfect_split : bool :=
  splits_into (hex "8213828080") (hex "8214828080") (hex "8215828080").
Definition test_split_rsp_larger_input_imperfect_split : bool :=
  splits_into (hex "8200818213") (hex "8183410180") (hex "80").
Example split_rsp_tests :
  test_split_rsp_invalid_input && test_split_rsp_smaller_input && test_split_rsp_allowed_size_input &&
  test_split_rsp_max_size_input && test_split_rsp_larger_input_perfect_split &&
  test_split_rsp_larger_input_imperfect_split = true.
Proof. vm_compute. reflexivity. Qed.
End TaTests.

(** ** The HAL service *)

Module HalTests.
#[local] Existing Instances SampleRegex.regex SampleAidl.constants.
#[local] Instance SetHalInfoRequest_eq_dec : EqDecision SetHalInfoRequest.
Proof. solve_decision. Defined.
Definition hal_info (os_version os_patch vendor_patch : string) : res EnvError SetHalInfoRequest :=
  populate_hal_info_from (bytes_of_string os_version) (bytes_of_string os_patch) (bytes_of_string vendor_patch).
Definition test_hal_info : bool :=
  forallb (λ '(os_version, os_patch, vendor_patch, want), ok_eq (hal_info os_version os_patch vendor_patch) want)
    [("12", "2021-02-02", "2022-03-04", Build_SetHalInfoRequest 120000 202102 20220304);
     ("12.5", "2021-02-02", "2022-03-04", Build_SetHalInfoRequest 120500 202102 20220304);
     ("12.5.7", "2021-02-02", "2022-03-04", Build_SetHalInfoRequest 120507 202102 20220304)]%string.
Definition test_invalid_hal_info : bool :=
  forallb (λ '(os_version, os_patch, vendor_patch), is_err (hal_info os_version os_patch vendor_patch))
    [("xx", "2021-02-02", "2022-03-04"); ("12.xx", "2021-02-02", "2022-03-04");
     ("12.5.xx", "2021-02-02", "2022-03-04"); ("12", "20212-02-02", "2022-03-04");
     ("12", "2021-xx-02", "2022-03-04"); ("12", "2021-13-02", "2022-03-04");
     ("12", "2022-03-04", "2021-xx-02"); ("12", "2022-03-04", "2021-13-02");
     ("12", "2022-03-04", "2021-03-32")]%string.
Example hal_info_tests : test_hal_info && test_invalid_hal_info = true.
Proof. vm_compute. reflexivity. Qed.

(** A channel that remembers the request and answers with what it was made with. *)
Record TestChannel := mk_test_channel { req : bytes; rsp : bytes }.
Definition TestChannel_new (rsp : string) : TestChannel := mk_test_channel [] (hex rsp).
#[local] Instance test_channel : SerializedChannel TestChannel := {|
  MAX_SIZE := 4096;
  execute serialized_req := λ c, (Ok (rsp c), mk_test_channel serialized_req (rsp c)) |}.
(** [PerformOpReq]: [DEVICE_GENERATE_KEY] with no parameters and no attestation key. *)
Definition want_req : bytes := hex (concat_hex ["82"; "13"; "82"; "80"; "80"]).
Definition test_method_roundtrip : bool :=
  let channel := TestChannel_new (concat_hex ["82"; "00"; "81"; "82"; "13"; "81"; "83"; "41"; "01"; "80"; "80"]) in
  match generateKey [] None channel with
  | (Ok result, channel) =>
    bool_decide (req channel = want_req) && bool_decide (Aidl.keyBlob result = hex "01") &&
    bool_decide (length (Aidl.keyCharacteristics result) = 0%nat) &&
    bool_decide (length (Aidl.certificateChain result) = 0%nat)
  | _ => false
  end.
Definition test_method_err_roundtrip : bool :=
  match generateKey [] None (TestChannel_new (concat_hex ["82"; "21"; "80"])) with
  | (Err (ServiceSpecific code), channel) =>
    bool_decide (req channel = want_req) && bool_decide (code = Aidl.error_number UnsupportedPurpose)
  | _ => false
  end.
Definition largest_op_req : PerformOpReq :=
  Req_OperationFinish {|
    FinishRequest_op_handle := 0x7fffffff;
    FinishRequest_input := Some [];
    FinishRequest_signature := Some (replicate 132 (u8_of 0));
    FinishRequest_auth_token := Some {|
      hat_challenge := 0x7fffffff; hat_user_id := 0x7fffffff; hat_authenticator_id := 0x7fffffff;
      hat_authenticator_type := HardwareAuthenticatorType_Password; hat_timestamp := 0x7fffffff;
      hat_mac := replicate 32 (u8_of 0) |};
    FinishRequest_timestamp_token := Some {|
      tst_challenge := 0x7fffffff; tst_timestamp := 0x7fffffff; tst_mac := replicate 32 (u8_of 0) |};
    FinishRequest_confirmation_token := Some (replicate 32 (u8_of 0)) |}.
Definition test_overhead_size : bool :=
  match into_vec PerformOpReq_codec largest_op_req with
  | Ok data => bool_decide (len data < MAX_CBOR_OVERHEAD)
  | _ => false
  end.
Definition test_extract_rsp_true_marker : bool :=
  bool_decide (extract_rsp (NEXT_MESSAGE_SIGNAL_TRUE :: hex "822180") = Some (true, hex "822180")).
Definition test_extract_rsp_false_marker : bool :=
  bool_decide (extract_rsp (NEXT_MESSAGE_SIGNAL_FALSE :: hex "822180") = Some (false, hex "822180")).
Definition test_extract_rsp_empty_input : bool := bool_decide (extract_rsp [] = None).
Definition test_extract_rsp_single_byte_input : bool := bool_decide (extract_rsp [NEXT_MESSAGE_SIGNAL_FALSE] = None).
Example hal_tests :
  test_method_roundtrip && test_method_err_roundtrip && test_overhead_size && test_extract_rsp_true_marker &&
  test_extract_rsp_false_marker && test_extract_rsp_empty_input && test_extract_rsp_single_byte_input = true.
Proof. vm_compute. reflexivity. Qed.
End HalTests.

(** ** Derived conversions *)

(** [format!("{:?}", err)] of a [CborError]; what [ciborium] adds to a failure to decode is left out. *)
Definition CborError_fmt (e : CborError) : string :=
  match e with
  | Wire.DecodeFailed => "decode CBOR failure: "
  | Wire.EncodeFailed => "encode CBOR failure"
  | Wire.ExtraneousData => "extraneous data in CBOR input"
  | Wire.OutOfRangeIntegerValue => "out of range integer value"
  | Wire.NonEnumValue => "integer not a valid enum value"
  | Wire.UnexpectedItem got want => String.concat EmptyString ["got "; got; ", expected "; want]
  | Wire.InvalidValue => "invalid CBOR value"
  | Wire.AllocationFailed => "allocation failed"
  end.
(** [str::contains]. *)
Fixpoint contains (s sub : string) : bool :=
  String.prefix sub s || match s with String _ s' => contains s' sub | EmptyString => false end.
Definition expect_err {A} (result : CborResult A) (err_msg : string) : bool :=
  match result with Err err => contains (CborError_fmt err) err_msg | _ => false end.
Definition recovers {A} `{EqDecision A} (c : Codec A) (obj : A) : bool :=
  ok_eq (v ← to_cbor_value c obj; from_cbor_value c v) obj.
(** The type's name in a schema, and its definition with [lines] between the line breaks. *)
Definition described (t : Cddl) (name : string) (lines : list string) : bool :=
  bool_decide (cddl_typename t = Some name) && ok_eq (cddl_schema t) (Some (String.concat nl lines)).

Module DeriveStructTests.
Record Timestamp := mk_Timestamp { milliseconds : Z }.
Record NamedFields := mk_NamedFields { challenge : Z; timestamp : Timestamp; mac : bytes }.
Record UnnamedFields := mk_UnnamedFields { field0 : Z; field1 : Timestamp }.
#[local] Instance Timestamp_eq_dec : EqDecision Timestamp.
Proof. solve_decision. Defined.
#[local] Instance NamedFields_eq_dec : EqDecision NamedFields.
Proof. solve_decision. Defined.
#[local] Instance UnnamedFields_eq_dec : EqDecision UnnamedFields.
Proof. solve_decision. Defined.
Definition Timestamp_codec : Codec Timestamp :=
  derive_struct "arr len 1" (field i64_codec no_fields) (λ '(m, _), mk_Timestamp m) (λ t, (milliseconds t, tt)).
Definition NamedFields_codec : Codec NamedFields :=
  derive_struct "arr len 3" (field i64_codec (field Timestamp_codec (field bytes_codec no_fields)))
    (λ '(c, (t, (m, _))), mk_NamedFields c t m) (λ n, (challenge n, (timestamp n, (mac n, tt)))).
Definition UnnamedFields_codec : Codec UnnamedFields :=
  derive_tuple "arr len 2" (field i64_codec (field Timestamp_codec no_fields))
    (λ '(x, (t, _)), mk_UnnamedFields x t) (λ u, (field0 u, (field1 u, tt))).
Definition Timestamp_cddl : Cddl := derive_cddl "Timestamp" (Struct_Named [("milliseconds"%string, i64_cddl)]).
Definition NamedFields_cddl : Cddl :=
  derive_cddl "NamedFields"
    (Struct_Named [("challenge", i64_cddl); ("timestamp", Timestamp_cddl); ("mac", bytes_cddl)]%string).
Definition UnnamedFields_cddl : Cddl := derive_cddl "UnnamedFields" (Struct_Unnamed [i64_cddl; Timestamp_cddl]).

Definition test_cbor_value_cddl : bool :=
  described NamedFields_cddl "NamedFields"
    ["["; "    challenge: int,"; "    timestamp: Timestamp,"; "    mac: bstr,"; "]"].
Definition test_cbor_value_roundtrip : bool :=
  recovers NamedFields_codec (mk_NamedFields 42 (mk_Timestamp 10000000) (u8_of <$> [1; 2; 3; 4])).
Definition int0 : Value := VInteger 0.
Definition test_cbor_parse_fail : bool :=
  forallb (λ '(val, wanterr), expect_err (from_cbor_value NamedFields_codec val) wanterr)
    [(VMap [], "expected arr"); (int0, "expected arr"); (VArray [], "expected arr len 3");
     (VArray [int0; int0; int0; int0], "expected arr len 3");
     (VArray [int0; VArray [int0]; int0], "expected bstr");
     (VArray [int0; VArray [int0; int0]; VBytes (u8_of <$> [1; 2; 3])], "expected arr len 1")]%string.
Definition test_unnamed_cbor_value_cddl : bool :=
  described UnnamedFields_cddl "UnnamedFields" ["["; "    int,"; "    Timestamp,"; "]"].
Definition test_unnamed_cbor_value_roundtrip : bool :=
  recovers UnnamedFields_codec (mk_UnnamedFields 42 (mk_Timestamp 10000000)).
Definition test_unnamed_cbor_parse_fail : bool :=
  forallb (λ '(val, wanterr), expect_err (from_cbor_value UnnamedFields_codec val) wanterr)
    [(VMap [], "expected arr"); (int0, "expected arr"); (VArray [], "expected arr len 2");
     (VArray [int0; int0; int0], "expected arr len 2");
     (VArray [VBytes (u8_of <$> [1; 2; 3]); VArray [int0]], "expected i64");
     (VArray [int0; VArray [int0; int0]], "expected arr len 1")]%string.
Example derive_struct_tests :
  test_cbor_value_cddl && test_cbor_value_roundtrip && test_cbor_parse_fail &&
  test_unnamed_cbor_value_cddl && test_unnamed_cbor_value_roundtrip && test_unnamed_cbor_parse_fail = true.
Proof. vm_compute. reflexivity. Qed.
End DeriveStructTests.

Module DeriveTests.
Record NamedFields := mk_NamedFields { i : Z; s : string }.
Record UnnamedFields := mk_UnnamedFields { field0 : Z; field1 : string }.
Inductive NumericEnum : Set := NumericEnum_One | NumericEnum_Two | NumericEnum_Three.
#[local] Instance NamedFields_eq_dec : EqDecision NamedFields.
Proof. solve_decision. Defined.
#[local] Instance UnnamedFields_eq_dec : EqDecision UnnamedFields.
Proof. solve_decision. Defined.
#[local] Instance NumericEnum_enum : REnum NumericEnum.
Proof.
  refine {| discr v := match v with NumericEnum_One => 1 | NumericEnum_Two => 2 | NumericEnum_Three => 3 end;
            variants := [NumericEnum_One; NumericEnum_Two; NumericEnum_Three] |}.
  - intros []; set_solver.
  - decide_compute.
Defined.
#[local] Instance NumericEnum_eq_dec : EqDecision NumericEnum := enum_eq_dec.
Definition NamedFields_codec : Codec NamedFields :=
  derive_struct "arr len 2" (field i32_codec (field string_codec no_fields))
    (λ '(x, (y, _)), mk_NamedFields x y) (λ n, (i n, (s n, tt))).
Definition UnnamedFields_codec : Codec UnnamedFields :=
  derive_tuple "arr len 2" (field i32_codec (field string_codec no_fields))
    (λ '(x, (y, _)), mk_UnnamedFields x y) (λ u, (field0 u, (field1 u, tt))).

Definition test_derive_named_struct_roundtrip : bool :=
  recovers NamedFields_codec (mk_NamedFields 42 "a string") &&
  described (derive_cddl "NamedFields" (Struct_Named [("i", i32_cddl); ("s", string_cddl)]%string))
    "NamedFields" ["["; "    i: int,"; "    s: tstr,"; "]"].
Definition test_derive_unnamed_struct_roundtrip : bool :=
  recovers UnnamedFields_codec (mk_UnnamedFields 42 "a string") &&
  described (derive_cddl "UnnamedFields" (Struct_Unnamed [i32_cddl; string_cddl]))
    "UnnamedFields" ["["; "    int,"; "    tstr,"; "]"].
Definition test_derive_numeric_enum_roundtrip : bool :=
  recovers (derive_enum (A:=NumericEnum)) NumericEnum_Two &&
  described (enum_cddl "NumericEnum"
               [("One", NumericEnum_One); ("Two", NumericEnum_Two); ("Three", NumericEnum_Three)]%string)
    "NumericEnum" ["&("; "    NumericEnum_One: 1,"; "    NumericEnum_Two: 2,"; "    NumericEnum_Three: 3,"; ")"].
Example derive_tests :
  test_derive_named_struct_roundtrip && test_derive_unnamed_struct_roundtrip &&
  test_derive_numeric_enum_roundtrip = true.
Proof. vm_compute. reflexivity. Qed.
End DeriveTests.
