(* ===== verification/Conformance.v ===== *)
(** * The conformance tests of the cryptographic traits ([tests/src/lib.rs],
    [boringssl/src/tests.rs], [tests/tests/keyblob_test.rs])

    The repository has tests that any implementation of the cryptographic traits should pass, and
    runs them on the [boringssl] crate.  Here they are functions of the traits, and are run on the
    model of that crate with the algorithms of [CryptoRef] as its library: the vectors of the
    standards go through the code of the crate (buffers, tags held back, key derivation) to the
    algorithms and back.  Tests of key blobs that need these implementations are run as well. *)

From S2P Require Import Prelude Wire CryptoTypes TagParams Crypto Codec CborRef WireCodec KeyblobLegacy Keyblob TaState Keys Rkp.
From S2P Require Import Boring BoringSpec CryptoRef CddlSpec UnitTests.

(** ** Tests as programs *)

(** A test panics, or comes to its end. *)
Abbreviation Test A := (res Empty_set A).
Definition unwrap {E A} (r : res E A) : Test A := match r with Ok a => Ok a | _ => Panic end.
Definition assert (b : bool) : Test unit := if b then Ok tt else Panic.
Definition assert_eq {A} `{EqDecision A} (x y : A) : Test unit := assert (bool_decide (x = y)).
Definition assert_ne {A} `{EqDecision A} (x y : A) : Test unit := assert (bool_decide (x ≠ y)).
Fixpoint for_each {A} (l : list A) (f : A → Test unit) : Test unit :=
  match l with [] => Ok tt | x :: l' => _ ← f x; for_each l' f end.
(** A loop whose body may [return]: it says whether to go on. *)
Fixpoint for_until {A} (l : list A) (f : A → Test bool) : Test unit :=
  match l with [] => Ok tt | x :: l' => more ← f x; if more : bool then for_until l' f else Ok tt end.
Definition passes {A} (t : Test A) : bool := is_ok t.

(** ** Random numbers, comparison, hashing *)

Section basics.
Context `{R : Rng} `{CTE : ConstTimeEq} `{SH : Sha256}.
Definition next_u64 (r : rng_state) : Z * rng_state := let '(b, r) := fill_bytes 8 r in (le_combine b, r).
Definition test_rng (rng : rng_state) : Test unit :=
  let '(u1, rng) := next_u64 rng in
  let '(u2, rng) := next_u64 rng in
  _ ← assert_ne u1 u2;
  let '(b1, rng) := fill_bytes 16 rng in
  let '(b2, rng) := fill_bytes 16 rng in
  _ ← assert_ne b1 b2;
  let rng := add_entropy b1 rng in
  let rng := add_entropy [] rng in
  let '(b1, rng) := fill_bytes 16 rng in
  assert_ne b1 b2.

Definition test_eq : Test unit :=
  let eq a b := assert (ct_eq a b) in
  let ne a b := assert (negb (ct_eq a b)) in
  let b0 := [] in
  let b1 := u8_of <$> [0; 1; 2] in
  let b2 := u8_of <$> [1; 1; 2] in
  let b3 := u8_of <$> [0; 1; 3] in
  let b4 := u8_of <$> [0; 1; 2; 3] in
  let b5 := replicate 4096 (u8_of 42) in
  let b6 := <[4095%nat := u8_of 43]> b5 in
  _ ← eq b0 b0; _ ← eq b5 b5;
  _ ← ne b0 b1; _ ← ne b0 b2; _ ← ne b0 b3; _ ← ne b0 b4; _ ← ne b0 b5;
  _ ← eq b1 b1; _ ← ne b1 b2; _ ← ne b1 b3; _ ← ne b1 b4; ne b5 b6.

Definition test_sha256 : Test unit :=
  for_each [
   ([], "e3b0c44298fc1c149afbf4c8996fb92427ae41e4649b934ca495991b7852b855");
   ((bytes_of_string "abc"), "ba7816bf8f01cfea414140de5dae2223b00361a396177a9cb410ff61f20015ad")] (λ '(msg, want), got ← unwrap (sha256_hash msg); assert_eq got (hex want)).
End basics.

(** ** MACs and key derivation *)

Record HkdfTestCase := mk_hkdf_case {
  hkdf_ikm : string; hkdf_salt : string; hkdf_info : string; hkdf_out_len : Z; hkdf_want : string }.
Definition HKDF_TESTS : list HkdfTestCase := [
   mk_hkdf_case "0b0b0b0b0b0b0b0b0b0b0b0b0b0b0b0b0b0b0b0b0b0b"
     "000102030405060708090a0b0c"
     "f0f1f2f3f4f5f6f7f8f9"
     42
     "3cb25f25faacd57a90434f64d0362f2a2d2d0a90cf1a5a4c5db02d56ecc4c5bf34007208d5b887185865";
   mk_hkdf_case (concat_hex ["000102030405060708090a0b0c0d0e0f101112131415161718191a1b1c1d1e1f";
        "202122232425262728292a2b2c2d2e2f303132333435363738393a3b3c3d3e3f";
        "404142434445464748494a4b4c4d4e4f"])
     (concat_hex ["606162636465666768696a6b6c6d6e6f707172737475767778797a7b7c7d7e7f";
        "808182838485868788898a8b8c8d8e8f909192939495969798999a9b9c9d9e9f";
        "a0a1a2a3a4a5a6a7a8a9aaabacadaeaf"])
     (concat_hex ["b0b1b2b3b4b5b6b7b8b9babbbcbdbebfc0c1c2c3c4c5c6c7c8c9cacbcccdcecf";
        "d0d1d2d3d4d5d6d7d8d9dadbdcdddedfe0e1e2e3e4e5e6e7e8e9eaebecedeeef";
        "f0f1f2f3f4f5f6f7f8f9fafbfcfdfeff"])
     82
     (concat_hex ["b11e398dc80327a1c8e7f78c596a49344f012eda2d4efad8a050cc4c19afa97c";
        "59045a99cac7827271cb41c65e590e09da3275600c2f09b8367793a9aca3db71";
        "cc30c58179ec3e87c14c01d5c1f3434f1d87"]);
   mk_hkdf_case "0b0b0b0b0b0b0b0b0b0b0b0b0b0b0b0b0b0b0b0b0b0b"
     EmptyString
     EmptyString
     42
     "8da4e775a563c18f715f802a063c5a31b8a11f5c5ee1879ec3454e5f3c738d2d9d201395faa4b61a96c8"].
Record HmacTestCase := mk_hmac_case {
  hmac_digest : Digest; hmac_tag_size : Z; hmac_key : bytes; hmac_data : bytes; hmac_expected : string }.
Definition HMAC_TESTS : list HmacTestCase := [
   mk_hmac_case Digest_Sha256 32 (hex "000102030405060708090a0b0c0d0e0f") (bytes_of_string "Hello")
     "e0ff02553d9a619661026c7aa1ddf59b7b44eac06a9908ff9e19961d481935d4";
   mk_hmac_case Digest_Sha512 64 (hex "000102030405060708090a0b0c0d0e0f") (bytes_of_string "Hello")
     (concat_hex ["481e10d823ba64c15b94537a3de3f253c16642451ac45124dd4dde120bf1e5c1";
        "5e55487d55ba72b43039f235226e7954cd5854b30abc4b5b53171a4177047c9b"]);
   mk_hmac_case Digest_Sha256 32 (hex "000102030405060708090a0b0c0d0e0f") []
     "07eff8b326b7798c9ccfcbdbe579489ac785a7995a04618b1a2813c26744777d";
   mk_hmac_case Digest_Sha224 28 (replicate 20 (u8_of 0x0b)) (bytes_of_string "Hi There")
     "896fb1128abbdf196832107cd49df33f47b4b1169912ba4f53684b22";
   mk_hmac_case Digest_Sha256 32 (replicate 20 (u8_of 0x0b)) (bytes_of_string "Hi There")
     "b0344c61d8db38535ca8afceaf0bf12b881dc200c9833da726e9376c2e32cff7";
   mk_hmac_case Digest_Sha384 48 (replicate 20 (u8_of 0x0b)) (bytes_of_string "Hi There")
     "afd03944d84895626b0825f4ab46907f15f9dadbe4101ec682aa034c7cebc59cfaea9ea9076ede7f4af152e8b2fa9cb6";
   mk_hmac_case Digest_Sha512 64 (replicate 20 (u8_of 0x0b)) (bytes_of_string "Hi There")
     (concat_hex ["87aa7cdea5ef619d4ff0b4241a1d6cb02379f4e2ce4ec2787ad0b30545e17cde";
        "daa833b7d6b8a702038b274eaea3f4e4be9d914eeb61f1702e696c203a126854"]);
   mk_hmac_case Digest_Sha224 28 (bytes_of_string "Jefe") (bytes_of_string "what do ya want for nothing?")
     "a30e01098bc6dbbf45690f3a7e9e6d0f8bbea2a39e6148008fd05e44";
   mk_hmac_case Digest_Sha256 32 (bytes_of_string "Jefe") (bytes_of_string "what do ya want for nothing?")
     "5bdcc146bf60754e6a042426089575c75a003f089d2739839dec58b964ec3843";
   mk_hmac_case Digest_Sha384 48 (bytes_of_string "Jefe") (bytes_of_string "what do ya want for nothing?")
     "af45d2e376484031617f78d2b58a6b1b9c7ef464f5a01b47e42ec3736322445e8e2240ca5e69e2c78b3239ecfab21649";
   mk_hmac_case Digest_Sha512 64 (bytes_of_string "Jefe") (bytes_of_string "what do ya want for nothing?")
     (concat_hex ["164b7a7bfcf819e2e395fbe73b56e0a387bd64222e831fd610270cd7ea250554";
        "9758bf75c05a994a6d034f65f8f0e6fdcaeab1a34d4a6b4b636e070a38bce737"]);
   mk_hmac_case Digest_Sha224 28 (replicate 20 (u8_of 0xaa)) (replicate 50 (u8_of 0xdd))
     "7fb3cb3588c6c1f6ffa9694d7d6ad2649365b0c1f65d69d1ec8333ea";
   mk_hmac_case Digest_Sha256 32 (replicate 20 (u8_of 0xaa)) (replicate 50 (u8_of 0xdd))
     "773ea91e36800e46854db8ebd09181a72959098b3ef8c122d9635514ced565fe";
   mk_hmac_case Digest_Sha384 48 (replicate 20 (u8_of 0xaa)) (replicate 50 (u8_of 0xdd))
     "88062608d3e6ad8a0aa2ace014c8a86f0aa635d947ac9febe83ef4e55966144b2a5ab39dc13814b94e3ab6e101a34f27";
   mk_hmac_case Digest_Sha512 64 (replicate 20 (u8_of 0xaa)) (replicate 50 (u8_of 0xdd))
     (concat_hex ["fa73b0089d56a284efb0f0756c890be9b1b5dbdd8ee81a3655f83e33b2279d39";
        "bf3e848279a722c806b485a47e67c807b946a337bee8942674278859e13292fb"])].

Section macs.
Context `{Tgt : Target} `{ACC : AccumulatingOperation} `{HM : !Hmac} `{CM : !AesCmac}.
#[local] Existing Instance Hkdf_for_Hmac.

Definition test_hkdf : Test unit :=
  for_each HKDF_TESTS (λ t,
    got ← unwrap (hkdf (hex (hkdf_salt t)) (hex (hkdf_ikm t)) (hex (hkdf_info t)) (hkdf_out_len t));
    assert_eq got (hex (hkdf_want t))).
Definition test_hmac : Test unit :=
  for_each HMAC_TESTS (λ t,
    op ← unwrap (hmac_begin (Explicit (hmac_key t)) (hmac_digest t));
    op ← unwrap (acc_update op (hmac_data t));
    mac ← unwrap (acc_finish op);
    assert_eq (truncate (hmac_tag_size t) mac) (truncate (hmac_tag_size t) (hex (hmac_expected t)))).

Definition test_aes_cmac : Test unit :=
  key ← unwrap (AesKey_new (hex "2b7e151628aed2a6abf7158809cf4f3c"));
  let data := hex (concat_hex [
    "6bc1bee22e409f96e93d7e117393172aae2d8a571e03ac9c9eb76fac45af8e51";
    "30c81c46a35ce411e5fbc1191a0a52eff69f2445df4f9b17ad2b417be66c3710"]) in
  for_each [
    (0, "bb1d6929e95937287fa37d129b756746"%string);
    (16, "070a16b46b4d4144f79bdd9dd04a287c"%string);
    (40, "dfa66747de9ae63030ca32611497c827"%string);
    (64, "51f0bebf7e3b9d92fc49741779363cfe"%string)] (λ '(n, want),
    op ← unwrap (cmac_begin (Explicit key));
    head ← unwrap (slice_to (E:=Error) data n);
    op ← unwrap (acc_update op head);
    cmac ← unwrap (acc_finish op);
    head ← unwrap (slice_to (E:=Error) cmac 16);
    assert_eq head (hex want)).
Definition test_ckdf : Test unit :=
  key ← unwrap (AesKey_new (replicate 32 (u8_of 0)));
  let v i := replicate 4 (u8_of i) in
  result ← unwrap (ckdf (Explicit key) (bytes_of_string "KeymasterSharedMac") [v 0; v 1; v 2; v 3] 32);
  assert_eq result (hex (concat_hex ["ac9af88a02241f53d43056a4676c42ee"; "f06825755e419e7bd20f4e57487717aa"])).
End macs.

(** ** Ciphers *)

Record GcmTestCase := mk_gcm_case {
  gcm_key : string; gcm_iv : string; gcm_aad : string; gcm_msg : string; gcm_ct : string; gcm_want_tag : string }.
Definition GCM_TESTS : list GcmTestCase := [
   mk_gcm_case "5b9604fe14eadba931b0ccf34843dab9" "028318abc1824029138141a2" EmptyString "001d0c231287c1182784554ca3a21908" "26073cc1d851beff176384dc9896d5ff" "0a3ea7a5487cb5f7d70fb6c58d038554";
   mk_gcm_case "5b9604fe14eadba931b0ccf34843dab9" "921d2507fa8007b7bd067d34" "00112233445566778899aabbccddeeff" "001d0c231287c1182784554ca3a21908" "49d8b9783e911913d87094d1f63cc765" "1e348ba07cca2cf04c618cb4d43a5b92"].
Record DesTestCase := mk_des_case { des_key : string; des_msg : string; des_ct : string }.
Definition DES_TESTS : list DesTestCase := [
   mk_des_case "800000000000000000000000000000000000000000000000" "0000000000000000" "95a8d72813daa94d";
   mk_des_case "000000000000000000000000000000002000000000000000" "0000000000000000" "7ad16ffb79c45926"].

Section ciphers.
Context `{EMIT : EmittingOperation} `{AAD : AadOperation} `{A : !Aes} `{D : !Des}.

(** [update_aad], [update] and [finish], with the output put together. *)
Definition run_aead (op : aad_op) (aad data : bytes) : Test bytes :=
  op ← unwrap (aad_update_aad op aad);
  '(got, op) ← unwrap (aad_update op data);
  rest ← unwrap (aad_finish op);
  Ok (got ++ rest).
Definition gcm_case (t : GcmTestCase) : Test bool :=
  let key := hex (gcm_key t) in
  let iv := hex (gcm_iv t) in
  _ ← assert_eq (len iv) 12;
  let aad := hex (gcm_aad t) in
  let msg := hex (gcm_msg t) in
  let tag := hex (gcm_want_tag t) in
  _ ← assert_eq (len tag) 16;
  aes_key ← unwrap (AesKey_new key);
  op ← unwrap (aes_begin_aead (Explicit aes_key) (GcmTag16 iv) Encrypt);
  got_ct ← run_aead op aad msg;
  _ ← assert_eq (hex (gcm_ct t) ++ tag) got_ct;
  op ← unwrap (aes_begin_aead (Explicit aes_key) (GcmTag16 iv) Decrypt);
  got_pt ← run_aead op aad got_ct;
  _ ← assert_eq msg got_pt;
  (* a truncated tag should still decrypt *)
  match aes_begin_aead (Explicit aes_key) (GcmTag12 iv) Decrypt with
  | Ok op =>
    truncated ← unwrap (slice_to (E:=Error) got_ct (len got_ct - 4));
    got_pt ← run_aead op aad truncated;
    _ ← assert_eq msg got_pt;
    (* corrupted ciphertext should not decrypt *)
    match aes_begin_aead (Explicit aes_key) (GcmTag12 iv) Decrypt with
    | Ok op =>
      op ← unwrap (aad_update_aad op aad);
      let corrupt_ct := alter (λ b, xor8 b (u8_of 1)) 0%nat got_ct in
      '(_, op) ← unwrap (aad_update op corrupt_ct);
      _ ← assert (is_err (aad_finish op));
      Ok true
    | Err _ => Ok false
    | Panic => Panic
    end
  | Err _ => Ok false
  | Panic => Panic
  end.
Definition test_aes_gcm : Test unit := for_until GCM_TESTS gcm_case.

Definition test_des : Test unit :=
  for_each DES_TESTS (λ t,
    let msg := hex (des_msg t) in
    key ← unwrap (DesKey_new (hex (des_key t)));
    op ← unwrap (des_begin (Explicit key) DesEcbNoPadding Encrypt);
    '(got_ct, op) ← unwrap (emit_update op msg);
    rest ← unwrap (emit_finish op);
    let got_ct := got_ct ++ rest in
    _ ← assert_eq (hex (des_ct t)) got_ct;
    op ← unwrap (des_begin (Explicit key) DesEcbNoPadding Decrypt);
    '(got_pt, op) ← unwrap (emit_update op got_ct);
    rest ← unwrap (emit_finish op);
    assert_eq msg (got_pt ++ rest)).
End ciphers.

(** ** Secure deletion, certificates, remote provisioning *)

Section device.
Context `{R : Rng} `{SDM : !SecureDeletionSecretManager} `{SI : RetrieveCertSigningInfo} `{RPC : RetrieveRpcArtifacts}.
#[local] Instance SecureDeletionData_eq_dec : EqDecision SecureDeletionData.
Proof. solve_decision. Defined.

(** The manager and the generator are shared by the calls. *)
Definition test_sdd_mgr (sdd_mgr : sdm_state) (rng : rng_state) : Test unit :=
  match new_secret KeyGeneration (sdd_mgr, rng) with
  | (Ok (slot1, sdd1), (sdd_mgr, rng)) =>
    got ← unwrap (get_secret sdd_mgr slot1);
    _ ← assert_eq got sdd1;
    got ← unwrap (get_secret sdd_mgr slot1);
    _ ← assert_eq got sdd1;
    match new_secret KeyGeneration (sdd_mgr, rng) with
    | (Ok (slot2, sdd2), (sdd_mgr, rng)) =>
      got ← unwrap (get_secret sdd_mgr slot2);
      _ ← assert_eq got sdd2;
      _ ← assert_eq (factory_reset_secret sdd1) (factory_reset_secret sdd2);
      _ ← assert_ne (secure_deletion_secret sdd1) (secure_deletion_secret sdd2);
      let '(deleted, sdd_mgr) := delete_secret slot1 sdd_mgr in
      _ ← assert (is_ok deleted);
      _ ← assert (is_err (get_secret sdd_mgr slot1));
      let '(deleted, sdd_mgr) := delete_secret slot1 sdd_mgr in
      _ ← assert (is_err deleted);
      let '(deleted, sdd_mgr) := delete_secret slot2 sdd_mgr in
      assert (is_ok deleted)
    | _ => Panic
    end
  | _ => Panic
  end.

(** [names]: the subject and the issuer of a certificate, parsed and written again. *)
Fixpoint check_chain (names : bytes → option (bytes * bytes)) (idx : nat) (prev_subject_data : bytes)
    (chain : list Certificate) : Test unit :=
  match chain with
  | [] => Ok tt
  | cert :: chain' =>
    '(subject_data, issuer_data) ← unwrap (ok_or (names (Certificate_encoded_certificate cert)) Der);
    _ ← assert_eq (if decide (idx = 0%nat) then subject_data else prev_subject_data) issuer_data;
    check_chain names (S idx) subject_data chain'
  end.
Definition test_signing_cert_parse (names : bytes → option (bytes * bytes)) (is_strongbox : bool) : Test unit :=
  let avail := if is_strongbox then [Batch; DeviceUnique] else [Batch] in
  for_each avail (λ which,
    for_each [SigningAlgorithm_Ec; SigningAlgorithm_Rsa] (λ algo_hint,
      chain ← unwrap (cert_chain (mk_signing_key_type which algo_hint));
      check_chain names 0 [] (reverse chain))).

Definition test_retrieve_rpc_artifacts : Test unit :=
  _ ← assert (is_ok (rpc_get_dice_info false));
  let context := bytes_of_string "abcdef" in
  data1 ← unwrap (derive_bytes_from_hbk context 16);
  data2 ← unwrap (derive_bytes_from_hbk context 16);
  _ ← assert_eq data1 data2;
  data1 ← unwrap (rpc_compute_hmac_sha256 context);
  data2 ← unwrap (rpc_compute_hmac_sha256 context);
  assert_eq data1 data2.
End device.

(** ** The [boringssl] crate *)

Module BoringTests.
#[local] Existing Instances Libcrypto.symm Libcrypto.macs Libcrypto.basics.
#[local] Existing Instances boring_acc boring_emit boring_aad BoringRng BoringEq BoringSha256 BoringHmac BoringAesCmac BoringAes BoringDes.
Section boring.
Context `{Tgt : Target} `{BE : BsslErrors} `{OK : !OpensslKeys (H:=Libcrypto.basics)} `{P1 : Pkcs1}.

Lemma boring_rng : passes (test_rng 0%nat) = true.
Proof. vm_compute. reflexivity. Qed.
Lemma boring_eq : passes test_eq = true.
Proof. vm_compute. reflexivity. Qed.
Lemma boring_sha256 : passes test_sha256 = true.
Proof. vm_compute. reflexivity. Qed.
Lemma boring_hkdf : passes test_hkdf = true.
Proof. vm_compute. reflexivity. Qed.
Lemma boring_hmac : passes test_hmac = true.
Proof. vm_compute. reflexivity. Qed.
Lemma boring_aes_cmac : passes test_aes_cmac = true.
Proof. vm_compute. reflexivity. Qed.
Lemma boring_ckdf : passes test_ckdf = true.
Proof. vm_compute. reflexivity. Qed.
Lemma boring_aes_gcm : passes test_aes_gcm = true.
Proof. vm_compute. reflexivity. Qed.
Lemma boring_des : passes test_des = true.
Proof. vm_compute. reflexivity. Qed.

(** The tests of the crate, in the order of its file. *)
Definition boring_tests : list (Test unit) :=
  [test_rng 0%nat; test_eq; test_hkdf; test_hmac; test_aes_cmac; test_ckdf; test_aes_gcm; test_des; test_sha256].
Lemma passes_Ok (t : Test unit) : passes t = true → t = Ok tt.
Proof. by destruct t as [[]| |]. Qed.
(** On every target, and whatever the library's error codes and its asymmetric keys are, the crate
    passes its tests when the library computes the algorithms of the standards. *)
Theorem boring_tests_pass : Forall (λ t, t = Ok tt) boring_tests.
Proof.
  unfold boring_tests. repeat (apply Forall_cons; split; [apply passes_Ok|]); [..|by apply Forall_nil].
  - apply boring_rng.
  - apply boring_eq.
  - apply boring_hkdf.
  - apply boring_hmac.
  - apply boring_aes_cmac.
  - apply boring_ckdf.
  - apply boring_aes_gcm.
  - apply boring_des.
  - apply boring_sha256.
Qed.
End boring.
End BoringTests.

(** ** Key blobs with these implementations *)

Module KeyblobTests.
#[local] Existing Instances Libcrypto.symm Libcrypto.macs Libcrypto.basics.
#[local] Existing Instances boring_acc boring_emit boring_aad BoringRng BoringEq BoringHmac BoringAes.
#[local] Existing Instances Rfc8949.codec SampleCose.coset InMemory.InMemorySDM Hkdf_for_Hmac.
#[local] Instance OpaqueOr_eq_dec {A} `{EqDecision A} : EqDecision (OpaqueOr A).
Proof. solve_decision. Defined.
#[local] Instance AesKey_eq_dec : EqDecision AesKey.
Proof. solve_decision. Defined.
#[local] Instance EcKey_eq_dec : EqDecision EcKey.
Proof. solve_decision. Defined.
#[local] Instance KeyMaterial_eq_dec : EqDecision KeyMaterial.
Proof. solve_decision. Defined.
#[local] Instance PlaintextKeyBlob_eq_dec : EqDecision PlaintextKeyBlob.
Proof. solve_decision. Defined.
#[local] Instance LegacyKeyBlob_eq_dec : EqDecision LegacyKeyBlob.
Proof. solve_decision. Defined.

Section boring.
Context `{BE : BsslErrors} `{OK : !OpensslKeys (H:=Libcrypto.basics)} `{P1 : Pkcs1}.
#[local] Instance tgt : Target := arm64.

Definition plaintext_keyblob : PlaintextKeyBlob := {|
  characteristics := [{| security_level := SecurityLevel_TrustedEnvironment;
    authorizations := [KP_Algorithm Algorithm_Aes; KP_BlockMode BlockMode_Ecb; KP_Padding PaddingMode_None] |}];
  key_material := KM_Aes (Explicit (AesKey128 (replicate 16 (u8_of 0))))
|}.
Definition blob_hidden : list KeyParam :=
  [KP_ApplicationId (bytes_of_string "app_id"); KP_ApplicationData (bytes_of_string "app_data")].
Definition test_encrypted_keyblob_roundtrip : Test unit :=
  let '(root_key, rng) := fill_bytes 32 0%nat in
  let root_key := Explicit root_key in
  encrypted_keyblob ← unwrap (encrypt SecurityLevel_TrustedEnvironment root_key [] plaintext_keyblob blob_hidden
                                KeyGeneration (None, rng)).1;
  recovered_keyblob ← unwrap (decrypt None root_key encrypted_keyblob blob_hidden);
  assert_eq plaintext_keyblob recovered_keyblob.

(** Put the right MAC at the end of the data. *)
Definition fix_hmac (data : bytes) (hidden : list KeyParam) : Test bytes :=
  let mac_offset := len data - MAC_LEN in
  head ← unwrap (slice_to (E:=Error) data mac_offset);
  mac ← unwrap (compute_hmac head hidden);
  Ok (head ++ mac).
Definition legacy_hex (version bonus : string) : string :=
  concat_hex [version; "02000000"; "bbbb"; UnitTests.KeyblobTests.empty_params; UnitTests.KeyblobTests.empty_params;
              bonus; "0000000000000000"].
Definition legacy_hidden : Test (list KeyParam) := unwrap (KeyblobLegacy.hidden [] [bytes_of_string "SW"]).
Definition test_serialize_authenticated_legacy_keyblob : Test unit :=
  hidden ← legacy_hidden;
  let data := hex (legacy_hex "00" EmptyString) in
  let want := mk_keyblob (hex "bbbb") [] [] in
  (* a key blob cannot be deserialized without a correct MAC *)
  _ ← assert (fails_with (LegacyKeyBlob_deserialize data hidden) InvalidKeyBlob);
  data ← fix_hmac data hidden;
  got ← unwrap (LegacyKeyBlob_deserialize data hidden);
  _ ← assert_eq got want;
  new_data ← unwrap (LegacyKeyBlob_serialize got hidden);
  assert_eq new_data data.
Definition test_deserialize_authenticated_legacy_keyblob_fail : Test unit :=
  hidden ← legacy_hidden;
  for_each [legacy_hex "02" EmptyString; legacy_hex "00" "00"] (λ hex_data,
    data ← fix_hmac (hex hex_data) hidden;
    assert (fails_with (LegacyKeyBlob_deserialize data hidden) InvalidKeyBlob)).
Definition test_deserialize_authenticated_legacy_keyblob_truncated : Test unit :=
  hidden ← legacy_hidden;
  data ← fix_hmac (hex (legacy_hex "00" EmptyString)) hidden;
  _ ← assert (is_ok (LegacyKeyBlob_deserialize data hidden));
  for_each (seq 0 (length data - 1)) (λ n, assert (is_err (LegacyKeyBlob_deserialize (take n data) hidden))).

Lemma keyblob_roundtrip_passes : passes test_encrypted_keyblob_roundtrip = true.
Proof. vm_compute. reflexivity. Qed.
(** The in-memory manager of secure deletion secrets. *)
Lemma sdd_mgr_passes : passes (test_sdd_mgr (InMemory.default_mgr 10) 0%nat) = true.
Proof. vm_compute. reflexivity. Qed.
Lemma legacy_keyblob_passes :
  passes test_serialize_authenticated_legacy_keyblob && passes test_deserialize_authenticated_legacy_keyblob_fail &&
  passes test_deserialize_authenticated_legacy_keyblob_truncated = true.
Proof. vm_compute. reflexivity. Qed.
End boring.
End KeyblobTests.
